(* ===== verification/_CoqProject ===== *)
-Q . S2P
Prelude.v
Timer.v
TimerProofs.v
CString.v
DhcpOptions.v
DhcpOptionsProofs.v
DhcpLeases.v
DhcpLeasesProofs.v
MacIp.v
DhcpPacket.v
DhcpPacketProofs.v
DhcpServer.v
DhcpServerProofs.v
DhcpFiles.v
DhcpFilesProofs.v
DhcpDaemon.v
DhcpDaemonProofs.v
DhcpClient.v
DhcpClientProofs.v
Bcmutils.v
BcmutilsProofs.v
NvramDrv.v
NvramDrvProofs.v
NvramDevProofs.v
Nvram.v
NvramProofs.v
Vars.v
VarsProofs.v
TextProofs.v
Nvparse.v
NvparseProofs.v
ConvertProofs.v
Validate.v
ValidateProofs.v
Http.v
HttpProofs.v
Cgi.v
CgiProofs.v
Ej.v
Pages.v
EjProofs.v
Forward.v
ForwardProofs.v
Routes.v
RoutesProofs.v
Apply.v
ApplyProofs.v
LeasePages.v
Site.v
SiteProofs.v
Crc.v
CrcProofs.v
LeasePagesProofs.v
