(* ===== verification/Prelude.v ===== *)
(** * Verification of the WAG354G router firmware

    The firmware is a Linux 2.4 system for a little-endian MIPS board. Its own
    code, apart from the vendored kernel and programs, is a set of user
    processes (DHCP server, web server, configuration tools) around a store of
    configuration variables, the NVRAM, which a kernel driver keeps in a flash
    partition. This library models the parts below from their C sources under
    src/ and proves what makes them correct. The configuration is that of
    src/cy_conf.h; code it switches off is not modelled.

    ** How C becomes Rocq

    This file holds the conventions. A function that can leave the normal path
    returns an [outcome]: [Ret], [Exit], [Fault] (the language gives the access
    no meaning) or [Running] (the fuel of a loop is used up). Machine integers
    are [Z] with their wrap-around written out ([u8], [u32], [s32]); [char] is
    signed. CString.v has the C library on text. Globals and statics of a
    component are a Record that its operations take and return. Loops that are
    not structural carry fuel, computed from the input by the function that
    starts them (the length of a buffer or queue plus one, or the size of an
    address range); the termination theorems show that it is never used up.
    Code that is not under src/ (kernel services, flash, network, clock) is a
    class whose fields are the functions the code calls and, where a theorem
    needs them, the documented laws; every law has an instance.

    ** Components, files and sources

    - Timer.v, TimerProofs.v: the interval timer queue of
      router/shared/linux_timer.c, events linked by deltas in a pool.
    - DhcpOptions.v, DhcpOptionsProofs.v: messages and options
      (router/udhcpd/options.c, packet.h).
    - DhcpLeases.v, DhcpLeasesProofs.v: state of the server and lease table
      (leases.c, dhcpd.h).
    - MacIp.v: reservations and the shared WAN address (macip.c).
    - DhcpPacket.v, DhcpPacketProofs.v: the wire (packet.c).
    - DhcpServer.v, DhcpServerProofs.v: replies (serverpacket.c, [Module Reply])
      and the dispatch of messages (dhcpd.c, [Module Dispatch]).
    - DhcpFiles.v, DhcpFilesProofs.v: configuration and lease files (files.c).
    - DhcpDaemon.v, DhcpDaemonProofs.v: the process as a transition system over
      packets, signals and timeouts (dhcpd.c).
    - Bcmutils.v, BcmutilsProofs.v: checksums and parsing in the driver
      (ti_sangam/bcmutils.c).
    - NvramDrv.v, NvramDrvProofs.v, NvramDevProofs.v: the variable table
      ([Module Drv]) and the device with its flash image ([Module Dev];
      ti_sangam/nvram.c, nvram_linux.c).
    - Nvram.v, NvramProofs.v: the library ([Module Lib]), the storage of files in
      variables ([Module Codec]) and the command ([Module Cli]) of router/nvram.
    - Http.v, HttpProofs.v: the web server (router/httpd/httpd.c, the handler
      table and do_auth of router/shared/broadcom.c).
    - Cgi.v, CgiProofs.v: form data (router/httpd/cgi.c, the handlers of
      apply.cgi in broadcom.c).
    - DhcpClient.v, DhcpClientProofs.v: the DHCP client, its messages and frames
      ([Module ClientPacket], clientpacket.c) and the state machine of its loop
      ([Module Client], dhcpc.c).
    - Ej.v, Pages.v, EjProofs.v: the template engine of the web pages
      (router/httpd/ej.c, for any table of handlers) and its general handlers
      (router/shared/broadcom.c).
    - Vars.v, VarsProofs.v: the variables as a process above the library sees them,
      a table and the text in the static buffer of nvram_get, and the proof that
      library and driver behave this way.
    - Nvparse.v, TextProofs.v, NvparseProofs.v, ConvertProofs.v: the firewall rules
      kept in variables and the conversion of older ones at boot
      (router/shared/nvparse.c).
    - Validate.v, ValidateProofs.v: the general validators of form fields and the
      loop over the table of variables (router/shared/broadcom.c).
    - Forward.v, ForwardProofs.v: names with entities ([Module Names],
      router/shared/lib.c) and the pages that forward ports ([Module Forward],
      forward.c): ranges, triggers and single ports, validator and handler each.
    - Routes.v, RoutesProofs.v: static routes, their words and the table of the
      kernel (static_route.c).
    - Apply.v, ApplyProofs.v: the actions of a form (apply_cgi and gozila_cgi of
      router/shared/broadcom.c) with their tables; effects are recorded in order.
    - LeasePages.v, LeasePagesProofs.v: the DHCP pages (router/shared/dhcp.c), which
      share two files with the server.
    - Site.v, SiteProofs.v: the whole table of validate_cgi with the pages above, the
      validators of the operating mode and of RIP (dynamic_route.c), as an instance
      of the interface of Apply.v; whole requests.
    - Crc.v, CrcProofs.v: the checksums of frames and headers (rts/src/crc.c,
      include/rts/crc.h).

    ** What the theorems show

    - Timer: arming inserts at the right expiry and keeps the others; the alarm
      handler removes what expired; cancelling is shown to shift later timers,
      and arming a queued timer to end the process.
    - DHCP: the option search ends, stays in its field and finds what the writers
      wrote, through overloaded fields where the code takes their value right; an
      offer is of the address and for the time the configuration asks for; the lease
      table implements a map of bindings without duplicates; addresses handed out are free; answers to REQUEST name only the address
      held for the client; frames have valid checksums; lease file and options
      come back; the process keeps its invariant under every sequence of events.
    - NVRAM: the table implements a finite map; a commit of variables that fit the
      image survives a reboot and leaves the rest of the flash alone; the driver is
      safe for any flash contents and requests with terminated texts; the library
      reads what was set (with the exceptions stated); locks protect where the list is loaded; checksums equal the
      division by their polynomials.
    - Web: nothing is served without the configured password; a right login
      succeeds after a bounded number of refusals; names cannot leave the tree;
      patterns mean what shell patterns mean; legible requests are worked off, by
      the HTTPS server as long as no connection ends with an error; forms and
      credentials are decoded as they were encoded.
    - DHCP client: frames of the server's code are read back; the messages fit
      their buffer; an interface is configured only from an acknowledgement of the
      client's own request; a lease that is not renewed is given up before it ends.
    - Pages: a page is rendered as the composition of its texts and calls; arguments
      hold no format directives; values of variables bring no markup, the release
      date apart.
    - Rules: what is stored is read back, with the network the router has at that
      time; a rule that is refused changes nothing; the search for a free number and
      the conversion at boot end, and leave none of the older variables.
    - Validators: masks are contiguous, hardware addresses have their form; the
      general validators let only values that pass the test of their entry reach a
      variable, router_name apart; forms of the right size overflow none of their
      buffers.
    - Port forwarding and routes: what the pages store they show again, row by row;
      numbered variables implement a list; a route is kept only when the kernel has
      it, in its own place.
    - Actions: read-only users change nothing; an applied form is validated, then
      committed, then made effective; functions of pages and reboots come only from
      the tables and from the words the form needs for them.
    - Requests: a static route goes from the form of its page through the whole table
      and the kernel to the flash, or is refused without a trace in the variables.
    - Frames: headers and frames with their check sums pass the receiver's test.
    - DHCP pages: what the server has is shown, what is marked is deleted by the
      server; reservations are stored in their form.

    ** Not modelled

    Sockets, files and commands beyond their results; the other web pages and
    their validators in router/shared (wireless, ipsec, access restrictions, QoS,
    status), which the table of validate_cgi and the actions of apply.cgi call as
    parameters; router/rc (sequences of commands for other programs); the iptables
    bindings of router/netconf; HTTPS transport, apart from the end of a connection
    with an error; copies between the driver and a process that fail; the vendored kernel, busybox, zebra, freeswan, pppd and the like.
    Interrupts and signals are taken between operations, where the code blocks
    them or only sets flags. *)

From Stdlib Require Import ZArith Lia.
From stdpp Require Import base numbers strings gmap list.

(** ** Outcomes of C code

    A C function that may leave the normal control flow returns an [outcome]:
    a value, a call of [exit] (or a failed [assert]), an access the language
    leaves undefined (a NULL or out-of-range dereference, a division by zero),
    or the exhaustion of the fuel of a loop, read as "the loop is still
    running". *)
Inductive outcome (A : Type) : Type :=
  | Ret (a : A)
  | Exit (code : Z)
  | Fault
  | Running.
Arguments Ret {A} _.
Arguments Exit {A} _.
Arguments Fault {A}.
Arguments Running {A}.

#[global] Instance outcome_ret : MRet outcome := fun A a => Ret a.
#[global] Instance outcome_bind : MBind outcome :=
  fun A B f m =>
    match m with
    | Ret a => f a
    | Exit c => Exit c
    | Fault => Fault
    | Running => Running
    end.

#[global] Instance outcome_eq_dec {A} `{EqDecision A} : EqDecision (outcome A).
Proof. solve_decision. Defined.

(** Reading an optional cell: an absent cell is an undefined access. *)
Definition deref {A} (o : option A) : outcome A :=
  match o with Some a => Ret a | None => Fault end.

Lemma bind_Ret_inv {A B} (m : outcome A) (f : A → outcome B) b :
  m ≫= f = Ret b → ∃ a, m = Ret a ∧ f a = Ret b.
Proof. destruct m; simpl; intros; try discriminate. eauto. Qed.

Lemma deref_Ret_inv {A} (o : option A) a : deref o = Ret a → o = Some a.
Proof. destruct o; simpl; congruence. Qed.

(** ** Machine integers

    A w-bit C integer is a [Z]; the wrap-around of an operation is written at
    the place where the code can overflow. The target is a little-endian MIPS
    (mipsel), so [htonl]/[ntohl] swap the bytes. *)
Declare Scope wag_scope.
Delimit Scope wag_scope with wag.
Open Scope Z_scope.

Definition u8 (x : Z) : Z := x mod 2 ^ 8.
Definition u16 (x : Z) : Z := x mod 2 ^ 16.
Definition u32 (x : Z) : Z := x mod 2 ^ 32.
Definition s8 (x : Z) : Z := (x + 2 ^ 7) mod 2 ^ 8 - 2 ^ 7.
Definition s32 (x : Z) : Z := (x + 2 ^ 31) mod 2 ^ 32 - 2 ^ 31.

Definition is_u8 (x : Z) : Prop := 0 <= x < 2 ^ 8.
Definition is_u16 (x : Z) : Prop := 0 <= x < 2 ^ 16.
Definition is_u32 (x : Z) : Prop := 0 <= x < 2 ^ 32.
Definition is_s32 (x : Z) : Prop := - 2 ^ 31 <= x < 2 ^ 31.

(** Byte [i] of a word, counted from the least significant one. *)
Definition byte_at (x : Z) (i : Z) : Z := Z.land (Z.shiftr x (8 * i)) 255.

Definition word4 (b0 b1 b2 b3 : Z) : Z :=
  b0 + b1 * 2 ^ 8 + b2 * 2 ^ 16 + b3 * 2 ^ 24.

Definition bswap32 (x : Z) : Z :=
  word4 (byte_at x 3) (byte_at x 2) (byte_at x 1) (byte_at x 0).
Definition htonl (x : Z) : Z := bswap32 x.
Definition ntohl (x : Z) : Z := bswap32 x.
Definition htons (x : Z) : Z := byte_at x 1 + byte_at x 0 * 2 ^ 8.
Definition ntohs (x : Z) : Z := htons x.

(** The four bytes of a [u_int32_t] object in memory, and back ([memcpy] of
    four bytes into or out of a [u_int32_t]). *)
Definition mem_of_u32 (x : Z) : list Z :=
  [byte_at x 0; byte_at x 1; byte_at x 2; byte_at x 3].
Definition u32_of_mem (l : list Z) : Z :=
  word4 (l !!! 0%nat) (l !!! 1%nat) (l !!! 2%nat) (l !!! 3%nat).

Lemma byte_at_div x i : 0 <= i -> byte_at x i = (x / 2 ^ (8 * i)) mod 2 ^ 8.
Proof.
  intros Hi. unfold byte_at. rewrite Z.shiftr_div_pow2 by lia.
  change 255 with (Z.ones 8). by rewrite Z.land_ones by lia.
Qed.

Lemma byte_at_range x i : 0 <= byte_at x i < 2 ^ 8.
Proof.
  unfold byte_at. change 255 with (Z.ones 8).
  rewrite Z.land_ones by lia. apply Z.mod_pos_bound. lia.
Qed.

Lemma word4_range b0 b1 b2 b3 :
  is_u8 b0 -> is_u8 b1 -> is_u8 b2 -> is_u8 b3 -> is_u32 (word4 b0 b1 b2 b3).
Proof. unfold is_u8, is_u32, word4. lia. Qed.

(** Evaluate the powers of two the byte lemmas produce. *)
Ltac word_consts :=
  change (2 ^ (8 * 0)) with 1 in *; change (2 ^ (8 * 1)) with 256 in *;
  change (2 ^ (8 * 2)) with 65536 in *; change (2 ^ (8 * 3)) with 16777216 in *;
  change (2 ^ 8) with 256 in *; change (2 ^ 16) with 65536 in *;
  change (2 ^ 24) with 16777216 in *; change (2 ^ 32) with 4294967296 in *.

Lemma byte_at_word4 b0 b1 b2 b3 :
  is_u8 b0 -> is_u8 b1 -> is_u8 b2 -> is_u8 b3 ->
  byte_at (word4 b0 b1 b2 b3) 0 = b0 /\ byte_at (word4 b0 b1 b2 b3) 1 = b1 /\
  byte_at (word4 b0 b1 b2 b3) 2 = b2 /\ byte_at (word4 b0 b1 b2 b3) 3 = b3.
Proof.
  unfold is_u8, word4. intros.
  rewrite !byte_at_div by lia. word_consts.
  repeat split; Z.to_euclidean_division_equations; lia.
Qed.

Lemma word4_byte_at x : is_u32 x ->
  word4 (byte_at x 0) (byte_at x 1) (byte_at x 2) (byte_at x 3) = x.
Proof.
  unfold is_u32, word4. intros. rewrite !byte_at_div by lia. word_consts.
  Z.to_euclidean_division_equations; lia.
Qed.

Lemma bswap32_range x : is_u32 (bswap32 x).
Proof. apply word4_range; apply byte_at_range. Qed.

Lemma bswap32_involutive x : is_u32 x -> bswap32 (bswap32 x) = x.
Proof.
  intros Hx. unfold bswap32 at 1.
  destruct (byte_at_word4 (byte_at x 3) (byte_at x 2) (byte_at x 1) (byte_at x 0))
    as (E0 & E1 & E2 & E3); try apply byte_at_range.
  unfold bswap32. rewrite E0, E1, E2, E3. by apply word4_byte_at.
Qed.

Lemma bswap32_inj x y : is_u32 x -> is_u32 y -> bswap32 x = bswap32 y -> x = y.
Proof.
  intros Hx Hy E. rewrite <- (bswap32_involutive x), <- (bswap32_involutive y) by done.
  by rewrite E.
Qed.

Lemma u32_mem_roundtrip x : is_u32 x -> u32_of_mem (mem_of_u32 x) = x.
Proof. apply word4_byte_at. Qed.

Lemma u32_small x : is_u32 x -> u32 x = x.
Proof. apply Z.mod_small. Qed.

Lemma u32_range x : is_u32 (u32 x).
Proof. apply Z.mod_pos_bound. lia. Qed.

Lemma u8_range x : is_u8 (u8 x).
Proof. apply Z.mod_pos_bound. lia. Qed.

Lemma s32_small x : is_s32 x -> s32 x = x.
Proof. unfold is_s32, s32. intros. rewrite Z.mod_small; lia. Qed.

(** ** First index of a list satisfying a test *)

Fixpoint find_index {A} (p : A -> bool) (l : list A) : option nat :=
  match l with
  | [] => None
  | x :: l' => if p x then Some 0%nat else S <$> find_index p l'
  end.

Lemma find_index_Some {A} (p : A -> bool) l i :
  find_index p l = Some i ->
  exists x, l !! i = Some x /\ p x = true.
Proof.
  revert i; induction l as [|y l IH]; simpl; intros i H; [done|].
  destruct (p y) eqn:E; [simplify_eq; eauto|].
  destruct (find_index p l) as [k|]; simplify_eq/=. eauto.
Qed.

Lemma find_index_first {A} (p : A -> bool) l i j x :
  find_index p l = Some i -> (j < i)%nat -> l !! j = Some x -> p x = false.
Proof.
  revert i j; induction l as [|y l IH]; simpl; intros i j H Hj Hx; [done|].
  destruct (p y) eqn:E; [simplify_eq; lia|].
  destruct (find_index p l) as [k|]; simplify_eq/=.
  destruct j as [|j]; simplify_eq/=; [done|]. eapply (IH k j); eauto. lia.
Qed.

Lemma find_index_None {A} (p : A -> bool) l :
  find_index p l = None <-> forall x, x ∈ l -> p x = false.
Proof.
  induction l as [|y l IH]; simpl.
  - split; [intros _ x Hx; by apply elem_of_nil in Hx|done].
  - destruct (p y) eqn:E; split; intros H.
    + done.
    + rewrite (H y) in E; [done|by left].
    + intros x Hx. apply elem_of_cons in Hx as [->|Hx]; [done|].
      apply IH; [by destruct (find_index p l)|done].
    + destruct IH as [_ IH]. rewrite IH; [done|]. intros. apply H. by right.
Qed.

(** ** Automation

    [wag] is the hint database of the development; [wag_simpl] normalises
    monadic goals and hypotheses, [mono] inverts a monadic computation that
    returned. *)
Create HintDb wag.
#[export] Hint Resolve u32_range u8_range bswap32_range byte_at_range : wag.
Create Rewrite HintDb wag_len.
#[export] Hint Rewrite @length_insert @length_replicate @length_app @length_take
  @length_drop @length_fmap : wag_len.

Ltac mono :=
  repeat match goal with
  | H : _ ≫= _ = Ret _ |- _ =>
      let a := fresh "v" in let H1 := fresh "E" in
      apply bind_Ret_inv in H as (a & H1 & H)
  | H : deref _ = Ret _ |- _ => apply deref_Ret_inv in H
  | H : Ret _ = Ret _ |- _ => injection H as H; subst
  | H : mret _ = Ret _ |- _ => unfold mret, outcome_ret in H
  | H : Exit _ = Ret _ |- _ => discriminate
  | H : Fault = Ret _ |- _ => discriminate
  | H : Running = Ret _ |- _ => discriminate
  end.

Ltac case_if :=
  match goal with
  | |- context [if ?b then _ else _] => destruct b eqn:?
  | H : context [if ?b then _ else _] |- _ => destruct b eqn:?
  end.

(** [NoDup] of a literal list. *)
Ltac nodup_concrete :=
  repeat (apply NoDup_cons; split; [set_solver|]); apply NoDup_nil_2.

(** Lists of bytes, decided by evaluation. *)
Definition all_u8 (l : list Z) : bool := forallb (fun b => (0 <=? b) && (b <? 256)) l.

Lemma all_u8_ok l : all_u8 l = true -> Forall is_u8 l.
Proof.
  unfold all_u8. rewrite forallb_forall. intros H. apply Forall_forall.
  intros b Hb. apply list_elem_of_In in Hb. apply H in Hb.
  apply andb_true_iff in Hb as [H1 H2]. unfold is_u8. word_consts.
  apply Z.leb_le in H1. apply Z.ltb_lt in H2. lia.
Qed.
