(* ===== verification/Timer.v ===== *)
(** * The low resolution timer module (src/router/shared/linux_timer.c)

    POSIX-like timers multiplexed on the single interval timer of the process.
    Pending events sit on a linked list whose [it_value] fields are deltas: an
    event expires when the deltas up to and including its own have elapsed.

    The event structures are an array allocated once by [init_event_queue]; a
    pointer to one is its index and NULL is [None]. [next] fields and the two
    list heads are kept as pointers, so the model has the aliasing of the code:
    an event linked twice makes the list cyclic here as it does in memory. *)

From Stdlib Require Import ZArith Lia.
From stdpp Require Import base numbers sets list.
From S2P Require Import Prelude.
Open Scope Z_scope.

Module Timer.

(** ** struct timeval and the macros of <sys/time.h> *)

Record timeval := TV { tv_sec : Z; tv_usec : Z }.
#[global] Instance timeval_eq_dec : EqDecision timeval.
Proof. solve_decision. Defined.

Definition US_PER_SEC : Z := 1000000.

Definition timerisset (t : timeval) : bool :=
  negb (tv_sec t =? 0) || negb (tv_usec t =? 0).

Definition timer_lt (a b : timeval) : bool :=
  if tv_sec a =? tv_sec b then tv_usec a <? tv_usec b else tv_sec a <? tv_sec b.

Definition timer_gt (a b : timeval) : bool := timer_lt b a.

Definition timersub (a b : timeval) : timeval :=
  let sec := s32 (tv_sec a - tv_sec b) in
  let usec := s32 (tv_usec a - tv_usec b) in
  if usec <? 0 then TV (s32 (sec - 1)) (usec + 1000000) else TV sec usec.

Definition timeradd (a b : timeval) : timeval :=
  let sec := s32 (tv_sec a + tv_sec b) in
  let usec := s32 (tv_usec a + tv_usec b) in
  if 1000000 <=? usec then TV (s32 (sec + 1)) (usec - 1000000) else TV sec usec.

Record timespec := TS { ts_sec : Z; ts_nsec : Z }.

(** TIMESPEC_TO_TIMEVAL *)
Definition timespec_to_timeval (ts : timespec) : timeval :=
  TV (ts_sec ts) (Z.quot (ts_nsec ts) 1000).

(** ROUNDUP, in the unsigned arithmetic [g_granularity] imposes. *)
Definition ROUNDUP (x y : Z) : Z := u32 (u32 (x + y - 1) / y * y).

(** timerroundup; a zero granularity divides by zero. *)
Definition timerroundup (t : timeval) (g : Z) : outcome timeval :=
  let t1 := if timerisset t then t else TV (tv_sec t) 1 in
  if tv_sec t1 =? 0 then
    if g =? 0 then Fault else Ret (TV (tv_sec t1) (ROUNDUP (tv_usec t1) g))
  else Ret t1.

(** ** Events and the state of the module *)

Definition TFLAG_NONE : Z := 0.
Definition TFLAG_CANCELLED : Z := 1.
Definition TFLAG_DELETED : Z := 2.

Record event := Event {
  it_interval : timeval;
  it_value : timeval;
  func : option nat;
  arg : Z;
  flags : Z;
  next : option nat
}.

Definition zero_event : event := Event (TV 0 0) (TV 0 0) None 0 0 None.

Definition set_interval (v : timeval) (e : event) : event :=
  Event v (it_value e) (func e) (arg e) (flags e) (next e).
Definition set_value (v : timeval) (e : event) : event :=
  Event (it_interval e) v (func e) (arg e) (flags e) (next e).
Definition set_func (f : option nat) (a : Z) (e : event) : event :=
  Event (it_interval e) (it_value e) f a (flags e) (next e).
Definition set_flags (fl : Z) (e : event) : event :=
  Event (it_interval e) (it_value e) (func e) (arg e) fl (next e).
Definition set_next (n : option nat) (e : event) : event :=
  Event (it_interval e) (it_value e) (func e) (arg e) (flags e) n.

(** [itimer] is the value last given to [setitimer(ITIMER_REAL)], [blocked]
    whether SIGALRM is in the signal mask. *)
Record tstate := TState {
  heap : list event;
  event_queue : option nat;
  event_freelist : option nat;
  g_granularity : Z;
  g_maxevents : nat;
  block_count : Z;
  blocked : bool;
  itimer : timeval
}.

Definition with_heap (h : list event) (s : tstate) : tstate :=
  TState h (event_queue s) (event_freelist s) (g_granularity s) (g_maxevents s)
    (block_count s) (blocked s) (itimer s).
Definition with_queue (q : option nat) (s : tstate) : tstate :=
  TState (heap s) q (event_freelist s) (g_granularity s) (g_maxevents s)
    (block_count s) (blocked s) (itimer s).
Definition with_freelist (q : option nat) (s : tstate) : tstate :=
  TState (heap s) (event_queue s) q (g_granularity s) (g_maxevents s)
    (block_count s) (blocked s) (itimer s).
Definition with_block (n : Z) (b : bool) (s : tstate) : tstate :=
  TState (heap s) (event_queue s) (event_freelist s) (g_granularity s)
    (g_maxevents s) n b (itimer s).
Definition setitimer (v : timeval) (s : tstate) : tstate :=
  TState (heap s) (event_queue s) (event_freelist s) (g_granularity s)
    (g_maxevents s) (block_count s) (blocked s) v.

Definition update (i : nat) (f : event -> event) (s : tstate) : tstate :=
  with_heap (alter f i (heap s)) s.

Definition get (s : tstate) (i : nat) : outcome event := deref (heap s !! i).

(** A [struct event **]: the queue head or the [next] field of an event. *)
Inductive ploc := PQueue | PNext (i : nat).

Definition load (s : tstate) (p : ploc) : outcome (option nat) :=
  match p with
  | PQueue => Ret (event_queue s)
  | PNext i => e ← get s i; Ret (next e)
  end.

Definition store (s : tstate) (p : ploc) (v : option nat) : tstate :=
  match p with
  | PQueue => with_queue v s
  | PNext i => update i (set_next v) s
  end.

(** A failed [assert] aborts the process. *)
Definition assert_ (b : bool) {A} (k : outcome A) : outcome A :=
  if b then k else Exit 134.

(** ** init_event_queue

    [n] structures chained on the free list; [gran] is the interval the kernel
    reports back after being asked for one microsecond. *)
Definition init_event (n i : nat) : event :=
  set_next (if (i <? n - 1)%nat then Some (S i) else None) zero_event.

Definition init_event_queue (n : nat) (gran : Z) (s : tstate) : outcome tstate :=
  match n with
  | O => Fault
  | _ =>
      Ret (TState (init_event n <$> seq 0 n) (event_queue s) (Some 0%nat) gran n
             (block_count s) (blocked s) (TV 0 0))
  end.

(** ** Signal blocking *)

Definition block_timer (s : tstate) : tstate :=
  with_block (block_count s + 1) (if block_count s =? 0 then true else blocked s) s.

Definition unblock_timer (s : tstate) : tstate :=
  let c := block_count s - 1 in
  with_block c (if c =? 0 then false else blocked s) s.

(** ** check_event_queue: exits when the list has more than [g_maxevents + 1]
    links. *)
Fixpoint check_walk (k : nat) (s : tstate) (p : option nat) : outcome unit :=
  match p with
  | None => Ret tt
  | Some i =>
      match k with
      | O => Exit 1
      | S k' => e ← get s i; check_walk k' s (next e)
      end
  end.

Definition check_event_queue (s : tstate) : outcome unit :=
  check_walk (S (g_maxevents s)) s (event_queue s).

(** ** timer_create *)
Definition timer_create (s : tstate) : outcome (tstate * nat) :=
  match event_freelist s with
  | None => Exit 134
  | Some i =>
      e ← get s i;
      let s := update i (set_flags TFLAG_NONE) s in
      let s := with_freelist (next e) s in
      let s := update i (set_next None) s in
      _ ← check_event_queue s;
      Ret (s, i)
  end.

(** ** timer_connect *)
Definition timer_connect (s : tstate) (i : nat) (routine : option nat) (a : Z)
    : outcome (tstate * Z) :=
  e ← get s i;
  match routine with
  | None => Exit 134
  | Some _ => Ret (update i (set_func routine a) s, 0)
  end.

(** ** The insertion loop shared by timer_settime and alarm_handler

    March down the list, decrementing the new timer by the value of each event
    passed; stop in front of the first event that expires later and take the
    new timer's delta out of it. *)
Fixpoint march (fuel : nat) (s : tstate) (id : nat) (pp : ploc)
    : outcome (tstate * ploc) :=
  match fuel with
  | O => Running
  | S fuel =>
      cur ← load s pp;
      match cur with
      | None => Ret (s, pp)
      | Some k =>
          e ← get s id;
          ek ← get s k;
          if timer_lt (it_value e) (it_value ek) then
            Ret (update k (set_value (timersub (it_value ek) (it_value e))) s, pp)
          else
            march fuel (update id (set_value (timersub (it_value e) (it_value ek))) s)
              id (PNext k)
      end
  end.

(** [event->next = *ppevent; *ppevent = event;] *)
Definition link (s : tstate) (id : nat) (pp : ploc) : outcome tstate :=
  cur ← load s pp;
  Ret (store (update id (set_next cur) s) pp (Some id)).

(** A list without a cycle has at most one link per structure. *)
Definition queue_fuel (s : tstate) : nat := S (length (heap s)).

Definition insert_event (s : tstate) (id : nat) : outcome tstate :=
  '(s, pp) ← march (queue_fuel s) s id PQueue;
  link s id pp.

(** Reprogram the interval timer from the head of the queue; [asserts] are the
    checks timer_settime and timer_cancel make and alarm_handler does not. *)
Definition rearm (asserts : bool) (s : tstate) (h : nat) : outcome tstate :=
  e ← get s h;
  v ← timerroundup (it_value e) (g_granularity s);
  let s := update h (set_value v) s in
  let it := if timerisset v then v else TV 0 1 in
  let ok (t : timeval) := (0 <? tv_sec t) || (g_granularity s <=? u32 (tv_usec t)) in
  assert_ (negb asserts || (ok it && ok v)) (Ret (setitimer it s)).

(** ** timer_cancel

    [rem] is what [getitimer(ITIMER_REAL)] returns during the call. *)
Definition cancel_found (s : tstate) (id : nat) (pp : ploc) (rem : timeval)
    : outcome tstate :=
  e ← get s id;
  s ← match event_queue s, next e with
      | Some h, Some n =>
          if (h =? id)%nat then
            let v := timersub (it_value e) rem in
            let s := update id (set_value v) s in
            en ← get s n;
            Ret (update n (set_value (timeradd (it_value en) v)) s)
          else Ret s
      | _, _ => Ret s
      end;
  let s := store s pp (next e) in
  let s := update id (set_next None) s in
  match event_queue s with
  | Some h => rearm true s h
  | None => Ret (setitimer (TV 0 0) s)
  end.

Fixpoint cancel_walk (fuel : nat) (s : tstate) (id : nat) (pp : ploc) (rem : timeval)
    : outcome tstate :=
  match fuel with
  | O => Running
  | S fuel =>
      cur ← load s pp;
      match cur with
      | None => Ret s
      | Some k =>
          if (k =? id)%nat then cancel_found s id pp rem
          else cancel_walk fuel s id (PNext k) rem
      end
  end.

Definition has_flag (fl f : Z) : bool := negb (Z.land fl f =? 0).

Definition timer_cancel (s : tstate) (id : nat) (rem : timeval) : outcome tstate :=
  e ← get s id;
  if has_flag (flags e) TFLAG_CANCELLED then Ret s else
  let s := block_timer s in
  s ← cancel_walk (queue_fuel s) s id PQueue rem;
  e ← get s id;
  let s := update id (set_flags (Z.lor (flags e) TFLAG_CANCELLED)) s in
  Ret (unblock_timer s).

(** ** timer_delete *)
Definition timer_delete (s : tstate) (id : nat) (rem : timeval)
    : outcome (tstate * Z) :=
  e ← get s id;
  if has_flag (flags e) TFLAG_DELETED then Ret (s, 1) else
  s ← timer_cancel s id rem;
  e ← get s id;
  let s := update id (set_flags (Z.lor (flags e) TFLAG_DELETED)) s in
  let s := update id (set_next (event_freelist s)) s in
  Ret (with_freelist (Some id) s, 0).

(** ** timer_settime *)
Definition timer_settime (s : tstate) (id : nat) (interval value : timespec)
    (rem : timeval) : outcome (tstate * Z) :=
  _ ← get s id;
  let s := update id (set_interval (timespec_to_timeval interval)) s in
  let s := update id (set_value (timespec_to_timeval value)) s in
  if negb (timerisset (timespec_to_timeval value)) then
    s ← timer_cancel s id rem; Ret (s, 0)
  else
  let s := block_timer s in
  v ← timerroundup (timespec_to_timeval value) (g_granularity s);
  let s := update id (set_value v) s in
  s ← match event_queue s with
      | Some h =>
          if timerisset rem then
            eh ← get s h;
            if timer_gt rem (it_value eh) then Ret s
            else Ret (update h (set_value rem) s)
          else Ret s
      | None => Ret s
      end;
  s ← insert_event s id;
  _ ← check_event_queue s;
  s ← match event_queue s with
      | Some h => if (h =? id)%nat then rearm true s h else Ret s
      | None => Ret s
      end;
  e ← get s id;
  let s := update id (set_flags (Z.land (flags e) (Z.lnot TFLAG_CANCELLED))) s in
  Ret (unblock_timer s, 0).

(** ** timer_cancel_all *)
Fixpoint cancel_all_walk (fuel : nat) (s : tstate) : outcome tstate :=
  match fuel with
  | O => Running
  | S fuel =>
      match event_queue s with
      | None => Ret s
      | Some i =>
          e ← get s i;
          cancel_all_walk fuel (update i (set_next None) (with_queue (next e) s))
      end
  end.

Definition timer_cancel_all (s : tstate) : outcome tstate :=
  cancel_all_walk (queue_fuel s) (setitimer (TV 0 0) s).

(** ** alarm_handler

    [call f id a s] runs the user routine [f] on timer [id]; it may use the
    timer operations and is a parameter. *)
Section Alarm.
Context (call : nat -> nat -> Z -> tstate -> outcome tstate).

Definition alarm_body (s : tstate) : outcome tstate :=
  id ← deref (event_queue s);
  e ← get s id;
  let s := with_queue (next e) s in
  let s := update id (set_next None) s in
  f ← deref (func e);
  s ← call f id (arg e) s;
  e ← get s id;
  s ← (if has_flag (flags e) TFLAG_CANCELLED then Ret s else
       if timerisset (it_interval e) then
         v ← timerroundup (it_interval e) (g_granularity s);
         let s := update id (set_value v) s in
         insert_event s id
       else Ret s);
  _ ← check_event_queue s;
  Ret s.

Fixpoint alarm_loop (fuel : nat) (small : timeval) (s : tstate) : outcome tstate :=
  match fuel with
  | O => Running
  | S fuel =>
      s ← alarm_body s;
      match event_queue s with
      | None => Ret s
      | Some h =>
          e ← get s h;
          if timer_lt (it_value e) small then alarm_loop fuel small s else Ret s
      end
  end.

Definition alarm_handler (fuel : nat) (s : tstate) : outcome tstate :=
  let small := TV 0 (g_granularity s / 2) in
  let s := block_timer s in
  s ← alarm_loop fuel small s;
  s ← match event_queue s with
      | Some h => rearm false s h
      | None => Ret s
      end;
  Ret (unblock_timer s).

End Alarm.

(** ** The bcm_timer wrappers *)

Definition bcm_timer_module_init (entries : nat) (gran : Z) (s : tstate)
    : outcome (tstate * option nat) :=
  s ← init_event_queue entries gran s; Ret (s, event_freelist s).
Definition bcm_timer_create (s : tstate) : outcome (tstate * nat) := timer_create s.
Definition bcm_timer_delete (s : tstate) (id : nat) (rem : timeval)
    : outcome (tstate * Z) := timer_delete s id rem.
Definition bcm_timer_settime (s : tstate) (id : nat) (interval value : timespec)
    (rem : timeval) : outcome (tstate * Z) := timer_settime s id interval value rem.
Definition bcm_timer_connect (s : tstate) (id : nat) (routine : option nat) (a : Z)
    : outcome (tstate * Z) := timer_connect s id routine a.
Definition bcm_timer_cancel (s : tstate) (id : nat) (rem : timeval)
    : outcome (tstate * Z) := s ← timer_cancel s id rem; Ret (s, 0).

End Timer.
