(* ===== verification/TimerProofs.v ===== *)
(** * Correctness of the timer module

    The abstract view of the delta list is the list of pending timers with
    their absolute expiry, in microseconds from now; the operations of
    Timer.v are related to it. *)

From Stdlib Require Import ZArith Lia.
From stdpp Require Import base numbers sets list.
From S2P Require Import Prelude Timer.
Import Timer.
Open Scope Z_scope.

(** ** Time values

    A value the module keeps has a non-negative number of seconds and at most
    one million microseconds: [timerroundup] can produce exactly one million. *)
Definition us (t : timeval) : Z := tv_sec t * 1000000 + tv_usec t.
Definition tv_ok (t : timeval) : Prop :=
  0 <= tv_sec t < 2 ^ 31 /\ 0 <= tv_usec t <= 1000000.

Lemma us_nonneg t : tv_ok t -> 0 <= us t.
Proof. unfold tv_ok, us. lia. Qed.

Lemma timer_lt_us a b : tv_ok a -> tv_ok b ->
  if timer_lt a b then us a <= us b else us b <= us a.
Proof.
  unfold tv_ok, us, timer_lt. intros [??] [??].
  destruct (Z.eqb_spec (tv_sec a) (tv_sec b)).
  - destruct (Z.ltb_spec (tv_usec a) (tv_usec b)); lia.
  - destruct (Z.ltb_spec (tv_sec a) (tv_sec b)); lia.
Qed.

(** Subtracting in the order [timercmp] allows is exact and stays in range. *)
Lemma timersub_ok a b : tv_ok a -> tv_ok b -> timer_lt a b = false ->
  tv_ok (timersub a b) /\ us (timersub a b) = us a - us b.
Proof.
  unfold tv_ok, us, timer_lt, timersub. intros [??] [??] Hlt.
  rewrite !(s32_small (tv_sec a - tv_sec b)), !(s32_small (tv_usec a - tv_usec b))
    by (unfold is_s32; lia).
  destruct (Z.eqb_spec (tv_sec a) (tv_sec b));
    destruct (Z.ltb_spec (tv_usec a - tv_usec b) 0);
    repeat match goal with H : (_ <? _) = false |- _ => apply Z.ltb_ge in H end;
    simpl; rewrite ?(s32_small (tv_sec a - tv_sec b - 1)) by (unfold is_s32; lia); lia.
Qed.

Lemma timer_lt_asym a b : timer_lt a b = true -> timer_lt b a = false.
Proof.
  unfold timer_lt. rewrite (Z.eqb_sym (tv_sec b)).
  destruct (Z.eqb_spec (tv_sec a) (tv_sec b)); rewrite !Z.ltb_lt, Z.ltb_ge; lia.
Qed.

Lemma timer_lt_irrefl a : timer_lt a a = false.
Proof. unfold timer_lt. by rewrite Z.eqb_refl, Z.ltb_irrefl. Qed.

(** The granularity the kernel reports: a positive divisor of one second. *)
Definition gran_ok (g : Z) : Prop := 0 < g /\ (g | 1000000).

Lemma ROUNDUP_spec x g : gran_ok g -> 0 <= x <= 1000000 ->
  x <= ROUNDUP x g <= 1000000 /\ ROUNDUP x g < x + g /\ (g | ROUNDUP x g).
Proof.
  intros [Hg [k Hk]] Hx. unfold ROUNDUP.
  assert (g <= 1000000) by (apply Z.divide_pos_le; [lia|by exists k]).
  rewrite (u32_small (x + g - 1)) by (unfold is_u32; lia).
  pose proof (Z.div_mod (x + g - 1) g ltac:(lia)) as E.
  pose proof (Z.mod_pos_bound (x + g - 1) g ltac:(lia)).
  assert ((x + g - 1) / g <= k).
  { apply Z.lt_succ_r. apply Z.div_lt_upper_bound; nia. }
  rewrite u32_small by (unfold is_u32; nia).
  split; [nia|split; [nia|]]. by exists ((x + g - 1) / g).
Qed.

Lemma timerroundup_ok t g : gran_ok g -> tv_ok t ->
  exists v, timerroundup t g = Ret v /\ tv_ok v /\ timerisset v = true /\
    us t <= us v /\ (us t + g > us v \/ us t = 0) /\
    (tv_sec v = 0 -> g <= tv_usec v).
Proof.
  intros Hg Ht. unfold timerroundup.
  set (t1 := if timerisset t then t else TV (tv_sec t) 1).
  assert (tv_ok t1 /\ us t <= us t1 /\ (us t = us t1 \/ us t = 0) /\ timerisset t1 = true)
    as (Ht1 & Hle & Heq & Hset).
  { unfold t1, timerisset. destruct Ht as [??].
    destruct (Z.eqb_spec (tv_sec t) 0), (Z.eqb_spec (tv_usec t) 0); simpl;
      unfold tv_ok, us; simpl; repeat split; try lia.
    all: try (left; lia). all: destruct (Z.eqb_spec (tv_sec t) 0); try lia; try done.
    all: destruct (Z.eqb_spec (tv_usec t) 0); try lia; done. }
  clearbody t1. destruct (Z.eqb_spec (tv_sec t1) 0) as [E0|E0].
  - destruct (Z.eqb_spec g 0); [destruct Hg; lia|].
    destruct (ROUNDUP_spec (tv_usec t1) g Hg) as (R1 & R2 & [k R3]);
      [destruct Ht1; lia|].
    assert (0 < tv_usec t1).
    { unfold timerisset in Hset. rewrite E0 in Hset. simpl in Hset.
      destruct (Z.eqb_spec (tv_usec t1) 0); [done|]. destruct Ht1; lia. }
    eexists; split; [done|]. destruct Hg, Ht1. unfold tv_ok, us, timerisset in *; simpl.
    rewrite E0 in *. simpl. destruct (Z.eqb_spec (ROUNDUP (tv_usec t1) g) 0); [lia|].
    repeat split; try lia. intros _. assert (0 < k) by nia. nia.
  - eexists; split; [done|]. destruct Hg. repeat split; try apply Ht1; try done; lia.
Qed.

(** ** Reading the heap after an update *)

Definition val (h : list event) (i : nat) : timeval :=
  match h !! i with Some e => it_value e | None => TV 0 0 end.
Definition nx (h : list event) (i : nat) : option (option nat) := next <$> h !! i.

Lemma lookup_alter_dec (f : event -> event) i j (h : list event) :
  alter f i h !! j = if decide (i = j) then f <$> h !! j else h !! j.
Proof.
  case_decide; [subst; by rewrite list_lookup_alter_eq|by rewrite list_lookup_alter_ne].
Qed.

Lemma val_alter f i j (h : list event) :
  val (alter f i h) j =
    if decide (i = j) then from_option (it_value ∘ f) (TV 0 0) (h !! j) else val h j.
Proof.
  unfold val. rewrite lookup_alter_dec. case_decide; [|done]. by destruct (h !! j).
Qed.

Lemma nx_alter f i j (h : list event) :
  nx (alter f i h) j = if decide (i = j) then (next ∘ f) <$> h !! j else nx h j.
Proof.
  unfold nx. rewrite lookup_alter_dec. case_decide; [|done]. by destruct (h !! j).
Qed.

Lemma nx_set_value v i j (h : list event) : nx (alter (set_value v) i h) j = nx h j.
Proof. rewrite nx_alter. case_decide; [subst|done]. unfold nx. by destruct (h !! j). Qed.

Lemma val_set_next n i j (h : list event) : val (alter (set_next n) i h) j = val h j.
Proof. rewrite val_alter. case_decide; [subst|done]. unfold val. by destruct (h !! j). Qed.

Lemma val_set_value_same v i (h : list event) e :
  h !! i = Some e -> val (alter (set_value v) i h) i = v.
Proof. intros E. rewrite val_alter, decide_True by done. by rewrite E. Qed.

Lemma val_set_value_ne v i j (h : list event) :
  i <> j -> val (alter (set_value v) i h) j = val h j.
Proof. intros. by rewrite val_alter, decide_False. Qed.

(** ** Chains *)

Fixpoint chain (h : list event) (p : option nat) (l : list nat) : Prop :=
  match l with
  | [] => p = None
  | i :: l' => p = Some i /\ exists n, nx h i = Some n /\ chain h n l'
  end.

Lemma chain_ext h h' p l :
  (forall i, i ∈ l -> nx h' i = nx h i) -> chain h p l -> chain h' p l.
Proof.
  revert p; induction l as [|i l IH]; simpl; intros p Hext; [done|].
  intros (-> & n & Hn & Hc). split; [done|]. exists n. split.
  - rewrite Hext; [done|by left].
  - apply IH; [|done]. intros j Hj. apply Hext. by right.
Qed.

Lemma chain_bound h p l : chain h p l -> forall i, i ∈ l -> (i < length h)%nat.
Proof.
  revert p; induction l as [|i l IH]; simpl; intros p Hc j Hj.
  - by apply elem_of_nil in Hj.
  - destruct Hc as (-> & n & Hn & Hc). apply elem_of_cons in Hj as [->|Hj]; [|by eapply IH].
    unfold nx in Hn. apply fmap_Some in Hn as (e & He & _). by eapply lookup_lt_Some.
Qed.

Lemma chain_length h p l : chain h p l -> NoDup l -> (length l <= length h)%nat.
Proof.
  intros Hc Hnd. rewrite <- (length_seq (length h) 0).
  apply submseteq_length, NoDup_submseteq; [done|].
  intros i Hi. apply elem_of_seq. pose proof (chain_bound _ _ _ Hc _ Hi). lia.
Qed.

Lemma chain_det h p l1 l2 : chain h p l1 -> chain h p l2 -> l1 = l2.
Proof.
  revert p l2; induction l1 as [|i l1 IH]; intros p [|j l2]; simpl;
    intros H1 H2; [done| | |].
  - destruct H2; congruence.
  - destruct H1; congruence.
  - destruct H1 as (-> & n & Hn & H1), H2 as (E & m & Hm & H2). simplify_eq.
    f_equal. by eapply IH.
Qed.

(** The cell a list hangs from, after walking over [l]. *)
Definition last_loc (p : ploc) (l : list nat) : ploc :=
  match list.last l with Some i => PNext i | None => p end.

Lemma last_loc_cons p i l : last_loc p (i :: l) = last_loc (PNext i) l.
Proof.
  unfold last_loc. destruct l as [|j l]; [done|]. rewrite last_cons_cons.
  destruct (list.last (j :: l)) eqn:E; [done|]. by apply last_None in E.
Qed.

(** ** Expiry times *)

Fixpoint sumd (h : list event) (l : list nat) : Z :=
  match l with [] => 0 | i :: l' => us (val h i) + sumd h l' end.

Fixpoint expiries (h : list event) (base : Z) (l : list nat) : list (nat * Z) :=
  match l with
  | [] => []
  | i :: l' => let t := base + us (val h i) in (i, t) :: expiries h t l'
  end.

Lemma expiries_app h base l1 l2 :
  expiries h base (l1 ++ l2) = expiries h base l1 ++ expiries h (base + sumd h l1) l2.
Proof.
  revert base; induction l1 as [|i l1 IH]; simpl; intros base.
  - by rewrite Z.add_0_r.
  - rewrite IH. by rewrite Z.add_assoc.
Qed.

Lemma expiries_ext h h' base l :
  (forall i, i ∈ l -> val h' i = val h i) -> expiries h' base l = expiries h base l.
Proof.
  revert base; induction l as [|i l IH]; simpl; intros base Hext; [done|].
  rewrite Hext by (by left). f_equal. apply IH. intros. apply Hext. by right.
Qed.

Lemma expiries_fst h base l : (expiries h base l).*1 = l.
Proof. revert base; induction l as [|i l IH]; simpl; intros; [done|]. by rewrite IH. Qed.

Definition vals_ok (h : list event) (l : list nat) : Prop :=
  forall i, i ∈ l -> tv_ok (val h i).

Lemma expiries_ge h base l x : vals_ok h l -> x ∈ expiries h base l -> base <= x.2.
Proof.
  revert base; induction l as [|i l IH]; simpl; intros base Hok Hx.
  - by apply elem_of_nil in Hx.
  - assert (0 <= us (val h i)) by (apply us_nonneg, Hok; by left).
    apply elem_of_cons in Hx as [->|Hx]; simpl; [lia|].
    apply IH in Hx; [lia|]. intros j Hj. apply Hok. by right.
Qed.

Lemma expiries_le h base l x : vals_ok h l -> x ∈ expiries h base l ->
  x.2 <= base + sumd h l.
Proof.
  revert base; induction l as [|i l IH]; simpl; intros base Hok Hx.
  - by apply elem_of_nil in Hx.
  - assert (vals_ok h l) by (intros j Hj; apply Hok; by right).
    assert (0 <= sumd h l).
    { clear -H. induction l as [|k l IHl]; simpl; [lia|].
      assert (0 <= us (val h k)) by (apply us_nonneg, H; by left).
      assert (0 <= sumd h l) by (apply IHl; intros j Hj; apply H; by right). lia. }
    apply elem_of_cons in Hx as [->|Hx]; simpl; [lia|]. apply IH in Hx; [lia|done].
Qed.

(** ** The insertion loop *)

(** What [march] leaves behind: the list is split in [l1], whose events are
    passed, and [l2]; only the new timer and the head of [l2] change, and only
    in their values. *)
Record marched (h h' : list event) (id : nat) (l1 l2 : list nat) : Prop := {
  m_nx : forall i, nx h' i = nx h i;
  m_len : length h' = length h;
  m_id : us (val h' id) = us (val h id) - sumd h l1;
  m_id_ok : tv_ok (val h' id);
  m_first : l1 = [] -> val h' id = val h id;
  m_pass : forall i, i ∈ l1 -> val h' i = val h i;
  m_head : forall k l, l2 = k :: l ->
     us (val h' k) = us (val h k) - us (val h' id) /\ tv_ok (val h' k);
  m_tail : forall i, i <> id -> head l2 <> Some i -> val h' i = val h i;
  m_keep : forall i, set_value (TV 0 0) <$> h' !! i = set_value (TV 0 0) <$> h !! i
}.

Lemma keep_set_value v k (h : list event) i :
  set_value (TV 0 0) <$> alter (set_value v) k h !! i = set_value (TV 0 0) <$> h !! i.
Proof. rewrite lookup_alter_dec. case_decide; [subst|done]. by destruct (h !! i). Qed.

Lemma get_Some s i e : heap s !! i = Some e -> get s i = Ret e.
Proof. unfold get. by intros ->. Qed.

Lemma get_val s i e : heap s !! i = Some e -> it_value e = val (heap s) i.
Proof. unfold val. by intros ->. Qed.

(** Stopping in front of [k]. *)
Lemma marched_stop h id k l ek :
  id <> k -> h !! k = Some ek -> tv_ok (val h id) -> tv_ok (val h k) ->
  timer_lt (val h id) (val h k) = true ->
  marched h (alter (set_value (timersub (val h k) (val h id))) k h) id [] (k :: l).
Proof.
  intros Hik Ek Hid Hk Hlt.
  destruct (timersub_ok (val h k) (val h id) Hk Hid) as [S1 S2];
    [by apply timer_lt_asym|].
  split; simpl; try done.
  - intros i. by rewrite nx_set_value.
  - by rewrite length_alter.
  - rewrite val_set_value_ne by done. lia.
  - by rewrite val_set_value_ne by done.
  - intros _. by rewrite val_set_value_ne by done.
  - intros i Hi. by apply elem_of_nil in Hi.
  - intros k0 l0 [= <- <-].
    rewrite (val_set_value_same _ _ _ ek), val_set_value_ne by done. done.
  - intros i Hi Hne. rewrite val_set_value_ne; congruence.
  - intros i. apply keep_set_value.
Qed.

Lemma sumd_ext h h' l : (forall i, i ∈ l -> val h' i = val h i) -> sumd h' l = sumd h l.
Proof.
  induction l as [|j l IH]; simpl; intros Hext; [done|].
  rewrite Hext, IH; [done| |by left]. intros. apply Hext. by right.
Qed.

(** Passing [k]. *)
Lemma marched_pass h h' id k l1 l2 v e :
  h !! id = Some e -> NoDup (id :: k :: l1 ++ l2) ->
  us v = us (val h id) - us (val h k) ->
  marched (alter (set_value v) id h) h' id l1 l2 -> marched h h' id (k :: l1) l2.
Proof.
  intros He Hnd Hv [M1 M2 M3 M4 _ M5 M6 M7 M8].
  apply NoDup_cons in Hnd as [Hni Hnd]. apply NoDup_cons in Hnd as [Hnk _].
  set (h1 := alter (set_value v) id h) in *.
  assert (Hh1 : forall i, i <> id -> val h1 i = val h i)
    by (intros; unfold h1; by rewrite val_set_value_ne).
  assert (Hin : forall i, i ∈ k :: l1 ++ l2 -> i <> id) by (intros i Hi ->; done).
  split; simpl; try done.
  - intros i. rewrite M1. apply nx_set_value.
  - rewrite M2. unfold h1. by rewrite length_alter.
  - rewrite M3, (sumd_ext h h1) by (intros i Hi; apply Hh1, Hin; set_solver).
    unfold h1. rewrite (val_set_value_same _ _ _ e) by done. lia.
  - intros i Hi. rewrite <- Hh1 by (apply Hin; set_solver).
    apply elem_of_cons in Hi as [->|Hi]; [|by apply M5].
    apply M7; [apply Hin; set_solver|]. destruct l2; simpl; set_solver.
  - intros k0 l0 ->. destruct (M6 k0 l0 eq_refl) as [A B]. split; [|done].
    rewrite A, Hh1 by (apply Hin; set_solver). done.
  - intros i Hi Hh. rewrite M7 by done. by apply Hh1.
  - intros i. rewrite M8. unfold h1. apply keep_set_value.
Qed.

Lemma march_ok l : forall fuel s id pp c e,
  load s pp = Ret c -> chain (heap s) c l -> NoDup (id :: l) ->
  heap s !! id = Some e -> vals_ok (heap s) (id :: l) ->
  (length l < fuel)%nat ->
  exists h' l1 l2,
    march fuel s id pp = Ret (with_heap h' s, last_loc pp l1) /\ l = l1 ++ l2 /\
    marched (heap s) h' id l1 l2.
Proof.
  induction l as [|k l IH]; intros fuel s id pp c e Hl Hc Hnd He Hok Hf;
    destruct fuel as [|fuel]; simpl in Hf; try lia; simpl in Hc; simpl.
  { subst c. rewrite Hl. simpl. exists (heap s), [], []. split; [by destruct s|].
    split; [done|]. split; simpl; try done; try lia. apply Hok. by left. }
  destruct Hc as (-> & n & Hn & Hc). rewrite Hl. simpl. unfold get. rewrite He. simpl.
  destruct (heap s !! k) as [ek|] eqn:Ek; [|unfold nx in Hn; by rewrite Ek in Hn].
  simpl. rewrite (get_val s id e He), (get_val s k ek Ek).
  assert (tv_ok (val (heap s) id)) as Hid by (apply Hok; by left).
  assert (tv_ok (val (heap s) k)) as Hk by (apply Hok; right; by left).
  assert (id <> k) as Hik by (intros ->; apply NoDup_cons in Hnd; set_solver).
  destruct (timer_lt (val (heap s) id) (val (heap s) k)) eqn:Hlt.
  { eexists _, [], (k :: l). split; [done|]. split; [done|]. by eapply marched_stop. }
  destruct (timersub_ok (val (heap s) id) (val (heap s) k) Hid Hk Hlt) as [S1 S2].
  set (v := timersub (val (heap s) id) (val (heap s) k)) in *.
  destruct (IH fuel (update id (set_value v) s) id (PNext k) n (set_value v e))
    as (h' & l1 & l2 & Em & -> & M); simpl.
  - unfold get; simpl. rewrite list_lookup_alter_ne, Ek by done. simpl.
    unfold nx in Hn. rewrite Ek in Hn. by simplify_eq/=.
  - eapply chain_ext; [|done]. intros i Hi. apply nx_set_value.
  - inversion Hnd as [|? ? Hni Hnd']; subst. apply NoDup_cons in Hnd' as [_ Hnd'].
    apply NoDup_cons. set_solver.
  - by rewrite list_lookup_alter_eq, He.
  - intros i Hi. destruct (decide (i = id)) as [->|Hne].
    + by rewrite (val_set_value_same _ _ _ e).
    + rewrite val_set_value_ne by done. apply Hok. set_solver.
  - lia.
  - exists h', (k :: l1), l2. rewrite last_loc_cons. split; [done|]. split; [done|].
    by eapply marched_pass.
Qed.

(** ** Linking *)

Lemma load_last_loc s p c l1 l2 :
  load s p = Ret c -> chain (heap s) c (l1 ++ l2) ->
  exists c2, load s (last_loc p l1) = Ret c2 /\ chain (heap s) c2 l2.
Proof.
  revert p c; induction l1 as [|i l1 IH]; intros p c Hl Hc.
  - by exists c.
  - rewrite last_loc_cons. destruct Hc as (-> & n & Hn & Hc). apply (IH _ n); [|done].
    simpl. unfold get. unfold nx in Hn. by destruct (heap s !! i); simplify_eq/=.
Qed.

Lemma chain_relink h h' c l0 j id l2 c2 :
  chain h c (l0 ++ j :: l2) -> (forall i, i ∈ l0 -> nx h' i = nx h i) ->
  nx h' j = Some (Some id) -> nx h' id = Some c2 -> chain h' c2 l2 ->
  chain h' c (l0 ++ j :: id :: l2).
Proof.
  revert c; induction l0 as [|i l0 IH]; simpl; intros c Hc Hext Hj Hid H2.
  - destruct Hc as (-> & _). eauto 10.
  - destruct Hc as (-> & n & Hn & Hc). split; [done|]. exists n. split.
    + rewrite Hext; [done|by left].
    + apply IH; try done. intros k Hk. apply Hext. by right.
Qed.

Lemma nx_set_next_same n i (h : list event) : (i < length h)%nat ->
  nx (alter (set_next n) i h) i = Some n.
Proof.
  intros Hi. rewrite nx_alter, decide_True by done.
  destruct (lookup_lt_is_Some_2 h i Hi) as [e ->]. done.
Qed.

Lemma nx_set_next_ne n i j (h : list event) : i <> j ->
  nx (alter (set_next n) i h) j = nx h j.
Proof. intros. by rewrite nx_alter, decide_False. Qed.

Lemma keep_set_next n k (h : list event) i :
  set_next None <$> alter (set_next n) k h !! i = set_next None <$> h !! i.
Proof. rewrite lookup_alter_dec. case_decide; [subst|done]. by destruct (h !! i). Qed.

Lemma link_ok s id l1 l2 :
  chain (heap s) (event_queue s) (l1 ++ l2) -> NoDup (id :: l1 ++ l2) ->
  (id < length (heap s))%nat ->
  exists s', link s id (last_loc PQueue l1) = Ret s' /\
    chain (heap s') (event_queue s') (l1 ++ id :: l2) /\
    s' = with_queue (event_queue s') (with_heap (heap s') s) /\
    (forall i, val (heap s') i = val (heap s) i) /\
    (forall i, i ∉ id :: l1 -> nx (heap s') i = nx (heap s) i) /\
    length (heap s') = length (heap s) /\
    (forall i, set_next None <$> heap s' !! i = set_next None <$> heap s !! i).
Proof.
  intros Hc Hnd Hid. apply NoDup_cons in Hnd as [Hni Hnd].
  destruct (load_last_loc s PQueue _ l1 l2 eq_refl Hc) as (c2 & Hl & Hc2).
  unfold link. rewrite Hl. simpl. eexists. split; [done|].
  assert (Hc2' : chain (alter (set_next c2) id (heap s)) c2 l2).
  { eapply chain_ext; [|done]. intros i Hi. apply nx_set_next_ne. set_solver. }
  destruct l1 as [|j l1 _] using rev_ind.
  - simpl. repeat split; simpl.
    + exists c2. split; [by apply nx_set_next_same|done].
    + intros i. apply val_set_next.
    + intros i Hi. apply nx_set_next_ne. set_solver.
    + by rewrite length_alter.
    + intros i. apply keep_set_next.
  - unfold last_loc in *. rewrite last_snoc in *. simpl.
    assert (Hij : id <> j) by set_solver.
    rewrite <- app_assoc in *. simpl in *.
    assert (Hj : (j < length (heap s))%nat).
    { eapply chain_bound; [exact Hc|]. set_solver. }
    apply NoDup_app in Hnd as (Hnd1 & Hdis & Hnd2).
    apply NoDup_cons in Hnd2 as [Hj2 _].
    repeat split; simpl.
    + eapply chain_relink; [exact Hc| | | |].
      * intros i Hi. rewrite !nx_set_next_ne; [done|set_solver|].
        intros ->. apply (Hdis i Hi). by left.
      * apply nx_set_next_same. by rewrite length_alter.
      * rewrite nx_set_next_ne by done. by apply nx_set_next_same.
      * eapply chain_ext; [|exact Hc2']. intros i Hi. apply nx_set_next_ne. set_solver.
    + intros i. by rewrite !val_set_next.
    + intros i Hi. rewrite !nx_set_next_ne; [done|set_solver|set_solver].
    + by rewrite !length_alter.
    + intros i. by rewrite !keep_set_next.
Qed.

(** ** Insertion into the list of expiries *)

(** [new] is [old] with [x] inserted, after entries that are not later and
    before entries that are not earlier. *)
Definition inserted (x : nat * Z) (old new : list (nat * Z)) : Prop :=
  exists a b, old = a ++ b /\ new = a ++ x :: b /\
    (forall y, y ∈ a -> y.2 <= x.2) /\ (forall y, y ∈ b -> x.2 <= y.2).

(** Neither the links nor the values of an event are looked at. *)
Definition settings (o : option event) : option event :=
  set_next None <$> (set_value (TV 0 0) <$> o).

Lemma marched_expiries h h' id l1 l2 :
  NoDup (id :: l1 ++ l2) -> vals_ok h (l1 ++ l2) -> marched h h' id l1 l2 ->
  inserted (id, us (val h id)) (expiries h 0 (l1 ++ l2)) (expiries h' 0 (l1 ++ id :: l2)).
Proof.
  intros Hnd Hok M. apply NoDup_cons in Hnd as [Hni Hnd].
  apply NoDup_app in Hnd as (_ & Hdis & Hnd2).
  assert (Hs : sumd h' l1 = sumd h l1) by (apply sumd_ext, (m_pass _ _ _ _ _ M)).
  assert (vals_ok h l1 /\ vals_ok h l2) as [Hok1 Hok2]
    by (split; intros i Hi; apply Hok; set_solver).
  exists (expiries h 0 l1), (expiries h (sumd h l1) l2).
  assert (Hid : sumd h' l1 + us (val h' id) = us (val h id))
    by (rewrite (m_id _ _ _ _ _ M); lia).
  assert (Hb : expiries h' (us (val h id)) l2 = expiries h (sumd h l1) l2).
  { destruct l2 as [|k l2]; [done|]. simpl.
    destruct (m_head _ _ _ _ _ M k l2 eq_refl) as [Hk _].
    replace (us (val h id) + us (val h' k)) with (sumd h l1 + us (val h k)) by lia.
    f_equal. apply expiries_ext. intros i Hi. apply (m_tail _ _ _ _ _ M); [set_solver|].
    simpl. apply NoDup_cons in Hnd2 as [Hk2 _]. congruence. }
  rewrite !expiries_app. cbn [expiries]. rewrite !Z.add_0_l. rewrite Hid, Hb. split; [done|]. split.
  { by rewrite (expiries_ext h h') by apply (m_pass _ _ _ _ _ M). }
  pose proof (us_nonneg _ (m_id_ok _ _ _ _ _ M)). simpl. split; intros y Hy.
  - apply expiries_le in Hy; [lia|done].
  - rewrite <- Hb in Hy. eapply expiries_ge; [|exact Hy]. intros i Hi.
    destruct l2 as [|k l2]; [by apply elem_of_nil in Hi|].
    destruct (m_head _ _ _ _ _ M k l2 eq_refl) as [_ Hk].
    destruct (decide (i = k)) as [->|Hne]; [done|].
    rewrite (m_tail _ _ _ _ _ M); [apply Hok2; done|set_solver|simpl; congruence].
Qed.

Lemma marched_vals_ok h h' id l1 l2 :
  vals_ok h (l1 ++ l2) -> id ∉ l1 ++ l2 -> marched h h' id l1 l2 ->
  vals_ok h' (l1 ++ id :: l2).
Proof.
  intros Hok Hni M i Hi. destruct (decide (i = id)) as [->|Hne].
  { apply (m_id_ok _ _ _ _ _ M). }
  destruct (decide (head l2 = Some i)) as [Hh|Hh].
  - destruct l2 as [|k l2]; simplify_eq/=. by apply (m_head _ _ _ _ _ M i l2).
  - rewrite (m_tail _ _ _ _ _ M) by done. apply Hok. set_solver.
Qed.

(** March and link: the step timer_settime and alarm_handler share. *)
Lemma insert_ok s q id :
  chain (heap s) (event_queue s) q -> NoDup (id :: q) ->
  (id < length (heap s))%nat -> vals_ok (heap s) (id :: q) ->
  exists s' q',
    insert_event s id = Ret s' /\
    q' ≡ₚ id :: q /\
    chain (heap s') (event_queue s') q' /\
    s' = with_queue (event_queue s') (with_heap (heap s') s) /\
    inserted (id, us (val (heap s) id))
      (expiries (heap s) 0 q) (expiries (heap s') 0 q') /\
    vals_ok (heap s') q' /\ length (heap s') = length (heap s) /\
    (head q' = Some id -> val (heap s') id = val (heap s) id) /\
    (forall i, i ∉ id :: q -> nx (heap s') i = nx (heap s) i) /\
    (forall i, settings (heap s' !! i) = settings (heap s !! i)).
Proof.
  intros Hc Hnd Hid Hok. destruct (lookup_lt_is_Some_2 _ _ Hid) as [e He].
  assert (Hni : id ∉ q) by (by apply NoDup_cons in Hnd as [? _]).
  destruct (march_ok q (queue_fuel s) s id PQueue (event_queue s) e)
    as (h' & l1 & l2 & Em & -> & M); try done.
  { unfold queue_fuel. apply Nat.lt_succ_r. eapply chain_length; [done|].
    by apply NoDup_cons in Hnd as [_ ?]. }
  unfold insert_event. rewrite Em. simpl.
  destruct (link_ok (with_heap h' s) id l1 l2)
    as (s' & El & Hc' & Hs' & Hv & Hn & Hlen & Hkeep); simpl; try done.
  { eapply chain_ext; [|exact Hc]. intros i _. apply (m_nx _ _ _ _ _ M). }
  { by rewrite (m_len _ _ _ _ _ M). }
  exists s', (l1 ++ id :: l2). split; [done|]. split; [by rewrite Permutation_middle|].
  split; [done|]. split; [done|].
  rewrite (expiries_ext h' (heap s')) by (intros; apply Hv).
  split; [apply marched_expiries; [done|intros i Hi; apply Hok; set_solver|done]|].
  split; [intros i Hi; rewrite Hv; eapply marched_vals_ok; try done;
          intros j Hj; apply Hok; set_solver|].
  split; [rewrite Hlen; apply (m_len _ _ _ _ _ M)|]. split; [|split].
  - intros Hh. rewrite Hv. destruct l1 as [|j l1]; simplify_eq/=; [|set_solver].
    by apply (m_first _ _ _ _ _ M).
  - intros i Hi. rewrite Hn by set_solver. apply (m_nx _ _ _ _ _ M).
  - intros i. unfold settings. rewrite <- (m_keep _ _ _ _ _ M i).
    specialize (Hkeep i). simpl in Hkeep.
    destruct (heap s' !! i), (h' !! i); simplify_eq/=; [|done].
    f_equal. unfold set_next, set_value in *. simpl in *. congruence.
Qed.

(** ** The invariant of the module

    [q] is the queue and [f] the free list. *)
Record twf (s : tstate) (q f : list nat) : Prop := {
  w_queue : chain (heap s) (event_queue s) q;
  w_free : chain (heap s) (event_freelist s) f;
  w_nodup : NoDup (q ++ f);
  w_vals : vals_ok (heap s) q;
  w_gran : gran_ok (g_granularity s);
  w_max : g_maxevents s = length (heap s);
  w_count : block_count s = 0;
  w_sig : blocked s = false
}.

Lemma nx_alter_same f i j (h : list event) :
  (forall e, next (f e) = next e) -> nx (alter f i h) j = nx h j.
Proof.
  intros Hf. rewrite nx_alter. case_decide; [subst|done]. unfold nx.
  destruct (h !! j); simpl; [by rewrite Hf|done].
Qed.

Lemma val_alter_same f i j (h : list event) :
  (forall e, it_value (f e) = it_value e) -> val (alter f i h) j = val h j.
Proof.
  intros Hf. rewrite val_alter. case_decide; [subst|done]. unfold val.
  destruct (h !! j); simpl; [by rewrite Hf|done].
Qed.

Lemma check_walk_ok s l : forall k p,
  chain (heap s) p l -> (length l <= k)%nat -> check_walk k s p = Ret tt.
Proof.
  induction l as [|i l IH]; intros k p Hc Hk; simpl in Hc.
  - subst. by destruct k.
  - destruct Hc as (-> & n & Hn & Hc). destruct k as [|k]; simpl in Hk; [lia|].
    simpl. unfold get. unfold nx in Hn. destruct (heap s !! i); simplify_eq/=.
    apply IH; [done|lia].
Qed.

Lemma check_event_queue_ok s q :
  chain (heap s) (event_queue s) q -> NoDup q -> g_maxevents s = length (heap s) ->
  check_event_queue s = Ret tt.
Proof.
  intros Hc Hnd Hm. unfold check_event_queue. eapply check_walk_ok; [done|].
  rewrite Hm. pose proof (chain_length _ _ _ Hc Hnd). lia.
Qed.

Lemma timerroundup_idem t v g : gran_ok g -> tv_ok t ->
  timerroundup t g = Ret v -> timerroundup v g = Ret v.
Proof.
  intros Hg Ht E. destruct (timerroundup_ok t g Hg Ht) as (v' & E' & Hv & Hset & _).
  rewrite E in E'. injection E' as <-.
  unfold timerroundup in *. rewrite Hset.
  destruct (Z.eqb_spec (tv_sec (if timerisset t then t else TV (tv_sec t) 1)) 0).
  - destruct (Z.eqb_spec g 0); [done|]. injection E as <-. simpl. rewrite e. simpl.
    destruct (Z.eqb_spec g 0); [done|]. f_equal. f_equal.
    set (x := tv_usec _). destruct (ROUNDUP_spec x g Hg) as (R1 & R2 & [k R3]).
    { unfold x. destruct Ht. destruct (timerisset t); simpl; lia. }
    destruct (ROUNDUP_spec (ROUNDUP x g) g Hg) as (R4 & R5 & [k' R6]).
    { unfold x in *. destruct Ht. destruct (timerisset t); simpl in *; lia. }
    destruct Hg. assert (k = k') by nia. congruence.
  - injection E as <-. destruct (Z.eqb_spec (tv_sec (if timerisset t then t else TV (tv_sec t) 1)) 0); done.
Qed.

Lemma rearm_ok b s h v e : heap s !! h = Some e -> gran_ok (g_granularity s) ->
  tv_ok (it_value e) -> timerroundup (it_value e) (g_granularity s) = Ret v ->
  rearm b s h = Ret (setitimer v (update h (set_value v) s)).
Proof.
  intros He Hg Ht Ev. unfold rearm, get. rewrite He. simpl. rewrite Ev. simpl.
  destruct (timerroundup_ok _ _ Hg Ht) as (v' & E' & Hv & Hset & _ & _ & Hm).
  rewrite Ev in E'. injection E' as <-. rewrite Hset.
  assert ((0 <? tv_sec v) || (g_granularity s <=? u32 (tv_usec v)) = true) as ->.
  { destruct Hv as [Hs Hu]. rewrite u32_small by (unfold is_u32; lia).
    destruct (Z.ltb_spec 0 (tv_sec v)); [done|]. simpl. apply Z.leb_le, Hm. lia. }
  by rewrite orb_true_r.
Qed.

(** The expiries relative to the moment of the call: the head has [rem] left,
    unless the interval timer is off or claims more than the head asked for. *)
Definition sync (rem : timeval) (h : list event) (q : list nat) : list event :=
  match q with
  | [] => h
  | k :: _ => if timerisset rem && negb (timer_gt rem (val h k))
              then alter (set_value rem) k h else h
  end.

Definition valid_spec (ts : timespec) : Prop :=
  0 <= ts_sec ts < 2 ^ 31 /\ 0 <= ts_nsec ts < 1000000000.

Lemma valid_spec_ok ts : valid_spec ts -> tv_ok (timespec_to_timeval ts).
Proof.
  unfold valid_spec, tv_ok, timespec_to_timeval. simpl. intros [??].
  rewrite Z.quot_div_nonneg by lia. Z.to_euclidean_division_equations. lia.
Qed.

Lemma sync_step s q rem : chain (heap s) (event_queue s) q ->
  match event_queue s with
  | Some h =>
      if timerisset rem then
        eh ← get s h;
        if timer_gt rem (it_value eh) then Ret s else Ret (update h (set_value rem) s)
      else Ret s
  | None => Ret s
  end = Ret (with_heap (sync rem (heap s) q) s).
Proof.
  intros Hc. assert (Hs : Ret s = Ret (with_heap (heap s) s)) by (by destruct s).
  destruct q as [|k q]; simpl in Hc; [by rewrite Hc|].
  destruct Hc as (-> & n & Hn & _). simpl. destruct (timerisset rem); [|done]. simpl.
  unfold get. unfold nx in Hn. destruct (heap s !! k) as [ek|] eqn:Ek; [|done].
  simpl. rewrite (get_val s k ek Ek). by destruct (timer_gt rem (val (heap s) k)).
Qed.

Lemma sync_props rem h q : vals_ok h q -> tv_ok rem ->
  (forall i, nx (sync rem h q) i = nx h i) /\ vals_ok (sync rem h q) q /\
  length (sync rem h q) = length h /\
  (forall i, i ∉ q -> val (sync rem h q) i = val h i).
Proof.
  intros Hok Hr. destruct q as [|k q]; simpl; [done|].
  destruct (timerisset rem && negb (timer_gt rem (val h k))) eqn:E; [|done].
  split; [intros; apply nx_set_value|]. split; [|split; [apply length_alter|]].
  - intros i Hi. rewrite val_alter. case_decide; [subst|by apply Hok].
    destruct (h !! i) eqn:Ei; simpl; [done|]. unfold tv_ok; simpl; lia.
  - intros i Hi. apply val_set_value_ne. set_solver.
Qed.

Lemma sync_nx rem h q i : nx (sync rem h q) i = nx h i.
Proof.
  destruct q as [|k q]; simpl; [done|].
  destruct (timerisset rem && _); [apply nx_set_value|done].
Qed.

Lemma head_chain h p q i : chain h p q -> head q = Some i -> p = Some i.
Proof. destruct q; simpl; [done|]. intros [-> _] [= ->]. done. Qed.

Lemma update_same_value s i e :
  heap s !! i = Some e -> update i (set_value (it_value e)) s = s.
Proof.
  intros He. unfold update, with_heap. destruct s; simpl in *. f_equal.
  apply list_eq. intros j. rewrite lookup_alter_dec. case_decide; [subst|done].
  rewrite He. by destruct e.
Qed.

Lemma expiries_sync_ext h h' rem q :
  (forall i, i ∈ q -> val h' i = val h i) -> (forall i, i ∈ q -> is_Some (h !! i)) ->
  length h' = length h ->
  expiries (sync rem h' q) 0 q = expiries (sync rem h q) 0 q.
Proof.
  intros Hv Hin Hl. apply expiries_ext. intros i Hi.
  destruct q as [|k q]; simpl; [by apply Hv|].
  rewrite (Hv k) by (by left).
  destruct (timerisset rem && negb (timer_gt rem (val h k))); [|by apply Hv].
  rewrite !val_alter. case_decide; [subst i|by apply Hv].
  destruct (Hin k Hi) as [e He].
  destruct (lookup_lt_is_Some_2 h' k) as [e' ->].
  { rewrite Hl. by eapply lookup_lt_Some. }
  by rewrite He.
Qed.

(** The common end of timer_settime and timer_cancel: the flags of [id] are
    written and SIGALRM is unblocked. *)
Lemma twf_finish s s5 q q' f id fl :
  twf s q f -> chain (heap s5) (event_queue s5) q' -> NoDup (q' ++ f) ->
  vals_ok (heap s5) q' -> (forall i, i ∈ f -> nx (heap s5) i = nx (heap s) i) ->
  g_maxevents s5 = length (heap s5) -> g_granularity s5 = g_granularity s ->
  block_count s5 = 1 -> event_freelist s5 = event_freelist s ->
  twf (unblock_timer (update id (set_flags fl) s5)) q' f.
Proof.
  intros W Hc Hnd Hok Hnx Hm Hg Hb Hfl.
  assert (Hn : forall i, nx (alter (set_flags fl) id (heap s5)) i = nx (heap s5) i)
    by (intros; by apply nx_alter_same).
  split; simpl; rewrite ?Hb, ?Hg; try done.
  - eapply chain_ext; [intros; apply Hn|done].
  - rewrite Hfl. eapply chain_ext; [|apply W]. intros i Hi. rewrite Hn. by apply Hnx.
  - intros i Hi. rewrite val_alter_same by done. by apply Hok.
  - apply W.
  - by rewrite length_alter.
Qed.

Section Settime.
Context (s : tstate) (q f : list nat) (id : nat) (interval value : timespec)
  (rem : timeval).
Context (W : twf s q f) (Hid : (id < length (heap s))%nat)
  (Hq : id ∉ q) (Hf : id ∉ f) (Hvalue : valid_spec value) (Hrem : tv_ok rem).

(** The state in which the insertion starts. *)
Definition settime_ready (v : timeval) : tstate :=
  let s2 := update id (set_value v)
    (block_timer (update id (set_value (timespec_to_timeval value))
      (update id (set_interval (timespec_to_timeval interval)) s))) in
  with_heap (sync rem (heap s2) q) s2.

Lemma ready_heap v i : i <> id -> heap (settime_ready v) !! i = sync rem (heap s) q !! i.
Proof.
  intros Hi. unfold settime_ready. simpl.
  assert (Hother : forall j, j <> id ->
    alter (set_value v) id (alter (set_value (timespec_to_timeval value)) id
      (alter (set_interval (timespec_to_timeval interval)) id (heap s))) !! j = heap s !! j).
  { intros j Hj. rewrite !lookup_alter_dec. by rewrite !decide_False by done. }
  destruct q as [|k q']; simpl; [by apply Hother|].
  assert (Hk : k <> id) by set_solver.
  unfold val. rewrite Hother by done.
  destruct (timerisset rem && _); [|by apply Hother].
  rewrite !(lookup_alter_dec (set_value rem)). by rewrite Hother.
Qed.

Lemma ready_id v : exists e, heap (settime_ready v) !! id = Some e /\ it_value e = v /\
  it_interval e = timespec_to_timeval interval.
Proof.
  unfold settime_ready. simpl. destruct (lookup_lt_is_Some_2 _ _ Hid) as [e He].
  assert (Hs : forall h, sync rem h q !! id = h !! id).
  { intros h. destruct q as [|k q']; simpl; [done|].
    destruct (timerisset rem && _); [|done]. rewrite list_lookup_alter_ne; set_solver. }
  rewrite Hs, !list_lookup_alter_eq, He. simpl. eexists. split; [done|]. done.
Qed.

Lemma ready_nx v i : nx (heap (settime_ready v)) i = nx (heap s) i.
Proof.
  unfold settime_ready. simpl. rewrite sync_nx, !nx_set_value. by apply nx_alter_same.
Qed.

Lemma ready_vals v : tv_ok v -> vals_ok (heap (settime_ready v)) (id :: q).
Proof.
  intros Hv i Hi. destruct (decide (i = id)) as [->|Hne].
  - destruct (ready_id v) as (e & He & Hval & _). unfold val. by rewrite He, Hval.
  - unfold val. rewrite ready_heap by done. fold (val (sync rem (heap s) q) i).
    apply (sync_props rem (heap s) q); [apply W|done|set_solver].
Qed.

Lemma ready_expiries v :
  expiries (heap (settime_ready v)) 0 q = expiries (sync rem (heap s) q) 0 q.
Proof.
  apply expiries_ext. intros i Hi. unfold val. rewrite ready_heap; [done|].
  intros ->. done.
Qed.

Lemma ready_length v : length (heap (settime_ready v)) = length (heap s).
Proof.
  unfold settime_ready. simpl. rewrite <- (length_alter (set_interval (timespec_to_timeval interval)) (heap s) id).
  destruct q as [|k q']; simpl; [by rewrite !length_alter|].
  destruct (timerisset rem && _); by rewrite !length_alter.
Qed.

(** The first half of timer_settime, up to the insertion. *)
Lemma settime_unfold v :
  timerisset (timespec_to_timeval value) = true ->
  timerroundup (timespec_to_timeval value) (g_granularity s) = Ret v ->
  timer_settime s id interval value rem =
    (s ← insert_event (settime_ready v) id;
     _ ← check_event_queue s;
     s ← match event_queue s with
         | Some h => if (h =? id)%nat then rearm true s h else Ret s
         | None => Ret s
         end;
     e ← get s id;
     let s := update id (set_flags (Z.land (flags e) (Z.lnot TFLAG_CANCELLED))) s in
     Ret (unblock_timer s, 0)).
Proof.
  intros Hset Ev. unfold timer_settime.
  destruct (lookup_lt_is_Some_2 _ _ Hid) as [e He].
  assert (get s id = Ret e) as -> by (unfold get; by rewrite He).
  cbn [mbind outcome_bind]. rewrite Hset. simpl negb.
  cbn iota. cbn [g_granularity block_timer with_block update with_heap]. rewrite Ev.
  cbn [mbind outcome_bind]. erewrite (sync_step _ q rem); [reflexivity|].
  cbn [heap event_queue update with_heap block_timer with_block].
  eapply chain_ext; [|apply W]. intros i _. rewrite !nx_set_value. by apply nx_alter_same.
Qed.

Lemma settings_flags o o' : settings o = settings o' ->
  (flags <$> o) = (flags <$> o') /\ (it_interval <$> o) = (it_interval <$> o') /\
  (func <$> o) = (func <$> o').
Proof. destruct o as [[]|], o' as [[]|]; intros; simplify_eq/=; done. Qed.

(** A time that is set is rounded up by less than the granularity. *)
Lemma us_unset t : tv_ok t -> timerisset t = true -> us t <> 0.
Proof.
  intros [??] Hset. unfold timerisset, us in *.
  destruct (Z.eqb_spec (tv_sec t) 0), (Z.eqb_spec (tv_usec t) 0); simpl in Hset; (done || lia).
Qed.

(** An event that came first with a rounded time is armed with that time. *)
Lemma rearm_first s4 e4 v : heap s4 !! id = Some e4 -> it_value e4 = v -> tv_ok v -> g_granularity s4 = g_granularity s ->
  timerroundup (timespec_to_timeval value) (g_granularity s) = Ret v -> rearm true s4 id = Ret (setitimer v s4).
Proof.
  intros He4 Hve4 Hv Hgr Ev. rewrite (rearm_ok true s4 id v e4); rewrite ?Hve4, ?Hgr; try done; [|apply W|].
  - rewrite <- Hve4. by rewrite (update_same_value s4 id e4).
  - by eapply timerroundup_idem; [apply W| |exact Ev]; apply valid_spec_ok.
Qed.

(** C4. Arming an idle timer: the call returns 0 and the abstract queue is the
    old one, brought up to date with the interval timer, with the new timer
    inserted at its rounded-up expiry; every other timer keeps its expiry, the
    module invariant holds and SIGALRM is unblocked again. When the new timer
    is the earliest, the interval timer is programmed with its expiry. *)
Theorem timer_settime_inserts :
  timerisset (timespec_to_timeval value) = true ->
  exists s' q' v,
    timer_settime s id interval value rem = Ret (s', 0) /\
    timerroundup (timespec_to_timeval value) (g_granularity s) = Ret v /\
    us (timespec_to_timeval value) <= us v < us (timespec_to_timeval value) + g_granularity s /\
    inserted (id, us v) (expiries (sync rem (heap s) q) 0 q) (expiries (heap s') 0 q') /\
    twf s' q' f /\
    (head q' = Some id -> itimer s' = v).
Proof.
  intros Hset.
  destruct (timerroundup_ok (timespec_to_timeval value) (g_granularity s) (w_gran _ _ _ W)
              (valid_spec_ok _ Hvalue)) as (v & Ev & Hv & Hvset & Hge & Hlt & Hmin).
  destruct (insert_ok (settime_ready v) q id)
    as (s4 & q' & Ei & Hperm & Hc4 & Hs4 & Hins & Hok4 & Hlen4 & Hfirst & Hnx4 & Hset4).
  { eapply chain_ext; [intros i _; apply ready_nx|apply W]. }
  { apply NoDup_cons. split; [done|]. by apply (NoDup_app q f), W. }
  { by rewrite ready_length. }
  { by apply ready_vals. }
  assert (Hnd : NoDup q').
  { rewrite Hperm. apply NoDup_cons. split; [done|]. by apply (NoDup_app q f), W. }
  destruct (ready_id v) as (e0 & He0 & Hv0 & Hi0).
  assert (Hval0 : val (heap (settime_ready v)) id = v) by (unfold val; by rewrite He0).
  rewrite (settime_unfold v Hset Ev), Ei. cbn [mbind outcome_bind].
  assert (Hq4 : g_maxevents s4 = length (heap s4) /\ g_granularity s4 = g_granularity s /\
                block_count s4 = 1 /\ blocked s4 = true /\ event_freelist s4 = event_freelist s).
  { rewrite Hlen4, ready_length, <- (w_max _ _ _ W). rewrite Hs4. simpl.
    rewrite (w_count _ _ _ W). done. }
  destruct Hq4 as (Hmax & Hgr & Hbc & Hbl & Hfl).
  rewrite (check_event_queue_ok s4 q') by done. cbn [mbind outcome_bind].
  assert (Hidq : id ∈ q') by (rewrite Hperm; by left).
  destruct q' as [|h q'']; [by apply elem_of_nil in Hidq|].
  rewrite (head_chain _ _ _ h Hc4 eq_refl).
  assert (Hid4 : (id < length (heap s4))%nat) by (by rewrite Hlen4, ready_length).
  destruct (lookup_lt_is_Some_2 _ _ Hid4) as [e4 He4].
  assert (Hnx : forall i, i ∉ id :: q -> nx (heap s4) i = nx (heap s) i)
    by (intros i Hi; rewrite Hnx4 by done; apply ready_nx).
  rewrite Hval0, ready_expiries in Hins.
  assert (Hstep : (if (h =? id)%nat then rearm true s4 h else Ret s4) =
                  Ret (if (h =? id)%nat then setitimer v s4 else s4)).
  { destruct (Nat.eqb_spec h id) as [->|]; [|done].
    apply (rearm_first s4 e4); [done| |done..]. by rewrite (get_val s4 id e4 He4), Hfirst. }
  rewrite Hstep. cbn [mbind outcome_bind].
  set (s5 := if (h =? id)%nat then setitimer v s4 else s4).
  assert (heap s5 = heap s4) as Hh5 by (unfold s5; by destruct (h =? id)%nat).
  assert (get s5 id = Ret e4) as -> by (unfold get; by rewrite Hh5, He4).
  cbn [mbind outcome_bind].
  eexists _, (h :: q''), v. split; [reflexivity|]. split; [done|]. split.
  { destruct Hlt as [?|Hz]; [lia|]. by apply us_unset in Hset; [|apply valid_spec_ok]. }
  split; [|split].
  - rewrite (expiries_ext (heap s4) _ 0 (h :: q'')); [exact Hins|].
    intros i _. simpl. rewrite Hh5. by apply val_alter_same.
  - apply (twf_finish s s5 q); rewrite ?Hh5; try done;
      try (unfold s5; by destruct (h =? id)%nat).
    + rewrite Hperm. simpl. apply NoDup_cons. split; [set_solver|]. apply W.
    + intros i Hi. apply Hnx. intros Hi'. apply elem_of_cons in Hi' as [->|Hi']; [done|].
      pose proof (w_nodup _ _ _ W) as Hn. apply NoDup_app in Hn as (_ & Hdis & _).
      by apply (Hdis i).
  - intros [= ->]. simpl. unfold s5. by rewrite Nat.eqb_refl.
Qed.
End Settime.

(** ** Cancelling *)

Lemma chain_unlink h h' c l0 j id l2 n :
  chain h c (l0 ++ j :: id :: l2) -> nx h id = Some n ->
  (forall i, i ∈ l0 ++ l2 -> nx h' i = nx h i) -> nx h' j = Some n ->
  chain h' c (l0 ++ j :: l2).
Proof.
  revert c; induction l0 as [|i l0 IH]; simpl; intros c Hc Hn Hext Hj.
  - destruct Hc as (-> & n1 & Hn1 & Hn2 & n3 & Hn3 & Hc). simplify_eq.
    split; [done|]. exists n3. split; [done|]. eapply chain_ext; [|done]. done.
  - destruct Hc as (-> & n1 & Hn1 & Hc). split; [done|]. exists n1. split.
    + rewrite Hext; [done|by left].
    + apply (IH n1); try done. intros k Hk. apply Hext. by right.
Qed.

(** Taking [id] out of the list it is on. *)
Lemma unlink_ok s id l1 l2 e :
  chain (heap s) (event_queue s) (l1 ++ id :: l2) -> NoDup (l1 ++ id :: l2) ->
  heap s !! id = Some e ->
  let s' := update id (set_next None) (store s (last_loc PQueue l1) (next e)) in
  chain (heap s') (event_queue s') (l1 ++ l2) /\
  (forall i, val (heap s') i = val (heap s) i) /\
  (forall i, i ∉ id :: l1 -> nx (heap s') i = nx (heap s) i) /\
  length (heap s') = length (heap s) /\
  s' = with_queue (event_queue s') (with_heap (heap s') s).
Proof.
  intros Hc Hnd He. apply NoDup_app in Hnd as (Hnd1 & Hdis & Hnd2).
  apply NoDup_cons in Hnd2 as [Hid2 Hnd2].
  assert (Hne : nx (heap s) id = Some (next e)) by (unfold nx; by rewrite He).
  destruct l1 as [|j l1 _] using rev_ind.
  - simpl in *. destruct Hc as (_ & n & Hn & Hc). rewrite Hne in Hn. simplify_eq.
    repeat split; try (intros; apply val_set_next); try (apply length_alter).
    + eapply chain_ext; [|done]. intros i Hi. apply nx_set_next_ne. by intros ->.
    + intros i Hi. apply nx_set_next_ne. set_solver.
  - unfold last_loc. rewrite last_snoc. simpl. rewrite <- app_assoc in *. simpl in *.
    assert (Hjid : j <> id) by (intros ->; apply (Hdis id); set_solver).
    assert (Hj : (j < length (heap s))%nat)
      by (eapply chain_bound; [exact Hc|]; set_solver).
    apply NoDup_app in Hnd1 as (Hn1 & Hd1 & _).
    repeat split; try (intros; by rewrite !val_set_next); try (by rewrite !length_alter).
    + eapply chain_unlink; [exact Hc|exact Hne| |].
      * intros i Hi. assert (i <> id /\ i <> j) as [??].
        { apply elem_of_app in Hi as [Hi|Hi]; split; intros ->; [| |done|].
          - apply (Hdis id); set_solver.
          - apply (Hd1 j Hi). by left.
          - apply (Hdis j); set_solver. }
        by rewrite !nx_set_next_ne by done.
      * rewrite nx_set_next_ne by done. by apply nx_set_next_same.
    + intros i Hi. rewrite !nx_set_next_ne by set_solver. done.
Qed.

(** The search of timer_cancel stops at the cell that points to [id]. *)
Lemma cancel_walk_found s id rem l1 l2 : forall fuel p c,
  load s p = Ret c -> chain (heap s) c (l1 ++ id :: l2) -> id ∉ l1 ->
  (length l1 < fuel)%nat ->
  cancel_walk fuel s id p rem = cancel_found s id (last_loc p l1) rem.
Proof.
  induction l1 as [|k l1 IH]; intros fuel p c Hl Hc Hni Hf;
    (destruct fuel as [|fuel]; simpl in Hf; [lia|]); simpl; rewrite Hl; simpl in *.
  - destruct Hc as [-> _]. by rewrite Nat.eqb_refl.
  - destruct Hc as (-> & n & Hn & Hc). rewrite (proj2 (Nat.eqb_neq k id)) by set_solver.
    rewrite last_loc_cons. apply (IH fuel (PNext k) n); [|done|set_solver|lia].
    simpl. unfold get. unfold nx in Hn. by destruct (heap s !! k); simplify_eq/=.
Qed.

Lemma expiries_shift h h' base d k l :
  us (val h' k) = us (val h k) + d -> (forall i, i ∈ l -> val h' i = val h i) ->
  expiries h' base (k :: l) = expiries h (base + d) (k :: l).
Proof.
  intros Hk Hl. simpl. rewrite Hk.
  replace (base + (us (val h k) + d)) with (base + d + us (val h k)) by lia.
  f_equal. by apply expiries_ext.
Qed.

Lemma vals_ok_cons_inv h k l : vals_ok h (k :: l) -> tv_ok (val h k) /\ vals_ok h l.
Proof. intros H. split; [apply H; by left|]. intros i Hi. apply H. by right. Qed.

(** Reprogramming from the head [k]: its delta grows by less than the
    granularity, nothing else moves. *)
Lemma rearm_head s b k l :
  chain (heap s) (event_queue s) (k :: l) -> NoDup (k :: l) ->
  vals_ok (heap s) (k :: l) -> gran_ok (g_granularity s) ->
  exists v d s', rearm b s k = Ret s' /\ s' = setitimer v (with_heap (heap s') s) /\
    0 <= d <= g_granularity s /\ v = val (heap s') k /\
    (forall base, expiries (heap s') base (k :: l) = expiries (heap s) (base + d) (k :: l)) /\
    vals_ok (heap s') (k :: l) /\
    (forall i, nx (heap s') i = nx (heap s) i) /\ length (heap s') = length (heap s).
Proof.
  intros (_ & n & Hn & _) Hnd Hok Hg. apply NoDup_cons in Hnd as [Hk _].
  apply vals_ok_cons_inv in Hok as [Hvk Hok].
  destruct (heap s !! k) as [ek|] eqn:Ek; [|unfold nx in Hn; by rewrite Ek in Hn].
  destruct (timerroundup_ok (val (heap s) k) (g_granularity s) Hg Hvk)
    as (v & Ev & Hv & Hset & Hge & Hlt & Hmin).
  assert (Hd : 0 <= us v - us (val (heap s) k) <= g_granularity s).
  { destruct Hlt as [?|Hz]; [lia|]. split; [lia|]. clear -Ev Hz Hvk Hg.
    unfold timerroundup, timerisset, us in *. destruct Hvk as [??].
    assert (tv_sec (val (heap s) k) = 0 /\ tv_usec (val (heap s) k) = 0) as [E1 E2] by lia.
    rewrite E1, E2 in *. simpl in Ev.
    destruct (Z.eqb_spec (g_granularity s) 0); [done|]. injection Ev as <-.
    destruct (ROUNDUP_spec 1 (g_granularity s) Hg) as (? & ? & _); simpl; lia. }
  assert (Hne : forall i, i ∈ l -> val (alter (set_value v) k (heap s)) i = val (heap s) i)
    by (intros i Hi; apply val_set_value_ne; by intros ->).
  exists v, (us v - us (val (heap s) k)), (setitimer v (update k (set_value v) s)).
  rewrite (rearm_ok b s k v ek) by (rewrite ?(get_val s k ek Ek); done).
  split_and!; simpl; try done; try lia.
  - by rewrite (val_set_value_same _ _ _ ek).
  - intros base. apply expiries_shift; [|done].
    rewrite (val_set_value_same _ _ _ ek) by done. lia.
  - intros i Hi. apply elem_of_cons in Hi as [->|Hi].
    + by rewrite (val_set_value_same _ _ _ ek).
    + rewrite Hne by done. by apply Hok.
  - intros i. apply nx_set_value.
  - apply length_alter.
Qed.

Section Cancel.
Context (s : tstate) (q f l1 l2 : list nat) (id : nat) (rem : timeval) (e : event).
Context (W : twf s q f) (Hsplit : q = l1 ++ id :: l2) (He : heap s !! id = Some e)
  (Hflag : has_flag (flags e) TFLAG_CANCELLED = false).

Lemma cancel_nodup : NoDup (l1 ++ id :: l2) /\ NoDup (id :: l1 ++ l2) /\
  NoDup ((l1 ++ l2) ++ f) /\ id ∉ f /\ (forall i, i ∈ f -> i ∉ q).
Proof.
  pose proof (w_nodup _ _ _ W) as H. pose proof H as H0. rewrite Hsplit in H.
  assert (H2 : NoDup (id :: (l1 ++ l2) ++ f)).
  { rewrite <- app_assoc in H. simpl in H. by rewrite <- Permutation_middle, app_assoc in H. }
  apply NoDup_app in H as (Hq & _ & _). split; [done|].
  split; [by rewrite <- Permutation_middle in Hq|].
  apply NoDup_cons in H2 as [Hni H2]. split; [done|]. split; [set_solver|].
  apply NoDup_app in H0 as (_ & Hdis & _). intros i Hi Hi'. by apply (Hdis i).
Qed.

(** timer_cancel up to the unlinking. *)
Lemma cancel_unfold :
  timer_cancel s id rem =
    (s ← cancel_found (block_timer s) id (last_loc PQueue l1) rem;
     e ← get s id;
     let s := update id (set_flags (Z.lor (flags e) TFLAG_CANCELLED)) s in
     Ret (unblock_timer s)).
Proof.
  destruct cancel_nodup as (Hnd & Hnd' & _). pose proof (w_queue _ _ _ W) as Hc.
  unfold timer_cancel. rewrite (get_Some s id e He). cbn [mbind outcome_bind].
  rewrite Hflag. erewrite (cancel_walk_found (block_timer s) id rem l1 l2); try done.
  - simpl. by rewrite <- Hsplit.
  - apply NoDup_cons in Hnd' as [Hni _]. set_solver.
  - unfold queue_fuel. simpl. pose proof (chain_length _ _ _ Hc) as Hl.
    rewrite Hsplit in Hl. specialize (Hl Hnd). rewrite length_app in Hl. simpl in Hl. lia.
Qed.

(** timer_cancel from the point where [id] is unlinked and [k] heads the
    queue. *)
Lemma cancel_rearmed s1 k l :
  cancel_found (block_timer s) id (last_loc PQueue l1) rem = rearm true s1 k ->
  l1 ++ l2 = k :: l -> chain (heap s1) (event_queue s1) (k :: l) ->
  vals_ok (heap s1) (k :: l) -> (forall i, i ∉ q -> nx (heap s1) i = nx (heap s) i) ->
  length (heap s1) = length (heap s) ->
  s1 = with_queue (event_queue s1) (with_heap (heap s1) (block_timer s)) ->
  exists s' d,
    timer_cancel s id rem = Ret s' /\ twf s' (l1 ++ l2) f /\
    0 <= d <= g_granularity s /\
    expiries (heap s') 0 (l1 ++ l2) = expiries (heap s1) d (l1 ++ l2).
Proof.
  intros Hmid Hl Hc' Hok1 Hnx' Hlen' Hs'.
  destruct cancel_nodup as (Hnd & Hnd' & Hndf & Hidf & Hfq). rewrite Hl in *.
  rewrite cancel_unfold, Hmid.
  destruct (rearm_head s1 true k l Hc')
    as (v & d & s2 & Er & Es2 & Hd & _ & Hex & Hok2 & Hnx2 & Hlen2); [|done| |].
  { by apply NoDup_app in Hndf as (? & _). }
  { rewrite Hs'. apply W. }
  assert (Hid2 : (id < length (heap s2))%nat)
    by (rewrite Hlen2, Hlen'; by eapply lookup_lt_Some).
  destruct (lookup_lt_is_Some_2 _ _ Hid2) as [e2 He2].
  rewrite Er. cbn [mbind outcome_bind]. rewrite (get_Some s2 id e2 He2).
  cbn [mbind outcome_bind]. eexists _, d. split; [reflexivity|].
  assert (Hgs : g_granularity s1 = g_granularity s) by (by rewrite Hs').
  rewrite Hgs in Hd. split_and!; [|lia|lia|].
  - apply (twf_finish s s2 q); try done.
    + assert (event_queue s2 = event_queue s1) as -> by (by rewrite Es2).
      eapply chain_ext; [|exact Hc']. intros i _. apply Hnx2.
    + intros i Hi. rewrite Hnx2, Hnx'; [done|]. by apply Hfq.
    + rewrite Hlen2, Hlen'. rewrite Es2, Hs'. apply W.
    + by rewrite Es2, Hs'.
    + rewrite Es2, Hs'. simpl. by rewrite (w_count _ _ _ W).
    + by rewrite Es2, Hs'.
  - rewrite (expiries_ext (heap s2)) by (intros i _; by apply val_alter_same).
    by rewrite Hex, Z.add_0_l.
Qed.

(** Cancelling a timer that is not the next to expire removes it and keeps
    the invariant, but its delta is not handed to its successor: the timers
    behind it now expire earlier by the full delta of the cancelled one (up to
    the rounding [d] of the head, which is also restarted with the full value
    it had when it was programmed). *)
Theorem timer_cancel_middle k l1' :
  l1 = k :: l1' ->
  exists s' d,
    timer_cancel s id rem = Ret s' /\ twf s' (l1 ++ l2) f /\
    0 <= d <= g_granularity s /\
    expiries (heap s) 0 q = expiries (heap s) 0 l1 ++ (id, sumd (heap s) l1 + us (val (heap s) id))
      :: expiries (heap s) (sumd (heap s) l1 + us (val (heap s) id)) l2 /\
    expiries (heap s') 0 (l1 ++ l2) =
      expiries (heap s) d l1 ++ expiries (heap s) (d + sumd (heap s) l1) l2.
Proof.
  intros Hl1. destruct cancel_nodup as (Hnd & Hnd' & Hndf & Hidf & Hfq).
  pose proof (w_queue _ _ _ W) as Hc. rewrite Hsplit in Hc.
  destruct (unlink_ok (block_timer s) id l1 l2 e) as (Hc' & Hv' & Hnx' & Hlen' & Hs'); try done.
  set (s1 := update id _ _) in *.
  assert (Hmid : cancel_found (block_timer s) id (last_loc PQueue l1) rem = rearm true s1 k).
  { assert (Hq : event_queue s = Some k) by (by rewrite Hl1 in Hc; destruct Hc).
    assert (Hq1 : event_queue s1 = Some k) by (by rewrite Hl1 in Hc'; destruct Hc').
    assert (Hk : k <> id) by (intros ->; rewrite Hl1 in Hnd'; inversion Hnd'; set_solver).
    unfold cancel_found. rewrite (get_Some (block_timer s) id e He). cbn [mbind outcome_bind].
    change (event_queue (block_timer s)) with (event_queue s). rewrite Hq, (proj2 (Nat.eqb_neq k id) Hk).
    destruct (next e) eqn:En; cbn [mbind outcome_bind]; fold s1; by rewrite Hq1. }
  clearbody s1.
  destruct (cancel_rearmed s1 k (l1' ++ l2) Hmid) as (s' & d & E & W' & Hd & Hex).
  { by rewrite Hl1. } { by rewrite Hl1 in Hc'. }
  { intros i Hi. rewrite Hv'. apply (w_vals _ _ _ W). rewrite Hsplit, Hl1. set_solver. }
  { intros i Hi. apply Hnx'. rewrite Hsplit in Hi. set_solver. } { done. } { done. }
  exists s', d. split_and!; [done|done|lia|lia| |].
  - rewrite Hsplit, expiries_app. cbn [expiries]. by rewrite !Z.add_0_l.
  - rewrite Hex, <- expiries_app. apply expiries_ext. intros i _. apply Hv'.
Qed.

Lemma timeradd_ok a b : tv_ok a -> tv_ok b -> tv_sec a + tv_sec b + 1 < 2 ^ 31 ->
  tv_ok (timeradd a b) /\ us (timeradd a b) = us a + us b.
Proof.
  unfold tv_ok, us, timeradd. intros [??] [??] Hs.
  rewrite !(s32_small (tv_sec a + tv_sec b)), !(s32_small (tv_usec a + tv_usec b))
    by (unfold is_s32; lia).
  destruct (Z.leb_spec 1000000 (tv_usec a + tv_usec b)); simpl;
    rewrite ?(s32_small (tv_sec a + tv_sec b + 1)) by (unfold is_s32; lia); lia.
Qed.

(** Cancelling the next timer to expire when [rem] of its interval is left:
    the module hands the part that has already passed to the successor, not
    the part that remains. The later timers, due [rem] plus their own deltas
    from now, are rescheduled at [delta - rem] plus their own deltas (up to the
    rounding [d]). *)
Theorem timer_cancel_head k l2' :
  l1 = [] -> l2 = k :: l2' -> tv_ok rem -> timer_lt (val (heap s) id) rem = false ->
  tv_sec (val (heap s) k) + tv_sec (val (heap s) id) + 2 < 2 ^ 31 ->
  exists s' d,
    timer_cancel s id rem = Ret s' /\ twf s' l2 f /\ 0 <= d <= g_granularity s /\
    expiries (heap s') 0 l2 =
      expiries (heap s) (us (val (heap s) id) - us rem + d) l2.
Proof.
  intros Hl1 Hl2 Hrem Hle Hov. destruct cancel_nodup as (Hnd & Hnd' & Hndf & Hidf & Hfq).
  pose proof (w_queue _ _ _ W) as Hc. rewrite Hsplit, Hl1, Hl2 in Hc. simpl in Hc.
  destruct Hc as (Hq & n0 & Hn0 & -> & nk & Hnk & Hc).
  assert (Hne : next e = Some k) by (unfold nx in Hn0; rewrite He in Hn0; by simplify_eq/=).
  destruct (heap s !! k) as [ek|] eqn:Ek; [|unfold nx in Hnk; by rewrite Ek in Hnk].
  assert (Hk : k <> id) by (intros ->; rewrite Hl1, Hl2 in Hnd'; inversion Hnd'; set_solver).
  assert (tv_ok (val (heap s) id) /\ tv_ok (val (heap s) k)) as [Hid Hvk]
    by (split; apply (w_vals _ _ _ W); rewrite Hsplit, Hl1, Hl2; set_solver).
  destruct (timersub_ok _ _ Hid Hrem Hle) as [V1 V2].
  set (v := timersub (val (heap s) id) rem) in *.
  destruct (timeradd_ok (val (heap s) k) v Hvk V1) as [A1 A2].
  { pose proof (us_nonneg _ Hrem). unfold us in V2, H. destruct V1, Hid. lia. }
  assert (Hvdef : timersub (it_value e) rem = v) by (by rewrite (get_val s id e He)).
  clearbody v.
  set (s0 := update k (set_value (timeradd (val (heap s) k) v))
               (update id (set_value v) (block_timer s))).
  assert (Hnx0 : forall i, nx (heap s0) i = nx (heap s) i)
    by (intros i; simpl; by rewrite !nx_set_value).
  assert (He0 : heap s0 !! id = Some (set_value v e)).
  { simpl. rewrite list_lookup_alter_ne, list_lookup_alter_eq, He by done. done. }
  assert (Hv0 : forall i, i <> id -> i <> k -> val (heap s0) i = val (heap s) i)
    by (intros i ??; simpl; by rewrite !val_set_value_ne by done).
  assert (Hvk0 : val (heap s0) k = timeradd (val (heap s) k) v).
  { simpl. apply (val_set_value_same _ _ _ ek). by rewrite list_lookup_alter_ne. }
  assert (Hfound : cancel_found (block_timer s) id (last_loc PQueue l1) rem =
    rearm true (update id (set_next None) (store s0 PQueue (next e))) k).
  { rewrite Hl1. unfold cancel_found. rewrite (get_Some (block_timer s) id e He).
    cbn [mbind outcome_bind]. change (event_queue (block_timer s)) with (event_queue s).
    rewrite Hq, Hne, Nat.eqb_refl, Hvdef.
    rewrite (get_Some (update id (set_value v) (block_timer s)) k ek)
      by (simpl; by rewrite list_lookup_alter_ne).
    cbn [mbind outcome_bind]. rewrite (get_val s k ek Ek). reflexivity. }
  destruct (unlink_ok s0 id [] l2 (set_value v e)) as (Hc' & Hv' & Hnx' & Hlen' & Hs').
  { simpl app. eapply chain_ext; [intros i _; apply Hnx0|].
    rewrite <- (app_nil_l (id :: l2)), <- Hl1, <- Hsplit. apply W. }
  { by rewrite Hl1 in Hnd. } { done. }
  change (update id (set_next None) (store s0 PQueue (next e))) with
    (update id (set_next None) (store s0 (last_loc PQueue []) (next (set_value v e)))) in Hfound.
  set (s1 := update id (set_next None) (store s0 _ _)) in *. clearbody s1.
  assert (Hval1 : forall i, i ∈ l2' -> val (heap s1) i = val (heap s) i).
  { intros i Hi. rewrite Hv'. rewrite Hl1, Hl2 in Hnd'. inversion Hnd' as [|? ? A B]; subst.
    inversion B; subst. apply Hv0; set_solver. }
  assert (Hvk1 : us (val (heap s1) k) = us (val (heap s) k) + us v)
    by (rewrite Hv', Hvk0; exact A2).
  destruct (cancel_rearmed s1 k l2' Hfound) as (s' & d & E & W' & Hd & Hex).
  { by rewrite Hl1, Hl2. } { by rewrite Hl2 in Hc'. }
  { intros i Hi. apply elem_of_cons in Hi as [->|Hi]; [by rewrite Hv', Hvk0|].
    rewrite Hval1 by done. apply (w_vals _ _ _ W). rewrite Hsplit, Hl2. set_solver. }
  { intros i Hi. rewrite Hnx'; [apply Hnx0|]. rewrite Hsplit in Hi. set_solver. }
  { rewrite Hlen'. simpl. by rewrite !length_alter. }
  { rewrite Hs' at 1. done. }
  rewrite Hl1 in W', Hex. exists s', d. split_and!; [done|done|lia|lia|].
  simpl app in Hex. rewrite Hex, Hl2.
  rewrite (expiries_shift (heap s) (heap s1) d (us v)) by done. f_equal. lia.
Qed.
End Cancel.

(** ** Re-arming a timer that is still queued *)

Lemma self_insert s id : event_queue s = Some id -> nx (heap s) id = Some None ->
  exists s', insert_event s id = Ret s' /\ event_queue s' = Some id /\
    nx (heap s') id = Some (Some id).
Proof.
  intros Hq Hn. unfold nx in Hn. apply fmap_Some in Hn as (e & He & Hne).
  assert (Hl : (id < length (heap s))%nat) by (by eapply lookup_lt_Some).
  unfold insert_event, queue_fuel. destruct (length (heap s)) as [|m] eqn:El; [lia|].
  cbn [march load]. rewrite Hq. cbn [mbind outcome_bind].
  rewrite (get_Some s id e He). cbn [mbind outcome_bind]. rewrite timer_lt_irrefl.
  set (s1 := update id (set_value _) s).
  assert (heap s1 !! id = Some (set_value (timersub (it_value e) (it_value e)) e)) as H1
    by (simpl; by rewrite list_lookup_alter_eq, He).
  rewrite (get_Some s1 id _ H1). cbn [mbind outcome_bind next set_value]. rewrite <- Hne.
  unfold link. cbn [mbind outcome_bind load]. rewrite (get_Some s1 id _ H1).
  cbn [mbind outcome_bind]. eexists. split; [reflexivity|]. split; [done|].
  simpl. apply nx_set_next_same. by rewrite !length_alter, El.
Qed.

Lemma self_loop_exits s id : nx (heap s) id = Some (Some id) ->
  forall k, check_walk k s (Some id) = Exit 1.
Proof.
  intros Hn. unfold nx in Hn. apply fmap_Some in Hn as (e & He & Hne).
  induction k as [|k IH]; [done|]. simpl. rewrite (get_Some s id e He). simpl.
  by rewrite <- Hne.
Qed.

(** Calling timer_settime on the only armed timer links its event to
    itself; check_event_queue then finds a list longer than the number of
    events and ends the process with exit code 1. *)
Theorem timer_settime_armed_exits s f id interval value rem :
  twf s [id] f -> valid_spec value -> tv_ok rem ->
  timerisset (timespec_to_timeval value) = true ->
  timer_settime s id interval value rem = Exit 1.
Proof.
  intros W Hvalue Hrem Hset.
  pose proof (w_queue _ _ _ W) as (Hq & n & Hn & Hn0). simpl in Hn0. subst n.
  assert (Hid : (id < length (heap s))%nat)
    by (unfold nx in Hn; apply fmap_Some in Hn as (e & He & _); by eapply lookup_lt_Some).
  destruct (timerroundup_ok (timespec_to_timeval value) (g_granularity s) (w_gran _ _ _ W)
              (valid_spec_ok _ Hvalue)) as (v & Ev & _).
  rewrite (settime_unfold s [id] f id interval value rem W Hid v Hset Ev).
  destruct (self_insert (settime_ready s [id] id interval value rem v) id)
    as (s' & -> & Hq' & Hn'); [done|by rewrite ready_nx|].
  cbn [mbind outcome_bind]. unfold check_event_queue. rewrite Hq'.
  by rewrite (self_loop_exits s' id).
Qed.

(** ** Allocation *)

Lemma init_chain n : forall m i, (i + m = n)%nat ->
  chain (init_event n <$> seq 0 n) (if (i <? n)%nat then Some i else None) (seq i m).
Proof.
  induction m as [|m IH]; intros i Hi; simpl.
  - rewrite (proj2 (Nat.ltb_ge i n)) by lia. done.
  - rewrite (proj2 (Nat.ltb_lt i n)) by lia. split; [done|].
    exists (if (S i <? n)%nat then Some (S i) else None). split; [|apply IH; lia].
    unfold nx. rewrite list_lookup_fmap, lookup_seq_lt by lia. simpl. f_equal.
    destruct (Nat.ltb_spec i (n - 1)), (Nat.ltb_spec (S i) n); done || lia.
Qed.

(** init_event_queue establishes the invariant, with an empty queue and
    all the events on the free list. *)
Theorem init_event_queue_ok n gran s :
  (0 < n)%nat -> gran_ok gran -> event_queue s = None -> block_count s = 0 ->
  blocked s = false ->
  exists s', init_event_queue n gran s = Ret s' /\ twf s' [] (seq 0 n).
Proof.
  intros Hn Hg Hq Hb Hs. destruct n as [|n]; [lia|]. eexists. split; [reflexivity|].
  split; try done.
  - apply (init_chain (S n) (S n) 0). lia.
  - apply NoDup_seq.
  - intros i Hi. by apply elem_of_nil in Hi.
  - simpl. by rewrite length_fmap, length_seq.
Qed.

(** timer_create hands out the first free event, which is on neither list
    afterwards, and leaves the pending timers alone; with no free event the
    process is aborted. *)
Theorem timer_create_ok s q f :
  twf s q f ->
  match f with
  | i :: f' => exists s', timer_create s = Ret (s', i) /\ twf s' q f' /\
                 i ∉ q ++ f' /\ nx (heap s') i = Some None /\
                 expiries (heap s') 0 q = expiries (heap s) 0 q
  | [] => timer_create s = Exit 134
  end.
Proof.
  intros W. pose proof (w_free _ _ _ W) as Hf. pose proof (w_nodup _ _ _ W) as Hnd.
  unfold timer_create. destruct f as [|i f']; [by rewrite Hf|].
  destruct Hf as (-> & n & Hn & Hf). rewrite <- Permutation_middle in Hnd.
  apply NoDup_cons in Hnd as [Hi Hnd].
  destruct (heap s !! i) as [e|] eqn:Ei; [|unfold nx in Hn; by rewrite Ei in Hn].
  rewrite (get_Some s i e Ei). cbn [mbind outcome_bind].
  set (s1 := update i _ _).
  assert (Hnx : forall j, j <> i -> nx (heap s1) j = nx (heap s) j).
  { intros j Hj. simpl. rewrite nx_set_next_ne by done. by apply nx_alter_same. }
  assert (Hval : forall j, val (heap s1) j = val (heap s) j).
  { intros j. simpl. rewrite val_set_next. by apply val_alter_same. }
  assert (Hc : chain (heap s1) (event_queue s1) q).
  { eapply chain_ext; [|apply W]. intros j Hj. apply Hnx. set_solver. }
  assert (Hlen : length (heap s1) = length (heap s)) by (simpl; by rewrite !length_alter).
  assert (Hmax : g_maxevents s1 = length (heap s1)) by (rewrite Hlen; apply W).
  apply NoDup_app in Hnd as Hndq. destruct Hndq as (Hndq & _).
  rewrite (check_event_queue_ok s1 q) by done. cbn [mbind outcome_bind].
  exists s1. split_and!; [done| |done| |].
  - split; try done; try apply W.
    + unfold nx in Hn. rewrite Ei in Hn. simplify_eq/=.
      eapply chain_ext; [|exact Hf]. intros j Hj. apply Hnx. set_solver.
    + intros j Hj. rewrite Hval. by apply W.
  - simpl. apply nx_set_next_same. rewrite length_alter. by eapply lookup_lt_Some.
  - apply expiries_ext. intros j _. apply Hval.
Qed.

(** ** The alarm *)

Section AlarmProofs.
Context (call : nat -> nat -> Z -> tstate -> outcome tstate).
(** The user routines leave the timers alone. *)
Context (call_pure : forall fn id a s, call fn id a s = Ret s).

(** One expiry while SIGALRM is blocked: the head is taken off and, when it is
    recurring and not cancelled, inserted again one interval from now. *)
Definition requeued (s : tstate) (i : nat) (l q' : list nat) (s' : tstate) : Prop :=
  match heap s !! i with
  | Some e =>
      if has_flag (flags e) TFLAG_CANCELLED then q' = l /\ heap s' = alter (set_next None) i (heap s)
      else if timerisset (it_interval e) then
        exists v, timerroundup (it_interval e) (g_granularity s) = Ret v /\
          inserted (i, us v) (expiries (heap s) 0 l) (expiries (heap s') 0 q')
      else q' = l /\ heap s' = alter (set_next None) i (heap s)
  | None => False
  end.

(** One pass of the alarm loop over a non-empty queue returns, keeps the
    queue well formed and requeues the expired timer exactly when it recurs. *)
Theorem alarm_body_ok s i l e fn :
  chain (heap s) (event_queue s) (i :: l) -> NoDup (i :: l) ->
  vals_ok (heap s) (i :: l) -> gran_ok (g_granularity s) ->
  g_maxevents s = length (heap s) ->
  heap s !! i = Some e -> func e = Some fn -> tv_ok (it_interval e) ->
  exists s' q', alarm_body call s = Ret s' /\
    chain (heap s') (event_queue s') q' /\ vals_ok (heap s') q' /\
    q' ⊆+ i :: l /\ requeued s i l q' s'.
Proof.
  intros (Hq & n & Hn & Hc) Hnd Hok Hg Hmax He Hfn Hint.
  apply NoDup_cons in Hnd as [Hil Hnd]. apply vals_ok_cons_inv in Hok as [Hvi Hok].
  assert (n = next e) as -> by (unfold nx in Hn; rewrite He in Hn; by simplify_eq/=).
  set (s1 := update i (set_next None) (with_queue (next e) s)).
  assert (Hc1 : chain (heap s1) (event_queue s1) l).
  { eapply chain_ext; [|exact Hc]. intros j Hj. apply nx_set_next_ne. by intros ->. }
  assert (He1 : heap s1 !! i = Some (set_next None e))
    by (simpl; by rewrite list_lookup_alter_eq, He).
  assert (Hok1 : vals_ok (heap s1) l) by (intros j Hj; simpl; rewrite val_set_next; by apply Hok).
  assert (Hmax1 : g_maxevents s1 = length (heap s1)) by (simpl; by rewrite length_alter).
  unfold alarm_body. rewrite Hq. cbn [deref mbind outcome_bind].
  rewrite (get_Some s i e He). cbn [mbind outcome_bind]. fold s1. rewrite Hfn.
  cbn [deref mbind outcome_bind]. rewrite call_pure. cbn [mbind outcome_bind].
  rewrite (get_Some s1 i _ He1). cbn [mbind outcome_bind flags set_next it_interval].
  unfold requeued. rewrite He.
  destruct (has_flag (flags e) TFLAG_CANCELLED); [|destruct (timerisset (it_interval e))].
  1, 3: cbn [mbind outcome_bind]; rewrite (check_event_queue_ok s1 l) by done;
    exists s1, l; split_and!; try done; by apply submseteq_cons.
  destruct (timerroundup_ok (it_interval e) (g_granularity s) Hg Hint) as (v & Ev & Hv & _).
  change (g_granularity s1) with (g_granularity s). rewrite Ev. cbn [mbind outcome_bind].
  set (s2 := update i (set_value v) s1).
  assert (Hv2 : forall j, j ∈ l -> val (heap s2) j = val (heap s) j).
  { intros j Hj. simpl. rewrite val_set_value_ne by (by intros ->). apply val_set_next. }
  assert (Hvi2 : val (heap s2) i = v) by (by eapply val_set_value_same).
  destruct (insert_ok s2 l i) as (s3 & q' & -> & Hp & Hc3 & Hs3 & Hins & Hok3 & Hlen3 & _).
  { eapply chain_ext; [intros; apply nx_set_value|exact Hc1]. }
  { by apply NoDup_cons. }
  { simpl. rewrite !length_alter. by eapply lookup_lt_Some. }
  { intros j Hj. apply elem_of_cons in Hj as [->|Hj]; [by rewrite Hvi2|].
    rewrite Hv2 by done. by apply Hok. }
  cbn [mbind outcome_bind]. rewrite (check_event_queue_ok s3 q'); [|done| |].
  - cbn [mbind outcome_bind]. exists s3, q'. split_and!; try done; [by rewrite Hp|].
    exists v. split; [done|]. rewrite Hvi2 in Hins.
    by rewrite (expiries_ext (heap s) (heap s2)) in Hins.
  - rewrite Hp. by apply NoDup_cons.
  - rewrite Hlen3, Hs3. simpl. by rewrite !length_alter.
Qed.
End AlarmProofs.

(** ** Witnesses

    Two armed timers (0 due in 20 ms, 1 due 30 ms later), an idle one (2) and a
    free one (3), on the 10 ms clock of the target. *)

Definition demo_event (delta : Z) (n : option nat) : event :=
  Event (TV 0 50000) (TV 0 delta) (Some 7%nat) 0 0 n.

Definition demo : tstate :=
  TState [demo_event 20000 (Some 1%nat); demo_event 30000 None; demo_event 0 None;
          demo_event 0 None]
    (Some 0%nat) (Some 3%nat) 10000 4 0 false (TV 0 20000).

Definition demo_one : tstate :=
  TState [demo_event 20000 None; demo_event 0 None]
    (Some 0%nat) (Some 1%nat) 10000 2 0 false (TV 0 20000).

Lemma gran_10ms : gran_ok 10000.
Proof. split; [lia|]. by exists 100. Qed.

Lemma demo_wf : twf demo [0%nat; 1%nat] [3%nat].
Proof.
  split; try done; simpl.
  - eauto 10.
  - eauto.
  - nodup_concrete.
  - unfold vals_ok, tv_ok. intros i Hi.
    repeat (apply elem_of_cons in Hi as [->|Hi]; [cbv; split; split; discriminate || done|]).
    by apply elem_of_nil in Hi.
  - apply gran_10ms.
Qed.

Lemma demo_one_wf : twf demo_one [0%nat] [1%nat].
Proof.
  split; try done; simpl.
  - eauto 10.
  - eauto.
  - nodup_concrete.
  - unfold vals_ok, tv_ok. intros i Hi.
    repeat (apply elem_of_cons in Hi as [->|Hi]; [cbv; split; split; discriminate || done|]).
    by apply elem_of_nil in Hi.
  - apply gran_10ms.
Qed.

Lemma timer_settime_inserts_witness :
  exists s' q', timer_settime demo 2 (TS 0 0) (TS 0 25000000) (TV 0 15000) = Ret (s', 0) /\
    twf s' q' [3%nat].
Proof.
  destruct (timer_settime_inserts demo [0%nat; 1%nat] [3%nat] 2 (TS 0 0) (TS 0 25000000)
              (TV 0 15000) demo_wf) as (s' & q' & v & E & _ & _ & _ & W & _).
  - simpl. lia.
  - set_solver.
  - set_solver.
  - unfold valid_spec; simpl; lia.
  - unfold tv_ok; simpl; lia.
  - reflexivity.
  - by exists s', q'.
Defined.

Lemma timer_cancel_middle_witness :
  exists s', timer_cancel demo 1 (TV 0 15000) = Ret s' /\ twf s' [0%nat] [3%nat].
Proof.
  destruct (timer_cancel_middle demo [0%nat; 1%nat] [3%nat] [0%nat] [] 1 (TV 0 15000)
              (demo_event 30000 None) demo_wf eq_refl eq_refl eq_refl 0%nat [] eq_refl)
    as (s' & d & E & W & _).
  by exists s'.
Defined.

Lemma timer_cancel_head_witness :
  exists s', timer_cancel demo 0 (TV 0 15000) = Ret s' /\ twf s' [1%nat] [3%nat].
Proof.
  destruct (timer_cancel_head demo [0%nat; 1%nat] [3%nat] [] [1%nat] 0 (TV 0 15000)
              (demo_event 20000 (Some 1%nat)) demo_wf eq_refl eq_refl eq_refl 1%nat [] eq_refl eq_refl)
    as (s' & d & E & W & _).
  - unfold tv_ok; simpl; lia.
  - reflexivity.
  - simpl. lia.
  - by exists s'.
Defined.

Lemma timer_settime_armed_exits_witness :
  timer_settime demo_one 0 (TS 0 0) (TS 1 0) (TV 0 15000) = Exit 1.
Proof.
  apply (timer_settime_armed_exits demo_one [1%nat]).
  - apply demo_one_wf.
  - unfold valid_spec; simpl; lia.
  - unfold tv_ok; simpl; lia.
  - reflexivity.
Defined.

Lemma init_event_queue_ok_witness :
  exists s', init_event_queue 4 10000 (TState [] None None 0 0 0 false (TV 0 0)) = Ret s' /\
    twf s' [] (seq 0 4).
Proof.
  apply (init_event_queue_ok 4 10000 (TState [] None None 0 0 0 false (TV 0 0)));
    [lia|apply gran_10ms|done|done|done].
Defined.

Lemma timer_create_ok_witness :
  exists s', timer_create demo = Ret (s', 3%nat) /\ twf s' [0%nat; 1%nat] [].
Proof.
  destruct (timer_create_ok demo [0%nat; 1%nat] [3%nat] demo_wf) as (s' & E & W & _).
  by exists s'.
Defined.

Lemma alarm_body_ok_witness :
  exists s' q', alarm_body (fun _ _ _ s => Ret s) demo = Ret s' /\
    chain (heap s') (event_queue s') q'.
Proof.
  destruct (alarm_body_ok (fun _ _ _ s => Ret s) (fun _ _ _ _ => eq_refl) demo 0 [1%nat]
              (demo_event 20000 (Some 1%nat)) 7) as (s' & q' & E & Hc & _).
  - apply demo_wf.
  - nodup_concrete.
  - apply demo_wf.
  - apply gran_10ms.
  - reflexivity.
  - reflexivity.
  - reflexivity.
  - unfold tv_ok; simpl; lia.
  - by exists s', q'.
Defined.
