(* ===== verification/CString.v ===== *)
(** * The C library routines on text the firmware uses

    A NUL-terminated string is a [string] without NUL; a pointer into a string
    is the suffix it points to. The routines follow the C standard and, where
    the standard leaves a choice (inet_aton, overflow of atoi), uClibc. *)

From Stdlib Require Import ZArith Lia Ascii.
From stdpp Require Import base numbers sets strings list.
From S2P Require Import Prelude.
Open Scope Z_scope.

(** ** Characters *)

Definition code (c : ascii) : Z := Z.of_N (N_of_ascii c).
Definition chr (z : Z) : ascii := ascii_of_N (Z.to_N (z mod 256)).
Definition in_range (lo hi : Z) (c : ascii) : bool := (lo <=? code c) && (code c <=? hi).
Definition isdigit (c : ascii) : bool := in_range 48 57 c.
Definition isupper (c : ascii) : bool := in_range 65 90 c.
Definition islower (c : ascii) : bool := in_range 97 122 c.
Definition isspace (c : ascii) : bool := (code c =? 32) || in_range 9 13 c.
Definition isxdigit (c : ascii) : bool := isdigit c || in_range 65 70 c || in_range 97 102 c.
Definition tolower (c : ascii) : ascii := if isupper c then chr (code c + 32) else c.

Definition is_char (d c : ascii) : bool := bool_decide (c = d).
Definition one_of (set : string) (c : ascii) : bool :=
  existsb (fun d => is_char d c) (String.list_ascii_of_string set).

(** ** Searching *)

(** [skip p s] is [s + strspn(s, p)]; [upto p s] the prefix before the first
    character of [p] and [from p s] the rest, [s + strcspn(s, p)]. *)
Fixpoint skip (p : ascii -> bool) (s : string) : string :=
  match s with
  | EmptyString => EmptyString
  | String c s' => if p c then skip p s' else s
  end.

Fixpoint upto (p : ascii -> bool) (s : string) : string :=
  match s with
  | EmptyString => EmptyString
  | String c s' => if p c then EmptyString else String c (upto p s')
  end.

Fixpoint from (p : ascii -> bool) (s : string) : string :=
  match s with
  | EmptyString => EmptyString
  | String c s' => if p c then s else from p s'
  end.

Definition strchr (s : string) (c : ascii) : option string :=
  match from (is_char c) s with EmptyString => None | t => Some t end.

Definition strlen (s : string) : Z := Z.of_nat (String.length s).

Fixpoint starts_with (t s : string) : option string :=
  match t, s with
  | EmptyString, _ => Some s
  | String a t', String b s' => if bool_decide (a = b) then starts_with t' s' else None
  | _, _ => None
  end.

(** The suffix of [s] at the first occurrence of [t]. *)
Fixpoint strstr (s t : string) : option string :=
  match starts_with t s with
  | Some _ => Some s
  | None => match s with EmptyString => None | String _ s' => strstr s' t end
  end.

Fixpoint map_string (f : ascii -> ascii) (s : string) : string :=
  match s with
  | EmptyString => EmptyString
  | String c s' => String (f c) (map_string f s')
  end.

Definition strcasecmp_eq (a b : string) : bool :=
  bool_decide (map_string tolower a = map_string tolower b).

(** [strsep(&p, c)]: the token, and the new value of [p] ([None] for NULL). *)
Definition strsep (s : string) (c : ascii) : string * option string :=
  (upto (is_char c) s,
   match from (is_char c) s with EmptyString => None | String _ t => Some t end).

(** [strtok]: the next token and what remains of the string. *)
Definition strtok (s : string) (delim : string) : option (string * string) :=
  match skip (one_of delim) s with
  | EmptyString => None
  | t => Some (upto (one_of delim) t,
               match from (one_of delim) t with EmptyString => EmptyString | String _ r => r end)
  end.

(** ** The [foreach] macro of shutils.h and macip.c

    The words of a blank-separated list, one after the other, in a buffer of
    [size] bytes. A word that does not fit leaves the buffer without its NUL
    when [strcspn] reads it, which is undefined. *)
Section Foreach.
Context {St : Type}.
Fixpoint foreach_loop (fuel : nat) (size : Z) (next : string)
    (body : string -> St -> outcome St) (st : St) : outcome St :=
  match fuel with
  | O => Running
  | S fuel =>
      let start := skip (is_char " ") next in
      if size <=? strlen (upto (is_char " ") start) then Fault else
      let word := upto (is_char " ") start in
      if bool_decide (word = EmptyString) then Ret st else
      st ← body word st;
      foreach_loop fuel size (from (is_char " ") start) body st
  end.

Definition foreach (size : Z) (wordlist : string) (body : string -> St -> outcome St)
    (st : St) : outcome St :=
  foreach_loop (S (String.length wordlist)) size wordlist body st.
End Foreach.

(** ** Numbers *)

Definition digit_value (c : ascii) : option Z :=
  if isdigit c then Some (code c - 48)
  else if islower c then Some (code c - 97 + 10)
  else if isupper c then Some (code c - 65 + 10)
  else None.

(** The digits of [base] at the front of [s], the rest, and whether there was
    one; the value is not bounded here. *)
Fixpoint digits (base : Z) (s : string) (acc : Z) : Z * string :=
  match s with
  | EmptyString => (acc, EmptyString)
  | String c s' =>
      match digit_value c with
      | Some d => if d <? base then digits base s' (acc * base + d) else (acc, s)
      | None => (acc, s)
      end
  end.

Definition has_digit (base : Z) (s : string) : bool :=
  match s with
  | EmptyString => false
  | String c _ => match digit_value c with Some d => d <? base | None => false end
  end.

Definition sign (s : string) : bool * string :=
  match s with
  | String "-" s' => (true, s')
  | String "+" s' => (false, s')
  | _ => (false, s)
  end.

(** The base prefix: [0x] counts when a hexadecimal digit follows it. *)
Definition base_prefix (base : Z) (s : string) : Z * string :=
  match s with
  | String "0" (String x s') =>
      if ((base =? 16) || (base =? 0)) && one_of "xX" x && has_digit 16 s' then (16, s')
      else ((if base =? 0 then 8 else base), s)
  | String "0" EmptyString => ((if base =? 0 then 8 else base), s)
  | _ => ((if base =? 0 then 10 else base), s)
  end.

(** Unbounded value with sign, and the end pointer ([s] itself without digits). *)
Definition strtoz (s : string) (base : Z) : Z * bool * string :=
  let '(neg, t) := sign (skip isspace s) in
  let '(b, t) := base_prefix base t in
  if has_digit b t then let '(v, e) := digits b t 0 in (v, neg, e)
  else (0, false, s).

Definition ULONG_MAX : Z := 2 ^ 32 - 1.
Definition LONG_MAX : Z := 2 ^ 31 - 1.
Definition LONG_MIN : Z := - 2 ^ 31.

Definition strtoul (s : string) (base : Z) : Z * string :=
  let '(v, neg, e) := strtoz s base in
  (if ULONG_MAX <? v then ULONG_MAX else if (neg : bool) then u32 (- v) else v, e).

Definition strtol (s : string) (base : Z) : Z * string :=
  let '(v, neg, e) := strtoz s base in
  let v := if (neg : bool) then - v else v in
  (if LONG_MAX <? v then LONG_MAX else if v <? LONG_MIN then LONG_MIN else v, e).

Definition atoi (s : string) : Z := (strtol s 10).1.

(** ** Dotted addresses *)

(** One component: at most 255, at least one digit. *)
Fixpoint octet (s : string) (value : Z) : option (Z * string) :=
  match s with
  | String c s' =>
      if isdigit c then
        let v := value * 10 + (code c - 48) in
        if 255 <? v then None else octet s' v
      else Some (value, s)
  | EmptyString => Some (value, s)
  end.

Fixpoint aton_parts (part : nat) (s : string) (addr : Z) : option Z :=
  match s with
  | EmptyString => None
  | String c _ =>
      if isdigit c then
        match octet s 0 with
        | None => None
        | Some (v, s) =>
            match part with
            | O => match s with
                   | EmptyString => Some (addr * 256 + v)
                   | String c _ => if isspace c then Some (addr * 256 + v) else None
                   end
            | S part => match s with
                   | String "." s => aton_parts part s (addr * 256 + v)
                   | _ => None
                   end
            end
        end
      else None
  end.

(** The address in network order. *)
Definition inet_aton (s : string) : option Z := htonl <$> aton_parts 3 s 0.
Definition INADDR_NONE : Z := 2 ^ 32 - 1.
Definition inet_addr (s : string) : Z := default INADDR_NONE (inet_aton s).

(** Decimal and hexadecimal output. *)
Fixpoint dec_loop (fuel : nat) (z : Z) (acc : string) : string :=
  match fuel with
  | O => acc
  | S fuel =>
      let acc := String (chr (48 + z mod 10)) acc in
      if z <? 10 then acc else dec_loop fuel (z / 10) acc
  end.
Definition dec (z : Z) : string :=
  if z <? 0 then String "-" (dec_loop 12 (- z) EmptyString) else dec_loop 12 z EmptyString.

(** Reading "%d.%d.%d.%d": the fields found, at most [n] + 1. *)
Fixpoint scan_dotted (n : nat) (s : string) : list Z :=
  let '(v, e) := strtol s 10 in
  if bool_decide (e = s) then []
  else v :: match n, e with S n, String "." e => scan_dotted n e | _, _ => [] end.

Definition hex_digit (upper : bool) (d : Z) : ascii :=
  chr (if d <? 10 then 48 + d else (if upper then 55 else 87) + d).
Definition hex2 (b : Z) : string :=
  String (hex_digit true (b / 16)) (String (hex_digit true (b mod 16)) EmptyString).
(** "%08x" *)
Definition hex8 (x : Z) : string :=
  foldr (fun i acc => String (hex_digit false (Z.land (Z.shiftr x (4 * i)) 15)) acc)
    EmptyString [7; 6; 5; 4; 3; 2; 1; 0].

Open Scope string_scope.
Definition inet_ntoa (a : Z) : string :=
  dec (byte_at a 0) +:+ "." +:+ dec (byte_at a 1) +:+ "." +:+
  dec (byte_at a 2) +:+ "." +:+ dec (byte_at a 3).
Close Scope string_scope.

(** ** Blank-separated fields, as [sscanf] with "%s %s ..." stores them *)
Fixpoint scan_tokens (n : nat) (s : string) : list string :=
  match n with
  | O => []
  | S n =>
      match skip isspace s with
      | EmptyString => []
      | t => upto isspace t :: scan_tokens n (from isspace t)
      end
  end.

(** ** Strings and buffers of bytes *)
Definition bytes_of (s : string) : list Z := code <$> String.list_ascii_of_string s.
(** The string a buffer holds, up to its NUL. *)
Fixpoint string_of (l : list Z) : string :=
  match l with
  | [] => EmptyString
  | b :: l => if b =? 0 then EmptyString else String (chr b) (string_of l)
  end.
(** [strncpy(buf, s, n)] for a whole buffer of [n] bytes. *)
Definition strncpy_buf (n : nat) (s : list Z) : list Z :=
  take n s ++ replicate (n - length s) 0.
Fixpoint cstr (l : list Z) : list Z :=
  match l with
  | [] => []
  | b :: l => if b =? 0 then [] else b :: cstr l
  end.

(** * Lemmas *)

Lemma code_range c : is_u8 (code c).
Proof. unfold is_u8, code. pose proof (N_ascii_bounded c). lia. Qed.

Lemma code_chr z : is_u8 z -> code (chr z) = z.
Proof.
  unfold is_u8, code, chr. intros Hz. rewrite N_ascii_embedding.
  - rewrite Z.mod_small by (change 256 with (2 ^ 8); lia). lia.
  - rewrite Z.mod_small by (change 256 with (2 ^ 8); lia).
    change 256%N with (Z.to_N (2 ^ 8)). lia.
Qed.

Lemma chr_code c : chr (code c) = c.
Proof.
  unfold chr. pose proof (code_range c) as Hc. unfold is_u8 in Hc.
  rewrite Z.mod_small by (change 256 with (2 ^ 8); lia).
  unfold code. rewrite N2Z.id. apply ascii_N_embedding.
Qed.

Lemma upto_from p s : (upto p s +:+ from p s)%string = s.
Proof. induction s as [|c s IH]; simpl; [done|]. destruct (p c); [done|]. change (String c (upto p s +:+ from p s)%string = String c s). by f_equal. Qed.

Lemma skip_length p s : (String.length (skip p s) <= String.length s)%nat.
Proof. induction s as [|c s IH]; simpl; [lia|]. destruct (p c); simpl; lia. Qed.

Lemma from_length p s :
  (String.length (from p s) + String.length (upto p s) = String.length s)%nat.
Proof. induction s as [|c s IH]; simpl; [lia|]. destruct (p c); simpl; lia. Qed.


(** The loop of [foreach] ends: every word takes at least one character. *)
Lemma foreach_loop_ends {St} (body : string -> St -> outcome St) size :
  (forall w st, body w st <> Running) ->
  forall fuel s st, (String.length s < fuel)%nat ->
  foreach_loop fuel size s body st <> Running.
Proof.
  intros Hb. induction fuel as [|fuel IH]; intros s st Hf; [lia|].
  cbn [foreach_loop]. case_if; [done|]. case_bool_decide as Hw; [done|].
  pose proof (Hb (upto (is_char " ") (skip (is_char " ") s)) st) as Hn.
  destruct (body _ st) as [st'| | |]; try done. cbn [mbind outcome_bind]. apply IH.
  pose proof (from_length (is_char " ") (skip (is_char " ") s)).
  pose proof (skip_length (is_char " ") s).
  destruct (upto (is_char " ") (skip (is_char " ") s)); [done|]. simpl in *. lia.
Qed.

Lemma foreach_ends {St} (body : string -> St -> outcome St) size s st :
  (forall w st, body w st <> Running) -> foreach size s body st <> Running.
Proof. intros Hb. apply foreach_loop_ends; [done|]. lia. Qed.

(** An invariant of the body is an invariant of the loop. *)
Lemma foreach_inv {St} (P : St -> Prop) (body : string -> St -> outcome St) size s st st' :
  (forall w x y, body w x = Ret y -> P x -> P y) ->
  foreach size s body st = Ret st' -> P st -> P st'.
Proof.
  intros Hb. unfold foreach. generalize (S (String.length s)). intros fuel.
  revert s st. induction fuel as [|fuel IH]; intros s st Hrun Hp; [done|].
  cbn [foreach_loop] in Hrun. case_if; [done|]. case_bool_decide; [by injection Hrun as <-|].
  apply bind_Ret_inv in Hrun as (st1 & H1 & Hrun). eauto.
Qed.

(** ** Strings as lists of characters *)
Open Scope string_scope.
Open Scope Z_scope.
Open Scope list_scope.

Lemma strlen_cons c s : strlen (String c s) = strlen s + 1.
Proof. unfold strlen. simpl. lia. Qed.
Lemma strlen_nonneg s : 0 <= strlen s.
Proof. unfold strlen. lia. Qed.

Lemma list_ascii_app a b :
  String.list_ascii_of_string (a +:+ b) = String.list_ascii_of_string a ++ String.list_ascii_of_string b.
Proof. induction a as [|c a IH]; [done|]. simpl. f_equal. exact IH. Qed.

Lemma length_ascii s : Z.of_nat (length (String.list_ascii_of_string s)) = strlen s.
Proof. induction s as [|c s IH]; [done|]. rewrite strlen_cons, <- IH. simpl. lia. Qed.

Lemma string_app_assoc a b c : (a +:+ b) +:+ c = a +:+ (b +:+ c).
Proof.
  induction a as [|x a IH]; [done|].
  change (String x ((a +:+ b) +:+ c) = String x (a +:+ (b +:+ c))). by f_equal.
Qed.

Lemma strlen_app a b : strlen (a +:+ b) = strlen a + strlen b.
Proof.
  induction a as [|x a IH]; [done|]. change (String x a +:+ b) with (String x (a +:+ b)).
  rewrite !strlen_cons, IH. lia.
Qed.

Lemma slength_app a b : String.length (a +:+ b) = (String.length a + String.length b)%nat.
Proof. induction a as [|c a IH]; [done|]. simpl. by f_equal. Qed.

Lemma substring_rest a b n :
  (String.length b <= n)%nat -> String.substring (String.length a) n (a +:+ b) = b.
Proof.
  intros Hn. induction a as [|c a IH]; [|exact IH]. change ("" +:+ b) with b. cbn [String.length].
  revert n Hn. induction b as [|c b IH]; intros n Hn; [by destruct n|].
  destruct n as [|n]; simpl in Hn; [lia|]. simpl. f_equal. apply IH. lia.
Qed.

(** ** Strings without a character *)

Definition avoids (p : ascii -> bool) (s : string) : bool :=
  forallb (fun c => negb (p c)) (String.list_ascii_of_string s).

Lemma avoids_cons p c s : avoids p (String c s) = true <-> p c = false /\ avoids p s = true.
Proof. unfold avoids. simpl. by rewrite andb_true_iff, negb_true_iff. Qed.

Lemma avoids_app p a b : avoids p (a +:+ b) = avoids p a && avoids p b.
Proof. unfold avoids. rewrite list_ascii_app. apply forallb_app. Qed.

Lemma upto_avoids p s : avoids p (upto p s) = true.
Proof.
  induction s as [|c s IH]; [done|]. simpl. destruct (p c) eqn:Hc; [done|]. by apply avoids_cons.
Qed.

Lemma from_head p s c r : from p s = String c r -> p c = true.
Proof.
  induction s as [|d s IH]; [done|]. simpl. destruct (p d) eqn:Hd; [|apply IH]. by intros [= -> ->].
Qed.

Lemma cut_at p n c r :
  avoids p n = true -> p c = true ->
  upto p (n +:+ String c r) = n /\ from p (n +:+ String c r) = String c r.
Proof.
  intros Hn Hc. induction n as [|d n IH].
  - simpl. by rewrite Hc.
  - apply avoids_cons in Hn as [Hd Hn]. destruct (IH Hn) as [E1 E2].
    change (String d n +:+ String c r) with (String d (n +:+ String c r)). simpl. rewrite Hd.
    split; [f_equal; exact E1|exact E2].
Qed.

Lemma cut_none p s : avoids p s = true -> upto p s = s /\ from p s = "".
Proof.
  induction s as [|c s IH]; intros Hs; [done|]. apply avoids_cons in Hs as [Hc Hs].
  simpl. rewrite Hc. destruct (IH Hs) as [-> ->]. done.
Qed.

Lemma skip_none p c s : p c = false -> skip p (String c s) = String c s.
Proof. intros Hc. simpl. by rewrite Hc. Qed.

Lemma starts_with_app t s : starts_with t (t +:+ s) = Some s.
Proof.
  induction t as [|c t IH]; [done|]. change (String c t +:+ s) with (String c (t +:+ s)).
  simpl. by rewrite bool_decide_eq_true_2.
Qed.

Lemma starts_with_Some t s r : starts_with t s = Some r -> s = t +:+ r.
Proof.
  revert s. induction t as [|a t IH]; intros s; simpl; [by intros [= ->]|].
  destruct s as [|b s]; [done|]. case_bool_decide; [|done]. intros Hr%IH. by subst.
Qed.

Lemma strstr_prefix t s : strstr (t +:+ s) t = Some (t +:+ s).
Proof.
  unfold strstr. destruct (t +:+ s) eqn:E; rewrite <- E, starts_with_app; done.
Qed.
Close Scope string_scope.
