(* ===== verification/DhcpOptions.v ===== *)
(** * DHCP messages and their options (src/router/udhcpd/options.c, packet.h)

    The message structure, the bounds-checked search [get_option], the option
    writers [end_option], [add_option_string], [add_simple_option], and the
    sorted list of configured options. A pointer into a message is an offset
    into its tail, the bytes of [sname], [file], [cookie] and [options] in
    memory order; reading past the structure is a [Fault]. *)

From Stdlib Require Import ZArith Lia.
From stdpp Require Import base numbers sets strings list.
From S2P Require Import Prelude.
Open Scope Z_scope.

Module Options.

(** ** Constants of dhcpd.h *)

Definition DHCP_PADDING : Z := 0x00.
Definition DHCP_SUBNET : Z := 0x01.
Definition DHCP_ROUTER : Z := 0x03.
Definition DHCP_HOST_NAME : Z := 0x0c.
Definition DHCP_VENDOR_SPEC : Z := 0x2b.
Definition DHCP_REQUESTED_IP : Z := 0x32.
Definition DHCP_LEASE_TIME : Z := 0x33.
Definition DHCP_OPTION_OVER : Z := 0x34.
Definition DHCP_MESSAGE_TYPE : Z := 0x35.
Definition DHCP_SERVER_ID : Z := 0x36.
Definition DHCP_PARAM_REQ : Z := 0x37.
Definition DHCP_VENDOR : Z := 0x3c.
Definition DHCP_CLIENT_ID : Z := 0x3d.
Definition DHCP_END : Z := 0xFF.

Definition OPTION_FIELD : Z := 0.
Definition FILE_FIELD : Z := 1.
Definition SNAME_FIELD : Z := 2.

(** ** struct dhcpMessage; addresses and [xid] are in network order *)

Record dhcpMessage := Message {
  op : Z; htype : Z; hlen : Z; hops : Z;
  xid : Z; secs : Z; flags : Z;
  ciaddr : Z; yiaddr : Z; siaddr : Z; giaddr : Z;
  chaddr : list Z;   (* 16 bytes *)
  sname : list Z;    (* 64 bytes *)
  file : list Z;     (* 128 bytes *)
  cookie : Z;
  options : list Z   (* 308 bytes *)
}.

Definition msg_wf (m : dhcpMessage) : Prop :=
  length (chaddr m) = 16%nat /\ length (sname m) = 64%nat /\
  length (file m) = 128%nat /\ length (options m) = 308%nat /\
  Forall is_u8 (chaddr m) /\ Forall is_u8 (sname m) /\ Forall is_u8 (file m) /\
  Forall is_u8 (options m).

(** The memory from [sname] to the end of the structure. *)
Definition tail (m : dhcpMessage) : list Z :=
  sname m ++ file m ++ mem_of_u32 (cookie m) ++ options m.

Definition SNAME_OFF : Z := 0.
Definition FILE_OFF : Z := 64.
Definition OPTIONS_OFF : Z := 196.

(** One byte, and a [memcpy] of [n] bytes, from a buffer. *)
Definition rd (buf : list Z) (off : Z) : outcome Z :=
  if off <? 0 then Fault else deref (buf !! Z.to_nat off).

Fixpoint rd_n (buf : list Z) (off : Z) (n : nat) : outcome (list Z) :=
  match n with
  | O => Ret []
  | S n => b ← rd buf off; l ← rd_n buf (off + 1) n; Ret (b :: l)
  end.

(** ** get_option

    [t] is the tail of the message, [base] the offset of the field being
    searched. The loop advances [i] by at least one, so 600 steps cover the
    three fields (see [get_option_terminates]). *)
Fixpoint get_option_loop (fuel : nat) (t : list Z) (code base i len over curr : Z)
    : outcome (option Z) :=
  match fuel with
  | O => Running
  | S fuel =>
      if len <=? i then Ret None else
      c ← rd t (base + i);
      if c =? code then
        l ← rd t (base + i + 1);
        if len <=? i + 1 + l then Ret None else Ret (Some (base + i + 2))
      else if c =? DHCP_PADDING then
        get_option_loop fuel t code base (i + 1) len over curr
      else if c =? DHCP_OPTION_OVER then
        l ← rd t (base + i + 1);
        if len <=? i + 1 + l then Ret None else
        o ← rd t (base + i + 3);
        l1 ← rd t (base + 1);
        get_option_loop fuel t code base (i + l1 + 2) len o curr
      else if c =? DHCP_END then
        if (curr =? OPTION_FIELD) && negb (Z.land over FILE_FIELD =? 0) then
          get_option_loop fuel t code FILE_OFF 0 128 over FILE_FIELD
        else if (curr =? FILE_FIELD) && negb (Z.land over SNAME_FIELD =? 0) then
          get_option_loop fuel t code SNAME_OFF 0 64 over SNAME_FIELD
        else Ret None
      else
        l ← rd t (base + i + 1);
        get_option_loop fuel t code base (i + l + 2) len over curr
  end.

Definition option_fuel : nat := 600.

Definition get_option (packet : dhcpMessage) (code : Z) : outcome (option Z) :=
  get_option_loop option_fuel (tail packet) code OPTIONS_OFF 0 308 0 OPTION_FIELD.

(** ** end_option: position of the end option, no bounds check *)
Fixpoint end_option_loop (fuel : nat) (optionptr : list Z) (i : Z) : outcome Z :=
  match fuel with
  | O => Running
  | S fuel =>
      c ← rd optionptr i;
      if c =? DHCP_END then Ret i
      else if c =? DHCP_PADDING then end_option_loop fuel optionptr (i + 1)
      else l ← rd optionptr (i + 1); end_option_loop fuel optionptr (i + l + 2)
  end.

Definition end_option (optionptr : list Z) : outcome Z :=
  end_option_loop option_fuel optionptr 0.

(** [memcpy(dst + off, src, length src)] inside a buffer. *)
Definition blit (dst : list Z) (off : Z) (src : list Z) : list Z :=
  take (Z.to_nat off) dst ++ src ++ drop (Z.to_nat off + length src) dst.

(** ** add_option_string: the new buffer and the number of bytes added *)
Definition add_option_string (optionptr string : list Z) : outcome (list Z * Z) :=
  e ← end_option optionptr;
  l ← rd string 1;
  if 308 <=? e + l + 2 + 1 then Ret (optionptr, 0) else
  s ← rd_n string 0 (Z.to_nat (l + 2));
  let o := blit optionptr e s in
  Ret (blit o (e + l + 2) [DHCP_END], l + 2).

(** ** The table of supported options *)

Inductive opt_type :=
  | OPTION_IP | OPTION_IP_PAIR | OPTION_STRING | OPTION_BOOLEAN | OPTION_U8
  | OPTION_U16 | OPTION_S16 | OPTION_U32 | OPTION_S32.
#[global] Instance opt_type_eq_dec : EqDecision opt_type.
Proof. solve_decision. Defined.

Record dhcp_option := DOpt {
  o_name : string; o_type : opt_type; o_req : bool; o_list : bool; o_code : Z }.

Open Scope string_scope.
Definition options_table : list dhcp_option := [
  DOpt "subnet" OPTION_IP true false 0x01;
  DOpt "timezone" OPTION_S32 false false 0x02;
  DOpt "router" OPTION_IP true true 0x03;
  DOpt "timesvr" OPTION_IP false true 0x04;
  DOpt "namesvr" OPTION_IP false true 0x05;
  DOpt "dns" OPTION_IP true true 0x06;
  DOpt "logsvr" OPTION_IP false true 0x07;
  DOpt "cookiesvr" OPTION_IP false true 0x08;
  DOpt "lprsvr" OPTION_IP false true 0x09;
  DOpt "hostname" OPTION_STRING true false 0x0c;
  DOpt "bootsize" OPTION_U16 false false 0x0d;
  DOpt "domain" OPTION_STRING true false 0x0f;
  DOpt "swapsvr" OPTION_IP false false 0x10;
  DOpt "rootpath" OPTION_STRING false false 0x11;
  DOpt "ipttl" OPTION_U8 false false 0x17;
  DOpt "mtu" OPTION_U16 false false 0x1a;
  DOpt "broadcast" OPTION_IP true false 0x1c;
  DOpt "ntpsrv" OPTION_IP false true 0x2a;
  DOpt "wins" OPTION_IP true true 0x2c;
  DOpt "requestip" OPTION_IP false false 0x32;
  DOpt "lease" OPTION_U32 false false 0x33;
  DOpt "dhcptype" OPTION_U8 false false 0x35;
  DOpt "serverid" OPTION_IP false false 0x36;
  DOpt "message" OPTION_STRING false false 0x38;
  DOpt "tftp" OPTION_STRING false false 0x42;
  DOpt "bootfile" OPTION_STRING false false 0x43;
  DOpt "vendorspecinfo" OPTION_STRING true false 0x2b ].
Close Scope string_scope.

Definition option_lengths (t : opt_type) : Z :=
  match t with
  | OPTION_IP => 4 | OPTION_IP_PAIR => 8 | OPTION_BOOLEAN => 1 | OPTION_STRING => 1
  | OPTION_U8 => 1 | OPTION_U16 => 2 | OPTION_S16 => 2 | OPTION_U32 => 4
  | OPTION_S32 => 4
  end.

(** ** add_simple_option: the last table entry with the code gives the length;
    the data is the object representation of an integer of that length. *)
Definition simple_length (code : Z) : Z :=
  foldl (fun n o => if o_code o =? code then option_lengths (o_type o) else n)
    0 options_table.

Definition add_simple_option (optionptr : list Z) (code data : Z)
    : outcome (list Z * Z) :=
  let length := simple_length code in
  if length =? 0 then Ret (optionptr, 0) else
  add_option_string optionptr (code :: length :: take (Z.to_nat length) (mem_of_u32 data)).

(** ** The configured options: a list sorted by code, each entry the bytes
    code, length, data. *)

Definition opt_code (d : list Z) : Z := d !!! 0%nat.
Definition opt_len (d : list Z) : Z := d !!! 1%nat.

Fixpoint find_option (opt_list : list (list Z)) (code : Z) : option (list Z) :=
  match opt_list with
  | [] => None
  | d :: l =>
      if opt_code d <? code then find_option l code
      else if opt_code d =? code then Some d else None
  end.

(** Replace the entry [find_option] found. *)
Fixpoint set_option (opt_list : list (list Z)) (code : Z) (d' : list Z) : list (list Z) :=
  match opt_list with
  | [] => []
  | d :: l => if opt_code d <? code then d :: set_option l code d' else d' :: l
  end.

Fixpoint insert_option (opt_list : list (list Z)) (code : Z) (d' : list Z)
    : list (list Z) :=
  match opt_list with
  | [] => [d']
  | d :: l => if opt_code d <? code then d :: insert_option l code d' else d' :: d :: l
  end.

Definition attach_option (opt_list : list (list Z)) (o : dhcp_option)
    (buffer : list Z) (length : Z) : list (list Z) :=
  let data := take (Z.to_nat length) buffer in
  match find_option opt_list (o_code o) with
  | Some d =>
      if o_list o then
        if opt_len d + length <=? 255 then
          set_option opt_list (o_code o)
            (opt_code d :: u8 (opt_len d + length) ::
             take (Z.to_nat (opt_len d)) (drop 2 d) ++ data)
        else opt_list
      else opt_list
  | None => insert_option opt_list (o_code o) (o_code o :: u8 length :: data)
  end.

End Options.
