(* ===== verification/DhcpOptionsProofs.v ===== *)
(** * Correctness of the DHCP option handling

    Termination and bounds of the option search on arbitrary packets, and the
    agreement of the writers and the search with an abstract list of options. *)

From Stdlib Require Import ZArith Lia.
From stdpp Require Import base numbers sets list.
From S2P Require Import Prelude DhcpOptions.
Import Options.
Open Scope Z_scope.

(** ** Reading buffers *)

Lemma rd_Ret_inv t i b : rd t i = Ret b -> 0 <= i /\ t !! Z.to_nat i = Some b.
Proof.
  unfold rd. destruct (Z.ltb_spec i 0); [done|]. intros E. mono. done.
Qed.

Lemma rd_cases t i : (exists b, rd t i = Ret b) \/ rd t i = Fault.
Proof.
  unfold rd. destruct (i <? 0); [by right|]. destruct (t !! Z.to_nat i); simpl; eauto.
Qed.

(** Case analysis on the next byte read in the goal. *)
Ltac read_byte b E :=
  match goal with
  | |- context [rd ?t ?i ≫= _] =>
      destruct (rd_cases t i) as [[b E]|E]; rewrite E; cbn [mbind outcome_bind]; [|done]
  end.

Lemma rd_u8 t i b : Forall is_u8 t -> rd t i = Ret b -> is_u8 b.
Proof.
  intros Ht E. apply rd_Ret_inv in E as [_ E].
  eapply (Forall_lookup_1 is_u8); eauto.
Qed.

Lemma rd_app_r t1 t2 i b : rd t2 i = Ret b -> rd (t1 ++ t2) (Z.of_nat (length t1) + i) = Ret b.
Proof.
  intros E. apply rd_Ret_inv in E as [Hi E]. unfold rd.
  destruct (Z.ltb_spec (Z.of_nat (length t1) + i) 0); [lia|].
  rewrite lookup_app_r by lia.
  replace (Z.to_nat (Z.of_nat (length t1) + i) - length t1)%nat with (Z.to_nat i) by lia.
  by rewrite E.
Qed.

Lemma rd_at t1 b t2 i : i = Z.of_nat (length t1) -> rd (t1 ++ b :: t2) i = Ret b.
Proof.
  intros ->. replace (Z.of_nat (length t1)) with (Z.of_nat (length t1) + 0) by lia.
  by apply rd_app_r.
Qed.

Lemma rd_n_at t1 d t2 i : i = Z.of_nat (length t1) ->
  rd_n (t1 ++ d ++ t2) i (length d) = Ret d.
Proof.
  revert t1 i; induction d as [|b d IH]; intros t1 i Hi; simpl; [done|].
  rewrite (rd_at t1 b (d ++ t2) i Hi). cbn [mbind outcome_bind].
  rewrite cons_middle, app_assoc. rewrite (IH (t1 ++ [b])); [done|].
  rewrite length_app. simpl. lia.
Qed.

(** ** Termination *)

(** An upper bound of the remaining steps: the rest of the field, and the
    fields that may still be searched. *)
Definition steps_left (i len curr : Z) : Z :=
  Z.max 0 (len - i) +
  (if curr =? OPTION_FIELD then 196 else if curr =? FILE_FIELD then 66 else 0) + 1.

Lemma get_option_loop_terminates t code : Forall is_u8 t ->
  forall fuel base i len over curr,
  0 <= i -> curr = 0 \/ curr = 1 \/ curr = 2 ->
  steps_left i len curr <= Z.of_nat fuel ->
  get_option_loop fuel t code base i len over curr <> Running.
Proof.
  intros Ht. induction fuel as [|fuel IH]; intros base i len over curr Hi Hcurr Hfuel.
  { unfold steps_left in Hfuel. destruct (curr =? OPTION_FIELD), (curr =? FILE_FIELD); lia. }
  simpl. destruct (Z.leb_spec len i) as [|Hlt]; [done|].
  assert (Hadv : forall j o, i < j -> steps_left j len curr <= Z.of_nat fuel /\
                  get_option_loop fuel t code base j len o curr <> Running).
  { intros j o Hj. assert (steps_left j len curr <= Z.of_nat fuel).
    { unfold steps_left in *. destruct (curr =? OPTION_FIELD), (curr =? FILE_FIELD); lia. }
    split; [done|]. apply IH; [lia|done|done]. }
  read_byte c Ec.
  destruct (c =? code).
  { read_byte l El.
    by destruct (len <=? i + 1 + l). }
  destruct (c =? DHCP_PADDING); [apply (Hadv (i + 1) over); lia|].
  destruct (c =? DHCP_OPTION_OVER).
  { read_byte l El.
    destruct (len <=? i + 1 + l); [done|].
    read_byte o Eo. read_byte l1 E1.
    apply rd_u8 in E1; [|done]. destruct E1. apply (Hadv (i + l1 + 2) o). lia. }
  destruct (c =? DHCP_END).
  { destruct Hcurr as [-> | [-> | ->]]; simpl in *; unfold steps_left in Hfuel; simpl in Hfuel.
    - destruct (negb (Z.land over FILE_FIELD =? 0)); [|done].
      apply IH; [lia|right; by left|unfold steps_left; simpl; lia].
    - destruct (negb (Z.land over SNAME_FIELD =? 0)); [|done].
      apply IH; [lia|right; by right|unfold steps_left; simpl; lia].
    - done. }
  read_byte l El.
  apply rd_u8 in El; [|done]. destruct El. apply (Hadv (i + l + 2) over). lia.
Qed.

Lemma tail_u8 m : msg_wf m -> Forall is_u8 (tail m).
Proof.
  intros (_ & _ & _ & _ & _ & ? & ? & ?). unfold tail.
  repeat (apply Forall_app; split); try done.
  repeat constructor; apply byte_at_range.
Qed.

Lemma get_option_terminates_aux m code : msg_wf m -> get_option m code <> Running.
Proof.
  intros Hm. apply get_option_loop_terminates; [by apply tail_u8|lia|by left|].
  unfold steps_left, option_fuel. simpl. lia.
Qed.

(** The option search ends on every packet, whatever its bytes are. *)
Theorem get_option_terminates m code : msg_wf m -> get_option m code <> Running.
Proof. apply get_option_terminates_aux. Qed.

(** ** Bounds *)

(** The field that starts at [base], of length [len]. *)
Definition field_of (base len : Z) : Prop :=
  (base = OPTIONS_OFF /\ len = 308) \/ (base = FILE_OFF /\ len = 128) \/
  (base = SNAME_OFF /\ len = 64).

Lemma get_option_loop_bounds t code : Forall is_u8 t ->
  forall fuel base i len over curr p,
  0 <= i -> field_of base len ->
  get_option_loop fuel t code base i len over curr = Ret (Some p) ->
  exists base' len' l, field_of base' len' /\
    rd t (p - 2) = Ret code /\ rd t (p - 1) = Ret l /\
    base' + 2 <= p /\ p + l <= base' + len'.
Proof.
  intros Ht. induction fuel as [|fuel IH]; intros base i len over curr p Hi Hfld E; [done|].
  simpl in E. destruct (Z.leb_spec len i) as [|Hlt]; [done|]. mono. rename v into c.
  destruct (Z.eqb_spec c code) as [->|].
  { mono. rename v into l. destruct (Z.leb_spec len (i + 1 + l)); [done|]. simplify_eq.
    exists base, len, l. replace (base + i + 2 - 2) with (base + i) by lia.
    replace (base + i + 2 - 1) with (base + i + 1) by lia. split_and!; try done; lia. }
  destruct (c =? DHCP_PADDING); [eapply IH in E; eauto; lia|].
  destruct (c =? DHCP_OPTION_OVER).
  { mono. destruct (len <=? i + 1 + v); [done|]. mono.
    eapply rd_u8 in E3; [|done]. destruct E3. eapply IH in E; eauto. lia. }
  destruct (c =? DHCP_END).
  { destruct (_ && _); [|destruct (_ && _); [|done]]; (eapply IH in E; [done|lia|]).
    - right. by left.
    - right. by right. }
  mono. eapply rd_u8 in E1; [|done]. destruct E1. eapply IH in E; eauto. lia.
Qed.

Lemma get_option_in_field_aux m code p :
  msg_wf m -> get_option m code = Ret (Some p) ->
  exists base len l, field_of base len /\
    rd (tail m) (p - 2) = Ret code /\ rd (tail m) (p - 1) = Ret l /\
    base + 2 <= p /\ p + l <= base + len.
Proof.
  intros Hm. unfold get_option. generalize option_fuel. intros fuel E.
  eapply get_option_loop_bounds; [by apply tail_u8| |by left|exact E]. lia.
Qed.

(** A pointer get_option returns stands behind the searched code and a
    length byte, and the whole of the option's data lies inside one of the
    three option fields of the packet. *)
Theorem get_option_in_field m code p :
  msg_wf m -> get_option m code = Ret (Some p) ->
  exists base len l, field_of base len /\
    rd (tail m) (p - 2) = Ret code /\ rd (tail m) (p - 1) = Ret l /\
    base + 2 <= p /\ p + l <= base + len.
Proof. apply get_option_in_field_aux. Qed.

Lemma tail_split m : msg_wf m ->
  exists pre, tail m = pre ++ options m /\ length pre = 196%nat.
Proof.
  intros (_ & Hs & Hf & _). exists (sname m ++ file m ++ mem_of_u32 (cookie m)).
  unfold tail. rewrite <- !app_assoc. split; [done|]. rewrite !length_app, Hs, Hf. done.
Qed.

Lemma rd_oob t i : Z.of_nat (length t) <= i -> rd t i = Fault.
Proof.
  intros Hi. unfold rd. destruct (i <? 0); [done|]. rewrite lookup_ge_None_2 by lia. done.
Qed.

Lemma padding_walk pre c code : length pre = 196%nat -> code <> 0 -> 0 < c < 255 ->
  forall k i fuel, i + Z.of_nat k = 307 -> 0 <= i -> (k < fuel)%nat ->
  get_option_loop fuel (pre ++ replicate 307 0 ++ [c]) code OPTIONS_OFF i 308 0 OPTION_FIELD
  = Fault.
Proof.
  intros Hpre Hcode Hc. set (t := pre ++ _).
  assert (Hlen : length t = 504%nat)
    by (unfold t; rewrite !length_app, length_replicate; simpl; lia).
  assert (Hend : rd t 504 = Fault) by (apply rd_oob; lia).
  induction k as [|k IH]; intros i fuel Hi Hi0 Hf; (destruct fuel as [|fuel]; [lia|]);
    cbn [get_option_loop]; rewrite (proj2 (Z.leb_gt 308 i)) by lia.
  - assert (i = 307) as -> by lia. change (OPTIONS_OFF + 307) with 503.
    change (503 + 1) with 504.
    assert (rd t 503 = Ret c) as ->.
    { unfold t. rewrite app_assoc. apply rd_at. rewrite length_app, length_replicate. lia. }
    cbn [mbind outcome_bind]. rewrite Hend. unfold DHCP_PADDING, DHCP_END.
    rewrite (proj2 (Z.eqb_neq c 0)), (proj2 (Z.eqb_neq c 255)) by lia.
    by destruct (c =? code), (c =? DHCP_OPTION_OVER).
  - assert (rd t (OPTIONS_OFF + i) = Ret 0) as ->.
    { unfold t. replace 307%nat with (Z.to_nat i + S k)%nat by lia.
      rewrite replicate_add, <- app_assoc, app_assoc. simpl. apply rd_at.
      rewrite length_app, length_replicate. unfold OPTIONS_OFF. lia. }
    cbn [mbind outcome_bind]. rewrite (proj2 (Z.eqb_neq 0 code)) by lia. simpl.
    apply IH; lia.
Qed.

(** The length byte is read before it is known to be inside the field: a
    packet whose options field ends in an option code makes the search read
    the byte after the structure. *)
Theorem get_option_reads_past_end m code c :
  msg_wf m -> options m = replicate 307 DHCP_PADDING ++ [c] -> 0 < c < 255 -> code <> 0 ->
  get_option m code = Fault.
Proof.
  intros Hm Ho Hc Hcode. destruct (tail_split m Hm) as (pre & Ht & Hpre).
  unfold get_option. rewrite Ht, Ho.
  apply (padding_walk pre c code Hpre Hcode Hc 307 0 option_fuel); unfold option_fuel; lia.
Qed.

(** ** The abstract option list *)

(** An option as a code and its data, and its bytes. *)
Definition enc1 (o : Z * list Z) : list Z := o.1 :: Z.of_nat (length o.2) :: o.2.
Definition enc (os : list (Z * list Z)) : list Z := os ≫= enc1.

(** Codes a plain option may have: not padding, overload or end. *)
Definition opt_ok (o : Z * list Z) : Prop :=
  0 < o.1 < 255 /\ o.1 <> DHCP_OPTION_OVER /\ (length o.2 <= 255)%nat.

Fixpoint lookup_opt (code : Z) (os : list (Z * list Z)) : option (list Z) :=
  match os with
  | [] => None
  | (c, d) :: os => if c =? code then Some d else lookup_opt code os
  end.

Lemma enc_cons o os : enc (o :: os) = o.1 :: Z.of_nat (length o.2) :: o.2 ++ enc os.
Proof. done. Qed.

Lemma enc_app os1 os2 : enc (os1 ++ os2) = enc os1 ++ enc os2.
Proof. apply bind_app. Qed.

Lemma get_option_loop_enc code rest : 0 < code < 255 ->
  forall os fuel pre base i len,
  Forall opt_ok os -> base + i = Z.of_nat (length pre) -> 0 <= i ->
  i + Z.of_nat (length (enc os)) < len -> (length os < fuel)%nat ->
  let t := pre ++ enc os ++ DHCP_END :: rest in
  match lookup_opt code os with
  | Some d => exists p,
      get_option_loop fuel t code base i len 0 OPTION_FIELD = Ret (Some p) /\
      rd t (p - 1) = Ret (Z.of_nat (length d)) /\ rd_n t p (length d) = Ret d
  | None => get_option_loop fuel t code base i len 0 OPTION_FIELD = Ret None
  end.
Proof.
  intros Hcode. induction os as [|[c d] os IH]; intros fuel pre base i len Hok Hbase Hi Hlen Hfuel;
    (destruct fuel as [|fuel]; [simpl in Hfuel; lia|]); cbn [lookup_opt get_option_loop].
  - simpl in *. rewrite (proj2 (Z.leb_gt len i)) by lia. rewrite Hbase.
    rewrite (rd_at pre DHCP_END rest _ eq_refl). cbn [mbind outcome_bind].
    rewrite (proj2 (Z.eqb_neq DHCP_END code)) by (unfold DHCP_END; lia). done.
  - apply Forall_cons in Hok as [(Hc & Hov & Hd) Hok]. simpl in Hc, Hov, Hd.
    rewrite enc_cons in *. cbn [fst snd] in *. simpl in Hlen, Hfuel. rewrite length_app in Hlen.
    set (t := pre ++ _). rewrite (proj2 (Z.leb_gt len i)) by lia.
    assert (rd t (base + i) = Ret c) as -> by (rewrite Hbase; by apply rd_at).
    assert (Hl : rd t (base + i + 1) = Ret (Z.of_nat (length d))).
    { unfold t. simpl. rewrite cons_middle, app_assoc. apply rd_at. rewrite length_app. simpl. lia. }
    cbn [mbind outcome_bind]. destruct (Z.eqb_spec c code) as [->|Hne].
    + rewrite Hl. cbn [mbind outcome_bind].
      rewrite (proj2 (Z.leb_gt len (i + 1 + _))) by lia. exists (base + i + 2).
      split; [done|]. replace (base + i + 2 - 1) with (base + i + 1) by lia.
      split; [done|]. unfold t. simpl. rewrite <- app_assoc.
      rewrite cons_middle, app_assoc, cons_middle, app_assoc. apply rd_n_at.
      rewrite !length_app. simpl. lia.
    + unfold DHCP_PADDING, DHCP_OPTION_OVER, DHCP_END in *.
      rewrite (proj2 (Z.eqb_neq c 0)), (proj2 (Z.eqb_neq c 52)), (proj2 (Z.eqb_neq c 255)) by lia.
      rewrite Hl. cbn [mbind outcome_bind].
      specialize (IH fuel (pre ++ c :: Z.of_nat (length d) :: d) base (i + Z.of_nat (length d) + 2) len).
      assert (Ht : t = (pre ++ c :: Z.of_nat (length d) :: d) ++ enc os ++ DHCP_END :: rest).
      { unfold t. simpl. by rewrite <- !app_assoc. }
      rewrite Ht. apply IH; try done; try lia. rewrite length_app. simpl. lia.
Qed.

(** A buffer that holds the options [os], ended. *)
Definition opts_hold (buf : list Z) (os : list (Z * list Z)) : Prop :=
  length buf = 308%nat /\ Forall opt_ok os /\ exists rest, buf = enc os ++ DHCP_END :: rest.

Lemma length_enc os : (2 * length os <= length (enc os))%nat.
Proof. induction os as [|o os IH]; [done|]. rewrite enc_cons. simpl. rewrite length_app. lia. Qed.

Lemma opts_hold_bound buf os : opts_hold buf os ->
  (length (enc os) < 308)%nat /\ (length os < option_fuel)%nat.
Proof.
  intros (Hl & _ & rest & ->). rewrite length_app in Hl. simpl in Hl.
  pose proof (length_enc os). unfold option_fuel. lia.
Qed.

Lemma get_option_finds_aux m os code :
  msg_wf m -> opts_hold (options m) os -> 0 < code < 255 ->
  match lookup_opt code os with
  | Some d => exists p, get_option m code = Ret (Some p) /\
      rd (tail m) (p - 1) = Ret (Z.of_nat (length d)) /\
      rd_n (tail m) p (length d) = Ret d
  | None => get_option m code = Ret None
  end.
Proof.
  intros Hm Ho Hcode. destruct (tail_split m Hm) as (pre & Ht & Hpre).
  destruct (opts_hold_bound _ _ Ho) as [Hb Hf]. destruct Ho as (Hl & Hok & rest & Ho).
  unfold get_option. rewrite Ht, Ho. revert Hf. generalize option_fuel. intros fuel Hf.
  apply (get_option_loop_enc code rest Hcode os fuel pre OPTIONS_OFF 0 308);
    try done; unfold OPTIONS_OFF; lia.
Qed.

(** ** Overloading: options in the fields [file] and [sname]

    An overload option (code 52) sends the search on to the other fields. The
    search takes the byte after its data for the value, that is the code of the
    option that follows, and skips as many bytes as the first option of the field
    is long ([overload_value_missed]); the statement is for fields where this
    step ends on an option again. *)
Definition next_code (os : list (Z * list Z)) : Z :=
  match os with [] => DHCP_END | (c, _) :: _ => c end.
Fixpoint over_after (over : Z) (os : list (Z * list Z)) : Z :=
  match os with
  | [] => over
  | (c, _) :: os => over_after (if c =? DHCP_OPTION_OVER then next_code os else over) os
  end.

Definition first_length (os : list (Z * list Z)) : nat :=
  match os with [] => 0%nat | (_, d) :: _ => length d end.
Definition field_holds (len : nat) (buf : list Z) (os : list (Z * list Z)) : Prop :=
  length buf = len /\
  Forall (fun o => 0 < o.1 < 255 /\ (length o.2 <= 255)%nat /\
    (o.1 = DHCP_OPTION_OVER -> length o.2 = 1%nat /\ first_length os = 1%nat)) os /\
  exists rest, buf = enc os ++ DHCP_END :: rest.

Lemma opts_hold_field buf os : opts_hold buf os -> field_holds 308 buf os.
Proof.
  intros (Hl & Hok & Hr). split_and!; [done| |done]. eapply Forall_impl; [exact Hok|].
  intros o (H1 & H2 & H3). split_and!; [lia..|done|by intros E].
Qed.

(** What the loop does at the end option of a field. *)
Definition at_end (fuel : nat) (t : list Z) (code over curr : Z) : outcome (option Z) :=
  if (curr =? OPTION_FIELD) && negb (Z.land over FILE_FIELD =? 0) then
    get_option_loop fuel t code FILE_OFF 0 128 over FILE_FIELD
  else if (curr =? FILE_FIELD) && negb (Z.land over SNAME_FIELD =? 0) then
    get_option_loop fuel t code SNAME_OFF 0 64 over SNAME_FIELD
  else Ret None.

Definition found_in (t : list Z) (d : list Z) (r : outcome (option Z)) : Prop :=
  exists p, r = Ret (Some p) /\ rd t (p - 1) = Ret (Z.of_nat (length d)) /\ rd_n t p (length d) = Ret d.

Lemma field_loop code rest curr t base len : 0 < code < 255 ->
  forall os fuel pre i over,
  t = pre ++ enc os ++ DHCP_END :: rest ->
  Forall (fun o => 0 < o.1 < 255 /\ (length o.2 <= 255)%nat /\
    (o.1 = DHCP_OPTION_OVER -> length o.2 = 1%nat /\ rd t (base + 1) = Ret 1)) os ->
  base + i = Z.of_nat (length pre) -> 0 <= i -> i + Z.of_nat (length (enc os)) < len ->
  let r := get_option_loop (length os + S fuel) t code base i len over curr in
  match lookup_opt code os with
  | Some d => found_in t d r
  | None => r = at_end fuel t code (over_after over os) curr
  end.
Proof.
  intros Hcode. induction os as [|[c d] os IH]; intros fuel pre i over Ht Hok Hbase Hi Hlen;
    cbn [lookup_opt over_after length Nat.add get_option_loop]; cbv zeta.
  - simpl in Hlen, Ht. rewrite (proj2 (Z.leb_gt len i)) by lia. rewrite Hbase, Ht.
    rewrite (rd_at pre DHCP_END rest _ eq_refl). cbn [mbind outcome_bind].
    rewrite (proj2 (Z.eqb_neq DHCP_END code)) by (unfold DHCP_END; lia). by rewrite <- Ht.
  - apply Forall_cons in Hok as [(Hc & Hd & Hov) Hok]. cbn [fst snd] in Hc, Hd, Hov.
    rewrite enc_cons in Ht, Hlen. cbn [fst snd length] in Ht, Hlen. rewrite length_app in Hlen.
    rewrite (proj2 (Z.leb_gt len i)) by lia.
    assert (rd t (base + i) = Ret c) as -> by (rewrite Hbase, Ht; by apply rd_at).
    assert (Hl : rd t (base + i + 1) = Ret (Z.of_nat (length d))).
    { rewrite Ht. simpl. rewrite cons_middle, app_assoc. apply rd_at. rewrite length_app. simpl. lia. }
    assert (Ht' : t = (pre ++ c :: Z.of_nat (length d) :: d) ++ enc os ++ DHCP_END :: rest).
    { rewrite Ht. simpl. by rewrite <- !app_assoc. }
    cbn [mbind outcome_bind]. destruct (Z.eqb_spec c code) as [->|Hne].
    + rewrite Hl. cbn [mbind outcome_bind].
      rewrite (proj2 (Z.leb_gt len (i + 1 + _))) by lia. exists (base + i + 2).
      split; [done|]. replace (base + i + 2 - 1) with (base + i + 1) by lia.
      split; [done|]. rewrite Ht. simpl. rewrite <- app_assoc.
      rewrite cons_middle, app_assoc, cons_middle, app_assoc. apply rd_n_at.
      rewrite !length_app. simpl. lia.
    + unfold DHCP_PADDING. rewrite (proj2 (Z.eqb_neq c 0)) by lia.
      assert (Hstep : forall o, match lookup_opt code os with
        | Some d0 => found_in t d0
            (get_option_loop (length os + S fuel) t code base (i + Z.of_nat (length d) + 2) len o curr)
        | None => get_option_loop (length os + S fuel) t code base (i + Z.of_nat (length d) + 2) len o curr
            = at_end fuel t code (over_after o os) curr
        end).
      { intros o. apply (IH fuel _ _ o Ht' Hok); [rewrite length_app; simpl; lia|lia|lia]. }
      destruct (Z.eqb_spec c DHCP_OPTION_OVER) as [E|_].
      * destruct (Hov E) as [H1 H2]. rewrite Hl, H1 in *. cbn [mbind outcome_bind].
        rewrite (proj2 (Z.leb_gt len (i + 1 + _))) by lia.
        assert (rd t (base + i + 3) = Ret (next_code os)) as ->.
        { rewrite Ht'. destruct os as [|[c' d'] os]; [|rewrite enc_cons]; apply rd_at;
            rewrite length_app; cbn [length]; lia. }
        cbn [mbind outcome_bind]. rewrite H2. cbn [mbind outcome_bind]. apply (Hstep (next_code os)).
      * unfold DHCP_END. rewrite (proj2 (Z.eqb_neq c 255)) by lia.
        rewrite Hl. cbn [mbind outcome_bind]. apply Hstep.
Qed.

(** A whole field, wherever it lies in the message. *)
Lemma field_search code curr base len n t pre suf buf os over : 0 < code < 255 ->
  t = pre ++ buf ++ suf -> base = Z.of_nat (length pre) -> len = Z.of_nat n -> field_holds n buf os ->
  (length os < n)%nat /\ forall fuel,
  let r := get_option_loop (length os + S fuel) t code base 0 len over curr in
  match lookup_opt code os with
  | Some d => found_in t d r
  | None => r = at_end fuel t code (over_after over os) curr
  end.
Proof.
  intros Hcode Ht Hb Hn (Hl & Hok & rest & Hbuf).
  assert (Hle : (length (enc os) < n)%nat) by (rewrite Hbuf, length_app in Hl; simpl in Hl; lia).
  split; [pose proof (length_enc os); lia|]. intros fuel.
  assert (Ht' : t = pre ++ enc os ++ DHCP_END :: rest ++ suf)
    by (rewrite Ht, Hbuf, <- app_assoc; done).
  apply (field_loop code (rest ++ suf) curr t base len Hcode os fuel pre 0 over Ht'); try lia.
  eapply Forall_impl; [exact Hok|]. intros o (H1 & H2 & H3). split_and!; [lia..|done|]. intros E.
  destruct (H3 E) as [H4 H5]. split; [done|]. rewrite Ht'.
  destruct os as [|[c d] os]; [done|]. simpl in H5. rewrite enc_cons. cbn [fst snd]. rewrite H5.
  simpl. rewrite cons_middle, app_assoc. apply rd_at. rewrite length_app. simpl. lia.
Qed.

(** The options of the three fields in the order of the search. *)
Definition file_used (os : list (Z * list Z)) : bool := negb (Z.land (over_after 0 os) FILE_FIELD =? 0).
Definition sname_used (os fs : list (Z * list Z)) : bool :=
  file_used os && negb (Z.land (over_after (over_after 0 os) fs) SNAME_FIELD =? 0).
Definition all_options (os fs ss : list (Z * list Z)) : list (Z * list Z) :=
  os ++ (if file_used os then fs else []) ++ (if sname_used os fs then ss else []).

Lemma lookup_opt_app code l1 l2 :
  lookup_opt code (l1 ++ l2) = match lookup_opt code l1 with Some d => Some d | None => lookup_opt code l2 end.
Proof. induction l1 as [|[c d] l1 IH]; [done|]. simpl. by destruct (c =? code). Qed.

(** C38. On a packet whose options field holds the list [os], ended, get_option
    finds exactly the options of the packet: for a code that occurs, a pointer to
    the data of its first occurrence, preceded by its length; NULL otherwise. The
    options of the packet are those of the options field and, when an overload
    option occurs, those of the field [file] and then of [sname] if the two bits
    are set in the byte the code takes for the overload value, which is the code
    of the option behind the overload option. The overload option and the first
    option of a field that has one are supposed one byte long, and each field
    that is searched to hold a list that is ended; without an overload option
    nothing is asked of the other fields. *)
Theorem get_option_finds m os fs ss code :
  msg_wf m -> field_holds 308 (options m) os ->
  (file_used os = true -> field_holds 128 (file m) fs) ->
  (sname_used os fs = true -> field_holds 64 (sname m) ss) -> 0 < code < 255 ->
  match lookup_opt code (all_options os fs ss) with
  | Some d => exists p, get_option m code = Ret (Some p) /\
      rd (tail m) (p - 1) = Ret (Z.of_nat (length d)) /\
      rd_n (tail m) p (length d) = Ret d
  | None => get_option m code = Ret None
  end.
Proof.
  intros Hm Ho Hf Hs Hcode. pose proof Hm as (_ & Ls & Lf & Lo & _).
  assert (To : tail m = (sname m ++ file m ++ mem_of_u32 (cookie m)) ++ options m ++ [])
    by (unfold tail; by rewrite app_nil_r, <- !app_assoc).
  assert (Tf : tail m = sname m ++ file m ++ (mem_of_u32 (cookie m) ++ options m)) by done.
  assert (Ts : tail m = [] ++ sname m ++ (file m ++ mem_of_u32 (cookie m) ++ options m)) by done.
  fold (found_in (tail m)). unfold all_options. rewrite !lookup_opt_app.
  destruct (field_search code OPTION_FIELD OPTIONS_OFF 308 308 _ _ _ _ os 0 Hcode To) as [Bo Ro];
    [by rewrite !length_app, Ls, Lf|done|done|].
  unfold get_option. replace option_fuel with (length os + S (599 - length os))%nat by (unfold option_fuel; lia).
  specialize (Ro (599 - length os)%nat). cbv zeta in Ro.
  destruct (lookup_opt code os) as [d|]; [exact Ro|]. rewrite Ro. unfold at_end.
  change (OPTION_FIELD =? OPTION_FIELD) with true. change (OPTION_FIELD =? FILE_FIELD) with false.
  cbn [andb]. fold (file_used os). unfold sname_used in *. destruct (file_used os); [|done].
  destruct (field_search code FILE_FIELD FILE_OFF 128 128 _ _ _ _ fs (over_after 0 os) Hcode Tf) as [Bf Rf];
    [by rewrite Ls|done|by apply Hf|].
  replace (599 - length os)%nat with (length fs + S (598 - length os - length fs))%nat by lia.
  specialize (Rf (598 - length os - length fs)%nat). cbv zeta in Rf.
  destruct (lookup_opt code fs) as [d|]; [exact Rf|]. rewrite Rf. unfold at_end.
  change (FILE_FIELD =? OPTION_FIELD) with false. change (FILE_FIELD =? FILE_FIELD) with true.
  cbn [andb] in *. destruct (negb (Z.land _ SNAME_FIELD =? 0)); [|done].
  destruct (field_search code SNAME_FIELD SNAME_OFF 64 64 _ _ _ _ ss
    (over_after (over_after 0 os) fs) Hcode Ts) as [Bs Rs]; [done|done|by apply Hs|].
  replace (598 - length os - length fs)%nat
    with (length ss + S (597 - length os - length fs - length ss))%nat by lia.
  specialize (Rs (597 - length os - length fs - length ss)%nat). cbv zeta in Rs.
  destruct (lookup_opt code ss) as [d|]; [exact Rs|]. by rewrite Rs.
Qed.

Lemma end_option_loop_enc rest : forall os fuel pre,
  Forall opt_ok os -> (length os < fuel)%nat ->
  end_option_loop fuel (pre ++ enc os ++ DHCP_END :: rest) (Z.of_nat (length pre)) =
  Ret (Z.of_nat (length pre) + Z.of_nat (length (enc os))).
Proof.
  induction os as [|[c d] os IH]; intros fuel pre Hok Hf;
    (destruct fuel as [|fuel]; [simpl in Hf; lia|]); cbn [end_option_loop].
  - simpl. rewrite (rd_at pre DHCP_END rest _ eq_refl). simpl. by rewrite Z.add_0_r.
  - apply Forall_cons in Hok as [(Hc & _ & Hd) Hok]. simpl in Hc, Hd, Hf.
    rewrite enc_cons. cbn [fst snd]. set (t := pre ++ _).
    assert (rd t (Z.of_nat (length pre)) = Ret c) as -> by (by apply rd_at).
    assert (rd t (Z.of_nat (length pre) + 1) = Ret (Z.of_nat (length d))) as Hl.
    { unfold t. simpl. rewrite cons_middle, app_assoc. apply rd_at. rewrite length_app. simpl. lia. }
    cbn [mbind outcome_bind]. unfold DHCP_END, DHCP_PADDING in *.
    rewrite (proj2 (Z.eqb_neq c 255)), (proj2 (Z.eqb_neq c 0)) by lia.
    rewrite Hl. cbn [mbind outcome_bind].
    assert (Ht : t = (pre ++ c :: Z.of_nat (length d) :: d) ++ enc os ++ 255 :: rest).
    { unfold t. simpl. by rewrite <- !app_assoc. }
    rewrite Ht.
    replace (Z.of_nat (length pre) + Z.of_nat (length d) + 2)
      with (Z.of_nat (length (pre ++ c :: Z.of_nat (length d) :: d)))
      by (rewrite length_app; simpl; lia).
    rewrite IH; [|done|lia]. f_equal. rewrite !length_app. simpl. rewrite length_app. lia.
Qed.

Lemma end_option_ok buf os : opts_hold buf os ->
  end_option buf = Ret (Z.of_nat (length (enc os))).
Proof.
  intros Ho. destruct (opts_hold_bound _ _ Ho) as [Hb Hf]. destruct Ho as (Hl & Hok & rest & ->).
  unfold end_option. revert Hf. generalize option_fuel. intros fuel Hf.
  apply (end_option_loop_enc rest os fuel [] Hok Hf).
Qed.

Lemma blit_app pre mid suf src : length mid = length src ->
  blit (pre ++ mid ++ suf) (Z.of_nat (length pre)) src = pre ++ src ++ suf.
Proof.
  intros Hl. unfold blit. rewrite Nat2Z.id. rewrite take_app_length.
  rewrite <- drop_drop, drop_app_length. f_equal. f_equal.
  rewrite <- Hl. apply drop_app_length.
Qed.

Lemma add_option_string_appends_aux buf os c d :
  opts_hold buf os -> opt_ok (c, d) ->
  if decide (Z.of_nat (length (enc os)) + Z.of_nat (length d) + 3 < 308) then
    exists buf', add_option_string buf (enc1 (c, d)) = Ret (buf', Z.of_nat (length d) + 2) /\
      opts_hold buf' (os ++ [(c, d)])
  else add_option_string buf (enc1 (c, d)) = Ret (buf, 0).
Proof.
  intros Ho Hok. unfold add_option_string. rewrite (end_option_ok buf os Ho).
  cbn [mbind outcome_bind]. unfold enc1. cbn [fst snd].
  change (rd (c :: Z.of_nat (length d) :: d) 1) with (Ret (Z.of_nat (length d))).
  cbn [mbind outcome_bind].
  destruct (Z.leb_spec 308 (Z.of_nat (length (enc os)) + Z.of_nat (length d) + 2 + 1)) as [Hno|Hfit];
    [by rewrite decide_False by lia|].
  rewrite decide_True by lia.
  replace (Z.to_nat (Z.of_nat (length d) + 2)) with (length (enc1 (c, d))) by (simpl; lia).
  pose proof (rd_n_at [] (enc1 (c, d)) [] 0 eq_refl) as Hrd. rewrite app_nil_r in Hrd.
  simpl app in Hrd. unfold enc1 at 1 in Hrd. cbn [fst snd] in Hrd. rewrite Hrd.
  cbn [mbind outcome_bind]. eexists. split; [reflexivity|].
  destruct Ho as (Hl & Hos & rest & ->). rewrite length_app in Hl. simpl in Hl.
  set (n := length (enc1 (c, d))). assert (Hn : n = (length d + 2)%nat) by (unfold n; simpl; lia).
  (* the buffer behind the options: the bytes overwritten, the new end, the rest *)
  assert (exists mid x suf, DHCP_END :: rest = mid ++ x :: suf /\ length mid = n)
    as (mid & x & suf & Hr & Hmid).
  { destruct (drop n (DHCP_END :: rest)) as [|x suf] eqn:Ed.
    - apply (f_equal length) in Ed. rewrite length_drop in Ed. simpl in Ed. lia.
    - exists (take n (DHCP_END :: rest)), x, suf. rewrite <- Ed, take_drop.
      split; [done|]. rewrite length_take. cbn [length]. clearbody n. lia. }
  rewrite Hr. rewrite blit_app by done.
  replace (Z.of_nat (length (enc os)) + Z.of_nat (length d) + 2)
    with (Z.of_nat (length (enc os ++ enc1 (c, d))))
    by (rewrite length_app; fold n; lia).
  rewrite app_assoc. rewrite (blit_app _ [x] suf [DHCP_END]) by done. unfold opts_hold.
  assert (Hsuf : length (DHCP_END :: rest) = (n + 1 + length suf)%nat).
  { rewrite Hr, length_app, Hmid. simpl. lia. }
  split_and!.
  - rewrite !length_app. fold n. simpl in *. lia.
  - apply Forall_app. split; [done|]. by apply Forall_singleton.
  - exists suf. rewrite enc_app. unfold enc at 3. simpl. by rewrite app_nil_r.
Qed.

(** add_option_string on a buffer holding [os] appends the option when it
    fits with the end marker (returning the bytes added) and otherwise leaves
    the buffer alone and returns 0; the buffer keeps its length of 308. *)
Theorem add_option_string_appends buf os c d :
  opts_hold buf os -> opt_ok (c, d) ->
  if decide (Z.of_nat (length (enc os)) + Z.of_nat (length d) + 3 < 308) then
    exists buf', add_option_string buf (enc1 (c, d)) = Ret (buf', Z.of_nat (length d) + 2) /\
      opts_hold buf' (os ++ [(c, d)])
  else add_option_string buf (enc1 (c, d)) = Ret (buf, 0).
Proof. apply add_option_string_appends_aux. Qed.

(** ** Witnesses: a DISCOVER asking for 192.168.1.7 *)

Definition demo_opts : list (Z * list Z) := [(53, [1]); (50, [192; 168; 1; 7])].

Definition demo_msg (o : list Z) : dhcpMessage :=
  Message 1 1 6 0 7 0 0 0 0 0 0
    ([0; 1; 2; 3; 4; 5] ++ replicate 10 0) (replicate 64 0) (replicate 128 0)
    (htonl 0x63825363) o.

Definition demo_discover : dhcpMessage :=
  demo_msg (enc demo_opts ++ DHCP_END :: replicate 298 0).

Ltac msg_wf_tac :=
  unfold msg_wf; split_and!; try reflexivity; apply all_u8_ok; vm_compute; reflexivity.

Lemma demo_discover_wf : msg_wf demo_discover.
Proof. msg_wf_tac. Qed.

Lemma demo_discover_opts : opts_hold (options demo_discover) demo_opts.
Proof.
  split; [reflexivity|]. split; [|by exists (replicate 298 0)].
  repeat constructor; simpl; unfold DHCP_OPTION_OVER; lia.
Qed.

Lemma get_option_terminates_witness : get_option demo_discover 50 <> Running.
Proof. apply (get_option_terminates demo_discover 50 demo_discover_wf). Defined.

Lemma get_option_in_field_witness :
  exists base len l, field_of base len /\ rd (tail demo_discover) (201 - 2) = Ret 50 /\
    rd (tail demo_discover) (201 - 1) = Ret l /\ base + 2 <= 201 /\ 201 + l <= base + len.
Proof.
  apply (get_option_in_field demo_discover 50 201 demo_discover_wf).
  vm_compute. reflexivity.
Defined.

Lemma get_option_reads_past_end_witness :
  get_option (demo_msg (replicate 307 0 ++ [53])) 53 = Fault.
Proof.
  apply (get_option_reads_past_end _ 53 53); [msg_wf_tac|reflexivity|lia|lia].
Defined.

(** A message whose options go on in the other two fields. *)
Definition over_msg (os fs ss : list (Z * list Z)) : dhcpMessage :=
  let fill n l := l ++ DHCP_END :: replicate (n - 1 - length l) 0 in
  Message 1 1 6 0 0x12345678 0 0 0 0 0 0 ([0; 1; 2; 3; 4; 5] ++ replicate 10 0)
    (fill 64%nat (enc ss)) (fill 128%nat (enc fs)) (htonl 0x63825363) (fill 308%nat (enc os)).
Definition over_opts : list (Z * list Z) := [(53, [1]); (52, [3])].
Definition over_file : list (Z * list Z) := [(50, [192; 168; 1; 7])].
Definition over_sname : list (Z * list Z) := [(12, [104; 111; 115; 116])].

Ltac field_tac :=
  split; [reflexivity|]; split; [|by eexists];
  repeat (apply Forall_cons; split;
    [cbn [fst snd length]; unfold DHCP_OPTION_OVER; split_and!;
      [lia..|intros E; first [discriminate E|by split]]|]); apply Forall_nil; exact I.

Lemma get_option_finds_witness :
  exists p, get_option (over_msg over_opts over_file over_sname) 12 = Ret (Some p) /\
    rd (tail (over_msg over_opts over_file over_sname)) (p - 1) = Ret 4 /\
    rd_n (tail (over_msg over_opts over_file over_sname)) p 4 = Ret [104; 111; 115; 116].
Proof.
  apply (get_option_finds (over_msg over_opts over_file over_sname) over_opts over_file over_sname 12).
  - msg_wf_tac.
  - field_tac.
  - intros _. field_tac.
  - intros _. field_tac.
  - lia.
Defined.

(** The value of the overload option is not looked at: it announces both fields
    (3), but the option behind it is the host name (code 12, neither bit set), and
    the option in [file] is not found. With the value 0 and nothing behind the
    overload option both fields are searched. *)
Lemma overload_value_missed :
  get_option (over_msg [(53, [1]); (52, [3]); (12, [97])] over_file []) 50 = Ret None /\
  exists p, get_option (over_msg [(53, [1]); (52, [0])] over_file []) 50 = Ret (Some p).
Proof. split; [vm_compute; reflexivity|]. eexists. vm_compute. reflexivity. Qed.

(** The step over the overload option is the length of the first option: behind
    a first option of another length the search goes astray. *)
Lemma overload_step_wrong :
  exists os, lookup_opt 54 os = Some [10; 0; 0; 1] /\ get_option (over_msg os [] []) 54 = Ret None.
Proof.
  exists [(61, [1; 2; 3; 4; 5; 6; 7]); (52, [3]); (54, [10; 0; 0; 1]); (12, [97; 98; 99])].
  split; vm_compute; reflexivity.
Qed.

Lemma add_option_string_appends_witness :
  exists buf', add_option_string (options demo_discover) (enc1 (51, [0; 0; 14; 16])) =
    Ret (buf', 6) /\ opts_hold buf' (demo_opts ++ [(51, [0; 0; 14; 16])]).
Proof.
  apply (add_option_string_appends (options demo_discover) demo_opts 51 [0; 0; 14; 16]
           demo_discover_opts).
  unfold opt_ok, DHCP_OPTION_OVER; simpl; lia.
Defined.
