(* ===== verification/DhcpLeases.v ===== *)
(** * The lease table of the DHCP server (src/router/udhcpd/leases.c, dhcpd.h)

    The globals of udhcpd as one record, and the operations on the lease table.
    A [struct dhcpOfferedAddr *] is an index into the table, NULL is [None].
    Addresses are in network order unless said otherwise. The clock is the
    uptime [get_time] returns; only [arpping], which waits for a reply, lets it
    advance. *)

From Stdlib Require Import ZArith Lia.
From stdpp Require Import base numbers sets strings list.
From S2P Require Import Prelude DhcpOptions.
Open Scope Z_scope.

Module Leases.

Record dhcpOfferedAddr := Lease {
  l_chaddr : list Z;     (* 16 bytes *)
  l_yiaddr : Z;
  l_expires : Z;         (* host order *)
  l_hostname : list Z    (* 64 bytes *)
}.
#[global] Instance lease_eq_dec : EqDecision dhcpOfferedAddr.
Proof. solve_decision. Defined.

Definition zero_lease : dhcpOfferedAddr := Lease (replicate 16 0) 0 0 (replicate 64 0).
Definition blank_chaddr : list Z := replicate 16 0.

Definition set_chaddr (c : list Z) (l : dhcpOfferedAddr) :=
  Lease c (l_yiaddr l) (l_expires l) (l_hostname l).
Definition set_expires (e : Z) (l : dhcpOfferedAddr) :=
  Lease (l_chaddr l) (l_yiaddr l) e (l_hostname l).
Definition set_hostname (h : list Z) (l : dhcpOfferedAddr) :=
  Lease (l_chaddr l) (l_yiaddr l) (l_expires l) h.

(** struct server_config_t *)
Record server_config_t := Config {
  c_server : Z; c_start : Z; c_end : Z;
  c_options : list (list Z);
  c_interface : string; c_ifindex : Z; c_arp : list Z;
  c_lease : Z; c_max_leases : Z; c_remaining : Z; c_auto_time : Z;
  c_decline_time : Z; c_conflict_time : Z; c_offer_time : Z; c_min_lease : Z;
  c_lease_file : string; c_pidfile : string; c_notify_file : option string;
  c_siaddr : Z; c_sname : option (list Z); c_boot_file : option (list Z);
  c_single_pc_mode : Z; c_share_wanip_flag : Z; c_share_wanip_comm : Z
}.

(** struct macip, struct hostnameip, struct ShareWANIP *)
Definition MAX_NUM : nat := 10.
Definition MAC_LEN : nat := 6.
Record macip := MacIp { m_ipaddr : Z; m_macaddr : list Z }.
Record hostnameip := HostIp { h_ipaddr : Z; h_hostname : list Z }.
Record ShareWANIP := Share {
  w_index : Z; w_macaddr : list Z; w_ipaddr : Z; w_lease : Z; w_gwaddr : Z }.

(** What the server does to the outside: packets sent, commands run, files
    written, nvram variables set. *)
Inductive effect :=
  | RawPacket (payload : Options.dhcpMessage) (source_ip source_port dest_ip dest_port : Z)
      (dest_arp : list Z) (ifindex : Z)
  | KernelPacket (payload : Options.dhcpMessage) (source_ip source_port dest_ip dest_port : Z)
  | Eval (argv : list string)
  | WriteFile (path text : string)
  | WriteBytes (path : string) (data : list Z)
  | NvramSet (name value : string)
  | System (command : string).

Record server := Server {
  cfg : server_config_t;
  leases : list dhcpOfferedAddr;
  mac_ip : list macip; mac_ip_count : nat;
  hostname_ip : list hostnameip; hostname_ip_count : nat;
  share_wan_ip : list ShareWANIP; share_wanip_count : Z;
  single_pc_mode_gw : Z; single_pc_mac : list Z; single_pc_mode_flag : Z;
  send_nak_flag : Z;
  clock : Z;
  trace : list effect
}.

Definition with_leases (l : list dhcpOfferedAddr) (s : server) : server :=
  Server (cfg s) l (mac_ip s) (mac_ip_count s) (hostname_ip s) (hostname_ip_count s)
    (share_wan_ip s) (share_wanip_count s) (single_pc_mode_gw s) (single_pc_mac s)
    (single_pc_mode_flag s) (send_nak_flag s) (clock s) (trace s).
Definition with_clock (t : Z) (s : server) : server :=
  Server (cfg s) (leases s) (mac_ip s) (mac_ip_count s) (hostname_ip s)
    (hostname_ip_count s) (share_wan_ip s) (share_wanip_count s) (single_pc_mode_gw s)
    (single_pc_mac s) (single_pc_mode_flag s) (send_nak_flag s) t (trace s).
Definition with_share (w : list ShareWANIP) (n gw : Z) (s : server) : server :=
  Server (cfg s) (leases s) (mac_ip s) (mac_ip_count s) (hostname_ip s)
    (hostname_ip_count s) w n gw (single_pc_mac s) (single_pc_mode_flag s)
    (send_nak_flag s) (clock s) (trace s).
Definition with_single (mac : list Z) (flag : Z) (s : server) : server :=
  Server (cfg s) (leases s) (mac_ip s) (mac_ip_count s) (hostname_ip s)
    (hostname_ip_count s) (share_wan_ip s) (share_wanip_count s) (single_pc_mode_gw s)
    mac flag (send_nak_flag s) (clock s) (trace s).
Definition with_nak (n : Z) (s : server) : server :=
  Server (cfg s) (leases s) (mac_ip s) (mac_ip_count s) (hostname_ip s)
    (hostname_ip_count s) (share_wan_ip s) (share_wanip_count s) (single_pc_mode_gw s)
    (single_pc_mac s) (single_pc_mode_flag s) n (clock s) (trace s).
Definition emit (e : effect) (s : server) : server :=
  Server (cfg s) (leases s) (mac_ip s) (mac_ip_count s) (hostname_ip s)
    (hostname_ip_count s) (share_wan_ip s) (share_wanip_count s) (single_pc_mode_gw s)
    (single_pc_mac s) (single_pc_mode_flag s) (send_nak_flag s) (clock s) (trace s ++ [e]).

Definition upd_lease (i : nat) (f : dhcpOfferedAddr -> dhcpOfferedAddr) (s : server) : server :=
  with_leases (alter f i (leases s)) s.

(** ** The environment of the server

    [arpping addr now] is the result of probing [addr] (1 no answer, 0 in use,
    -1 error) and the time at which it returned; [send_result] is what the
    send routine returns for an effect; the rest are the files and the nvram
    variables the server reads, whether a file opens for writing, and the name
    service. *)
Class Env := {
  arpping : Z -> Z -> Z * Z;
  send_result : effect -> Z;
  file_contents : string -> option string;
  can_write : string -> bool;
  nvram_get : string -> option string;
  gethostbyname : string -> option Z
}.

Definition nonzero (l : list Z) : bool := negb (forallb (fun b => b =? 0) l).

(** ** clear_lease *)
Definition clear_matches (chaddr : list Z) (yiaddr : Z) (l : dhcpOfferedAddr) : bool :=
  (nonzero chaddr && bool_decide (l_chaddr l = chaddr)) ||
  (negb (yiaddr =? 0) && (l_yiaddr l =? yiaddr)).

Definition clear_lease (chaddr : list Z) (yiaddr : Z) (s : server) : server :=
  with_leases
    ((fun l => if clear_matches chaddr yiaddr l then zero_lease else l) <$> leases s) s.

(** ** lease_expired *)
Definition lease_expired (l : dhcpOfferedAddr) (now : Z) : bool := l_expires l <? now.

(** ** oldest_expired_lease *)
Fixpoint oldest_loop (ls : list dhcpOfferedAddr) (i : nat) (oldest_lease : Z)
    (oldest : option nat) : option nat :=
  match ls with
  | [] => oldest
  | l :: ls =>
      if l_expires l <? oldest_lease then oldest_loop ls (S i) (l_expires l) (Some i)
      else oldest_loop ls (S i) oldest_lease oldest
  end.

Definition oldest_expired_lease (s : server) : option nat :=
  oldest_loop (leases s) 0 (clock s) None.

(** ** add_lease *)
Definition add_lease (chaddr : list Z) (yiaddr lease : Z) (s : server)
    : server * option nat :=
  let s := clear_lease chaddr yiaddr s in
  match oldest_expired_lease s with
  | Some i =>
      (upd_lease i (fun l => Lease chaddr yiaddr (u32 (clock s + lease)) (l_hostname l)) s,
       Some i)
  | None => (s, None)
  end.

(** ** find_lease_by_chaddr, find_lease_by_yiaddr *)
Definition find_lease_by_chaddr (chaddr : list Z) (s : server) : option nat :=
  find_index (fun l => bool_decide (l_chaddr l = chaddr)) (leases s).

Definition find_lease_by_yiaddr (yiaddr : Z) (s : server) : option nat :=
  find_index (fun l => l_yiaddr l =? yiaddr) (leases s).

(** ** is_in_machost_table: 2 and the index in mac_ip, 1 and the index in
    hostname_ip, or 0 *)
Definition is_in_machost_table (ip : Z) (s : server) : Z * nat :=
  if ip =? 0 then (0, 0%nat) else
  match find_index (fun m => m_ipaddr m =? ip) (mac_ip s) with
  | Some i => (2, i)
  | None =>
      match find_index (fun h => h_ipaddr h =? ip) (hostname_ip s) with
      | Some i => (1, i)
      | None => (0, 0%nat)
      end
  end.

Section WithEnv.
Context `{Env}.

(** ** check_ip *)
Definition check_ip (addr : Z) (s : server) : server * Z :=
  let '(r, t) := arpping addr (clock s) in
  let s := with_clock t s in
  if r =? 0 then ((add_lease blank_chaddr addr (c_conflict_time (cfg s)) s).1, 1)
  else (s, 0).

(** ** find_address

    [addr] is in host order; [ret] is the candidate of the last iteration that
    got past the tests, 0 at first. *)
Fixpoint find_address_loop (fuel : nat) (check_expired : bool) (addr ret : Z) (s : server)
    : outcome (server * Z) :=
  match fuel with
  | O => Running
  | S fuel =>
      let next := find_address_loop fuel check_expired (u32 (addr + 1)) in
      if ntohl (c_end (cfg s)) <? addr then Ret (s, 0) else
      if ret =? c_server (cfg s) then next ret s else
      if Z.land addr 0xFF =? 0 then next ret s else
      if Z.land addr 0xFF =? 0xFF then next ret s else
      if negb ((is_in_machost_table (htonl addr) s).1 =? 0) then next ret s else
      let ret := htonl addr in
      let free :=
        match find_lease_by_yiaddr ret s with
        | None => Ret true
        | Some i =>
            if check_expired then l ← deref (leases s !! i); Ret (lease_expired l (clock s))
            else Ret false
        end in
      b ← free;
      if (b : bool) then
        let '(s, used) := check_ip ret s in
        if used =? 0 then Ret (s, ret) else next ret s
      else next ret s
  end.

(** One step per address of the range and one to leave the loop. *)
Definition range_fuel (s : server) : nat :=
  S (Z.to_nat (ntohl (c_end (cfg s)) - ntohl (c_start (cfg s)) + 1)).

Definition find_address (check_expired : bool) (s : server) : outcome (server * Z) :=
  find_address_loop (range_fuel s) check_expired (ntohl (c_start (cfg s))) 0 s.

End WithEnv.

End Leases.
