(* ===== verification/DhcpLeasesProofs.v ===== *)
(** * Correctness of the lease table *)

From Stdlib Require Import ZArith Lia.
From stdpp Require Import base numbers sets strings list.
From S2P Require Import Prelude DhcpOptions DhcpLeases.
Import Leases.
Open Scope Z_scope.

(** ** The invariant of the table

    Every slot has the sizes of the structure, and no two slots share a
    non-zero hardware address or a non-zero IP address. *)
Definition lease_ok (l : dhcpOfferedAddr) : Prop :=
  length (l_chaddr l) = 16%nat /\ is_u32 (l_yiaddr l) /\ is_u32 (l_expires l) /\
  length (l_hostname l) = 64%nat.

Definition clash (a b : dhcpOfferedAddr) : Prop :=
  (nonzero (l_chaddr a) = true /\ l_chaddr a = l_chaddr b) \/
  (l_yiaddr a <> 0 /\ l_yiaddr a = l_yiaddr b).

Definition uniq (ls : list dhcpOfferedAddr) : Prop :=
  forall i j a b, ls !! i = Some a -> ls !! j = Some b -> clash a b -> i = j.

Definition table_wf (ls : list dhcpOfferedAddr) : Prop := Forall lease_ok ls /\ uniq ls.

Lemma zero_lease_ok : lease_ok zero_lease.
Proof. unfold lease_ok, is_u32. simpl. lia. Qed.

Lemma clash_zero_l b : ~ clash zero_lease b.
Proof. intros [[H _]|[H _]]; done. Qed.

Lemma clash_sym a b : clash a b -> clash b a.
Proof.
  intros [[H E]|[H E]]; [left|right]; split; try done; congruence.
Qed.

(** Slots may be zeroed, and a slot that clashes with no other may be put in. *)
Lemma uniq_fmap (f : dhcpOfferedAddr -> dhcpOfferedAddr) ls :
  (forall l, f l = l \/ f l = zero_lease) -> uniq ls -> uniq (f <$> ls).
Proof.
  intros Hf Hu i j a b Ha Hb Hc. rewrite list_lookup_fmap in Ha, Hb.
  apply fmap_Some in Ha as (a0 & Ha & ->). apply fmap_Some in Hb as (b0 & Hb & ->).
  destruct (Hf a0) as [E|E]; rewrite E in Hc; [|by apply clash_zero_l in Hc].
  destruct (Hf b0) as [E'|E']; rewrite E' in Hc.
  - by eapply Hu.
  - by apply clash_sym, clash_zero_l in Hc.
Qed.

Lemma uniq_insert (ls : list dhcpOfferedAddr) (k : nat) (x : dhcpOfferedAddr) : uniq ls ->
  (forall i a, i <> k -> ls !! i = Some a -> ~ clash x a) -> uniq (<[k := x]> ls).
Proof.
  intros Hu Hx i j a b Ha Hb Hc.
  destruct (decide (i = k)) as [->|Hi], (decide (j = k)) as [->|Hj]; [done| | |].
  - apply lookup_lt_Some in Ha as Hk. rewrite length_insert in Hk.
    rewrite list_lookup_insert_eq in Ha by done. simplify_eq.
    rewrite list_lookup_insert_ne in Hb by done. by destruct (Hx j b).
  - apply lookup_lt_Some in Hb as Hk. rewrite length_insert in Hk.
    rewrite list_lookup_insert_eq in Hb by done. simplify_eq.
    rewrite list_lookup_insert_ne in Ha by done. apply clash_sym in Hc. by destruct (Hx i a).
  - rewrite list_lookup_insert_ne in Ha, Hb by done. by eapply Hu.
Qed.

Lemma alter_insert (f : dhcpOfferedAddr -> dhcpOfferedAddr) (i : nat)
    (ls : list dhcpOfferedAddr) (l : dhcpOfferedAddr) :
  ls !! i = Some l -> alter f i ls = <[i := f l]> ls.
Proof.
  intros Hl. apply list_eq. intros j. destruct (decide (i = j)) as [->|Hne].
  - rewrite list_lookup_alter_eq, Hl, list_lookup_insert_eq; [done|]. by eapply lookup_lt_Some.
  - by rewrite list_lookup_alter_ne, list_lookup_insert_ne.
Qed.

(** An update in place that introduces no new address keeps the invariant. *)
Lemma table_wf_alter (ls : list dhcpOfferedAddr) (i : nat)
    (f : dhcpOfferedAddr -> dhcpOfferedAddr) : table_wf ls ->
  (forall l, lease_ok l -> lease_ok (f l)) ->
  (forall l, (nonzero (l_chaddr (f l)) = false \/ l_chaddr (f l) = l_chaddr l) /\
             (l_yiaddr (f l) = 0 \/ l_yiaddr (f l) = l_yiaddr l)) ->
  table_wf (alter f i ls).
Proof.
  intros [Hok Hu] Hf1 Hf2. destruct (ls !! i) as [l|] eqn:El.
  - rewrite (alter_insert f i ls l El). split.
    + apply Forall_insert; [done|]. apply Hf1. by eapply (Forall_lookup_1 lease_ok).
    + apply uniq_insert; [done|]. intros j a Hj Ha Hc. apply Hj. symmetry.
      apply (Hu i j l a El Ha). destruct (Hf2 l) as [H1 H2].
      destruct Hc as [[Hn E]|[Hn E]].
      * left. destruct H1 as [H1|H1]; [congruence|]. rewrite <- H1. done.
      * right. destruct H2 as [H2|H2]; [congruence|]. rewrite <- H2. done.
  - replace (alter f i ls) with ls; [done|]. apply list_eq. intros j.
    destruct (decide (i = j)) as [->|Hne]; [by rewrite list_lookup_alter_eq, El|].
    by rewrite list_lookup_alter_ne.
Qed.

(** ** oldest_expired_lease *)

Lemma oldest_loop_spec ls : forall i best o,
  match oldest_loop ls i best o with
  | Some k => (o = Some k /\ (forall l, l ∈ ls -> best <= l_expires l)) \/
              (exists j l, k = (i + j)%nat /\ ls !! j = Some l /\ l_expires l < best /\
                 (forall l', l' ∈ ls -> l_expires l <= l_expires l'))
  | None => o = None /\ (forall l, l ∈ ls -> best <= l_expires l)
  end.
Proof.
  induction ls as [|x ls IH]; intros i best o; simpl.
  - destruct o; [left|]; (split; [done|]); intros l Hl; by apply elem_of_nil in Hl.
  - destruct (Z.ltb_spec (l_expires x) best) as [Hlt|Hge].
    + specialize (IH (S i) (l_expires x) (Some i)).
      destruct (oldest_loop ls (S i) (l_expires x) (Some i)) as [k|].
      * right. destruct IH as [[[= ->] Hall]|(j & l & -> & Hj & Hl & Hall)].
        -- exists 0%nat, x. split_and!; [lia|done|done|].
           intros l' Hl'. apply elem_of_cons in Hl' as [->|Hl']; [lia|by apply Hall].
        -- exists (S j), l. split_and!; [lia|done|lia|].
           intros l' Hl'. apply elem_of_cons in Hl' as [->|Hl']; [lia|by apply Hall].
      * by destruct IH.
    + specialize (IH (S i) best o). destruct (oldest_loop ls (S i) best o) as [k|].
      * destruct IH as [[-> Hall]|(j & l & -> & Hj & Hl & Hall)].
        -- left. split; [done|]. intros l Hl. apply elem_of_cons in Hl as [->|Hl]; [done|by apply Hall].
        -- right. exists (S j), l. split_and!; [lia|done|done|].
           intros l' Hl'. apply elem_of_cons in Hl' as [->|Hl']; [lia|by apply Hall].
      * destruct IH as [-> Hall]. split; [done|].
        intros l Hl. apply elem_of_cons in Hl as [->|Hl]; [done|by apply Hall].
Qed.

Lemma oldest_expired_spec s :
  match oldest_expired_lease s with
  | Some i => exists l, leases s !! i = Some l /\ lease_expired l (clock s) = true /\
      (forall l', l' ∈ leases s -> l_expires l <= l_expires l')
  | None => forall l, l ∈ leases s -> lease_expired l (clock s) = false
  end.
Proof.
  unfold oldest_expired_lease, lease_expired.
  pose proof (oldest_loop_spec (leases s) 0 (clock s) None) as H.
  destruct (oldest_loop _ _ _ _) as [k|].
  - destruct H as [[? _]|(j & l & -> & Hj & Hl & Hall)]; [done|].
    exists l. split; [done|]. split; [by apply Z.ltb_lt|done].
  - intros l Hl. apply Z.ltb_ge. by apply H.
Qed.

(** ** add_lease *)

Definition cleared (chaddr : list Z) (yiaddr : Z) (l : dhcpOfferedAddr) : dhcpOfferedAddr :=
  if clear_matches chaddr yiaddr l then zero_lease else l.

Lemma cleared_cases c y l : cleared c y l = l \/ cleared c y l = zero_lease.
Proof. unfold cleared. destruct (clear_matches c y l); auto. Qed.

Lemma clear_lease_leases c y s : leases (clear_lease c y s) = cleared c y <$> leases s.
Proof. done. Qed.

Lemma clear_lease_wf c y s : table_wf (leases s) -> table_wf (leases (clear_lease c y s)).
Proof.
  intros [Hok Hu]. rewrite clear_lease_leases. split.
  - apply Forall_fmap. eapply Forall_impl; [exact Hok|]. intros l Hl. simpl.
    destruct (cleared_cases c y l) as [-> | ->]; [done|apply zero_lease_ok].
  - apply uniq_fmap; [|done]. apply cleared_cases.
Qed.

Lemma add_lease_cases chaddr yiaddr lease s :
  match add_lease chaddr yiaddr lease s with
  | (s', Some i) => exists old,
      leases s' = <[i := Lease chaddr yiaddr (u32 (clock s + lease)) (l_hostname old)]>
                    (cleared chaddr yiaddr <$> leases s) /\
      cleared chaddr yiaddr <$> (leases s !! i) = Some old /\
      lease_expired old (clock s) = true
  | (s', None) =>
      leases s' = cleared chaddr yiaddr <$> leases s /\
      (forall l, l ∈ leases s' -> lease_expired l (clock s) = false)
  end.
Proof.
  unfold add_lease. pose proof (oldest_expired_spec (clear_lease chaddr yiaddr s)) as H.
  destruct (oldest_expired_lease (clear_lease chaddr yiaddr s)) as [i|]; [|done].
  destruct H as (old & Hi & Hexp & _). exists old. split; [|split; [|done]].
  - simpl. by rewrite (alter_insert _ i _ old Hi).
  - by rewrite clear_lease_leases, list_lookup_fmap in Hi.
Qed.

Lemma not_clash_cleared c y e h l : ~ clash (Lease c y e h) (cleared c y l).
Proof.
  unfold cleared, clear_matches. intros [[Hn E]|[Hn E]]; simpl in *.
  - rewrite Hn in *. simpl in *. destruct (bool_decide_reflect (l_chaddr l = c)); simpl in *.
    + by rewrite E in Hn.
    + destruct (negb (y =? 0) && (l_yiaddr l =? y)); [by rewrite E in Hn|]. done.
  - destruct (Z.eqb_spec y 0); [done|]. simpl in *.
    destruct (Z.eqb_spec (l_yiaddr l) y); [|].
    + rewrite orb_true_r in E. done.
    + rewrite orb_false_r in E. destruct (nonzero c && _); simpl in E; congruence.
Qed.


Lemma add_lease_wf_aux chaddr yiaddr lease s :
  table_wf (leases s) -> length chaddr = 16%nat -> is_u32 yiaddr ->
  table_wf (leases (add_lease chaddr yiaddr lease s).1) /\
  length (leases (add_lease chaddr yiaddr lease s).1) = length (leases s).
Proof.
  intros Hwf Hc Hy. pose proof (clear_lease_wf chaddr yiaddr s Hwf) as [Hok Hu].
  rewrite clear_lease_leases in Hok, Hu.
  pose proof (add_lease_cases chaddr yiaddr lease s) as H.
  destruct (add_lease chaddr yiaddr lease s) as [s' [i|]]; simpl.
  - destruct H as (old & -> & Hi & _). rewrite length_insert, length_fmap. split; [|done].
    split.
    + apply Forall_insert; [done|]. unfold lease_ok; simpl.
      split_and!; try done; try apply u32_range.
      rewrite <- list_lookup_fmap in Hi.
      apply (Forall_lookup_1 lease_ok _ _ _ Hok Hi).
    + apply uniq_insert; [done|]. intros j a _ Ha. rewrite list_lookup_fmap in Ha.
      apply fmap_Some in Ha as (a0 & _ & ->). apply not_clash_cleared.
  - destruct H as [-> _]. by rewrite length_fmap.
Qed.

(** add_lease keeps the invariant of the lease table and its size. *)
Theorem add_lease_wf chaddr yiaddr lease s :
  table_wf (leases s) -> length chaddr = 16%nat -> is_u32 yiaddr ->
  table_wf (leases (add_lease chaddr yiaddr lease s).1) /\
  length (leases (add_lease chaddr yiaddr lease s).1) = length (leases s).
Proof. apply add_lease_wf_aux. Qed.

(** ** The table as a set of current bindings

    [bound s c y e]: at the present time the table holds address [y] for client
    [c] until [e]. *)
Definition bound (s : server) (c : list Z) (y e : Z) : Prop :=
  exists h, Lease c y e h ∈ leases s /\ clock s <= e.

Definition same_binding (c : list Z) (y : Z) (c' : list Z) (y' : Z) : bool :=
  clear_matches c y (Lease c' y' 0 []).

Lemma clear_matches_binding c y l :
  clear_matches c y l = same_binding c y (l_chaddr l) (l_yiaddr l).
Proof. done. Qed.

(** A zeroed slot has expired as soon as the clock is past 0. *)
Lemma cleared_bound c y s c' y' e h : 0 < clock s ->
  Lease c' y' e h ∈ (cleared c y <$> leases s) -> clock s <= e ->
  same_binding c y c' y' = false /\ bound s c' y' e.
Proof.
  intros Ht Hin He. apply list_elem_of_fmap in Hin as (l & Hl & Hin).
  unfold cleared in Hl. destruct (clear_matches c y l) eqn:E.
  - unfold zero_lease in Hl. injection Hl as -> -> -> ->. lia.
  - subst l. split; [exact E|]. by exists h.
Qed.

Lemma bound_cleared c y s c' y' e : bound s c' y' e -> same_binding c y c' y' = false ->
  exists h, Lease c' y' e h ∈ (cleared c y <$> leases s) /\ clock s <= e.
Proof.
  intros (h & Hin & He) Hm. exists h. split; [|done]. apply list_elem_of_fmap.
  exists (Lease c' y' e h). split; [|done]. unfold cleared.
  by rewrite clear_matches_binding; simpl; rewrite Hm.
Qed.

Lemma elem_of_insert_inv (ls : list dhcpOfferedAddr) (i : nat) (x y : dhcpOfferedAddr) :
  y ∈ <[i := x]> ls -> y = x \/ y ∈ ls.
Proof.
  intros Hy. apply list_elem_of_lookup in Hy as (j & Hj).
  destruct (decide (i = j)) as [->|Hne].
  - apply lookup_lt_Some in Hj as Hlt. rewrite length_insert in Hlt.
    rewrite list_lookup_insert_eq in Hj by done. left. congruence.
  - rewrite list_lookup_insert_ne in Hj by done. right. by eapply list_elem_of_lookup_2.
Qed.

Lemma elem_of_insert_other (ls : list dhcpOfferedAddr) (i : nat) (x y old : dhcpOfferedAddr) :
  ls !! i = Some old -> y ∈ ls -> y <> old -> y ∈ <[i := x]> ls.
Proof.
  intros Ho Hy Hne. apply list_elem_of_lookup in Hy as (j & Hj).
  destruct (decide (i = j)) as [->|Hij]; [congruence|].
  eapply (list_elem_of_lookup_2 _ j). by rewrite list_lookup_insert_ne.
Qed.

Lemma add_lease_clock c y e s : clock (add_lease c y e s).1 = clock s.
Proof. unfold add_lease. by destruct (oldest_expired_lease _). Qed.

Lemma add_lease_bindings c y lease s i c' y' e :
  0 < clock s -> (add_lease c y lease s).2 = Some i ->
  clock s <= u32 (clock s + lease) ->
  bound (add_lease c y lease s).1 c' y' e <->
  (c' = c /\ y' = y /\ e = u32 (clock s + lease)) \/
  (bound s c' y' e /\ same_binding c y c' y' = false).
Proof.
  intros Ht Hi Hfresh. pose proof (add_lease_cases c y lease s) as H.
  unfold bound at 1. rewrite add_lease_clock.
  destruct (add_lease c y lease s) as [s' [k|]]; simpl in *; [|done].
  destruct H as (old & -> & Ho & Hexp). rewrite <- list_lookup_fmap in Ho. split.
  - intros (h & Hin & He). apply elem_of_insert_inv in Hin as [Hin|Hin].
    + left. by injection Hin as -> -> -> _.
    + right. apply cleared_bound in Hin as [H1 H2]; [|done..]. done.
  - intros [(-> & -> & ->)|[Hb Hm]].
    + exists (l_hostname old). split; [|done]. eapply (list_elem_of_lookup_2 _ k).
      apply list_lookup_insert_eq. by eapply lookup_lt_Some.
    + destruct (bound_cleared c y s c' y' e Hb Hm) as (h & Hin & He). exists h.
      split; [|done]. eapply elem_of_insert_other; [exact Ho|done|]. intros <-.
      unfold lease_expired in Hexp. simpl in Hexp. lia.
Qed.

(** C3. add_lease refines an update of the set of current bindings. When the
    table is not full, the new binding is in, the bindings of the same client
    and of the same address are out, and every other client's current binding
    stays: recycling a slot never takes an address that is still leased. When
    it refuses, no slot of the table was free. *)
Theorem add_lease_refines c y lease s :
  0 < clock s -> clock s <= u32 (clock s + lease) ->
  match (add_lease c y lease s).2 with
  | Some _ => forall c' y' e,
      bound (add_lease c y lease s).1 c' y' e <->
      (c' = c /\ y' = y /\ e = u32 (clock s + lease)) \/
      (bound s c' y' e /\ same_binding c y c' y' = false)
  | None => forall l, l ∈ leases s ->
      lease_expired l (clock s) = false /\ clear_matches c y l = false
  end.
Proof.
  intros Ht Hf. destruct (add_lease c y lease s).2 as [i|] eqn:E.
  - intros c' y' e. by eapply add_lease_bindings.
  - pose proof (add_lease_cases c y lease s) as H.
    destruct (add_lease c y lease s) as [s' o]; simpl in E; subst o.
    destruct H as [Hs Hall]. intros l Hl.
    assert (cleared c y l ∈ leases s') as Hin.
    { rewrite Hs. by apply list_elem_of_fmap_2. }
    apply Hall in Hin. unfold cleared in Hin. destruct (clear_matches c y l); [|done].
    unfold lease_expired, zero_lease in Hin; simpl in Hin. lia.
Qed.

(** ** The two searches *)

Lemma find_by_yiaddr_Some y s i : find_lease_by_yiaddr y s = Some i ->
  exists l, leases s !! i = Some l /\ l_yiaddr l = y.
Proof.
  unfold find_lease_by_yiaddr. intros H. apply find_index_Some in H as (l & Hl & E).
  exists l. split; [done|]. by apply Z.eqb_eq.
Qed.

Lemma find_by_chaddr_Some c s i : find_lease_by_chaddr c s = Some i ->
  exists l, leases s !! i = Some l /\ l_chaddr l = c.
Proof.
  unfold find_lease_by_chaddr. intros H. apply find_index_Some in H as (l & Hl & E).
  exists l. split; [done|]. by apply bool_decide_eq_true in E.
Qed.

Lemma find_by_yiaddr_None y s : find_lease_by_yiaddr y s = None ->
  forall l, l ∈ leases s -> l_yiaddr l <> y.
Proof.
  unfold find_lease_by_yiaddr. rewrite find_index_None. intros H l Hl.
  apply H in Hl. by apply Z.eqb_neq.
Qed.

(** ** check_ip and find_address *)

(** What a step of the address search may change: the clock and the leases. *)
Definition same_but_table (s s' : server) : Prop :=
  cfg s' = cfg s /\ mac_ip s' = mac_ip s /\ hostname_ip s' = hostname_ip s /\
  mac_ip_count s' = mac_ip_count s /\ hostname_ip_count s' = hostname_ip_count s /\
  share_wan_ip s' = share_wan_ip s /\ share_wanip_count s' = share_wanip_count s /\
  single_pc_mode_gw s' = single_pc_mode_gw s /\ single_pc_mac s' = single_pc_mac s /\
  single_pc_mode_flag s' = single_pc_mode_flag s /\ send_nak_flag s' = send_nak_flag s /\
  trace s' = trace s.

#[global] Instance same_but_table_preorder : PreOrder same_but_table.
Proof.
  split.
  - intros s. by unfold same_but_table.
  - intros a b c H1 H2. unfold same_but_table in *.
    destruct_and!. split_and!; congruence.
Qed.

Lemma add_lease_same c y e s : same_but_table s (add_lease c y e s).1.
Proof. unfold add_lease. by destruct (oldest_expired_lease _). Qed.

#[export] Hint Resolve add_lease_same : wag.

Section FindAddress.
Context `{Env}.

(** check_ip reports a free address and then changes the clock only, or an
    address in use, and then reserves it. *)
Lemma check_ip_cases addr s :
  (check_ip addr s = (with_clock (arpping addr (clock s)).2 s, 0) /\
   (arpping addr (clock s)).1 <> 0) \/
  (check_ip addr s =
     ((add_lease blank_chaddr addr (c_conflict_time (cfg s))
         (with_clock (arpping addr (clock s)).2 s)).1, 1) /\
   (arpping addr (clock s)).1 = 0).
Proof.
  unfold check_ip. destruct (arpping addr (clock s)) as [r t]; simpl.
  destruct (Z.eqb_spec r 0); [right|left]; done.
Qed.

Lemma check_ip_same addr s : same_but_table s (check_ip addr s).1.
Proof.
  destruct (check_ip_cases addr s) as [[-> _]|[-> _]]; simpl; [done|].
  etrans; [|apply add_lease_same]. done.
Qed.

Lemma check_ip_wf addr s : is_u32 addr -> table_wf (leases s) ->
  table_wf (leases (check_ip addr s).1) /\
  length (leases (check_ip addr s).1) = length (leases s).
Proof.
  intros Ha Hwf. destruct (check_ip_cases addr s) as [[-> _]|[-> _]]; simpl; [done|].
  by apply (add_lease_wf_aux _ _ _ (with_clock (arpping addr (clock s)).2 s)).
Qed.

(** What the code promises about an address it hands out. *)
Record assignable (check_expired : bool) (s s' : server) (a : Z) : Prop := {
  as_range : ntohl (c_start (cfg s)) <= ntohl a <= ntohl (c_end (cfg s));
  as_octet : Z.land (ntohl a) 0xFF <> 0 /\ Z.land (ntohl a) 0xFF <> 0xFF;
  as_static : (is_in_machost_table a s).1 = 0;
  as_probe : exists t, (arpping a t).1 <> 0 /\ clock s' = (arpping a t).2 /\
    (find_lease_by_yiaddr a s' = None \/
     check_expired = true /\ exists i l, find_lease_by_yiaddr a s' = Some i /\
       leases s' !! i = Some l /\ lease_expired l t = true)
}.

Lemma find_address_loop_sound check_expired s0 fuel : forall addr ret s s' a,
  ntohl (c_start (cfg s0)) <= addr -> is_u32 addr ->
  same_but_table s0 s -> table_wf (leases s) ->
  ntohl (c_end (cfg s0)) < 2 ^ 32 - 1 ->
  find_address_loop fuel check_expired addr ret s = Ret (s', a) ->
  same_but_table s0 s' /\ table_wf (leases s') /\ length (leases s') = length (leases s) /\
  (a <> 0 -> assignable check_expired s0 s' a).
Proof.
  induction fuel as [|fuel IH]; intros addr ret s s' a Hlo Hu Hs Hwf Hend Hrun; [done|].
  cbn [find_address_loop] in Hrun.
  pose proof Hs as (Hcfg & Hmac & Hhost & _). rewrite !Hcfg in Hrun.
  destruct (Z.ltb_spec (ntohl (c_end (cfg s0))) addr) as [Hout|Hin].
  { by mono; simplify_eq. }
  assert (Hnext : u32 (addr + 1) = addr + 1).
  { apply u32_small. unfold is_u32 in *. lia. }
  assert (Hu' : is_u32 (addr + 1)) by (unfold is_u32 in *; lia).
  rewrite Hnext in Hrun.
  assert (Hskip : forall r st, same_but_table s0 st -> table_wf (leases st) ->
            length (leases st) = length (leases s) ->
            find_address_loop fuel check_expired (addr + 1) r st = Ret (s', a) ->
            same_but_table s0 s' /\ table_wf (leases s') /\
            length (leases s') = length (leases s) /\
            (a <> 0 -> assignable check_expired s0 s' a)).
  { intros r st H1 H2 H3 H4. rewrite <- H3. eapply IH; [| |done..]; [lia|done]. }
  destruct (ret =? c_server (cfg s0)); [by eapply Hskip|].
  destruct (Z.eqb_spec (Z.land addr 0xFF) 0) as [|Ho1]; [by eapply Hskip|].
  destruct (Z.eqb_spec (Z.land addr 0xFF) 0xFF) as [|Ho2]; [by eapply Hskip|].
  destruct ((is_in_machost_table (htonl addr) s).1 =? 0) eqn:Hst; simpl in Hrun;
    [|by eapply Hskip].
  apply Z.eqb_eq in Hst.
  apply bind_Ret_inv in Hrun as (b & Hfree & Hrun).
  destruct b; [|by eapply Hskip].
  pose proof (check_ip_wf (htonl addr) s (bswap32_range addr) Hwf) as [Hw Hl].
  pose proof (check_ip_same (htonl addr) s) as Hsame.
  destruct (check_ip_cases (htonl addr) s) as [[Ec Ha]|[Ec Ha]];
    rewrite Ec in Hw, Hl, Hsame, Hrun; cbn [fst Z.eqb] in Hw, Hl, Hsame, Hrun.
  - injection Hrun as <- <-. split_and!; [by etrans|done|done|]. intros _.
    assert (Hinv : ntohl (htonl addr) = addr) by (apply bswap32_involutive; done).
    constructor; rewrite ?Hinv; [done|done| |].
    + revert Hst. unfold is_in_machost_table. by rewrite Hmac, Hhost.
    + exists (clock s). split_and!; [done|done|].
      change (find_lease_by_yiaddr (htonl addr) (with_clock (arpping (htonl addr) (clock s)).2 s))
        with (find_lease_by_yiaddr (htonl addr) s).
      destruct (find_lease_by_yiaddr (htonl addr) s) as [i|]; [|by left].
      right. destruct check_expired; [|by mono]. split; [done|].
      apply bind_Ret_inv in Hfree as (l & Hl' & Hexp). mono.
      by exists i, l.
  - eapply Hskip; [|done..]. by etrans.
Qed.

(** C19. An address find_address hands out is in the configured range, is not a
    network or broadcast address of a /24, is in neither of the two static
    tables, was not leased (or, in the second attempt, its lease had expired)
    when it was probed, and the probe found nobody using it. The search keeps
    the invariant of the lease table and touches nothing but the table and the
    clock. *)
Theorem find_address_sound check_expired s s' a :
  table_wf (leases s) -> ntohl (c_end (cfg s)) < 2 ^ 32 - 1 ->
  find_address check_expired s = Ret (s', a) ->
  same_but_table s s' /\ table_wf (leases s') /\ length (leases s') = length (leases s) /\
  (a <> 0 -> assignable check_expired s s' a).
Proof.
  intros Hwf Hend Hrun. unfold find_address in Hrun.
  eapply find_address_loop_sound in Hrun; try done. apply bswap32_range.
Qed.

Lemma find_address_loop_total check_expired fuel : forall addr ret s,
  is_u32 addr -> ntohl (c_end (cfg s)) < 2 ^ 32 - 1 ->
  ntohl (c_end (cfg s)) - addr + 1 < Z.of_nat fuel ->
  (1 <= fuel)%nat ->
  exists s' a, find_address_loop fuel check_expired addr ret s = Ret (s', a).
Proof.
  induction fuel as [|fuel IH]; intros addr ret s Hu Hend Hf H1; [lia|].
  cbn [find_address_loop].
  destruct (Z.ltb_spec (ntohl (c_end (cfg s))) addr) as [Hout|Hin]; [eauto|].
  rewrite (u32_small (addr + 1)) by (unfold is_u32 in *; lia).
  assert (Hnext : forall r st, cfg st = cfg s ->
            exists s' a, find_address_loop fuel check_expired (addr + 1) r st = Ret (s', a)).
  { intros r st E. apply IH; rewrite ?E; unfold is_u32 in *; lia. }
  repeat (case_if; [by apply Hnext|]).
  assert (Hb : exists b, match find_lease_by_yiaddr (htonl addr) s with
     | Some i => if check_expired then l ← deref (leases s !! i); Ret (lease_expired l (clock s))
                 else Ret false
     | None => Ret true end = Ret b).
  { destruct (find_lease_by_yiaddr (htonl addr) s) as [i|] eqn:E; [|eauto].
    destruct check_expired; [|eauto]. apply find_by_yiaddr_Some in E as (l & -> & _).
    simpl. eauto. }
  destruct Hb as [b ->]. cbn [mbind outcome_bind]. destruct b; [|by apply Hnext].
  pose proof (check_ip_same (htonl addr) s) as Hs.
  destruct (check_ip (htonl addr) s) as [s1 u]. destruct (u =? 0); [eauto|].
  apply Hnext. apply Hs.
Qed.

(** find_address always returns: the loop visits each address of the range
    once and never reads outside the table, provided the range does not end at
    255.255.255.255 (where the 32-bit counter wraps around). *)
Theorem find_address_terminates check_expired s :
  ntohl (c_end (cfg s)) < 2 ^ 32 - 1 ->
  exists s' a, find_address check_expired s = Ret (s', a).
Proof.
  intros Hend. unfold find_address. apply find_address_loop_total; try done.
  - apply bswap32_range.
  - unfold range_fuel. lia.
  - unfold range_fuel. lia.
Qed.

(** The test meant to keep the router's own address out compares the
    previous candidate, so the router's address is handed out when the search
    reaches it and nobody answers the probe (the router itself does not). *)
Theorem find_address_gives_router check_expired s :
  let me := c_server (cfg s) in
  c_start (cfg s) = me -> is_u32 me -> me <> 0 ->
  ntohl me <= ntohl (c_end (cfg s)) ->
  Z.land (ntohl me) 0xFF <> 0 -> Z.land (ntohl me) 0xFF <> 0xFF ->
  (is_in_machost_table me s).1 = 0 -> find_lease_by_yiaddr me s = None ->
  (arpping me (clock s)).1 <> 0 ->
  exists s', find_address check_expired s = Ret (s', me).
Proof.
  intros me Hstart Hu Hne Hend Ho1 Ho2 Hst Hfree Harp.
  assert (Hinv : htonl (ntohl me) = me) by (apply bswap32_involutive; done).
  unfold find_address, range_fuel. rewrite Hstart. fold me. cbn [find_address_loop].
  destruct (Z.ltb_spec (ntohl (c_end (cfg s))) (ntohl me)); [lia|].
  destruct (Z.eqb_spec 0 (c_server (cfg s))); [by subst me|].
  destruct (Z.eqb_spec (Z.land (ntohl me) 0xFF) 0); [done|].
  destruct (Z.eqb_spec (Z.land (ntohl me) 0xFF) 0xFF); [done|].
  rewrite Hinv, Hst, Hfree. cbn [mbind outcome_bind Z.eqb negb].
  destruct (check_ip_cases me s) as [[-> _]|[_ E]]; [|done]. simpl. eauto.
Qed.

End FindAddress.

(** ** A concrete server: 192.168.1.1, range 192.168.1.100-149 *)
Module DemoServer.

Definition ip (a b c d : Z) : Z := word4 a b c d.

Definition config (start : Z) : server_config_t :=
  Config (ip 192 168 1 1) start (ip 192 168 1 149)
    [[1; 4; 255; 255; 255; 0]; [3; 4; 192; 168; 1; 1]] "br0" 3 [0; 18; 23; 1; 2; 3]
    86400 50 1 7200 3600 3600 60 60 "/tmp/udhcpd.leases" "/var/run/udhcpd.pid" None
    0 None None 0 0 0.

Definition mac (x : Z) : list Z := [0; 17; 34; 51; 68; x] ++ replicate 10 0.

Definition table : list dhcpOfferedAddr :=
  [Lease (mac 1) (ip 192 168 1 100) 5000 (replicate 64 0);
   Lease (mac 2) (ip 192 168 1 101) 10 (replicate 64 0); zero_lease; zero_lease].

Definition state (start : Z) (ls : list dhcpOfferedAddr) : server :=
  Server (config start) ls (replicate 10 (MacIp 0 (replicate 6 0))) 0
    (replicate 10 (HostIp 0 (replicate 64 0))) 0
    (replicate 2 (Share 0 (replicate 6 0) 0 0 0)) 0 0 (replicate 16 0) 0 0 1000 [].

(** Nobody answers a probe, each takes two seconds; every packet goes out. *)
#[global] Instance quiet : Env := 
  {| arpping _ t := (1, t + 2); send_result _ := 1; file_contents _ := None;
     can_write _ := true; nvram_get _ := None; gethostbyname _ := None |}.

End DemoServer.
Import DemoServer.

(** The invariant, decided on a concrete table. *)
Definition lease_okb (l : dhcpOfferedAddr) : bool :=
  (length (l_chaddr l) =? 16)%nat && (length (l_hostname l) =? 64)%nat &&
  (0 <=? l_yiaddr l) && (l_yiaddr l <? 2 ^ 32) && (0 <=? l_expires l) &&
  (l_expires l <? 2 ^ 32).

Definition clashb (a b : dhcpOfferedAddr) : bool :=
  (nonzero (l_chaddr a) && bool_decide (l_chaddr a = l_chaddr b)) ||
  (negb (l_yiaddr a =? 0) && (l_yiaddr a =? l_yiaddr b)).

Definition table_wfb (ls : list dhcpOfferedAddr) : bool :=
  forallb lease_okb ls &&
  forallb (fun i => forallb (fun j => (i =? j)%nat ||
     match ls !! i, ls !! j with Some a, Some b => negb (clashb a b) | _, _ => true end)
     (seq 0 (length ls))) (seq 0 (length ls)).

Lemma table_wfb_ok ls : table_wfb ls = true -> table_wf ls.
Proof.
  unfold table_wfb. intros H. apply andb_true_iff in H as [H1 H2]. split.
  - apply Forall_forall. intros l Hl. rewrite forallb_forall in H1.
    apply list_elem_of_In in Hl. apply H1 in Hl. unfold lease_okb in Hl.
    rewrite !andb_true_iff in Hl. destruct_and!. unfold lease_ok, is_u32.
    split_and!; try lia; by apply Nat.eqb_eq.
  - intros i j a b Hi Hj Hc. rewrite forallb_forall in H2.
    assert (Hin : forall k x, ls !! k = Some x -> In k (seq 0 (length ls))).
    { intros k x Hk. apply in_seq. apply lookup_lt_Some in Hk. lia. }
    specialize (H2 i (Hin _ _ Hi)). rewrite forallb_forall in H2.
    specialize (H2 j (Hin _ _ Hj)). rewrite Hi, Hj in H2.
    apply orb_true_iff in H2 as [H2|H2]; [by apply Nat.eqb_eq|].
    assert (clashb a b = true) as E; [|by rewrite E in H2].
    unfold clashb. apply orb_true_iff. destruct Hc as [[-> E]|[Hn E]].
    + left. by apply andb_true_iff, conj; [|apply bool_decide_eq_true].
    + right. apply andb_true_iff. split; [|by apply Z.eqb_eq].
      by apply negb_true_iff, Z.eqb_neq.
Qed.

Lemma add_lease_wf_witness :
  table_wf (leases (add_lease (mac 3) (ip 192 168 1 102) 60 (state 0 table)).1) /\
  length (leases (add_lease (mac 3) (ip 192 168 1 102) 60 (state 0 table)).1) = 4%nat.
Proof.
  refine (add_lease_wf _ _ _ _ _ _ _);
    [by apply table_wfb_ok; vm_compute | reflexivity | by vm_compute].
Defined.

Lemma add_lease_refines_witness :
  bound (add_lease (mac 3) (ip 192 168 1 102) 60 (state 0 table)).1
    (mac 1) (ip 192 168 1 100) 5000.
Proof.
  refine (proj2 (add_lease_refines (mac 3) (ip 192 168 1 102) 60 (state 0 table)
    eq_refl _ (mac 1) (ip 192 168 1 100) 5000) _).
  - by vm_compute.
  - right. split; [|reflexivity]. exists (replicate 64 0). split; [left|by vm_compute].
Defined.

Lemma find_address_sound_witness :
  exists s', find_address false (state (ip 192 168 1 100) table) = Ret (s', ip 192 168 1 102) /\
  assignable false (state (ip 192 168 1 100) table) s' (ip 192 168 1 102).
Proof.
  eexists. split; [vm_compute; reflexivity|].
  eapply (find_address_sound false (state (ip 192 168 1 100) table) _ (ip 192 168 1 102)).
  - by apply table_wfb_ok; vm_compute.
  - by vm_compute.
  - vm_compute. reflexivity.
  - by vm_compute.
Defined.

Lemma find_address_terminates_witness :
  exists s' a, find_address true (state (ip 192 168 1 100) table) = Ret (s', a).
Proof. apply find_address_terminates. by vm_compute. Defined.

Lemma find_address_gives_router_witness :
  exists s', find_address false (state (ip 192 168 1 1) table) = Ret (s', ip 192 168 1 1).
Proof.
  apply (find_address_gives_router false (state (ip 192 168 1 1) table)); by vm_compute.
Defined.
