(* ===== verification/MacIp.v ===== *)
(** * Static and shared addresses of the DHCP server
    (src/router/udhcpd/macip.c, and file_to_buf, check_ppp_link, check_ppp_proc
    of src/router/shared/utils.c)

    The two static tables, read from the configuration, and the hand-out of the
    WAN address to a LAN host ("share_wanip"). *)

From Stdlib Require Import ZArith Lia Ascii.
From stdpp Require Import base numbers sets strings list.
From S2P Require Import Prelude CString DhcpOptions DhcpLeases.
Import Leases.
Open Scope string_scope.
Open Scope Z_scope.
Open Scope list_scope.

Module Static.

(** ** Look-ups; hardware addresses are compared on their first six bytes *)

Definition same_mac (a b : list Z) : bool := bool_decide (take MAC_LEN a = take MAC_LEN b).

Definition find_ip_by_mac (hwaddr : list Z) (s : server) : Z :=
  match find_index (fun m => same_mac (m_macaddr m) hwaddr)
          (take (mac_ip_count s) (mac_ip s)) with
  | Some i => match mac_ip s !! i with Some m => m_ipaddr m | None => 0 end
  | None => 0
  end.

Definition find_ip_by_hostname (name : list Z) (s : server) : Z :=
  match find_index (fun h => bool_decide (cstr (h_hostname h) = cstr name))
          (take (hostname_ip_count s) (hostname_ip s)) with
  | Some i => match hostname_ip s !! i with Some h => h_ipaddr h | None => 0 end
  | None => 0
  end.

(** ** ether_atoe *)
Fixpoint atoe_loop (n : nat) (c : string) (e : list Z) : list Z :=
  match n with
  | O => e
  | S n =>
      let '(v, c) := strtoul c 16 in
      match c with
      | EmptyString => e ++ [u8 v]
      | String _ c => atoe_loop n c (e ++ [u8 v])
      end
  end.

Definition ether_atoe (a : string) : list Z * bool :=
  let e := atoe_loop MAC_LEN a [] in
  (e ++ replicate (MAC_LEN - length e) 0, (length e =? MAC_LEN)%nat).

Definition ether_etoa (e : list Z) : string :=
  match take MAC_LEN e with
  | [] => ""
  | b :: l => foldl (fun acc b => acc +:+ ":" +:+ hex2 b) (hex2 b) l
  end.

(** ** read_macip, read_hostnameip: the tables have MAX_NUM entries and the
    counters are not checked. *)
Definition with_macip (m : list macip) (n : nat) (s : server) : server :=
  Server (cfg s) (leases s) m n (hostname_ip s) (hostname_ip_count s)
    (share_wan_ip s) (share_wanip_count s) (single_pc_mode_gw s) (single_pc_mac s)
    (single_pc_mode_flag s) (send_nak_flag s) (clock s) (trace s).
Definition with_hostip (h : list hostnameip) (n : nat) (s : server) : server :=
  Server (cfg s) (leases s) (mac_ip s) (mac_ip_count s) h n
    (share_wan_ip s) (share_wanip_count s) (single_pc_mode_gw s) (single_pc_mac s)
    (single_pc_mode_flag s) (send_nak_flag s) (clock s) (trace s).
Definition with_cfg (c : server_config_t) (s : server) : server :=
  Server c (leases s) (mac_ip s) (mac_ip_count s) (hostname_ip s) (hostname_ip_count s)
    (share_wan_ip s) (share_wanip_count s) (single_pc_mode_gw s) (single_pc_mac s)
    (single_pc_mode_flag s) (send_nak_flag s) (clock s) (trace s).

Definition read_macip_word (var : string) (s : server) : outcome server :=
  let '(mac, ipaddr) := strsep var "$" in
  ipaddr ← deref ipaddr;
  _ ← deref (mac_ip s !! mac_ip_count s);
  Ret (with_macip (<[mac_ip_count s := MacIp (inet_addr ipaddr) (ether_atoe mac).1]> (mac_ip s))
         (S (mac_ip_count s)) s).

Definition read_macip (line : string) (s : server) : outcome server :=
  foreach 63 line read_macip_word s.

Definition read_hostnameip_word (var : string) (s : server) : outcome server :=
  let '(hostname, ipaddr) := strsep var "$" in
  ipaddr ← deref ipaddr;
  old ← deref (hostname_ip s !! hostname_ip_count s);
  let name := bytes_of hostname ++ [0] ++ drop (String.length hostname + 1) (h_hostname old) in
  Ret (with_hostip
         (<[hostname_ip_count s := HostIp (inet_addr ipaddr) name]> (hostname_ip s))
         (S (hostname_ip_count s)) s).

Definition read_hostnameip (line : string) (s : server) : outcome server :=
  foreach 63 line read_hostnameip_word s.

(** ** check_is_share_wanip_mac, get_share_wanip_gw, clear_sharewanip_mac,
    get_cur_share_wanip *)

(** The first of the [share_wanip_count] entries that belongs to [hwaddr]; the
    array has two elements. *)
Fixpoint find_share (l : list ShareWANIP) (n : nat) (hwaddr : list Z)
    : outcome (option ShareWANIP) :=
  match n with
  | O => Ret None
  | S n =>
      match l with
      | [] => Fault
      | w :: l => if same_mac (w_macaddr w) hwaddr then Ret (Some w) else find_share l n hwaddr
      end
  end.

Definition share_entry (hwaddr : list Z) (s : server) : outcome (option ShareWANIP) :=
  find_share (share_wan_ip s) (Z.to_nat (share_wanip_count s)) hwaddr.

Definition check_is_share_wanip_mac (hwaddr : list Z) (s : server) : outcome Z :=
  if c_share_wanip_flag (cfg s) =? 0 then Ret 0 else
  w ← share_entry hwaddr s;
  Ret (match w with Some w => u32 (w_lease w) | None => 0 end).

Definition get_share_wanip_gw (hwaddr : list Z) (s : server) : outcome Z :=
  if c_share_wanip_flag (cfg s) =? 0 then Ret 0 else
  if negb (c_single_pc_mode (cfg s) =? 0) then Ret (single_pc_mode_gw s) else
  w ← share_entry hwaddr s;
  Ret (match w with Some w => w_gwaddr w | None => 0 end).

Definition get_cur_share_wanip (hwaddr : option (list Z)) (s : server) : outcome Z :=
  if c_share_wanip_flag (cfg s) =? 0 then Ret 0 else
  match hwaddr with
  | None => w ← deref (share_wan_ip s !! 0%nat); Ret (w_ipaddr w)
  | Some hwaddr =>
      w ← share_entry hwaddr s;
      Ret (match w with Some w => w_ipaddr w | None => 0 end)
  end.

Definition no_mac : list Z := replicate MAC_LEN 0.

Definition set_mac (mac : list Z) (w : ShareWANIP) : ShareWANIP :=
  Share (w_index w) mac (w_ipaddr w) (w_lease w) (w_gwaddr w).

Definition clear_sharewanip_mac (s : server) : server :=
  with_share (alter (set_mac no_mac) 0%nat (share_wan_ip s)) 0 (single_pc_mode_gw s) s.

(** ** delete_route_by, str2hex *)
Definition delete_route_by (dst_ip : Z) (s : server) : server :=
  if dst_ip =? 0 then s else emit (Eval ["route"; "del"; inet_ntoa dst_ip; "dev"; "br0"]) s.

(** The tests are independent [if]s, but their ranges are disjoint. *)
Fixpoint str2hex_loop (str : string) (hexval : Z) : Z :=
  match str with
  | EmptyString => hexval
  | String c str =>
      let digit d := u32 (Z.lor (Z.shiftl hexval 4) d) in
      str2hex_loop str
        (if isdigit c then digit (code c - 48)
         else if in_range 97 102 c then digit (code c - 97 + 10)
         else if in_range 65 70 c then digit (code c - 65 + 10)
         else hexval)
  end.
Definition str2hex (str : string) : Z := str2hex_loop str 0.

Section WithEnv.
Context `{Env}.

(** ** file_to_buf: [None] when the file cannot be read or is empty; a file of
    [len] bytes or more writes the NUL past the buffer. *)
Definition file_to_buf (path : string) (len : Z) : outcome (option string) :=
  match file_contents path with
  | None => Ret None
  | Some "" => Ret None
  | Some t => if len <=? strlen t then Fault else Ret (Some t)
  end.

Definition file_exists (path : string) : bool :=
  match file_contents path with Some _ => true | None => false end.
Definition check_ppp_link (num : Z) : bool := file_exists ("/tmp/ppp/link" +:+ dec num).
Definition check_ppp_proc (num : Z) : bool :=
  file_exists ("/var/run/ppp" +:+ dec num +:+ ".pid").

(** ** get_wanip_by_index *)

(** [sscanf] into [char ip_addrs[8][32]]: the fields present overwrite the
    first rows, a field of 32 characters does not fit its row. *)
Definition scan8 (buf : string) (ip_addrs : list string) : outcome (list string) :=
  let t := scan_tokens 8 buf in
  if forallb (fun f => strlen f <? 32) t then Ret (t ++ drop (length t) ip_addrs) else Fault.

Definition row (ip_addrs : list string) (i : Z) : outcome string :=
  if i <? 0 then Fault else deref (ip_addrs !! Z.to_nat i).

(** The index 255 stands for the active connection. [None]: return 0. *)
Definition resolve_index (tmp_index : Z) (ip_addrs : list string)
    : outcome (option (Z * list string)) :=
  if negb (tmp_index =? 255) then Ret (Some (tmp_index, ip_addrs)) else
  v ← deref (nvram_get "wan_active_connection");
  let tmp_index := atoi v in
  if (tmp_index <? 0) || (8 <? tmp_index) then Ret None else
  buf ← file_to_buf "/tmp/status/wan_ifname" 128;
  match buf with
  | None => Ret None
  | Some readbuf =>
      ip_addrs ← scan8 readbuf ip_addrs;
      ifname ← row ip_addrs tmp_index;
      if bool_decide (ifname = "Down") then Ret None else
      Ret (Some (match strstr ifname "ppp" with
                 | Some _ => Z.lor tmp_index 0x80
                 | None => tmp_index
                 end, ip_addrs))
  end.

(** The files the index selects, the row, and the ppp unit. *)
Definition select_files (tmp_index : Z) : option (string * string * Z * Z) :=
  if tmp_index <? 8 then
    Some ("/tmp/status/wan_ipaddr", "/tmp/status/wan_gateway", tmp_index, tmp_index)
  else if tmp_index <? 0x10 then
    let i := Z.land tmp_index 0x07 in
    Some ("/tmp/status/wan_mpppoe_ipaddr", "/tmp/status/wan_mpppoe_gateway", i, i + 8)
  else if tmp_index <? 0x18 then
    let i := Z.land tmp_index 0x07 in
    Some ("/tmp/status/wan_ipppoe_ipaddr", "/tmp/status/wan_ipppoe_gateway", i, i + 8)
  else None.

Definition set_wan (ip gw : Z) (w : ShareWANIP) : ShareWANIP :=
  Share (w_index w) (w_macaddr w) ip (w_lease w) gw.

Definition get_wanip_by_index (cur_wanip : ShareWANIP) : outcome (ShareWANIP * Z) :=
  let zeroed := set_wan 0 0 cur_wanip in
  r ← resolve_index (w_index cur_wanip) (replicate 8 "");
  match r with
  | None => Ret (zeroed, 0)
  | Some (tmp_index, ip_addrs) =>
      let have_ppp_flag := negb (Z.land tmp_index 0x80 =? 0) in
      match select_files (Z.land tmp_index 0x3f) with
      | None => Ret (zeroed, 0)
      | Some (ip_path, gw_path, tmp_index, ppp_index) =>
          readbuf ← file_to_buf ip_path 128;
          match readbuf with
          | None => Ret (zeroed, 0)
          | Some readbuf =>
              readbuf1 ← file_to_buf gw_path 128;
              match readbuf1 with
              | None => Ret (zeroed, 0)
              | Some readbuf1 =>
                  ip_addrs ← scan8 readbuf ip_addrs;
                  ip ← row ip_addrs tmp_index;
                  if bool_decide (ip = "0.0.0.0") then Ret (zeroed, 0) else
                  if have_ppp_flag && negb (check_ppp_link ppp_index && check_ppp_proc ppp_index)
                  then Ret (zeroed, 0) else
                  ip_addrs ← scan8 readbuf1 ip_addrs;
                  gw ← row ip_addrs tmp_index;
                  Ret (set_wan (inet_addr ip) (inet_addr gw) cur_wanip, 1)
              end
          end
      end
  end.

(** ** read_mac_index *)
Definition read_mac_index_word (var : string) (s : server) : outcome server :=
  let '(mac, index) := strsep var "$" in
  let '(index, tmp_lease) :=
    match index with
    | None => (None, None)
    | Some i => let '(i, l) := strsep i "$" in (Some i, l)
    end in
  if strlen mac <? 12 then Ret s else
  let n := Z.to_nat (share_wanip_count s) in
  old ← deref (share_wan_ip s !! n);
  index ← deref index;
  tmp_lease ← deref tmp_lease;
  let lease := s32 (atoi tmp_lease * 60) in
  let lease := if lease =? 0 then 86400 else lease in
  w ← get_wanip_by_index
        (Share (u8 (atoi index)) (ether_atoe mac).1 0 lease (w_gwaddr old));
  Ret (with_share (<[n := w.1]> (share_wan_ip s)) (share_wanip_count s + 1)
         (single_pc_mode_gw s) s).

Definition set_share_flag (n : Z) (c : server_config_t) : server_config_t :=
  Config (c_server c) (c_start c) (c_end c) (c_options c) (c_interface c) (c_ifindex c)
    (c_arp c) (c_lease c) (c_max_leases c) (c_remaining c) (c_auto_time c)
    (c_decline_time c) (c_conflict_time c) (c_offer_time c) (c_min_lease c)
    (c_lease_file c) (c_pidfile c) (c_notify_file c) (c_siaddr c) (c_sname c)
    (c_boot_file c) (c_single_pc_mode c) n (c_share_wanip_comm c).

Definition read_mac_index (line : string) (s : server) : outcome server :=
  s ← (if 20 <? strlen line then foreach 63 line read_mac_index_word s else Ret s);
  Ret (with_cfg (set_share_flag 1 (cfg s)) s).

(** ** find_share_wan_ip: 1 and the address for a WAN address, 0 for none yet,
    -1 when the host does not share it. *)

(** The single-PC mode registers the asking host for the time of the call. *)
Definition register_single (hwaddr : list Z) (s : server) : outcome (server * option nat) :=
  if c_single_pc_mode (cfg s) =? 0 then Ret (s, None) else
  w0 ← deref (share_wan_ip s !! 0%nat);
  if same_mac (w_macaddr w0) hwaddr then Ret (s, None) else
  let tmp_index := if share_wanip_count s =? 0 then 0%nat else 1%nat in
  w ← deref (share_wan_ip s !! tmp_index);
  let w := Share 255 (take MAC_LEN hwaddr) 0 (w_lease w) (w_gwaddr w) in
  Ret (with_share (<[tmp_index := w]> (share_wan_ip s)) (share_wanip_count s + 1) 0 s,
       Some tmp_index).

Fixpoint share_loop (n : nat) (i : nat) (hwaddr : list Z) (s : server) (dst_ip result : Z)
    : outcome (server * Z * Z) :=
  match n with
  | O => Ret (s, dst_ip, result)
  | S n =>
      w ← deref (share_wan_ip s !! i);
      let old_share_ip := w_ipaddr w in
      r ← get_wanip_by_index w;
      let w := r.1 in
      let s := with_share (<[i := w]> (share_wan_ip s)) (share_wanip_count s)
                 (single_pc_mode_gw s) s in
      if same_mac (w_macaddr w) hwaddr then
        let dst_ip := w_ipaddr w in
        let s := if negb (old_share_ip =? dst_ip) && negb (old_share_ip =? 0)
                 then delete_route_by old_share_ip s else s in
        share_loop n (S i) hwaddr s dst_ip (if 0 <? dst_ip then 1 else 0)
      else share_loop n (S i) hwaddr s dst_ip result
  end.

Definition find_share_wan_ip (hwaddr : list Z) (dst_ip : Z) (s : server)
    : outcome (server * Z * Z) :=
  r ← register_single hwaddr s;
  let '(s, tmp_index) := r in
  r ← share_loop (Z.to_nat (share_wanip_count s)) 0 hwaddr s dst_ip (-1);
  let '(s, dst_ip, result) := r in
  match tmp_index with
  | Some i =>
      w ← deref (share_wan_ip s !! i);
      Ret (with_share (<[i := set_mac no_mac w]> (share_wan_ip s)) (share_wanip_count s - 1)
             (w_gwaddr w) s, dst_ip, if result =? 0 then -1 else result)
  | None => Ret (s, dst_ip, result)
  end.

(** ** clear_share_wanip: the second [fopen] is for reading, so the [fprintf]
    that should reset the kernel's address writes nothing; 32 bytes read put the
    NUL past the buffer. *)
Definition clear_share_wanip (s : server) : outcome server :=
  if c_share_wanip_flag (cfg s) =? 0 then Ret s else
  match file_contents "/proc/Cybertan/wan_ip_addr" with
  | None => Ret s
  | Some tmp_buf =>
      if 32 <=? strlen tmp_buf then Fault else
      let tmp_wan_num := str2hex tmp_buf in
      if tmp_wan_num =? 0 then Ret s else
      Ret (emit (Eval ["route"; "del"; inet_ntoa (htonl tmp_wan_num); "dev"; "br0"]) s)
  end.

(** ** SendInfoToKernal: each file in turn, up to the first that does not open *)
Fixpoint write_files (l : list (string * option string)) (s : server) : outcome (server * bool) :=
  match l with
  | [] => Ret (s, true)
  | (path, text) :: l =>
      if can_write path then
        text ← deref text;
        write_files l (emit (WriteFile path text) s)
      else Ret (s, false)
  end.

Definition nvram_hex8 (name : string) : option string :=
  (fun v => hex8 (ntohl (inet_addr v))) <$> nvram_get name.

Definition SendInfoToKernal (ip_addr : Z) (hwaddr : list Z) (s : server) : outcome server :=
  r ← write_files
    [("/proc/Cybertan/lan_mac_addr", Some (ether_etoa hwaddr));
     ("/proc/Cybertan/half_bridge_enable", Some (dec 1));
     ("/proc/Cybertan/wan_ip_addr", Some (hex8 (ntohl ip_addr)));
     ("/proc/Cybertan/lan_ip_addr", nvram_hex8 "lan_ipaddr");
     ("/proc/Cybertan/local_lan_mac_addr", nvram_get "lan_hwaddr");
     ("/proc/Cybertan/lan_netmask", nvram_hex8 "lan_netmask")] s;
  let '(s, all) := r in
  if (all : bool) && (c_share_wanip_comm (cfg s) =? 1) && (c_share_wanip_flag (cfg s) =? 1) then
    Ret (emit (Eval ["route"; "add"; inet_ntoa ip_addr; "dev"; "br0"]) s)
  else Ret s.

End WithEnv.
End Static.
