(* ===== verification/DhcpPacket.v ===== *)
(** * DHCP packets on the wire (src/router/udhcpd/packet.c, packet.h)

    The object representation of [struct dhcpMessage] (548 bytes, no padding),
    the reader of the server socket, the Internet checksum and the IP/UDP frame
    [raw_packet] builds. Sockets are the environment: [read] gives the bytes
    that arrived, or an error. *)

From Stdlib Require Import ZArith Lia Ascii.
From stdpp Require Import base numbers sets strings list.
From S2P Require Import Prelude CString DhcpOptions.
Import Options.
Open Scope Z_scope.

Module Packet.

Definition BOOTREQUEST : Z := 1.
Definition BOOTREPLY : Z := 2.
Definition DHCPDISCOVER : Z := 1.
Definition DHCPOFFER : Z := 2.
Definition DHCPREQUEST : Z := 3.
Definition DHCPDECLINE : Z := 4.
Definition DHCPACK : Z := 5.
Definition DHCPNAK : Z := 6.
Definition DHCPRELEASE : Z := 7.
Definition DHCPINFORM : Z := 8.
Definition BROADCAST_FLAG : Z := 0x8000.
Definition DHCP_MAGIC : Z := 0x63825363.
Definition SERVER_PORT : Z := 67.
Definition CLIENT_PORT : Z := 68.
Definition sizeof_dhcpMessage : nat := 548.

(** ** Object representation *)

Definition mem_of_u16 (x : Z) : list Z := [byte_at x 0; byte_at x 1].
Definition u16_of_mem (l : list Z) : Z := l !!! 0%nat + (l !!! 1%nat) * 2 ^ 8.

Definition msg_bytes (m : dhcpMessage) : list Z :=
  [op m; htype m; hlen m; hops m] ++ mem_of_u32 (xid m) ++ mem_of_u16 (secs m) ++
  mem_of_u16 (flags m) ++ mem_of_u32 (ciaddr m) ++ mem_of_u32 (yiaddr m) ++
  mem_of_u32 (siaddr m) ++ mem_of_u32 (giaddr m) ++ chaddr m ++ tail m.

Definition field (off n : nat) (b : list Z) : list Z := take n (drop off b).

Definition msg_of_bytes (b : list Z) : dhcpMessage :=
  Message (b !!! 0%nat) (b !!! 1%nat) (b !!! 2%nat) (b !!! 3%nat)
    (u32_of_mem (field 4 4 b)) (u16_of_mem (field 8 2 b)) (u16_of_mem (field 10 2 b))
    (u32_of_mem (field 12 4 b)) (u32_of_mem (field 16 4 b))
    (u32_of_mem (field 20 4 b)) (u32_of_mem (field 24 4 b))
    (field 28 16 b) (field 44 64 b) (field 108 128 b)
    (u32_of_mem (field 236 4 b)) (field 240 308 b).

(** ** Field updates *)
Definition set_options (o : list Z) (m : dhcpMessage) : dhcpMessage :=
  Message (op m) (htype m) (hlen m) (hops m) (xid m) (secs m) (flags m) (ciaddr m)
    (yiaddr m) (siaddr m) (giaddr m) (chaddr m) (sname m) (file m) (cookie m) o.
Definition set_flags (f : Z) (m : dhcpMessage) : dhcpMessage :=
  Message (op m) (htype m) (hlen m) (hops m) (xid m) (secs m) f (ciaddr m)
    (yiaddr m) (siaddr m) (giaddr m) (chaddr m) (sname m) (file m) (cookie m) (options m).
Definition set_yiaddr (y : Z) (m : dhcpMessage) : dhcpMessage :=
  Message (op m) (htype m) (hlen m) (hops m) (xid m) (secs m) (flags m) (ciaddr m)
    y (siaddr m) (giaddr m) (chaddr m) (sname m) (file m) (cookie m) (options m).

(** [add_option_string] and [add_simple_option] on the options of a message;
    the callers ignore the number of bytes added. *)
Definition msg_add_string (d : list Z) (m : dhcpMessage) : outcome dhcpMessage :=
  r ← add_option_string (options m) d; Ret (set_options r.1 m).
Definition msg_add_simple (code data : Z) (m : dhcpMessage) : outcome dhcpMessage :=
  r ← add_simple_option (options m) code data; Ret (set_options r.1 m).

(** ** init_header; a type outside the two groups leaves [op] zero *)
Definition op_of_type (type : Z) : Z :=
  if (type =? DHCPDISCOVER) || (type =? DHCPREQUEST) || (type =? DHCPRELEASE) ||
     (type =? DHCPINFORM) then BOOTREQUEST
  else if (type =? DHCPOFFER) || (type =? DHCPACK) || (type =? DHCPNAK) then BOOTREPLY
  else 0.

Definition init_header (type : Z) : outcome dhcpMessage :=
  msg_add_simple DHCP_MESSAGE_TYPE type
    (Message (op_of_type type) 1 6 0 0 0 0 0 0 0 0 (replicate 16 0) (replicate 64 0)
       (replicate 128 0) (htonl DHCP_MAGIC) (DHCP_END :: replicate 307 0)).

(** ** get_packet: -1 on a read error, -2 on a bad cookie, else the number of
    bytes read. The structure is zeroed before the read. *)
Definition msft98 : list Z := bytes_of "MSFT 98".

(** The broken clients are answered by broadcast. *)
Definition broken_vendor (packet : dhcpMessage) : outcome dhcpMessage :=
  vendor ← get_option packet DHCP_VENDOR;
  match vendor with
  | None => Ret packet
  | Some p =>
      l ← rd (tail packet) (p - 1);
      if negb (l =? 7) then Ret packet else
      v ← rd_n (tail packet) p 7;
      Ret (if bool_decide (v = msft98)
           then set_flags (Z.lor (flags packet) (htons BROADCAST_FLAG)) packet else packet)
  end.

Definition read_message (data : list Z) : dhcpMessage :=
  let data := take sizeof_dhcpMessage data in
  msg_of_bytes (data ++ replicate (sizeof_dhcpMessage - length data) 0).

Definition check_packet (bytes : Z) (packet : dhcpMessage) : outcome (Z * dhcpMessage) :=
  if negb (ntohl (cookie packet) =? DHCP_MAGIC) then Ret (-2, packet) else
  packet ← (if op packet =? BOOTREQUEST then broken_vendor packet else Ret packet);
  Ret (bytes, packet).

Definition get_packet (read : option (list Z)) : outcome (Z * dhcpMessage) :=
  match read with
  | None => Ret (-1, read_message [])
  | Some data =>
      check_packet (Z.of_nat (Nat.min (length data) sizeof_dhcpMessage)) (read_message data)
  end.

(** ** checksum: 16-bit words in host order, a 32-bit signed sum folded *)
Fixpoint sum_words (b : list Z) (sum : Z) : Z :=
  match b with
  | lo :: hi :: b => sum_words b (s32 (sum + (lo + hi * 2 ^ 8)))
  | [lo] => s32 (sum + lo)
  | [] => sum
  end.

Fixpoint fold16 (fuel : nat) (sum : Z) : outcome Z :=
  match fuel with
  | O => Running
  | S fuel =>
      if Z.shiftr sum 16 =? 0 then Ret sum
      else fold16 fuel (Z.land sum 0xffff + Z.shiftr sum 16)
  end.

Definition checksum (b : list Z) : outcome Z :=
  s ← fold16 4 (sum_words b 0); Ret (u16 (Z.lnot s)).

(** ** raw_packet: the bytes handed to [sendto] *)

(** struct iphdr (20 bytes) and struct udphdr (8 bytes) *)
Definition ip_header (vihl tot_len ttl protocol check saddr daddr : Z) : list Z :=
  [vihl; 0] ++ mem_of_u16 tot_len ++ [0; 0; 0; 0; ttl; protocol] ++ mem_of_u16 check ++
  mem_of_u32 saddr ++ mem_of_u32 daddr.
Definition udp_header (source dest len check : Z) : list Z :=
  mem_of_u16 source ++ mem_of_u16 dest ++ mem_of_u16 len ++ mem_of_u16 check.

Definition IPPROTO_UDP : Z := 17.
Definition IPDEFTTL : Z := 64.

Definition raw_frame (payload : dhcpMessage) (source_ip source_port dest_ip dest_port : Z)
    : outcome (list Z) :=
  let udp_len := htons (8 + 548) in
  let udp check := udp_header (htons source_port) (htons dest_port) udp_len check in
  udp_check ← checksum (ip_header 0 udp_len 0 IPPROTO_UDP 0 source_ip dest_ip ++
                        udp 0 ++ msg_bytes payload);
  let tot_len := htons (20 + 8 + 548) in
  let ip check := ip_header (Z.lor (Z.shiftl 4 4) (Z.shiftr 20 2)) tot_len IPDEFTTL IPPROTO_UDP
                    check source_ip dest_ip in
  ip_check ← checksum (ip 0);
  Ret (ip ip_check ++ udp udp_check ++ msg_bytes payload).

End Packet.
