(* ===== verification/DhcpPacketProofs.v ===== *)
(** * Correctness of the DHCP packet layer *)

From Stdlib Require Import ZArith Lia Ascii.
From stdpp Require Import base numbers sets strings list.
From S2P Require Import Prelude CString DhcpOptions DhcpOptionsProofs DhcpPacket.
Import Options Packet.
Open Scope Z_scope.

(** ** Object representation *)

Definition hdr_wf (m : dhcpMessage) : Prop :=
  is_u8 (op m) /\ is_u8 (htype m) /\ is_u8 (hlen m) /\ is_u8 (hops m) /\
  is_u32 (xid m) /\ is_u16 (secs m) /\ is_u16 (flags m) /\ is_u32 (ciaddr m) /\
  is_u32 (yiaddr m) /\ is_u32 (siaddr m) /\ is_u32 (giaddr m) /\ is_u32 (cookie m).

Lemma u16_mem_roundtrip x : is_u16 x -> u16_of_mem (mem_of_u16 x) = x.
Proof.
  unfold is_u16, u16_of_mem, mem_of_u16. simpl. intros Hx.
  rewrite !byte_at_div by lia. word_consts. Z.to_euclidean_division_equations; lia.
Qed.

Lemma field_at (pre mid suf b : list Z) (off n : nat) :
  b = pre ++ mid ++ suf -> length pre = off -> length mid = n -> field off n b = mid.
Proof.
  intros -> <- <-. unfold field. by rewrite drop_app_length, take_app_length.
Qed.

Lemma msg_roundtrip_aux m : msg_wf m -> hdr_wf m ->
  msg_of_bytes (msg_bytes m) = m /\ length (msg_bytes m) = sizeof_dhcpMessage.
Proof.
  intros (Hc & Hs & Hf & Ho & _) Hh. unfold hdr_wf in Hh. destruct_and!.
  assert (Hb : forall x, length (mem_of_u32 x) = 4%nat) by done.
  split; [|unfold msg_bytes, tail; rewrite !length_app, !Hb, Hc, Hs, Hf, Ho; done].
  set (hdr := [op m; htype m; hlen m; hops m] ++ mem_of_u32 (xid m) ++ mem_of_u16 (secs m) ++
    mem_of_u16 (flags m) ++ mem_of_u32 (ciaddr m) ++ mem_of_u32 (yiaddr m) ++
    mem_of_u32 (siaddr m) ++ mem_of_u32 (giaddr m)).
  assert (E : msg_bytes m =
    hdr ++ chaddr m ++ sname m ++ file m ++ mem_of_u32 (cookie m) ++ options m) by done.
  unfold msg_of_bytes.
  rewrite (field_at hdr (chaddr m) _ _ 28 16 E) by done.
  rewrite (field_at (hdr ++ chaddr m) (sname m) (file m ++ mem_of_u32 (cookie m) ++ options m) _ 44 64);
    [|by rewrite <- !app_assoc|by rewrite length_app, Hc|done].
  rewrite (field_at (hdr ++ chaddr m ++ sname m) (file m) (mem_of_u32 (cookie m) ++ options m) _ 108 128);
    [|by rewrite <- !app_assoc|by rewrite !length_app, Hc, Hs|done].
  rewrite (field_at (hdr ++ chaddr m ++ sname m ++ file m) (mem_of_u32 (cookie m)) (options m) _ 236 4);
    [|by rewrite <- !app_assoc|by rewrite !length_app, Hc, Hs, Hf|done].
  rewrite (field_at (hdr ++ chaddr m ++ sname m ++ file m ++ mem_of_u32 (cookie m)) (options m) [] _ 240 308);
    [|by rewrite <- !app_assoc, app_nil_r|by rewrite !length_app, Hc, Hs, Hf|done].
  rewrite E, u32_mem_roundtrip by done.
  change (field 4 4 ?b) with (mem_of_u32 (xid m)).
  change (field 8 2 ?b) with (mem_of_u16 (secs m)).
  change (field 10 2 ?b) with (mem_of_u16 (flags m)).
  change (field 12 4 ?b) with (mem_of_u32 (ciaddr m)).
  change (field 16 4 ?b) with (mem_of_u32 (yiaddr m)).
  change (field 20 4 ?b) with (mem_of_u32 (siaddr m)).
  change (field 24 4 ?b) with (mem_of_u32 (giaddr m)).
  rewrite !u32_mem_roundtrip, !u16_mem_roundtrip by done. by destruct m.
Qed.

(** Reading back the bytes of a message gives the message: the layout of
    the writer (memcpy into the frame) and of the reader (read into the
    structure) agree on all 548 bytes. *)
Theorem msg_roundtrip m : msg_wf m -> hdr_wf m ->
  msg_of_bytes (msg_bytes m) = m /\ length (msg_bytes m) = sizeof_dhcpMessage.
Proof. apply msg_roundtrip_aux. Qed.

(** ** The Internet checksum *)

(** The sum of the 16-bit words, without the width of the accumulator. *)
Fixpoint wsum (b : list Z) : Z :=
  match b with
  | lo :: hi :: b => lo + hi * 2 ^ 8 + wsum b
  | [lo] => lo
  | [] => 0
  end.

Lemma list_ind2 {A} (P : list A -> Prop) :
  P [] -> (forall a, P [a]) -> (forall a b l, P l -> P (a :: b :: l)) -> forall l, P l.
Proof.
  intros H0 H1 H2 l. cut (P l /\ forall a, P (a :: l)); [naive_solver|].
  induction l as [|x l [IH1 IH2]]; split; auto.
Qed.

Lemma wsum_bounds b : Forall is_u8 b ->
  0 <= wsum b /\ wsum b <= 65535 * ((Z.of_nat (length b) + 1) / 2).
Proof.
  induction b as [|a|lo hi b IH] using list_ind2; intros Hb.
  - by split; vm_compute.
  - apply Forall_cons in Hb as [Hb _]. unfold is_u8 in Hb. cbn [wsum length].
    change ((Z.of_nat 1 + 1) / 2) with 1. lia.
  - apply Forall_cons in Hb as [Hl Hb]. apply Forall_cons in Hb as [Hh Hb].
    specialize (IH Hb). unfold is_u8 in *. cbn [wsum length]. rewrite !Nat2Z.inj_succ.
    replace (Z.succ (Z.succ (Z.of_nat (length b))) + 1)
      with (Z.of_nat (length b) + 1 + 1 * 2) by lia.
    rewrite Z.div_add by lia. lia.
Qed.

Lemma sum_words_wsum b : Forall is_u8 b -> forall acc,
  0 <= acc -> acc + wsum b < 2 ^ 31 -> sum_words b acc = acc + wsum b.
Proof.
  induction b as [|a|lo hi b IH] using list_ind2; intros Hb acc Ha Hs.
  - simpl. lia.
  - apply Forall_cons in Hb as [Hb _]. unfold is_u8 in Hb. cbn [wsum sum_words] in *.
    apply s32_small. unfold is_s32. lia.
  - apply Forall_cons in Hb as [Hl Hb]. apply Forall_cons in Hb as [Hh Hb].
    cbn [wsum sum_words] in *. pose proof (wsum_bounds b Hb). unfold is_u8 in *.
    rewrite s32_small by (unfold is_s32; lia). rewrite IH; [lia|done|lia..].
Qed.

Lemma wsum_app pre b : Nat.Even (length pre) -> wsum (pre ++ b) = wsum pre + wsum b.
Proof.
  induction pre as [|a|lo hi pre IH] using list_ind2; intros He.
  - done.
  - destruct He as [k Hk]. simpl in Hk. lia.
  - cbn [wsum app]. rewrite IH; [lia|]. destruct He as [k Hk]. simpl in Hk.
    exists (k - 1)%nat. lia.
Qed.

(** One fold keeps the value modulo 65535 and does not make it zero. *)
Lemma fold_step s : 0 <= s -> Z.land s 0xffff + Z.shiftr s 16 = s mod 65536 + s / 65536.
Proof.
  intros. change 0xffff with (Z.ones 16). rewrite Z.land_ones, Z.shiftr_div_pow2 by lia. done.
Qed.

Lemma fold16_ok s : 0 <= s < 2 ^ 31 ->
  exists r k, fold16 4 s = Ret r /\ 0 <= r < 65536 /\ r <= s /\ s = r + 65535 * k /\ (0 < s -> 0 < r).
Proof.
  intros Hs.
  assert (Hstep : forall f s, 0 <= s < 2 ^ 31 ->
    fold16 (S f) s = if s <? 65536 then Ret s else fold16 f (s mod 65536 + s / 65536)).
  { intros f x Hx. cbn [fold16]. rewrite fold_step, Z.shiftr_div_pow2 by lia.
    change (2 ^ 16) with 65536. destruct (Z.ltb_spec x 65536).
    - by rewrite Z.div_small by lia.
    - destruct (Z.eqb_spec (x / 65536) 0); [|done].
      apply Z.div_small_iff in e; lia. }
  pose proof (Z.div_mod s 65536 ltac:(lia)). pose proof (Z.mod_pos_bound s 65536 ltac:(lia)).
  assert (s / 65536 < 32768) by (apply Z.div_lt_upper_bound; lia).
  assert (0 <= s / 65536) by (apply Z.div_pos; lia).
  rewrite Hstep by lia. destruct (Z.ltb_spec s 65536); [exists s, 0; split_and!; [done|lia..]|].
  remember (s mod 65536 + s / 65536) as s1 eqn:Hs1.
  pose proof (Z.div_mod s1 65536 ltac:(lia)). pose proof (Z.mod_pos_bound s1 65536 ltac:(lia)).
  assert (s1 / 65536 < 2) by (apply Z.div_lt_upper_bound; lia).
  assert (0 <= s1 / 65536) by (apply Z.div_pos; lia).
  rewrite Hstep by lia. destruct (Z.ltb_spec s1 65536).
  { exists s1, (s / 65536). split_and!; [done|lia..]. }
  remember (s1 mod 65536 + s1 / 65536) as s2 eqn:Hs2. rewrite Hstep by lia.
  destruct (Z.ltb_spec s2 65536); [|lia].
  exists s2, (s / 65536 + s1 / 65536). split_and!; [done|lia..].
Qed.

Lemma checksum_ok b : Forall is_u8 b -> Z.of_nat (length b) < 65536 ->
  exists r k, checksum b = Ret (65535 - r) /\ 0 <= r < 65536 /\ r <= wsum b /\
    wsum b = r + 65535 * k /\ (0 < wsum b -> 0 < r).
Proof.
  intros Hb Hl. pose proof (wsum_bounds b Hb) as [H0 H1].
  assert (Hlen : (Z.of_nat (length b) + 1) / 2 <= 32768) by (apply Z.div_le_upper_bound; lia).
  unfold checksum. rewrite (sum_words_wsum b Hb 0) by lia. rewrite Z.add_0_l.
  destruct (fold16_ok (wsum b) ltac:(lia)) as (r & k & E & Hr & Hle & Hk & Hp).
  rewrite E. cbn [mbind outcome_bind]. exists r, k. split_and!; try done; try lia.
  unfold u16. f_equal. change (2 ^ 16) with 65536. unfold Z.lnot.
  rewrite <- (Z.mod_add _ 1) by lia. rewrite Z.mod_small; lia.
Qed.

Lemma mem_of_u16_u8 x : Forall is_u8 (mem_of_u16 x).
Proof. repeat constructor; apply byte_at_range. Qed.

Lemma mem_of_u32_u8 x : Forall is_u8 (mem_of_u32 x).
Proof. repeat constructor; apply byte_at_range. Qed.

Ltac u8_list := repeat match goal with
  | |- Forall is_u8 (_ ++ _) => apply Forall_app; split
  | |- Forall is_u8 (mem_of_u16 _) => apply mem_of_u16_u8
  | |- Forall is_u8 (mem_of_u32 _) => apply mem_of_u32_u8
  | |- Forall is_u8 (_ :: _) => apply Forall_cons; split
  | |- Forall is_u8 [] => apply Forall_nil_2
  | |- is_u8 _ => first [assumption | by vm_compute]
  | _ => assumption
  end.

(** Writing the checksum into its own, zeroed, field makes the region verify. *)
Lemma checksum_verifies pre suf c :
  Forall is_u8 pre -> Forall is_u8 suf -> Nat.Even (length pre) ->
  Z.of_nat (length pre + length suf) < 65534 ->
  checksum (pre ++ mem_of_u16 0 ++ suf) = Ret c ->
  checksum (pre ++ mem_of_u16 c ++ suf) = Ret 0.
Proof.
  intros Hp Hs He Hl Hc.
  assert (Hlen : forall x, Z.of_nat (length (pre ++ mem_of_u16 x ++ suf)) < 65536).
  { intros x. rewrite !length_app. simpl. lia. }
  assert (Hu8 : forall x, Forall is_u8 (pre ++ mem_of_u16 x ++ suf)).
  { intros x. u8_list. }
  assert (Hsum : forall x, is_u16 x -> wsum (pre ++ mem_of_u16 x ++ suf) = wsum pre + x + wsum suf).
  { intros x Hx. rewrite wsum_app by done. cbn [mem_of_u16 app wsum].
    pose proof (u16_mem_roundtrip x Hx) as E. unfold u16_of_mem, mem_of_u16 in E. simpl in E. lia. }
  destruct (checksum_ok _ (Hu8 0) (Hlen 0)) as (r & k & E & Hr & Hle & Hk & _).
  rewrite E in Hc. injection Hc as <-.
  rewrite Hsum in Hk, Hle by (unfold is_u16; lia).
  destruct (checksum_ok _ (Hu8 (65535 - r)) (Hlen (65535 - r))) as (r' & k' & E' & Hr' & _ & Hk' & Hpos).
  rewrite Hsum in Hk', Hpos by (unfold is_u16; lia). rewrite E'. f_equal.
  pose proof (wsum_bounds pre Hp). pose proof (wsum_bounds suf Hs).
  assert (r' = 65535 * (k + 1 - k')) by lia.
  destruct (Z.eq_dec (k + 1 - k') 0) as [Ez|Ez]; [|nia].
  assert (r' = 0) by lia. exfalso. lia.
Qed.

(** The UDP pseudo-header of RFC 768 and the region its checksum covers. *)
Definition pseudo_header (saddr daddr len : Z) : list Z :=
  mem_of_u32 saddr ++ mem_of_u32 daddr ++ [0; IPPROTO_UDP] ++ mem_of_u16 len.

Lemma wsum_u32 x : wsum (mem_of_u32 x) = byte_at x 0 + byte_at x 1 * 2 ^ 8 +
  (byte_at x 2 + byte_at x 3 * 2 ^ 8 + 0).
Proof. done. Qed.

Lemma msg_bytes_u8 m : msg_wf m -> hdr_wf m -> Forall is_u8 (msg_bytes m).
Proof.
  intros Hm Hh. pose proof (tail_u8 m Hm). destruct Hm as (_ & _ & _ & _ & Hc & _).
  unfold hdr_wf in Hh. destruct_and!. unfold msg_bytes.
  u8_list.
Qed.

Lemma checksum_same_sum b1 b2 :
  Forall is_u8 b1 -> Forall is_u8 b2 -> Z.of_nat (length b1) < 65536 ->
  Z.of_nat (length b2) < 65536 -> wsum b1 = wsum b2 -> checksum b1 = checksum b2.
Proof.
  intros H1 H2 L1 L2 E. unfold checksum.
  assert (Hb : forall b, Forall is_u8 b -> Z.of_nat (length b) < 65536 ->
            sum_words b 0 = wsum b).
  { intros b Hb Hl. pose proof (wsum_bounds b Hb) as [? ?].
    assert ((Z.of_nat (length b) + 1) / 2 <= 32768) by (apply Z.div_le_upper_bound; lia).
    rewrite (sum_words_wsum b Hb 0); lia. }
  by rewrite !Hb, E.
Qed.

(** The IP part of a frame, once its header checksum is computed. *)
Lemma ip_header_verifies v len ttl pr sa da c :
  is_u8 v -> is_u8 ttl -> is_u8 pr ->
  checksum (ip_header v len ttl pr 0 sa da) = Ret c ->
  checksum (ip_header v len ttl pr c sa da) = Ret 0.
Proof.
  intros Hv Ht Hp Hc.
  pose (pre := [v; 0] ++ mem_of_u16 len ++ [0; 0; 0; 0; ttl; pr]).
  pose (suf := mem_of_u32 sa ++ mem_of_u32 da).
  change (checksum (pre ++ mem_of_u16 0 ++ suf) = Ret c) in Hc.
  change (checksum (pre ++ mem_of_u16 c ++ suf) = Ret 0).
  apply checksum_verifies; [| |by exists 5%nat|done|done].
  - unfold pre. u8_list.
  - unfold suf. u8_list.
Qed.

(** The first region [raw_frame] sums: UDP header, message, half-filled IP
    header; and the region RFC 768 asks for. *)
Definition udp_ports (sport dport : Z) : list Z :=
  mem_of_u16 (htons sport) ++ mem_of_u16 (htons dport) ++ mem_of_u16 (htons 556).
Definition half_ip (sip dip sport dport : Z) : list Z :=
  ip_header 0 (htons 556) 0 IPPROTO_UDP 0 sip dip ++ udp_ports sport dport.
Definition pseudo (sip dip sport dport : Z) : list Z :=
  pseudo_header sip dip (htons 556) ++ udp_ports sport dport.

Lemma half_ip_u8 a b c d : Forall is_u8 (half_ip a b c d).
Proof. unfold half_ip, ip_header, udp_ports. u8_list. Qed.

Lemma pseudo_u8 a b c d : Forall is_u8 (pseudo a b c d).
Proof. unfold pseudo, pseudo_header, udp_ports. u8_list. Qed.

Lemma half_ip_wsum a b c d : wsum (half_ip a b c d) = wsum (pseudo a b c d).
Proof.
  unfold half_ip, pseudo, pseudo_header, ip_header, udp_ports, mem_of_u16, mem_of_u32.
  cbn [app wsum]. change (byte_at 0 0) with 0. change (byte_at 0 1) with 0. lia.
Qed.

Lemma udp_header_ports sport dport c :
  udp_header (htons sport) (htons dport) (htons 556) c = udp_ports sport dport ++ mem_of_u16 c.
Proof. unfold udp_header, udp_ports. by rewrite <- !app_assoc. Qed.

Lemma raw_frame_eq m sip sport dip dport uc ipc :
  checksum (half_ip sip dip sport dport ++ mem_of_u16 0 ++ msg_bytes m) = Ret uc ->
  checksum (ip_header 0x45 (htons 576) 64 17 0 sip dip) = Ret ipc ->
  raw_frame m sip sport dip dport =
    Ret (ip_header 0x45 (htons 576) 64 17 ipc sip dip ++
         udp_header (htons sport) (htons dport) (htons 556) uc ++ msg_bytes m).
Proof.
  intros Eu Ei. unfold raw_frame, IPDEFTTL, IPPROTO_UDP. cbv zeta.
  replace (20 + 8 + 548) with 576 by done. replace (8 + 548) with 556 by done.
  replace (Z.lor (Z.shiftl 4 4) (Z.shiftr 20 2)) with 0x45 by done.
  rewrite (udp_header_ports _ _ 0). unfold half_ip, IPPROTO_UDP in Eu. rewrite <- !app_assoc in Eu |- *.
  rewrite Eu. unfold mbind, outcome_bind. rewrite Ei. reflexivity.
Qed.

(** Both regions have the same checksum, so the one stored verifies the other. *)
Lemma udp_verifies m sip sport dip dport uc : msg_wf m -> hdr_wf m ->
  checksum (half_ip sip dip sport dport ++ mem_of_u16 0 ++ msg_bytes m) = Ret uc ->
  checksum (pseudo sip dip sport dport ++ mem_of_u16 uc ++ msg_bytes m) = Ret 0.
Proof.
  intros Hm Hh Eu. pose proof (msg_bytes_u8 m Hm Hh) as Hmu.
  destruct (msg_roundtrip_aux m Hm Hh) as [_ Hml]. unfold sizeof_dhcpMessage in Hml.
  assert (Hp : length (pseudo sip dip sport dport) = 18%nat) by done.
  assert (Hq : length (half_ip sip dip sport dport) = 26%nat) by done.
  pose proof (half_ip_u8 sip dip sport dport). pose proof (pseudo_u8 sip dip sport dport).
  apply checksum_verifies; [done|done|rewrite Hp; by exists 9%nat|rewrite Hp, Hml; lia|].
  rewrite <- Eu. apply checksum_same_sum.
  - u8_list.
  - u8_list.
  - rewrite !length_app, Hp, Hml. simpl. lia.
  - rewrite !length_app, Hq, Hml. simpl. lia.
  - rewrite !wsum_app, half_ip_wsum; done || (rewrite ?Hp, ?Hq;
      first [by exists 9%nat | by exists 13%nat | by exists 1%nat]).
Qed.

(** The frame raw_packet sends has a correct IP header checksum (the sum
    over the header is zero) and a correct UDP checksum over the pseudo-header,
    the UDP header and the DHCP message, although the code computes the latter
    over a half-filled IP header; the frame is the 576 bytes its length fields
    announce. *)
Theorem raw_frame_checksums m sip sport dip dport :
  msg_wf m -> hdr_wf m ->
  exists ipc uc,
    let ip := ip_header 0x45 (htons 576) 64 17 ipc sip dip in
    let udp := udp_header (htons sport) (htons dport) (htons 556) uc in
    raw_frame m sip sport dip dport = Ret (ip ++ udp ++ msg_bytes m) /\
    checksum ip = Ret 0 /\
    checksum (pseudo_header sip dip (htons 556) ++ udp ++ msg_bytes m) = Ret 0 /\
    length (ip ++ udp ++ msg_bytes m) = 576%nat.
Proof.
  intros Hm Hh. pose proof (msg_bytes_u8 m Hm Hh) as Hmu.
  destruct (msg_roundtrip_aux m Hm Hh) as [_ Hml]. unfold sizeof_dhcpMessage in Hml.
  destruct (checksum_ok (half_ip sip dip sport dport ++ mem_of_u16 0 ++ msg_bytes m))
    as (r & k & Eu & _).
  { pose proof (half_ip_u8 sip dip sport dport). u8_list. }
  { rewrite !length_app, Hml. simpl. lia. }
  destruct (checksum_ok (ip_header 0x45 (htons 576) 64 17 0 sip dip)) as (r' & k' & Ei & _).
  { unfold ip_header. u8_list. }
  { done. }
  exists (65535 - r'), (65535 - r). cbv zeta. split_and!.
  - by apply raw_frame_eq.
  - by apply ip_header_verifies.
  - apply udp_verifies in Eu; [|done..]. rewrite udp_header_ports. unfold pseudo in Eu.
    by rewrite <- !app_assoc in Eu |- *.
  - rewrite !length_app, Hml. done.
Qed.

(** ** init_header *)

Lemma set_options_wf o m : msg_wf m -> length o = 308%nat -> Forall is_u8 o ->
  msg_wf (set_options o m).
Proof. intros (?&?&?&?&?&?&?&?) Hl Hu. by split_and!. Qed.

Lemma init_header_ok type : is_u8 type ->
  exists m, init_header type = Ret m /\ msg_wf m /\ opts_hold (options m) [(53, [type])] /\
    op m = op_of_type type /\ htype m = 1 /\ hlen m = 6 /\ yiaddr m = 0 /\
    ntohl (cookie m) = DHCP_MAGIC.
Proof.
  intros Ht. unfold init_header, msg_add_simple. cbn [options].
  assert (E : add_simple_option (DHCP_END :: replicate 307 0) DHCP_MESSAGE_TYPE type =
            Ret (53 :: 1 :: byte_at type 0 :: DHCP_END :: replicate 304 0, 3)) by done.
  rewrite E. cbn [mbind outcome_bind fst].
  assert (Hb : byte_at type 0 = type).
  { rewrite byte_at_div by lia. unfold is_u8 in Ht. word_consts. rewrite Z.div_1_r.
    apply Z.mod_small. lia. }
  rewrite Hb. eexists. split; [done|]. split_and!; try done.
  - apply set_options_wf; [|done|].
    + split_and!; try done; by apply all_u8_ok.
    + repeat apply Forall_cons_2; try (unfold is_u8, DHCP_END; lia); [done|by apply all_u8_ok].
  - split; [done|]. split; [|by exists (replicate 304 0)].
    repeat constructor; simpl; unfold DHCP_OPTION_OVER; lia.
Qed.

(** ** get_packet *)

Lemma field_length off n b : (off + n <= length b)%nat -> length (field off n b) = n.
Proof. intros. unfold field. rewrite length_take, length_drop. lia. Qed.

Lemma field_u8 off n b : Forall is_u8 b -> Forall is_u8 (field off n b).
Proof. intros. by apply Forall_take, Forall_drop. Qed.

Lemma msg_of_bytes_wf b : length b = sizeof_dhcpMessage -> Forall is_u8 b ->
  msg_wf (msg_of_bytes b).
Proof.
  unfold sizeof_dhcpMessage. intros Hl Hu. unfold msg_wf, msg_of_bytes. simpl.
  split_and!; try (apply field_length; lia); by apply field_u8.
Qed.

Lemma read_message_wf data : Forall is_u8 data -> msg_wf (read_message data).
Proof.
  intros Hu. unfold read_message. apply msg_of_bytes_wf.
  - rewrite length_app, length_replicate. pose proof (length_take data sizeof_dhcpMessage). lia.
  - apply Forall_app. split; [by apply Forall_take|]. apply Forall_replicate. by vm_compute.
Qed.

Lemma broken_vendor_cases p q : broken_vendor p = Ret q -> exists f, q = set_flags f p.
Proof.
  assert (Hp : exists f, p = set_flags f p) by (exists (flags p); by destruct p).
  unfold broken_vendor. generalize (get_option p DHCP_VENDOR). intros g Hrun.
  apply bind_Ret_inv in Hrun as ([v|] & _ & Hrun); [|by injection Hrun as <-].
  apply bind_Ret_inv in Hrun as (l & _ & Hrun).
  destruct (negb (l =? 7)); [by injection Hrun as <-|].
  apply bind_Ret_inv in Hrun as (w & _ & Hrun). injection Hrun as <-.
  case_bool_decide; [by eexists|done].
Qed.

Lemma check_packet_cases b p n m : check_packet b p = Ret (n, m) -> 0 <= n ->
  ntohl (cookie p) = DHCP_MAGIC /\ n = b /\ exists f, m = set_flags f p.
Proof.
  unfold check_packet. intros Hrun Hn.
  destruct (Z.eqb_spec (ntohl (cookie p)) DHCP_MAGIC) as [Hc|Hc]; cbn [negb] in Hrun.
  2:{ injection Hrun as <- <-. lia. }
  apply bind_Ret_inv in Hrun as (q & Hq & Hrun). injection Hrun as <- <-. split_and!; try done.
  destruct (op p =? BOOTREQUEST); [by apply broken_vendor_cases|].
  injection Hq as <-. exists (flags p). by destruct p.
Qed.

Lemma set_flags_wf f m : msg_wf m -> msg_wf (set_flags f m).
Proof. done. Qed.

Lemma cookie_set_flags f m : cookie (set_flags f m) = cookie m.
Proof. done. Qed.

Lemma get_packet_Some data : get_packet (Some data) =
  check_packet (Z.of_nat (Nat.min (length data) sizeof_dhcpMessage)) (read_message data).
Proof. unfold get_packet. reflexivity. Qed.

(** Whatever bytes arrive, a packet get_packet accepts is a well-formed
    message with the DHCP cookie; the only change made to it is the broadcast
    flag. A short packet is read as if padded with zeros. *)
Theorem get_packet_wf data n m :
  Forall is_u8 data -> get_packet (Some data) = Ret (n, m) -> 0 <= n ->
  msg_wf m /\ ntohl (cookie m) = DHCP_MAGIC /\
  n = Z.of_nat (Nat.min (length data) sizeof_dhcpMessage) /\
  exists f, m = set_flags f (read_message data).
Proof.
  intros Hu Hrun Hn. pose proof (read_message_wf data Hu) as Hwf.
  rewrite get_packet_Some in Hrun. destruct (check_packet_cases _ _ _ _ Hrun Hn) as (Hc & -> & f & ->).
  split_and!; [by apply set_flags_wf|by rewrite cookie_set_flags|done|by exists f].
Qed.

(** ** Concrete packets *)

(** A DISCOVER of a Windows 98 client, as received (296 bytes). *)
Definition demo_wire : list Z :=
  [1; 1; 6; 0; 1; 2; 3; 4; 0; 0; 0; 0] ++ replicate 16 0 ++ [0; 17; 34; 51; 68; 85] ++
  replicate 202 0 ++ [99; 130; 83; 99; 53; 1; 1; 60; 7] ++ bytes_of "MSFT 98" ++ [255] ++
  replicate 43 0.

Lemma demo_hdr_wf : hdr_wf demo_discover.
Proof. unfold hdr_wf. split_and!; by vm_compute. Qed.

Lemma msg_roundtrip_witness :
  msg_of_bytes (msg_bytes demo_discover) = demo_discover /\
  length (msg_bytes demo_discover) = sizeof_dhcpMessage.
Proof. apply msg_roundtrip; [apply demo_discover_wf|apply demo_hdr_wf]. Defined.

Lemma raw_frame_checksums_witness :
  exists ipc uc,
    let ip := ip_header 0x45 (htons 576) 64 17 ipc 16885952 4294967295 in
    let udp := udp_header (htons 67) (htons 68) (htons 556) uc in
    raw_frame demo_discover 16885952 67 4294967295 68 =
      Ret (ip ++ udp ++ msg_bytes demo_discover) /\
    checksum ip = Ret 0 /\
    checksum (pseudo_header 16885952 4294967295 (htons 556) ++ udp ++ msg_bytes demo_discover)
      = Ret 0 /\
    length (ip ++ udp ++ msg_bytes demo_discover) = 576%nat.
Proof.
  exact (raw_frame_checksums demo_discover 16885952 67 4294967295 68
           demo_discover_wf demo_hdr_wf).
Defined.

Lemma get_packet_wf_witness :
  exists m, get_packet (Some demo_wire) = Ret (296, m) /\ flags m = htons BROADCAST_FLAG /\
    msg_wf m.
Proof.
  eexists. split; [vm_compute; reflexivity|]. split; [reflexivity|].
  eapply (get_packet_wf demo_wire 296).
  - by apply all_u8_ok; vm_compute.
  - vm_compute. reflexivity.
  - lia.
Defined.
