(* ===== verification/DhcpServer.v ===== *)
(** * Answers of the DHCP server (src/router/udhcpd/serverpacket.c and the packet
    dispatch of udhcpd_main in dhcpd.c)

    A handler takes the received message and the state of the server to the new
    state; what it sends is in the trace. STB_SUPPORT and HSIAB_SUPPORT are off
    in the configuration of this product. Log output is left out. *)

From Stdlib Require Import ZArith Lia Ascii.
From stdpp Require Import base numbers sets strings list.
From S2P Require Import Prelude CString DhcpOptions DhcpLeases MacIp DhcpPacket.
Import Options Leases Static Packet.
Open Scope string_scope.
Open Scope Z_scope.
Open Scope list_scope.

Module Reply.

Definition INADDR_BROADCAST : Z := 2 ^ 32 - 1.
Definition MAC_BCAST_ADDR : list Z := replicate 6 255.

Definition set_chaddr (c : list Z) (m : dhcpMessage) : dhcpMessage :=
  Message (op m) (htype m) (hlen m) (hops m) (xid m) (secs m) (flags m) (ciaddr m)
    (yiaddr m) (siaddr m) (giaddr m) c (sname m) (file m) (cookie m) (options m).

(** A 32-bit value at an offset ([memcpy(&x, p, 4)]). *)
Definition opt_u32 (m : dhcpMessage) (off : Z) : outcome Z :=
  b ← rd_n (tail m) off 4; Ret (u32_of_mem b).

Definition get_u32_option (m : dhcpMessage) (code : Z) : outcome (option Z) :=
  o ← get_option m code;
  match o with
  | None => Ret None
  | Some off => v ← opt_u32 m off; Ret (Some v)
  end.

(** ** init_packet *)
Definition init_packet (oldpacket : dhcpMessage) (type : Z) (s : server) : outcome dhcpMessage :=
  p ← init_header type;
  msg_add_simple DHCP_SERVER_ID (c_server (cfg s))
    (Message (op p) (htype p) (hlen p) (hops p) (xid oldpacket) (secs p) (flags oldpacket)
       (ciaddr oldpacket) (yiaddr p) (siaddr p) (giaddr oldpacket) (chaddr oldpacket)
       (sname p) (file p) (cookie p) (options p)).

(** ** add_bootp_options: [strncpy] of all but the last byte of the field *)
Definition put_field (n : nat) (v : option (list Z)) (old : list Z) : list Z :=
  match v with None => old | Some v => strncpy_buf n v ++ drop n old end.

Definition add_bootp_options (p : dhcpMessage) (s : server) : dhcpMessage :=
  Message (op p) (htype p) (hlen p) (hops p) (xid p) (secs p) (flags p)
    (ciaddr p) (yiaddr p) (c_siaddr (cfg s)) (giaddr p) (chaddr p)
    (put_field 63 (c_sname (cfg s)) (sname p)) (put_field 127 (c_boot_file (cfg s)) (file p))
    (cookie p) (options p).

(** The host name of a client, in a buffer of 64 bytes. *)
Definition hostname_buf (data : list Z) : list Z := data ++ replicate (64 - length data) 0.

(** ** The configured options, as sendOffer and sendACK copy them: the router
    option is replaced for a host that shares the WAN address. *)
Fixpoint add_options (share : bool) (gw : Z) (os : list (list Z)) (p : dhcpMessage)
    : outcome dhcpMessage :=
  match os with
  | [] => Ret p
  | d :: os =>
      p ← (if opt_code d =? DHCP_LEASE_TIME then Ret p
           else if share && (opt_code d =? DHCP_ROUTER) && (0 <? gw) then
             msg_add_string (DHCP_ROUTER :: 4 :: mem_of_u32 gw) p
           else msg_add_string d p);
      add_options share gw os p
  end.

Definition add_configured (oldpacket p : dhcpMessage) (s : server) : outcome dhcpMessage :=
  let share := negb (c_share_wanip_flag (cfg s) =? 0) in
  gw ← get_share_wanip_gw (chaddr oldpacket) s;
  add_options share gw (c_options (cfg s)) p.

Section WithEnv.
Context `{Env}.

(** ** send_packet, send_packet_to_relay, send_packet_to_client *)
Definition send (e : effect) (s : server) : server * Z := (emit e s, send_result e).

Definition send_packet_to_relay (payload : dhcpMessage) (s : server) : server * Z :=
  send (KernelPacket payload (c_server (cfg s)) SERVER_PORT (giaddr payload) SERVER_PORT) s.

Definition client_address (payload : dhcpMessage) (force_broadcast : bool) : Z * list Z :=
  if force_broadcast then (INADDR_BROADCAST, MAC_BCAST_ADDR)
  else if negb (ciaddr payload =? 0) then (ciaddr payload, chaddr payload)
  else if negb (Z.land (ntohs (flags payload)) BROADCAST_FLAG =? 0)
  then (INADDR_BROADCAST, MAC_BCAST_ADDR)
  else (yiaddr payload, chaddr payload).

Definition send_packet_to_client (payload : dhcpMessage) (force_broadcast : bool) (s : server)
    : server * Z :=
  let '(ip, mac) := client_address payload force_broadcast in
  send (RawPacket payload (c_server (cfg s)) SERVER_PORT ip CLIENT_PORT (take 6 mac)
          (c_ifindex (cfg s))) s.

Definition send_packet (payload : dhcpMessage) (force_broadcast : bool) (s : server)
    : server * Z :=
  if negb (giaddr payload =? 0) then send_packet_to_relay payload s
  else send_packet_to_client payload force_broadcast s.

(** ** sendOffer *)

(** The host name; [name] is a [char *], so the length byte is sign-extended
    and a negative count makes the [memcpy] run out of any buffer. *)
Definition offer_hostname (oldpacket : dhcpMessage) : outcome (list Z) :=
  name ← get_option oldpacket DHCP_HOST_NAME;
  match name with
  | None => Ret (hostname_buf [32])
  | Some p =>
      l ← rd (tail oldpacket) (p - 1);
      let bytes := s8 l in
      let bytes := if 64 <=? bytes then 63 else bytes in
      if bytes <? 0 then Fault else
      d ← rd_n (tail oldpacket) p (Z.to_nat bytes);
      Ret (hostname_buf d)
  end.

(** The label [find_ip]. *)
Definition find_ip (s : server) : outcome (server * Z) :=
  r ← find_address false s;
  if r.2 =? 0 then find_address true r.1 else Ret r.

(** The address, and the lease time when the client's own lease is reused. *)
Definition from_table (i : nat) (s : server) : outcome (server * Z * option Z) :=
  l ← deref (leases s !! i);
  let '(s, used) := check_ip (l_yiaddr l) s in
  if used =? 0 then
    Ret (s, l_yiaddr l,
         if lease_expired l (clock s) then None else Some (u32 (l_expires l - clock s)))
  else r ← find_ip s; Ret (r.1, r.2, None).

(** The tests of the branch for the address the client asks for. *)
Definition requestable (req : Z) (s : server) : outcome bool :=
  if negb ((ntohl (c_start (cfg s)) <=? ntohl req) && (ntohl req <=? ntohl (c_end (cfg s))))
  then Ret false else
  match find_lease_by_yiaddr req s with
  | None => Ret true
  | Some i => l ← deref (leases s !! i); Ret (lease_expired l (clock s))
  end.

Definition from_request (oldpacket : dhcpMessage) (s : server)
    : outcome (server * Z * option Z) :=
  req ← get_u32_option oldpacket DHCP_REQUESTED_IP;
  ok ← match req with None => Ret false | Some req => requestable req s end;
  match req with
  | Some req =>
      if (ok : bool) && negb (req =? c_server (cfg s)) then
        let '(s, used) := check_ip req s in
        if used =? 0 then Ret (s, req, None)
        else r ← find_ip s; Ret (r.1, r.2, None)
      else r ← find_ip s; Ret (r.1, r.2, None)
  | None => r ← find_ip s; Ret (r.1, r.2, None)
  end.

Definition choose_address (oldpacket : dhcpMessage) (hostname : list Z) (s : server)
    : outcome (server * Z * option Z) :=
  r ← (if c_share_wanip_flag (cfg s) =? 0 then Ret (s, 0, -1)
       else find_share_wan_ip (chaddr oldpacket) 0 s);
  let '(s, ipaddr, i) := r in
  if 0 <? i then Ret (s, ipaddr, None) else
  if i =? 0 then (r ← find_ip s; Ret (r.1, r.2, None)) else
  let by_mac := find_ip_by_mac (chaddr oldpacket) s in
  if negb (by_mac =? 0) then Ret (s, by_mac, None) else
  let by_name := find_ip_by_hostname hostname s in
  if negb (by_name =? 0) then Ret (s, by_name, None) else
  match find_lease_by_chaddr (chaddr oldpacket) s with
  | Some i => from_table i s
  | None => from_request oldpacket s
  end.

(** The lease time of an OFFER: the client's wish up to the configured time,
    the configured time when it is below the minimum, and the time of the share
    entry for a host that shares the WAN address. *)
Definition offer_time (oldpacket : dhcpMessage) (time : option Z) (s : server) : outcome Z :=
  let lease := c_lease (cfg s) in
  wish ← get_u32_option oldpacket DHCP_LEASE_TIME;
  let t := match wish with
           | Some w => if lease <? ntohl w then lease else ntohl w
           | None => default lease time
           end in
  let t := if t <? c_min_lease (cfg s) then lease else t in
  share ← check_is_share_wanip_mac (chaddr oldpacket) s;
  Ret (if share =? 0 then t else share).

Definition sendOffer (oldpacket : dhcpMessage) (s : server) : outcome (server * Z) :=
  hostname ← offer_hostname oldpacket;
  packet ← init_packet oldpacket DHCPOFFER s;
  r ← choose_address oldpacket hostname s;
  let '(s, yiaddr, time) := r in
  if yiaddr =? 0 then Ret (s, -1) else
  let packet := set_yiaddr yiaddr packet in
  let '(s, slot) := add_lease (chaddr packet) yiaddr (c_offer_time (cfg s)) s in
  match slot with
  | None => Ret (s, -1)
  | Some _ =>
      lease_time_align ← offer_time oldpacket time s;
      packet ← msg_add_simple DHCP_LEASE_TIME (htonl lease_time_align) packet;
      packet ← add_configured oldpacket packet s;
      Ret (send_packet (add_bootp_options packet s) true s)
  end.

(** ** sendNAK *)
Definition sendNAK (oldpacket : dhcpMessage) (s : server) : outcome (server * Z) :=
  packet ← init_packet oldpacket DHCPNAK s;
  Ret (send_packet packet true (with_nak 1 s)).

(** ** sendACK *)
Definition ack_time (oldpacket : dhcpMessage) (s : server) : outcome Z :=
  let lease := c_lease (cfg s) in
  wish ← get_u32_option oldpacket DHCP_LEASE_TIME;
  let t := match wish with
           | Some w => if lease <? ntohl w then lease
                       else if ntohl w <? c_min_lease (cfg s) then lease else ntohl w
           | None => lease
           end in
  share ← check_is_share_wanip_mac (chaddr oldpacket) s;
  Ret (if share =? 0 then t else share).

(** After the lease is recorded: the shared WAN address goes to the kernel, the
    firewall is opened for the single PC. *)
Definition ack_share (chaddr : list Z) (yiaddr : Z) (s : server) : outcome server :=
  if c_share_wanip_flag (cfg s) =? 0 then Ret s else
  r ← find_share_wan_ip chaddr 0 s;
  let '(s, ip, found) := r in
  if (0 <? found) && (ip =? yiaddr) then SendInfoToKernal yiaddr chaddr s else Ret s.

Definition ack_single (yiaddr : Z) (s : server) : server :=
  if c_single_pc_mode (cfg s) =? 0 then s else
  let ip := inet_ntoa yiaddr in
  let s := emit (Eval ["iptables"; "-F"]) s in
  let s := emit (Eval ["iptables"; "-A"; "FORWARD"; "-i"; "br0"; "-s"; ip; "-j"; "ACCEPT"]) s in
  let s := emit (Eval ["iptables"; "-A"; "FORWARD"; "-i"; "br0"; "-j"; "DROP"]) s in
  let s := with_single (single_pc_mac s) 2 s in
  emit (NvramSet "single_pc_ipaddr" ip) s.

Definition sendACK (oldpacket : dhcpMessage) (yiaddr : Z) (s : server) : outcome (server * Z) :=
  packet ← init_packet oldpacket DHCPACK s;
  let packet := set_yiaddr yiaddr packet in
  lease_time_align ← ack_time oldpacket s;
  packet ← msg_add_simple DHCP_LEASE_TIME (htonl lease_time_align) packet;
  packet ← add_configured oldpacket packet s;
  let packet := add_bootp_options packet s in
  server_id ← get_option oldpacket DHCP_SERVER_ID;
  let '(s, sent) := send_packet packet (match server_id with Some _ => true | None => false end) s in
  if sent <? 0 then Ret (s, -1) else
  let s := (add_lease (chaddr packet) yiaddr lease_time_align s).1 in
  s ← ack_share (chaddr packet) yiaddr s;
  Ret (ack_single yiaddr s, 0).

(** ** send_inform *)
Definition send_inform (oldpacket : dhcpMessage) (s : server) : outcome (server * Z) :=
  packet ← init_packet oldpacket DHCPACK s;
  packet ← add_options false 0 (c_options (cfg s)) packet;
  Ret (send_packet (add_bootp_options packet s) false s).

End WithEnv.
End Reply.

Module Dispatch.
Import Reply.

Definition blank_mac : list Z := replicate 16 0.
Definition forget_single (s : server) : server := with_single blank_mac 0 s.
Definition clear_slot (i : nat) (s : server) : server := upd_lease i (fun _ => zero_lease) s.

Section WithEnv.
Context `{Env}.

(** ** DHCPDISCOVER *)

(** In single-PC mode only the registered PC is served until its lease ends;
    [None]: the packet is dropped. *)
Definition discover_guard (packet : dhcpMessage) (s : server) : outcome (option server) :=
  if (c_single_pc_mode (cfg s) =? 0) || (single_pc_mode_flag s =? 0) then Ret (Some s) else
  let other := negb (same_mac (single_pc_mac s) (chaddr packet)) in
  match find_lease_by_chaddr (single_pc_mac s) s with
  | Some i =>
      l ← deref (leases s !! i);
      if lease_expired l (clock s) then Ret (Some (forget_single s))
      else if other then Ret None else Ret (Some s)
  | None => if other then Ret None else Ret (Some s)
  end.

Definition handle_discover (packet : dhcpMessage) (s : server) : outcome server :=
  g ← discover_guard packet s;
  match g with
  | None => Ret s
  | Some s =>
      r ← sendOffer packet s;
      let '(s, ret) := r in
      if ret <? 0 then Ret s else
      if c_single_pc_mode (cfg s) =? 0 then Ret s else
      Ret (with_single (take MAC_LEN (chaddr packet) ++ drop MAC_LEN (single_pc_mac s)) 1 s)
  end.

(** ** DHCPREQUEST *)

Definition ack (packet : dhcpMessage) (y : Z) (s : server) : outcome server :=
  r ← sendACK packet y s; Ret r.1.
Definition nak (packet : dhcpMessage) (s : server) : outcome server :=
  r ← sendNAK packet s; Ret r.1.
Definition drop_nak (packet : dhcpMessage) (i : nat) (s : server) : outcome server :=
  nak packet (clear_slot i s).

(** The option's bytes (at most 63), [None] without the option. *)
Definition request_name (packet : dhcpMessage) : outcome (option (list Z)) :=
  name ← get_option packet DHCP_HOST_NAME;
  match name with
  | None => Ret None
  | Some p =>
      l ← rd (tail packet) (p - 1);
      d ← rd_n (tail packet) p (Z.to_nat (if 64 <=? l then 63 else l));
      Ret (Some d)
  end.

(** ACK the address [y] of the client's lease, unless [y] is in a static table
    and belongs to somebody else: the host name is compared on its own length. *)
Definition ack_static (packet : dhcpMessage) (hostname : list Z) (i : nat) (y : Z) (s : server)
    : outcome server :=
  let '(j, k) := is_in_machost_table y s in
  if j =? 2 then
    m ← deref (mac_ip s !! k);
    if same_mac (chaddr packet) (m_macaddr m) then ack packet y s else drop_nak packet i s
  else if j =? 1 then
    h ← deref (hostname_ip s !! k);
    let n := length (cstr hostname) in
    if bool_decide (take n hostname = take n (h_hostname h)) then ack packet y s
    else drop_nak packet i s
  else ack packet y s.

(** The client has a lease, in slot [i]. *)
Definition request_known (packet : dhcpMessage) (hostname : list Z)
    (requested server_id : option Z) (i : nat) (s : server) : outcome server :=
  l ← deref (leases s !! i);
  match server_id with
  | Some sid =>
      if (sid =? c_server (cfg s)) && bool_decide (requested = Some (l_yiaddr l))
      then ack packet (l_yiaddr l) s else Ret s
  | None =>
      let y := match requested with Some r => r | None => ciaddr packet end in
      if l_yiaddr l =? y then ack_static packet hostname i y s else nak packet s
  end.

(** The host name is then stored through the same lease pointer. *)
Definition name_slot (name : option (list Z)) (l : dhcpOfferedAddr) : dhcpOfferedAddr :=
  match name with
  | Some d => set_hostname (strncpy_buf (length d) (cstr d) ++ [0] ++
                            drop (length d + 1) (l_hostname l)) l
  | None => set_hostname (0 :: drop 1 (l_hostname l)) l
  end.

(** No record of the client. *)
Definition request_unknown (packet : dhcpMessage) (requested server_id : option Z) (s : server)
    : outcome server :=
  match server_id, requested with
  | Some _, _ => nak packet s
  | None, Some r =>
      match find_lease_by_yiaddr r s with
      | Some i =>
          l ← deref (leases s !! i);
          if lease_expired l (clock s)
          then Ret (upd_lease i (Leases.set_chaddr (replicate 16 0)) s)
          else nak packet s
      | None => nak packet s
      end
  | None, None => if ciaddr packet =? 0 then Ret s else nak packet s
  end.

(** The shared WAN address: a request for another address is refused. [None]:
    the NAK was sent and the packet is done with. *)
Definition request_share (packet : dhcpMessage) (requested : option Z) (s : server)
    : outcome (server * bool) :=
  if c_share_wanip_flag (cfg s) =? 0 then Ret (s, false) else
  let tmp_old_wanip := match requested with Some r => r | None => ciaddr packet end in
  let in_range := (c_start (cfg s) <=? tmp_old_wanip) && (tmp_old_wanip <=? c_end (cfg s)) in
  let s := if in_range then s else delete_route_by tmp_old_wanip s in
  r ← find_share_wan_ip (chaddr packet) 0 s;
  let '(s, ip, found) := r in
  if (0 <? found) && negb (ip =? tmp_old_wanip) then
    s ← nak packet s;
    s ← clear_share_wanip s;
    Ret (forget_single s, true)
  else Ret (s, false).

Definition handle_request (packet : dhcpMessage) (lease : option nat) (s : server)
    : outcome server :=
  let s := with_nak 0 s in
  requested ← get_option packet DHCP_REQUESTED_IP;
  server_id ← get_option packet DHCP_SERVER_ID;
  name ← request_name packet;
  let hostname := hostname_buf (default [] name) in
  requested ← match requested with Some p => v ← opt_u32 packet p; Ret (Some v) | None => Ret None end;
  server_id ← match server_id with Some p => v ← opt_u32 packet p; Ret (Some v) | None => Ret None end;
  if negb (c_single_pc_mode (cfg s) =? 0) && negb (single_pc_mode_flag s =? 0) &&
     negb (same_mac (single_pc_mac s) (chaddr packet))
  then nak packet s else
  r ← request_share packet requested s;
  let '(s, done) := r in
  if (done : bool) then Ret s else
  s ← match lease with
      | Some i =>
          s ← request_known packet hostname requested server_id i s;
          Ret (upd_lease i (name_slot name) s)
      | None => request_unknown packet requested server_id s
      end;
  Ret (if negb (c_single_pc_mode (cfg s) =? 0) && negb (send_nak_flag s =? 0)
       then forget_single s else s).

(** ** DHCPDECLINE, DHCPRELEASE *)

(** What both do after they changed the lease. *)
Definition client_gone (packet : dhcpMessage) (s : server) : outcome server :=
  let s := if c_single_pc_mode (cfg s) =? 0 then s else forget_single s in
  if c_share_wanip_flag (cfg s) =? 0 then Ret s else
  t ← check_is_share_wanip_mac (chaddr packet) s;
  if t =? 0 then Ret s else clear_share_wanip s.

Definition handle_decline (packet : dhcpMessage) (lease : option nat) (s : server)
    : outcome server :=
  let s := match lease with
           | Some i => upd_lease i (fun l =>
               set_expires (u32 (clock s + c_decline_time (cfg s)))
                 (Leases.set_chaddr (replicate 16 0) l)) s
           | None => s
           end in
  client_gone packet s.

Definition handle_release (packet : dhcpMessage) (lease : option nat) (s : server)
    : outcome server :=
  let s := match lease with
           | Some i => upd_lease i (set_expires (clock s)) s
           | None => s
           end in
  client_gone packet s.

(** ** The dispatch on a received message *)
Definition dispatch (packet : dhcpMessage) (s : server) : outcome server :=
  state ← get_option packet DHCP_MESSAGE_TYPE;
  match state with
  | None => Ret s
  | Some p =>
      type ← rd (tail packet) p;
      let lease := find_lease_by_chaddr (chaddr packet) s in
      if type =? DHCPDISCOVER then handle_discover packet s
      else if type =? DHCPREQUEST then handle_request packet lease s
      else if type =? DHCPDECLINE then handle_decline packet lease s
      else if type =? DHCPRELEASE then handle_release packet lease s
      else if type =? DHCPINFORM then (r ← send_inform packet s; Ret r.1)
      else Ret s
  end.

(** One received datagram: [get_packet], then the dispatch. *)
Definition receive (data : option (list Z)) (s : server) : outcome server :=
  r ← get_packet data;
  if r.1 <? 0 then Ret s else dispatch r.2 s.

End WithEnv.
End Dispatch.
