(* ===== verification/DhcpServerProofs.v ===== *)
(** * Correctness of the answers of the DHCP server *)

From Stdlib Require Import ZArith Lia Ascii.
From stdpp Require Import base numbers sets strings list.
From S2P Require Import Prelude CString DhcpOptions DhcpOptionsProofs DhcpLeases DhcpLeasesProofs MacIp DhcpPacket DhcpPacketProofs DhcpServer.
Import Options Leases Static Packet Reply Dispatch DemoServer.
Open Scope Z_scope.

(** Conversion unfolds the searches with fuel last. *)
Strategy 1000 [get_option end_option add_option_string find_address init_header rd_n].

(** ** The invariant of the server *)

Record srv_wf (s : server) : Prop := {
  wf_table : table_wf (leases s);
  wf_mac : Forall (fun m => is_u32 (m_ipaddr m)) (mac_ip s);
  wf_host : Forall (fun h => is_u32 (h_ipaddr h)) (hostname_ip s);
  wf_share : Forall (fun w => is_u32 (w_ipaddr w)) (share_wan_ip s);
  wf_end : ntohl (c_end (cfg s)) < 2 ^ 32 - 1
}.

(** A step that keeps the invariant, the configuration and the table's size. *)
Definition ok_step (s s' : server) : Prop :=
  srv_wf s -> srv_wf s' /\ cfg s' = cfg s /\ length (leases s') = length (leases s).

#[global] Instance ok_step_preorder : PreOrder ok_step.
Proof.
  split.
  - by intros s Hs.
  - intros a b c H1 H2 Ha. destruct (H1 Ha) as (Hb & E1 & L1).
    destruct (H2 Hb) as (Hc & E2 & L2). split_and!; [done|congruence|congruence].
Qed.

(** Steps that leave the data of the invariant alone. *)
Lemma ok_step_same s s' :
  leases s' = leases s -> mac_ip s' = mac_ip s -> hostname_ip s' = hostname_ip s ->
  share_wan_ip s' = share_wan_ip s -> cfg s' = cfg s -> ok_step s s'.
Proof.
  intros E1 E2 E3 E4 E5 [H1 H2 H3 H4 H5]. split_and!; [|done|by rewrite E1].
  constructor; congruence.
Qed.

Lemma ok_emit e s : ok_step s (emit e s).
Proof. by apply ok_step_same. Qed.
Lemma ok_nak n s : ok_step s (with_nak n s).
Proof. by apply ok_step_same. Qed.
Lemma ok_single m f s : ok_step s (with_single m f s).
Proof. by apply ok_step_same. Qed.
Lemma ok_forget s : ok_step s (forget_single s).
Proof. by apply ok_step_same. Qed.

Lemma ok_same_but_table s s' : same_but_table s s' -> table_wf (leases s') ->
  length (leases s') = length (leases s) -> ok_step s s'.
Proof.
  intros (E1 & E2 & E3 & _ & _ & E4 & _) Hwf Hl [H1 H2 H3 H4 H5].
  split_and!; [|done|done]. constructor; congruence.
Qed.

Lemma ok_add_lease c y e s : length c = 16%nat -> is_u32 y -> ok_step s (add_lease c y e s).1.
Proof.
  intros Hc Hy Hs. destruct (add_lease_wf_aux c y e s (wf_table s Hs) Hc Hy) as [Hw Hl].
  by apply ok_same_but_table; [apply add_lease_same|..].
Qed.

Lemma ok_upd_lease i f s :
  (forall l, lease_ok l -> lease_ok (f l)) ->
  (forall l, (nonzero (l_chaddr (f l)) = false \/ l_chaddr (f l) = l_chaddr l) /\
             (l_yiaddr (f l) = 0 \/ l_yiaddr (f l) = l_yiaddr l)) ->
  ok_step s (upd_lease i f s).
Proof.
  intros H1 H2 Hs. apply ok_same_but_table; [done| |by apply length_alter|done].
  apply table_wf_alter; [apply Hs|done|done].
Qed.

Lemma ok_share w n g s : Forall (fun w => is_u32 (w_ipaddr w)) w -> ok_step s (with_share w n g s).
Proof. intros Hw [H1 H2 H3 H4 H5]. split_and!; [|done|done]. by constructor. Qed.

Lemma ok_delete_route ip s : ok_step s (delete_route_by ip s).
Proof. unfold delete_route_by. case_if; [done|apply ok_emit]. Qed.

#[export] Hint Resolve ok_emit ok_nak ok_single ok_forget ok_delete_route : wag.

Section Steps.
Context `{Env}.

Lemma ok_check_ip a s : is_u32 a -> ok_step s (check_ip a s).1.
Proof.
  intros Ha Hs. destruct (check_ip_wf a s Ha (wf_table s Hs)).
  by apply ok_same_but_table; [apply check_ip_same|..].
Qed.

(** ** find_address and find_ip *)

Lemma find_address_loop_u32 b fuel : forall addr ret s s' a,
  find_address_loop fuel b addr ret s = Ret (s', a) -> is_u32 a.
Proof.
  induction fuel as [|fuel IH]; intros addr ret s s' a Hrun; [done|].
  cbn [find_address_loop] in Hrun.
  case_if; [injection Hrun as <- <-; by vm_compute|].
  do 4 (case_if; [by eapply IH|]).
  apply bind_Ret_inv in Hrun as ([] & _ & Hrun); [|by eapply IH].
  destruct (check_ip (htonl addr) s) as [s1 u]. case_if; [|by eapply IH].
  injection Hrun as <- <-. apply bswap32_range.
Qed.

Lemma ok_find_address b s s' a : find_address b s = Ret (s', a) -> ok_step s s' /\ is_u32 a.
Proof.
  intros Hrun. split; [|by eapply find_address_loop_u32]. intros Hs.
  unfold find_address in Hrun.
  destruct (find_address_loop_sound b s (range_fuel s) (ntohl (c_start (cfg s))) 0 s s' a)
    as (H1 & H2 & H3 & _); try done; [apply bswap32_range|apply Hs|apply Hs|].
  by apply ok_same_but_table.
Qed.

Lemma ok_find_ip s s' a : find_ip s = Ret (s', a) -> ok_step s s' /\ is_u32 a.
Proof.
  unfold find_ip. intros Hrun. apply bind_Ret_inv in Hrun as ([s1 a1] & H1 & Hrun).
  apply ok_find_address in H1 as [H1 Ha1]. cbn [fst snd] in Hrun. case_if.
  - apply ok_find_address in Hrun as [H2 Ha]. split; [by etrans|done].
  - by injection Hrun as <- <-.
Qed.

(** ** find_share_wan_ip *)

Lemma inet_addr_u32 t : is_u32 (inet_addr t).
Proof.
  unfold inet_addr, inet_aton. destruct (aton_parts 3 t 0); simpl; [apply bswap32_range|].
  by vm_compute.
Qed.

Lemma get_wanip_u32 w w' r : get_wanip_by_index w = Ret (w', r) ->
  is_u32 (w_ipaddr w') /\ w_macaddr w' = w_macaddr w.
Proof.
  unfold get_wanip_by_index. intros Hrun.
  assert (Hz : forall x, Ret (set_wan 0 0 w, x) = Ret (w', r) ->
            is_u32 (w_ipaddr w') /\ w_macaddr w' = w_macaddr w).
  { intros x E. injection E as <- _. split; [by vm_compute|done]. }
  apply bind_Ret_inv in Hrun as ([[i rows]|] & _ & Hrun); [|by eapply Hz].
  destruct (select_files _) as [[[[p1 p2] j] k]|]; [|by eapply Hz].
  apply bind_Ret_inv in Hrun as ([b1|] & _ & Hrun); [|by eapply Hz].
  apply bind_Ret_inv in Hrun as ([b2|] & _ & Hrun); [|by eapply Hz].
  apply bind_Ret_inv in Hrun as (r1 & _ & Hrun).
  apply bind_Ret_inv in Hrun as (ip & _ & Hrun).
  case_if; [by eapply Hz|]. case_if; [by eapply Hz|].
  apply bind_Ret_inv in Hrun as (r2 & _ & Hrun).
  apply bind_Ret_inv in Hrun as (gw & _ & Hrun). injection Hrun as <- _.
  split; [apply inet_addr_u32|done].
Qed.

Lemma share_insert_u32 (l : list ShareWANIP) (i : nat) w :
  Forall (fun w => is_u32 (w_ipaddr w)) l -> is_u32 (w_ipaddr w) ->
  Forall (fun w => is_u32 (w_ipaddr w)) (<[i := w]> l).
Proof. intros. by apply Forall_insert. Qed.

Lemma ok_share_loop n : forall i hw s d r s' d' r',
  share_loop n i hw s d r = Ret (s', d', r') -> is_u32 d -> ok_step s s' /\ is_u32 d'.
Proof.
  induction n as [|n IH]; intros i hw s d r s' d' r' Hrun Hd; cbn [share_loop] in Hrun.
  { by injection Hrun as <- <- <-. }
  apply bind_Ret_inv in Hrun as (w & _ & Hrun).
  apply bind_Ret_inv in Hrun as ([w' x] & Hw & Hrun). apply get_wanip_u32 in Hw as [Hw _].
  cbn [fst] in Hrun.
  set (s1 := with_share (<[i:=w']> (share_wan_ip s)) (share_wanip_count s)
               (single_pc_mode_gw s) s) in *.
  assert (H1 : ok_step s s1).
  { intros Hs. apply ok_share; [|done]. apply share_insert_u32; [apply Hs|done]. }
  destruct (same_mac (w_macaddr w') hw).
  - apply IH in Hrun as [H2 Hd']; [|done]. split; [|done]. etrans; [exact H1|].
    etrans; [|exact H2]. case_if; [apply ok_delete_route|done].
  - apply IH in Hrun as [H2 Hd']; [|done]. split; [by etrans|done].
Qed.

Lemma ok_register hw s s' i : register_single hw s = Ret (s', i) -> ok_step s s'.
Proof.
  unfold register_single. intros Hrun. case_if; [by injection Hrun as <- <-|].
  apply bind_Ret_inv in Hrun as (w0 & _ & Hrun). case_if; [by injection Hrun as <- <-|].
  apply bind_Ret_inv in Hrun as (w & _ & Hrun). injection Hrun as <- _.
  intros Hs. apply ok_share; [|done]. apply share_insert_u32; [apply Hs|]. by vm_compute.
Qed.

Lemma ok_find_share hw d s s' d' r : find_share_wan_ip hw d s = Ret (s', d', r) ->
  is_u32 d -> ok_step s s' /\ is_u32 d'.
Proof.
  unfold find_share_wan_ip. intros Hrun Hd.
  apply bind_Ret_inv in Hrun as ([s1 ti] & H1 & Hrun). apply ok_register in H1.
  apply bind_Ret_inv in Hrun as ([[s2 d2] r2] & H2 & Hrun).
  apply ok_share_loop in H2 as [H2 Hd2]; [|done].
  destruct ti as [i|].
  - apply bind_Ret_inv in Hrun as (w & Hw & Hrun). injection Hrun as <- <- _.
    split; [|done]. etrans; [exact H1|]. etrans; [exact H2|]. intros Hs. apply ok_share; [|done].
    apply deref_Ret_inv in Hw. apply share_insert_u32; [apply Hs|].
    apply (Forall_lookup_1 _ _ _ _ (wf_share _ Hs) Hw).
  - injection Hrun as <- <- _. split; [by etrans|done].
Qed.
End Steps.

(** ** Building a reply *)

Lemma msg_add_string_frame d m m' : msg_add_string d m = Ret m' ->
  exists o, m' = set_options o m.
Proof.
  unfold msg_add_string. intros Hrun. apply bind_Ret_inv in Hrun as (r & _ & Hrun).
  injection Hrun as <-. by eexists.
Qed.

Lemma msg_add_simple_frame c d m m' : msg_add_simple c d m = Ret m' ->
  exists o, m' = set_options o m.
Proof.
  unfold msg_add_simple. intros Hrun. apply bind_Ret_inv in Hrun as (r & _ & Hrun).
  injection Hrun as <-. by eexists.
Qed.

Lemma add_options_frame share gw os : forall m m',
  add_options share gw os m = Ret m' -> exists o, m' = set_options o m.
Proof.
  induction os as [|d os IH]; intros m m' Hrun; cbn [add_options] in Hrun.
  { injection Hrun as <-. exists (options m). by destruct m. }
  apply bind_Ret_inv in Hrun as (m1 & H1 & Hrun). apply IH in Hrun as [o2 ->].
  assert (exists o, m1 = set_options o m) as [o1 ->]; [|by exists o2].
  case_if; [injection H1 as <-; exists (options m); by destruct m|].
  case_if; by eapply msg_add_string_frame.
Qed.

(** What every reply takes from the request. *)
Definition reply_frame (oldpacket p : dhcpMessage) : Prop :=
  xid p = xid oldpacket /\ chaddr p = chaddr oldpacket /\ flags p = flags oldpacket /\
  giaddr p = giaddr oldpacket /\ ciaddr p = ciaddr oldpacket.

Lemma init_packet_frame old type s p : init_packet old type s = Ret p ->
  reply_frame old p /\ yiaddr p = 0.
Proof.
  unfold init_packet. intros Hrun. apply bind_Ret_inv in Hrun as (h & Hh & Hrun).
  apply msg_add_simple_frame in Hrun as [o ->].
  apply msg_add_simple_frame in Hh as [o' ->]. done.
Qed.

Section Replies.
Context `{Env}.

(** ** Sending *)

(** The packet of an effect. *)
Definition payload_of (e : effect) : option dhcpMessage :=
  match e with
  | RawPacket p _ _ _ _ _ _ => Some p
  | KernelPacket p _ _ _ _ => Some p
  | _ => None
  end.

Lemma send_packet_cases p b s : exists e,
  send_packet p b s = (emit e s, send_result e) /\ payload_of e = Some p.
Proof.
  unfold send_packet, send_packet_to_relay, send_packet_to_client, send.
  destruct (negb (giaddr p =? 0)); [by eexists|].
  destruct (client_address p b). by eexists.
Qed.

Lemma ok_send_packet p b s : ok_step s (send_packet p b s).1.
Proof. destruct (send_packet_cases p b s) as (e & -> & _). apply ok_emit. Qed.

Lemma ok_sendNAK p s s' r : sendNAK p s = Ret (s', r) -> ok_step s s'.
Proof.
  unfold sendNAK. intros Hrun. apply bind_Ret_inv in Hrun as (m & _ & Hrun).
  destruct (send_packet_cases m true (with_nak 1 s)) as (e & E & _). rewrite E in Hrun.
  injection Hrun as <- _. etrans; [apply (ok_nak 1)|apply ok_emit].
Qed.

Lemma ok_send_inform p s s' r : send_inform p s = Ret (s', r) -> ok_step s s'.
Proof.
  unfold send_inform. intros Hrun. apply bind_Ret_inv in Hrun as (m & _ & Hrun).
  apply bind_Ret_inv in Hrun as (m' & _ & Hrun). injection Hrun as Hrun.
  pose proof (ok_send_packet (add_bootp_options m' s) false s) as Hs. by rewrite Hrun in Hs.
Qed.

(** ** The choice of an address *)

Lemma find_ip_by_mac_u32 hw s : srv_wf s -> is_u32 (find_ip_by_mac hw s).
Proof.
  intros Hs. unfold find_ip_by_mac. destruct (find_index _ _) as [i|]; [|by vm_compute].
  destruct (mac_ip s !! i) as [m|] eqn:E; [|by vm_compute].
  apply (Forall_lookup_1 _ _ _ _ (wf_mac s Hs) E).
Qed.

Lemma find_ip_by_hostname_u32 n s : srv_wf s -> is_u32 (find_ip_by_hostname n s).
Proof.
  intros Hs. unfold find_ip_by_hostname. destruct (find_index _ _) as [i|]; [|by vm_compute].
  destruct (hostname_ip s !! i) as [m|] eqn:E; [|by vm_compute].
  apply (Forall_lookup_1 _ _ _ _ (wf_host s Hs) E).
Qed.

Lemma ok_from_table i s s' y t : from_table i s = Ret (s', y, t) -> srv_wf s ->
  ok_step s s' /\ is_u32 y.
Proof.
  unfold from_table. intros Hrun Hs. apply bind_Ret_inv in Hrun as (l & Hl & Hrun).
  apply deref_Ret_inv in Hl.
  assert (Hy : is_u32 (l_yiaddr l)) by apply (Forall_lookup_1 _ _ _ _ (proj1 (wf_table s Hs)) Hl).
  pose proof (ok_check_ip (l_yiaddr l) s Hy) as Hc.
  destruct (check_ip (l_yiaddr l) s) as [s1 u]. cbn [fst] in Hc. case_if.
  - by injection Hrun as <- <- _.
  - apply bind_Ret_inv in Hrun as ([s2 a] & H2 & Hrun). injection Hrun as <- <- _.
    apply ok_find_ip in H2 as [H2 Ha]. split; [by etrans|done].
Qed.

Lemma u32_of_mem_range b0 b1 b2 b3 :
  is_u8 b0 -> is_u8 b1 -> is_u8 b2 -> is_u8 b3 -> is_u32 (u32_of_mem [b0; b1; b2; b3]).
Proof. apply word4_range. Qed.

Lemma rd_n_u8 t n : forall off d, Forall is_u8 t -> rd_n t off n = Ret d ->
  length d = n /\ Forall is_u8 d.
Proof.
  induction n as [|n IH]; intros off d Ht Hrun; cbn [rd_n] in Hrun.
  { by injection Hrun as <-. }
  apply bind_Ret_inv in Hrun as (b & Hb & Hrun). apply bind_Ret_inv in Hrun as (l & Hl & Hrun).
  injection Hrun as <-. apply IH in Hl as [<- Hu]; [|done]. split; [done|].
  constructor; [by apply (rd_u8 t off)|done].
Qed.

Lemma opt_u32_range m off v : msg_wf m -> opt_u32 m off = Ret v -> is_u32 v.
Proof.
  intros Hm Hrun. unfold opt_u32 in Hrun. apply bind_Ret_inv in Hrun as (b & Hb & Hrun).
  injection Hrun as <-. apply rd_n_u8 in Hb as [Hl Hu]; [|by apply tail_u8].
  destruct b as [|b0 [|b1 [|b2 [|b3 [|]]]]]; try done.
  repeat (apply Forall_cons in Hu as [? Hu]). by apply u32_of_mem_range.
Qed.

Lemma get_u32_option_range m c v : msg_wf m -> get_u32_option m c = Ret (Some v) -> is_u32 v.
Proof.
  intros Hm Hrun. unfold get_u32_option in Hrun.
  apply bind_Ret_inv in Hrun as ([p|] & _ & Hrun); [|done].
  apply bind_Ret_inv in Hrun as (w & Hw & Hrun). injection Hrun as <-. by eapply opt_u32_range.
Qed.

Lemma ok_from_request p s s' y t : msg_wf p -> from_request p s = Ret (s', y, t) ->
  ok_step s s' /\ is_u32 y.
Proof.
  unfold from_request. intros Hp Hrun. apply bind_Ret_inv in Hrun as (req & Hreq & Hrun).
  apply bind_Ret_inv in Hrun as (ok & _ & Hrun).
  assert (Hfind : forall s0, ok_step s s0 ->
    (r ← find_ip s0; Ret (r.1, r.2, None)) = Ret (s', y, t) -> ok_step s s' /\ is_u32 y).
  { intros s0 H0 E. apply bind_Ret_inv in E as ([s2 a] & H2 & E). injection E as <- <- _.
    apply ok_find_ip in H2 as [H2 Ha]. split; [by etrans|done]. }
  destruct req as [req|]; [|by eapply Hfind; [|exact Hrun]]. apply get_u32_option_range in Hreq; [|done].
  case_if; [|by eapply Hfind; [|exact Hrun]].
  pose proof (ok_check_ip req s Hreq) as Hc.
  destruct (check_ip req s) as [s1 u]. cbn [fst] in Hc. case_if; [|by eapply Hfind; [|exact Hrun]].
  by injection Hrun as <- <- _.
Qed.

Lemma ok_choose p h s s' y t : msg_wf p -> srv_wf s ->
  choose_address p h s = Ret (s', y, t) -> ok_step s s' /\ is_u32 y.
Proof.
  unfold choose_address. intros Hp Hs Hrun.
  apply bind_Ret_inv in Hrun as ([[s1 ip] i] & H1 & Hrun).
  assert (ok_step s s1 /\ is_u32 ip) as [H1' Hip].
  { clear Hrun. case_if; [by injection H1 as <- <- _|]. by eapply ok_find_share. }
  destruct (H1' Hs) as (Hs1 & _). clear H1.
  case_if; [by injection Hrun as <- <- _|]. case_if.
  { apply bind_Ret_inv in Hrun as ([s2 a] & H2 & Hrun). injection Hrun as <- <- _.
    apply ok_find_ip in H2 as [H2 Ha]. split; [by etrans|done]. }
  case_if; [injection Hrun as <- <- _; split; [done|by apply find_ip_by_mac_u32]|].
  case_if; [injection Hrun as <- <- _; split; [done|by apply find_ip_by_hostname_u32]|].
  destruct (find_lease_by_chaddr (chaddr p) s1) as [k|].
  - apply ok_from_table in Hrun as [H2 Hy]; [|done]. split; [by etrans|done].
  - apply ok_from_request in Hrun as [H2 Hy]; [|done]. split; [by etrans|done].
Qed.

(** ** sendOffer and sendACK keep the invariant *)

Lemma ok_sendOffer p s s' r : msg_wf p -> sendOffer p s = Ret (s', r) -> ok_step s s'.
Proof.
  unfold sendOffer. intros Hp Hrun Hs. revert Hs. change (ok_step s s').
  intros Hs. apply bind_Ret_inv in Hrun as (h & _ & Hrun).
  apply bind_Ret_inv in Hrun as (m & Hm & Hrun).
  apply init_packet_frame in Hm as [(_ & Hc & _) _].
  apply bind_Ret_inv in Hrun as ([[s1 y] t] & H1 & Hrun).
  apply ok_choose in H1 as [H1 Hy]; [|done|done].
  revert Hs. change (ok_step s s'). case_if; [by injection Hrun as <- _|].
  pose proof (ok_add_lease (chaddr (set_yiaddr y m)) y (c_offer_time (cfg s1)) s1) as H2.
  destruct (add_lease (chaddr (set_yiaddr y m)) y _ s1) as [s2 [k|]]; cbn [fst] in H2;
    (assert (ok_step s s2) by
       (etrans; [exact H1|]; apply H2; [change (length (chaddr m) = 16%nat); rewrite Hc; apply Hp|done]));
    [|by injection Hrun as <- _].
  apply bind_Ret_inv in Hrun as (lt & _ & Hrun). apply bind_Ret_inv in Hrun as (m1 & _ & Hrun).
  apply bind_Ret_inv in Hrun as (m2 & _ & Hrun). injection Hrun as Hrun.
  pose proof (ok_send_packet (add_bootp_options m2 s2) true s2) as H3. rewrite Hrun in H3.
  by etrans.
Qed.

Lemma ok_write_files l : forall s s' b, write_files l s = Ret (s', b) -> ok_step s s'.
Proof.
  induction l as [|[p t] l IH]; intros s s' b Hrun; cbn [write_files] in Hrun.
  { by injection Hrun as <- _. }
  case_if; [|by injection Hrun as <- _].
  apply bind_Ret_inv in Hrun as (x & _ & Hrun). apply IH in Hrun. etrans; [apply ok_emit|done].
Qed.

Lemma ok_send_info y c s s' : SendInfoToKernal y c s = Ret s' -> ok_step s s'.
Proof.
  unfold SendInfoToKernal. intros Hrun. apply bind_Ret_inv in Hrun as ([s1 b] & H1 & Hrun).
  apply ok_write_files in H1. case_if; injection Hrun as <-; [|done].
  etrans; [exact H1|apply ok_emit].
Qed.

Lemma ok_ack_share c y s s' : ack_share c y s = Ret s' -> ok_step s s'.
Proof.
  unfold ack_share. intros Hrun. case_if; [by injection Hrun as <-|].
  apply bind_Ret_inv in Hrun as ([[s1 ip] f] & H1 & Hrun).
  apply ok_find_share in H1 as [H1 _]; [|by vm_compute].
  case_if; [|by injection Hrun as <-]. apply ok_send_info in Hrun. by etrans.
Qed.

Lemma ok_ack_single y s : ok_step s (ack_single y s).
Proof. unfold ack_single. case_if; [done|]. by apply ok_step_same. Qed.

Lemma ok_sendACK p y s s' r : msg_wf p -> is_u32 y -> sendACK p y s = Ret (s', r) -> ok_step s s'.
Proof.
  unfold sendACK. intros Hp Hy Hrun. apply bind_Ret_inv in Hrun as (m & Hm & Hrun).
  apply init_packet_frame in Hm as [(_ & Hc & _) _].
  apply bind_Ret_inv in Hrun as (t & _ & Hrun).
  apply bind_Ret_inv in Hrun as (m1 & H1 & Hrun). apply msg_add_simple_frame in H1 as [o1 ->].
  apply bind_Ret_inv in Hrun as (m2 & H2 & Hrun).
  apply bind_Ret_inv in H2 as (gw & _ & H2). apply add_options_frame in H2 as [o2 ->].
  apply bind_Ret_inv in Hrun as (sid & _ & Hrun).
  match type of Hrun with context [send_packet ?p ?b s] =>
    destruct (send_packet_cases p b s) as (e & E & _); rewrite E in Hrun; clear E end.
  case_if; [injection Hrun as <- _; apply ok_emit|].
  apply bind_Ret_inv in Hrun as (s2 & H2 & Hrun). injection Hrun as <- _.
  apply ok_ack_share in H2. etrans; [apply (ok_emit e)|]. etrans; [|apply ok_ack_single].
  etrans; [|exact H2]. apply ok_add_lease; [|done]. cbn. rewrite Hc. apply Hp.
Qed.

End Replies.

(** ** Every received message keeps the invariant *)

Section Invariant.
Context `{Env}.

Lemma ok_ack p y s s' : msg_wf p -> is_u32 y -> ack p y s = Ret s' -> ok_step s s'.
Proof.
  unfold ack. intros Hp Hy Hrun. apply bind_Ret_inv in Hrun as ([s1 r] & H1 & Hrun).
  injection Hrun as <-. by eapply ok_sendACK.
Qed.

Lemma ok_nak_reply p s s' : nak p s = Ret s' -> ok_step s s'.
Proof.
  unfold nak. intros Hrun. apply bind_Ret_inv in Hrun as ([s1 r] & H1 & Hrun).
  injection Hrun as <-. by eapply ok_sendNAK.
Qed.

Lemma ok_clear_slot i s : ok_step s (clear_slot i s).
Proof.
  apply ok_upd_lease; [intros; apply zero_lease_ok|]. intros l. split; by left.
Qed.

Lemma ok_drop_nak p i s s' : drop_nak p i s = Ret s' -> ok_step s s'.
Proof.
  unfold drop_nak. intros Hrun. apply ok_nak_reply in Hrun. etrans; [apply ok_clear_slot|done].
Qed.

Lemma ok_clear_share s s' : clear_share_wanip s = Ret s' -> ok_step s s'.
Proof.
  unfold clear_share_wanip. intros Hrun. case_if; [by injection Hrun as <-|].
  destruct (file_contents _); [|by injection Hrun as <-]. case_if; [done|].
  case_if; injection Hrun as <-; [done|apply ok_emit].
Qed.

Lemma ok_request_share p req s s' b : request_share p req s = Ret (s', b) -> ok_step s s'.
Proof.
  unfold request_share. intros Hrun. case_if; [by injection Hrun as <- _|].
  apply bind_Ret_inv in Hrun as ([[s1 ip] f] & H1 & Hrun).
  apply ok_find_share in H1 as [H1 _]; [|by vm_compute].
  assert (H0 : ok_step s s1).
  { etrans; [|exact H1]. clear H1 Hrun. case_if; [done|apply ok_delete_route]. }
  case_if; [|by injection Hrun as <- _].
  apply bind_Ret_inv in Hrun as (s2 & H2 & Hrun). apply bind_Ret_inv in Hrun as (s3 & H3 & Hrun).
  injection Hrun as <- _. apply ok_nak_reply in H2. apply ok_clear_share in H3.
  etrans; [exact H0|]. etrans; [exact H2|]. etrans; [exact H3|apply ok_forget].
Qed.

Lemma ok_ack_static p h i y s s' : msg_wf p -> is_u32 y ->
  ack_static p h i y s = Ret s' -> ok_step s s'.
Proof.
  unfold ack_static. intros Hp Hy Hrun. destruct (is_in_machost_table y s) as [j k].
  case_if; [|case_if; [|by eapply ok_ack]];
    apply bind_Ret_inv in Hrun as (e & _ & Hrun);
    (case_if; [by eapply ok_ack|by eapply ok_drop_nak]).
Qed.

Lemma ok_request_known p h req sid i s s' : msg_wf p ->
  request_known p h req sid i s = Ret s' -> ok_step s s'.
Proof.
  unfold request_known. intros Hp Hrun Hs. revert Hs.
  destruct (leases s !! i) as [l|] eqn:El; [|done]. cbn [deref mbind outcome_bind] in Hrun.
  intros Hs. assert (Hy : is_u32 (l_yiaddr l)).
  { apply (Forall_lookup_1 _ _ _ _ (proj1 (wf_table s Hs)) El). }
  revert Hs. change (ok_step s s'). destruct sid as [sid|].
  - case_if; [by eapply ok_ack|by injection Hrun as <-].
  - destruct (Z.eqb_spec (l_yiaddr l) (match req with Some r => r | None => ciaddr p end)) as [E|];
      [|by eapply ok_nak_reply]. rewrite <- E in Hrun. by eapply ok_ack_static.
Qed.

Lemma ok_request_unknown p req sid s s' : request_unknown p req sid s = Ret s' -> ok_step s s'.
Proof.
  unfold request_unknown. intros Hrun. destruct sid as [sid|]; [by eapply ok_nak_reply|].
  destruct req as [r|].
  - destruct (find_lease_by_yiaddr r s) as [i|]; [|by eapply ok_nak_reply].
    apply bind_Ret_inv in Hrun as (l & _ & Hrun). case_if; [|by eapply ok_nak_reply].
    injection Hrun as <-. apply ok_upd_lease.
    + intros l0 (? & ? & ? & ?). by split_and!.
    + intros l0. split; [by left|by right].
  - case_if; [by injection Hrun as <-|by eapply ok_nak_reply].
Qed.

Lemma cstr_length d : (length (cstr d) <= length d)%nat.
Proof. induction d as [|b d IH]; simpl; [lia|]. case_if; simpl; lia. Qed.

Lemma strncpy_buf_length n d : length (strncpy_buf n d) = n.
Proof. unfold strncpy_buf. rewrite length_app, length_take, length_replicate. lia. Qed.

Lemma ok_name_slot i name s : (match name with Some d => (length d <= 63)%nat | None => True end) ->
  ok_step s (upd_lease i (name_slot name) s).
Proof.
  intros Hn. apply ok_upd_lease.
  - intros l (? & ? & ? & Hh). destruct name as [d|]; split_and!; try done; simpl.
    + rewrite length_app, strncpy_buf_length. simpl. rewrite length_drop. lia.
    + rewrite length_drop. lia.
  - intros l. split; right; by destruct name.
Qed.

Lemma request_name_length p name : request_name p = Ret name -> msg_wf p ->
  match name with Some d => (length d <= 63)%nat | None => True end.
Proof.
  unfold request_name. intros Hrun Hp. apply bind_Ret_inv in Hrun as ([q|] & _ & Hrun);
    [|by injection Hrun as <-].
  apply bind_Ret_inv in Hrun as (l & _ & Hrun). apply bind_Ret_inv in Hrun as (d & Hd & Hrun).
  injection Hrun as <-. apply rd_n_u8 in Hd as [-> _]; [|by apply tail_u8].
  destruct (Z.leb_spec 64 l); lia.
Qed.

Lemma ok_handle_request p lease s s' : msg_wf p ->
  handle_request p lease s = Ret s' -> ok_step s s'.
Proof.
  unfold handle_request. intros Hp Hrun. cbv zeta in Hrun.
  apply bind_Ret_inv in Hrun as (r0 & _ & Hrun). apply bind_Ret_inv in Hrun as (i0 & _ & Hrun).
  apply bind_Ret_inv in Hrun as (name & Hn & Hrun). apply request_name_length in Hn; [|done].
  apply bind_Ret_inv in Hrun as (req & _ & Hrun). apply bind_Ret_inv in Hrun as (sid & _ & Hrun).
  etrans; [apply (ok_nak 0)|].
  case_if; [by eapply ok_nak_reply|].
  apply bind_Ret_inv in Hrun as ([s1 fin] & H1 & Hrun). apply ok_request_share in H1.
  destruct fin; [by injection Hrun as <-|].
  apply bind_Ret_inv in Hrun as (s2 & H2 & Hrun). injection Hrun as <-.
  etrans; [exact H1|]. etrans; [|clear; case_if; [apply ok_forget|done]].
  destruct lease as [i|].
  - apply bind_Ret_inv in H2 as (s3 & H3 & H2). injection H2 as <-.
    etrans; [by eapply ok_request_known|]. by apply ok_name_slot.
  - by eapply ok_request_unknown.
Qed.

Lemma ok_handle_discover p s s' : msg_wf p -> handle_discover p s = Ret s' -> ok_step s s'.
Proof.
  unfold handle_discover. intros Hp Hrun. apply bind_Ret_inv in Hrun as (g & Hg & Hrun).
  destruct g as [s1|]; [|by injection Hrun as <-].
  assert (H1 : ok_step s s1).
  { clear Hrun. unfold discover_guard in Hg. case_if; [by injection Hg as <-|].
    destruct (find_lease_by_chaddr _ s) as [i|].
    - apply bind_Ret_inv in Hg as (l & _ & Hg). case_if; [injection Hg as <-; apply ok_forget|].
      case_if; [done|by injection Hg as <-].
    - case_if; [done|by injection Hg as <-]. }
  apply bind_Ret_inv in Hrun as ([s2 r] & H2 & Hrun). apply ok_sendOffer in H2; [|done].
  etrans; [exact H1|]. etrans; [exact H2|].
  case_if; [by injection Hrun as <-|]. case_if; injection Hrun as <-; [done|apply ok_single].
Qed.

Lemma ok_client_gone p s s' : client_gone p s = Ret s' -> ok_step s s'.
Proof.
  unfold client_gone. intros Hrun.
  assert (H0 : ok_step s (if c_single_pc_mode (cfg s) =? 0 then s else forget_single s)).
  { case_if; [done|apply ok_forget]. }
  etrans; [exact H0|]. clear H0. revert Hrun.
  generalize (if c_single_pc_mode (cfg s) =? 0 then s else forget_single s). intros s1 Hrun.
  case_if; [by injection Hrun as <-|]. apply bind_Ret_inv in Hrun as (t & _ & Hrun).
  case_if; [by injection Hrun as <-|by eapply ok_clear_share].
Qed.

Lemma ok_handle_decline p lease s s' : handle_decline p lease s = Ret s' -> ok_step s s'.
Proof.
  unfold handle_decline. intros Hrun. etrans; [|by eapply ok_client_gone].
  destruct lease as [i|]; [|done]. apply ok_upd_lease.
  - intros l (? & ? & ? & ?). split_and!; try done; apply u32_range.
  - intros l. split; [by left|by right].
Qed.

Lemma ok_handle_release p lease s s' : is_u32 (clock s) ->
  handle_release p lease s = Ret s' -> ok_step s s'.
Proof.
  unfold handle_release. intros Ht Hrun. etrans; [|by eapply ok_client_gone].
  destruct lease as [i|]; [|done]. apply ok_upd_lease.
  - intros l (? & ? & ? & ?). by split_and!.
  - intros l. split; by right.
Qed.

(** Whatever message a client sends, the server's invariant survives: no
    two slots of the lease table hold the same hardware address or the same IP
    address, all fields keep their size, the table its length and the
    configuration its content. *)
Theorem dispatch_invariant p s s' :
  msg_wf p -> is_u32 (clock s) -> srv_wf s -> dispatch p s = Ret s' ->
  srv_wf s' /\ cfg s' = cfg s /\ length (leases s') = length (leases s).
Proof.
  intros Hp Ht Hs Hrun. revert Hs. change (ok_step s s'). unfold dispatch in Hrun.
  apply bind_Ret_inv in Hrun as ([q|] & _ & Hrun); [|by injection Hrun as <-].
  apply bind_Ret_inv in Hrun as (type & _ & Hrun). cbv zeta in Hrun.
  case_if; [by eapply ok_handle_discover|]. case_if; [by eapply ok_handle_request|].
  case_if; [by eapply ok_handle_decline|]. case_if; [by eapply ok_handle_release|].
  case_if; [|by injection Hrun as <-].
  apply bind_Ret_inv in Hrun as ([s1 r] & H1 & Hrun). injection Hrun as <-.
  by eapply ok_send_inform.
Qed.

End Invariant.

(** ** The contents of a reply *)

Definition cfg_opt_ok (d : list Z) : Prop :=
  exists c v, d = enc1 (c, v) /\ opt_ok (c, v).

Lemma msg_add_string_holds d m os : opts_hold (options m) os -> cfg_opt_ok d ->
  exists m' os', msg_add_string d m = Ret m' /\ opts_hold (options m') (os ++ os').
Proof.
  intros Ho (c & v & -> & Hok). unfold msg_add_string.
  pose proof (add_option_string_appends_aux (options m) os c v Ho Hok) as Happ.
  case_decide.
  - destruct Happ as (buf & -> & Hb). eexists _, [(c, v)]. split; [done|exact Hb].
  - rewrite Happ. eexists _, []. split; [done|]. by rewrite app_nil_r.
Qed.

(** A four-byte option that is in the table and fits. *)
Lemma msg_add_simple4 code data m os :
  simple_length code = 4 -> opt_ok (code, mem_of_u32 data) ->
  opts_hold (options m) os -> Z.of_nat (length (enc os)) + 7 < 308 ->
  exists m', msg_add_simple code data m = Ret m' /\
    opts_hold (options m') (os ++ [(code, mem_of_u32 data)]).
Proof.
  intros Hc Hok Ho Hl. unfold msg_add_simple, add_simple_option. rewrite Hc. cbv zeta.
  change (4 =? 0) with false. cbv iota.
  pose proof (add_option_string_appends_aux (options m) os code (mem_of_u32 data) Ho Hok) as Happ.
  rewrite decide_True in Happ by (change (length (mem_of_u32 data)) with 4%nat; lia).
  destruct Happ as (buf & Happ & Hb).
  change (code :: 4 :: take (Z.to_nat 4) (mem_of_u32 data)) with (enc1 (code, mem_of_u32 data)).
  rewrite Happ. by eexists.
Qed.

Lemma add_options_holds share gw cs : Forall cfg_opt_ok cs -> forall m os,
  opts_hold (options m) os ->
  exists m' os', add_options share gw cs m = Ret m' /\ opts_hold (options m') (os ++ os').
Proof.
  intros Hcs. induction cs as [|d cs IH]; intros m os Ho; cbn [add_options].
  { exists m, []. by rewrite app_nil_r. }
  apply Forall_cons in Hcs as [Hd Hcs]. specialize (IH Hcs).
  assert (exists m1 os1, (if opt_code d =? DHCP_LEASE_TIME then Ret m
     else if share && (opt_code d =? DHCP_ROUTER) && (0 <? gw)
     then msg_add_string (DHCP_ROUTER :: 4 :: mem_of_u32 gw) m
     else msg_add_string d m) = Ret m1 /\ opts_hold (options m1) (os ++ os1))
    as (m1 & os1 & E1 & Ho1).
  { case_if; [exists m, []; by rewrite app_nil_r|].
    case_if; [|by apply msg_add_string_holds]. apply msg_add_string_holds; [done|].
    exists 3, (mem_of_u32 gw). split; [done|]. unfold opt_ok, DHCP_OPTION_OVER. simpl. lia. }
  rewrite E1. cbn [mbind outcome_bind]. destruct (IH m1 _ Ho1) as (m2 & os2 & E2 & Ho2).
  exists m2, (os1 ++ os2). split; [done|]. by rewrite app_assoc.
Qed.

Definition reply_opts (type srv : Z) (p : dhcpMessage) (os : list (Z * list Z)) : Prop :=
  opts_hold (options p) ((53, [type]) :: (54, mem_of_u32 srv) :: os).

Lemma init_packet_ok old type s : is_u8 type ->
  exists p, init_packet old type s = Ret p /\ reply_frame old p /\ yiaddr p = 0 /\
    op p = op_of_type type /\ reply_opts type (c_server (cfg s)) p [].
Proof.
  intros Ht. unfold init_packet.
  destruct (init_header_ok type Ht) as (h & -> & Hwf & Ho & Hop & Hht & Hhl & Hy & Hc).
  cbn [mbind outcome_bind].
  match goal with |- context [msg_add_simple _ _ ?m] => set (m0 := m) end.
  destruct (msg_add_simple4 DHCP_SERVER_ID (c_server (cfg s)) m0 [(53, [type])])
    as (m' & E & Ho'); [done| |done|done|].
  { unfold opt_ok, DHCP_OPTION_OVER, DHCP_SERVER_ID. simpl. lia. }
  rewrite E. apply msg_add_simple_frame in E as [o ->]. eexists. split; [done|].
  split_and!; try done.
Qed.

(** [sends P s s']: going from [s] to [s'], the server sent packets with [P] only. *)
Definition sends (P : dhcpMessage -> Prop) (s s' : server) : Prop :=
  exists new, trace s' = trace s ++ new /\
    forall e p, e ∈ new -> payload_of e = Some p -> P p.

#[global] Instance sends_preorder P : PreOrder (sends P).
Proof.
  split.
  - intros s. exists []. split; [by rewrite app_nil_r|]. intros e p He. by apply elem_of_nil in He.
  - intros a b c (n1 & E1 & H1) (n2 & E2 & H2). exists (n1 ++ n2).
    rewrite E2, E1, app_assoc. split; [done|]. intros e p He.
    apply elem_of_app in He as [He|He]; eauto.
Qed.

Lemma sends_same P s s' : trace s' = trace s -> sends P s s'.
Proof.
  intros E. exists []. rewrite E, app_nil_r. split; [done|]. intros e p He.
  by apply elem_of_nil in He.
Qed.

Lemma sends_one (P : dhcpMessage -> Prop) e s :
  (forall p, payload_of e = Some p -> P p) -> sends P s (emit e s).
Proof.
  intros He. exists [e]. split; [done|]. intros e' p Hin Hp.
  apply list_elem_of_singleton in Hin as ->. auto.
Qed.

Lemma sends_quiet P e s : payload_of e = None -> sends P s (emit e s).
Proof. intros He. apply sends_one. intros p. by rewrite He. Qed.

Lemma sends_mono (P Q : dhcpMessage -> Prop) s s' :
  (forall p, P p -> Q p) -> sends P s s' -> sends Q s s'.
Proof. intros HPQ (n & E & Hn). exists n. split; [done|]. eauto. Qed.

Section Contents.
Context `{Env}.

Lemma sends_delete_route P ip s : sends P s (delete_route_by ip s).
Proof. unfold delete_route_by. case_if; [done|by apply sends_quiet]. Qed.

Lemma share_loop_quiet P n : forall i hw s d r s' d' r',
  share_loop n i hw s d r = Ret (s', d', r') -> sends P s s' /\ leases s' = leases s /\
    clock s' = clock s.
Proof.
  induction n as [|n IH]; intros i hw s d r s' d' r' Hrun; cbn [share_loop] in Hrun.
  { by injection Hrun as <- <- <-. }
  apply bind_Ret_inv in Hrun as (w & _ & Hrun).
  apply bind_Ret_inv in Hrun as ([w' x] & _ & Hrun). cbn [fst] in Hrun.
  set (s1 := with_share _ _ _ s) in *.
  assert (H1 : sends P s s1) by by apply sends_same.
  destruct (same_mac (w_macaddr w') hw).
  - apply IH in Hrun as (H2 & E2 & E3). rewrite E2, E3. unfold delete_route_by in *.
    split; [|by repeat case_if]. etrans; [exact H1|]. etrans; [|exact H2].
    case_if; [apply sends_delete_route|done].
  - apply IH in Hrun as (H2 & E2 & E3). split; [by etrans|done].
Qed.

Lemma find_share_quiet P hw d s s' d' r : find_share_wan_ip hw d s = Ret (s', d', r) ->
  sends P s s' /\ leases s' = leases s /\ clock s' = clock s.
Proof.
  unfold find_share_wan_ip. intros Hrun.
  apply bind_Ret_inv in Hrun as ([s1 ti] & H1 & Hrun).
  apply bind_Ret_inv in Hrun as ([[s2 d2] r2] & H2 & Hrun).
  apply (share_loop_quiet P) in H2 as (H2 & E2 & E3).
  assert (sends P s s1 /\ leases s1 = leases s /\ clock s1 = clock s) as (Hs & E1 & E0).
  { unfold register_single in H1. clear Hrun. case_if; [by injection H1 as <- <-|].
    apply bind_Ret_inv in H1 as (w0 & _ & H1). case_if; [by injection H1 as <- <-|].
    apply bind_Ret_inv in H1 as (w & _ & H1). injection H1 as <- _. split; [|done].
    by apply sends_same. }
  destruct ti as [i|].
  - apply bind_Ret_inv in Hrun as (w & _ & Hrun). injection Hrun as <- _ _. simpl.
    split; [|split; congruence]. etrans; [exact Hs|]. etrans; [exact H2|]. by apply sends_same.
  - injection Hrun as <- _ _. split; [by etrans|split; congruence].
Qed.

Lemma share_loop_cfg n : forall i hw s d r s' d' r',
  share_loop n i hw s d r = Ret (s', d', r') -> cfg s' = cfg s.
Proof.
  induction n as [|n IH]; intros i hw s d r s' d' r' Hrun; cbn [share_loop] in Hrun.
  { by injection Hrun as <- _ _. }
  apply bind_Ret_inv in Hrun as (w & _ & Hrun).
  apply bind_Ret_inv in Hrun as ([w' x] & _ & Hrun). cbn [fst] in Hrun.
  destruct (same_mac (w_macaddr w') hw); apply IH in Hrun as ->; [|done].
  unfold delete_route_by. by repeat case_if.
Qed.

Lemma find_share_cfg hw d s s' d' r : find_share_wan_ip hw d s = Ret (s', d', r) ->
  cfg s' = cfg s.
Proof.
  unfold find_share_wan_ip. intros Hrun.
  apply bind_Ret_inv in Hrun as ([s1 ti] & H1 & Hrun).
  apply bind_Ret_inv in Hrun as ([[s2 d2] r2] & H2 & Hrun). apply share_loop_cfg in H2.
  assert (cfg s1 = cfg s) as E1.
  { clear Hrun. unfold register_single in H1. case_if; [by injection H1 as <- <-|].
    apply bind_Ret_inv in H1 as (w0 & _ & H1). case_if; [by injection H1 as <- <-|].
    apply bind_Ret_inv in H1 as (w & _ & H1). by injection H1 as <- _. }
  destruct ti as [i|].
  - apply bind_Ret_inv in Hrun as (w & _ & Hrun). injection Hrun as <- _ _. simpl. congruence.
  - injection Hrun as <- _ _. congruence.
Qed.

(** A NAK carries no address. *)
Lemma sendNAK_sends p s s' r : sendNAK p s = Ret (s', r) ->
  sends (fun q => reply_frame p q /\ yiaddr q = 0) s s' /\ leases s' = leases s.
Proof.
  unfold sendNAK. intros Hrun. apply bind_Ret_inv in Hrun as (m & Hm & Hrun).
  apply init_packet_frame in Hm as [Hf Hy].
  destruct (send_packet_cases m true (with_nak 1 s)) as (e & E & He). rewrite E in Hrun.
  injection Hrun as <- _. split; [|done]. etrans; [by apply (sends_same _ s (with_nak 1 s))|].
  apply sends_one. intros q Hq. rewrite He in Hq. by injection Hq as <-.
Qed.

Lemma write_files_quiet P l : forall s s' b, write_files l s = Ret (s', b) -> sends P s s'.
Proof.
  induction l as [|[q t] l IH]; intros s s' b Hrun; cbn [write_files] in Hrun.
  { by injection Hrun as <- _. }
  case_if; [|by injection Hrun as <- _].
  apply bind_Ret_inv in Hrun as (x & _ & Hrun). apply IH in Hrun.
  etrans; [by apply (sends_quiet P (WriteFile q x))|done].
Qed.

Lemma ack_share_quiet P c y s s' : ack_share c y s = Ret s' -> sends P s s'.
Proof.
  unfold ack_share. intros Hrun. case_if; [by injection Hrun as <-|].
  apply bind_Ret_inv in Hrun as ([[s1 ip] f] & H1 & Hrun).
  apply (find_share_quiet P) in H1 as (H1 & _).
  case_if; [|by injection Hrun as <-]. etrans; [exact H1|]. unfold SendInfoToKernal in Hrun.
  apply bind_Ret_inv in Hrun as ([s2 b] & H2 & Hrun). apply (write_files_quiet P) in H2.
  case_if; injection Hrun as <-; [|done]. etrans; [exact H2|by apply sends_quiet].
Qed.

Lemma ack_single_quiet P y s : sends P s (ack_single y s).
Proof.
  unfold ack_single. case_if; [done|].
  etrans; [|by apply sends_quiet]. etrans; [|by apply sends_same].
  do 3 (etrans; [|by apply sends_quiet]). done.
Qed.

(** The one packet of an ACK. *)
Lemma sendACK_sends p y s s' r : sendACK p y s = Ret (s', r) ->
  sends (fun q => reply_frame p q /\ yiaddr q = y) s s'.
Proof.
  unfold sendACK. intros Hrun. apply bind_Ret_inv in Hrun as (m & Hm & Hrun).
  apply init_packet_frame in Hm as [Hf _].
  apply bind_Ret_inv in Hrun as (t & _ & Hrun).
  apply bind_Ret_inv in Hrun as (m1 & H1 & Hrun). apply msg_add_simple_frame in H1 as [o1 ->].
  apply bind_Ret_inv in Hrun as (m2 & H2 & Hrun).
  apply bind_Ret_inv in H2 as (gw & _ & H2). apply add_options_frame in H2 as [o2 ->].
  apply bind_Ret_inv in Hrun as (sid & _ & Hrun).
  match type of Hrun with context [send_packet ?q ?b s] =>
    destruct (send_packet_cases q b s) as (e & E & He); rewrite E in Hrun; clear E end.
  assert (Hone : sends (fun q => reply_frame p q /\ yiaddr q = y) s (emit e s)).
  { apply sends_one. intros q Hq. rewrite He in Hq. by injection Hq as <-. }
  case_if; [by injection Hrun as <- _|].
  apply bind_Ret_inv in Hrun as (s2 & H2 & Hrun). injection Hrun as <- _.
  etrans; [exact Hone|]. etrans; [|apply ack_single_quiet].
  etrans; [|by eapply ack_share_quiet]. apply sends_same.
  by destruct (add_lease_same (chaddr (add_bootp_options (set_options o2 (set_options o1
    (set_yiaddr y m))) s)) y t (emit e s)) as (_ & _ & _ & _ & _ & _ & _ & _ & _ & _ & _ & ->).
Qed.

(** ** REQUEST *)

Definition own_address (p : dhcpMessage) (s : server) (q : dhcpMessage) : Prop :=
  reply_frame p q /\
  (yiaddr q = 0 \/ exists i l, find_lease_by_chaddr (chaddr p) s = Some i /\
     leases s !! i = Some l /\ l_chaddr l = chaddr p /\ yiaddr q = l_yiaddr l).

Lemma nak_sends P p s s' : (forall q, reply_frame p q -> yiaddr q = 0 -> P q) ->
  nak p s = Ret s' -> sends P s s' /\ leases s' = leases s.
Proof.
  intros HP Hrun. unfold nak in Hrun. apply bind_Ret_inv in Hrun as ([s1 r] & H1 & Hrun).
  injection Hrun as <-. apply sendNAK_sends in H1 as [H1 E]. split; [|done].
  eapply sends_mono; [|exact H1]. intros q [Hf Hy]. by apply HP.
Qed.

Lemma ack_sends P p y s s' : (forall q, reply_frame p q -> yiaddr q = y -> P q) ->
  ack p y s = Ret s' -> sends P s s'.
Proof.
  intros HP Hrun. unfold ack in Hrun. apply bind_Ret_inv in Hrun as ([s1 r] & H1 & Hrun).
  injection Hrun as <-. apply sendACK_sends in H1.
  eapply sends_mono; [|exact H1]. intros q [Hf Hy]. by apply HP.
Qed.

Lemma drop_nak_sends P p i s s' : (forall q, reply_frame p q -> yiaddr q = 0 -> P q) ->
  drop_nak p i s = Ret s' -> sends P s s'.
Proof.
  intros HP Hrun. unfold drop_nak in Hrun. apply (nak_sends P) in Hrun as [H1 _]; [|done].
  etrans; [by apply (sends_same P s (clear_slot i s))|done].
Qed.

Lemma request_known_sends P p h req sid i l s s' :
  leases s !! i = Some l ->
  (forall q, reply_frame p q -> yiaddr q = 0 \/ yiaddr q = l_yiaddr l -> P q) ->
  request_known p h req sid i s = Ret s' -> sends P s s'.
Proof.
  intros Hl HP Hrun. unfold request_known in Hrun. rewrite Hl in Hrun.
  cbn [deref mbind outcome_bind] in Hrun.
  assert (Ha : forall s1, ack p (l_yiaddr l) s = Ret s1 -> sends P s s1).
  { intros s1. apply ack_sends. auto. }
  destruct sid as [sid|]; [case_if; [by apply Ha|by injection Hrun as <-]|].
  destruct (Z.eqb_spec (l_yiaddr l) (match req with Some r => r | None => ciaddr p end)) as [E|].
  2:{ apply (nak_sends P) in Hrun as [Hrun _]; [done|]. auto. }
  rewrite <- E in Hrun. unfold ack_static in Hrun.
  destruct (is_in_machost_table (l_yiaddr l) s) as [j k].
  case_if; [|case_if; [|by apply Ha]];
    apply bind_Ret_inv in Hrun as (x & _ & Hrun);
    (case_if; [by apply Ha|eapply drop_nak_sends; [|exact Hrun]; auto]).
Qed.

Lemma request_unknown_sends P p req sid s s' :
  (forall q, reply_frame p q -> yiaddr q = 0 -> P q) ->
  request_unknown p req sid s = Ret s' -> sends P s s'.
Proof.
  intros HP Hrun. assert (Hn : forall s1, nak p s = Ret s1 -> sends P s s1).
  { intros s1 E. by apply (nak_sends P) in E as [E _]. }
  unfold request_unknown in Hrun. destruct sid; [by apply Hn|]. destruct req as [r|].
  - destruct (find_lease_by_yiaddr r s) as [i|]; [|by apply Hn].
    apply bind_Ret_inv in Hrun as (l & _ & Hrun). case_if; [|by apply Hn].
    injection Hrun as <-. by apply sends_same.
  - case_if; [by injection Hrun as <-|by apply Hn].
Qed.

Lemma request_share_sends P p req s s' b :
  (forall q, reply_frame p q -> yiaddr q = 0 -> P q) ->
  request_share p req s = Ret (s', b) ->
  sends P s s' /\ (b = false -> leases s' = leases s).
Proof.
  intros HP Hrun. unfold request_share in Hrun. case_if; [by injection Hrun as <- <-|].
  cbv zeta in Hrun. apply bind_Ret_inv in Hrun as ([[s1 ip] f] & H1 & Hrun).
  apply (find_share_quiet P) in H1 as (H1 & E1 & _).
  match type of H1 with sends P ?x s1 => assert (H0 : sends P s x /\ leases x = leases s) end.
  { clear. case_if; [done|]. split; [apply sends_delete_route|].
    unfold delete_route_by. by case_if. }
  destruct H0 as [H0 E0].
  match type of H1 with sends P ?x s1 => revert H0 E0 H1 E1; generalize x end.
  intros sx H0 E0 H1 E1.
  case_if; [|injection Hrun as <- <-; split; [by etrans|intros _; congruence]].
  apply bind_Ret_inv in Hrun as (s2 & H2 & Hrun). apply bind_Ret_inv in Hrun as (s3 & H3 & Hrun).
  injection Hrun as <- <-. apply (nak_sends P) in H2 as [H2 _]; [|done]. split; [|done].
  etrans; [exact H0|]. etrans; [exact H1|]. etrans; [exact H2|].
  etrans; [|by apply (sends_same P s3)]. clear -H3. unfold clear_share_wanip in H3.
  case_if; [by injection H3 as <-|]. destruct (file_contents _); [|by injection H3 as <-].
  case_if; [done|]. case_if; injection H3 as <-; [done|by apply sends_quiet].
Qed.

(** C9. In answer to a REQUEST the server assigns no address but the one its
    table holds for that very client: every packet it sends carries the
    client's transaction id and hardware address and either no address (a NAK)
    or the address of the slot found by the client's hardware address. *)
Theorem request_own_address p s s' :
  handle_request p (find_lease_by_chaddr (chaddr p) s) s = Ret s' ->
  sends (own_address p s) s s'.
Proof.
  intros Hrun. unfold handle_request in Hrun. cbv zeta in Hrun.
  assert (HP0 : forall q, reply_frame p q -> yiaddr q = 0 -> own_address p s q).
  { intros q Hf Hy. split; [done|by left]. }
  apply bind_Ret_inv in Hrun as (r0 & _ & Hrun). apply bind_Ret_inv in Hrun as (i0 & _ & Hrun).
  apply bind_Ret_inv in Hrun as (name & _ & Hrun).
  apply bind_Ret_inv in Hrun as (req & _ & Hrun). apply bind_Ret_inv in Hrun as (sid & _ & Hrun).
  etrans; [by apply (sends_same _ s (with_nak 0 s))|].
  case_if; [by apply (nak_sends (own_address p s)) in Hrun as [Hrun _]|].
  apply bind_Ret_inv in Hrun as ([s1 fin] & H1 & Hrun).
  apply (request_share_sends (own_address p s)) in H1 as [H1 E1]; [|done].
  etrans; [exact H1|]. destruct fin; [by injection Hrun as <-|].
  apply bind_Ret_inv in Hrun as (s2 & H2 & Hrun). injection Hrun as <-.
  etrans; [|apply (sends_same _ s2); by case_if]. specialize (E1 eq_refl).
  destruct (find_lease_by_chaddr (chaddr p) s) as [i|] eqn:Ei.
  - apply bind_Ret_inv in H2 as (s3 & H3 & H2). injection H2 as <-.
    etrans; [|by apply (sends_same _ s3)]. pose proof (find_by_chaddr_Some _ _ _ Ei) as (l & Hl & Hc).
    eapply request_known_sends; [by rewrite E1| |exact H3].
    intros q Hf [Hy|Hy]; [by apply HP0|]. split; [done|]. right. by exists i, l.
  - by eapply request_unknown_sends.
Qed.

End Contents.

(** ** DISCOVER *)

Section Offer.
Context `{Env}.

Lemma same_sends P s s' : same_but_table s s' -> sends P s s'.
Proof. intros (_&_&_&_&_&_&_&_&_&_&_& E). by apply sends_same. Qed.

Lemma find_address_loop_same b fuel : forall addr ret s s' a,
  find_address_loop fuel b addr ret s = Ret (s', a) -> same_but_table s s'.
Proof.
  induction fuel as [|fuel IH]; intros addr ret s s' a Hrun; [done|].
  cbn [find_address_loop] in Hrun.
  case_if; [by injection Hrun as <- <-|]. do 4 (case_if; [by eapply IH|]).
  apply bind_Ret_inv in Hrun as ([] & _ & Hrun); [|by eapply IH].
  pose proof (check_ip_same (htonl addr) s) as Hc.
  destruct (check_ip (htonl addr) s) as [s1 u]. cbn [fst] in Hc. case_if.
  - by injection Hrun as <- <-.
  - etrans; [exact Hc|]. by eapply IH.
Qed.

Lemma find_ip_same s s' a : find_ip s = Ret (s', a) -> same_but_table s s'.
Proof.
  unfold find_ip, find_address. intros Hrun. apply bind_Ret_inv in Hrun as ([s1 a1] & H1 & Hrun).
  apply find_address_loop_same in H1. cbn [fst snd] in Hrun. case_if.
  - etrans; [exact H1|]. by eapply find_address_loop_same.
  - by injection Hrun as <- <-.
Qed.

Lemma from_table_same i s s' y t : from_table i s = Ret (s', y, t) -> same_but_table s s'.
Proof.
  unfold from_table. intros Hrun. apply bind_Ret_inv in Hrun as (l & _ & Hrun).
  pose proof (check_ip_same (l_yiaddr l) s) as Hc.
  destruct (check_ip (l_yiaddr l) s) as [s1 u]. cbn [fst] in Hc. case_if.
  - by injection Hrun as <- _ _.
  - apply bind_Ret_inv in Hrun as ([s2 a] & H2 & Hrun). injection Hrun as <- _ _.
    etrans; [exact Hc|]. by eapply find_ip_same.
Qed.

Lemma from_request_same p s s' y t : from_request p s = Ret (s', y, t) -> same_but_table s s'.
Proof.
  unfold from_request. intros Hrun. apply bind_Ret_inv in Hrun as (req & _ & Hrun).
  apply bind_Ret_inv in Hrun as (ok & _ & Hrun).
  assert (Hfind : forall s0, same_but_table s s0 ->
    (r ← find_ip s0; Ret (r.1, r.2, None)) = Ret (s', y, t) -> same_but_table s s').
  { intros s0 H0 E. apply bind_Ret_inv in E as ([s2 a] & H2 & E). injection E as <- _ _.
    etrans; [exact H0|]. by eapply find_ip_same. }
  destruct req as [req|]; [|by eapply Hfind; [|exact Hrun]].
  case_if; [|by eapply Hfind; [|exact Hrun]].
  pose proof (check_ip_same req s) as Hc.
  destruct (check_ip req s) as [s1 u]. cbn [fst] in Hc. case_if; [|by eapply Hfind; [|exact Hrun]].
  by injection Hrun as <- _ _.
Qed.

Lemma choose_quiet P p h s s' y t : choose_address p h s = Ret (s', y, t) ->
  sends P s s' /\ cfg s' = cfg s.
Proof.
  unfold choose_address. intros Hrun. apply bind_Ret_inv in Hrun as ([[s1 ip] i] & H1 & Hrun).
  assert (sends P s s1 /\ cfg s1 = cfg s) as [Hs1 E1].
  { clear Hrun. case_if; [by injection H1 as <- _ _|]. split; [by eapply find_share_quiet|].
    by eapply find_share_cfg. }
  clear H1. assert (Hsame : same_but_table s1 s' -> sends P s s' /\ cfg s' = cfg s).
  { intros Hb. split; [etrans; [exact Hs1|by apply same_sends]|]. destruct Hb as [-> _]. done. }
  case_if; [injection Hrun as <- _ _; by apply Hsame|]. case_if.
  { apply bind_Ret_inv in Hrun as ([s2 a] & H2 & Hrun). injection Hrun as <- _ _.
    by apply Hsame, (find_ip_same _ _ a). }
  case_if; [injection Hrun as <- _ _; by apply Hsame|].
  case_if; [injection Hrun as <- _ _; by apply Hsame|].
  destruct (find_lease_by_chaddr (chaddr p) s1) as [k|]; apply Hsame.
  - by eapply from_table_same.
  - by eapply from_request_same.
Qed.

(** The OFFER of [y] for [t] seconds. *)
Definition offer_packet (old : dhcpMessage) (s : server) (y t : Z) (q : dhcpMessage) : Prop :=
  reply_frame old q /\ op q = BOOTREPLY /\ yiaddr q = y /\ y <> 0 /\
  exists os, reply_opts DHCPOFFER (c_server (cfg s)) q ((51, mem_of_u32 (htonl t)) :: os).

Lemma add_lease_slot c y e s i : (add_lease c y e s).2 = Some i ->
  exists h, leases (add_lease c y e s).1 !! i = Some (Lease c y (u32 (clock s + e)) h).
Proof.
  intros Hi. pose proof (add_lease_cases c y e s) as Hc.
  destruct (add_lease c y e s) as [s' o]; simpl in *; subst o.
  destruct Hc as (old & -> & Ho & _). exists (l_hostname old).
  apply list_lookup_insert_eq. rewrite length_fmap. rewrite <- list_lookup_fmap in Ho.
  apply lookup_lt_Some in Ho. by rewrite length_fmap in Ho.
Qed.

(** The packet sendOffer builds once the address is chosen. *)
Lemma offer_built old m s2 y t m1 m2 :
  Forall cfg_opt_ok (c_options (cfg s2)) -> y <> 0 ->
  init_packet old DHCPOFFER s2 = Ret m ->
  msg_add_simple DHCP_LEASE_TIME (htonl t) (set_yiaddr y m) = Ret m1 ->
  add_configured old m1 s2 = Ret m2 ->
  offer_packet old s2 y t (add_bootp_options m2 s2).
Proof.
  intros Hcfg Hy Hm H1 H2.
  destruct (init_packet_ok old DHCPOFFER s2) as (m' & E & Hf & _ & Hop & Ho); [by vm_compute|].
  rewrite E in Hm. injection Hm as ->.
  destruct (msg_add_simple4 DHCP_LEASE_TIME (htonl t) (set_yiaddr y m)
              [(53, [DHCPOFFER]); (54, mem_of_u32 (c_server (cfg s2)))]) as (m1' & E1 & Ho1);
    [done|unfold opt_ok, DHCP_OPTION_OVER, DHCP_LEASE_TIME; simpl; lia|exact Ho|done|].
  rewrite E1 in H1. injection H1 as ->. apply msg_add_simple_frame in E1 as [o1 ->].
  unfold add_configured in H2. apply bind_Ret_inv in H2 as (gw & _ & H2).
  destruct (add_options_holds (negb (c_share_wanip_flag (cfg s2) =? 0)) gw _ Hcfg _ _ Ho1)
    as (m2' & os & E2 & Ho2).
  cbv zeta in H2. rewrite E2 in H2. injection H2 as ->. apply add_options_frame in E2 as [o2 ->].
  split_and!; try done. by exists os.
Qed.

Lemma sends_none s s' : sends (fun _ => False) s s' ->
  exists pre, trace s' = trace s ++ pre /\ forall e, e ∈ pre -> payload_of e = None.
Proof.
  intros (pre & E & Hn). exists pre. split; [done|]. intros e He.
  destruct (payload_of e) as [q|] eqn:Eq; [|done]. by destruct (Hn e q He Eq).
Qed.

Definition no_static (old : dhcpMessage) (hn : list Z) (s : server) : Prop :=
  find_ip_by_mac (chaddr old) s = 0 /\ find_ip_by_hostname hn s = 0.

(** Where an address comes from when no host shares the WAN address: the static
    tables come first (the hardware address before the host name), then the lease
    the table holds for the client when nobody answers the probe of it, then the
    address it asks for when it is in the range, not leased and not in use, and
    last a search of the range. *)
Inductive source (old : dhcpMessage) (hn : list Z) (s s1 : server) : Z -> option Z -> Prop :=
  | by_mac y : y = find_ip_by_mac (chaddr old) s -> y <> 0 -> s1 = s -> source old hn s s1 y None
  | by_name y : find_ip_by_mac (chaddr old) s = 0 -> y = find_ip_by_hostname hn s -> y <> 0 -> s1 = s ->
      source old hn s s1 y None
  | own_lease i l tm : no_static old hn s -> find_lease_by_chaddr (chaddr old) s = Some i ->
      leases s !! i = Some l -> l_chaddr l = chaddr old -> check_ip (l_yiaddr l) s = (s1, 0) ->
      tm = (if lease_expired l (clock s1) then None else Some (u32 (l_expires l - clock s1))) ->
      source old hn s s1 (l_yiaddr l) tm
  | wished y : no_static old hn s -> find_lease_by_chaddr (chaddr old) s = None ->
      get_u32_option old DHCP_REQUESTED_IP = Ret (Some y) -> y <> c_server (cfg s) ->
      ntohl (c_start (cfg s)) <= ntohl y <= ntohl (c_end (cfg s)) ->
      (forall i l, find_lease_by_yiaddr y s = Some i -> leases s !! i = Some l ->
         lease_expired l (clock s) = true) ->
      check_ip y s = (s1, 0) -> source old hn s s1 y None
  | searched s0 y : no_static old hn s -> same_but_table s s0 -> find_ip s0 = Ret (s1, y) ->
      source old hn s s1 y None.

Lemma choose_address_source old hn s s1 y tm :
  c_share_wanip_flag (cfg s) = 0 -> choose_address old hn s = Ret (s1, y, tm) ->
  source old hn s s1 y tm.
Proof.
  intros Hf Hrun. unfold choose_address in Hrun. rewrite Hf in Hrun. cbn [Z.eqb] in Hrun.
  cbn [mbind outcome_bind] in Hrun. change (0 <? -1) with false in Hrun. change (-1 =? 0) with false in Hrun.
  cbv zeta iota in Hrun.
  destruct (Z.eqb_spec (find_ip_by_mac (chaddr old) s) 0) as [Hm|Hm]; cbn [negb] in Hrun;
    [|injection Hrun as <- <- <-; by constructor].
  destruct (Z.eqb_spec (find_ip_by_hostname hn s) 0) as [Hn|Hn]; cbn [negb] in Hrun;
    [|injection Hrun as <- <- <-; by apply by_name].
  assert (Hno : no_static old hn s) by done.
  assert (Hfind : forall s0, same_but_table s s0 ->
    (r ← find_ip s0; Ret (r.1, r.2, None)) = Ret (s1, y, tm) -> source old hn s s1 y tm).
  { intros s0 H0 E. apply bind_Ret_inv in E as ([s2 a] & H2 & E). injection E as <- <- <-.
    by eapply searched. }
  destruct (find_lease_by_chaddr (chaddr old) s) as [i|] eqn:Hi.
  - unfold from_table in Hrun. apply bind_Ret_inv in Hrun as (l & Hl & Hrun).
    pose proof (find_by_chaddr_Some _ _ _ Hi) as (l' & Hl' & Hc).
    rewrite Hl' in Hl. injection Hl as ->.
    pose proof (check_ip_same (l_yiaddr l) s) as Hc1.
    destruct (check_ip (l_yiaddr l) s) as [s2 u] eqn:Eu. cbn [fst] in Hc1.
    destruct (Z.eqb_spec u 0) as [->|]; [|by eapply Hfind].
    injection Hrun as <- <- <-. by eapply own_lease.
  - unfold from_request in Hrun. apply bind_Ret_inv in Hrun as (req & Hr & Hrun).
    apply bind_Ret_inv in Hrun as (ok & Hok & Hrun).
    destruct req as [req|]; [|by eapply Hfind].
    destruct ok, (Z.eqb_spec req (c_server (cfg s))) as [|Hreq]; cbn [andb negb] in Hrun; try (by eapply Hfind).
    pose proof (check_ip_same req s) as Hc1.
    destruct (check_ip req s) as [s2 u] eqn:Eu. cbn [fst] in Hc1.
    destruct (Z.eqb_spec u 0) as [->|]; [|by eapply Hfind].
    injection Hrun as <- <- <-. unfold requestable in Hok.
    destruct (Z.leb_spec (ntohl (c_start (cfg s))) (ntohl req)),
      (Z.leb_spec (ntohl req) (ntohl (c_end (cfg s)))); try done. cbn [andb negb] in Hok.
    eapply wished; try done. intros j l Hj Hl. rewrite Hj in Hok. rewrite Hl in Hok.
    by injection Hok.
Qed.

(** The lease time of the OFFER when no host shares the WAN address: the client's
    wish up to the configured time, else what is left of its own lease, else the
    configured time; the configured time instead of one below the minimum. *)
Definition offered_time (old : dhcpMessage) (s : server) (tm : option Z) (t : Z) : Prop :=
  exists wish, get_u32_option old DHCP_LEASE_TIME = Ret wish /\
  let wanted := match wish with
                | Some w => Z.min (c_lease (cfg s)) (ntohl w)
                | None => default (c_lease (cfg s)) tm
                end in
  t = if wanted <? c_min_lease (cfg s) then c_lease (cfg s) else wanted.

Lemma offer_time_spec old tm s t :
  c_share_wanip_flag (cfg s) = 0 -> offer_time old tm s = Ret t -> offered_time old s tm t.
Proof.
  intros Hf Hrun. unfold offer_time, check_is_share_wanip_mac in Hrun. rewrite Hf in Hrun.
  cbv zeta in Hrun. apply bind_Ret_inv in Hrun as (w & Hw & Hrun).
  cbn [Z.eqb mbind outcome_bind] in Hrun. injection Hrun as <-. exists w. split; [done|].
  destruct w as [w|]; [|done]. cbv zeta.
  destruct (Z.ltb_spec (c_lease (cfg s)) (ntohl w)); [by rewrite Z.min_l by lia|by rewrite Z.min_r by lia].
Qed.

Lemma add_lease_full c y e s : (add_lease c y e s).2 = None ->
  forall l, l ∈ leases (add_lease c y e s).1 -> lease_expired l (clock s) = false.
Proof.
  intros Hi. pose proof (add_lease_cases c y e s) as Hc.
  destruct (add_lease c y e s) as [s' o]; simpl in *; subst o. apply Hc.
Qed.

(** ** sendOffer returns *)

Lemma rd_n_prefix buf off k : forall n l, rd_n buf off n = Ret l -> (k <= n)%nat -> rd_n buf off k = Ret (take k l).
Proof.
  revert off. induction k as [|k IH]; intros off n l Hn Hk; [done|].
  destruct n as [|n]; [lia|]. cbn [rd_n] in *. apply bind_Ret_inv in Hn as (x & Hx & Hn).
  apply bind_Ret_inv in Hn as (l' & Hl & Hn). injection Hn as <-. rewrite Hx. cbn [mbind outcome_bind].
  rewrite (IH _ n l' Hl) by lia. done.
Qed.

(** A DISCOVER the server can read: its options are a list, the host name has at
    most 127 bytes ([long_hostname_faults]), an address and a time four bytes. *)
Definition readable_discover (old : dhcpMessage) : Prop :=
  msg_wf old /\ exists os, opts_hold (options old) os /\
    (forall d, lookup_opt DHCP_HOST_NAME os = Some d -> (length d <= 127)%nat) /\
    (forall d, lookup_opt DHCP_REQUESTED_IP os = Some d -> length d = 4%nat) /\
    (forall d, lookup_opt DHCP_LEASE_TIME os = Some d -> length d = 4%nat).

Lemma readable_u32 old os code : msg_wf old -> opts_hold (options old) os -> 0 < code < 255 ->
  (forall d, lookup_opt code os = Some d -> length d = 4%nat) -> exists w, get_u32_option old code = Ret w.
Proof.
  intros Hwf Ho Hc Hd. pose proof (get_option_finds_aux old os code Hwf Ho Hc) as Hg. unfold get_u32_option, opt_u32.
  destruct (lookup_opt code os) as [d|]; [|rewrite Hg; cbn [mbind outcome_bind]; eauto].
  destruct Hg as (p & -> & _ & Hr). rewrite (Hd d eq_refl) in Hr. cbn [mbind outcome_bind].
  rewrite Hr. cbn [mbind outcome_bind]. eauto.
Qed.

Lemma readable_hostname old : readable_discover old -> exists hn, offer_hostname old = Ret hn.
Proof.
  intros (Hwf & os & Ho & Hh & _). unfold offer_hostname.
  pose proof (get_option_finds_aux old os DHCP_HOST_NAME Hwf Ho ltac:(by vm_compute)) as Hg.
  destruct (lookup_opt DHCP_HOST_NAME os) as [d|] eqn:Ed; [|rewrite Hg; cbn [mbind outcome_bind]; eauto].
  destruct Hg as (p & -> & Hl & Hr). cbn [mbind outcome_bind]. rewrite Hl. cbn [mbind outcome_bind]. cbv zeta.
  specialize (Hh d eq_refl). assert (s8 (Z.of_nat (length d)) = Z.of_nat (length d)) as ->
    by (unfold s8; rewrite Z.mod_small by lia; lia).
  set (n := if 64 <=? _ then 63 else _). assert (0 <= n <= Z.of_nat (length d)) as Hn
    by (unfold n; destruct (Z.leb_spec 64 (Z.of_nat (length d))); lia).
  rewrite (proj2 (Z.ltb_ge n 0)) by lia. rewrite (rd_n_prefix _ _ (Z.to_nat n) _ _ Hr) by lia.
  cbn [mbind outcome_bind]. eauto.
Qed.

Lemma find_ip_returns s : ntohl (c_end (cfg s)) < 2 ^ 32 - 1 -> exists r, find_ip s = Ret r.
Proof.
  intros Hend. unfold find_ip. destruct (find_address_terminates false s Hend) as (s1 & a1 & E1). rewrite E1.
  cbn [mbind outcome_bind fst snd]. destruct (a1 =? 0); [|eauto].
  apply find_address_loop_same in E1 as [Ec _]. rewrite <- Ec in Hend.
  destruct (find_address_terminates true s1 Hend) as (s2 & a2 & ->). eauto.
Qed.

Lemma choose_address_returns old hn s : readable_discover old -> c_share_wanip_flag (cfg s) = 0 ->
  ntohl (c_end (cfg s)) < 2 ^ 32 - 1 -> exists r, choose_address old hn s = Ret r.
Proof.
  intros (Hwf & os & Ho & _ & Hip & _) Hf Hend. unfold choose_address. rewrite Hf. cbn [Z.eqb mbind outcome_bind].
  change (0 <? -1) with false. change (-1 =? 0) with false. cbv zeta iota.
  destruct (negb _); [eauto|]. destruct (negb _); [eauto|].
  assert (forall s0, same_but_table s s0 -> exists r, (r ← find_ip s0; Ret (r.1, r.2, @None Z)) = Ret r) as Hfind.
  { intros s0 [Ec _]. destruct (find_ip_returns s0) as [r ->]; [by rewrite Ec|]. cbn [mbind outcome_bind]. eauto. }
  destruct (find_lease_by_chaddr (chaddr old) s) as [i|] eqn:Ei.
  - apply find_by_chaddr_Some in Ei as (l & Hl & _). unfold from_table. rewrite Hl. cbn [deref mbind outcome_bind].
    pose proof (check_ip_same (l_yiaddr l) s) as Hc. destruct (check_ip (l_yiaddr l) s) as [s1 u]. cbn [fst] in Hc.
    destruct (u =? 0); [eauto|by apply Hfind].
  - unfold from_request. destruct (readable_u32 old os DHCP_REQUESTED_IP Hwf Ho ltac:(by vm_compute) Hip) as [w ->].
    cbn [mbind outcome_bind]. destruct w as [req|]; cbn [mbind outcome_bind]; [|by apply Hfind].
    assert (exists b, requestable req s = Ret b) as [b ->].
    { unfold requestable. destruct (negb _); [eauto|]. destruct (find_lease_by_yiaddr req s) as [i|] eqn:Ey; [|eauto].
      apply find_by_yiaddr_Some in Ey as (l & -> & _). cbn [deref mbind outcome_bind]. eauto. }
    cbn [mbind outcome_bind]. destruct (b && _); [|by apply Hfind].
    pose proof (check_ip_same req s) as Hc. destruct (check_ip req s) as [s1 u]. cbn [fst] in Hc.
    destruct (u =? 0); [eauto|by apply Hfind].
Qed.

Lemma bind_returns {A B} (m : outcome A) (f : A -> outcome B) :
  (exists a, m = Ret a) -> (forall a, m = Ret a -> exists b, f a = Ret b) -> exists b, m ≫= f = Ret b.
Proof. intros [a E] Hf. destruct (Hf a E) as [b Hb]. exists b. by rewrite E. Qed.

Lemma offer_time_returns old tm s : readable_discover old -> c_share_wanip_flag (cfg s) = 0 ->
  exists t, offer_time old tm s = Ret t.
Proof.
  intros (Hwf & os & Ho & _ & _ & Ht) Hf. unfold offer_time. apply bind_returns.
  { by apply (readable_u32 old os). }
  intros w _. unfold check_is_share_wanip_mac. rewrite Hf. cbn [Z.eqb mbind outcome_bind]. eauto.
Qed.

(** The options of the OFFER fit. *)
Lemma offer_options_return old s m t y : Forall cfg_opt_ok (c_options (cfg s)) -> c_share_wanip_flag (cfg s) = 0 ->
  reply_opts DHCPOFFER (c_server (cfg s)) m [] ->
  exists m1, msg_add_simple DHCP_LEASE_TIME (htonl t) (set_yiaddr y m) = Ret m1 /\
  exists m2, add_configured old m1 s = Ret m2.
Proof.
  intros Hcfg Hf Ho.
  destruct (msg_add_simple4 DHCP_LEASE_TIME (htonl t) (set_yiaddr y m)
              [(53, [DHCPOFFER]); (54, mem_of_u32 (c_server (cfg s)))]) as (m1 & E1 & Ho1);
    [done|unfold opt_ok, DHCP_OPTION_OVER, DHCP_LEASE_TIME; simpl; lia|exact Ho|done|].
  exists m1. split; [exact E1|]. unfold add_configured. cbv zeta. apply bind_returns.
  { unfold get_share_wanip_gw. rewrite Hf. cbn [Z.eqb]. eauto. }
  intros gw _. destruct (add_options_holds (negb (c_share_wanip_flag (cfg s) =? 0)) gw _ Hcfg _ _ Ho1) as (m2 & os2 & E2 & _).
  eauto.
Qed.

Lemma sendOffer_returns old s : Forall cfg_opt_ok (c_options (cfg s)) -> readable_discover old ->
  c_share_wanip_flag (cfg s) = 0 -> ntohl (c_end (cfg s)) < 2 ^ 32 - 1 -> exists r, sendOffer old s = Ret r.
Proof.
  intros Hcfg Hd Hf Hend. unfold sendOffer. apply bind_returns; [by apply readable_hostname|]. intros hn _.
  destruct (init_packet_ok old DHCPOFFER s) as (m & Em & _ & _ & _ & Ho); [by vm_compute|].
  apply bind_returns; [by exists m|]. intros m' Em'. rewrite Em in Em'. injection Em' as <-.
  apply bind_returns; [by apply choose_address_returns|]. intros [[s1 y] tm] Ec.
  apply (choose_quiet (fun _ => False)) in Ec as [_ E1].
  destruct (y =? 0); [eauto|]. cbv zeta.
  pose proof (add_lease_same (chaddr (set_yiaddr y m)) y (c_offer_time (cfg s1)) s1) as [E2 _].
  destruct (add_lease _ _ _ s1) as [s2 [i|]]; [|eauto]. cbn [fst] in E2.
  assert (cfg s2 = cfg s) as E by congruence. rewrite <- E in Hcfg, Hf, Ho.
  apply bind_returns; [by apply offer_time_returns|]. intros t _.
  destruct (offer_options_return old s2 m t y Hcfg Hf Ho) as (m1 & H1 & m2 & H2).
  apply bind_returns; [by exists m1|]. intros m1' H1'. rewrite H1 in H1'. injection H1' as <-.
  apply bind_returns; [by exists m2|]. intros m2' _. eauto.
Qed.


(** A DISCOVER whose host name option is longer than 127 bytes takes the
    server down: the length is read through a signed [char], the count passed
    to memcpy is negative, and the copy runs off the stack. *)
Theorem long_hostname_faults old s os d :
  msg_wf old -> opts_hold (options old) os -> lookup_opt DHCP_HOST_NAME os = Some d ->
  (128 <= length d)%nat -> sendOffer old s = Fault.
Proof.
  intros Hwf Ho Hd Hl.
  pose proof (get_option_finds_aux old os DHCP_HOST_NAME Hwf Ho) as Hg. rewrite Hd in Hg.
  destruct Hg as (p & Hg & Hlen & _); [by vm_compute|].
  assert (Hd' : (length d <= 255)%nat).
  { destruct Ho as (_ & Hok & _). clear -Hok Hd. induction os as [|[c v] os IH]; [done|].
    apply Forall_cons in Hok as [(_ & _ & Hv) Hok]. simpl in Hd. case_if; [by simplify_eq|auto]. }
  unfold sendOffer, offer_hostname. rewrite Hg. cbn [mbind outcome_bind]. rewrite Hlen.
  cbn [mbind outcome_bind]. cbv zeta.
  assert (E : s8 (Z.of_nat (length d)) = Z.of_nat (length d) - 256).
  { unfold s8. rewrite <- (Z.mod_add _ (-1)) by lia. rewrite Z.mod_small; lia. }
  rewrite E. destruct (Z.leb_spec 64 (Z.of_nat (length d) - 256)); [lia|].
  destruct (Z.ltb_spec (Z.of_nat (length d) - 256) 0); [done|lia].
Qed.

End Offer.

(** ** Two consequences of the REQUEST code *)

Section Requests.
Context `{Env}.

(** A client that sends no host name passes the check of the host name table:
    the comparison is over zero bytes. *)
Lemma static_name_not_checked p i y k h s :
  is_in_machost_table y s = (1, k) -> hostname_ip s !! k = Some h ->
  ack_static p (hostname_buf []) i y s = ack p y s.
Proof. intros E Eh. unfold ack_static. by rewrite E, Eh. Qed.

(** DECLINE blanks the hardware address and keeps the address out of use. *)
Lemma decline_reserves p i l s s' :
  find_lease_by_chaddr (chaddr p) s = Some i -> leases s !! i = Some l ->
  c_single_pc_mode (cfg s) = 0 -> c_share_wanip_flag (cfg s) = 0 ->
  handle_decline p (Some i) s = Ret s' ->
  leases s' !! i = Some (Lease (replicate 16 0) (l_yiaddr l)
                     (u32 (clock s + c_decline_time (cfg s))) (l_hostname l)).
Proof.
  intros _ Hl Hsp Hsh Hrun. unfold handle_decline, client_gone in Hrun.
  cbv zeta in Hrun. cbn [cfg upd_lease with_leases] in Hrun. rewrite Hsp in Hrun.
  cbn [Z.eqb cfg upd_lease with_leases] in Hrun. rewrite Hsh in Hrun. injection Hrun as <-. cbn [leases upd_lease with_leases].
  by rewrite list_lookup_alter_eq, Hl.
Qed.
End Requests.

(** ** Concrete runs *)

Module DemoRun.
Definition client (x : Z) (ci : Z) (os : list (Z * list Z)) : dhcpMessage :=
  Message 1 1 6 0 7 0 0 ci 0 0 0 (mac x) (replicate 64 0) (replicate 128 0) (htonl 0x63825363)
    (enc os ++ DHCP_END :: replicate (307 - length (enc os)) 0).

Definition discover : dhcpMessage := client 3 0 [(53, [1])].
Definition renew : dhcpMessage := client 1 (ip 192 168 1 100) [(53, [3]); (12, [112; 99])].
Definition long_name : dhcpMessage := client 3 0 [(53, [1]); (12, replicate 200 97)].

Definition start : server := state (ip 192 168 1 100) table.
Definition moved : server :=
  state (ip 192 168 1 100) [zero_lease; Lease (mac 1) (ip 192 168 1 100) 5000 (replicate 64 0)].
End DemoRun.
Import DemoRun.

(** The renewal moves the lease to slot 0 and leaves the host name "pc" in the
    cleared slot 1. *)
Lemma renew_loses_hostname :
  exists s', dispatch renew moved = Ret s' /\
    leases s' = [Lease (mac 1) (ip 192 168 1 100) 87400 (replicate 64 0);
                 Lease (replicate 16 0) 0 0 ([112; 99] ++ replicate 62 0)].
Proof. eexists. split; vm_compute; reflexivity. Qed.

Lemma start_wf : srv_wf start.
Proof.
  constructor.
  - by apply table_wfb_ok; vm_compute.
  - by apply Forall_replicate; vm_compute.
  - by apply Forall_replicate; vm_compute.
  - by apply Forall_replicate; vm_compute.
  - by vm_compute.
Qed.

Lemma client_wf x ci os : is_u8 x -> Forall is_u8 (enc os) -> (length (enc os) <= 307)%nat ->
  msg_wf (client x ci os).
Proof.
  intros Hx Hu Hl. unfold msg_wf, client. simpl.
  assert (length (enc os ++ DHCP_END :: replicate (307 - length (enc os)) 0) = 308%nat).
  { rewrite length_app. simpl. rewrite length_replicate. lia. }
  split_and!; try done.
  - repeat (apply Forall_cons_2; [first [done|by vm_compute]|]). by apply all_u8_ok.
  - by apply all_u8_ok.
  - by apply all_u8_ok.
  - apply Forall_app. split; [done|]. apply Forall_cons_2; [by vm_compute|].
    apply Forall_replicate. by vm_compute.
Qed.

Lemma dispatch_invariant_witness :
  exists s', dispatch discover start = Ret s' /\ srv_wf s' /\ cfg s' = cfg start /\
    length (leases s') = 4%nat.
Proof.
  eexists. split; [vm_compute; reflexivity|].
  eapply (dispatch_invariant discover start).
  - apply client_wf; [by vm_compute|by apply all_u8_ok|by vm_compute; lia].
  - by vm_compute.
  - apply start_wf.
  - vm_compute. reflexivity.
Defined.

Lemma request_own_address_witness :
  exists s', handle_request renew (find_lease_by_chaddr (chaddr renew) start) start = Ret s' /\
    sends (own_address renew start) start s'.
Proof.
  eexists. split; [vm_compute; reflexivity|].
  apply request_own_address. vm_compute. reflexivity.
Defined.

Lemma demo_options_ok : Forall cfg_opt_ok (c_options (cfg start)).
Proof.
  repeat constructor.
  - exists 1, [255; 255; 255; 0]. split; [done|]. unfold opt_ok, DHCP_OPTION_OVER. simpl. lia.
  - exists 3, [192; 168; 1; 1]. split; [done|]. unfold opt_ok, DHCP_OPTION_OVER. simpl. lia.
Qed.

Definition offered : server :=
  match sendOffer discover start with Ret (s, _) => s | _ => start end.

Lemma offered_run : sendOffer discover start = Ret (offered, 1).
Proof. vm_compute. reflexivity. Qed.


Lemma long_hostname_faults_witness : sendOffer long_name start = Fault.
Proof.
  apply (long_hostname_faults long_name start [(53, [1]); (12, replicate 200 97)]
           (replicate 200 97)).
  - apply client_wf; [by vm_compute|by apply all_u8_ok|by vm_compute; lia].
  - split; [reflexivity|]. split; [|by exists (replicate 102 0)].
    repeat constructor; vm_compute; lia || done.
  - reflexivity.
  - rewrite length_replicate. lia.
Defined.
