(* ===== verification/DhcpFiles.v ===== *)
(** * Configuration and lease files of the DHCP server (src/router/udhcpd/files.c)

    The configuration file parser with its table of keywords, and the lease
    file: what [write_leases] writes, what [read_leases] restores at the next
    start, and the deletion of leases asked for by the web interface. The
    contents of a text file are a string, of the lease file a list of bytes. *)

From Stdlib Require Import ZArith Lia Ascii.
From stdpp Require Import base numbers sets strings list.
From S2P Require Import Prelude CString DhcpOptions DhcpLeases MacIp DhcpPacket.
Import Options Leases Static Packet.
Open Scope string_scope.
Open Scope Z_scope.
Open Scope list_scope.

Module Files.

(** ** Assignments to the fields of server_config *)

Definition set_server (x : Z) (c : server_config_t) : server_config_t :=
  Config x (c_start c) (c_end c) (c_options c) (c_interface c) (c_ifindex c) (c_arp c)
    (c_lease c) (c_max_leases c) (c_remaining c) (c_auto_time c) (c_decline_time c)
    (c_conflict_time c) (c_offer_time c) (c_min_lease c) (c_lease_file c) (c_pidfile c)
    (c_notify_file c) (c_siaddr c) (c_sname c) (c_boot_file c) (c_single_pc_mode c)
    (c_share_wanip_flag c) (c_share_wanip_comm c).
Definition set_start (x : Z) (c : server_config_t) : server_config_t :=
  Config (c_server c) x (c_end c) (c_options c) (c_interface c) (c_ifindex c) (c_arp c)
    (c_lease c) (c_max_leases c) (c_remaining c) (c_auto_time c) (c_decline_time c)
    (c_conflict_time c) (c_offer_time c) (c_min_lease c) (c_lease_file c) (c_pidfile c)
    (c_notify_file c) (c_siaddr c) (c_sname c) (c_boot_file c) (c_single_pc_mode c)
    (c_share_wanip_flag c) (c_share_wanip_comm c).
Definition set_end (x : Z) (c : server_config_t) : server_config_t :=
  Config (c_server c) (c_start c) x (c_options c) (c_interface c) (c_ifindex c) (c_arp c)
    (c_lease c) (c_max_leases c) (c_remaining c) (c_auto_time c) (c_decline_time c)
    (c_conflict_time c) (c_offer_time c) (c_min_lease c) (c_lease_file c) (c_pidfile c)
    (c_notify_file c) (c_siaddr c) (c_sname c) (c_boot_file c) (c_single_pc_mode c)
    (c_share_wanip_flag c) (c_share_wanip_comm c).
Definition set_options (x : list (list Z)) (c : server_config_t) : server_config_t :=
  Config (c_server c) (c_start c) (c_end c) x (c_interface c) (c_ifindex c) (c_arp c)
    (c_lease c) (c_max_leases c) (c_remaining c) (c_auto_time c) (c_decline_time c)
    (c_conflict_time c) (c_offer_time c) (c_min_lease c) (c_lease_file c) (c_pidfile c)
    (c_notify_file c) (c_siaddr c) (c_sname c) (c_boot_file c) (c_single_pc_mode c)
    (c_share_wanip_flag c) (c_share_wanip_comm c).
Definition set_interface (x : string) (c : server_config_t) : server_config_t :=
  Config (c_server c) (c_start c) (c_end c) (c_options c) x (c_ifindex c) (c_arp c)
    (c_lease c) (c_max_leases c) (c_remaining c) (c_auto_time c) (c_decline_time c)
    (c_conflict_time c) (c_offer_time c) (c_min_lease c) (c_lease_file c) (c_pidfile c)
    (c_notify_file c) (c_siaddr c) (c_sname c) (c_boot_file c) (c_single_pc_mode c)
    (c_share_wanip_flag c) (c_share_wanip_comm c).
Definition set_ifindex (x : Z) (c : server_config_t) : server_config_t :=
  Config (c_server c) (c_start c) (c_end c) (c_options c) (c_interface c) x (c_arp c)
    (c_lease c) (c_max_leases c) (c_remaining c) (c_auto_time c) (c_decline_time c)
    (c_conflict_time c) (c_offer_time c) (c_min_lease c) (c_lease_file c) (c_pidfile c)
    (c_notify_file c) (c_siaddr c) (c_sname c) (c_boot_file c) (c_single_pc_mode c)
    (c_share_wanip_flag c) (c_share_wanip_comm c).
Definition set_arp (x : list Z) (c : server_config_t) : server_config_t :=
  Config (c_server c) (c_start c) (c_end c) (c_options c) (c_interface c) (c_ifindex c) x
    (c_lease c) (c_max_leases c) (c_remaining c) (c_auto_time c) (c_decline_time c)
    (c_conflict_time c) (c_offer_time c) (c_min_lease c) (c_lease_file c) (c_pidfile c)
    (c_notify_file c) (c_siaddr c) (c_sname c) (c_boot_file c) (c_single_pc_mode c)
    (c_share_wanip_flag c) (c_share_wanip_comm c).
Definition set_lease (x : Z) (c : server_config_t) : server_config_t :=
  Config (c_server c) (c_start c) (c_end c) (c_options c) (c_interface c) (c_ifindex c)
    (c_arp c) x (c_max_leases c) (c_remaining c) (c_auto_time c) (c_decline_time c)
    (c_conflict_time c) (c_offer_time c) (c_min_lease c) (c_lease_file c) (c_pidfile c)
    (c_notify_file c) (c_siaddr c) (c_sname c) (c_boot_file c) (c_single_pc_mode c)
    (c_share_wanip_flag c) (c_share_wanip_comm c).
Definition set_max_leases (x : Z) (c : server_config_t) : server_config_t :=
  Config (c_server c) (c_start c) (c_end c) (c_options c) (c_interface c) (c_ifindex c)
    (c_arp c) (c_lease c) x (c_remaining c) (c_auto_time c) (c_decline_time c)
    (c_conflict_time c) (c_offer_time c) (c_min_lease c) (c_lease_file c) (c_pidfile c)
    (c_notify_file c) (c_siaddr c) (c_sname c) (c_boot_file c) (c_single_pc_mode c)
    (c_share_wanip_flag c) (c_share_wanip_comm c).
Definition set_remaining (x : Z) (c : server_config_t) : server_config_t :=
  Config (c_server c) (c_start c) (c_end c) (c_options c) (c_interface c) (c_ifindex c)
    (c_arp c) (c_lease c) (c_max_leases c) x (c_auto_time c) (c_decline_time c)
    (c_conflict_time c) (c_offer_time c) (c_min_lease c) (c_lease_file c) (c_pidfile c)
    (c_notify_file c) (c_siaddr c) (c_sname c) (c_boot_file c) (c_single_pc_mode c)
    (c_share_wanip_flag c) (c_share_wanip_comm c).
Definition set_auto_time (x : Z) (c : server_config_t) : server_config_t :=
  Config (c_server c) (c_start c) (c_end c) (c_options c) (c_interface c) (c_ifindex c)
    (c_arp c) (c_lease c) (c_max_leases c) (c_remaining c) x (c_decline_time c)
    (c_conflict_time c) (c_offer_time c) (c_min_lease c) (c_lease_file c) (c_pidfile c)
    (c_notify_file c) (c_siaddr c) (c_sname c) (c_boot_file c) (c_single_pc_mode c)
    (c_share_wanip_flag c) (c_share_wanip_comm c).
Definition set_decline_time (x : Z) (c : server_config_t) : server_config_t :=
  Config (c_server c) (c_start c) (c_end c) (c_options c) (c_interface c) (c_ifindex c)
    (c_arp c) (c_lease c) (c_max_leases c) (c_remaining c) (c_auto_time c) x
    (c_conflict_time c) (c_offer_time c) (c_min_lease c) (c_lease_file c) (c_pidfile c)
    (c_notify_file c) (c_siaddr c) (c_sname c) (c_boot_file c) (c_single_pc_mode c)
    (c_share_wanip_flag c) (c_share_wanip_comm c).
Definition set_conflict_time (x : Z) (c : server_config_t) : server_config_t :=
  Config (c_server c) (c_start c) (c_end c) (c_options c) (c_interface c) (c_ifindex c)
    (c_arp c) (c_lease c) (c_max_leases c) (c_remaining c) (c_auto_time c)
    (c_decline_time c) x (c_offer_time c) (c_min_lease c) (c_lease_file c) (c_pidfile c)
    (c_notify_file c) (c_siaddr c) (c_sname c) (c_boot_file c) (c_single_pc_mode c)
    (c_share_wanip_flag c) (c_share_wanip_comm c).
Definition set_offer_time (x : Z) (c : server_config_t) : server_config_t :=
  Config (c_server c) (c_start c) (c_end c) (c_options c) (c_interface c) (c_ifindex c)
    (c_arp c) (c_lease c) (c_max_leases c) (c_remaining c) (c_auto_time c)
    (c_decline_time c) (c_conflict_time c) x (c_min_lease c) (c_lease_file c) (c_pidfile c)
    (c_notify_file c) (c_siaddr c) (c_sname c) (c_boot_file c) (c_single_pc_mode c)
    (c_share_wanip_flag c) (c_share_wanip_comm c).
Definition set_min_lease (x : Z) (c : server_config_t) : server_config_t :=
  Config (c_server c) (c_start c) (c_end c) (c_options c) (c_interface c) (c_ifindex c)
    (c_arp c) (c_lease c) (c_max_leases c) (c_remaining c) (c_auto_time c)
    (c_decline_time c) (c_conflict_time c) (c_offer_time c) x (c_lease_file c) (c_pidfile c)
    (c_notify_file c) (c_siaddr c) (c_sname c) (c_boot_file c) (c_single_pc_mode c)
    (c_share_wanip_flag c) (c_share_wanip_comm c).
Definition set_lease_file (x : string) (c : server_config_t) : server_config_t :=
  Config (c_server c) (c_start c) (c_end c) (c_options c) (c_interface c) (c_ifindex c)
    (c_arp c) (c_lease c) (c_max_leases c) (c_remaining c) (c_auto_time c)
    (c_decline_time c) (c_conflict_time c) (c_offer_time c) (c_min_lease c) x (c_pidfile c)
    (c_notify_file c) (c_siaddr c) (c_sname c) (c_boot_file c) (c_single_pc_mode c)
    (c_share_wanip_flag c) (c_share_wanip_comm c).
Definition set_pidfile (x : string) (c : server_config_t) : server_config_t :=
  Config (c_server c) (c_start c) (c_end c) (c_options c) (c_interface c) (c_ifindex c)
    (c_arp c) (c_lease c) (c_max_leases c) (c_remaining c) (c_auto_time c)
    (c_decline_time c) (c_conflict_time c) (c_offer_time c) (c_min_lease c)
    (c_lease_file c) x (c_notify_file c) (c_siaddr c) (c_sname c) (c_boot_file c)
    (c_single_pc_mode c) (c_share_wanip_flag c) (c_share_wanip_comm c).
Definition set_notify_file (x : option string) (c : server_config_t) : server_config_t :=
  Config (c_server c) (c_start c) (c_end c) (c_options c) (c_interface c) (c_ifindex c)
    (c_arp c) (c_lease c) (c_max_leases c) (c_remaining c) (c_auto_time c)
    (c_decline_time c) (c_conflict_time c) (c_offer_time c) (c_min_lease c) (c_lease_file c)
    (c_pidfile c) x (c_siaddr c) (c_sname c) (c_boot_file c) (c_single_pc_mode c)
    (c_share_wanip_flag c) (c_share_wanip_comm c).
Definition set_siaddr (x : Z) (c : server_config_t) : server_config_t :=
  Config (c_server c) (c_start c) (c_end c) (c_options c) (c_interface c) (c_ifindex c)
    (c_arp c) (c_lease c) (c_max_leases c) (c_remaining c) (c_auto_time c)
    (c_decline_time c) (c_conflict_time c) (c_offer_time c) (c_min_lease c) (c_lease_file c)
    (c_pidfile c) (c_notify_file c) x (c_sname c) (c_boot_file c) (c_single_pc_mode c)
    (c_share_wanip_flag c) (c_share_wanip_comm c).
Definition set_sname (x : option (list Z)) (c : server_config_t) : server_config_t :=
  Config (c_server c) (c_start c) (c_end c) (c_options c) (c_interface c) (c_ifindex c)
    (c_arp c) (c_lease c) (c_max_leases c) (c_remaining c) (c_auto_time c)
    (c_decline_time c) (c_conflict_time c) (c_offer_time c) (c_min_lease c) (c_lease_file c)
    (c_pidfile c) (c_notify_file c) (c_siaddr c) x (c_boot_file c) (c_single_pc_mode c)
    (c_share_wanip_flag c) (c_share_wanip_comm c).
Definition set_boot_file (x : option (list Z)) (c : server_config_t) : server_config_t :=
  Config (c_server c) (c_start c) (c_end c) (c_options c) (c_interface c) (c_ifindex c)
    (c_arp c) (c_lease c) (c_max_leases c) (c_remaining c) (c_auto_time c)
    (c_decline_time c) (c_conflict_time c) (c_offer_time c) (c_min_lease c) (c_lease_file c)
    (c_pidfile c) (c_notify_file c) (c_siaddr c) (c_sname c) x (c_single_pc_mode c)
    (c_share_wanip_flag c) (c_share_wanip_comm c).
Definition set_single_pc_mode (x : Z) (c : server_config_t) : server_config_t :=
  Config (c_server c) (c_start c) (c_end c) (c_options c) (c_interface c) (c_ifindex c)
    (c_arp c) (c_lease c) (c_max_leases c) (c_remaining c) (c_auto_time c)
    (c_decline_time c) (c_conflict_time c) (c_offer_time c) (c_min_lease c) (c_lease_file c)
    (c_pidfile c) (c_notify_file c) (c_siaddr c) (c_sname c) (c_boot_file c) x
    (c_share_wanip_flag c) (c_share_wanip_comm c).
Definition set_share_wanip_comm (x : Z) (c : server_config_t) : server_config_t :=
  Config (c_server c) (c_start c) (c_end c) (c_options c) (c_interface c) (c_ifindex c)
    (c_arp c) (c_lease c) (c_max_leases c) (c_remaining c) (c_auto_time c)
    (c_decline_time c) (c_conflict_time c) (c_offer_time c) (c_min_lease c) (c_lease_file c)
    (c_pidfile c) (c_notify_file c) (c_siaddr c) (c_sname c) (c_boot_file c)
    (c_single_pc_mode c) (c_share_wanip_flag c) x.

Definition upd_cfg (f : server_config_t -> server_config_t) (s : server) : server :=
  with_cfg (f (cfg s)) s.

(** ** fgets: a line of at most [n - 1] characters, with its newline *)
Fixpoint fgets (n : nat) (file : string) : string * string :=
  match n, file with
  | S (S _ as n'), String c file' =>
      if bool_decide (c = "010"%char) then (String c EmptyString, file')
      else let '(l, r) := fgets n' file' in (String c l, r)
  | _, _ => (EmptyString, file)
  end.

(** All the lines [while (fgets(buf, n, fp))] sees. *)
Fixpoint lines_loop (fuel : nat) (n : nat) (file : string) : list string :=
  match fuel with
  | O => []
  | S fuel =>
      match file with
      | EmptyString => []
      | _ => let '(l, r) := fgets n file in l :: lines_loop fuel n r
      end
  end.
Definition lines (n : nat) (file : string) : list string := lines_loop (String.length file) n file.

Section WithEnv.
Context `{Env}.

(** ** The handlers: the new state and the return value *)

Definition read_ip (line : string) : option Z :=
  match inet_aton line with
  | Some a => Some a
  | None => gethostbyname line
  end.

Definition read_u32 (line : string) : Z * bool :=
  let '(v, e) := strtoul line 0 in (v, bool_decide (e = "")).

Definition read_yn (line : string) : option Z :=
  if strcasecmp_eq "yes" line then Some 1
  else if strcasecmp_eq "no" line then Some 0
  else None.

(** ** read_opt *)

(** [option->name] has ten bytes: a longer name has no NUL of its own and no
    word is equal to it. *)
Definition find_opt (opt : string) : option dhcp_option :=
  foldl (fun r o => if (strlen (o_name o) <? 10) && bool_decide (o_name o = opt)
                    then Some o else r) None options_table.

(** A number at the front of [val], converted and stored in [n] bytes. *)
Definition number (n : nat) (v : Z * string) (conv : Z -> Z) : option (list Z) :=
  if bool_decide (v.2 = "") then Some (take n (mem_of_u32 (conv v.1))) else None.

(** The bytes of one value, and the rest of the line; [None]: it does not parse. *)
Definition read_value (o : dhcp_option) (val rest : string) : option (list Z) * string :=
  match o_type o with
  | OPTION_IP => (mem_of_u32 <$> read_ip val, rest)
  | OPTION_IP_PAIR =>
      match strtok rest (", " +:+ String "009" "/-") with
      | None => (None, "")
      | Some (val2, rest) =>
          (match read_ip val with
           | Some a => (fun b => mem_of_u32 a ++ mem_of_u32 b) <$> read_ip val2
           | None => None
           end, rest)
      end
  | OPTION_STRING =>
      (if bool_decide (val = "") then None else Some (take 254 (bytes_of val)), rest)
  | OPTION_BOOLEAN => ((fun b => [b]) <$> read_yn val, rest)
  | OPTION_U8 => (number 1 (strtoul val 0) u8, rest)
  | OPTION_U16 => (number 2 (strtoul val 0) htons, rest)
  | OPTION_S16 => (number 2 (strtol val 0) htons, rest)
  | OPTION_U32 => (number 4 (strtoul val 0) htonl, rest)
  | OPTION_S32 => (number 4 (strtol val 0) (fun v => htonl (u32 v)), rest)
  end.

Definition blanks : string := ", " +:+ String "009" "".

Fixpoint read_opt_loop (fuel : nat) (o : dhcp_option) (rest : string)
    (opts : list (list Z)) (retval : bool) : list (list Z) * bool :=
  match fuel with
  | O => (opts, retval)
  | S fuel =>
      match strtok rest blanks with
      | None => (opts, retval)
      | Some (val, rest) =>
          match read_value o val rest with
          | (None, _) => (opts, false)
          | (Some data, rest) =>
              let opts := attach_option opts o data (Z.of_nat (length data)) in
              if o_list o then read_opt_loop fuel o rest opts true else (opts, true)
          end
      end
  end.

Definition read_opt (line : string) (opts : list (list Z)) : list (list Z) * bool :=
  match strtok line (" " +:+ String "009" "=") with
  | None => (opts, false)
  | Some (opt, rest) =>
      match find_opt opt with
      | None => (opts, false)
      | Some o => read_opt_loop (S (String.length rest)) o rest opts false
      end
  end.

(** ** The table of keywords *)

Definition handler : Type := string -> server -> outcome (server * bool).

Definition h_ip (set : Z -> server_config_t -> server_config_t) : handler := fun line s =>
  match read_ip line with
  | Some a => Ret (upd_cfg (set a) s, true)
  | None => Ret (s, false)
  end.
Definition h_str (set : string -> server_config_t -> server_config_t) : handler := fun line s =>
  Ret (upd_cfg (set line) s, true).
Definition h_u32 (set : Z -> server_config_t -> server_config_t) : handler := fun line s =>
  let '(v, ok) := read_u32 line in Ret (upd_cfg (set v) s, ok).
Definition h_yn (set : Z -> server_config_t -> server_config_t) : handler := fun line s =>
  match read_yn line with
  | Some v => Ret (upd_cfg (set v) s, true)
  | None => Ret (s, false)
  end.
Definition h_opt : handler := fun line s =>
  let '(o, ok) := read_opt line (c_options (cfg s)) in Ret (upd_cfg (set_options o) s, ok).
Definition h_always (f : string -> server -> outcome server) : handler := fun line s =>
  s ← f line s; Ret (s, true).

Record config_keyword := Keyword { k_keyword : string; k_handler : handler; k_def : string }.

Definition keywords : list config_keyword := [
  Keyword "start" (h_ip set_start) "192.168.0.20";
  Keyword "end" (h_ip set_end) "192.168.0.254";
  Keyword "interface" (h_str set_interface) "eth0";
  Keyword "option" h_opt "";
  Keyword "opt" h_opt "";
  Keyword "max_leases" (h_u32 set_max_leases) "254";
  Keyword "remaining" (h_yn set_remaining) "yes";
  Keyword "auto_time" (h_u32 set_auto_time) "7200";
  Keyword "decline_time" (h_u32 set_decline_time) "3600";
  Keyword "conflict_time" (h_u32 set_conflict_time) "3600";
  Keyword "offer_time" (h_u32 set_offer_time) "60";
  Keyword "min_lease" (h_u32 set_min_lease) "60";
  Keyword "lease_file" (h_str set_lease_file) "/var/lib/misc/udhcpd.leases";
  Keyword "pidfile" (h_str set_pidfile) "/var/run/udhcpd.pid";
  Keyword "notify_file" (h_str (fun l => set_notify_file (Some l))) "";
  Keyword "siaddr" (h_ip set_siaddr) "0.0.0.0";
  Keyword "sname" (h_str (fun l => set_sname (Some (bytes_of l)))) "";
  Keyword "boot_file" (h_str (fun l => set_boot_file (Some (bytes_of l)))) "";
  Keyword "macip" (h_always read_macip) "";
  Keyword "hostip" (h_always read_hostnameip) "";
  Keyword "share_wanip" (h_always read_mac_index) "";
  Keyword "share_wanip_comm" (h_u32 set_share_wanip_comm) "0";
  Keyword "single_pc_mode" (h_u32 set_single_pc_mode) "0" ].

(** ** read_config *)

Fixpoint set_defaults (ks : list config_keyword) (s : server) : outcome server :=
  match ks with
  | [] => Ret s
  | k :: ks =>
      s ← (if bool_decide (k_def k = "") then Ret s
           else r ← k_handler k (k_def k) s; Ret r.1);
      set_defaults ks s
  end.

(** Every keyword that matches handles the line; a failure resets to the default. *)
Fixpoint run_keywords (ks : list config_keyword) (token line : string) (s : server)
    : outcome server :=
  match ks with
  | [] => Ret s
  | k :: ks =>
      s ← (if strcasecmp_eq token (k_keyword k) then
             r ← k_handler k line s;
             if (r.2 : bool) then Ret r.1
             else r ← k_handler k (k_def k) r.1; Ret r.1
           else Ret s);
      run_keywords ks token line s
  end.

Fixpoint rtrim (s : string) : string :=
  match s with
  | EmptyString => EmptyString
  | String c s' =>
      match rtrim s' with
      | EmptyString => if isspace c then EmptyString else String c EmptyString
      | t => String c t
      end
  end.

(** The keyword and its argument; [None]: nothing to do for this line. *)
Definition split_line (buffer : string) : option (string * string) :=
  let buffer := upto (is_char "010") buffer in
  let buffer := upto (is_char "#") buffer in
  let token := skip (one_of (" " +:+ String "009" "")) buffer in
  if bool_decide (token = "") then None else
  let eq := one_of (" " +:+ String "009" "=") in
  match from eq token with
  | EmptyString => None
  | String _ line => Some (upto eq token, rtrim (skip eq line))
  end.

Fixpoint run_lines (ls : list string) (s : server) : outcome server :=
  match ls with
  | [] => Ret s
  | l :: ls =>
      s ← match split_line l with
          | None => Ret s
          | Some (token, line) => run_keywords keywords token line s
          end;
      run_lines ls s
  end.

Definition clear_tables (s : server) : server :=
  with_share (replicate 2 (Share 0 no_mac 0 0 0)) 0 (single_pc_mode_gw s)
    (with_hostip (replicate MAX_NUM (HostIp 0 (replicate 64 0))) 0
       (with_macip (replicate MAX_NUM (MacIp 0 no_mac)) 0 s)).

Definition read_config (path : string) (s : server) : outcome (server * bool) :=
  s ← set_defaults keywords (clear_tables s);
  match file_contents path with
  | None => Ret (s, false)
  | Some text => s ← run_lines (lines 80 text) s; Ret (s, true)
  end.

(** ** write_leases *)

(** struct dhcpOfferedAddr: 88 bytes *)
Definition lease_bytes (l : dhcpOfferedAddr) : list Z :=
  l_chaddr l ++ mem_of_u32 (l_yiaddr l) ++ mem_of_u32 (l_expires l) ++ l_hostname l.
Definition lease_of_bytes (b : list Z) : dhcpOfferedAddr :=
  Lease (field 0 16 b) (u32_of_mem (field 16 4 b)) (u32_of_mem (field 20 4 b)) (field 24 64 b).

Definition lease_record (s : server) (l : dhcpOfferedAddr) : list Z :=
  if l_yiaddr l =? 0 then [] else
  let lease_time :=
    if c_remaining (cfg s) =? 0 then l_expires l
    else if lease_expired l (clock s) then 0 else u32 (l_expires l - clock s) in
  lease_bytes (set_expires (htonl lease_time) l).

Definition write_leases (s : server) : outcome server :=
  if negb (can_write (c_lease_file (cfg s))) then Ret s else
  let data := concat (lease_record s <$> leases s) in
  let s := emit (WriteBytes (c_lease_file (cfg s)) data) s in
  match c_notify_file (cfg s) with
  | None => Ret s
  | Some notify =>
      let command := notify +:+ " " +:+ c_lease_file (cfg s) in
      if 255 <=? strlen command then Fault else Ret (emit (System command) s)
  end.

(** ** delete_leases: [junk] is the value of the uninitialised [in] *)
Fixpoint delete_table (ls : list string) (last : Z) : list Z :=
  match ls with
  | [] => []
  | l :: ls => let a := default last (inet_aton l) in a :: delete_table ls a
  end.

Definition delete_leases (junk : Z) (s : server) : outcome server :=
  let ls := match file_contents "/tmp/.delete_leases" with
            | Some text => lines 80 text
            | None => []
            end in
  if c_max_leases (cfg s) <? Z.of_nat (length ls) then Fault else
  let table := delete_table ls junk in
  Ret (with_leases
         ((fun l => if negb (l_yiaddr l =? 0) && bool_decide (l_yiaddr l ∈ table)
                    then zero_lease else l) <$> leases s) s).

(** ** read_leases *)
Definition in_pool (y : Z) (s : server) : bool :=
  (ntohl (c_start (cfg s)) <=? ntohl y) && (ntohl y <=? ntohl (c_end (cfg s))).

Definition restored_name (h : list Z) : list Z := strncpy_buf 63 (cstr h) ++ [0].

Fixpoint read_leases_loop (fuel : nat) (file : list Z) (i : Z) (s : server) : outcome server :=
  match fuel with
  | O => Running
  | S fuel =>
      if negb (i <? c_max_leases (cfg s)) then Ret s else
      if (length file <? 88)%nat then Ret s else
      let lease := lease_of_bytes (take 88 file) in
      let file := drop 88 file in
      if negb (in_pool (l_yiaddr lease) s) then read_leases_loop fuel file i s else
      let expires := ntohl (l_expires lease) in
      let expires := if c_remaining (cfg s) =? 0 then u32 (expires - clock s) else expires in
      match add_lease (l_chaddr lease) (l_yiaddr lease) expires s with
      | (s, None) => Ret s
      | (s, Some k) =>
          read_leases_loop fuel file (i + 1)
            (upd_lease k (set_hostname (restored_name (l_hostname lease))) s)
      end
  end.

Definition read_leases (file : option (list Z)) (s : server) : outcome server :=
  match file with
  | None => Ret s
  | Some data => read_leases_loop (S (length data)) data 0 s
  end.

End WithEnv.
End Files.
