(* ===== verification/DhcpFilesProofs.v ===== *)
(** * Correctness of the files of the DHCP server *)

From Stdlib Require Import ZArith Lia Ascii.
From stdpp Require Import base numbers sets strings list sorting.
From S2P Require Import Prelude CString DhcpOptions DhcpOptionsProofs DhcpLeases DhcpLeasesProofs MacIp DhcpPacket DhcpPacketProofs DhcpServer DhcpServerProofs DhcpFiles.
Import Options Leases Static Packet Files.
Open Scope Z_scope.

(** ** The lease file *)

Lemma lease_bytes_length l : lease_ok l -> length (lease_bytes l) = 88%nat.
Proof.
  intros (Hc & _ & _ & Hh). unfold lease_bytes. rewrite !length_app, Hc, Hh. done.
Qed.

Lemma lease_bytes_roundtrip l : lease_ok l -> lease_of_bytes (lease_bytes l) = l.
Proof.
  intros (Hc & Hy & He & Hh). unfold lease_of_bytes.
  rewrite (field_at [] (l_chaddr l) _ (lease_bytes l) 0 16) by done.
  rewrite (field_at (l_chaddr l) (mem_of_u32 (l_yiaddr l)) _ (lease_bytes l) 16 4) by done.
  rewrite (field_at (l_chaddr l ++ mem_of_u32 (l_yiaddr l)) (mem_of_u32 (l_expires l))
             (l_hostname l) (lease_bytes l) 20 4);
    [|unfold lease_bytes; by rewrite <- !app_assoc|by rewrite length_app, Hc|done].
  rewrite (field_at (l_chaddr l ++ mem_of_u32 (l_yiaddr l) ++ mem_of_u32 (l_expires l))
             (l_hostname l) [] (lease_bytes l) 24 64);
    [|unfold lease_bytes; by rewrite <- !app_assoc, app_nil_r|by rewrite !length_app, Hc|done].
  rewrite !u32_mem_roundtrip by done. by destruct l.
Qed.

(** Seconds a lease still has at the time of [s], 0 when it has expired. *)
Definition remaining (s : server) (l : dhcpOfferedAddr) : Z :=
  if lease_expired l (clock s) then 0 else l_expires l - clock s.

(** What a lease is after a restart at time [t]. *)
Definition restore (s : server) (t : Z) (l : dhcpOfferedAddr) : dhcpOfferedAddr :=
  Lease (l_chaddr l) (l_yiaddr l) (t + remaining s l) (restored_name (l_hostname l)).

Lemma oldest_loop_skip t ls : forall i o,
  (forall l, l ∈ ls -> t <= l_expires l) -> oldest_loop ls i t o = o.
Proof.
  induction ls as [|l ls IH]; intros i o Hl; [done|]. simpl.
  rewrite (proj2 (Z.ltb_ge _ _)) by (apply Hl; by left). apply IH. intros l' Hl'.
  apply Hl. by right.
Qed.

Lemma alter_middle (f : dhcpOfferedAddr -> dhcpOfferedAddr) (P : list dhcpOfferedAddr) x Q :
  alter f (length P) (P ++ x :: Q) = P ++ f x :: Q.
Proof. induction P as [|y P IH]; [done|]. cbn. f_equal. exact IH. Qed.

(** On a table that is full of current leases up to a run of zeroed slots,
    add_lease takes the first zeroed slot. *)
Lemma add_lease_append P m c y e s :
  leases s = P ++ replicate (S m) zero_lease -> 0 < clock s ->
  (forall l, l ∈ P -> clock s <= l_expires l) ->
  (forall l, l ∈ P -> clear_matches c y l = false) ->
  exists s', add_lease c y e s = (s', Some (length P)) /\ same_but_table s s' /\
    clock s' = clock s /\
    leases s' = P ++ Lease c y (u32 (clock s + e)) (replicate 64 0) :: replicate m zero_lease.
Proof.
  intros Hls Ht Hexp Hm.
  assert (Hclear : cleared c y <$> leases s = leases s).
  { rewrite Hls, fmap_app. f_equal.
    - rewrite <- (list_fmap_id P) at 2. apply list_fmap_ext. intros i l Hl. unfold cleared.
      rewrite (Hm l); [done|]. by eapply list_elem_of_lookup_2.
    - rewrite fmap_replicate. f_equal. unfold cleared. by case_if. }
  assert (Hold : oldest_expired_lease (clear_lease c y s) = Some (length P)).
  { unfold oldest_expired_lease. rewrite clear_lease_leases, Hclear, Hls.
    change (clock (clear_lease c y s)) with (clock s).
    assert (Hgen : forall Q i o, (forall l, l ∈ Q -> clock s <= l_expires l) ->
      oldest_loop (Q ++ replicate (S m) zero_lease) i (clock s) o = Some (i + length Q)%nat).
    { induction Q as [|q Q IH]; intros i o HQ.
      - cbn [app replicate oldest_loop length]. change (l_expires zero_lease) with 0.
        rewrite (proj2 (Z.ltb_lt _ _) Ht). rewrite oldest_loop_skip; [f_equal; lia|].
        intros l Hl. apply elem_of_replicate in Hl as [-> _]. done.
      - cbn [app oldest_loop length]. rewrite (proj2 (Z.ltb_ge _ _)) by (apply HQ; by left).
        rewrite IH by (intros l Hl; apply HQ; by right). f_equal. lia. }
    by rewrite Hgen. }
  pose proof (add_lease_same c y e s) as Hsame. pose proof (add_lease_clock c y e s) as Hck.
  unfold add_lease in *. rewrite Hold in *. cbn [fst] in Hsame, Hck.
  eexists. split; [done|]. split; [done|]. split; [done|]. cbn [leases upd_lease with_leases].
  rewrite clear_lease_leases, Hclear, Hls. apply alter_middle.
Qed.

(** The records of a table that are in the file. *)
Definition kept (ls : list dhcpOfferedAddr) : list dhcpOfferedAddr :=
  filter (fun l => l_yiaddr l <> 0) ls.

Lemma records_kept s ls : c_remaining (cfg s) <> 0 -> 0 <= clock s ->
  (forall l, l ∈ ls -> is_u32 (l_expires l)) ->
  concat (lease_record s <$> ls) =
  concat ((fun l => lease_bytes (set_expires (htonl (remaining s l)) l)) <$> kept ls).
Proof.
  intros Hr Ht Hu. unfold kept. induction ls as [|l ls IH]; [done|].
  cbn [fmap list_fmap concat]. rewrite IH by (intros; apply Hu; by right).
  rewrite filter_cons. unfold lease_record. destruct (Z.eqb_spec (l_yiaddr l) 0) as [E|E].
  - rewrite decide_False by auto. done.
  - rewrite decide_True by done. cbn [fmap list_fmap concat]. f_equal. cbv zeta.
    rewrite (proj2 (Z.eqb_neq _ _) Hr). unfold remaining, lease_expired.
    destruct (Z.ltb_spec (l_expires l) (clock s)); [done|].
    rewrite u32_small; [done|]. assert (is_u32 (l_expires l)) by (apply Hu; by left).
    unfold is_u32 in *. lia.
Qed.

(** Reading the records [R] into a table that already holds [P]. *)
Lemma read_back s t R : forall P m i fuel s2,
  Forall lease_ok R -> uniq (P ++ R) -> clock s2 = t -> 0 < t -> 0 <= clock s ->
  c_remaining (cfg s2) <> 0 ->
  Z.of_nat (length R) + i <= c_max_leases (cfg s2) -> (length R <= m)%nat ->
  Forall (fun l => l_yiaddr l <> 0 /\ in_pool (l_yiaddr l) s2 = true /\
                   t + remaining s l < 2 ^ 32) R ->
  leases s2 = (restore s t <$> P) ++ replicate m zero_lease -> (length R < fuel)%nat ->
  exists s3,
    read_leases_loop fuel
      (concat ((fun l => lease_bytes (set_expires (htonl (remaining s l)) l)) <$> R)) i s2
      = Ret s3 /\ leases s3 = (restore s t <$> P ++ R) ++ replicate (m - length R) zero_lease /\
      same_but_table s2 s3.
Proof.
  induction R as [|l R IH]; intros P m i fuel s2 Hok Hu Hck Ht Hs0 Hr Hmax Hm Hin Hls Hf;
    (destruct fuel as [|fuel]; [simpl in Hf; lia|]); cbn [read_leases_loop].
  { exists s2. rewrite app_nil_r, Nat.sub_0_r. split; [|done]. by case_if. }
  apply Forall_cons in Hok as [Hl Hok]. apply Forall_cons in Hin as [(Hy & Hpool & Hlt) Hin].
  simpl in Hmax, Hm, Hf. rewrite (proj2 (Z.ltb_lt i _)) by lia. cbn [negb].
  cbn [fmap list_fmap concat].
  assert (Hrem : is_u32 (remaining s l)).
  { destruct Hl as (_ & _ & He & _). unfold remaining, lease_expired, is_u32 in *.
    destruct (Z.ltb_spec (l_expires l) (clock s)); lia. }
  set (l' := set_expires (htonl (remaining s l)) l).
  assert (Hok' : lease_ok l').
  { destruct Hl as (? & ? & ? & ?). split_and!; try done. apply bswap32_range. }
  pose proof (lease_bytes_length l' Hok') as Hlen.
  rewrite (proj2 (Nat.ltb_ge _ _)) by (rewrite length_app; lia).
  rewrite (take_app_length' _ _ 88), (drop_app_length' _ _ 88) by done.
  rewrite (lease_bytes_roundtrip l' Hok'). cbv zeta.
  change (l_yiaddr l') with (l_yiaddr l). change (l_chaddr l') with (l_chaddr l).
  change (l_hostname l') with (l_hostname l).
  rewrite Hpool. cbn [negb]. rewrite (proj2 (Z.eqb_neq _ _) Hr).
  change (l_expires l') with (htonl (remaining s l)).
  change (ntohl (htonl (remaining s l))) with (bswap32 (bswap32 (remaining s l))).
  rewrite bswap32_involutive by done.
  destruct m as [|m]; [lia|].
  destruct (add_lease_append (restore s t <$> P) m (l_chaddr l) (l_yiaddr l) (remaining s l) s2)
    as (s3 & Eadd & Hsame & Hck3 & Hls3); [done|lia| | |].
  { intros x Hx. apply list_elem_of_fmap in Hx as (x0 & -> & _). simpl.
    unfold remaining, lease_expired. destruct (Z.ltb_spec (l_expires x0) (clock s)); lia. }
  { intros x Hx. apply list_elem_of_fmap in Hx as (x0 & -> & Hx0).
    apply list_elem_of_lookup in Hx0 as [j Hj]. apply not_true_is_false. intros Hc.
    assert (Hclash : clash l x0).
    { unfold clear_matches in Hc. simpl in Hc. apply orb_true_iff in Hc as [Hc|Hc];
        apply andb_true_iff in Hc as [H1 H2].
      - left. split; [done|]. by apply bool_decide_eq_true in H2.
      - right. split; [done|]. apply Z.eqb_eq in H2. congruence. }
    assert (length P = j).
    { apply (Hu (length P) j l x0); [by apply list_lookup_middle| |done].
      apply lookup_app_l_Some, Hj. }
    apply lookup_lt_Some in Hj. lia. }
  rewrite Eadd.
  set (s4 := upd_lease _ _ s3).
  assert (Hls4 : leases s4 = (restore s t <$> P ++ [l]) ++ replicate m zero_lease).
  { unfold s4. cbn [upd_lease leases with_leases]. rewrite Hls3, alter_middle, fmap_app.
    rewrite <- app_assoc. cbn. f_equal. f_equal. unfold restore, set_hostname. simpl.
    rewrite u32_small by (unfold is_u32 in *; lia). by rewrite Hck. }
  assert (Hs4 : same_but_table s2 s4) by (etrans; [exact Hsame|done]).
  pose proof Hs4 as (Ecfg & _).
  destruct (IH (P ++ [l]) m (i + 1) fuel s4) as (s5 & E5 & Hls5 & Hs5); try done.
  - by rewrite <- app_assoc.
  - unfold s4. cbn [clock upd_lease with_leases]. congruence.
  - by rewrite Ecfg.
  - rewrite Ecfg. lia.
  - lia.
  - eapply Forall_impl; [exact Hin|]. intros x (? & Hx & ?). split_and!; try done.
    unfold in_pool in *. by rewrite Ecfg.
  - lia.
  - exists s5. split; [done|]. split; [|by etrans]. rewrite Hls5, <- app_assoc. done.
Qed.

Lemma uniq_cons x ls : uniq (x :: ls) <-> (forall y, y ∈ ls -> ~ clash x y) /\ uniq ls.
Proof.
  split.
  - intros Hu. split.
    + intros y Hy Hc. apply list_elem_of_lookup in Hy as [j Hj].
      by specialize (Hu 0%nat (S j) x y eq_refl Hj Hc).
    + intros i j a b Ha Hb Hc. specialize (Hu (S i) (S j) a b Ha Hb Hc). lia.
  - intros [Hx Hu] [|i] [|j] a b Ha Hb Hc; simpl in *; simplify_eq; [done| | |].
    + apply list_elem_of_lookup_2 in Hb. by destruct (Hx b).
    + apply list_elem_of_lookup_2 in Ha. apply clash_sym in Hc. by destruct (Hx a).
    + f_equal. by eapply Hu.
Qed.

Lemma uniq_kept ls : uniq ls -> uniq (kept ls).
Proof.
  unfold kept. induction ls as [|x ls IH]; intros Hu; [done|].
  apply uniq_cons in Hu as [Hx Hu]. rewrite filter_cons. case_decide; [|auto].
  apply uniq_cons. split; [|auto]. intros y Hy. apply list_elem_of_filter in Hy as [_ Hy]. auto.
Qed.

Lemma concat_records_length s R : Forall lease_ok R ->
  (length R <= length (concat ((fun l => lease_bytes (set_expires (htonl (remaining s l)) l)) <$> R)))%nat.
Proof.
  intros Hok. induction R as [|l R IH]; [done|]. apply Forall_cons in Hok as [Hl Hok].
  cbn [fmap list_fmap concat length]. rewrite length_app, lease_bytes_length.
  - specialize (IH Hok). lia.
  - destruct Hl as (? & ? & ? & ?). split_and!; try done. apply bswap32_range.
Qed.

Section RoundTrip.
Context `{Env}.

(** C12. A restart with the same configuration keeps the leases: what write_leases
    stored as remaining times, read_leases of the next run restores, each client
    with its address, its host name and the seconds its lease had left, in the first
    slots of the table and in their order; the other slots are free. All saved
    leases lie in the pool (read_leases drops the others, those of reserved
    addresses outside of the range among them), the clock does not wrap around
    before they end, the lease file can be written and no notify file is
    configured. *)
Theorem leases_roundtrip s s0 :
  let t := clock s0 in
  table_wf (leases s) -> c_remaining (cfg s) <> 0 -> cfg s0 = cfg s ->
  0 <= clock s -> 0 < t ->
  Z.of_nat (length (leases s)) = c_max_leases (cfg s) ->
  leases s0 = replicate (length (leases s)) zero_lease ->
  Forall (fun l => in_pool (l_yiaddr l) s = true /\ t + remaining s l < 2 ^ 32) (kept (leases s)) ->
  can_write (c_lease_file (cfg s)) = true -> c_notify_file (cfg s) = None ->
  exists data s', write_leases s = Ret (emit (WriteBytes (c_lease_file (cfg s)) data) s) /\
    read_leases (Some data) s0 = Ret s' /\
    leases s' = (restore s t <$> kept (leases s)) ++
                replicate (length (leases s) - length (kept (leases s))) zero_lease.
Proof.
  intros t [Hok Hu] Hr Hcfg Hs0 Ht Hmax Hz Hin Hw Hn.
  set (R := kept (leases s)) in *.
  assert (HokR : Forall lease_ok R).
  { apply Forall_forall. intros l Hl. apply list_elem_of_filter in Hl as [_ Hl].
    rewrite Forall_forall in Hok. by apply Hok. }
  assert (HlenR : (length R <= length (leases s))%nat) by apply length_filter.
  exists (concat (lease_record s <$> leases s)).
  destruct (read_back s t R [] (length (leases s)) 0
              (S (length (concat (lease_record s <$> leases s)))) s0)
    as (s' & E & Hls & _); try done.
  - by apply uniq_kept.
  - by rewrite Hcfg.
  - rewrite Hcfg, <- Hmax. lia.
  - apply Forall_forall. intros l Hl. rewrite Forall_forall in Hin.
    destruct (Hin l Hl) as [H1 H2]. apply list_elem_of_filter in Hl as [H3 _].
    split_and!; try done. unfold in_pool in *. by rewrite Hcfg.
  - rewrite records_kept; [|done|done|].
    + pose proof (concat_records_length s R HokR). unfold R in *. lia.
    + intros l Hl. rewrite Forall_forall in Hok. by apply Hok.
  - exists s'. split; [|split; [|by rewrite Hls]].
    + unfold write_leases. rewrite Hw. cbn [negb]. cbv zeta. cbn [cfg emit]. by rewrite Hn.
    + unfold read_leases. rewrite <- E. f_equal. apply records_kept; [done|done|].
      intros l Hl. rewrite Forall_forall in Hok. by apply Hok.
Qed.
End RoundTrip.

(** ** The configured options *)

(** Every entry is a well-formed option and the codes increase strictly, which
    [find_option] relies on. *)
Definition opts_ok (opts : list (list Z)) : Prop :=
  Forall cfg_opt_ok opts /\ StronglySorted Z.lt (opt_code <$> opts).

Definition code_ok (c : Z) : Prop := 0 < c < 255 /\ c <> DHCP_OPTION_OVER.

Lemma enc1_code c v : opt_code (enc1 (c, v)) = c.
Proof. done. Qed.

Lemma opts_ok_cons d l : opts_ok (d :: l) <->
  cfg_opt_ok d /\ (forall x, x ∈ l -> opt_code d < opt_code x) /\ opts_ok l.
Proof.
  unfold opts_ok. rewrite Forall_cons. cbn [fmap list_fmap]. split.
  - intros [[Hd Hl] Hs]. inversion Hs as [|? ? H1 H2]; subst. split_and!; try done.
    intros x Hx. rewrite Forall_forall in H2. apply H2. by apply list_elem_of_fmap_2.
  - intros (Hd & Hx & Hl & Hs). split_and!; try done. constructor; [done|].
    apply Forall_forall. intros c Hc. apply list_elem_of_fmap in Hc as (x & -> & Hin). auto.
Qed.

Lemma insert_option_elem l c d x : x ∈ insert_option l c d <-> x = d \/ x ∈ l.
Proof.
  induction l as [|y l IH]; cbn [insert_option]; [by rewrite list_elem_of_singleton, elem_of_nil; tauto|].
  case_if; rewrite !elem_of_cons, ?IH; tauto.
Qed.

Lemma set_option_elem l c d x : x ∈ set_option l c d -> x = d \/ x ∈ l.
Proof.
  induction l as [|y l IH]; cbn [set_option]; [by rewrite elem_of_nil|].
  case_if; rewrite !elem_of_cons; naive_solver.
Qed.

Lemma insert_option_ok l c d : opts_ok l -> cfg_opt_ok d -> opt_code d = c ->
  find_option l c = None -> opts_ok (insert_option l c d) /\ find_option (insert_option l c d) c = Some d.
Proof.
  intros Hl Hd Hc Hf. induction l as [|y l IH]; cbn [insert_option find_option] in *.
  - rewrite Hc, (proj2 (Z.ltb_ge c c)) by lia. rewrite Z.eqb_refl. split; [|done].
    apply opts_ok_cons. split_and!; try done. intros x Hx. by apply elem_of_nil in Hx.
  - apply opts_ok_cons in Hl as (Hy & Hlt & Hl).
    destruct (Z.ltb_spec (opt_code y) c).
    + destruct (IH Hl Hf) as [IH1 IH2]. cbn [find_option].
      rewrite (proj2 (Z.ltb_lt _ _)) by done. split; [|done]. apply opts_ok_cons.
      split_and!; try done. intros x Hx. apply insert_option_elem in Hx as [->|Hx]; [lia|auto].
    + cbn [find_option]. rewrite Hc, (proj2 (Z.ltb_ge c c)) by lia. rewrite Z.eqb_refl.
      split; [|done]. destruct (Z.eqb_spec (opt_code y) c); [done|].
      apply opts_ok_cons. split_and!; try done; [|by apply opts_ok_cons].
      intros x Hx. apply elem_of_cons in Hx as [->|Hx]; [lia|]. specialize (Hlt x Hx). lia.
Qed.

Lemma set_option_ok l c d d0 : opts_ok l -> cfg_opt_ok d -> opt_code d = c ->
  find_option l c = Some d0 -> opts_ok (set_option l c d) /\ find_option (set_option l c d) c = Some d.
Proof.
  intros Hl Hd Hc Hf. induction l as [|y l IH]; cbn [set_option find_option] in *; [done|].
  apply opts_ok_cons in Hl as (Hy & Hlt & Hl).
  destruct (Z.ltb_spec (opt_code y) c).
  - destruct (IH Hl Hf) as [IH1 IH2]. cbn [find_option].
    rewrite (proj2 (Z.ltb_lt _ _)) by done. split; [|done]. apply opts_ok_cons.
    split_and!; try done. intros x Hx. apply set_option_elem in Hx as [->|Hx]; [lia|auto].
  - cbn [find_option]. rewrite Hc, (proj2 (Z.ltb_ge c c)) by lia. rewrite Z.eqb_refl.
    split; [|done]. destruct (Z.eqb_spec (opt_code y) c); [|done].
    apply opts_ok_cons. split_and!; try done. intros x Hx. rewrite Hc.
    specialize (Hlt x Hx). lia.
Qed.

Lemma find_option_ok l c d : opts_ok l -> find_option l c = Some d -> cfg_opt_ok d /\ opt_code d = c.
Proof.
  intros Hl Hf. induction l as [|y l IH]; cbn [find_option] in *; [done|].
  apply opts_ok_cons in Hl as (Hy & _ & Hl). case_if; [auto|]. case_if; [|done].
  simplify_eq. split; [done|]. by apply Z.eqb_eq.
Qed.

Lemma attach_option_aux l o data :
  opts_ok l -> code_ok (o_code o) -> (length data <= 255)%nat ->
  let l' := attach_option l o data (Z.of_nat (length data)) in
  opts_ok l' /\
  match find_option l (o_code o) with
  | None => find_option l' (o_code o) = Some (enc1 (o_code o, data))
  | Some d => exists v, d = enc1 (o_code o, v) /\
      find_option l' (o_code o) =
        Some (if o_list o && bool_decide (length v + length data <= 255)%nat
              then enc1 (o_code o, v ++ data) else d)
  end.
Proof.
  intros Hl [Hc1 Hc2] Hd. cbv zeta. unfold attach_option.
  rewrite Nat2Z.id, take_ge by lia.
  destruct (find_option l (o_code o)) as [d|] eqn:Ef.
  - pose proof (find_option_ok _ _ _ Hl Ef) as [(c & v & -> & Hok) Hcode].
    rewrite enc1_code in Hcode. subst c.
    destruct (o_list o); [|split; [done|]; exists v; done].
    change (opt_code (enc1 (o_code o, v))) with (o_code o).
    change (opt_len (enc1 (o_code o, v))) with (Z.of_nat (length v)).
    change (drop 2 (enc1 (o_code o, v))) with v. rewrite Nat2Z.id, take_ge by lia.
    destruct (Z.leb_spec (Z.of_nat (length v) + Z.of_nat (length data)) 255).
    + assert (E : u8 (Z.of_nat (length v) + Z.of_nat (length data)) =
                Z.of_nat (length (v ++ data))).
      { rewrite length_app, Nat2Z.inj_add. unfold u8. apply Z.mod_small. word_consts. lia. }
      assert (Hnew : cfg_opt_ok (enc1 (o_code o, v ++ data))).
      { exists (o_code o), (v ++ data). split; [done|]. unfold opt_ok. cbn [fst snd].
        rewrite length_app. split_and!; try done; lia. }
      rewrite E. destruct (set_option_ok l (o_code o) _ _ Hl Hnew eq_refl Ef) as [H1 H2].
      split; [exact H1|]. exists v. split; [done|]. rewrite bool_decide_eq_true_2 by lia. exact H2.
    + split; [done|]. exists v. split; [done|]. rewrite bool_decide_eq_false_2 by lia. done.
  - assert (E : u8 (Z.of_nat (length data)) = Z.of_nat (length data)).
    { unfold u8. apply Z.mod_small. word_consts. lia. }
    rewrite E. apply (insert_option_ok l (o_code o) (enc1 (o_code o, data)) Hl); try done.
    exists (o_code o), data. split; [done|]. unfold opt_ok. cbn [fst snd]. split_and!; try done; lia.
Qed.

(** attach_option keeps the list of configured options sorted and
    well-formed, and find_option then finds the option: with the new value when
    it is new, with the value appended when the option is a list and both fit
    in 255 bytes, and unchanged otherwise. *)
Theorem attach_option_ok l o data :
  opts_ok l -> code_ok (o_code o) -> (length data <= 255)%nat ->
  let l' := attach_option l o data (Z.of_nat (length data)) in
  opts_ok l' /\
  match find_option l (o_code o) with
  | None => find_option l' (o_code o) = Some (enc1 (o_code o, data))
  | Some d => exists v, d = enc1 (o_code o, v) /\
      find_option l' (o_code o) =
        Some (if o_list o && bool_decide (length v + length data <= 255)%nat
              then enc1 (o_code o, v ++ data) else d)
  end.
Proof. apply attach_option_aux. Qed.

(** ** read_config *)

Lemma find_opt_ok n o : find_opt n = Some o -> code_ok (o_code o).
Proof.
  intros Hf. assert (Hin : o ∈ options_table).
  { unfold find_opt in Hf. revert Hf.
    assert (Hgen : forall t r, foldl (fun r o0 => if (strlen (o_name o0) <? 10) &&
        bool_decide (o_name o0 = n) then Some o0 else r) r t = Some o ->
        r = Some o \/ o ∈ t).
    { induction t as [|x t IH]; intros r Hr; cbn [foldl] in Hr; [by left|].
      apply IH in Hr as [Hr|Hr]; [|right; by right]. case_if; [|by left].
      simplify_eq. right. by left. }
    intros Hr. apply Hgen in Hr as [Hr|Hr]; done. }
  assert (Hall : Forall (fun o => code_ok (o_code o)) options_table).
  { unfold options_table, code_ok, DHCP_OPTION_OVER. repeat constructor; simpl; lia. }
  rewrite Forall_forall in Hall. by apply Hall.
Qed.

Section Config.
Context `{Env}.

Lemma number_length n v conv d : number n v conv = Some d -> (length d <= n)%nat.
Proof.
  unfold number. case_bool_decide; [|done]. intros [= <-]. rewrite length_take. lia.
Qed.

Lemma read_value_length o val rest d r : read_value o val rest = (Some d, r) ->
  (length d <= 255)%nat.
Proof.
  assert (Hnum : forall n v conv x, (n <= 4)%nat -> (number n v conv, x) = (Some d, r) ->
            (length d <= 255)%nat).
  { intros n v conv x Hn [= E _]. apply number_length in E. lia. }
  unfold read_value. destruct (o_type o).
  - destruct (read_ip val); simpl; [|done]. intros [= <- _]. simpl. lia.
  - destruct (strtok rest _) as [[v2 r2]|]; [|done].
    destruct (read_ip val); [|done]. destruct (read_ip v2); simpl; [|done].
    intros [= <- _]. simpl. lia.
  - case_bool_decide; [done|]. intros [= <- _]. rewrite length_take. lia.
  - destruct (read_yn val); simpl; [|done]. intros [= <- _]. simpl. lia.
  - apply Hnum. lia.
  - apply Hnum. lia.
  - apply Hnum. lia.
  - apply Hnum. lia.
  - apply Hnum. lia.
Qed.

Lemma read_opt_loop_ok fuel o : code_ok (o_code o) -> forall rest opts b,
  opts_ok opts -> opts_ok (read_opt_loop fuel o rest opts b).1.
Proof.
  intros Hc. induction fuel as [|fuel IH]; intros rest opts b Ho; cbn [read_opt_loop]; [done|].
  destruct (strtok rest blanks) as [[val rest']|]; [|done].
  destruct (read_value o val rest') as [[d|] r] eqn:Ev; [|done].
  apply read_value_length in Ev. cbv zeta.
  destruct (attach_option_aux opts o d Ho Hc Ev) as [Ha _]. case_if; [by apply IH|done].
Qed.

Lemma read_opt_ok line opts : opts_ok opts -> opts_ok (read_opt line opts).1.
Proof.
  intros Ho. unfold read_opt. destruct (strtok line _) as [[opt rest]|]; [|done].
  destruct (find_opt opt) as [o|] eqn:Ef; [|done]. apply read_opt_loop_ok; [|done].
  by eapply find_opt_ok.
Qed.

(** A property of the state that a handler keeps. *)
Definition keeps (P : server -> Prop) (h : handler) : Prop := forall line s s' b,
  h line s = Ret (s', b) -> P s -> P s'.

Definition good_opts (s : server) : Prop := opts_ok (c_options (cfg s)).
Notation keeps_opts := (keeps good_opts).

Lemma h_ip_opts set : (forall x c, c_options (set x c) = c_options c) -> keeps_opts (h_ip set).
Proof.
  intros Hset line s s' b Hrun Ho. unfold h_ip in Hrun.
  destruct (read_ip line); injection Hrun as <- _; [|done]. unfold good_opts in *. simpl. by rewrite Hset.
Qed.
Lemma h_str_opts set : (forall x c, c_options (set x c) = c_options c) -> keeps_opts (h_str set).
Proof. intros Hset line s s' b Hrun Ho. injection Hrun as <- _. unfold good_opts in *. simpl. by rewrite Hset. Qed.
Lemma h_u32_opts set : (forall x c, c_options (set x c) = c_options c) -> keeps_opts (h_u32 set).
Proof.
  intros Hset line s s' b Hrun Ho. unfold h_u32 in Hrun. destruct (read_u32 line).
  injection Hrun as <- _. unfold good_opts in *. simpl. by rewrite Hset.
Qed.
Lemma h_yn_opts set : (forall x c, c_options (set x c) = c_options c) -> keeps_opts (h_yn set).
Proof.
  intros Hset line s s' b Hrun Ho. unfold h_yn in Hrun.
  destruct (read_yn line); injection Hrun as <- _; [|done]. unfold good_opts in *. simpl. by rewrite Hset.
Qed.
Lemma h_opt_opts : keeps_opts h_opt.
Proof.
  intros line s s' b Hrun Ho. unfold h_opt in Hrun.
  pose proof (read_opt_ok line (c_options (cfg s)) Ho) as Hr.
  destruct (read_opt line (c_options (cfg s))) as [o ok]. by injection Hrun as <- _.
Qed.
Lemma h_always_opts f :
  (forall line s s', f line s = Ret s' -> c_options (cfg s') = c_options (cfg s)) ->
  keeps_opts (h_always f).
Proof.
  intros Hf line s s' b Hrun Ho. apply bind_Ret_inv in Hrun as (s1 & H1 & Hrun).
  injection Hrun as <- _. unfold good_opts in *. by rewrite (Hf _ _ _ H1).
Qed.

Lemma read_macip_opts line s s' : read_macip line s = Ret s' ->
  c_options (cfg s') = c_options (cfg s).
Proof.
  intros Hrun. eapply (foreach_inv (fun x => c_options (cfg x) = c_options (cfg s)));
    [|exact Hrun|done].
  intros w x y Hb Hx. unfold read_macip_word in Hb. destruct (strsep w "$") as [m i].
  apply bind_Ret_inv in Hb as (ip & _ & Hb). apply bind_Ret_inv in Hb as (o & _ & Hb).
  injection Hb as <-. done.
Qed.
Lemma read_hostnameip_opts line s s' : read_hostnameip line s = Ret s' ->
  c_options (cfg s') = c_options (cfg s).
Proof.
  intros Hrun. eapply (foreach_inv (fun x => c_options (cfg x) = c_options (cfg s)));
    [|exact Hrun|done].
  intros w x y Hb Hx. unfold read_hostnameip_word in Hb. destruct (strsep w "$") as [m i].
  apply bind_Ret_inv in Hb as (ip & _ & Hb). apply bind_Ret_inv in Hb as (o & _ & Hb).
  injection Hb as <-. done.
Qed.
Lemma read_mac_index_opts line s s' : read_mac_index line s = Ret s' ->
  c_options (cfg s') = c_options (cfg s).
Proof.
  intros Hrun. apply bind_Ret_inv in Hrun as (s1 & H1 & Hrun). injection Hrun as <-. simpl.
  case_if; [|by injection H1 as <-].
  eapply (foreach_inv (fun x => c_options (cfg x) = c_options (cfg s))); [|exact H1|done].
  intros w x y Hb Hx. unfold read_mac_index_word in Hb. destruct (strsep w "$") as [m i].
  destruct i as [i|]; [destruct (strsep i "$") as [i' l]|];
    (case_if; [by injection Hb as <-|]);
    do 3 (apply bind_Ret_inv in Hb as (? & _ & Hb));
    apply bind_Ret_inv in Hb as (w' & _ & Hb); by injection Hb as <-.
Qed.

Lemma keywords_opts : Forall (fun k => keeps_opts (k_handler k)) keywords.
Proof.
  unfold keywords.
  repeat apply Forall_cons_2; try apply Forall_nil_2; cbn [k_handler];
    first [ apply h_opt_opts | apply h_ip_opts; done | apply h_str_opts; done
          | apply h_u32_opts; done | apply h_yn_opts; done
          | apply h_always_opts; first [ exact read_macip_opts | exact read_hostnameip_opts
                                       | exact read_mac_index_opts ] ].
Qed.

Lemma set_defaults_inv P ks : Forall (fun k => keeps P (k_handler k)) ks -> forall s s',
  set_defaults ks s = Ret s' -> P s -> P s'.
Proof.
  intros Hks. induction ks as [|k ks IH]; intros s s' Hrun Ho; cbn [set_defaults] in Hrun.
  { by injection Hrun as <-. }
  apply Forall_cons in Hks as [Hk Hks]. apply bind_Ret_inv in Hrun as (s1 & H1 & Hrun).
  apply (IH Hks _ _ Hrun). clear Hrun IH. case_if; [by injection H1 as <-|].
  apply bind_Ret_inv in H1 as ([s2 b] & H2 & H1). injection H1 as <-. by eapply Hk.
Qed.

Lemma run_keywords_inv P ks tok line : Forall (fun k => keeps P (k_handler k)) ks -> forall s s',
  run_keywords ks tok line s = Ret s' -> P s -> P s'.
Proof.
  intros Hks. induction ks as [|k ks IH]; intros s s' Hrun Ho; cbn [run_keywords] in Hrun.
  { by injection Hrun as <-. }
  apply Forall_cons in Hks as [Hk Hks]. apply bind_Ret_inv in Hrun as (s1 & H1 & Hrun).
  apply (IH Hks _ _ Hrun). case_if; [|by injection H1 as <-].
  apply bind_Ret_inv in H1 as ([s2 b] & H2 & H1). pose proof (Hk _ _ _ _ H2 Ho) as Ho2.
  cbn [fst snd] in H1. destruct b; [by injection H1 as <-|].
  apply bind_Ret_inv in H1 as ([s3 b'] & H3 & H1). injection H1 as <-. by eapply Hk.
Qed.

Lemma run_lines_inv P ls : Forall (fun k => keeps P (k_handler k)) keywords ->
  forall s s', run_lines ls s = Ret s' -> P s -> P s'.
Proof.
  intros Hks. induction ls as [|l ls IH]; intros s s' Hrun Ho; cbn [run_lines] in Hrun.
  { by injection Hrun as <-. }
  apply bind_Ret_inv in Hrun as (s1 & H1 & Hrun). apply (IH _ _ Hrun).
  destruct (split_line l) as [[tok arg]|]; [|by injection H1 as <-].
  by eapply run_keywords_inv.
Qed.

Lemma read_config_inv P path s s' b : Forall (fun k => keeps P (k_handler k)) keywords ->
  read_config path s = Ret (s', b) -> P (clear_tables s) -> P s'.
Proof.
  intros Hks Hrun Ho. unfold read_config in Hrun. apply bind_Ret_inv in Hrun as (s1 & H1 & Hrun).
  apply (set_defaults_inv P) in H1; [|done|done].
  destruct (file_contents path); [|by injection Hrun as <- _].
  apply bind_Ret_inv in Hrun as (s2 & H2 & Hrun). injection Hrun as <- _.
  by eapply (run_lines_inv P).
Qed.

(** Whatever the configuration file says, the options read_config leaves
    are well-formed and sorted by code: the lists sendOffer, sendACK and
    send_inform copy into packets are always usable. *)
Theorem read_config_options path s s' b :
  opts_ok (c_options (cfg s)) -> read_config path s = Ret (s', b) ->
  opts_ok (c_options (cfg s')).
Proof.
  intros Ho Hrun. apply (read_config_inv good_opts path s s' b); [apply keywords_opts|done|done].
Qed.

(** The addresses of the static and shared tables. *)
Definition good_tables (s : server) : Prop :=
  Forall (fun m => is_u32 (m_ipaddr m)) (mac_ip s) /\
  Forall (fun h => is_u32 (h_ipaddr h)) (hostname_ip s) /\
  Forall (fun w => is_u32 (w_ipaddr w)) (share_wan_ip s).

Lemma keeps_cfg_only h : (forall line s s' b, h line s = Ret (s', b) -> exists f, s' = upd_cfg f s) ->
  keeps good_tables h.
Proof. intros Hh line s s' b Hrun Hg. by apply Hh in Hrun as [f ->]. Qed.

Lemma upd_cfg_id s : s = upd_cfg (fun c => c) s.
Proof. by destruct s. Qed.

Lemma h_ip_tables set : keeps good_tables (h_ip set).
Proof.
  apply keeps_cfg_only. intros line s s' b Hrun. unfold h_ip in Hrun.
  destruct (read_ip line); injection Hrun as <- _; [by eexists|]. eexists. apply upd_cfg_id.
Qed.
Lemma h_str_tables set : keeps good_tables (h_str set).
Proof. apply keeps_cfg_only. intros line s s' b Hrun. injection Hrun as <- _. by eexists. Qed.
Lemma h_u32_tables set : keeps good_tables (h_u32 set).
Proof.
  apply keeps_cfg_only. intros line s s' b Hrun. unfold h_u32 in Hrun. destruct (read_u32 line).
  injection Hrun as <- _. by eexists.
Qed.
Lemma h_yn_tables set : keeps good_tables (h_yn set).
Proof.
  apply keeps_cfg_only. intros line s s' b Hrun. unfold h_yn in Hrun.
  destruct (read_yn line); injection Hrun as <- _; [by eexists|]. eexists. apply upd_cfg_id.
Qed.
Lemma h_opt_tables : keeps good_tables h_opt.
Proof.
  apply keeps_cfg_only. intros line s s' b Hrun. unfold h_opt in Hrun.
  destruct (read_opt line _). injection Hrun as <- _. by eexists.
Qed.
Lemma h_always_tables f :
  (forall line s s', f line s = Ret s' -> good_tables s -> good_tables s') ->
  keeps good_tables (h_always f).
Proof.
  intros Hf line s s' b Hrun Hg. apply bind_Ret_inv in Hrun as (s1 & H1 & Hrun).
  injection Hrun as <- _. by eapply Hf.
Qed.

Lemma read_macip_tables line s s' : read_macip line s = Ret s' -> good_tables s -> good_tables s'.
Proof.
  apply foreach_inv. intros w x y Hb (Hm & Hh & Hs). unfold read_macip_word in Hb.
  destruct (strsep w "$") as [m i].
  apply bind_Ret_inv in Hb as (a & _ & Hb). apply bind_Ret_inv in Hb as (o & _ & Hb).
  injection Hb as <-. split_and!; [|done|done]. simpl. apply Forall_insert; [done|].
  apply inet_addr_u32.
Qed.
Lemma read_hostnameip_tables line s s' : read_hostnameip line s = Ret s' ->
  good_tables s -> good_tables s'.
Proof.
  apply foreach_inv. intros w x y Hb (Hm & Hh & Hs). unfold read_hostnameip_word in Hb.
  destruct (strsep w "$") as [m i].
  apply bind_Ret_inv in Hb as (a & _ & Hb). apply bind_Ret_inv in Hb as (o & _ & Hb).
  injection Hb as <-. split_and!; [done| |done]. simpl. apply Forall_insert; [done|].
  apply inet_addr_u32.
Qed.
Lemma read_mac_index_tables line s s' : read_mac_index line s = Ret s' ->
  good_tables s -> good_tables s'.
Proof.
  intros Hrun Hg. apply bind_Ret_inv in Hrun as (s1 & H1 & Hrun). injection Hrun as <-.
  change (good_tables s1). case_if; [|by injection H1 as <-].
  eapply foreach_inv; [|exact H1|done].
  intros w x y Hb (Hm & Hh & Hs). unfold read_mac_index_word in Hb. destruct (strsep w "$") as [m i].
  destruct i as [i|]; [destruct (strsep i "$") as [i' l]|];
    (case_if; [by injection Hb as <-|]);
    do 3 (apply bind_Ret_inv in Hb as (? & _ & Hb));
    apply bind_Ret_inv in Hb as ([w' r] & Hw & Hb); injection Hb as <-;
    apply get_wanip_u32 in Hw as [Hw _]; (split_and!; [done|done|]);
    by apply share_insert_u32.
Qed.

Lemma keywords_tables : Forall (fun k => keeps good_tables (k_handler k)) keywords.
Proof.
  unfold keywords.
  repeat apply Forall_cons_2; try apply Forall_nil_2; cbn [k_handler];
    first [ apply h_opt_tables | apply h_ip_tables | apply h_str_tables
          | apply h_u32_tables | apply h_yn_tables
          | apply h_always_tables; first [ exact read_macip_tables | exact read_hostnameip_tables
                                         | exact read_mac_index_tables ] ].
Qed.

Lemma read_config_tables path s s' b : read_config path s = Ret (s', b) -> good_tables s'.
Proof.
  intros Hrun. eapply (read_config_inv good_tables); [apply keywords_tables|exact Hrun|].
  split_and!; apply Forall_replicate; by vm_compute.
Qed.

(** ** The other operations keep the invariant of the server *)

Lemma ok_write_leases s s' : write_leases s = Ret s' -> ok_step s s'.
Proof.
  unfold write_leases. intros Hrun. case_if; [by injection Hrun as <-|]. cbv zeta in Hrun.
  match type of Hrun with context [emit ?e s] => set (s1 := emit e s) in Hrun end.
  etrans; [apply (ok_emit (WriteBytes (c_lease_file (cfg s)) (concat (lease_record s <$> leases s))))|].
  fold s1. change (cfg s) with (cfg s1) in Hrun.
  destruct (c_notify_file (cfg s1)); [|by injection Hrun as <-]. case_if; [done|].
  injection Hrun as <-. apply ok_emit.
Qed.

Lemma ok_delete_leases junk s s' : delete_leases junk s = Ret s' -> ok_step s s'.
Proof.
  unfold delete_leases. intros Hrun. case_if; [done|]. injection Hrun as <-. intros Hs.
  apply ok_same_but_table; [done| |by apply length_fmap|done].
  destruct (wf_table s Hs) as [Hok Hu]. cbn [leases with_leases].
  set (f := fun l : dhcpOfferedAddr => _).
  assert (Hf : forall l, f l = l \/ f l = zero_lease).
  { intros l. unfold f. destruct (_ && _); auto. }
  split; [|by apply uniq_fmap]. apply Forall_fmap. eapply Forall_impl; [exact Hok|].
  intros l Hl. simpl. destruct (Hf l) as [-> | ->]; [done|apply zero_lease_ok].
Qed.

Lemma restored_name_length h : length (restored_name h) = 64%nat.
Proof. unfold restored_name. rewrite length_app, strncpy_buf_length. done. Qed.

Lemma ok_read_leases_loop fuel : forall file i s s', Forall is_u8 file ->
  read_leases_loop fuel file i s = Ret s' -> ok_step s s'.
Proof.
  induction fuel as [|fuel IH]; intros file i s s' Hu Hrun; [done|].
  cbn [read_leases_loop] in Hrun. case_if; [by injection Hrun as <-|].
  destruct (Nat.ltb_spec (length file) 88) as [|Hlen]; [by injection Hrun as <-|].
  cbv zeta in Hrun. assert (Hd : Forall is_u8 (drop 88 file)) by by apply Forall_drop.
  case_if; [by eapply IH|].
  set (l := lease_of_bytes (take 88 file)) in *.
  assert (Hlt : length (take 88 file) = 88%nat) by (rewrite length_take; lia).
  assert (Hc : length (l_chaddr l) = 16%nat) by (apply field_length; lia).
  assert (Hy : is_u32 (l_yiaddr l)).
  { unfold l, lease_of_bytes. cbn [l_yiaddr].
    assert (Hf : length (field 16 4 (take 88 file)) = 4%nat) by (apply field_length; lia).
    assert (Hfu : Forall is_u8 (field 16 4 (take 88 file))) by by apply field_u8, Forall_take.
    destruct (field 16 4 (take 88 file)) as [|b0 [|b1 [|b2 [|b3 [|]]]]]; try done.
    repeat (apply Forall_cons in Hfu as [? Hfu]). by apply u32_of_mem_range. }
  match type of Hrun with context [add_lease _ _ ?e s] =>
    pose proof (ok_add_lease (l_chaddr l) (l_yiaddr l) e s Hc Hy) as Ha;
    destruct (add_lease (l_chaddr l) (l_yiaddr l) e s) as [s1 [k|]] end;
    cbn [fst] in Ha; [|by injection Hrun as <-].
  apply IH in Hrun; [|done]. etrans; [exact Ha|]. etrans; [|exact Hrun].
  apply ok_upd_lease.
  - intros x (? & ? & ? & ?). split_and!; try done. apply restored_name_length.
  - intros x. split; by right.
Qed.

Lemma read_leases_loop_cfg fuel : forall file i s s',
  read_leases_loop fuel file i s = Ret s' -> cfg s' = cfg s.
Proof.
  induction fuel as [|fuel IH]; intros file i s s' Hrun; [done|].
  cbn [read_leases_loop] in Hrun. case_if; [by injection Hrun as <-|].
  case_if; [by injection Hrun as <-|]. cbv zeta in Hrun. case_if; [by eapply IH|].
  match type of Hrun with context [add_lease ?c ?y ?e s] =>
    pose proof (add_lease_same c y e s) as [Ha _]; destruct (add_lease c y e s) as [s1 [k|]] end;
    cbn [fst] in Ha; [|injection Hrun as <-; done].
  apply IH in Hrun. rewrite Hrun. done.
Qed.
End Config.

(** ** Concrete runs *)
Module DemoFiles.
Import DemoServer.
Definition before : server := upd_cfg (set_max_leases 4) (state (ip 192 168 1 100) table).
Definition after : server := with_clock 30 (with_leases (replicate 4 zero_lease) before).

Definition nl : string := String "010" "".
Definition conf : string :=
  ("start 192.168.1.100" +:+ nl +:+ "end 192.168.1.149" +:+ nl +:+
   "option dns 1.2.3.4 5.6.7.8" +:+ nl +:+ "option subnet 255.255.255.0" +:+ nl +:+
   "max_leases abc # default" +:+ nl +:+ "macip 00:11:22:33:44:55$192.168.1.9" +:+ nl)%string.
#[local] Instance env : Env :=
  {| arpping _ t := (1, t + 2); send_result _ := 1; file_contents _ := Some conf;
     can_write _ := true; nvram_get _ := None; gethostbyname _ := None |}.
Definition empty : server := upd_cfg (Files.set_options []) before.
Definition configured : server :=
  match read_config "/tmp/udhcpd.conf" empty with Ret (s, _) => s | _ => empty end.

Lemma configured_run : read_config "/tmp/udhcpd.conf" empty = Ret (configured, true).
Proof. vm_compute. reflexivity. Qed.

Lemma configured_values :
  c_options (cfg configured) =
    [[1; 4; 255; 255; 255; 0]; [6; 8; 1; 2; 3; 4; 5; 6; 7; 8]] /\
  c_max_leases (cfg configured) = 254 /\
  find_ip_by_mac [0; 17; 34; 51; 68; 85] configured = ip 192 168 1 9.
Proof. vm_compute. done. Qed.
End DemoFiles.
Import DemoServer DemoFiles.

Lemma leases_roundtrip_witness :
  exists data s', write_leases before = Ret (emit (WriteBytes "/tmp/udhcpd.leases" data) before) /\
    read_leases (Some data) after = Ret s' /\
    leases s' = (restore before 30 <$> kept (leases before)) ++ replicate 2 zero_lease.
Proof.
  apply (leases_roundtrip before after).
  - by apply table_wfb_ok; vm_compute.
  - done.
  - done.
  - by vm_compute.
  - by vm_compute.
  - done.
  - done.
  - change (kept (leases before)) with (take 2 table).
    repeat apply Forall_cons_2; [split; by vm_compute|split; by vm_compute|constructor].
  - done.
  - done.
Defined.

Lemma attach_option_ok_witness :
  find_option (attach_option [[3; 4; 1; 1; 1; 1]] (DOpt "router" OPTION_IP true true 3)
    [2; 2; 2; 2] 4) 3 = Some [3; 8; 1; 1; 1; 1; 2; 2; 2; 2].
Proof.
  destruct (attach_option_ok [[3; 4; 1; 1; 1; 1]] (DOpt "router" OPTION_IP true true 3)
    [2; 2; 2; 2]) as [_ (v & Hv & E)].
  - split; [|repeat constructor]. repeat constructor. exists 3, [1; 1; 1; 1].
    split; [done|]. unfold opt_ok, DHCP_OPTION_OVER. simpl. lia.
  - unfold code_ok, DHCP_OPTION_OVER. simpl. lia.
  - simpl. lia.
  - unfold enc1 in Hv. cbn in Hv. injection Hv as _ <-. exact E.
Defined.

Lemma read_config_options_witness : opts_ok (c_options (cfg configured)).
Proof.
  apply (@read_config_options env "/tmp/udhcpd.conf" empty configured true).
  - split; constructor.
  - exact configured_run.
Defined.
