(* ===== verification/DhcpDaemon.v ===== *)
(** * The DHCP server process (udhcpd_main in src/router/udhcpd/dhcpd.c)

    Start-up and the event loop as a transition system. [select] and the signal
    pipe are the environment: an event is what one turn of the loop finds. *)

From Stdlib Require Import ZArith Lia Ascii.
From stdpp Require Import base numbers sets strings list.
From S2P Require Import Prelude CString DhcpOptions DhcpLeases MacIp DhcpPacket DhcpServer DhcpFiles.
Import Options Leases Static Packet Reply Dispatch Files.
Open Scope string_scope.
Open Scope Z_scope.
Open Scope list_scope.

Module Daemon.

(** The process: the globals of the server and [timeout_end]. *)
Record process := Process { srv : server; timeout_end : Z }.

Inductive event :=
  | Timeout
  | SigUsr1
  | SigUsr2 (junk : Z)
  | SigTerm
  | SelectError
  | Datagram (data : option (list Z)).

Definition LEASE_TIME : Z := 60 * 60 * 24 * 10.

Section WithEnv.
Context `{Env}.

(** The lease time: the configured option or ten days. *)
Definition start_lease (s : server) : outcome server :=
  match find_option (c_options (cfg s)) DHCP_LEASE_TIME with
  | Some d => v ← rd_n d 2 4; Ret (upd_cfg (set_lease (ntohl (u32_of_mem v))) s)
  | None => Ret (upd_cfg (set_lease LEASE_TIME) s)
  end.

Definition zero_config : server_config_t :=
  Config 0 0 0 [] "" 0 (replicate 6 0) 0 0 0 0 0 0 0 0 "" "" None 0 None None 0 0 0.

Definition zero_server (now : Z) : server :=
  Server zero_config [] (replicate MAX_NUM (MacIp 0 no_mac)) 0
    (replicate MAX_NUM (HostIp 0 (replicate 64 0))) 0
    (replicate 2 (Share 0 no_mac 0 0 0)) 0 0 (replicate 16 0) 0 0 now [].

(** Start-up; [iface] is what [read_interface] found: index, address and hardware
    address; [lease_data] the contents of the lease file. *)
Definition start (conf : string) (lease_data : option (list Z))
    (iface : option (Z * Z * list Z)) (now : Z) : outcome process :=
  r ← read_config conf (zero_server now);
  let s := r.1 in
  let single := 0 <? s32 (c_single_pc_mode (cfg s)) in
  let s := if single then clear_sharewanip_mac s else s in
  s ← start_lease s;
  let s := with_leases (replicate (Z.to_nat (c_max_leases (cfg s))) zero_lease) s in
  s ← read_leases lease_data s;
  match iface with
  | None => Exit 1
  | Some (ifindex, addr, arp) =>
      let s := upd_cfg (fun c => set_ifindex ifindex (set_server addr (set_arp arp c))) s in
      let s := if single then
                 emit (Eval ["iptables"; "-A"; "FORWARD"; "-i"; "br0"; "-j"; "DROP"])
                   (emit (Eval ["iptables"; "-F"]) s)
               else s in
      Ret (Process s (u32 (now + c_auto_time (cfg s))))
  end.

(** One turn of the loop at time [now]; [Exit] ends the process. *)
Definition step (now : Z) (e : event) (p : process) : outcome process :=
  let s := with_clock now (srv p) in
  let reset s := Process s (u32 (clock s + c_auto_time (cfg s))) in
  match e with
  | Timeout => s ← write_leases s; Ret (reset s)
  | SigUsr1 => s ← write_leases s; Ret (reset s)
  | SigUsr2 junk => s ← delete_leases junk s; Ret (Process s (timeout_end p))
  | SigTerm => Exit 0
  | SelectError => Ret (Process s (timeout_end p))
  | Datagram data => s ← receive data s; Ret (Process s (timeout_end p))
  end.

End WithEnv.

(** The processes that can be reached; every turn has its own environment. *)
Inductive reachable (p0 : process) : process -> Prop :=
  | reach_start : reachable p0 p0
  | reach_step env now e p p' :
      reachable p0 p -> is_u32 now ->
      (match e with Datagram (Some data) => Forall is_u8 data | _ => True end) ->
      @step env now e p = Ret p' -> reachable p0 p'.

End Daemon.
