(* ===== verification/DhcpDaemonProofs.v ===== *)
(** * The DHCP server process keeps its invariant *)

From Stdlib Require Import ZArith Lia Ascii.
From stdpp Require Import base numbers sets strings list.
From S2P Require Import Prelude CString DhcpOptions DhcpOptionsProofs DhcpLeases DhcpLeasesProofs MacIp DhcpPacket DhcpPacketProofs DhcpServer DhcpServerProofs DhcpFiles DhcpFilesProofs DhcpDaemon.
Import Options Leases Static Packet Reply Dispatch Files Daemon.
Open Scope Z_scope.

(** Conversion unfolds the packet reader last. *)
Strategy 500 [dispatch].
Strategy 1000 [get_option check_packet].
Strategy 2000 [get_packet read_message].

Lemma ok_clock t s : ok_step s (with_clock t s).
Proof. by apply ok_step_same. Qed.

Section Step.
Context `{Env}.

Lemma ok_dispatch p s s' : msg_wf p -> is_u32 (clock s) -> dispatch p s = Ret s' -> ok_step s s'.
Proof.
  intros Hp Ht Hrun. unfold dispatch in Hrun.
  apply bind_Ret_inv in Hrun as ([q|] & _ & Hrun); [|by injection Hrun as <-].
  apply bind_Ret_inv in Hrun as (type & _ & Hrun). cbv zeta in Hrun.
  case_if; [by eapply ok_handle_discover|]. case_if; [by eapply ok_handle_request|].
  case_if; [by eapply ok_handle_decline|]. case_if; [by eapply ok_handle_release|].
  case_if; [|by injection Hrun as <-].
  apply bind_Ret_inv in Hrun as ([s1 r] & H1 & Hrun). injection Hrun as <-.
  by eapply ok_send_inform.
Qed.

Lemma ok_receive data s s' : Forall is_u8 data -> is_u32 (clock s) ->
  receive (Some data) s = Ret s' -> ok_step s s'.
Proof.
  intros Hu Ht Hrun. unfold receive in Hrun. apply bind_Ret_inv in Hrun as ([n m] & Hm & Hrun).
  cbn [fst snd] in Hrun. rewrite get_packet_Some in Hm.
  destruct (Z.ltb_spec n 0); [by injection Hrun as <-|].
  destruct (check_packet_cases _ _ _ _ Hm) as (_ & _ & f & ->); [done|].
  eapply ok_dispatch; [|done|exact Hrun]. apply set_flags_wf. by apply read_message_wf.
Qed.

Lemma ok_turn now e p p' : is_u32 now ->
  (match e with Datagram (Some data) => Forall is_u8 data | _ => True end) ->
  step now e p = Ret p' -> ok_step (srv p) (srv p').
Proof.
  intros Ht He Hrun. etrans; [apply (ok_clock now)|]. unfold step in Hrun. cbv zeta in Hrun.
  destruct e as [| |junk| | |[data|]].
  - apply bind_Ret_inv in Hrun as (s1 & H1 & Hrun). injection Hrun as <-. by eapply ok_write_leases.
  - apply bind_Ret_inv in Hrun as (s1 & H1 & Hrun). injection Hrun as <-. by eapply ok_write_leases.
  - apply bind_Ret_inv in Hrun as (s1 & H1 & Hrun). injection Hrun as <-. by eapply ok_delete_leases.
  - done.
  - by injection Hrun as <-.
  - apply bind_Ret_inv in Hrun as (s1 & H1 & Hrun). injection Hrun as <-. by eapply ok_receive.
  - by injection Hrun as <-.
Qed.

(** ** Start-up *)

Lemma start_lease_frame s s' : start_lease s = Ret s' ->
  exists v, s' = upd_cfg (set_lease v) s.
Proof.
  unfold start_lease. intros Hrun. destruct (find_option _ _) as [d|].
  - apply bind_Ret_inv in Hrun as (v & _ & Hrun). injection Hrun as <-. by eexists.
  - injection Hrun as <-. by eexists.
Qed.

Lemma table_wf_zero n : table_wf (replicate n zero_lease).
Proof.
  split; [apply Forall_replicate, zero_lease_ok|]. intros i j a b Ha _ Hc.
  apply lookup_replicate in Ha as [-> _]. by apply clash_zero_l in Hc.
Qed.

Lemma start_wf_aux conf data iface now p :
  match data with Some d => Forall is_u8 d | None => True end ->
  start conf data iface now = Ret p ->
  ntohl (c_end (cfg (srv p))) < 2 ^ 32 - 1 -> srv_wf (srv p).
Proof.
  intros Hd Hrun Hend. unfold start in Hrun.
  apply bind_Ret_inv in Hrun as ([s1 b1] & H1 & Hrun). apply read_config_tables in H1.
  cbv zeta in Hrun. cbn [fst] in Hrun.
  match type of Hrun with (start_lease ?x ≫= _) = _ => set (s2 := x) in Hrun end.
  assert (Hg2 : good_tables s2).
  { unfold s2. case_if; [|done]. destruct H1 as (Hm & Hh & Hs). split_and!; [done|done|].
    cbn. apply Forall_alter; [done|]. by intros w Hw. }
  clearbody s2. apply bind_Ret_inv in Hrun as (s3 & H3 & Hrun).
  apply start_lease_frame in H3 as [v ->].
  apply bind_Ret_inv in Hrun as (s4 & H4 & Hrun).
  destruct iface as [[[idx addr] arp]|]; [|done]. injection Hrun as <-.
  set (s3 := with_leases _ _) in H4.
  assert (H4' : ok_step s3 s4).
  { unfold read_leases in H4. destruct data as [d|]; [|by injection H4 as <-].
    by eapply ok_read_leases_loop. }
  assert (Hsame : forall b, srv_wf s4 -> srv_wf (if b : bool then
      emit (Eval ["iptables"; "-A"; "FORWARD"; "-i"; "br0"; "-j"; "DROP"]%string)
       (emit (Eval ["iptables"; "-F"]%string) (upd_cfg (fun c => set_ifindex idx
          (set_server addr (set_arp arp c))) s4))
     else upd_cfg (fun c => set_ifindex idx (set_server addr (set_arp arp c))) s4)).
  { intros b [W1 W2 W3 W4 W5]. destruct b; by constructor. }
  apply Hsame, H4'. destruct Hg2 as (Hm & Hh & Hs). constructor; try done.
  - apply table_wf_zero.
  - revert Hend. pose proof H4' as H5.
    assert (E : c_end (cfg s4) = c_end (cfg s3)).
    { unfold read_leases in H4. destruct data as [d|]; [|by injection H4 as <-].
      apply read_leases_loop_cfg in H4. by rewrite H4. }
    rewrite <- E. by case_if.
Qed.
End Step.

(** C6. From start-up on, whatever the configuration and lease files hold and
    whatever packets, signals and timeouts arrive in whatever order, the process
    keeps its invariant: no IP address and no hardware address is in two slots
    of the lease table. *)
Theorem udhcpd_invariant env conf data iface now p0 p :
  match data with Some d => Forall is_u8 d | None => True end ->
  @start env conf data iface now = Ret p0 ->
  ntohl (c_end (cfg (srv p0))) < 2 ^ 32 - 1 ->
  reachable p0 p ->
  srv_wf (srv p) /\ cfg (srv p) = cfg (srv p0) /\
  length (leases (srv p)) = length (leases (srv p0)).
Proof.
  intros Hd Hrun Hend Hr. pose proof (@start_wf_aux env _ _ _ _ _ Hd Hrun Hend) as H0.
  revert H0. change (ok_step (srv p0) (srv p)).
  induction Hr as [|env' t e p1 p2 _ IH Ht He Hs]; [done|].
  etrans; [exact IH|]. by eapply (@ok_turn env').
Qed.

(** ** A concrete run: start, serve a DISCOVER, save the leases *)
Module DemoDaemon.
Import DemoServer DemoRun DemoFiles.
#[local] Instance net : Env :=
  {| arpping _ t := (1, t + 2); send_result _ := 1; file_contents _ := Some conf;
     can_write _ := true; nvram_get _ := None; gethostbyname _ := None |}.
Definition boot : outcome process :=
  Daemon.start "/tmp/udhcpd.conf" None (Some (3, ip 192 168 1 1, [0; 18; 23; 1; 2; 3])) 20.
Definition p0 : process := match boot with Ret p => p | _ => Process DemoRun.start 0 end.
Definition p1 : process :=
  match step 25 (Datagram (Some (msg_bytes discover))) p0 with Ret p => p | _ => p0 end.
Lemma boot_run : Daemon.start "/tmp/udhcpd.conf" None
  (Some (3, ip 192 168 1 1, [0; 18; 23; 1; 2; 3])) 20 = Ret p0.
Proof. vm_compute. reflexivity. Qed.
Lemma serve_run : step 25 (Datagram (Some (msg_bytes discover))) p0 = Ret p1.
Proof. vm_compute. reflexivity. Qed.
End DemoDaemon.
Import DemoDaemon.

Lemma udhcpd_invariant_witness : srv_wf (srv p1) /\ cfg (srv p1) = cfg (srv p0) /\
  length (leases (srv p1)) = length (leases (srv p0)).
Proof.
  apply (udhcpd_invariant net "/tmp/udhcpd.conf" None
           (Some (3, DemoServer.ip 192 168 1 1, [0; 18; 23; 1; 2; 3])) 20 p0 p1).
  - exact I.
  - exact boot_run.
  - by vm_compute.
  - eapply (reach_step p0 net 25 (Datagram (Some (msg_bytes DemoRun.discover))) p0 p1).
    + apply reach_start.
    + by vm_compute.
    + by apply all_u8_ok; vm_compute.
    + exact serve_run.
Defined.
