(* ===== verification/DhcpClient.v ===== *)
(** * The DHCP client (src/router/udhcpd/clientpacket.c, dhcpc.c)

    [Module ClientPacket] builds the messages of the client and reads frames
    from its raw socket; [Module Client] is the state machine of udhcpc_main. One
    turn of its loop takes the time when the turn begins, what [select] finds and
    the time after it. The pid file, the log and the path of the script are left
    out; a script that is run, a packet that is sent, a variable that is set and
    the like are the effects of a turn. *)

From Stdlib Require Import ZArith Lia Ascii.
From stdpp Require Import base numbers sets strings list.
From S2P Require Import Prelude CString DhcpOptions DhcpPacket.
Import Options Packet.
Open Scope string_scope.
Open Scope Z_scope.
Open Scope list_scope.

Module ClientPacket.

(** [struct client_config_t]; [clientid] and [hostname] are whole options. *)
Record client_config_t := CConfig {
  foreground : bool;
  quit_after_lease : bool;
  abort_if_no_lease : bool;
  background_if_no_lease : bool;
  interface : string;
  clientid : list Z;
  hostname : option (list Z);
  arp : list Z                   (* 6 bytes *)
}.

(** ** Messages *)

Definition vendor_id : list Z := DHCP_VENDOR :: 12 :: bytes_of "dslforum.org".

Definition set_xid (x : Z) (m : dhcpMessage) : dhcpMessage :=
  Message (op m) (htype m) (hlen m) (hops m) x (secs m) (flags m) (ciaddr m)
    (yiaddr m) (siaddr m) (giaddr m) (chaddr m) (sname m) (file m) (cookie m) (options m).
Definition set_ciaddr (c : Z) (m : dhcpMessage) : dhcpMessage :=
  Message (op m) (htype m) (hlen m) (hops m) (xid m) (secs m) (flags m) c
    (yiaddr m) (siaddr m) (giaddr m) (chaddr m) (sname m) (file m) (cookie m) (options m).
Definition set_chaddr (c : list Z) (m : dhcpMessage) : dhcpMessage :=
  Message (op m) (htype m) (hlen m) (hops m) (xid m) (secs m) (flags m) (ciaddr m)
    (yiaddr m) (siaddr m) (giaddr m) c (sname m) (file m) (cookie m) (options m).

Definition init_packet (cf : client_config_t) (type : Z) : outcome dhcpMessage :=
  p ← init_header type;
  let p := set_chaddr (arp cf ++ drop 6 (chaddr p)) p in
  p ← msg_add_string (clientid cf) p;
  p ← match hostname cf with Some h => msg_add_string h p | None => Ret p end;
  msg_add_string vendor_id p.

(** Bytes stored behind the last option without a check; past the end of the
    options is past the end of the message. *)
Definition put_end (s : list Z) (p : dhcpMessage) : outcome dhcpMessage :=
  e ← end_option (options p);
  if 308 <? e + Z.of_nat (length s) then Fault else Ret (set_options (blit (options p) e s) p).

Definition requested_codes : list Z := o_code <$> filter (fun o => o_req o = true) options_table.

Definition add_requests (p : dhcpMessage) : outcome dhcpMessage :=
  put_end (DHCP_PARAM_REQ :: Z.of_nat (length requested_codes) :: requested_codes ++ [DHCP_END]) p.

(** What is handed to raw_packet or kernel_packet: source and destination. *)
Inductive sending :=
  | Raw (payload : dhcpMessage) (source_ip dest_ip : Z)
  | Kernel (payload : dhcpMessage) (source_ip dest_ip : Z).

Definition INADDR_ANY : Z := 0.
Definition INADDR_BROADCAST : Z := 2 ^ 32 - 1.

Section Messages.
Context (cf : client_config_t).

Definition send_discover (x requested : Z) : outcome sending :=
  p ← init_packet cf DHCPDISCOVER;
  let p := set_xid x p in
  p ← (if requested =? 0 then Ret p else msg_add_simple DHCP_REQUESTED_IP requested p);
  p ← add_requests p;
  Ret (Raw p INADDR_ANY INADDR_BROADCAST).

Definition send_information (x server ciaddr : Z) : outcome sending :=
  p ← init_packet cf DHCPINFORM;
  p ← put_end [DHCP_PARAM_REQ; 1; 0x2b; DHCP_END] (set_ciaddr ciaddr (set_xid x p));
  Ret (Raw p ciaddr INADDR_BROADCAST).

Definition send_selecting (x server requested : Z) : outcome sending :=
  p ← init_packet cf DHCPREQUEST;
  p ← msg_add_simple DHCP_REQUESTED_IP requested (set_xid x p);
  p ← msg_add_simple DHCP_SERVER_ID server p;
  p ← add_requests p;
  Ret (Raw p INADDR_ANY INADDR_BROADCAST).

Definition send_renew (x server ciaddr : Z) : outcome sending :=
  p ← init_packet cf DHCPREQUEST;
  p ← add_requests (set_ciaddr ciaddr (set_xid x p));
  Ret (if server =? 0 then Raw p INADDR_ANY INADDR_BROADCAST else Kernel p ciaddr server).

Definition send_release (x server ciaddr : Z) : outcome sending :=
  p ← init_packet cf DHCPRELEASE;
  p ← msg_add_simple DHCP_REQUESTED_IP ciaddr (set_ciaddr ciaddr (set_xid x p));
  p ← msg_add_simple DHCP_SERVER_ID server p;
  Ret (Kernel p ciaddr server).
End Messages.

(** ** get_raw_packet

    The frame is read into a zeroed [struct udp_dhcp_packet]; the payload keeps
    its bytes behind the message received. The result is the length, -1 or -2,
    and the bytes of the payload. *)
Definition sizeof_frame : nat := 576.
Definition frame_buf (data : list Z) : list Z :=
  take sizeof_frame data ++ replicate (sizeof_frame - length data) 0.

Definition f16 (off : nat) (b : list Z) : Z := u16_of_mem (field off 2 b).
Definition f32 (off : nat) (b : list Z) : Z := u32_of_mem (field off 4 b).

(** Protocol, version, header length, port and lengths. *)
Definition bogus (b : list Z) (bytes : Z) : bool :=
  negb (b !!! 9%nat =? IPPROTO_UDP) || negb (Z.shiftr (b !!! 0%nat) 4 =? 4) ||
  negb (Z.land (b !!! 0%nat) 15 =? 5) || negb (f16 22 b =? htons CLIENT_PORT) ||
  (576 <? bytes) || negb (ntohs (f16 24 b) =? bytes - 20).

Definition put (off : nat) (s b : list Z) : list Z := take off b ++ s ++ drop (off + length s) b.

Definition get_raw_packet (read : option (list Z)) (payload : list Z) : outcome (Z * list Z) :=
  match read with
  | None => Ret (-1, payload)
  | Some data =>
      let b := frame_buf data in
      let bytes := Z.of_nat (Nat.min (length data) sizeof_frame) in
      if bytes <? 28 then Ret (-2, payload) else
      let tot := ntohs (f16 2 b) in
      if bytes <? tot then Ret (-2, payload) else
      if bogus b tot then Ret (-2, payload) else
      ip_check ← checksum (take 20 (put 10 [0; 0] b));
      if negb (f16 10 b =? ip_check) then Ret (-1, payload) else
      let pseudo := ip_header 0 (f16 24 b) 0 IPPROTO_UDP 0 (f32 12 b) (f32 16 b)
                      ++ drop 20 (put 26 [0; 0] b) in
      udp_check ← checksum (take (Z.to_nat tot) pseudo);
      if negb (f16 26 b =? 0) && negb (f16 26 b =? udp_check) then Ret (-2, payload) else
      if tot - 28 <? 0 then Fault else
      let n := Z.to_nat (tot - 28) in
      let payload := take n (drop 28 b) ++ drop n payload in
      Ret (if ntohl (f32 236 payload) =? DHCP_MAGIC then tot - 28 else -2, payload)
  end.

End ClientPacket.

Module Client.
Import ClientPacket.

(** ** State *)

Inductive cl_state :=
  | INIT_SELECTING | REQUESTING | BOUND | RENEWING | REBINDING | INIT_REBOOT
  | RENEW_REQUESTED | RELEASED | ENDINFORM.
Inductive listen := LISTEN_NONE | LISTEN_KERNEL | LISTEN_RAW.
#[global] Instance cl_state_eq_dec : EqDecision cl_state.
Proof. solve_decision. Defined.
#[global] Instance listen_eq_dec : EqDecision listen.
Proof. solve_decision. Defined.

Inductive ceffect :=
  | Send (s : sending)
  | run_script (packet : option dhcpMessage) (name : string)
  | nvram_set (name value : string)
  | nvram_commit
  | kill_init (signal : string)
  | background.

(** The statics of dhcpc.c and the variables of udhcpc_main that outlive a turn
    of its loop. [lease] has no value before the first one is stored; [packet]
    is the buffer every packet is read into. *)
Record client := mk_client {
  state : cl_state;
  requested_ip : Z; server_addr : Z;
  dns_addr : Z; subnet_mask : Z; client_ip_lease : Z;
  timeout : Z; packet_num : Z;
  fd_open : bool; listen_mode : listen;
  t1 : Z; t2 : Z; cxid : Z; start : Z; lease : option Z;
  AutoDetect_start_time : Z; ReceivedOfferFlag : bool; AutoDetectFlag : bool;
  inform_enable : bool;
  manual_ciaddr : Z; manual_server : Z;
  packet : list Z;
  config : client_config_t;
  effects : list ceffect
}.

(** What the client asks of its surroundings; the variables and the random
    numbers may depend on what it did before. *)
Class World := {
  nvram_get : list ceffect -> string -> string;
  random_xid : list ceffect -> Z;
  socket_opens : list ceffect -> bool;       (* listen_socket, raw_socket *)
  log_opens : list ceffect -> bool           (* /tmp/D_DHCP.log *)
}.

Section Update.
Context (c : client).
Definition with_state (x : cl_state) (timeout' packet_num' : Z) : client :=
  mk_client x (requested_ip c) (server_addr c) (dns_addr c) (subnet_mask c) (client_ip_lease c)
    timeout' packet_num' (fd_open c) (listen_mode c) (t1 c) (t2 c) (cxid c) (start c) (lease c)
    (AutoDetect_start_time c) (ReceivedOfferFlag c) (AutoDetectFlag c) (inform_enable c)
    (manual_ciaddr c) (manual_server c) (packet c) (config c) (effects c).
Definition with_socket (o : bool) (m : listen) : client :=
  mk_client (state c) (requested_ip c) (server_addr c) (dns_addr c) (subnet_mask c)
    (client_ip_lease c) (timeout c) (packet_num c) o m (t1 c) (t2 c) (cxid c) (start c) (lease c)
    (AutoDetect_start_time c) (ReceivedOfferFlag c) (AutoDetectFlag c) (inform_enable c)
    (manual_ciaddr c) (manual_server c) (packet c) (config c) (effects c).
Definition with_times (a b s : Z) (l : option Z) : client :=
  mk_client (state c) (requested_ip c) (server_addr c) (dns_addr c) (subnet_mask c)
    (client_ip_lease c) (timeout c) (packet_num c) (fd_open c) (listen_mode c) a b (cxid c) s l
    (AutoDetect_start_time c) (ReceivedOfferFlag c) (AutoDetectFlag c) (inform_enable c)
    (manual_ciaddr c) (manual_server c) (packet c) (config c) (effects c).
Definition with_addr (x req srv : Z) : client :=
  mk_client (state c) req srv (dns_addr c) (subnet_mask c)
    (client_ip_lease c) (timeout c) (packet_num c) (fd_open c) (listen_mode c) (t1 c) (t2 c) x
    (start c) (lease c)
    (AutoDetect_start_time c) (ReceivedOfferFlag c) (AutoDetectFlag c) (inform_enable c)
    (manual_ciaddr c) (manual_server c) (packet c) (config c) (effects c).
Definition with_lan (dns mask l : Z) : client :=
  mk_client (state c) (requested_ip c) (server_addr c) dns mask l (timeout c) (packet_num c)
    (fd_open c) (listen_mode c) (t1 c) (t2 c) (cxid c) (start c) (lease c)
    (AutoDetect_start_time c) (ReceivedOfferFlag c) (AutoDetectFlag c) (inform_enable c)
    (manual_ciaddr c) (manual_server c) (packet c) (config c) (effects c).
Definition with_detect (t : Z) (received detect inform : bool) : client :=
  mk_client (state c) (requested_ip c) (server_addr c) (dns_addr c) (subnet_mask c)
    (client_ip_lease c) (timeout c) (packet_num c) (fd_open c) (listen_mode c) (t1 c) (t2 c)
    (cxid c) (start c) (lease c) t received detect inform
    (manual_ciaddr c) (manual_server c) (packet c) (config c) (effects c).
Definition with_manual (a b : Z) : client :=
  mk_client (state c) (requested_ip c) (server_addr c) (dns_addr c) (subnet_mask c)
    (client_ip_lease c) (timeout c) (packet_num c) (fd_open c) (listen_mode c) (t1 c) (t2 c)
    (cxid c) (start c) (lease c)
    (AutoDetect_start_time c) (ReceivedOfferFlag c) (AutoDetectFlag c) (inform_enable c)
    a b (packet c) (config c) (effects c).
Definition with_packet (p : list Z) : client :=
  mk_client (state c) (requested_ip c) (server_addr c) (dns_addr c) (subnet_mask c)
    (client_ip_lease c) (timeout c) (packet_num c) (fd_open c) (listen_mode c) (t1 c) (t2 c)
    (cxid c) (start c) (lease c)
    (AutoDetect_start_time c) (ReceivedOfferFlag c) (AutoDetectFlag c) (inform_enable c)
    (manual_ciaddr c) (manual_server c) p (config c) (effects c).
Definition with_config (cf : client_config_t) : client :=
  mk_client (state c) (requested_ip c) (server_addr c) (dns_addr c) (subnet_mask c)
    (client_ip_lease c) (timeout c) (packet_num c) (fd_open c) (listen_mode c) (t1 c) (t2 c)
    (cxid c) (start c) (lease c)
    (AutoDetect_start_time c) (ReceivedOfferFlag c) (AutoDetectFlag c) (inform_enable c)
    (manual_ciaddr c) (manual_server c) (packet c) cf (effects c).
Definition emit (e : ceffect) : client :=
  mk_client (state c) (requested_ip c) (server_addr c) (dns_addr c) (subnet_mask c)
    (client_ip_lease c) (timeout c) (packet_num c) (fd_open c) (listen_mode c) (t1 c) (t2 c)
    (cxid c) (start c) (lease c)
    (AutoDetect_start_time c) (ReceivedOfferFlag c) (AutoDetectFlag c) (inform_enable c)
    (manual_ciaddr c) (manual_server c) (packet c) (config c) (effects c ++ [e]).
End Update.

Definition set_timeout (t : Z) (c : client) : client := with_state c (state c) t (packet_num c).
Definition FOREVER : Z := 0x7fffffff.

Definition is_br0 (c : client) : bool := bool_decide (interface (config c) = "br0").

Section Machine.
Context `{World}.

(** ** Helpers *)

Definition nvget (name : string) (c : client) : string := nvram_get (effects c) name.

Definition StrToLong (src : string) : Z :=
  let v i := Z.land (nth i (scan_dotted 3 src) 0) 0xff in
  Z.lor (Z.lor (Z.lor (v 0%nat) (Z.shiftl (v 1%nat) 8)) (Z.shiftl (v 2%nat) 16)) (Z.shiftl (v 3%nat) 24).
Definition LongToStr (src : Z) : string :=
  dec (Z.land src 0xff) +:+ "." +:+ dec (Z.shiftr (Z.land src 0xff00) 8) +:+ "." +:+
  dec (Z.shiftr (Z.land src 0xff0000) 16) +:+ "." +:+ dec (Z.shiftr (Z.land src 0xff000000) 24).

Definition IP_Subnet_Mask : list Z :=
  [0x00ffffff; 0x80ffffff; 0xc0ffffff; 0xe0ffffff; 0xf0ffffff; 0xf8ffffff; 0xfcffffff].
Definition ValidDhcpSubnetMask (m : Z) : bool := existsb (Z.eqb m) IP_Subnet_Mask.

(** The lease time goes to a buffer of 10 bytes. *)
Definition SaveInfoFromDHCPServer (c : client) : outcome client :=
  let c := emit c (nvram_set "lan_ipaddr" (LongToStr (requested_ip c))) in
  let c := if ValidDhcpSubnetMask (subnet_mask c)
           then emit c (nvram_set "lan_netmask" (LongToStr (subnet_mask c))) else c in
  let c := emit c (nvram_set "lan_dhcp_dns" (LongToStr (dns_addr c))) in
  let tmp_lease := dec (s32 (client_ip_lease c)) in
  if 10 <=? strlen tmp_lease then Fault else
  let c := emit c (nvram_set "client_ip_lease" tmp_lease) in
  Ret (emit c (nvram_set "lan_proto" "static")).

Definition change_mode (m : listen) (c : client) : client := with_socket c false m.

(** [background()]: the process does not fork again. *)
Definition do_background (c : client) : client :=
  let cf := config c in
  emit (with_config c (CConfig true (quit_after_lease cf) (abort_if_no_lease cf)
                         (background_if_no_lease cf) (interface cf) (clientid cf) (hostname cf) (arp cf)))
    background.

Definition send (s : outcome sending) (c : client) : outcome client := p ← s; Ret (emit c (Send p)).

(** ** Signals *)

Definition perform_renew (c : client) : client :=
  let back c := with_state (change_mode LISTEN_RAW c) INIT_SELECTING 0 0 in
  match state c with
  | BOUND => with_state (change_mode LISTEN_KERNEL c) RENEW_REQUESTED 0 0
  | RENEWING | REBINDING => with_state c RENEW_REQUESTED 0 0
  | RENEW_REQUESTED => back (emit c (run_script None "deconfig"))
  | REQUESTING | RELEASED => back c
  | _ => with_state c (state c) 0 0
  end.

Definition perform_release (c : client) : outcome client :=
  c ← match state c with
      | BOUND | RENEWING | REBINDING =>
          c' ← send (send_release (config c) (random_xid (effects c)) (server_addr c) (requested_ip c)) c;
          Ret (emit c' (run_script None "deconfig"))
      | _ => Ret c
      end;
  Ret (with_state (change_mode LISTEN_NONE c) RELEASED FOREVER (packet_num c)).

Inductive signal := SIGUSR1 | SIGUSR2 | SIGTERM.
Definition on_signal (sig : signal) (c : client) : outcome client :=
  match sig with
  | SIGUSR1 => Ret (perform_renew c)
  | SIGUSR2 => perform_release c
  | SIGTERM => Exit 0
  end.

(** ** The top of the loop *)

(** What is done before the client of the bridge leaves: the address of the
    router comes from the server found, or init is told that there is none. *)
Definition server_found (c : client) : outcome client :=
  c ← SaveInfoFromDHCPServer (with_detect c (AutoDetect_start_time c) false (AutoDetectFlag c) (inform_enable c));
  Ret (emit (emit (emit c (nvram_set "AutoDetect_dhcp" "0")) nvram_commit) (kill_init "SIGHUP")).
Definition no_server (c : client) : outcome client :=
  Ret (emit (emit c (nvram_set "action_service" "dhcpc")) (kill_init "SIGUSR1")).

(** Detection of a server on the LAN, for the client of the bridge. *)
Definition autodetect (now : Z) (c : client) : outcome client :=
  if negb (is_br0 c && AutoDetectFlag c) then Ret c else
  if bool_decide (nvget "AutoDetect_dhcp" c = "1") then
    if s32 (now - AutoDetect_start_time c) <=? 6 then
      if ReceivedOfferFlag c then server_found c ≫= fun _ => Exit 1 else Ret c
    else if ReceivedOfferFlag c then Ret c else no_server c ≫= fun _ => Exit 1
  else
    let c := with_detect c (AutoDetect_start_time c) (ReceivedOfferFlag c) false (inform_enable c) in
    let c := emit c (nvram_set "AutoDetect_dhcp" "1") in
    let l := u32 (atoi (nvget "client_ip_lease" c)) in
    let c := set_timeout (u32 (l / 2 + now)) (with_times c (l / 2) (Z.shiftr (u32 (l * 7)) 3) now (Some l)) in
    let lanipaddr := nvget "lan_ipaddr" c in
    if 32 <=? strlen lanipaddr then Fault else
    let c := with_addr c (cxid c) (StrToLong lanipaddr) (server_addr c) in
    let c := with_state c BOUND (timeout c) (packet_num c) in
    if quit_after_lease (config c) then Exit 0
    else if foreground (config c) then Ret (do_background c) else Ret c.

Definition open_socket (c : client) : outcome client :=
  match listen_mode c with
  | LISTEN_NONE => Ret c
  | m => if fd_open c then Ret c
         else if socket_opens (effects c) then Ret (with_socket c true m) else Exit 0
  end.

(** ** A timeout *)

Definition on_selecting (now : Z) (c : client) : outcome client :=
  if packet_num c <? 3 then
    let c := if packet_num c =? 0
             then with_addr c (random_xid (effects c)) (requested_ip c) (server_addr c) else c in
    c ← (if inform_enable c then
           match inet_aton (nvget "inform_ip" c) with
           | Some a =>
               let c := with_manual c a (default (manual_server c) (inet_aton (nvget "dserver_ip" c))) in
               send (send_information (config c) (cxid c) (manual_server c) (manual_ciaddr c)) c
           | None => Ret c
           end
         else send (send_discover (config c) (cxid c) (requested_ip c)) c);
    Ret (with_state c INIT_SELECTING (u32 (now + (if packet_num c =? 2 then 4 else 2))) (packet_num c + 1))
  else
    c ← (if background_if_no_lease (config c) then Ret (do_background c)
         else if abort_if_no_lease (config c) then Exit 1 else Ret c);
    Ret (with_state c INIT_SELECTING (u32 (now + 5)) 0).

Definition on_requesting (now : Z) (c : client) : outcome client :=
  let renew := bool_decide (state c = RENEW_REQUESTED) in
  if packet_num c <? 3 then
    c ← send (if renew then send_renew (config c) (cxid c) (server_addr c) (requested_ip c)
              else send_selecting (config c) (cxid c) (server_addr c) (requested_ip c)) c;
    Ret (with_state c (state c) (u32 (now + (if packet_num c =? 2 then 10 else 2))) (packet_num c + 1))
  else
    let c := if renew then emit c (run_script None "deconfig") else c in
    Ret (change_mode LISTEN_RAW (with_state c INIT_SELECTING (u32 now) 0)).

Definition on_renewing (now : Z) (c : client) : outcome client :=
  l ← deref (lease c);
  if u32 (t2 c - t1 c) <=? l / 14400 + 1 then
    Ret (with_state c REBINDING (u32 (now + (t2 c - t1 c))) (packet_num c))
  else
    c ← send (send_renew (config c) (cxid c) (server_addr c) (requested_ip c)) c;
    let a := u32 (u32 (t2 c - t1 c) / 2 + t1 c) in
    Ret (set_timeout (u32 (a + start c)) (with_times c a (t2 c) (start c) (lease c))).

Definition on_rebinding (now : Z) (c : client) : outcome client :=
  l ← deref (lease c);
  if u32 (l - t2 c) <=? l / 14400 + 1 then
    let c := emit c (run_script None "deconfig") in
    let c := change_mode LISTEN_RAW (with_state c INIT_SELECTING (u32 now) 0) in
    Ret (if is_br0 c then with_detect c now false true (inform_enable c) else c)
  else
    c ← send (send_renew (config c) (cxid c) 0 (requested_ip c)) c;
    let b := u32 (u32 (l - t2 c) / 2 + t2 c) in
    Ret (set_timeout (u32 (b + start c)) (with_times c (t1 c) b (start c) (lease c))).

Definition on_timeout (now : Z) (c : client) : outcome client :=
  match state c with
  | INIT_SELECTING => on_selecting now c
  | RENEW_REQUESTED | REQUESTING => on_requesting now c
  | BOUND => on_renewing now (change_mode LISTEN_RAW (with_state c RENEWING (timeout c) (packet_num c)))
  | RENEWING => on_renewing now c
  | REBINDING => on_rebinding now c
  | RELEASED => Ret (set_timeout FOREVER c)
  | ENDINFORM =>
      Ret (set_timeout FOREVER
             (with_detect c (AutoDetect_start_time c) (ReceivedOfferFlag c) (AutoDetectFlag c) false))
  | INIT_REBOOT => Ret c
  end.

(** ** A packet *)

Definition msg (c : client) : dhcpMessage := msg_of_bytes (packet c).

(** The text at the front of a copy of [n] bytes. *)
Definition item (t : list Z) (off n : Z) : outcome string :=
  b ← rd_n t off (Z.to_nat n); Ret (string_of b).

(** The vendor option at [p]: the URL of the configuration server and the
    provisioning code. *)
Definition vendor_info (p : option Z) (c : client) : outcome client :=
  match p with
  | None => Ret c
  | Some p =>
      let t := tail (msg c) in
      tag ← rd t p;
      if negb (tag =? 1) then Ret c else
      n ← rd t (p + 1);
      url ← item t (p + 2) n;
      let c := emit c (nvram_set "acs_url" url) in
      tag2 ← rd t (p + n + 2);
      if negb (tag2 =? 2) then Ret c else
      k ← rd t (p + n + 3);
      pc ← item t (p + n + 4) k;
      Ret (emit c (nvram_set "acs_provisioncode" pc))
  end.

(** A 32-bit value of an option, [old] without one. *)
Definition opt_word (code old : Z) (c : client) : outcome Z :=
  o ← get_option (msg c) code;
  match o with
  | None => Ret old
  | Some p => b ← rd_n (tail (msg c)) p 4; Ret (u32_of_mem b)
  end.

Definition lan_offer (c : client) : outcome client :=
  mask ← opt_word DHCP_SUBNET (subnet_mask c) c;
  dns ← opt_word 0x06 (dns_addr c) c;
  lt ← opt_word DHCP_LEASE_TIME (htonl (60 * 60)) c;
  let c := with_lan c dns mask (ntohl lt) in
  Ret (with_detect c (AutoDetect_start_time c) true (AutoDetectFlag c) (inform_enable c)).

Definition on_offer (now : Z) (c : client) : outcome client :=
  o ← get_option (msg c) DHCP_SERVER_ID;
  match o with
  | None => Ret c
  | Some p =>
      b ← rd_n (tail (msg c)) p 4;
      let c := with_addr c (xid (msg c)) (yiaddr (msg c)) (u32_of_mem b) in
      if negb (log_opens (effects c)) then Fault else
      v ← get_option (msg c) DHCP_VENDOR_SPEC;
      c ← vendor_info v c;
      c ← (if is_br0 c then lan_offer c else Ret c);
      Ret (with_state c REQUESTING (u32 now) 0)
  end.

(** The ACK of an INFORM. *)
Definition on_inform_ack (c : client) : outcome client :=
  v ← get_option (msg c) DHCP_VENDOR_SPEC;
  c ← vendor_info v c;
  Ret (with_state (change_mode LISTEN_RAW c) ENDINFORM (timeout c) 0).

(** [sprintf(temp, "%ld", lease)] into the packet, at the option. *)
Definition print_lease (p : option Z) (l : Z) (c : client) : outcome client :=
  let text := dec (s32 l) in
  p ← deref p;
  if 504 <? p + strlen text + 1 then Fault else
  let c := with_packet c (put (Z.to_nat (44 + p)) (bytes_of text ++ [0]) (packet c)) in
  Ret (emit c (nvram_set "client_ip_lease" text)).

(** The address of the server is shown for the first connection. *)
Definition show_server (text : string) (always : bool) (c : client) : client :=
  if (atoi (nvget "wan_active_connection" c) =? 0)
     && (always || negb (bool_decide (text = nvget "wan_dhcp_ipaddr" c)))
  then emit c (nvram_set "wan_dhcp_ipaddr" text) else c.

(** The end of the handling of an acknowledgement. *)
Definition settle (c : client) : outcome client :=
  let c := change_mode LISTEN_NONE (with_state c BOUND (timeout c) (packet_num c)) in
  let c := show_server (inet_ntoa (server_addr c)) false c in
  if quit_after_lease (config c) then Exit 0
  else Ret (if foreground (config c) then c else do_background c).

Definition on_ack (now : Z) (c : client) : outcome client :=
  o ← get_option (msg c) DHCP_LEASE_TIME;
  l ← match o with
      | None => Ret (60 * 60)
      | Some p => b ← rd_n (tail (msg c)) p 4; Ret (ntohl (u32_of_mem b))
      end;
  c ← (if is_br0 c then print_lease o l c else Ret c);
  let c := set_timeout (u32 (l / 2 + now))
             (with_times c (l / 2) (Z.shiftr (u32 (l * 7)) 3) now (Some l)) in
  let c := with_addr c (cxid c) (yiaddr (msg c)) (server_addr c) in
  let c := match state c with
           | RENEWING | REBINDING => c
           | _ => emit c (run_script (Some (msg c)) "bound")
           end in
  settle c.

Definition on_nak (now : Z) (c : client) : outcome client :=
  let c := emit c (run_script (Some (msg c)) "nak") in
  let c := match state c with REQUESTING => c | _ => emit c (run_script None "deconfig") end in
  let c := with_state c INIT_SELECTING (u32 now) 0 in
  let c := with_addr c (cxid c) 0 (server_addr c) in
  Ret (change_mode LISTEN_RAW (show_server "0.0.0.0" true c)).

(** The switch over the states for a message of type [message]. *)
Definition on_message (now message : Z) (c : client) : outcome client :=
  match state c with
  | INIT_SELECTING =>
      if message =? DHCPOFFER then on_offer now c
      else if message =? DHCPACK then on_inform_ack c else Ret c
  | RENEW_REQUESTED | REQUESTING | RENEWING | REBINDING =>
      if message =? DHCPACK then on_ack now c
      else if message =? DHCPNAK then on_nak now c else Ret c
  | _ => Ret c
  end.

(** [read] is what arrives ([None]: an error), [eintr] whether [errno] is EINTR. *)
Definition on_packet (now : Z) (read : option (list Z)) (eintr : bool) (c : client) : outcome client :=
  '(len, p) ← match listen_mode c with
              | LISTEN_KERNEL => '(len, m) ← get_packet read; Ret (len, msg_bytes m)
              | _ => get_raw_packet read (packet c)
              end;
  let c := with_packet c p in
  let c := if (len =? -1) && negb eintr then change_mode (listen_mode c) c else c in
  if len <? 0 then Ret c else
  if negb (xid (msg c) =? cxid c) then Ret c else
  o ← get_option (msg c) DHCP_MESSAGE_TYPE;
  match o with
  | None => Ret c
  | Some p => message ← rd (tail (msg c)) p; on_message now message c
  end.

(** ** One turn of the loop *)

Inductive ready :=
  | TimedOut
  | PacketReady (read : option (list Z)) (eintr : bool)
  | SignalReady (sig : option signal)        (* [None]: the read failed *)
  | SelectError.

Definition turn (t0 now : Z) (r : ready) (c : client) : outcome client :=
  let tv_sec := s32 (timeout c - t0) in
  c ← autodetect t0 c;
  c ← open_socket c;
  match (if 0 <? tv_sec then r else TimedOut) with
  | TimedOut => on_timeout now c
  | PacketReady read eintr =>
      match listen_mode c with LISTEN_NONE => Ret c | _ => on_packet now read eintr c end
  | SignalReady (Some sig) => on_signal sig c
  | SignalReady None | SelectError => Ret c
  end.

(** ** Start-up

    What getopt_long delivers: the letters with their arguments. *)
Record arguments := Args {
  a_config : client_config_t;
  a_clientid : option (list Z);
  a_request : Z;
  a_inform : bool
}.
Definition no_arguments : arguments :=
  Args (CConfig false false false false "eth0" [] None (replicate 6 0)) None 0 false.

(** An option from a text, cut to 255 bytes. *)
Definition text_option (code : Z) (optarg : string) : list Z :=
  let len := if 255 <? strlen optarg then 255 else strlen optarg in
  code :: len :: take (Z.to_nat len) (bytes_of optarg).

Definition on_arg (c : ascii) (optarg : string) (a : arguments) : outcome arguments :=
  let cf := a_config a in
  let set f q n b i h := Args (CConfig f q n b i (clientid cf) h (arp cf))
                           (a_clientid a) (a_request a) (a_inform a) in
  match c with
  | "c"%char =>
      if strlen optarg =? 0 then Fault     (* a byte behind the allocation *)
      else Ret (Args cf (Some (text_option DHCP_CLIENT_ID optarg)) (a_request a) (a_inform a))
  | "f"%char => Ret (set true (quit_after_lease cf) (abort_if_no_lease cf) (background_if_no_lease cf)
                       (interface cf) (hostname cf))
  | "b"%char => Ret (set (foreground cf) (quit_after_lease cf) (abort_if_no_lease cf) true
                       (interface cf) (hostname cf))
  | "h"%char | "H"%char =>
      Ret (set (foreground cf) (quit_after_lease cf) (abort_if_no_lease cf) (background_if_no_lease cf)
             (interface cf) (Some (text_option DHCP_HOST_NAME optarg)))
  | "i"%char => Ret (set (foreground cf) (quit_after_lease cf) (abort_if_no_lease cf)
                       (background_if_no_lease cf) optarg (hostname cf))
  | "n"%char => Ret (set (foreground cf) (quit_after_lease cf) true (background_if_no_lease cf)
                       (interface cf) (hostname cf))
  | "q"%char => Ret (set (foreground cf) true (abort_if_no_lease cf) (background_if_no_lease cf)
                       (interface cf) (hostname cf))
  | "r"%char => Ret (Args cf (a_clientid a) (default INADDR_BROADCAST (inet_aton optarg)) (a_inform a))
  | "e"%char => Ret (Args cf (a_clientid a) (a_request a) true)
  | "p"%char | "s"%char => Ret a           (* the pid file and the script *)
  | _ => Exit 0
  end.

Fixpoint get_options (l : list (ascii * string)) (a : arguments) : outcome arguments :=
  match l with
  | [] => Ret a
  | (c, optarg) :: l => a ← on_arg c optarg a; get_options l a
  end.

(** The identifier that is used without one: the hardware type and address. *)
Definition default_clientid (arp : list Z) : list Z := DHCP_CLIENT_ID :: 7 :: 1 :: arp.

(** The state when the loop is entered; [junk] is what the stack holds. *)
Definition initial (cf : client_config_t) (requested : Z) (inform : bool) (now : Z) (junk : list Z)
    : client :=
  mk_client INIT_SELECTING requested 0 0 0 0 0 0 false LISTEN_RAW 0 0 0 0 None now false true inform
    0 0 junk cf [].

(** [iface] is what read_interface says: the hardware address, if it succeeds. *)
Definition start_client (args : list (ascii * string)) (iface : string -> option (list Z)) (now : Z)
    (junk : list Z) : outcome client :=
  a ← get_options args no_arguments;
  let cf := a_config a in
  match iface (interface cf) with
  | None => Exit 1
  | Some mac =>
      let id := match a_clientid a with Some id => id | None => default_clientid mac end in
      Ret (initial (CConfig (foreground cf) (quit_after_lease cf) (abort_if_no_lease cf)
                      (background_if_no_lease cf) (interface cf) id (hostname cf) mac)
             (a_request a) (a_inform a) now junk)
  end.

Fixpoint run (l : list (Z * Z * ready)) (c : client) : outcome client :=
  match l with
  | [] => Ret c
  | (t0, now, r) :: l => c ← turn t0 now r c; run l c
  end.
End Machine.

End Client.
