(* ===== verification/DhcpClientProofs.v ===== *)
(** * The DHCP client: proofs

    A frame of raw_packet passes the checks of get_raw_packet and gives the
    message back; the messages of the client hold the options they should and
    stay in their buffer; an address is taken only from an acknowledgement of
    the client's own request, and is given up before its lease ends. *)

From Stdlib Require Import ZArith Lia Ascii.
From stdpp Require Import base numbers sets strings list.
From S2P Require Import Prelude CString DhcpOptions DhcpOptionsProofs DhcpPacket DhcpPacketProofs DhcpServer DhcpServerProofs DhcpClient.
Import Options Packet ClientPacket Client.
Open Scope string_scope.
Open Scope Z_scope.
Open Scope list_scope.

Strategy 1000 [get_option end_option add_option_string init_header rd_n checksum].

(** ** Frames *)

Lemma frame_buf_exact b extra : length b = sizeof_frame -> frame_buf (b ++ extra) = b.
Proof.
  intros Hb. unfold frame_buf. rewrite <- Hb, take_app_length, length_app.
  replace (length b - (length b + length extra))%nat with 0%nat by lia. apply app_nil_r.
Qed.

Lemma Ret_bind {A B} (a : A) (f : A -> outcome B) : Ret a ≫= f = f a.
Proof. done. Qed.

Lemma Ret_inj {A} (x y : A) : Ret x = Ret y -> x = y.
Proof. by intros [= ->]. Qed.

Lemma checksum_u16 b c : checksum b = Ret c -> is_u16 c.
Proof.
  unfold checksum. intros (s & _ & [= <-])%bind_Ret_inv. unfold is_u16, u16. apply Z.mod_pos_bound. lia.
Qed.

Lemma raw_roundtrip_aux m sip sport dip old extra frame :
  msg_wf m -> hdr_wf m -> ntohl (cookie m) = DHCP_MAGIC -> is_u32 sip -> is_u32 dip ->
  length old = sizeof_dhcpMessage ->
  raw_frame m sip sport dip CLIENT_PORT = Ret frame ->
  get_raw_packet (Some (frame ++ extra)) old = Ret (548, msg_bytes m).
Proof.
  intros Hm Hh Hcookie Hsip Hdip Hold Hframe. pose proof (msg_bytes_u8 m Hm Hh) as Hmu.
  destruct (msg_roundtrip_aux m Hm Hh) as [Hrt Hml]. unfold sizeof_dhcpMessage in *.
  destruct (checksum_ok (half_ip sip dip sport CLIENT_PORT ++ mem_of_u16 0 ++ msg_bytes m))
    as (r & k & Eu & _).
  { pose proof (half_ip_u8 sip dip sport CLIENT_PORT). u8_list. }
  { rewrite !length_app, Hml. simpl. lia. }
  destruct (checksum_ok (ip_header 0x45 (htons 576) 64 17 0 sip dip)) as (r' & k' & Ei & _).
  { unfold ip_header. u8_list. }
  { done. }
  remember (65535 - r) as uc eqn:Huc. remember (65535 - r') as ipc eqn:Hipc.
  pose proof (checksum_u16 _ _ Eu) as Huc16. pose proof (checksum_u16 _ _ Ei) as Hipc16.
  rewrite (raw_frame_eq m sip sport dip CLIENT_PORT uc ipc Eu Ei) in Hframe.
  pose (b := ip_header 0x45 (htons 576) 64 17 ipc sip dip ++
            udp_header (htons sport) (htons CLIENT_PORT) (htons 556) uc ++ msg_bytes m).
  apply Ret_inj in Hframe as <-. fold b.
  assert (length b = sizeof_frame) as Hlb by (unfold b; rewrite !length_app, Hml; done).
  unfold get_raw_packet. cbv beta iota zeta. rewrite !(frame_buf_exact b extra Hlb).
  replace (Z.of_nat (Nat.min (length (b ++ extra)) sizeof_frame)) with 576
    by (rewrite length_app, Hlb; unfold sizeof_frame; lia).
  change (f16 2 b) with (u16_of_mem (mem_of_u16 (htons 576))).
  change (f16 10 b) with (u16_of_mem (mem_of_u16 ipc)).
  change (f16 24 b) with (u16_of_mem (mem_of_u16 (htons 556))).
  change (f16 26 b) with (u16_of_mem (mem_of_u16 uc)).
  change (f32 12 b) with (u32_of_mem (mem_of_u32 sip)).
  change (f32 16 b) with (u32_of_mem (mem_of_u32 dip)).
  rewrite !(u16_mem_roundtrip ipc), !(u16_mem_roundtrip uc), !u32_mem_roundtrip by done.
  change (u16_of_mem (mem_of_u16 (htons 576))) with (htons 576).
  change (u16_of_mem (mem_of_u16 (htons 556))) with (htons 556).
  change (ntohs (htons 576)) with 576. change (576 <? 28) with false. change (576 <? 576) with false.
  change (bogus b 576) with false. cbv iota.
  change (take 20 (put 10 [0; 0] b)) with (ip_header 0x45 (htons 576) 64 17 0 sip dip).
  rewrite Ei. cbn [mbind outcome_bind]. rewrite Z.eqb_refl. cbn [negb].
  assert (ip_header 0 (htons 556) 0 IPPROTO_UDP 0 sip dip ++ drop 20 (put 26 [0; 0] b)
    = half_ip sip dip sport CLIENT_PORT ++ mem_of_u16 0 ++ msg_bytes m) as -> by done.
  rewrite (take_ge (half_ip _ _ _ _ ++ _)) by (rewrite !length_app, Hml; apply Nat.leb_le; reflexivity).
  rewrite Eu. cbn [mbind outcome_bind].
  rewrite Z.eqb_refl, andb_false_r. change (576 - 28 <? 0) with false. cbv iota.
  change (drop 28 b) with (msg_bytes m). change (Z.to_nat (576 - 28)) with 548%nat.
  rewrite (take_ge (msg_bytes m)), (drop_ge old), app_nil_r by lia.
  change (f32 236 (msg_bytes m)) with (cookie (msg_of_bytes (msg_bytes m))).
  rewrite Hrt, Hcookie. done.
Qed.

(** C36. A frame built by raw_packet for the client port passes every check of
    get_raw_packet, whatever follows it on the wire and whatever the buffer held
    before, and gives the message back byte for byte. *)
Theorem raw_roundtrip m sip sport dip old extra frame :
  msg_wf m -> hdr_wf m -> ntohl (cookie m) = DHCP_MAGIC -> is_u32 sip -> is_u32 dip ->
  length old = sizeof_dhcpMessage ->
  raw_frame m sip sport dip CLIENT_PORT = Ret frame ->
  get_raw_packet (Some (frame ++ extra)) old = Ret (548, msg_bytes m).
Proof. apply raw_roundtrip_aux. Qed.

(** A frame whose lengths leave no room for a message, with checksums that
    verify: the copy has a negative length. *)
Definition short_frame : list Z :=
  [0x45; 0; 0; 24; 0; 0; 0; 0; 64; 17; 0xb9; 0x2c] ++ mem_of_u32 (htonl 0xc0a80101) ++
  mem_of_u32 (2 ^ 32 - 1) ++ [0; 67; 0; 68; 0; 4; 0; 0].
Lemma short_frame_faults old : get_raw_packet (Some short_frame) old = Fault.
Proof. vm_compute. reflexivity. Qed.

(** ** Messages of the client *)

Lemma put_end_holds c d m os :
  opts_hold (options m) os -> opt_ok (c, d) ->
  Z.of_nat (length (enc os)) + Z.of_nat (length d) + 3 <= 308 ->
  exists m', put_end (enc1 (c, d) ++ [DHCP_END]) m = Ret m' /\
    opts_hold (options m') (os ++ [(c, d)]) /\ exists o, m' = set_options o m.
Proof.
  intros Ho Hok Hfit. unfold put_end. rewrite (end_option_ok _ _ Ho). cbn [mbind outcome_bind].
  rewrite length_app. cbn [length]. rewrite Nat2Z.inj_add.
  assert (length (enc1 (c, d)) = length d + 2)%nat as Hl1 by (simpl; lia).
  rewrite Hl1. rewrite (proj2 (Z.ltb_ge 308 _)) by lia.
  eexists. split; [done|]. split; [|by eexists].
  destruct Ho as (Hl & Hos & rest & Hb). rewrite Hb in Hl |- *. cbn [options set_options].
  rewrite length_app in Hl. cbn [length] in Hl.
  set (n := (length d + 3)%nat).
  assert (exists mid suf, DHCP_END :: rest = mid ++ suf /\ length mid = n) as (mid & suf & Hr & Hmid).
  { exists (take n (DHCP_END :: rest)), (drop n (DHCP_END :: rest)).
    rewrite take_drop, length_take. cbn [length]. split; [done|]. subst n. lia. }
  rewrite Hr, blit_app by (rewrite length_app, Hl1, Hmid; subst n; simpl; lia).
  unfold opts_hold. split_and!.
  - apply (f_equal length) in Hr. rewrite !length_app in *. cbn [length] in *. rewrite Hl1. lia.
  - apply Forall_app. split; [done|]. by apply Forall_singleton.
  - exists suf. rewrite enc_app. unfold enc at 3. simpl. rewrite <- !app_assoc. simpl.
    by rewrite <- app_assoc.
Qed.

(** A configuration whose identifier and host name are options. *)
Record config_ok (cf : client_config_t) (cid : list Z) (host : option (list Z)) : Prop := {
  ok_cid : clientid cf = enc1 (DHCP_CLIENT_ID, cid) /\ opt_ok (DHCP_CLIENT_ID, cid);
  ok_host : match host with
            | Some h => hostname cf = Some (enc1 (DHCP_HOST_NAME, h)) /\ opt_ok (DHCP_HOST_NAME, h)
            | None => hostname cf = None
            end;
  ok_arp : length (arp cf) = 6%nat /\ Forall is_u8 (arp cf);
  ok_room : (length cid + from_option length 0 host <= 262)%nat
}.

(** The options every message of the client starts with. *)
Definition base_opts (type : Z) (cid : list Z) (host : option (list Z)) : list (Z * list Z) :=
  [(53, [type]); (DHCP_CLIENT_ID, cid)] ++ match host with Some h => [(DHCP_HOST_NAME, h)] | None => [] end
  ++ [(DHCP_VENDOR, bytes_of "dslforum.org")].

Lemma msg_add_string_fits c d m os :
  opts_hold (options m) os -> opt_ok (c, d) ->
  Z.of_nat (length (enc os)) + Z.of_nat (length d) + 3 < 308 ->
  exists o, msg_add_string (enc1 (c, d)) m = Ret (set_options o m) /\ opts_hold o (os ++ [(c, d)]).
Proof.
  intros Ho Hok Hl. pose proof (add_option_string_appends_aux _ _ c d Ho Hok) as Happ.
  rewrite decide_True in Happ by done. destruct Happ as (buf & E & Hb).
  unfold msg_add_string. rewrite E. by exists buf.
Qed.

(** Options of bytes, in a message of bytes. *)
Lemma blit_u8 dst off src : Forall is_u8 dst -> Forall is_u8 src -> Forall is_u8 (blit dst off src).
Proof.
  intros Hd Hs. unfold blit. apply Forall_app. split; [by apply Forall_take|].
  apply Forall_app. split; [done|by apply Forall_drop].
Qed.

Lemma add_option_string_u8 b s r :
  Forall is_u8 b -> Forall is_u8 s -> add_option_string b s = Ret r -> Forall is_u8 r.1.
Proof.
  intros Hb Hs. unfold add_option_string. intros (e & _ & Hrun)%bind_Ret_inv.
  apply bind_Ret_inv in Hrun as (l & _ & Hrun). destruct (308 <=? _); [by injection Hrun as <-|].
  apply bind_Ret_inv in Hrun as (d & Hd & Hrun). injection Hrun as <-. cbn [fst].
  apply rd_n_u8 in Hd as [_ Hd]; [|done]. repeat apply blit_u8; try done.
  repeat constructor; by vm_compute.
Qed.

(** The message [p] of the client: transaction, address and options. *)
Record client_msg (cf : client_config_t) (p : dhcpMessage) (x ci : Z) (os : list (Z * list Z)) : Prop := {
  cm_wf : msg_wf p;
  cm_hdr : hdr_wf p;
  cm_opts : opts_hold (options p) os;
  cm_op : op p = BOOTREQUEST;
  cm_xid : xid p = x;
  cm_ciaddr : ciaddr p = ci;
  cm_chaddr : chaddr p = arp cf ++ replicate 10 0;
  cm_cookie : ntohl (cookie p) = DHCP_MAGIC
}.

Definition opt_u8 (o : Z * list Z) : Prop := opt_ok o /\ Forall is_u8 o.2.

Lemma enc1_u8 c d : opt_u8 (c, d) -> Forall is_u8 (enc1 (c, d)).
Proof.
  intros ((Hc & _ & Hd) & Hu). unfold enc1. cbn [fst snd] in *.
  constructor; [unfold is_u8; simpl in Hc; lia|]. constructor; [unfold is_u8; lia|done].
Qed.

Lemma client_msg_options cf p x ci os o os' :
  client_msg cf p x ci os -> opts_hold o os' -> Forall is_u8 o -> client_msg cf (set_options o p) x ci os'.
Proof.
  intros [Hw Hh _ ? ? ? ? ?] Ho Hu. split; try done. apply set_options_wf; [done| |done].
  by destruct Ho as [Ho _].
Qed.

Lemma client_add_string cf p x ci os c d :
  client_msg cf p x ci os -> opt_u8 (c, d) ->
  Z.of_nat (length (enc os)) + Z.of_nat (length d) + 3 < 308 ->
  exists p', msg_add_string (enc1 (c, d)) p = Ret p' /\ client_msg cf p' x ci (os ++ [(c, d)]).
Proof.
  intros Hp Hcd Hl. destruct (msg_add_string_fits c d p os (cm_opts _ _ _ _ _ Hp)) as (o & E & Ho);
    [by destruct Hcd|done|].
  eexists. split; [exact E|]. eapply client_msg_options; [exact Hp|done|].
  unfold msg_add_string in E. apply bind_Ret_inv in E as (r & Er & E).
  apply add_option_string_u8 in Er; [|by destruct (cm_wf _ _ _ _ _ Hp) as (_&_&_&_&_&_&_&?)|by apply enc1_u8].
  apply Ret_inj in E. apply (f_equal options) in E. cbn [options set_options] in E. by subst o.
Qed.

Lemma client_add_simple cf p x ci os code data :
  client_msg cf p x ci os -> simple_length code = 4 -> 0 < code < 255 -> code <> DHCP_OPTION_OVER ->
  Z.of_nat (length (enc os)) + 7 < 308 ->
  exists p', msg_add_simple code data p = Ret p' /\ client_msg cf p' x ci (os ++ [(code, mem_of_u32 data)]).
Proof.
  intros Hp Hc Hr Ho Hl. unfold msg_add_simple, add_simple_option. rewrite Hc. cbv zeta.
  change (4 =? 0) with false. cbv iota.
  change (code :: 4 :: take (Z.to_nat 4) (mem_of_u32 data)) with (enc1 (code, mem_of_u32 data)).
  apply (client_add_string cf p x ci os code (mem_of_u32 data)); [done| |change (length (mem_of_u32 data)) with 4%nat; lia].
  split; [|apply mem_of_u32_u8]. split; [done|]. split; [done|]. cbn. lia.
Qed.

Lemma client_put_end cf p x ci os c d :
  client_msg cf p x ci os -> opt_u8 (c, d) ->
  Z.of_nat (length (enc os)) + Z.of_nat (length d) + 3 <= 308 ->
  exists p', put_end (enc1 (c, d) ++ [DHCP_END]) p = Ret p' /\ client_msg cf p' x ci (os ++ [(c, d)]).
Proof.
  intros Hp Hcd Hl. destruct (put_end_holds c d p os (cm_opts _ _ _ _ _ Hp)) as (p' & E & Ho & o & ->);
    [by destruct Hcd|done|].
  eexists. split; [exact E|]. eapply client_msg_options; [exact Hp|done|].
  unfold put_end in E. apply bind_Ret_inv in E as (e & _ & E). destruct (308 <? _); [done|].
  apply Ret_inj in E. apply (f_equal options) in E. cbn [options set_options] in E. subst o.
  apply blit_u8; [by destruct (cm_wf _ _ _ _ _ Hp) as (_&_&_&_&_&_&_&?)|].
  apply Forall_app. split; [by apply enc1_u8|]. repeat constructor; by vm_compute.
Qed.

Lemma client_requests cf p x ci os :
  client_msg cf p x ci os -> Z.of_nat (length (enc os)) + 11 <= 308 ->
  exists p', add_requests p = Ret p' /\ client_msg cf p' x ci (os ++ [(DHCP_PARAM_REQ, requested_codes)]).
Proof.
  intros Hp Hl. apply (client_put_end cf p x ci os DHCP_PARAM_REQ requested_codes); [done| |].
  - split; [split_and!; [done|done|done|]|apply all_u8_ok; reflexivity]. apply Nat.leb_le. reflexivity.
  - change (Z.of_nat (length requested_codes)) with 8. lia.
Qed.

Lemma enc_length c d os : length (enc ((c, d) :: os)) = (2 + length d + length (enc os))%nat.
Proof. rewrite enc_cons. simpl. rewrite length_app. lia. Qed.
Lemma length_mem32 z : length (mem_of_u32 z) = 4%nat.
Proof. done. Qed.
Ltac enc_size :=
  rewrite ?enc_app, ?length_app, ?enc_length, ?length_mem32; change (length (enc [])) with 0%nat;
  change (length (bytes_of "dslforum.org")) with 12%nat; cbn [length from_option] in *; lia.

Definition room (cid : list Z) (host : option (list Z)) : nat := (length cid + from_option length 0 host)%nat.

Lemma base_opts_length type cid host :
  (length (enc (base_opts type cid host)) <= 21 + room cid host)%nat.
Proof.
  unfold base_opts, room. destruct host as [h|]; enc_size.
Qed.

Lemma init_header_fields type m : init_header type = Ret m ->
  hops m = 0 /\ xid m = 0 /\ secs m = 0 /\ flags m = 0 /\ ciaddr m = 0 /\ siaddr m = 0 /\
  giaddr m = 0 /\ chaddr m = replicate 16 0 /\ cookie m = htonl DHCP_MAGIC.
Proof.
  unfold init_header. intros Hm. apply msg_add_simple_frame in Hm as [o ->].
  cbn [hops xid secs flags ciaddr siaddr giaddr chaddr cookie set_options]. by split_and!.
Qed.

(** The header of a message of the client. *)
Lemma init_header_client cf type m :
  length (arp cf) = 6%nat -> Forall is_u8 (arp cf) ->
  type ∈ [DHCPDISCOVER; DHCPREQUEST; DHCPRELEASE; DHCPINFORM] -> init_header type = Ret m ->
  client_msg cf (set_chaddr (arp cf ++ drop 6 (chaddr m)) m) 0 0 [(53, [type])].
Proof.
  intros Harp Harpu Htype E.
  assert (is_u8 type /\ op_of_type type = BOOTREQUEST) as [Ht Hop].
  { rewrite !elem_of_cons, elem_of_nil in Htype.
    destruct Htype as [->|[->|[->|[->|[]]]]]; (split; [split; [discriminate|reflexivity]|reflexivity]). }
  destruct (init_header_ok type Ht) as (m' & E' & Hm & Ho & Hmop & Hht & Hhl & Hyi & Hck).
  rewrite E in E'. apply Ret_inj in E' as <-.
  destruct (init_header_fields type m E) as (Hhop & Hx & Hse & Hfl & Hci & Hsi & Hgi & Hch & Hco).
  destruct Hm as (_ & Hs & Hf & Hol & _ & Hsu & Hfu & Hou). rewrite Hch.
  change (drop 6 (replicate 16 0)) with (replicate 10 0).
  split; cbn [options op xid ciaddr chaddr cookie set_chaddr]; try done; try congruence.
  - split_and!; cbn [chaddr sname file options set_chaddr]; try done.
    + rewrite length_app, Harp. reflexivity.
    + apply Forall_app. split; [done|]. by apply all_u8_ok.
  - unfold hdr_wf. cbn [op htype hlen hops xid secs flags ciaddr yiaddr siaddr giaddr cookie set_chaddr].
    rewrite Hmop, Hop, Hht, Hhl, Hhop, Hx, Hse, Hfl, Hci, Hyi, Hsi, Hgi, Hco.
    split_and!; try apply bswap32_range; (split; [discriminate|reflexivity]).
Qed.

Lemma init_packet_holds cf cid host type :
  config_ok cf cid host -> Forall is_u8 cid -> from_option (Forall is_u8) True host ->
  type ∈ [DHCPDISCOVER; DHCPREQUEST; DHCPRELEASE; DHCPINFORM] ->
  exists p, init_packet cf type = Ret p /\ client_msg cf p 0 0 (base_opts type cid host).
Proof.
  intros [[Ecid Hcid] Hhost [Harp Harpu] Hroom] Hcidu Hhostu Htype. unfold init_packet.
  assert (exists m, init_header type = Ret m) as [m E].
  { destruct (init_header_ok type) as (m & E & _); [|by exists m].
    rewrite !elem_of_cons, elem_of_nil in Htype.
    destruct Htype as [->|[->|[->|[->|[]]]]]; (split; [discriminate|reflexivity]). }
  pose proof (init_header_client cf type m Harp Harpu Htype E) as H0.
  rewrite E, Ret_bind. cbv zeta. clear E.
  set (p0 := set_chaddr _ m) in *. clearbody p0.
  rewrite Ecid.
  destruct (client_add_string cf p0 0 0 _ DHCP_CLIENT_ID cid H0) as (p1 & E1 & H1); [done|enc_size|].
  rewrite E1, Ret_bind.
  assert (exists p2, match hostname cf with Some h => msg_add_string h p1 | None => Ret p1 end = Ret p2 /\
    client_msg cf p2 0 0 ([(53, [type]); (DHCP_CLIENT_ID, cid)] ++
       match host with Some h => [(DHCP_HOST_NAME, h)] | None => [] end)) as (p2 & E2 & H2).
  { destruct host as [h|]; [|rewrite Hhost; exists p1; by rewrite app_nil_r].
    destruct Hhost as [-> Hh]. apply (client_add_string cf p1 0 0 _ DHCP_HOST_NAME h H1); [done|].
    enc_size. }
  rewrite E2, Ret_bind. unfold base_opts. rewrite app_assoc.
  assert (vendor_id = enc1 (DHCP_VENDOR, bytes_of "dslforum.org")) as -> by reflexivity.
  apply (client_add_string cf p2 0 0 _ DHCP_VENDOR (bytes_of "dslforum.org") H2).
  - split; [split_and!; [done|done|done|apply Nat.leb_le; reflexivity]|by apply all_u8_ok].
  - change (Z.of_nat (length (bytes_of "dslforum.org"))) with 12.
    destruct host as [h|]; enc_size.
Qed.

Lemma client_msg_fields cf p x ci os :
  client_msg cf p 0 0 os -> is_u32 x -> is_u32 ci -> client_msg cf (set_ciaddr ci (set_xid x p)) x ci os.
Proof.
  intros [Hw Hh Ho ? ? ? ? ?] Hx Hci. split; try done.
  unfold hdr_wf in *. destruct_and!. by split_and!.
Qed.

Section Messages.
Context (cf : client_config_t) (cid : list Z) (host : option (list Z)).
Context (Hcf : config_ok cf cid host) (Hcid : Forall is_u8 cid) (Hhost : from_option (Forall is_u8) True host).
Context (x : Z) (Hx : is_u32 x).

Lemma base_room t : (length (enc (base_opts t cid host)) <= 283)%nat.
Proof. pose proof (base_opts_length t cid host). destruct Hcf. unfold room in *. lia. Qed.

Lemma start_message t :
  t ∈ [DHCPDISCOVER; DHCPREQUEST; DHCPRELEASE; DHCPINFORM] ->
  exists p, init_packet cf t = Ret p /\ client_msg cf (set_xid x p) x 0 (base_opts t cid host) /\
    forall ci, is_u32 ci -> client_msg cf (set_ciaddr ci (set_xid x p)) x ci (base_opts t cid host).
Proof.
  intros Ht. destruct (init_packet_holds cf cid host t Hcf Hcid Hhost Ht) as (p & E & Hp).
  exists p. split; [done|]. split; [|intros ci Hci; by apply client_msg_fields].
  destruct Hp as [Hw Hh Ho ? ? ? ? ?]. split; try done.
  unfold hdr_wf in *. destruct_and!. by split_and!.
Qed.

Ltac member := rewrite !elem_of_cons; tauto.
Ltac fits t := pose proof (base_room t); enc_size.

Lemma discover_message a :
  exists p, send_discover cf x a = Ret (Raw p INADDR_ANY INADDR_BROADCAST) /\
    client_msg cf p x 0 (base_opts DHCPDISCOVER cid host ++
      (if a =? 0 then [] else [(DHCP_REQUESTED_IP, mem_of_u32 a)]) ++ [(DHCP_PARAM_REQ, requested_codes)]).
Proof.
  destruct (start_message DHCPDISCOVER) as (p & E & Hp & _); [member|].
  unfold send_discover. rewrite E, Ret_bind. cbv zeta.
  assert (exists p1, (if a =? 0 then Ret (set_xid x p)
                      else msg_add_simple DHCP_REQUESTED_IP a (set_xid x p)) = Ret p1 /\
    client_msg cf p1 x 0 (base_opts DHCPDISCOVER cid host ++
      (if a =? 0 then [] else [(DHCP_REQUESTED_IP, mem_of_u32 a)]))) as (p1 & E1 & H1).
  { destruct (a =? 0); [exists (set_xid x p); by rewrite app_nil_r|].
    apply client_add_simple; [done|done|done|done|fits DHCPDISCOVER]. }
  rewrite E1, Ret_bind. destruct (client_requests cf p1 x 0 _ H1) as (p2 & E2 & H2).
  { destruct (a =? 0); fits DHCPDISCOVER. }
  rewrite E2, Ret_bind. exists p2. split; [done|]. by rewrite app_assoc.
Qed.

Lemma selecting_message srv a :
  exists p, send_selecting cf x srv a = Ret (Raw p INADDR_ANY INADDR_BROADCAST) /\
    client_msg cf p x 0 (base_opts DHCPREQUEST cid host ++ [(DHCP_REQUESTED_IP, mem_of_u32 a);
      (DHCP_SERVER_ID, mem_of_u32 srv); (DHCP_PARAM_REQ, requested_codes)]).
Proof.
  destruct (start_message DHCPREQUEST) as (p & E & Hp & _); [member|].
  unfold send_selecting. rewrite E, Ret_bind. cbv zeta.
  destruct (client_add_simple cf _ x 0 _ DHCP_REQUESTED_IP a Hp) as (p1 & E1 & H1);
    [done|done|done|fits DHCPREQUEST|]. rewrite E1, Ret_bind.
  destruct (client_add_simple cf _ x 0 _ DHCP_SERVER_ID srv H1) as (p2 & E2 & H2);
    [done|done|done|fits DHCPREQUEST|]. rewrite E2, Ret_bind.
  destruct (client_requests cf p2 x 0 _ H2) as (p3 & E3 & H3); [fits DHCPREQUEST|].
  rewrite E3, Ret_bind. exists p3. split; [done|]. by rewrite <- !app_assoc in H3.
Qed.

Lemma renew_message srv a : is_u32 a ->
  exists p, send_renew cf x srv a =
      Ret (if srv =? 0 then Raw p INADDR_ANY INADDR_BROADCAST else Kernel p a srv) /\
    client_msg cf p x a (base_opts DHCPREQUEST cid host ++ [(DHCP_PARAM_REQ, requested_codes)]).
Proof.
  intros Ha. destruct (start_message DHCPREQUEST) as (p & E & _ & Hp); [member|].
  unfold send_renew. rewrite E, Ret_bind. cbv zeta.
  destruct (client_requests cf _ x a _ (Hp a Ha)) as (p3 & E3 & H3); [fits DHCPREQUEST|].
  rewrite E3, Ret_bind. by exists p3.
Qed.

Lemma release_message srv a : is_u32 a ->
  exists p, send_release cf x srv a = Ret (Kernel p a srv) /\
    client_msg cf p x a (base_opts DHCPRELEASE cid host ++
      [(DHCP_REQUESTED_IP, mem_of_u32 a); (DHCP_SERVER_ID, mem_of_u32 srv)]).
Proof.
  intros Ha. destruct (start_message DHCPRELEASE) as (p & E & _ & Hp); [member|].
  unfold send_release. rewrite E, Ret_bind. cbv zeta.
  destruct (client_add_simple cf _ x a _ DHCP_REQUESTED_IP a (Hp a Ha)) as (p1 & E1 & H1);
    [done|done|done|fits DHCPRELEASE|]. rewrite E1, Ret_bind.
  destruct (client_add_simple cf _ x a _ DHCP_SERVER_ID srv H1) as (p2 & E2 & H2);
    [done|done|done|fits DHCPRELEASE|]. rewrite E2, Ret_bind.
  exists p2. split; [done|]. by rewrite <- !app_assoc in H2.
Qed.

Lemma inform_message srv a : is_u32 a ->
  exists p, send_information cf x srv a = Ret (Raw p a INADDR_BROADCAST) /\
    client_msg cf p x a (base_opts DHCPINFORM cid host ++ [(DHCP_PARAM_REQ, [0x2b])]).
Proof.
  intros Ha. destruct (start_message DHCPINFORM) as (p & E & _ & Hp); [member|].
  unfold send_information. rewrite E, Ret_bind. cbv zeta.
  destruct (client_put_end cf _ x a _ DHCP_PARAM_REQ [0x2b] (Hp a Ha)) as (p3 & E3 & H3);
    [split; [split_and!; [done|done|done|cbn; lia]|by apply all_u8_ok]|fits DHCPINFORM|].
  assert ([DHCP_PARAM_REQ; 1; 0x2b; DHCP_END] = enc1 (DHCP_PARAM_REQ, [0x2b]) ++ [DHCP_END]) as -> by done.
  rewrite E3, Ret_bind. by exists p3.
Qed.
End Messages.

(** The messages of the client fit in the options field and hold the
    options of their kind, for every client identifier and host name of together
    at most 262 bytes (the default identifier takes 7, a host name at most 255):
    nothing is dropped, and the unchecked store of the parameter request list
    stays inside the message. *)
Theorem client_messages cf cid host x a srv :
  config_ok cf cid host -> Forall is_u8 cid -> from_option (Forall is_u8) True host ->
  is_u32 x -> is_u32 a ->
  let reqs := (DHCP_PARAM_REQ, requested_codes) in
  let ip := (DHCP_REQUESTED_IP, mem_of_u32 a) in
  let sid := (DHCP_SERVER_ID, mem_of_u32 srv) in
  (exists p, send_discover cf x a = Ret (Raw p INADDR_ANY INADDR_BROADCAST) /\
     client_msg cf p x 0 (base_opts DHCPDISCOVER cid host ++ (if a =? 0 then [] else [ip]) ++ [reqs])) /\
  (exists p, send_selecting cf x srv a = Ret (Raw p INADDR_ANY INADDR_BROADCAST) /\
     client_msg cf p x 0 (base_opts DHCPREQUEST cid host ++ [ip; sid; reqs])) /\
  (exists p, send_renew cf x srv a =
       Ret (if srv =? 0 then Raw p INADDR_ANY INADDR_BROADCAST else Kernel p a srv) /\
     client_msg cf p x a (base_opts DHCPREQUEST cid host ++ [reqs])) /\
  (exists p, send_release cf x srv a = Ret (Kernel p a srv) /\
     client_msg cf p x a (base_opts DHCPRELEASE cid host ++ [ip; sid])) /\
  (exists p, send_information cf x srv a = Ret (Raw p a INADDR_BROADCAST) /\
     client_msg cf p x a (base_opts DHCPINFORM cid host ++ [(DHCP_PARAM_REQ, [0x2b])])).
Proof.
  intros Hcf Hc Hh Hx Ha. split_and!; [by apply discover_message|by apply selecting_message
    |by apply renew_message|by apply release_message|by apply inform_message].
Qed.

(** ** Giving up a lease *)

Section Lease.
Context `{World} (Hopen : forall e, socket_opens e = true).
Context (cf : client_config_t) (cid : list Z) (host : option (list Z)).
Context (Hcf : config_ok cf cid host) (Hcid : Forall is_u8 cid) (Hhost : from_option (Forall is_u8) True host).
Context (Hbr0 : interface cf <> "br0").
Context (L s : Z) (HL : 0 < L) (HL7 : L * 7 < 2 ^ 32) (Hs : 0 <= s) (HsL : s + L < 2 ^ 32).

(** The timeout that is due, on time. *)
Definition fire (c : client) : outcome client := turn (timeout c) (timeout c) TimedOut c.
Fixpoint fires (n : nat) (c : client) : outcome client :=
  match n with O => Ret c | S n => c ← fire c; fires n c end.

Lemma fires_app n k c c1 : fires n c = Ret c1 -> fires (n + k) c = fires k c1.
Proof.
  revert c. induction n as [|n IH]; intros c; cbn [fires Nat.add]; [by intros [= ->]|].
  destruct (fire c) as [c2| | |]; try done. rewrite !Ret_bind. apply IH.
Qed.

(** A client that holds a lease of [L] seconds from [s] on. *)
Record holds_lease (c : client) : Prop := {
  hl_config : config c = cf;
  hl_lease : lease c = Some L;
  hl_start : start c = s;
  hl_ip : is_u32 (requested_ip c);
  hl_xid : is_u32 (cxid c)
}.

(** From [c] to [c'] nothing but packets. *)
Definition only_sends (c c' : client) : Prop :=
  exists es, effects c' = effects c ++ es /\ Forall (fun e => exists p, e = Send p) es.

Lemma only_sends_refl c c' : effects c' = effects c -> only_sends c c'.
Proof. intros E. exists []. by rewrite app_nil_r. Qed.
Lemma only_sends_trans a b c : only_sends a b -> only_sends b c -> only_sends a c.
Proof.
  intros (e1 & E1 & H1) (e2 & E2 & H2). exists (e1 ++ e2).
  rewrite E2, E1, app_assoc. split; [done|by apply Forall_app].
Qed.
Lemma only_sends_emit c p : only_sends c (emit c (Send p)).
Proof. exists [Send p]. split; [done|]. repeat constructor. by exists p. Qed.

(** A turn on time is the work of the timeout, with the socket open. *)
Definition opened (c : client) : client :=
  match listen_mode c with LISTEN_NONE => c | m => with_socket c true m end.

Lemma fire_timeout c : config c = cf -> fire c = on_timeout (timeout c) (opened c).
Proof.
  intros Hc. unfold fire, turn. rewrite Z.sub_diag. change (0 <? s32 0) with false. cbv iota.
  assert (autodetect (timeout c) c = Ret c) as ->.
  { unfold autodetect, is_br0. rewrite Hc, bool_decide_eq_false_2 by done. done. }
  rewrite Ret_bind. unfold open_socket, opened.
  destruct (listen_mode c) eqn:El; rewrite ?Ret_bind; [done|..];
    destruct (fd_open c) eqn:Ef; rewrite ?Hopen, Ret_bind; [|done| |done];
    f_equal; destruct c; simpl in *; by subst.
Qed.

Lemma renew_sent c srv : holds_lease c ->
  exists p, send (send_renew (config c) (cxid c) srv (requested_ip c)) c = Ret (emit c (Send p)).
Proof.
  intros [Hc _ _ Hip Hx]. rewrite Hc. unfold send.
  destruct (renew_message cf cid host Hcf Hcid Hhost (cxid c) Hx srv (requested_ip c) Hip) as (p & E & _).
  rewrite E, Ret_bind. by eexists.
Qed.

Lemma opened_lease c : holds_lease c -> holds_lease (opened c).
Proof. intros [? ? ? ? ?]. unfold opened. by destruct (listen_mode c). Qed.

(** One timeout while renewing. *)
Lemma renew_step c :
  holds_lease c -> state c = BOUND \/ state c = RENEWING ->
  0 <= t1 c <= t2 c -> t2 c <= L -> timeout c = s + t1 c ->
  exists c', fire c = Ret c' /\ holds_lease c' /\ t2 c' = t2 c /\ only_sends c c' /\
    if t2 c - t1 c <=? L / 14400 + 1
    then state c' = REBINDING /\ timeout c' = s + t2 c
    else state c' = RENEWING /\ t1 c' = (t2 c - t1 c) / 2 + t1 c /\ timeout c' = s + t1 c'.
Proof.
  intros Hl Hst Ht1 Ht2 Hto. rewrite fire_timeout by apply Hl.
  assert (exists c0, on_timeout (timeout c) (opened c) = on_renewing (timeout c) c0 /\ holds_lease c0 /\
    t1 c0 = t1 c /\ t2 c0 = t2 c /\ effects c0 = effects c /\ state c0 = RENEWING) as (c0 & -> & Hl0 & E1 & E2 & Ee & Es).
  { destruct Hl. destruct Hst as [Hst|Hst]; unfold on_timeout, opened;
      destruct (listen_mode c) eqn:Elm; cbn [state with_socket]; rewrite Hst; eexists; (split; [reflexivity|]);
      split_and!; try done; by split. }
  unfold on_renewing. rewrite (hl_lease c0 Hl0). cbn [deref]. rewrite Ret_bind, E1, E2.
  rewrite (u32_small (t2 c - t1 c)) by (unfold is_u32; lia).
  destruct (t2 c - t1 c <=? L / 14400 + 1) eqn:Ed.
  - eexists. split; [done|]. split; [by destruct Hl0|]. split; [done|].
    split; [by apply only_sends_refl|]. split; [done|]. cbn [timeout with_state].
    rewrite Hto, u32_small by (unfold is_u32; lia). lia.
  - destruct (renew_sent c0 (server_addr c0) Hl0) as (p & E). rewrite E, Ret_bind.
    cbn [t1 t2 start emit with_times]. rewrite E1, E2, (hl_start c0 Hl0).
    assert (0 <= (t2 c - t1 c) / 2 /\ (t2 c - t1 c) / 2 + t1 c <= L) as [Hd1 Hd2].
    { split; [apply Z.div_pos; lia|]. Z.to_euclidean_division_equations. lia. }
    rewrite (u32_small (t2 c - t1 c)), (u32_small (_ / 2 + _)) by (unfold is_u32; lia).
    eexists. split; [done|]. cbn [t1 t2 state timeout set_timeout with_times with_state emit].
    split; [by destruct Hl0|]. split; [done|]. split.
    + destruct (only_sends_emit c0 p) as (es & Hes & Hf). exists es. by rewrite <- Ee.
    + split; [done|]. split; [done|]. rewrite u32_small by (unfold is_u32; lia). lia.
Qed.

Lemma renew_phase k : forall c,
  holds_lease c -> state c = BOUND \/ state c = RENEWING ->
  0 <= t1 c <= t2 c -> t2 c <= L -> timeout c = s + t1 c ->
  t2 c - t1 c <= 2 ^ Z.of_nat k * (L / 14400 + 1) ->
  exists n c', (n <= k + 1)%nat /\ fires n c = Ret c' /\ holds_lease c' /\ state c' = REBINDING /\
    t2 c' = t2 c /\ timeout c' = s + t2 c /\ only_sends c c'.
Proof.
  assert (0 <= L / 14400) as Hm by (apply Z.div_pos; lia).
  induction k as [|k IH]; intros c Hl Hst Ht1 Ht2 Hto Hd;
    destruct (renew_step c Hl Hst Ht1 Ht2 Hto) as (c1 & E & Hl1 & E2 & Hos & Hc).
  - change (2 ^ Z.of_nat 0) with 1 in Hd. rewrite (proj2 (Z.leb_le _ _)) in Hc by lia.
    destruct Hc as [Hs1 Ht]. exists 1%nat, c1. cbn [fires]. rewrite E, Ret_bind. by split_and!.
  - destruct (Z.leb_spec (t2 c - t1 c) (L / 14400 + 1)) as [Hle|Hgt].
    + destruct Hc as [Hs1 Ht]. exists 1%nat, c1. cbn [fires]. rewrite E, Ret_bind. split_and!; try done. lia.
    + destruct Hc as (Hs1 & Ht & Hto1).
      rewrite Nat2Z.inj_succ, Z.pow_succ_r in Hd by lia.
      destruct (IH c1) as (n & c' & Hn & E' & Hl' & Hs' & Et2 & Hto' & Hos'); [done|by right| | |done| |].
      * rewrite Ht, E2. Z.to_euclidean_division_equations. lia.
      * lia.
      * rewrite Ht, E2. remember (2 ^ Z.of_nat k * (L / 14400 + 1)) as w eqn:Hw.
        replace (2 * 2 ^ Z.of_nat k * (L / 14400 + 1)) with (2 * w) in Hd by lia.
        clear Hw. Z.to_euclidean_division_equations. lia.
      * exists (S n), c'. cbn [fires]. rewrite E, Ret_bind. split_and!; try done; try lia; try congruence.
        by eapply only_sends_trans.
Qed.

(** The end of a lease: the interface is deconfigured. *)
Definition gave_up (c c' : client) : Prop :=
  state c' = INIT_SELECTING /\ listen_mode c' = LISTEN_RAW /\ timeout c' <= s + L /\
  exists es, effects c' = effects c ++ es ++ [run_script None "deconfig"] /\
    Forall (fun e => exists p, e = Send p) es.

Lemma gave_up_after a b c : only_sends a b -> gave_up b c -> gave_up a c.
Proof.
  intros (e1 & E1 & H1) (? & ? & ? & e2 & E2 & H2). split_and!; try done.
  exists (e1 ++ e2). rewrite E2, E1, <- !app_assoc. split; [done|by apply Forall_app].
Qed.

Lemma rebind_step c :
  holds_lease c -> state c = REBINDING -> 0 <= t2 c <= L -> timeout c = s + t2 c ->
  exists c', fire c = Ret c' /\
    if L - t2 c <=? L / 14400 + 1 then gave_up c c'
    else holds_lease c' /\ state c' = REBINDING /\ t2 c' = (L - t2 c) / 2 + t2 c /\
         timeout c' = s + t2 c' /\ only_sends c c'.
Proof.
  intros Hl Hst Ht2 Hto. rewrite fire_timeout by apply Hl. pose proof (opened_lease c Hl) as Hl0.
  assert (state (opened c) = REBINDING /\ t2 (opened c) = t2 c /\ effects (opened c) = effects c) as (E1 & E2 & Ee)
    by (unfold opened; by destruct (listen_mode c)).
  revert Hl0 E1 E2 Ee. generalize (opened c). intros c0 Hl0 E1 E2 Ee.
  unfold on_timeout. rewrite E1. unfold on_rebinding. rewrite (hl_lease c0 Hl0). cbn [deref].
  rewrite Ret_bind, E2, (u32_small (L - t2 c)) by (unfold is_u32; lia).
  destruct (L - t2 c <=? L / 14400 + 1) eqn:Ed.
  - eexists. split; [done|]. unfold is_br0. cbn [config change_mode with_socket with_state emit].
    rewrite (hl_config c0 Hl0), bool_decide_eq_false_2 by done. split_and!; try done.
    + cbn [timeout change_mode with_socket with_state]. rewrite u32_small by (unfold is_u32; lia). lia.
    + exists []. cbn [effects change_mode with_socket with_state emit]. by rewrite Ee.
  - destruct (renew_sent c0 0 Hl0) as (p & E). rewrite E, Ret_bind.
    cbn [t1 t2 start emit with_times]. rewrite E2, (hl_start c0 Hl0).
    assert (0 <= (L - t2 c) / 2 /\ (L - t2 c) / 2 + t2 c <= L) as [Hd1 Hd2].
    { split; [apply Z.div_pos; lia|]. Z.to_euclidean_division_equations. lia. }
    rewrite (u32_small (L - t2 c)), (u32_small (_ / 2 + _)) by (unfold is_u32; lia).
    eexists. split; [done|]. cbn [t1 t2 state timeout set_timeout with_times with_state emit].
    split; [by destruct Hl0|]. split; [done|]. split; [done|]. split.
    + rewrite u32_small by (unfold is_u32; lia). lia.
    + destruct (only_sends_emit c0 p) as (es & Hes & Hf). exists es. by rewrite <- Ee.
Qed.

Lemma rebind_phase k : forall c,
  holds_lease c -> state c = REBINDING -> 0 <= t2 c <= L -> timeout c = s + t2 c ->
  L - t2 c <= 2 ^ Z.of_nat k * (L / 14400 + 1) ->
  exists n c', (n <= k + 1)%nat /\ fires n c = Ret c' /\ gave_up c c'.
Proof.
  assert (0 <= L / 14400) as Hm by (apply Z.div_pos; lia).
  induction k as [|k IH]; intros c Hl Hst Ht2 Hto Hd;
    destruct (rebind_step c Hl Hst Ht2 Hto) as (c1 & E & Hc).
  - change (2 ^ Z.of_nat 0) with 1 in Hd. rewrite (proj2 (Z.leb_le _ _)) in Hc by lia.
    exists 1%nat, c1. cbn [fires]. rewrite E, Ret_bind. by split_and!.
  - destruct (Z.leb_spec (L - t2 c) (L / 14400 + 1)) as [Hle|Hgt].
    + exists 1%nat, c1. cbn [fires]. rewrite E, Ret_bind. split_and!; try done. lia.
    + destruct Hc as (Hl1 & Hs1 & Ht & Hto1 & Hos).
      rewrite Nat2Z.inj_succ, Z.pow_succ_r in Hd by lia.
      destruct (IH c1) as (n & c' & Hn & E' & Hg); [done|done| |done| |].
      * rewrite Ht. Z.to_euclidean_division_equations. lia.
      * rewrite Ht. remember (2 ^ Z.of_nat k * (L / 14400 + 1)) as w eqn:Hw.
        replace (2 * 2 ^ Z.of_nat k * (L / 14400 + 1)) with (2 * w) in Hd by lia.
        clear Hw. Z.to_euclidean_division_equations. lia.
      * exists (S n), c'. cbn [fires]. rewrite E, Ret_bind. split_and!; [lia|done|].
        by eapply gave_up_after.
Qed.

(** C11. A client that gets no answer gives its address up in time, on any
    interface but br0 (there the deconfig script is not run) and for a lease
    [L] of at least one and less than 2^32 / 7 seconds (for longer ones, an
    infinite lease among them, the computation of T2 overflows,
    [long_lease_overflows]) that ends before the clock wraps around: in the state
    an acknowledgement at time [s] leaves, and as long as the client's sockets
    open, each timeout is served when it is due and the identifier and the host
    name it was started with are options that fit, at most 26 timeouts later,
    and not after [s + L], it runs the deconfig script and starts over; until
    then it only sends requests. *)
Theorem lease_given_up c :
  config c = cf -> lease c = Some L -> start c = s ->
  is_u32 (requested_ip c) -> is_u32 (cxid c) ->
  state c = BOUND -> t1 c = L / 2 -> t2 c = Z.shiftr (u32 (L * 7)) 3 -> timeout c = u32 (L / 2 + s) ->
  exists n c', (n <= 26)%nat /\ fires n c = Ret c' /\ gave_up c c'.
Proof.
  intros Hc Hle Hst Hip Hx Hb Et1 Et2 Eto.
  rewrite u32_small, Z.shiftr_div_pow2 in Et2 by (unfold is_u32; lia). change (2 ^ 3) with 8 in Et2.
  rewrite u32_small in Eto by (unfold is_u32; Z.to_euclidean_division_equations; lia).
  destruct (renew_phase 13 c) as (n1 & c1 & Hn1 & E1 & Hl1 & Hs1 & Ht21 & Hto1 & Hos1);
    [by split|by left|rewrite Et1, Et2; Z.to_euclidean_division_equations; lia
    |rewrite Et2; Z.to_euclidean_division_equations; lia|lia
    |rewrite Et1, Et2; change (2 ^ Z.of_nat 13) with 8192; Z.to_euclidean_division_equations; lia|].
  destruct (rebind_phase 11 c1) as (n2 & c2 & Hn2 & E2 & Hg);
    [done|done|rewrite Ht21, Et2; Z.to_euclidean_division_equations; lia|congruence
    |rewrite Ht21, Et2; change (2 ^ Z.of_nat 11) with 2048; Z.to_euclidean_division_equations; lia|].
  exists (n1 + n2)%nat, c2. split; [lia|]. split; [by rewrite (fires_app _ _ _ _ E1)|].
  by eapply gave_up_after.
Qed.
End Lease.

(** ** The states and what the client listens to *)

Definition not_bound (e : ceffect) : Prop := forall p, e <> run_script (Some p) "bound".

(** No script that configures the interface between [c] and [c']. *)
Definition quiet (c c' : client) : Prop :=
  exists es, effects c' = effects c ++ es /\ Forall not_bound es.
(** Nor a change of state, lease or listening mode. *)
Definition calm (c c' : client) : Prop :=
  quiet c c' /\ state c' = state c /\ lease c' = lease c /\ listen_mode c' = listen_mode c.

Lemma quiet_same c c' : effects c' = effects c -> quiet c c'.
Proof. intros E. exists []. by rewrite app_nil_r. Qed.
Lemma quiet_trans a b c : quiet a b -> quiet b c -> quiet a c.
Proof.
  intros (e1 & E1 & H1) (e2 & E2 & H2). exists (e1 ++ e2).
  rewrite E2, E1, app_assoc. split; [done|by apply Forall_app].
Qed.
Lemma quiet_emit c e : not_bound e -> quiet c (emit c e).
Proof. intros He. exists [e]. split; [done|]. by constructor. Qed.
Lemma calm_refl c c' :
  effects c' = effects c -> state c' = state c -> lease c' = lease c ->
  listen_mode c' = listen_mode c -> calm c c'.
Proof. intros. split; [by apply quiet_same|done]. Qed.
Lemma calm_trans a b c : calm a b -> calm b c -> calm a c.
Proof. intros [Q1 ?] [Q2 ?]. destruct_and!. split; [by eapply quiet_trans|]. split_and!; congruence. Qed.
Lemma calm_emit c e : not_bound e -> calm c (emit c e).
Proof. intros He. split; [by apply quiet_emit|done]. Qed.
Lemma calm_quiet c c' : calm c c' -> quiet c c'.
Proof. by intros [? _]. Qed.

Create HintDb client.
#[local] Hint Resolve calm_emit quiet_emit : client.
#[local] Hint Extern 1 (not_bound _) => (intros ?; discriminate) : client.
#[local] Hint Extern 1 (calm ?c ?c) => (by apply calm_refl) : client.
#[local] Hint Extern 1 (quiet ?c ?c) => (by apply quiet_same) : client.

Section Safety.
Context `{World}.

Lemma calm_send f c c' : send f c = Ret c' -> calm c c'.
Proof. unfold send. intros (p & _ & [= <-])%bind_Ret_inv. auto with client. Qed.

Lemma calm_background c : calm c (do_background c).
Proof. unfold do_background. eapply calm_trans; [|apply calm_emit; intros ?; discriminate]. by apply calm_refl. Qed.

Lemma calm_vendor v c c' : vendor_info v c = Ret c' -> calm c c'.
Proof.
  unfold vendor_info. destruct v as [p|]; [|intros [= <-]; auto with client].
  intros (tag & _ & Hr)%bind_Ret_inv. destruct (negb (tag =? 1)); [injection Hr as <-; auto with client|].
  apply bind_Ret_inv in Hr as (n & _ & Hr). apply bind_Ret_inv in Hr as (url & _ & Hr).
  cbv zeta in Hr. apply bind_Ret_inv in Hr as (tag2 & _ & Hr).
  destruct (negb (tag2 =? 2)); [injection Hr as <-; auto with client|].
  apply bind_Ret_inv in Hr as (k & _ & Hr). apply bind_Ret_inv in Hr as (pc & _ & Hr).
  injection Hr as <-. eapply calm_trans; apply calm_emit; intros ?; discriminate.
Qed.

Lemma calm_lan c c' : lan_offer c = Ret c' -> calm c c'.
Proof.
  unfold lan_offer. intros (m & _ & Hr)%bind_Ret_inv. apply bind_Ret_inv in Hr as (d & _ & Hr).
  apply bind_Ret_inv in Hr as (l & _ & Hr). injection Hr as <-. by apply calm_refl.
Qed.

Lemma calm_print p l c c' : print_lease p l c = Ret c' -> calm c c'.
Proof.
  unfold print_lease. cbv zeta. intros (q & _ & Hr)%bind_Ret_inv. destruct (504 <? _); [done|].
  injection Hr as <-. eapply calm_trans; [|apply calm_emit; intros ?; discriminate]. by apply calm_refl.
Qed.

Lemma calm_show t a c : calm c (show_server t a c).
Proof. unfold show_server. destruct (_ && _); auto with client. Qed.

(** What the client needs in each state. *)
Definition client_ok (c : client) : Prop :=
  match state c with
  | BOUND => is_Some (lease c)
  | RENEWING | REBINDING => is_Some (lease c) /\ listen_mode c = LISTEN_RAW
  | INIT_SELECTING | REQUESTING | ENDINFORM => listen_mode c = LISTEN_RAW
  | RENEW_REQUESTED => listen_mode c <> LISTEN_NONE
  | RELEASED => listen_mode c = LISTEN_NONE
  | INIT_REBOOT => False
  end.

Lemma calm_ok c c' : calm c c' -> client_ok c -> client_ok c'.
Proof. intros (_ & Es & El & Em). unfold client_ok. by rewrite Es, El, Em. Qed.

(** A handler that keeps the invariant and configures nothing. *)
Definition good (c : client) (r : outcome client) : Prop :=
  forall c', r = Ret c' -> client_ok c -> client_ok c' /\ quiet c c'.

Lemma good_calm c c' : calm c c' -> good c (Ret c').
Proof. intros Hc x [= <-] Hok. split; [by eapply calm_ok|by apply calm_quiet]. Qed.

Lemma good_autodetect now c : good c (autodetect now c).
Proof.
  unfold autodetect. intros c'. destruct (negb _); [intros [= <-]; split; [done|by apply quiet_same]|].
  case_bool_decide.
  - destruct (_ <=? 6), (ReceivedOfferFlag c); try done; try (intros [= <-]; split; [done|by apply quiet_same]);
      by intros (? & _ & ?)%bind_Ret_inv.
  - cbv zeta. set (c1 := emit _ (nvram_set "AutoDetect_dhcp" "1")).
    assert (quiet c c1) as Q1
      by (exists [nvram_set "AutoDetect_dhcp" "1"]; split; [done|by repeat constructor]). clearbody c1.
    set (l := u32 (atoi _)). set (c2 := set_timeout _ (with_times c1 _ _ _ _)).
    assert (quiet c c2 /\ lease c2 = Some l) as [Q2 Hl] by (split; [exact Q1|done]). clearbody c2.
    destruct (32 <=? _); [done|].
    set (c3 := with_state (with_addr c2 _ _ _) BOUND _ _).
    assert (quiet c c3 /\ lease c3 = Some l /\ state c3 = BOUND) as (Q3 & Hl3 & Hs3) by done. clearbody c3.
    assert (client_ok c3) as Hok3 by (unfold client_ok; rewrite Hs3; eauto).
    destruct (quit_after_lease _); [done|]. destruct (foreground _); intros [= <-] _; [|done].
    split; [by eapply calm_ok; [apply calm_background|]|].
    eapply quiet_trans; [exact Q3|]. apply calm_quiet, calm_background.
Qed.

Lemma good_open c : good c (open_socket c).
Proof.
  unfold open_socket. intros c'. destruct (listen_mode c) eqn:El; [intros [= <-] ?; split; [done|by apply quiet_same]|..];
    (destruct (fd_open c); [intros [= <-] ?; split; [done|by apply quiet_same]|]);
    (destruct (socket_opens _); [|done]); intros [= <-] Hok;
    (split; [|by apply quiet_same]); unfold client_ok in *; cbn [state lease listen_mode with_socket];
    by rewrite El in Hok.
Qed.

Lemma good_selecting now c : state c = INIT_SELECTING -> good c (on_selecting now c).
Proof.
  intros Hst c'. unfold on_selecting. destruct (packet_num c <? 3).
  - cbv zeta. set (c0 := if packet_num c =? 0 then _ else c).
    assert (calm c c0) as Hc0 by (unfold c0; destruct (packet_num c =? 0); by apply calm_refl).
    clearbody c0. intros (c1 & H1 & [= <-])%bind_Ret_inv Hok.
    assert (calm c0 c1) as Hc1.
    { destruct (inform_enable c0); [|by apply calm_send in H1].
      destruct (inet_aton _); [|injection H1 as <-; by apply calm_refl].
      apply calm_send in H1. eapply calm_trans; [|exact H1]. by apply calm_refl. }
    assert (calm c c1) as (Q & Es & El & Em) by by eapply calm_trans.
    unfold client_ok in *. cbn [state listen_mode with_state]. rewrite Hst in Hok. rewrite Em. done.
  - intros (c1 & H1 & [= <-])%bind_Ret_inv Hok.
    assert (calm c c1) as (Q & Es & El & Em).
    { destruct (background_if_no_lease _); [injection H1 as <-; apply calm_background|].
      destruct (abort_if_no_lease _); [done|]. injection H1 as <-. by apply calm_refl. }
    unfold client_ok in *. cbn [state listen_mode with_state]. rewrite Hst in Hok. rewrite Em. done.
Qed.

(** The invariant of a state in terms of lease and mode. *)
Ltac ok_now := unfold client_ok in *; cbn [state lease listen_mode with_state with_socket change_mode emit
  with_times set_timeout with_detect with_addr] in *.

Lemma good_requesting now c :
  state c = REQUESTING \/ state c = RENEW_REQUESTED -> good c (on_requesting now c).
Proof.
  intros Hst c'. unfold on_requesting. cbv zeta. destruct (packet_num c <? 3).
  - intros (c1 & H1 & [= <-])%bind_Ret_inv Hok. apply calm_send in H1 as (Q & Es & El & Em).
    split; [|done]. ok_now. rewrite Es, El, Em. exact Hok.
  - intros [= <-] Hok. split; [by ok_now|]. case_bool_decide; [|by apply quiet_same].
    exists [run_script None "deconfig"]. split; [done|]. by repeat constructor.
Qed.

Lemma good_renewing now c : state c = RENEWING -> good c (on_renewing now c).
Proof.
  intros Hst c'. unfold on_renewing. intros (l & Hl & Hr)%bind_Ret_inv Hok. apply deref_Ret_inv in Hl.
  destruct (_ <=? _); [injection Hr as <-; split; [|by apply quiet_same]; ok_now; by rewrite Hst in Hok|].
  apply bind_Ret_inv in Hr as (c1 & H1 & [= <-]). apply calm_send in H1 as (Q & Es & El & Em).
  split; [|exact Q]. ok_now. rewrite Es, El, Em. exact Hok.
Qed.

Lemma good_rebinding now c : state c = REBINDING -> good c (on_rebinding now c).
Proof.
  intros Hst c'. unfold on_rebinding. intros (l & Hl & Hr)%bind_Ret_inv Hok.
  destruct (_ <=? _).
  - cbv zeta in Hr. set (c1 := change_mode LISTEN_RAW _) in Hr.
    assert (quiet c c1) as Q by (exists [run_script None "deconfig"]; split; [done|by repeat constructor]).
    assert (client_ok c1) as H1 by done. clearbody c1.
    destruct (is_br0 c1); injection Hr as <-; [|done]. split; [|exact Q]. eapply calm_ok; [|exact H1]. by apply calm_refl.
  - apply bind_Ret_inv in Hr as (c1 & H1 & [= <-]). apply calm_send in H1 as (Q & Es & El & Em).
    split; [|exact Q]. ok_now. rewrite Es, El, Em. exact Hok.
Qed.

Lemma good_timeout now c : good c (on_timeout now c).
Proof.
  unfold on_timeout. destruct (state c) eqn:Hst.
  - by apply good_selecting.
  - apply good_requesting. auto.
  - intros c' Hr Hok. apply good_renewing in Hr; [|done]. apply Hr. split; [|done].
    unfold client_ok in Hok. by rewrite Hst in Hok.
  - by apply good_renewing.
  - by apply good_rebinding.
  - intros c' _ Hok. unfold client_ok in Hok. by rewrite Hst in Hok.
  - apply good_requesting. auto.
  - apply good_calm. by apply calm_refl.
  - apply good_calm. by apply calm_refl.
Qed.

Lemma good_signal sig c : good c (on_signal sig c).
Proof.
  destruct sig; unfold on_signal; [| |done].
  - intros c' [= <-] Hok. unfold perform_renew. cbv zeta. unfold client_ok in Hok.
    destruct (state c) eqn:Hst;
      (split; [|first [by apply quiet_same
        |exists [run_script None "deconfig"]; split; [done|by repeat constructor]]]);
      ok_now; destruct_and?; (done || congruence).
  - intros c'. unfold perform_release. intros (c1 & H1 & [= <-])%bind_Ret_inv _. split; [done|].
    change (quiet c c1). destruct (state c); try (injection H1 as <-; by apply quiet_same);
      apply bind_Ret_inv in H1 as (c2 & H2 & [= <-]); apply calm_send, calm_quiet in H2;
      (eapply quiet_trans; [exact H2|]); apply quiet_emit; intros ?; discriminate.
Qed.

Lemma good_offer now c : state c = INIT_SELECTING -> good c (on_offer now c).
Proof.
  intros Hst c'. unfold on_offer. intros (o & _ & Hr)%bind_Ret_inv Hok.
  destruct o as [p|]; [|injection Hr as <-; split; [done|by apply quiet_same]].
  apply bind_Ret_inv in Hr as (b & _ & Hr). cbv zeta in Hr.
  set (c1 := with_addr c _ _ _) in Hr. assert (calm c c1) as K1 by by apply calm_refl. clearbody c1.
  destruct (negb (log_opens _)); [done|]. apply bind_Ret_inv in Hr as (v & _ & Hr).
  apply bind_Ret_inv in Hr as (c2 & H2 & Hr). apply calm_vendor in H2.
  apply bind_Ret_inv in Hr as (c3 & H3 & Hr).
  assert (calm c2 c3) as K3 by (destruct (is_br0 c2); [by apply calm_lan|injection H3 as <-; by apply calm_refl]).
  assert (calm c c3) as (Q & Es & El & Em) by eauto using calm_trans.
  injection Hr as <-. split; [|exact Q]. ok_now. rewrite Em. by rewrite Hst in Hok.
Qed.

Lemma good_inform c : good c (on_inform_ack c).
Proof.
  intros c'. unfold on_inform_ack. intros (v & _ & Hr)%bind_Ret_inv _.
  apply bind_Ret_inv in Hr as (c1 & H1 & [= <-]). apply calm_vendor, calm_quiet in H1. by split.
Qed.

Lemma good_nak now c : good c (on_nak now c).
Proof.
  intros c'. unfold on_nak. cbv zeta. set (c1 := emit c _).
  assert (quiet c c1) as Q1 by (apply quiet_emit; intros ?; discriminate).
  set (c2 := match state c1 with REQUESTING => c1 | _ => _ end).
  assert (quiet c c2) as Q2.
  { unfold c2. destruct (state c1); try exact Q1; (eapply quiet_trans; [exact Q1|]);
      apply quiet_emit; intros ?; discriminate. }
  clearbody c2. set (c3 := with_addr (with_state c2 _ _ _) _ _ _).
  assert (quiet c c3 /\ state c3 = INIT_SELECTING) as [Q3 Hs3] by done. clearbody c3.
  destruct (calm_show "0.0.0.0" true c3) as (Q & Es & _ & _). intros [= <-] _.
  split; [|by eapply quiet_trans]. ok_now. by rewrite Es, Hs3.
Qed.

(** ** Acknowledgements *)

(** The lease an acknowledgement grants: the four bytes of its lease time option
    in network order, and an hour when it has none. *)
Definition granted (m : dhcpMessage) (l : Z) : Prop :=
  (get_option m DHCP_LEASE_TIME = Ret None /\ l = 60 * 60) \/
  exists p b, get_option m DHCP_LEASE_TIME = Ret (Some p) /\ rd_n (tail m) p 4 = Ret b /\
    l = ntohl (u32_of_mem b).

(** What an acknowledgement of the message in the buffer leaves. *)
Record acked (now : Z) (c c' : client) : Prop := {
  ak_state : state c' = BOUND;
  ak_mode : listen_mode c' = LISTEN_NONE;
  ak_ip : requested_ip c' = yiaddr (msg c);
  ak_lease : exists l, granted (msg c) l /\ lease c' = Some l /\ t1 c' = l / 2 /\ t2 c' = Z.shiftr (u32 (l * 7)) 3 /\
    start c' = now /\ timeout c' = u32 (l / 2 + now);
  ak_xid : cxid c' = cxid c;
  ak_script : exists es, effects c' = effects c ++ es /\ Forall not_bound (List.tl es) /\
    match state c with
    | RENEWING | REBINDING => Forall not_bound es
    | _ => List.hd_error es = Some (run_script (Some (msg c)) "bound")
    end
}.

Lemma settle_spec c c' : settle c = Ret c' ->
  state c' = BOUND /\ listen_mode c' = LISTEN_NONE /\ requested_ip c' = requested_ip c /\
  lease c' = lease c /\ t1 c' = t1 c /\ t2 c' = t2 c /\ start c' = start c /\ timeout c' = timeout c /\
  cxid c' = cxid c /\ quiet c c'.
Proof.
  unfold settle, show_server. cbv zeta. destruct (_ && _); destruct (quit_after_lease _); try done;
    destruct (foreground _); intros [= <-]; split_and!; try done.
  - exists [nvram_set "wan_dhcp_ipaddr" (inet_ntoa (server_addr c))]. split; [done|by repeat constructor].
  - exists [nvram_set "wan_dhcp_ipaddr" (inet_ntoa (server_addr c)); background].
    split; [cbn; by rewrite <- app_assoc|by repeat constructor].
  - by apply quiet_same.
  - exists [background]. split; [done|by repeat constructor].
Qed.

Lemma ack_ok now c c' : on_ack now c = Ret c' -> client_ok c'.
Proof.
  unfold on_ack. intros (o & _ & Hr)%bind_Ret_inv. apply bind_Ret_inv in Hr as (l & _ & Hr).
  apply bind_Ret_inv in Hr as (c1 & _ & Hr). cbv zeta in Hr.
  set (c2 := with_addr (set_timeout _ _) _ _ _) in Hr.
  assert (lease c2 = Some l) as Hl by done. clearbody c2.
  set (c3 := match state c2 with RENEWING | REBINDING => c2 | _ => _ end) in Hr.
  assert (lease c3 = Some l) as Hl3 by (unfold c3; by destruct (state c2)). clearbody c3.
  change (settle c3 = Ret c') in Hr. apply settle_spec in Hr as (Hs & _ & _ & Hl' & _).
  unfold client_ok. rewrite Hs, Hl', Hl3. eauto.
Qed.

Lemma ack_spec now c c' : is_br0 c = false -> on_ack now c = Ret c' -> acked now c c'.
Proof.
  intros Hbr. unfold on_ack. rewrite Hbr. intros (o & Ho & Hr)%bind_Ret_inv.
  apply bind_Ret_inv in Hr as (l & Hl & Hr). rewrite Ret_bind in Hr. cbv zeta in Hr.
  assert (granted (msg c) l) as Hg.
  { destruct o as [p|]; [|left; by apply Ret_inj in Hl as <-].
    apply bind_Ret_inv in Hl as (b & Hb & <-%Ret_inj). right. by exists p, b. }
  clear Ho Hl.
  set (c2 := with_addr (set_timeout _ _) _ _ _) in Hr.
  assert (lease c2 = Some l /\ t1 c2 = l / 2 /\ t2 c2 = Z.shiftr (u32 (l * 7)) 3 /\ start c2 = now /\
    timeout c2 = u32 (l / 2 + now) /\ requested_ip c2 = yiaddr (msg c) /\ cxid c2 = cxid c /\
    state c2 = state c /\ effects c2 = effects c /\ msg c2 = msg c) as (A & B & C & D & E & F & G & I & J & K) by done.
  clearbody c2. rewrite I in Hr.
  set (c3 := match state c with RENEWING | REBINDING => c2 | _ => _ end) in Hr.
  change (settle c3 = Ret c') in Hr.
  assert (lease c3 = lease c2 /\ t1 c3 = t1 c2 /\ t2 c3 = t2 c2 /\ start c3 = start c2 /\
    timeout c3 = timeout c2 /\ requested_ip c3 = requested_ip c2 /\ cxid c3 = cxid c2) as H3
    by (unfold c3; by destruct (state c)).
  destruct_and!. apply settle_spec in Hr as (? & ? & ? & ? & ? & ? & ? & ? & ? & es & Ees & Hes).
  split; try congruence; [exists l; split_and!; [done|congruence..]|].
  unfold c3 in Ees. destruct (state c); rewrite Ees; cbn [effects emit]; rewrite J, ?K;
    first [exists es; split; [done|split; [by destruct Hes|done]]
          |exists (run_script (Some (msg c)) "bound" :: es); rewrite <- app_assoc; done].
Qed.

(** ** Packets and turns *)

Lemma reply_ok now m c c' :
  (if m =? DHCPACK then on_ack now c else if m =? DHCPNAK then on_nak now c else Ret c) = Ret c' ->
  client_ok c -> client_ok c'.
Proof.
  intros Hr Hok. destruct (m =? DHCPACK); [exact (ack_ok now c c' Hr)|].
  destruct (m =? DHCPNAK); [exact (proj1 (good_nak now c c' Hr Hok))|]. by apply Ret_inj in Hr as <-.
Qed.

Lemma message_ok now m c c' : on_message now m c = Ret c' -> client_ok c -> client_ok c'.
Proof.
  unfold on_message. intros Hr Hok.
  destruct (state c) eqn:Hst; try exact (reply_ok now m c c' Hr Hok); try (by apply Ret_inj in Hr as <-).
  destruct (m =? DHCPOFFER); [exact (proj1 (good_offer now c Hst c' Hr Hok))|].
  destruct (m =? DHCPACK); [exact (proj1 (good_inform c c' Hr Hok))|]. by apply Ret_inj in Hr as <-.
Qed.

(** The bytes a packet leaves in the buffer. *)
Definition received (read : option (list Z)) (c : client) : outcome (Z * list Z) :=
  match listen_mode c with
  | LISTEN_KERNEL => '(len, m) ← get_packet read; Ret (len, msg_bytes m)
  | _ => get_raw_packet read (packet c)
  end.

(** A packet that is handled: accepted, of the client's transaction, of type [t]. *)
Definition answers (read : option (list Z)) (c : client) (m : dhcpMessage) (t : Z) : Prop :=
  exists len b p, received read c = Ret (len, b) /\ 0 <= len /\ m = msg_of_bytes b /\ xid m = cxid c /\
    get_option m DHCP_MESSAGE_TYPE = Ret (Some p) /\ rd (tail m) p = Ret t.

Lemma packet_cases now read eintr c c' :
  on_packet now read eintr c = Ret c' ->
  calm c c' \/ exists c1 t, calm c c1 /\ config c1 = config c /\ cxid c1 = cxid c /\
    answers read c (msg c1) t /\ on_message now t c1 = Ret c'.
Proof.
  unfold on_packet. fold (received read c). intros ([len b] & Hb & Hr)%bind_Ret_inv.
  set (c1 := with_packet c b) in Hr.
  assert (calm c c1 /\ config c1 = config c /\ cxid c1 = cxid c /\ msg c1 = msg_of_bytes b) as (K1 & E1 & X1 & M1)
    by (split; [by apply calm_refl|done]). clearbody c1. cbv zeta in Hr.
  set (c2 := if (len =? -1) && negb eintr then change_mode (listen_mode c1) c1 else c1) in Hr.
  assert (calm c c2 /\ config c2 = config c /\ cxid c2 = cxid c /\ msg c2 = msg_of_bytes b) as (K2 & E2 & X2 & M2).
  { unfold c2. destruct (_ && _); [|done]. split; [|done].
    eapply calm_trans; [exact K1|]. by apply calm_refl. }
  clearbody c2. destruct (Z.ltb_spec len 0); [left; by injection Hr as <-|].
  destruct (Z.eqb_spec (xid (msg c2)) (cxid c2)) as [Hx|]; cbn [negb] in Hr; [|left; by injection Hr as <-].
  apply bind_Ret_inv in Hr as ([p|] & Hp & Hr); [|left; by injection Hr as <-].
  apply bind_Ret_inv in Hr as (t & Ht & Hr). right. exists c2, t. split_and!; try done.
  exists len, b, p. split_and!; try done. congruence.
Qed.

Lemma turn_ok t0 now r c c' : turn t0 now r c = Ret c' -> client_ok c -> client_ok c'.
Proof.
  unfold turn. cbv zeta. intros (c1 & H1 & Hr)%bind_Ret_inv Hok.
  destruct (good_autodetect _ _ _ H1 Hok) as [Hok1 _].
  apply bind_Ret_inv in Hr as (c2 & H2 & Hr). destruct (good_open _ _ H2 Hok1) as [Hok2 _].
  destruct (if 0 <? _ then r else TimedOut) as [|read eintr|[sig|]|].
  - exact (proj1 (good_timeout now c2 c' Hr Hok2)).
  - assert (on_packet now read eintr c2 = Ret c' -> client_ok c') as Hp.
    { intros [K|(c3 & t & K & _ & _ & _ & Hm)]%packet_cases; [by eapply calm_ok|].
      eapply message_ok; [exact Hm|]. by eapply calm_ok. }
    destruct (listen_mode c2); [by apply Ret_inj in Hr as <-|auto..].
  - exact (proj1 (good_signal sig c2 c' Hr Hok2)).
  - by apply Ret_inj in Hr as <-.
  - by apply Ret_inj in Hr as <-.
Qed.

(** Only the acknowledgement of a request configures the interface. *)
Lemma message_cases now t c c' :
  is_br0 c = false -> client_ok c -> on_message now t c = Ret c' ->
  quiet c c' \/
  t = DHCPACK /\ (state c = REQUESTING \/ state c = RENEW_REQUESTED) /\ acked now c c'.
Proof.
  intros Hbr Hok Hr.
  assert (forall rr, good c rr -> rr = Ret c' -> quiet c c') as Hgood
    by (intros rr Hg E; by destruct (Hg c' E Hok)).
  assert (Ret c = Ret c' -> quiet c c') as Hstay by (intros <-%Ret_inj; by apply quiet_same).
  unfold on_message in Hr. destruct (state c) eqn:Hst; try (left; exact (Hstay Hr)).
  1: { left. destruct (t =? DHCPOFFER); [exact (Hgood _ (good_offer now c Hst) Hr)|].
       destruct (t =? DHCPACK); [exact (Hgood _ (good_inform c) Hr)|exact (Hstay Hr)]. }
  all: destruct (Z.eqb_spec t DHCPACK) as [->|];
    [|left; destruct (t =? DHCPNAK); [exact (Hgood _ (good_nak now c) Hr)|exact (Hstay Hr)]].
  all: pose proof (ack_spec now c c' Hbr Hr) as Hack;
    destruct (ak_script _ _ _ Hack) as (es' & E & Htl & Hs); rewrite Hst in Hs.
  all: first [left; by exists es'|right; auto].
Qed.

Lemma quiet_not_bound c c' es p :
  quiet c c' -> effects c' = effects c ++ es -> run_script (Some p) "bound" ∈ es -> False.
Proof.
  intros (es' & E & Hf) Hes Hin. rewrite Hes in E. apply app_inv_head in E as ->.
  rewrite Forall_forall in Hf. by apply (Hf _ Hin p).
Qed.

Lemma acknowledged now read eintr c c' es p :
  is_br0 c = false -> client_ok c -> on_packet now read eintr c = Ret c' ->
  effects c' = effects c ++ es -> run_script (Some p) "bound" ∈ es ->
  (state c = REQUESTING \/ state c = RENEW_REQUESTED) /\ answers read c p DHCPACK /\ xid p = cxid c /\
  state c' = BOUND /\ requested_ip c' = yiaddr p /\
  exists l, granted p l /\ lease c' = Some l /\ t1 c' = l / 2 /\ t2 c' = Z.shiftr (u32 (l * 7)) 3 /\
    start c' = now /\ timeout c' = u32 (l / 2 + now).
Proof.
  intros Hbr Hok Hr Hes Hin.
  destruct (packet_cases now read eintr c c' Hr) as [K|(c1 & t & K & E1 & X1 & Ha & Hm)].
  { by destruct (quiet_not_bound c c' es p (calm_quiet _ _ K)). }
  pose proof K as ((es1 & F1 & Hf1) & Es & _ & _).
  destruct (message_cases now t c1 c') as [Q|(-> & Hs & Hack)]; [|by eapply calm_ok|done|..].
  { unfold is_br0 in *. by rewrite E1. }
  { destruct (quiet_not_bound c c' es p); [|done..]. eapply quiet_trans; [exact (calm_quiet _ _ K)|exact Q]. }
  destruct Hack as [A1 A2 A3 A4 A5 (es2 & F2 & Htl & Hhd)].
  assert (es = es1 ++ es2) as ->
    by (rewrite Hes, F1, <- app_assoc in F2; by apply app_inv_head in F2).
  assert (p = msg c1) as ->.
  { apply elem_of_app in Hin as [Hin|Hin]; [rewrite Forall_forall in Hf1; by destruct (Hf1 _ Hin p)|].
    destruct es2 as [|e es2]; [by apply not_elem_of_nil in Hin|].
    apply elem_of_cons in Hin as [<-|Hin]; [|rewrite Forall_forall in Htl; by destruct (Htl _ Hin p)].
    destruct Hs as [Hs|Hs]; rewrite Hs in Hhd; by injection Hhd. }
  rewrite Es in Hs. pose proof Ha as (len & b & q & H1 & H2 & H3 & H4 & H5 & H6). split_and!; done.
Qed.

(** C31. In every state the client can reach it has what the state needs: while
    it waits for an answer it listens on a socket that can receive one, and when
    it holds a lease the lease time is known, so that the arithmetic of the
    renewals never uses an uninitialised value. *)
Theorem client_invariant cf requested inform t junk l c :
  run l (initial cf requested inform t junk) = Ret c -> client_ok c.
Proof.
  assert (forall l x, client_ok x -> run l x = Ret c -> client_ok c) as Hrun.
  { clear. induction l as [|[[t0 now] r] l IH]; intros x Hx Hr; [by injection Hr as <-|].
    cbn [run] in Hr. apply bind_Ret_inv in Hr as (y & Hy & Hr). eauto using turn_ok. }
  by apply Hrun.
Qed.

End Safety.

(** ** Limits of the lease handling *)

Section Limits.
Context `{World}.

(** The acknowledgement of a renewal runs no script, although it may carry
    another address: the script "renew" is never run. *)
Lemma renewal_runs_no_script now c c' :
  is_br0 c = false -> state c = RENEWING \/ state c = REBINDING -> on_ack now c = Ret c' ->
  requested_ip c' = yiaddr (msg c) /\
  exists es, effects c' = effects c ++ es /\ Forall not_bound es.
Proof.
  intros Hbr Hst Hr. destruct (ack_spec now c c' Hbr Hr) as [_ _ Hip _ _ (es & E & _ & Hes)].
  split; [done|]. exists es. split; [done|]. by destruct Hst as [Hst|Hst]; rewrite Hst in Hes.
Qed.

(** Without the option the text of the lease time has no place to go. *)
Lemma bridge_ack_faults now c :
  is_br0 c = true -> get_option (msg c) DHCP_LEASE_TIME = Ret None -> on_ack now c = Fault.
Proof. intros Hb Ho. unfold on_ack. by rewrite Ho, Ret_bind, Ret_bind, Hb. Qed.
End Limits.

(** The computation of T2 overflows for a long lease. *)
Lemma long_lease_overflows :
  let l := 613566757 in l < 2 ^ 32 /\ Z.shiftr (u32 (l * 7)) 3 < l / 2.
Proof. by vm_compute. Qed.

(** A server found on the LAN: its data is saved, committed and announced. *)
Lemma server_found_effects `{World} c c' : server_found c = Ret c' ->
  exists es, effects c' = effects c ++ es ++
    [nvram_set "client_ip_lease" (dec (s32 (client_ip_lease c))); nvram_set "lan_proto" "static";
     nvram_set "AutoDetect_dhcp" "0"; nvram_commit; kill_init "SIGHUP"] /\
    Forall (fun e => exists n v, e = nvram_set n v) es.
Proof.
  unfold server_found, SaveInfoFromDHCPServer. cbv zeta. cbn [client_ip_lease subnet_mask emit with_detect].
  set (d := with_detect c _ _ _ _). intros (c1 & H1 & [= <-])%bind_Ret_inv.
  destruct (ValidDhcpSubnetMask _), (10 <=? _); try done; apply Ret_inj in H1 as <-;
    cbn [effects emit requested_ip dns_addr client_ip_lease]; rewrite <- !app_assoc;
    [exists [nvram_set "lan_ipaddr" (LongToStr (requested_ip d)); nvram_set "lan_netmask" (LongToStr (subnet_mask c));
             nvram_set "lan_dhcp_dns" (LongToStr (dns_addr d))]
    |exists [nvram_set "lan_ipaddr" (LongToStr (requested_ip d)); nvram_set "lan_dhcp_dns" (LongToStr (dns_addr d))]];
    (split; [done|repeat constructor; eauto]).
Qed.

(** ** Start-up *)

Lemma bytes_of_length s : length (bytes_of s) = String.length s.
Proof. unfold bytes_of. rewrite length_fmap. induction s; simpl; auto. Qed.

Lemma bytes_of_u8 s : Forall is_u8 (bytes_of s).
Proof.
  unfold bytes_of. apply Forall_fmap, Forall_true. intros a. apply code_range.
Qed.

Lemma text_option_enc code s :
  text_option code s = enc1 (code, take 255 (bytes_of s)).
Proof.
  unfold text_option, enc1, strlen. cbn [fst snd]. rewrite length_take.
  assert (length (bytes_of s) = String.length s) as -> by apply bytes_of_length.
  destruct (Z.ltb_spec 255 (Z.of_nat (String.length s))).
  - by rewrite Nat.min_l by lia.
  - rewrite Nat.min_r, Nat2Z.id, !take_ge by (rewrite ?bytes_of_length; lia). done.
Qed.

Definition args_ok (a : arguments) : Prop :=
  (a_clientid a = None \/ exists s, a_clientid a = Some (text_option DHCP_CLIENT_ID s)) /\
  (hostname (a_config a) = None \/ exists s, hostname (a_config a) = Some (text_option DHCP_HOST_NAME s)).

Lemma get_options_ok l : forall a a', get_options l a = Ret a' -> args_ok a -> args_ok a'.
Proof.
  induction l as [|[c s] l IH]; intros a a' Hr Ha; [by apply Ret_inj in Hr as <-|].
  cbn [get_options] in Hr. apply bind_Ret_inv in Hr as (a1 & H1 & Hr). apply (IH a1 a' Hr).
  revert H1. clear -Ha. destruct Ha as [Hc Hh]. unfold on_arg.
  destruct c as [[] [] [] [] [] [] [] []]; try done; try (intros [= <-]; split; eauto; fail).
  case_match; [done|]. intros [= <-]. split; eauto.
Qed.

Lemma text_enc_ok code s : 0 < code < 255 -> code <> DHCP_OPTION_OVER ->
  exists d, text_option code s = enc1 (code, d) /\ opt_ok (code, d) /\ Forall is_u8 d.
Proof.
  intros. exists (take 255 (bytes_of s)). rewrite text_option_enc. split_and!; try done.
  - unfold opt_ok. cbn [fst snd]. rewrite length_take. split_and!; [lia..|done|lia].
  - apply Forall_take, bytes_of_u8.
Qed.

(** Every command line that starts the client gives it an identifier and a host
    name in the form of options; [client_messages] holds of it when they leave
    room for the rest of the message. *)
Lemma start_client_config args iface now junk c :
  (forall i mac, iface i = Some mac -> length mac = 6%nat /\ Forall is_u8 mac) ->
  start_client args iface now junk = Ret c ->
  exists cid host, Forall is_u8 cid /\ from_option (Forall is_u8) True host /\
    ((length cid + from_option length 0 host <= 262)%nat -> config_ok (config c) cid host) /\
    client_ok c.
Proof.
  intros Hif. unfold start_client. intros (a & Ha & Hr)%bind_Ret_inv.
  apply get_options_ok in Ha as [Hc Hh]; [|by split; left].
  destruct (iface _) as [mac|] eqn:Em; [|done]. destruct (Hif _ _ Em) as [Hl Hu]. apply Ret_inj in Hr as <-.
  assert (exists cid, match a_clientid a with Some id => id | None => default_clientid mac end
    = enc1 (DHCP_CLIENT_ID, cid) /\ opt_ok (DHCP_CLIENT_ID, cid) /\ Forall is_u8 cid) as (cid & Ec & Hok & Hcu).
  { destruct Hc as [->|[s ->]]; [|by apply text_enc_ok].
    exists (1 :: mac). unfold enc1, default_clientid, opt_ok. cbn [fst snd length]. rewrite Hl.
    split_and!; try done; [lia|by constructor]. }
  rewrite Ec. exists cid.
  assert (exists host, from_option (Forall is_u8) True host /\ match host with
    | Some h => hostname (a_config a) = Some (enc1 (DHCP_HOST_NAME, h)) /\ opt_ok (DHCP_HOST_NAME, h)
    | None => hostname (a_config a) = None end) as (host & Hhu & Ho).
  { destruct Hh as [->|[s ->]]; [by exists None|].
    destruct (text_enc_ok DHCP_HOST_NAME s) as (d & -> & ? & ?); [done..|]. by exists (Some d). }
  exists host. by split_and!.
Qed.

(** A client identifier and a host name that together fill the options: the
    list of requested codes goes past the end of the message. *)
Lemma long_names_fault :
  let text n := string_of (replicate n 65) in
  match start_client [("c"%char, text 255%nat); ("H"%char, text 43%nat)] (fun _ => Some (replicate 6 0)) 0 [] with
  | Ret c => send_discover (config c) 77 0 = Fault
  | _ => False
  end.
Proof. vm_compute. reflexivity. Qed.

(** ** A client at work *)

#[local] Instance demo_world : World := {|
  nvram_get := fun _ name => if bool_decide (name = "wan_active_connection") then "0" else "";
  random_xid := fun _ => 77;
  socket_opens := fun _ => true;
  log_opens := fun _ => true
|}.
Definition demo_id : list Z := [1; 0; 1; 2; 3; 4; 5].
Definition demo_cf : client_config_t :=
  CConfig true false false false "nas0" (enc1 (DHCP_CLIENT_ID, demo_id)) None [0; 1; 2; 3; 4; 5].
Definition demo_ip : Z := htonl 0xc0a80164.
Definition demo_server : Z := htonl 0xc0a80101.

(** What a server answers to transaction 77. *)
Definition reply_of (type : Z) : dhcpMessage :=
  Message BOOTREPLY 1 6 0 77 0 0 0 demo_ip 0 0 ([0; 1; 2; 3; 4; 5] ++ replicate 10 0) (replicate 64 0)
    (replicate 128 0) (htonl DHCP_MAGIC)
    ([53; 1; type; 54; 4; 192; 168; 1; 1; 51; 4; 0; 0; 14; 16; 255] ++ replicate 292 0).
Definition frame_of (type : Z) : list Z :=
  match raw_frame (reply_of type) demo_server 67 INADDR_BROADCAST CLIENT_PORT with Ret b => b | _ => [] end.

Definition demo_start : client := initial demo_cf 0 false 1000 (replicate 548 0).
Definition exchange : list (Z * Z * ready) := [
  (1000, 1000, TimedOut);
  (1000, 1001, PacketReady (Some (frame_of DHCPOFFER)) false);
  (1001, 1001, TimedOut)].
Definition demo_requesting : client :=
  match run exchange demo_start with Ret c => c | _ => demo_start end.
Definition demo_bound : client :=
  match turn 1001 1002 (PacketReady (Some (frame_of DHCPACK)) false) demo_requesting with
  | Ret c => c | _ => demo_start end.

Lemma demo_cf_ok : config_ok demo_cf demo_id None.
Proof.
  assert (opt_ok (DHCP_CLIENT_ID, demo_id)) by (unfold opt_ok; split_and!; [by vm_compute..|simpl; lia]).
  assert (Forall is_u8 (arp demo_cf)) by by apply all_u8_ok.
  split; try done. simpl. lia.
Qed.

Lemma reply_wf type : is_u8 type -> msg_wf (reply_of type) /\ hdr_wf (reply_of type).
Proof.
  intros Ht. split.
  - unfold msg_wf. split_and!; try done; try (by apply all_u8_ok; vm_compute).
    cbn [options reply_of]. u8_list. by apply all_u8_ok.
  - unfold hdr_wf. split_and!; by vm_compute.
Qed.

Lemma raw_roundtrip_witness :
  exists frame, raw_frame (reply_of DHCPACK) demo_server 67 INADDR_BROADCAST CLIENT_PORT = Ret frame /\
    get_raw_packet (Some (frame ++ [170; 85])) (replicate 548 7) = Ret (548, msg_bytes (reply_of DHCPACK)).
Proof.
  exists (frame_of DHCPACK). split; [vm_compute; reflexivity|].
  apply (raw_roundtrip (reply_of DHCPACK) demo_server 67 INADDR_BROADCAST).
  - by apply reply_wf.
  - by apply reply_wf.
  - reflexivity.
  - by vm_compute.
  - by vm_compute.
  - reflexivity.
  - vm_compute. reflexivity.
Defined.

Lemma client_messages_witness :
  exists p, send_release demo_cf 77 demo_server demo_ip = Ret (Kernel p demo_ip demo_server) /\
    client_msg demo_cf p 77 demo_ip (base_opts DHCPRELEASE demo_id None ++
      [(DHCP_REQUESTED_IP, mem_of_u32 demo_ip); (DHCP_SERVER_ID, mem_of_u32 demo_server)]).
Proof.
  apply (client_messages demo_cf demo_id None 77 demo_ip demo_server demo_cf_ok).
  - by apply all_u8_ok.
  - exact I.
  - by vm_compute.
  - by vm_compute.
Defined.

Lemma client_invariant_witness :
  state demo_requesting = REQUESTING /\ packet_num demo_requesting = 1 /\ client_ok demo_requesting.
Proof.
  split; [vm_compute; reflexivity|]. split; [vm_compute; reflexivity|].
  apply (client_invariant demo_cf 0 false 1000 (replicate 548 0) exchange).
  vm_compute. reflexivity.
Defined.


Lemma lease_given_up_witness :
  exists n c', (n <= 26)%nat /\ fires n demo_bound = Ret c' /\ gave_up 3600 1002 demo_bound c'.
Proof.
  apply (@lease_given_up demo_world (fun _ => eq_refl) demo_cf demo_id None demo_cf_ok); try (vm_compute; reflexivity).
  - by apply all_u8_ok.
  - discriminate.
  - discriminate.
  - by vm_compute.
  - by vm_compute.
Defined.
