(* ===== verification/Bcmutils.v ===== *)
(** * Utility routines of the kernel driver (ti_sangam/bcmutils.c)

    [Module Bcm]: the character classes, number parsing and ethernet address
    routines, the search of tag/length/value lists, and the three table-driven
    checksums. A pointer into a C string is the suffix it points to; [ulong]
    and [uint] are 32 bits wide. *)

From Stdlib Require Import ZArith Lia Ascii.
From stdpp Require Import base numbers sets strings list.
From S2P Require Import Prelude CString.
Open Scope string_scope.
Open Scope Z_scope.
Open Scope list_scope.

Module Bcm.

Notation "a .|. b" := (Z.lor a b) (at level 50, left associativity) : Z_scope.
Notation "a .&. b" := (Z.land a b) (at level 40, left associativity) : Z_scope.
Notation "a .^. b" := (Z.lxor a b) (at level 45, left associativity) : Z_scope.

(** ** Character classes *)
Definition _BCM_U : Z := 0x01.
Definition _BCM_L : Z := 0x02.
Definition _BCM_D : Z := 0x04.
Definition _BCM_C : Z := 0x08.
Definition _BCM_P : Z := 0x10.
Definition _BCM_S : Z := 0x20.
Definition _BCM_X : Z := 0x40.
Definition _BCM_SP : Z := 0x80.

Definition bcm_ctype : list Z := Eval cbv in
  [_BCM_C; _BCM_C; _BCM_C; _BCM_C; _BCM_C; _BCM_C; _BCM_C; _BCM_C;
   _BCM_C; _BCM_C .|. _BCM_S; _BCM_C .|. _BCM_S; _BCM_C .|. _BCM_S; _BCM_C .|. _BCM_S; _BCM_C .|. _BCM_S; _BCM_C; _BCM_C;
   _BCM_C; _BCM_C; _BCM_C; _BCM_C; _BCM_C; _BCM_C; _BCM_C; _BCM_C;
   _BCM_C; _BCM_C; _BCM_C; _BCM_C; _BCM_C; _BCM_C; _BCM_C; _BCM_C;
   _BCM_S .|. _BCM_SP; _BCM_P; _BCM_P; _BCM_P; _BCM_P; _BCM_P; _BCM_P; _BCM_P;
   _BCM_P; _BCM_P; _BCM_P; _BCM_P; _BCM_P; _BCM_P; _BCM_P; _BCM_P;
   _BCM_D; _BCM_D; _BCM_D; _BCM_D; _BCM_D; _BCM_D; _BCM_D; _BCM_D;
   _BCM_D; _BCM_D; _BCM_P; _BCM_P; _BCM_P; _BCM_P; _BCM_P; _BCM_P;
   _BCM_P; _BCM_U .|. _BCM_X; _BCM_U .|. _BCM_X; _BCM_U .|. _BCM_X; _BCM_U .|. _BCM_X; _BCM_U .|. _BCM_X; _BCM_U .|. _BCM_X; _BCM_U;
   _BCM_U; _BCM_U; _BCM_U; _BCM_U; _BCM_U; _BCM_U; _BCM_U; _BCM_U;
   _BCM_U; _BCM_U; _BCM_U; _BCM_U; _BCM_U; _BCM_U; _BCM_U; _BCM_U;
   _BCM_U; _BCM_U; _BCM_U; _BCM_P; _BCM_P; _BCM_P; _BCM_P; _BCM_P;
   _BCM_P; _BCM_L .|. _BCM_X; _BCM_L .|. _BCM_X; _BCM_L .|. _BCM_X; _BCM_L .|. _BCM_X; _BCM_L .|. _BCM_X; _BCM_L .|. _BCM_X; _BCM_L;
   _BCM_L; _BCM_L; _BCM_L; _BCM_L; _BCM_L; _BCM_L; _BCM_L; _BCM_L;
   _BCM_L; _BCM_L; _BCM_L; _BCM_L; _BCM_L; _BCM_L; _BCM_L; _BCM_L;
   _BCM_L; _BCM_L; _BCM_L; _BCM_P; _BCM_P; _BCM_P; _BCM_P; _BCM_C;
   0; 0; 0; 0; 0; 0; 0; 0;
   0; 0; 0; 0; 0; 0; 0; 0;
   0; 0; 0; 0; 0; 0; 0; 0;
   0; 0; 0; 0; 0; 0; 0; 0;
   _BCM_S .|. _BCM_SP; _BCM_P; _BCM_P; _BCM_P; _BCM_P; _BCM_P; _BCM_P; _BCM_P;
   _BCM_P; _BCM_P; _BCM_P; _BCM_P; _BCM_P; _BCM_P; _BCM_P; _BCM_P;
   _BCM_P; _BCM_P; _BCM_P; _BCM_P; _BCM_P; _BCM_P; _BCM_P; _BCM_P;
   _BCM_P; _BCM_P; _BCM_P; _BCM_P; _BCM_P; _BCM_P; _BCM_P; _BCM_P;
   _BCM_U; _BCM_U; _BCM_U; _BCM_U; _BCM_U; _BCM_U; _BCM_U; _BCM_U;
   _BCM_U; _BCM_U; _BCM_U; _BCM_U; _BCM_U; _BCM_U; _BCM_U; _BCM_U;
   _BCM_U; _BCM_U; _BCM_U; _BCM_U; _BCM_U; _BCM_U; _BCM_U; _BCM_P;
   _BCM_U; _BCM_U; _BCM_U; _BCM_U; _BCM_U; _BCM_U; _BCM_U; _BCM_L;
   _BCM_L; _BCM_L; _BCM_L; _BCM_L; _BCM_L; _BCM_L; _BCM_L; _BCM_L;
   _BCM_L; _BCM_L; _BCM_L; _BCM_L; _BCM_L; _BCM_L; _BCM_L; _BCM_L;
   _BCM_L; _BCM_L; _BCM_L; _BCM_L; _BCM_L; _BCM_L; _BCM_L; _BCM_P;
   _BCM_L; _BCM_L; _BCM_L; _BCM_L; _BCM_L; _BCM_L; _BCM_L; _BCM_L].

Definition bcm_ismask (c : Z) : Z := bcm_ctype !!! Z.to_nat c.
Definition bcm_isdigit (c : Z) : bool := negb (bcm_ismask c .&. _BCM_D =? 0).
Definition bcm_islower (c : Z) : bool := negb (bcm_ismask c .&. _BCM_L =? 0).
Definition bcm_isspace (c : Z) : bool := negb (bcm_ismask c .&. _BCM_S =? 0).
Definition bcm_isxdigit (c : Z) : bool :=
  negb (bcm_ismask c .&. (_BCM_D .|. _BCM_X) =? 0).

Definition bcm_toupper (c : Z) : Z := if bcm_islower c then u8 (c - (97 - 65)) else c.

(** ** Numbers *)

(** The value of a character in the loop of [bcm_strtoul]; it is an [ulong]. *)
Definition strtoul_digit (c : Z) : Z :=
  if bcm_isdigit c then u32 (c - 48) else u32 (bcm_toupper c - 65 + 10).

Fixpoint strtoul_loop (base : Z) (cp : string) (result : Z) : Z * string :=
  match cp with
  | EmptyString => (result, cp)
  | String c cp' =>
      if bcm_isxdigit (code c) && (strtoul_digit (code c) <? base) then
        strtoul_loop base cp' (u32 (result * base + strtoul_digit (code c)))
      else (result, cp)
  end.

(** [cp[0] == '0' && (cp[1] == 'x' || cp[1] == 'X')] *)
Definition hex_prefix (cp : string) : bool :=
  match cp with
  | String "0" (String "x" _) | String "0" (String "X" _) => true
  | _ => false
  end.

Definition strtoul_base (base : Z) (cp : string) : Z * string :=
  if base =? 0 then
    match cp with
    | String "0" cp' => if hex_prefix cp then (16, String.substring 2 (String.length cp) cp) else (8, cp')
    | _ => (10, cp)
    end
  else if (base =? 16) && hex_prefix cp then (base, String.substring 2 (String.length cp) cp)
  else (base, cp).

(** The result and the end pointer. *)
Definition bcm_strtoul (cp : string) (base : Z) : Z * string :=
  let cp := skip (fun c => bcm_isspace (code c)) cp in
  let '(minus, cp) :=
    match cp with
    | String "+" cp => (false, cp)
    | String "-" cp => (true, cp)
    | _ => (false, cp)
    end in
  let '(base, cp) := strtoul_base base cp in
  let '(result, cp) := strtoul_loop base cp 0 in
  (if (minus : bool) then u32 (result * -1) else result, cp).

Fixpoint atoi_loop (s : string) (n : Z) : Z :=
  match s with
  | EmptyString => n
  | String c s' => if bcm_isdigit (code c) then atoi_loop s' (u32 (n * 10 + code c - 48)) else n
  end.
Definition bcm_atoi (s : string) : Z := atoi_loop s 0.

(** ** Ethernet addresses *)

(** "%02x" of a byte *)
Definition x02 (b : Z) : string :=
  String (hex_digit false (b / 16)) (String (hex_digit false (b mod 16)) EmptyString).

Definition bcm_ether_ntoa (ea : list Z) : string :=
  match ea with
  | [e0; e1; e2; e3; e4; e5] =>
      x02 e0 +:+ ":" +:+ x02 e1 +:+ ":" +:+ x02 e2 +:+ ":" +:+
      x02 e3 +:+ ":" +:+ x02 e4 +:+ ":" +:+ x02 e5
  | _ => ""
  end.

(** The loop over the at most six components; [ea] holds those stored. *)
Fixpoint atoe_loop (n : nat) (p : string) (ea : list Z) : list Z :=
  match n with
  | O => ea
  | S n =>
      let '(v, p) := bcm_strtoul p 16 in
      let ea := ea ++ [u8 v] in
      match p with
      | EmptyString => ea
      | String _ p => atoe_loop n p ea
      end
  end.

(** The bytes stored in [ea] and the result [i == 6]. *)
Definition bcm_ether_atoe (p : string) : list Z * bool :=
  let ea := atoe_loop 6 p [] in (ea, (length ea =? 6)%nat).

(** ** Tag/length/value lists

    The position of the element found in [buf]; every byte is read through
    [deref], so a read outside the buffer is a [Fault]. *)
Fixpoint tlvs_loop (fuel : nat) (ordered : bool) (buf : list Z) (elt : nat) (totlen key : Z)
    : outcome (option nat) :=
  match fuel with
  | O => Running
  | S fuel =>
      if totlen <? 2 then Ret None else
      id ← deref (buf !! elt);
      len ← deref (buf !! S elt);
      if ordered && (key <? id) then Ret None else
      if (id =? key) && (len + 2 <=? totlen) then Ret (Some elt) else
      tlvs_loop fuel ordered buf (elt + Z.to_nat (len + 2))%nat (totlen - (len + 2)) key
  end.

Definition bcm_parse_ordered_tlvs (buf : list Z) (buflen key : Z) : outcome (option nat) :=
  tlvs_loop (S (length buf)) true buf 0 buflen key.
Definition bcm_parse_tlvs (buf : list Z) (buflen key : Z) : outcome (option nat) :=
  tlvs_loop (S (length buf)) false buf 0 buflen key.

(** ** Checksums *)
Definition CRC8_INIT_VALUE : Z := 0xff.
Definition CRC8_GOOD_VALUE : Z := 0x9f.
Definition CRC16_INIT_VALUE : Z := 0xffff.
Definition CRC16_GOOD_VALUE : Z := 0xf0b8.
Definition CRC32_INIT_VALUE : Z := 0xffffffff.
Definition CRC32_GOOD_VALUE : Z := 0xdebb20e3.

Definition crc8_table : list Z :=
  [0x00; 0xf7; 0xb9; 0x4e; 0x25; 0xd2; 0x9c; 0x6b; 0x4a; 0xbd; 0xf3; 0x04;
   0x6f; 0x98; 0xd6; 0x21; 0x94; 0x63; 0x2d; 0xda; 0xb1; 0x46; 0x08; 0xff;
   0xde; 0x29; 0x67; 0x90; 0xfb; 0x0c; 0x42; 0xb5; 0x7f; 0x88; 0xc6; 0x31;
   0x5a; 0xad; 0xe3; 0x14; 0x35; 0xc2; 0x8c; 0x7b; 0x10; 0xe7; 0xa9; 0x5e;
   0xeb; 0x1c; 0x52; 0xa5; 0xce; 0x39; 0x77; 0x80; 0xa1; 0x56; 0x18; 0xef;
   0x84; 0x73; 0x3d; 0xca; 0xfe; 0x09; 0x47; 0xb0; 0xdb; 0x2c; 0x62; 0x95;
   0xb4; 0x43; 0x0d; 0xfa; 0x91; 0x66; 0x28; 0xdf; 0x6a; 0x9d; 0xd3; 0x24;
   0x4f; 0xb8; 0xf6; 0x01; 0x20; 0xd7; 0x99; 0x6e; 0x05; 0xf2; 0xbc; 0x4b;
   0x81; 0x76; 0x38; 0xcf; 0xa4; 0x53; 0x1d; 0xea; 0xcb; 0x3c; 0x72; 0x85;
   0xee; 0x19; 0x57; 0xa0; 0x15; 0xe2; 0xac; 0x5b; 0x30; 0xc7; 0x89; 0x7e;
   0x5f; 0xa8; 0xe6; 0x11; 0x7a; 0x8d; 0xc3; 0x34; 0xab; 0x5c; 0x12; 0xe5;
   0x8e; 0x79; 0x37; 0xc0; 0xe1; 0x16; 0x58; 0xaf; 0xc4; 0x33; 0x7d; 0x8a;
   0x3f; 0xc8; 0x86; 0x71; 0x1a; 0xed; 0xa3; 0x54; 0x75; 0x82; 0xcc; 0x3b;
   0x50; 0xa7; 0xe9; 0x1e; 0xd4; 0x23; 0x6d; 0x9a; 0xf1; 0x06; 0x48; 0xbf;
   0x9e; 0x69; 0x27; 0xd0; 0xbb; 0x4c; 0x02; 0xf5; 0x40; 0xb7; 0xf9; 0x0e;
   0x65; 0x92; 0xdc; 0x2b; 0x0a; 0xfd; 0xb3; 0x44; 0x2f; 0xd8; 0x96; 0x61;
   0x55; 0xa2; 0xec; 0x1b; 0x70; 0x87; 0xc9; 0x3e; 0x1f; 0xe8; 0xa6; 0x51;
   0x3a; 0xcd; 0x83; 0x74; 0xc1; 0x36; 0x78; 0x8f; 0xe4; 0x13; 0x5d; 0xaa;
   0x8b; 0x7c; 0x32; 0xc5; 0xae; 0x59; 0x17; 0xe0; 0x2a; 0xdd; 0x93; 0x64;
   0x0f; 0xf8; 0xb6; 0x41; 0x60; 0x97; 0xd9; 0x2e; 0x45; 0xb2; 0xfc; 0x0b;
   0xbe; 0x49; 0x07; 0xf0; 0x9b; 0x6c; 0x22; 0xd5; 0xf4; 0x03; 0x4d; 0xba;
   0xd1; 0x26; 0x68; 0x9f].

Definition crc16_table : list Z :=
  [0x0000; 0x1189; 0x2312; 0x329b; 0x4624; 0x57ad; 0x6536; 0x74bf; 0x8c48; 0x9dc1;
   0xaf5a; 0xbed3; 0xca6c; 0xdbe5; 0xe97e; 0xf8f7; 0x1081; 0x0108; 0x3393; 0x221a;
   0x56a5; 0x472c; 0x75b7; 0x643e; 0x9cc9; 0x8d40; 0xbfdb; 0xae52; 0xdaed; 0xcb64;
   0xf9ff; 0xe876; 0x2102; 0x308b; 0x0210; 0x1399; 0x6726; 0x76af; 0x4434; 0x55bd;
   0xad4a; 0xbcc3; 0x8e58; 0x9fd1; 0xeb6e; 0xfae7; 0xc87c; 0xd9f5; 0x3183; 0x200a;
   0x1291; 0x0318; 0x77a7; 0x662e; 0x54b5; 0x453c; 0xbdcb; 0xac42; 0x9ed9; 0x8f50;
   0xfbef; 0xea66; 0xd8fd; 0xc974; 0x4204; 0x538d; 0x6116; 0x709f; 0x0420; 0x15a9;
   0x2732; 0x36bb; 0xce4c; 0xdfc5; 0xed5e; 0xfcd7; 0x8868; 0x99e1; 0xab7a; 0xbaf3;
   0x5285; 0x430c; 0x7197; 0x601e; 0x14a1; 0x0528; 0x37b3; 0x263a; 0xdecd; 0xcf44;
   0xfddf; 0xec56; 0x98e9; 0x8960; 0xbbfb; 0xaa72; 0x6306; 0x728f; 0x4014; 0x519d;
   0x2522; 0x34ab; 0x0630; 0x17b9; 0xef4e; 0xfec7; 0xcc5c; 0xddd5; 0xa96a; 0xb8e3;
   0x8a78; 0x9bf1; 0x7387; 0x620e; 0x5095; 0x411c; 0x35a3; 0x242a; 0x16b1; 0x0738;
   0xffcf; 0xee46; 0xdcdd; 0xcd54; 0xb9eb; 0xa862; 0x9af9; 0x8b70; 0x8408; 0x9581;
   0xa71a; 0xb693; 0xc22c; 0xd3a5; 0xe13e; 0xf0b7; 0x0840; 0x19c9; 0x2b52; 0x3adb;
   0x4e64; 0x5fed; 0x6d76; 0x7cff; 0x9489; 0x8500; 0xb79b; 0xa612; 0xd2ad; 0xc324;
   0xf1bf; 0xe036; 0x18c1; 0x0948; 0x3bd3; 0x2a5a; 0x5ee5; 0x4f6c; 0x7df7; 0x6c7e;
   0xa50a; 0xb483; 0x8618; 0x9791; 0xe32e; 0xf2a7; 0xc03c; 0xd1b5; 0x2942; 0x38cb;
   0x0a50; 0x1bd9; 0x6f66; 0x7eef; 0x4c74; 0x5dfd; 0xb58b; 0xa402; 0x9699; 0x8710;
   0xf3af; 0xe226; 0xd0bd; 0xc134; 0x39c3; 0x284a; 0x1ad1; 0x0b58; 0x7fe7; 0x6e6e;
   0x5cf5; 0x4d7c; 0xc60c; 0xd785; 0xe51e; 0xf497; 0x8028; 0x91a1; 0xa33a; 0xb2b3;
   0x4a44; 0x5bcd; 0x6956; 0x78df; 0x0c60; 0x1de9; 0x2f72; 0x3efb; 0xd68d; 0xc704;
   0xf59f; 0xe416; 0x90a9; 0x8120; 0xb3bb; 0xa232; 0x5ac5; 0x4b4c; 0x79d7; 0x685e;
   0x1ce1; 0x0d68; 0x3ff3; 0x2e7a; 0xe70e; 0xf687; 0xc41c; 0xd595; 0xa12a; 0xb0a3;
   0x8238; 0x93b1; 0x6b46; 0x7acf; 0x4854; 0x59dd; 0x2d62; 0x3ceb; 0x0e70; 0x1ff9;
   0xf78f; 0xe606; 0xd49d; 0xc514; 0xb1ab; 0xa022; 0x92b9; 0x8330; 0x7bc7; 0x6a4e;
   0x58d5; 0x495c; 0x3de3; 0x2c6a; 0x1ef1; 0x0f78].

Definition crc32_table : list Z :=
  [0x00000000; 0x77073096; 0xee0e612c; 0x990951ba; 0x076dc419; 0x706af48f;
   0xe963a535; 0x9e6495a3; 0x0edb8832; 0x79dcb8a4; 0xe0d5e91e; 0x97d2d988;
   0x09b64c2b; 0x7eb17cbd; 0xe7b82d07; 0x90bf1d91; 0x1db71064; 0x6ab020f2;
   0xf3b97148; 0x84be41de; 0x1adad47d; 0x6ddde4eb; 0xf4d4b551; 0x83d385c7;
   0x136c9856; 0x646ba8c0; 0xfd62f97a; 0x8a65c9ec; 0x14015c4f; 0x63066cd9;
   0xfa0f3d63; 0x8d080df5; 0x3b6e20c8; 0x4c69105e; 0xd56041e4; 0xa2677172;
   0x3c03e4d1; 0x4b04d447; 0xd20d85fd; 0xa50ab56b; 0x35b5a8fa; 0x42b2986c;
   0xdbbbc9d6; 0xacbcf940; 0x32d86ce3; 0x45df5c75; 0xdcd60dcf; 0xabd13d59;
   0x26d930ac; 0x51de003a; 0xc8d75180; 0xbfd06116; 0x21b4f4b5; 0x56b3c423;
   0xcfba9599; 0xb8bda50f; 0x2802b89e; 0x5f058808; 0xc60cd9b2; 0xb10be924;
   0x2f6f7c87; 0x58684c11; 0xc1611dab; 0xb6662d3d; 0x76dc4190; 0x01db7106;
   0x98d220bc; 0xefd5102a; 0x71b18589; 0x06b6b51f; 0x9fbfe4a5; 0xe8b8d433;
   0x7807c9a2; 0x0f00f934; 0x9609a88e; 0xe10e9818; 0x7f6a0dbb; 0x086d3d2d;
   0x91646c97; 0xe6635c01; 0x6b6b51f4; 0x1c6c6162; 0x856530d8; 0xf262004e;
   0x6c0695ed; 0x1b01a57b; 0x8208f4c1; 0xf50fc457; 0x65b0d9c6; 0x12b7e950;
   0x8bbeb8ea; 0xfcb9887c; 0x62dd1ddf; 0x15da2d49; 0x8cd37cf3; 0xfbd44c65;
   0x4db26158; 0x3ab551ce; 0xa3bc0074; 0xd4bb30e2; 0x4adfa541; 0x3dd895d7;
   0xa4d1c46d; 0xd3d6f4fb; 0x4369e96a; 0x346ed9fc; 0xad678846; 0xda60b8d0;
   0x44042d73; 0x33031de5; 0xaa0a4c5f; 0xdd0d7cc9; 0x5005713c; 0x270241aa;
   0xbe0b1010; 0xc90c2086; 0x5768b525; 0x206f85b3; 0xb966d409; 0xce61e49f;
   0x5edef90e; 0x29d9c998; 0xb0d09822; 0xc7d7a8b4; 0x59b33d17; 0x2eb40d81;
   0xb7bd5c3b; 0xc0ba6cad; 0xedb88320; 0x9abfb3b6; 0x03b6e20c; 0x74b1d29a;
   0xead54739; 0x9dd277af; 0x04db2615; 0x73dc1683; 0xe3630b12; 0x94643b84;
   0x0d6d6a3e; 0x7a6a5aa8; 0xe40ecf0b; 0x9309ff9d; 0x0a00ae27; 0x7d079eb1;
   0xf00f9344; 0x8708a3d2; 0x1e01f268; 0x6906c2fe; 0xf762575d; 0x806567cb;
   0x196c3671; 0x6e6b06e7; 0xfed41b76; 0x89d32be0; 0x10da7a5a; 0x67dd4acc;
   0xf9b9df6f; 0x8ebeeff9; 0x17b7be43; 0x60b08ed5; 0xd6d6a3e8; 0xa1d1937e;
   0x38d8c2c4; 0x4fdff252; 0xd1bb67f1; 0xa6bc5767; 0x3fb506dd; 0x48b2364b;
   0xd80d2bda; 0xaf0a1b4c; 0x36034af6; 0x41047a60; 0xdf60efc3; 0xa867df55;
   0x316e8eef; 0x4669be79; 0xcb61b38c; 0xbc66831a; 0x256fd2a0; 0x5268e236;
   0xcc0c7795; 0xbb0b4703; 0x220216b9; 0x5505262f; 0xc5ba3bbe; 0xb2bd0b28;
   0x2bb45a92; 0x5cb36a04; 0xc2d7ffa7; 0xb5d0cf31; 0x2cd99e8b; 0x5bdeae1d;
   0x9b64c2b0; 0xec63f226; 0x756aa39c; 0x026d930a; 0x9c0906a9; 0xeb0e363f;
   0x72076785; 0x05005713; 0x95bf4a82; 0xe2b87a14; 0x7bb12bae; 0x0cb61b38;
   0x92d28e9b; 0xe5d5be0d; 0x7cdcefb7; 0x0bdbdf21; 0x86d3d2d4; 0xf1d4e242;
   0x68ddb3f8; 0x1fda836e; 0x81be16cd; 0xf6b9265b; 0x6fb077e1; 0x18b74777;
   0x88085ae6; 0xff0f6a70; 0x66063bca; 0x11010b5c; 0x8f659eff; 0xf862ae69;
   0x616bffd3; 0x166ccf45; 0xa00ae278; 0xd70dd2ee; 0x4e048354; 0x3903b3c2;
   0xa7672661; 0xd06016f7; 0x4969474d; 0x3e6e77db; 0xaed16a4a; 0xd9d65adc;
   0x40df0b66; 0x37d83bf0; 0xa9bcae53; 0xdebb9ec5; 0x47b2cf7f; 0x30b5ffe9;
   0xbdbdf21c; 0xcabac28a; 0x53b39330; 0x24b4a3a6; 0xbad03605; 0xcdd70693;
   0x54de5729; 0x23d967bf; 0xb3667a2e; 0xc4614ab8; 0x5d681b02; 0x2a6f2b94;
   0xb40bbe37; 0xc30c8ea1; 0x5a05df1b; 0x2d02ef8d].

(** [CRC_INNER_LOOP] *)
Definition crc_inner (table : list Z) (c x : Z) : Z :=
  Z.shiftr c 8 .^. (table !!! Z.to_nat ((c .^. x) .&. 0xff)).

(** The loops over [nbytes] bytes: [pdata] lists them. *)
Definition crc8 (pdata : list Z) (crc : Z) : Z :=
  fold_left (fun crc x => crc8_table !!! Z.to_nat ((crc .^. x) .&. 0xff)) pdata crc.
Definition crc16 (pdata : list Z) (crc : Z) : Z := fold_left (crc_inner crc16_table) pdata crc.

(** [crc32] works on the memory from address [pdata] on, because the MIPS
    branch first aligns the pointer, then reads words, then the tail. *)
Section Crc32.
Variable mem : Z -> option Z.

(** [while (pdata < pend) CRC_INNER_LOOP(32, crc, *pdata++)], [n] iterations *)
Fixpoint crc32_bytes (n : nat) (pdata crc : Z) : outcome Z :=
  match n with
  | O => Ret crc
  | S n => x ← deref (mem pdata); crc32_bytes n (pdata + 1) (crc_inner crc32_table crc x)
  end.

(** The word loop: the four bytes of a word in memory order. *)
Fixpoint crc32_words (n : nat) (pdata crc : Z) : outcome Z :=
  match n with
  | O => Ret crc
  | S n =>
      t0 ← deref (mem pdata); t1 ← deref (mem (pdata + 1));
      t2 ← deref (mem (pdata + 2)); t3 ← deref (mem (pdata + 3));
      let crc := crc_inner crc32_table crc t0 in
      let crc := crc_inner crc32_table crc t1 in
      let crc := crc_inner crc32_table crc t2 in
      let crc := crc_inner crc32_table crc t3 in
      crc32_words n (pdata + 4) crc
  end.

Definition crc32 (pdata nbytes crc : Z) : outcome Z :=
  let pend := (pdata + 3) .&. 0xfffffffc in
  let nbytes := u32 (nbytes - (pend - pdata)) in
  crc ← crc32_bytes (Z.to_nat (pend - pdata)) pdata crc;
  let bulk := nbytes .&. 0xfffffffc in
  crc ← crc32_words (Z.to_nat (bulk / 4)) pend crc;
  crc32_bytes (Z.to_nat (nbytes .&. 3)) (pend + bulk) crc.
End Crc32.

End Bcm.
