(* ===== verification/BcmutilsProofs.v ===== *)
(** * Correctness of the driver's utility routines

    The table-driven checksums equal the bit-serial division they tabulate and
    have the documented residues; ethernet addresses survive printing and
    parsing; the search of a tag/length/value list stays in its buffer. *)

From Stdlib Require Import ZArith Lia Ascii.
From stdpp Require Import base numbers sets strings list.
From S2P Require Import Prelude CString Bcmutils.
Open Scope string_scope.
Open Scope Z_scope.
Open Scope list_scope.
Import Bcm.

(** ** The bit-serial reference

    One bit of the division by the reflected polynomial [P], and the checksum
    that feeds each byte into the low end of the register. *)
Definition bit_step (P c : Z) : Z :=
  if Z.odd c then Z.shiftr c 1 .^. P else Z.shiftr c 1.
Definition bit_steps (P : Z) (n : nat) (c : Z) : Z := Nat.iter n (bit_step P) c.
Definition crc_bits (P : Z) (data : list Z) (crc : Z) : Z :=
  fold_left (fun c x => bit_steps P 8 (c .^. x)) data crc.

(** The reflected polynomials of the documentation: x^8+x^7+x^6+x^4+x^2+1,
    x^16+x^12+x^5+1 and the ethernet polynomial. *)
Definition POLY8 : Z := 0xab.
Definition POLY16 : Z := 0x8408.
Definition POLY32 : Z := 0xedb88320.

Lemma bit_step_lxor P a b : bit_step P (a .^. b) = bit_step P a .^. bit_step P b.
Proof.
  unfold bit_step. rewrite <- !Z.bit0_odd, Z.lxor_spec, Z.shiftr_lxor.
  apply Z.bits_inj. intros k.
  destruct (Z.testbit a 0), (Z.testbit b 0); simpl; rewrite !Z.lxor_spec;
    destruct (Z.testbit (Z.shiftr a 1) k), (Z.testbit (Z.shiftr b 1) k), (Z.testbit P k); done.
Qed.

Lemma bit_steps_lxor P n a b : bit_steps P n (a .^. b) = bit_steps P n a .^. bit_steps P n b.
Proof.
  induction n as [|n IH]; [done|]. unfold bit_steps in *. cbn [Nat.iter nat_rect].
  rewrite <- bit_step_lxor. f_equal. exact IH.
Qed.

Lemma bit_steps_add P m n c : bit_steps P (m + n) c = bit_steps P m (bit_steps P n c).
Proof. unfold bit_steps. apply Nat.iter_add. Qed.

(** Zero bits only move down. *)
Lemma bit_steps_shiftl P n h : bit_steps P n (Z.shiftl h (Z.of_nat n)) = h.
Proof.
  revert h. induction n as [|n IH]; intros h.
  - unfold bit_steps. simpl. by rewrite Z.shiftl_0_r.
  - replace (S n) with (n + 1)%nat by lia. rewrite bit_steps_add.
    replace (bit_steps P 1 (Z.shiftl h (Z.of_nat (n + 1)))) with (Z.shiftl h (Z.of_nat n)); [apply IH|].
    unfold bit_steps. simpl. unfold bit_step.
    rewrite <- Z.bit0_odd, Z.shiftl_spec_low by lia.
    rewrite Z.shiftr_shiftl_l by lia. f_equal. lia.
Qed.

(** A word split at its low byte. *)
Lemma low_byte_split w : w = (w .&. 255) .^. Z.shiftl (Z.shiftr w 8) 8.
Proof.
  apply Z.bits_inj'. intros k Hk. rewrite Z.lxor_spec, Z.land_spec.
  change 255 with (Z.ones 8). destruct (decide (k < 8)).
  - rewrite Z.ones_spec_low, Z.shiftl_spec_low by lia.
    by destruct (Z.testbit w k).
  - rewrite Z.ones_spec_high, Z.shiftl_spec_high by lia.
    rewrite Z.shiftr_spec by lia. replace (k - 8 + 8) with k by lia.
    by destruct (Z.testbit w k).
Qed.

Lemma shiftr_byte x : is_u8 x -> Z.shiftr x 8 = 0.
Proof. unfold is_u8. intros. rewrite Z.shiftr_div_pow2 by lia. apply Z.div_small. lia. Qed.

(** A table of the eight-bit steps of every byte. *)
Definition tabulates (table : list Z) (P : Z) : Prop :=
  forall b, is_u8 b -> table !!! Z.to_nat b = bit_steps P 8 b.

Lemma tabulates_compute table P :
  forallb (fun i => table !!! i =? bit_steps P 8 (Z.of_nat i)) (seq 0 256) = true ->
  tabulates table P.
Proof.
  rewrite forallb_forall. intros H b Hb. unfold is_u8 in Hb. word_consts.
  specialize (H (Z.to_nat b)). rewrite Z2Nat.id in H by lia. apply Z.eqb_eq, H.
  apply in_seq. change 256%nat with (Z.to_nat 256). lia.
Qed.

Lemma crc8_tabulates : tabulates crc8_table POLY8.
Proof. apply tabulates_compute. vm_compute. reflexivity. Qed.
Lemma crc16_tabulates : tabulates crc16_table POLY16.
Proof. apply tabulates_compute. vm_compute. reflexivity. Qed.
Lemma crc32_tabulates : tabulates crc32_table POLY32.
Proof. apply tabulates_compute. vm_compute. reflexivity. Qed.

Lemma land_255_u8 x : is_u8 (x .&. 255).
Proof. change 255 with (Z.ones 8). rewrite Z.land_ones by lia. apply Z.mod_pos_bound. lia. Qed.

(** One table look-up is eight bit steps. *)
Lemma crc_inner_bits table P c x :
  tabulates table P -> is_u8 x -> crc_inner table c x = bit_steps P 8 (c .^. x).
Proof.
  intros Ht Hx. unfold crc_inner. rewrite Ht by apply land_255_u8.
  rewrite (low_byte_split (c .^. x)) at 2. rewrite bit_steps_lxor.
  change 8 with (Z.of_nat 8) at 3. rewrite bit_steps_shiftl.
  rewrite Z.shiftr_lxor, (shiftr_byte x) by done. rewrite Z.lxor_0_r. apply Z.lxor_comm.
Qed.

Lemma crc_table_fold table P data c :
  tabulates table P -> Forall is_u8 data ->
  fold_left (crc_inner table) data c = crc_bits P data c.
Proof.
  intros Ht Hd. revert c. induction Hd as [|x data Hx _ IH]; intros c; [done|].
  simpl. rewrite IH, (crc_inner_bits table P) by done. done.
Qed.

Lemma lxor_u8 a b : is_u8 a -> is_u8 b -> is_u8 (a .^. b).
Proof.
  unfold is_u8. intros Ha Hb.
  replace (a .^. b) with ((a .^. b) mod 2 ^ 8); [apply Z.mod_pos_bound; lia|].
  rewrite <- Z.land_ones by lia. apply Z.bits_inj'. intros k Hk.
  rewrite Z.land_spec, Z.lxor_spec. destruct (decide (k < 8)).
  - rewrite Z.ones_spec_low by lia. apply andb_true_r.
  - rewrite Z.ones_spec_high by lia. rewrite andb_false_r.
    rewrite <- (Z.mod_small a (2 ^ 8)), <- (Z.mod_small b (2 ^ 8)) by done.
    rewrite !Z.mod_pow2_bits_high by lia. done.
Qed.

Lemma bit_steps8_u8 b : is_u8 b -> is_u8 (bit_steps POLY8 8 b).
Proof.
  intros Hb. rewrite <- crc8_tabulates by done.
  assert (Forall is_u8 crc8_table) as H by (apply all_u8_ok; vm_compute; reflexivity).
  rewrite Forall_forall in H. apply H. apply list_elem_of_lookup_total_2.
  unfold is_u8 in Hb. word_consts. change (length crc8_table) with (Z.to_nat 256). lia.
Qed.

Lemma crc8_bits data c :
  is_u8 c -> Forall is_u8 data -> crc8 data c = crc_bits POLY8 data c /\ is_u8 (crc8 data c).
Proof.
  intros Hc Hd. unfold crc8. revert c Hc. induction Hd as [|x data Hx _ IH]; intros c Hc; [done|].
  simpl. replace ((c .^. x) .&. 255) with (c .^. x).
  - rewrite crc8_tabulates by by apply lxor_u8. apply IH. by apply bit_steps8_u8, lxor_u8.
  - change 255 with (Z.ones 8). rewrite Z.land_ones by lia.
    rewrite Z.mod_small; [done|]. by apply lxor_u8.
Qed.

(** ** [crc32] and the alignment of its buffer *)

(** Memory that holds exactly the bytes [l] at address [base]. *)
Definition buffer_at (base : Z) (l : list Z) (a : Z) : option Z :=
  if a <? base then None else l !! Z.to_nat (a - base).

(** The bytes before the next word boundary. *)
Definition align_gap (a : Z) : Z := ((a + 3) .&. 0xfffffffc) - a.

Lemma buffer_at_lookup base l k : buffer_at base l (base + Z.of_nat k) = l !! k.
Proof.
  unfold buffer_at. destruct (base + Z.of_nat k <? base) eqn:E; [apply Z.ltb_lt in E; lia|].
  f_equal. lia.
Qed.

Lemma crc32_bytes_buffer base l n k crc :
  (k + n <= length l)%nat ->
  crc32_bytes (buffer_at base l) n (base + Z.of_nat k) crc
  = Ret (fold_left (crc_inner crc32_table) (take n (drop k l)) crc).
Proof.
  revert k crc. induction n as [|n IH]; intros k crc Hk; [by rewrite take_0|].
  cbn [crc32_bytes]. rewrite buffer_at_lookup.
  destruct (lookup_lt_is_Some_2 l k) as [x Hx]; [lia|]. rewrite Hx.
  cbn [mbind outcome_bind deref].
  replace (base + Z.of_nat k + 1) with (base + Z.of_nat (S k)) by lia.
  rewrite IH by lia. by rewrite (drop_S l x k).
Qed.

Lemma crc32_words_bytes mem n a crc :
  crc32_words mem n a crc = crc32_bytes mem (4 * n) a crc.
Proof.
  revert a crc. induction n as [|n IH]; intros a crc; [done|].
  replace (4 * S n)%nat with (4 + 4 * n)%nat by lia. cbn [crc32_words crc32_bytes Nat.add].
  replace (a + 1 + 1 + 1 + 1) with (a + 4) by lia.
  replace (a + 1 + 1 + 1) with (a + 3) by lia. replace (a + 1 + 1) with (a + 2) by lia.
  destruct (mem a); [|done]. destruct (mem (a + 1)); [|done].
  destruct (mem (a + 2)); [|done]. destruct (mem (a + 3)); [|done].
  cbn [mbind outcome_bind deref]. apply IH.
Qed.

Lemma crc32_bytes_app mem m n a crc :
  crc32_bytes mem (m + n) a crc
  = c ← crc32_bytes mem m a crc; crc32_bytes mem n (a + Z.of_nat m) c.
Proof.
  revert a crc. induction m as [|m IH]; intros a crc.
  - cbn. f_equal. lia.
  - cbn [crc32_bytes Nat.add]. destruct (mem a); [|done]. cbn [mbind outcome_bind deref].
    rewrite IH. replace (a + 1 + Z.of_nat m) with (a + Z.of_nat (S m)) by lia. done.
Qed.

Lemma land_word_mask x : is_u32 x -> x .&. 0xfffffffc = x - x mod 4.
Proof.
  unfold is_u32. intros Hx.
  replace (x .&. 0xfffffffc) with (Z.shiftl (Z.shiftr x 2) 2).
  - rewrite Z.shiftl_mul_pow2, Z.shiftr_div_pow2 by lia. change (2 ^ 2) with 4.
    Z.to_euclidean_division_equations; lia.
  - apply Z.bits_inj'. intros k Hk. rewrite Z.land_spec. destruct (decide (k < 2)).
    + rewrite Z.shiftl_spec_low by lia.
      replace (Z.testbit 4294967292 k) with false; [by rewrite andb_false_r|].
      assert (k = 0 \/ k = 1) as [-> | ->] by lia; done.
    + rewrite Z.shiftl_spec_high, Z.shiftr_spec by lia. replace (k - 2 + 2) with k by lia.
      destruct (decide (k < 32)).
      * change 4294967292 with (Z.shiftl (Z.ones 30) 2).
        rewrite Z.shiftl_spec_high, Z.ones_spec_low by lia. by rewrite andb_true_r.
      * rewrite <- (Z.mod_small x (2 ^ 32)) by done.
        rewrite Z.mod_pow2_bits_high by lia. done.
Qed.

Lemma align_gap_range a : 0 <= a -> a + 3 < 2 ^ 32 -> 0 <= align_gap a < 4.
Proof.
  intros. unfold align_gap. rewrite land_word_mask by (unfold is_u32; lia).
  Z.to_euclidean_division_equations; lia.
Qed.

(** The three phases of [crc32] cover the buffer once, in order. *)
Lemma crc32_is_fold base l crc :
  0 <= base -> base + 3 < 2 ^ 32 -> Z.of_nat (length l) < 2 ^ 32 ->
  align_gap base <= Z.of_nat (length l) ->
  crc32 (buffer_at base l) base (Z.of_nat (length l)) crc
  = Ret (fold_left (crc_inner crc32_table) l crc).
Proof.
  intros Hb H3 Hl Hg. pose proof (align_gap_range base Hb H3) as Hr.
  unfold crc32. change ((base + 3) .&. 0xfffffffc - base) with (align_gap base).
  rewrite u32_small by (unfold is_u32; lia).
  set (n := Z.of_nat (length l) - align_gap base) in *.
  assert (is_u32 n) as Hn by (unfold is_u32; lia).
  rewrite (land_word_mask n) by done.
  replace ((base + 3) .&. 0xfffffffc) with (base + Z.of_nat (Z.to_nat (align_gap base)))
    by (unfold align_gap in *; lia).
  change (n .&. 3) with (n .&. Z.ones 2). rewrite Z.land_ones by lia. change (2 ^ 2) with 4.
  set (w := Z.to_nat ((n - n mod 4) / 4)).
  replace (n - n mod 4) with (Z.of_nat (4 * w))
    by (subst w; Z.to_euclidean_division_equations; lia).
  pose proof (crc32_bytes_buffer base l (length l) 0 crc ltac:(lia)) as E.
  rewrite drop_0, take_ge in E by lia.
  replace (base + Z.of_nat 0) with base in E by lia.
  replace (length l) with (Z.to_nat (align_gap base) + (4 * w + Z.to_nat (n mod 4)))%nat in E
    by (subst w n; Z.to_euclidean_division_equations; lia).
  rewrite <- E, crc32_bytes_app.
  destruct (crc32_bytes _ (Z.to_nat (align_gap base)) base crc); [|done..].
  cbn [mbind outcome_bind]. rewrite crc32_bytes_app, crc32_words_bytes. done.
Qed.

(** ** Residues

    A checksum over the data and the complement of its own checksum, stored
    low byte first, is a constant. *)
Fixpoint le_bytes (n : nat) (v : Z) : list Z :=
  match n with O => [] | S n => (v .&. 255) :: le_bytes n (Z.shiftr v 8) end.
Definition le_word (bs : list Z) : Z := foldr (fun x w => x .^. Z.shiftl w 8) 0 bs.

Lemma le_bytes_u8 n v : Forall is_u8 (le_bytes n v).
Proof. revert v; induction n; intros v; simpl; constructor; auto using land_255_u8. Qed.

Lemma le_word_bytes n v : 0 <= v < 2 ^ (8 * Z.of_nat n) -> le_word (le_bytes n v) = v.
Proof.
  revert v. induction n as [|n IH]; intros v Hv; simpl.
  - change (2 ^ (8 * Z.of_nat 0)) with 1 in Hv. unfold le_word. simpl. lia.
  - unfold le_word in *. cbn [le_bytes foldr]. rewrite IH; [symmetry; apply low_byte_split|].
    rewrite Z.shiftr_div_pow2 by lia. split; [apply Z.div_pos; lia|].
    apply Z.div_lt_upper_bound; [lia|]. rewrite <- Z.pow_add_r by lia.
    replace (8 + 8 * Z.of_nat n) with (8 * Z.of_nat (S n)) by lia. apply Hv.
Qed.

Lemma crc_bits_word P bs c :
  crc_bits P bs c = bit_steps P (8 * length bs) (c .^. le_word bs).
Proof.
  revert c. induction bs as [|x bs IH]; intros c.
  - unfold crc_bits, le_word. simpl. by rewrite Z.lxor_0_r.
  - unfold crc_bits, le_word in *. cbn [fold_left foldr length].
    rewrite IH. replace (8 * S (length bs))%nat with (8 * length bs + 8)%nat by lia.
    rewrite bit_steps_add. f_equal. rewrite <- Z.lxor_assoc.
    rewrite (bit_steps_lxor P 8 (c .^. x)). f_equal.
    symmetry. apply (bit_steps_shiftl P 8).
Qed.

Lemma lxor_lt w a b : 0 <= w -> 0 <= a < 2 ^ w -> 0 <= b < 2 ^ w -> 0 <= a .^. b < 2 ^ w.
Proof.
  intros Hw Ha Hb.
  replace (a .^. b) with ((a .^. b) mod 2 ^ w); [apply Z.mod_pos_bound; lia|].
  rewrite <- Z.land_ones by lia. apply Z.bits_inj'. intros k Hk.
  rewrite Z.land_spec, Z.lxor_spec. destruct (decide (k < w)).
  - rewrite Z.ones_spec_low by lia. apply andb_true_r.
  - rewrite Z.ones_spec_high by lia. rewrite andb_false_r.
    rewrite <- (Z.mod_small a (2 ^ w)), <- (Z.mod_small b (2 ^ w)) by done.
    rewrite !Z.mod_pow2_bits_high by lia. done.
Qed.

Lemma bit_step_lt w P c :
  0 <= w -> 0 <= P < 2 ^ w -> 0 <= c < 2 ^ w -> 0 <= bit_step P c < 2 ^ w.
Proof.
  intros Hw HP Hc. unfold bit_step.
  assert (0 <= Z.shiftr c 1 < 2 ^ w).
  { rewrite Z.shiftr_div_pow2 by lia. change (2 ^ 1) with 2. Z.to_euclidean_division_equations; lia. }
  destruct (Z.odd c); [by apply lxor_lt|done].
Qed.

Lemma bit_steps_lt w P n c :
  0 <= w -> 0 <= P < 2 ^ w -> 0 <= c < 2 ^ w -> 0 <= bit_steps P n c < 2 ^ w.
Proof. intros Hw HP Hc. induction n as [|n IH]; [done|]. by apply (bit_step_lt w). Qed.

Lemma crc_bits_lt w P bs c :
  8 <= w -> 0 <= P < 2 ^ w -> Forall is_u8 bs -> 0 <= c < 2 ^ w -> 0 <= crc_bits P bs c < 2 ^ w.
Proof.
  intros Hw HP Hbs. revert c. induction Hbs as [|x bs Hx _ IH]; intros c Hc; [done|].
  apply IH, bit_steps_lt; [lia|done|]. apply lxor_lt; [lia|done|].
  unfold is_u8 in Hx. assert (2 ^ 8 <= 2 ^ w) by (apply Z.pow_le_mono_r; lia). lia.
Qed.

Lemma crc_bits_app P a b c : crc_bits P (a ++ b) c = crc_bits P b (crc_bits P a c).
Proof. apply fold_left_app. Qed.

(** The residue of an [8 n]-bit checksum. *)
Lemma crc_bits_good P n data c :
  (1 <= n)%nat -> 0 <= P < 2 ^ (8 * Z.of_nat n) -> Forall is_u8 data ->
  0 <= c < 2 ^ (8 * Z.of_nat n) ->
  crc_bits P (data ++ le_bytes n (crc_bits P data c .^. Z.ones (8 * Z.of_nat n))) c
  = bit_steps P (8 * n) (Z.ones (8 * Z.of_nat n)).
Proof.
  intros Hn HP Hd Hc. rewrite crc_bits_app, crc_bits_word.
  assert (forall v, length (le_bytes n v) = n) as Hlen
    by (clear; induction n; intros; simpl; auto).
  rewrite Hlen, le_word_bytes.
  - by rewrite <- Z.lxor_assoc, Z.lxor_nilpotent, Z.lxor_0_l.
  - apply lxor_lt; [lia|apply crc_bits_lt; (lia || done)|]. rewrite Z.ones_equiv.
    assert (0 < 2 ^ (8 * Z.of_nat n)) by lia. lia.
Qed.

(** The table-driven checksums compute the division they document: on
    every byte string [crc8] and [crc16] equal the bit-serial checksum of their
    polynomial, from every start value of their width, and so does [crc32] on a
    buffer at any address, whatever mix of single bytes and words it reads, when
    the buffer reaches the first word boundary. *)
Theorem crc_table_bitwise (data : list Z) (c base : Z) :
  Forall is_u8 data -> is_u8 c -> 0 <= base -> base + 3 < 2 ^ 32 ->
  Z.of_nat (length data) < 2 ^ 32 -> align_gap base <= Z.of_nat (length data) ->
  crc8 data c = crc_bits POLY8 data c /\
  (forall c16, crc16 data c16 = crc_bits POLY16 data c16) /\
  (forall c32, crc32 (buffer_at base data) base (Z.of_nat (length data)) c32
               = Ret (crc_bits POLY32 data c32)).
Proof.
  intros Hd Hc Hb H3 Hl Hg. split_and!.
  - by apply crc8_bits.
  - intros c16. by apply crc_table_fold, Hd; apply crc16_tabulates.
  - intros c32. rewrite crc32_is_fold by done.
    by rewrite (crc_table_fold _ POLY32) by (apply crc32_tabulates || done).
Qed.

Lemma crc_table_bitwise_witness :
  crc8 [1; 2; 3; 200] 255 = crc_bits POLY8 [1; 2; 3; 200] 255 /\
  (forall c16, crc16 [1; 2; 3; 200] c16 = crc_bits POLY16 [1; 2; 3; 200] c16) /\
  (forall c32, crc32 (buffer_at 4097 [1; 2; 3; 200]) 4097 4 c32
               = Ret (crc_bits POLY32 [1; 2; 3; 200] c32)).
Proof.
  apply (crc_table_bitwise [1; 2; 3; 200] 255 4097); try done.
  apply all_u8_ok. reflexivity.
Defined.

(** The residues of the documentation: appending the complement of the
    checksum, low byte first, makes the checksum of the whole [CRC8_GOOD_VALUE],
    [CRC16_GOOD_VALUE] and [CRC32_GOOD_VALUE], for all data. *)
Theorem crc_good_value (data : list Z) (base : Z) :
  Forall is_u8 data -> 0 <= base -> base + 3 < 2 ^ 32 ->
  Z.of_nat (length data) + 4 < 2 ^ 32 -> align_gap base <= Z.of_nat (length data) ->
  crc8 (data ++ le_bytes 1 (crc8 data CRC8_INIT_VALUE .^. 0xff)) CRC8_INIT_VALUE
    = CRC8_GOOD_VALUE /\
  crc16 (data ++ le_bytes 2 (crc16 data CRC16_INIT_VALUE .^. 0xffff)) CRC16_INIT_VALUE
    = CRC16_GOOD_VALUE /\
  exists c, crc32 (buffer_at base data) base (Z.of_nat (length data)) CRC32_INIT_VALUE = Ret c /\
    let all := data ++ le_bytes 4 (c .^. 0xffffffff) in
    crc32 (buffer_at base all) base (Z.of_nat (length all)) CRC32_INIT_VALUE
      = Ret CRC32_GOOD_VALUE.
Proof.
  intros Hd Hb H3 Hl Hg. split_and!.
  - destruct (crc8_bits data CRC8_INIT_VALUE) as [E _]; [done..|].
    destruct (crc8_bits (data ++ le_bytes 1 (crc8 data CRC8_INIT_VALUE .^. 0xff)) CRC8_INIT_VALUE)
      as [E' _]; [done|by apply Forall_app_2, le_bytes_u8|].
    rewrite E', E. etrans; [apply (crc_bits_good POLY8 1); [lia|done..]|by vm_compute].
  - unfold crc16. rewrite !(crc_table_fold _ POLY16)
      by (apply crc16_tabulates || done || by apply Forall_app_2, le_bytes_u8).
    etrans; [apply (crc_bits_good POLY16 2); [lia|done..]|by vm_compute].
  - eexists. rewrite crc32_is_fold by (done || lia). split; [done|]. cbv zeta.
    rewrite crc32_is_fold by (done || (rewrite length_app; simpl; lia)).
    rewrite !(crc_table_fold _ POLY32)
      by (apply crc32_tabulates || done || by apply Forall_app_2, le_bytes_u8).
    f_equal. etrans; [apply (crc_bits_good POLY32 4); [lia|done..]|by vm_compute].
Qed.

Lemma crc_good_value_witness :
  crc8 ([7; 8; 9] ++ le_bytes 1 (crc8 [7; 8; 9] CRC8_INIT_VALUE .^. 0xff)) CRC8_INIT_VALUE
    = CRC8_GOOD_VALUE.
Proof.
  apply (crc_good_value [7; 8; 9] 4096); try done. apply all_u8_ok. reflexivity.
Defined.

(** A buffer that ends before the first word boundary: the alignment loop reads
    past its end (and the remaining count becomes negative). *)
Lemma crc32_short_unaligned base l crc :
  0 <= base -> base + 3 < 2 ^ 32 -> Z.of_nat (length l) < align_gap base ->
  crc32 (buffer_at base l) base (Z.of_nat (length l)) crc = Fault.
Proof.
  intros Hb H3 Hl. unfold crc32.
  change ((base + 3) .&. 0xfffffffc - base) with (align_gap base).
  replace (Z.to_nat (align_gap base))
    with (length l + S (Z.to_nat (align_gap base) - length l - 1))%nat by lia.
  rewrite crc32_bytes_app.
  pose proof (crc32_bytes_buffer base l (length l) 0 crc ltac:(lia)) as E.
  replace (base + Z.of_nat 0) with base in E by lia. rewrite E.
  cbn [mbind outcome_bind crc32_bytes].
  rewrite buffer_at_lookup, (lookup_ge_None_2 l) by lia. done.
Qed.

(** ** Ethernet addresses *)

(** Reading back one printed byte, followed by a colon or the end. *)
Lemma strtoul_x02_colon b r :
  is_u8 b -> bcm_strtoul (x02 b +:+ String ":" r) 16 = (b, String ":" r).
Proof.
  intros Hb. unfold is_u8 in Hb. word_consts.
  assert ((fun i => bcm_strtoul (x02 (Z.of_nat i) +:+ String ":" r) 16) <$> seq 0 256
          = (fun i => (Z.of_nat i, String ":" r)) <$> seq 0 256) as E by (vm_compute; reflexivity).
  apply (f_equal (fun l => l !! Z.to_nat b)) in E. rewrite !list_lookup_fmap in E.
  rewrite lookup_seq_lt in E by (change 256%nat with (Z.to_nat 256); lia).
  simpl in E. injection E as E. by rewrite Z2Nat.id in E by lia.
Qed.

Lemma strtoul_x02_end b : is_u8 b -> bcm_strtoul (x02 b) 16 = (b, EmptyString).
Proof.
  intros Hb. unfold is_u8 in Hb. word_consts.
  assert ((fun i => bcm_strtoul (x02 (Z.of_nat i)) 16) <$> seq 0 256
          = (fun i => (Z.of_nat i, EmptyString)) <$> seq 0 256) as E by (vm_compute; reflexivity).
  apply (f_equal (fun l => l !! Z.to_nat b)) in E. rewrite !list_lookup_fmap in E.
  rewrite lookup_seq_lt in E by (change 256%nat with (Z.to_nat 256); lia).
  simpl in E. injection E as E. by rewrite Z2Nat.id in E by lia.
Qed.

Lemma atoe_loop_colon n b r ea :
  is_u8 b -> atoe_loop (S n) (x02 b +:+ ":" +:+ r) ea = atoe_loop n r (ea ++ [b]).
Proof.
  intros Hb. change (":" +:+ r) with (String ":" r). cbn [atoe_loop]. rewrite strtoul_x02_colon by done.
  unfold u8. by rewrite (Z.mod_small b) by apply Hb.
Qed.

(** What [bcm_ether_ntoa] prints [bcm_ether_atoe] reads back. *)
Theorem ether_roundtrip (ea : list Z) :
  length ea = 6%nat -> Forall is_u8 ea -> bcm_ether_atoe (bcm_ether_ntoa ea) = (ea, true).
Proof.
  intros Hl Hea. destruct ea as [|e0 [|e1 [|e2 [|e3 [|e4 [|e5 [|]]]]]]]; try done.
  rewrite !Forall_cons in Hea. destruct Hea as (H0 & H1 & H2 & H3 & H4 & H5 & _).
  unfold bcm_ether_atoe, bcm_ether_ntoa.
  rewrite (atoe_loop_colon 5) by done. rewrite (atoe_loop_colon 4) by done.
  rewrite (atoe_loop_colon 3) by done. rewrite (atoe_loop_colon 2) by done.
  rewrite (atoe_loop_colon 1) by done. cbn [atoe_loop]. rewrite strtoul_x02_end by done.
  unfold u8. rewrite (Z.mod_small e5) by apply H5. done.
Qed.

(** ** Tag/length/value lists *)

Lemma tlvs_loop_ok fuel ordered buf elt totlen key :
  Forall is_u8 buf -> Z.of_nat elt + totlen <= Z.of_nat (length buf) ->
  (Z.to_nat totlen < fuel)%nat ->
  exists r, tlvs_loop fuel ordered buf elt totlen key = Ret r /\
    match r with
    | None => True
    | Some i => exists len, buf !! i = Some key /\ buf !! S i = Some len /\
        Z.of_nat i + 2 + len <= Z.of_nat elt + totlen
    end.
Proof.
  intros Hu. revert elt totlen. induction fuel as [|fuel IH]; intros elt totlen Hin Hf; [lia|].
  cbn [tlvs_loop]. destruct (totlen <? 2) eqn:E; [by eexists|]. apply Z.ltb_ge in E.
  destruct (lookup_lt_is_Some_2 buf elt) as [id Hid]; [lia|].
  destruct (lookup_lt_is_Some_2 buf (S elt)) as [len Hlen]; [lia|].
  rewrite Hid, Hlen. cbn [deref mbind outcome_bind].
  destruct (ordered && (key <? id)); [by eexists|].
  assert (is_u8 len) as Hl by (rewrite Forall_lookup in Hu; eauto).
  destruct ((id =? key) && (len + 2 <=? totlen)) eqn:Em.
  - eexists. split; [done|]. apply andb_true_iff in Em as [E1 E2].
    apply Z.eqb_eq in E1 as ->. apply Z.leb_le in E2. exists len. split_and!; [done..|lia].
  - unfold is_u8 in Hl.
    destruct (IH (elt + Z.to_nat (len + 2))%nat (totlen - (len + 2))) as (r & Hr & Hok); [lia..|].
    exists r. split; [done|]. destruct r as [i|]; [|done].
    destruct Hok as (l & ? & ? & ?). exists l. split_and!; [done..|lia].
Qed.

(** The searches of a tag/length/value list end and read nothing outside
    the [buflen] bytes, and an element they return carries the key and lies, with
    its data, inside those bytes: for every content of the buffer, well-formed
    or not. *)
Theorem parse_tlvs_in_buffer (buf : list Z) (buflen key : Z) (ordered : bool) :
  Forall is_u8 buf -> buflen <= Z.of_nat (length buf) ->
  exists r,
    (if ordered then bcm_parse_ordered_tlvs else bcm_parse_tlvs) buf buflen key = Ret r /\
    match r with
    | None => True
    | Some i => exists len, buf !! i = Some key /\ buf !! S i = Some len /\
        Z.of_nat i + 2 + len <= buflen
    end.
Proof.
  intros Hu Hl.
  destruct (tlvs_loop_ok (S (length buf)) ordered buf 0 buflen key) as (r & Hr & Hok); [done|lia..|].
  exists r. split; [by destruct ordered|done].
Qed.

Lemma parse_tlvs_in_buffer_witness :
  exists r, bcm_parse_tlvs [1; 1; 9; 3; 2; 5; 5; 7; 200] 9 3 = Ret r /\
    match r with
    | None => True
    | Some i => exists len, [1; 1; 9; 3; 2; 5; 5; 7; 200] !! i = Some 3 /\
        [1; 1; 9; 3; 2; 5; 5; 7; 200] !! S i = Some len /\ Z.of_nat i + 2 + len <= 9
    end.
Proof.
  apply (parse_tlvs_in_buffer [1; 1; 9; 3; 2; 5; 5; 7; 200] 9 3 false); [|done].
  apply all_u8_ok. reflexivity.
Defined.
