(* ===== verification/NvramDrv.v ===== *)
(** * The NVRAM driver of the kernel (ti_sangam/nvram.c, nvram_linux.c)

    [Module Drv]. The driver keeps the configuration variables in a hash table
    of 257 chains; the names live in the allocated tuples, the values in the
    arena [nvram_buf], filled from the front by [nvram_offset]. A tuple is
    identified by the number of the allocation that made it, so the pointer
    comparisons of the code are comparisons of [addr]; [value] is the offset of
    the value in the arena.

    The flash partition is reached through the MTD layer of the kernel, which
    is the class [Mtd]; whether an allocation succeeds is decided by the class
    [Kernel]. Locks and semaphores serialise the operations and have no other
    effect; the SIGIO notification of the writers is left out. *)

From Stdlib Require Import ZArith Lia Ascii.
From stdpp Require Import base numbers sets gmap strings list.
From S2P Require Import Prelude CString Bcmutils.
Open Scope string_scope.
Open Scope Z_scope.
Open Scope list_scope.

Module Drv.
Import Bcm.

Definition NVRAM_SPACE : Z := 0xd400.
Definition NVRAM_MAGIC : Z := 0x48534C46.
Definition NVRAM_VERSION : Z := 1.
(** [sizeof(struct nvram_header)] *)
Definition HEADER_SIZE : Z := 20.
Definition HASH_SIZE : Z := 257.
Definition ENOMEM : Z := 12.
Definition ENODEV : Z := 19.
Definition EINVAL : Z := 22.
Definition EIO : Z := 5.
(** sbsdram.h *)
Definition SDRAM_INIT : Z := 0x419.
Definition SDRAM_CONFIG : Z := 0x0000.
Definition SDRAM_REFRESH : Z := (0x40 .&. 0xff) .|. 0x8000.

Definition NUL : ascii := "000".
Definition ROUNDUP (x y : Z) : Z := (x + (y - 1)) / y * y.

Record nvram_header := mk_header {
  magic : Z;
  len : Z;
  crc_ver_init : Z;
  config_refresh : Z;
  config_ncdl : Z
}.

(** A header and the data area behind it, [NVRAM_SPACE] bytes in all. *)
Record image := mk_image { hdr : nvram_header; area : list ascii }.

Record nvram_tuple := mk_tuple { addr : nat; name : string; value : Z }.

Record drv := mk_drv {
  nvram_hash : list (list nvram_tuple);
  nvram_dead : list nvram_tuple;
  nvram_buf : gmap Z ascii;   (* absent cells are zero, as in the BSS *)
  nvram_offset : Z;
  allocs : nat                (* allocations made so far *)
}.

Definition with_hash (h : list (list nvram_tuple)) (s : drv) : drv :=
  mk_drv h (nvram_dead s) (nvram_buf s) (nvram_offset s) (allocs s).
Definition with_dead (d : list nvram_tuple) (s : drv) : drv :=
  mk_drv (nvram_hash s) d (nvram_buf s) (nvram_offset s) (allocs s).
Definition with_arena (b : gmap Z ascii) (o : Z) (s : drv) : drv :=
  mk_drv (nvram_hash s) (nvram_dead s) b o (allocs s).
Definition with_allocs (n : nat) (s : drv) : drv :=
  mk_drv (nvram_hash s) (nvram_dead s) (nvram_buf s) (nvram_offset s) n.

(** Whether the [n]-th allocation succeeds. *)
Class Kernel := { kmalloc : nat -> bool }.

(** ** Strings in the arena *)

Fixpoint str_loop (n : nat) (m : gmap Z ascii) (a : Z) : outcome string :=
  match n with
  | O => Fault
  | S n =>
      let c := default NUL (m !! a) in
      if bool_decide (c = NUL) then Ret EmptyString
      else s ← str_loop n m (a + 1); Ret (String c s)
  end.
(** The string at [nvram_buf + a]. *)
Definition str_at (m : gmap Z ascii) (a : Z) : outcome string :=
  if a <? 0 then Fault else str_loop (Z.to_nat (NVRAM_SPACE - a)) m a.

Fixpoint copy_str (m : gmap Z ascii) (a : Z) (s : string) : gmap Z ascii :=
  match s with
  | EmptyString => <[a := NUL]> m
  | String c s => copy_str (<[a := c]> m) (a + 1) s
  end.
(** [strcpy(&nvram_buf[a], s)] *)
Definition strcpy_at (m : gmap Z ascii) (a : Z) (s : string) : outcome (gmap Z ascii) :=
  if (a <? 0) || (NVRAM_SPACE <? a + strlen s + 1) then Fault else Ret (copy_str m a s).

(** ** The hash table *)

(** [char] is signed on this target. *)
Fixpoint hash_loop (s : string) (h : Z) : Z :=
  match s with
  | EmptyString => h
  | String c s => hash_loop s (u32 (31 * h + s8 (code c)))
  end.
Definition hash (s : string) : Z := hash_loop s 0.
Definition bucket (n : string) : nat := Z.to_nat (hash n mod HASH_SIZE).

Definition has_name (n : string) (t : nvram_tuple) : bool := bool_decide (name t = n).
(** [nvram_hash[i]], and the position in it of the tuple of a name *)
Definition chain (s : drv) (i : nat) : list nvram_tuple := default [] (nvram_hash s !! i).
Definition find_tuple (n : string) (b : list nvram_tuple) : option nat := find_index (has_name n) b.

Definition _nvram_get (n : string) (s : drv) : outcome (option string) :=
  let b := chain s (bucket n) in
  match find_tuple n b ≫= (fun k => b !! k) with
  | Some t => v ← str_at (nvram_buf s) (value t); Ret (Some v)
  | None => Ret None
  end.

Section Ops.
Context `{Kernel}.

(** [_nvram_realloc]: the tuple, or [None] when there is no room. *)
Definition copy_value (t : nvram_tuple) (v : string) (s : drv)
    : outcome (option nvram_tuple * drv) :=
  m ← strcpy_at (nvram_buf s) (nvram_offset s) v;
  Ret (Some (mk_tuple (addr t) (name t) (nvram_offset s)),
       with_arena m (nvram_offset s + strlen v + 1) s).

Definition _nvram_realloc (t : option nvram_tuple) (n v : string) (s : drv)
    : outcome (option nvram_tuple * drv) :=
  if NVRAM_SPACE <? nvram_offset s + strlen v + 1 then Ret (None, s) else
  match t with
  | None =>
      let s' := with_allocs (S (allocs s)) s in
      if kmalloc (allocs s) then copy_value (mk_tuple (allocs s) n 0) v s'
      else Ret (None, s')
  | Some t =>
      cur ← str_at (nvram_buf s) (value t);
      if bool_decide (cur = v) then Ret (Some t, s) else copy_value t v s
  end.

(** Take the tuple at position [k] of chain [i] to the dead table. *)
Definition bury (i k : nat) (t : nvram_tuple) (s : drv) : drv :=
  with_dead (t :: nvram_dead s) (with_hash (<[i := delete k (chain s i)]> (nvram_hash s)) s).

Definition _nvram_set (n v : string) (s : drv) : outcome (Z * drv) :=
  let i := bucket n in
  let k := find_tuple n (chain s i) in
  let t := k ≫= (fun k => chain s i !! k) in
  '(u, s) ← _nvram_realloc t n v s;
  match u with
  | None => Ret (- ENOMEM, s)
  | Some u =>
      let push s := Ret (0, with_hash (<[i := u :: chain s i]> (nvram_hash s)) s) in
      match k, t with
      | Some k, Some t =>
          if (addr t =? addr u)%nat then
            Ret (0, with_hash (<[i := <[k := u]> (chain s i)]> (nvram_hash s)) s)
          else push (bury i k t s)
      | _, _ => push s
      end
  end.

Definition _nvram_unset (n : string) (s : drv) : Z * drv :=
  let i := bucket n in
  match find_tuple n (chain s i) with
  | Some k =>
      match chain s i !! k with
      | Some t => (0, bury i k t s)
      | None => (0, s)
      end
  | None => (0, s)
  end.

(** [nvram_free]: the tuples go back to the allocator, the arena is empty. *)
Definition nvram_free (s : drv) : drv :=
  mk_drv (replicate (Z.to_nat HASH_SIZE) []) [] (nvram_buf s) 0 (allocs s).

(** ** Writing the variables out

    The loops of [_nvram_getall] and [_nvram_commit]: a tuple that does not
    [fit] ends its chain, and the next chain is tried. *)
Definition entry (n v : string) : list ascii :=
  String.list_ascii_of_string (n +:+ "=" +:+ v) ++ [NUL].

Fixpoint write_chain (fits : Z -> Z -> bool) (m : gmap Z ascii) (b : list nvram_tuple)
    (out : list ascii) : outcome (list ascii) :=
  match b with
  | [] => Ret out
  | t :: b =>
      v ← str_at m (value t);
      if fits (Z.of_nat (length out)) (strlen (name t) + 1 + strlen v + 1) then
        write_chain fits m b (out ++ entry (name t) v)
      else Ret out
  end.

Fixpoint write_chains (fits : Z -> Z -> bool) (m : gmap Z ascii) (h : list (list nvram_tuple))
    (out : list ascii) : outcome (list ascii) :=
  match h with
  | [] => Ret out
  | b :: h => out ← write_chain fits m b out; write_chains fits m h out
  end.

(** The rest of a buffer after [bzero]. *)
Definition zero_fill (n : Z) (out : list ascii) : list ascii :=
  out ++ replicate (Z.to_nat n - length out) NUL.

Definition _nvram_getall (count : Z) (s : drv) : outcome (list ascii) :=
  out ← write_chains (fun len need => need <? count - len) (nvram_buf s) (nvram_hash s) [];
  Ret (zero_fill count out).

(** ** Reading the variables in *)

(** The C string at the front of a buffer, and what follows its NUL. *)
Fixpoint line (l : list ascii) : option (string * list ascii) :=
  match l with
  | [] => None
  | c :: l =>
      if bool_decide (c = NUL) then Some (EmptyString, l)
      else '(s, r) ← line l; Some (String c s, r)
  end.

Fixpoint parse_loop (fuel : nat) (p : list ascii) (s : drv) : outcome drv :=
  match fuel with
  | O => Running
  | S fuel =>
      '(l, rest) ← deref (line p);
      if bool_decide (l = EmptyString) then Ret s else
      match from (is_char "=") l with
      | EmptyString => Ret s
      | String _ v =>
          '(_, s) ← _nvram_set (upto (is_char "=") l) v s;
          parse_loop fuel rest s
      end
  end.

(** "%04X" and "%08X" *)
Definition hexn (digits : list Z) (x : Z) : string :=
  foldr (fun i acc => String (hex_digit true (Z.land (Z.shiftr x (4 * i)) 15)) acc)
    EmptyString digits.
Definition sdram16 (x : Z) : string := "0x" +:+ hexn [3; 2; 1; 0] (u16 x).
Definition sdram32 (x : Z) : string := "0x" +:+ hexn [7; 6; 5; 4; 3; 2; 1; 0] x.

(** [if (!_nvram_get(n)) _nvram_set(n, v)] *)
Definition set_default (n v : string) (s : drv) : outcome drv :=
  cur ← _nvram_get n s;
  match cur with
  | Some _ => Ret s
  | None => '(_, s) ← _nvram_set n v s; Ret s
  end.

Definition nvram_rehash (img : image) (s : drv) : outcome drv :=
  let s := nvram_free s in
  let p := take (Z.to_nat (NVRAM_SPACE - HEADER_SIZE - 2)) (area img) ++ [NUL; NUL] in
  s ← parse_loop (S (length p)) p s;
  let h := hdr img in
  s ← set_default "sdram_init" (sdram16 (Z.shiftr (crc_ver_init h) 16)) s;
  s ← set_default "sdram_config" (sdram16 (config_refresh h .&. 0xffff)) s;
  s ← set_default "sdram_refresh" (sdram16 (Z.shiftr (config_refresh h) 16 .&. 0xffff)) s;
  set_default "sdram_ncdl" (sdram32 (config_ncdl h)) s.

(** ** [_nvram_commit] *)

(** The SDRAM words of the header: crc_ver_init, config_refresh, config_ncdl. *)
Definition sdram_words (s : drv) : outcome (Z * Z * Z) :=
  init ← _nvram_get "sdram_init" s;
  config ← _nvram_get "sdram_config" s;
  refresh ← _nvram_get "sdram_refresh" s;
  ncdl ← _nvram_get "sdram_ncdl" s;
  let ver := Z.shiftl NVRAM_VERSION 8 in
  match init, config, refresh, ncdl with
  | Some init, Some config, Some refresh, Some ncdl =>
      Ret (ver .|. Z.shiftl ((bcm_strtoul init 0).1 .&. 0xffff) 16,
           ((bcm_strtoul config 0).1 .&. 0xffff)
             .|. Z.shiftl ((bcm_strtoul refresh 0).1 .&. 0xffff) 16,
           (bcm_strtoul ncdl 0).1)
  | _, _, _, _ =>
      Ret (ver .|. Z.shiftl SDRAM_INIT 16,
           SDRAM_CONFIG .|. Z.shiftl SDRAM_REFRESH 16, 0)
  end.

(** CRC8 over the last 11 bytes of the header and the data. *)
Definition image_crc (cvi cr nc : Z) (data : list ascii) : Z :=
  crc8 (code <$> data)
    (crc8 (drop 1 (mem_of_u32 cvi) ++ mem_of_u32 cr ++ mem_of_u32 nc) CRC8_INIT_VALUE).

(** The new image, written through [header] before the table is rebuilt. *)
Definition regenerate (s : drv) : outcome image :=
  '(cvi, cr, nc) ← sdram_words s;
  out ← write_chains
    (fun len need => negb (NVRAM_SPACE - 2 <? HEADER_SIZE + len + need))
    (nvram_buf s) (nvram_hash s) [];
  let data := zero_fill (NVRAM_SPACE - HEADER_SIZE) out in
  let len := ROUNDUP (HEADER_SIZE + Z.of_nat (length out) + 2) 4 in
  let crc := image_crc cvi cr nc (take (Z.to_nat (len - HEADER_SIZE)) data) in
  Ret (mk_image (mk_header NVRAM_MAGIC len (cvi .|. crc) cr nc) data).

Definition _nvram_commit (s : drv) : outcome (image * drv) :=
  img ← regenerate s; s ← nvram_rehash img s; Ret (img, s).

(** ** The kernel interface *)

(** [nvram_set]: when there is no room, consolidate and try again. *)
Definition nvram_set (n v : string) (s : drv) : outcome (Z * drv) :=
  '(ret, s) ← _nvram_set n v s;
  if ret =? 0 then Ret (ret, s) else
  let s' := with_allocs (S (allocs s)) s in
  if kmalloc (allocs s) then '(_, s) ← _nvram_commit s'; _nvram_set n v s
  else Ret (ret, s').

Definition nvram_unset (n : string) (s : drv) : Z * drv := _nvram_unset n s.

Definition nvram_getall (count : Z) (s : drv) : outcome (list ascii) := _nvram_getall count s.

(** Before the device is registered [early_nvram_get] is [nvram_get] again,
    which does not end. *)
Definition nvram_get (major : Z) (n : string) (s : drv) : outcome (option string) :=
  if 0 <=? major then _nvram_get n s else Running.
End Ops.

End Drv.

(** * The device and the flash (nvram_linux.c) *)
Module Dev.
Import Bcm Drv.

(** The MTD partition "mtd3": a state [F] with the operations the driver calls.
    [mtd_read] gives its result and the bytes it delivered, [mtd_write] its
    result and the number of bytes it wrote; [mtd_unlock] is the identity for a
    device without that operation. *)
Class Mtd (F : Type) := {
  mtd_size : Z;
  mtd_erasesize : Z;
  mtd_read : F -> Z -> Z -> Z * list Z;
  mtd_unlock : F -> Z -> Z -> F;
  mtd_erase : F -> Z -> Z -> Z * F;
  mtd_write : F -> Z -> list Z -> Z * Z * F
}.

(** The [n] cells of a memory from address [a] on. *)
Fixpoint cells {A} (g : Z -> A) (n : nat) (a : Z) : list A :=
  match n with O => [] | S n => g a :: cells g n (a + 1) end.

(** ** Images as bytes *)
Definition header_bytes (h : nvram_header) : list Z :=
  mem_of_u32 (magic h) ++ mem_of_u32 (len h) ++ mem_of_u32 (crc_ver_init h) ++
  mem_of_u32 (config_refresh h) ++ mem_of_u32 (config_ncdl h).
Definition image_bytes (img : image) : list Z := header_bytes (hdr img) ++ (code <$> area img).

Definition word_at (l : list Z) (i : nat) : Z := u32_of_mem (drop i l).
Definition image_of (l : list Z) : image :=
  mk_image (mk_header (word_at l 0) (word_at l 4) (word_at l 8) (word_at l 12) (word_at l 16))
    (chr <$> drop 20 l).

(** The state of the driver's data in the BSS. *)
Definition bss : drv := mk_drv (replicate (Z.to_nat HASH_SIZE) []) [] ∅ 0 0.

Section Device.
Context `{Kernel}.

(** ** Reading and writing /dev/nvram

    The buffer of the user is the list of its [count] bytes, at most 100 of
    which fit the driver's stack. A read returns its result and, when it stored
    something, the bytes at the buffer's address; they can be more than [count]
    bytes. The memory of the process is mapped: the copies to and from it succeed,
    and the result -EFAULT does not occur. *)
Definition dev_buffer (count : Z) (s : drv) : option drv :=
  if 100 <? count then
    if kmalloc (allocs s) then Some (with_allocs (S (allocs s)) s) else None
  else Some s.

Definition dev_nvram_write (buf : list ascii) (s : drv) : outcome (Z * drv) :=
  let count := Z.of_nat (length buf) in
  match dev_buffer count s with
  | None => Ret (- ENOMEM, with_allocs (S (allocs s)) s)
  | Some s =>
      '(l, _) ← deref (line buf);
      match strsep l "=" with
      | (n, Some v) =>
          '(ret, s) ← nvram_set n v s;
          Ret (if ret =? 0 then count else ret, s)
      | (n, None) =>
          let '(ret, s) := nvram_unset n s in
          Ret (if ret =? 0 then count else ret, s)
      end
  end.

Definition dev_nvram_read (major : Z) (buf : list ascii) (s : drv)
    : outcome (Z * option (list ascii) * drv) :=
  let count := Z.of_nat (length buf) in
  match dev_buffer count s with
  | None => Ret (- ENOMEM, None, with_allocs (S (allocs s)) s)
  | Some s =>
      '(l, _) ← deref (line buf);
      if bool_decide (l = EmptyString) then
        all ← nvram_getall count s; Ret (count, Some all, s)
      else
        v ← nvram_get major l s;
        match v with
        | None => Ret (0, None, s)
        | Some v => Ret (4, Some (zero_fill count (String.list_ascii_of_string v)), s)
        end
  end.

(** ** The flash *)
Context {F : Type} `{Mtd F}.

(** The erase loop of [nvram_commit]: the result and the flash. *)
Fixpoint erase_loop (fuel : nat) (offset limit : Z) (f : F) : outcome (Z * F) :=
  match fuel with
  | O => Running
  | S fuel =>
      if offset <? limit then
        let f := mtd_unlock f offset mtd_erasesize in
        let '(ret, f) := mtd_erase f offset mtd_erasesize in
        if ret =? 0 then erase_loop fuel (u32 (offset + mtd_erasesize)) limit f
        else Ret (ret, f)
      else Ret (0, f)
  end.

(** [present] is [nvram_mtd != NULL], [interrupt] is [in_interrupt()]. *)
Definition nvram_commit (present interrupt : bool) (s : drv) (f : F) : outcome (Z * drv * F) :=
  if negb present then Ret (- ENODEV, s, f) else
  if interrupt then Ret (- EINVAL, s, f) else
  if mtd_erasesize =? 0 then Fault else
  let erasesize := ROUNDUP NVRAM_SPACE mtd_erasesize in
  let s' := with_allocs (S (allocs s)) s in
  if negb (kmalloc (allocs s)) then Ret (- ENOMEM, s', f) else
  let start := u32 (mtd_size - erasesize) in
  let i := erasesize - NVRAM_SPACE in
  let '(ret, backup) := mtd_read f start i in
  if negb (ret =? 0) || negb (Z.of_nat (length backup) =? i) then Ret (- EIO, s', f) else
  '(img, s) ← _nvram_commit s';
  '(ret, f) ← erase_loop (S (Z.to_nat (erasesize / mtd_erasesize))) start
                (u32 (mtd_size - NVRAM_SPACE + len (hdr img))) f;
  if negb (ret =? 0) then Ret (ret, s, f) else
  let i := erasesize - NVRAM_SPACE + len (hdr img) in
  let '(ret, n, f) := mtd_write f start (backup ++ take (Z.to_nat (len (hdr img))) (image_bytes img)) in
  if negb (ret =? 0) || negb (n =? i) then Ret (- EIO, s, f) else
  let '(ret, _) := mtd_read f start 4 in
  Ret (ret, s, f).

Definition dev_nvram_ioctl (cmd : Z) (present interrupt : bool) (s : drv) (f : F)
    : outcome (Z * drv * F) :=
  if cmd =? NVRAM_MAGIC then nvram_commit present interrupt s f else Ret (- EINVAL, s, f).

(** [_nvram_read]: the flash, or the arena when the flash holds no image. *)
Definition arena_bytes (s : drv) : list Z :=
  cells (fun a => code (default NUL (nvram_buf s !! a))) (Z.to_nat NVRAM_SPACE) 0.
Definition _nvram_read (present : bool) (f : F) (s : drv) : list Z :=
  if negb present then arena_bytes s else
  let '(ret, data) := mtd_read f (mtd_size - NVRAM_SPACE) NVRAM_SPACE in
  if negb (ret =? 0) || negb (Z.of_nat (length data) =? NVRAM_SPACE)
     || negb (magic (hdr (image_of data)) =? NVRAM_MAGIC)
  then arena_bytes s else data.

Definition _nvram_init (present : bool) (f : F) (s : drv) : outcome (Z * drv) :=
  let s' := with_allocs (S (allocs s)) s in
  if negb (kmalloc (allocs s)) then Ret (- ENOMEM, s') else
  let img := image_of (_nvram_read present f s') in
  if magic (hdr img) =? NVRAM_MAGIC then s ← nvram_rehash img s'; Ret (0, s)
  else Ret (0, s').

(** [dev_nvram_init]: [major] is the result of the registration. *)
Definition dev_nvram_init (present : bool) (major : Z) (f : F) (s : drv) : outcome (Z * drv) :=
  if major <? 0 then Ret (major, nvram_free s)
  else '(_, s) ← _nvram_init present f s; Ret (0, s).
End Device.

End Dev.
