(* ===== verification/NvramDrvProofs.v ===== *)
(** * Correctness of the NVRAM driver

    The hash table over the bump-allocated arena implements a finite map from
    names to values; committing writes an image from which the same map is
    rebuilt, and writes it where it erased. *)

From Stdlib Require Import ZArith Lia Ascii.
From stdpp Require Import base numbers sets gmap strings list.
From S2P Require Import Prelude CString Bcmutils BcmutilsProofs NvramDrv.
Open Scope string_scope.
Open Scope Z_scope.
Open Scope list_scope.
Import Bcm Drv Dev.

(** ** Strings in the arena *)

Definition nonul (s : string) : bool :=
  forallb (fun c => negb (bool_decide (c = NUL))) (String.list_ascii_of_string s).

Lemma nonul_cons c s : nonul (String c s) = true <-> c <> NUL /\ nonul s = true.
Proof.
  unfold nonul. simpl. rewrite andb_true_iff, negb_true_iff, bool_decide_eq_false. done.
Qed.

Lemma copy_str_before m a s k : k < a -> copy_str m a s !! k = m !! k.
Proof.
  revert m a. induction s as [|c s IH]; intros m a Hk; simpl.
  - by rewrite lookup_insert_ne by lia.
  - rewrite IH by lia. by rewrite lookup_insert_ne by lia.
Qed.

Lemma str_loop_copy s m a n :
  nonul s = true -> (String.length s < n)%nat -> str_loop n (copy_str m a s) a = Ret s.
Proof.
  revert m a n. induction s as [|c s IH]; intros m a n Hs Hn;
    (destruct n as [|n]; [simpl in Hn; lia|]); simpl.
  - by rewrite lookup_insert_eq.
  - apply nonul_cons in Hs as [Hc Hs]. rewrite copy_str_before by lia.
    rewrite lookup_insert_eq. simpl. rewrite bool_decide_eq_false_2 by done.
    rewrite IH by (done || simpl in Hn; lia). done.
Qed.

Lemma str_at_copy m a s :
  nonul s = true -> 0 <= a -> a + strlen s + 1 <= NVRAM_SPACE ->
  str_at (copy_str m a s) a = Ret s.
Proof.
  intros Hs Ha Hl. unfold str_at. destruct (Z.ltb_spec a 0); [lia|].
  apply str_loop_copy; [done|]. unfold strlen in Hl. lia.
Qed.

(** A string is not changed by writes behind it. *)
Lemma str_loop_agree n m m' a v :
  str_loop n m a = Ret v ->
  (forall k, a <= k < a + strlen v + 1 -> m' !! k = m !! k) ->
  str_loop n m' a = Ret v.
Proof.
  revert a v. induction n as [|n IH]; intros a v H Hk; [done|]. simpl in *.
  rewrite (Hk a) by (pose proof (strlen_nonneg v); lia).
  case_bool_decide; [done|].
  apply bind_Ret_inv in H as (w & Hw & Hv). injection Hv as <-.
  rewrite (IH (a + 1) w); [done|done|]. intros k Hr. apply Hk. rewrite strlen_cons. lia.
Qed.

Lemma str_at_agree m m' a v :
  str_at m a = Ret v ->
  (forall k, a <= k < a + strlen v + 1 -> m' !! k = m !! k) ->
  str_at m' a = Ret v.
Proof. unfold str_at. destruct (a <? 0); [done|]. apply str_loop_agree. Qed.

Lemma str_loop_nonul n m a v : str_loop n m a = Ret v -> nonul v = true.
Proof.
  revert a v. induction n as [|n IH]; intros a v H; [done|]. simpl in H.
  case_bool_decide; [by injection H as <-|].
  apply bind_Ret_inv in H as (w & Hw & Hv). injection Hv as <-.
  apply nonul_cons. eauto.
Qed.

Lemma str_at_nonul m a v : str_at m a = Ret v -> nonul v = true.
Proof. unfold str_at. destruct (a <? 0); [done|]. apply str_loop_nonul. Qed.

(** ** Chains *)

(** The tuple of a name in a chain. *)
Definition tup (n : string) (b : list nvram_tuple) : option nvram_tuple :=
  find_tuple n b ≫= (fun k => b !! k).

Lemma tup_nil n : tup n [] = None.
Proof. done. Qed.

Lemma tup_cons n t b : tup n (t :: b) = if bool_decide (name t = n) then Some t else tup n b.
Proof.
  unfold tup, find_tuple. simpl. unfold has_name at 1. case_bool_decide; [done|].
  by destruct (find_index (has_name n) b).
Qed.

Lemma tup_Some n b t : tup n b = Some t -> t ∈ b /\ name t = n.
Proof.
  induction b as [|u b IH]; [done|]. rewrite tup_cons.
  case_bool_decide; intros Ht; [simplify_eq; split; [left|]; done|].
  destruct (IH Ht). split; [by right|done].
Qed.

Lemma tup_find n b t : tup n b = Some t -> exists k, find_tuple n b = Some k /\ b !! k = Some t.
Proof. unfold tup. intros H. apply bind_Some in H. done. Qed.

Lemma tup_None n b : tup n b = None -> find_tuple n b = None.
Proof.
  unfold tup. destruct (find_tuple n b) as [k|] eqn:E; [|done]. simpl.
  apply find_index_Some in E as (x & Hx & _). by rewrite Hx.
Qed.

Lemma tup_not_in n b : n ∉ name <$> b -> tup n b = None.
Proof.
  induction b as [|u b IH]; [done|]. rewrite fmap_cons, not_elem_of_cons. intros [Hne Hn].
  rewrite tup_cons, bool_decide_eq_false_2 by done. auto.
Qed.

Lemma tup_None_not_in n b : tup n b = None -> n ∉ name <$> b.
Proof.
  induction b as [|u b IH]; [intros _; apply not_elem_of_nil|]. rewrite tup_cons.
  case_bool_decide; [done|]. intros Hn. rewrite fmap_cons, not_elem_of_cons. auto.
Qed.

(** Replacing a tuple by one of the same name, and taking one out. *)
Lemma tup_insert n b k t u :
  NoDup (name <$> b) -> b !! k = Some t -> name u = name t ->
  tup n (<[k := u]> b) = if bool_decide (name t = n) then Some u else tup n b.
Proof.
  revert k. induction b as [|w b IH]; intros k Hd Hk Hu; [done|].
  rewrite fmap_cons, NoDup_cons in Hd. destruct Hd as [Hw Hd].
  destruct k as [|k]; simplify_eq/=; rewrite !tup_cons.
  - rewrite Hu. by case_bool_decide.
  - rewrite (IH k) by done. destruct (decide (name w = n)) as [<-|Hne].
    + rewrite (bool_decide_eq_true_2 (name w = name w)) by done.
      rewrite bool_decide_eq_false_2; [done|]. intros E. apply Hw. rewrite <- E.
      apply list_elem_of_fmap. exists t. split; [done|]. by eapply list_elem_of_lookup_2.
    + by rewrite (bool_decide_eq_false_2 (name w = n)) by done.
Qed.

Lemma tup_delete n b k t :
  NoDup (name <$> b) -> b !! k = Some t ->
  tup n (delete k b) = if bool_decide (name t = n) then None else tup n b.
Proof.
  revert k. induction b as [|w b IH]; intros k Hd Hk; [done|].
  rewrite fmap_cons, NoDup_cons in Hd. destruct Hd as [Hw Hd].
  destruct k as [|k]; simplify_eq/=.
  - rewrite tup_cons. case_bool_decide; subst; [by apply tup_not_in|done].
  - rewrite !tup_cons, (IH k) by done. destruct (decide (name w = n)) as [<-|Hne].
    + rewrite (bool_decide_eq_true_2 (name w = name w)) by done.
      rewrite bool_decide_eq_false_2; [done|]. intros E. apply Hw. rewrite <- E.
      apply list_elem_of_fmap. exists t. split; [done|]. by eapply list_elem_of_lookup_2.
    + by rewrite (bool_decide_eq_false_2 (name w = n)) by done.
Qed.

Lemma names_delete (b : list nvram_tuple) (k : nat) : NoDup (name <$> b) -> NoDup (name <$> delete k b).
Proof.
  intros Hd. rewrite list_fmap_delete. eapply sublist_NoDup; [done|].
  apply sublist_delete.
Qed.

Lemma names_insert (b : list nvram_tuple) (k : nat) t u :
  b !! k = Some t -> name u = name t -> name <$> <[k := u]> b = name <$> b.
Proof.
  intros Hk Hu. rewrite list_fmap_insert. apply list_insert_id.
  by rewrite list_lookup_fmap, Hk, Hu.
Qed.

(** ** The invariant and the abstract map *)

(** A name that can be written as [name=value]. *)
Definition plain (n : string) : bool :=
  nonul n && bool_decide (from (is_char "=") n = EmptyString).

(** A live tuple: its value is a string below [nvram_offset]. *)
Definition valid (s : drv) (t : nvram_tuple) : Prop :=
  exists v, str_at (nvram_buf s) (value t) = Ret v /\ value t + strlen v + 1 <= nvram_offset s.

Definition chain_ok (s : drv) (i : nat) (b : list nvram_tuple) : Prop :=
  NoDup (name <$> b) /\
  Forall (fun t => bucket (name t) = i /\ plain (name t) = true /\ valid s t) b.

Record wf (s : drv) : Prop := {
  wf_size : length (nvram_hash s) = Z.to_nat HASH_SIZE;
  wf_offset : 0 <= nvram_offset s <= NVRAM_SPACE;
  wf_chains : forall i, (i < Z.to_nat HASH_SIZE)%nat -> chain_ok s i (chain s i)
}.

(** The driver state [s] represents the map [m]. *)
Definition rep (s : drv) (m : gmap string string) : Prop :=
  wf s /\ forall n, _nvram_get n s = Ret (m !! n).

Lemma bucket_lt n : (bucket n < Z.to_nat HASH_SIZE)%nat.
Proof.
  unfold bucket. pose proof (Z.mod_pos_bound (hash n) HASH_SIZE eq_refl).
  apply Z2Nat.inj_lt; lia.
Qed.

Lemma nvram_get_tup n s :
  _nvram_get n s = match tup n (chain s (bucket n)) with
                   | Some t => v ← str_at (nvram_buf s) (value t); Ret (Some v)
                   | None => Ret None
                   end.
Proof. done. Qed.

(** [s'] keeps every string of [s] in place. *)
Definition extends (s s' : drv) : Prop :=
  (forall a v, str_at (nvram_buf s) a = Ret v -> a + strlen v + 1 <= nvram_offset s ->
     str_at (nvram_buf s') a = Ret v) /\
  nvram_offset s <= nvram_offset s' <= NVRAM_SPACE.

Lemma extends_valid s s' t : extends s s' -> valid s t -> valid s' t.
Proof. intros [Ha Ho] (v & Hv & Hl). exists v. split; [eauto|lia]. Qed.

Lemma extends_str s s' t v :
  extends s s' -> valid s t -> str_at (nvram_buf s) (value t) = Ret v ->
  str_at (nvram_buf s') (value t) = Ret v.
Proof. intros [Ha Ho] (w & Hw & Hl) Hv. rewrite Hw in Hv. injection Hv as ->. eauto. Qed.

Lemma extends_same s s' :
  nvram_buf s' = nvram_buf s -> nvram_offset s' = nvram_offset s ->
  nvram_offset s <= NVRAM_SPACE -> extends s s'.
Proof. unfold extends. intros -> -> ?. split; [done|lia]. Qed.

(** Copying a value to the end of the arena. *)
Lemma copy_value_ok t v s s0 :
  nvram_buf s0 = nvram_buf s -> nvram_offset s0 = nvram_offset s ->
  0 <= nvram_offset s -> nvram_offset s + strlen v + 1 <= NVRAM_SPACE -> nonul v = true ->
  exists u s', copy_value t v s0 = Ret (Some u, s') /\
    nvram_hash s' = nvram_hash s0 /\ nvram_dead s' = nvram_dead s0 /\ extends s s' /\
    name u = name t /\ valid s' u /\ str_at (nvram_buf s') (value u) = Ret v /\ addr u = addr t /\
    nvram_offset s' = nvram_offset s + strlen v + 1.
Proof.
  intros E1 E2 Ho Hfit Hv. unfold copy_value, strcpy_at. rewrite E1, E2.
  destruct (Z.ltb_spec (nvram_offset s) 0); [lia|].
  destruct (Z.ltb_spec NVRAM_SPACE (nvram_offset s + strlen v + 1)); [lia|].
  cbn [orb mbind outcome_bind]. do 2 eexists. split; [done|]. simpl.
  pose proof (strlen_nonneg v).
  assert (str_at (copy_str (nvram_buf s) (nvram_offset s) v) (nvram_offset s) = Ret v)
    by (by apply str_at_copy).
  split_and!; [done|done| |done| |done|done|done].
  - split; [|simpl; lia]. intros a w Hw Hl. simpl. eapply str_at_agree; [done|].
    intros k Hk. apply copy_str_before. lia.
  - exists v. split; [done|]. simpl. lia.
Qed.

Section Refine.
Context `{Kernel}.

(** [_nvram_realloc]: the tuple of the name with the value, in an arena that
    keeps the other values; or no tuple and an unchanged arena. *)
Lemma realloc_ok t n v s :
  wf s -> nonul v = true -> t = tup n (chain s (bucket n)) ->
  exists u s', _nvram_realloc t n v s = Ret (u, s') /\
    nvram_hash s' = nvram_hash s /\ nvram_dead s' = nvram_dead s /\ extends s s' /\
    nvram_offset s' <= nvram_offset s + strlen v + 1 /\
    match u with
    | None =>
        nvram_buf s' = nvram_buf s /\ nvram_offset s' = nvram_offset s /\
        (NVRAM_SPACE < nvram_offset s + strlen v + 1 \/ t = None /\ kmalloc (allocs s) = false)
    | Some u =>
        name u = n /\ valid s' u /\ str_at (nvram_buf s') (value u) = Ret v /\
        (forall t0, t = Some t0 -> addr u = addr t0)
    end.
Proof.
  intros Hwf Hv Ht. destruct (wf_offset s Hwf) as [Ho1 Ho2].
  unfold _nvram_realloc.
  destruct (Z.ltb_spec NVRAM_SPACE (nvram_offset s + strlen v + 1)) as [Hfull|Hfit].
  { exists None, s. split; [done|]. split; [done|]. split; [done|]. split; [by apply extends_same|].
    pose proof (strlen_nonneg v). split; [lia|]. by auto. }
  destruct t as [t|].
  - symmetry in Ht. pose proof (tup_Some _ _ _ Ht) as [Hin Hn].
    destruct (wf_chains s Hwf _ (bucket_lt n)) as [_ Hall]. rewrite Forall_forall in Hall.
    destruct (Hall t Hin) as (_ & _ & w & Hw & Hl). rewrite Hw. cbn [mbind outcome_bind].
    case_bool_decide as E.
    + subst w. exists (Some t), s.
      split; [done|]. split; [done|]. split; [done|]. split; [by apply extends_same|].
      pose proof (strlen_nonneg v). split; [lia|]. split_and!; [done|by exists v|done|by intros ? [= ->]].
    + destruct (copy_value_ok t v s s) as (u & s' & E1 & ? & ? & ? & Hu & ? & ? & ? & ?); try done.
      exists (Some u), s'. split_and!; try done; [lia|by rewrite Hu|by intros ? [= <-]].
  - destruct (kmalloc (allocs s)) eqn:Ek.
    + destruct (copy_value_ok (mk_tuple (allocs s) n 0) v s (with_allocs (S (allocs s)) s))
        as (u & s' & E1 & ? & ? & ? & ? & ? & ? & ? & ?); try done.
      exists (Some u), s'. split_and!; try done; lia.
    + do 2 eexists. split; [done|]. split; [done|]. split; [done|].
      split; [by apply extends_same|]. pose proof (strlen_nonneg v). split; [simpl; lia|]. by auto.
Qed.

(** ** Replacing one chain *)

Lemma chain_update s s' i b j :
  wf s -> nvram_hash s' = <[i := b]> (nvram_hash s) -> (i < Z.to_nat HASH_SIZE)%nat ->
  chain s' j = if bool_decide (j = i) then b else chain s j.
Proof.
  intros Hwf Hh Hi. unfold chain. rewrite Hh. case_bool_decide as E.
  - subst j. rewrite list_lookup_insert_eq; [done|]. by rewrite (wf_size s Hwf).
  - by rewrite list_lookup_insert_ne.
Qed.

Lemma chain_ok_extends s s' i b : extends s s' -> chain_ok s i b -> chain_ok s' i b.
Proof.
  intros He [Hd Hall]. split; [done|]. eapply Forall_impl; [exact Hall|].
  intros t (? & ? & ?). split_and!; [done..|by eapply extends_valid].
Qed.

Lemma wf_update s s' i b :
  wf s -> extends s s' -> nvram_hash s' = <[i := b]> (nvram_hash s) ->
  (i < Z.to_nat HASH_SIZE)%nat -> chain_ok s' i b -> wf s'.
Proof.
  intros Hwf He Hh Hi Hb. pose proof (wf_offset s Hwf). pose proof He as [_ Ho]. split.
  - rewrite Hh, length_insert. apply Hwf.
  - lia.
  - intros j Hj. rewrite (chain_update s s' i b) by done. case_bool_decide; [by subst|].
    by eapply chain_ok_extends, (wf_chains s).
Qed.

(** Reading after a chain was replaced: [n] reads the tuple [u] of the new
    chain, the other names read what they read before. *)
Lemma get_update s s' m i b n u :
  rep s m -> extends s s' -> nvram_hash s' = <[i := b]> (nvram_hash s) -> i = bucket n ->
  (forall n', tup n' b = if bool_decide (n = n') then u else tup n' (chain s i)) ->
  forall n', _nvram_get n' s' =
    if bool_decide (n = n') then
      match u with
      | Some t => v ← str_at (nvram_buf s') (value t); Ret (Some v)
      | None => Ret None
      end
    else Ret (m !! n').
Proof.
  intros [Hwf Hget] He Hh -> Htup n'. rewrite nvram_get_tup.
  rewrite (chain_update s s' (bucket n) b) by (done || apply bucket_lt).
  assert (n <> n' -> match tup n' (chain s (bucket n')) with
            | Some t => v ← str_at (nvram_buf s') (value t); Ret (Some v)
            | None => Ret None
            end = Ret (m !! n')) as Hother.
  { intros Hne. rewrite <- Hget, nvram_get_tup.
    destruct (tup n' (chain s (bucket n'))) as [t|] eqn:Et; [|done].
    apply tup_Some in Et as [Hin _].
    destruct (wf_chains s Hwf _ (bucket_lt n')) as [_ Hall]. rewrite Forall_forall in Hall.
    destruct (Hall t Hin) as (_ & _ & Hv). pose proof Hv as (v & Hs & _).
    by rewrite Hs, (extends_str s s' t v). }
  destruct (decide (n = n')) as [<-|Hne].
  - rewrite (bool_decide_eq_true_2 (bucket n = bucket n)), Htup by done.
    by rewrite (bool_decide_eq_true_2 (n = n)) by done.
  - rewrite (bool_decide_eq_false_2 (n = n')) by done. rewrite <- Hother by done.
    case_bool_decide as E; [|done]. rewrite Htup, <- E.
    by rewrite (bool_decide_eq_false_2 (n = n')) by done.
Qed.

(** ** The operations implement the map *)

Lemma rep_same s s' m :
  rep s m -> nvram_hash s' = nvram_hash s -> nvram_buf s' = nvram_buf s ->
  nvram_offset s' = nvram_offset s -> rep s' m.
Proof.
  intros [Hwf Hget] E1 E2 E3. split.
  - destruct Hwf as [? ? Hc]. split; [by rewrite E1|by rewrite E3|].
    unfold chain_ok, chain, valid in *. rewrite E1, E2, E3. done.
  - intros n. unfold _nvram_get, chain. rewrite E1, E2. apply Hget.
Qed.

(** A chain in which the tuple [u] now carries the value [v] of [n]. *)
Lemma rep_chain s s1 s2 m b n v u :
  rep s m -> extends s s1 -> plain n = true -> name u = n -> valid s1 u ->
  str_at (nvram_buf s1) (value u) = Ret v ->
  nvram_hash s2 = <[bucket n := b]> (nvram_hash s) ->
  nvram_buf s2 = nvram_buf s1 -> nvram_offset s2 = nvram_offset s1 ->
  NoDup (name <$> b) -> Forall (fun t => t = u \/ t ∈ chain s (bucket n)) b ->
  (forall n', tup n' b = if bool_decide (n = n') then Some u else tup n' (chain s (bucket n))) ->
  rep s2 (<[n := v]> m).
Proof.
  intros Hrep He Hn Hname Hval Hstr F1 F2 F3 Hnd Hin Htup. pose proof Hrep as [Hwf Hget].
  assert (extends s s2) as He2 by (unfold extends in *; rewrite F2, F3; done).
  destruct (wf_chains s Hwf _ (bucket_lt n)) as [_ Hall]. rewrite Forall_forall in Hall. split.
  - eapply (wf_update s s2 (bucket n) b); try done; [apply bucket_lt|]. split; [done|].
    eapply Forall_impl; [exact Hin|]. intros t [->|Ht].
    + rewrite Hname. split_and!; [done..|]. unfold valid. rewrite F2, F3. done.
    + destruct (Hall t Ht) as (? & ? & ?). split_and!; [done..|by eapply extends_valid].
  - intros n'. rewrite (get_update s s2 m (bucket n) b n (Some u)) by done.
    destruct (decide (n = n')) as [<-|Hne].
    + rewrite bool_decide_eq_true_2 by done. rewrite F2, Hstr. by rewrite lookup_insert_eq.
    + rewrite bool_decide_eq_false_2 by done. by rewrite lookup_insert_ne.
Qed.

Lemma set_refines n v s m :
  rep s m -> plain n = true -> nonul v = true ->
  exists ret s', _nvram_set n v s = Ret (ret, s') /\
    nvram_offset s' <= nvram_offset s + strlen v + 1 /\
    (ret = 0 /\ rep s' (<[n := v]> m) \/
     ret = - ENOMEM /\ rep s' m /\
       (NVRAM_SPACE < nvram_offset s + strlen v + 1 \/
        m !! n = None /\ kmalloc (allocs s) = false)).
Proof.
  intros Hrep Hn Hv. pose proof Hrep as [Hwf Hget].
  destruct (realloc_ok (tup n (chain s (bucket n))) n v s)
    as (u & s1 & E1 & Eh & Ed & He & Ho & Hu); [done..|].
  unfold _nvram_set. change (find_tuple n ?b ≫= _) with (tup n b). rewrite E1.
  cbn [mbind outcome_bind]. destruct u as [u|].
  2:{ do 2 eexists. split; [done|]. split; [done|]. right. split; [done|]. destruct Hu as (? & ? & Hwhy).
      split; [by apply (rep_same s)|]. destruct Hwhy as [?|[Ht ?]]; [by left|right].
      split; [|done]. specialize (Hget n). rewrite nvram_get_tup, Ht in Hget.
      by injection Hget as ->. }
  destruct Hu as (Hname & Hval & Hstr & Haddr).
  assert (chain s1 (bucket n) = chain s (bucket n)) as Ec by (unfold chain; by rewrite Eh).
  destruct (wf_chains s Hwf _ (bucket_lt n)) as [Hd Hall].
  destruct (tup n (chain s (bucket n))) as [t|] eqn:Et.
  - destruct (tup_find _ _ _ Et) as (k & Hk & Hbk). rewrite Hk.
    cbn [mbind option_bind]. rewrite Hbk, (Haddr t eq_refl), Nat.eqb_refl. do 2 eexists.
    split; [done|]. split; [done|]. left. split; [done|].
    pose proof (tup_Some _ _ _ Et) as [_ Htn].
    eapply (rep_chain s s1 _ m _ n v u); simpl;
      [done|done|done|done|done|done|by rewrite Eh, Ec|done|done|..].
    + rewrite (names_insert _ _ t) by congruence. done.
    + apply Forall_insert; [|by left]. apply Forall_forall. by right.
    + intros n'. rewrite (tup_insert n' _ k t u) by congruence. by rewrite Htn.
  - rewrite (tup_None _ _ Et). do 2 eexists.
    split; [done|]. split; [done|]. left. split; [done|].
    eapply (rep_chain s s1 _ m _ n v u); simpl;
      [done|done|done|done|done|done|by rewrite Eh, Ec|done|done|..].
    + rewrite fmap_cons, NoDup_cons, Hname. split; [by apply tup_None_not_in|done].
    + constructor; [by left|]. apply Forall_forall. by right.
    + intros n'. by rewrite tup_cons, Hname.
Qed.

Lemma unset_refines n s m :
  rep s m -> exists s', _nvram_unset n s = (0, s') /\ rep s' (delete n m) /\
    nvram_offset s' = nvram_offset s.
Proof.
  intros Hrep. pose proof Hrep as [Hwf Hget]. unfold _nvram_unset.
  destruct (wf_offset s Hwf) as [_ Ho].
  destruct (wf_chains s Hwf _ (bucket_lt n)) as [Hd Hall].
  destruct (tup n (chain s (bucket n))) as [t|] eqn:Et.
  - destruct (tup_find _ _ _ Et) as (k & Hk & Hbk). rewrite Hk, Hbk.
    pose proof (tup_Some _ _ _ Et) as [_ Htn].
    eexists. split; [done|]. split; [|done]. unfold bury.
    match goal with |- rep ?s2 _ => assert (extends s s2) as He by by apply extends_same end.
    split.
    + eapply (wf_update s); [done|done|done|apply bucket_lt|]. split; [by apply names_delete|].
      apply Forall_delete. exact Hall.
    + intros n'. erewrite (get_update s _ m (bucket n) _ n None) by
        (done || (intros n''; rewrite (tup_delete n'' _ k t) by done; by rewrite Htn)).
      destruct (decide (n = n')) as [<-|Hne].
      * rewrite bool_decide_eq_true_2 by done. by rewrite lookup_delete_eq.
      * rewrite bool_decide_eq_false_2 by done. by rewrite lookup_delete_ne.
  - rewrite (tup_None _ _ Et). exists s. split; [done|]. split; [|done]. split; [done|].
    intros n'. rewrite Hget. f_equal. specialize (Hget n). rewrite nvram_get_tup, Et in Hget.
    injection Hget as Hget. destruct (decide (n = n')) as [<-|].
    + rewrite lookup_delete_eq. done.
    + by rewrite lookup_delete_ne.
Qed.

Lemma free_refines s : rep (nvram_free s) ∅.
Proof.
  assert (forall i, chain (nvram_free s) i = []) as Hc.
  { intros i. unfold chain, nvram_free. cbn [nvram_hash].
    destruct (replicate (Z.to_nat HASH_SIZE) [] !! i) as [b|] eqn:E; [|done].
    by apply lookup_replicate in E as [-> _]. }
  split; [split|].
  - apply length_replicate.
  - done.
  - intros i _. rewrite Hc. split; constructor.
  - intros n. by rewrite nvram_get_tup, Hc, lookup_empty.
Qed.
End Refine.

(** ** The variables as a list *)

(** The value of a live tuple, the variables in the order of the table, and the
    room they take in an image. *)
Definition val (m : gmap Z ascii) (t : nvram_tuple) : string :=
  match str_at m (value t) with Ret v => v | _ => EmptyString end.
Definition items (m : gmap Z ascii) (b : list nvram_tuple) : list (string * string) :=
  (fun t => (name t, val m t)) <$> b.
Definition contents (s : drv) : list (string * string) :=
  items (nvram_buf s) (concat (nvram_hash s)).
Definition need (e : string * string) : Z := strlen e.1 + 1 + strlen e.2 + 1.
Definition total (es : list (string * string)) : Z := foldr (fun e z => need e + z) 0 es.
Definition image_size (m : gmap string string) : Z := total (map_to_list m).
Definition flat (es : list (string * string)) : list ascii := concat ((fun e => entry e.1 e.2) <$> es).

Lemma entry_length n v : Z.of_nat (length (entry n v)) = need (n, v).
Proof.
  unfold entry, need. rewrite !list_ascii_app, !length_app, !Nat2Z.inj_add, !length_ascii.
  simpl. unfold strlen at 2. simpl. lia.
Qed.

Lemma flat_length es : Z.of_nat (length (flat es)) = total es.
Proof.
  induction es as [|[n v] es IH]; [done|].
  change (flat ((n, v) :: es)) with (entry n v ++ flat es).
  rewrite length_app, Nat2Z.inj_add, entry_length, IH. done.
Qed.

Lemma flat_app es es' : flat (es ++ es') = flat es ++ flat es'.
Proof. unfold flat. by rewrite fmap_app, concat_app. Qed.

Lemma need_pos e : 2 <= need e.
Proof. unfold need. pose proof (strlen_nonneg e.1). pose proof (strlen_nonneg e.2). lia. Qed.

Lemma total_app es es' : total (es ++ es') = total es + total es'.
Proof. induction es as [|e es IH]; simpl; [done|]. rewrite IH. lia. Qed.

Lemma total_nonneg es : 0 <= total es.
Proof. induction es as [|e es IH]; simpl; [lia|]. pose proof (need_pos e). lia. Qed.

#[global] Instance total_proper : Proper ((≡ₚ) ==> eq) total.
Proof. intros es es' Hp. induction Hp; simpl; lia. Qed.

Lemma elem_of_concat {A} (x : A) (ll : list (list A)) : x ∈ concat ll <-> exists l, x ∈ l /\ l ∈ ll.
Proof.
  rewrite list_elem_of_In, in_concat. split; intros (l & H1 & H2); exists l;
    rewrite ?list_elem_of_In in *; done.
Qed.

(** Every tuple of a well-formed table reads its value. *)
Lemma wf_tuple s t :
  wf s -> t ∈ concat (nvram_hash s) ->
  str_at (nvram_buf s) (value t) = Ret (val (nvram_buf s) t) /\ plain (name t) = true /\
  t ∈ chain s (bucket (name t)).
Proof.
  intros Hwf Hin. apply elem_of_concat in Hin as (b & Ht & Hb).
  apply list_elem_of_lookup in Hb as [i Hi].
  assert (chain s i = b) as Hc by (unfold chain; by rewrite Hi).
  destruct (wf_chains s Hwf i) as [_ Hall].
  { apply lookup_lt_Some in Hi. by rewrite <- (wf_size s Hwf). }
  rewrite Hc, Forall_forall in Hall. destruct (Hall t Ht) as (<- & ? & v & Hv & _).
  unfold val. rewrite Hv, Hc. done.
Qed.

Lemma chain_in_table s t i : t ∈ chain s i -> t ∈ concat (nvram_hash s).
Proof.
  unfold chain. destruct (nvram_hash s !! i) as [b|] eqn:E; simpl; [|by intros ?%elem_of_nil].
  intros Ht. apply elem_of_concat. exists b. split; [done|]. by eapply list_elem_of_lookup_2.
Qed.

Lemma tup_of_in n b t : NoDup (name <$> b) -> t ∈ b -> name t = n -> tup n b = Some t.
Proof.
  induction b as [|u b IH]; intros Hd Ht Hn; [by apply elem_of_nil in Ht|].
  rewrite fmap_cons, NoDup_cons in Hd. destruct Hd as [Hu Hd]. rewrite tup_cons.
  apply elem_of_cons in Ht as [->|Ht]; [by rewrite bool_decide_eq_true_2|].
  rewrite bool_decide_eq_false_2; [auto|]. intros E. apply Hu. rewrite E, <- Hn.
  by apply list_elem_of_fmap_2.
Qed.

(** The list of the variables is the map. *)
Lemma contents_spec s m n v : rep s m -> (n, v) ∈ contents s <-> m !! n = Some v.
Proof.
  intros [Hwf Hget]. unfold contents, items. rewrite list_elem_of_fmap. split.
  - intros (t & Ht & Hin). injection Ht as -> ->.
    destruct (wf_tuple s t Hwf Hin) as (Hs & _ & Hc).
    destruct (wf_chains s Hwf _ (bucket_lt (name t))) as [Hd _].
    specialize (Hget (name t)). rewrite nvram_get_tup, (tup_of_in _ _ t) in Hget by done.
    rewrite Hs in Hget. by injection Hget.
  - intros Hm. specialize (Hget n). rewrite Hm, nvram_get_tup in Hget.
    destruct (tup n (chain s (bucket n))) as [t|] eqn:Et; [|done].
    apply bind_Ret_inv in Hget as (w & Hw & Hv). injection Hv as ->.
    apply tup_Some in Et as [Hin Hn]. exists t. unfold val. rewrite Hw, Hn.
    split; [done|]. by eapply chain_in_table.
Qed.

Lemma concat_NoDup_names (h : list (list nvram_tuple)) (o : nat) :
  (forall i b, h !! i = Some b -> NoDup (name <$> b) /\
     Forall (fun t => bucket (name t) = (o + i)%nat) b) ->
  NoDup (name <$> concat h).
Proof.
  revert o. induction h as [|b h IH]; intros o Hh; [constructor|].
  simpl. rewrite fmap_app, NoDup_app. split_and!.
  - by apply (Hh 0%nat b).
  - intros n Hn Hn'. apply list_elem_of_fmap in Hn as (t & -> & Ht).
    apply list_elem_of_fmap in Hn' as (t' & E & Ht').
    apply elem_of_concat in Ht' as (b' & Ht' & Hb').
    apply list_elem_of_lookup in Hb' as [i Hi].
    destruct (Hh 0%nat b) as [_ H0]; [done|]. destruct (Hh (S i) b') as [_ H1]; [done|].
    rewrite Forall_forall in H0, H1. specialize (H0 t Ht). specialize (H1 t' Ht').
    rewrite E in H0. lia.
  - apply (IH (S o)). intros i b' Hi. destruct (Hh (S i) b') as [? H1]; [done|].
    split; [done|]. eapply Forall_impl; [exact H1|]. simpl. intros. lia.
Qed.

Lemma contents_NoDup s : wf s -> NoDup (contents s).*1.
Proof.
  intros Hwf. unfold contents, items. rewrite <- list_fmap_compose.
  apply (concat_NoDup_names _ 0). intros i b Hi.
  destruct (wf_chains s Hwf i) as [Hd Hall].
  { apply lookup_lt_Some in Hi. by rewrite <- (wf_size s Hwf). }
  unfold chain in *. rewrite Hi in *. split; [done|].
  eapply Forall_impl; [exact Hall|]. by intros t (? & _).
Qed.

Lemma contents_permutation s m : rep s m -> contents s ≡ₚ map_to_list m.
Proof.
  intros Hrep. apply NoDup_Permutation.
  - eapply NoDup_fmap_1, contents_NoDup, Hrep.
  - apply NoDup_map_to_list.
  - intros [n v]. rewrite elem_of_map_to_list. by apply contents_spec.
Qed.

(** ** Writing the image *)

Lemma sublist_app_l {A} (l k1 k2 : list A) : l `sublist_of` k1 -> l `sublist_of` k1 ++ k2.
Proof. intros. by apply sublist_inserts_r. Qed.

(** What a chain contributes: its first tuples, all of them when they fit. *)
Lemma write_chain_ok lim m b out :
  Forall (fun t => exists v, str_at m (value t) = Ret v) b ->
  Z.of_nat (length out) <= lim ->
  exists es, write_chain (fun len need => len + need <=? lim) m b out = Ret (out ++ flat es) /\
    es `sublist_of` items m b /\ Z.of_nat (length (out ++ flat es)) <= lim /\
    (Z.of_nat (length out) + total (items m b) <= lim -> es = items m b).
Proof.
  intros Hb. revert out. induction Hb as [|t b [v Hv] _ IH]; intros out Hout; simpl.
  { exists []. unfold flat. simpl. rewrite app_nil_r. split_and!; [done..|constructor|done|done]. }
  rewrite Hv. cbn [mbind outcome_bind].
  assert (val m t = v) as Ev by (unfold val; by rewrite Hv). rewrite Ev.
  change (strlen (name t) + 1 + strlen v + 1) with (need (name t, v)).
  destruct (Z.leb_spec (Z.of_nat (length out) + need (name t, v)) lim).
  - destruct (IH (out ++ entry (name t) v)) as (es & He & Hs & Hl & Hall).
    { rewrite length_app, Nat2Z.inj_add, entry_length. lia. }
    exists ((name t, v) :: es). change (flat ((name t, v) :: es)) with (entry (name t) v ++ flat es).
    rewrite He, app_assoc.
    split_and!; [done|by apply sublist_skip|done|]. intros Hfit. f_equal. apply Hall.
    rewrite length_app, Nat2Z.inj_add, entry_length. unfold total in *. simpl in *. lia.
  - exists []. unfold flat. simpl. rewrite app_nil_r. split_and!; [done|apply sublist_nil_l|done|].
    intros Hfit. pose proof (total_nonneg (items m b)). unfold total in *. simpl in *. lia.
Qed.

Lemma write_chains_ok lim m h out :
  Forall (fun t => exists v, str_at m (value t) = Ret v) (concat h) ->
  Z.of_nat (length out) <= lim ->
  exists es, write_chains (fun len need => len + need <=? lim) m h out = Ret (out ++ flat es) /\
    es `sublist_of` items m (concat h) /\ Z.of_nat (length (out ++ flat es)) <= lim /\
    (Z.of_nat (length out) + total (items m (concat h)) <= lim -> es = items m (concat h)).
Proof.
  revert out. induction h as [|b h IH]; intros out Hh Hout; simpl.
  { exists []. unfold flat. simpl. rewrite app_nil_r. split_and!; [done..|constructor|done|done]. }
  simpl in Hh. apply Forall_app in Hh as [Hb Hh].
  destruct (write_chain_ok lim m b out) as (es & He & Hs & Hl & Hall); [done..|].
  rewrite He. cbn [mbind outcome_bind].
  destruct (IH (out ++ flat es)) as (es' & He' & Hs' & Hl' & Hall'); [done..|].
  exists (es ++ es'). rewrite He', flat_app, app_assoc. unfold items in *. rewrite fmap_app.
  split_and!; [done|by apply sublist_app|done|]. rewrite total_app. intros Hfit.
  pose proof (total_nonneg ((fun t => (name t, val m t)) <$> concat h)).
  rewrite Hall by lia. f_equal. apply Hall'.
  rewrite length_app, Nat2Z.inj_add, flat_length, Hall by lia. lia.
Qed.

(** ** Reading an image *)

Definition storable (e : string * string) : Prop := plain e.1 = true /\ nonul e.2 = true.
(** The room of the values in the arena. *)
Definition values (es : list (string * string)) : Z :=
  foldr (fun e z => strlen e.2 + 1 + z) 0 es.

Lemma values_total es : values es <= total es.
Proof.
  induction es as [|e es IH]; simpl; [lia|]. unfold need. pose proof (strlen_nonneg e.1). lia.
Qed.

Lemma line_app l r :
  nonul l = true -> line (String.list_ascii_of_string l ++ NUL :: r) = Some (l, r).
Proof.
  induction l as [|c l IH]; intros Hl; simpl; [done|].
  apply nonul_cons in Hl as [Hc Hl]. rewrite bool_decide_eq_false_2 by done.
  by rewrite IH.
Qed.

Lemma nonul_app a b : nonul (a +:+ b) = nonul a && nonul b.
Proof. unfold nonul. rewrite list_ascii_app. apply forallb_app. Qed.

Lemma plain_nonul n : plain n = true -> nonul n = true.
Proof. unfold plain. intros H. by apply andb_true_iff in H as [? _]. Qed.

Lemma plain_cons c n : plain (String c n) = true -> c <> "="%char /\ c <> NUL /\ plain n = true.
Proof.
  unfold plain. rewrite !andb_true_iff, nonul_cons, !bool_decide_eq_true. simpl.
  unfold is_char at 1. intros [[Hc Hn] Hf]. case_bool_decide as E; [done|]. done.
Qed.

Lemma split_entry n v :
  plain n = true ->
  upto (is_char "=") (n +:+ "=" +:+ v) = n /\ from (is_char "=") (n +:+ "=" +:+ v) = String "=" v.
Proof.
  induction n as [|c n IH]; intros Hn.
  - done.
  - apply plain_cons in Hn as (Hc & _ & Hn). destruct (IH Hn) as [E1 E2].
    change (String c n +:+ "=" +:+ v) with (String c (n +:+ "=" +:+ v)). simpl.
    assert (is_char "=" c = false) as -> by (by apply bool_decide_eq_false_2).
    split; [f_equal; exact E1|exact E2].
Qed.

Section Images.
Context `{Kernel}.

Lemma parse_loop_ok fuel es rest s m :
  rep s m -> Forall storable es -> (length es < fuel)%nat ->
  exists s' m', parse_loop fuel (flat es ++ NUL :: rest) s = Ret s' /\ rep s' m' /\
    nvram_offset s' <= nvram_offset s + values es /\
    (forall n v, m' !! n = Some v -> m !! n = Some v \/ (n, v) ∈ es) /\
    ((forall k, kmalloc k = true) -> nvram_offset s + values es <= NVRAM_SPACE ->
     NoDup es.*1 -> m' = list_to_map es ∪ m).
Proof.
  revert es s m. induction fuel as [|fuel IH]; intros es s m Hrep Hes Hf; [lia|].
  destruct es as [|[n v] es].
  { exists s, m. split_and!; [done|done|simpl; lia|by left|]. intros. cbn [list_to_map foldr]. by rewrite (left_id ∅ (∪)). }
  apply Forall_cons in Hes as [[Hn Hv] Hes]. simpl in Hn, Hv.
  change (flat ((n, v) :: es)) with (entry n v ++ flat es). unfold entry.
  rewrite <- !app_assoc. cbn [parse_loop app].
  rewrite line_app by (rewrite !nonul_app, (plain_nonul n), Hv by done; done).
  cbn [deref mbind outcome_bind]. rewrite bool_decide_eq_false_2 by (by destruct n).
  destruct (split_entry n v Hn) as [E1 E2]. rewrite E1, E2.
  destruct (set_refines n v s m) as (ret & s1 & Hset & Ho & Hres); [done..|].
  rewrite Hset. cbn [mbind outcome_bind].
  assert (exists m1, rep s1 m1 /\ (m1 = m \/ m1 = <[n := v]> m) /\
    ((forall k, kmalloc k = true) -> nvram_offset s + strlen v + 1 <= NVRAM_SPACE ->
     m1 = <[n := v]> m)) as (m1 & Hr1 & Hm1 & Hfull).
  { destruct Hres as [[_ ?]|(_ & ? & Hwhy)]; [exists (<[n := v]> m); auto|].
    exists m. split_and!; [done|by left|]. intros Hk Hfit. exfalso.
    destruct Hwhy as [?|[_ Hwhy]]; [lia|]. by rewrite Hk in Hwhy. }
  destruct (IH es s1 m1) as (s' & m' & Hp & Hr & Ho' & Hin & Hall); [done|done|simpl in Hf; lia|].
  exists s', m'. split_and!; [done|done|simpl; lia| |].
  - intros n' v' Hm'. destruct (Hin _ _ Hm') as [H1|H1]; [|right; by right].
    destruct Hm1 as [->| ->]; [by left|]. apply lookup_insert_Some in H1 as [[<- <-]|[_ ?]].
    + right. by left.
    + by left.
  - intros Hk Hfit Hnd. rewrite fmap_cons, NoDup_cons in Hnd. simpl in Hnd, Hfit.
    destruct Hnd as [Hnew Hnd].
    assert (0 <= values es) by (clear; induction es as [|e es]; simpl; [lia|];
      pose proof (strlen_nonneg e.2); lia).
    rewrite Hall, Hfull by (done || lia). simpl.
    rewrite <- insert_union_r by (by apply not_elem_of_list_to_map). by rewrite insert_union_l.
Qed.

Lemma set_default_ok n v s m :
  rep s m -> plain n = true -> nonul v = true ->
  exists s' m', set_default n v s = Ret s' /\ rep s' m' /\
    (is_Some (m !! n) -> m' = m /\ s' = s) /\
    (forall k w, m' !! k = Some w -> m !! k = Some w \/ k = n).
Proof.
  intros Hrep Hn Hv. pose proof Hrep as [_ Hget]. unfold set_default. rewrite Hget.
  cbn [mbind outcome_bind]. destruct (m !! n) as [w|] eqn:Em.
  - exists s, m. split_and!; try done. by left.
  - destruct (set_refines n v s m) as (ret & s' & Hset & _ & Hres); [done..|].
    rewrite Hset. cbn [mbind outcome_bind]. destruct Hres as [[_ ?]|(_ & ? & _)].
    + exists s', (<[n := v]> m). split_and!; [done..|by intros [? ?]|].
      intros k w. rewrite lookup_insert_Some. naive_solver.
    + exists s', m. split_and!; try done. by left.
Qed.

Lemma hexn_nonul l x : nonul (hexn l x) = true.
Proof.
  induction l as [|i l IH]; [done|]. change (hexn (i :: l) x)
    with (String (hex_digit true (Z.land (Z.shiftr x (4 * i)) 15)) (hexn l x)).
  apply nonul_cons. split; [|done]. change 15 with (Z.ones 4). rewrite Z.land_ones by lia.
  pose proof (Z.mod_pos_bound (Z.shiftr x (4 * i)) (2 ^ 4) eq_refl) as Hr.
  set (d := _ mod _) in *. unfold hex_digit. intros E. apply (f_equal code) in E.
  rewrite code_chr in E; [|destruct (Z.ltb_spec d 10); unfold is_u8; lia].
  change (code NUL) with 0 in E. destruct (Z.ltb_spec d 10); lia.
Qed.

Lemma sdram16_nonul x : nonul (sdram16 x) = true.
Proof. unfold sdram16. rewrite nonul_app. apply (hexn_nonul [3; 2; 1; 0]). Qed.
Lemma sdram32_nonul x : nonul (sdram32 x) = true.
Proof. unfold sdram32. rewrite nonul_app. apply (hexn_nonul [7; 6; 5; 4; 3; 2; 1; 0]). Qed.

(** The variables the hardware description adds. *)
Definition sdram_names : list string := ["sdram_init"; "sdram_config"; "sdram_refresh"; "sdram_ncdl"].

Lemma set_defaults_ok (l : list (string * string)) s m :
  rep s m -> Forall storable l ->
  exists s' m', foldl (fun (o : outcome drv) e => s ← o; set_default e.1 e.2 s) (Ret s) l = Ret s' /\
    rep s' m' /\ (Forall (fun e => is_Some (m !! e.1)) l -> m' = m /\ s' = s) /\
    (forall k w, m' !! k = Some w -> m !! k = Some w \/ k ∈ l.*1).
Proof.
  revert s m. induction l as [|[n v] l IH]; intros s m Hrep Hl; simpl.
  { exists s, m. split_and!; try done. by left. }
  apply Forall_cons in Hl as [[Hn Hv] Hl]. simpl in Hn, Hv. cbn [mbind outcome_bind].
  destruct (set_default_ok n v s m) as (s1 & m1 & E1 & Hr1 & Hsame & Hin); [done..|].
  rewrite E1. destruct (IH s1 m1) as (s' & m' & E & Hr & Hsame' & Hin'); [done..|].
  exists s', m'. split_and!; [done|done| |].
  - rewrite Forall_cons. intros [H1 H2]. destruct (Hsame H1) as [-> ->]. auto.
  - intros k w Hk. rewrite elem_of_cons. destruct (Hin' _ _ Hk) as [H1|]; [|auto].
    destruct (Hin _ _ H1); auto.
Qed.

(** An area that starts with the entries [es] and a NUL. *)
Definition starts_with_entries (a : list ascii) (es : list (string * string)) : Prop :=
  total es <= NVRAM_SPACE - HEADER_SIZE - 2 /\ exists rest, a = flat es ++ NUL :: rest.

Lemma area_split a es :
  starts_with_entries a es ->
  exists rest, take (Z.to_nat (NVRAM_SPACE - HEADER_SIZE - 2)) a ++ [NUL; NUL] = flat es ++ NUL :: rest.
Proof.
  intros [Hl [rest ->]]. pose proof (flat_length es) as Hf.
  rewrite take_app_ge by (revert Hl; rewrite <- Hf; lia). rewrite <- app_assoc.
  destruct (_ - _)%nat; simpl; eauto.
Qed.

Lemma rehash_ok img es s :
  starts_with_entries (area img) es -> Forall storable es ->
  exists s' m', nvram_rehash img s = Ret s' /\ rep s' m' /\
    (forall n v, m' !! n = Some v -> (n, v) ∈ es \/ n ∈ sdram_names) /\
    ((forall k, kmalloc k = true) -> NoDup es.*1 ->
     (forall n, n ∈ sdram_names -> n ∈ es.*1) ->
     m' = list_to_map es /\ nvram_offset s' <= values es).
Proof.
  intros Ha Hes. pose proof Ha as [Htot _]. unfold nvram_rehash.
  destruct (area_split _ _ Ha) as [rest ->].
  destruct (parse_loop_ok (S (length (flat es ++ NUL :: rest))) es rest (nvram_free s) ∅)
    as (s1 & m1 & E1 & Hr1 & Ho1 & Hin1 & Hall1); [apply free_refines|done| |].
  { pose proof (flat_length es) as Hf. assert (2 * Z.of_nat (length es) <= total es).
    { clear. induction es as [|e es IH]; simpl; [lia|]. pose proof (need_pos e). lia. }
    rewrite length_app. lia. }
  rewrite E1. cbn [mbind outcome_bind].
  destruct (set_defaults_ok
    [("sdram_init", sdram16 (Z.shiftr (crc_ver_init (hdr img)) 16));
     ("sdram_config", sdram16 (config_refresh (hdr img) .&. 0xffff));
     ("sdram_refresh", sdram16 (Z.shiftr (config_refresh (hdr img)) 16 .&. 0xffff));
     ("sdram_ncdl", sdram32 (config_ncdl (hdr img)))] s1 m1) as (s' & m' & E & Hr & Hsame & Hin).
  { done. }
  { rewrite !Forall_cons. split_and!; try done; (split; [done|]); simpl; [apply sdram16_nonul..|apply sdram32_nonul]. }
  simpl in E. exists s', m'. split_and!; [|done| |].
  - rewrite <- E. do 3 (destruct (set_default _ _ _); [cbn [mbind outcome_bind]|done..]). done.
  - intros n v Hm. destruct (Hin _ _ Hm) as [H1|H1]; [|by right]. left.
    destruct (Hin1 _ _ H1) as [H2|]; [by rewrite lookup_empty in H2|done].
  - intros Hk Hnd Hsd. assert (m1 = list_to_map es) as ->.
    { rewrite Hall1, (right_id ∅ (∪)) by (done || (simpl; pose proof (values_total es);
        unfold HEADER_SIZE in Htot; lia)). done. }
    destruct Hsame as [-> ->]; [|done]. apply Forall_forall. intros e He.
    assert (e.1 ∈ es.*1) as Hi. { apply Hsd. by apply (list_elem_of_fmap_2 fst) in He. }
    destruct (list_to_map es !! e.1) eqn:El; [by eexists|].
    apply not_elem_of_list_to_map in El. done.
Qed.

(** ** Committing *)

Lemma write_chains_ext f g m h out :
  (forall a b, f a b = g a b) -> write_chains f m h out = write_chains g m h out.
Proof.
  intros Hfg. revert out. induction h as [|b h IH]; intros out; [done|]. simpl.
  assert (write_chain f m b out = write_chain g m b out) as ->.
  { revert out. induction b as [|t b IHb]; intros out; [done|]. simpl.
    destruct (str_at m (value t)); [|done..]. cbn [mbind outcome_bind]. rewrite Hfg.
    destruct (g _ _); [apply IHb|done]. }
  destruct (write_chain g m b out); [apply IH|done..].
Qed.

(** An image that holds exactly the entries [es]. *)
Definition image_ok (img : image) (es : list (string * string)) : Prop :=
  area img = zero_fill (NVRAM_SPACE - HEADER_SIZE) (flat es) /\
  total es <= NVRAM_SPACE - HEADER_SIZE - 2 /\
  magic (hdr img) = NVRAM_MAGIC /\
  len (hdr img) = ROUNDUP (HEADER_SIZE + total es + 2) 4 /\
  exists cvi, crc_ver_init (hdr img) = cvi .|.
    image_crc cvi (config_refresh (hdr img)) (config_ncdl (hdr img))
      (take (Z.to_nat (len (hdr img) - HEADER_SIZE)) (area img)).

Lemma contents_storable s : wf s -> Forall storable (contents s).
Proof.
  intros Hwf. apply Forall_forall. intros e He. unfold contents, items in He.
  apply list_elem_of_fmap in He as (t & -> & Ht).
  destruct (wf_tuple s t Hwf Ht) as (Hs & Hp & _). split; [done|]. by eapply str_at_nonul.
Qed.

Lemma regenerate_ok s m :
  rep s m -> exists img es, regenerate s = Ret img /\ image_ok img es /\
    es `sublist_of` contents s /\
    (image_size m <= NVRAM_SPACE - HEADER_SIZE - 2 -> es = contents s).
Proof.
  intros Hrep. pose proof Hrep as [Hwf Hget]. unfold regenerate.
  assert (exists cvi cr nc, sdram_words s = Ret (cvi, cr, nc)) as (cvi & cr & nc & ->).
  { unfold sdram_words. rewrite !Hget. cbn [mbind outcome_bind].
    repeat (case_match; eauto). }
  cbn [mbind outcome_bind].
  rewrite (write_chains_ext _ (fun len need => len + need <=? NVRAM_SPACE - HEADER_SIZE - 2)).
  2:{ intros a b. destruct (Z.ltb_spec (NVRAM_SPACE - 2) (HEADER_SIZE + a + b));
        destruct (Z.leb_spec (a + b) (NVRAM_SPACE - HEADER_SIZE - 2)); (done || lia). }
  destruct (write_chains_ok (NVRAM_SPACE - HEADER_SIZE - 2) (nvram_buf s) (nvram_hash s) [])
    as (es & He & Hs & Hl & Hall).
  { apply Forall_forall. intros t Ht. destruct (wf_tuple s t Hwf Ht) as (-> & _). eauto. }
  { done. }
  rewrite He. cbn [mbind outcome_bind]. rewrite app_nil_l in *. rewrite flat_length in *.
  do 2 eexists. split; [done|]. split_and!; [|exact Hs|].
  - unfold image_ok. simpl. split_and!; try done. by eexists.
  - intros Hfit. apply Hall. simpl. unfold image_size in Hfit. rewrite <- (contents_permutation s m) in Hfit by done.
    unfold contents in Hfit. lia.
Qed.

Lemma image_starts img es : image_ok img es -> starts_with_entries (area img) es.
Proof.
  intros (Ha & Hl & _). split; [done|]. rewrite Ha. unfold zero_fill.
  pose proof (flat_length es).
  destruct (Z.to_nat (NVRAM_SPACE - HEADER_SIZE) - length (flat es))%nat as [|k] eqn:E; [lia|].
  by exists (replicate k NUL).
Qed.

Lemma sublist_storable s es : wf s -> es `sublist_of` contents s -> Forall storable es.
Proof.
  intros Hwf Hs. pose proof (contents_storable s Hwf) as Hc. rewrite Forall_forall in *.
  intros e He. apply Hc. by eapply sublist_subseteq.
Qed.

(** A state after a commit, complete or not. *)
Lemma commit_ok s m :
  rep s m -> exists img es s' m', _nvram_commit s = Ret (img, s') /\ image_ok img es /\
    rep s' m' /\ Forall storable es /\ es `sublist_of` contents s /\
    (forall n v, m' !! n = Some v -> m !! n = Some v \/ n ∈ sdram_names) /\
    (image_size m <= NVRAM_SPACE - HEADER_SIZE - 2 -> es = contents s) /\
    ((forall k, kmalloc k = true) -> image_size m <= NVRAM_SPACE - HEADER_SIZE - 2 ->
     (forall n, n ∈ sdram_names -> is_Some (m !! n)) ->
     m' = m /\ nvram_offset s' <= values (contents s)).
Proof.
  intros Hrep. pose proof Hrep as [Hwf _].
  destruct (regenerate_ok s m Hrep) as (img & es & E & Himg & Hs & Hall).
  destruct (rehash_ok img es s) as (s' & m' & E' & Hr & Hin & Hfull);
    [by apply image_starts|by eapply sublist_storable|].
  exists img, es, s', m'. unfold _nvram_commit. rewrite E. cbn [mbind outcome_bind].
  rewrite E'. split_and!; try done; [by eapply sublist_storable| |].
  - intros n v Hm. destruct (Hin n v Hm) as [He|]; [left|by right].
    apply (contents_spec s m n v Hrep). by eapply sublist_subseteq.
  - intros Hk Hfit Hsd. rewrite (Hall Hfit) in *.
    destruct Hfull as [-> Ho]; [done|by apply contents_NoDup| |split; [|done]].
    + intros n Hn. destruct (Hsd n Hn) as [v Hv]. apply (contents_spec s m n v Hrep) in Hv.
      by apply (list_elem_of_fmap_2 fst) in Hv.
    + rewrite (list_to_map_proper _ (map_to_list m)).
      * apply list_to_map_to_list.
      * by apply contents_NoDup.
      * by apply contents_permutation.
Qed.
End Images.
