(* ===== verification/NvramDevProofs.v ===== *)
(** * Correctness of the NVRAM device and of its flash image

    Whatever the flash holds and whatever processes write to /dev/nvram, the
    driver stays inside its arena and its table keeps representing a map; a
    commit that reports success leaves an image from which the next boot
    rebuilds the same variables, and leaves the rest of the partition alone. *)

From Stdlib Require Import ZArith Lia Ascii.
From stdpp Require Import base numbers sets gmap strings list.
From S2P Require Import Prelude CString Bcmutils BcmutilsProofs NvramDrv NvramDrvProofs.
Open Scope string_scope.
Open Scope Z_scope.
Open Scope list_scope.
Import Bcm Drv Dev.

(** ** Lines *)

Lemma line_Some p l r :
  line p = Some (l, r) -> nonul l = true /\ p = String.list_ascii_of_string l ++ NUL :: r.
Proof.
  revert l r. induction p as [|c p IH]; intros l r Hl; [done|]. simpl in Hl.
  case_bool_decide as E; [by simplify_eq/=|].
  destruct (line p) as [[l' r']|] eqn:El; [|done]. simplify_eq/=.
  destruct (IH l' r) as [Hn ->]; [done|]. split; [by apply nonul_cons|done].
Qed.

Lemma line_of_NUL q r : exists l r', line (q ++ NUL :: r) = Some (l, r').
Proof.
  induction q as [|c q IH]; simpl; [by eauto|]. case_bool_decide; [eauto|].
  destruct IH as (l & r' & ->). simpl. eauto.
Qed.

Lemma nonul_upto l p : nonul l = true -> nonul (upto p l) = true.
Proof.
  induction l as [|c l IH]; intros Hl; [done|]. simpl. apply nonul_cons in Hl as [Hc Hl].
  destruct (p c); [done|]. apply nonul_cons. auto.
Qed.

Lemma nonul_from l p : nonul l = true -> nonul (from p l) = true.
Proof.
  induction l as [|c l IH]; intros Hl; [done|]. simpl. pose proof Hl as Hl'.
  apply nonul_cons in Hl as [Hc Hl]. destruct (p c); auto.
Qed.

Lemma plain_upto l : nonul l = true -> plain (upto (is_char "=") l) = true.
Proof.
  intros Hl. unfold plain. rewrite nonul_upto by done. simpl. apply bool_decide_eq_true.
  clear Hl. induction l as [|c l IH]; [done|]. simpl.
  destruct (is_char "=" c) eqn:E; [done|]. simpl. by rewrite E.
Qed.

(** A value that follows an equals sign. *)
Lemma nonul_value l c v : nonul l = true -> from (is_char "=") l = String c v -> nonul v = true.
Proof.
  intros Hl Hf. pose proof (nonul_from l (is_char "=") Hl) as Hn. rewrite Hf in Hn.
  by apply nonul_cons in Hn as [_ ?].
Qed.

Section Safety.
Context `{Kernel}.

(** ** Any image can be read

    The two NULs at the end stop every walk through the area. *)
Lemma parse_any fuel p s m :
  rep s m -> (p = [NUL] \/ exists q, p = q ++ [NUL; NUL]) -> (length p < fuel)%nat ->
  exists s' m', parse_loop fuel p s = Ret s' /\ rep s' m'.
Proof.
  revert p s m. induction fuel as [|fuel IH]; intros p s m Hrep Hp Hf; [lia|].
  cbn [parse_loop]. destruct Hp as [->|[q ->]]; [by exists s, m|].
  destruct (line_of_NUL q [NUL]) as (l & r & Hl). rewrite Hl. cbn [deref mbind outcome_bind].
  apply line_Some in Hl as [Hn Hq]. case_bool_decide as El; [by exists s, m|].
  destruct (from (is_char "=") l) as [|c v] eqn:Ef; [by exists s, m|].
  destruct (set_refines (upto (is_char "=") l) v s m) as (ret & s1 & E1 & _ & Hres);
    [done|by apply plain_upto|by eapply nonul_value|].
  rewrite E1. cbn [mbind outcome_bind].
  assert (exists m1, rep s1 m1) as [m1 Hr1] by (destruct Hres as [[_ ?]|(_ & ? & _)]; eauto).
  apply (IH r s1 m1); [done| |].
  - destruct r as [|x r] using rev_ind; [|clear IHr].
    + exfalso. apply (f_equal reverse) in Hq. rewrite !reverse_app in Hq. simpl in Hq.
      destruct l as [|c' l]; [done|]. revert Hq Hn. generalize (String c' l). intros l0 Hq Hn0.
      injection Hq as Hq. assert (NUL ∈ String.list_ascii_of_string l0) as Hin.
      { apply elem_of_reverse. rewrite <- Hq. by left. }
      unfold nonul in Hn0. rewrite forallb_forall in Hn0.
      specialize (Hn0 NUL). rewrite bool_decide_eq_true_2 in Hn0 by done.
      apply list_elem_of_In in Hin. by specialize (Hn0 Hin).
    + change (NUL :: r ++ [x]) with ((NUL :: r) ++ [x]) in Hq. rewrite app_assoc in Hq.
      change [NUL; NUL] with ([NUL] ++ [NUL]) in Hq. rewrite app_assoc in Hq.
      apply app_inj_tail in Hq as [Hq <-].
      destruct r as [|y r] using rev_ind; [by left|]. right. exists r.
      change (NUL :: r ++ [y]) with ((NUL :: r) ++ [y]) in Hq. rewrite app_assoc in Hq.
      apply app_inj_tail in Hq as [_ <-]. by rewrite <- app_assoc.
  - apply (f_equal length) in Hq. rewrite (length_app _ (NUL :: r)) in Hq. simpl in Hq. lia.
Qed.

Lemma rehash_any img s : exists s' m', nvram_rehash img s = Ret s' /\ rep s' m'.
Proof.
  unfold nvram_rehash.
  destruct (parse_any (S (length (take (Z.to_nat (NVRAM_SPACE - HEADER_SIZE - 2)) (area img) ++ [NUL; NUL])))
    (take (Z.to_nat (NVRAM_SPACE - HEADER_SIZE - 2)) (area img) ++ [NUL; NUL]) (nvram_free s) ∅)
    as (s1 & m1 & E1 & Hr1); [apply free_refines|right; by eexists|lia|].
  rewrite E1. cbn [mbind outcome_bind].
  destruct (set_default_ok "sdram_init" (sdram16 (Z.shiftr (crc_ver_init (hdr img)) 16)) s1 m1)
    as (s2 & m2 & E2 & Hr2 & _); [done|done|apply sdram16_nonul|].
  rewrite E2. cbn [mbind outcome_bind].
  destruct (set_default_ok "sdram_config" (sdram16 (config_refresh (hdr img) .&. 0xffff)) s2 m2)
    as (s3 & m3 & E3 & Hr3 & _); [done|done|apply sdram16_nonul|].
  rewrite E3. cbn [mbind outcome_bind].
  destruct (set_default_ok "sdram_refresh" (sdram16 (Z.shiftr (config_refresh (hdr img)) 16 .&. 0xffff)) s3 m3)
    as (s4 & m4 & E4 & Hr4 & _); [done|done|apply sdram16_nonul|].
  rewrite E4. cbn [mbind outcome_bind].
  destruct (set_default_ok "sdram_ncdl" (sdram32 (config_ncdl (hdr img))) s4 m4)
    as (s5 & m5 & E5 & Hr5 & _); [done|done|apply sdram32_nonul|]. by exists s5, m5.
Qed.

Lemma rep_allocs s m k : rep s m -> rep (with_allocs k s) m.
Proof. intros Hrep. by apply (rep_same s). Qed.

#[global] Instance values_proper : Proper ((≡ₚ) ==> eq) values.
Proof. intros es es' Hp. induction Hp; simpl; lia. Qed.

(** Setting with the retry: nothing but the variable (and the hardware
    description) can appear; a result of zero means that it is there. *)
Lemma nvram_set_ok n v s m :
  rep s m -> plain n = true -> nonul v = true ->
  exists ret s' m', nvram_set n v s = Ret (ret, s') /\ rep s' m' /\
    (ret = 0 -> m' !! n = Some v) /\
    (forall k w, m' !! k = Some w -> m !! k = Some w \/ k = n /\ w = v \/ k ∈ sdram_names) /\
    ((forall k, kmalloc k = true) -> image_size m <= NVRAM_SPACE - HEADER_SIZE - 2 ->
     (forall k, k ∈ sdram_names -> is_Some (m !! k)) ->
     values (map_to_list m) + strlen v + 1 <= NVRAM_SPACE ->
     ret = 0 /\ m' = <[n := v]> m).
Proof.
  intros Hrep Hn Hv. unfold nvram_set.
  destruct (set_refines n v s m) as (ret & s1 & E1 & _ & Hres); [done..|].
  rewrite E1. cbn [mbind outcome_bind]. destruct Hres as [[-> Hr1]|(-> & Hr1 & Hwhy)].
  { exists 0, s1, (<[n := v]> m). split_and!; [done|done|by rewrite lookup_insert_eq| |done].
    intros k w. rewrite lookup_insert_Some. naive_solver. }
  change (- ENOMEM =? 0) with false. cbn match.
  destruct (kmalloc (allocs s1)) eqn:Ek.
  2:{ eexists _, _, m. split_and!; [done|by apply rep_allocs|done|by left|].
      intros Hk. by rewrite Hk in Ek. }
  destruct (commit_ok (with_allocs (S (allocs s1)) s1) m)
    as (img & es & s2 & m2 & E2 & _ & Hr2 & _ & _ & Hin2 & _ & Hfull); [by apply rep_allocs|].
  rewrite E2. cbn [mbind outcome_bind].
  destruct (set_refines n v s2 m2) as (ret & s3 & E3 & _ & Hres); [done..|].
  destruct Hres as [[-> Hr3]|(-> & Hr3 & Hwhy')].
  - exists 0, s3, (<[n := v]> m2). split_and!; [done|done|by rewrite lookup_insert_eq| |].
    + intros k w. rewrite lookup_insert_Some. intros [[<- <-]|[_ Hk]]; [auto|].
      destruct (Hin2 _ _ Hk); auto.
    + intros Hk Hfit Hsd _. destruct Hfull as [-> _]; done.
  - eexists _, s3, m2. split_and!; [done|done|done| |].
    + intros k w Hk. destruct (Hin2 _ _ Hk); auto.
    + intros Hk Hfit Hsd Hval. exfalso. destruct Hfull as [-> Ho]; [done..|].
      destruct Hwhy' as [Hbig|[_ Hm]]; [|by rewrite Hk in Hm].
      rewrite (contents_permutation (with_allocs (S (allocs s1)) s1) m) in Ho by (by apply rep_allocs).
      lia.
Qed.
End Safety.

(** ** The flash

    What the driver relies on of the MTD layer: a device whose erase blocks
    divide it and hold an image; successful reads deliver the bytes of the
    flash, a successful erase sets a block to ones, and a successful write to
    erased bytes stores the data. Nothing is said of failing operations. *)
Definition geometry {F} `{Mtd F} : Prop :=
  0 < mtd_erasesize /\ mtd_size < 2 ^ 32 /\ ROUNDUP NVRAM_SPACE mtd_erasesize <= mtd_size.

Class MtdLaws (F : Type) `{Mtd F} := {
  flash : F -> Z -> Z;
  flash_u8 f i : is_u8 (flash f i);
  read_law f o n data :
    mtd_read f o n = (0, data) -> Z.of_nat (length data) = n ->
    data = cells (flash f) (Z.to_nat n) o;
  unlock_law f o n i : flash (mtd_unlock f o n) i = flash f i;
  erase_law f o n f' :
    mtd_erase f o n = (0, f') -> 0 <= o -> o + n <= mtd_size ->
    forall i, flash f' i = if bool_decide (o <= i < o + n) then 255 else flash f i;
  write_law f o d f' :
    mtd_write f o d = (0, Z.of_nat (length d), f') -> 0 <= o ->
    o + Z.of_nat (length d) <= mtd_size -> Forall is_u8 d ->
    (forall i, o <= i < o + Z.of_nat (length d) -> flash f i = 255) ->
    forall i, flash f' i =
      if bool_decide (o <= i < o + Z.of_nat (length d)) then d !!! Z.to_nat (i - o) else flash f i
}.

Lemma length_cells {A} (g : Z -> A) n a : length (cells g n a) = n.
Proof. revert a. induction n; intros; simpl; auto. Qed.

Lemma lookup_cells {A} (g : Z -> A) n a k :
  (k < n)%nat -> cells g n a !! k = Some (g (a + Z.of_nat k)).
Proof.
  revert a k. induction n as [|n IH]; intros a k Hk; [lia|]. destruct k as [|k]; simpl.
  - do 2 f_equal. lia.
  - rewrite IH by lia. do 2 f_equal. lia.
Qed.

Lemma elem_of_cells {A} (g : Z -> A) n a x :
  x ∈ cells g n a <-> exists i, a <= i < a + Z.of_nat n /\ x = g i.
Proof.
  rewrite list_elem_of_lookup. split.
  - intros [k Hk]. assert (k < n)%nat as Hl
      by (apply lookup_lt_Some in Hk; by rewrite length_cells in Hk).
    rewrite lookup_cells in Hk by done. injection Hk as <-. exists (a + Z.of_nat k). split; [lia|done].
  - intros (i & Hi & ->). exists (Z.to_nat (i - a)). rewrite lookup_cells by lia. do 2 f_equal. lia.
Qed.

Lemma roundup_le x y z : 0 < y -> x <= z -> z mod y = 0 -> ROUNDUP x y <= z.
Proof.
  intros Hy Hx Hz. unfold ROUNDUP. apply Z.div_exact in Hz; [|lia]. rewrite Hz in *.
  rewrite Z.mul_comm. apply Z.mul_le_mono_nonneg_l; [lia|].
  apply Z.lt_succ_r. apply Z.div_lt_upper_bound; [lia|]. nia.
Qed.

Lemma roundup_ge x y : 0 < y -> x <= ROUNDUP x y.
Proof.
  intros Hy. unfold ROUNDUP. pose proof (Z.mul_div_le (x + (y - 1)) y Hy).
  pose proof (Z.mod_pos_bound (x + (y - 1)) y Hy).
  pose proof (Z.div_mod (x + (y - 1)) y ltac:(lia)). lia.
Qed.

Section Flash.
Context {F : Type} `{Mtd F}.

(** The erase loop ends: it starts at the first block of the image. *)
Lemma erase_loop_ends fuel blocks limit f :
  geometry -> limit <= mtd_size -> 0 <= blocks ->
  blocks * mtd_erasesize <= ROUNDUP NVRAM_SPACE mtd_erasesize -> (Z.to_nat blocks < fuel)%nat ->
  exists r, erase_loop fuel (mtd_size - blocks * mtd_erasesize) limit f = Ret r.
Proof.
  intros (He & Hs & Hr) Hl. revert blocks f.
  induction fuel as [|fuel IH]; intros blocks f Hb Hbe Hf; [lia|]. cbn [erase_loop].
  destruct (Z.ltb_spec (mtd_size - blocks * mtd_erasesize) limit) as [Hlt|]; [|by eexists].
  destruct (mtd_erase _ _ _) as [ret f1]. destruct (ret =? 0); [|by eexists].
  assert (1 <= blocks) by (destruct (decide (1 <= blocks)); [done|]; assert (blocks = 0) by lia; lia).
  rewrite u32_small by (unfold is_u32; nia).
  replace (mtd_size - blocks * mtd_erasesize + mtd_erasesize)
    with (mtd_size - (blocks - 1) * mtd_erasesize) by lia.
  apply IH; [lia|nia|lia].
Qed.

Context `{!MtdLaws F}.

(** What it erased when it reports success. *)
Lemma erase_loop_erased fuel blocks limit f f' :
  geometry -> limit <= mtd_size -> 0 <= blocks ->
  blocks * mtd_erasesize <= ROUNDUP NVRAM_SPACE mtd_erasesize ->
  erase_loop fuel (mtd_size - blocks * mtd_erasesize) limit f = Ret (0, f') ->
  exists e, limit <= e <= Z.max limit mtd_size /\
    forall i, flash f' i =
      if bool_decide (mtd_size - blocks * mtd_erasesize <= i < e) then 255 else flash f i.
Proof.
  intros (He & Hs & Hr) Hl. revert blocks f.
  induction fuel as [|fuel IH]; intros blocks f Hb Hbe Hrun; [done|]. cbn [erase_loop] in Hrun.
  destruct (Z.ltb_spec (mtd_size - blocks * mtd_erasesize) limit) as [Hlt|Hge].
  - assert (1 <= blocks) by (destruct (decide (1 <= blocks)); [done|]; assert (blocks = 0) by lia; lia).
    destruct (mtd_erase _ _ _) as [ret f1] eqn:Ee.
    destruct (Z.eqb_spec ret 0) as [->|]; [|congruence].
    rewrite u32_small in Hrun by (unfold is_u32; nia).
    replace (mtd_size - blocks * mtd_erasesize + mtd_erasesize)
      with (mtd_size - (blocks - 1) * mtd_erasesize) in Hrun by lia.
    destruct (IH (blocks - 1) f1) as (e & Hle & Hfl); [lia|nia|done|].
    exists (Z.max e (mtd_size - (blocks - 1) * mtd_erasesize)). split; [nia|].
    intros i. rewrite Hfl. pose proof (erase_law _ _ _ _ Ee ltac:(nia) ltac:(nia) i) as Hi.
    rewrite unlock_law in Hi. rewrite Hi. repeat case_bool_decide; (done || lia).
  - injection Hrun as <-. exists limit. split; [lia|]. intros i.
    by rewrite bool_decide_eq_false_2 by lia.
Qed.
End Flash.

(** ** The device never leaves its memory *)
Section Device.
Context `{Kernel} {F : Type} `{Mtd F}.

Lemma dev_buffer_rep count s s' m : dev_buffer count s = Some s' -> rep s m -> rep s' m.
Proof.
  unfold dev_buffer. destruct (100 <? count); [|by intros [= ->]].
  destruct (kmalloc (allocs s)); [|done]. intros [= <-]. apply rep_allocs.
Qed.

Lemma NUL_line buf : NUL ∈ buf -> exists l r, line buf = Some (l, r).
Proof. intros Hin. apply list_elem_of_split in Hin as (q & r & ->). apply line_of_NUL. Qed.

Lemma dev_write_ok buf s m :
  rep s m -> NUL ∈ buf ->
  exists ret s' m', dev_nvram_write buf s = Ret (ret, s') /\ rep s' m'.
Proof.
  intros Hrep Hnul. unfold dev_nvram_write.
  destruct (dev_buffer (Z.of_nat (length buf)) s) as [s1|] eqn:Eb.
  2:{ eexists _, _, m. split; [done|]. by apply rep_allocs. }
  pose proof (dev_buffer_rep _ _ _ _ Eb Hrep) as Hr1.
  destruct (NUL_line buf Hnul) as (l & r & Hl). rewrite Hl. cbn [deref mbind outcome_bind].
  apply line_Some in Hl as [Hn _]. unfold strsep.
  destruct (from (is_char "=") l) as [|c v] eqn:Ef.
  - destruct (unset_refines (upto (is_char "=") l) s1 m Hr1) as (s2 & E2 & Hr2 & _).
    unfold nvram_unset. rewrite E2. by eexists _, s2, _.
  - destruct (nvram_set_ok (upto (is_char "=") l) v s1 m) as (ret & s2 & m2 & E2 & Hr2 & _);
      [done|by apply plain_upto|by eapply nonul_value|].
    rewrite E2. cbn [mbind outcome_bind]. by eexists _, s2, m2.
Qed.

Lemma getall_ok count s m : rep s m -> 0 < count -> exists l, nvram_getall count s = Ret l.
Proof.
  intros [Hwf _] Hc. unfold nvram_getall, _nvram_getall.
  rewrite (write_chains_ext _ (fun len need => len + need <=? count - 1)).
  2:{ intros a b. destruct (Z.ltb_spec b (count - a)); destruct (Z.leb_spec (a + b) (count - 1)); (done || lia). }
  destruct (write_chains_ok (count - 1) (nvram_buf s) (nvram_hash s) []) as (es & -> & _).
  { apply Forall_forall. intros t Ht. destruct (wf_tuple s t Hwf Ht) as (-> & _). eauto. }
  { simpl. lia. }
  by eexists.
Qed.

Lemma dev_read_ok major buf s m :
  rep s m -> 0 <= major -> NUL ∈ buf ->
  exists ret out s', dev_nvram_read major buf s = Ret (ret, out, s') /\ rep s' m.
Proof.
  intros Hrep Hmaj Hnul. unfold dev_nvram_read.
  destruct (dev_buffer (Z.of_nat (length buf)) s) as [s1|] eqn:Eb.
  2:{ eexists _, _, _. split; [done|]. by apply rep_allocs. }
  pose proof (dev_buffer_rep _ _ _ _ Eb Hrep) as Hr1.
  destruct (NUL_line buf Hnul) as (l & r & Hl). rewrite Hl. cbn [deref mbind outcome_bind].
  case_bool_decide.
  - destruct (getall_ok (Z.of_nat (length buf)) s1 m) as [out ->]; [done| |by eauto].
    destruct buf; [by apply elem_of_nil in Hnul|simpl; lia].
  - unfold nvram_get. destruct (Z.leb_spec 0 major); [|lia].
    destruct Hr1 as [Hwf Hget]. rewrite Hget. cbn [mbind outcome_bind].
    destruct (m !! l); eexists _, _, s1; done.
Qed.

Lemma image_len_le img es :
  image_ok img es ->
  HEADER_SIZE + total es + 2 <= len (hdr img) /\ len (hdr img) <= NVRAM_SPACE.
Proof.
  intros (_ & Hl & _ & -> & _). split; [apply roundup_ge; lia|].
  apply roundup_le; [lia|lia|reflexivity].
Qed.

(** A commit returns, with a state that still represents a map. *)
Lemma nvram_commit_returns present interrupt s f m :
  geometry -> rep s m ->
  exists ret s' f' m', nvram_commit present interrupt s f = Ret (ret, s', f') /\ rep s' m'.
Proof.
  intros Hg Hrep. pose proof Hg as (He & Hs & Hr). unfold nvram_commit.
  destruct present; [|by eexists _, s, f, m]. destruct interrupt; [by eexists _, s, f, m|].
  cbn [negb]. destruct (Z.eqb_spec mtd_erasesize 0); [lia|].
  destruct (kmalloc (allocs s)); cbn [negb]; [|by eexists _, _, f, m; split; [done|apply rep_allocs]].
  destruct (mtd_read f _ _) as [ret backup].
  destruct (negb (ret =? 0) || _); [by eexists _, _, f, m; split; [done|apply rep_allocs]|].
  destruct (commit_ok (with_allocs (S (allocs s)) s) m)
    as (img & es & s1 & m1 & E1 & Himg & Hr1 & _); [by apply rep_allocs|].
  rewrite E1. cbn [mbind outcome_bind].
  pose proof (image_len_le img es Himg) as [_ Hlen].
  pose proof (roundup_ge NVRAM_SPACE mtd_erasesize He) as Hge.
  assert (0 <= len (hdr img)) as Hlen0.
  { pose proof (image_len_le img es Himg). pose proof (total_nonneg es). unfold HEADER_SIZE in *. lia. }
  rewrite !u32_small by (unfold is_u32, NVRAM_SPACE in *; lia).
  set (blocks := ROUNDUP NVRAM_SPACE mtd_erasesize / mtd_erasesize).
  assert (ROUNDUP NVRAM_SPACE mtd_erasesize = blocks * mtd_erasesize) as Eb
    by (subst blocks; unfold ROUNDUP; rewrite Z.div_mul by lia; done).
  replace (mtd_size - ROUNDUP NVRAM_SPACE mtd_erasesize)
    with (mtd_size - blocks * mtd_erasesize) by lia.
  destruct (erase_loop_ends (S (Z.to_nat blocks)) blocks
    (mtd_size - NVRAM_SPACE + len (hdr img)) f) as [[ret' f1] ->]; [done|lia| |lia|lia|].
  { subst blocks. apply Z.div_pos; unfold NVRAM_SPACE in *; lia. }
  cbn [mbind outcome_bind]. destruct (negb (ret' =? 0)); [by eexists _, s1, f1, m1|].
  destruct (mtd_write _ _ _) as [[ret2 n2] f2]. destruct (negb (ret2 =? 0) || _); [by eexists _, s1, f2, m1|].
  destruct (mtd_read _ _ _) as [ret3 b3]. by eexists _, s1, f2, m1.
Qed.

(** The states of the driver: booted from any flash, then under any sequence of
    requests of user processes. *)
Inductive reach (major : Z) : drv -> F -> Prop :=
  | reach_boot present f ret s :
      dev_nvram_init present major f bss = Ret (ret, s) -> reach major s f
  | reach_write buf s f ret s' :
      reach major s f -> dev_nvram_write buf s = Ret (ret, s') -> NUL ∈ buf -> reach major s' f
  | reach_read buf s f ret out s' :
      reach major s f -> dev_nvram_read major buf s = Ret (ret, out, s') -> NUL ∈ buf ->
      reach major s' f
  | reach_ioctl cmd present interrupt s f ret s' f' :
      reach major s f -> dev_nvram_ioctl cmd present interrupt s f = Ret (ret, s', f') ->
      reach major s' f'.

Lemma bss_rep : rep bss ∅.
Proof. apply (free_refines bss). Qed.

Lemma init_rep present major f s :
  0 <= major -> rep s ∅ ->
  exists ret s' m, dev_nvram_init present major f s = Ret (ret, s') /\ rep s' m.
Proof.
  intros Hm Hrep. unfold dev_nvram_init, _nvram_init. destruct (Z.ltb_spec major 0); [lia|].
  destruct (kmalloc (allocs s)); simpl; [|by eexists _, _, ∅; split; [done|apply rep_allocs]].
  destruct (_ =? NVRAM_MAGIC); [|by eexists _, _, ∅; split; [done|apply rep_allocs]].
  destruct (rehash_any (image_of (_nvram_read present f (with_allocs (S (allocs s)) s)))
    (with_allocs (S (allocs s)) s)) as (s' & m' & -> & Hr).
  by eexists _, s', m'.
Qed.

Lemma ioctl_returns cmd present interrupt s f m :
  geometry -> rep s m ->
  exists ret s' f' m', dev_nvram_ioctl cmd present interrupt s f = Ret (ret, s', f') /\ rep s' m'.
Proof.
  intros Hg Hrep. unfold dev_nvram_ioctl.
  destruct (cmd =? NVRAM_MAGIC); [by apply (nvram_commit_returns _ _ s f m)|by eexists _, s, f, m].
Qed.

Lemma reach_rep major s f : 0 <= major -> geometry -> reach major s f -> exists m, rep s m.
Proof.
  intros Hm Hg Hreach.
  induction Hreach as [present f ret s Hi|buf s f ret s' _ [m IH] Hw Hn
    |buf s f ret out s' _ [m IH] Hw Hn|cmd present interrupt s f ret s' f' _ [m IH] Hw].
  - destruct (init_rep present major f bss Hm bss_rep) as (r & s1 & m & E & Hr).
    rewrite E in Hi. injection Hi as <- <-. by exists m.
  - destruct (dev_write_ok buf s m IH Hn) as (r & s1 & m1 & E & Hr).
    rewrite E in Hw. injection Hw as <- <-. by exists m1.
  - destruct (dev_read_ok major buf s m IH Hm Hn) as (r & o & s1 & E & Hr).
    rewrite E in Hw. injection Hw as <- <- <-. by exists m.
  - destruct (ioctl_returns cmd present interrupt s f m Hg IH) as (r & s1 & f1 & m1 & E & Hr).
    rewrite E in Hw. injection Hw as <- <- <-. by exists m1.
Qed.
End Device.

(** ** A committed image survives a reboot *)

Lemma image_bytes_length img es :
  image_ok img es -> Z.of_nat (length (image_bytes img)) = NVRAM_SPACE.
Proof.
  intros (Ha & Hl & _). unfold image_bytes. rewrite length_app, length_fmap, Ha.
  unfold zero_fill. rewrite length_app, length_replicate.
  pose proof (flat_length es) as Hf. change (length (header_bytes (hdr img))) with 20%nat.
  unfold HEADER_SIZE in *. lia.
Qed.

Lemma image_bytes_u8 img : Forall is_u8 (image_bytes img).
Proof.
  unfold image_bytes. apply Forall_app_2.
  - unfold header_bytes, mem_of_u32. rewrite !Forall_app. split_and!;
      repeat (constructor; [apply byte_at_range|]); constructor.
  - apply Forall_fmap, Forall_forall. intros c _. apply code_range.
Qed.

(** Bytes that begin with the written part of an image are read as one that
    holds the same entries. *)
Lemma image_of_prefix img es data :
  image_ok img es -> Z.of_nat (length data) = NVRAM_SPACE ->
  take (Z.to_nat (len (hdr img))) data = take (Z.to_nat (len (hdr img))) (image_bytes img) ->
  magic (hdr (image_of data)) = NVRAM_MAGIC /\ starts_with_entries (area (image_of data)) es.
Proof.
  intros Himg Hlen Htake. pose proof (image_len_le img es Himg) as [H1 H2].
  pose proof (total_nonneg es) as H3. pose proof Himg as (Ha & Htot & Hmag & _).
  set (n := Z.to_nat (len (hdr img))) in *.
  assert (20 <= n)%nat as Hn by (unfold HEADER_SIZE in *; lia).
  assert (forall k, (k < n)%nat -> data !! k = image_bytes img !! k) as Hk.
  { intros k Hkn. rewrite <- (lookup_take_lt data n k), Htake by done. by rewrite lookup_take_lt. }
  split.
  - unfold image_of, word_at, u32_of_mem. cbn [magic hdr]. rewrite drop_0, !list_lookup_total_alt.
    rewrite !Hk by lia. rewrite <- !list_lookup_total_alt. unfold image_bytes, header_bytes.
    rewrite Hmag. reflexivity.
  - split; [done|]. cbn [area image_of].
    rewrite <- (take_drop n data), Htake, drop_app_le
      by (rewrite length_take; pose proof (image_bytes_length img es Himg); lia).
    assert (drop 20 (take n (image_bytes img)) = take (n - 20) (code <$> area img)) as ->.
    { replace n with (20 + (n - 20))%nat at 1 by lia. by rewrite <- take_drop_commute. }
    rewrite fmap_app, fmap_take, <- list_fmap_compose.
    rewrite (list_fmap_ext _ id), list_fmap_id by (intros; apply chr_code).
    rewrite Ha. unfold zero_fill. pose proof (flat_length es).
    rewrite take_app_ge by (unfold HEADER_SIZE in *; lia).
    rewrite take_replicate. rewrite <- app_assoc.
    destruct (_ `min` _)%nat as [|k] eqn:E; [unfold HEADER_SIZE in *; lia|]. by eexists.
Qed.

Section Reboot.
Context `{Kernel} {F : Type} `{MtdLaws F}.

(** Writing [backup ++ data] behind an erased stretch of the partition, where
    [backup] is what the flash held there. *)
Lemma written_back f f1 f2 start e (backup data : list Z) :
  mtd_write f1 start (backup ++ data) = (0, Z.of_nat (length (backup ++ data)), f2) ->
  0 <= start -> start + Z.of_nat (length (backup ++ data)) <= mtd_size ->
  Forall is_u8 backup -> Forall is_u8 data ->
  start + Z.of_nat (length (backup ++ data)) <= e ->
  (forall i, flash f1 i = if bool_decide (start <= i < e) then 255 else flash f i) ->
  backup = cells (flash f) (length backup) start ->
  (forall i, i < start + Z.of_nat (length backup) -> flash f2 i = flash f i) /\
  (forall k, (k < length data)%nat ->
     flash f2 (start + Z.of_nat (length backup) + Z.of_nat k) = data !!! k).
Proof.
  intros Hw Hs0 Hfit Hub Hud He Hf1 Hb.
  pose proof (write_law _ _ _ _ Hw Hs0 Hfit (Forall_app_2 _ _ _ Hub Hud)) as Hf2.
  rewrite length_app in *. assert (forall i, flash f2 i =
    if bool_decide (start <= i < start + Z.of_nat (length backup + length data))
    then (backup ++ data) !!! Z.to_nat (i - start) else flash f1 i) as Hf.
  { apply Hf2. intros i Hi. rewrite Hf1. by rewrite bool_decide_eq_true_2 by lia. }
  split.
  - intros i Hi. rewrite Hf, Hf1. case_bool_decide as E1.
    + rewrite lookup_total_app_l by lia. apply list_lookup_total_correct.
      rewrite Hb, lookup_cells by lia. do 2 f_equal. lia.
    + rewrite bool_decide_eq_false_2; [done|]. lia.
  - intros k Hk. rewrite Hf. rewrite bool_decide_eq_true_2 by lia.
    rewrite lookup_total_app_r by lia. f_equal. lia.
Qed.

Lemma commit_flash s m f s' f' :
  rep s m -> geometry -> nvram_commit true false s f = Ret (0, s', f') ->
  exists img es, _nvram_commit (with_allocs (S (allocs s)) s) = Ret (img, s') /\ image_ok img es /\
    (forall i, i < mtd_size - NVRAM_SPACE -> flash f' i = flash f i) /\
    (forall k, (k < Z.to_nat (len (hdr img)))%nat ->
       flash f' (mtd_size - NVRAM_SPACE + Z.of_nat k) = image_bytes img !!! k).
Proof.
  intros Hrep Hg Hrun. pose proof Hg as (He & Hs & Hr).
  pose proof (roundup_ge NVRAM_SPACE mtd_erasesize He) as Hge.
  unfold nvram_commit in Hrun. cbn [negb] in Hrun.
  destruct (Z.eqb_spec mtd_erasesize 0); [lia|].
  destruct (kmalloc (allocs s)); cbn [negb] in Hrun; [|done].
  destruct (mtd_read f _ _) as [ret backup] eqn:Erd.
  destruct (negb (ret =? 0) || _) eqn:Eret; [done|].
  apply orb_false_iff in Eret as [Eret Ebl]. apply negb_false_iff, Z.eqb_eq in Eret as ->.
  apply negb_false_iff, Z.eqb_eq in Ebl.
  destruct (commit_ok (with_allocs (S (allocs s)) s) m)
    as (img & es & s1 & m1 & E1 & Himg & _); [by apply rep_allocs|].
  rewrite E1 in Hrun. cbn [mbind outcome_bind] in Hrun.
  pose proof (image_len_le img es Himg) as [Hlen1 Hlen2]. pose proof (total_nonneg es) as Ht.
  rewrite !u32_small in Hrun by (unfold is_u32, NVRAM_SPACE, HEADER_SIZE in *; lia).
  rewrite u32_small in Erd by (unfold is_u32, NVRAM_SPACE in *; lia).
  set (blocks := ROUNDUP NVRAM_SPACE mtd_erasesize / mtd_erasesize) in *.
  assert (ROUNDUP NVRAM_SPACE mtd_erasesize = blocks * mtd_erasesize) as Eb
    by (subst blocks; unfold ROUNDUP; rewrite Z.div_mul by lia; done).
  destruct (erase_loop _ _ _ f) as [[ret f1]| | |] eqn:Eer; [|done..].
  cbn [mbind outcome_bind] in Hrun. destruct (Z.eqb_spec ret 0) as [->|Hne]; cbn [negb] in Hrun;
    [|by injection Hrun as ->].
  destruct (mtd_write f1 _ _) as [[ret2 n2] f2] eqn:Ew.
  destruct (negb (ret2 =? 0) || _) eqn:Eret2; [done|].
  apply orb_false_iff in Eret2 as [Eret2 Enl]. apply negb_false_iff, Z.eqb_eq in Eret2 as ->.
  apply negb_false_iff, Z.eqb_eq in Enl. destruct (mtd_read f2 _ _) as [ret3 b3].
  injection Hrun as -> -> ->. exists img, es. split; [done|]. split; [done|].
  replace (mtd_size - ROUNDUP NVRAM_SPACE mtd_erasesize)
    with (mtd_size - blocks * mtd_erasesize) in * by lia.
  apply erase_loop_erased in Eer as (e & Hle & Hfl);
    [|done|lia|subst blocks; apply Z.div_pos; unfold NVRAM_SPACE in *; lia|lia].
  pose proof (image_bytes_length img es Himg) as Hib.
  assert (length (take (Z.to_nat (len (hdr img))) (image_bytes img)) = Z.to_nat (len (hdr img)))
    as Htl by (rewrite length_take; unfold NVRAM_SPACE in *; lia).
  assert (Z.of_nat (length (backup ++ take (Z.to_nat (len (hdr img))) (image_bytes img)))
    = ROUNDUP NVRAM_SPACE mtd_erasesize - NVRAM_SPACE + len (hdr img)) as Hwl
    by (rewrite length_app, Htl; unfold NVRAM_SPACE, HEADER_SIZE in *; lia).
  assert (backup = cells (flash f) (length backup) (mtd_size - blocks * mtd_erasesize)) as Hbk
    by (rewrite <- (Nat2Z.id (length backup)), Ebl; by apply read_law).
  destruct (written_back f f1 f' (mtd_size - blocks * mtd_erasesize) e backup
    (take (Z.to_nat (len (hdr img))) (image_bytes img))) as [Hold Hnew]; try done; try lia.
  - by rewrite Ew, Enl, Hwl.
  - rewrite Hbk. apply Forall_forall. intros x (i & _ & ->)%elem_of_cells. apply flash_u8.
  - apply Forall_take, image_bytes_u8.
  - split.
    + intros i Hi. apply Hold. lia.
    + intros k Hk. rewrite Htl in Hnew. specialize (Hnew k Hk).
      rewrite lookup_total_take_lt in Hnew by done. rewrite <- Hnew. f_equal. lia.
Qed.

Lemma reboot_rep s0 f' data img es m :
  (forall k, kmalloc k = true) -> image_ok img es -> Forall storable es -> NoDup es.*1 ->
  (forall n, n ∈ sdram_names -> n ∈ es.*1) -> list_to_map es = m ->
  mtd_read f' (mtd_size - NVRAM_SPACE) NVRAM_SPACE = (0, data) ->
  Z.of_nat (length data) = NVRAM_SPACE ->
  (forall k, (k < Z.to_nat (len (hdr img)))%nat ->
     flash f' (mtd_size - NVRAM_SPACE + Z.of_nat k) = image_bytes img !!! k) ->
  exists s2, dev_nvram_init true 0 f' s0 = Ret (0, s2) /\ rep s2 m.
Proof.
  intros Hk Himg Hst Hnd Hsd Hm Hrd Hdl Hfl.
  assert (take (Z.to_nat (len (hdr img))) data = take (Z.to_nat (len (hdr img))) (image_bytes img))
    as Htake.
  { pose proof (image_len_le img es Himg) as [_ Hle].
    pose proof (image_bytes_length img es Himg) as Hib. apply list_eq_same_length
      with (Z.to_nat (len (hdr img))); [rewrite length_take; lia|rewrite length_take; lia|].
    intros k x y Hkl. rewrite !lookup_take_lt by done. rewrite (read_law _ _ _ _ Hrd Hdl).
    rewrite lookup_cells by lia. intros [= <-] Hy. rewrite Hfl by done.
    by apply list_lookup_total_correct. }
  destruct (image_of_prefix img es data Himg Hdl Htake) as [Hmag Hstart].
  unfold dev_nvram_init, _nvram_init. cbn [Z.ltb Z.compare]. rewrite Hk. cbn [negb].
  unfold _nvram_read. cbn [negb]. rewrite Hrd, Hdl, Hmag. cbn [negb orb Z.eqb].
  change (NVRAM_SPACE =? NVRAM_SPACE) with true. change (NVRAM_MAGIC =? NVRAM_MAGIC) with true.
  cbn [negb orb]. rewrite Hmag. change (NVRAM_MAGIC =? NVRAM_MAGIC) with true. cbn match.
  destruct (rehash_ok (image_of data) es (with_allocs (S (allocs s0)) s0))
    as (s2 & m2 & E2 & Hr2 & _ & Hfull); [done|done|].
  rewrite E2. cbn [mbind outcome_bind]. exists s2. split; [done|].
  destruct Hfull as [-> _]; [done..|]. by rewrite <- Hm.
Qed.
End Reboot.

(** ** A concrete device and a concrete table *)
Module DemoNvram.

(** A flash of two blocks of 64 KB; absent bytes are erased. *)
Notation nor := (gmap Z Z).
Fixpoint store (f : nor) (o : Z) (d : list Z) : nor :=
  match d with [] => f | x :: d => store (<[o := x]> f) (o + 1) d end.
Definition wipe (f : nor) (o n : Z) : nor := foldr (fun i f => delete i f) f (cells id (Z.to_nat n) o).
Definition peek (f : nor) (i : Z) : Z := u8 (default 255 (f !! i)).

#[global] Instance nor_mtd : Mtd nor := {|
  mtd_size := 0x20000;
  mtd_erasesize := 0x10000;
  mtd_read f o n := (0, cells (peek f) (Z.to_nat n) o);
  mtd_unlock f _ _ := f;
  mtd_erase f o n := (0, wipe f o n);
  mtd_write f o d := (0, Z.of_nat (length d), store f o d)
|}.

Lemma lookup_store f o d i :
  store f o d !! i =
    if bool_decide (o <= i < o + Z.of_nat (length d)) then d !! Z.to_nat (i - o) else f !! i.
Proof.
  revert f o. induction d as [|x d IH]; intros f o; simpl.
  - by rewrite bool_decide_eq_false_2 by lia.
  - rewrite IH. destruct (decide (i = o)) as [->|Hne].
    + rewrite bool_decide_eq_false_2 by lia. rewrite bool_decide_eq_true_2 by lia.
      rewrite lookup_insert_eq. by replace (Z.to_nat (o - o)) with 0%nat by lia.
    + rewrite lookup_insert_ne by done. repeat case_bool_decide; try lia; [|done].
      replace (Z.to_nat (i - o)) with (S (Z.to_nat (i - (o + 1)))) by lia. done.
Qed.

Lemma lookup_wipe f o n i :
  wipe f o n !! i = if bool_decide (o <= i < o + n) then None else f !! i.
Proof.
  unfold wipe. assert (forall l, foldr (fun i f => delete i f) f l !! i
    = if bool_decide (i ∈ l) then None else f !! i) as Hl.
  { induction l as [|x l IH]; [done|]. cbn [foldr]. destruct (decide (x = i)) as [->|Hne].
    - rewrite lookup_delete_eq. by rewrite bool_decide_eq_true_2 by (by left).
    - rewrite lookup_delete_ne by done. rewrite IH.
      rewrite (bool_decide_ext (i ∈ x :: l) (i ∈ l)); [done|]. set_solver. }
  rewrite Hl. rewrite (bool_decide_ext _ (o <= i < o + n)); [done|]. rewrite elem_of_cells.
  split; [intros (k & ? & ->); unfold id; lia|intros; exists i; split; [lia|done]].
Qed.

#[global] Instance nor_laws : MtdLaws nor.
Proof.
  refine {| flash := peek |}.
  - intros. apply u8_range.
  - intros f o n data [= <-] _. done.
  - done.
  - intros f o n f' [= <-] _ _ i. unfold peek. rewrite lookup_wipe. by case_bool_decide.
  - intros f o d f' [= <-] _ _ Hd _ i. unfold peek. rewrite lookup_store.
    case_bool_decide as E; [|done].
    destruct (lookup_lt_is_Some_2 d (Z.to_nat (i - o))) as [x Hx]; [lia|].
    rewrite Hx, (list_lookup_total_correct _ _ _ Hx). simpl.
    rewrite Forall_lookup in Hd. apply Z.mod_small, (Hd _ _ Hx).
Qed.

#[global] Instance kernel : Kernel := {| kmalloc := fun _ => true |}.

(** Setting variables one after the other, all with success. *)
Fixpoint sets (es : list (string * string)) (s : drv) : option drv :=
  match es with
  | [] => Some s
  | (n, v) :: es =>
      match _nvram_set n v s with
      | Ret (0, s) => sets es s
      | _ => None
      end
  end.

Lemma sets_rep es s s' m :
  rep s m -> forallb (fun e => plain e.1 && nonul e.2) es = true -> sets es s = Some s' ->
  rep s' (foldl (fun m e => <[e.1 := e.2]> m) m es).
Proof.
  revert s m. induction es as [|[n v] es IH]; intros s m Hrep Hes Hs; simpl in *; [by simplify_eq|].
  rewrite !andb_true_iff in Hes. destruct Hes as [[Hn Hv] Hes].
  destruct (set_refines n v s m) as (ret & s1 & E1 & _ & Hres); [done..|]. rewrite E1 in Hs.
  destruct Hres as [[-> Hr]|(-> & _)]; [|done]. by apply (IH s1).
Qed.

Definition vars : list (string * string) :=
  [("lan_ipaddr", "192.168.1.1"); ("sdram_init", "0x0419"); ("sdram_config", "0x0000");
   ("lan_ipaddr", "192.168.1.254"); ("sdram_refresh", "0x8040"); ("sdram_ncdl", "0x00000000")].
Definition table : drv := default bss (sets vars bss).
Definition vmap : gmap string string := foldl (fun m e => <[e.1 := e.2]> m) ∅ vars.

Lemma table_rep : rep table vmap.
Proof.
  apply (sets_rep vars bss); [apply bss_rep|reflexivity|].
  assert (bool_decide (is_Some (sets vars bss)) = true) as Hs by (vm_compute; reflexivity).
  apply bool_decide_eq_true in Hs as [s Hs]. unfold table. rewrite Hs. done.
Qed.

Lemma vmap_sdram n : n ∈ sdram_names -> is_Some (vmap !! n).
Proof.
  intros Hn. unfold sdram_names in Hn. rewrite !elem_of_cons, elem_of_nil in Hn.
  destruct Hn as [->|[->|[->|[->|[]]]]]; vm_compute; eauto.
Qed.

(** A computation that returned zero, decided by evaluation. *)
Definition ok {A B} (o : outcome (Z * A * B)) : bool :=
  match o with Ret (0, _, _) => true | _ => false end.
Lemma ok_result {A B} (o : outcome (Z * A * B)) : ok o = true -> exists a b, o = Ret (0, a, b).
Proof. destruct o as [[[[|p|p] a] b]| | |]; simpl; try done. eauto. Qed.

Lemma demo_geometry : geometry (F := nor).
Proof. vm_compute. split_and!; congruence. Qed.
End DemoNvram.

(** * Theorems *)

(** C1. The hash table over the arena implements a finite map. In a state that
    represents [m], [_nvram_get] of every name reads [m]; [_nvram_set] reports
    success and then the state represents [m] with the new value, or reports
    -ENOMEM, only when the arena is full or the tuple cannot be allocated, and
    the variables are as before; [_nvram_unset] deletes the variable. *)
Theorem nvram_refines_map `{Kernel} (s : drv) (m : gmap string string) (n v : string) :
  rep s m -> plain n = true -> nonul v = true ->
  (forall k, _nvram_get k s = Ret (m !! k)) /\
  (exists ret s', _nvram_set n v s = Ret (ret, s') /\
     (ret = 0 /\ rep s' (<[n := v]> m) \/
      ret = - ENOMEM /\ rep s' m /\
        (NVRAM_SPACE < nvram_offset s + strlen v + 1 \/
         m !! n = None /\ kmalloc (allocs s) = false))) /\
  (exists s', _nvram_unset n s = (0, s') /\ rep s' (delete n m)).
Proof.
  intros Hrep Hn Hv. split_and!.
  - apply Hrep.
  - destruct (set_refines n v s m) as (ret & s' & E & _ & Hres); [done..|]. eauto.
  - destruct (unset_refines n s m Hrep) as (s' & E & Hr & _). eauto.
Qed.

Lemma nvram_refines_map_witness :
  exists s', _nvram_unset "lan_ipaddr" DemoNvram.table = (0, s') /\
    rep s' (delete "lan_ipaddr" DemoNvram.vmap).
Proof.
  apply (nvram_refines_map DemoNvram.table DemoNvram.vmap "lan_ipaddr" "10.0.0.1"
    DemoNvram.table_rep); reflexivity.
Defined.

(** Setting a variable through the kernel interface, which consolidates the
    arena when it is full: a result of zero means that the variable has the
    value; no other variable gets a value it did not have, the hardware
    description apart; and when the variables fit one image and their values
    leave room in the arena, memory can be allocated and the hardware
    description is defined, the call succeeds and changes nothing else. *)
Theorem nvram_set_consolidates `{Kernel} (s : drv) (m : gmap string string) (n v : string) :
  rep s m -> plain n = true -> nonul v = true ->
  exists ret s' m', nvram_set n v s = Ret (ret, s') /\ rep s' m' /\
    (ret = 0 -> m' !! n = Some v) /\
    (forall k w, m' !! k = Some w -> m !! k = Some w \/ k = n /\ w = v \/ k ∈ sdram_names) /\
    ((forall k, kmalloc k = true) -> image_size m <= NVRAM_SPACE - HEADER_SIZE - 2 ->
     (forall k, k ∈ sdram_names -> is_Some (m !! k)) ->
     values (map_to_list m) + strlen v + 1 <= NVRAM_SPACE ->
     ret = 0 /\ m' = <[n := v]> m).
Proof. apply nvram_set_ok. Qed.

Lemma nvram_set_consolidates_witness :
  exists ret s' m', nvram_set "wan_proto" "pppoe" DemoNvram.table = Ret (ret, s') /\ rep s' m' /\
    m' = <["wan_proto" := "pppoe"]> DemoNvram.vmap.
Proof.
  destruct (nvram_set_consolidates DemoNvram.table DemoNvram.vmap "wan_proto" "pppoe"
    DemoNvram.table_rep) as (ret & s' & m' & E & Hr & _ & _ & Hfull); [reflexivity..|].
  exists ret, s', m'. split; [exact E|]. split; [exact Hr|]. apply Hfull.
  - reflexivity.
  - vm_compute. congruence.
  - apply DemoNvram.vmap_sdram.
  - vm_compute. congruence.
Defined.

(** A request whose buffer holds no NUL makes the driver read behind its copy of
    it: the text of a name or a value is used as a string without a test. *)
Lemma unterminated_request `{Kernel} major buf s s' :
  NUL ∉ buf -> dev_buffer (Z.of_nat (length buf)) s = Some s' ->
  dev_nvram_write buf s = Fault /\ dev_nvram_read major buf s = Fault.
Proof.
  intros Hn Hs. assert (line buf = None) as Hl.
  { clear Hs. induction buf as [|c buf IH]; [done|]. apply not_elem_of_cons in Hn as [Hc Hn]. cbn [line].
    by rewrite bool_decide_eq_false_2, IH by congruence. }
  unfold dev_nvram_write, dev_nvram_read. by rewrite Hs, Hl.
Qed.

(** C8. For processes whose buffers hold a NUL (without one the driver runs off its
    copy, [unterminated_request]) and can be copied, and a flash whose partition is
    at least the NVRAM area in whole erase blocks, the driver never leaves its
    memory. Booted from whatever the flash holds, after any sequence of such reads,
    writes and commits, its table represents a map, and the next read, write or
    commit returns: no string runs out of the arena, no loop fails to end, no
    access is undefined. *)
Theorem driver_safe `{Kernel} {F : Type} `{Mtd F} (major : Z) (s : drv) (f : F) :
  0 <= major -> geometry -> reach major s f ->
  (exists m, rep s m) /\
  (forall buf, NUL ∈ buf -> exists r, dev_nvram_write buf s = Ret r) /\
  (forall buf, NUL ∈ buf -> exists r, dev_nvram_read major buf s = Ret r) /\
  (forall cmd present interrupt, exists r, dev_nvram_ioctl cmd present interrupt s f = Ret r).
Proof.
  intros Hm Hg Hr. destruct (reach_rep major s f Hm Hg Hr) as [m Hrep]. split_and!.
  - by exists m.
  - intros buf Hn. destruct (dev_write_ok buf s m Hrep Hn) as (r & s' & m' & E & _). eauto.
  - intros buf Hn. destruct (dev_read_ok major buf s m Hrep Hm Hn) as (r & o & s' & E & _). eauto.
  - intros cmd present interrupt.
    destruct (ioctl_returns cmd present interrupt s f m Hg Hrep) as (r & s' & f' & m' & E & _). eauto.
Qed.

Lemma driver_safe_witness :
  exists s : drv, reach 10 s (∅ : gmap Z Z) /\
    forall buf, NUL ∈ buf -> exists r, dev_nvram_write buf s = Ret r.
Proof.
  exists (with_allocs 1 bss).
  assert (reach 10 (with_allocs 1 bss) (∅ : gmap Z Z)) as Hr.
  { apply (reach_boot 10 true ∅ 0). vm_compute. reflexivity. }
  split; [exact Hr|].
  apply (driver_safe 10 (with_allocs 1 bss) (∅ : gmap Z Z)); [done|exact DemoNvram.demo_geometry|exact Hr].
Defined.

(** C5. A commit that reports success is durable and harmless, when the variables
    fit one image (else some are dropped, [commit_drops_silently]), the variables of
    the memory timing are set, memory can be allocated and the area can be read
    back: the table still represents the variables, every byte of the partition
    before the NVRAM area keeps its value, and the driver booted from that flash,
    whatever its memory held, represents the same variables. *)
Theorem commit_survives_reboot `{Kernel} {F : Type} `{MtdLaws F} (s s' s0 : drv) (f f' : F)
    (m : gmap string string) (data : list Z) :
  rep s m -> (forall k, kmalloc k = true) -> geometry ->
  image_size m <= NVRAM_SPACE - HEADER_SIZE - 2 ->
  (forall n, n ∈ sdram_names -> is_Some (m !! n)) ->
  nvram_commit true false s f = Ret (0, s', f') ->
  mtd_read f' (mtd_size - NVRAM_SPACE) NVRAM_SPACE = (0, data) ->
  Z.of_nat (length data) = NVRAM_SPACE ->
  rep s' m /\
  (forall i, i < mtd_size - NVRAM_SPACE -> flash f' i = flash f i) /\
  exists s2, dev_nvram_init true 0 f' s0 = Ret (0, s2) /\ rep s2 m.
Proof.
  intros Hrep Hk Hg Hfit Hsd Hrun Hrd Hdl. pose proof (rep_allocs s m (S (allocs s)) Hrep) as Hrep'.
  destruct (commit_flash s m f s' f' Hrep Hg Hrun) as (img & es & E & Himg & Hold & Hnew).
  destruct (commit_ok _ m Hrep') as (img' & es' & s1 & m1 & E' & Himg' & Hr & Hst & _ & _ & Hes & Hfull).
  rewrite E in E'. injection E' as <- <-. destruct Hfull as [-> _]; [done..|].
  split_and!; [done|done|]. specialize (Hes Hfit).
  pose proof (contents_permutation _ m Hrep') as Hperm. destruct Hrep' as [Hwf' Hget'].
  eapply (reboot_rep s0 f' data img es' m); try done; subst es'.
  - by apply contents_NoDup.
  - intros n Hn. destruct (Hsd n Hn) as [v Hv].
    rewrite Hperm. apply elem_of_map_to_list in Hv. by apply (list_elem_of_fmap_2 fst) in Hv.
  - rewrite (list_to_map_proper _ (map_to_list m)) by (done || by apply contents_NoDup).
    apply list_to_map_to_list.
Qed.

Lemma commit_survives_reboot_witness :
  exists s' (f' : gmap Z Z), nvram_commit true false DemoNvram.table ∅ = Ret (0, s', f') /\
    exists s2, dev_nvram_init true 0 f' bss = Ret (0, s2) /\ rep s2 DemoNvram.vmap.
Proof.
  destruct (DemoNvram.ok_result (nvram_commit true false DemoNvram.table (∅ : gmap Z Z)))
    as (s' & f' & E); [vm_compute; reflexivity|].
  exists s', f'. split; [exact E|].
  apply (commit_survives_reboot DemoNvram.table s' bss ∅ f' DemoNvram.vmap
    (cells (DemoNvram.peek f') (Z.to_nat NVRAM_SPACE) (mtd_size - NVRAM_SPACE))).
  - exact DemoNvram.table_rep.
  - reflexivity.
  - exact DemoNvram.demo_geometry.
  - vm_compute. congruence.
  - apply DemoNvram.vmap_sdram.
  - exact E.
  - reflexivity.
  - rewrite length_cells, Z2Nat.id; [reflexivity|]. unfold NVRAM_SPACE. lia.
Defined.

(** A commit writes an image of the variables, in the order of the table:
    magic number, length in words and CRC8 are those of the format, and when the
    variables do not all fit no variable is corrupted: the table afterwards
    holds only variables it held before, with their values, and the hardware
    description. *)
Theorem commit_image `{Kernel} (s : drv) (m : gmap string string) :
  rep s m ->
  exists img es s' m', _nvram_commit s = Ret (img, s') /\ rep s' m' /\
    image_ok img es /\ Forall (fun e => m !! e.1 = Some e.2) es /\
    (image_size m <= NVRAM_SPACE - HEADER_SIZE - 2 -> es ≡ₚ map_to_list m) /\
    (forall n v, m' !! n = Some v -> m !! n = Some v \/ n ∈ sdram_names).
Proof.
  intros Hrep.
  destruct (commit_ok s m Hrep) as (img & es & s' & m' & E & Himg & Hr & _ & Hsub & Hin & Hes & _).
  exists img, es, s', m'. split_and!; try done.
  - apply Forall_forall. intros [n v] He. apply (contents_spec s m n v Hrep).
    by eapply sublist_subseteq.
  - intros Hfit. rewrite (Hes Hfit). by apply contents_permutation.
Qed.

Lemma commit_image_witness :
  exists img es s' m', _nvram_commit DemoNvram.table = Ret (img, s') /\ rep s' m' /\
    image_ok img es /\ Forall (fun e => DemoNvram.vmap !! e.1 = Some e.2) es /\
    (image_size DemoNvram.vmap <= NVRAM_SPACE - HEADER_SIZE - 2 -> es ≡ₚ map_to_list DemoNvram.vmap) /\
    (forall n v, m' !! n = Some v -> DemoNvram.vmap !! n = Some v \/ n ∈ sdram_names).
Proof. apply (commit_image DemoNvram.table DemoNvram.vmap). exact DemoNvram.table_rep. Defined.

(** ** A variable that does not fit an image

    The arena holds values only, an image names and values: a variable that the
    arena accepts can be too large for the image, and a commit, which reports
    success, drops it. *)
Definition dropped `{Kernel} (n v : string) : bool :=
  match _nvram_set n v bss with
  | Ret (0, s) =>
      match _nvram_commit s with
      | Ret (_, s') =>
          match _nvram_get n s, _nvram_get n s' with
          | Ret (Some w), Ret None => bool_decide (w = v)
          | _, _ => false
          end
      | _ => false
      end
  | _ => false
  end.

Lemma dropped_spec `{Kernel} n v :
  dropped n v = true ->
  exists s img s', _nvram_set n v bss = Ret (0, s) /\ _nvram_commit s = Ret (img, s') /\
    _nvram_get n s = Ret (Some v) /\ _nvram_get n s' = Ret None.
Proof.
  unfold dropped. destruct (_nvram_set n v bss) as [[[|p|p] s]| | |] eqn:E1; try done.
  destruct (_nvram_commit s) as [[img s']| | |] eqn:E2; try done.
  destruct (_nvram_get n s) as [[w|]| | |] eqn:E3; try done.
  destruct (_nvram_get n s') as [[w'|]| | |] eqn:E4; try done.
  intros Hw. apply bool_decide_eq_true in Hw as ->. by exists s, img, s'.
Qed.

Lemma commit_drops_silently :
  exists n v s img s', _nvram_set n v bss = Ret (0, s) /\ _nvram_commit s = Ret (img, s') /\
    _nvram_get n s = Ret (Some v) /\ _nvram_get n s' = Ret None.
Proof.
  exists (Nat.iter (Z.to_nat 30000) (String "n") ""), (Nat.iter (Z.to_nat 30000) (String "v") "").
  apply dropped_spec. vm_compute. reflexivity.
Qed.
