(* ===== verification/Nvram.v ===== *)
(** * The NVRAM library and command of user space (router/nvram)

    [Module Lib] is nvram_linux.c with the table of nvram_convert.c,
    [Module Codec] the file storage of the same file, [Module Cli] the nvram
    command of main.c. A process holds the device open or not, the copy of the
    lock list and the static buffer [nvram_value]; the driver and its flash are
    shared by all processes. *)

From Stdlib Require Import ZArith Lia Ascii.
From stdpp Require Import base numbers sets gmap strings list.
From S2P Require Import Prelude CString NvramDrv.
Open Scope string_scope.
Open Scope Z_scope.
Open Scope list_scope.

Module Lib.
Import Drv Dev.

Definition MAX_LEN : Z := 8192.

(** Whether [open("/dev/nvram")] succeeds, the error number when it fails,
    whether [malloc] of a number of bytes succeeds, and whether the driver found
    its flash partition. *)
Class User := { open_nvram : bool; errno : Z; malloc : Z -> bool; has_mtd : bool }.

Record proc (F : Type) := mk_proc {
  dev : drv;
  chip : F;
  opened : bool;                (* nvram_fd >= 0 *)
  lock_list : string;
  nvram_value : list ascii      (* MAX_LEN bytes *)
}.
Arguments mk_proc {F} _ _ _ _ _.
Arguments dev {F} _.
Arguments chip {F} _.
Arguments opened {F} _.
Arguments lock_list {F} _.
Arguments nvram_value {F} _.

Definition chars (s : string) : list ascii := String.list_ascii_of_string s.
Definition zeros : list ascii := replicate (Z.to_nat MAX_LEN) NUL.

(** A process that has just started. *)
Definition fresh {F} (d : drv) (f : F) : proc F := mk_proc d f false "" zeros.

(** Writing at the start of [nvram_value]: past its end it is undefined. *)
Definition overlay (l buf : list ascii) : outcome (list ascii) :=
  if (length buf <? length l)%nat then Fault else Ret (l ++ drop (length l) buf).

Record nvram_convert := mk_convert { cname : string; wl0_name : string; d11g_name : string }.
Definition nvram_converts : list nvram_convert :=
  [mk_convert "wl_ssid" "wl0_ssid" "";
   mk_convert "wl_radio" "wl0_mode" "";
   mk_convert "wl_mode" "wl0_mode" "";
   mk_convert "wl_wds" "wl0_wds" "";
   mk_convert "wl_auth" "wl0_auth" "";
   mk_convert "wl_key" "wl0_key" "";
   mk_convert "wl_key1" "wl0_key1" "";
   mk_convert "wl_key2" "wl0_key2" "";
   mk_convert "wl_key3" "wl0_key3" "";
   mk_convert "wl_key4" "wl0_key4" "";
   mk_convert "wl_maclist" "wl0_maclist" "";
   mk_convert "wl_channel" "wl0_channel" "d11g_channel";
   mk_convert "wl_rateset" "wl0_rateset" "d11g_rateset";
   mk_convert "wl_rts" "wl0_rts" "d11g_rts";
   mk_convert "wl_bcn" "wl0_bcn" "d11g_bcn";
   mk_convert "wl_gmode" "wl0_gmode" "d11g_mode";
   mk_convert "wl_unit" "wl0_unit" "";
   mk_convert "wl_ifname" "wl0_ifname" "";
   mk_convert "wl_phytype" "wl0_phytype" "";
   mk_convert "wl_country" "wl0_country" "";
   mk_convert "wl_closed" "wl0_closed" "";
   mk_convert "wl_lazywds" "wl0_lazywds" "";
   mk_convert "wl_wep" "wl0_wep" "";
   mk_convert "wl_macmode" "wl0_macmode" "";
   mk_convert "wl_rate" "wl0_rate" "d11g_rate";
   mk_convert "wl_frag" "wl0_frag" "d11g_frag";
   mk_convert "wl_dtim" "wl0_dtim" "d11g_dtim";
   mk_convert "wl_plcphdr" "wl0_plcphdr" "";
   mk_convert "wl_gmode_protection" "wl0_gmode_protection" "";
   mk_convert "wl_auth_mode" "wl0_auth_mode" "";
   mk_convert "wl_radius_ipaddr" "wl0_radius_ipaddr" "";
   mk_convert "wl_radius_port" "wl0_radius_port" "";
   mk_convert "wl_radius_key" "wl0_radius_key" "";
   mk_convert "wl_wpa_psk" "wl0_wpa_psk" "";
   mk_convert "wl_wpa_gtk_rekey" "wl0_wpa_gtk_rekey" "";
   mk_convert "wl_frameburst" "wl0_frameburst" "";
   mk_convert "ppp_username" "pppoe_username" "";
   mk_convert "ppp_passwd" "pppoe_passwd" "";
   mk_convert "ppp_idletime" "pppoe_idletime" "";
   mk_convert "ppp_keepalive" "pppoe_keepalive" "";
   mk_convert "ppp_demand" "pppoe_demand" "";
   mk_convert "ppp_service" "pppoe_service" "";
   mk_convert "ppp_ac" "pppoe_ac" "";
   mk_convert "ppp_static" "pppoe_static" "";
   mk_convert "ppp_static_ip" "pppoe_static_ip" "";
   mk_convert "ppp_username_1" "pppoe_username_1" "";
   mk_convert "ppp_passwd_1" "pppoe_passwd_1" "";
   mk_convert "ppp_idletime_1" "pppoe_idletime_1" "";
   mk_convert "ppp_keepalive_1" "pppoe_keepalive_1" "";
   mk_convert "ppp_demand_1" "pppoe_demand_1" "";
   mk_convert "ppp_service_1" "pppoe_service_1" "";
   mk_convert "ppp_ac_1" "pppoe_ac_1" ""].

Section Ops.
Context `{Kernel} `{User} {F : Type} `{Mtd F}.

Definition with_dev (d : drv) (p : proc F) : proc F :=
  mk_proc d (chip p) (opened p) (lock_list p) (nvram_value p).
Definition with_value (b : list ascii) (p : proc F) : proc F :=
  mk_proc (dev p) (chip p) (opened p) (lock_list p) b.
Definition with_lock (l : string) (p : proc F) : proc F :=
  mk_proc (dev p) (chip p) (opened p) l (nvram_value p).
Definition with_open (p : proc F) : proc F :=
  mk_proc (dev p) (chip p) true (lock_list p) (nvram_value p).

(** A failing system call returns -1. *)
Definition sys (ret : Z) : Z := if ret <? 0 then -1 else ret.

(** [nvram_get] from the copy of the name on, with the device open: [read]
    stores the value over the name, or leaves the name in the buffer. *)
Definition get_value (n : string) (p : proc F) : outcome (string * proc F) :=
  buf ← overlay (chars n ++ [NUL]) (nvram_value p);
  '(_, out, d) ← dev_nvram_read 0 (chars n ++ [NUL]) (dev p);
  buf ← match out with Some l => overlay l buf | None => Ret buf end;
  '(v, _) ← deref (line buf);
  Ret (v, with_value buf (with_dev d p)).

(** [strncpy] of the whole value: it has a NUL inside its [MAX_LEN] bytes. *)
Definition lock_list_init (p : proc F) : outcome (proc F) :=
  '(v, p) ← get_value "lock_list" (with_value zeros p);
  Ret (with_lock v p).

(** Whether the device is open afterwards. *)
Definition nvram_init (p : proc F) : outcome (bool * proc F) :=
  if open_nvram then p ← lock_list_init (with_open p); Ret (true, p) else Ret (false, p).

(** [if (nvram_fd < 0) if (nvram_init(NULL)) return ...] *)
Definition ensure_open (p : proc F) : outcome (bool * proc F) :=
  if opened p then Ret (true, p) else nvram_init p.

(** [None] is NULL. *)
Definition nvram_get (n : string) (p : proc F) : outcome (option string * proc F) :=
  '(ok, p) ← ensure_open (with_value zeros p);
  if (ok : bool) then '(v, p) ← get_value n p; Ret (Some v, p) else Ret (None, p).

(** The bytes of all variables, at most [count]. *)
Definition nvram_getall (count : Z) (p : proc F) : outcome (list ascii * proc F) :=
  '(ok, p) ← ensure_open p;
  if negb ok || (count =? 0) then Ret ([], p) else
  '(_, out, d) ← dev_nvram_read 0 (NUL :: replicate (Z.to_nat count - 1) NUL) (dev p);
  Ret (default [] out, with_dev d p).

(** A NULL value unsets the variable. *)
Definition _nvram_set (n : string) (v : option string) (p : proc F) : outcome (Z * proc F) :=
  '(ok, p) ← ensure_open p;
  if negb ok then Ret (errno, p) else
  let count := strlen n + 1 + match v with Some v => strlen v + 1 | None => 0 end in
  if (100 <? count) && negb (malloc count) then Ret (- ENOMEM, p) else
  let text := match v with Some v => n +:+ "=" +:+ v | None => n end in
  '(ret, d) ← dev_nvram_write (chars text ++ [NUL]) (dev p);
  let ret := sys ret in
  Ret (if ret =? count then 0 else ret, with_dev d p).

(** ** Locked variables *)

(** The identifiers behind the name of an entry "name:id:id". *)
Fixpoint access_list (fuel : nat) (rest : string) : list Z :=
  match fuel with
  | O => []
  | S fuel =>
      match strtok rest ":" with
      | Some (t, rest) => atoi t :: access_list fuel rest
      | None => []
      end
  end.

(** Whether [id] may change [n]: the first entry that contains the name
    decides. The words are copied to a buffer of 64 bytes. *)
Fixpoint lock_loop (fuel : nat) (next n : string) (id : Z) : outcome bool :=
  match fuel with
  | O => Running
  | S fuel =>
      let start := skip (is_char " ") next in
      let var := upto (is_char " ") start in
      if 64 <=? strlen var then Fault else
      if bool_decide (var = EmptyString) then Ret true else
      match strstr var n with
      | Some _ =>
          match strtok var ":" with
          | Some (_, rest) => Ret (existsb (Z.eqb id) (access_list (String.length rest) rest))
          | None => Ret false
          end
      | None => lock_loop fuel (from (is_char " ") start) n id
      end
  end.

Definition may_set (n : string) (id : Z) (p : proc F) : outcome bool :=
  if bool_decide (lock_list p = "lock_list") || bool_decide (lock_list p = "") then Ret true
  else lock_loop (S (String.length (lock_list p))) (lock_list p) n id.

Fixpoint set_converts (l : list nvram_convert) (n : string) (v : option string) (p : proc F)
    : outcome (proc F) :=
  match l with
  | [] => Ret p
  | c :: l =>
      p ← (if bool_decide (cname c = n) then
             p ← (if bool_decide (wl0_name c = "") then Ret p
                  else '(_, p) ← _nvram_set (wl0_name c) v p; Ret p);
             (if bool_decide (d11g_name c = "") then Ret p
              else '(_, p) ← _nvram_set (d11g_name c) v p; Ret p)
           else Ret p);
      set_converts l n v p
  end.

Definition nvram_id_set (n : string) (v : option string) (id : Z) (p : proc F)
    : outcome (Z * proc F) :=
  allowed ← may_set n id p;
  if negb allowed then Ret (-1, p) else
  '(ret, p) ← _nvram_set n v p;
  p ← set_converts nvram_converts n v p;
  p ← (if bool_decide (n = "lock_list") then
         if opened p then lock_list_init p else Ret (with_lock "" p)
       else Ret p);
  Ret (ret, p).

Definition nvram_set (n : string) (v : option string) (p : proc F) : outcome (Z * proc F) :=
  nvram_id_set n v (-1) p.

Definition nvram_unset (n : string) (p : proc F) : outcome (Z * proc F) := _nvram_set n None p.

Definition nvram_commit (p : proc F) : outcome (Z * proc F) :=
  '(ok, p) ← ensure_open p;
  if negb ok then Ret (errno, p) else
  '(ret, d, f) ← dev_nvram_ioctl NVRAM_MAGIC has_mtd false (dev p) (chip p);
  Ret (sys ret, mk_proc d f (opened p) (lock_list p) (nvram_value p)).
End Ops.

End Lib.

(** * Files in variables *)
Module Codec.
Import Drv Lib.

(** The text of one byte of the file, a signed [char]: printable characters
    stand for themselves, zero is a tilde, the others a backslash and two
    hexadecimal digits; of the eight digits printed for a negative character
    the first two remain. *)
Definition encode_byte (b : Z) : string :=
  let c := s8 b in
  if (32 <=? c) && (c <=? 126) && negb (c =? 92) && negb (c =? 126) then String (chr c) ""
  else if c =? 0 then "~"
  else "\" +:+ (if c <? 0 then "FF" else hex2 c).

(** The loop of [file2nvram] over the bytes of [mem]; [i] is the length of the
    text. The text and its NUL must stay in the 30000 bytes of [buf]; printing
    a negative character takes nine bytes. *)
Fixpoint encode_loop (mem : list Z) (text : string) : outcome string :=
  match mem with
  | [] => Ret text
  | b :: mem =>
      if 30000 - 3 <? strlen text then Ret text else
      let e := encode_byte b in
      if (strlen e =? 3) && (30000 <? strlen text + 1 + (if s8 b <? 0 then 9 else 3)) then Fault else
      encode_loop mem (text +:+ e)
  end.

(** The value [file2nvram] stores, for the contents of the file; [None] when it
    stores nothing. *)
Definition file_text (contents : list Z) : outcome (option string) :=
  text ← encode_loop (take (Z.to_nat 10000) contents) "";
  if bool_decide (text = "") then Ret None else
  if 30000 <=? strlen text then Fault else Ret (Some text).

(** [sscanf(buf + i, "%02X", &c)] on the two characters before the NUL put at
    [buf + i + 2]: without a digit [c] keeps its value. *)
Definition scan2 (a b : ascii) (c : option Z) : option Z :=
  let '(v, neg, rest) := strtoz (String a (String b "")) 16 in
  if bool_decide (rest = String a (String b "")) then c
  else Some (if (neg : bool) then - v else v).

(** The loop of [nvram2file]: [buf] is the rest of the text, [mem] the bytes
    stored. A backslash without two characters behind it makes the code write
    past the copy of the value. *)
Fixpoint decode_loop (fuel : nat) (buf : string) (c : option Z) (mem : list Z) : outcome (list Z) :=
  match fuel with
  | O => Running
  | S fuel =>
      match buf with
      | EmptyString => Ret mem
      | String x buf =>
          if Z.of_nat (length mem) <? 10000 - 3 then
            if bool_decide (x = "\"%char) then
              match buf with
              | String a (String b buf) =>
                  c ← deref (scan2 a b c); decode_loop fuel buf (Some c) (mem ++ [u8 c])
              | _ => Fault
              end
            else if bool_decide (x = "~"%char) then decode_loop fuel buf c (mem ++ [0])
            else decode_loop fuel buf c (mem ++ [code x])
          else Ret mem
      end
  end.
Definition decode (text : string) : outcome (list Z) :=
  decode_loop (S (String.length text)) text None [].

Section Files.
Context `{Kernel} `{User} {F : Type} `{Dev.Mtd F}.

(** The contents of the file, [None] when it cannot be opened. *)
Definition file2nvram (contents : option (list Z)) (varname : string) (p : proc F)
    : outcome (proc F) :=
  match contents with
  | None => Ret p
  | Some l =>
      text ← file_text l;
      match text with
      | None => Ret p
      | Some text => '(_, p) ← nvram_set varname (Some text) p; Ret p
      end
  end.

(** The bytes written to the file. *)
Definition nvram2file (varname : string) (p : proc F) : outcome (list Z * proc F) :=
  '(v, p) ← Lib.nvram_get varname p;
  l ← decode (default "" v);
  Ret (l, p).
End Files.

End Codec.

(** * The nvram command *)
Module Cli.
Import Drv Lib.

(** The settings with a fixed name and value, in the order of the code. *)
Definition presets : list (string * string) :=
  [("vcc_config", "0:35:1483Bridged:LLC:UBR:0:0:0:0 8:35:1483Bridged:LLC:UBR:0:0:0:0 0:43:1483Bridged:LLC:UBR:0:0:0:0 8:43:1483Bridged:LLC:UBR:0:0:0:0 0:51:1483Bridged:LLC:UBR:0:0:0:0 8:51:1483Bridged:LLC:UBR:0:0:0:0 0:59:1483Bridged:LLC:UBR:0:0:0:0 8:59:1483Bridged:LLC:UBR:0:0:0:0");
   ("pppoe_config", "adsl:adsl:1:3:20: adsl:adsl:1:3:20: adsl:adsl:1:3:20: adsl:adsl:1:3:20: adsl:adsl:1:3:20: adsl:adsl:1:3:20: adsl:adsl:1:3:20: adsl:adsl:1:3:20:");
   ("mpppoe_config", "::1:3:20:: ::1:3:20:: adsl:adsl:1:3:20:sv3:dm3 adsl:adsl:1:3:20:sv4:dm4 adsl:adsl:1:3:20:sv5:dm5 adsl:adsl:1:3:20:sv6:dm6 adsl:adsl:1:3:20:sv7:dm7 adsl:adsl:1:3:20:sv8:dm8");
   ("mpppoe_enable", "0 1 1 0 0 1 0 1");
   ("pppoa_config", "adsl:adsl:1:3:20 adsl:adsl:1:3:20 adsl:adsl:1:3:20 adsl:adsl:1:3:20 adsl:adsl:1:3:20 adsl:adsl:1:3:20 adsl:adsl:1:3:20 adsl:adsl:1:3:20");
   ("routed_config", "0.0.0.0:0.0.0.0:0.0.0.0:0.0.0.0:0.0.0.0 0.0.0.0:0.0.0.0:0.0.0.0:0.0.0.0:0.0.0.0 0.0.0.0:0.0.0.0:0.0.0.0:0.0.0.0:0.0.0.0 0.0.0.0:0.0.0.0:0.0.0.0:0.0.0.0:0.0.0.0 0.0.0.0:0.0.0.0:0.0.0.0:0.0.0.0:0.0.0.0 0.0.0.0:0.0.0.0:0.0.0.0:0.0.0.0:0.0.0.0 0.0.0.0:0.0.0.0:0.0.0.0:0.0.0.0:0.0.0.0 0.0.0.0:0.0.0.0:0.0.0.0:0.0.0.0:0.0.0.0");
   ("bridged_config", "0:0.0.0.0:0.0.0.0:0.0.0.0:0.0.0.0:0.0.0.0 0:0.0.0.0:0.0.0.0:0.0.0.0:0.0.0.0:0.0.0.0 0:0.0.0.0:0.0.0.0:0.0.0.0:0.0.0.0:0.0.0.0 0:0.0.0.0:0.0.0.0:0.0.0.0:0.0.0.0:0.0.0.0 0:0.0.0.0:0.0.0.0:0.0.0.0:0.0.0.0:0.0.0.0 0:0.0.0.0:0.0.0.0:0.0.0.0:0.0.0.0:0.0.0.0 0:0.0.0.0:0.0.0.0:0.0.0.0:0.0.0.0:0.0.0.0 0:0.0.0.0:0.0.0.0:0.0.0.0:0.0.0.0:0.0.0.0");
   ("wan_autoresult", "0:-1 0:-1 0:-1 0:-1 0:-1 0:-1 0:-1 0:-1");
   ("mtu_config", "0:1500 0:1500 0:1500 0:1500 0:1500 0:1500 0:1500 0:1500");
   ("macclone_enable", "0 0 0 0 0 0 0 0");
   ("macclone_addr", "00:00:00:00:00:00 00:00:00:00:00:00 00:00:00:00:00:00 00:00:00:00:00:00 00:00:00:00:00:00 00:00:00:00:00:00 00:00:00:00:00:00 00:00:00:00:00:00");
   ("entry_config", "1:test1:1:2:1:1:1:1:0  1:test2:1:3:1:1:1:1:0 1:test3:1:4:1:1:1:1:0 1:test4:1:6:1:1:1:1:0 1:test5:1:7:1:1:1:1:0");
   ("ltype_config", "192.168.1.0:255.255.255.0 192.168.1.0:255.255.255.0  192.168.1.0:255.255.255.0 192.168.1.0:255.255.255.0 192.168.1.0:255.255.255.0");
   ("rtype_config", "200.0.0.0:255.255.255.0 200.0.0.0:255.255.255.0 200.0.0.0:255.255.255.0 200.0.0.0:255.255.255.0 200.0.0.0:255.255.255.0");
   ("sg_config", "100.0.0.1:cytertan 100.0.0.1:www.sina.com.cn 100.0.0.1:www.sohu.com 100.0.0.1:www.aol.com 100.0.0.1:www.edu.cn");
   ("keytype_config", "1:hello:3600:null:null:null:null 1:hello:3600:null:null:null:null 1:hello:3600:null:null:null:null 1:hello:3600:null:null:null:null 1:hello:3600:null:null:null:null ");
   ("ipsecadv_config", "0:2:1:1:3600:2:0:1:0:0:5:60 1:1:1:1:1800:2:0:1:0:0:5:60 1:2:2:2:3600:2:0:1:0:0:6:300 0:1:2:1:1000:2:0:1:0:0:10:300 0:2:1:1:3600:2:0:1:0:0:8:120")].
Definition test_value : string := "&(5555555555;^!@#$%^&*()./?{}~`".

(** [!strncmp(arg, t, strlen(t))] *)
Definition is_cmd (t arg : string) : bool :=
  match starts_with t arg with Some _ => true | None => false end.

(** The variables of a [getall] buffer, one line each. *)
Fixpoint show_lines (fuel : nat) (l : list ascii) : list string :=
  match fuel with
  | O => []
  | S fuel =>
      match line l with
      | Some (s, rest) => if bool_decide (s = "") then [] else s :: show_lines fuel rest
      | None => []
      end
  end.

Section Ops.
Context `{Kernel} `{User} {F : Type} `{Dev.Mtd F}.

Definition set_and_commit (n v : string) (p : proc F) : outcome (proc F) :=
  '(_, p) ← nvram_set n (Some v) p; '(_, p) ← nvram_commit p; Ret p.

(** [strncpy(value = buf, arg, sizeof(buf)); name = strsep(&value, "=")] *)
Definition split_arg (arg : string) : outcome (string * option string) :=
  if NVRAM_SPACE <=? strlen arg then Fault else Ret (strsep arg "=").

(** One command: the arguments from the one [argv] points to afterwards ([[]]
    for the end), the lines printed, and the process. *)
Definition command (arg : string) (rest : list string) (p : proc F)
    : outcome (list string * list string * proc F) :=
  if is_cmd "get" arg then
    match rest with
    | [] => Ret ([], [], p)
    | n :: _ =>
        '(v, p) ← Lib.nvram_get n p;
        Ret (rest, match v with Some v => [v] | None => [] end, p)
    end
  else if is_cmd "set" arg then
    match rest with
    | [] => Ret ([], [], p)
    | a :: _ => '(n, v) ← split_arg a; '(_, p) ← nvram_set n v p; Ret (rest, [], p)
    end
  else if is_cmd "id_set" arg then
    match rest with
    | [] => Ret ([], [], p)
    | [a] => _ ← split_arg a; Ret ([], [], p)
    | a :: id :: _ =>
        '(n, v) ← split_arg a; '(_, p) ← nvram_id_set n v (atoi id) p; Ret (drop 1 rest, [], p)
    end
  else if is_cmd "unset" arg then
    match rest with
    | [] => Ret ([], [], p)
    | n :: _ => '(_, p) ← nvram_unset n p; Ret (rest, [], p)
    end
  else if is_cmd "commi" arg then '(_, p) ← nvram_commit p; Ret (arg :: rest, [], p)
  else if is_cmd "show" arg || is_cmd "getall" arg then
    '(all, p) ← nvram_getall NVRAM_SPACE p;
    Ret (arg :: rest, show_lines (length all) all, p)
  else
    match List.find (fun e => is_cmd e.1 arg) presets with
    | Some (n, v) => p ← set_and_commit n v p; Ret (arg :: rest, [], p)
    | None => Ret (arg :: rest, [], p)
    end.

(** The loop over the arguments; behind every command the current argument is
    compared with "test". *)
Fixpoint main_loop (fuel : nat) (argv : list string) (out : list string) (p : proc F)
    : outcome (list string * proc F) :=
  match fuel with
  | O => Running
  | S fuel =>
      match argv with
      | [] => Ret (out, p)
      | arg :: rest =>
          '(argv, lines, p) ← command arg rest p;
          match argv with
          | [] => Ret (out ++ lines, p)
          | cur :: argv =>
              p ← (if is_cmd "test" cur then set_and_commit "test" test_value p else Ret p);
              main_loop fuel argv (out ++ lines) p
          end
      end
  end.

(** The arguments behind the program name; without any the command prints its
    usage and ends. *)
Definition main (argv : list string) (p : proc F) : outcome (list string * proc F) :=
  match argv with
  | [] => Exit 0
  | _ => main_loop (S (length argv)) argv [] p
  end.
End Ops.

End Cli.
