(* ===== verification/NvramProofs.v ===== *)
(** * Correctness of the NVRAM library and command

    The library over the driver: what a process reads is what was set, except
    in its first read; the lock list protects variables only in processes that
    have loaded it; files stored in variables come back. *)

From Stdlib Require Import ZArith Lia Ascii.
From stdpp Require Import base numbers sets gmap strings list.
From S2P Require Import Prelude CString Bcmutils NvramDrv NvramDrvProofs NvramDevProofs Nvram.
Open Scope string_scope.
Open Scope Z_scope.
Open Scope list_scope.
Import Drv Dev Lib.

(** ** Buffers *)

Lemma chars_line l r : nonul l = true -> line (chars l ++ NUL :: r) = Some (l, r).
Proof. apply line_app. Qed.

Lemma length_chars s : Z.of_nat (length (chars s)) = strlen s.
Proof. apply length_ascii. Qed.

Lemma overlay_ok l buf :
  (length l <= length buf)%nat -> overlay l buf = Ret (l ++ drop (length l) buf).
Proof. intros Hl. unfold overlay. destruct (Nat.ltb_spec (length buf) (length l)); [lia|done]. Qed.

Lemma length_zeros : length zeros = Z.to_nat MAX_LEN.
Proof. apply length_replicate. Qed.

(** A cleared buffer that holds a string. *)
Definition holds (v : string) : list ascii :=
  chars v ++ replicate (Z.to_nat (MAX_LEN - strlen v)) NUL.

Lemma holds_line v : nonul v = true -> strlen v < MAX_LEN -> exists r, line (holds v) = Some (v, r).
Proof.
  intros Hv Hl. unfold holds. destruct (Z.to_nat (MAX_LEN - strlen v)) as [|k] eqn:E; [lia|].
  eexists. by apply (chars_line v (replicate k NUL)).
Qed.

Lemma length_holds v : strlen v <= MAX_LEN -> length (holds v) = Z.to_nat MAX_LEN.
Proof.
  intros Hl. unfold holds. rewrite length_app, length_replicate. pose proof (length_chars v). lia.
Qed.

(** Copying a name to the cleared buffer, and a value that [read] stores over
    the name. *)
Lemma name_over_zeros n :
  strlen n + 1 <= MAX_LEN ->
  (chars n ++ [NUL]) ++ drop (length (chars n ++ [NUL])) zeros = holds n.
Proof.
  intros Hn. unfold holds, zeros. rewrite drop_replicate, length_app, <- app_assoc.
  pose proof (length_chars n). f_equal. cbn [app length].
  change (NUL :: replicate ?k NUL) with (replicate (S k) NUL). f_equal. lia.
Qed.

Lemma overlay_value n v :
  strlen n + 1 <= MAX_LEN -> strlen v < MAX_LEN ->
  overlay (zero_fill (strlen n + 1) (chars v)) (holds n) = Ret (holds v).
Proof.
  intros Hn Hv. pose proof (length_chars n) as Ln. pose proof (length_chars v) as Lv.
  pose proof (strlen_nonneg n). pose proof (strlen_nonneg v).
  assert (length (zero_fill (strlen n + 1) (chars v))
    = length (chars v) + (Z.to_nat (strlen n + 1) - length (chars v)))%nat as Lz.
  { unfold zero_fill. by rewrite length_app, length_replicate. }
  rewrite overlay_ok by (rewrite length_holds; lia). f_equal.
  unfold holds at 1. rewrite drop_app_ge by lia. rewrite drop_replicate. unfold zero_fill at 1.
  rewrite <- app_assoc, <- replicate_add. unfold holds. do 2 f_equal. lia.
Qed.

Lemma rep_nonul s m n v : rep s m -> m !! n = Some v -> nonul v = true.
Proof.
  intros [_ Hget] Em. specialize (Hget n). rewrite Em, nvram_get_tup in Hget.
  destruct (tup n _); [|done]. apply bind_Ret_inv in Hget as (w & Hw & E).
  injection E as ->. by eapply str_at_nonul.
Qed.

Section Library.
Context `{Kernel} `{User} {F : Type} `{Mtd F}.
Hypothesis memory : forall k, kmalloc k = true.

(** ** Reading *)

Lemma dev_read_value n s m :
  rep s m -> nonul n = true -> n <> "" ->
  exists s', rep s' m /\
    dev_nvram_read 0 (chars n ++ [NUL]) s
    = Ret (match m !! n with Some _ => 4 | None => 0 end,
           (fun v => zero_fill (strlen n + 1) (chars v)) <$> m !! n, s').
Proof.
  intros Hrep Hn Hne. unfold dev_nvram_read.
  assert (Z.of_nat (length (chars n ++ [NUL])) = strlen n + 1) as ->
    by (rewrite length_app, <- length_chars; simpl; lia).
  assert (exists s', dev_buffer (strlen n + 1) s = Some s' /\ rep s' m) as (s' & -> & Hrep').
  { unfold dev_buffer. rewrite memory. destruct (100 <? _); [|by exists s].
    eexists. split; [done|]. by apply rep_allocs. }
  exists s'. split; [done|]. rewrite chars_line by done. cbn [deref mbind outcome_bind].
  rewrite bool_decide_eq_false_2 by done. unfold Drv.nvram_get. cbn [Z.leb Z.compare].
  destruct Hrep' as [_ Hget]. rewrite Hget. cbn [mbind outcome_bind].
  by destruct (m !! n).
Qed.

(** With a cleared buffer a read gives the value, or the name when the variable
    is undefined. *)
Lemma get_value_ok n (p : proc F) m :
  rep (dev p) m -> nvram_value p = zeros -> nonul n = true -> n <> "" ->
  strlen n + 1 <= MAX_LEN -> (forall v, m !! n = Some v -> strlen v < MAX_LEN) ->
  exists p', get_value n p = Ret (default n (m !! n), p') /\ rep (dev p') m /\
    opened p' = opened p /\ lock_list p' = lock_list p /\ chip p' = chip p /\
    nvram_value p' = holds (default n (m !! n)).
Proof.
  intros Hrep Hz Hn Hne Hln Hlv. unfold get_value. rewrite Hz.
  pose proof (length_chars n) as Ln. pose proof (strlen_nonneg n).
  rewrite overlay_ok by (rewrite length_zeros, length_app; simpl; lia).
  rewrite name_over_zeros by done. cbn [mbind outcome_bind].
  destruct (dev_read_value n (dev p) m) as (s' & Hr & ->); [done..|].
  cbn [mbind outcome_bind]. destruct (m !! n) as [v|] eqn:Em; simpl.
  - rewrite overlay_value by (done || by apply Hlv). cbn [mbind outcome_bind].
    destruct (holds_line v) as [r ->]; [by eapply rep_nonul|by apply Hlv|].
    cbn [deref mbind outcome_bind]. by eexists.
  - destruct (holds_line n) as [r ->]; [done|lia|]. cbn [deref mbind outcome_bind]. by eexists.
Qed.

Lemma get_open_ok n (p : proc F) m :
  rep (dev p) m -> opened p = true -> nonul n = true -> n <> "" ->
  strlen n + 1 <= MAX_LEN -> (forall v, m !! n = Some v -> strlen v < MAX_LEN) ->
  exists p', Lib.nvram_get n p = Ret (Some (default n (m !! n)), p') /\ rep (dev p') m /\
    opened p' = true /\ lock_list p' = lock_list p /\ chip p' = chip p.
Proof.
  intros Hrep Ho Hn Hne Hln Hlv. unfold Lib.nvram_get, ensure_open. cbn [opened with_value].
  rewrite Ho. cbn [mbind outcome_bind].
  destruct (get_value_ok n (with_value zeros p) m) as (p' & -> & Hr & Ho' & Hl & Hc & _); [done..|].
  cbn [mbind outcome_bind]. exists p'. split; [done|]. simpl in *. by rewrite Ho', Ho.
Qed.

(** ** Writing *)

(** Room for one more value: the variables fit one image with their hardware
    description, their values and the new one the arena. *)
Definition roomy (m : gmap string string) (v : string) : Prop :=
  image_size m <= NVRAM_SPACE - HEADER_SIZE - 2 /\
  (forall k, k ∈ sdram_names -> is_Some (m !! k)) /\
  values (map_to_list m) + strlen v + 1 <= NVRAM_SPACE.

Hypothesis heap : forall n, malloc n = true.

Lemma dev_write_set n v s m :
  rep s m -> plain n = true -> nonul v = true -> roomy m v ->
  exists s', dev_nvram_write (chars (n +:+ "=" +:+ v) ++ [NUL]) s
    = Ret (strlen n + 1 + (strlen v + 1), s') /\ rep s' (<[n := v]> m).
Proof.
  intros Hrep Hn Hv (Hfit & Hsd & Hval). unfold dev_nvram_write.
  assert (Z.of_nat (length (chars (n +:+ "=" +:+ v) ++ [NUL])) = strlen n + 1 + (strlen v + 1)) as ->.
  { unfold chars. rewrite !list_ascii_app, !length_app, !Nat2Z.inj_add, !length_ascii. simpl.
    unfold strlen at 2. simpl. lia. }
  assert (exists s', dev_buffer (strlen n + 1 + (strlen v + 1)) s = Some s' /\ rep s' m)
    as (s' & -> & Hrep').
  { unfold dev_buffer. rewrite memory. destruct (100 <? _); [|by exists s].
    eexists. split; [done|]. by apply rep_allocs. }
  rewrite chars_line by (rewrite !nonul_app, (plain_nonul n), Hv by done; done).
  cbn [deref mbind outcome_bind]. unfold strsep.
  destruct (split_entry n v Hn) as [-> ->].
  destruct (nvram_set_ok n v s' m) as (ret & s2 & m2 & E2 & Hr2 & _ & _ & Hfull); [done..|].
  destruct Hfull as [-> ->]; [done..|]. rewrite E2. cbn [mbind outcome_bind]. by exists s2.
Qed.

Lemma set_open_ok n v (p : proc F) m :
  rep (dev p) m -> opened p = true -> plain n = true -> nonul v = true -> roomy m v ->
  exists p', Lib._nvram_set n (Some v) p = Ret (0, p') /\ rep (dev p') (<[n := v]> m) /\
    opened p' = true /\ lock_list p' = lock_list p /\ chip p' = chip p.
Proof.
  intros Hrep Ho Hn Hv Hroom. unfold Lib._nvram_set, ensure_open. rewrite Ho.
  cbn [mbind outcome_bind negb]. rewrite heap. rewrite andb_false_r.
  destruct (dev_write_set n v (dev p) m) as (s' & -> & Hr); [done..|].
  cbn [mbind outcome_bind]. pose proof (strlen_nonneg n). pose proof (strlen_nonneg v).
  unfold sys. destruct (Z.ltb_spec (strlen n + 1 + (strlen v + 1)) 0); [lia|].
  rewrite Z.eqb_refl. eexists. split; [done|]. done.
Qed.

Lemma set_converts_other l n v (p : proc F) :
  n ∉ cname <$> l -> set_converts l n v p = Ret p.
Proof.
  induction l as [|c l IH]; [done|]. rewrite fmap_cons, not_elem_of_cons. intros [Hc Hl].
  cbn [set_converts]. rewrite bool_decide_eq_false_2 by done. cbn [mbind outcome_bind]. auto.
Qed.

(** A variable that is neither mirrored nor the lock list. *)
Definition ordinary (n : string) : Prop :=
  plain n = true /\ n <> "" /\ n <> "lock_list" /\ n ∉ cname <$> nvram_converts.

Lemma id_set_ok n v id (p : proc F) m :
  rep (dev p) m -> opened p = true -> may_set n id p = Ret true -> ordinary n ->
  nonul v = true -> roomy m v ->
  exists p', nvram_id_set n (Some v) id p = Ret (0, p') /\ rep (dev p') (<[n := v]> m) /\
    opened p' = true /\ lock_list p' = lock_list p /\ chip p' = chip p.
Proof.
  intros Hrep Ho Hmay (Hn & Hne & Hnl & Hnc) Hv Hroom. unfold nvram_id_set. rewrite Hmay.
  cbn [mbind outcome_bind negb].
  destruct (set_open_ok n v p m) as (p' & -> & Hrest); [done..|]. cbn [mbind outcome_bind].
  rewrite set_converts_other by done. cbn [mbind outcome_bind].
  rewrite bool_decide_eq_false_2 by done. cbn [mbind outcome_bind]. by exists p'.
Qed.

(** ** Opening the device *)

Lemma init_ok (p : proc F) m :
  rep (dev p) m -> open_nvram = true ->
  (forall v, m !! "lock_list" = Some v -> strlen v < MAX_LEN) ->
  exists p', nvram_init p = Ret (true, p') /\ rep (dev p') m /\ opened p' = true /\
    lock_list p' = default "lock_list" (m !! "lock_list") /\ chip p' = chip p /\
    nvram_value p' = holds (default "lock_list" (m !! "lock_list")).
Proof.
  intros Hrep Hop Hl. unfold nvram_init, lock_list_init. rewrite Hop.
  destruct (get_value_ok "lock_list" (with_value zeros (with_open p)) m)
    as (p' & -> & Hr & Ho' & _ & Hc & Hb); [done..|].
  cbn [mbind outcome_bind]. eexists. split; [done|]. done.
Qed.

(** The first call of a process, when it is a set: no lock list is loaded yet. *)
Lemma first_set_ok n v id d (f : F) m :
  rep d m -> open_nvram = true -> (forall v, m !! "lock_list" = Some v -> strlen v < MAX_LEN) ->
  ordinary n -> nonul v = true -> roomy m v ->
  exists p', nvram_id_set n (Some v) id (fresh d f) = Ret (0, p') /\
    rep (dev p') (<[n := v]> m) /\ opened p' = true /\ chip p' = f.
Proof.
  intros Hrep Hop Hl (Hn & Hne & Hnl & Hnc) Hv Hroom.
  destruct (init_ok (fresh d f) m) as (p1 & Hinit & Hr1 & Ho1 & Hl1 & Hc1 & _); [done..|].
  unfold nvram_id_set. change (may_set n id (fresh d f)) with (@Ret bool true).
  cbn [mbind outcome_bind negb].
  assert (Lib._nvram_set n (Some v) (fresh d f) = Lib._nvram_set n (Some v) p1) as ->.
  { unfold Lib._nvram_set, ensure_open. rewrite Ho1. cbn [opened fresh]. by rewrite Hinit. }
  destruct (set_open_ok n v p1 m) as (p' & -> & Hr & Ho & _ & Hc); [done..|].
  cbn [mbind outcome_bind]. rewrite set_converts_other by done. cbn [mbind outcome_bind].
  rewrite bool_decide_eq_false_2 by done. cbn [mbind outcome_bind]. exists p'.
  split_and!; [done|done|done|]. by rewrite Hc, Hc1.
Qed.

(** The first call of a process, when it is a get: opening the device has left
    the lock list in the buffer, and a value longer than its name is not
    followed by a NUL. *)
Lemma first_get_ok n v a b d (f : F) m :
  rep d m -> open_nvram = true -> (forall l, m !! "lock_list" = Some l -> strlen l < MAX_LEN) ->
  nonul n = true -> n <> "" -> m !! n = Some v -> strlen n + 1 <= strlen v ->
  default "lock_list" (m !! "lock_list") = a +:+ b -> strlen a = strlen v ->
  exists p', Lib.nvram_get n (fresh d f) = Ret (Some (v +:+ b), p') /\ rep (dev p') m.
Proof.
  intros Hrep Hop Hl Hn Hne Em Hlen Hab Ha. unfold Lib.nvram_get, ensure_open.
  cbn [opened with_value fresh].
  destruct (init_ok (with_value zeros (fresh d f)) m)
    as (p1 & Hinit & Hr1 & Ho1 & _ & _ & Hb1); [done..|].
  rewrite Hinit. cbn [mbind outcome_bind]. unfold get_value. rewrite Hb1, Hab.
  assert (strlen (a +:+ b) < MAX_LEN) as Hlab.
  { rewrite <- Hab. destruct (m !! "lock_list") as [l|] eqn:El; simpl; [by apply Hl|done]. }
  assert (nonul (a +:+ b) = true) as Hnab.
  { rewrite <- Hab. destruct (m !! "lock_list") as [l|] eqn:El; simpl; [by eapply rep_nonul|done]. }
  pose proof (length_chars n) as Ln. pose proof (length_chars v) as Lv.
  pose proof (strlen_nonneg n). pose proof (strlen_nonneg b) as Hb0.
  assert (strlen (a +:+ b) = strlen a + strlen b) as Hsum
    by (rewrite <- !length_ascii, list_ascii_app, length_app; lia).
  rewrite overlay_ok by (rewrite length_holds, length_app by lia; simpl; lia).
  cbn [mbind outcome_bind].
  destruct (dev_read_value n (dev p1) m) as (s' & Hr & ->); [done..|].
  rewrite Em. cbn [mbind outcome_bind fmap option_fmap option_map].
  assert (zero_fill (strlen n + 1) (chars v) = chars v) as ->.
  { unfold zero_fill. replace (_ - _)%nat with 0%nat by lia. apply app_nil_r. }
  rewrite overlay_ok
    by (rewrite length_app, length_drop, length_holds, length_app by lia; simpl; lia).
  cbn [mbind outcome_bind].
  rewrite drop_app_ge, drop_drop by (rewrite length_app; simpl; lia).
  replace (length (chars n ++ [NUL]) + (length (chars v) - length (chars n ++ [NUL])))%nat
    with (length (chars a)) by (rewrite length_app; pose proof (length_chars a); simpl; lia).
  assert (chars v ++ drop (length (chars a)) (holds (a +:+ b))
    = chars (v +:+ b) ++ replicate (Z.to_nat (MAX_LEN - strlen (a +:+ b))) NUL) as ->.
  { unfold holds, chars. rewrite !list_ascii_app, <- !app_assoc. by rewrite drop_app_length. }
  destruct (Z.to_nat (MAX_LEN - strlen (a +:+ b))) as [|k] eqn:Ek; [lia|]. cbn [replicate].
  rewrite chars_line.
  2:{ rewrite nonul_app in *. apply andb_true_iff in Hnab as [_ ->].
      by rewrite (rep_nonul d m n v). }
  cbn [deref mbind outcome_bind]. eexists. split; [done|]. done.
Qed.
End Library.

(** ** Lock entries *)

(** The entry of one variable, when the list holds only that entry. *)
Lemma may_set_entry {F} (p : proc F) n ids id :
  lock_list p = n +:+ ":" +:+ ids -> n <> "" ->
  avoids (one_of ": ") n = true -> avoids (is_char " ") ids = true ->
  strlen (lock_list p) < 64 ->
  may_set n id p = Ret (existsb (Z.eqb id) (access_list (String.length ids) ids)).
Proof.
  intros Hl Hne Hn Hids Hlen. unfold may_set.
  assert (avoids (is_char " ") n = true /\ avoids (one_of ":") n = true) as [Hsp Hco].
  { clear -Hn. induction n as [|c n IH]; [done|]. apply avoids_cons in Hn as [Hc Hn].
    destruct (IH Hn). rewrite !avoids_cons. unfold one_of in *. simpl in *.
    rewrite !orb_false_iff in Hc. destruct Hc as (? & ? & _). rewrite orb_false_r. done. }
  rewrite !bool_decide_eq_false_2.
  2:{ rewrite Hl. by destruct n. }
  2:{ rewrite Hl. intros E. apply (f_equal (from (one_of ":"))) in E.
      by destruct (cut_at (one_of ":") n ":" ids Hco eq_refl) as [_ E'];
        change (":" +:+ ids) with (String ":" ids) in E; rewrite E' in E. }
  cbn [orb lock_loop].
  assert (avoids (is_char " ") (lock_list p) = true) as Hall.
  { rewrite Hl, avoids_app, Hsp. change (":" +:+ ids) with (String ":" ids).
    apply avoids_cons. done. }
  assert (skip (is_char " ") (lock_list p) = lock_list p) as ->.
  { destruct (lock_list p) as [|c l]; [done|]. apply avoids_cons in Hall as [Hc _].
    by apply skip_none. }
  destruct (cut_none _ _ Hall) as [-> _].
  destruct (Z.leb_spec 64 (strlen (lock_list p))); [lia|].
  rewrite bool_decide_eq_false_2 by (rewrite Hl; by destruct n).
  rewrite Hl. rewrite strstr_prefix. change (":" +:+ ids) with (String ":" ids).
  unfold strtok. destruct n as [|c n]; [done|].
  destruct (cut_at (one_of ":") (String c n) ":" ids Hco eq_refl) as [Eu Ef].
  change (String c n +:+ String ":" ids) with (String c (n +:+ String ":" ids)) in *.
  apply avoids_cons in Hco as [Hc _]. rewrite skip_none by done.
  cbv beta iota. rewrite Ef. done.
Qed.

(** ** Files in variables *)
Section CodecProofs.
Import Codec.

(** How one byte of a text file is stored, decided for all 128 of them. *)
Definition stored_ok (b : Z) : bool :=
  match encode_byte b with
  | String x "" =>
      if bool_decide (x = "~"%char) then b =? 0
      else negb (bool_decide (x = "\"%char)) && (code x =? b)
  | String x (String y (String z "")) =>
      bool_decide (x = "\"%char) && bool_decide (scan2 y z None = Some b)
  | _ => false
  end.

Lemma stored_all b : 0 <= b < 128 -> stored_ok b = true.
Proof.
  intros Hb. assert (forallb (fun i => stored_ok (Z.of_nat i)) (seq 0 128) = true) as H
    by (vm_compute; reflexivity).
  rewrite forallb_forall in H. specialize (H (Z.to_nat b)).
  rewrite Z2Nat.id in H by lia. apply H, in_seq. lia.
Qed.

Lemma scan2_value x y v c : scan2 x y None = Some v -> scan2 x y c = Some v.
Proof.
  unfold scan2. destruct (strtoz _ 16) as [[w neg] rest]. by case_bool_decide.
Qed.

(** Reading back one byte. *)
Lemma decode_byte fuel b rest c mem :
  0 <= b < 128 -> Z.of_nat (length mem) < 9997 ->
  exists c', decode_loop (S fuel) (encode_byte b +:+ rest) c mem
    = decode_loop fuel rest c' (mem ++ [b]).
Proof.
  intros Hb Hm. pose proof (stored_all b Hb) as Hs. unfold stored_ok in Hs.
  assert (Z.of_nat (length mem) <? 10000 - 3 = true) as Hlt by (apply Z.ltb_lt; lia).
  destruct (encode_byte b) as [|x [|y [|z [|]]]]; try done.
  - change (String x "" +:+ rest) with (String x rest). cbn [decode_loop]. rewrite Hlt.
    case_bool_decide as Ht.
    + subst x. apply Z.eqb_eq in Hs as ->. by exists c.
    + apply andb_true_iff in Hs as [Hs Hc]. apply negb_true_iff in Hs.
      apply Z.eqb_eq in Hc. rewrite Hs, Hc. by exists c.
  - apply andb_true_iff in Hs as [Hx Hs]. apply bool_decide_eq_true in Hx as ->.
    change (String "\" (String y (String z "")) +:+ rest) with (String "\" (String y (String z rest))).
    cbn [decode_loop]. rewrite Hlt. rewrite bool_decide_eq_true_2 by done.
    apply bool_decide_eq_true in Hs. rewrite (scan2_value y z b c Hs). cbn [deref mbind outcome_bind].
    exists (Some b). do 2 f_equal. unfold u8. rewrite Z.mod_small by lia. done.
Qed.

Definition encoded (l : list Z) : string := foldr (fun b t => encode_byte b +:+ t) "" l.

Lemma decode_encoded fuel l c mem :
  Forall (fun b => 0 <= b < 128) l -> Z.of_nat (length mem + length l) <= 9997 ->
  (length l < fuel)%nat -> decode_loop fuel (encoded l) c mem = Ret (mem ++ l).
Proof.
  intros Hl. revert fuel c mem. induction Hl as [|b l Hb _ IH]; intros fuel c mem Hm Hf.
  - destruct fuel as [|fuel]; [lia|]. simpl. by rewrite app_nil_r.
  - destruct fuel as [|fuel]; [simpl in Hf; lia|].
    change (encoded (b :: l)) with (encode_byte b +:+ encoded l). simpl in Hm, Hf.
    destruct (decode_byte fuel b (encoded l) c mem) as [c' ->]; [done|lia|].
    rewrite IH by (rewrite ?length_app; simpl; lia). by rewrite <- app_assoc.
Qed.

Lemma encode_byte_length b : 1 <= strlen (encode_byte b) <= 3.
Proof.
  unfold encode_byte. case_if; [done|]. case_if; [done|].
  rewrite strlen_app. destruct (s8 b <? 0); done.
Qed.

Lemma encode_loop_ok l text :
  Forall (fun b => 0 <= b < 128) l -> strlen text + 3 * Z.of_nat (length l) <= 29991 ->
  encode_loop l text = Ret (text +:+ encoded l).
Proof.
  intros Hl. revert text. induction Hl as [|b l Hb _ IH]; intros text Ht.
  - simpl. f_equal. clear. induction text as [|x t IHt]; [done|].
    change (String x t = String x (t +:+ "")). by f_equal.
  - cbn [encode_loop length] in *. destruct (Z.ltb_spec (30000 - 3) (strlen text)); [lia|].
    assert (s8 b <? 0 = false) as ->.
    { apply Z.ltb_ge. unfold s8. word_consts. change (2 ^ 7) with 128. rewrite Z.mod_small by lia. lia. }
    destruct (Z.ltb_spec 30000 (strlen text + 1 + 3)); [lia|]. rewrite andb_false_r.
    pose proof (encode_byte_length b). rewrite IH by (rewrite strlen_app; lia).
    by rewrite string_app_assoc.
Qed.

Lemma encoded_length l : Z.of_nat (length l) <= strlen (encoded l) <= 3 * Z.of_nat (length l).
Proof.
  induction l as [|b l IH]; [done|]. change (encoded (b :: l)) with (encode_byte b +:+ encoded l).
  rewrite strlen_app. pose proof (encode_byte_length b). simpl. lia.
Qed.

Lemma file_text_ok l :
  Forall (fun b => 0 <= b < 128) l -> l <> [] -> Z.of_nat (length l) <= 9997 ->
  file_text l = Ret (Some (encoded l)) /\ decode (encoded l) = Ret l.
Proof.
  intros Hl Hne Hlen. pose proof (encoded_length l) as He. split.
  - unfold file_text. rewrite take_ge by lia.
    rewrite encode_loop_ok by (done || (change (strlen "") with 0; lia)).
    cbn [mbind outcome_bind]. change ("" +:+ encoded l) with (encoded l).
    rewrite bool_decide_eq_false_2.
    + destruct (Z.leb_spec 30000 (strlen (encoded l))); [lia|done].
    + intros E. rewrite E in He. change (strlen "") with 0 in He. destruct l; [done|simpl in He; lia].
  - unfold decode. rewrite decode_encoded; [done|done|simpl; lia|]. unfold strlen in He. lia.
Qed.

Lemma encoded_nonul l : Forall (fun b => 0 <= b < 128) l -> nonul (encoded l) = true.
Proof.
  assert (forall b, 0 <= b < 128 -> nonul (encode_byte b) = true) as Hb.
  { intros b Hb. assert (forallb (fun i => nonul (encode_byte (Z.of_nat i))) (seq 0 128) = true) as H
      by (vm_compute; reflexivity).
    rewrite forallb_forall in H. specialize (H (Z.to_nat b)).
    rewrite Z2Nat.id in H by lia. apply H, in_seq. lia. }
  induction 1 as [|b l Hl _ IH]; [done|].
  change (encoded (b :: l)) with (encode_byte b +:+ encoded l). by rewrite nonul_app, Hb, IH.
Qed.

(** A byte from 128 on is stored as "\FF". *)
Lemma high_byte_lost b : 128 <= b < 256 -> encode_byte b = "\FF" /\ decode (encode_byte b) = Ret [255].
Proof.
  intros Hb. assert (encode_byte b = "\FF") as ->; [|done].
  unfold encode_byte. assert (s8 b = b - 256) as ->.
  { unfold s8. word_consts. change (2 ^ 7) with 128. Z.to_euclidean_division_equations; lia. }
  destruct (Z.leb_spec 32 (b - 256)); [lia|]. cbn [andb].
  destruct (Z.eqb_spec (b - 256) 0); [lia|]. destruct (Z.ltb_spec (b - 256) 0); [done|lia].
Qed.
End CodecProofs.

(** ** A concrete process *)
Module DemoProc.
Import DemoNvram.

#[global] Instance user : User :=
  {| open_nvram := true; errno := 2; malloc := fun _ => true; has_mtd := true |}.

(** A process with the device open and one locked variable. *)
Definition p : proc (gmap Z Z) := mk_proc table ∅ true "wan_mac:7:12" zeros.

Lemma roomy_vmap v : strlen v < 4096 -> roomy vmap v.
Proof.
  intros Hv. split_and!.
  - vm_compute. congruence.
  - apply vmap_sdram.
  - assert (values (map_to_list vmap) <= 4096) by (vm_compute; congruence).
    unfold NVRAM_SPACE. lia.
Qed.

Lemma is_ordinary n :
  plain n && negb (bool_decide (n = "")) && negb (bool_decide (n = "lock_list"))
    && negb (bool_decide (n ∈ cname <$> nvram_converts)) = true -> ordinary n.
Proof.
  rewrite !andb_true_iff, !negb_true_iff, !bool_decide_eq_false. intros [[[? ?] ?] ?]. done.
Qed.
End DemoProc.

(** * Theorems *)

(** What a process sets it reads: with the device open, the variable not
    locked, and room for the value, [nvram_set] of an ordinary variable returns
    zero, [nvram_get] then gives the value, and for every other variable its
    value, or the name of the variable itself where it is undefined: the library
    never returns NULL for it. *)
Theorem set_then_get `{Kernel} `{User} {F : Type} `{Mtd F} (p : proc F) (m : gmap string string)
    (n v : string) :
  (forall k, kmalloc k = true) -> (forall k, malloc k = true) ->
  rep (dev p) m -> opened p = true -> may_set n (-1) p = Ret true -> ordinary n ->
  nonul v = true -> roomy m v ->
  exists p', Lib.nvram_set n (Some v) p = Ret (0, p') /\ rep (dev p') (<[n := v]> m) /\
    forall k, nonul k = true -> k <> "" -> strlen k + 1 <= MAX_LEN ->
      (forall w, <[n := v]> m !! k = Some w -> strlen w < MAX_LEN) ->
      exists p'', Lib.nvram_get k p' = Ret (Some (default k (<[n := v]> m !! k)), p'').
Proof.
  intros Hk Hm Hrep Ho Hmay Hn Hv Hroom. unfold Lib.nvram_set.
  destruct (id_set_ok Hk Hm n v (-1) p m) as (p' & E & Hr & Ho' & _); [done..|].
  exists p'. split; [done|]. split; [done|]. intros k Hkn Hke Hkl Hkv.
  destruct (get_open_ok Hk k p' (<[n := v]> m)) as (p'' & E'' & _); [done..|]. eauto.
Qed.

Lemma set_then_get_witness :
  exists p', Lib.nvram_set "lang" (Some "english") DemoProc.p = Ret (0, p') /\
    exists p'', Lib.nvram_get "lang" p' = Ret (Some "english", p'').
Proof.
  destruct (set_then_get DemoProc.p DemoNvram.vmap "lang" "english") as (p' & E & _ & Hget);
    [reflexivity|reflexivity|exact DemoNvram.table_rep|reflexivity|vm_compute; reflexivity
    |apply DemoProc.is_ordinary; vm_compute; reflexivity|reflexivity|by apply DemoProc.roomy_vmap|].
  exists p'. split; [exact E|].
  destruct (Hget "lang") as [p'' E'']; [reflexivity|done|done|..].
  - intros w. rewrite lookup_insert_eq. intros [= <-]. done.
  - rewrite lookup_insert_eq in E''. by exists p''.
Defined.

(** The lock list in a process that has loaded it: when the entry of a
    variable is the whole list, exactly the identifiers of the entry may change
    the variable; for another one the call returns -1 and changes nothing. *)
Theorem lock_entry_protects `{Kernel} `{User} {F : Type} `{Mtd F} (p : proc F)
    (n ids : string) (v : option string) (id : Z) :
  lock_list p = n +:+ ":" +:+ ids -> n <> "" ->
  avoids (one_of ": ") n = true -> avoids (is_char " ") ids = true ->
  strlen (lock_list p) < 64 ->
  (id ∈ access_list (String.length ids) ids -> may_set n id p = Ret true) /\
  (id ∉ access_list (String.length ids) ids -> nvram_id_set n v id p = Ret (-1, p)).
Proof.
  intros Hl Hne Hn Hids Hlen.
  pose proof (may_set_entry p n ids id Hl Hne Hn Hids Hlen) as Hmay.
  assert (existsb (Z.eqb id) (access_list (String.length ids) ids) = true <->
    id ∈ access_list (String.length ids) ids) as Hin.
  { rewrite existsb_exists, list_elem_of_In. split.
    - intros (x & Hx & E). apply Z.eqb_eq in E as ->. done.
    - intros Hx. exists id. split; [done|apply Z.eqb_refl]. }
  split; intros Hid.
  - rewrite Hmay. f_equal. by apply Hin.
  - unfold nvram_id_set. rewrite Hmay. destruct (existsb _ _); [|done].
    exfalso. by apply Hid, Hin.
Qed.

Lemma lock_entry_protects_witness :
  may_set "wan_mac" 12 DemoProc.p = Ret true /\
  nvram_id_set "wan_mac" (Some "00:11:22:33:44:55") 3 DemoProc.p = Ret (-1, DemoProc.p).
Proof.
  split.
  - apply (lock_entry_protects DemoProc.p "wan_mac" "7:12" None 12); try done.
    apply list_elem_of_In. vm_compute. auto.
  - apply (lock_entry_protects DemoProc.p "wan_mac" "7:12" _ 3); try done.
    rewrite list_elem_of_In. vm_compute. intros [?|[?|[]]]; congruence.
Defined.

(** The nvram command does not respect locks: whatever the variable
    lock_list says, [nvram set name=value], a process that has not loaded the
    list when it sets the variable, sets it. *)
Theorem cli_set_ignores_lock `{Kernel} `{User} {F : Type} `{Mtd F} (d : drv) (f : F)
    (m : gmap string string) (n v : string) :
  (forall k, kmalloc k = true) -> (forall k, malloc k = true) -> open_nvram = true ->
  rep d m -> (forall l, m !! "lock_list" = Some l -> strlen l < MAX_LEN) ->
  ordinary n -> nonul v = true -> roomy m v -> Cli.is_cmd "test" (n +:+ "=" +:+ v) = false ->
  strlen (n +:+ "=" +:+ v) < NVRAM_SPACE ->
  exists p', Cli.main ["set"; n +:+ "=" +:+ v] (fresh d f) = Ret ([], p') /\
    rep (dev p') (<[n := v]> m).
Proof.
  intros Hk Hm Hop Hrep Hl Hn Hv Hroom Htest Hlen.
  destruct (first_set_ok Hk Hm n v (-1) d f m) as (p' & E & Hr & _); [done..|].
  exists p'. split; [|done]. unfold Cli.main. cbn [length Cli.main_loop].
  unfold Cli.command. change (Cli.is_cmd "get" "set") with false.
  change (Cli.is_cmd "set" "set") with true. cbv beta iota. unfold Cli.split_arg.
  destruct (Z.leb_spec NVRAM_SPACE (strlen (n +:+ "=" +:+ v))); [lia|].
  cbn [mbind outcome_bind]. unfold strsep. destruct Hn as [Hp _].
  destruct (split_entry n v Hp) as [-> ->]. unfold Lib.nvram_set. rewrite E.
  cbn [mbind outcome_bind]. rewrite Htest. done.
Qed.

Lemma cli_set_ignores_lock_witness :
  exists p', Cli.main ["set"; "wan_mac=00:11:22:33:44:55"] (fresh DemoNvram.table (∅ : gmap Z Z))
      = Ret ([], p') /\
    rep (dev p') (<["wan_mac" := "00:11:22:33:44:55"]> DemoNvram.vmap).
Proof.
  apply (cli_set_ignores_lock DemoNvram.table (∅ : gmap Z Z) DemoNvram.vmap "wan_mac" "00:11:22:33:44:55");
    [reflexivity|reflexivity|reflexivity|exact DemoNvram.table_rep| 
    |apply DemoProc.is_ordinary; vm_compute; reflexivity|reflexivity|by apply DemoProc.roomy_vmap
    |reflexivity|reflexivity].
  intros l Hl. vm_compute in Hl. congruence.
Defined.

(** The first read of a process is wrong for a value that is longer than
    its name and shorter than the lock list (or than the word "lock_list" where
    no list is set): opening the device leaves the list in the static buffer,
    and the value is returned with the tail of the list behind it. *)
Theorem first_get_leftover `{Kernel} `{User} {F : Type} `{Mtd F} (d : drv) (f : F)
    (m : gmap string string) (n v a b : string) :
  (forall k, kmalloc k = true) -> open_nvram = true ->
  rep d m -> (forall l, m !! "lock_list" = Some l -> strlen l < MAX_LEN) ->
  nonul n = true -> n <> "" -> m !! n = Some v -> strlen n + 1 <= strlen v ->
  default "lock_list" (m !! "lock_list") = a +:+ b -> strlen a = strlen v ->
  exists p', Lib.nvram_get n (fresh d f) = Ret (Some (v +:+ b), p').
Proof.
  intros Hk Hop Hrep Hl Hn Hne Em Hlen Hab Ha.
  destruct (first_get_ok Hk n v a b d f m) as (p' & E & _); [done..|]. eauto.
Qed.

(** A variable with a short name, read by a fresh process of a router without
    lock list. *)
Lemma first_get_leftover_witness :
  exists s p', DemoNvram.sets [("lang", "english")] bss = Some s /\
    Lib.nvram_get "lang" (fresh s (∅ : gmap Z Z)) = Ret (Some "englishst", p').
Proof.
  assert (bool_decide (is_Some (DemoNvram.sets [("lang", "english")] bss)) = true) as Hs
    by (vm_compute; reflexivity).
  apply bool_decide_eq_true in Hs as [s Hs].
  pose proof (DemoNvram.sets_rep [("lang", "english")] bss s ∅ bss_rep eq_refl Hs) as Hrep.
  destruct (first_get_leftover s (∅ : gmap Z Z) {["lang" := "english"]} "lang" "english" "lock_li" "st")
    as [p' E]; [reflexivity|reflexivity|exact Hrep|done..|].
  by exists s, p'.
Defined.

(** A text file stored in a variable comes back: for a non-empty file of
    bytes below 128 whose text fits the buffers, [file2nvram] stores it and
    [nvram2file] writes the same bytes. *)
Theorem file_roundtrip `{Kernel} `{User} {F : Type} `{Mtd F} (p : proc F) (m : gmap string string)
    (n : string) (l : list Z) :
  (forall k, kmalloc k = true) -> (forall k, malloc k = true) ->
  rep (dev p) m -> opened p = true -> may_set n (-1) p = Ret true -> ordinary n ->
  strlen n + 1 <= MAX_LEN ->
  Forall (fun b => 0 <= b < 128) l -> l <> [] -> strlen (encoded l) < MAX_LEN ->
  roomy m (encoded l) ->
  exists p', Codec.file2nvram (Some l) n p = Ret p' /\
    exists p'', Codec.nvram2file n p' = Ret (l, p'').
Proof.
  intros Hk Hm Hrep Ho Hmay Hn Hnl Hl Hne Htl Hroom. pose proof (encoded_nonul l Hl) as Htn.
  pose proof (encoded_length l) as Hlen. unfold MAX_LEN in Htl.
  destruct (file_text_ok l Hl Hne) as [Et Ed]; [lia|].
  destruct (id_set_ok Hk Hm n (encoded l) (-1) p m) as (p' & E & Hr & Ho' & _); [done..|].
  unfold Codec.file2nvram, Codec.nvram2file. rewrite Et. cbn [mbind outcome_bind].
  unfold Lib.nvram_set. rewrite E. cbn [mbind outcome_bind]. exists p'. split; [done|].
  destruct Hn as (Hp & Hn0 & _).
  destruct (get_open_ok Hk n p' (<[n := encoded l]> m)) as (p'' & -> & _);
    [done|done|by apply plain_nonul|done|done| |].
  { intros v. rewrite lookup_insert_eq. intros [= <-]. done. }
  cbn [mbind outcome_bind]. rewrite lookup_insert_eq. cbn [default]. unfold from_option, id.
  rewrite Ed. cbn [mbind outcome_bind]. by exists p''.
Qed.

Lemma file_roundtrip_witness :
  exists p', Codec.file2nvram (Some [0; 65; 92; 10; 126; 127]) "crt" DemoProc.p = Ret p' /\
    exists p'', Codec.nvram2file "crt" p' = Ret ([0; 65; 92; 10; 126; 127], p'').
Proof.
  apply (file_roundtrip DemoProc.p DemoNvram.vmap "crt" [0; 65; 92; 10; 126; 127]);
    [reflexivity|reflexivity|exact DemoNvram.table_rep|reflexivity|vm_compute; reflexivity
    |apply DemoProc.is_ordinary; vm_compute; reflexivity|done| |done|done|by apply DemoProc.roomy_vmap].
  repeat (constructor; [lia|]). constructor.
Defined.
