(* ===== verification/Vars.v ===== *)
(** * The variables as a process sees them

    [Module Vars]: what the processes above the NVRAM library rely on. The state
    is the table of variables and the text in the static buffer of nvram_get
    (src/router/nvram/nvram_linux.c): nvram_get returns a pointer to the start
    of this buffer, so a text that was read changes with the next read. A
    variable that is not defined reads as its own name. VarsProofs.v shows that
    the library over the driver behaves this way. *)

From Stdlib Require Import ZArith Lia Ascii.
From stdpp Require Import base numbers sets gmap strings list.
From S2P Require Import Prelude CString NvramDrv Nvram.
Open Scope string_scope.
Open Scope Z_scope.
Open Scope list_scope.

Module Vars.

Record vars := mk_vars {
  table : gmap string string;
  value_buf : string
}.

(** Whether the lock list lets the process change a variable, and whether the
    driver has room for a value. *)
Class Driver := {
  unlocked : gmap string string -> string -> bool;
  room : gmap string string -> string -> string -> bool
}.

(** The memory of the driver bounds the number of variables. *)
Class Bounded `{Driver} := room_size t n v :
  room t n v = true -> Z.of_nat (size (<[n := v]> t)) <= Drv.NVRAM_SPACE.

Definition peek (n : string) (s : vars) : string := default n (table s !! n).

Definition nvram_get (n : string) (s : vars) : string * vars :=
  (peek n s, mk_vars (table s) (peek n s)).

(** The text at a pointer into the buffer. *)
Fixpoint sdrop (k : nat) (t : string) : string :=
  match k, t with
  | O, _ => t
  | S k, String _ t => sdrop k t
  | S _, EmptyString => EmptyString
  end.
Definition buf_at (k : nat) (s : vars) : string := sdrop k (value_buf s).

Section Writing.
Context `{Driver}.

Definition put (n v : string) (t : gmap string string) : gmap string string :=
  if room t n v then <[n := v]> t else t.

(** The other names under which a variable is kept. *)
Definition mirror (n v : string) (t : gmap string string) : gmap string string :=
  foldl (fun t c =>
    if bool_decide (Lib.cname c = n) then
      let t := if bool_decide (Lib.wl0_name c = "") then t else put (Lib.wl0_name c) v t in
      if bool_decide (Lib.d11g_name c = "") then t else put (Lib.d11g_name c) v t
    else t) t Lib.nvram_converts.

(** Whether zero is returned. *)
Definition nvram_set (n v : string) (s : vars) : bool * vars :=
  if unlocked (table s) n then
    (room (table s) n v, mk_vars (mirror n v (put n v (table s))) (value_buf s))
  else (false, s).
End Writing.

Definition nvram_unset (n : string) (s : vars) : vars := mk_vars (delete n (table s)) (value_buf s).

Definition nvram_match (n m : string) (s : vars) : bool * vars :=
  let '(v, s) := nvram_get n s in (bool_decide (v = m), s).
Definition nvram_invmatch (n m : string) (s : vars) : bool * vars :=
  let '(v, s) := nvram_get n s in (negb (bool_decide (v = m)), s).

(** [foreach(word, nvram_safe_get(name), next)] with a [word] of [size] bytes:
    [next] is a pointer into the buffer of nvram_get, or NULL, and the text behind
    it is the one the buffer holds when the next word is taken. *)
Section Foreach.
Context {T : Type} (size : Z) (body : string -> T -> vars -> outcome (T * vars)).

(** One word: [cur] is where it starts. *)
Definition word_at (cur : nat) (s : vars) : string := upto (is_char " ") (buf_at cur s).
Definition next_of (cur : nat) (s : vars) : option nat :=
  match from (is_char " ") (buf_at cur s) with
  | EmptyString => None
  | _ => Some (cur + String.length (word_at cur s))%nat
  end.
Definition skip_from (k : nat) (s : vars) : nat :=
  (k + (String.length (buf_at k s) - String.length (skip (is_char " ") (buf_at k s))))%nat.

Fixpoint var_words (fuel : nat) (next : option nat) (t : T) (s : vars) : outcome (T * vars) :=
  match fuel with
  | O => Running
  | S fuel =>
      match next with
      | None => Ret (t, s)                 (* the empty literal *)
      | Some k =>
          let cur := skip_from k s in
          let word := word_at cur s in
          if size <=? strlen word then Fault else
          if bool_decide (word = "") then Ret (t, s) else
          let next := next_of cur s in
          '(t, s) ← body word t s;
          var_words fuel next t s
      end
  end.

(** The pointer moves on with every word and stays in the 8192 bytes of the
    buffer. *)
Definition foreach_var (name : string) (t : T) (s : vars) : outcome (T * vars) :=
  let '(_, s) := nvram_get name s in var_words (S (Z.to_nat Lib.MAX_LEN)) (Some 0%nat) t s.
End Foreach.

End Vars.
