(* ===== verification/VarsProofs.v ===== *)
(** * The library implements the variables

    A process whose device is open and whose calls have room sees the variables
    as Vars.v has them: the simulation of reads, writes and removals, over the
    driver and the static buffer of nvram_get. *)

From Stdlib Require Import ZArith Lia Ascii.
From stdpp Require Import base numbers sets gmap strings list.
From S2P Require Import Prelude CString NvramDrv NvramDrvProofs NvramDevProofs Nvram NvramProofs Vars.
Import Drv Dev Lib Vars.
Open Scope string_scope.
Open Scope Z_scope.
Open Scope list_scope.

Module VarsProofs.

(** ** What the process may write *)

(** Whether there is room for a value, as the driver's theorems need it. *)
Definition fits (m : gmap string string) (v : string) : bool :=
  (image_size m <=? NVRAM_SPACE - HEADER_SIZE - 2) &&
  forallb (fun k => bool_decide (is_Some (m !! k))) sdram_names &&
  (values (map_to_list m) + strlen v + 1 <=? NVRAM_SPACE).

Lemma fits_roomy m v : fits m v = true -> roomy m v.
Proof.
  unfold fits, roomy. rewrite !andb_true_iff, !Z.leb_le, forallb_forall. intros [[H1 H2] H3]. split_and!; try done.
  intros k Hk. apply (bool_decide_unpack _). apply Is_true_true, H2. by apply list_elem_of_In.
Qed.

(** The lock list of a process lets it change a variable. *)
Definition allows (lock n : string) : outcome bool :=
  if bool_decide (lock = "lock_list") || bool_decide (lock = "") then Ret true
  else lock_loop (S (String.length lock)) lock n (-1).

Definition lib_driver (lock : string) : Driver := {|
  unlocked := fun _ n => match allows lock n with Ret b => b | _ => false end;
  room := fun t _ v => fits t v
|}.

Lemma values_size l : Z.of_nat (length l) <= values l.
Proof. induction l as [|e l IH]; simpl; [lia|]. pose proof (strlen_nonneg e.2). lia. Qed.

(** The driver bounds the number of variables. *)
Lemma lib_bounded lock : Bounded (H := lib_driver lock).
Proof.
  intros t n v Hf%fits_roomy. destruct Hf as (_ & _ & Hv). pose proof (values_size (map_to_list t)) as Hs.
  rewrite length_map_to_list in Hs. pose proof (strlen_nonneg v). rewrite map_size_insert.
  destruct (t !! n); unfold id; lia.
Qed.

(** ** Calls *)

Inductive call := Get (n : string) | Set_ (n v : string) | Unset (n : string).
Inductive answer := Text (t : option string) | Status (success : bool).

Section Library.
Context `{Kernel} `{User} {F : Type} `{Mtd F}.
Hypothesis memory : forall k, kmalloc k = true.
Hypothesis heap : forall n, malloc n = true.
Variable lock : string.

Definition lib_call (c : call) (p : proc F) : outcome (answer * proc F) :=
  match c with
  | Get n => '(t, p) ← Lib.nvram_get n p; Ret (Text t, p)
  | Set_ n v => '(ret, p) ← Lib.nvram_set n (Some v) p; Ret (Status (ret =? 0), p)
  | Unset n => '(ret, p) ← Lib.nvram_unset n p; Ret (Status (ret =? 0), p)
  end.
Definition vars_call (c : call) (s : vars) : answer * vars :=
  match c with
  | Get n => let '(t, s) := nvram_get n s in (Text (Some t), s)
  | Set_ n v => let '(b, s) := nvram_set (H := lib_driver lock) n v s in (Status b, s)
  | Unset n => (Status true, nvram_unset n s)
  end.

Fixpoint lib_run (l : list call) (p : proc F) : outcome (list answer * proc F) :=
  match l with
  | [] => Ret ([], p)
  | c :: l => '(a, p) ← lib_call c p; '(r, p) ← lib_run l p; Ret (a :: r, p)
  end.
Fixpoint vars_run (l : list call) (s : vars) : list answer * vars :=
  match l with
  | [] => ([], s)
  | c :: l => let '(a, s) := vars_call c s in let '(r, s) := vars_run l s in (a :: r, s)
  end.

(** Names and values that the library can hold; what is written has room and is
    neither mirrored nor the lock list. *)
Definition legal (c : call) (s : vars) : Prop :=
  match c with
  | Get n => nonul n = true /\ n <> "" /\ strlen n + 1 <= MAX_LEN
  | Set_ n v => ordinary n /\ nonul v = true /\ strlen v < MAX_LEN /\ fits (table s) v = true /\
                exists b, allows lock n = Ret b
  | Unset n => plain n = true
  end.
Fixpoint legal_run (l : list call) (s : vars) : Prop :=
  match l with [] => True | c :: l => legal c s /\ legal_run l (vars_call c s).2 end.

Lemma from_none p n : from p n = "" -> avoids p n = true.
Proof.
  induction n as [|c n IH]; [done|]. simpl. destruct (p c) eqn:Hc; [done|]. intros E. apply avoids_cons. auto.
Qed.

(** ** The simulation *)

Record sim (p : proc F) (s : vars) : Prop := {
  sim_table : rep (dev p) (table s);
  sim_open : opened p = true;
  sim_lock : lock_list p = lock;
  sim_buf : nvram_value p = holds (value_buf s);
  sim_values : map_Forall (fun _ v => strlen v < MAX_LEN) (table s)
}.

Lemma set_keeps n v (p p' : proc F) ret : opened p = true -> Lib._nvram_set n v p = Ret (ret, p') ->
  nvram_value p' = nvram_value p.
Proof.
  intros Ho. unfold Lib._nvram_set, ensure_open. rewrite Ho. cbn [mbind outcome_bind negb].
  destruct (_ && _); [by intros [= <- <-]|]. destruct (dev_nvram_write _ _) as [[r d]| | |]; cbn; try done.
  by intros [= <- <-].
Qed.

Lemma sim_get n p s : sim p s -> legal (Get n) s -> exists p', lib_call (Get n) p = Ret ((vars_call (Get n) s).1, p') /\
  sim p' (vars_call (Get n) s).2.
Proof.
  intros [Hr Ho Hl Hb Hv] (Hn & Hne & Hlen). unfold lib_call, vars_call, Lib.nvram_get, ensure_open, nvram_get.
  cbn [opened with_value]. rewrite Ho. cbn [mbind outcome_bind fst snd].
  destruct (get_value_ok memory n (with_value zeros p) (table s)) as (p' & -> & Hr' & Ho' & Hl' & _ & Hb');
    [done..|by intros v; apply Hv|].
  cbn [mbind outcome_bind]. exists p'. split; [done|]. constructor; cbn [table value_buf]; try done.
  - by rewrite Ho'.
  - by rewrite Hl'.
Qed.

Lemma sim_set n v p s : sim p s -> legal (Set_ n v) s ->
  exists p', lib_call (Set_ n v) p = Ret ((vars_call (Set_ n v) s).1, p') /\ sim p' (vars_call (Set_ n v) s).2.
Proof.
  intros [Hr Ho Hl Hb Hv] (Hn & Hnv & Hlen & Hf & b & Ha). unfold lib_call, vars_call, Lib.nvram_set, nvram_set.
  assert (may_set n (-1) p = Ret b) as Hm by (unfold may_set; rewrite Hl; exact Ha).
  cbn [unlocked room lib_driver]. rewrite Ha. destruct b.
  - pose proof (fits_roomy _ _ Hf) as Hroom.
    destruct (id_set_ok memory heap n v (-1) p (table s)) as (p' & E & Hr' & Ho' & Hl' & _); [done..|].
    rewrite E. cbn [mbind outcome_bind fst snd]. rewrite Hf. exists p'. split; [done|].
    assert (mirror (H := lib_driver lock) n v (put (H := lib_driver lock) n v (table s)) = <[n := v]> (table s)) as ->.
    { unfold put. cbn [room lib_driver]. rewrite Hf. destruct Hn as (_ & _ & _ & Hnc). unfold mirror.
      generalize (<[n := v]> (table s)) as t. revert Hnc. generalize nvram_converts as l.
      induction l as [|c l IH]; intros Hnc t; [done|]. cbn [foldl]. rewrite fmap_cons, not_elem_of_cons in Hnc.
      destruct Hnc as [Hc Hnc]. rewrite bool_decide_eq_false_2 by done. by apply IH. }
    constructor; cbn [table value_buf]; try done; [by rewrite Hl'| |by apply map_Forall_insert_2].
    revert E. unfold nvram_id_set. rewrite Hm. cbn [mbind outcome_bind negb].
    destruct (Lib._nvram_set n (Some v) p) as [[ret p1]| | |] eqn:Es; try done. cbn [mbind outcome_bind].
    destruct Hn as (_ & _ & Hnl & Hnc). rewrite set_converts_other by done. cbn [mbind outcome_bind].
    rewrite bool_decide_eq_false_2 by done. intros [= _ <-]. rewrite <- Hb. by apply (set_keeps n (Some v) p p1 ret).
  - unfold nvram_id_set. rewrite Hm. cbn [mbind outcome_bind negb fst snd]. by exists p.
Qed.

Lemma sim_unset n p s : sim p s -> legal (Unset n) s ->
  exists p', lib_call (Unset n) p = Ret ((vars_call (Unset n) s).1, p') /\ sim p' (vars_call (Unset n) s).2.
Proof.
  intros [Hr Ho Hl Hb Hv] Hn. cbn [legal] in Hn. pose proof (strlen_nonneg n) as Hlen.
  assert (exists s', dev_nvram_write (chars n ++ [NUL]) (dev p) = Ret (strlen n + 1, s') /\ rep s' (delete n (table s)))
    as (d & Ew & Hr').
  { unfold dev_nvram_write. assert (Z.of_nat (length (chars n ++ [NUL])) = strlen n + 1) as ->
      by (rewrite length_app, <- length_chars; simpl; lia).
    assert (exists s', dev_buffer (strlen n + 1) (dev p) = Some s' /\ rep s' (table s)) as (s' & -> & Hs').
    { unfold dev_buffer. rewrite memory. destruct (100 <? _); [|by exists (dev p)].
      eexists. split; [done|]. by apply rep_allocs. }
    rewrite chars_line by (by apply plain_nonul). cbn [deref mbind outcome_bind].
    destruct (unset_refines n s' (table s) Hs') as (s2 & E & Hr2 & _).
    unfold strsep. destruct (cut_none (is_char "=") n) as [-> ->]; [apply from_none; by apply andb_prop in Hn as [_ Hn%bool_decide_eq_true_1]|].
    unfold Drv.nvram_unset. rewrite E. by exists s2. }
  unfold lib_call, Lib.nvram_unset, Lib._nvram_set, ensure_open. rewrite Ho. cbn [mbind outcome_bind negb].
  rewrite heap, andb_false_r, Z.add_0_r, Ew. cbn [mbind outcome_bind]. unfold sys.
  destruct (Z.ltb_spec (strlen n + 1) 0); [lia|]. rewrite Z.eqb_refl. cbn [vars_call fst snd Z.eqb].
  eexists. split; [done|]. constructor; cbn [nvram_unset table value_buf with_dev dev opened lock_list nvram_value]; try done.
  by apply map_Forall_delete.
Qed.

Lemma sim_run l p s : sim p s -> legal_run l s ->
  exists p', lib_run l p = Ret ((vars_run l s).1, p') /\ sim p' (vars_run l s).2.
Proof.
  revert p s. induction l as [|c l IH]; intros p s Hs Hl; [by exists p|]. destruct Hl as [Hc Hl].
  assert (exists p1, lib_call c p = Ret ((vars_call c s).1, p1) /\ sim p1 (vars_call c s).2) as (p1 & E1 & Hs1)
    by (destruct c; [by apply sim_get|by apply sim_set|by apply sim_unset]).
  cbn [lib_run vars_run]. rewrite E1. cbn [mbind outcome_bind]. destruct (vars_call c s) as [a s1]. cbn [fst snd] in *.
  destruct (IH p1 s1 Hs1 Hl) as (p2 & E2 & Hs2). rewrite E2. cbn [mbind outcome_bind].
  destruct (vars_run l s1) as [r s2]. by exists p2.
Qed.
End Library.


(** C23. The library over the driver refines the variables: for a process with
    the device open and its lock list read, every sequence of reads, removals and
    writes of ordinary variables (none that the library mirrors to other names, and
    not lock_list) returns, each call gives what the table of variables gives (the
    value, or the name of a variable that is not defined; failure of a write the lock
    list forbids), and the static buffer of nvram_get holds the text that was read
    last. Names and values fit the buffers, the lock list can be read for the names,
    memory can be allocated and the arena has room for each value that is
    written. *)
Theorem library_refines_vars `{Kernel} `{User} {F : Type} `{Mtd F} (lock : string) (l : list call)
    (p : proc F) (s : vars) :
  (forall k, kmalloc k = true) -> (forall n, malloc n = true) -> sim lock p s -> legal_run lock l s ->
  exists p', lib_run l p = Ret ((vars_run lock l s).1, p') /\ sim lock p' (vars_run lock l s).2.
Proof. intros Hm Hh. by apply sim_run. Qed.

Definition demo_calls : list call :=
  [Get "lan_ipaddr"; Set_ "wan_proto" "pppoe"; Get "wan_proto"; Set_ "wan_mac" "00:01:02:03:04:05";
   Unset "wan_proto"; Get "wan_proto"].

Lemma library_refines_vars_witness : exists p',
  lib_run demo_calls DemoProc.p =
    Ret ([Text (Some (default "lan_ipaddr" (DemoNvram.vmap !! "lan_ipaddr"))); Status true; Text (Some "pppoe");
          Status false; Status true; Text (Some "wan_proto")], p').
Proof.
  destruct (library_refines_vars "wan_mac:7:12" demo_calls DemoProc.p (mk_vars DemoNvram.vmap "")) as (p' & E & _).
  - reflexivity.
  - reflexivity.
  - constructor; [exact DemoNvram.table_rep|done|done|by vm_compute|by apply (bool_decide_unpack _); vm_compute].
  - cbn [legal_run demo_calls legal]. split_and!; try done; try (by vm_compute);
      try (apply DemoProc.is_ordinary; by vm_compute); [by exists true|by exists false].
  - exists p'. exact E.
Defined.

End VarsProofs.
