(* ===== verification/TextProofs.v ===== *)
(** * Numbers and addresses as text

    What the C library prints it reads back: decimal numbers with anything that
    is no digit behind them, and dotted addresses. *)

From Stdlib Require Import ZArith Lia Ascii.
From stdpp Require Import base numbers sets gmap strings list.
From S2P Require Import Prelude CString.
Open Scope string_scope.
Open Scope Z_scope.
Open Scope list_scope.

(** ** Digits *)

Definition digit_char (d : Z) : ascii := chr (48 + d).

Lemma digit_cases d : 0 <= d < 10 ->
  digit_value (digit_char d) = Some d /\ isdigit (digit_char d) = true /\ code (digit_char d) = 48 + d /\
  isspace (digit_char d) = false.
Proof.
  intros Hd. assert (d = 0 \/ d = 1 \/ d = 2 \/ d = 3 \/ d = 4 \/ d = 5 \/ d = 6 \/ d = 7 \/ d = 8 \/ d = 9)
    as Hc by lia. repeat (destruct Hc as [->|Hc]; [done|]). by subst d.
Qed.

(** A text that no digit starts. *)
Definition no_digit (r : string) : Prop :=
  match r with EmptyString => True | String c _ => isdigit c = false end.

Lemma digits_stop r a : no_digit r -> (forall c, isdigit c = false -> match digit_value c with Some d => 10 <= d | None => True end) ->
  digits 10 r a = (a, r).
Proof.
  intros Hr Hd. destruct r as [|c r]; [done|]. simpl in *. specialize (Hd c Hr).
  destruct (digit_value c) as [d|]; [|done]. by rewrite (proj2 (Z.ltb_ge d 10)).
Qed.

Lemma letter_value c : isdigit c = false -> match digit_value c with Some d => 10 <= d | None => True end.
Proof. by destruct c as [[] [] [] [] [] [] [] []]; vm_compute. Qed.

Lemma dec_loop_app f : forall z acc, dec_loop f z acc = dec_loop f z "" +:+ acc.
Proof.
  induction f as [|f IH]; intros z acc; [done|]. cbn [dec_loop]. destruct (z <? 10); [done|].
  rewrite IH, (IH (z / 10) (String _ "")). by rewrite string_app_assoc.
Qed.

Lemma dec_loop_digits f : forall z acc, 0 <= z < 10 ^ Z.of_nat f ->
  exists k, 0 <= k /\ forall a, digits 10 (dec_loop f z acc) a = digits 10 acc (a * 10 ^ k + z).
Proof.
  induction f as [|f IH]; intros z acc Hz.
  { exists 0. split; [lia|]. intros a. simpl in *. f_equal. lia. }
  assert (0 <= z mod 10 < 10) as Hm by (apply Z.mod_pos_bound; lia).
  destruct (digit_cases (z mod 10) Hm) as (Hv & _ & _ & _).
  assert (forall x, digits 10 (String (chr (48 + z mod 10)) acc) x = digits 10 acc (x * 10 + z mod 10)) as Hone.
  { intros x. cbn [digits]. change (chr (48 + z mod 10)) with (digit_char (z mod 10)). rewrite Hv.
    destruct (Z.ltb_spec (z mod 10) 10); [done|lia]. }
  cbn [dec_loop]. destruct (Z.ltb_spec z 10).
  - exists 1. split; [lia|]. intros a. rewrite Hone, (Z.mod_small z), Z.pow_1_r by lia. done.
  - destruct (IH (z / 10) (String (chr (48 + z mod 10)) acc)) as (k & Hk & E).
    { rewrite Nat2Z.inj_succ, Z.pow_succ_r in Hz by lia. split; [apply Z.div_pos; lia|].
      apply Z.div_lt_upper_bound; lia. }
    exists (k + 1). split; [lia|]. intros a. rewrite E, Hone. f_equal.
    rewrite Z.pow_add_r by lia. pose proof (Z.div_mod z 10). lia.
Qed.

Lemma dec_loop_octet f : forall z acc, 0 <= z < 10 ^ Z.of_nat f ->
  exists k, 0 <= k /\ forall a, 0 <= a -> a * 10 ^ k + z <= 255 ->
    octet (dec_loop f z acc) a = octet acc (a * 10 ^ k + z).
Proof.
  induction f as [|f IH]; intros z acc Hz.
  { exists 0. split; [lia|]. intros a Ha _. simpl in *. f_equal. lia. }
  assert (0 <= z mod 10 < 10) as Hm by (apply Z.mod_pos_bound; lia).
  destruct (digit_cases (z mod 10) Hm) as (_ & Hd & Hc & _).
  assert (forall x, x * 10 + z mod 10 <= 255 ->
    octet (String (chr (48 + z mod 10)) acc) x = octet acc (x * 10 + z mod 10)) as Hone.
  { intros x Hx. cbn [octet]. change (chr (48 + z mod 10)) with (digit_char (z mod 10)). rewrite Hd, Hc.
    replace (48 + z mod 10 - 48) with (z mod 10) by lia. destruct (Z.ltb_spec 255 (x * 10 + z mod 10)); [lia|done]. }
  cbn [dec_loop]. destruct (Z.ltb_spec z 10).
  - exists 1. split; [lia|]. intros a Ha Hb. rewrite (Z.mod_small z 10) in Hone |- * by lia.
    rewrite Hone, Z.pow_1_r by lia. done.
  - destruct (IH (z / 10) (String (chr (48 + z mod 10)) acc)) as (k & Hk & E).
    { rewrite Nat2Z.inj_succ, Z.pow_succ_r in Hz by lia. split; [apply Z.div_pos; lia|].
      apply Z.div_lt_upper_bound; lia. }
    exists (k + 1). split; [lia|]. intros a Ha Hb. rewrite Z.pow_add_r, Z.pow_1_r in Hb |- * by lia.
    pose proof (Z.div_mod z 10 ltac:(lia)). assert (0 < 10 ^ k) by (apply Z.pow_pos_nonneg; lia).
    assert (0 <= a * 10 ^ k) by (apply Z.mul_nonneg_nonneg; lia).
    rewrite E by lia. rewrite Hone by lia. f_equal. lia.
Qed.

Lemma dec_avoids p z : (forall c, isdigit c = true -> p c = false) -> 0 <= z -> avoids p (dec z) = true.
Proof.
  intros Hp Hz. unfold dec. rewrite (proj2 (Z.ltb_ge z 0)) by lia.
  assert (forall f z acc, 0 <= z -> avoids p acc = true -> avoids p (dec_loop f z acc) = true) as H.
  { clear z Hz. induction f as [|f IH]; intros z acc Hz Ha; [done|]. cbn [dec_loop].
    assert (avoids p (String (chr (48 + z mod 10)) acc) = true) as Hs.
    { apply avoids_cons. split; [|done]. apply Hp. by destruct (digit_cases (z mod 10)) as (_ & ? & _);
        [apply Z.mod_pos_bound; lia|]. }
    destruct (z <? 10); [done|]. apply IH; [apply Z.div_pos; lia|done]. }
  by apply H.
Qed.

Lemma dec_head z : 0 <= z -> exists c t, dec z = String c t /\ isdigit c = true.
Proof.
  intros Hz. unfold dec. rewrite (proj2 (Z.ltb_ge z 0)) by lia.
  assert (forall f z acc, 0 <= z -> exists c t, dec_loop (S f) z acc = String c t /\ isdigit c = true) as H.
  { clear z Hz. induction f as [|f IH]; intros z acc Hz; cbn [dec_loop];
      (destruct (z <? 10); [eexists _, _; split; [done|]; by destruct (digit_cases (z mod 10)) as (_ & ? & _);
        [apply Z.mod_pos_bound; lia|]|]).
    - eexists _, _; split; [done|]. by destruct (digit_cases (z mod 10)) as (_ & ? & _); [apply Z.mod_pos_bound; lia|].
    - apply IH. apply Z.div_pos; lia. }
  by apply (H 11%nat).
Qed.

Lemma dec_length z : strlen (dec z) <= 13.
Proof.
  unfold dec. assert (forall f z acc, strlen (dec_loop f z acc) <= strlen acc + Z.of_nat f) as H.
  { clear z. induction f as [|f IH]; intros z acc; cbn [dec_loop]; [lia|].
    destruct (z <? 10); [rewrite strlen_cons; lia|]. specialize (IH (z / 10) (String (chr (48 + z mod 10)) acc)).
    rewrite strlen_cons in IH. lia. }
  destruct (z <? 0); [rewrite strlen_cons|]; specialize (H 12%nat); [specialize (H (- z) "")|specialize (H z "")];
    change (strlen "") with 0 in H; lia.
Qed.

(** ** Numbers *)

(** A text that starts with a digit is read from there. *)
Lemma strtoz_digits c t : isdigit c = true ->
  strtoz (String c t) 10 = let '(v, e) := digits 10 (String c t) 0 in (v, false, e).
Proof.
  intros Hc. assert (isspace c = false) as Hsp by (revert Hc; by destruct c as [[] [] [] [] [] [] [] []]).
  assert (has_digit 10 (String c t) = true) as Hh.
  { cbn [has_digit]. unfold digit_value. rewrite Hc. apply Z.ltb_lt. unfold isdigit, in_range in Hc.
    apply andb_prop in Hc as [_ Hc]. apply Z.leb_le in Hc. lia. }
  unfold strtoz. rewrite (skip_none isspace c _ Hsp).
  assert (sign (String c t) = (false, String c t)) as -> by (revert Hc; by destruct c as [[] [] [] [] [] [] [] []]).
  assert (base_prefix 10 (String c t) = (10, String c t)) as ->.
  { revert Hc; destruct c as [[] [] [] [] [] [] [] []]; try done; intros _. cbn [base_prefix]. by destruct t. }
  by rewrite Hh.
Qed.

Lemma strtoz_dec z r : 0 <= z < 10 ^ 12 -> no_digit r -> strtoz (dec z +:+ r) 10 = (z, false, r).
Proof.
  intros Hz Hr. assert (digits 10 (dec z +:+ r) 0 = (z, r)) as Hd.
  { unfold dec. rewrite (proj2 (Z.ltb_ge z 0)) by lia. rewrite <- dec_loop_app.
    destruct (dec_loop_digits 12 z r) as (k & _ & ->); [exact Hz|]. rewrite Z.mul_0_l, Z.add_0_l.
    apply digits_stop; [done|apply letter_value]. }
  destruct (dec_head z) as (c & t & E & Hc); [lia|]. rewrite E in *.
  change (String c t +:+ r) with (String c (t +:+ r)) in *. by rewrite strtoz_digits, Hd.
Qed.

Lemma strtol_dec z r : 0 <= z < 2 ^ 31 -> no_digit r -> strtol (dec z +:+ r) 10 = (z, r).
Proof.
  intros Hz Hr. unfold strtol. rewrite strtoz_dec by (lia || done).
  unfold LONG_MAX, LONG_MIN. rewrite (proj2 (Z.ltb_ge _ _)), (proj2 (Z.ltb_ge _ _)) by lia. done.
Qed.

Lemma string_app_nil_r s : s +:+ "" = s.
Proof.
  induction s as [|c s IH]; [done|]. change (String c s +:+ "") with (String c (s +:+ "")). by rewrite IH.
Qed.

Lemma atoi_dec z : 0 <= z < 2 ^ 31 -> atoi (dec z) = z.
Proof.
  intros Hz. unfold atoi. rewrite <- (string_app_nil_r (dec z)). by rewrite strtol_dec.
Qed.

Lemma dec_inj a b : 0 <= a < 2 ^ 31 -> 0 <= b < 2 ^ 31 -> dec a = dec b -> a = b.
Proof. intros Ha Hb E. rewrite <- (atoi_dec a Ha), <- (atoi_dec b Hb). by rewrite E. Qed.

(** ** Addresses *)

Lemma octet_dec z r : 0 <= z <= 255 -> no_digit r -> octet (dec z +:+ r) 0 = Some (z, r).
Proof.
  intros Hz Hr. unfold dec. rewrite (proj2 (Z.ltb_ge z 0)) by lia. rewrite <- dec_loop_app.
  destruct (dec_loop_octet 12 z r) as (k & _ & E); [change (10 ^ Z.of_nat 12) with 1000000000000; lia|].
  rewrite E by lia. rewrite Z.mul_0_l, Z.add_0_l.
  destruct r as [|c r]; [done|]. simpl in *. by rewrite Hr.
Qed.

Lemma aton_part n z r addr : 0 <= z <= 255 ->
  aton_parts (S n) (dec z +:+ String "." r) addr = aton_parts n r (addr * 256 + z).
Proof.
  intros Hz. pose proof (octet_dec z (String "." r) Hz eq_refl) as Ho.
  destruct (dec_head z) as (c & t & E & Hc); [lia|]. rewrite E in *.
  change (String c t +:+ String "." r) with (String c (t +:+ String "." r)) in *. cbn [aton_parts].
  by rewrite Hc, Ho.
Qed.

Lemma aton_last z addr : 0 <= z <= 255 -> aton_parts 0 (dec z) addr = Some (addr * 256 + z).
Proof.
  intros Hz. pose proof (octet_dec z "" Hz I) as Ho. rewrite string_app_nil_r in Ho.
  destruct (dec_head z) as (c & t & E & Hc); [lia|]. rewrite E in *. cbn [aton_parts]. by rewrite Hc, Ho.
Qed.

Lemma bytes_word a : is_u32 a -> word4 (byte_at a 0) (byte_at a 1) (byte_at a 2) (byte_at a 3) = a.
Proof.
  unfold is_u32, word4. intros Ha. rewrite !byte_at_div by lia. word_consts.
  Z.to_euclidean_division_equations; lia.
Qed.

Lemma inet_roundtrip a : is_u32 a -> inet_aton (inet_ntoa a) = Some a.
Proof.
  intros Ha. unfold inet_aton, inet_ntoa.
  assert (forall i, 0 <= byte_at a i <= 255) as Hb by (intros i; pose proof (byte_at_range a i); lia).
  do 3 (etrans; [apply f_equal; exact (aton_part _ _ _ _ (Hb _))|]).
  rewrite aton_last by done. cbn [fmap option_fmap option_map]. f_equal.
  transitivity (word4 (byte_at a 0) (byte_at a 1) (byte_at a 2) (byte_at a 3)); [|by apply bytes_word].
  unfold htonl, bswap32. generalize (Hb 0), (Hb 1), (Hb 2), (Hb 3).
  generalize (byte_at a 0), (byte_at a 1), (byte_at a 2), (byte_at a 3). intros b0 b1 b2 b3 H0 H1 H2 H3.
  replace ((((0 * 256 + b0) * 256 + b1) * 256 + b2) * 256 + b3) with (word4 b3 b2 b1 b0) by (unfold word4; lia).
  destruct (byte_at_word4 b3 b2 b1 b0) as (-> & -> & -> & ->); unfold is_u8; lia || done.
Qed.

Lemma scan_dotted_last z : 0 <= z < 2 ^ 31 -> scan_dotted 0 (dec z) = [z].
Proof.
  intros Hz. cbn [scan_dotted]. pose proof (strtol_dec z "" Hz I) as E. rewrite string_app_nil_r in E. rewrite E.
  destruct (dec_head z) as (c & t & -> & _); [lia|]. by rewrite bool_decide_eq_false_2.
Qed.

Lemma scan_dotted_part n z r : 0 <= z < 2 ^ 31 ->
  scan_dotted (S n) (dec z +:+ String "." r) = z :: scan_dotted n r.
Proof.
  intros Hz. cbn [scan_dotted]. rewrite (strtol_dec z (String "." r) Hz eq_refl).
  rewrite bool_decide_eq_false_2; [done|]. destruct (dec_head z) as (c & t & -> & _); [lia|].
  intros E%(f_equal String.length). rewrite slength_app in E. simpl in E. lia.
Qed.

Lemma scan_ntoa a : scan_dotted 3 (inet_ntoa a) = [byte_at a 0; byte_at a 1; byte_at a 2; byte_at a 3].
Proof.
  assert (forall i, 0 <= byte_at a i < 2 ^ 31) as Hb by (intros i; pose proof (byte_at_range a i); lia).
  unfold inet_ntoa. do 3 (etrans; [apply (scan_dotted_part _ _ _ (Hb _))|f_equal]).
  by apply scan_dotted_last.
Qed.

Lemma ntoa_avoids p a : (forall c, isdigit c = true -> p c = false) -> p "."%char = false ->
  avoids p (inet_ntoa a) = true.
Proof.
  intros Hp Hd. assert (forall i, 0 <= byte_at a i) as Hb by (intros i; pose proof (byte_at_range a i); lia).
  assert (avoids p "." = true) as Hdot by (by apply avoids_cons).
  unfold inet_ntoa. rewrite !avoids_app, !dec_avoids, Hdot by done. done.
Qed.

(** ** Texts that are addresses *)

Lemma octet_digits s : forall a v e, 0 <= a <= 255 -> octet s a = Some (v, e) ->
  digits 10 s a = (v, e) /\ 0 <= v <= 255 /\ no_digit e /\ (String.length e <= String.length s)%nat.
Proof.
  induction s as [|c s IH]; intros a v e Ha; cbn [octet]; [by intros [= <- <-]|].
  destruct (isdigit c) eqn:Hc.
  - destruct (Z.ltb_spec 255 (a * 10 + (code c - 48))) as [|Hle]; [done|]. intros Ho.
    assert (48 <= code c <= 57) as Hr.
    { unfold isdigit, in_range in Hc. apply andb_prop in Hc as [H1 H2]. apply Z.leb_le in H1, H2. lia. }
    destruct (IH (a * 10 + (code c - 48)) v e ltac:(lia) Ho) as (E & Hv & Hn & Hl). split; [|split; [done|split; [done|simpl; lia]]].
    cbn [digits]. unfold digit_value. rewrite Hc. destruct (Z.ltb_spec (code c - 48) 10); [exact E|lia].
  - intros [= <- <-]. split; [|done]. apply digits_stop; [done|apply letter_value].
Qed.

Lemma octet_scan c t v e : isdigit c = true -> octet (String c t) 0 = Some (v, e) ->
  strtol (String c t) 10 = (v, e) /\ e <> String c t /\ 0 <= v <= 255.
Proof.
  intros Hc Ho. destruct (octet_digits _ 0 v e ltac:(lia) Ho) as (E & Hv & Hn & _). split; [|split; [|done]].
  - unfold strtol. rewrite strtoz_digits, E by done. unfold LONG_MAX, LONG_MIN.
    destruct (Z.ltb_spec (2 ^ 31 - 1) v); [lia|]. destruct (Z.ltb_spec v (- 2 ^ 31)); [lia|done].
  - intros ->. simpl in Hn. congruence.
Qed.

(** What inet_aton accepts "%d.%d.%d.%d" reads, with the same numbers. *)
Lemma aton_scan n : forall s addr r, aton_parts n s addr = Some r ->
  length (scan_dotted n s) = S n /\ Forall (fun v => 0 <= v <= 255) (scan_dotted n s) /\
  r = foldl (fun a v => a * 256 + v) addr (scan_dotted n s).
Proof.
  induction n as [|n IH]; intros [|c t] addr r; try done; cbn [aton_parts];
    destruct (isdigit c) eqn:Hc; try done; destruct (octet (String c t) 0) as [[v e]|] eqn:Ho; try done;
    destruct (octet_scan c t v e Hc Ho) as (E & Hne & Hv); cbn [scan_dotted]; rewrite E, bool_decide_eq_false_2 by done.
  - intros Hr. assert (r = addr * 256 + v) as -> by (destruct e as [|d e]; [congruence|destruct (isspace d); congruence]).
    split; [done|]. split; [|done]. constructor; [exact Hv|]. by apply Forall_nil.
  - destruct e as [|d e]; [done|]. intros Hr. destruct d as [[] [] [] [] [] [] [] []]; try done.
    destruct (IH _ _ _ Hr) as (Hl & Hf & ->). split; [simpl; by rewrite Hl|]. split; [by constructor|done].
Qed.

(** ** Numbered names *)

Lemma prefix_inj p i j : 0 <= i < 2 ^ 31 -> 0 <= j < 2 ^ 31 -> p +:+ dec i = p +:+ dec j -> i = j.
Proof. intros Hi Hj E. apply dec_inj; [done..|]. induction p as [|c p IH]; [done|]. apply IH. by injection E. Qed.

Lemma substring_all t n : (String.length t <= n)%nat -> String.substring 0 n t = t.
Proof. apply (substring_rest "" t n). Qed.

Lemma substring_length n t : (String.length (String.substring 0 n t) <= n)%nat.
Proof. revert n. induction t as [|c t IH]; intros [|n]; simpl; try lia. specialize (IH n). lia. Qed.
(** Names that are all defined are at most as many as the keys. *)
Lemma defined_count {V} (name : Z -> string) i0 k (t : gmap string V) :
  (forall i j, i0 <= i < i0 + Z.of_nat k -> i0 <= j < i0 + Z.of_nat k -> name i = name j -> i = j) ->
  (forall j, i0 <= j < i0 + Z.of_nat k -> name j ∈ dom t) -> (k <= size t)%nat.
Proof.
  intros Hinj Hd. set (l := name <$> seqZ i0 (Z.of_nat k)).
  assert (NoDup l) as Hl.
  { apply NoDup_fmap_2_strong; [|apply NoDup_seqZ]. intros x y Hx%elem_of_seqZ Hy%elem_of_seqZ. by apply Hinj. }
  assert (list_to_set l ⊆ dom t) as Hsub.
  { intros n. rewrite elem_of_list_to_set. intros (j & -> & Hj%elem_of_seqZ)%list_elem_of_fmap. by apply Hd. }
  apply subseteq_size in Hsub. rewrite size_list_to_set, size_dom in Hsub by done.
  unfold l in Hsub. by rewrite length_fmap, length_seqZ, Nat2Z.id in Hsub.
Qed.
