(* ===== verification/Nvparse.v ===== *)
(** * Firewall rules in variables (src/router/shared/nvparse.c, netconf.h)

    [Module Nvparse]: three kinds of rules, each kept as text in a numbered
    variable: triggered port forwards (autofw_port), port forwards
    (forward_port) and client filters (filter_client), with the conversion of
    older forms at boot. Of the structures of netconf.h the records have the
    fields this code reads or writes. *)

From Stdlib Require Import ZArith Lia Ascii.
From stdpp Require Import base numbers sets gmap strings list.
From S2P Require Import Prelude CString Vars.
Import Vars.
Open Scope string_scope.
Open Scope Z_scope.
Open Scope list_scope.

Module Nvparse.

Definition IPPROTO_TCP : Z := 6.
Definition IPPROTO_UDP : Z := 17.
Definition NETCONF_DISABLED : Z := 0x80000000.

(** Addresses and ports are in network order. *)
Record netconf_match_t := Match {
  ipproto : Z;
  src_ipaddr : Z; src_netmask : Z;
  src_ports : Z * Z;
  dst_ports : Z * Z;
  in_name : string;
  flags : Z;
  days : Z * Z;
  secs : Z * Z
}.
Definition match0 : netconf_match_t := Match 0 0 0 (0, 0) (0, 0) "" 0 (0, 0) (0, 0).

Inductive netconf_target :=
  | NETCONF_DROP | NETCONF_ACCEPT | NETCONF_LOG_DROP | NETCONF_LOG_ACCEPT
  | NETCONF_SNAT | NETCONF_DNAT | NETCONF_MASQ | NETCONF_APP.

Record netconf_filter_t := Filter {
  f_match : netconf_match_t; f_target : netconf_target; f_desc : string
}.
Record netconf_nat_t := Nat {
  n_match : netconf_match_t; n_target : netconf_target; n_desc : string;
  ipaddr : Z; ports : Z * Z
}.
Record netconf_app_t := App {
  a_match : netconf_match_t; a_target : netconf_target; a_desc : string;
  proto : Z; dport : Z * Z; to : Z * Z
}.

(** ** Text *)

(** [strsep(&s, set)]: the token, and what follows the separator. *)
Definition strsep (s set : string) : string * option string :=
  (upto (one_of set) s,
   match from (one_of set) s with EmptyString => None | String _ t => Some t end).
Definition split (s set : string) : option (string * string) :=
  let '(a, b) := strsep s set in b ← b; Some (a, b).

(** A range, or a single value for both ends. *)
Definition range (s : string) : string * string :=
  let '(a, b) := strsep s "-" in (a, default a b).

(** [strncasecmp(s, word, 3)] for a word of three letters. *)
Definition is_word (word s : string) : bool :=
  bool_decide (map_string tolower (String.substring 0 3 s) = word).
Definition parse_proto (s : string) : option Z :=
  if is_word "tcp" s then Some IPPROTO_TCP
  else if is_word "udp" s then Some IPPROTO_UDP else None.
Definition parse_flags (enable : string) : Z := if is_word "off" enable then NETCONF_DISABLED else 0.
Definition parse_port (s : string) : Z := htons (u16 (atoi s)).
Definition parse_ports (r : string * string) : Z * Z := (parse_port r.1, parse_port r.2).
(** [desc] has 40 bytes, and a NUL pointer behind them. *)
Definition parse_desc (desc : option string) : string := String.substring 0 40 (default "" desc).
Definition IFNAMSIZ : nat := 16.

(** [safe_snprintf] of a text that is used as format. *)
Fixpoint format_text (t : string) : outcome string :=
  match t with
  | EmptyString => Ret EmptyString
  | String c t =>
      if is_char "%" c then
        match t with
        | String d t => if is_char "%" d then r ← format_text t; Ret (String c r) else Fault
        | EmptyString => Fault
        end
      else r ← format_text t; Ret (String c r)
  end.

Definition proto_text (p : Z) : string :=
  if p =? IPPROTO_TCP then "tcp" else if p =? IPPROTO_UDP then "udp" else "".
Definition ports_text (p : Z * Z) : string := dec (ntohs p.1) +:+ "-" +:+ dec (ntohs p.2).
Definition enable_text (flags : Z) : string :=
  if Z.land flags NETCONF_DISABLED =? 0 then "on" else "off".
Definition desc_text (desc : string) : outcome string :=
  if bool_decide (desc = "") then Ret "" else t ← format_text desc; Ret ("," +:+ t).

(** The rule with number [which], copied to 1000 bytes; [None] for an empty one. *)
Definition rule_value (name : string) (s : vars) : outcome (option string * vars) :=
  let '(used, s) := nvram_invmatch name "" s in
  if (used : bool) then
    let '(v, s) := nvram_get name s in
    if 1000 <=? strlen v then Fault else Ret (Some v, s)
  else Ret (None, s).

Section Rules.
Context `{Driver}.

(** [nvram_set] at the end of a setter: a text of 1000 bytes does not fit. *)
Definition store_rule (name text : string) (s : vars) : outcome (bool * vars) :=
  if 1000 <=? strlen text then Fault else Ret (nvram_set name text s).

(** ** Triggered forwards *)

Definition autofw_name (which : Z) : string := "autofw_port" +:+ dec which.

Definition valid_autofw_port (app : netconf_app_t) : bool :=
  let m := a_match app in
  ((ipproto m =? IPPROTO_TCP) || (ipproto m =? IPPROTO_UDP)) &&
  (ntohs (dst_ports m).1 <=? ntohs (dst_ports m).2) &&
  ((proto app =? IPPROTO_TCP) || (proto app =? IPPROTO_UDP)) &&
  (ntohs (dport app).1 <=? ntohs (dport app).2) &&
  (ntohs (to app).1 <=? ntohs (to app).2) &&
  (ntohs (dport app).2 - ntohs (dport app).1 =? ntohs (to app).2 - ntohs (to app).1).

(** The fields of out_proto:out_start-out_end,in_proto:in_start-in_end>to_start-to_end,enable,desc *)
Record autofw_fields := AutofwFields {
  out_proto : string; out_range : string; in_proto : string; in_range : string;
  to_range : string; enable : string; desc : option string
}.
Definition split_autofw (value : string) : option autofw_fields :=
  '(out_proto, out_start) ← split value ":";
  '(out_start, in_proto) ← split out_start ",";
  '(in_proto, in_start) ← split in_proto ":";
  '(in_start, to_start) ← split in_start ">";
  '(to_start, enable) ← split to_start ",";
  let '(enable, desc) := strsep enable "," in
  Some (AutofwFields out_proto out_start in_proto in_start to_start enable desc).

Definition autofw_of_fields (f : autofw_fields) (lan_ifname : string) : option netconf_app_t :=
  op ← parse_proto (out_proto f);
  ip ← parse_proto (in_proto f);
  Some (App (Match op 0 0 (0, htons 0xffff) (parse_ports (range (out_range f)))
               (String.substring 0 IFNAMSIZ lan_ifname) (parse_flags (enable f)) (0, 0) (0, 0))
          NETCONF_APP (parse_desc (desc f)) ip
          (parse_ports (range (in_range f))) (parse_ports (range (to_range f)))).

Definition get_autofw_port (which : Z) (s : vars) : outcome (option netconf_app_t * vars) :=
  '(v, s) ← rule_value (autofw_name which) s;
  match v ≫= split_autofw with
  | None => Ret (None, s)
  | Some f =>
      match autofw_of_fields f (peek "lan_ifname" s) with
      | None => Ret (None, s)
      | Some app =>
          let '(_, s) := nvram_get "lan_ifname" s in
          Ret (if valid_autofw_port app then Some app else None, s)
      end
  end.

Definition autofw_text (app : netconf_app_t) : outcome string :=
  d ← desc_text (a_desc app);
  Ret (proto_text (ipproto (a_match app)) +:+ ":" +:+ ports_text (dst_ports (a_match app)) +:+ "," +:+
       proto_text (proto app) +:+ ":" +:+ ports_text (dport app) +:+ ">" +:+ ports_text (to app) +:+ "," +:+
       enable_text (flags (a_match app)) +:+ d).

Definition set_autofw_port (which : Z) (app : netconf_app_t) (s : vars) : outcome (bool * vars) :=
  if valid_autofw_port app then
    text ← autofw_text app; store_rule (autofw_name which) text s
  else Ret (false, s).

(** Removing a variable succeeds with the device open. *)
Definition del_autofw_port (which : Z) (s : vars) : bool * vars := (true, nvram_unset (autofw_name which) s).

(** ** Port forwards *)

Definition forward_name (which : Z) : string := "forward_port" +:+ dec which.

Definition valid_forward_port (nat : netconf_nat_t) : bool :=
  let m := n_match nat in
  (ntohs (dst_ports m).1 <=? ntohs (dst_ports m).2) &&
  ((ipproto m =? IPPROTO_TCP) || (ipproto m =? IPPROTO_UDP)) &&
  negb (ipaddr nat =? htonl 0) &&
  (ntohs (ports nat).1 <=? ntohs (ports nat).2) &&
  (ntohs (dst_ports m).2 - ntohs (dst_ports m).1 =? ntohs (ports nat).2 - ntohs (ports nat).1).

(** wan_port0-wan_port1>lan_ipaddr:lan_port0-lan_port1[:,]proto[:,]enable[:,]desc *)
Record forward_fields := ForwardFields {
  wan_range : string; lan_ipaddr : string; lan_range : string; f_proto : string;
  f_enable : string; f_text : option string
}.
Definition split_forward (value : string) : option forward_fields :=
  '(wan_port0, lan_ipaddr) ← split value ">";
  '(lan_ipaddr, lan_port0) ← split lan_ipaddr ":";
  '(lan_port0, proto) ← split lan_port0 ":,";
  '(proto, enable) ← split proto ":,";
  let '(enable, desc) := strsep enable ":," in
  Some (ForwardFields wan_port0 lan_ipaddr lan_port0 proto enable desc).

(** [get_single_ip] and [get_complete_lan_ip] of utils.c. *)
Definition get_single_ip (a : string) (which : nat) : Z := nth which (scan_dotted 3 a) 0.
Definition get_complete_lan_ip (lan ip : string) : string :=
  match scan_dotted 3 lan with
  | [a; b; c; _] => String.substring 0 19 (dec a +:+ "." +:+ dec b +:+ "." +:+ dec c +:+ "." +:+ ip)
  | _ => "0.0.0.0"
  end.

(** Whether an address has the network of the router. *)
Definition same_lan (a lan : string) : bool :=
  (get_single_ip a 0 =? get_single_ip lan 0) && (get_single_ip a 1 =? get_single_ip lan 1) &&
  (get_single_ip a 2 =? get_single_ip lan 2).

(** The address of the rule follows the network of the router, and the variable
    is written again; a missing description is printed as "(null)". *)
Definition forward_address (name : string) (f : forward_fields) (s : vars) : Z * vars :=
  let '(lan, s) := nvram_get "lan_ipaddr" s in
  if same_lan (lan_ipaddr f) lan then (default 0 (inet_aton (lan_ipaddr f)), s)
  else
    let ip3 := String.substring 0 4 (dec (get_single_ip (lan_ipaddr f) 3)) in
    let ip := get_complete_lan_ip lan ip3 in
    let '(w0, w1) := range (wan_range f) in
    let '(l0, l1) := range (lan_range f) in
    let buf := w0 +:+ "-" +:+ w1 +:+ ">" +:+ ip +:+ ":" +:+ l0 +:+ "-" +:+ l1 +:+ "," +:+
               f_proto f +:+ "," +:+ f_enable f +:+ "," +:+ default "(null)" (f_text f) in
    let '(_, s) := nvram_set name (String.substring 0 253 buf) s in
    (default 0 (inet_aton ip), s).

Definition get_forward_port (which : Z) (s : vars) : outcome (option netconf_nat_t * vars) :=
  '(v, s) ← rule_value (forward_name which) s;
  match v ≫= split_forward with
  | None => Ret (None, s)
  | Some f =>
      let '(a, s) := forward_address (forward_name which) f s in
      match parse_proto (f_proto f) with
      | None => Ret (None, s)
      | Some p =>
          let nat := Nat (Match p 0 0 (0, htons 0xffff) (parse_ports (range (wan_range f))) ""
                            (parse_flags (f_enable f)) (0, 0) (0, 0))
                       NETCONF_DNAT (parse_desc (f_text f)) a (parse_ports (range (lan_range f))) in
          Ret (if valid_forward_port nat then Some nat else None, s)
      end
  end.

Definition forward_text (nat : netconf_nat_t) : outcome string :=
  d ← desc_text (n_desc nat);
  Ret (ports_text (dst_ports (n_match nat)) +:+ ">" +:+ inet_ntoa (ipaddr nat) +:+ ":" +:+
       ports_text (ports nat) +:+ "," +:+ proto_text (ipproto (n_match nat)) +:+ "," +:+
       enable_text (flags (n_match nat)) +:+ d).

Definition set_forward_port (which : Z) (nat : netconf_nat_t) (s : vars) : outcome (bool * vars) :=
  if valid_forward_port nat then
    text ← forward_text nat; store_rule (forward_name which) text s
  else Ret (false, s).

Definition del_forward_port (which : Z) (s : vars) : bool * vars := (true, nvram_unset (forward_name which) s).

(** ** Client filters *)

Definition filter_name (which : Z) : string := "filter_client" +:+ dec which.

(** Days and seconds are unsigned. *)
Definition valid_filter_client (start fin : netconf_filter_t) : bool :=
  let m := f_match start in
  let e := f_match fin in
  (if src_netmask m =? 0 then true
   else (src_netmask m =? htonl 0xffffffff) && (src_netmask m =? src_netmask e) &&
        (ntohl (src_ipaddr m) <=? ntohl (src_ipaddr e))) &&
  (ntohs (dst_ports m).1 <=? ntohs (dst_ports m).2) &&
  ((dst_ports m).1 =? (dst_ports e).1) && ((dst_ports m).2 =? (dst_ports e).2) &&
  ((ipproto m =? IPPROTO_TCP) || (ipproto m =? IPPROTO_UDP)) && (ipproto m =? ipproto e) &&
  ((days m).1 <=? 6) && ((days m).2 <=? 6) &&
  ((days m).1 =? (days e).1) && ((days m).2 =? (days e).2) &&
  ((secs m).1 <? 24 * 60 * 60) && ((secs m).2 <? 24 * 60 * 60) &&
  ((secs m).1 =? (secs e).1) && ((secs m).2 =? (secs e).2).

(** [lan_ipaddr0-lan_ipaddr1|*]:lan_port0-lan_port1,proto,day_start-day_end,sec_start-sec_end,enable,desc *)
Record filter_fields := FilterFields {
  c_range : string; c_ports : string; c_proto : string; c_days : string; c_secs : string;
  c_enable : string; c_desc : option string
}.
Definition split_filter (value : string) : option filter_fields :=
  '(lan_ipaddr0, lan_port0) ← split value ":";
  '(lan_port0, proto) ← split lan_port0 ",";
  '(proto, day_start) ← split proto ",";
  '(day_start, sec_start) ← split day_start ",";
  '(sec_start, enable) ← split sec_start ",";
  let '(enable, desc) := strsep enable "," in
  Some (FilterFields lan_ipaddr0 lan_port0 proto day_start sec_start enable desc).

Definition parse_uints (r : string * string) : Z * Z := (u32 (atoi r.1), u32 (atoi r.2)).

(** Both ends of the range of addresses, with the mask. *)
Definition parse_range (r : string) : Z * Z * Z :=
  let '(a, b) := range r in
  match a with
  | String "*" _ => (0, 0, 0)
  | _ => (default 0 (inet_aton a), default 0 (inet_aton b), htonl 0xffffffff)
  end.

(** The two structures differ in the address; the name of the interface and the
    target are set in the first one only. *)
Definition filter_of_fields (f : filter_fields) (lan_ifname : string)
    : option (netconf_filter_t * netconf_filter_t) :=
  let '(a, b, mask) := parse_range (c_range f) in
  p ← parse_proto (c_proto f);
  let rule addr ifname :=
    Filter (Match p addr mask (0, htons 0xffff) (parse_ports (range (c_ports f))) ifname
              (parse_flags (c_enable f)) (parse_uints (range (c_days f))) (parse_uints (range (c_secs f))))
      NETCONF_DROP (parse_desc (c_desc f)) in
  Some (rule a (String.substring 0 IFNAMSIZ lan_ifname), rule b "").

(** [alias]: both arguments are the same structure, which then has the second
    address. *)
Definition get_filter_client (alias : bool) (which : Z) (s : vars)
    : outcome (option (netconf_filter_t * netconf_filter_t) * vars) :=
  '(v, s) ← rule_value (filter_name which) s;
  match v ≫= split_filter with
  | None => Ret (None, s)
  | Some f =>
      match filter_of_fields f (peek "lan_ifname" s) with
      | None => Ret (None, s)
      | Some (a, b) =>
          let '(_, s) := nvram_get "lan_ifname" s in
          let r := if alias then (b, b) else (a, b) in
          Ret (if valid_filter_client r.1 r.2 then Some r else None, s)
      end
  end.

Definition uints_text (p : Z * Z) : string := dec (s32 p.1) +:+ "-" +:+ dec (s32 p.2).

Definition filter_text (start fin : netconf_filter_t) : outcome string :=
  let m := f_match start in
  let e := f_match fin in
  let addr := if (src_ipaddr m =? 0) && (src_ipaddr e =? 0) && (src_netmask m =? 0) && (src_netmask e =? 0)
              then "*" else inet_ntoa (src_ipaddr m) +:+ "-" +:+ inet_ntoa (src_ipaddr e) in
  d ← desc_text (f_desc start);
  Ret (addr +:+ ":" +:+ ports_text (dst_ports m) +:+ "," +:+ proto_text (ipproto m) +:+ "," +:+
       uints_text (days m) +:+ "," +:+ uints_text (secs m) +:+ "," +:+ enable_text (flags m) +:+ d).

Definition set_filter_client (which : Z) (start fin : netconf_filter_t) (s : vars) : outcome (bool * vars) :=
  if valid_filter_client start fin then
    text ← filter_text start fin; store_rule (filter_name which) text s
  else Ret (false, s).

Definition del_filter_client (which : Z) (s : vars) : bool * vars := (true, nvram_unset (filter_name which) s).

(** ** Conversion of older forms *)

(** [for (i = 0; get(i, &unused); i++)]: a rule that is found has a variable, so
    the search ends within the number of variables. *)
Section Search.
Context {R : Type} (get : Z -> vars -> outcome (option R * vars)).
Fixpoint first_unused (fuel : nat) (i : Z) (s : vars) : outcome (Z * vars) :=
  match fuel with
  | O => Running
  | S fuel =>
      '(r, s) ← get i s;
      match r with Some _ => first_unused fuel (i + 1) s | None => Ret (i, s) end
  end.
Definition search (i : Z) (s : vars) : outcome (Z * vars) := first_unused (S (size (table s))) i s.
End Search.

(** [assert(valid)]: the process, which is init, is aborted. *)
Definition SIGABRT_exit : Z := 134.
Definition assert_valid (r : bool * vars) : outcome vars :=
  if (r.1 : bool) then Ret r.2 else Exit SIGABRT_exit.

(** A word wan_port0-wan_port1>lan_ipaddr:lan_port0-lan_port1 *)
Definition parse_forward_word (ipproto : Z) (var : string) : option netconf_nat_t :=
  '(wan, lan_ipaddr) ← split var ">";
  '(lan_ipaddr, lan) ← split lan_ipaddr ":";
  Some (Nat (Match ipproto 0 0 (0, 0) (parse_ports (range wan)) "" 0 (0, 0) (0, 0)) NETCONF_DROP ""
          (default 0 (inet_aton lan_ipaddr)) (parse_ports (range lan))).

Definition convert_forward_proto (name : string) (ipproto : Z) (s : vars) : outcome vars :=
  '(_, s) ← foreach_var 1000 (fun var _ s =>
    match parse_forward_word ipproto var with
    | None => Ret (tt, s)
    | Some nat =>
        '(i, s) ← search get_forward_port 0 s;
        r ← set_forward_port i nat s;
        s ← assert_valid r; Ret (tt, s)
    end) name tt s;
  Ret (nvram_unset name s).

(** A filter in the first unused place. *)
Definition add_filter (i : Z) (start fin : netconf_filter_t) (s : vars) : outcome (Z * vars) :=
  '(i, s) ← search (get_filter_client true) i s;
  r ← set_filter_client i start fin s;
  s ← assert_valid r; Ret (i, s).

Definition plain_filter (p addr : Z) (ports : Z * Z) : netconf_filter_t :=
  Filter (Match p addr (htonl 0xffffffff) (0, 0) ports "" 0 (0, 0) (0, 0)) NETCONF_DROP "".

Definition convert_filter_ip (s : vars) : outcome vars :=
  '(_, s) ← foreach_var 1000 (fun var _ s =>
    match split var "-" with
    | None => Ret (tt, s)
    | Some (a, b) =>
        let a := default 0 (inet_aton a) in
        let b := default a (inet_aton b) in      (* [end] is a copy of [start] *)
        let rule p x := plain_filter p x (0, htons 0xffff) in
        '(i, s) ← add_filter 0 (rule IPPROTO_TCP a) (rule IPPROTO_TCP b) s;
        '(_, s) ← add_filter i (rule IPPROTO_UDP a) (rule IPPROTO_UDP b) s;
        Ret (tt, s)
    end) "filter_ip" tt s;
  Ret (nvram_unset "filter_ip" s).

(** [lan_ipaddr|*]:lan_port0-lan_port1 *)
Definition convert_filter_proto (name : string) (p : Z) (s : vars) : outcome vars :=
  '(_, s) ← foreach_var 1000 (fun var _ s =>
    match ('(a, ports) ← split var ":"; '(p0, p1) ← split ports "-"; Some (a, p0, p1)) with
    | None => Ret (tt, s)
    | Some (a, p0, p1) =>
        let rule := plain_filter p (default 0 (inet_aton a)) (parse_port p0, parse_port p1) in
        '(_, s) ← add_filter 0 rule rule s;
        Ret (tt, s)
    end) name tt s;
  Ret (nvram_unset name s).

(** The fields of a filter_port, each with a colon behind it but the last:
    id:active:flags:from_ip:to_ip:from_port:to_port:protocol:always:days and times. *)
Definition number (s : string) : Z := (strtoul s 0).1.
Definition colon (s : string) : option (string * string) :=
  match strchr s ":" with Some (String _ t) => Some (s, t) | _ => None end.

Definition parse_filter_port (value : string) (lan0 lan1 : Z) : option (netconf_filter_t * netconf_filter_t) :=
  '(_, value) ← colon value;
  '(active, value) ← colon value;
  '(_, value) ← colon value;
  '(from_ip, value) ← colon value;
  '(to_ip, value) ← colon value;
  '(from_port, value) ← colon value;
  '(to_port, value) ← colon value;
  '(protocol, value) ← colon value;
  '(always, value) ← colon value;
  let last lan n := htonl (u32 (Z.lor (Z.land (ntohl lan) (2 ^ 32 - 256)) (number n))) in
  let rule lan n ds ss :=
    Filter (Match (s32 (number protocol)) (last lan n) 0 (0, 0)
              (htons (u16 (number from_port)), htons (u16 (number to_port))) ""
              (if number active =? 0 then NETCONF_DISABLED else 0) ds ss) NETCONF_DROP "" in
  if number always =? 0 then
    '(d0, value) ← colon value;
    '(d1, value) ← colon value;
    '(s0, value) ← colon value;
    let ds := (number d0, number d1) in
    let ss := (number s0, number value) in
    Some (rule lan0 from_ip ds ss, rule lan1 to_ip ds ss)
  else Some (rule lan0 from_ip (0, 0) (0, 0), rule lan1 to_ip (0, 0) (0, 0)).

(** [value] points to the buffer of nvram_get, which the reading of lan_ipaddr
    fills again before the text is parsed. *)
Definition convert_filter_port1 (i : Z) (s : vars) : outcome vars :=
  let name := "filter_port" +:+ dec i in
  let '(v, s) := nvram_get name s in
  s ← (if bool_decide (v = "") then Ret s else
       let '(lan0, s) := nvram_get "lan_ipaddr" s in
       let '(lan1, s) := nvram_get "lan_ipaddr" s in
       match parse_filter_port (buf_at 0 s) (default 0 (inet_aton lan0)) (default 0 (inet_aton lan1)) with
       | None => Ret s
       | Some (a, b) => '(_, s) ← add_filter 0 a b s; Ret s
       end);
  Ret (nvram_unset name s).

Fixpoint convert_loop (f : Z -> vars -> outcome vars) (l : list Z) (s : vars) : outcome vars :=
  match l with
  | [] => Ret s
  | i :: l => s ← f i s; convert_loop f l s
  end.

Definition convert_filter_port (s : vars) : outcome vars :=
  s ← convert_loop convert_filter_port1 [1; 2; 3; 4; 5; 6] s;
  Ret (nvram_unset "filter_port" s).

Definition convert_maclist (prefix : string) (s : vars) : vars :=
  let '(value, s) := nvram_get (prefix +:+ "_mac") s in
  let '(_, s) := nvram_set (prefix +:+ "_maclist") value s in
  let s := if bool_decide (value = "") then (nvram_set (prefix +:+ "_macmode") "disabled" s).2 else s in
  nvram_unset (prefix +:+ "_mac") s.

(** A rule in the new form has a range of outbound ports and stays. *)
Definition convert_autofw1 (i : Z) (s : vars) : outcome vars :=
  let name := autofw_name i in
  '(v, s) ← rule_value name s;
  match v ≫= split_autofw with
  | None => Ret (nvram_unset name s)
  | Some f =>
      match (strsep (out_range f) "-").2 with
      | Some _ => Ret s
      | None =>
          match autofw_of_fields f (peek "lan_ifname" s) with
          | None => Ret (nvram_unset name s)
          | Some app =>
              let '(_, s) := nvram_get "lan_ifname" s in
              r ← set_autofw_port i app s;
              assert_valid r
          end
      end
  end.
Definition convert_autofw_port (s : vars) : outcome vars :=
  convert_loop convert_autofw1 [0; 1; 2; 3; 4; 5; 6; 7; 8; 9] s.

Definition pppoe_names : list string :=
  ["pppoe_ifname"; "pppoe_username"; "pppoe_passwd"; "pppoe_idletime"; "pppoe_keepalive";
   "pppoe_demand"; "pppoe_mru"; "pppoe_mtu"; "pppoe_service"; "pppoe_ac"].
Definition convert_pppoe (s : vars) : vars :=
  foldl (fun s old =>
    let '(value, s) := nvram_get old s in
    let '(_, s) := nvram_set ("wan_" +:+ old) value s in
    nvram_unset old s) s pppoe_names.

(** The texts of the two lists as they would be without a bound; the place for
    the next piece must be inside the 1000 bytes or at their end. *)
Definition add_route (cur piece : string) : outcome string :=
  if 1000 <? strlen cur then Fault
  else Ret (cur +:+ (if bool_decide (cur = "") then "" else " ") +:+ piece).

Definition split_route (word : string) : option (string * string) :=
  '(ip, mask) ← split word ":";
  '(mask, gw) ← split mask ":";
  '(gw, metric) ← split gw ":";
  '(metric, ifname) ← split metric ":";
  Some (ip +:+ ":" +:+ mask +:+ ":" +:+ gw +:+ ":" +:+ metric, ifname).

Definition convert_static_route (s : vars) : outcome vars :=
  '(routes, s) ← foreach_var 80 (fun word routes s =>
    let '(lan, wan) := routes in
    match split_route word with
    | None => Ret ((lan, wan), s)
    | Some (piece, ifname) =>
        if bool_decide (ifname = "lan") then lan ← add_route lan piece; Ret ((lan, wan), s)
        else if bool_decide (ifname = "wan") then wan ← add_route wan piece; Ret ((lan, wan), s)
        else Ret ((lan, wan), s)
    end) "static_route" ("", "") s;
  let '(lan, wan) := routes in
  let s := if bool_decide (lan = "") then s else (nvram_set "lan_route" (String.substring 0 999 lan) s).2 in
  let s := if bool_decide (wan = "") then s else (nvram_set "wan_route" (String.substring 0 999 wan) s).2 in
  Ret s.

Definition convert_pppoe_ifname (s : vars) : vars :=
  let '(used, s) := nvram_invmatch "pppoe_ifname" "" s in
  let s := if (used : bool) then
             let '(pppoe, s) := nvram_match "wan_proto" "pppoe" s in
             if (pppoe : bool) then
               let '(v, s) := nvram_get "pppoe_ifname" s in (nvram_set "wan_ifname" v s).2
             else s
           else s in
  nvram_unset "pppoe_ifname" s.

Definition convert_deprecated (s : vars) : outcome vars :=
  s ← convert_forward_proto "forward_tcp" IPPROTO_TCP s;
  s ← convert_forward_proto "forward_udp" IPPROTO_UDP s;
  s ← convert_filter_ip s;
  s ← convert_filter_proto "filter_tcp" IPPROTO_TCP s;
  s ← convert_filter_proto "filter_udp" IPPROTO_UDP s;
  s ← convert_filter_port s;
  let s := convert_maclist "wl" (convert_maclist "filter" s) in
  let s := convert_pppoe_ifname s in
  s ← convert_autofw_port s;
  convert_static_route (convert_pppoe s).
End Rules.

End Nvparse.
