(* ===== verification/NvparseProofs.v ===== *)
(** * Proofs about the firewall rules

    A rule that is stored is read back, whatever the description is; what cannot
    be a rule is neither stored nor returned; a forward follows the network of
    the router; and the search for a free number ends. *)

From Stdlib Require Import ZArith Lia Ascii.
From stdpp Require Import base numbers sets gmap strings list.
From S2P Require Import Prelude CString NvramDrv Nvram Vars TextProofs Nvparse.
Import Vars Nvparse.
Open Scope string_scope.
Open Scope Z_scope.
Open Scope list_scope.

Module NvparseProofs.

(** ** Fields of a text *)

(** The characters of the fields, none of which separates them. *)
Definition plain (c : ascii) : bool := isdigit c || one_of "*-.tcpudonf" c.
Definition plain_text (t : string) : bool := avoids (fun c => negb (plain c)) t.
Definition separates (set : string) : Prop := forall c, plain c = true -> one_of set c = false.

Lemma separates_colon : separates ":".
Proof. intros c. by destruct c as [[] [] [] [] [] [] [] []]. Qed.
Lemma separates_comma : separates ",".
Proof. intros c. by destruct c as [[] [] [] [] [] [] [] []]. Qed.
Lemma separates_to : separates ">".
Proof. intros c. by destruct c as [[] [] [] [] [] [] [] []]. Qed.
Lemma separates_either : separates ":,".
Proof. intros c. by destruct c as [[] [] [] [] [] [] [] []]. Qed.

Lemma plain_avoids set t : separates set -> plain_text t = true -> avoids (one_of set) t = true.
Proof.
  intros Hs. unfold plain_text. induction t as [|c t IH]; [done|]. rewrite !avoids_cons.
  intros [Hc Ht]. apply negb_false_iff in Hc. split; [by apply Hs|by apply IH].
Qed.

Lemma plain_app a b : plain_text a = true -> plain_text b = true -> plain_text (a +:+ b) = true.
Proof. unfold plain_text. intros Ha Hb. by rewrite avoids_app, Ha, Hb. Qed.

Lemma plain_dec z : 0 <= z -> plain_text (dec z) = true.
Proof. apply dec_avoids. intros c Hc. unfold plain. by rewrite Hc. Qed.

Lemma ntohs_range p : 0 <= ntohs p < 2 ^ 16.
Proof.
  unfold ntohs, htons. pose proof (byte_at_range p 0) as H0. pose proof (byte_at_range p 1) as H1.
  unfold is_u8 in *. lia.
Qed.

Lemma plain_ports p : plain_text (ports_text p) = true.
Proof.
  unfold ports_text. pose proof (ntohs_range p.1). pose proof (ntohs_range p.2).
  apply plain_app; [|apply plain_app]; done || (apply plain_dec; lia).
Qed.
Lemma plain_proto p : plain_text (proto_text p) = true.
Proof. unfold proto_text. by repeat case_match. Qed.
Lemma plain_enable f : plain_text (enable_text f) = true.
Proof. unfold enable_text. by case_match. Qed.
Lemma plain_ntoa a : plain_text (inet_ntoa a) = true.
Proof. apply ntoa_avoids; [|done]. intros c Hc. unfold plain. by rewrite Hc. Qed.

Create HintDb fields.
#[export] Hint Resolve separates_colon separates_comma separates_to separates_either plain_app
  plain_ports plain_proto plain_enable plain_ntoa plain_avoids : fields.

Lemma strsep_at a c r set : avoids (one_of set) a = true -> one_of set c = true ->
  strsep (a +:+ String c "" +:+ r) set = (a, Some r).
Proof.
  intros Ha Hc. unfold strsep. change (String c "" +:+ r) with (String c r).
  by destruct (cut_at (one_of set) a c r Ha Hc) as [-> ->].
Qed.
Lemma strsep_none a set : avoids (one_of set) a = true -> strsep a set = (a, None).
Proof. intros Ha. unfold strsep. by destruct (cut_none _ _ Ha) as [-> ->]. Qed.
Lemma split_at a c r set : avoids (one_of set) a = true -> one_of set c = true ->
  split (a +:+ String c "" +:+ r) set = Some (a, r).
Proof. intros Ha Hc. unfold split. by rewrite strsep_at. Qed.

(** ** Values *)

Lemma htons_htons p : is_u16 p -> htons (htons p) = p.
Proof.
  unfold is_u16, htons. intros Hp. rewrite !byte_at_div by lia. word_consts.
  Z.to_euclidean_division_equations; lia.
Qed.

Lemma parse_port_dec p : is_u16 p -> parse_port (dec (ntohs p)) = p.
Proof.
  intros Hp. unfold parse_port. pose proof (ntohs_range p) as Hr. rewrite atoi_dec by lia.
  unfold u16. rewrite Z.mod_small by done. by apply htons_htons.
Qed.

Definition is_ports (p : Z * Z) : Prop := is_u16 p.1 /\ is_u16 p.2.

Lemma range_at a b : avoids (one_of "-") a = true -> range (a +:+ "-" +:+ b) = (a, b).
Proof. intros Ha. unfold range. by rewrite (strsep_at a "-" b "-"). Qed.
Lemma dec_dash z : 0 <= z -> avoids (one_of "-") (dec z) = true.
Proof. apply dec_avoids. intros c. by destruct c as [[] [] [] [] [] [] [] []]. Qed.

Lemma parse_ports_text p : is_ports p -> parse_ports (range (ports_text p)) = p.
Proof.
  intros [H1 H2]. unfold ports_text. pose proof (ntohs_range p.1).
  rewrite range_at by (apply dec_dash; lia). unfold parse_ports. cbn [fst snd]. rewrite !parse_port_dec by done. by destruct p.
Qed.

Definition is_proto (p : Z) : bool := (p =? IPPROTO_TCP) || (p =? IPPROTO_UDP).
Lemma parse_proto_text p : is_proto p = true -> parse_proto (proto_text p) = Some p.
Proof. unfold is_proto. intros [->%Z.eqb_eq| ->%Z.eqb_eq]%orb_prop; done. Qed.

(** Of the flags only the one that disables a rule is kept. *)
Definition kept_flags (f : Z) : Z := if Z.land f NETCONF_DISABLED =? 0 then 0 else NETCONF_DISABLED.
Lemma parse_enable_text f : parse_flags (enable_text f) = kept_flags f.
Proof. unfold enable_text, kept_flags. by case_match. Qed.

(** A description: 40 bytes, and no conversion in it. *)
Definition is_desc (d : string) : Prop := (String.length d <= 40)%nat /\ avoids (is_char "%") d = true.
Definition desc_part (d : string) : string := if bool_decide (d = "") then "" else "," +:+ d.

Lemma format_text_plain t : avoids (is_char "%") t = true -> format_text t = Ret t.
Proof.
  induction t as [|c t IH]; [done|]. intros [Hc Ht]%avoids_cons. cbn [format_text]. rewrite Hc. by rewrite IH.
Qed.
Lemma desc_text_plain d : is_desc d -> desc_text d = Ret (desc_part d).
Proof. intros [_ Hd]. unfold desc_text, desc_part. case_bool_decide; [done|]. by rewrite format_text_plain. Qed.

(** The last two fields: the description may hold separators. *)
Lemma strsep_enable set f d : separates set -> one_of set "," = true -> is_desc d ->
  exists o, strsep (enable_text f +:+ desc_part d) set = (enable_text f, o) /\ parse_desc o = d.
Proof.
  intros Hs Hc [Hl _]. unfold desc_part. case_bool_decide as Hd.
  - subst d. exists None. rewrite string_app_nil_r. split; [|done]. apply strsep_none. auto with fields.
  - exists (Some d). rewrite (strsep_at _ "," d) by auto with fields. split; [done|]. by apply substring_all.
Qed.

(** ** Storing *)

Section Storing.
Context `{Driver}.

(** The process may change the variable and the driver has room for a rule. *)
Definition storable (n : string) (s : vars) : Prop :=
  unlocked (table s) n = true /\ forall v, strlen v < 1000 -> room (table s) n v = true.

(** No other name is kept for the variable. *)
Definition unmirrored (n : string) : Prop := Forall (fun c => Lib.cname c <> n) Lib.nvram_converts.

Lemma mirror_none n v t : unmirrored n -> mirror n v t = t.
Proof.
  unfold unmirrored, mirror. generalize Lib.nvram_converts. intros l Hl. induction Hl as [|c l Hc Hl IH]; [done|].
  cbn [foldl]. by rewrite bool_decide_eq_false_2.
Qed.

Lemma store_rule_ok n text s : unmirrored n -> storable n s -> strlen text < 1000 ->
  store_rule n text s = Ret (true, mk_vars (<[n := text]> (table s)) (value_buf s)).
Proof.
  intros Hu [Hl Hr] Ht. unfold store_rule. rewrite (proj2 (Z.leb_gt _ _)) by lia.
  unfold nvram_set, put. rewrite Hl, (Hr text Ht). by rewrite mirror_none.
Qed.

Lemma rule_value_used n text s : table s !! n = Some text -> text <> "" -> strlen text < 1000 ->
  rule_value n s = Ret (Some text, mk_vars (table s) text).
Proof.
  intros E Ht Hl. unfold rule_value, nvram_invmatch, nvram_get, peek. cbn [table]. rewrite E.
  cbn [default from_option id]. rewrite bool_decide_eq_false_2 by done. cbn [negb].
  by rewrite (proj2 (Z.leb_gt _ _)) by lia.
Qed.

(** Reading what was stored. *)
Lemma rule_value_stored n text s : text <> "" -> strlen text < 1000 ->
  rule_value n (mk_vars (<[n := text]> (table s)) (value_buf s)) =
  Ret (Some text, mk_vars (<[n := text]> (table s)) text).
Proof. intros Ht Hl. rewrite (rule_value_used n text); [done| |done|done]. apply lookup_insert_eq. Qed.

Lemma autofw_unmirrored i : unmirrored (autofw_name i).
Proof. unfold unmirrored, autofw_name, Lib.nvram_converts. by repeat constructor. Qed.
Lemma forward_unmirrored i : unmirrored (forward_name i).
Proof. unfold unmirrored, forward_name, Lib.nvram_converts. by repeat constructor. Qed.
Lemma filter_unmirrored i : unmirrored (filter_name i).
Proof. unfold unmirrored, filter_name, Lib.nvram_converts. by repeat constructor. Qed.

(** ** Triggered forwards *)

Definition is_app (app : netconf_app_t) : Prop :=
  is_ports (dst_ports (a_match app)) /\ is_ports (dport app) /\ is_ports (to app) /\ is_desc (a_desc app).

(** What is kept of a rule; the interface is the one of the LAN. *)
Definition kept_app (lan_ifname : string) (app : netconf_app_t) : netconf_app_t :=
  App (Match (ipproto (a_match app)) 0 0 (0, htons 0xffff) (dst_ports (a_match app))
         (String.substring 0 IFNAMSIZ lan_ifname) (kept_flags (flags (a_match app))) (0, 0) (0, 0))
    NETCONF_APP (a_desc app) (proto app) (dport app) (to app).

Lemma text_lengths p f x : strlen (proto_text p) <= 3 /\ strlen (enable_text f) <= 3 /\ strlen (ports_text x) <= 27.
Proof.
  unfold ports_text. rewrite !strlen_app. pose proof (dec_length (ntohs x.1)). pose proof (dec_length (ntohs x.2)).
  change (strlen "-") with 1. unfold proto_text, enable_text. repeat split; [repeat case_match; by vm_compute|case_match; by vm_compute|lia].
Qed.

Lemma desc_part_length d : is_desc d -> strlen (desc_part d) <= 41.
Proof.
  intros [Hd _]. unfold desc_part. case_bool_decide; [by vm_compute|]. rewrite strlen_app.
  change (strlen ",") with 1. unfold strlen. lia.
Qed.

Lemma autofw_text_read lan app : is_app app -> valid_autofw_port app = true ->
  exists text f, autofw_text app = Ret text /\ text <> "" /\ strlen text < 1000 /\
    split_autofw text = Some f /\ autofw_of_fields f lan = Some (kept_app lan app).
Proof.
  intros (H1 & H2 & H3 & Hd) Hv. unfold valid_autofw_port in Hv. rewrite !andb_true_iff in Hv.
  destruct Hv as (((((Ho & _) & Hi) & _) & _) & _). unfold autofw_text. rewrite (desc_text_plain _ Hd). cbn [mbind outcome_bind].
  destruct (strsep_enable "," (flags (a_match app)) (a_desc app)) as (o & Es & Eo); [auto with fields..|].
  eexists _, _. split; [done|]. split; [|split; [|split]].
  - intros E%(f_equal strlen). rewrite !strlen_app in E. change (strlen ":") with 1 in E. change (strlen "") with 0 in E.
    unfold strlen in E. lia.
  - rewrite !strlen_app. pose proof (desc_part_length _ Hd).
    pose proof (text_lengths (ipproto (a_match app)) (flags (a_match app)) (dst_ports (a_match app))).
    pose proof (text_lengths (proto app) 0 (dport app)). pose proof (text_lengths 0 0 (to app)).
    change (strlen ":") with 1. change (strlen ",") with 1. change (strlen ">") with 1. lia.
  - unfold split_autofw. rewrite !split_at by auto with fields. cbn [mbind option_bind].
    repeat (rewrite split_at by auto with fields; cbn [mbind option_bind]). rewrite Es. done.
  - unfold autofw_of_fields. cbn [out_proto in_proto out_range in_range to_range enable desc].
    rewrite !parse_proto_text, Eo by done. cbn [mbind option_bind].
    by rewrite !parse_ports_text, parse_enable_text by done.
Qed.

(** ** Port forwards *)

Definition is_nat (nat : netconf_nat_t) : Prop :=
  is_ports (dst_ports (n_match nat)) /\ is_ports (ports nat) /\ is_u32 (ipaddr nat) /\ is_desc (n_desc nat).

Definition kept_nat (nat : netconf_nat_t) : netconf_nat_t :=
  Nat (Match (ipproto (n_match nat)) 0 0 (0, htons 0xffff) (dst_ports (n_match nat)) ""
         (kept_flags (flags (n_match nat))) (0, 0) (0, 0))
    NETCONF_DNAT (n_desc nat) (ipaddr nat) (ports nat).

Lemma byte_text_length z : 0 <= z <= 255 -> strlen (dec z) <= 3.
Proof.
  intros Hz. unfold dec. rewrite (proj2 (Z.ltb_ge z 0)) by lia. cbn [dec_loop].
  destruct (z <? 10); [by vm_compute|]. destruct (Z.ltb_spec (z / 10) 10); [by vm_compute|].
  rewrite (proj2 (Z.ltb_lt (z / 10 / 10) 10)); [by vm_compute|]. Z.to_euclidean_division_equations; lia.
Qed.

Lemma ntoa_length a : strlen (inet_ntoa a) <= 15.
Proof.
  assert (forall i, 0 <= byte_at a i <= 255) as Hb by (intros i; pose proof (byte_at_range a i); lia).
  unfold inet_ntoa. rewrite !strlen_app. change (strlen ".") with 1.
  pose proof (byte_text_length _ (Hb 0)). pose proof (byte_text_length _ (Hb 1)).
  pose proof (byte_text_length _ (Hb 2)). pose proof (byte_text_length _ (Hb 3)). lia.
Qed.

Definition nat_fields (nat : netconf_nat_t) (o : option string) : forward_fields :=
  ForwardFields (ports_text (dst_ports (n_match nat))) (inet_ntoa (ipaddr nat)) (ports_text (ports nat))
    (proto_text (ipproto (n_match nat))) (enable_text (flags (n_match nat))) o.

Lemma nonempty_length t : 0 < strlen t -> t <> "".
Proof. by intros Ht ->. Qed.

Lemma forward_text_read nat : is_nat nat ->
  exists text o, forward_text nat = Ret text /\ text <> "" /\ strlen text < 254 /\
    split_forward text = Some (nat_fields nat o) /\ parse_desc o = n_desc nat /\
    (n_desc nat <> "" -> o = Some (n_desc nat)).
Proof.
  intros (H1 & H2 & Ha & Hd). unfold forward_text. rewrite (desc_text_plain _ Hd). cbn [mbind outcome_bind].
  destruct (strsep_enable ":," (flags (n_match nat)) (n_desc nat)) as (o & Es & Eo); [auto with fields..|].
  eexists _, o. split; [done|]. split; [|split; [|split; [|split; [done|]]]].
  - apply nonempty_length. rewrite !strlen_app. change (strlen ">") with 1. unfold strlen. lia.
  - rewrite !strlen_app. pose proof (desc_part_length _ Hd). pose proof (ntoa_length (ipaddr nat)).
    pose proof (text_lengths (ipproto (n_match nat)) (flags (n_match nat)) (dst_ports (n_match nat))).
    pose proof (text_lengths 0 0 (ports nat)).
    change (strlen ":") with 1. change (strlen ",") with 1. change (strlen ">") with 1. lia.
  - unfold split_forward. repeat (rewrite split_at by auto with fields; cbn [mbind option_bind]). by rewrite Es.
  - intros Hne. revert Es. unfold desc_part. rewrite bool_decide_eq_false_2 by done.
    rewrite (strsep_at _ "," (n_desc nat)) by auto with fields. by intros [= <-].
Qed.

(** The record that is built from the fields, with the address [a]. *)
Definition with_address (a : Z) (nat : netconf_nat_t) : netconf_nat_t :=
  Nat (n_match nat) (n_target nat) (n_desc nat) a (ports nat).

Lemma get_forward_fields which nat o a s s1 s2 v :
  is_nat nat -> valid_forward_port (with_address a nat) = true -> parse_desc o = n_desc nat ->
  rule_value (forward_name which) s = Ret (Some v, s1) -> split_forward v = Some (nat_fields nat o) ->
  forward_address (forward_name which) (nat_fields nat o) s1 = (a, s2) ->
  get_forward_port which s = Ret (Some (with_address a (kept_nat nat)), s2).
Proof.
  intros (H1 & H2 & _ & _) Hv Ho Er Es Ea. unfold get_forward_port. rewrite Er. cbn [mbind outcome_bind option_bind].
  rewrite Es, Ea. cbn [nat_fields f_proto f_enable f_text wan_range lan_range].
  assert (is_proto (ipproto (n_match nat)) = true) as Hp.
  { unfold valid_forward_port in Hv. cbn in Hv. rewrite !andb_true_iff in Hv. apply Hv. }
  rewrite (parse_proto_text _ Hp), parse_enable_text, !parse_ports_text, Ho by done.
  unfold with_address, kept_nat. cbn [n_match n_target n_desc ports]. 
  unfold with_address in Hv. unfold valid_forward_port in *. cbn [n_match ipproto dst_ports ipaddr ports] in *.
  by rewrite Hv.
Qed.

(** The address with the network of the router. *)
Definition moved (lan a : Z) : Z := word4 (byte_at lan 0) (byte_at lan 1) (byte_at lan 2) (byte_at a 3).

Lemma moved_bytes lan a : byte_at (moved lan a) 0 = byte_at lan 0 /\ byte_at (moved lan a) 1 = byte_at lan 1 /\
  byte_at (moved lan a) 2 = byte_at lan 2 /\ byte_at (moved lan a) 3 = byte_at a 3.
Proof. apply byte_at_word4; apply byte_at_range. Qed.

Lemma moved_twice lan a : moved lan (moved lan a) = moved lan a.
Proof. unfold moved at 1. destruct (moved_bytes lan a) as (_ & _ & _ & ->). done. Qed.

Lemma moved_u32 lan a : is_u32 (moved lan a).
Proof.
  unfold moved, word4, is_u32. pose proof (byte_at_range lan 0). pose proof (byte_at_range lan 1).
  pose proof (byte_at_range lan 2). pose proof (byte_at_range a 3). unfold is_u8 in *. lia.
Qed.

Lemma same_lan_ntoa a lan : same_lan (inet_ntoa a) (inet_ntoa lan) =
  (byte_at a 0 =? byte_at lan 0) && (byte_at a 1 =? byte_at lan 1) && (byte_at a 2 =? byte_at lan 2).
Proof. unfold same_lan, get_single_ip. by rewrite !scan_ntoa. Qed.

Lemma moved_same a lan : is_u32 a -> same_lan (inet_ntoa a) (inet_ntoa lan) = true -> moved lan a = a.
Proof.
  intros Ha. rewrite same_lan_ntoa, !andb_true_iff, !Z.eqb_eq. intros [[E0 E1] E2]. unfold moved.
  rewrite <- E0, <- E1, <- E2. by apply bytes_word.
Qed.

Lemma complete_ntoa lan a :
  get_complete_lan_ip (inet_ntoa lan) (String.substring 0 4 (dec (get_single_ip (inet_ntoa a) 3))) =
  inet_ntoa (moved lan a).
Proof.
  unfold get_complete_lan_ip, get_single_ip. rewrite !scan_ntoa. cbn [nth].
  assert (0 <= byte_at a 3 <= 255) as Hb by (pose proof (byte_at_range a 3); lia).
  pose proof (byte_text_length _ Hb) as Hl. rewrite (substring_all (dec _)) by (unfold strlen in Hl; lia).
  destruct (moved_bytes lan a) as (E0 & E1 & E2 & E3). rewrite <- E0, <- E1, <- E2, <- E3.
  apply (substring_all (inet_ntoa (moved lan a))). pose proof (ntoa_length (moved lan a)) as Hn.
  unfold strlen in Hn. lia.
Qed.

Lemma nvram_set_effect n v s : unmirrored n ->
  table (nvram_set n v s).2 = table s \/ table (nvram_set n v s).2 = <[n := v]> (table s).
Proof.
  intros Hu. unfold nvram_set. destruct (unlocked _ _); [|by left]. cbn [snd table]. rewrite (mirror_none _ _ _ Hu).
  unfold put. destruct (room _ _ _); auto.
Qed.

Lemma is_nat_moved nat lan : is_nat nat -> is_nat (with_address (moved lan (ipaddr nat)) nat).
Proof. intros (H1 & H2 & H3 & H4). repeat split; try apply H1; try apply H2; try apply H4; apply moved_u32. Qed.

(** The text that is written when the network has changed. *)
Lemma moved_text nat lan : is_nat nat -> n_desc nat <> "" ->
  let '(w0, w1) := range (ports_text (dst_ports (n_match nat))) in
  let '(l0, l1) := range (ports_text (ports nat)) in
  forward_text (with_address (moved lan (ipaddr nat)) nat) =
  Ret (String.substring 0 253 (w0 +:+ "-" +:+ w1 +:+ ">" +:+ inet_ntoa (moved lan (ipaddr nat)) +:+ ":" +:+
    l0 +:+ "-" +:+ l1 +:+ "," +:+ proto_text (ipproto (n_match nat)) +:+ "," +:+
    enable_text (flags (n_match nat)) +:+ "," +:+ n_desc nat)).
Proof.
  intros Hn Hd. destruct (forward_text_read _ (is_nat_moved nat lan Hn)) as (text & o & Et & _ & Hl & _).
  pose proof (ntohs_range (dst_ports (n_match nat)).1). pose proof (ntohs_range (ports nat).1).
  unfold ports_text at 1 2. rewrite !range_at by (apply dec_dash; lia).
  rewrite Et. f_equal. revert Et. destruct Hn as (_ & _ & _ & Hdesc).
  unfold forward_text, with_address. cbn [n_match n_desc ipaddr ports]. rewrite (desc_text_plain _ Hdesc).
  cbn [mbind outcome_bind]. unfold desc_part, ports_text. rewrite bool_decide_eq_false_2 by done.
  rewrite !string_app_assoc. intros [= <-]. symmetry. apply substring_all. unfold strlen in Hl. lia.
Qed.

Lemma forward_address_moved n nat o lan s :
  unmirrored n -> is_nat nat -> table s !! "lan_ipaddr" = Some (inet_ntoa lan) ->
  exists s', forward_address n (nat_fields nat o) s = (moved lan (ipaddr nat), s') /\
    (same_lan (inet_ntoa (ipaddr nat)) (inet_ntoa lan) = true -> table s' = table s) /\
    (table s' = table s \/ exists text, table s' = <[n := text]> (table s) /\
       (n_desc nat <> "" -> o = Some (n_desc nat) ->
        forward_text (with_address (moved lan (ipaddr nat)) nat) = Ret text)).
Proof.
  intros Hu Hn Hlan. unfold forward_address, nvram_get, peek. rewrite Hlan. cbn [default from_option id].
  cbn [nat_fields lan_ipaddr wan_range lan_range f_proto f_enable f_text].
  destruct (same_lan _ _) eqn:Hs.
  - rewrite inet_roundtrip by apply Hn. cbn [default from_option id].
    rewrite (moved_same _ _ (proj1 (proj2 (proj2 Hn))) Hs). eexists. split; [done|]. auto.
  - rewrite complete_ntoa. pose proof (moved_text nat lan Hn) as Ht.
    destruct (range (ports_text (dst_ports (n_match nat)))) as [w0 w1].
    destruct (range (ports_text (ports nat))) as [l0 l1].
    match goal with |- context [nvram_set n ?v ?s] => pose proof (nvram_set_effect n v s Hu) as He;
      destruct (nvram_set n v s) as [b s'] end. cbn [snd table] in He.
    rewrite inet_roundtrip by apply moved_u32. cbn [default from_option id].
    eexists. split; [done|]. split; [done|]. destruct He as [He|He]; [by left|]. right. eexists. split; [exact He|].
    intros Hd ->. cbn [default from_option id]. by rewrite Ht.
Qed.

Lemma valid_moved nat lan : valid_forward_port nat = true -> moved lan (ipaddr nat) <> 0 ->
  valid_forward_port (with_address (moved lan (ipaddr nat)) nat) = true.
Proof.
  unfold valid_forward_port, with_address. cbn [n_match ipaddr ports]. rewrite !andb_true_iff.
  intros ((((? & ?) & _) & ?) & ?) Hm. repeat split; try done. by apply negb_true_iff, Z.eqb_neq.
Qed.

Lemma forward_name_lan i : forward_name i <> "lan_ipaddr".
Proof. done. Qed.

(** What reading a rule gives and what it leaves. *)
Lemma forward_read which nat lan s text :
  is_nat nat -> valid_forward_port nat = true -> moved lan (ipaddr nat) <> 0 -> forward_text nat = Ret text ->
  table s !! forward_name which = Some text -> table s !! "lan_ipaddr" = Some (inet_ntoa lan) ->
  exists s', get_forward_port which s = Ret (Some (with_address (moved lan (ipaddr nat)) (kept_nat nat)), s') /\
    table s' !! "lan_ipaddr" = Some (inet_ntoa lan) /\
    (same_lan (inet_ntoa (ipaddr nat)) (inet_ntoa lan) = true -> table s' = table s) /\
    (n_desc nat <> "" -> exists nat' text', (nat' = nat \/ nat' = with_address (moved lan (ipaddr nat)) nat) /\
       forward_text nat' = Ret text' /\ table s' !! forward_name which = Some text').
Proof.
  intros Hn Hv Hm Et Ev Hlan. destruct (forward_text_read nat Hn) as (t & o & Et' & He & Hl & Es & Ho & Hd).
  rewrite Et in Et'. injection Et' as <-. pose proof (rule_value_used _ _ _ Ev He ltac:(lia)) as Er.
  destruct (forward_address_moved (forward_name which) nat o lan (mk_vars (table s) text))
    as (s' & Ea & Hsame & Heff); [apply forward_unmirrored|done|done|].
  exists s'. split; [exact (get_forward_fields _ _ _ _ _ _ _ _ Hn (valid_moved _ _ Hv Hm) Ho Er Es Ea)|].
  cbn [table] in *. split; [|split; [done|]].
  - destruct Heff as [->|(text' & -> & _)]; [done|]. by rewrite lookup_insert_ne.
  - intros Hne. destruct Heff as [->|(text' & -> & Ht)]; [by exists nat, text; auto|].
    exists (with_address (moved lan (ipaddr nat)) nat), text'. split; [by right|]. split; [by auto|].
    apply lookup_insert_eq.
Qed.

(** ** Client filters *)

Definition is_uints (p : Z * Z) : Prop := 0 <= p.1 < 2 ^ 31 /\ 0 <= p.2 < 2 ^ 31.

(** A filter for any address has no address; the ends of a range are addresses. *)
Definition is_filter (start fin : netconf_filter_t) : Prop :=
  let m := f_match start in
  let e := f_match fin in
  is_ports (dst_ports m) /\ is_uints (days m) /\ is_uints (secs m) /\ is_desc (f_desc start) /\
  is_u32 (src_ipaddr m) /\ is_u32 (src_ipaddr e) /\
  (src_netmask m = 0 -> src_netmask e = 0 /\ src_ipaddr m = 0 /\ src_ipaddr e = 0).

Definition kept_filter (ifname : string) (addr : Z) (start : netconf_filter_t) : netconf_filter_t :=
  let m := f_match start in
  Filter (Match (ipproto m) addr (src_netmask m) (0, htons 0xffff) (dst_ports m) ifname
            (kept_flags (flags m)) (days m) (secs m)) NETCONF_DROP (f_desc start).

Lemma parse_uints_text p : is_uints p -> parse_uints (range (uints_text p)) = p.
Proof.
  intros [H1 H2]. unfold uints_text.
  assert (forall x, 0 <= x < 2 ^ 31 -> s32 x = x) as Hs.
  { intros x Hx. unfold s32. rewrite Z.mod_small by lia. lia. }
  rewrite !Hs by done. rewrite range_at by (apply dec_dash; lia). unfold parse_uints. cbn [fst snd].
  rewrite !atoi_dec by lia. unfold u32. rewrite !Z.mod_small by lia. by destruct p.
Qed.

Lemma plain_uints p : is_uints p -> plain_text (uints_text p) = true.
Proof.
  intros [H1 H2]. unfold uints_text.
  assert (forall x, 0 <= x < 2 ^ 31 -> 0 <= s32 x) as Hs.
  { intros x Hx. unfold s32. rewrite Z.mod_small by lia. lia. }
  apply plain_app; [|apply plain_app]; done || (apply plain_dec; auto).
Qed.

(** The text of the addresses. *)
Definition address_text (start fin : netconf_filter_t) : string :=
  let m := f_match start in
  let e := f_match fin in
  if (src_ipaddr m =? 0) && (src_ipaddr e =? 0) && (src_netmask m =? 0) && (src_netmask e =? 0)
  then "*" else inet_ntoa (src_ipaddr m) +:+ "-" +:+ inet_ntoa (src_ipaddr e).

Lemma plain_address start fin : plain_text (address_text start fin) = true.
Proof. unfold address_text. case_match; [done|]. apply plain_app; [auto with fields|]. by apply plain_app; auto with fields. Qed.

Lemma ntoa_head a : exists c t, inet_ntoa a = String c t /\ isdigit c = true.
Proof.
  unfold inet_ntoa. pose proof (byte_at_range a 0) as Hb. destruct (dec_head (byte_at a 0)) as (c & t & -> & Hc); [lia|].
  by exists c, (t +:+ "." +:+ dec (byte_at a 1) +:+ "." +:+ dec (byte_at a 2) +:+ "." +:+ dec (byte_at a 3)).
Qed.

Lemma parse_address start fin : is_filter start fin -> valid_filter_client start fin = true ->
  parse_range (address_text start fin) =
  (src_ipaddr (f_match start), src_ipaddr (f_match fin), src_netmask (f_match start)).
Proof.
  intros (_ & _ & _ & _ & Ha & Hb & Hany) Hv. unfold address_text.
  destruct (Z.eqb_spec (src_netmask (f_match start)) 0) as [E|E].
  - destruct (Hany E) as (-> & -> & ->). rewrite E. done.
  - unfold valid_filter_client in Hv. rewrite (proj2 (Z.eqb_neq _ _) E), !andb_true_iff in Hv.
    assert (src_netmask (f_match start) = htonl 0xffffffff) as -> by (apply Z.eqb_eq; apply Hv).
    rewrite andb_false_r. cbn [andb]. unfold parse_range.
    rewrite range_at by (apply ntoa_avoids; [intros c; by destruct c as [[] [] [] [] [] [] [] []]|done]).
    rewrite !inet_roundtrip by done. cbn [default from_option id].
    destruct (ntoa_head (src_ipaddr (f_match start))) as (c & t & -> & Hc).
    revert Hc. by destruct c as [[] [] [] [] [] [] [] []].
Qed.

Lemma address_length start fin : strlen (address_text start fin) <= 31.
Proof.
  unfold address_text. case_match; [by vm_compute|]. rewrite !strlen_app. change (strlen "-") with 1.
  pose proof (ntoa_length (src_ipaddr (f_match start))). pose proof (ntoa_length (src_ipaddr (f_match fin))). lia.
Qed.

Lemma uints_length p : strlen (uints_text p) <= 27.
Proof.
  unfold uints_text. rewrite !strlen_app. change (strlen "-") with 1.
  pose proof (dec_length (s32 p.1)). pose proof (dec_length (s32 p.2)). lia.
Qed.

Lemma filter_text_read lan start fin : is_filter start fin -> valid_filter_client start fin = true ->
  exists text f, filter_text start fin = Ret text /\ text <> "" /\ strlen text < 1000 /\
    split_filter text = Some f /\ filter_of_fields f lan =
      Some (kept_filter (String.substring 0 IFNAMSIZ lan) (src_ipaddr (f_match start)) start,
            kept_filter "" (src_ipaddr (f_match fin)) start).
Proof.
  intros Hf Hv. pose proof Hf as (Hp & Hdy & Hsc & Hd & _). pose proof (parse_address start fin Hf Hv) as Ep.
  assert (is_proto (ipproto (f_match start)) = true) as Hip
    by (unfold valid_filter_client in Hv; rewrite !andb_true_iff in Hv; apply Hv).
  unfold filter_text. fold (address_text start fin). rewrite (desc_text_plain _ Hd). cbn [mbind outcome_bind].
  destruct (strsep_enable "," (flags (f_match start)) (f_desc start)) as (o & Es & Eo); [auto with fields..|].
  pose proof (plain_address start fin). pose proof (plain_uints _ Hdy). pose proof (plain_uints _ Hsc).
  eexists _, _. split; [done|]. split; [|split; [|split]].
  - apply nonempty_length. rewrite !strlen_app. change (strlen ":") with 1. unfold strlen. lia.
  - rewrite !strlen_app. pose proof (desc_part_length _ Hd). pose proof (address_length start fin).
    pose proof (text_lengths (ipproto (f_match start)) (flags (f_match start)) (dst_ports (f_match start))).
    pose proof (uints_length (days (f_match start))). pose proof (uints_length (secs (f_match start))).
    change (strlen ":") with 1. change (strlen ",") with 1. lia.
  - unfold split_filter. repeat (rewrite split_at by auto with fields; cbn [mbind option_bind]). by rewrite Es.
  - unfold filter_of_fields. cbn [c_range c_ports c_proto c_days c_secs c_enable c_desc]. rewrite Ep.
    rewrite parse_proto_text, Eo by done. cbn [mbind option_bind].
    by rewrite !parse_ports_text, !parse_uints_text, parse_enable_text by done.
Qed.

Lemma kept_filter_valid ifname start fin : valid_filter_client start fin = true ->
  valid_filter_client (kept_filter ifname (src_ipaddr (f_match start)) start)
    (kept_filter "" (src_ipaddr (f_match fin)) start) = true.
Proof.
  unfold valid_filter_client, kept_filter.
  cbn [f_match src_netmask src_ipaddr dst_ports ipproto days secs]. rewrite !Z.eqb_refl, !andb_true_iff.
  intros H0. destruct (src_netmask (f_match start) =? 0); rewrite ?andb_true_iff in *; intuition.
Qed.
End Storing.

(** ** An example *)

Module DemoRules.
#[export] Instance driver : Driver := {
  unlocked := fun _ n => negb (n =? "forward_port9")%string;
  room := fun t n v => bool_decide (Z.of_nat (size (<[n := v]> t)) <= Drv.NVRAM_SPACE)
}.
Definition s0 : vars :=
  mk_vars (list_to_map [("lan_ifname", "br0"); ("lan_ipaddr", "192.168.1.1"); ("forward_port0", "")]) "".
Definition app : netconf_app_t :=
  App (Match IPPROTO_TCP 0 0 (0, 0) (htons 6660, htons 6669) "" NETCONF_DISABLED (0, 0) (0, 0))
    NETCONF_APP "irc, dcc: all" IPPROTO_UDP (htons 100, htons 110) (htons 200, htons 210).
Definition nat : netconf_nat_t :=
  Nat (Match IPPROTO_TCP 0 0 (0, 0) (htons 80, htons 81) "" 0 (0, 0) (0, 0))
    NETCONF_DNAT "web" (htonl 0x0a000064) (htons 8080, htons 8081).
Definition start : netconf_filter_t :=
  Filter (Match IPPROTO_UDP (htonl 0xc0a80164) (htonl 0xffffffff) (0, 0) (0, htons 0xffff) "" 0 (1, 5) (0, 86399))
    NETCONF_DROP "".
Definition fin : netconf_filter_t :=
  Filter (Match IPPROTO_UDP (htonl 0xc0a801c8) (htonl 0xffffffff) (0, 0) (0, htons 0xffff) "" 0 (1, 5) (0, 86399))
    NETCONF_DROP "".

Lemma storable_s0 n : n <> "forward_port9" -> storable n s0.
Proof.
  intros Hn. split.
  - simpl. apply negb_true_iff. by apply String.eqb_neq.
  - intros v _. apply (bool_decide_eq_true_2 (Z.of_nat (size (<[n := v]> (table s0))) <= Drv.NVRAM_SPACE)).
    rewrite map_size_insert.
    change (size (table s0)) with 3%nat. change Drv.NVRAM_SPACE with 0xd400. destruct (_ !! n); unfold id; lia.
Qed.
End DemoRules.

Section Roundtrips.
Context `{Driver}.

(** A triggered forward that is valid and is stored under a number is read
    back under this number: both protocols, the three port ranges, whether it is
    enabled and the description, which may hold separators; the interface is the
    one of the LAN. No other variable changes, and reading changes none. *)
Theorem autofw_roundtrip which app s :
  valid_autofw_port app = true -> is_app app -> storable (autofw_name which) s ->
  exists s' s'', set_autofw_port which app s = Ret (true, s') /\
    (forall n, n <> autofw_name which -> table s' !! n = table s !! n) /\
    get_autofw_port which s' = Ret (Some (kept_app (peek "lan_ifname" s) app), s'') /\ table s'' = table s'.
Proof.
  intros Hv Ha Hs. destruct (autofw_text_read (peek "lan_ifname" s) app Ha Hv) as (text & f & Et & He & Hl & Es & Ef).
  unfold set_autofw_port. rewrite Hv, Et. cbn [mbind outcome_bind].
  rewrite (store_rule_ok _ _ _ (autofw_unmirrored which) Hs Hl).
  eexists _, _. split; [done|]. split; [intros n Hn; cbn [table]; by rewrite lookup_insert_ne|].
  unfold get_autofw_port. rewrite (rule_value_stored _ _ _ He Hl). cbn [mbind outcome_bind option_bind].
  rewrite Es. unfold peek at 1. cbn [table]. rewrite lookup_insert_ne by done. fold (peek "lan_ifname" s). rewrite Ef.
  unfold nvram_get. change (valid_autofw_port (kept_app _ app)) with (valid_autofw_port app).
  rewrite Hv. split; reflexivity.
Qed.

(** C29. A valid port forward (ports in range, a description of at most 40
    characters without a percent sign) that can be stored is read back, while
    lan_ipaddr holds an address, with the network of the router and its own last
    byte, thus with its own address when it lies in this network; then reading
    changes no variable. A rule with a description that is not empty is read the same
    the next time, also when it follows a new network, whether the variable could be
    written again or not (an empty one then comes back as (null), see
    [null_description] of ConvertProofs.v). *)
Theorem forward_roundtrip which nat lan s :
  valid_forward_port nat = true -> is_nat nat -> storable (forward_name which) s ->
  table s !! "lan_ipaddr" = Some (inet_ntoa lan) -> moved lan (ipaddr nat) <> 0 ->
  let r := with_address (moved lan (ipaddr nat)) (kept_nat nat) in
  exists s' s'', set_forward_port which nat s = Ret (true, s') /\
    (forall n, n <> forward_name which -> table s' !! n = table s !! n) /\
    get_forward_port which s' = Ret (Some r, s'') /\
    (same_lan (inet_ntoa (ipaddr nat)) (inet_ntoa lan) = true -> ipaddr r = ipaddr nat /\ table s'' = table s') /\
    (n_desc nat <> "" -> exists s3, get_forward_port which s'' = Ret (Some r, s3)).
Proof.
  intros Hv Hn Hs Hlan Hm r. destruct (forward_text_read nat Hn) as (text & o & Et & _ & Hl & _).
  unfold set_forward_port. rewrite Hv, Et. cbn [mbind outcome_bind].
  rewrite (store_rule_ok _ _ _ (forward_unmirrored which) Hs) by lia.
  eexists _. set (s' := mk_vars _ _).
  destruct (forward_read which nat lan s' text Hn Hv Hm Et) as (s'' & Eg & Hlan' & Hsame & Hagain).
  { apply lookup_insert_eq. } { unfold s'. cbn [table]. by rewrite lookup_insert_ne. }
  exists s''. split; [done|]. split; [intros n Hne; unfold s'; cbn [table]; by rewrite lookup_insert_ne|].
  split; [exact Eg|]. split.
  { intros E. split; [|by apply Hsame]. exact (moved_same _ _ (proj1 (proj2 (proj2 Hn))) E). }
  intros Hd. destruct (Hagain Hd) as (nat' & text' & [->| ->] & Et' & Ev).
  - destruct (forward_read which nat lan s'' text' Hn Hv Hm Et' Ev Hlan') as (s3 & E & _). by exists s3.
  - pose proof (moved_twice lan (ipaddr nat)) as Htw.
    destruct (forward_read which (with_address (moved lan (ipaddr nat)) nat) lan s'' text'
      (is_nat_moved nat lan Hn) (valid_moved _ _ Hv Hm)) as (s3 & E & _); try done.
    + cbn [with_address ipaddr]. by rewrite Htw.
    + exists s3. cbn [with_address ipaddr] in E. by rewrite Htw in E.
Qed.

(** A valid client filter that is stored is read back, both ends of the
    range of addresses or the filter for any address, ports, protocol, days and
    times, whether it is enabled and the description, with the interface of the
    LAN. No other variable changes, and reading changes none. *)
Theorem filter_roundtrip which start fin s :
  valid_filter_client start fin = true -> is_filter start fin -> storable (filter_name which) s ->
  exists s' s'', set_filter_client which start fin s = Ret (true, s') /\
    (forall n, n <> filter_name which -> table s' !! n = table s !! n) /\
    get_filter_client false which s' =
      Ret (Some (kept_filter (String.substring 0 IFNAMSIZ (peek "lan_ifname" s)) (src_ipaddr (f_match start)) start,
                 kept_filter "" (src_ipaddr (f_match fin)) start), s'') /\ table s'' = table s'.
Proof.
  intros Hv Ha Hs.
  destruct (filter_text_read (peek "lan_ifname" s) start fin Ha Hv) as (text & f & Et & He & Hl & Es & Ef).
  unfold set_filter_client. rewrite Hv, Et. cbn [mbind outcome_bind].
  rewrite (store_rule_ok _ _ _ (filter_unmirrored which) Hs Hl).
  eexists _, _. split; [done|]. split; [intros n Hn; cbn [table]; by rewrite lookup_insert_ne|].
  unfold get_filter_client. rewrite (rule_value_stored _ _ _ He Hl). cbn [mbind outcome_bind option_bind].
  rewrite Es. unfold peek at 1. cbn [table]. rewrite lookup_insert_ne by done. fold (peek "lan_ifname" s). rewrite Ef.
  unfold nvram_get. cbn [fst snd]. rewrite (kept_filter_valid _ start fin Hv). split; reflexivity.
Qed.

(** ** Refusals *)

Inductive rule :=
  | Autofw (app : netconf_app_t) | Forward (nat : netconf_nat_t) | Client (start fin : netconf_filter_t).
Definition set_rule (which : Z) (r : rule) : vars -> outcome (bool * vars) :=
  match r with
  | Autofw app => set_autofw_port which app
  | Forward nat => set_forward_port which nat
  | Client start fin => set_filter_client which start fin
  end.
Definition valid_rule (r : rule) : bool :=
  match r with
  | Autofw app => valid_autofw_port app
  | Forward nat => valid_forward_port nat
  | Client start fin => valid_filter_client start fin
  end.
Definition rule_name (which : Z) (r : rule) : string :=
  match r with Autofw _ => autofw_name which | Forward _ => forward_name which | Client _ _ => filter_name which end.
Definition is_rule (r : rule) : Prop :=
  match r with Autofw app => is_app app | Forward nat => is_nat nat | Client start fin => is_filter start fin end.
Definition rule_text (r : rule) : outcome string :=
  match r with
  | Autofw app => autofw_text app
  | Forward nat => forward_text nat
  | Client start fin => filter_text start fin
  end.

Lemma rule_unmirrored which r : unmirrored (rule_name which r).
Proof. destruct r; [apply autofw_unmirrored|apply forward_unmirrored|apply filter_unmirrored]. Qed.

Lemma rule_text_ok r : is_rule r -> valid_rule r = true -> exists text, rule_text r = Ret text /\ strlen text < 1000.
Proof.
  destruct r as [app|nat|start fin]; intros Hr Hv.
  - destruct (autofw_text_read "" app Hr Hv) as (text & f & E & _ & Hl & _). by exists text.
  - destruct (forward_text_read nat Hr) as (text & o & E & _ & Hl & _). exists text. split; [done|lia].
  - destruct (filter_text_read "" start fin Hr Hv) as (text & f & E & _ & Hl & _). by exists text.
Qed.

Lemma set_rule_unfold which r s : set_rule which r s =
  if valid_rule r then text ← rule_text r; store_rule (rule_name which r) text s else Ret (false, s).
Proof. by destruct r. Qed.

(** C30. Storing a rule of any kind fails in three cases only, when the rule is
    not valid, the variable is locked or the driver has no room; then all
    variables are as before. Otherwise the variable of the number has the text
    of the rule. The texts read before stay where they are in both cases. *)
Theorem set_rule_outcome which r s : is_rule r ->
  exists text b s', set_rule which r s = Ret (b, s') /\
    b = valid_rule r && unlocked (table s) (rule_name which r) && room (table s) (rule_name which r) text /\
    table s' = (if b then <[rule_name which r := text]> (table s) else table s) /\ value_buf s' = value_buf s.
Proof.
  intros Hr. rewrite set_rule_unfold. destruct (valid_rule r) eqn:Hv; [|by exists "", false, s].
  destruct (rule_text_ok r Hr Hv) as (text & -> & Hl). cbn [mbind outcome_bind]. exists text.
  unfold store_rule. rewrite (proj2 (Z.leb_gt _ _)) by lia. unfold nvram_set.
  destruct (unlocked _ _); [|by exists false, s]. eexists _, _. split; [done|]. cbn [table value_buf andb].
  rewrite mirror_none by apply rule_unmirrored. unfold put. by destruct (room _ _ _).
Qed.
End Roundtrips.

#[local] Existing Instance DemoRules.driver.

Lemma autofw_roundtrip_witness : exists s' s'', set_autofw_port 3 DemoRules.app DemoRules.s0 = Ret (true, s') /\
  get_autofw_port 3 s' = Ret (Some (kept_app "br0" DemoRules.app), s'').
Proof.
  destruct (autofw_roundtrip 3 DemoRules.app DemoRules.s0) as (s' & s'' & E & _ & E' & _);
    [reflexivity|repeat split; vm_compute; done || lia|by apply DemoRules.storable_s0|]. exists s', s''. exact (conj E E').
Defined.

Lemma forward_roundtrip_witness : exists s' s'', set_forward_port 3 DemoRules.nat DemoRules.s0 = Ret (true, s') /\
  get_forward_port 3 s' = Ret (Some (with_address (htonl 0xc0a80164) (kept_nat DemoRules.nat)), s'').
Proof.
  destruct (forward_roundtrip 3 DemoRules.nat (htonl 0xc0a80101) DemoRules.s0) as (s' & s'' & E & _ & E' & _);
    [reflexivity|repeat split; vm_compute; done || lia|by apply DemoRules.storable_s0|reflexivity|done|].
  exists s', s''. exact (conj E E').
Defined.

Lemma filter_roundtrip_witness : exists s' s'',
  set_filter_client 0 DemoRules.start DemoRules.fin DemoRules.s0 = Ret (true, s') /\
  get_filter_client false 0 s' =
    Ret (Some (kept_filter "br0" (htonl 0xc0a80164) DemoRules.start,
               kept_filter "" (htonl 0xc0a801c8) DemoRules.start), s'').
Proof.
  destruct (filter_roundtrip 0 DemoRules.start DemoRules.fin DemoRules.s0) as (s' & s'' & E & _ & E' & _);
    [reflexivity|repeat split; vm_compute; done || lia|by apply DemoRules.storable_s0|]. exists s', s''. exact (conj E E').
Defined.

Lemma set_rule_outcome_witness : exists s', set_rule 9 (Forward DemoRules.nat) DemoRules.s0 = Ret (false, s') /\
  table s' = table DemoRules.s0.
Proof.
  destruct (set_rule_outcome 9 (Forward DemoRules.nat) DemoRules.s0) as (text & b & s' & E & Hb & Ht & _);
    [repeat split; vm_compute; done || lia|]. rewrite andb_false_r in Hb. subst b. exists s'. exact (conj E Ht).
Defined.

End NvparseProofs.
