(* ===== verification/ConvertProofs.v ===== *)
(** * Proofs about the conversion of older rules

    The search for a free number ends, every conversion ends, and after a boot
    none of the older variables is left. *)

From Stdlib Require Import ZArith Lia Ascii.
From stdpp Require Import base numbers sets gmap strings list.
From S2P Require Import Prelude CString NvramDrv Nvram Vars TextProofs Nvparse NvparseProofs.
Import Vars Nvparse NvparseProofs.
Open Scope string_scope.
Open Scope Z_scope.
Open Scope list_scope.

Module ConvertProofs.

(** ** Runs that end *)

(** The run ends, and with a result only one that satisfies [Q]. *)
Definition ends {A} (Q : A -> Prop) (m : outcome A) : Prop :=
  match m with Ret a => Q a | Running => False | _ => True end.

Lemma ends_bind {A B} (P : A -> Prop) (Q : B -> Prop) (m : outcome A) (f : A -> outcome B) :
  ends P m -> (forall a, P a -> ends Q (f a)) -> ends Q (m ≫= f).
Proof. destruct m; simpl; auto. Qed.
Lemma ends_mono {A} (P Q : A -> Prop) (m : outcome A) : ends P m -> (forall a, P a -> Q a) -> ends Q m.
Proof. destruct m; simpl; auto. Qed.
Lemma ends_Ret {A} (Q : A -> Prop) m a : ends Q m -> m = Ret a -> Q a.
Proof. by intros H ->. Qed.

(** ** The state during the conversion *)

(** The variables of older forms. *)
Definition old_names : list string :=
  ["forward_tcp"; "forward_udp"; "filter_ip"; "filter_tcp"; "filter_udp"; "filter_port1"; "filter_port2";
   "filter_port3"; "filter_port4"; "filter_port5"; "filter_port6"; "filter_port"; "filter_mac"; "wl_mac"] ++
  pppoe_names.

(** Values fit the buffer of nvram_get and the variables [G] are gone. *)
Record ok (G : list string) (s : vars) : Prop := {
  ok_buf : strlen (value_buf s) < Lib.MAX_LEN;
  ok_values : map_Forall (fun _ v => strlen v < Lib.MAX_LEN) (table s);
  ok_size : Z.of_nat (size (table s)) <= Drv.NVRAM_SPACE;
  ok_gone : Forall (fun n => table s !! n = None) G
}.

(** A variable whose writing does not bring back an older one. *)
Definition kept_name (n : string) : bool :=
  negb (existsb (String.eqb n) old_names) &&
  forallb (fun c => negb (Lib.cname c =? n)%string || (negb (existsb (String.eqb (Lib.wl0_name c)) old_names) &&
             negb (existsb (String.eqb (Lib.d11g_name c)) old_names))) Lib.nvram_converts.

Section Steps.
Context `{Driver} {bounded : Bounded}.

Lemma not_old n m : existsb (String.eqb n) old_names = false -> m ∈ old_names -> n <> m.
Proof.
  intros Hn Hm ->. rewrite <- not_true_iff_false in Hn. apply Hn. apply existsb_exists. exists m.
  split; [by apply list_elem_of_In|apply String.eqb_refl].
Qed.

Lemma old_cons n G : existsb (String.eqb n) old_names = true -> G ⊆ old_names -> n :: G ⊆ old_names.
Proof.
  intros Hn HG m Hm. apply elem_of_cons in Hm as [->|Hm]; [|by apply HG].
  apply existsb_exists in Hn as (k & Hk & ->%String.eqb_eq). by apply list_elem_of_In.
Qed.
Lemma old_nil : [] ⊆ old_names.
Proof. intros m Hm. by apply not_elem_of_nil in Hm. Qed.

Lemma put_ok G n v s : G ⊆ old_names -> existsb (String.eqb n) old_names = false -> strlen v < Lib.MAX_LEN ->
  ok G s -> ok G (mk_vars (put n v (table s)) (value_buf s)).
Proof.
  intros HG Hn Hv [Hb Hvs Hsz Hg]. unfold put. destruct (room _ _ _) eqn:Hr; [|by destruct s].
  constructor; cbn [table value_buf]; [done| |by apply bounded|].
  - by apply map_Forall_insert_2.
  - rewrite Forall_forall in *. intros m Hm. rewrite lookup_insert_ne by (apply not_old; auto). auto.
Qed.

Lemma mirror_ok l G n v s :
  G ⊆ old_names -> strlen v < Lib.MAX_LEN -> 
  forallb (fun c => negb (Lib.cname c =? n)%string || (negb (existsb (String.eqb (Lib.wl0_name c)) old_names) &&
             negb (existsb (String.eqb (Lib.d11g_name c)) old_names))) l = true ->
  ok G s ->
  ok G (mk_vars (foldl (fun t c =>
    if bool_decide (Lib.cname c = n) then
      let t := if bool_decide (Lib.wl0_name c = "") then t else put (Lib.wl0_name c) v t in
      if bool_decide (Lib.d11g_name c = "") then t else put (Lib.d11g_name c) v t
    else t) (table s) l) (value_buf s)).
Proof.
  intros HG Hv. revert s. induction l as [|c l IH]; intros s Hl Hs; [by destruct s|].
  cbn [forallb] in Hl. apply andb_prop in Hl as [Hc Hl]. cbn [foldl].
  set (t := if bool_decide (Lib.cname c = n) then _ else _).
  assert (ok G (mk_vars t (value_buf s))) as Ht; [|exact (IH (mk_vars t (value_buf s)) Hl Ht)].
  unfold t. case_bool_decide as Hn; [|by destruct s].
  rewrite Hn, String.eqb_refl in Hc. cbn [negb orb] in Hc. apply andb_prop in Hc as [H1%negb_true_iff H2%negb_true_iff].
  assert (ok G (mk_vars (if bool_decide (Lib.wl0_name c = "") then table s else put (Lib.wl0_name c) v (table s))
    (value_buf s))) as H3 by (case_bool_decide; [by destruct s|by apply put_ok]).
  cbn zeta. destruct (bool_decide (Lib.d11g_name c = "")); [done|]. exact (put_ok G _ v _ HG H2 Hv H3).
Qed.

Lemma set_ok G n v s : G ⊆ old_names -> kept_name n = true -> strlen v < Lib.MAX_LEN ->
  ok G s -> ok G (nvram_set n v s).2.
Proof.
  intros HG Hn Hv Hs. unfold nvram_set. destruct (unlocked _ _); [|done]. cbn [snd].
  apply andb_prop in Hn as [Hn%negb_true_iff Hl]. unfold mirror.
  exact (mirror_ok _ G n v _ HG Hv Hl (put_ok G n v s HG Hn Hv Hs)).
Qed.

Lemma peek_short G n s : strlen n < Lib.MAX_LEN -> ok G s -> strlen (peek n s) < Lib.MAX_LEN.
Proof. intros Hn Hs. unfold peek. destruct (table s !! n) eqn:E; [|done]. by eapply (ok_values G s). Qed.

Lemma get_ok G n s : strlen n < Lib.MAX_LEN -> ok G s -> ok G (mk_vars (table s) (peek n s)).
Proof. intros Hn Hs. destruct Hs as [Hb Hv Hz Hg] eqn:E. constructor; try done. by eapply peek_short. Qed.

Lemma unset_ok G n s : ok G s -> ok (n :: G) (nvram_unset n s).
Proof.
  intros [Hb Hv Hz Hg]. constructor; cbn [nvram_unset table value_buf]; [done| | |].
  - by apply map_Forall_delete.
  - rewrite map_size_delete. destruct (table s !! n); simpl; lia.
  - constructor; [by apply lookup_delete_eq|]. eapply Forall_impl; [exact Hg|]. intros m Hm. simpl.
    rewrite lookup_delete. by case_decide.
Qed.

(** ** Reading a rule *)

(** What the search needs of a reader: names tell numbers apart, only the
    variable of the number may be written again, and a rule has a variable. *)
Class Reader {R} (name : Z -> string) (get : Z -> vars -> outcome (option R * vars)) := {
  reader_name i j : 0 <= i < 2 ^ 31 -> 0 <= j < 2 ^ 31 -> name i = name j -> i = j;
  reader_get G i s : G ⊆ old_names -> 0 <= i -> ok G s ->
    ends (fun r => ok G r.2 /\ dom (table r.2) = dom (table s) /\
      (forall n, n <> name i -> table r.2 !! n = table s !! n) /\
      (r.1 <> None -> is_Some (table s !! name i))) (get i s)
}.

Lemma rule_value_ends G n s : strlen n < Lib.MAX_LEN -> ok G s ->
  ends (fun r => ok G r.2 /\ table r.2 = table s /\ (r.1 = None \/ r.1 = Some (peek n s) /\ strlen (peek n s) < 1000))
    (rule_value n s).
Proof.
  intros Hn Hs. unfold rule_value, nvram_invmatch, nvram_get. cbn [table].
  change (peek n (mk_vars (table s) (peek n s))) with (peek n s).
  pose proof (get_ok G n s Hn Hs). destruct (negb _); [|simpl; auto]. destruct (Z.leb_spec 1000 (strlen (peek n s))); simpl; auto.
Qed.

Lemma name_short p i : strlen p < 100 -> strlen (p +:+ dec i) < Lib.MAX_LEN.
Proof. intros Hp. rewrite strlen_app. pose proof (dec_length i). change Lib.MAX_LEN with 8192. lia. Qed.

Lemma dec_separates set i : separates set -> 0 <= i -> avoids (one_of set) (dec i) = true.
Proof. intros Hs Hi. apply plain_avoids; [done|]. by apply plain_dec. Qed.

(** The name of a rule is no rule. *)
Lemma undefined_no_rule p set i : separates set -> avoids (one_of set) p = true -> 0 <= i -> split (p +:+ dec i) set = None.
Proof.
  intros Hs Hp Hi. unfold split. rewrite strsep_none; [done|]. by rewrite avoids_app, Hp, dec_separates.
Qed.

#[export] Instance autofw_reader : Reader autofw_name get_autofw_port.
Proof.
  constructor; [intros i j; apply prefix_inj|]. intros G i s HG Hi Hs. unfold get_autofw_port.
  eapply ends_bind; [by apply rule_value_ends; [apply name_short; vm_compute|]|].
  intros [v s1] (Hs1 & Et & Hv). cbn [fst snd] in *. destruct (v ≫= split_autofw) as [f|] eqn:Ef.
  2:{ simpl. by rewrite Et. }
  assert (is_Some (table s !! autofw_name i)) as Hdef.
  { destruct Hv as [->|[-> _]]; [done|]. unfold peek in Ef. destruct (table s !! autofw_name i); [done|].
    simpl in Ef. unfold split_autofw, autofw_name in Ef.
    by rewrite (undefined_no_rule "autofw_port" ":" i separates_colon eq_refl Hi) in Ef. }
  destruct (autofw_of_fields _ _); simpl; rewrite Et; [|done].
  split; [|done]. rewrite <- Et. by apply get_ok.
Qed.

#[export] Instance filter_reader alias : Reader filter_name (get_filter_client alias).
Proof.
  constructor; [intros i j; apply prefix_inj|]. intros G i s HG Hi Hs. unfold get_filter_client.
  eapply ends_bind; [by apply rule_value_ends; [apply name_short; vm_compute|]|].
  intros [v s1] (Hs1 & Et & Hv). cbn [fst snd] in *. destruct (v ≫= split_filter) as [f|] eqn:Ef.
  2:{ simpl. by rewrite Et. }
  assert (is_Some (table s !! filter_name i)) as Hdef.
  { destruct Hv as [->|[-> _]]; [done|]. unfold peek in Ef. destruct (table s !! filter_name i); [done|].
    simpl in Ef. unfold split_filter, filter_name in Ef.
    by rewrite (undefined_no_rule "filter_client" ":" i separates_colon eq_refl Hi) in Ef. }
  destruct (filter_of_fields _ _) as [[]|]; simpl; rewrite Et; [|done].
  split; [|done]. rewrite <- Et. by apply get_ok.
Qed.

Lemma substring_short n t : Z.of_nat n < Lib.MAX_LEN -> strlen (String.substring 0 n t) < Lib.MAX_LEN.
Proof. pose proof (substring_length n t). unfold strlen. lia. Qed.

Lemma rule_kept i : kept_name (forward_name i) = true /\ kept_name (filter_name i) = true /\
  kept_name (autofw_name i) = true.
Proof. unfold forward_name, filter_name, autofw_name. generalize (dec i). intros t. split; [|split]; reflexivity. Qed.

Lemma forward_address_ok G i f s : G ⊆ old_names -> ok G s -> is_Some (table s !! forward_name i) ->
  let s' := (forward_address (forward_name i) f s).2 in
  ok G s' /\ dom (table s') = dom (table s) /\ (forall n, n <> forward_name i -> table s' !! n = table s !! n).
Proof.
  intros HG Hs Hd. unfold forward_address, nvram_get. pose proof (get_ok G "lan_ipaddr" s eq_refl Hs) as H1.
  destruct (same_lan _ _); [done|]. destruct (range (wan_range f)) as [w0 w1]. destruct (range (lan_range f)) as [l0 l1].
  match goal with |- context [nvram_set ?n ?v ?s1] =>
    pose proof (set_ok G n v s1 HG (proj1 (rule_kept i)) (substring_short 253 _ eq_refl) H1) as H2;
    pose proof (nvram_set_effect n v s1 (forward_unmirrored i)) as H3; destruct (nvram_set n v s1) as [b s'] end.
  cbn [snd table] in *. split; [done|]. destruct H3 as [->| ->]; [done|].
  split; [by apply dom_insert_lookup_L|]. intros n Hn. by rewrite lookup_insert_ne.
Qed.

#[export] Instance forward_reader : Reader forward_name get_forward_port.
Proof.
  constructor; [intros i j; apply prefix_inj|]. intros G i s HG Hi Hs. unfold get_forward_port.
  eapply ends_bind; [by apply rule_value_ends; [apply name_short; vm_compute|]|].
  intros [v s1] (Hs1 & Et & Hv). cbn [fst snd] in *. destruct (v ≫= split_forward) as [f|] eqn:Ef.
  2:{ simpl. by rewrite Et. }
  assert (is_Some (table s !! forward_name i)) as Hdef.
  { destruct Hv as [->|[-> _]]; [done|]. unfold peek in Ef. destruct (table s !! forward_name i); [done|].
    simpl in Ef. unfold split_forward, forward_name in Ef.
    by rewrite (undefined_no_rule "forward_port" ">" i separates_to eq_refl Hi) in Ef. }
  pose proof (forward_address_ok G i f s1 HG Hs1) as (H1 & H2 & H3); [by rewrite Et|].
  destruct (forward_address _ f s1) as [a s2]. cbn [snd] in *. rewrite Et in H2, H3.
  destruct (parse_proto _); cbn [ends fst snd]; auto.
Qed.

(** ** The search *)

Section Search.
Context {R : Type} {name : Z -> string} {get : Z -> vars -> outcome (option R * vars)} {reader : Reader name get}.

Lemma names_count i0 k (t : gmap string string) : 0 <= i0 -> i0 + Z.of_nat k <= 2 ^ 31 ->
  (forall j, i0 <= j < i0 + Z.of_nat k -> name j ∈ dom t) -> (k <= size t)%nat.
Proof. intros Hi Hk. apply defined_count. intros i j Hii Hj. apply (reader_name (name := name)); lia. Qed.

Lemma first_unused_ends G i0 : G ⊆ old_names -> 0 <= i0 -> forall fuel k s, ok G s ->
  (size (table s) < fuel + k)%nat -> i0 + Z.of_nat (fuel + k) <= 2 ^ 31 ->
  (forall j, i0 <= j < i0 + Z.of_nat k -> name j ∈ dom (table s)) ->
  ends (fun r => ok G r.2 /\ dom (table r.2) = dom (table s) /\ i0 <= r.1 <= i0 + Z.of_nat (size (table s)) /\
    (forall j, i0 <= j < r.1 -> name j ∈ dom (table s)) /\
    exists s1, get r.1 s1 = Ret (None, r.2)) (first_unused get fuel (i0 + Z.of_nat k) s).
Proof.
  intros HG Hi0. induction fuel as [|fuel IH]; intros k s Hs Hsz Hb Hd.
  { pose proof (names_count i0 k (table s) Hi0 ltac:(lia) Hd). lia. }
  cbn [first_unused]. destruct (get _ s) as [[o s']| | |] eqn:E; cbn [mbind outcome_bind];
    pose proof (reader_get (name := name) (get := get) G (i0 + Z.of_nat k) s HG ltac:(lia) Hs) as Hg;
    rewrite E in Hg; try done.
  destruct Hg as (Hs' & Hdom & _ & Hsome). cbn [fst snd] in *. destruct o as [x|].
  - replace (i0 + Z.of_nat k + 1) with (i0 + Z.of_nat (S k)) by lia.
    assert (size (table s') = size (table s)) as Esz by (by rewrite <- !(size_dom (D := gset string)), Hdom).
    eapply ends_mono; [apply IH; rewrite ?Esz; try done; try lia|].
    + intros j Hj. rewrite Hdom. destruct (decide (j = i0 + Z.of_nat k)) as [->|]; [|apply Hd; lia].
      apply elem_of_dom, Hsome. done.
    + intros [j s2]. cbn [fst snd]. rewrite Esz, Hdom. done.
  - cbn [ends fst snd]. pose proof (names_count i0 k (table s) Hi0 ltac:(lia) Hd).
    split_and!; try done; try lia. by exists s.
Qed.

Lemma search_ends G i s : G ⊆ old_names -> 0 <= i -> i + Z.of_nat (size (table s)) < 2 ^ 31 -> ok G s ->
  ends (fun r => ok G r.2 /\ dom (table r.2) = dom (table s) /\ i <= r.1 <= i + Z.of_nat (size (table s)) /\
    (forall j, i <= j < r.1 -> name j ∈ dom (table s)) /\
    exists s1, get r.1 s1 = Ret (None, r.2)) (search get i s).
Proof.
  intros HG Hi Hb Hs. unfold search. pose proof (first_unused_ends G i HG Hi (S (size (table s))) 0 s Hs) as E.
  change (Z.of_nat 0) with 0 in E. rewrite Z.add_0_r in E. apply E; [lia..|]. intros j Hj. lia.
Qed.
End Search.

(** ** Words of a variable *)

Lemma sdrop_length k t : String.length (sdrop k t) = (String.length t - k)%nat.
Proof. revert t. induction k as [|k IH]; intros [|c t]; simpl; try lia. apply IH. Qed.
Lemma upto_length p t : (String.length (CString.upto p t) <= String.length t)%nat.
Proof. induction t as [|c t IH]; simpl; [lia|]. destruct (p c); simpl; lia. Qed.

Lemma word_inside cur s : word_at cur s <> "" ->
  (1 <= String.length (word_at cur s))%nat /\ (cur + String.length (word_at cur s) <= String.length (value_buf s))%nat.
Proof.
  intros Hw. assert (1 <= String.length (word_at cur s))%nat as H1 by (destruct (word_at cur s); simpl; [done|lia]).
  split; [done|]. unfold word_at, buf_at in *.
  pose proof (upto_length (is_char " ") (sdrop cur (value_buf s))) as H2. rewrite sdrop_length in H2. lia.
Qed.

Lemma var_words_ends {T} size (body : string -> T -> vars -> outcome (T * vars)) (I : T * vars -> Prop) :
  (forall t s, I (t, s) -> strlen (value_buf s) < Lib.MAX_LEN) ->
  (forall w t s, I (t, s) -> ends I (body w t s)) ->
  forall fuel next t s, I (t, s) ->
    match next with None => 0 < Z.of_nat fuel
    | Some k => Z.of_nat k <= Lib.MAX_LEN < Z.of_nat (fuel + k) end ->
    ends I (var_words size body fuel next t s).
Proof.
  intros Hbuf Hbody. induction fuel as [|fuel IH]; intros [k|] t s Hs Hf; cbn [var_words]; try done; try lia.
  destruct (_ <=? _); [done|]. case_bool_decide as Hw; [done|]. destruct (word_inside _ _ Hw) as [H1 H2].
  pose proof (Hbuf t s Hs) as Hb. unfold strlen in Hb.
  assert (k <= skip_from k s)%nat as Hk by (unfold skip_from; lia).
  eapply ends_bind; [by apply Hbody|]. intros [t' s'] Hs'. apply IH; [done|].
  unfold next_of. destruct (from _ _); lia.
Qed.

Lemma foreach_var_ends {T} size (body : string -> T -> vars -> outcome (T * vars)) (J : T -> Prop) G name t s :
  strlen name < Lib.MAX_LEN -> J t -> ok G s ->
  (forall w t s, J t -> ok G s -> ends (fun r => J r.1 /\ ok G r.2) (body w t s)) ->
  ends (fun r => J r.1 /\ ok G r.2) (foreach_var size body name t s).
Proof.
  intros Hn Ht Hs Hbody. unfold foreach_var, nvram_get.
  apply (var_words_ends size body (fun r => J r.1 /\ ok G r.2)); cbn [fst snd].
  - intros t' s' [_ Hs']. by apply (ok_buf G).
  - intros w t' s' [Ht' Hs']. by apply Hbody.
  - split; [done|]. by apply get_ok.
  - change Lib.MAX_LEN with 8192. lia.
Qed.

(** ** Writing a rule *)

Lemma format_ends t : ends (fun _ => True) (format_text t).
Proof.
  assert (forall n t, (String.length t <= n)%nat -> ends (fun _ => True) (format_text t)) as Hn; [|by apply (Hn (String.length t))].
  induction n as [|n IH]; intros [|c u] Hl; simpl in Hl; try done; try lia. cbn [format_text].
  destruct (is_char "%" c).
  - destruct u as [|d u]; [done|]. destruct (is_char "%" d); [|done]. eapply ends_bind; [apply IH; simpl in Hl; lia|done].
  - eapply ends_bind; [apply IH; lia|done].
Qed.
Lemma desc_ends d : ends (fun _ => True) (desc_text d).
Proof. unfold desc_text. case_bool_decide; [done|]. eapply ends_bind; [apply format_ends|done]. Qed.
Lemma rule_text_ends r : ends (fun _ => True) (rule_text r).
Proof. destruct r; (eapply ends_bind; [apply desc_ends|done]). Qed.

Lemma rule_name_kept which r : kept_name (rule_name which r) = true.
Proof. destruct r; apply rule_kept. Qed.

Lemma set_rule_ends G which r s : G ⊆ old_names -> ok G s -> ends (fun x => ok G x.2) (set_rule which r s).
Proof.
  intros HG Hs. rewrite set_rule_unfold. destruct (valid_rule r); [|done].
  eapply ends_bind; [apply rule_text_ends|]. intros text _. unfold store_rule.
  destruct (Z.leb_spec 1000 (strlen text)); [done|]. cbn [ends].
  apply set_ok; [done|apply rule_name_kept| |done]. change Lib.MAX_LEN with 8192. lia.
Qed.

Lemma assert_ends G (x : bool * vars) : ok G x.2 -> ends (ok G) (assert_valid x).
Proof. intros Hx. unfold assert_valid. by destruct x.1. Qed.

(** ** The conversions *)

Lemma small_search G i s : 0 <= i <= Drv.NVRAM_SPACE -> ok G s -> i + Z.of_nat (size (table s)) < 2 ^ 31.
Proof. intros Hi Hs. pose proof (ok_size G s Hs). change Drv.NVRAM_SPACE with 0xd400 in *. lia. Qed.

(** An older list: each word is handled, then the variable is unset. *)
Lemma convert_list_ends {T} size (body : string -> T -> vars -> outcome (T * vars)) G name t s :
  strlen name < Lib.MAX_LEN -> ok G s ->
  (forall w t s, ok G s -> ends (fun r => ok G r.2) (body w t s)) ->
  ends (ok (name :: G)) ('(_, s) ← foreach_var size body name t s; Ret (nvram_unset name s)).
Proof.
  intros Hn Hs Hb. eapply ends_bind.
  - apply (foreach_var_ends size body (fun _ => True) G); try done. intros w t' s' _ Hs'.
    eapply ends_mono; [by apply Hb|]. auto.
  - intros [t' s'] [_ Hs']. by apply unset_ok.
Qed.

Lemma convert_forward_ends G name p s : G ⊆ old_names -> strlen name < Lib.MAX_LEN -> ok G s ->
  ends (ok (name :: G)) (convert_forward_proto name p s).
Proof.
  intros HG Hn Hs. apply convert_list_ends; [done|done|]. clear s Hs. intros w [] s Hs.
  destruct (parse_forward_word p w) as [nat|]; [|done].
  eapply ends_bind; [apply (search_ends (name := forward_name)); [done|lia|by eapply small_search; [|done]|done]|].
  intros [i s1] (Hs1 & _). eapply ends_bind; [by apply (set_rule_ends G i (Forward nat))|].
  intros x Hx. eapply ends_bind; [apply (assert_ends G); exact Hx|done].
Qed.

Lemma add_filter_ends G i start fin s : G ⊆ old_names -> 0 <= i <= Drv.NVRAM_SPACE -> ok G s ->
  ends (fun r => ok G r.2 /\ i <= r.1 <= i + Drv.NVRAM_SPACE) (add_filter i start fin s).
Proof.
  intros HG Hi Hs. unfold add_filter.
  eapply ends_bind; [apply (search_ends (name := filter_name)); [done|lia|by eapply small_search; [|done]|done]|].
  intros [j s1] (Hs1 & _ & Hj & _). cbn [fst snd] in *. pose proof (ok_size G s Hs).
  eapply ends_bind; [by apply (set_rule_ends G j (Client start fin))|]. intros x Hx.
  eapply ends_bind; [apply (assert_ends G); exact Hx|]. intros s2 Hs2. cbn [ends fst snd]. split; [done|lia].
Qed.

Lemma convert_filter_ip_ends G s : G ⊆ old_names -> ok G s -> ends (ok ("filter_ip" :: G)) (convert_filter_ip s).
Proof.
  intros HG Hs. apply convert_list_ends; [done|done|]. clear s Hs. intros w [] s Hs.
  destruct (split w "-") as [[a b]|]; [|done]. cbn zeta.
  eapply ends_bind; [by apply (add_filter_ends G 0)|]. intros [i s1] [Hs1 Hi]. cbn [fst snd] in *.
  eapply ends_bind; [by apply (add_filter_ends G i); [|lia|]|]. intros [j s2] [Hs2 _]. exact Hs2.
Qed.

Lemma convert_filter_proto_ends G name p s : G ⊆ old_names -> strlen name < Lib.MAX_LEN -> ok G s ->
  ends (ok (name :: G)) (convert_filter_proto name p s).
Proof.
  intros HG Hn Hs. apply convert_list_ends; [done|done|]. clear s Hs. intros w [] s Hs.
  destruct (_ ← split w ":"; _) as [[[a p0] p1]|]; [|done]. cbn zeta.
  eapply ends_bind; [by apply (add_filter_ends G 0)|]. intros [i s1] [Hs1 Hi]. exact Hs1.
Qed.

Lemma convert_filter_port1_ends G i s : G ⊆ old_names -> ok G s ->
  ends (ok (("filter_port" +:+ dec i) :: G)) (convert_filter_port1 i s).
Proof.
  intros HG Hs. unfold convert_filter_port1, nvram_get.
  assert (ok G (mk_vars (table s) (peek ("filter_port" +:+ dec i) s))) as H1
    by (apply get_ok; [apply name_short; vm_compute; done|done]).
  eapply (ends_bind (ok G)); [|intros s' Hs'; by apply unset_ok].
  destruct (bool_decide _); [done|].
  assert (ok G (mk_vars (table s) (peek "lan_ipaddr" s))) as H2 by (by apply get_ok).
  cbn [table]. unfold peek at 2 4. cbn [table]. fold (peek "lan_ipaddr" s).
  destruct (parse_filter_port _ _ _) as [[a b]|]; [|done].
  eapply ends_bind; [by apply (add_filter_ends G 0)|]. intros [j s1] [Hs1 _]. exact Hs1.
Qed.

Lemma convert_filter_port_ends G s : G ⊆ old_names -> ok G s ->
  ends (ok ("filter_port" :: "filter_port6" :: "filter_port5" :: "filter_port4" :: "filter_port3" ::
            "filter_port2" :: "filter_port1" :: G)) (convert_filter_port s).
Proof.
  intros HG Hs. unfold convert_filter_port. cbn [convert_loop].
  eapply ends_bind; [|intros s' Hs'; apply (unset_ok _ "filter_port" s'); exact Hs'].
  repeat (eapply ends_bind; [apply convert_filter_port1_ends; [|eassumption]; repeat (apply old_cons; [reflexivity|]); done|intros ? ?]).
  done.
Qed.

Lemma ok_sub G G' s : G' ⊆ G -> ok G s -> ok G' s.
Proof.
  intros Hsub [Hb Hv Hz Hg]. constructor; try done. rewrite Forall_forall in *. auto.
Qed.

Lemma convert_maclist_ok G prefix s : G ⊆ old_names -> strlen (prefix +:+ "_mac") < Lib.MAX_LEN ->
  kept_name (prefix +:+ "_maclist") = true -> kept_name (prefix +:+ "_macmode") = true -> ok G s ->
  ok ((prefix +:+ "_mac") :: G) (convert_maclist prefix s).
Proof.
  intros HG Hn H1 H2 Hs. unfold convert_maclist, nvram_get. pose proof (get_ok G _ s Hn Hs) as H3.
  pose proof (set_ok G _ _ _ HG H1 (peek_short G _ s Hn Hs) H3) as H4.
  destruct (nvram_set (prefix +:+ "_maclist") _ _) as [b s1]. cbn [snd] in H4. apply unset_ok.
  case_bool_decide; [|done]. by apply set_ok.
Qed.

Lemma convert_pppoe_ifname_ok G s : G ⊆ old_names -> ok G s -> ok ("pppoe_ifname" :: G) (convert_pppoe_ifname s).
Proof.
  intros HG Hs. unfold convert_pppoe_ifname, nvram_invmatch, nvram_match, nvram_get. apply unset_ok.
  destruct s as [t b]. cbn [table].
  assert (forall n b', strlen n < Lib.MAX_LEN -> ok G (mk_vars t (peek n (mk_vars t b')))) as Hget
    by (intros n b' Hn; by apply (get_ok G n (mk_vars t b))).
  destruct (negb _); [|by apply Hget]. destruct (bool_decide _); [|by apply Hget].
  apply set_ok; [done|reflexivity|by apply (peek_short G "pppoe_ifname" (mk_vars t b))|by apply Hget].
Qed.

Lemma convert_autofw1_ends G i s : G ⊆ old_names -> ok G s -> ends (ok G) (convert_autofw1 i s).
Proof.
  intros HG Hs. unfold convert_autofw1.
  eapply ends_bind; [by apply rule_value_ends; [apply name_short; vm_compute|]|].
  intros [v s1] (Hs1 & _ & _). cbn [fst snd] in *.
  assert (forall n, ok G (nvram_unset n s1)) as Hun
    by (intros n; apply (ok_sub (n :: G)); [by apply list_subseteq_cons|by apply unset_ok]).
  destruct (v ≫= split_autofw) as [f|]; [|apply Hun]. destruct (strsep (out_range f) "-").2; [done|].
  destruct (autofw_of_fields _ _) as [app|]; [|apply Hun]. unfold nvram_get.
  eapply ends_bind; [apply (set_rule_ends G i (Autofw app)); [done|by apply get_ok]|].
  intros x Hx. apply (assert_ends G). exact Hx.
Qed.

Lemma convert_loop_ends G f l s : (forall i s, ok G s -> ends (ok G) (f i s)) -> ok G s ->
  ends (ok G) (convert_loop f l s).
Proof.
  intros Hf. revert s. induction l as [|i l IH]; intros s Hs; [done|]. cbn [convert_loop].
  eapply ends_bind; [by apply Hf|]. auto.
Qed.

Lemma convert_pppoe_ok l : l ⊆ old_names ->
  forallb (fun n => kept_name ("wan_" +:+ n) && (strlen n <? Lib.MAX_LEN)) l = true ->
  forall G s, G ⊆ old_names -> ok G s -> exists G', G ⊆ G' /\ l ⊆ G' /\
    ok G' (foldl (fun s old =>
      let '(value, s) := nvram_get old s in
      let '(_, s) := nvram_set ("wan_" +:+ old) value s in nvram_unset old s) s l).
Proof.
  induction l as [|n l IH]; intros Hl Hk G s HG Hs;
    [exists G; split_and!; [done|set_solver|done]|].
  cbn [forallb] in Hk. apply andb_prop in Hk as [[Hk Hn%Z.ltb_lt]%andb_prop Hk']. cbn [foldl nvram_get].
  pose proof (set_ok G _ _ _ HG Hk (peek_short G n s Hn Hs) (get_ok G n s Hn Hs)) as H1.
  destruct (nvram_set ("wan_" +:+ n) _ _) as [b s1]. cbn [snd] in H1.
  destruct (IH ltac:(set_solver) Hk' (n :: G) (nvram_unset n s1)) as (G' & H2 & H3 & H4);
    [set_solver|by apply unset_ok|]. exists G'. split_and!; [set_solver..|exact H4].
Qed.

Lemma convert_static_route_ends G s : G ⊆ old_names -> ok G s -> ends (ok G) (convert_static_route s).
Proof.
  intros HG Hs. unfold convert_static_route. eapply ends_bind.
  - apply (foreach_var_ends 80 _ (fun _ => True) G); [done..|]. intros w [lan wan] s' _ Hs'.
    assert (forall c p, ends (fun _ : string => True) (add_route c p)) as Hadd
      by (intros c p; unfold add_route; by destruct (_ <? _)).
    destruct (split_route w) as [[piece ifname]|]; [|done].
    repeat (case_bool_decide; [eapply ends_bind; [apply Hadd|]; done|]). done.
  - intros [[lan wan] s'] [_ Hs']. cbn [ends fst snd] in *.
    assert (ok G (if bool_decide (lan = "") then s' else (nvram_set "lan_route" (String.substring 0 999 lan) s').2)) as H1
      by (case_bool_decide; [done|]; apply set_ok; [done|done|by apply substring_short|done]).
    destruct (bool_decide (wan = "")); [exact H1|]. apply set_ok; [done|done|by apply substring_short|exact H1].
Qed.

Lemma sub_names l G : forallb (fun n => existsb (String.eqb n) G) l = true -> l ⊆ G.
Proof.
  intros Hl n Hn. rewrite forallb_forall in Hl. specialize (Hl n). rewrite existsb_exists in Hl.
  destruct Hl as (m & Hm & ->%String.eqb_eq); by apply list_elem_of_In.
Qed.

Ltac old_sub := by repeat (apply old_cons; [done|]).

Lemma convert_all s : ok [] s -> ends (ok old_names) (convert_deprecated s).
Proof.
  intros Hs. unfold convert_deprecated. pose proof old_nil as HG.
  eapply ends_bind; [by apply convert_forward_ends|]. intros s1 H1.
  eapply ends_bind; [eapply convert_forward_ends; [|done|exact H1]; old_sub|]. intros s2 H2.
  eapply ends_bind; [eapply convert_filter_ip_ends; [|exact H2]; old_sub|]. intros s3 H3.
  eapply ends_bind; [eapply convert_filter_proto_ends; [|done|exact H3]; old_sub|]. intros s4 H4.
  eapply ends_bind; [eapply convert_filter_proto_ends; [|done|exact H4]; old_sub|]. intros s5 H5.
  eapply ends_bind; [eapply convert_filter_port_ends; [|exact H5]; old_sub|]. intros s6 H6.
  apply (convert_maclist_ok _ "filter") in H6; [|old_sub|done|done|done].
  apply (convert_maclist_ok _ "wl") in H6; [|old_sub|done|done|done].
  apply convert_pppoe_ifname_ok in H6; [|old_sub].
  match type of H6 with ok ?G _ => assert (G ⊆ old_names) as HG6 by (old_sub) end.
  eapply ends_bind; [apply convert_loop_ends; [intros i s7; apply convert_autofw1_ends; exact HG6|exact H6]|].
  intros s7 H7. apply convert_static_route_ends; [done|].
  destruct (convert_pppoe_ok pppoe_names ltac:(by apply sub_names) eq_refl _ s7 HG6 H7) as (G' & Hsub & Hnames & H8).
  apply (ok_sub G'); [|exact H8]. intros n Hn. apply elem_of_app in Hn as [Hn|Hn]; [|by apply Hnames].
  apply Hsub. revert n Hn. by apply sub_names.
Qed.
End Steps.

(** ** Examples *)

#[local] Existing Instance DemoRules.driver.

Module DemoConvert.
#[local] Instance bounded : Bounded.
Proof. intros t n v Hr. exact (bool_decide_eq_true_1 _ Hr). Qed.

Definition vars_of (l : list (string * string)) : vars :=
  mk_vars (list_to_map (("lan_ifname", "br0") :: ("lan_ipaddr", "192.168.1.1") :: l)) "".
Definition value (n : string) (r : outcome vars) : option string :=
  match r with Ret s => table s !! n | _ => None end.
Definition used : vars :=
  vars_of [("forward_port0", "80-80>192.168.1.5:80-80,tcp,on,web"); ("forward_port1", "22-22>192.168.1.6:22-22,tcp,off")].
Definition old : vars :=
  vars_of [("forward_tcp", "80-80>192.168.1.5:80-80"); ("filter_ip", "192.168.1.10-192.168.1.20");
           ("filter_mac", ""); ("wl_mac", ""); ("pppoe_ifname", "eth1"); ("wan_proto", "pppoe")].

Lemma used_ok : ok [] used.
Proof. constructor; [done|by apply (bool_decide_unpack _); vm_compute|by vm_compute|done]. Qed.
Lemma old_ok : ok [] old.
Proof. constructor; [done|by apply (bool_decide_unpack _); vm_compute|by vm_compute|done]. Qed.
End DemoConvert.

(** The search for a free number ends: from a number on, with all values
    readable, it gives within as many steps as there are variables a number
    below which all are in use and which itself is no rule. It defines and
    removes no variable. *)
Theorem search_first_free `{Driver} {bounded : Bounded} {R} (name : Z -> string)
    (get : Z -> vars -> outcome (option R * vars)) {reader : Reader name get} (i : Z) (s : vars) :
  0 <= i -> i + Z.of_nat (size (table s)) < 2 ^ 31 -> ok [] s -> search get i s <> Running /\
  forall j s', search get i s = Ret (j, s') ->
    dom (table s') = dom (table s) /\ i <= j <= i + Z.of_nat (size (table s)) /\
    (forall k, i <= k < j -> name k ∈ dom (table s)) /\ exists s1, get j s1 = Ret (None, s').
Proof.
  intros Hi Hb Hs. pose proof (search_ends [] i s old_nil Hi Hb Hs) as He. split; [by intros E; rewrite E in He|].
  intros j s' E. rewrite E in He. apply He.
Qed.

Lemma search_first_free_witness :
  search get_forward_port 0 DemoConvert.used <> Running /\
  exists s', search get_forward_port 0 DemoConvert.used = Ret (2, s') /\ dom (table s') = dom (table DemoConvert.used).
Proof.
  pose proof DemoConvert.bounded.
  destruct (search_first_free forward_name get_forward_port 0 DemoConvert.used) as [H1 H2];
    [lia|by vm_compute|apply DemoConvert.used_ok|]. split; [exact H1|].
  assert (exists s', search get_forward_port 0 DemoConvert.used = Ret (2, s')) as [s' E]
    by (eexists; vm_compute; reflexivity).
  exists s'. split; [exact E|]. apply (H2 2 s' E).
Defined.

(** C24. The conversion at boot never loops, for every content of the variables
    whose values can be read, also when a variable is read again while the words of
    another one are taken: it comes back, exits at the assertion of an older forward
    that is no valid rule ([invalid_forward_aborts]), or runs into undefined behaviour
    on an overlong text. When it comes back, none of the older variables is left, so
    that the next boot has nothing to convert, and all values can be read. *)
Theorem convert_deprecated_ends `{Driver} {bounded : Bounded} (s : vars) :
  ok [] s -> convert_deprecated s <> Running /\
  forall s', convert_deprecated s = Ret s' -> (forall n, n ∈ old_names -> table s' !! n = None) /\ ok [] s'.
Proof.
  intros Hs. pose proof (convert_all s Hs) as He. split; [by intros E; rewrite E in He|].
  intros s' E. rewrite E in He. split; [by apply Forall_forall, (ok_gone old_names)|].
  by apply (ok_sub old_names); [apply old_nil|].
Qed.

Lemma convert_deprecated_ends_witness : exists s', convert_deprecated DemoConvert.old = Ret s' /\
  table s' !! "forward_tcp" = None /\ table s' !! "forward_port0" = Some "80-80>192.168.1.5:80-80,tcp,on" /\
  table s' !! "filter_client1" = Some "192.168.1.10-192.168.1.20:0-65535,udp,0-0,0-0,on".
Proof.
  pose proof DemoConvert.bounded.
  destruct (convert_deprecated_ends DemoConvert.old DemoConvert.old_ok) as [_ He].
  assert (exists s', convert_deprecated DemoConvert.old = Ret s' /\
    table s' !! "forward_port0" = Some "80-80>192.168.1.5:80-80,tcp,on" /\
    table s' !! "filter_client1" = Some "192.168.1.10-192.168.1.20:0-65535,udp,0-0,0-0,on") as (s' & E & E1 & E2)
    by (eexists; vm_compute; done).
  exists s'. split; [exact E|]. split; [|split; [exact E1|exact E2]]. destruct (He s' E) as [Hn _].
  apply Hn. by left.
Defined.


(** ** What the conversion loses *)

Section Losses.
Context `{Driver}.

Lemma colon_none t : strchr t ":" = None -> forall l0 l1, parse_filter_port t l0 l1 = None.
Proof. intros Ht l0 l1. unfold parse_filter_port, colon. by rewrite Ht. Qed.

(** A filter_port is never converted: the text that is parsed is the one of
    lan_ipaddr, which has no colon. The variable is unset. *)
Lemma filter_port_dropped i s : strchr (peek "lan_ipaddr" s) ":" = None ->
  exists b, convert_filter_port1 i s = Ret (mk_vars (delete ("filter_port" +:+ dec i) (table s)) b).
Proof.
  intros Hc. unfold convert_filter_port1, nvram_get. destruct (bool_decide _); [by eexists|].
  cbn [table]. change (peek "lan_ipaddr" (mk_vars (table s) _)) with (peek "lan_ipaddr" s).
  unfold buf_at. cbn [value_buf sdrop]. rewrite colon_none by exact Hc. by eexists.
Qed.
End Losses.

(** Of two forwards of the older form the second one is lost: the words are
    taken from the buffer of nvram_get, which holds another value by then. *)
Lemma second_forward_lost :
  let r := convert_forward_proto "forward_tcp" IPPROTO_TCP
    (DemoConvert.vars_of [("forward_tcp", "80-80>192.168.1.5:80-80 22-22>192.168.1.6:22-22")]) in
  DemoConvert.value "forward_port0" r = Some "80-80>192.168.1.5:80-80,tcp,on" /\
  DemoConvert.value "forward_port1" r = None /\ DemoConvert.value "forward_tcp" r = None.
Proof. by vm_compute. Qed.

(** An older forward that is no valid rule aborts the process, at every boot,
    since the variable stays. *)
Lemma invalid_forward_aborts :
  convert_deprecated (DemoConvert.vars_of [("forward_tcp", "80-80>somewhere:80-80")]) = Exit SIGABRT_exit.
Proof. by vm_compute. Qed.

(** Variables that do not exist are converted to their own names. *)
Lemma undefined_maclist :
  let r := convert_deprecated (DemoConvert.vars_of []) in
  DemoConvert.value "filter_maclist" r = Some "filter_mac" /\
  DemoConvert.value "wan_pppoe_username" r = Some "pppoe_username".
Proof. by vm_compute. Qed.

(** A rule without description that follows a new network gets one. *)
Lemma null_description : exists s,
  get_forward_port 0 (DemoConvert.vars_of [("forward_port0", "80-80>10.0.0.5:80-80,tcp,on")]) =
    Ret (Some (Nat (Match IPPROTO_TCP 0 0 (0, htons 0xffff) (htons 80, htons 80) "" 0 (0, 0) (0, 0))
      NETCONF_DNAT "" (htonl 0xc0a80105) (htons 80, htons 80)), s) /\
  table s !! "forward_port0" = Some "80-80>192.168.1.5:80-80,tcp,on,(null)".
Proof. eexists. by vm_compute. Qed.

(** A percent sign in a description is a conversion of snprintf. *)
Lemma percent_description :
  set_forward_port 0 (Nat (n_match DemoRules.nat) NETCONF_DNAT "50% web" (htonl 0xc0a80105) (ports DemoRules.nat))
    DemoRules.s0 = Fault.
Proof. by vm_compute. Qed.

(** A filter with an address but no mask is read back with a mask. *)
Lemma unmasked_filter : 
  let rule := Filter (Match IPPROTO_TCP (htonl 0xc0a80105) 0 (0, 0) (0, 0) "" 0 (0, 0) (0, 0)) NETCONF_DROP "" in
  exists s s' a b, set_filter_client 0 rule rule DemoRules.s0 = Ret (true, s) /\
    get_filter_client false 0 s = Ret (Some (a, b), s') /\ src_netmask (f_match a) = htonl 0xffffffff.
Proof. cbn zeta. eexists _, _, _, _. split; [vm_compute; reflexivity|]. split; [vm_compute; reflexivity|]. done. Qed.

End ConvertProofs.
