(* ===== verification/Validate.v ===== *)
(** * The validators of form fields (src/router/shared/broadcom.c)

    [Module Validate]: the tests for numbers, names, addresses and masks, the
    general validators of the table of variables, which store a field of the
    form in a variable, and the loop over a table (validate_cgi). The state is
    the variables and the error flag that websDebugWrite sets; the text it
    writes is not kept. COUNTRY is not JAPAN in this build. *)

From Stdlib Require Import ZArith Lia Ascii.
From stdpp Require Import base numbers sets gmap strings list.
From S2P Require Import Prelude CString Vars.
Import Vars.
Open Scope string_scope.
Open Scope Z_scope.
Open Scope list_scope.

Module Validate.

(** ** Tests of a text *)

Definition chars_all (p : ascii -> bool) (t : string) : bool := forallb p (String.list_ascii_of_string t).
Definition isascii (c : ascii) : bool := code c <? 128.

Definition ISDIGIT (value : string) (flag : bool) : bool :=
  if bool_decide (value = "") then negb flag else chars_all isdigit value.
Definition ISASCII (value : string) (flag : bool) : bool :=
  if bool_decide (value = "") then negb flag else chars_all isascii value.

(** The loop of [legal_hwaddr]: [tag], [i] and [count]. *)
Fixpoint hw_loop (s : string) (i count : Z) : bool * Z * Z :=
  match s with
  | EmptyString => (true, i, count)
  | String c s =>
      if is_char ":" c then
        if Z.rem (i + 1) 3 =? 0 then hw_loop s (i + 1) (count + 1) else (false, i, count)
      else if isxdigit c then hw_loop s (i + 1) count
      else (false, i, count)
  end.

(** Reading "%x:%x:...": the fields found, at most [n] + 1. *)
Fixpoint scan_hex (n : nat) (s : string) : list Z :=
  let '(v, e) := strtoul s 16 in
  if bool_decide (e = s) then []
  else v :: match n, e with S n, String ":" e => scan_hex n e | _, _ => [] end.

Definition legal_hwaddr (value : string) : bool :=
  let '(tag, i, count) := hw_loop value 0 0 in
  if negb tag || negb (i =? 17) || negb (count =? 5) then false
  else (length (scan_hex 5 value) =? 6)%nat.

(** The loops of [legal_netmask]: [match0], [match1] and one of the numbers. *)
Definition mask_bit (x : Z * Z * Z) (pos : Z) : Z * Z * Z :=
  let '(match0, match1, ip) := x in
  if Z.rem ip 2 =? 0 then (pos, match1, Z.quot ip 2)
  else if (Z.rem ip 2 =? 1) && (match1 =? -1) then (match0, pos, Z.quot ip 2)
  else (match0, match1, Z.quot ip 2).
Definition mask_octet (ip : list Z) (m : Z * Z) (i : nat) : Z * Z :=
  (foldl (fun x j => mask_bit x ((3 - Z.of_nat i) * 8 + j)) (m, nth i ip 0) [1; 2; 3; 4; 5; 6; 7; 8]).1.
Definition legal_netmask (value : string) : bool :=
  let ip := scan_dotted 3 value in
  let m := if (length ip =? 4)%nat && bool_decide (is_Some (inet_aton value))
           then foldl (mask_octet ip) (-1, -1) [3; 2; 1; 0]%nat else (-1, -1) in
  negb (m.2 <=? m.1).

Definition legal_ipaddr (value : string) : bool :=
  (length (scan_dotted 3 value) =? 4)%nat && bool_decide (is_Some (inet_aton value)).

(** An address that cannot be read leaves its structure undefined. *)
Definition legal_ip_netmask (sip smask dip : string) (s : vars) : outcome (bool * vars) :=
  let '(a, s) := nvram_get sip s in
  netaddr ← deref (inet_aton a);
  let '(m, s) := nvram_get smask s in
  netmask ← deref (inet_aton m);
  ipaddr ← deref (inet_aton dip);
  Ret (Z.land netaddr netmask =? Z.land ipaddr netmask, s).

(** ** Fields and variables *)

Record page := mk_page { nv : vars; error_value : bool }.

(** The general validators, which the entries of the table point to. *)
Inductive validator :=
  | Validate_netmask | Validate_merge_netmask | Validate_ipaddr | Validate_ipaddrs | Validate_merge_ip_4
  | Validate_merge_ipaddrs | Validate_merge_mac | Validate_dns | Validate_choice | Validate_range
  | Validate_name | Validate_password | Validate_hwaddr | Validate_hwaddrs.

(** The title of a variable is used in messages only. *)
Record variable := Variable_ {
  name : string;
  validate : option validator;
  argv : option (list string);
  nullok : bool
}.

Definition TMP_PASSWD : string := "d6nw5v1x2pc7st9m".

Section Form.
Context `{Driver} (form : gmap string string).

Definition websGetVar (n : string) : option string := form !! n.

Definition save (n v : string) (p : page) : page := mk_page (nvram_set n v (nv p)).2 (error_value p).
(** [websDebugWrite] *)
Definition report (p : page) : page := mk_page (nv p) true.
Definition tested (b : bool) (p : page) : bool * page := (b, if b then p else report p).

Definition arg (v : variable) (k : nat) : outcome string := deref (default [] (argv v) !! k).

(** [strcat] of pieces to a buffer of [size] bytes. *)
Definition fit (size : Z) (t : string) : outcome string := if size <=? strlen t then Fault else Ret t.
(** [cur += snprintf(cur, buf + sizeof(buf) - cur, "%s%s", cur == buf ? "" : " ", word)]: the
    text without a bound; the place must be inside the buffer or at its end. *)
Definition add_word (size : Z) (cur word : string) : outcome string :=
  if size <? strlen cur then Fault
  else Ret (cur +:+ (if bool_decide (cur = "") then "" else " ") +:+ word).
Definition buffer (size : nat) (t : string) : string := String.substring 0 (size - 1) t.

Definition field_name (v : variable) (i : Z) : string := buffer 30 (name v +:+ "_" +:+ dec i).

(** Fields joined by [strcat] to a buffer of [size] bytes; [None] when one is
    missing. *)
Fixpoint merge (size : Z) (get : Z -> option string) (sep : string) (l : list Z) (cur : string)
    : outcome (option string) :=
  match l with
  | [] => Ret (Some cur)
  | i :: l =>
      match get i with
      | None => Ret None
      | Some t =>
          cur ← fit size (cur +:+ t +:+ (match l with [] => "" | _ => sep end));
          merge size get sep l cur
      end
  end.

Definition get_merge_ipaddr (v : variable) : outcome string :=
  t ← merge 20 (fun i => Some (default "0" (websGetVar (field_name v i)))) "." [0; 1; 2; 3] "";
  deref t.

Definition two_digits (mac : string) : string := if strlen mac =? 1 then "0" +:+ mac else mac.
Definition get_merge_mac (v : variable) : outcome string :=
  t ← merge 20 (fun i => Some (two_digits (default "00" (websGetVar (field_name v i))))) ":"
        [0; 1; 2; 3; 4; 5] "";
  deref t.

(** ** Tests of a value *)

Definition valid_wep_key (value : string) (p : page) : bool * page :=
  let n := strlen value in
  tested (if (n =? 5) || (n =? 13) then chars_all isascii value
          else if (n =? 10) || (n =? 26) then chars_all isxdigit value else false) p.

Definition valid_netmask (value : string) (p : page) : bool * page := tested (legal_netmask value) p.

(** The last two characters are read: the value is an address by then. *)
Definition ends_in_0 (value : string) : bool :=
  bool_decide (String.substring (String.length value - 2) 2 value = ".0").

Definition valid_ipaddr (v : variable) (value : string) (p : page) : outcome (bool * page) :=
  if negb (legal_ipaddr value) then Ret (false, report p) else
  match argv v with
  | None => Ret (true, p)
  | Some _ =>
      a ← arg v 0;
      if bool_decide (a = "lan") then Ret (tested (negb (ends_in_0 value)) p)
      else
        m ← arg v 1;
        '(b, s) ← legal_ip_netmask a m value (nv p);
        Ret (tested b (mk_page s (error_value p)))
  end.

Definition get_single_ip (a : string) (which : nat) : Z := nth which (scan_dotted 3 a) 0.

Definition valid_merge_ip_4 (v : variable) (value : string) (p : page) : outcome (bool * page) :=
  if atoi value =? 255 then Ret (false, report p) else
  let '(lan, s) := nvram_get "lan_ipaddr" (nv p) in
  ipaddr ← fit 20 (dec (get_single_ip lan 0) +:+ "." +:+ dec (get_single_ip lan 1) +:+ "." +:+
                   dec (get_single_ip lan 2) +:+ "." +:+ value);
  valid_ipaddr v ipaddr (mk_page s (error_value p)).

Definition valid_choice (v : variable) (value : string) (p : page) : outcome (bool * page) :=
  choices ← deref (argv v);
  Ret (tested (existsb (String.eqb value) choices) p).

Definition valid_range (v : variable) (value : string) (p : page) : outcome (bool * page) :=
  start ← arg v 0;
  fin ← arg v 1;
  let n := atoi value in
  Ret (tested (negb (negb (ISDIGIT value true) || (n <? atoi start) || (atoi fin <? n))) p).

(** The length is unsigned, and so is the bound in the comparison. *)
Definition valid_name (v : variable) (value : string) (p : page) : outcome (bool * page) :=
  max ← arg v 0;
  Ret (tested (ISASCII value true && negb (u32 (atoi max) <? strlen value)) p).

Definition valid_hwaddr (value : string) (p : page) : bool * page :=
  tested (bool_decide (value = "NOT_IMPLEMENTED") || legal_hwaddr value) p.

(** ** The validators *)

Definition save_if (r : bool * page) (n value : string) : page := if (r.1 : bool) then save n value r.2 else r.2.

(** The loop of [validate_list]: the text, or [None] when a field is missing. A
    turn that goes on has found another field of the form. *)
Section List.
Context (v : variable) (valid : string -> page -> outcome (bool * page)).
Fixpoint list_loop (fuel : nat) (i n : Z) (cur : string) (p : page) : outcome (option string * page) :=
  match fuel with
  | O => Running
  | S fuel =>
      if n <=? i then Ret (Some cur, p) else
      match websGetVar (buffer 100 (name v +:+ dec i)) with
      | None => Ret (None, p)
      | Some value =>
          if bool_decide (value = "") && nullok v then list_loop fuel (i + 1) n cur p else
          '(b, p) ← valid value p;
          if (b : bool) then cur ← add_word 1000 cur value; list_loop fuel (i + 1) n cur p
          else list_loop fuel (i + 1) n cur p
      end
  end.
Definition validate_list (value : string) (p : page) : outcome page :=
  '(t, p) ← list_loop (S (size form)) 0 (atoi value) "" p;
  Ret (match t with Some t => save (name v) (buffer 1000 t) p | None => p end).
End List.

(** The three addresses of [validate_dns]. *)
Definition dns_field (v : variable) (j i : Z) : option string :=
  websGetVar (buffer 30 (name v +:+ dec j +:+ "_" +:+ dec i)).
Fixpoint dns_loop (v : variable) (l : list Z) (cur : string) (p : page) : outcome (option string * page) :=
  match l with
  | [] => Ret (Some cur, p)
  | j :: l =>
      t ← merge 20 (dns_field v j) "." [0; 1; 2; 3] "";
      match t with
      | None => Ret (None, p)
      | Some ipaddr =>
          if bool_decide (ipaddr = "0.0.0.0") then dns_loop v l cur p else
          '(b, p) ← valid_ipaddr v ipaddr p;
          if (b : bool) then cur ← add_word 100 cur ipaddr; dns_loop v l cur p
          else dns_loop v l cur p
      end
  end.

Definition validate_netmask (v : variable) (value : string) (p : page) : outcome page :=
  Ret (save_if (valid_netmask value p) (name v) value).

(** The fields of the four bytes; the value itself is not used. *)
Definition validate_merge_netmask (v : variable) (p : page) : outcome page :=
  t ← merge 20 (fun i => websGetVar (field_name v i)) "." [0; 1; 2; 3] "";
  Ret (match t with
       | None => p
       | Some netmask => save_if (valid_netmask netmask p) (name v) netmask
       end).

Definition validate_ipaddr (v : variable) (value : string) (p : page) : outcome page :=
  r ← valid_ipaddr v value p; Ret (save_if r (name v) value).

Definition validate_ipaddrs (v : variable) (value : string) (p : page) : outcome page :=
  validate_list v (valid_ipaddr v) value p.

Definition validate_merge_ip_4 (v : variable) (value : string) (p : page) : outcome page :=
  if bool_decide (value = "") then Ret (save (name v) "0" p)
  else r ← valid_merge_ip_4 v value p; Ret (save_if r (name v) value).

Definition validate_merge_ipaddrs (v : variable) (p : page) : outcome page :=
  ipaddr ← get_merge_ipaddr v;
  r ← valid_ipaddr v ipaddr p; Ret (save_if r (name v) ipaddr).

Definition validate_merge_mac (v : variable) (p : page) : outcome page :=
  macaddr ← get_merge_mac v;
  Ret (save_if (valid_hwaddr macaddr p) (name v) macaddr).

Definition validate_dns (v : variable) (p : page) : outcome page :=
  '(t, p) ← dns_loop v [0; 1; 2] "" p;
  Ret (match t with Some t => save (name v) (buffer 100 t) p | None => p end).

Definition validate_choice (v : variable) (value : string) (p : page) : outcome page :=
  r ← valid_choice v value p; Ret (save_if r (name v) value).

Definition validate_range (v : variable) (value : string) (p : page) : outcome page :=
  r ← valid_range v value p; Ret (save_if r (name v) (dec (atoi value))).

(** The router name follows the device name. *)
Definition validate_name (v : variable) (value : string) (p : page) : outcome page :=
  r ← valid_name v value p;
  let p := save_if r (name v) value in
  Ret (if bool_decide (name v = "devname") then save "router_name" value p else p).

Definition validate_password (v : variable) (value : string) (p : page) : outcome page :=
  if bool_decide (value = TMP_PASSWD) then Ret p
  else r ← valid_name v value p; Ret (save_if r (name v) value).

Definition validate_hwaddr (v : variable) (value : string) (p : page) : outcome page :=
  Ret (save_if (valid_hwaddr value p) (name v) value).

Definition validate_hwaddrs (v : variable) (value : string) (p : page) : outcome page :=
  validate_list v (fun value p => Ret (valid_hwaddr value p)) value p.

(** [v->validate(wp, value, v)] *)
Definition run_validator (k : validator) (v : variable) (value : string) (p : page) : outcome page :=
  match k with
  | Validate_netmask => validate_netmask v value p
  | Validate_merge_netmask => validate_merge_netmask v p
  | Validate_ipaddr => validate_ipaddr v value p
  | Validate_ipaddrs => validate_ipaddrs v value p
  | Validate_merge_ip_4 => validate_merge_ip_4 v value p
  | Validate_merge_ipaddrs => validate_merge_ipaddrs v p
  | Validate_merge_mac => validate_merge_mac v p
  | Validate_dns => validate_dns v p
  | Validate_choice => validate_choice v value p
  | Validate_range => validate_range v value p
  | Validate_name => validate_name v value p
  | Validate_password => validate_password v value p
  | Validate_hwaddr => validate_hwaddr v value p
  | Validate_hwaddrs => validate_hwaddrs v value p
  end.

(** [validate_cgi] over a table of variables with general validators. *)
Definition validate_field (v : variable) (p : page) : outcome page :=
  match websGetVar (name v) with
  | None => Ret p
  | Some value =>
      match validate v with
      | None => Ret (save (name v) value p)
      | Some k => if bool_decide (value = "") && nullok v then Ret (save (name v) value p)
                  else run_validator k v value p
      end
  end.
Fixpoint validate_cgi (variables : list variable) (p : page) : outcome page :=
  match variables with
  | [] => Ret p
  | v :: l => p ← validate_field v p; validate_cgi l p
  end.
End Form.

(** ** The table

    The entries of [variables] with a general validator, or none, in this build and
    in its order. The other entries have a validator of their page; the whole table is
    [Site.variables]. *)

Definition setup_variables : list variable :=
  [Variable_ "router_name" (Some Validate_name) (Some ["255"]) true;
   Variable_ "wan_hostname" (Some Validate_name) (Some ["255"]) true;
   Variable_ "wan_domain" (Some Validate_name) (Some ["255"]) true;
   Variable_ "wan_proto" (Some Validate_choice) (Some ["dhcp"; "static"; "pppoe"; "pptp"; "heartbeat"]) false;
   Variable_ "ntp_server" None None true;
   Variable_ "ntp_mode" (Some Validate_choice) (Some ["manual"; "auto"]) true;
   Variable_ "daylight_time" (Some Validate_choice) (Some ["0"; "1"]) true;
   Variable_ "timer_interval" (Some Validate_range) (Some ["60"; "9999"]) false;
   Variable_ "time_zone" (Some Validate_choice) (Some ["-12 1 0"; "-11 1 0"; "-10 1 0"; "-09 1 1"; "-08 1 1";
      "-07 1 0"; "-07 2 1"; "-06 1 0"; "-06 2 1"; "-05 1 0"; "-05 2 1"; "-04 1 0"; "-04 2 1"; "-03.5 1 1";
      "-03 1 0"; "-03 2 1"; "-02 1 0"; "-01 1 2"; "+00 1 0"; "+00 2 2"; "+01 1 0"; "+01 2 2"; "+02 1 0";
      "+02 2 2"; "+03 1 0"; "+04 1 0"; "+05 1 0"; "+05.5 1 0"; "+06 1 0"; "+07 1 0"; "+08 1 0"; "+08 2 0";
      "+09 1 0"; "+09.5 0 0"; "+10 1 0"; "+10 2 4"; "+11 1 0"; "+12 1 0"; "+12 2 4"]) false;
   Variable_ "ppp_username" (Some Validate_name) (Some ["63"]) false;
   Variable_ "ppp_passwd" (Some Validate_password) (Some ["63"]) true;
   Variable_ "ppp_keepalive" (Some Validate_choice) (Some ["0"; "1"]) false;
   Variable_ "ppp_demand" (Some Validate_choice) (Some ["0"; "1"]) false;
   Variable_ "ppp_idletime" (Some Validate_range) (Some ["1"; "9999"]) false;
   Variable_ "ppp_redialperiod" (Some Validate_range) (Some ["1"; "9999"]) false;
   Variable_ "ppp_service" (Some Validate_name) (Some ["63"]) true;
   Variable_ "ppp_static" (Some Validate_choice) (Some ["0"; "1"]) true;
   Variable_ "ppp_static_ip" (Some Validate_merge_ipaddrs) None false;
   Variable_ "wan_dns" (Some Validate_dns) None false;
   Variable_ "auto_search_ip" (Some Validate_choice) (Some ["0"; "1"]) false;
   Variable_ "lan_proto" (Some Validate_choice) (Some ["dhcp"; "static"; "dhcprelay"]) false;
   Variable_ "lan_detect_dhcp" (Some Validate_choice) (Some ["0"; "1"]) false;
   Variable_ "dhcp_start" (Some Validate_range) (Some ["0"; "255"]) false;
   Variable_ "dhcp_num" (Some Validate_range) (Some ["1"; "253"]) false;
   Variable_ "dhcp_lease" (Some Validate_range) (Some ["0"; "99999"]) false;
   Variable_ "wan_wins" (Some Validate_merge_ipaddrs) None false;
   Variable_ "http_username" (Some Validate_name) (Some ["63"]) true;
   Variable_ "http_passwd" (Some Validate_password) (Some ["63"]) true;
   Variable_ "upnp_enable" (Some Validate_choice) (Some ["0"; "1"]) false;
   Variable_ "tr064_enable" (Some Validate_choice) (Some ["0"; "1"]) false;
   Variable_ "snmp_enable" (Some Validate_choice) (Some ["0"; "1"]) false;
   Variable_ "get_auth" (Some Validate_name) (Some ["255"]) true;
   Variable_ "set_auth" (Some Validate_name) (Some ["255"]) true;
   Variable_ "devname" (Some Validate_name) (Some ["255"]) true;
   Variable_ "log_level" (Some Validate_range) (Some ["0"; "3"]) false;
   Variable_ "log_enable" (Some Validate_choice) (Some ["0"; "1"]) false;
   Variable_ "log_ipaddr" (Some Validate_range) (Some ["0"; "255"]) false;
   Variable_ "http_remote_username" (Some Validate_name) (Some ["63"]) true;
   Variable_ "http_remote_passwd" (Some Validate_password) (Some ["63"]) true;
   Variable_ "filter" (Some Validate_choice) (Some ["on"; "off"]) false;
   Variable_ "block_wan" (Some Validate_choice) (Some ["0"; "1"]) false;
   Variable_ "block_proxy" (Some Validate_choice) (Some ["0"; "1"]) false;
   Variable_ "block_java" (Some Validate_choice) (Some ["0"; "1"]) false;
   Variable_ "block_activex" (Some Validate_choice) (Some ["0"; "1"]) false;
   Variable_ "block_cookie" (Some Validate_choice) (Some ["0"; "1"]) false;
   Variable_ "remote_management" (Some Validate_choice) (Some ["0"; "1"]) false;
   Variable_ "http_wanport" (Some Validate_range) (Some ["0"; "65535"]) true;
   Variable_ "dmz_enable" (Some Validate_choice) (Some ["0"; "1"]) false;
   Variable_ "dmz_ipaddr" (Some Validate_range) (Some ["0"; "255"]) false;
   Variable_ "multicast_pass" (Some Validate_choice) (Some ["0"; "1"]) false;
   Variable_ "ipsec_pass" (Some Validate_choice) (Some ["0"; "1"]) false;
   Variable_ "pppoe_pass" (Some Validate_choice) (Some ["0"; "1"]) false;
   Variable_ "pptp_pass" (Some Validate_choice) (Some ["0"; "1"]) false;
   Variable_ "l2tp_pass" (Some Validate_choice) (Some ["0"; "1"]) false;
   Variable_ "dsl_modulation" (Some Validate_choice) (Some ["MMODE"; "T1413"; "GDMT"; "GLITE"; "AD2MOD";
      "A2PMOD"]) false;
   Variable_ "remote_upgrade" (Some Validate_choice) (Some ["0"; "1"]) false;
   Variable_ "mtu_enable" (Some Validate_choice) (Some ["0"; "1"]) false;
   Variable_ "wan_mtu" (Some Validate_range) (Some ["576"; "1500"]) false;
   Variable_ "mac_clone_enable" (Some Validate_choice) (Some ["0"; "1"]) true;
   Variable_ "wan_def_hwaddr" (Some Validate_merge_mac) None true;
   Variable_ "upgrade_enable" (Some Validate_choice) (Some ["0"; "1"]) false].
Definition wireless_variables : list variable :=
  [Variable_ "wl_enable" (Some Validate_choice) (Some ["0"; "1"]) true;
   Variable_ "wl_ssid" (Some Validate_name) (Some ["32"]) true;
   Variable_ "wl_closed" (Some Validate_choice) (Some ["0"; "1"]) false;
   Variable_ "wl_country" (Some Validate_choice) (Some ["Worldwide"; "Thailand"; "Israel"; "Jordan"; "China";
      "Japan"; "USA"; "Europe"; "USA Low"; "Japan High"; "All"]) false;
   Variable_ "wl_mode" (Some Validate_choice) (Some ["ap"; "sta"; "wds"]) false;
   Variable_ "wl_lazywds" (Some Validate_choice) (Some ["0"; "1"]) false;
   Variable_ "wl_wds" (Some Validate_hwaddrs) None true;
   Variable_ "wl_radio" (Some Validate_choice) (Some ["0"; "1"]) false;
   Variable_ "wl_channel" (Some Validate_range) (Some ["1"; "14"]) false;
   Variable_ "wl_rate" (Some Validate_choice) (Some ["0"; "1000000"; "2000000"; "5500000"; "6000000";
      "9000000"; "11000000"; "12000000"; "18000000"; "24000000"; "36000000"; "48000000"; "54000000"]) false;
   Variable_ "wl_rateset" (Some Validate_choice) (Some ["all"; "default"; "12"]) false;
   Variable_ "wl_frag" (Some Validate_range) (Some ["256"; "4096"]) false;
   Variable_ "wl_rts" (Some Validate_range) (Some ["0"; "4096"]) false;
   Variable_ "wl_dtim" (Some Validate_range) (Some ["1"; "255"]) false;
   Variable_ "wl_bcn" (Some Validate_range) (Some ["1"; "65535"]) false;
   Variable_ "wl_gmode" (Some Validate_choice) (Some ["-1"; "0"; "1"; "2"; "4"; "5"]) false;
   Variable_ "wl_gmode_protection" (Some Validate_choice) (Some ["off"; "auto"]) false;
   Variable_ "wl_frameburst" (Some Validate_choice) (Some ["off"; "on"]) false;
   Variable_ "wl_plcphdr" (Some Validate_choice) (Some ["long"; "short"]) false;
   Variable_ "wl_phytype" (Some Validate_choice) (Some ["a"; "b"; "g"]) true;
   Variable_ "wl_wpa_gtk_rekey" (Some Validate_range) (Some ["0"; "99999"]) true;
   Variable_ "wl_radius_ipaddr" (Some Validate_merge_ipaddrs) None true;
   Variable_ "wl_radius_port" (Some Validate_range) (Some ["0"; "65535"]) false;
   Variable_ "wl_radius_key" (Some Validate_name) (Some ["255"]) true;
   Variable_ "wl_management_enable" (Some Validate_choice) (Some ["0"; "1"]) false].
Definition service_variables : list variable :=
  [Variable_ "os_server" None None true;
   Variable_ "stats_server" None None true;
   Variable_ "tunnel_entry" None None false;
   Variable_ "qosSW" None None false;
   Variable_ "wan_connection" None None false;
   Variable_ "active_connection_selection" None None false;
   Variable_ "share_wanip" (Some Validate_choice) (Some ["0"; "1"]) false;
   Variable_ "single_pc_mode" (Some Validate_choice) (Some ["0"; "1"]) false;
   Variable_ "share_wanip_comm" (Some Validate_choice) (Some ["0"; "1"]) false;
   Variable_ "igmp_proxy_enable" None None false;
   Variable_ "igmp_proxy_channel" None None false;
   Variable_ "v3authpasw" (Some Validate_password) (Some ["63"]) true;
   Variable_ "v3privpasw" (Some Validate_password) (Some ["63"]) true;
   Variable_ "v3rwuser" (Some Validate_name) (Some ["255"]) true;
   Variable_ "telnet_enable" (Some Validate_choice) (Some ["0"; "1"]) false;
   Variable_ "dns_proxy" (Some Validate_choice) (Some ["0"; "1"]) false].

Definition general_variables : list variable := setup_variables ++ wireless_variables ++ service_variables.

End Validate.
