(* ===== verification/ValidateProofs.v ===== *)
(** * Proofs about the validators

    A mask that is accepted is a row of ones before a row of zeros, a hardware
    address six pairs of hexadecimal digits; and what the loop over the table
    stores in a variable has the form its entry asks for. *)

From Stdlib Require Import ZArith Lia Ascii.
From stdpp Require Import base numbers sets gmap strings list.
From S2P Require Import Prelude CString NvramDrv Nvram Vars TextProofs NvparseProofs Validate.
Import Vars Validate.
Open Scope string_scope.
Open Scope Z_scope.
Open Scope list_scope.

Module ValidateProofs.

(** ** Netmasks *)

(** After the lowest [p] bits, which are [y]: only zeros so far; ones above [q]
    zeros; or a zero above a one. *)
Definition scanned (p y : Z) (m : Z * Z) : Prop :=
  (y = 0 /\ m.2 = -1 /\ m.1 = (if p =? 0 then -1 else p)) \/
  (exists q, 0 <= q < p /\ y = 2 ^ p - 2 ^ q /\ m.2 = q + 1 /\ m.1 = (if q =? 0 then -1 else q)) \/
  ((forall q, 0 <= q <= p -> y <> 2 ^ p - 2 ^ q) /\ 1 <= m.2 <= m.1 /\ m.1 <= p).

Lemma scanned_bit p y m ip : 0 <= p -> 0 <= y < 2 ^ p -> scanned p y m -> 0 <= ip ->
  let x := mask_bit (m, ip) (p + 1) in
  scanned (p + 1) (y + ip mod 2 * 2 ^ p) x.1 /\ x.2 = ip / 2 /\ 0 <= y + ip mod 2 * 2 ^ p < 2 ^ (p + 1).
Proof.
  intros Hp Hy Hs Hi. destruct m as [m0 m1]. unfold mask_bit.
  rewrite Z.rem_mod_nonneg, Z.quot_div_nonneg by lia. rewrite Z.pow_add_r, Z.pow_1_r by lia.
  assert (0 < 2 ^ p) as H2 by (apply Z.pow_pos_nonneg; lia).
  pose proof (Z.mod_pos_bound ip 2 ltac:(lia)) as Hb. destruct (Z.eqb_spec (ip mod 2) 0) as [Eb|Eb].
  - rewrite Eb, Z.mul_0_l, Z.add_0_r. cbn [fst snd]. split; [|split; [done|lia]].
    destruct Hs as [(-> & Hm1 & Hm0)|[(q & Hq & Ey & Hm1 & Hm0)|(Hn & Hm & Hmp)]]; cbn [fst snd] in *.
    + left. split_and!; [done|done|]. cbn [fst snd]. destruct (Z.eqb_spec (p + 1) 0); lia.
    + right; right. assert (0 < 2 ^ q < 2 ^ p) as Hqp by (split; [apply Z.pow_pos_nonneg|apply Z.pow_lt_mono_r]; lia).
      split; [|cbn [fst snd]; lia]. intros r Hr. rewrite Z.pow_add_r, Z.pow_1_r by lia. intros E.
      destruct (Z.le_gt_cases r p) as [Hrp|Hrp].
      * assert (2 ^ r <= 2 ^ p) by (apply Z.pow_le_mono_r; lia). lia.
      * replace r with (p + 1) in E by lia. rewrite Z.pow_add_r, Z.pow_1_r in E by lia. lia.
    + right; right. split; [|cbn [fst snd]; lia]. intros r Hr. rewrite Z.pow_add_r, Z.pow_1_r by lia. intros E.
      destruct (Z.le_gt_cases r p) as [Hrp|Hrp].
      * assert (2 ^ r <= 2 ^ p) by (apply Z.pow_le_mono_r; lia). lia.
      * replace r with (p + 1) in E by lia. rewrite Z.pow_add_r, Z.pow_1_r in E by lia.
        apply (Hn p ltac:(lia)). lia.
  - replace (ip mod 2) with 1 by lia. rewrite Z.mul_1_l, Z.eqb_refl. cbn [andb].
    destruct Hs as [(-> & Hm1 & Hm0)|[(q & Hq & Ey & Hm1 & Hm0)|(Hn & Hm & Hmp)]]; cbn [fst snd] in *; subst.
    + rewrite Z.eqb_refl. cbn [fst snd]. split; [|split; [done|lia]]. right; left. exists p.
      rewrite Z.pow_add_r, Z.pow_1_r by lia. cbn [fst snd]. split_and!; lia || done.
    + assert (q + 1 =? -1 = false) as -> by (apply Z.eqb_neq; lia). cbn [fst snd]. split; [|split; [done|lia]].
      right; left. exists q. rewrite Z.pow_add_r, Z.pow_1_r by lia. cbn [fst snd]. split_and!; lia || done.
    + assert (m1 =? -1 = false) as -> by (apply Z.eqb_neq; lia). cbn [fst snd]. split; [|split; [done|lia]].
      right; right. split; [|cbn [fst snd]; lia]. intros r Hr. rewrite Z.pow_add_r, Z.pow_1_r by lia. intros E.
      destruct (Z.le_gt_cases r p) as [Hrp|Hrp]; [apply (Hn r ltac:(lia)); lia|].
      replace r with (p + 1) in E by lia. rewrite Z.pow_add_r, Z.pow_1_r in E by lia. lia.
Qed.

Lemma scanned_bits n : forall p y m ip, 0 <= p -> 0 <= y < 2 ^ p -> scanned p y m -> 0 <= ip < 2 ^ Z.of_nat n ->
  scanned (p + Z.of_nat n) (y + ip * 2 ^ p) (foldl mask_bit (m, ip) (seqZ (p + 1) (Z.of_nat n))).1.
Proof.
  induction n as [|n IH]; intros p y m ip Hp Hy Hs Hi.
  - replace ip with 0 by lia. rewrite Z.mul_0_l, !Z.add_0_r. exact Hs.
  - rewrite seqZ_cons by lia. cbn [foldl]. rewrite Nat2Z.inj_succ, Z.pow_succ_r in Hi by lia.
    destruct (scanned_bit p y m ip Hp Hy Hs ltac:(lia)) as (Hs' & Ei & Hy').
    destruct (mask_bit (m, ip) (p + 1)) as [m' ip'] eqn:Em. cbn [fst snd] in *. subst ip'.
    replace (Z.pred (Z.of_nat (S n))) with (Z.of_nat n) by lia. rewrite <- Z.add_1_r.
    pose proof (Z.div_mod ip 2 ltac:(lia)) as Hd. pose proof (Z.mod_pos_bound ip 2 ltac:(lia)) as Hb.
    specialize (IH (p + 1) (y + ip mod 2 * 2 ^ p) m' (ip / 2) ltac:(lia) Hy' Hs' ltac:(lia)).
    replace (p + Z.of_nat (S n)) with (p + 1 + Z.of_nat n) by lia.
    replace (y + ip * 2 ^ p) with (y + ip mod 2 * 2 ^ p + ip / 2 * 2 ^ (p + 1)); [exact IH|].
    rewrite Z.pow_add_r, Z.pow_1_r by lia. rewrite Hd at 3. lia.
Qed.

Lemma seqZ_eight a : seqZ (a + 1) 8 = [a + 1; a + 2; a + 3; a + 4; a + 5; a + 6; a + 7; a + 8].
Proof.
  unfold seqZ. change (Z.to_nat 8) with 8%nat. cbn [seq fmap list_fmap].
  by repeat (apply (f_equal2 cons); [lia|]).
Qed.

Lemma scanned_octet ip i p y m : (i <= 3)%nat -> p = (3 - Z.of_nat i) * 8 -> 0 <= y < 2 ^ p -> scanned p y m ->
  0 <= nth i ip 0 <= 255 -> scanned (p + 8) (y + nth i ip 0 * 2 ^ p) (mask_octet ip m i) /\
  0 <= y + nth i ip 0 * 2 ^ p < 2 ^ (p + 8).
Proof.
  intros Hi Ep Hy Hs Hn. split.
  - pose proof (scanned_bits 8 p y m (nth i ip 0) ltac:(lia) Hy Hs ltac:(lia)) as H8.
    change (Z.of_nat 8) with 8 in H8. rewrite seqZ_eight in H8. unfold mask_octet. rewrite <- Ep. exact H8.
  - rewrite Z.pow_add_r by lia. change (2 ^ 8) with 256. nia.
Qed.

(** The bytes of an address, read from right to left. *)
Lemma mask_scanned a b c d : Forall (fun v => 0 <= v <= 255) [a; b; c; d] ->
  scanned 32 (((a * 256 + b) * 256 + c) * 256 + d) (foldl (mask_octet [a; b; c; d]) (-1, -1) [3; 2; 1; 0]%nat).
Proof.
  rewrite !Forall_cons. intros (Ha & Hb & Hc & Hd & _). cbn [foldl].
  assert (scanned 0 0 (-1, -1)) as H0 by (by left).
  destruct (scanned_octet [a; b; c; d] 3 0 0 _ ltac:(lia) eq_refl ltac:(lia) H0 Hd) as [H1 B1].
  destruct (scanned_octet [a; b; c; d] 2 8 _ _ ltac:(lia) eq_refl B1 H1 Hc) as [H2 B2].
  destruct (scanned_octet [a; b; c; d] 1 16 _ _ ltac:(lia) eq_refl B2 H2 Hb) as [H3 B3].
  destruct (scanned_octet [a; b; c; d] 0 24 _ _ ltac:(lia) eq_refl B3 H3 Ha) as [H4 _].
  cbn [nth] in *. change (24 + 8) with 32 in H4.
  replace (((a * 256 + b) * 256 + c) * 256 + d) with (0 + d * 2 ^ 0 + c * 2 ^ 8 + b * 2 ^ 16 + a * 2 ^ 24); [exact H4|].
  lia.
Qed.

Lemma scanned_mask y m : scanned 32 y m ->
  negb (m.2 <=? m.1) = true <-> exists k, 1 <= k <= 32 /\ y = 2 ^ 32 - 2 ^ (32 - k).
Proof.
  intros Hs. rewrite negb_true_iff, Z.leb_gt.
  destruct Hs as [(-> & Hm1 & Hm0)|[(q & Hq & -> & Hm1 & Hm0)|(Hn & Hm & _)]].
  - split; [simpl in Hm0; lia|]. intros (k & Hk & E).
    assert (2 ^ (32 - k) < 2 ^ 32) by (apply Z.pow_lt_mono_r; lia). lia.
  - split; [|destruct (Z.eqb_spec q 0); lia]. intros _. exists (32 - q). split; [lia|]. by rewrite Z.sub_sub_distr, Z.sub_diag.
  - split; [lia|]. intros (k & Hk & E). destruct (Hn (32 - k) ltac:(lia) E).
Qed.

Lemma netmask_iff value : legal_netmask value = true <->
  exists a k, inet_aton value = Some a /\ 1 <= k <= 32 /\ ntohl a = 2 ^ 32 - 2 ^ (32 - k).
Proof.
  unfold legal_netmask. destruct (inet_aton value) as [a|] eqn:Ea.
  2:{ rewrite bool_decide_eq_false_2 by (intros [? ?]; done). rewrite andb_false_r. split; [done|].
      by intros (a & k & ? & _). }
  rewrite bool_decide_eq_true_2 by done. unfold inet_aton in Ea.
  destruct (aton_parts 3 value 0) as [r|] eqn:Er; [|done]. injection Ea as <-.
  destruct (aton_scan 3 value 0 r Er) as (Hl & Hf & Ev). rewrite Hl. cbn [Nat.eqb andb].
  destruct (scan_dotted 3 value) as [|a [|b [|c [|d [|]]]]]; try done. cbn [foldl] in Ev.
  replace ((((0 * 256 + a) * 256 + b) * 256 + c) * 256 + d) with (((a * 256 + b) * 256 + c) * 256 + d) in Ev by lia.
  pose proof (mask_scanned a b c d Hf) as Hs. rewrite <- Ev in Hs. rewrite (scanned_mask _ _ Hs).
  assert (ntohl (htonl r) = r) as Hr.
  { unfold ntohl, htonl. apply bswap32_involutive. rewrite !Forall_cons in Hf. unfold is_u32. lia. }
  split.
  - intros (k & Hk & E). exists (htonl r), k. by rewrite Hr.
  - intros (x & k & [= <-] & Hk & E). exists k. by rewrite Hr in E.
Qed.

(** ** Hardware addresses *)

(** [g] + 1 pairs of hexadecimal digits with colons between them. *)
Fixpoint mac_shape (g : nat) (s : string) : bool :=
  match s with
  | String a (String b r) =>
      isxdigit a && isxdigit b &&
      match g, r with
      | O, EmptyString => true
      | S g, String c r => is_char ":" c && mac_shape g r
      | _, _ => false
      end
  | _ => false
  end.

Lemma xdigit_no_colon c : isxdigit c = true -> is_char ":" c = false.
Proof. by destruct c as [[] [] [] [] [] [] [] []]. Qed.

Lemma hw_loop_shape g : forall s i c, 0 <= i -> i mod 3 = 0 -> mac_shape g s = true ->
  hw_loop s i c = (true, i + 3 * Z.of_nat g + 2, c + Z.of_nat g).
Proof.
  induction g as [|g IH]; intros [|a [|b s]] i c Hi Hm; try done; cbn [mac_shape];
    rewrite !andb_true_iff; intros [[Ha Hb] Hs]; cbn [hw_loop];
    rewrite (xdigit_no_colon a Ha), Ha, (xdigit_no_colon b Hb), Hb.
  - destruct s; [|done]. cbn [hw_loop]. f_equal; [f_equal|]; lia.
  - destruct s as [|x s]; [done|]. apply andb_prop in Hs as [Hx Hs]. cbn [hw_loop]. rewrite Hx.
    rewrite Z.rem_mod_nonneg by lia. replace (i + 1 + 1 + 1) with (i + 1 * 3) by lia. rewrite Z_mod_plus_full, Hm.
    cbn [Z.eqb]. rewrite IH; [f_equal; [f_equal|]; lia|lia|by rewrite Z_mod_plus_full|done].
Qed.

Lemma hw_loop_count g : forall s i c i' c', 0 <= i -> i mod 3 = 0 -> strlen s = 3 * Z.of_nat g + 2 ->
  hw_loop s i c = (true, i', c') -> c' <= c + Z.of_nat g /\ (c' = c + Z.of_nat g -> mac_shape g s = true).
Proof.
  induction g as [|g IH]; intros s i c i' c' Hi Hm Hl; destruct s as [|a [|b s]]; rewrite ?strlen_cons in Hl;
    change (strlen "") with 0 in *; try lia; pose proof (strlen_nonneg s); cbn [hw_loop];
    rewrite !Z.rem_mod_nonneg by lia;
    (assert ((i + 1) mod 3 = 1) as M1 by (Z.to_euclidean_division_equations; lia));
    (assert ((i + 1 + 1) mod 3 = 2) as M2 by (Z.to_euclidean_division_equations; lia));
    rewrite M1, M2; cbn [Z.eqb Pos.eqb];
    (destruct (is_char ":" a); [done|]); (destruct (isxdigit a) eqn:Ha; [|done]);
    (destruct (is_char ":" b); [done|]); (destruct (isxdigit b) eqn:Hb; [|done]).
  - destruct s as [|x s]; [|rewrite strlen_cons in Hl; pose proof (strlen_nonneg s); lia].
    cbn [hw_loop]. intros [= <- <-]. split; [lia|]. intros _. cbn [mac_shape]. by rewrite Ha, Hb.
  - destruct s as [|x s]; [change (strlen "") with 0 in Hl; lia|]. rewrite strlen_cons in Hl. cbn [hw_loop].
    replace (i + 1 + 1 + 1) with (i + 1 * 3) by lia.
    assert ((i + 1 * 3) mod 3 = 0) as M3 by (by rewrite Z_mod_plus_full). rewrite Z.rem_mod_nonneg, M3 by lia.
    cbn [Z.eqb]. destruct (is_char ":" x) eqn:Hx.
    + intros E. destruct (IH s (i + 1 * 3) (c + 1) i' c' ltac:(lia) M3 ltac:(lia) E) as [H1 H2]. split; [lia|]. intros Ec.
      cbn [mac_shape]. rewrite Ha, Hb, Hx, H2 by lia. done.
    + destruct (isxdigit x); [|done]. intros E. destruct (IH s (i + 1 * 3) c i' c' ltac:(lia) M3 ltac:(lia) E) as [H1 _].
      split; lia.
Qed.

Lemma hw_loop_length s : forall i c i' c', hw_loop s i c = (true, i', c') -> i' = i + strlen s.
Proof.
  induction s as [|x s IH]; intros i c i' c'; cbn [hw_loop].
  - intros [= <- <-]. change (strlen "") with 0. lia.
  - rewrite strlen_cons. destruct (is_char ":" x); [destruct (_ =? 0); [|done]|destruct (isxdigit x); [|done]];
      intros E%IH; lia.
Qed.

(** Two hexadecimal digits before a colon or the end. *)
Lemma strtoul_pair a b r : isxdigit a = true -> isxdigit b = true ->
  match r with EmptyString => True | String c _ => is_char ":" c = true end ->
  exists v, strtoul (String a (String b r)) 16 = (v, r).
Proof.
  intros Ha Hb Hr.
  assert (forall c, isxdigit c = true -> exists d, digit_value c = Some d /\ 0 <= d < 16 /\ isspace c = false /\
    one_of "xX" c = false /\ one_of "+-" c = false) as Hx.
  { intros c Hc. revert Hc. destruct c as [[] [] [] [] [] [] [] []]; try done; intros _; eexists;
      (split; [reflexivity|]); by vm_compute. }
  destruct (Hx a Ha) as (da & Eda & Bda & Sa & _ & Pa). destruct (Hx b Hb) as (db & Edb & Bdb & _ & Xb & _).
  unfold strtoul, strtoz. rewrite (skip_none isspace a _ Sa).
  assert (sign (String a (String b r)) = (false, String a (String b r))) as ->
    by (revert Pa; by destruct a as [[] [] [] [] [] [] [] []]).
  assert (base_prefix 16 (String a (String b r)) = (16, String a (String b r))) as ->.
  { revert Ha. destruct a as [[] [] [] [] [] [] [] []]; try done; intros _. cbn [base_prefix]. by rewrite Xb. }
  cbn [has_digit]. rewrite Eda, (proj2 (Z.ltb_lt da 16)) by lia. cbn [digits].
  rewrite Eda, (proj2 (Z.ltb_lt da 16)), Edb, (proj2 (Z.ltb_lt db 16)) by lia.
  assert (forall z, digits 16 r z = (z, r)) as ->; [|by eexists].
  intros z. destruct r as [|c r]; [done|]. revert Hr. by destruct c as [[] [] [] [] [] [] [] []].
Qed.

Lemma scan_hex_shape g : forall s, mac_shape g s = true -> length (scan_hex g s) = S g.
Proof.
  induction g as [|g IH]; intros [|a [|b s]]; try done; cbn [mac_shape]; rewrite !andb_true_iff; intros [[Ha Hb] Hs].
  - destruct s; [|done]. cbn [scan_hex]. destruct (strtoul_pair a b "" Ha Hb I) as [v ->]. done.
  - destruct s as [|c s]; [done|]. apply andb_prop in Hs as [Hc Hs]. cbn [scan_hex].
    destruct (strtoul_pair a b (String c s) Ha Hb Hc) as [v ->].
    rewrite bool_decide_eq_false_2 by (intros E%(f_equal String.length); simpl in E; lia).
    unfold is_char in Hc. apply bool_decide_eq_true_1 in Hc as ->. cbn [length]. by rewrite IH.
Qed.

Lemma hwaddr_iff value : legal_hwaddr value = mac_shape 5 value.
Proof.
  unfold legal_hwaddr. apply eq_bool_prop_intro. rewrite !Is_true_true. split.
  - destruct (hw_loop value 0 0) as [[tag i] count] eqn:E. destruct tag; [|done]. cbn [negb orb].
    destruct (Z.eqb_spec i 17) as [->|]; [|done]. destruct (Z.eqb_spec count 5) as [->|]; [|done]. intros _.
    pose proof (hw_loop_length _ _ _ _ _ E) as El.
    destruct (hw_loop_count 5 value 0 0 17 5 ltac:(lia) eq_refl ltac:(lia) E) as [_ Hs]. by apply Hs.
  - intros Hs. rewrite (hw_loop_shape 5 value 0 0 ltac:(lia) eq_refl Hs), (scan_hex_shape 5 value Hs). done.
Qed.

(** ** What a variable may hold *)

(** Words joined by blanks. *)
Definition text_of (ws : list string) : string :=
  foldl (fun cur w => cur +:+ (if bool_decide (cur = "") then "" else " ") +:+ w) "" ws.

Definition is_address (v : variable) (t : string) : Prop :=
  legal_ipaddr t = true /\ (default [] (argv v) !! 0%nat = Some "lan" -> ends_in_0 t = false).
Definition is_hwaddr (t : string) : Prop := t = "NOT_IMPLEMENTED" \/ mac_shape 5 t = true.
Definition is_name (v : variable) (t : string) : Prop :=
  t <> "" /\ chars_all isascii t = true /\
  exists max, default [] (argv v) !! 0%nat = Some max /\ strlen t <= u32 (atoi max).

(** What a validator asks for. *)
Definition meets (k : validator) (v : variable) (t : string) : Prop :=
  match k with
  | Validate_choice => exists choices, argv v = Some choices /\ t ∈ choices
  | Validate_range => exists n a b, default [] (argv v) !! 0%nat = Some a /\ default [] (argv v) !! 1%nat = Some b /\
      t = dec n /\ atoi a <= n <= atoi b
  | Validate_name | Validate_password => is_name v t
  | Validate_netmask | Validate_merge_netmask => legal_netmask t = true
  | Validate_ipaddr | Validate_merge_ipaddrs => is_address v t
  | Validate_merge_ip_4 => t = "0" \/ atoi t <> 255
  | Validate_merge_mac | Validate_hwaddr => is_hwaddr t
  | Validate_ipaddrs => exists ws, Forall (is_address v) ws /\ t = buffer 1000 (text_of ws)
  | Validate_dns => exists ws, Forall (is_address v) ws /\ t = buffer 100 (text_of ws)
  | Validate_hwaddrs => exists ws, Forall is_hwaddr ws /\ t = buffer 1000 (text_of ws)
  end.
Definition conforms (v : variable) (t : string) : Prop :=
  match validate v with None => True | Some k => t = "" /\ nullok v = true \/ meets k v t end.

(** The name under which the value of [n] is kept as well. *)
Definition mirrors (n m : string) : Prop :=
  exists c, c ∈ Lib.nvram_converts /\ Lib.cname c = n /\ (Lib.wl0_name c = m \/ Lib.d11g_name c = m).

#[local] Instance validator_eq_dec : EqDecision validator.
Proof. solve_decision. Defined.

Ltac open_validators :=
  cbn [run_validator];
  unfold validate_netmask, validate_merge_netmask, validate_ipaddr, validate_ipaddrs, validate_merge_ip_4,
    validate_merge_ipaddrs, validate_merge_mac, validate_dns, validate_choice, validate_range, validate_name,
    validate_password, validate_hwaddr, validate_hwaddrs.

Section Sound.
Context `{Driver} (form : gmap string string).

Lemma put_value n v t m x : put n v t !! m = Some x -> t !! m = Some x \/ x = v /\ m = n.
Proof.
  unfold put. destruct (room _ _ _); [|auto]. rewrite lookup_insert. case_decide as E; [|auto].
  subst. intros [= <-]. auto.
Qed.

Lemma mirror_value n v l t m x :
  foldl (fun t c =>
    if bool_decide (Lib.cname c = n) then
      let t := if bool_decide (Lib.wl0_name c = "") then t else put (Lib.wl0_name c) v t in
      if bool_decide (Lib.d11g_name c = "") then t else put (Lib.d11g_name c) v t
    else t) t l !! m = Some x ->
  t !! m = Some x \/ x = v /\ exists c, c ∈ l /\ Lib.cname c = n /\ (Lib.wl0_name c = m \/ Lib.d11g_name c = m).
Proof.
  revert t. induction l as [|c l IH]; intros t; [by left|]. cbn [foldl]. intros Hx%IH.
  destruct Hx as [Hx|(-> & c' & Hc' & Hn)]; [|right; split; [done|]; exists c'; split; [by right|done]].
  case_bool_decide as En; [|by left]. cbn zeta in Hx.
  destruct (bool_decide (Lib.d11g_name c = "")); [|apply put_value in Hx as [Hx|[-> ->]];
    [|right; split; [done|]; exists c; split; [by left|auto]]];
  (destruct (bool_decide (Lib.wl0_name c = "")); [by left|]; apply put_value in Hx as [Hx|[-> ->]]; [by left|];
    right; split; [done|]; exists c; split; [by left|auto]).
Qed.

Lemma set_value n v s m x : table (nvram_set n v s).2 !! m = Some x ->
  table s !! m = Some x \/ x = v /\ (m = n \/ mirrors n m).
Proof.
  unfold nvram_set. destruct (unlocked _ _); [|by left]. cbn [snd table]. unfold mirror, mirrors.
  generalize Lib.nvram_converts. intros l Hx. apply mirror_value in Hx as [Hx|[-> Hm]]; [|auto].
  apply put_value in Hx as [Hx|[-> ->]]; auto.
Qed.

(** ** One field *)

(** Either no variable has changed, or the one of the field got a text of the
    right form. *)
Definition stores (v : variable) (p p' : page) : Prop :=
  table (nv p') = table (nv p) \/
  exists t s, conforms v t /\ table s = table (nv p) /\ table (nv p') = table (nvram_set (name v) t s).2.

Lemma save_stores v t p p1 : conforms v t -> table (nv p1) = table (nv p) -> stores v p (save (name v) t p1).
Proof. intros Hc Ht. right. by exists t, (nv p1). Qed.

Lemma save_if_stores v t p b p1 : (b = true -> conforms v t) -> table (nv p1) = table (nv p) ->
  stores v p (save_if (b, p1) (name v) t).
Proof. intros Hc Ht. unfold save_if. destruct b; [apply save_stores; auto|by left]. Qed.

Lemma tested_table b p : table (nv (tested b p).2) = table (nv p).
Proof. by destruct b. Qed.

Lemma valid_ipaddr_ok v value p b p1 : valid_ipaddr v value p = Ret (b, p1) ->
  table (nv p1) = table (nv p) /\ (b = true -> is_address v value).
Proof.
  unfold valid_ipaddr, is_address, arg. destruct (legal_ipaddr value); cbn [negb]; [|by intros [= <- <-]].
  destruct (argv v) as [l|] eqn:Ev; cbn [default from_option id]; [|by intros [= <- <-]].
  intros (a & Ha%deref_Ret_inv & Hr)%bind_Ret_inv. rewrite Ha. case_bool_decide as El.
  - subst a. injection Hr as <- <-. split; [apply tested_table|]. intros Hb%negb_true_iff. done.
  - apply bind_Ret_inv in Hr as (m & _ & Hr). apply bind_Ret_inv in Hr as ([b' s] & Hs & Hr). injection Hr as <- <-.
    assert (table s = table (nv p)) as Es.
    { unfold legal_ip_netmask, nvram_get in Hs. apply bind_Ret_inv in Hs as (? & _ & Hs).
      apply bind_Ret_inv in Hs as (? & _ & Hs). apply bind_Ret_inv in Hs as (? & _ & Hs). by injection Hs as _ <-. }
    split; [destruct b'; exact Es|]. intros _. split; [done|]. by intros [= ->].
Qed.

Lemma valid_hwaddr_ok value p : table (nv (valid_hwaddr value p).2) = table (nv p) /\
  ((valid_hwaddr value p).1 = true -> is_hwaddr value).
Proof.
  split; [apply tested_table|]. cbn [valid_hwaddr tested fst]. rewrite hwaddr_iff. unfold is_hwaddr.
  intros [Hv%bool_decide_eq_true_1|Hv]%orb_prop; auto.
Qed.

Lemma valid_name_ok v value p b p1 : valid_name v value p = Ret (b, p1) ->
  table (nv p1) = table (nv p) /\ (b = true -> is_name v value).
Proof.
  unfold valid_name, arg, is_name. intros (max & Hm%deref_Ret_inv & Hr)%bind_Ret_inv. injection Hr as <- <-.
  split; [apply tested_table|]. rewrite Hm. intros [H1 H2%negb_true_iff%Z.ltb_ge]%andb_prop.
  unfold ISASCII in H1. case_bool_decide; [done|]. eauto.
Qed.

Lemma valid_range_ok v value p b p1 : valid_range v value p = Ret (b, p1) ->
  table (nv p1) = table (nv p) /\ (b = true -> exists a c, default [] (argv v) !! 0%nat = Some a /\
    default [] (argv v) !! 1%nat = Some c /\ atoi a <= atoi value <= atoi c).
Proof.
  unfold valid_range, arg. intros (a & Ha%deref_Ret_inv & Hr)%bind_Ret_inv.
  apply bind_Ret_inv in Hr as (c & Hc%deref_Ret_inv & Hr). injection Hr as <- <-.
  split; [apply tested_table|]. rewrite negb_true_iff, !orb_false_iff, !Z.ltb_ge. intros [[_ H1] H2]. by exists a, c.
Qed.

Lemma valid_choice_ok v value p b p1 : valid_choice v value p = Ret (b, p1) ->
  table (nv p1) = table (nv p) /\ (b = true -> exists choices, argv v = Some choices /\ value ∈ choices).
Proof.
  unfold valid_choice. intros (l & Hl%deref_Ret_inv & Hr)%bind_Ret_inv. injection Hr as <- <-.
  split; [apply tested_table|]. intros (x & Hx & ->%String.eqb_eq)%existsb_exists. exists l. split; [done|].
  by apply list_elem_of_In.
Qed.

Lemma valid_merge_ip_4_ok v value p b p1 : valid_merge_ip_4 v value p = Ret (b, p1) ->
  table (nv p1) = table (nv p) /\ (b = true -> atoi value <> 255).
Proof.
  unfold valid_merge_ip_4. destruct (Z.eqb_spec (atoi value) 255); [by intros [= <- <-]|]. cbn [nvram_get].
  intros (t & _ & Hr)%bind_Ret_inv. apply valid_ipaddr_ok in Hr as [Ht _]. by split.
Qed.

Lemma add_word_ok size cur w t : add_word size cur w = Ret t ->
  t = cur +:+ (if bool_decide (cur = "") then "" else " ") +:+ w.
Proof. unfold add_word. destruct (_ <? _); [done|]. by intros [= <-]. Qed.

Lemma text_of_snoc ws w : text_of (ws ++ [w]) =
  text_of ws +:+ (if bool_decide (text_of ws = "") then "" else " ") +:+ w.
Proof. unfold text_of. by rewrite foldl_app. Qed.

Lemma list_loop_ok v valid (P : string -> Prop) :
  (forall value p b p1, valid value p = Ret (b, p1) -> table (nv p1) = table (nv p) /\ (b = true -> P value)) ->
  forall fuel i n ws p t p1, Forall P ws -> list_loop form v valid fuel i n (text_of ws) p = Ret (t, p1) ->
  table (nv p1) = table (nv p) /\ forall x, t = Some x -> exists ws, Forall P ws /\ x = text_of ws.
Proof.
  intros Hv. induction fuel as [|fuel IH]; intros i n ws p t p1 Hw; [done|]. cbn [list_loop].
  destruct (n <=? i); [intros [= <- <-]; split; [done|]; intros x [= <-]; by exists ws|].
  destruct (websGetVar form _) as [value|]; [|intros [= <- <-]; by split].
  destruct (_ && _); [by apply IH|]. intros ([b p2] & Hb & Hr)%bind_Ret_inv. apply Hv in Hb as [Ht Hb]. rewrite <- Ht.
  destruct b; [|by apply IH in Hr]. apply bind_Ret_inv in Hr as (cur & Hc%add_word_ok & Hr).
  rewrite <- text_of_snoc in Hc. subst cur. apply IH in Hr; [done|]. apply Forall_app. split; [done|].
  by repeat constructor; apply Hb.
Qed.

Lemma validate_list_ok v valid (P : string -> Prop) value p p' :
  (forall value p b p1, valid value p = Ret (b, p1) -> table (nv p1) = table (nv p) /\ (b = true -> P value)) ->
  (forall ws, Forall P ws -> conforms v (buffer 1000 (text_of ws))) ->
  validate_list form v valid value p = Ret p' -> stores v p p'.
Proof.
  intros Hv Hc. unfold validate_list. intros ([t p1] & Hl & Hr)%bind_Ret_inv. injection Hr as <-.
  apply (list_loop_ok v valid P Hv _ _ _ [] p t p1) in Hl as [Ht Hx]; [|done].
  destruct t as [t|]; [|by left]. destruct (Hx t eq_refl) as (ws & Hw & ->). apply save_stores; auto.
Qed.

Lemma dns_loop_ok v l : forall ws p t p1, Forall (is_address v) ws -> dns_loop form v l (text_of ws) p = Ret (t, p1) ->
  table (nv p1) = table (nv p) /\ forall x, t = Some x -> exists ws, Forall (is_address v) ws /\ x = text_of ws.
Proof.
  induction l as [|j l IH]; intros ws p t p1 Hw; cbn [dns_loop].
  { intros [= <- <-]. split; [done|]. intros x [= <-]. by exists ws. }
  intros (o & _ & Hr)%bind_Ret_inv. destruct o as [a|]; [|injection Hr as <- <-; by split].
  case_bool_decide; [by apply IH in Hr|]. apply bind_Ret_inv in Hr as ([b p2] & Hb%valid_ipaddr_ok & Hr).
  destruct Hb as [Ht Hb]. rewrite <- Ht. destruct b; [|by apply IH in Hr].
  apply bind_Ret_inv in Hr as (cur & Hc%add_word_ok & Hr). rewrite <- text_of_snoc in Hc. subst cur.
  apply IH in Hr; [done|]. apply Forall_app. split; [done|]. by repeat constructor; apply Hb.
Qed.

(** ** The table *)

(** A text that an entry may bring to a variable. *)
Definition allowed (v : variable) (m x : string) : Prop :=
  conforms v x /\ (m = name v \/ mirrors (name v) m) \/
  name v = "devname" /\ validate v = Some Validate_name /\ (m = "router_name" \/ mirrors "router_name" m).
Definition changes (l : list variable) (p p' : page) : Prop :=
  forall m x, table (nv p') !! m = Some x -> table (nv p) !! m = Some x \/ exists v, v ∈ l /\ allowed v m x.

Lemma stores_changes v p p' : stores v p p' -> changes [v] p p'.
Proof.
  intros [E|(t & s & Hc & Es & E)] m x Hx; rewrite E in Hx; [by left|]. apply set_value in Hx as [Hx|[-> Hm]].
  - left. by rewrite <- Es.
  - right. exists v. split; [by left|]. left. auto.
Qed.

Lemma changes_trans l p p1 p2 : changes l p p1 -> changes l p1 p2 -> changes l p p2.
Proof. intros H1 H2 m x Hx. destruct (H2 m x Hx) as [Hx1|?]; [by apply H1|auto]. Qed.
Lemma changes_mono l l' p p' : l ⊆ l' -> changes l p p' -> changes l' p p'.
Proof. intros Hl Hc m x Hx. destruct (Hc m x Hx) as [?|(v & Hv & Ha)]; [auto|]. right. exists v. auto. Qed.

Lemma run_stores v k value p p' : validate v = Some k -> ~ (k = Validate_name /\ name v = "devname") ->
  run_validator form k v value p = Ret p' -> stores v p p'.
Proof.
  intros Ek Hd. assert (forall t, meets k v t -> conforms v t) as Hc by (intros t Ht; unfold conforms; rewrite Ek; by right).
  destruct k; cbn [meets] in *; open_validators.
  - intros [= <-]. apply save_if_stores; [|apply tested_table]. intros Hb. by apply Hc.
  - intros (o & _ & Hr)%bind_Ret_inv. injection Hr as <-. destruct o as [t|]; [|by left].
    apply save_if_stores; [|apply tested_table]. intros Hb. by apply Hc.
  - intros ([b p1] & Hb%valid_ipaddr_ok & Hr)%bind_Ret_inv. injection Hr as <-. destruct Hb as [Ht Hb].
    apply save_if_stores; [auto|done].
  - apply (validate_list_ok v _ (is_address v)); [intros; by apply valid_ipaddr_ok|]. intros ws Hw. apply Hc. eauto.
  - case_bool_decide as Ev; [intros [= <-]; apply save_stores; [apply Hc; by left|done]|].
    intros ([b p1] & Hb%valid_merge_ip_4_ok & Hr)%bind_Ret_inv. injection Hr as <-. destruct Hb as [Ht Hb].
    apply save_if_stores; [auto|done].
  - intros (t & _ & Hr)%bind_Ret_inv. apply bind_Ret_inv in Hr as ([b p1] & Hb%valid_ipaddr_ok & Hr).
    injection Hr as <-. destruct Hb as [Ht Hb]. apply save_if_stores; [auto|done].
  - intros (t & _ & Hr)%bind_Ret_inv. injection Hr as <-. destruct (valid_hwaddr_ok t p) as [Ht Hb].
    destruct (valid_hwaddr t p) as [b p1]. apply save_if_stores; [auto|done].
  - intros ([o p1] & Ho & Hr)%bind_Ret_inv. injection Hr as <-. apply (dns_loop_ok v _ []) in Ho as [Ht Hx]; [|done].
    destruct o as [t|]; [|by left]. destruct (Hx t eq_refl) as (ws & Hw & ->). apply save_stores; [|done]. apply Hc. eauto.
  - intros ([b p1] & Hb%valid_choice_ok & Hr)%bind_Ret_inv. injection Hr as <-. destruct Hb as [Ht Hb].
    apply save_if_stores; [auto|done].
  - intros ([b p1] & Hb%valid_range_ok & Hr)%bind_Ret_inv. injection Hr as <-. destruct Hb as [Ht Hb].
    apply save_if_stores; [|done]. intros E. destruct (Hb E) as (x & y & Hx & Hy & Hr). apply Hc. by exists (atoi value), x, y.
  - intros ([b p1] & Hb%valid_name_ok & Hr)%bind_Ret_inv. injection Hr as <-. destruct Hb as [Ht Hb].
    rewrite bool_decide_eq_false_2 by (intros E; by apply Hd). apply save_if_stores; [auto|done].
  - case_bool_decide; [intros [= <-]; by left|]. intros ([b p1] & Hb%valid_name_ok & Hr)%bind_Ret_inv.
    injection Hr as <-. destruct Hb as [Ht Hb]. apply save_if_stores; [auto|done].
  - intros [= <-]. destruct (valid_hwaddr_ok value p) as [Ht Hb]. destruct (valid_hwaddr value p) as [b p1].
    apply save_if_stores; [auto|done].
  - apply (validate_list_ok v _ is_hwaddr); [|intros ws Hw; apply Hc; eauto].
    intros t p1 b p2 E. destruct (valid_hwaddr_ok t p1) as [Ht Hb].
    assert (valid_hwaddr t p1 = (b, p2)) as E' by congruence. by rewrite E' in Ht, Hb.
Qed.

Lemma run_changes v k value p p' : validate v = Some k -> run_validator form k v value p = Ret p' -> changes [v] p p'.
Proof.
  intros Ek Hr. destruct (decide (name v = "devname")) as [En|En];
    [|apply stores_changes; eapply run_stores; [done| |exact Hr]; by intros [_ ?]].
  destruct (decide (k = Validate_name)) as [->|]; [|apply stores_changes; eapply run_stores; [done| |exact Hr]; by intros [? _]].
  cbn [run_validator] in Hr. unfold validate_name in Hr. apply bind_Ret_inv in Hr as ([b p1] & Hb%valid_name_ok & Hr). injection Hr as <-.
  destruct Hb as [Ht Hb]. rewrite bool_decide_eq_true_2 by done. apply (changes_trans _ _ (save_if (b, p1) (name v) value)).
  - apply stores_changes, save_if_stores; [|done]. intros E. unfold conforms. rewrite Ek. right. exact (Hb E).
  - intros m x Hx. apply set_value in Hx as [Hx|[-> Hm]]; [by left|]. right. exists v. split; [by left|]. right. done.
Qed.

Lemma field_changes v p p' : validate_field form v p = Ret p' -> changes [v] p p'.
Proof.
  unfold validate_field. destruct (websGetVar form (name v)) as [value|]; [|intros [= <-] m x; by left].
  destruct (validate v) as [k|] eqn:Ek.
  - destruct (bool_decide (value = "")) eqn:Ev; cbn [andb]; [|by apply run_changes].
    destruct (nullok v) eqn:En; [|by apply run_changes]. intros [= <-]. apply stores_changes, save_stores; [|done].
    unfold conforms. rewrite Ek. left. by apply bool_decide_eq_true_1 in Ev.
  - intros [= <-]. apply stores_changes, save_stores; [|done]. unfold conforms. by rewrite Ek.
Qed.

Lemma cgi_changes l : forall p p', validate_cgi form l p = Ret p' -> changes l p p'.
Proof.
  induction l as [|v l IH]; intros p p'; cbn [validate_cgi]; [intros [= <-] m x; by left|].
  intros (p1 & H1%field_changes & H2%IH)%bind_Ret_inv. apply (changes_trans _ _ p1).
  - eapply changes_mono; [|exact H1]. set_solver.
  - eapply changes_mono; [|exact H2]. set_solver.
Qed.

(** ** Forms of the right size *)

(** Entries that have their arguments; those of the table have. *)
Definition ready (v : variable) : bool :=
  (strlen (name v) <=? 80) &&
  match validate v, argv v with
  | Some Validate_choice, Some _ => true
  | Some Validate_range, Some (_ :: _ :: _) => true
  | Some (Validate_name | Validate_password), Some (_ :: _) => true
  | Some (Validate_ipaddr | Validate_merge_ipaddrs | Validate_dns), None => true
  | Some (Validate_netmask | Validate_merge_netmask | Validate_merge_mac | Validate_hwaddr | Validate_hwaddrs), _ => true
  | None, _ => true
  | _, _ => false
  end.

(** Parts of an address have at most three characters, parts of a hardware
    address two, and a list at most 55 words. *)
Definition short (v : variable) : Prop :=
  match validate v with
  | Some (Validate_merge_netmask | Validate_merge_ipaddrs) =>
      forall i t, websGetVar form (field_name v i) = Some t -> strlen t <= 3
  | Some Validate_merge_mac => forall i t, websGetVar form (field_name v i) = Some t -> strlen t <= 2
  | Some Validate_dns => forall j i t, dns_field form v j i = Some t -> strlen t <= 3
  | Some Validate_hwaddrs => forall i, 55 <= i -> websGetVar form (buffer 100 (name v +:+ dec i)) = None
  | _ => True
  end.

Lemma merge_returns size k get sep l : forall cur,
  (forall i t, get i = Some t -> strlen t <= k) -> strlen sep = 1 ->
  strlen cur + Z.of_nat (length l) * (k + 1) < size -> exists o, merge size get sep l cur = Ret o /\
    ((forall i, get i <> None) -> o <> None).
Proof.
  induction l as [|i l IH]; intros cur Hg Hsep Hl; cbn [merge]; [by eexists|].
  destruct (get i) as [t|] eqn:Et; [|eexists; split; [done|]; intros Hn; by apply Hn in Et].
  pose proof (Hg i t Et) as Ht. pose proof (strlen_nonneg t). rewrite length_cons in Hl. unfold fit. rewrite !strlen_app.
  assert (strlen (match l with [] => "" | _ => sep end) <= 1) as Hs by (destruct l; [by vm_compute|lia]).
  destruct (Z.leb_spec size (strlen cur + (strlen t + strlen (match l with [] => "" | _ => sep end)))); [nia|].
  cbn [mbind outcome_bind]. apply IH; [done|done|]. rewrite !strlen_app. nia.
Qed.

Lemma default_short d k i t (get : Z -> option string) : strlen d <= k ->
  (forall i t, get i = Some t -> strlen t <= k) -> Some (default d (get i)) = Some t -> strlen t <= k.
Proof. intros Hd Hg [= <-]. destruct (get i) eqn:E; [by eapply Hg|done]. Qed.

Lemma mac_shape_length g : forall s, mac_shape g s = true -> strlen s = 3 * Z.of_nat g + 2.
Proof.
  intros s Hs. pose proof (hw_loop_shape g s 0 0 ltac:(lia) eq_refl Hs) as E. apply hw_loop_length in E. lia.
Qed.

Lemma list_loop_returns v fuel : forall i n cur p, strlen (name v) <= 80 -> 0 <= i <= 55 ->
  (forall i, 55 <= i -> websGetVar form (buffer 100 (name v +:+ dec i)) = None) ->
  (forall j, 0 <= j < i -> buffer 100 (name v +:+ dec j) ∈ dom form) ->
  (size form < fuel + Z.to_nat i)%nat -> strlen cur <= 18 * i ->
  exists r, list_loop form v (fun value p => Ret (valid_hwaddr value p)) fuel i n cur p = Ret r.
Proof.
  induction fuel as [|fuel IH]; intros i n cur p Hn Hi Hend Hd Hf Hc.
  { assert (Z.to_nat i <= size form)%nat; [|lia].
    apply (defined_count (fun j => buffer 100 (name v +:+ dec j)) 0); [|intros j Hj; apply Hd; lia].
    intros x y Hx Hy. unfold buffer. pose proof (dec_length x) as Lx. pose proof (dec_length y) as Ly.
    rewrite !substring_all; [apply prefix_inj; lia| |];
      unfold strlen in *; rewrite slength_app; change (100 - 1)%nat with 99%nat; lia. }
  cbn [list_loop]. destruct (n <=? i); [by eexists|].
  destruct (websGetVar form _) as [value|] eqn:Ev; [|by eexists].
  assert (i < 55) as Hi55 by (destruct (Z.lt_ge_cases i 55) as [|Hge]; [done|]; by rewrite (Hend i Hge) in Ev).
  assert (forall j, 0 <= j < i + 1 -> buffer 100 (name v +:+ dec j) ∈ dom form) as Hd'.
  { intros j Hj. destruct (decide (j = i)) as [->|]; [|apply Hd; lia]. apply elem_of_dom. by exists value. }
  destruct (_ && _); [apply IH; try done; lia|]. cbn [mbind outcome_bind].
  destruct (valid_hwaddr_ok value p) as [_ Hw]. destruct (valid_hwaddr value p) as [b p1]. cbn [fst] in Hw.
  destruct b; [|apply IH; try done; lia].
  assert (strlen value <= 17) as Hl.
  { destruct (Hw eq_refl) as [->|Hs%mac_shape_length]; [by vm_compute|lia]. }
  unfold add_word. destruct (Z.ltb_spec 1000 (strlen cur)); [lia|]. cbn [mbind outcome_bind].
  apply IH; try done; try lia. rewrite !strlen_app.
  assert (strlen (if bool_decide (cur = "") then "" else " ") <= 1) by (case_bool_decide; by vm_compute). lia.
Qed.

Lemma valid_ipaddr_returns v value p : argv v = None -> exists b, valid_ipaddr v value p = Ret b.
Proof. intros E. unfold valid_ipaddr. rewrite E. destruct (legal_ipaddr value); by eexists. Qed.

(** An address that passes has at most 19 characters, being in a buffer of 20. *)
Lemma merge_fits size get sep l cur t : merge size get sep l cur = Ret (Some t) -> strlen cur < size -> strlen t < size.
Proof.
  revert cur. induction l as [|i l IH]; intros cur; cbn [merge]; [by intros [= <-]|].
  destruct (get i) as [x|]; [|done]. intros (c & Hc & Hr)%bind_Ret_inv _. eapply IH; [exact Hr|].
  unfold fit in Hc. destruct (Z.leb_spec size (strlen (cur +:+ x +:+ match l with [] => "" | _ => sep end))); [done|].
  by injection Hc as <-.
Qed.

Lemma dns_loop_returns v l : argv v = None -> (forall j i t, dns_field form v j i = Some t -> strlen t <= 3) ->
  forall cur p, strlen cur + 20 * Z.of_nat (length l) <= 100 -> exists r, dns_loop form v l cur p = Ret r.
Proof.
  intros Ea Hs. induction l as [|j l IH]; intros cur p Hl; cbn [dns_loop]; [by eexists|].
  destruct (merge_returns 20 3 (dns_field form v j) "." [0; 1; 2; 3] "") as (o & Em & _); [apply Hs|done|by vm_compute|].
  rewrite Em. cbn [mbind outcome_bind]. rewrite length_cons in Hl. destruct o as [t|]; [|by eexists].
  case_bool_decide; [apply IH; lia|]. destruct (valid_ipaddr_returns v t p Ea) as [[b p1] ->]. cbn [mbind outcome_bind].
  destruct b; [|apply IH; lia]. apply merge_fits in Em; [|by vm_compute]. unfold add_word.
  destruct (Z.ltb_spec 100 (strlen cur)); [lia|]. cbn [mbind outcome_bind]. apply IH. rewrite !strlen_app.
  assert (strlen (if bool_decide (cur = "") then "" else " ") <= 1) by (case_bool_decide; by vm_compute). lia.
Qed.

Lemma run_returns v k value p : validate v = Some k -> ready v = true -> short v ->
  exists p', run_validator form k v value p = Ret p'.
Proof.
  unfold ready, short. intros Ek [Hn Hr]%andb_prop Hs. rewrite Ek in Hr, Hs. apply Z.leb_le in Hn.
  destruct k; try (by destruct (argv v)); open_validators.
  - by eexists.
  - destruct (merge_returns 20 3 (fun i => websGetVar form (field_name v i)) "." [0; 1; 2; 3] "") as (o & -> & _);
      [apply Hs|done|by vm_compute|]. cbn [mbind outcome_bind]. destruct o; by eexists.
  - destruct (argv v) eqn:Ea; [done|]. destruct (valid_ipaddr_returns v value p Ea) as [r ->]. by eexists.
  - destruct (argv v) eqn:Ea; [done|]. unfold get_merge_ipaddr.
    destruct (merge_returns 20 3 (fun i => Some (default "0" (websGetVar form (field_name v i)))) "." [0; 1; 2; 3] "")
      as (o & -> & Ho); [|done|by vm_compute|].
    { intros i t. apply (default_short "0" 3 i t (fun i => websGetVar form (field_name v i))); [by vm_compute|exact Hs]. }
    cbn [mbind outcome_bind]. destruct o as [t|]; [|destruct (Ho ltac:(done)); done]. cbn [deref mbind outcome_bind].
    destruct (valid_ipaddr_returns v t p Ea) as [r ->]. by eexists.
  - unfold get_merge_mac.
    destruct (merge_returns 20 2 (fun i => Some (two_digits (default "00" (websGetVar form (field_name v i))))) ":"
      [0; 1; 2; 3; 4; 5] "") as (o & -> & Ho); [|done|by vm_compute|].
    { intros i t [= <-]. assert (strlen (default "00" (websGetVar form (field_name v i))) <= 2) as Hl
        by (apply (default_short "00" 2 i _ (fun i => websGetVar form (field_name v i))); [by vm_compute|exact Hs|done]).
      unfold two_digits. destruct (Z.eqb_spec (strlen (default "00" (websGetVar form (field_name v i)))) 1); [|done].
      rewrite strlen_app. change (strlen "0") with 1. lia. }
    cbn [mbind outcome_bind]. destruct o as [t|]; [|destruct (Ho ltac:(done)); done]. by eexists.
  - destruct (argv v) eqn:Ea; [done|]. destruct (dns_loop_returns v [0; 1; 2] Ea Hs "" p) as [[t p1] ->]; [by vm_compute|].
    by eexists.
  - unfold valid_choice. destruct (argv v); [|done]. by eexists.
  - unfold valid_range, arg. destruct (argv v) as [[|? [|? ?]]|]; try done. by eexists.
  - unfold valid_name, arg. destruct (argv v) as [[|? ?]|]; try done. by eexists.
  - unfold valid_name, arg. case_bool_decide; [by eexists|]. destruct (argv v) as [[|? ?]|]; try done. by eexists.
  - by eexists.
  - unfold validate_list. destruct (list_loop_returns v (S (size form)) 0 (atoi value) "" p) as [[t p1] ->];
      [done|lia|exact Hs|lia|lia|by vm_compute|]. by eexists.
Qed.

Lemma cgi_returns l : Forall (fun v => ready v = true /\ short v) l -> forall p, exists p', validate_cgi form l p = Ret p'.
Proof.
  induction 1 as [|v l [Hr Hs] _ IH]; intros p; cbn [validate_cgi]; [by eexists|].
  assert (exists p1, validate_field form v p = Ret p1) as [p1 ->].
  { unfold validate_field. destruct (websGetVar form (name v)) as [value|]; [|by eexists].
    destruct (validate v) as [k|] eqn:Ek; [|by eexists]. destruct (_ && _); [by eexists|]. by apply run_returns. }
  apply IH.
Qed.
End Sound.

(** * Theorems *)

(** C32. The mask test decides contiguity: a text is a legal netmask exactly
    when it reads as an address whose 32 bits are k ones before 32 - k zeros,
    with at least one one. *)
Theorem netmask_contiguous value : legal_netmask value = true <->
  exists a k, inet_aton value = Some a /\ 1 <= k <= 32 /\ ntohl a = 2 ^ 32 - 2 ^ (32 - k).
Proof. apply netmask_iff. Qed.

(** The test of hardware addresses, a loop that counts colons and a scan,
    decides a grammar: six pairs of hexadecimal digits with colons between. *)
Theorem hwaddr_shape value : legal_hwaddr value = mac_shape 5 value.
Proof. apply hwaddr_iff. Qed.


(** C35. The loop over the entries of the build's table that have a general
    validator or none (the validators of the pages are not part of it) returns for
    every form whose parts of addresses and hardware addresses have at most three and
    two characters and whose lists have at most 55 words: no buffer of a validator
    overflows, no argument is missing, and the loop over a list ends. *)
Theorem validate_cgi_returns `{Driver} (form : gmap string string) (p : page) :
  (forall v, v ∈ general_variables -> short form v) ->
  exists p', validate_cgi form general_variables p = Ret p'.
Proof.
  intros Hs. apply cgi_returns. apply Forall_forall. intros v Hv. split; [|by apply Hs].
  assert (forallb ready general_variables = true) as Hr by (by vm_compute).
  rewrite forallb_forall in Hr. by apply Hr, list_elem_of_In.
Qed.

Module DemoForm.
#[export] Instance driver : Driver := {| unlocked := fun _ _ => true; room := fun _ _ _ => true |}.
Definition form : gmap string string := list_to_map
  [("ppp_idletime", "007"); ("wan_proto", "pppoe"); ("log_level", "9"); ("wan_wins", "1"); ("wan_wins_0", "10");
   ("wan_wins_3", "7"); ("wl_ssid", "home"); ("wan_hostname", ""); ("wl_wds", "2"); ("wl_wds0", "00:11:22:33:44:55");
   ("wl_wds1", "junk")].
Definition page0 : page := mk_page (mk_vars (list_to_map [("lan_ipaddr", "192.168.1.1")]) "") false.
End DemoForm.
#[local] Existing Instance DemoForm.driver.

(** A number loses its zeros, an address is put together, a value out of range
    is refused, a variable of the radio is mirrored, of a list the legal words
    are kept. *)
Definition demo_values : list (string * option string) :=
  [("ppp_idletime", Some "7"); ("pppoe_idletime", Some "7"); ("wan_proto", Some "pppoe"); ("log_level", None);
   ("wan_wins", Some "10.0.0.7"); ("wl_ssid", Some "home"); ("wl0_ssid", Some "home"); ("wan_hostname", Some "");
   ("wl_wds", Some "00:11:22:33:44:55"); ("wan_dns", None)].
Lemma demo_page : exists p', validate_cgi DemoForm.form general_variables DemoForm.page0 = Ret p' /\
  Forall (fun e => table (nv p') !! e.1 = e.2) demo_values /\ error_value p' = true.
Proof.
  assert (match validate_cgi DemoForm.form general_variables DemoForm.page0 with
          | Ret p' => forallb (fun e => bool_decide (table (nv p') !! e.1 = e.2)) demo_values && error_value p'
          | _ => false end = true) as Hd by (vm_compute; reflexivity).
  destruct (validate_cgi _ _ _) as [p'| | |]; try done. exists p'. split; [done|].
  apply andb_prop in Hd as [Hd He]. split; [|done]. apply Forall_forall. intros e He'.
  rewrite forallb_forall in Hd. specialize (Hd e (proj1 (list_elem_of_In _ _) He')).
  by apply bool_decide_eq_true_1 in Hd.
Qed.


Definition small_form : gmap string string :=
  list_to_map [("wan_wins", "1"); ("wan_wins_0", "10"); ("wan_wins_3", "7"); ("http_wanport", "80")].

Lemma small_short v : v ∈ general_variables -> short small_form v.
Proof.
  intros Hv. assert (forall n t, small_form !! n = Some t -> strlen t <= 2) as Hs.
  { assert (map_Forall (fun _ t => strlen t <= 2) small_form) as Hm by (apply (bool_decide_unpack _); vm_compute; done).
    intros n t Ht. exact (Hm n t Ht). }
  assert (forallb (fun v => match validate v with Some Validate_hwaddrs => (name v =? "wl_wds")%string | _ => true end)
    general_variables = true) as Hf by (vm_compute; reflexivity).
  rewrite forallb_forall in Hf. specialize (Hf v (proj1 (list_elem_of_In _ _) Hv)).
  unfold short, dns_field, websGetVar. destruct (validate v) as [k|]; [|done].
  destruct k; try done; try (intros; eapply Z.le_trans; [by eapply Hs|by vm_compute]).
  apply String.eqb_eq in Hf as ->. intros i _. unfold small_form. apply not_elem_of_list_to_map_1.
  unfold buffer. cbn [String.append String.substring Nat.sub]. rewrite !fmap_cons, fmap_nil. set_solver.
Qed.

Lemma validate_cgi_returns_witness : exists p', validate_cgi small_form general_variables DemoForm.page0 = Ret p'.
Proof. apply (validate_cgi_returns small_form DemoForm.page0). exact small_short. Defined.

(** ** What gets through *)

(** Text behind a blank is not looked at. *)
Lemma address_with_tail : legal_ipaddr "10.0.0.1 ;reboot" = true.
Proof. by vm_compute. Qed.

(** The broadcast address is accepted as hardware address. *)
Lemma broadcast_accepted : legal_hwaddr "FF:FF:FF:FF:FF:FF" = true.
Proof. by vm_compute. Qed.

(** A name that is refused is stored as router name. *)
Lemma devname_unchecked :
  match validate_cgi {["devname" := String (chr 200) ""]} general_variables DemoForm.page0 with
  | Ret p => error_value p = true /\ table (nv p) !! "devname" = None /\
             table (nv p) !! "router_name" = Some (String (chr 200) "")
  | _ => False
  end.
Proof. by vm_compute. Qed.

(** A long part of an address overflows the buffer it is joined in. *)
Lemma long_part_faults :
  validate_cgi (list_to_map [("wan_wins", "1"); ("wan_wins_0", "1234567890123456789")]) general_variables
    DemoForm.page0 = Fault.
Proof. by vm_compute. Qed.

End ValidateProofs.
