(* ===== verification/Http.v ===== *)
(** * The web server (router/httpd/httpd.c, the handlers of shared/broadcom.c)

    [Module Http]: base-64 decoding, the file name patterns, the check of the
    login with its timeout flags, the handling of one request from the bytes of the
    connection to the calls of the handlers, and the loop that accepts requests.
    The configuration is that of cy_conf.h: no quick VPN, one user, no setup
    wizard redirection. The flag [do_ssl] and the code it selects are kept: an
    encrypted connection delivers its bytes like a plain one, but when it ends with
    an error the reading function returns -1 where the callers expect NULL.

    A request is the string of the bytes the client sends; the answer is the
    list of what the server does: status lines, calls of a handler's input and
    output functions. What a handler writes is outside this module. *)

From Stdlib Require Import ZArith Lia Ascii.
From stdpp Require Import base numbers sets strings list.
From S2P Require Import Prelude CString.
Open Scope string_scope.
Open Scope Z_scope.
Open Scope list_scope.

Module Http.

(** ** Base-64 decoding *)

Definition b64_decode_table : list Z :=
  [-1; -1; -1; -1; -1; -1; -1; -1; -1; -1; -1; -1; -1; -1; -1; -1;
   -1; -1; -1; -1; -1; -1; -1; -1; -1; -1; -1; -1; -1; -1; -1; -1;
   -1; -1; -1; -1; -1; -1; -1; -1; -1; -1; -1; 62; -1; -1; -1; 63;
   52; 53; 54; 55; 56; 57; 58; 59; 60; 61; -1; -1; -1; -1; -1; -1;
   -1; 0; 1; 2; 3; 4; 5; 6; 7; 8; 9; 10; 11; 12; 13; 14;
   15; 16; 17; 18; 19; 20; 21; 22; 23; 24; 25; -1; -1; -1; -1; -1;
   -1; 26; 27; 28; 29; 30; 31; 32; 33; 34; 35; 36; 37; 38; 39; 40;
   41; 42; 43; 44; 45; 46; 47; 48; 49; 50; 51; -1; -1; -1; -1; -1;
   -1; -1; -1; -1; -1; -1; -1; -1; -1; -1; -1; -1; -1; -1; -1; -1;
   -1; -1; -1; -1; -1; -1; -1; -1; -1; -1; -1; -1; -1; -1; -1; -1;
   -1; -1; -1; -1; -1; -1; -1; -1; -1; -1; -1; -1; -1; -1; -1; -1;
   -1; -1; -1; -1; -1; -1; -1; -1; -1; -1; -1; -1; -1; -1; -1; -1;
   -1; -1; -1; -1; -1; -1; -1; -1; -1; -1; -1; -1; -1; -1; -1; -1;
   -1; -1; -1; -1; -1; -1; -1; -1; -1; -1; -1; -1; -1; -1; -1; -1;
   -1; -1; -1; -1; -1; -1; -1; -1; -1; -1; -1; -1; -1; -1; -1; -1;
   -1; -1; -1; -1; -1; -1; -1; -1; -1; -1; -1; -1; -1; -1; -1; -1].

(** [b64_decode_table[(int)*cp]]: [char] is signed, so a byte from 128 on reads
    before the table. *)
Definition b64_digit (c : ascii) : outcome Z :=
  if code c <? 128 then deref (b64_decode_table !! Z.to_nat (code c)) else Fault.

(** The byte that a digit completes in each phase. *)
Definition b64_byte (phase prev_d d : Z) : Z :=
  u8 (if phase =? 1 then Z.lor (Z.shiftl prev_d 2) (Z.shiftr (Z.land d 0x30) 4)
      else if phase =? 2 then Z.lor (Z.shiftl (Z.land prev_d 0xf) 4) (Z.shiftr (Z.land d 0x3c) 2)
      else Z.lor (Z.shiftl (Z.land prev_d 0x03) 6) d).

(** The loop; [space] lists the bytes stored so far, at most [size]. *)
Fixpoint b64_loop (str : string) (size : Z) (phase prev_d : Z) (space : list Z) : outcome (list Z) :=
  match str with
  | EmptyString => Ret space
  | String c str =>
      d ← b64_digit c;
      if d =? -1 then b64_loop str size phase prev_d space else
      let space :=
        if phase =? 0 then space
        else if Z.of_nat (length space) <? size then space ++ [b64_byte phase prev_d d]
        else space in
      b64_loop str size ((phase + 1) mod 4) d space
  end.
Definition b64_decode (str : string) (size : Z) : outcome (list Z) := b64_loop str size 0 0 [].

(** ** File name patterns *)

(** The suffixes of [s] that a wildcard can leave: all of them, or those up to
    the first character of [stop]. *)
Fixpoint tails (stop : ascii -> bool) (s : string) : list string :=
  s :: match s with
       | EmptyString => []
       | String c s' => if stop c then [] else tails stop s'
       end.

(** The pattern is the [patternlen] characters [match_one] may use; the code
    tries the longest match of a wildcard first, which decides nothing. *)
Fixpoint match_one (pattern str : string) : bool :=
  match pattern with
  | EmptyString => match str with EmptyString => true | _ => false end
  | String p pattern' =>
      if is_char "?" p && negb (bool_decide (str = EmptyString)) then
        match str with EmptyString => false | String _ str' => match_one pattern' str' end
      else if is_char "*" p then
        match pattern' with
        | String q pattern'' =>
            if is_char "*" q then existsb (match_one pattern'') (rev (tails (fun _ => false) str))
            else existsb (match_one pattern') (rev (tails (is_char "/") str))
        | EmptyString => existsb (match_one pattern') (rev (tails (is_char "/") str))
        end
      else match str with
           | EmptyString => false
           | String c str' => if bool_decide (p = c) then match_one pattern' str' else false
           end
  end.

(** Alternatives are separated by bars. *)
Fixpoint match_loop (fuel : nat) (pattern str : string) : outcome bool :=
  match fuel with
  | O => Running
  | S fuel =>
      match from (is_char "|") pattern with
      | EmptyString => Ret (match_one pattern str)
      | String _ pattern' =>
          if match_one (upto (is_char "|") pattern) str then Ret true
          else match_loop fuel pattern' str
      end
  end.
Definition pattern_match (pattern str : string) : outcome bool :=
  match_loop (S (String.length pattern)) pattern str.

(** ** Login *)

Definition AUTH_MAX : Z := 64.

(** The globals of the server and the statics of [auth_check]. *)
Record httpd := mk_httpd {
  do_ssl : bool;
  remote_timeout : bool;
  local_timeout : bool;
  remote_in_process : bool;
  local_in_process : bool;
  count : Z;
  First_Reboot : bool
}.

(** The state when the server enters its loop. *)
Definition start (ssl : bool) : httpd := mk_httpd ssl ssl (negb ssl) false false 0 true.

Definition set_reboot (b : bool) (h : httpd) : httpd :=
  mk_httpd (do_ssl h) (remote_timeout h) (local_timeout h) (remote_in_process h)
    (local_in_process h) (count h) b.

(** The end of [auth_check]: the login is refused, the timeout is over. *)
Definition refuse (h : httpd) : httpd :=
  let h :=
    if do_ssl h then
      if 2 <=? count h then
        mk_httpd (do_ssl h) false (local_timeout h) (remote_in_process h) (local_in_process h) 0
          (First_Reboot h)
      else
        mk_httpd (do_ssl h) (remote_timeout h) (local_timeout h) (remote_in_process h)
          (local_in_process h) (count h + 1) (First_Reboot h)
    else
      mk_httpd (do_ssl h) (remote_timeout h) false (remote_in_process h) (local_in_process h)
        (count h) (First_Reboot h) in
  set_reboot false h.

(** The expired flags: a login with the right password is refused while one is
    set. *)
Definition expired (h : httpd) : bool :=
  (remote_timeout h && do_ssl h) || local_timeout h || First_Reboot h.

Definition NUL : ascii := "000".
(** The C string at the front of a buffer. *)
Definition cstring (s : string) : string := upto (is_char NUL) s.
Definition text_of (l : list Z) : string :=
  foldr (fun b s => String (chr b) s) EmptyString l.

(** The user and the password of "Basic ...": [authinfo] has 500 bytes, and its
    NUL goes behind the bytes decoded. *)
Definition credentials (authorization : string) : outcome (option (string * string)) :=
  l ← b64_decode (String.substring 6 (String.length authorization) authorization) 500;
  if 500 <=? Z.of_nat (length l) then Fault else
  match strsep (cstring (text_of l)) ":" with
  | (user, Some pass) => Ret (Some (user, pass))
  | (_, None) => Ret None
  end.

Definition is_basic (authorization : option string) : option string :=
  match authorization with
  | Some a => match starts_with "Basic " a with Some _ => Some a | None => None end
  | None => None
  end.

(** Whether the request may go on; a refusal sends status 401. *)
Definition auth_check (userid passwd : string) (authorization : option string) (h : httpd)
    : outcome (bool * httpd) :=
  match is_basic authorization with
  | None => Ret (false, if First_Reboot h then set_reboot false h else h)
  | Some a =>
      cred ← credentials a;
      match cred with
      | None => Ret (false, h)
      | Some (user, pass) =>
          if bool_decide (userid = user) && bool_decide (passwd = pass) && negb (expired h)
          then Ret (true, h) else Ret (false, refuse h)
      end
  end.

(** The alarm handler [local_remote_timeout_process]. *)
Definition timeout (h : httpd) : httpd :=
  if do_ssl h then
    if remote_in_process h then h
    else mk_httpd (do_ssl h) true (local_timeout h) (remote_in_process h) (local_in_process h)
           (count h) (First_Reboot h)
  else
    if local_in_process h then h
    else mk_httpd (do_ssl h) (remote_timeout h) true (remote_in_process h) (local_in_process h)
           (count h) (First_Reboot h).

(** ** Handlers *)

Inductive input_fn := do_apply_post | do_upgrade_post.
Inductive output_fn :=
  | do_ej | do_file | do_apply_cgi | do_upgrade_cgi | do_setup_wizard | do_backup.
#[global] Instance input_fn_eq_dec : EqDecision input_fn.
Proof. solve_decision. Defined.
#[global] Instance output_fn_eq_dec : EqDecision output_fn.
Proof. solve_decision. Defined.

Record mime_handler := mk_handler {
  pattern : string;
  mime_type : string;
  no_cache : bool;
  input : option input_fn;
  output : output_fn;
  auth : bool                    (* do_auth or NULL *)
}.

Definition mime_handlers : list mime_handler :=
  [mk_handler "**.asp" "text/html" true None do_ej true;
   mk_handler "ADSLCStatus.htm*" "text/html" true None do_ej true;
   mk_handler "SysInfo.htm*" "text/plain" true None do_ej true;
   mk_handler "**.css" "text/css" false None do_file true;
   mk_handler "**.gif" "image/gif" false None do_file true;
   mk_handler "**.jpg" "image/jpeg" false None do_file true;
   mk_handler "**.js" "text/javascript" false None do_file true;
   mk_handler "apply.cgi*" "text/html" true (Some do_apply_post) do_apply_cgi true;
   mk_handler "upgrade.cgi*" "text/html" true (Some do_upgrade_post) do_upgrade_cgi true;
   mk_handler "Gozila.cgi*" "text/html" true None do_setup_wizard true;
   mk_handler "**.cfg" "application/octet-stream" true None do_backup true;
   mk_handler "restore.cgi**" "text/html" true (Some do_upgrade_post) do_upgrade_cgi true;
   mk_handler "test.bin**" "application/octet-stream" true None do_file true].

(** What the server needs of its surroundings: the variables as the NVRAM
    library returns them, and the result of a handler's output function. *)
Class Web := {
  nvram_get : string -> string;
  output_result : output_fn -> string -> Z
}.

(** What the server does in answer to a request. *)
Inductive event :=
  | Status (code : Z)
  | Input (f : input_fn) (file : string) (cl : Z) (boundary : option string)
  | Output (f : output_fn) (file : string) (post : bool).

(** ** The bytes of a request *)

Definition LINE : Z := 10000.

(** [fgets] of [n] bytes: at most [n - 1] characters, up to the end of the line;
    [None] at the end of the connection or without room. *)
Fixpoint fgets_loop (n : nat) (s : string) : string * string :=
  match n, s with
  | S n, String c s' =>
      if is_char "010" c then (String c EmptyString, s')
      else let '(l, rest) := fgets_loop n s' in (String c l, rest)
  | _, _ => (EmptyString, s)
  end.
Definition fgets (n : Z) (s : string) : option (string * string) :=
  if (n <=? 1) || bool_decide (s = EmptyString) then None
  else Some (fgets_loop (Z.to_nat (n - 1)) s).

(** [wfgets]; [err] says that the connection is encrypted and ends with an error:
    [BIO_gets] then leaves an empty text in the buffer and returns -1, which is not
    NULL, each time it is called. *)
Definition wfgets (err : bool) (n : Z) (s : string) : option (string * string) :=
  match fgets n s with
  | None => if err && (1 <? n) then Some (EmptyString, s) else None
  | r => r
  end.

(** [strncasecmp(s, t, strlen(t)) == 0], and what follows in [s]. *)
Fixpoint starts_nocase (t s : string) : option string :=
  match t, s with
  | EmptyString, _ => Some s
  | String a t', String b s' =>
      if bool_decide (tolower a = tolower b) then starts_nocase t' s' else None
  | _, _ => None
  end.

(** [strsep(&p, " "); while ( *p == ' ') p++]: without a space [p] is NULL and
    its first character undefined. *)
Definition next_field (s : string) : outcome (string * string) :=
  match from (is_char " ") s with
  | EmptyString => Fault
  | String _ rest => Ret (upto (is_char " ") s, skip (is_char " ") rest)
  end.

(** Method, path, and the room left in [line] behind the protocol. *)
Definition request_line (l : string) : outcome (string * string * Z) :=
  '(method, path) ← next_field l;
  '(file, protocol) ← next_field path;
  let used := strlen l - strlen protocol + strlen (upto (is_char " ") protocol) + 1 in
  Ret (method, file, LINE - used).

Record headers := mk_headers {
  authorization : option string;
  content_length : Z;
  boundary : option string;
  room : Z                       (* bytes of [line] from [cur] on *)
}.

Definition is_blank_or_tab (c : ascii) : bool := is_char " " c || is_char "009" c.
Definition is_eol (c : ascii) : bool := is_char "013" c || is_char "010" c.

(** One header line. *)
Definition header (cur : string) (hs : headers) : headers :=
  match starts_nocase "Authorization:" cur with
  | Some rest =>
      let cp := skip is_blank_or_tab rest in
      mk_headers (Some cp) (content_length hs) (boundary hs)
        (room hs - (strlen cur - strlen cp + strlen cp + 1))
  | None =>
      match starts_nocase "Content-Length:" cur with
      | Some rest =>
          mk_headers (authorization hs) (s32 (strtoul (skip is_blank_or_tab rest) 0).1)
            (boundary hs) (room hs)
      | None =>
          match strstr cur "boundary=" with
          | Some cp =>
              let value := String.substring 9 (String.length cp) cp in
              let b := upto is_eol value in
              mk_headers (authorization hs) (content_length hs) (Some b)
                (room hs - (strlen cur - strlen value + strlen b + 1))
          | None => hs
          end
      end
  end.

Fixpoint headers_loop (err : bool) (fuel : nat) (s : string) (hs : headers) : outcome (headers * string) :=
  match fuel with
  | O => Running
  | S fuel =>
      match wfgets err (room hs) s with
      | None => Ret (hs, s)
      | Some (l, s) =>
          let cur := cstring l in
          if bool_decide (cur = String "010" "") || bool_decide (cur = String "013" (String "010" ""))
          then Ret (hs, s)
          else headers_loop err fuel s (header cur hs)
      end
  end.

(** The flags set once the headers are known. *)
Definition begin_request (authorized : bool) (h : httpd) : httpd :=
  if authorized then
    if do_ssl h then
      mk_httpd true (remote_timeout h) (local_timeout h) true (local_in_process h) (count h) (First_Reboot h)
    else
      mk_httpd false (remote_timeout h) (local_timeout h) (remote_in_process h) true (count h) (First_Reboot h)
  else
    if do_ssl h then
      mk_httpd true false (local_timeout h) (remote_in_process h) (local_in_process h) (count h) (First_Reboot h)
    else
      mk_httpd false (remote_timeout h) false (remote_in_process h) (local_in_process h) (count h) (First_Reboot h).

Definition last_char (s : string) : option ascii := String.get (String.length s - 1) s.

(** The tests of the file name. The comparison of the last three characters of a
    name of fewer characters starts before the name: at the slash for a name of
    two, which is then refused for being "..", and at a space, a NUL or the
    method for a shorter one, where it fails. *)
Definition illegal (file : string) : bool :=
  match file with String "/" _ => true | _ => false end
  || bool_decide (file = "..")
  || bool_decide (is_Some (starts_with "../" file))
  || bool_decide (is_Some (strstr file "/../"))
  || ((3 <=? strlen file) &&
      bool_decide (String.substring (String.length file - 3) 3 file = "/..")).

(** The file a request is for, or the status of the refusal. *)
Definition request_file (method path : string) : string + Z :=
  if negb (strcasecmp_eq method "get") && negb (strcasecmp_eq method "post") then inr 501 else
  match path with
  | String "/" file =>
      if illegal file then inr 400
      else inl (if bool_decide (file = "") || bool_decide (last_char file = Some "/"%char)
                then "index.asp" else file)
  | _ => inr 400
  end.

Section Requests.
Context `{Web}.

(** [do_auth]: the configured user and password, in buffers of 64 bytes that
    [strncpy] fills without a NUL when they are longer. *)
Definition do_auth (h : httpd) : outcome (string * string) :=
  let '(user, pass) :=
    if do_ssl h then (nvram_get "http_remote_username", nvram_get "http_remote_passwd")
    else (nvram_get "http_username", nvram_get "http_passwd") in
  if (AUTH_MAX <=? strlen user) || (AUTH_MAX <=? strlen pass) then Fault else Ret (user, pass).

Fixpoint find_handler (l : list mime_handler) (file : string) : outcome (option mime_handler) :=
  match l with
  | [] => Ret None
  | m :: l =>
      b ← pattern_match (pattern m) file;
      if (b : bool) then Ret (Some m) else find_handler l file
  end.

(** The handler runs: its input, the headers of the answer, its output. *)
Definition serve (m : mime_handler) (file method : string) (hs : headers) : list event :=
  let post := strcasecmp_eq method "post" in
  match input m with Some f => [Input f file (content_length hs) (boundary hs)] | None => [] end
  ++ [Status 200; Output (output m) file post]
  ++ (if output_result (output m) file =? -1 then [Status 404] else []).

Definition dispatch (file method : string) (hs : headers) (h : httpd) : outcome (list event * httpd) :=
  m ← find_handler mime_handlers file;
  match m with
  | None => Ret ([Status 404], h)
  | Some m =>
      if auth m then
        '(user, pass) ← do_auth h;
        '(ok, h) ← auth_check user pass (authorization hs) h;
        Ret (if (ok : bool) then serve m file method hs else [Status 401], h)
      else Ret (serve m file method hs, h)
  end.

(** What a request says: method, path and headers. *)
Definition read_request (err : bool) (l s : string) : outcome (string * string * headers) :=
  '(method, path, rm) ← request_line l;
  '(hs, _) ← headers_loop err (S (String.length s)) s (mk_headers None 0 None rm);
  Ret (method, path, hs).

(** One request; [ready] is the result of [waitfor], [broken] whether the bytes end
    with an error of the connection. *)
Definition handle_request (ready broken : bool) (s : string) (h : httpd) : outcome (list event * httpd) :=
  if negb (do_ssl h) && negb ready then Ret ([], h) else
  let err := do_ssl h && broken in
  match wfgets err LINE s with
  | None => Ret ([Status 400], h)
  | Some (l, s) =>
      let l := cstring l in
      match starts_nocase "GET" l, starts_nocase "POST" l with
      | None, None => Ret ([], h)
      | _, _ =>
          '(method, path, hs) ← read_request err l s;
          let h := begin_request (bool_decide (is_Some (authorization hs))) h in
          match request_file method path with
          | inr code => Ret ([Status code], h)
          | inl file => dispatch file method hs h
          end
      end
  end.

(** ** The loop of [main] *)

(** The process flag is cleared before each connection. *)
Definition idle (h : httpd) : httpd :=
  if do_ssl h then
    mk_httpd true (remote_timeout h) (local_timeout h) false (local_in_process h) (count h) (First_Reboot h)
  else
    mk_httpd false (remote_timeout h) (local_timeout h) (remote_in_process h) false (count h) (First_Reboot h).

(** [check_action]: what the action file says ([None]: it cannot be read). *)
Inductive action :=
  ACT_IDLE | ACT_TFTP_UPGRADE | ACT_WEB_UPGRADE | ACT_WEBS_UPGRADE | ACT_SW_RESTORE | ACT_HW_RESTORE.
#[global] Instance action_eq_dec : EqDecision action.
Proof. solve_decision. Defined.
Definition check_action (buf : option string) : action :=
  match buf with
  | Some buf =>
      if bool_decide (buf = "ACT_TFTP_UPGRADE") then ACT_TFTP_UPGRADE
      else if bool_decide (buf = "ACT_WEBS_UPGRADE") then ACT_WEBS_UPGRADE
      else if bool_decide (buf = "ACT_WEB_UPGRADE") then ACT_WEB_UPGRADE
      else if bool_decide (buf = "ACT_SW_RESTORE") then ACT_SW_RESTORE
      else if bool_decide (buf = "ACT_HW_RESTORE") then ACT_HW_RESTORE
      else ACT_IDLE
  | None => ACT_IDLE
  end.

(** One turn: a connection, with the action file, the bytes of the client and how
    they end, or the alarm. A server of the other kind than the one that upgrades ends. *)
Inductive step_event :=
  | Connection (action_file : option string) (ready broken : bool) (s : string)
  | Alarm.
Definition step (e : step_event) (h : httpd) : outcome (list event * httpd) :=
  match e with
  | Connection file ready broken s =>
      let h := idle h in
      match check_action file with
      | ACT_TFTP_UPGRADE | ACT_SW_RESTORE | ACT_HW_RESTORE => Ret ([], h)
      | ACT_WEB_UPGRADE => if do_ssl h then Exit (-1) else handle_request ready broken s h
      | ACT_WEBS_UPGRADE => if do_ssl h then handle_request ready broken s h else Exit (-1)
      | ACT_IDLE => handle_request ready broken s h
      end
  | Alarm => Ret ([], timeout h)
  end.

Fixpoint run (l : list step_event) (h : httpd) : outcome (list event * httpd) :=
  match l with
  | [] => Ret ([], h)
  | e :: l => '(out, h) ← step e h; '(out', h) ← run l h; Ret (out ++ out', h)
  end.
End Requests.

End Http.
