(* ===== verification/HttpProofs.v ===== *)
(** * The web server: proofs

    Base-64 decoding inverts the encoding of RFC 4648; the pattern matcher
    decides the relation of shell patterns; a page is served only to the
    configured user, within the tree of the server; every request ends; and the
    right user gets in after the refusals a timeout costs. *)

From Stdlib Require Import ZArith Lia Ascii.
From stdpp Require Import base numbers sets strings list.
From S2P Require Import Prelude CString Http.
Open Scope string_scope.
Open Scope Z_scope.
Open Scope list_scope.
Import Http.

(** ** Base-64 *)

Definition b64_alphabet : string :=
  "ABCDEFGHIJKLMNOPQRSTUVWXYZabcdefghijklmnopqrstuvwxyz0123456789+/".
Definition b64_char (d : Z) : ascii := default "="%char (String.get (Z.to_nat d) b64_alphabet).

(** The encoding of RFC 4648, section 4: three bytes make four digits. *)
Fixpoint b64_encode (bs : list Z) : string :=
  match bs with
  | a :: b :: c :: bs =>
      String (b64_char (a / 4)) (String (b64_char (a mod 4 * 16 + b / 16))
        (String (b64_char (b mod 16 * 4 + c / 64)) (String (b64_char (c mod 64)) (b64_encode bs))))
  | [a; b] =>
      String (b64_char (a / 4)) (String (b64_char (a mod 4 * 16 + b / 16))
        (String (b64_char (b mod 16 * 4)) "="))
  | [a] => String (b64_char (a / 4)) (String (b64_char (a mod 4 * 16)) "==")
  | [] => ""
  end.

Definition is_digit (d : Z) : Prop := 0 <= d < 64.

(** A property of the 64 digits, checked on each. *)
Lemma digits_forall (P : Z -> bool) :
  forallb P (seqZ 0 64) = true -> forall d, is_digit d -> P d = true.
Proof.
  intros Hall d Hd. rewrite forallb_forall in Hall. apply Hall, list_elem_of_In, elem_of_seqZ.
  unfold is_digit in Hd. lia.
Qed.

Lemma b64_digit_char d : is_digit d -> b64_digit (b64_char d) = Ret d.
Proof.
  intros Hd. apply (bool_decide_eq_true_1 (b64_digit (b64_char d) = Ret d)).
  revert d Hd. apply digits_forall. vm_compute. reflexivity.
Qed.

(** The byte a digit completes, as arithmetic. *)
Definition spec_byte (phase p d : Z) : Z :=
  (if phase =? 1 then p * 4 + d / 16
   else if phase =? 2 then p * 16 + d / 4
   else p * 64 + d) mod 256.

Lemma b64_byte_spec phase p d :
  1 <= phase <= 3 -> is_digit p -> is_digit d -> b64_byte phase p d = spec_byte phase p d.
Proof.
  intros Hph Hp Hd. apply Z.eqb_eq. revert d Hd. apply digits_forall.
  revert p Hp. apply (digits_forall (fun p =>
    forallb (fun d => b64_byte phase p d =? spec_byte phase p d) (seqZ 0 64))).
  assert (phase = 1 \/ phase = 2 \/ phase = 3) as [->|[->| ->]] by lia; vm_compute; reflexivity.
Qed.

(** Storing while there is room keeps the front of what is generated. *)
Lemma store_take (n : nat) (l : list Z) b :
  (if Z.of_nat (length (take n l)) <? Z.of_nat n then take n l ++ [b] else take n l)
  = take n (l ++ [b]).
Proof.
  rewrite length_take. destruct (Z.ltb_spec (Z.of_nat (n `min` length l)) (Z.of_nat n)).
  - rewrite (take_ge l), (take_ge (l ++ [b])) by (rewrite ?length_app; simpl; lia). done.
  - by rewrite take_app_le by lia.
Qed.

Section B64Loop.
Context (n : nat).

Lemma b64_first d s prev l :
  is_digit d ->
  b64_loop (String (b64_char d) s) (Z.of_nat n) 0 prev l = b64_loop s (Z.of_nat n) 1 d l.
Proof.
  intros Hd. cbn [b64_loop]. rewrite b64_digit_char by done. cbn [mbind outcome_bind].
  unfold is_digit in Hd. rewrite (proj2 (Z.eqb_neq d (-1))) by lia. done.
Qed.

Lemma b64_next phase d s prev l :
  1 <= phase <= 3 -> is_digit prev -> is_digit d ->
  b64_loop (String (b64_char d) s) (Z.of_nat n) phase prev (take n l)
  = b64_loop s (Z.of_nat n) ((phase + 1) mod 4) d (take n (l ++ [spec_byte phase prev d])).
Proof.
  intros Hph Hp Hd. cbn [b64_loop]. rewrite b64_digit_char by done. cbn [mbind outcome_bind].
  rewrite b64_byte_spec by done. unfold is_digit in Hd.
  rewrite (proj2 (Z.eqb_neq d (-1))), (proj2 (Z.eqb_neq phase 0)) by lia.
  by rewrite store_take.
Qed.

Ltac b64_arith :=
  unfold is_digit, is_u8, spec_byte in *; word_consts; cbn [Z.eqb Pos.eqb];
  Z.to_euclidean_division_equations; lia.
Ltac b64_steps :=
  cbn [b64_encode]; rewrite b64_first by b64_arith;
  repeat (rewrite b64_next by b64_arith;
          try change ((1 + 1) mod 4) with 2; try change ((2 + 1) mod 4) with 3;
          try change ((3 + 1) mod 4) with 0).

Lemma b64_loop_encode bs l prev :
  Forall is_u8 bs ->
  b64_loop (b64_encode bs) (Z.of_nat n) 0 prev (take n l) = Ret (take n (l ++ bs)).
Proof.
  remember (length bs) as k eqn:Hk. revert bs Hk l prev.
  induction (lt_wf k) as [k _ IH]. intros bs -> l prev Hbs.
  destruct bs as [|a [|b [|c bs]]]; rewrite ?Forall_cons in Hbs; destruct_and?.
  - cbn. by rewrite app_nil_r.
  - b64_steps. by replace (spec_byte 1 _ _) with a by b64_arith.
  - b64_steps. replace (spec_byte 1 _ _) with a by b64_arith.
    replace (spec_byte 2 _ _) with b by b64_arith. by rewrite <- app_assoc.
  - b64_steps. replace (spec_byte 1 _ _) with a by b64_arith.
    replace (spec_byte 2 _ _) with b by b64_arith.
    replace (spec_byte 3 _ _) with c by b64_arith.
    rewrite (IH (length bs)) by (simpl; try lia; done). by rewrite <- !app_assoc.
Qed.
End B64Loop.

Lemma b64_decode_encode bs size :
  Forall is_u8 bs -> 0 <= size ->
  b64_decode (b64_encode bs) size = Ret (take (Z.to_nat size) bs).
Proof.
  intros Hbs Hs. unfold b64_decode. rewrite <- (Z2Nat.id size) at 1 by done.
  pose proof (b64_loop_encode (Z.to_nat size) bs [] 0 Hbs) as Hloop.
  by rewrite take_nil in Hloop.
Qed.

(** Decoding what RFC 4648 encodes gives the bytes back, cut to the size
    of the buffer: the decoder never stores more. *)
Theorem b64_roundtrip bs size :
  Forall is_u8 bs -> 0 <= size ->
  b64_decode (b64_encode bs) size = Ret (take (Z.to_nat size) bs).
Proof. apply b64_decode_encode. Qed.

Lemma b64_roundtrip_witness :
  b64_decode (b64_encode [97; 100; 109; 105; 110]) 500 = Ret [97; 100; 109; 105; 110].
Proof. apply (b64_roundtrip [97; 100; 109; 105; 110] 500); [repeat constructor; lia|lia]. Defined.

(** ** File name patterns *)

(** What a pattern means: [?] is any character, [*] any characters but a slash,
    [**] any characters. *)
Inductive glob : string -> string -> Prop :=
  | glob_end : glob "" ""
  | glob_any c p s : glob p s -> glob (String "?" p) (String c s)
  | glob_name a p s : avoids (is_char "/") a = true -> glob p s -> glob (String "*" p) (a +:+ s)
  | glob_path a p s : glob p s -> glob (String "*" (String "*" p)) (a +:+ s)
  | glob_char c p s : c <> "*"%char -> glob p s -> glob (String c p) (String c s).

Lemma tails_spec stop s u :
  u ∈ tails stop s <-> exists a, s = a +:+ u /\ avoids stop a = true.
Proof.
  revert u. induction s as [|c s IH]; intros u; simpl; rewrite elem_of_cons.
  - split; [intros [->|H]; [by exists ""|by apply not_elem_of_nil in H]|].
    intros ([|d a] & E & _); [left; exact (eq_sym E)|discriminate].
  - split.
    + intros [->|H]; [by exists ""|]. destruct (stop c) eqn:Hc; [by apply not_elem_of_nil in H|].
      apply IH in H as (a & -> & Ha). exists (String c a). by rewrite avoids_cons.
    + intros ([|d a] & E & Ha); [left; exact (eq_sym E)|right].
      apply avoids_cons in Ha as [Hd Ha]. injection E as -> E. rewrite Hd. apply IH. eauto.
Qed.

Lemma exists_tail (f : string -> bool) stop s :
  existsb f (rev (tails stop s)) = true <->
  exists a u, s = a +:+ u /\ avoids stop a = true /\ f u = true.
Proof.
  rewrite existsb_exists. split.
  - intros (u & Hu & Hf). apply in_rev, list_elem_of_In, tails_spec in Hu as (a & -> & Ha). eauto.
  - intros (a & u & -> & Ha & Hf). exists u. split; [|done].
    apply in_rev. rewrite rev_involutive. apply list_elem_of_In, tails_spec. eauto.
Qed.

Lemma avoids_nothing a : avoids (fun _ => false) a = true.
Proof. unfold avoids. by induction (String.list_ascii_of_string a). Qed.

(** The two readings of a star. *)
Lemma match_path p s :
  match_one (String "*" (String "*" p)) s = true <->
  exists a u, s = a +:+ u /\ match_one p u = true.
Proof.
  change (match_one _ s) with (existsb (match_one p) (rev (tails (fun _ => false) s))).
  rewrite exists_tail. split.
  - intros (a & u & ? & _ & ?). eauto.
  - intros (a & u & ? & ?). exists a, u. split_and!; [done|apply avoids_nothing|done].
Qed.

Lemma match_name p s :
  (forall q, p <> String "*" q) ->
  match_one (String "*" p) s = true <->
  exists a u, s = a +:+ u /\ avoids (is_char "/") a = true /\ match_one p u = true.
Proof.
  intros Hp. rewrite <- exists_tail. destruct p as [|c p]; [done|].
  cbn [match_one].
  assert (is_char "*" c = false) as Hc
    by (apply bool_decide_eq_false_2; intros ->; by eapply Hp).
  change (is_char "?" "*") with false. change (is_char "*" "*") with true.
  cbn [andb]. by rewrite Hc.
Qed.

Lemma star_cases p : (exists q, p = String "*" q) \/ (forall q, p <> String "*" q).
Proof.
  destruct p as [|c p]; [right; done|].
  destruct (decide (c = "*"%char)) as [->|Hc]; [left; eauto|right; congruence].
Qed.

(** A star may match nothing. *)
Lemma star_empty p s : match_one p s = true -> match_one (String "*" p) s = true.
Proof.
  remember (String.length p) as k eqn:Hk. revert p Hk s.
  induction (lt_wf k) as [k _ IH]. intros p -> s Hm.
  destruct (star_cases p) as [[q ->]|Hp].
  - apply match_path. destruct (star_cases q) as [[r ->]|Hq].
    + apply match_path in Hm as (a & u & -> & Hu). exists a, u. split; [done|].
      apply (IH (String.length r)); [simpl; lia|done|done].
    + apply match_name in Hm as (a & u & -> & _ & Hu); eauto.
  - apply match_name; [done|]. exists "", s. done.
Qed.

Lemma match_one_sound p s : match_one p s = true -> glob p s.
Proof.
  remember (String.length p) as k eqn:Hk. revert p Hk s.
  induction (lt_wf k) as [k _ IH]. intros p -> s Hm.
  destruct p as [|c p]; [destruct s; [constructor|done]|].
  destruct (decide (c = "*"%char)) as [->|Hc].
  - destruct (star_cases p) as [[q ->]|Hp].
    + apply match_path in Hm as (a & u & -> & Hu). apply glob_path.
      apply (IH (String.length q)); [simpl; lia|done|done].
    + apply match_name in Hm as (a & u & -> & Ha & Hu); [|done]. apply glob_name; [done|].
      apply (IH (String.length p)); [simpl; lia|done|done].
  - cbn [match_one] in Hm.
    change (is_char "*" c) with (bool_decide (c = "*"%char)) in Hm.
    rewrite (bool_decide_eq_false_2 (c = "*"%char)) in Hm by done.
    destruct s as [|d s]; [by rewrite andb_false_r in Hm|]. rewrite andb_true_r in Hm.
    destruct (is_char "?" c) eqn:Hq.
    + apply bool_decide_eq_true_1 in Hq as ->. constructor.
      apply (IH (String.length p)); [simpl; lia|done|done].
    + case_bool_decide as Hd; [|done]. subst d. apply glob_char; [done|].
      apply (IH (String.length p)); [simpl; lia|done|done].
Qed.

Lemma match_one_complete p s : glob p s -> match_one p s = true.
Proof.
  induction 1 as [|c p s _ IH|a p s Ha _ IH|a p s _ IH|c p s Hc _ IH].
  - done.
  - exact IH.
  - destruct (star_cases p) as [[q ->]|Hp].
    + apply star_empty, match_path in IH as (b & u & -> & Hu). apply match_path.
      exists (a +:+ b), u. by rewrite string_app_assoc.
    + apply match_name; eauto.
  - apply match_path. eauto.
  - cbn [match_one]. rewrite andb_true_r.
    change (is_char "*" c) with (bool_decide (c = "*"%char)).
    rewrite (bool_decide_eq_false_2 (c = "*"%char)) by done.
    destruct (is_char "?" c); [exact IH|]. by rewrite bool_decide_eq_true_2.
Qed.

(** The parts of a pattern between bars. *)
Inductive alternative : string -> string -> Prop :=
  | alt_last q : avoids (is_char "|") q = true -> alternative q q
  | alt_first q p : avoids (is_char "|") q = true -> alternative q (q +:+ String "|" p)
  | alt_later q a p :
      avoids (is_char "|") a = true -> alternative q p -> alternative q (a +:+ String "|" p).

Lemma bar_unique u r a p :
  avoids (is_char "|") u = true -> avoids (is_char "|") a = true ->
  u +:+ String "|" r = a +:+ String "|" p -> u = a /\ r = p.
Proof.
  intros Hu Ha E. destruct (cut_at (is_char "|") u "|" r) as [E1 E2]; [done|done|].
  destruct (cut_at (is_char "|") a "|" p) as [E3 E4]; [done|done|].
  rewrite E in E1, E2. split; congruence.
Qed.

Lemma alternative_bar q u r :
  avoids (is_char "|") u = true -> alternative q (u +:+ String "|" r) <-> q = u \/ alternative q r.
Proof.
  intros Hu. split; [|intros [->|H]; [by apply alt_first|by apply alt_later]].
  remember (u +:+ String "|" r) as w eqn:Hw. intros Hq.
  destruct Hq as [q Hq|q p Hq|q a p Ha Hq].
  - subst q. rewrite avoids_app, andb_true_iff, avoids_cons in Hq. by destruct Hq as [_ [? _]].
  - apply bar_unique in Hw as [-> _]; auto.
  - apply bar_unique in Hw as [-> ->]; auto.
Qed.

Lemma bar_split s :
  (from (is_char "|") s = "" /\ avoids (is_char "|") s = true) \/
  exists r, from (is_char "|") s = String "|" r /\ s = upto (is_char "|") s +:+ String "|" r.
Proof.
  pose proof (upto_from (is_char "|") s) as E. destruct (from _ s) as [|c r] eqn:F.
  - left. split; [done|]. rewrite <- E, avoids_app, upto_avoids. done.
  - right. apply from_head in F as Hc. apply bool_decide_eq_true_1 in Hc as ->. exists r.
    by rewrite E.
Qed.

Lemma match_loop_spec fuel pattern str :
  (String.length pattern < fuel)%nat ->
  exists b, match_loop fuel pattern str = Ret b /\
    (b = true <-> exists q, alternative q pattern /\ glob q str).
Proof.
  revert pattern. induction fuel as [|fuel IH]; intros pat Hf; [lia|]. cbn [match_loop].
  destruct (bar_split pat) as [[-> Ha]|(r & Hr & E)].
  - eexists. split; [done|]. split; [eauto using alternative, match_one_sound|].
    intros (q & Hq & Hg). destruct Hq as [q Hq|q p Hq|q a p Hq _]; [by apply match_one_complete|..];
      rewrite avoids_app, andb_true_iff in Ha; destruct Ha as [_ Ha]; by apply avoids_cons in Ha as [? _].
  - rewrite Hr. set (u := upto (is_char "|") pat) in *.
    assert (avoids (is_char "|") u = true) as Hu by apply upto_avoids.
    destruct (match_one u str) eqn:Hm.
    + exists true. split; [done|]. split; [|done]. intros _. exists u.
      split; [rewrite E; by constructor|by apply match_one_sound].
    + pose proof (from_length (is_char "|") pat) as Hl. rewrite Hr in Hl. cbn in Hl.
      destruct (IH r ltac:(lia)) as (b & -> & Hb). exists b. split; [done|]. rewrite Hb.
      rewrite E. split; intros (q & Hq & Hg); exists q.
      * split; [apply alternative_bar; auto|done].
      * apply alternative_bar in Hq as [->|Hq]; [|done|done].
        apply match_one_complete in Hg. congruence.
Qed.

(** The matcher of handler patterns decides the relation of shell
    patterns: it answers, and says yes exactly when one of the parts between
    bars matches the name. *)
Theorem match_decides pattern str :
  exists b, pattern_match pattern str = Ret b /\
    (b = true <-> exists q, alternative q pattern /\ glob q str).
Proof. apply match_loop_spec. lia. Qed.

(** ** File names *)

(** A component ".." of a path: bounded by slashes or the ends of the name. *)
Definition dotdot (file : string) : Prop :=
  exists a b, file = a +:+ ".." +:+ b /\
    (a = "" \/ exists a', a = a' +:+ "/") /\ (b = "" \/ exists b', b = String "/" b').

Lemma strstr_infix a t b : is_Some (strstr (a +:+ t +:+ b) t).
Proof.
  induction a as [|c a IH].
  - change ("" +:+ t +:+ b) with (t +:+ b). rewrite strstr_prefix. eauto.
  - change (String c a +:+ t +:+ b) with (String c (a +:+ t +:+ b)).
    cbn [strstr]. destruct (starts_with t _); eauto.
Qed.

Lemma illegal_dotdot file : dotdot file -> illegal file = true.
Proof.
  intros (a & b & -> & Ha & Hb). unfold illegal. rewrite !orb_true_iff.
  destruct Ha as [->|[a' ->]], Hb as [->|[b' ->]].
  - left. left. left. right. done.
  - left. left. right. apply bool_decide_eq_true_2.
    change (is_Some (starts_with "../" ("../" +:+ b'))). rewrite starts_with_app. eauto.
  - right. rewrite !string_app_assoc. change ("/" +:+ ".." +:+ "") with "/..".
    rewrite andb_true_iff. split.
    + rewrite strlen_app. change (strlen "/..") with 3. pose proof (strlen_nonneg a'). lia.
    + apply bool_decide_eq_true_2. rewrite slength_app. change (String.length "/..") with 3%nat.
      rewrite Nat.add_sub. by apply (substring_rest a' "/..").
  - left. right. apply bool_decide_eq_true_2. rewrite !string_app_assoc.
    change ("/" +:+ ".." +:+ String "/" b') with ("/../" +:+ b'). apply strstr_infix.
Qed.

Lemma request_file_legal method path file :
  request_file method path = inl file ->
  illegal file = false /\ file <> "" /\ last_char file <> Some "/"%char.
Proof.
  unfold request_file. case_match; [done|]. destruct path as [|[[][][][][][][][]] f]; try done.
  case_match eqn:Hi; [done|]. case_match eqn:He; intros [= <-]; [done|].
  apply orb_false_iff in He as [?%bool_decide_eq_false_1 ?%bool_decide_eq_false_1]. done.
Qed.

(** C37. The name the handlers get is relative, has no component "..", and is
    that of a file: the tree of the server cannot be left. *)
Theorem request_stays_in_tree method path file :
  request_file method path = inl file ->
  ~ dotdot file /\ (forall f, file <> String "/" f) /\ file <> "" /\ last_char file <> Some "/"%char.
Proof.
  intros Hr. apply request_file_legal in Hr as (Hi & Hn & Hl). split_and!; [|intros f ->; done|done|done].
  intros Hd. apply illegal_dotdot in Hd. congruence.
Qed.

Lemma request_stays_in_tree_witness :
  request_file "GET" "/a/..b/Status.asp" = inl "a/..b/Status.asp" /\ ~ dotdot "a/..b/Status.asp".
Proof.
  split; [vm_compute; reflexivity|].
  apply (request_stays_in_tree "GET" "/a/..b/Status.asp"). vm_compute. reflexivity.
Defined.

(** ** Every request ends *)

Lemma fgets_loop_length n s :
  (String.length (fgets_loop n s).2 + String.length (fgets_loop n s).1 = String.length s)%nat /\
  ((0 < n)%nat -> s <> "" -> (String.length (fgets_loop n s).2 < String.length s)%nat).
Proof.
  revert s. induction n as [|n IH]; intros s; [simpl; split; lia|].
  destruct s as [|c s]; [simpl; split; [lia|done]|]. cbn [fgets_loop].
  case_match; [simpl; split; lia|].
  destruct (IH s) as [E _]. destruct (fgets_loop n s) as [l r]. simpl in *. split; lia.
Qed.

Lemma fgets_shorter n s l r :
  fgets n s = Some (l, r) -> (String.length r < String.length s)%nat.
Proof.
  unfold fgets. case_match eqn:E; [done|]. intros [= E2].
  apply orb_false_iff in E as [En%Z.leb_gt Es%bool_decide_eq_false_1].
  destruct (fgets_loop_length (Z.to_nat (n - 1)) s) as [_ H]. rewrite E2 in H. apply H; [lia|done].
Qed.

Lemma wfgets_plain n s : wfgets false n s = fgets n s.
Proof. unfold wfgets. by destruct (fgets n s) as [[]|]. Qed.

Lemma headers_loop_ends fuel s hs :
  (String.length s < fuel)%nat ->
  exists hs' s', headers_loop false fuel s hs = Ret (hs', s').
Proof.
  revert s hs. induction fuel as [|fuel IH]; intros s hs Hf; [lia|]. cbn [headers_loop].
  rewrite wfgets_plain. destruct (fgets (room hs) s) as [[l r]|] eqn:E; [|eauto]. apply fgets_shorter in E.
  case_match; [eauto|]. apply IH. lia.
Qed.

Lemma pattern_match_answers pat str : exists b, pattern_match pat str = Ret b.
Proof. edestruct match_loop_spec as (b & Hb & _); [|exists b; exact Hb]. lia. Qed.

Lemma find_handler_answers l file : exists m, find_handler l file = Ret m.
Proof.
  induction l as [|m l [m' IH]]; [by eexists|]. cbn [find_handler].
  destruct (pattern_match_answers (pattern m) file) as [[] ->]; cbn [mbind outcome_bind]; eauto.
Qed.

Lemma find_handler_in l file m : find_handler l file = Ret (Some m) -> m ∈ l.
Proof.
  induction l as [|m' l IH]; [done|]. cbn [find_handler]. intros H.
  apply bind_Ret_inv in H as ([] & _ & H); [injection H as ->; left|right; auto].
Qed.

Section Requests.
Context `{Web}.

(** The encrypted connection that ends with an error: the loop over the headers is
    never left. *)
Lemma ssl_error_hangs fuel hs : 1 < room hs -> headers_loop true fuel "" hs = Running.
Proof.
  intros Hr. induction fuel as [|fuel IH]; [done|]. cbn [headers_loop]. unfold wfgets, fgets.
  rewrite (bool_decide_eq_true_2 ("" = EmptyString)), orb_true_r, (proj2 (Z.ltb_lt 1 _)) by done.
  cbn [andb]. change (cstring "") with "". exact IH.
Qed.

(** A text a login is decoded from: seven-bit characters, at most 505 of them. *)
Definition decodable (a : string) : Prop :=
  avoids (fun c => 128 <=? code c) a = true /\ strlen a < 506.

Lemma b64_loop_answers str size phase prev l : avoids (fun c => 128 <=? code c) str = true ->
  exists r, b64_loop str size phase prev l = Ret r /\ (length r <= length l + String.length str)%nat.
Proof.
  revert phase prev l. induction str as [|c str IH]; intros phase prev l Ha; [exists l; simpl; split; [done|lia]|].
  apply avoids_cons in Ha as [Hc%Z.leb_gt Ha]. cbn [b64_loop String.length]. unfold b64_digit.
  rewrite (proj2 (Z.ltb_lt (code c) 128)) by lia.
  destruct (b64_decode_table !! Z.to_nat (code c)) as [d|] eqn:Ed.
  2: { apply lookup_ge_None in Ed. change (length b64_decode_table) with 256%nat in Ed. lia. }
  cbn [deref mbind outcome_bind]. destruct (d =? -1).
  { destruct (IH phase prev l Ha) as (r & -> & Hr). exists r. split; [done|lia]. }
  cbv zeta. set (l' := if phase =? 0 then l else _). assert (length l' <= length l + 1)%nat as Hl.
  { unfold l'. destruct (phase =? 0); [lia|]. destruct (_ <? size); [rewrite length_app; simpl; lia|lia]. }
  destruct (IH ((phase + 1) mod 4) d l' Ha) as (r & -> & Hr). exists r. split; [done|lia].
Qed.

Lemma credentials_answer a : decodable a -> is_Some (starts_with "Basic " a) -> exists c, credentials a = Ret c.
Proof.
  intros [Ha Hl] [rest Hs]. apply starts_with_Some in Hs as ->. unfold credentials.
  rewrite (substring_rest "Basic ") by (rewrite slength_app; lia).
  rewrite avoids_app in Ha. apply andb_prop in Ha as [_ Ha].
  destruct (b64_loop_answers rest 500 0 0 [] Ha) as (r & E & Hr). unfold b64_decode. rewrite E. cbn [mbind outcome_bind].
  rewrite strlen_app in Hl. change (strlen "Basic ") with 6 in Hl. unfold strlen in Hl. simpl in Hr.
  rewrite (proj2 (Z.leb_gt 500 _)) by lia. destruct (strsep _ _) as [u [pw|]]; eauto.
Qed.

Lemma auth_check_answers u p a h : (forall x, a = Some x -> decodable x) -> exists r, auth_check u p a h = Ret r.
Proof.
  intros Ha. unfold auth_check, is_basic. destruct a as [x|]; [|eauto].
  destruct (starts_with "Basic " x) as [rest|] eqn:Es; [|eauto].
  destruct (credentials_answer x (Ha x eq_refl) ltac:(eauto)) as (c & ->). cbn [mbind outcome_bind].
  destruct c as [[u' p']|]; [case_match|]; eauto.
Qed.

(** What a connection must be for the server to get through it: its end is not an
    error of an encrypted connection, the other server is not upgrading, and a
    request for GET or POST has its three fields and, if it carries a login, one
    that can be decoded. *)
Definition legible (s : string) : Prop := forall l r, fgets LINE s = Some (l, r) ->
  (is_Some (starts_nocase "GET" (cstring l)) \/ is_Some (starts_nocase "POST" (cstring l))) ->
  (exists x, request_line (cstring l) = Ret x) /\
  forall m p hs a, read_request false (cstring l) r = Ret (m, p, hs) -> authorization hs = Some a -> decodable a.
Definition orderly (ssl : bool) (e : step_event) : Prop :=
  match e with
  | Alarm => True
  | Connection file ready broken s =>
      ssl && broken = false /\ legible s /\
      check_action file <> (if ssl then ACT_WEB_UPGRADE else ACT_WEBS_UPGRADE)
  end.

(** The configured user and password are shorter than their buffers. *)
Definition short_login (ssl : bool) : Prop :=
  let user := nvram_get (if ssl then "http_remote_username" else "http_username") in
  let pass := nvram_get (if ssl then "http_remote_passwd" else "http_passwd") in
  strlen user < AUTH_MAX /\ strlen pass < AUTH_MAX.

Lemma do_auth_answers h : short_login (do_ssl h) -> exists u, do_auth h = Ret u.
Proof.
  unfold short_login, do_auth. intros [Hu Hp]. destruct (do_ssl h);
    rewrite (proj2 (Z.leb_gt _ _)), (proj2 (Z.leb_gt _ _)) by done; cbn [orb]; eauto.
Qed.

Lemma begin_ssl b h : do_ssl (begin_request b h) = do_ssl h.
Proof. unfold begin_request. by destruct b, (do_ssl h). Qed.

Lemma handle_request_answers ready broken s h :
  short_login (do_ssl h) -> do_ssl h && broken = false -> legible s ->
  exists out h', handle_request ready broken s h = Ret (out, h').
Proof.
  intros Hsl Hb Hs. unfold handle_request. destruct (negb (do_ssl h) && negb ready); [eauto|]. rewrite Hb. cbv zeta. rewrite wfgets_plain.
  destruct (fgets LINE s) as [[l r]|] eqn:Hf; [|eauto].
  assert (is_Some (starts_nocase "GET" (cstring l)) \/ is_Some (starts_nocase "POST" (cstring l)) ->
    exists out h', ('(method, path, hs) ← read_request false (cstring l) r;
          let h0 := begin_request (bool_decide (is_Some (authorization hs))) h in
          match request_file method path with
          | inr code => Ret ([Status code], h0)
          | inl file => dispatch file method hs h0
          end) = Ret (out, h')) as Hd.
  { intros Hgp. destruct (Hs l r Hf Hgp) as [([[m p] rm] & Hrl) Hau].
    destruct (headers_loop_ends (S (String.length r)) r (mk_headers None 0 None rm)) as (hs & s' & Hh); [lia|].
    assert (read_request false (cstring l) r = Ret (m, p, hs)) as Hr
      by (unfold read_request; rewrite Hrl; cbn [mbind outcome_bind]; by rewrite Hh).
    rewrite Hr. cbn [mbind outcome_bind]. cbv zeta. set (h0 := begin_request _ h).
    destruct (request_file m p) as [file|c]; [|eauto]. unfold dispatch.
    destruct (find_handler_answers mime_handlers file) as [[mh|] ->]; cbn [mbind outcome_bind]; [|eauto].
    destruct (auth mh); [|eauto].
    destruct (do_auth_answers h0) as [[u pw] ->]; [unfold h0; by rewrite begin_ssl|]. cbn [mbind outcome_bind].
    destruct (auth_check_answers u pw (authorization hs) h0) as [[ok h1] ->]; [intros x Hx; by eapply Hau|].
    cbn [mbind outcome_bind]. eauto. }
  destruct (starts_nocase "GET" (cstring l)), (starts_nocase "POST" (cstring l)); [apply Hd; eauto..|eauto].
Qed.

(** ** Who is served *)

Definition is_content (e : event) : bool :=
  match e with Status code => code =? 200 | _ => true end.

(** The client has sent the configured user and password. *)
Definition logged_in (h : httpd) (hs : headers) : Prop :=
  exists a user pass, authorization hs = Some a /\ is_Some (starts_with "Basic " a) /\
    credentials a = Ret (Some (user, pass)) /\ do_auth h = Ret (user, pass).

Lemma auth_check_true u p a h h' :
  auth_check u p a h = Ret (true, h') ->
  h' = h /\ expired h = false /\
  exists a', a = Some a' /\ is_Some (starts_with "Basic " a') /\ credentials a' = Ret (Some (u, p)).
Proof.
  unfold auth_check, is_basic. destruct a as [a|]; [|done].
  destruct (starts_with "Basic " a) eqn:Hs; [|done].
  intros E. apply bind_Ret_inv in E as ([[u' p']|] & Hc & E); [|done].
  case_match eqn:Hok; [|done]. injection E as <-.
  rewrite !andb_true_iff, negb_true_iff in Hok. destruct Hok as [[?%bool_decide_eq_true_1 ?%bool_decide_eq_true_1] ?].
  subst. split_and!; eauto 10.
Qed.

Lemma handlers_need_auth m : m ∈ mime_handlers -> auth m = true.
Proof.
  intros Hm. assert (Forall (fun m => auth m = true) mime_handlers) as Hall.
  { apply Forall_forall. intros x Hx%list_elem_of_In. revert x Hx. apply forallb_forall. reflexivity. }
  by apply (proj1 (Forall_forall _ _) Hall).
Qed.

Lemma do_auth_begin b h : do_auth (begin_request b h) = do_auth h.
Proof. unfold do_auth, begin_request. destruct b, (do_ssl h); done. Qed.

Lemma expired_begin h : expired (begin_request true h) = expired h.
Proof. unfold expired, begin_request. destruct (do_ssl h) eqn:E; simpl; by rewrite ?E. Qed.

Lemma dispatch_content file method hs h out h' :
  dispatch file method hs h = Ret (out, h') -> existsb is_content out = true ->
  h' = h /\ expired h = false /\ logged_in h hs.
Proof.
  intros E Hc. apply bind_Ret_inv in E as ([m|] & Hm & E); [|by injection E as <- <-].
  rewrite (handlers_need_auth m) in E by by eapply find_handler_in.
  apply bind_Ret_inv in E as ([u p] & Hu & E). apply bind_Ret_inv in E as ([[] h2] & Ha & E);
    injection E as <- <-; [|done].
  apply auth_check_true in Ha as (-> & He & a & Ea & Hb & Hcr). split_and!; [done|done|].
  exists a, u, p. eauto.
Qed.

(** The line and the headers of a request. *)
Definition request_of (err : bool) (s : string) (method path : string) (hs : headers) : Prop :=
  exists l r, wfgets err LINE s = Some (l, r) /\ read_request err (cstring l) r = Ret (method, path, hs).

Lemma handle_request_content ready broken s h out h' :
  handle_request ready broken s h = Ret (out, h') -> existsb is_content out = true ->
  exists method path hs file,
    request_of (do_ssl h && broken) s method path hs /\ request_file method path = inl file /\
    logged_in h hs /\ expired h = false.
Proof.
  intros E Hc. unfold handle_request in E. case_match; [by injection E as <- <-|]. cbv zeta in E.
  destruct (wfgets _ LINE s) as [[l r]|] eqn:Hf; [|by injection E as <- <-].
  assert (exists m p hs, read_request (do_ssl h && broken) (cstring l) r = Ret (m, p, hs) /\
    match request_file m p with
    | inr code => Ret ([Status code], begin_request (bool_decide (is_Some (authorization hs))) h)
    | inl file => dispatch file m hs (begin_request (bool_decide (is_Some (authorization hs))) h)
    end = Ret (out, h')) as (m & p & hs & Hr & E').
  { destruct (starts_nocase "GET" (cstring l)), (starts_nocase "POST" (cstring l));
      try (by injection E as <- <-; done);
      apply bind_Ret_inv in E as ([[m p] hs] & Hr & E); eauto. }
  exists m, p, hs. destruct (request_file m p) as [file|c] eqn:Hrf.
  - exists file. apply dispatch_content in E' as (_ & He & a & u & pw & Ha & Hb & Hcr & Hd); [|done].
    rewrite Ha, bool_decide_eq_true_2 in He, Hd by eauto.
    rewrite expired_begin in He. rewrite do_auth_begin in Hd.
    split_and!; [by exists l, r|done|by exists a, u, pw|done].
  - injection E' as <- <-.
    unfold request_file in Hrf. repeat case_match; simplify_eq; done.
Qed.

(** C2. Nothing but refusals leaves the server unless the request of that
    connection carries the configured user and password and no timeout flag is
    set; neither an upgrade by TFTP nor one of the two restorations is going on
    then. (During an upgrade through the web the server that does it still
    serves.) *)
Theorem served_only_logged_in e h out h' :
  step e h = Ret (out, h') -> existsb is_content out = true ->
  exists buf ready broken s method path hs file,
    e = Connection buf ready broken s /\ request_of (do_ssl h && broken) s method path hs /\
    request_file method path = inl file /\ logged_in h hs /\ expired h = false /\
    check_action buf ∉ [ACT_TFTP_UPGRADE; ACT_SW_RESTORE; ACT_HW_RESTORE].
Proof.
  intros E Hc. destruct e as [buf ready broken s|]; [|by injection E as <- <-]. cbn [step] in E.
  assert (handle_request ready broken s (idle h) = Ret (out, h') /\
          check_action buf ∉ [ACT_TFTP_UPGRADE; ACT_SW_RESTORE; ACT_HW_RESTORE]) as [E' Ha].
  { rewrite !not_elem_of_cons. destruct (check_action buf); repeat case_match; simplify_eq; try done;
      split_and!; (done || apply not_elem_of_nil). }
  apply handle_request_content in E' as (m & p & hs & file & Hr & Hf & Hl & He); [|done].
  exists buf, ready, broken, s, m, p, hs, file. split_and!; try done.
  - by replace (do_ssl h) with (do_ssl (idle h)) by (unfold idle; by destruct (do_ssl h)).
  - destruct Hl as (a & u & pw & ?). exists a, u, pw.
    by replace (do_auth h) with (do_auth (idle h)) by (unfold do_auth, idle; by destruct (do_ssl h)).
  - revert He. unfold expired, idle. destruct (do_ssl h) eqn:Hs; simpl; by rewrite ?Hs.
Qed.

(** ** The flags *)

(** A property that the changes of the flags keep is an invariant. *)
Lemma handle_request_keeps (P : httpd -> Prop) ready broken s h out h' :
  (forall b x, P x -> P (begin_request b x)) -> (forall x, P x -> P (set_reboot false x)) ->
  (forall x, P x -> P (refuse x)) ->
  handle_request ready broken s h = Ret (out, h') -> P h -> P h'.
Proof.
  intros Hb Hs Hr E Hp. unfold handle_request in E. case_match; [by simplify_eq|]. cbv zeta in E.
  destruct (wfgets _ LINE s) as [[l r]|]; [|by simplify_eq].
  assert (forall m p hs, match request_file m p with
    | inr code => Ret ([Status code], begin_request (bool_decide (is_Some (authorization hs))) h)
    | inl file => dispatch file m hs (begin_request (bool_decide (is_Some (authorization hs))) h)
    end = Ret (out, h') -> P h') as Hd.
  { intros m p hs E'. destruct (request_file m p) as [file|c]; [|injection E' as <- <-; auto].
    unfold dispatch in E'. apply bind_Ret_inv in E' as ([mh|] & _ & E'); [|injection E' as <- <-; auto].
    case_match; [|injection E' as <- <-; auto].
    apply bind_Ret_inv in E' as ([u pw] & _ & E'). apply bind_Ret_inv in E' as ([ok h2] & Ha & E').
    injection E' as <- <-. unfold auth_check in Ha.
    destruct (is_basic _); [|injection Ha as <- <-; destruct (First_Reboot _); auto].
    apply bind_Ret_inv in Ha as ([[u' p']|] & _ & Ha); [|injection Ha as <- <-; auto].
    destruct (_ && _ && _); injection Ha as <- <-; auto. }
  destruct (starts_nocase "GET" (cstring l)), (starts_nocase "POST" (cstring l));
    try (by injection E as <- <-);
    apply bind_Ret_inv in E as ([[m p] hs] & _ & E); eauto.
Qed.

(** An HTTPS server has no local timeout; refusals are counted up to two. *)
Definition flags_ok (ssl : bool) (h : httpd) : Prop :=
  do_ssl h = ssl /\ (ssl = true -> local_timeout h = false) /\ 0 <= count h <= 2.

Ltac flags :=
  unfold flags_ok, begin_request, set_reboot, refuse, idle, timeout in *;
  repeat (case_match; simpl in * ); destruct_and?; split_and!; simpl in *; first [done|congruence|lia|naive_solver lia].

Lemma step_flags ssl e h out h' : step e h = Ret (out, h') -> flags_ok ssl h -> flags_ok ssl h'.
Proof.
  intros E Hp. destruct e as [buf ready broken s|]; cbn [step] in E; [|injection E as <- <-; flags].
  assert (flags_ok ssl (idle h)) as Hi by flags.
  assert (forall o x, handle_request ready broken s (idle h) = Ret (o, x) -> flags_ok ssl x) as Hr.
  { intros o x Hx. eapply handle_request_keeps; [..|exact Hx|exact Hi]; intros; flags. }
  repeat case_match; simplify_eq; eauto.
Qed.

Lemma run_flags ssl l h out h' : run l h = Ret (out, h') -> flags_ok ssl h -> flags_ok ssl h'.
Proof.
  revert h out. induction l as [|e l IH]; intros h out E Hp; [by injection E as _ <-|].
  cbn [run] in E. apply bind_Ret_inv in E as ([o1 h1] & E1 & E).
  apply bind_Ret_inv in E as ([o2 h2] & E2 & E). injection E as _ <-. eauto using step_flags.
Qed.

Lemma start_flags ssl : flags_ok ssl (start ssl).
Proof. by destruct ssl. Qed.

(** C40. Every request is worked off: the HTTP server, and the HTTPS server as long
    as no connection ends with an error ([ssl_error_hangs]), gets through every
    sequence of connections and alarms. The reading of the request, the login and the
    choice of the handlers end, and none of them runs into undefined behaviour, for
    requests whose line has its three fields ([missing_protocol_faults]) and whose
    login, if there is one, has at most 505 seven-bit characters
    ([long_credentials_fault]), with a configured user and password of less than 64
    characters and while the server of the other kind does not upgrade (which ends
    this one). What the handlers do, and a client that sends nothing, are outside of
    it. *)
Theorem requests_answered ssl l h : do_ssl h = ssl -> short_login ssl -> Forall (orderly ssl) l ->
  exists out h', run l h = Ret (out, h').
Proof.
  intros Hh Hs Hl. revert h Hh. induction Hl as [|e l He Hl IH]; intros h Hh; [cbn [run]; eauto|]. cbn [run].
  assert (exists out h1, step e h = Ret (out, h1) /\ do_ssl h1 = ssl) as (out & h1 & E & H1).
  { assert (do_ssl (idle h) = ssl) as Hi by (unfold idle; by destruct (do_ssl h)).
    destruct e as [file ready broken s|].
    2: { cbn [step]. eexists _, _. split; [done|]. unfold timeout. repeat case_match; simpl; congruence. }
    destruct He as (Hb & Hg & Hact).
    destruct (handle_request_answers ready broken s (idle h)) as (out & h1 & E); [by rewrite Hi..|done|].
    assert (do_ssl h1 = ssl) as H1.
    { eapply (handle_request_keeps (fun x => do_ssl x = ssl)); [..|exact E|exact Hi].
      - intros b x Hx. by rewrite begin_ssl.
      - intros x Hx. unfold set_reboot. by destruct (First_Reboot x).
      - intros x Hx. unfold refuse, set_reboot. by destruct (do_ssl x), (2 <=? count x). }
    cbn [step]. rewrite Hi. destruct (check_action file); eauto; destruct ssl; eauto; done. }
  rewrite E. cbn [mbind outcome_bind]. destruct (IH h1 H1) as (out' & h' & ->). cbn [mbind outcome_bind]. eauto.
Qed.

(** ** The right user gets in *)

(** A request the server has a handler for. *)
Definition asks_for (err : bool) (s : string) (m : mime_handler) (file method : string) (hs : headers) : Prop :=
  exists l r path, wfgets err LINE s = Some (l, r) /\
    (is_Some (starts_nocase "GET" (cstring l)) \/ is_Some (starts_nocase "POST" (cstring l))) /\
    read_request err (cstring l) r = Ret (method, path, hs) /\
    request_file method path = inl file /\ find_handler mime_handlers file = Ret (Some m).

Lemma auth_check_right u p a h :
  is_Some (starts_with "Basic " a) -> credentials a = Ret (Some (u, p)) ->
  auth_check u p (Some a) h = Ret (if expired h then (false, refuse h) else (true, h)).
Proof.
  intros [? Hs] Hc. unfold auth_check, is_basic. rewrite Hs, Hc. cbn [mbind outcome_bind].
  rewrite !bool_decide_eq_true_2 by done. by destruct (expired h).
Qed.

Lemma handle_right broken s m file method hs h :
  asks_for (do_ssl h && broken) s m file method hs -> logged_in h hs ->
  handle_request true broken s h
  = Ret (if expired h then ([Status 401], refuse (begin_request true h))
         else (serve m file method hs, begin_request true h)).
Proof.
  intros (l & r & path & Hf & Hgp & Hr & Hrf & Hm) (a & u & pw & Ha & Hb & Hc & Hd).
  assert (dispatch file method hs (begin_request true h)
    = Ret (if expired h then ([Status 401], refuse (begin_request true h))
           else (serve m file method hs, begin_request true h))) as Hdis.
  { unfold dispatch. rewrite Hm. cbn [mbind outcome_bind].
    rewrite (handlers_need_auth m) by by eapply find_handler_in.
    rewrite do_auth_begin, Hd, Ha. cbn [mbind outcome_bind].
    rewrite (auth_check_right _ _ _ _ Hb Hc), expired_begin. by destruct (expired h). }
  unfold handle_request. rewrite andb_false_r. cbv zeta. rewrite Hf, Hr. cbn [mbind outcome_bind].
  rewrite Hrf, Ha, bool_decide_eq_true_2 by eauto.
  destruct Hgp as [[x ->]|[x ->]]; [exact Hdis|]. by destruct (starts_nocase "GET" _).
Qed.

Lemma step_right broken s m file method hs h :
  asks_for (do_ssl h && broken) s m file method hs -> logged_in h hs ->
  step (Connection None true broken s) h
  = Ret (if expired h then ([Status 401], refuse (begin_request true (idle h)))
         else (serve m file method hs, begin_request true (idle h))).
Proof.
  intros Hs Hl. cbn [step check_action].
  rewrite (handle_right broken s m file method hs);
    [|by replace (do_ssl (idle h)) with (do_ssl h) by (unfold idle; by destruct (do_ssl h))|].
  - replace (expired (idle h)) with (expired h); [done|].
    unfold expired, idle. by destruct (do_ssl h) eqn:E; simpl; rewrite ?E.
  - destruct Hl as (a & u & pw & Hl). exists a, u, pw.
    replace (do_auth (idle h)) with (do_auth h); [done|]. unfold do_auth, idle. by destruct (do_ssl h) eqn:E.
Qed.

Lemma logged_in_ssl h h' hs : do_ssl h' = do_ssl h -> logged_in h hs -> logged_in h' hs.
Proof.
  intros E (a & u & pw & Hl). exists a, u, pw.
  replace (do_auth h') with (do_auth h); [done|]. unfold do_auth. by rewrite E.
Qed.

(** Refusals the flags still cost. *)
Definition refusals (h : httpd) : nat :=
  if expired h then if do_ssl h then if remote_timeout h then Z.to_nat (3 - count h) else 1 else 1
  else 0.

Lemma refusals_next ssl h :
  flags_ok ssl h -> expired h = true ->
  (refusals (refuse (begin_request true (idle h))) < refusals h)%nat.
Proof.
  unfold flags_ok, refusals, expired, refuse, begin_request, idle, set_reboot.
  destruct h as [b rt lt rp lp c fr]; destruct b; simpl; intros (<- & Hl & Hc).
  - rewrite (Hl eq_refl). destruct (Z.leb_spec 2 c), rt, fr; simpl; intros ?; try done; lia.
  - destruct rt, fr, lt; simpl; intros ?; try done; lia.
Qed.

Lemma refusals_done h : expired h = false -> refusals h = 0%nat /\ expired (begin_request true (idle h)) = false.
Proof.
  intros He. split; [unfold refusals; by rewrite He|]. rewrite expired_begin. revert He.
  unfold expired, idle. by destruct (do_ssl h) eqn:E; simpl; rewrite ?E.
Qed.

Lemma run_right ssl broken s m file method hs n h :
  asks_for (ssl && broken) s m file method hs -> logged_in h hs -> flags_ok ssl h ->
  exists k h', (k <= refusals h)%nat /\ (k <= n)%nat /\ ((refusals h <= n)%nat -> expired h' = false) /\
    run (replicate n (Connection None true broken s)) h
    = Ret (replicate k (Status 401) ++ concat (replicate (n - k) (serve m file method hs)), h').
Proof.
  intros Hs. revert h. induction n as [|n IH]; intros h Hl Hf.
  { exists 0%nat, h. split_and!; [lia|lia| |done]. unfold refusals. destruct (expired h) eqn:E; [|done].
    destruct Hf as (_ & _ & Hc). destruct (do_ssl h), (remote_timeout h); lia. }
  cbn [replicate run]. pose proof Hf as (Essl & _).
  pose proof (step_right broken s m file method hs h ltac:(by rewrite Essl) Hl) as E.
  rewrite E. set (h1 := if expired h then refuse (begin_request true (idle h)) else begin_request true (idle h)).
  assert (flags_ok ssl h1) as Hf1
    by (apply (step_flags ssl (Connection None true broken s) h
                 (if expired h then [Status 401] else serve m file method hs) h1) in Hf;
        [done|rewrite E; unfold h1; by destruct (expired h)]).
  assert (logged_in h1 hs) as Hl1.
  { eapply logged_in_ssl; [|exact Hl]. destruct Hf as (-> & _), Hf1 as (-> & _). done. }
  destruct (IH h1 Hl1 Hf1) as (k & h' & Hk & Hkn & Hend & Hrun). subst h1.
  destruct (expired h) eqn:He; cbn [mbind outcome_bind]; rewrite Hrun; cbn [mbind outcome_bind].
  - pose proof (refusals_next ssl h Hf He). exists (S k), h'.
    split_and!; [lia|lia|intros; apply Hend; lia|done].
  - destruct (refusals_done h He) as [Hr Hn]. destruct (refusals_done _ Hn) as [Hn0 _].
    rewrite expired_begin in Hn.
    assert (refusals (begin_request true (idle h)) = 0%nat) as Hz
      by (unfold refusals; by rewrite expired_begin, Hn).
    assert (k = 0%nat) as -> by lia. exists 0%nat, h'.
    split_and!; [lia|lia|intros; apply Hend; lia|]. rewrite Nat.sub_0_r. done.
Qed.

(** C7. From every state the server can reach, a client that repeats a request
    with the right user and password is refused at most once (three times by
    the HTTPS server) and then served each time, as long as no alarm comes in
    between. *)
Theorem login_succeeds ssl l out h broken s m file method hs n :
  run l (start ssl) = Ret (out, h) ->
  asks_for (ssl && broken) s m file method hs -> logged_in h hs ->
  exists k h', (k <= if ssl then 3 else 1)%nat /\ (k <= n)%nat /\
    run (replicate n (Connection None true broken s)) h
    = Ret (replicate k (Status 401) ++ concat (replicate (n - k) (serve m file method hs)), h').
Proof.
  intros Hrun Hs Hl. pose proof (run_flags ssl l _ _ _ Hrun (start_flags ssl)) as Hf.
  destruct (run_right ssl broken s m file method hs n h Hs Hl Hf) as (k & h' & Hk & Hkn & _ & E).
  exists k, h'. split_and!; [|done|done]. etransitivity; [exact Hk|]. destruct Hf as (Hssl & _ & Hc).
  unfold refusals. rewrite Hssl. destruct (expired h), ssl, (remote_timeout h); lia.
Qed.

(** A request line without a protocol ends the server: the pointer behind the
    path is NULL. *)
Lemma missing_protocol_faults h :
  handle_request true false ("GET /" +:+ String "013" (String "010" "")) h = Fault.
Proof. unfold handle_request. rewrite !andb_false_r. vm_compute. reflexivity. Qed.
End Requests.

(** Credentials of 500 bytes make the server store behind [authinfo]. *)
Lemma long_credentials_fault bs :
  Forall is_u8 bs -> 500 <= Z.of_nat (length bs) -> credentials ("Basic " +:+ b64_encode bs) = Fault.
Proof.
  intros Hb Hl. unfold credentials.
  replace (String.substring 6 _ _) with (b64_encode bs).
  - rewrite b64_decode_encode by (done || lia). cbn [mbind outcome_bind].
    by rewrite length_take, (proj2 (Z.leb_le 500 _)) by lia.
  - symmetry. apply (substring_rest "Basic "). rewrite slength_app. lia.
Qed.

(** ** A login, step by step *)

Module DemoHttp.

Definition web : Web :=
  {| nvram_get := fun name =>
       if bool_decide (name = "http_username") || bool_decide (name = "http_passwd") then "admin" else "";
     output_result := fun _ _ => 0 |}.
#[local] Existing Instance web.

Definition crlf : string := String "013" (String "010" "").
Definition request : string :=
  "GET /Status.asp HTTP/1.0" +:+ crlf +:+ "Host: 192.168.1.1" +:+ crlf +:+
  "Authorization: Basic " +:+ b64_encode [97; 100; 109; 105; 110; 58; 97; 100; 109; 105; 110] +:+ crlf +:+ crlf.
Definition auth_line : string := "Basic " +:+ "YWRtaW46YWRtaW4=" +:+ crlf.
Definition hs : headers := mk_headers (Some auth_line) 0 None 9933.
Definition asp : mime_handler := mk_handler "**.asp" "text/html" true None do_ej true.
Definition ready : httpd := mk_httpd false false false false false 0 false.

Lemma asks : asks_for false request asp "Status.asp" "GET" hs.
Proof.
  eexists _, _, "/Status.asp". split; [vm_compute; reflexivity|].
  split; [left; eexists; vm_compute; reflexivity|]. split_and!; vm_compute; reflexivity.
Qed.

Lemma knows_password h : do_ssl h = false -> logged_in h hs.
Proof.
  intros Hs. exists auth_line, "admin", "admin". split; [done|].
  split; [eexists; vm_compute; reflexivity|]. split; [vm_compute; reflexivity|].
  unfold do_auth. rewrite Hs. reflexivity.
Qed.
End DemoHttp.

Lemma served_only_logged_in_witness :
  exists out h', @step DemoHttp.web (Connection None true false DemoHttp.request) DemoHttp.ready = Ret (out, h') /\
  exists buf ready broken s method path hs file,
    Connection None true false DemoHttp.request = Connection buf ready broken s /\
    request_of (do_ssl DemoHttp.ready && broken) s method path hs /\
    request_file method path = inl file /\ @logged_in DemoHttp.web DemoHttp.ready hs /\
    expired DemoHttp.ready = false /\
    check_action buf ∉ [ACT_TFTP_UPGRADE; ACT_SW_RESTORE; ACT_HW_RESTORE].
Proof.
  eexists _, _. split; [vm_compute; reflexivity|].
  eapply (@served_only_logged_in DemoHttp.web); [vm_compute; reflexivity|vm_compute; reflexivity].
Defined.

Lemma login_succeeds_witness :
  exists k h', (k <= 1)%nat /\ (k <= 3)%nat /\
    @run DemoHttp.web (replicate 3 (Connection None true false DemoHttp.request)) (start false)
    = Ret (replicate k (Status 401) ++
           concat (replicate (3 - k) (@serve DemoHttp.web DemoHttp.asp "Status.asp" "GET" DemoHttp.hs)), h').
Proof.
  apply (@login_succeeds DemoHttp.web false [] [] (start false) false);
    [reflexivity|apply DemoHttp.asks|by apply DemoHttp.knows_password].
Defined.

Lemma requests_answered_witness :
  exists out h', @run DemoHttp.web [Connection None true false DemoHttp.request; Alarm;
    Connection (Some "ACT_WEB_UPGRADE") true true DemoHttp.request] (start false) = Ret (out, h').
Proof.
  assert (@legible DemoHttp.request) as Hg.
  { intros l r Hf _. vm_compute in Hf. injection Hf as <- <-. split; [eexists; vm_compute; reflexivity|].
    intros m p hs a Hr Ha. vm_compute in Hr. injection Hr as <- <- <-. injection Ha as <-. by split; vm_compute. }
  apply (@requests_answered DemoHttp.web false); [reflexivity|by split; vm_compute|].
  repeat apply Forall_cons_2; try apply Forall_nil_2; try exact I;
    (split; [reflexivity|split; [exact Hg|vm_compute; discriminate]]).
Defined.
