(* ===== verification/Cgi.v ===== *)
(** * Form data (router/httpd/cgi.c, do_apply_post and do_apply_cgi of
    router/shared/broadcom.c)

    [Module Cgi]: the query of a request is taken apart and unescaped in place,
    so its bytes and those behind it are a memory, a list of characters from the
    pointer on; a pointer into it is a suffix. A read past the end of the list
    is undefined. *)

From Stdlib Require Import ZArith Lia Ascii.
From stdpp Require Import base numbers sets strings list.
From S2P Require Import Prelude CString.
Open Scope string_scope.
Open Scope Z_scope.
Open Scope list_scope.

Module Cgi.

Definition NUL : ascii := "000".
Definition mem : Type := list ascii.

(** The C string at a pointer. *)
Fixpoint text (m : mem) : outcome string :=
  match m with
  | [] => Fault
  | c :: m => if is_char NUL c then Ret EmptyString else s ← text m; Ret (String c s)
  end.
Definition mem_strlen (m : mem) : outcome nat := s ← text m; Ret (String.length s).

(** ** Unescaping *)

(** [strncpy] of [n] bytes from [m], byte by byte from the front. *)
Fixpoint strncpy (n : nat) (m : mem) : outcome mem :=
  match n with
  | O => Ret []
  | S n' =>
      match m with
      | [] => Fault
      | c :: m => if is_char NUL c then Ret (replicate n NUL) else r ← strncpy n' m; Ret (c :: r)
      end
  end.

(** [strncpy(s, s + 2, strlen(s) + 1)]. *)
Definition remove_two (s : mem) : outcome mem :=
  n ← mem_strlen s; r ← strncpy (S n) (drop 2 s); Ret (r ++ drop (S n) s).

(** [sscanf(t, "%02x", &c)]: [c] keeps its value when no digit is found. *)
Definition scan_hex2 (t : string) (c : option Z) : option Z :=
  let t := String.substring 0 2 (skip isspace t) in
  let '(v, e) := strtoul t 16 in
  if bool_decide (e = t) then c else Some v.

(** [c] is [None] before its first value. *)
Fixpoint unescape_loop (fuel : nat) (c : option Z) (s : mem) : outcome mem :=
  match fuel with
  | O => Running
  | S fuel =>
      match s with
      | [] => Fault
      | x :: s' =>
          if is_char NUL x then Ret s
          else if is_char "%" x then
            t ← text s';
            v ← deref (scan_hex2 t c);
            s'' ← remove_two s';
            r ← unescape_loop fuel (Some v) s'';
            Ret (chr v :: r)
          else if is_char "+" x then r ← unescape_loop fuel c s'; Ret (" "%char :: r)
          else r ← unescape_loop fuel c s'; Ret (x :: r)
      end
  end.
Definition unescape (s : mem) : outcome mem := unescape_loop (S (length s)) None s.

(** ** Assignments *)

(** [while (strsep(&q, "&;"));] *)
Fixpoint separate (q : mem) : mem :=
  match q with
  | [] => []
  | c :: q' =>
      if is_char NUL c then q
      else if one_of "&;" c then NUL :: separate q' else c :: separate q'
  end.

Fixpoint count_nuls (n : nat) (q : mem) : nat :=
  match n, q with
  | S n, c :: q => if is_char NUL c then S (count_nuls n q) else 0
  | _, _ => 0
  end.

(** How far [for (q += strlen(q); q < (query + len) && !*q; q++);] goes, with
    [n] bytes left of the query. *)
Definition next (n : nat) (q : mem) : outcome nat :=
  k ← mem_strlen q; Ret (k + count_nuls (n - k) (drop k q))%nat.

Fixpoint init_loop (fuel n : nat) (q : mem) : outcome mem :=
  match fuel with
  | O => Running
  | S fuel =>
      match n with
      | O => Ret q
      | _ =>
          q ← unescape q;
          k ← next n q;
          r ← init_loop fuel (n - k) (drop k q);
          Ret (take k q ++ r)
      end
  end.

(** The statics [query] and [len]. *)
Record cgi := mk_cgi { query : option mem; len : nat }.

Definition init_cgi (q : option mem) : outcome cgi :=
  match q with
  | None => Ret (mk_cgi None 0)
  | Some q =>
      len ← mem_strlen q;
      q ← init_loop (S len) len (separate q);
      Ret (mk_cgi (Some q) len)
  end.

Fixpoint get_loop (fuel n : nat) (name : string) (q : mem) : outcome (option string) :=
  match fuel with
  | O => Running
  | S fuel =>
      match n with
      | O => Ret None
      | _ =>
          s ← text q;
          match starts_with name s with
          | Some (String "=" value) => Ret (Some value)
          | _ => k ← next n q; get_loop fuel (n - k) name (drop k q)
          end
      end
  end.
Definition get_cgi (name : string) (g : cgi) : outcome (option string) :=
  match query g with
  | None => Ret None
  | Some q => get_loop (S (len g)) (len g) name q
  end.

(** ** The handlers of apply.cgi *)

Definition POST_BUF : nat := 10000.

(** [do_apply_post]: the body goes to the static [post_buf]; what [Content-Length]
    announces beyond is read and dropped. The result is the buffer and the rest
    of the connection. A negative length is a huge one for [fread], and the
    counter of the loop overflows. *)
Definition do_apply_post (post : bool) (len : Z) (stream post_buf : mem) : outcome (mem * mem) :=
  if negb post then Ret (post_buf, stream) else
  let count := if len <? 0 then length stream else Nat.min (Z.to_nat len) (length stream) in
  match count with
  | O => Ret (post_buf, stream)
  | _ =>
      if (POST_BUF <=? count)%nat then Fault else
      let buf := take count stream ++ NUL :: drop (S count) post_buf in
      n ← mem_strlen buf;
      if len - Z.of_nat n <? 0 then Fault else
      Ret (buf, drop (Z.to_nat (len - Z.of_nat n)) (drop count stream))
  end.

(** The suffix behind the question mark of a GET request. *)
Fixpoint behind_question (url : mem) : option mem :=
  match url with
  | [] => None
  | c :: url' =>
      if is_char NUL c then None else if is_char "?" c then Some url' else behind_question url'
  end.

(** [do_apply_cgi], up to the call of [apply_cgi]. *)
Definition do_apply_cgi (post : bool) (url post_buf : mem) : outcome (option cgi) :=
  match (if post then Some post_buf else behind_question url) with
  | None => Ret None
  | Some q => g ← init_cgi (Some q); Ret (Some g)
  end.

End Cgi.
