(* ===== verification/CgiProofs.v ===== *)
(** * Form data: proofs

    What a client escapes is what [get_cgi] returns; both loops end; and two
    things the code gets wrong: an escape cut short swallows the end of its
    assignment, and an empty POST applies the previous form again. *)

From Stdlib Require Import ZArith Lia Ascii.
From stdpp Require Import base numbers sets strings list.
From S2P Require Import Prelude CString Cgi.
Open Scope string_scope.
Open Scope Z_scope.
Open Scope list_scope.
Import Cgi.

Notation chars := String.list_ascii_of_string.

(** ** Escaped text *)

(** [escaped e t]: the client sends [e] for the text [t]. *)
Inductive escaped : string -> string -> Prop :=
  | esc_end : escaped "" ""
  | esc_char c e t :
      one_of "%+&;" c = false -> c <> NUL -> escaped e t -> escaped (String c e) (String c t)
  | esc_plus e t : escaped e t -> escaped (String "+" e) (String " " t)
  | esc_hex h l a b e t :
      digit_value h = Some a -> a < 16 -> digit_value l = Some b -> b < 16 -> 16 * a + b <> 0 ->
      escaped e t ->
      escaped (String "%" (String h (String l e))) (String (chr (16 * a + b)) t).

Lemma escaped_app e1 t1 e2 t2 : escaped e1 t1 -> escaped e2 t2 -> escaped (e1 +:+ e2) (t1 +:+ t2).
Proof. induction 1; intros He2; [done|..]; constructor; auto. Qed.

Lemma escaped_longer e t : escaped e t -> (String.length t <= String.length e)%nat.
Proof. induction 1; simpl; lia. Qed.

(** Hexadecimal digits, checked on every pair of characters. *)
Definition all_chars : list ascii := ascii_of_nat <$> seq 0 256.

Lemma all_chars_complete c : c ∈ all_chars.
Proof.
  apply list_elem_of_fmap. exists (nat_of_ascii c). rewrite ascii_nat_embedding. split; [done|].
  apply elem_of_seq. pose proof (nat_ascii_bounded c). lia.
Qed.

Lemma chars_forall (P : ascii -> bool) : forallb P all_chars = true -> forall c, P c = true.
Proof. intros H c. rewrite forallb_forall in H. apply H, list_elem_of_In, all_chars_complete. Qed.

Definition hex_of (c : ascii) : option Z :=
  match digit_value c with Some a => if a <? 16 then Some a else None | None => None end.

Definition hex_pair_ok (h l : ascii) : bool :=
  match hex_of h, hex_of l with
  | Some a, Some b =>
      bool_decide (scan_hex2 (String h (String l "")) None = Some (16 * a + b)) &&
      negb (isspace h) && (16 * a + b <? 256)
  | _, _ => true
  end.

Lemma hex_pairs h l : hex_pair_ok h l = true.
Proof.
  apply chars_forall. revert h.
  apply (chars_forall (fun h => forallb (hex_pair_ok h) all_chars)). vm_compute. reflexivity.
Qed.

Lemma scan_escape h l a b e c :
  digit_value h = Some a -> a < 16 -> digit_value l = Some b -> b < 16 ->
  scan_hex2 (String h (String l e)) c = Some (16 * a + b) /\ 0 <= 16 * a + b < 256.
Proof.
  intros Ha Hla Hb Hlb. pose proof (hex_pairs h l) as Hp. unfold hex_pair_ok, hex_of in Hp.
  rewrite Ha, Hb, (proj2 (Z.ltb_lt a 16) Hla), (proj2 (Z.ltb_lt b 16) Hlb) in Hp.
  rewrite !andb_true_iff, negb_true_iff in Hp. destruct Hp as [[Hs%bool_decide_eq_true_1 Hsp] Hv].
  unfold scan_hex2 in *. rewrite !(skip_none isspace h) in * by done.
  change (String.substring 0 2 (String h (String l e))) with (String h (String l (String.substring 0 0 e))).
  replace (String.substring 0 0 e) with "" by by destruct e.
  change (String.substring 0 2 (String h (String l ""))) with (String h (String l "")) in Hs.
  destruct (strtoul (String h (String l "")) 16) as [v r]. case_bool_decide; [done|].
  injection Hs as ->. split; [done|].
  assert (0 <= a /\ 0 <= b) as [? ?]; [|lia].
  unfold digit_value, isdigit, islower, isupper, in_range in Ha, Hb.
  split; repeat case_match; simplify_eq; lia.
Qed.

Lemma chr_not_NUL v : 0 < v < 256 -> chr v <> NUL.
Proof.
  intros Hv E. apply (f_equal N_of_ascii) in E. unfold chr in E.
  rewrite N_ascii_embedding in E by (rewrite Z.mod_small; lia). rewrite Z.mod_small in E by lia.
  change (N_of_ascii NUL) with 0%N in E. lia.
Qed.

Definition no_nul (s : string) : bool := avoids (is_char NUL) s.

Lemma escaped_no_nul e t : escaped e t -> no_nul e = true /\ no_nul t = true.
Proof.
  assert (forall c, c <> NUL -> is_char NUL c = false) as Hc
    by (intros; by apply bool_decide_eq_false_2).
  induction 1 as [|c e t Ho Hn _ [IHe IHt]|e t _ [IHe IHt]|h l a b e t Ha Hla Hb Hlb Hab _ [IHe IHt]];
    unfold no_nul in *; [done|rewrite !avoids_cons..].
  - auto.
  - auto.
  - destruct (scan_escape h l a b e None Ha Hla Hb Hlb) as [_ Hv].
    split_and!; try done; apply Hc; [by intros ->|by intros ->|apply chr_not_NUL; lia].
Qed.

(** ** Memory *)

Lemma text_app s z rest :
  no_nul s = true -> text (chars s ++ replicate (S z) NUL ++ rest) = Ret s.
Proof.
  induction s as [|c s IH]; intros Hs; [done|]. apply avoids_cons in Hs as [Hc Hs]. simpl.
  rewrite Hc. simpl in IH. by rewrite IH.
Qed.

Lemma mem_strlen_app s z rest :
  no_nul s = true -> mem_strlen (chars s ++ replicate (S z) NUL ++ rest) = Ret (String.length s).
Proof. intros Hs. unfold mem_strlen. by rewrite text_app. Qed.

Lemma strncpy_app s n z rest :
  no_nul s = true -> (String.length s <= n)%nat ->
  strncpy n (chars s ++ replicate (S z) NUL ++ rest)
  = Ret (chars s ++ replicate (n - String.length s) NUL).
Proof.
  revert n. induction s as [|c s IH]; intros n Hs Hn.
  - destruct n; done.
  - apply avoids_cons in Hs as [Hc Hs]. destruct n as [|n]; simpl in Hn; [lia|]. simpl. rewrite Hc.
    simpl in IH. rewrite IH by (done || lia). done.
Qed.

Lemma chars_length s : length (chars s) = String.length s.
Proof. induction s as [|c s IH]; [done|]. simpl. by f_equal. Qed.

Lemma remove_two_app h l e z rest :
  no_nul (String h (String l e)) = true ->
  remove_two (chars (String h (String l e)) ++ replicate (S z) NUL ++ rest)
  = Ret (chars e ++ replicate (S (S (S z))) NUL ++ rest).
Proof.
  intros Hs. unfold remove_two. rewrite mem_strlen_app by done. cbn [mbind outcome_bind].
  pose proof Hs as Hs'. apply avoids_cons in Hs' as [_ [_ He]%avoids_cons].
  change (drop 2 _) with (chars e ++ replicate (S z) NUL ++ rest).
  rewrite strncpy_app by (done || simpl; lia). cbn [mbind outcome_bind]. f_equal.
  rewrite <- app_assoc. f_equal.
  replace (S (String.length (String h (String l e)))) with (length (chars (String h (String l e))) + 1)%nat
    by (rewrite chars_length; lia).
  rewrite drop_app_add. rewrite chars_length. cbn [String.length].
  replace (S (S (String.length e)) + 1 - String.length e)%nat with 3%nat by lia. done.
Qed.

Lemma unescape_app fuel c e t z rest :
  escaped e t -> (String.length e < fuel)%nat ->
  unescape_loop fuel c (chars e ++ replicate (S z) NUL ++ rest)
  = Ret (chars t ++ replicate (S z + (String.length e - String.length t)) NUL ++ rest).
Proof.
  intros He. revert fuel c z. induction He as
    [|x e t Ho Hn He IH|e t He IH|h l a b e t Ha Hla Hb Hlb Hab He IH];
    intros fuel c z Hf; (destruct fuel as [|fuel]; [simpl in Hf; lia|]); simpl in Hf.
  - simpl. by rewrite Nat.add_0_r.
  - simpl. rewrite (bool_decide_eq_false_2 (x = NUL)) || idtac.
    assert (is_char NUL x = false /\ is_char "%" x = false /\ is_char "+" x = false) as (-> & -> & ->).
    { split_and!; apply bool_decide_eq_false_2; [done|intros ->; done|intros ->; done]. }
    change (NUL :: replicate z NUL ++ rest) with (replicate (S z) NUL ++ rest).
    rewrite IH by lia. done.
  - simpl. change (NUL :: replicate z NUL ++ rest) with (replicate (S z) NUL ++ rest).
    rewrite IH by lia. done.
  - assert (no_nul (String h (String l e)) = true) as Hn.
    { destruct (escaped_no_nul _ _ (esc_hex h l a b e t Ha Hla Hb Hlb Hab He)) as [H _].
      by apply avoids_cons in H as [_ H]. }
    change (chars (String "%" (String h (String l e))) ++ replicate (S z) NUL ++ rest)
      with ("%"%char :: chars (String h (String l e)) ++ replicate (S z) NUL ++ rest).
    cbn [unescape_loop]. change (is_char NUL "%") with false. change (is_char "%" "%") with true.
    cbn match. rewrite text_app by done. cbn [mbind outcome_bind].
    destruct (scan_escape h l a b e c Ha Hla Hb Hlb) as [-> _]. cbn [deref mbind outcome_bind].
    rewrite remove_two_app by done. cbn [mbind outcome_bind]. rewrite IH by lia.
    cbn [mbind outcome_bind]. pose proof (escaped_longer e t He). do 2 f_equal. cbn [String.length].
    replace (S (S z) + 1 + (String.length e - String.length t))%nat with
      (S z + (S (S (String.length e)) - String.length t))%nat by lia.
    change (chars (String (chr (16 * a + b)) t) ++ ?x) with (chr (16 * a + b) :: chars t ++ x).
    do 4 f_equal. lia.
Qed.

(** ** Queries *)

(** [form q l]: the query [q] carries the assignments [l], in their order. *)
Inductive form : string -> list (string * string) -> Prop :=
  | form_one en n ev v :
      escaped en n -> escaped ev v -> avoids (is_char "=") n = true ->
      form (en +:+ String "=" ev) [(n, v)]
  | form_more en n ev v sep q l :
      escaped en n -> escaped ev v -> avoids (is_char "=") n = true ->
      one_of "&;" sep = true -> form q l ->
      form (en +:+ String "=" ev +:+ String sep q) ((n, v) :: l).

(** The first value of a name. *)
Fixpoint assoc (name : string) (l : list (string * string)) : option string :=
  match l with
  | [] => None
  | (n, v) :: l => if decide (name = n) then Some v else assoc name l
  end.

(** A query as its parts: what is sent and the text it stands for. *)
Notation part := (string * string)%type.
Definition part_ok (p : part) : Prop := escaped p.1 p.2 /\ p.1 <> "" /\ p.2 <> "".
Fixpoint total (l : list part) : nat :=
  match l with [] => 0 | [p] => String.length p.1 | p :: l => S (String.length p.1 + total l) end.
Fixpoint sent (l : list part) (rest : mem) : mem :=
  match l with [] => rest | p :: l => chars p.1 ++ NUL :: sent l rest end.
Fixpoint decoded (l : list part) (rest : mem) : mem :=
  match l with
  | [] => rest
  | p :: l =>
      chars p.2 ++ replicate (S (String.length p.1 - String.length p.2)) NUL ++ decoded l rest
  end.

Lemma count_nuls_all n z r : (n <= z)%nat -> count_nuls n (replicate z NUL ++ r) = n.
Proof. revert z. induction n as [|n IH]; intros z Hz; [done|]. destruct z as [|z]; [lia|]. simpl. f_equal. apply IH. lia. Qed.

Lemma count_nuls_some n z c r :
  (z <= n)%nat -> c <> NUL -> count_nuls n (replicate z NUL ++ c :: r) = z.
Proof.
  intros Hz Hc. revert n Hz. induction z as [|z IH]; intros n Hz; simpl.
  - destruct n; [done|]. simpl. unfold is_char. by rewrite bool_decide_eq_false_2.
  - destruct n as [|n]; [lia|]. simpl. f_equal. apply IH. lia.
Qed.

Lemma no_nul_head s : s <> "" -> no_nul s = true -> exists c s', s = String c s' /\ c <> NUL.
Proof.
  destruct s as [|c s]; [done|]. intros _ [Hc _]%avoids_cons. exists c, s. split; [done|].
  by apply bool_decide_eq_false_1 in Hc.
Qed.

(** The step from one part to the next. *)
Lemma next_last p rest :
  part_ok p -> next (String.length p.1) (decoded [p] rest) = Ret (String.length p.1).
Proof.
  intros (He & _ & _). destruct (escaped_no_nul _ _ He) as [_ Ht]. apply escaped_longer in He.
  unfold next. cbn [decoded]. rewrite mem_strlen_app by done. cbn [mbind outcome_bind].
  rewrite <- chars_length, drop_app_length, chars_length.
  rewrite count_nuls_all by lia. f_equal. lia.
Qed.

Lemma next_more p m c r :
  part_ok p -> c <> NUL -> (String.length p.1 < m)%nat ->
  next m (chars p.2 ++ replicate (S (String.length p.1 - String.length p.2)) NUL ++ c :: r)
  = Ret (S (String.length p.1)).
Proof.
  intros (He & _ & _) Hc Hm. destruct (escaped_no_nul _ _ He) as [_ Ht]. apply escaped_longer in He.
  unfold next. rewrite mem_strlen_app by done. cbn [mbind outcome_bind].
  rewrite <- chars_length, drop_app_length, chars_length.
  rewrite count_nuls_some by (done || lia). f_equal. lia.
Qed.

Lemma drop_part p r :
  part_ok p ->
  drop (S (String.length p.1)) (chars p.2 ++ replicate (S (String.length p.1 - String.length p.2)) NUL ++ r) = r
  /\ take (S (String.length p.1)) (chars p.2 ++ replicate (S (String.length p.1 - String.length p.2)) NUL ++ r)
     = chars p.2 ++ replicate (S (String.length p.1 - String.length p.2)) NUL.
Proof.
  intros (He%escaped_longer & _ & _). rewrite app_assoc.
  assert (S (String.length p.1)
    = length (chars p.2 ++ replicate (S (String.length p.1 - String.length p.2)) NUL)) as ->
    by (rewrite length_app, chars_length, length_replicate; lia).
  split; [apply drop_app_length|apply take_app_length].
Qed.

Lemma sent_head p l rest :
  part_ok p -> exists c r, sent (p :: l) rest = c :: r /\ c <> NUL.
Proof.
  intros (He & Hn & _). destruct (no_nul_head p.1 Hn) as (c & s & E & Hc); [by destruct (escaped_no_nul _ _ He)|].
  cbn [sent]. rewrite E. by eexists c, _.
Qed.

Lemma decoded_head p l rest :
  part_ok p -> exists c r, decoded (p :: l) rest = c :: r /\ c <> NUL.
Proof.
  intros (He & _ & Hn). destruct (no_nul_head p.2 Hn) as (c & s & E & Hc); [by destruct (escaped_no_nul _ _ He)|].
  cbn [decoded]. rewrite E. by eexists c, _.
Qed.

Lemma init_parts fuel l rest :
  Forall part_ok l -> (total l < fuel)%nat -> l <> [] ->
  init_loop fuel (total l) (sent l rest) = Ret (decoded l rest).
Proof.
  revert fuel. induction l as [|p l IH]; intros fuel Hl Hf Hne; [done|].
  apply Forall_cons in Hl as [Hp Hl]. pose proof Hp as (He & Hn1 & Hn2).
  destruct fuel as [|fuel]; [lia|]. cbn [init_loop].
  destruct (total (p :: l)) as [|n] eqn:Et.
  { destruct l; simpl in Et; destruct p.1; simpl in *; [done|lia|done|lia]. }
  rewrite <- Et in Hf |- *. clear Et n. unfold unescape. cbn [sent].
  change (chars p.1 ++ NUL :: sent l rest) with (chars p.1 ++ replicate 1 NUL ++ sent l rest).
  rewrite (unescape_app _ None p.1 p.2) by (done || rewrite length_app, chars_length; lia).
  cbn [mbind outcome_bind]. change (1 + (String.length p.1 - String.length p.2))%nat
    with (S (String.length p.1 - String.length p.2)).
  destruct l as [|p2 l].
  - change (chars p.2 ++ replicate _ NUL ++ sent [] rest) with (decoded [p] rest).
    change (total [p]) with (String.length p.1).
    rewrite next_last by done. cbn [mbind outcome_bind]. rewrite Nat.sub_diag.
    destruct fuel; [simpl in Hf; destruct p.1; simpl in Hf; [done|lia]|].
    cbn [init_loop mbind outcome_bind]. by rewrite take_drop.
  - apply Forall_cons in Hl as Hl'. destruct Hl' as [Hp2 _].
    destruct (sent_head p2 l rest Hp2) as (c & r & Es & Hc). rewrite Es.
    change (total (p :: p2 :: l)) with (S (String.length p.1 + total (p2 :: l))) in *.
    rewrite next_more by (done || lia). cbn [mbind outcome_bind].
    destruct (drop_part p (c :: r) Hp) as [-> ->]. rewrite <- Es.
    replace (S (String.length p.1 + total (p2 :: l)) - S (String.length p.1))%nat
      with (total (p2 :: l)) by lia.
    rewrite IH by (done || lia). cbn [mbind outcome_bind decoded]. by rewrite <- app_assoc.
Qed.

Lemma get_parts fuel l rest name (pairs : list (string * string)) :
  Forall part_ok l -> (total l < fuel)%nat -> l <> [] ->
  Forall2 (fun p nv => p.2 = nv.1 +:+ String "=" nv.2 /\ avoids (is_char "=") nv.1 = true) l pairs ->
  avoids (is_char "=") name = true ->
  get_loop fuel (total l) name (decoded l rest) = Ret (assoc name pairs).
Proof.
  intros Hl Hf Hne H2 Hname. revert fuel Hl Hf Hne.
  induction H2 as [|p [n v] l pairs [Ht Hn] H2 IH]; intros fuel Hl Hf Hne; [done|].
  apply Forall_cons in Hl as [Hp Hl]. pose proof Hp as (He & Hn1 & Hn2).
  destruct fuel as [|fuel]; [lia|]. cbn [get_loop].
  destruct (total (p :: l)) as [|k] eqn:Et.
  { destruct l; simpl in Et; destruct p.1; simpl in *; [done|lia|done|lia]. }
  rewrite <- Et in Hf |- *. clear Et k.
  assert (text (decoded (p :: l) rest) = Ret p.2) as ->
    by (cbn [decoded]; apply text_app; by destruct (escaped_no_nul _ _ He)).
  cbn [mbind outcome_bind assoc].
  destruct (decide (name = n)) as [->|Hd].
  { rewrite Ht. cbn [fst snd]. rewrite starts_with_app. done. }
  assert ((k ← next (total (p :: l)) (decoded (p :: l) rest);
           get_loop fuel (total (p :: l) - k) name (drop k (decoded (p :: l) rest)))
          = Ret (assoc name pairs)) as Hnext.
  { destruct l as [|p2 l].
    - change (total [p]) with (String.length p.1) in *. rewrite next_last by done.
      cbn [mbind outcome_bind]. rewrite Nat.sub_diag. inversion H2; subst.
      destruct fuel; [|done]. destruct p.1; simpl in Hf; [done|lia].
    - apply Forall_cons in Hl as Hl'. destruct Hl' as [Hp2 _].
      destruct (decoded_head p2 l rest Hp2) as (c & r & Es & Hc).
      change (total (p :: p2 :: l)) with (S (String.length p.1 + total (p2 :: l))) in *.
      change (decoded (p :: p2 :: l) rest) with
        (chars p.2 ++ replicate (S (String.length p.1 - String.length p.2)) NUL ++ decoded (p2 :: l) rest).
      rewrite Es, next_more by (done || lia). cbn [mbind outcome_bind].
      destruct (drop_part p (c :: r) Hp) as [-> _]. rewrite <- Es.
      replace (S (String.length p.1 + total (p2 :: l)) - S (String.length p.1))%nat
        with (total (p2 :: l)) by lia.
      apply IH; [done|lia|done]. }
  destruct (starts_with name p.2) as [[|x w]|] eqn:Es; [exact Hnext| |exact Hnext].
  destruct (decide (x = "="%char)) as [->|Hx].
  - exfalso. apply Hd. rewrite Ht in Es. cbn [fst snd] in *. apply starts_with_Some in Es.
    destruct (cut_at (is_char "=") n "=" v) as [E1 _]; [done|done|].
    destruct (cut_at (is_char "=") name "=" w) as [E2 _]; [done|done|]. congruence.
  - destruct x as [[][][][][][][][]]; first [exact Hnext|done].
Qed.

(** ** From queries to parts *)

Definition is_delim (c : ascii) : bool := one_of "&;" c || is_char NUL c.

Lemma escaped_no_delim e t : escaped e t -> avoids is_delim e = true.
Proof.
  assert (forall h a, digit_value h = Some a -> is_delim h = false) as Hd.
  { intros h a H. cut (match digit_value h with Some _ => negb (is_delim h) | None => true end = true).
    - rewrite H. by rewrite negb_true_iff.
    - clear a H. revert h. apply chars_forall. vm_compute. reflexivity. }
  induction 1; [done|rewrite !avoids_cons; split_and!; eauto..].
  unfold is_delim, is_char. rewrite (bool_decide_eq_false_2 (c = NUL)) by done.
  rewrite orb_false_r. revert H. unfold one_of. simpl. rewrite !orb_false_iff. tauto.
Qed.

Lemma separate_app e m :
  avoids is_delim e = true -> separate (chars e ++ m) = chars e ++ separate m.
Proof.
  induction e as [|c e IH]; intros He; [done|]. apply avoids_cons in He as [Hc He].
  apply orb_false_iff in Hc as [H1 H2]. simpl. rewrite H1, H2. by rewrite IH.
Qed.

Lemma form_parts q pairs rest :
  form q pairs ->
  exists l, Forall part_ok l /\ l <> [] /\ total l = String.length q /\
    separate (chars q ++ NUL :: rest) = sent l rest /\
    Forall2 (fun p nv => p.2 = nv.1 +:+ String "=" nv.2 /\ avoids (is_char "=") nv.1 = true) l pairs.
Proof.
  assert (forall en n ev v, escaped en n -> escaped ev v ->
    part_ok (en +:+ String "=" ev, n +:+ String "=" v)) as Hok.
  { intros en n ev v H1 H2. split_and!; [|by destruct en|by destruct n].
    apply escaped_app; [done|]. by apply esc_char. }
  induction 1 as [en n ev v H1 H2 Hn|en n ev v sep q l0 H1 H2 Hn Hs _ (l & Hl & Hne & Ht & Hsep & H2')].
  - exists [(en +:+ String "=" ev, n +:+ String "=" v)].
    split_and!; [by repeat constructor; apply Hok|done|done| |repeat constructor; done].
    rewrite separate_app; [done|]. by eapply escaped_no_delim, Hok.
  - exists ((en +:+ String "=" ev, n +:+ String "=" v) :: l).
    assert (en +:+ String "=" ev +:+ String sep q = (en +:+ String "=" ev) +:+ String sep q) as ->
      by (by rewrite string_app_assoc).
    split_and!; [constructor; [by apply Hok|done]|done| | |by constructor].
    + destruct l as [|p l]; [done|].
      change (total ((en +:+ String "=" ev, n +:+ String "=" v) :: p :: l))
        with (S (String.length (en +:+ String "=" ev) + total (p :: l))).
      rewrite Ht, (slength_app _ (String sep q)). simpl. lia.
    + rewrite list_ascii_app, <- app_assoc, separate_app by (by eapply escaped_no_delim, Hok).
      cbn [sent fst]. f_equal. cbn [String.list_ascii_of_string app separate].
      rewrite Hs, Hsep. case_match eqn:Hz; [|done]. apply bool_decide_eq_true_1 in Hz. by subst.
Qed.

Lemma form_no_nul q pairs : form q pairs -> no_nul q = true.
Proof.
  assert (forall e t, escaped e t -> avoids (is_char NUL) e = true) as He
    by (intros e t H; by destruct (escaped_no_nul _ _ H)).
  unfold no_nul. induction 1 as [en n ev v H1 H2 Hn|en n ev v sep q l H1 H2 Hn Hs _ IH];
    rewrite !avoids_app, (He _ _ H1); cbn [andb].
  - apply avoids_cons. split; [done|by eapply He].
  - rewrite andb_true_iff, !avoids_cons. split_and!; [done|by eapply He| |done].
    apply bool_decide_eq_false_2. by intros ->.
Qed.

Lemma cgi_ok q pairs rest :
  form q pairs ->
  exists g, init_cgi (Some (chars q ++ NUL :: rest)) = Ret g /\
    forall name, avoids (is_char "=") name = true -> get_cgi name g = Ret (assoc name pairs).
Proof.
  intros Hq. destruct (form_parts q pairs rest Hq) as (l & Hl & Hne & Ht & Hs & H2).
  exists (mk_cgi (Some (decoded l rest)) (total l)). split.
  - unfold init_cgi. pose proof (mem_strlen_app q 0 rest (form_no_nul _ _ Hq)) as Hlen.
    change (replicate 1 NUL ++ rest) with (NUL :: rest) in Hlen. rewrite Hlen.
    cbn [mbind outcome_bind].
    rewrite Hs, <- Ht, init_parts by (done || lia). done.
  - intros name Hname. unfold get_cgi. cbn [query len]. by apply get_parts; [|lia|..].
Qed.

(** C13. A form survives its transport: whatever way a client escapes names and
    values, with either separator, [get_cgi] returns the first value sent for a
    name and nothing for a name that was not sent; what lies behind the query in
    memory does not matter. *)
Theorem cgi_roundtrip q pairs rest :
  form q pairs ->
  exists g, init_cgi (Some (chars q ++ NUL :: rest)) = Ret g /\
    forall name, avoids (is_char "=") name = true -> get_cgi name g = Ret (assoc name pairs).
Proof. apply cgi_ok. Qed.

Lemma cgi_roundtrip_witness :
  exists g, init_cgi (Some (chars "a=%41+b;name=x%3d1" ++ NUL :: chars "junk")) = Ret g /\
    get_cgi "name" g = Ret (Some "x=1") /\ get_cgi "a" g = Ret (Some "A b") /\ get_cgi "b" g = Ret None.
Proof.
  assert (form "a=%41+b;name=x%3d1" [("a", "A b"); ("name", "x=1")]) as Hf.
  { assert (forall s, avoids (fun c => one_of "%+&;" c || is_char NUL c) s = true -> escaped s s) as Hl.
    { induction s as [|c s IH]; intros Hs; [constructor|]. apply avoids_cons in Hs as [[H1 H2]%orb_false_iff Hs].
      apply esc_char; [done|by apply bool_decide_eq_false_1 in H2|auto]. }
    apply (form_more "a" "a" "%41+b" "A b" ";" "name=x%3d1"); try done; [by apply Hl| |].
    - apply (esc_hex "4" "1" 4 1); [done..|]. apply esc_plus, Hl. done.
    - apply (form_one "name" "name" "x%3d1" "x=1"); [by apply Hl| |done].
      apply esc_char; [done..|]. apply (esc_hex "3" "d" 3 13); [done..|]. by apply Hl. }
  destruct (cgi_roundtrip _ _ (chars "junk") Hf) as (g & Hg & Hget). exists g.
  rewrite !Hget by done. done.
Defined.

(** ** The loops end *)

Lemma strncpy_length n m r : strncpy n m = Ret r -> length r = n.
Proof.
  revert m r. induction n as [|n IH]; intros m r; simpl; [by intros [= <-]|].
  destruct m as [|c m]; [done|]. case_match; [intros [= <-]; simpl; by rewrite length_replicate|].
  intros (r' & Hr & [= <-])%bind_Ret_inv. simpl. f_equal. eauto.
Qed.

Lemma strncpy_ends n m : strncpy n m <> Running.
Proof.
  revert m. induction n as [|n IH]; intros m; simpl; [done|]. destruct m as [|c m]; [done|].
  case_match; [done|]. specialize (IH m). by destruct (strncpy n m).
Qed.

Lemma text_ends m : text m <> Running.
Proof. induction m as [|c m IH]; simpl; [done|]. case_match; [done|]. by destruct (text m). Qed.

Lemma text_length m s : text m = Ret s -> (String.length s < length m)%nat.
Proof.
  revert s. induction m as [|c m IH]; intros s; simpl; [done|]. case_match; [intros [= <-]; simpl; lia|].
  intros (s' & Hs & [= <-])%bind_Ret_inv. apply IH in Hs. simpl. lia.
Qed.

Lemma remove_two_length s r : remove_two s = Ret r -> length r = length s.
Proof.
  unfold remove_two, mem_strlen. intros (n & (t & Ht & [= <-])%bind_Ret_inv & (r' & Hr & [= <-])%bind_Ret_inv)%bind_Ret_inv.
  apply strncpy_length in Hr. apply text_length in Ht. rewrite length_app, length_drop. lia.
Qed.

Lemma remove_two_ends s : remove_two s <> Running.
Proof.
  unfold remove_two, mem_strlen. pose proof (text_ends s) as Ht.
  destruct (text s) as [t| | |]; try done. cbn [mbind outcome_bind].
  pose proof (strncpy_ends (S (String.length t)) (drop 2 s)). by destruct (strncpy _ _).
Qed.

Lemma unescape_loop_ends fuel c s : (length s < fuel)%nat -> unescape_loop fuel c s <> Running.
Proof.
  revert c s. induction fuel as [|fuel IH]; intros c s Hf; [lia|]. cbn [unescape_loop].
  destruct s as [|x s]; [done|]. simpl in Hf.
  assert (forall c s' y, length s' = length s -> (r ← unescape_loop fuel c s'; Ret (y :: r)) <> Running) as Hn.
  { intros c' s' y Hl. pose proof (IH c' s' ltac:(lia)). by destruct (unescape_loop fuel c' s'). }
  destruct (is_char NUL x); [done|]. destruct (is_char "%" x).
  - pose proof (text_ends s). destruct (text s) as [t| | |]; try done. cbn [mbind outcome_bind].
    destruct (scan_hex2 t c) as [v|]; [|done]. cbn [deref mbind outcome_bind].
    pose proof (remove_two_ends s). destruct (remove_two s) as [s'| | |] eqn:E; try done.
    cbn [mbind outcome_bind]. apply Hn. by apply remove_two_length.
  - destruct (is_char "+" x); by apply Hn.
Qed.

Lemma next_positive n q k : (0 < n)%nat -> next n q = Ret k -> (0 < k)%nat.
Proof.
  unfold next, mem_strlen. intros Hn (l & (t & Ht & [= <-])%bind_Ret_inv & [= <-])%bind_Ret_inv.
  destruct t as [|x t]; [|simpl; lia]. destruct q as [|c q]; [done|]. simpl in Ht.
  destruct (is_char NUL c) eqn:Hc; [|by apply bind_Ret_inv in Ht as (? & _ & [=])].
  destruct n as [|n]; [lia|]. simpl. rewrite Hc. lia.
Qed.

Lemma next_ends n q : next n q <> Running.
Proof. unfold next, mem_strlen. pose proof (text_ends q). by destruct (text q). Qed.

Lemma init_loop_ends fuel n q : (n < fuel)%nat -> init_loop fuel n q <> Running.
Proof.
  revert n q. induction fuel as [|fuel IH]; intros n q Hf; [lia|]. cbn [init_loop].
  destruct n as [|n]; [done|]. pose proof (unescape_loop_ends (S (length q)) None q ltac:(lia)) as Hu.
  unfold unescape. destruct (unescape_loop _ None q) as [q'| | |]; try done. cbn [mbind outcome_bind].
  pose proof (next_ends (S n) q') as Hx. destruct (next (S n) q') as [k| | |] eqn:E; try done.
  apply next_positive in E; [|lia]. cbn [mbind outcome_bind].
  pose proof (IH (S n - k)%nat (drop k q') ltac:(lia)). by destruct (init_loop _ _ _).
Qed.

Lemma get_loop_ends fuel n name q : (n < fuel)%nat -> get_loop fuel n name q <> Running.
Proof.
  revert n q. induction fuel as [|fuel IH]; intros n q Hf; [lia|]. cbn [get_loop].
  destruct n as [|n]; [done|]. pose proof (text_ends q) as Ht.
  destruct (text q) as [s| | |]; try done. cbn [mbind outcome_bind].
  assert ((k ← next (S n) q; get_loop fuel (S n - k) name (drop k q)) <> Running) as Hn.
  { pose proof (next_ends (S n) q) as Hx. destruct (next (S n) q) as [k| | |] eqn:E; try done.
    apply next_positive in E; [|lia]. apply IH. lia. }
  destruct (starts_with name s) as [[|[[][][][][][][][]] w]|]; done.
Qed.

(** Whatever bytes a client sends, taking a query apart and looking up a
    name both end. *)
Theorem cgi_terminates q name g : init_cgi q <> Running /\ get_cgi name g <> Running.
Proof.
  split.
  - destruct q as [q|]; [|done]. unfold init_cgi, mem_strlen. pose proof (text_ends q).
    destruct (text q) as [s| | |]; try done. cbn [mbind outcome_bind].
    pose proof (init_loop_ends (S (String.length s)) (String.length s) (separate q) ltac:(lia)).
    by destruct (init_loop _ _ _).
  - unfold get_cgi. destruct (query g); [|done]. apply get_loop_ends. lia.
Qed.

(** ** What goes wrong *)

(** An escape of one digit at the end of an assignment takes the separator away:
    the next assignment becomes a part of the value. *)
Lemma cut_escape_merges :
  exists g, init_cgi (Some (chars "a=%4&bc=2" ++ [NUL])) = Ret g /\ get_cgi "bc" g = Ret None.
Proof. eexists. split; vm_compute; reflexivity. Qed.

(** A POST without a body leaves the static buffer as it was: the handler works
    on what the previous request left there. *)
Lemma empty_post_replays len buf : do_apply_post true len [] buf = Ret (buf, []).
Proof. unfold do_apply_post. cbn [negb]. by destruct (len <? 0), (Z.to_nat len). Qed.

(** A body of 10000 bytes overruns the buffer. *)
Lemma long_post_faults len stream buf :
  10000 <= len -> 10000 <= Z.of_nat (length stream) -> do_apply_post true len stream buf = Fault.
Proof.
  intros Hl Hs. unfold do_apply_post. cbn [negb]. rewrite (proj2 (Z.ltb_ge len 0)) by lia.
  assert (POST_BUF <= Nat.min (Z.to_nat len) (length stream))%nat as Hmin.
  { apply Nat2Z.inj_le. change (Z.of_nat POST_BUF) with 10000. lia. }
  destruct (Nat.min _ _) as [|n]; [|by rewrite (proj2 (Nat.leb_le _ _) Hmin)].
  apply Nat2Z.inj_le in Hmin. change (Z.of_nat POST_BUF) with 10000 in Hmin. lia.
Qed.
