(* ===== verification/Ej.v ===== *)
(** * Page templates (src/router/httpd/ej.c)

    [Module Ej]: a page is text with calls between "<%" and "%>"; the engine
    copies the text and runs the handlers of the calls. The handlers are a table
    of functions on the state [S] of the process, which give back what they
    write; the engine is the same for every table. A buffer is the list of its
    characters; [cstr] is the C string in it. *)

From Stdlib Require Import ZArith Lia Ascii.
From stdpp Require Import base numbers sets strings list.
From S2P Require Import Prelude CString.
Open Scope string_scope.
Open Scope Z_scope.
Open Scope list_scope.

Module Ej.

Notation text := (list ascii).
Definition NUL : ascii := "000".
Definition QUOTE : ascii := "034".
Definition chars (s : string) : text := String.list_ascii_of_string s.

(** The characters in front of the first one that satisfies [p]. *)
Fixpoint before (p : ascii -> bool) (s : text) : text :=
  match s with
  | [] => []
  | c :: s => if p c then [] else c :: before p s
  end.
Definition cstr (s : text) : text := before (is_char NUL) s.

(** [getdelim]: the characters up to the delimiter and with it, and what is left
    of the stream; nothing at its end. *)
Fixpoint getdelim (delim : ascii) (s : text) : option (text * text) :=
  match s with
  | [] => None
  | c :: s' =>
      if is_char delim c then Some ([c], s')
      else match getdelim delim s' with
           | Some (l, r) => Some (c :: l, r)
           | None => Some ([c], [])
           end
  end.

(** ** Calls *)

(** The place of the first [needle], a single character at every call, outside
    of quotation marks; [q] counts an open one. *)
Fixpoint unqstrstr_loop (needle : ascii) (q : bool) (cur : text) : option nat :=
  match cur with
  | [] => None
  | c :: cur =>
      if negb q && is_char needle c then Some 0%nat
      else S <$> unqstrstr_loop needle (if is_char QUOTE c then negb q else q) cur
  end.
Definition unqstrstr (haystack : text) (needle : ascii) : option nat := unqstrstr_loop needle false haystack.

Definition blank (c : ascii) : bool := isspace c || is_char QUOTE c.
Fixpoint skip_blanks (s : text) : text :=
  match s with
  | c :: s' => if blank c then skip_blanks s' else s
  | [] => []
  end.

(** The byte in front of an argument is a NUL that [call] or the previous
    argument has put there, where the second loop stops. *)
Definition get_arg (args : text) : text * option text :=
  let '(arg, next) := match unqstrstr args "," with
                      | None => (args, None)
                      | Some e => (take e args, Some (drop (S e) args))
                      end in
  (reverse (skip_blanks (reverse (skip_blanks arg))), next).

(** At most [n] arguments. *)
Fixpoint get_args (n : nat) (args : text) : list text :=
  match n with
  | O => []
  | S n => let '(arg, next) := get_arg args in
           arg :: match next with Some args => get_args n args | None => [] end
  end.

Definition strchr (c : ascii) (s : text) : option nat := fst <$> list_find (fun x => x = c) s.

Fixpoint skip_space (s : text) : text :=
  match s with
  | c :: s' => if is_char " " c then skip_space s' else s
  | [] => []
  end.

(** The name and the arguments of a call: both ends of the parentheses become
    NUL. *)
Definition parse_call (func : text) : option (text * list text) :=
  let func := skip_space func in
  match strchr "(" func, unqstrstr func ")" with
  | Some p, Some e =>
      let name := take (Nat.min p e) func in
      let args := if (p <? e)%nat then take (e - S p) (drop (S p) func) else drop (S p) func in
      Some (name, get_args 16 args)
  | _, _ => None
  end.

Section Engine.
Context {S : Type}.

Record ej_handler := Handler {
  pattern : text;
  output : list text -> S -> outcome (S * text)
}.

(** Every handler of the name is run, in the order of the table. *)
Fixpoint run_handlers (handlers : list ej_handler) (name : text) (argv : list text) (s : S)
    : outcome (S * text) :=
  match handlers with
  | [] => Ret (s, [])
  | h :: handlers =>
      if bool_decide (pattern h = name) then
        '(s, o) ← output h argv s;
        '(s, o') ← run_handlers handlers name argv s;
        Ret (s, o ++ o')
      else run_handlers handlers name argv s
  end.

Context (ej_handlers : list ej_handler).

Definition call (func : text) (s : S) : outcome (S * text) :=
  match parse_call func with
  | Some (name, argv) => run_handlers ej_handlers name argv s
  | None => Ret (s, [])
  end.

(** ** The page *)

(** The place of the last semicolon; without one the search leaves the buffer. *)
Definition findend (str : text) : outcome nat :=
  match list_find (fun c => c = ";"%char) (reverse str) with
  | Some (i, _) => Ret (length str - Datatypes.S i)%nat
  | None => Fault
  end.

(** [getc]: what follows a percent sign; another character is put back. *)
Definition after_percent (src : text) : option text :=
  match src with
  | c :: src => if is_char "%" c then Some src else None
  | [] => None
  end.

(** What is written, and 0, or -1 when the page ends behind "<%". *)
Fixpoint asp_loop (fuel : nat) (src : text) (s : S) (dst : text) : outcome (S * text * Z) :=
  match fuel with
  | O => Running
  | Datatypes.S fuel =>
      match getdelim "<" src with
      | None => Ret (s, dst, 0)
      | Some (line, src) =>
          match after_percent src with
          | Some src =>
              let l := cstr line in
              if bool_decide (l = []) then Fault else      (* line[strlen(line) - 1] *)
              let dst := dst ++ take (length l - 1) l in
              match getdelim "%" src with
              | None => Ret (s, dst, -1)
              | Some (line, src) =>
                  let l := cstr line in
                  n ← findend l;
                  '(s, out) ← call (take n l) s;
                  let src := match getdelim ">" src with Some (_, src) => src | None => [] end in
                  asp_loop fuel src s (dst ++ out)
              end
          | None => asp_loop fuel src s (dst ++ cstr line)
          end
      end
  end.
Definition process_asp_file (src : text) (s : S) : outcome (S * text * Z) :=
  asp_loop (Datatypes.S (length src)) src s [].

(** The copy of the temporary file to the client, 4096 bytes at a time; a short
    read shows the end of the file. *)
Fixpoint copy_loop (fuel : nat) (tmp : text) (stream : text) : outcome text :=
  match fuel with
  | O => Running
  | Datatypes.S fuel =>
      let stream := stream ++ take 4096 tmp in
      if (length tmp <? 4096)%nat then Ret stream else copy_loop fuel (drop 4096 tmp) stream
  end.

(** [file] is the page, if it can be opened; [direct] is set when there is no
    temporary file or the client is served over SSL. *)
Definition do_ej (file : option text) (direct : bool) (s : S) : outcome (S * text * Z) :=
  match file with
  | None => Ret (s, [], -1)
  | Some src =>
      '(s, out, _) ← process_asp_file src s;
      out ← (if direct then Ret out else copy_loop (Datatypes.S (length out)) out []);
      Ret (s, out, 0)
  end.
End Engine.

(** ** Arguments of handlers *)

Inductive ej_value := EInt (n : Z) | EStr (s : text) | ENone.

(** The values stored for the conversions of [fmt], one for each argument used. *)
Fixpoint ejArgs (argv : list text) (fmt : text) : list ej_value :=
  match fmt, argv with
  | c :: fmt', a :: argv' =>
      if is_char "%" c then
        match fmt' with
        | "d"%char :: _ => EInt (atoi (String.string_of_list_ascii a))
        | "s"%char :: _ => EStr a
        | _ => ENone
        end :: ejArgs argv' fmt'
      else ejArgs argv fmt'
  | _, _ => []
  end.

End Ej.
