(* ===== verification/Pages.v ===== *)
(** * Handlers of page calls (src/router/shared/broadcom.c, support.c)

    [Module Pages]: the handlers that show variables and form data. They only
    read the state of the process, so what they get is an [env]. *)

From Stdlib Require Import ZArith Lia Ascii.
From stdpp Require Import base numbers sets strings list.
From S2P Require Import Prelude CString Ej.
Import Ej.
Open Scope string_scope.
Open Scope Z_scope.
Open Scope list_scope.

Module Pages.

Record env := Env {
  nvram_get : string -> string;           (* never NULL in this firmware *)
  websGetVar : string -> option string;   (* the form, through get_cgi *)
  gozila_action : bool
}.

Definition str (t : text) : string := String.string_of_list_ascii t.
Definition lf : string := String "010" EmptyString.

(** ** Output *)

(** [websWrite(wp, output)]: the text is the format; a conversion in it has no
    argument. *)
Fixpoint write_format (t : text) : outcome text :=
  match t with
  | [] => Ret []
  | c :: t' =>
      if is_char "%" c then
        match t' with
        | d :: t'' => if is_char "%" d then r ← write_format t''; Ret (c :: r) else Fault
        | [] => Fault
        end
      else r ← write_format t'; Ret (c :: r)
  end.
Definition write (s : string) : outcome text := Ret (chars s).

Definition too_few : outcome text := write ("Insufficient args" +:+ lf).

Definition isprint (c : ascii) : bool := in_range 32 126 c.

(** A character that would be markup is written as a number. *)
Definition html_char (c : ascii) : text :=
  if isprint c && negb (one_of (String QUOTE "&<>") c) then [c]
  else chars ("&#" +:+ dec (s8 (code c))).
Definition html (s : string) : text := mjoin (html_char <$> chars s).

(** ** Variables *)

Section Handlers.
Context (e : env).

Definition nvram_match (name m : string) : bool := bool_decide (nvram_get e name = m).
Definition nvram_invmatch (name m : string) : bool := negb (nvram_match name m).
(** [GOZILA_GET]: the form while a page is filled in again, else the variable. *)
Definition GOZILA_GET (name : string) : option string :=
  if gozila_action e then websGetVar e name else Some (nvram_get e name).

Definition months : list (string * string) := [
  ("Jan", "January"); ("Feb", "February"); ("Mar", "March"); ("Apr", "April"); ("May", "May");
  ("Jun", "June"); ("Jul", "July"); ("Aug", "August"); ("Sep", "September"); ("Oct", "October");
  ("Nov", "November"); ("Dec", "December")].

(** The date of the release, with its month left to the script of the page: the
    pointer that is written next has no value when no month is found, and is
    NULL when the date ends early. *)
Definition release_date : outcome (text * string) :=
  let v := nvram_get e "release_date" in
  match list_find (fun m => strstr v (fst m) <> None) months with
  | None => Fault
  | Some (_, (short, long)) =>
      if strlen v <? 4 then Fault else
      match strtok (String.substring 4 (String.length v - 4) v) " " with
      | None => Fault
      | Some (tok, rest) =>
          match strtok rest short with
          | None => Fault
          | Some (c, _) =>
              Ret (chars (tok +:+ "." +:+ " <script>Capture(share." +:+ long +:+ ")</script> "), c)
          end
      end
  end.

Definition ej_nvram_get (argv : list text) : outcome text :=
  match ejArgs argv (chars "%s") with
  | [EStr name] =>
      if bool_decide (str name = "dom_release_date") then
        '(out, c) ← release_date; Ret (out ++ html c)
      else Ret (html (nvram_get e (str name)))
  | _ => too_few
  end.

Definition ej_nvram_selget (argv : list text) : outcome text :=
  match ejArgs argv (chars "%s") with
  | [EStr name] =>
      match (if gozila_action e then websGetVar e (str name) else None) with
      | Some buf => write buf
      | None => Ret (html (nvram_get e (str name)))
      end
  | _ => too_few
  end.

Definition ej_nvram_mac_get (argv : list text) : outcome text :=
  match ejArgs argv (chars "%s") with
  | [EStr name] =>
      write (map_string (fun c => if is_char ":" c then "-"%char else c) (nvram_get e (str name)))
  | _ => too_few
  end.

Definition ej_nvram_gozila_get (argv : list text) : outcome text :=
  match ejArgs argv (chars "%s") with
  | [EStr name] => write (default "(null)" (GOZILA_GET (str name)))
  | _ => too_few
  end.

(** ** Parts of addresses *)

(** [ip[which]] of the four numbers that [sscanf] stores. *)
Definition get_single_ip (ipaddr : string) (which : Z) : outcome Z :=
  if (0 <=? which) && (which <? 4) then Ret (nth (Z.to_nat which) (scan_dotted 3 ipaddr) 0) else Fault.

Definition ej_prefix_ip_get (argv : list text) : outcome text :=
  match ejArgs argv (chars "%s %d") with
  | [EStr _; EInt type] =>
      if type =? 1 then
        let lan := nvram_get e "lan_ipaddr" in
        a ← get_single_ip lan 0; b ← get_single_ip lan 1; c ← get_single_ip lan 2;
        write (dec a +:+ "." +:+ dec b +:+ "." +:+ dec c +:+ ".")
      else Ret []
  | _ => too_few
  end.

Definition PPP_PSEUDO_IP : string := "10.64.64.64".
Definition PPP_PSEUDO_NM : string := "255.255.255.255".
Definition PPP_PSEUDO_GW : string := "10.112.112.112".

(** With a single argument [which] has no value. *)
Definition ej_get_single_ip (argv : list text) : outcome text :=
  match ejArgs argv (chars "%s %d") with
  | [EStr name; EInt which] =>
      let c := nvram_get e (str name) in
      let c := if bool_decide (c = PPP_PSEUDO_IP) || bool_decide (c = PPP_PSEUDO_GW) then "0.0.0.0"
               else if bool_decide (c = PPP_PSEUDO_NM) then "255.255.255.0" else c in
      n ← get_single_ip c which;
      write (dec n)
  | [EStr _] => Fault
  | _ => too_few
  end.

(** The loop of foreach up to the word of the given number, in a buffer of 256
    bytes. *)
Fixpoint find_word (fuel : nat) (next : string) (which : Z) : outcome (option string) :=
  match fuel with
  | O => Running
  | S fuel =>
      let start := skip (is_char " ") next in
      let word := upto (is_char " ") start in
      if 256 <=? strlen word then Fault
      else if bool_decide (word = "") then Ret None
      else if which =? 0 then Ret (Some word)
      else find_word fuel (from (is_char " ") start) (which - 1)
  end.

Definition ej_get_dns_ip (argv : list text) : outcome text :=
  match ejArgs argv (chars "%s %d %d") with
  | [EStr name; EInt which; EInt count] =>
      let list := nvram_get e (str name) in
      w ← find_word (S (String.length list)) list which;
      match w with
      | Some word => n ← get_single_ip word count; write (dec n)
      | None => write "0"
      end
  | _ => too_few
  end.

Definition ej_nvram_list (argv : list text) : outcome text :=
  match ejArgs argv (chars "%s %d") with
  | [EStr name; EInt which] =>
      '(_, out) ← foreach 256 (nvram_get e (str name))
                    (fun word '(which, out) =>
                       if which =? 0 then o ← write_format (chars word); Ret (which - 1, out ++ o)
                       else Ret (which - 1, out)) (which, []);
      Ret out
  | _ => too_few
  end.

(** ** Choices *)

Definition ej_nvram_match (argv : list text) : outcome text :=
  match ejArgs argv (chars "%s %s %s") with
  | [EStr name; EStr m; EStr output] => if nvram_match (str name) (str m) then write_format output else Ret []
  | _ => too_few
  end.

Definition ej_nvram_invmatch (argv : list text) : outcome text :=
  match ejArgs argv (chars "%s %s %s") with
  | [EStr name; EStr m; EStr output] => if nvram_invmatch (str name) (str m) then write_format output else Ret []
  | _ => too_few
  end.

Definition ej_nvram_else_match (argv : list text) : outcome text :=
  match ejArgs argv (chars "%s %s %s %s") with
  | [EStr name; EStr m; EStr output1; EStr output2] =>
      write_format (if nvram_match (str name) (str m) then output1 else output2)
  | _ => too_few
  end.

(** The value of the form or of the variable is compared. *)
Definition selected (name m : string) : bool :=
  match GOZILA_GET name with
  | None => nvram_match name m
  | Some type => bool_decide (type = m)
  end.

Definition ej_nvram_selmatch (argv : list text) : outcome text :=
  match ejArgs argv (chars "%s %s %s") with
  | [EStr name; EStr m; EStr output] => if selected (str name) (str m) then write_format output else Ret []
  | _ => too_few
  end.

Definition ej_nvram_else_selmatch (argv : list text) : outcome text :=
  match ejArgs argv (chars "%s %s %s %s") with
  | [EStr name; EStr m; EStr output1; EStr output2] =>
      write_format (if selected (str name) (str m) then output1 else output2)
  | _ => too_few
  end.

Definition ej_scroll (argv : list text) : outcome text :=
  match ejArgs argv (chars "%s %d") with
  | [EStr _; EInt y] => write (if gozila_action e then dec y else "0")
  | _ => too_few
  end.
End Handlers.

Definition ej_no_cache (argv : list text) : outcome text :=
  let q := String QUOTE EmptyString in
  let meta name content := "<meta http-equiv=" +:+ q +:+ name +:+ q +:+ " content=" +:+ q +:+ content +:+ q +:+ ">" in
  write (meta "expires" "0" +:+ lf +:+ meta "cache-control" "no-cache" +:+ lf +:+ meta "pragma" "no-cache").

(** ** Features of the build *)

(** The names and values of the table [supports]. *)
Definition supports : list (string * string) :=
  (fun n => (n +:+ "_SUPPORT", "1")) <$>
  ["MPPPOE"; "WRITE_MAC"; "DDNS"; "PPPD"; "UDHCPD"; "BACKUP_RESTORE"; "UPNP_FORWARD"; "NTP"; "QOS";
   "DNSMASQ"; "UDHCPC"; "ZEBRA"; "GATEWAY_BEYOND_SUBNET"; "LIBMNG"; "PPPOE"; "DSL_MODULA_SEL";
   "IGMP_PROXY"; "MULTILANG"; "ANTSEL"; "PORT_TRIGGER"; "SETUP_WIZARD"; "GET_POST"; "TFTPD"; "HTTPD";
   "DIAG"; "WRITE_SN"; "SINGLEUSER"; "IPPPOE"; "CRON"; "CLI"].

Definition supported (name value : string) : bool := bool_decide ((name, value) ∈ supports).

Definition ej_support_match (argv : list text) : outcome text :=
  match ejArgs argv (chars "%s %s %s") with
  | [EStr name; EStr value; EStr output] =>
      if bool_decide (str name = "BACKUP_RESTORE_SUPPORT") || bool_decide (str name = "SYSLOG_SUPPORT")
      then Ret []
      else if supported (str name) (str value) then write_format output else Ret []
  | _ => too_few
  end.

Definition ej_support_invmatch (argv : list text) : outcome text :=
  match ejArgs argv (chars "%s %s %s") with
  | [EStr name; EStr value; EStr output] =>
      if bool_decide (str name = "BACKUP_RESTORE_SUPPORT") || bool_decide (str name = "SYSLOG_SUPPORT")
      then write_format output
      else match list_find (fun p => fst p = str name) supports with
           | Some (_, (_, v)) => if bool_decide (v = str value) then Ret [] else write_format output
           | None => write_format output
           end
  | _ => too_few
  end.

(** With three arguments the second output has no value. *)
Definition ej_support_elsematch (argv : list text) : outcome text :=
  let choose name value output1 output2 :=
    let no := match output2 with Some o => write_format o | None => Fault end in
    if bool_decide (str name = "SYSLOG_SUPPORT") then no
    else if supported (str name) (str value) then write_format output1 else no in
  match ejArgs argv (chars "%s %s %s %s") with
  | [EStr name; EStr value; EStr o1; EStr o2] => choose name value o1 (Some o2)
  | [EStr name; EStr value; EStr o1] => choose name value o1 None
  | _ => too_few
  end.

(** ** The table *)

Definition on_env (f : env -> list text -> outcome text) (argv : list text) (e : env) : outcome (env * text) :=
  o ← f e argv; Ret (e, o).

Definition ej_handlers : list (@ej_handler env) :=
  (fun '(name, f) => Handler (chars name) (on_env f)) <$> [
    ("nvram_get", ej_nvram_get); ("nvram_selget", ej_nvram_selget); ("nvram_match", ej_nvram_match);
    ("nvram_invmatch", ej_nvram_invmatch); ("nvram_selmatch", ej_nvram_selmatch);
    ("nvram_else_selmatch", ej_nvram_else_selmatch); ("nvram_else_match", ej_nvram_else_match);
    ("nvram_list", ej_nvram_list); ("nvram_mac_get", ej_nvram_mac_get);
    ("nvram_gozila_get", ej_nvram_gozila_get); ("support_match", fun _ => ej_support_match);
    ("support_invmatch", fun _ => ej_support_invmatch); ("support_elsematch", fun _ => ej_support_elsematch);
    ("get_single_ip", ej_get_single_ip); ("prefix_ip_get", ej_prefix_ip_get);
    ("no_cache", fun _ => ej_no_cache); ("scroll", ej_scroll); ("get_dns_ip", ej_get_dns_ip)].

End Pages.
