(* ===== verification/EjProofs.v ===== *)
(** * Page templates: proofs

    The engine renders a page as the composition of its texts and the results
    of its calls, and comes to an end on every file; arguments of calls hold no
    format directives; values of variables are shown without markup. *)

From Stdlib Require Import ZArith Lia Ascii.
From stdpp Require Import base numbers sets strings list.
From S2P Require Import Prelude CString Ej Pages.
Import Ej Pages.
Open Scope string_scope.
Open Scope Z_scope.
Open Scope list_scope.

(** ** The readers *)

Lemma is_char_true d c : is_char d c = true <-> c = d.
Proof. unfold is_char. apply bool_decide_eq_true. Qed.
Lemma is_char_refl d : is_char d d = true.
Proof. by apply is_char_true. Qed.
Lemma is_char_ne d c : c <> d -> is_char d c = false.
Proof. unfold is_char. intros. by apply bool_decide_eq_false_2. Qed.

Lemma before_all p u : Forall (fun c => p c = false) u -> before p u = u.
Proof. induction 1 as [|c u Hc _ IH]; [done|]. simpl. by rewrite Hc, IH. Qed.

Lemma cstr_id u : NUL ∉ u -> cstr u = u.
Proof.
  intros Hn. apply before_all, Forall_forall. intros c Hc. apply is_char_ne. by intros ->.
Qed.

Lemma getdelim_found d u r : d ∉ u -> getdelim d (u ++ d :: r) = Some (u ++ [d], r).
Proof.
  induction u as [|c u IH]; intros Hn; simpl; [by rewrite is_char_refl|].
  rewrite is_char_ne by set_solver. by rewrite IH by set_solver.
Qed.

Lemma getdelim_end d u : d ∉ u -> u <> [] -> getdelim d u = Some (u, []).
Proof.
  induction u as [|c u IH]; intros Hn Hu; [done|]. simpl. rewrite is_char_ne by set_solver.
  destruct u as [|c' u]; [done|]. by rewrite IH by set_solver.
Qed.

Lemma getdelim_app d s l r : getdelim d s = Some (l, r) -> s = l ++ r /\ l <> [].
Proof.
  revert l r. induction s as [|c s IH]; intros l r; simpl; [done|].
  destruct (is_char d c); [by intros [= <- <-]|].
  destruct (getdelim d s) as [[l' r']|] eqn:E; intros [= <- <-].
  - destruct (IH _ _ eq_refl) as [-> _]. done.
  - destruct s as [|c' s]; [done|]. simpl in E. destruct (is_char d c'); [done|].
    destruct (getdelim d s) as [[]|]; done.
Qed.

(** A list up to the first [d], if it has one. *)
Lemma split_first (d : ascii) u : d ∉ u \/ exists a b, u = a ++ d :: b /\ d ∉ a.
Proof.
  induction u as [|c u [IH|(a & b & -> & Ha)]]; [left; apply not_elem_of_nil|..].
  - destruct (decide (c = d)) as [->|]; [right; exists [], u; split; [done|apply not_elem_of_nil]|left; set_solver].
  - destruct (decide (c = d)) as [->|]; right; [exists [], (a ++ d :: b)|exists (c :: a), b];
      (split; [done|set_solver]).
Qed.

(** ** The engine without fuel *)

Section Engine.
Context {S : Type} (H : list (@ej_handler S)).

Lemma after_percent_length src r : after_percent src = Some r -> (length r < length src)%nat.
Proof. destruct src as [|c src]; [done|]. simpl. destruct (is_char _ c); intros [= ->]. lia. Qed.

Lemma getdelim_length d s l r : getdelim d s = Some (l, r) -> (length r < length s)%nat.
Proof.
  intros E. apply getdelim_app in E as [-> Hl]. rewrite length_app. destruct l; [done|]. simpl. lia.
Qed.

Definition behind (d : ascii) (src : text) : text :=
  match getdelim d src with Some (_, src) => src | None => [] end.
Lemma behind_length d src : (length (behind d src) <= length src)%nat.
Proof.
  unfold behind. destruct (getdelim d src) as [[l r]|] eqn:E; [|simpl; lia].
  apply getdelim_length in E. lia.
Qed.

Lemma asp_loop_fuel f1 : forall f2 src s dst, (length src < f1)%nat -> (length src < f2)%nat ->
  asp_loop H f1 src s dst = asp_loop H f2 src s dst.
Proof.
  induction f1 as [|f1 IH]; intros [|f2] src s dst H1 H2; [lia..|]. simpl.
  destruct (getdelim "<" src) as [[line r]|] eqn:E; [|done]. apply getdelim_length in E.
  destruct (after_percent r) as [r'|] eqn:Ep; [|apply IH; lia]. apply after_percent_length in Ep.
  case_bool_decide; [done|]. destruct (getdelim "%" r') as [[line' r'']|] eqn:E'; [|done].
  apply getdelim_length in E'. destruct (findend _) as [n| | |]; try done. cbn [mbind outcome_bind].
  destruct (call H _ s) as [[s' out]| | |]; try done. cbn [mbind outcome_bind]. pose proof (behind_length ">" r''). unfold behind in *. apply IH; lia.
Qed.

Lemma run_handlers_ends (L : list (@ej_handler S)) name argv :
  (forall h s, h ∈ L -> output h argv s <> Running) -> forall s, run_handlers L name argv s <> Running.
Proof.
  induction L as [|h L IH]; intros Hh s; [done|]. cbn [run_handlers].
  assert (forall s, run_handlers L name argv s <> Running) as Hr by (apply IH; set_solver).
  case_bool_decide; [|apply Hr]. pose proof (Hh h s ltac:(set_solver)) as Ho.
  destruct (output h argv s) as [[s' o]| | |]; try done. cbn [mbind outcome_bind].
  specialize (Hr s'). by destruct (run_handlers L name argv s') as [[]| | |].
Qed.

Lemma asp_loop_ends f : (forall h argv s, h ∈ H -> output h argv s <> Running) ->
  forall src s dst, (length src < f)%nat -> asp_loop H f src s dst <> Running.
Proof.
  intros Hout.
  induction f as [|f IH]; intros src s dst Hl; [lia|]. simpl.
  destruct (getdelim "<" src) as [[line r]|] eqn:E; [|done]. apply getdelim_length in E.
  destruct (after_percent r) as [r'|] eqn:Ep; [|apply IH; lia]. apply after_percent_length in Ep.
  case_bool_decide; [done|]. destruct (getdelim "%" r') as [[line' r'']|] eqn:E'; [|done].
  apply getdelim_length in E'. unfold findend. destruct (list_find _ _) as [[n ?]|]; [|done]. cbn [mbind outcome_bind].
  assert (call H (take (length (cstr line') - Datatypes.S n) (cstr line')) s <> Running) as Hc.
  { unfold call. destruct (parse_call _) as [[name argv]|]; [|done]. apply run_handlers_ends. auto. }
  destruct (call H _ s) as [[s' out]| | |]; try done. cbn [mbind outcome_bind]. pose proof (behind_length ">" r''). unfold behind in *. apply IH. lia.
Qed.

(** The engine on the rest of a page. *)
Definition process (src : text) (s : S) (dst : text) : outcome (S * text * Z) :=
  asp_loop H (Datatypes.S (length src)) src s dst.

(** What follows "<%". *)
Definition code_step (src : text) (s : S) (dst : text) : outcome (S * text * Z) :=
  match getdelim "%" src with
  | None => Ret (s, dst, -1)
  | Some (line, src) =>
      n ← findend (cstr line);
      '(s, out) ← call H (take n (cstr line)) s;
      process (behind ">" src) s (dst ++ out)
  end.

Lemma process_nil s dst : process [] s dst = Ret (s, dst, 0).
Proof. done. Qed.

Lemma process_plain u r s dst : "<"%char ∉ u -> NUL ∉ u -> after_percent r = None ->
  process (u ++ "<"%char :: r) s dst = process r s (dst ++ u ++ ["<"%char]).
Proof.
  intros Hu Hn Hr. unfold process at 1. cbn [asp_loop]. rewrite (getdelim_found _ _ _ Hu), Hr.
  rewrite cstr_id by set_solver. apply asp_loop_fuel; [rewrite length_app; simpl; lia|lia].
Qed.

Lemma process_rest u s dst : "<"%char ∉ u -> NUL ∉ u -> process u s dst = Ret (s, dst ++ u, 0).
Proof.
  intros Hu Hn. destruct (decide (u = [])) as [->|Hne]; [by rewrite app_nil_r|].
  unfold process. cbn [asp_loop]. rewrite (getdelim_end _ _ Hu Hne). cbn [after_percent].
  rewrite (cstr_id _ Hn). destruct u; [done|]. done.
Qed.

Lemma process_open u r s dst : "<"%char ∉ u -> NUL ∉ u ->
  process (u ++ "<"%char :: "%"%char :: r) s dst = code_step r s (dst ++ u).
Proof.
  intros Hu Hn. unfold process. cbn [asp_loop]. rewrite (getdelim_found _ _ _ Hu).
  cbn [after_percent]. rewrite is_char_refl, cstr_id by set_solver.
  rewrite bool_decide_eq_false_2 by (by destruct u).
  assert (take (length (u ++ ["<"%char]) - 1) (u ++ ["<"%char]) = u) as ->
    by (rewrite length_app; simpl; rewrite Nat.add_sub; apply take_app_length).
  unfold code_step. destruct (getdelim "%" r) as [[line r']|] eqn:E; [|done].
  apply getdelim_length in E. destruct (findend _) as [n| | |]; try done. cbn [mbind outcome_bind].
  destruct (call H _ s) as [[s' out]| | |]; try done. cbn [mbind outcome_bind]. pose proof (behind_length ">" r'). unfold behind in *.
  apply asp_loop_fuel; [rewrite length_app; simpl; lia|lia].
Qed.
End Engine.

(** ** Texts *)

(** No call starts in the text, and no NUL ends it. *)
Definition text_ok (t : text) : Prop :=
  NUL ∉ t /\ forall a b, t <> a ++ "<"%char :: "%"%char :: b.

Lemma text_ok_tail a b : text_ok (a ++ "<"%char :: b) -> text_ok b /\ after_percent b = None.
Proof.
  intros [Hn Ht]. split.
  - split; [set_solver|]. intros x y ->. apply (Ht (a ++ "<"%char :: x) y). by rewrite <- app_assoc.
  - destruct b as [|c b]; [done|]. simpl. destruct (is_char "%" c) eqn:E; [|done].
    apply is_char_true in E as ->. by destruct (Ht a b).
Qed.

Section Rendering.
Context {S : Type} (H : list (@ej_handler S)).

Lemma process_text n : forall t s dst, (length t < n)%nat -> text_ok t ->
  process H t s dst = Ret (s, dst ++ t, 0).
Proof.
  induction n as [|n IH]; intros t s dst Hl Ht; [lia|].
  destruct (split_first "<" t) as [Hno|(a & b & -> & Ha)].
  - apply process_rest; [done|apply Ht].
  - destruct (text_ok_tail a b Ht) as [Hb Hp]. destruct Ht as [Hn _].
    rewrite process_plain by (done || set_solver). rewrite IH; [|rewrite length_app in Hl; simpl in Hl; lia|done].
    by rewrite <- !app_assoc.
Qed.

Lemma process_text_code n : forall t r s dst, (length t < n)%nat -> text_ok t ->
  process H (t ++ "<"%char :: "%"%char :: r) s dst = code_step H r s (dst ++ t).
Proof.
  induction n as [|n IH]; intros t r s dst Hl Ht; [lia|].
  destruct (split_first "<" t) as [Hno|(a & b & -> & Ha)].
  - apply process_open; [done|apply Ht].
  - destruct (text_ok_tail a b Ht) as [Hb Hp]. destruct Ht as [Hn _].
    rewrite <- app_assoc. cbn [app]. rewrite process_plain;
      [|done|set_solver|destruct b as [|c b]; [done|simpl in *; by destruct (is_char _ c)]].
    rewrite IH; [|rewrite length_app in Hl; simpl in Hl; lia|done].
    by rewrite <- !app_assoc.
Qed.

(** ** Calls *)

(** A call as the pages write it: a name and quoted arguments. *)
Definition quoted (a : text) : text := QUOTE :: a ++ [QUOTE].
Fixpoint args_text (args : list text) : text :=
  match args with
  | [] => []
  | [a] => quoted a
  | a :: args => quoted a ++ ","%char :: args_text args
  end.
Definition call_text (f : text) (args : list text) : text := f ++ "("%char :: args_text args ++ [")"%char].
Definition code_text (f : text) (args : list text) : text :=
  chars "<% " ++ call_text f args ++ chars "; %>".

(** Neither a quotation mark nor what ends a call early. *)
Definition plain (a : text) : Prop := NUL ∉ a /\ QUOTE ∉ a /\ "%"%char ∉ a.
Definition arg_ok (a : text) : Prop := plain a /\ skip_blanks a = a /\ skip_blanks (reverse a) = reverse a.
Definition code_ok (f : text) (args : list text) : Prop :=
  plain f /\ "("%char ∉ f /\ ")"%char ∉ f /\ skip_space f = f /\ Forall arg_ok args.

Lemma unq_plain n u r : n ∉ u -> QUOTE ∉ u ->
  unqstrstr_loop n false (u ++ r) = Nat.add (length u) <$> unqstrstr_loop n false r.
Proof.
  induction u as [|c u IH]; intros Hn Hq; [simpl; by destruct (unqstrstr_loop n false r)|].
  simpl. rewrite is_char_ne, (is_char_ne QUOTE c) by set_solver. rewrite IH by set_solver.
  by destruct (unqstrstr_loop n false r).
Qed.

Lemma unq_inside n a r : QUOTE ∉ a ->
  unqstrstr_loop n true (a ++ QUOTE :: r) = Nat.add (length a + 1) <$> unqstrstr_loop n false r.
Proof.
  induction a as [|c a IH]; intros Hq; [simpl; by destruct (unqstrstr_loop n false r)|].
  simpl. rewrite (is_char_ne QUOTE c) by set_solver. rewrite IH by set_solver.
  by destruct (unqstrstr_loop n false r).
Qed.

Lemma unq_quoted n a r : n <> QUOTE -> QUOTE ∉ a ->
  unqstrstr_loop n false (quoted a ++ r) = Nat.add (length (quoted a)) <$> unqstrstr_loop n false r.
Proof.
  intros Hn Hq. unfold quoted. simpl. rewrite is_char_ne by done. cbn [is_char].
  change (is_char QUOTE QUOTE) with true. rewrite <- app_assoc. simpl. rewrite unq_inside by done.
  rewrite length_app. simpl. by destruct (unqstrstr_loop n false r).
Qed.

Lemma unq_args args r : Forall arg_ok args ->
  unqstrstr_loop ")" false (args_text args ++ r) =
  Nat.add (length (args_text args)) <$> unqstrstr_loop ")" false r.
Proof.
  induction 1 as [|a args [(_ & Hq & _) _] _ IH]; [simpl; by destruct (unqstrstr_loop ")" false r)|].
  destruct args as [|b args]; [by apply unq_quoted|].
  change (args_text (a :: b :: args)) with (quoted a ++ ","%char :: args_text (b :: args)).
  rewrite <- app_assoc, unq_quoted by done.
  assert (unqstrstr_loop ")" false ((","%char :: args_text (b :: args)) ++ r) =
    Datatypes.S <$> unqstrstr_loop ")" false (args_text (b :: args) ++ r)) as -> by done.
  rewrite IH, length_app. destruct (unqstrstr_loop ")" false r) as [k|]; [|done]. cbn. f_equal. lia.
Qed.

Lemma skip_blanks_quoted a : skip_blanks a = a -> a <> [] -> skip_blanks (quoted a) = a ++ [QUOTE].
Proof.
  intros Ha Hne. unfold quoted. simpl. destruct a as [|c a]; [done|]. simpl in *.
  destruct (blank c) eqn:E; [|done]. exfalso. apply (f_equal length) in Ha. simpl in Ha.
  assert (forall l, length (skip_blanks l) <= length l)%nat as Hl.
  { clear. induction l as [|x l IH]; simpl; [lia|]. destruct (blank x); simpl; lia. }
  specialize (Hl a). lia.
Qed.

Lemma trim_quoted a : arg_ok a -> reverse (skip_blanks (reverse (skip_blanks (quoted a)))) = a.
Proof.
  intros (_ & Hf & Hr). destruct (decide (a = [])) as [->|Hne]; [done|].
  rewrite skip_blanks_quoted, reverse_app, reverse_singleton by done. simpl. rewrite Hr. apply reverse_involutive.
Qed.

(** The arguments are taken apart again; a call without any has an empty one. *)
Lemma get_args_text n args : Forall arg_ok args -> (0 < n)%nat ->
  get_args n (args_text args) = match args with [] => [[]] | _ => take n args end.
Proof.
  intros Ha. revert n. induction Ha as [|a args Hok Hargs IH]; intros [|n] Hn; [lia|done|lia|].
  destruct args as [|b args].
  - cbn [args_text get_args]. unfold get_arg, unqstrstr.
    rewrite <- (app_nil_r (quoted a)) at 1. rewrite unq_quoted by (done || apply Hok). simpl unqstrstr_loop.
    cbn [fmap option_fmap option_map]. rewrite (trim_quoted a Hok). by destruct n.
  - change (args_text (a :: b :: args)) with (quoted a ++ ","%char :: args_text (b :: args)).
    cbn [get_args]. unfold get_arg, unqstrstr. rewrite unq_quoted by (done || apply Hok).
    cbn [unqstrstr_loop negb andb]. change (is_char "," ",") with true. cbn [fmap option_fmap option_map].
    rewrite Nat.add_0_r, take_app_length, (trim_quoted a Hok).
    replace (drop (Datatypes.S (length (quoted a))) _) with (args_text (b :: args))
      by (rewrite drop_app_ge by lia; by replace (Datatypes.S _ - _)%nat with 1%nat by lia).
    destruct n as [|n]; [done|]. rewrite IH by lia. done.
Qed.

Lemma find_first (c : ascii) u r : c ∉ u -> list_find (fun x => x = c) (u ++ c :: r) = Some (length u, c).
Proof.
  intros Hu. rewrite list_find_app_r.
  - cbn [list_find]. rewrite decide_True by done. done.
  - apply list_find_None, Forall_forall. intros x Hx ->. done.
Qed.

Lemma strchr_first c u r : c ∉ u -> strchr c (u ++ c :: r) = Some (length u).
Proof. intros Hu. unfold strchr. by rewrite find_first. Qed.

Lemma findend_last u v : ";"%char ∉ v -> findend (u ++ ";"%char :: v) = Ret (length u).
Proof.
  intros Hv. unfold findend. rewrite reverse_app, reverse_cons, <- app_assoc. cbn [app].
  rewrite find_first by (by rewrite elem_of_reverse).
  rewrite length_reverse, length_app. simpl. f_equal. lia.
Qed.

Lemma notin_args d args : d <> QUOTE -> d <> ","%char -> Forall (fun a => d ∉ a) args -> d ∉ args_text args.
Proof.
  intros Hq Hc. induction 1 as [|a args Ha _ IH]; [apply not_elem_of_nil|].
  assert (d ∉ quoted a) as Hqa by (unfold quoted; set_solver).
  destruct args as [|b args]; [done|].
  change (args_text (a :: b :: args)) with (quoted a ++ ","%char :: args_text (b :: args)). set_solver.
Qed.

Lemma skip_space_app f r : skip_space f = f -> skip_space r = r -> skip_space (f ++ r) = f ++ r.
Proof.
  destruct f as [|c f]; [done|]. simpl. destruct (is_char " " c); [|done]. intros Hf _. exfalso.
  assert (forall l, length (skip_space l) <= length l)%nat as Hl.
  { clear. induction l as [|x l IH]; simpl; [lia|]. destruct (is_char " " x); simpl; lia. }
  specialize (Hl f). rewrite Hf in Hl. simpl in Hl. lia.
Qed.

(** A call as it is written is parsed into its name and arguments. *)
Lemma parse_call_text f args : code_ok f args ->
  parse_call (" "%char :: call_text f args) =
  Some (f, match args with [] => [[]] | _ => take 16 args end).
Proof.
  intros ((_ & Hq & _) & Hp & Hc & Hs & Ha). unfold parse_call, call_text.
  set (r := "("%char :: args_text args ++ [")"%char]).
  assert (skip_space (" "%char :: f ++ r) = f ++ r) as -> by (apply skip_space_app; done).
  rewrite (strchr_first "(" f _ Hp : strchr "(" (f ++ r) = _). unfold unqstrstr. rewrite unq_plain by done.
  assert (unqstrstr_loop ")" false r = Some (Datatypes.S (length (args_text args)))) as ->.
  { unfold r. cbn [unqstrstr_loop]. change (is_char ")" "(") with false. change (is_char QUOTE "(") with false.
    cbn [negb andb]. rewrite unq_args by done. cbn [unqstrstr_loop]. change (is_char ")" ")") with true.
    cbn. by rewrite Nat.add_0_r. }
  cbn [fmap option_fmap option_map]. rewrite (proj2 (Nat.ltb_lt _ _)) by lia.
  rewrite Nat.min_l, take_app_length by lia. f_equal. f_equal.
  replace (length f + Datatypes.S (length (args_text args)) - Datatypes.S (length f))%nat
    with (length (args_text args)) by lia.
  assert (drop (Datatypes.S (length f)) (f ++ r) = args_text args ++ [")"%char]) as ->.
  { rewrite drop_app_ge by lia. by replace (Datatypes.S (length f) - length f)%nat with 1%nat by lia. }
  rewrite take_app_length. apply get_args_text; [done|lia].
Qed.

(** The code between "<%" and "%>" runs the handlers of its name. *)
Lemma code_step_text f args rest s dst : code_ok f args ->
  code_step H (" "%char :: call_text f args ++ chars "; %>" ++ rest) s dst =
  '(s', out) ← run_handlers H f (match args with [] => [[]] | _ => take 16 args end) s;
  process H rest s' (dst ++ out).
Proof.
  intros Hok. pose proof (parse_call_text f args Hok) as Hparse.
  destruct Hok as ((Hn & Hq & Hp) & _ & _ & _ & Ha).
  assert (forall d, d <> QUOTE -> d <> ","%char -> d <> "("%char -> d <> ")"%char -> d ∉ f ->
    Forall (fun a => d ∉ a) args -> d ∉ call_text f args) as Hnot.
  { intros d D1 D2 D3 D4 Hf Hd. pose proof (notin_args d args D1 D2 Hd). unfold call_text. set_solver. }
  assert ("%"%char ∉ call_text f args) as Hpc.
  { apply Hnot; try done. eapply Forall_impl; [exact Ha|]. intros a [(_ & _ & ?) _]. done. }
  assert (NUL ∉ call_text f args) as Hnc.
  { apply Hnot; try done. eapply Forall_impl; [exact Ha|]. intros a [(? & _ & _) _]. done. }
  set (ct := call_text f args) in *. clearbody ct.
  unfold code_step.
  assert (" "%char :: ct ++ chars "; %>" ++ rest = (" "%char :: ct ++ [";"; " "]%char) ++ "%"%char :: ">"%char :: rest)
    as -> by (simpl; by rewrite <- app_assoc).
  rewrite getdelim_found by set_solver.
  assert (cstr ((" "%char :: ct ++ [";"; " "]%char) ++ ["%"%char]) = (" "%char :: ct) ++ ";"%char :: [" "; "%"]%char) as ->.
  { rewrite cstr_id by (clear -Hnc; set_solver). simpl. by rewrite <- app_assoc. }
  rewrite findend_last by set_solver. cbn [mbind outcome_bind].
  rewrite take_app_length. unfold call. rewrite Hparse.
  done.
Qed.

(** ** Pages *)

(** A page: texts with a call behind each but the last. *)
Notation page := (list (text * (text * list text)) * text)%type.

Fixpoint segments_text (l : list (text * (text * list text))) (last : text) : text :=
  match l with
  | [] => last
  | (t, (f, args)) :: l => t ++ code_text f args ++ segments_text l last
  end.

(** What a page means: its texts as they are, and the results of its calls. *)
Fixpoint render (l : list (text * (text * list text))) (last : text) (s : S) : outcome (S * text) :=
  match l with
  | [] => Ret (s, last)
  | (t, (f, args)) :: l =>
      '(s, out) ← run_handlers H f (match args with [] => [[]] | _ => take 16 args end) s;
      '(s, rest) ← render l last s;
      Ret (s, t ++ out ++ rest)
  end.

Lemma process_page l last : forall s dst,
  Forall (fun '(t, (f, args)) => text_ok t /\ code_ok f args) l -> text_ok last ->
  process H (segments_text l last) s dst =
  '(s', out) ← render l last s; Ret (s', dst ++ out, 0).
Proof.
  induction l as [|[t [f args]] l IH]; intros s dst Hl Hlast.
  - cbn [segments_text render]. cbn [mbind outcome_bind]. apply (process_text (Datatypes.S (length last))); [lia|done].
  - apply Forall_cons in Hl as [[Ht Hc] Hl]. cbn [segments_text render]. unfold code_text.
    rewrite <- !app_assoc. change (chars "<% ") with (["<"; "%"; " "]%char). cbn [app].
    rewrite (process_text_code (Datatypes.S (length t))) by (done || lia).
    rewrite code_step_text by done. destruct (run_handlers H f _ s) as [[s1 out]| | |]; try done. cbn [mbind outcome_bind].
    rewrite IH by done. destruct (render l last s1) as [[s2 rest]| | |]; try done. cbn [mbind outcome_bind].
    by rewrite <- !app_assoc.
Qed.

(** C14. A page is rendered as it is written: for every page of texts and calls
    with quoted arguments the engine writes the texts unchanged and, in the place
    of each call, what the handlers of its name give for its arguments (the first
    16; one empty argument when there are none), each running in the state the
    ones before it leave. *)
Theorem render_page l last s :
  Forall (fun '(t, (f, args)) => text_ok t /\ code_ok f args) l -> text_ok last ->
  process_asp_file H (segments_text l last) s = '(s', out) ← render l last s; Ret (s', out, 0).
Proof. intros Hl Hlast. exact (process_page l last s [] Hl Hlast). Qed.

(** The copy of the temporary file is the file. *)
Lemma copy_loop_all f : forall tmp stream, (length tmp < f)%nat -> copy_loop f tmp stream = Ret (stream ++ tmp).
Proof.
  induction f as [|f IH]; intros tmp stream Hl; [lia|]. cbn [copy_loop].
  destruct (Nat.ltb_spec (length tmp) 4096); [by rewrite take_ge by lia|].
  rewrite IH by (rewrite length_drop; lia). by rewrite <- app_assoc, take_drop.
Qed.

(** Every request for a page is answered: whatever the file holds, and with
    or without a temporary file, do_ej returns or hits one of the undefined
    accesses of the engine, the same in both cases; it does not loop. *)
Theorem do_ej_ends file direct s :
  (forall h argv s, h ∈ H -> output h argv s <> Running) ->
  do_ej H file direct s <> Running /\ do_ej H file direct s = do_ej H file true s.
Proof.
  intros Hout. destruct file as [src|]; [|done]. cbn [do_ej].
  pose proof (asp_loop_ends H (Datatypes.S (length src)) Hout src s [] ltac:(lia)) as Hends.
  unfold process_asp_file. destruct (asp_loop _ _ _ _ _) as [[[s' out] r]| | |]; try done.
  cbn [mbind outcome_bind]. rewrite copy_loop_all by lia. by destruct direct.
Qed.
End Rendering.

(** ** Arguments *)

Lemma getdelim_last d s l r : getdelim d s = Some (l, r) -> exists u, d ∉ u /\ (l = u \/ l = u ++ [d]).
Proof.
  revert l r. induction s as [|c s IH]; intros l r; simpl; [done|].
  destruct (is_char d c) eqn:Ec.
  - apply is_char_true in Ec as ->. intros [= <- <-]. exists []. split; [apply not_elem_of_nil|by right].
  - assert (c <> d) by (intros ->; by rewrite is_char_refl in Ec).
    destruct (getdelim d s) as [[l' r']|]; intros [= <- <-].
    + destruct (IH _ _ eq_refl) as (u & Hu & [->| ->]); exists (c :: u); (split; [set_solver|]); auto.
    + exists [c]. split; [set_solver|by left].
Qed.

Lemma before_incl p u : before p u ⊆ u.
Proof. induction u as [|c u IH]; simpl; [done|]. destruct (p c); set_solver. Qed.
Lemma skip_blanks_incl u : skip_blanks u ⊆ u.
Proof. induction u as [|c u IH]; simpl; [done|]. destruct (blank c); set_solver. Qed.
Lemma skip_space_incl u : skip_space u ⊆ u.
Proof. induction u as [|c u IH]; simpl; [done|]. destruct (is_char " " c); set_solver. Qed.
Lemma take_incl {A} n (u : list A) : take n u ⊆ u.
Proof. intros x Hx. rewrite <- (take_drop n u). set_solver. Qed.
Lemma drop_incl {A} n (u : list A) : drop n u ⊆ u.
Proof. intros x Hx. rewrite <- (take_drop n u). set_solver. Qed.

Lemma get_arg_incl args arg next : get_arg args = (arg, next) ->
  arg ⊆ args /\ from_option (fun r => r ⊆ args) True next.
Proof.
  unfold get_arg.
  assert (forall u, reverse (skip_blanks (reverse (skip_blanks u))) ⊆ u) as Ht.
  { intros u x Hx. apply elem_of_reverse, skip_blanks_incl, elem_of_reverse, skip_blanks_incl in Hx. done. }
  destruct (unqstrstr args ",") as [k|]; intros [= <- <-]; simpl.
  - split; [|apply drop_incl]. etrans; [apply Ht|apply take_incl].
  - by split.
Qed.

Lemma get_args_incl n : forall args, Forall (fun a => a ⊆ args) (get_args n args).
Proof.
  induction n as [|n IH]; intros args; [constructor|]. cbn [get_args].
  destruct (get_arg args) as [arg next] eqn:E. apply get_arg_incl in E as [Ha Hn].
  constructor; [done|]. destruct next as [r|]; [|constructor]. simpl in Hn.
  eapply Forall_impl; [apply IH|]. intros a Hr. simpl in Hr. by etrans.
Qed.

Lemma parse_call_incl func name argv : parse_call func = Some (name, argv) ->
  Forall (fun a => a ⊆ func) argv.
Proof.
  unfold parse_call. generalize 16%nat. intros m. destruct (strchr _ _) as [p|]; [|done]. destruct (unqstrstr _ _) as [k|]; [|done].
  intros [= _ <-]. eapply Forall_impl; [apply get_args_incl|]. intros a Ha. simpl in Ha.
  etrans; [exact Ha|]. etrans; [|apply (skip_space_incl func)].
  destruct (_ <? _)%nat; [etrans; [apply take_incl|]|]; apply drop_incl.
Qed.

(** No call of a page hands a percent sign to a handler: the arguments that
    the handlers pass on as formats (nvram_match and the others that choose
    between texts) cannot contain a conversion, whatever the page. *)
Theorem arguments_no_percent src line rest n name argv :
  getdelim "%" src = Some (line, rest) -> findend (cstr line) = Ret n ->
  parse_call (take n (cstr line)) = Some (name, argv) ->
  Forall (fun a => "%"%char ∉ a /\ write_format a = Ret a) argv.
Proof.
  intros Hg He Hp. apply parse_call_incl in Hp.
  assert ("%"%char ∉ take n (cstr line)) as Hno.
  { apply getdelim_last in Hg as (u & Hu & [->| ->]).
    - intros Hin. by apply take_incl, before_incl in Hin.
    - assert (cstr (u ++ ["%"%char]) = u ++ ["%"%char] \/ cstr (u ++ ["%"%char]) ⊆ u) as [E|E].
      { clear. induction u as [|c u IH]; [by left|]. cbn [app]. unfold cstr in *. cbn [before].
        destruct (is_char NUL c); [right; set_solver|]. destruct IH as [->|IH]; [by left|right; set_solver]. }
      + rewrite E in He |- *. unfold findend in He. rewrite reverse_app, reverse_singleton in He. cbn [app list_find] in He.
        rewrite decide_False in He by done. destruct (list_find _ (reverse u)) as [[i x]|] eqn:Ef; [|done].
        apply list_find_Some in Ef as (Hi & _ & _). apply lookup_lt_Some in Hi. rewrite length_reverse in Hi.
        injection He as <-. cbn. rewrite length_app. cbn [length].
        rewrite take_app_le by lia. intros Hin. by apply take_incl in Hin.
      + intros Hin. apply take_incl, E in Hin. done. }
  eapply Forall_impl; [exact Hp|]. intros a Ha. simpl in Ha. assert ("%"%char ∉ a) as Hna by set_solver.
  split; [done|]. clear -Hna. induction a as [|c a IH]; [done|]. cbn [write_format].
  rewrite is_char_ne by set_solver. by rewrite IH by set_solver.
Qed.

(** ** Values on a page *)

(** A character that is no markup. *)
Definition shown (c : ascii) : bool := isprint c && negb (one_of (String QUOTE "<>") c).
(** A character that is shown as it is. *)
Definition clean (c : ascii) : bool := isprint c && negb (one_of (String QUOTE "&<>") c).

(** Every ampersand starts a number. *)
Fixpoint amp_ok (t : text) : bool :=
  match t with
  | [] => true
  | c :: t' => (if is_char "&" c then match t' with d :: _ => is_char "#" d | [] => false end else true)
               && amp_ok t'
  end.

Lemma amp_ok_app a b : amp_ok a = true -> amp_ok b = true -> amp_ok (a ++ b) = true.
Proof.
  intros Ha Hb. induction a as [|c a IH]; [done|]. simpl in *.
  apply andb_prop in Ha as [Hc Ha]. rewrite IH, andb_true_r by done. destruct (is_char "&" c); [|done].
  by destruct a.
Qed.

Lemma html_char_shown c : forallb shown (html_char c) = true /\ amp_ok (html_char c) = true.
Proof. by destruct c as [[] [] [] [] [] [] [] []]; vm_compute. Qed.

Lemma html_char_clean c : clean c = true -> html_char c = [c].
Proof. unfold clean, html_char. by intros ->. Qed.

Lemma html_shown s : Forall (fun c => shown c = true) (html s) /\ amp_ok (html s) = true.
Proof.
  unfold html. induction (chars s) as [|c t [IH1 IH2]]; [by split|]. cbn [fmap list_fmap mjoin list_join].
  destruct (html_char_shown c) as [Hs Ha]. split; [|by apply amp_ok_app].
  apply Forall_app. split; [|done]. apply Forall_forall. intros x Hx.
  rewrite forallb_forall in Hs. apply Hs. by apply list_elem_of_In.
Qed.

Lemma html_clean s : Forall (fun c => clean c = true) (chars s) -> html s = chars s.
Proof.
  unfold html. induction 1 as [|c t Hc _ IH]; [done|].
  change (html_char c ++ mjoin (html_char <$> t) = c :: t). by rewrite (html_char_clean c Hc), IH.
Qed.

(** C15. For every name but dom_release_date the value of a variable cannot bring
    markup into a page: whatever the variable holds, what nvram_get writes has only
    printable characters, no quotation mark and no angle bracket, and ampersands only
    in front of numbers; a value without such characters is written as it is. (For
    dom_release_date, which the page of the router's status shows, a script and a
    word of the variable release_date are written as they are, see
    [release_date_injects].) *)
Theorem nvram_get_no_markup e name argv :
  str name <> "dom_release_date" ->
  exists out, ej_nvram_get e (name :: argv) = Ret out /\
    Forall (fun c => shown c = true) out /\ amp_ok out = true /\
    (Forall (fun c => clean c = true) (chars (nvram_get e (str name))) -> out = chars (nvram_get e (str name))).
Proof.
  intros Hn. exists (html (nvram_get e (str name))).
  assert (ejArgs (name :: argv) (chars "%s") = [EStr name]) as Ea by (destruct argv; done).
  split; [unfold ej_nvram_get; by rewrite Ea, bool_decide_eq_false_2|].
  destruct (html_shown (nvram_get e (str name))) as [H1 H2]. split_and!; try done. apply html_clean.
Qed.

(** ** The handlers come to an end *)

Lemma write_format_ends : forall t, write_format t <> Running.
Proof.
  assert (forall n t, (length t < n)%nat -> write_format t <> Running) as Hn.
  { induction n as [|n IH]; intros t Hl; [lia|]. destruct t as [|c t]; [done|]. cbn [write_format length] in *.
    destruct (is_char "%" c).
    - destruct t as [|d t]; [done|]. destruct (is_char "%" d); [|done]. cbn [length] in Hl.
      pose proof (IH t ltac:(lia)). by destruct (write_format t).
    - pose proof (IH t ltac:(lia)). by destruct (write_format t). }
  intros t. by apply (Hn (S (length t))); lia.
Qed.

Lemma bind_ends {A B} (x : outcome A) (f : A -> outcome B) :
  x <> Running -> (forall a, f a <> Running) -> x ≫= f <> Running.
Proof. intros Hx Hf. destruct x; try done. apply Hf. Qed.

Lemma find_word_ends fuel : forall s w, (String.length s < fuel)%nat -> find_word fuel s w <> Running.
Proof.
  induction fuel as [|fuel IH]; intros s w Hl; [lia|]. cbn [find_word].
  destruct (256 <=? _); [done|]. case_bool_decide as Hw; [done|]. destruct (w =? 0); [done|]. apply IH.
  pose proof (skip_length (is_char " ") s). pose proof (from_length (is_char " ") (skip (is_char " ") s)).
  destruct (upto _ _) as [|c w']; [done|]. simpl in *. lia.
Qed.

Lemma get_single_ip_ends s w : get_single_ip s w <> Running.
Proof. unfold get_single_ip. by destruct (_ && _). Qed.

Lemma release_date_ends e : release_date e <> Running.
Proof. unfold release_date. repeat (case_match; try done). Qed.

(** Each branch of a handler ends. *)
Ltac ends := repeat first
  [ done
  | apply bind_ends; [|intros ?]
  | apply write_format_ends | apply get_single_ip_ends | apply release_date_ends
  | apply find_word_ends; lia
  | apply foreach_ends; intros ? [? ?]
  | match goal with |- context [match ?x with _ => _ end] => destruct x end ].

Lemma handlers_end h argv s : h ∈ Pages.ej_handlers -> output h argv s <> Running.
Proof.
  unfold Pages.ej_handlers. intros ([n f] & -> & Hin)%list_elem_of_fmap. cbn [output]. unfold on_env.
  apply bind_ends; [|done].
  repeat (apply elem_of_cons in Hin as [[= -> ->]|Hin];
    [cbv delta [ej_nvram_get ej_nvram_selget ej_nvram_match ej_nvram_invmatch ej_nvram_selmatch
       ej_nvram_else_selmatch ej_nvram_else_match ej_nvram_list ej_nvram_mac_get ej_nvram_gozila_get
       ej_support_match ej_support_invmatch ej_support_elsematch ej_get_single_ip ej_prefix_ip_get
       ej_no_cache ej_scroll ej_get_dns_ip] beta zeta; ends|]).
  by apply not_elem_of_nil in Hin.
Qed.

(** ** Limits *)

(** A number is not closed, so different values look the same on the page. *)
Lemma html_not_injective :
  html (String "001" "2") = html (String "012" EmptyString).
Proof. reflexivity. Qed.

Definition demo_env : env :=
  Env (fun n => if bool_decide (n = "name") then "A<b>" else if bool_decide (n = "list") then "one %n" else n)
    (fun n => if bool_decide (n = "name") then Some "<script>" else None) true.

(** A word of the release date is written without a change, and a script for the
    name of the month behind it. *)
Lemma release_date_injects :
  ej_nvram_get (Env (fun _ => "Jan <img/src=x> 2006") (fun _ => None) false) [chars "dom_release_date"] =
  Ret (chars "<img/src=x>. <script>Capture(share.January)</script> 2006").
Proof. vm_compute. reflexivity. Qed.

(** A page that is filled in again shows the form as it was sent. *)
Lemma selget_shows_form : ej_nvram_selget demo_env [chars "name"] = Ret (chars "<script>").
Proof. reflexivity. Qed.

(** A word of a variable is used as a format. *)
Lemma list_word_is_format : ej_nvram_list demo_env [chars "list"; chars "1"] = Fault.
Proof. vm_compute. reflexivity. Qed.

(** A call without a semicolon: the search for it leaves the buffer. *)
Lemma missing_semicolon_faults :
  process_asp_file Pages.ej_handlers (chars "<% no_cache() %>") demo_env = Fault.
Proof. vm_compute. reflexivity. Qed.

(** ** A page *)

Definition demo_page : list (text * (text * list text)) := [
  (chars "<b>", (chars "nvram_get", [chars "name"]));
  (chars "</b> 100%", (chars "nvram_else_match", [chars "proto"; chars "proto"; chars "yes, (1);"; chars "no"]))].

Lemma text_ok_dec t :
  bool_decide (NUL ∉ t) && bool_decide (Forall (fun i => take 2 (drop i t) <> ["<"; "%"]%char) (seq 0 (length t))) = true ->
  text_ok t.
Proof.
  intros [Hn Hs]%andb_prop. apply bool_decide_eq_true in Hn. apply bool_decide_eq_true in Hs.
  split; [done|]. intros a b ->. rewrite Forall_forall in Hs. apply (Hs (length a)).
  - apply elem_of_seq. rewrite length_app. simpl. lia.
  - by rewrite drop_app_length.
Qed.

#[local] Instance plain_decision a : Decision (plain a) := ltac:(unfold plain; apply _).
#[local] Instance arg_ok_decision a : Decision (arg_ok a) := ltac:(unfold arg_ok; apply _).
#[local] Instance code_ok_decision f args : Decision (code_ok f args) := ltac:(unfold code_ok; apply _).

Lemma demo_page_ok : Forall (fun '(t, (f, args)) => text_ok t /\ code_ok f args) demo_page.
Proof.
  repeat (apply Forall_cons; split;
    [split; [by apply text_ok_dec; vm_compute|apply (bool_decide_unpack _); by vm_compute]|]).
  apply Forall_nil_2.
Qed.

Lemma render_page_witness :
  process_asp_file Pages.ej_handlers (segments_text demo_page (chars "<p>")) demo_env =
  Ret (demo_env, chars "<b>A&#60b&#62</b> 100%yes, (1);<p>", 0).
Proof.
  rewrite (render_page Pages.ej_handlers demo_page (chars "<p>") demo_env demo_page_ok).
  - vm_compute. reflexivity.
  - by apply text_ok_dec; vm_compute.
Defined.

Lemma do_ej_ends_witness :
  do_ej Pages.ej_handlers (Some (chars "a<%")) false demo_env <> Running /\
  do_ej Pages.ej_handlers (Some (chars "a<%")) false demo_env =
  do_ej Pages.ej_handlers (Some (chars "a<%")) true demo_env.
Proof. apply (do_ej_ends Pages.ej_handlers (Some (chars "a<%")) false demo_env). exact handlers_end. Defined.

Lemma arguments_no_percent_witness :
  Forall (fun a => "%"%char ∉ a /\ write_format a = Ret a) [chars "a"; chars "b"].
Proof.
  apply (arguments_no_percent (chars " f(a, b); %>x") (chars " f(a, b); %") (chars ">x") 8 (chars "f"));
    vm_compute; reflexivity.
Defined.

Lemma nvram_get_no_markup_witness :
  exists out, ej_nvram_get demo_env [chars "name"] = Ret out /\ Forall (fun c => shown c = true) out.
Proof.
  destruct (nvram_get_no_markup demo_env (chars "name") []) as (out & Ho & Hs & _); [discriminate|].
  exists out. split; [exact Ho|exact Hs].
Defined.
