(* ===== verification/Forward.v ===== *)
(** * Port forwarding pages (src/router/shared/lib.c, forward.c)

    [Module Names]: names as they are kept in lists of words, with blanks and
    colons written as entities (filter_name), and the other functions of lib.c.
    [Module Forward]: the three pages that forward ports: ranges (forward_port),
    triggers (port_trigger) and single ports (upnp_content_<connection>_<i>); for
    each the validator that stores the rows of the form and the handler that
    shows the rows again. SPECIAL_FORWARD_SUPPORT and ADVANCED_FORWARD_SUPPORT
    are not set in this build. *)

From Stdlib Require Import ZArith Lia Ascii.
From stdpp Require Import base numbers sets gmap strings list.
From S2P Require Import Prelude CString Vars Validate Ej Pages.
Import Vars Validate.
Open Scope string_scope.
Open Scope Z_scope.
Open Scope list_scope.

Module Names.

Definition patterns : list (ascii * string) := [(" "%char, "&nbsp;"); (":"%char, "&semi;")].

(** The entity for a character, and the entity at the start of a text. *)
Definition entity_of (c : ascii) : option string := snd <$> (snd <$> list_find (fun v => fst v = c) patterns).
Definition entity_at (t : string) : option (ascii * string) :=
  snd <$> list_find (fun v => starts_with (snd v) t <> None) patterns.

Inductive direction := SET | GET.

(** The loop for SET: [new_name] has [size] bytes, and a text of [size]
    characters passes the test but leaves no place for its NUL. *)
Fixpoint filter_set (size : Z) (old_name new_name : string) : outcome string :=
  match old_name with
  | EmptyString => Ret new_name
  | String c old_name =>
      let piece := default (String c "") (entity_of c) in
      if size <? strlen new_name + strlen piece then Ret new_name
      else new_name ← fit size (new_name +:+ piece); filter_set size old_name new_name
  end.

(** The loop for GET: [passed] counts the characters of an entity that are still
    to be passed over. *)
Fixpoint filter_get (passed : nat) (old_name : string) : string :=
  match old_name with
  | EmptyString => EmptyString
  | String c rest =>
      match passed with
      | S passed => filter_get passed rest
      | O => match entity_at old_name with
             | Some (ch, e) => String ch (filter_get (String.length e - 1) rest)
             | None => String c (filter_get 0 rest)
             end
      end
  end.

(** What the [size] bytes of [new_name] hold afterwards; GET does not look at
    [size]. *)
Definition filter_name (old_name : string) (size : Z) (type : direction) : outcome string :=
  match type with
  | SET => filter_set size old_name ""
  | GET => fit size (filter_get 0 old_name)
  end.

Definition protocol_to_num (proto : string) : Z :=
  if bool_decide (proto = "icmp") then 1 else if bool_decide (proto = "tcp") then 6
  else if bool_decide (proto = "udp") then 17 else if bool_decide (proto = "both") then 23 else 0.
Definition num_to_protocol (num : Z) : string :=
  if num =? 1 then "icmp" else if num =? 6 then "tcp" else if num =? 17 then "udp"
  else if num =? 23 then "both" else "unknown".

Definition ej_get_web_page_name (e : Pages.env) (argv : list Ej.text) : outcome Ej.text :=
  Pages.write (default "index" (Pages.websGetVar e "submit_button") +:+ ".asp").
Definition ej_get_model_name (e : Pages.env) (argv : list Ej.text) : outcome Ej.text :=
  Pages.write (Pages.nvram_get e "router_name").
(** [OEM] is LINKSYS. *)
Definition ej_show_logo (e : Pages.env) (argv : list Ej.text) : outcome Ej.text := Ret [].

End Names.

Module Forward.
Import Names.

Definition FORWARDING_NUM : Z := 10.
Definition UPNP_FORWARDING_NUM : Z := 15.
Definition PORT_TRIGGER_NUM : Z := 10.

(** The entries of the local tables: a name of a length, a range. *)
Definition name_var (max : string) : variable := Variable_ "" None (Some [max]) false.
Definition port_var : variable := Variable_ "" None (Some ["0"; "65535"]) false.
Definition ip_var : variable := Variable_ "" None (Some ["0"; "254"]) false.

(** [snprintf] of a field name to the bytes of its literal. *)
Definition numbered (prefix : string) (i : Z) : string := buffer (String.length prefix + 4) (prefix +:+ dec i).

(** [!strcmp(t,"0") || !strcmp(t,"")] *)
Definition zero (t : string) : bool := bool_decide (t = "0") || bool_decide (t = "").

Section Form.
Context `{Driver} (form : gmap string string).
Local Notation websGetVar := (websGetVar form).

Definition field (prefix : string) (i : Z) (d : string) : string := default d (websGetVar (numbered prefix i)).

(** A name that is not empty is tested and written with entities; [None] when it
    is refused. *)
Definition check_name (max name : string) (p : page) : outcome (option string * page) :=
  if bool_decide (name = "") then Ret (Some "", p)
  else
    '(b, p) ← valid_name (name_var max) name p;
    if (b : bool) then new_name ← filter_name name 200 SET; Ret (Some new_name, p)
    else Ret (None, p).

(** [valid_range(a) && valid_range(b)]: the second is not tested after a refusal. *)
Definition valid_ports (a b : string) (p : page) : outcome (bool * page) :=
  '(ok, p) ← valid_range port_var a p;
  if (ok : bool) then valid_range port_var b p else Ret (false, p).

(** ** Ranges of ports *)

(** The text in [proto], which has ten bytes and no value at first. *)
Definition forward_proto (pro tcp udp : option string) : outcome string :=
  match pro, tcp, udp with
  | Some pro, _, _ => fit 10 pro
  | None, Some _, Some _ => Ret "both"
  | None, Some _, None => Ret "tcp"
  | None, None, Some _ => Ret "udp"
  | None, None, None => Fault
  end.

(** One turn of the loop: the words so far, [error] and the page. A row without an
    address is passed over, whatever else it holds. *)
Definition forward_turn (i : Z) (st : string * bool * page) : outcome (string * bool * page) :=
  let '(cur, error, p) := st in
  let name := field "name" i "" in
  let from := field "from" i "0" in
  let to := field "to" i "0" in
  let ip := field "ip" i "0" in
  let enable := field "enable" i "off" in
  if zero ip then Ret st else
  '(new_name, p) ← check_name "12" name p;
  match new_name with
  | None => Ret (cur, error, mk_page (nv p) true)
  | Some new_name =>
      let from := if bool_decide (from = "") then to else from in
      let to := if bool_decide (to = "") then from else to in
      let '(from, to) := if atoi to <? atoi from then (to, from) else (from, to) in
      '(ok, p) ← valid_ports from to p;
      if negb ok then Ret (cur, error, mk_page (nv p) true) else
      proto ← forward_proto (websGetVar (numbered "pro" i)) (websGetVar (numbered "tcp" i))
                (websGetVar (numbered "udp" i));
      '(ok, p) ← valid_range ip_var ip p;
      if negb ok then Ret (cur, true, p) else
      cur ← add_word 1000 cur (new_name +:+ ":" +:+ enable +:+ ":" +:+ proto +:+ ":" +:+
                               dec (atoi from) +:+ ":" +:+ dec (atoi to) +:+ ">" +:+ dec (atoi ip));
      Ret (cur, error, p)
  end.

Fixpoint turns {St} (turn : Z -> St -> outcome St) (l : list Z) (st : St) : outcome St :=
  match l with
  | [] => Ret st
  | i :: l => st ← turn i st; turns turn l st
  end.

(** The words are stored unless a row had an error. *)
Definition store_words (v : variable) (st : string * bool * page) : page :=
  let '(cur, error, p) := st in if (error : bool) then p else save (name v) (buffer 1000 cur) p.

Definition validate_forward_proto (v : variable) (p : page) : outcome page :=
  st ← turns forward_turn (seqZ 0 FORWARDING_NUM) ("", false, p); Ret (store_words v st).

(** ** Triggers *)

(** An end of a range that is missing is the other end; then the smaller comes
    first. *)
Definition port_range (a b : string) : string * string :=
  let a := if zero a then b else a in
  let b := if zero b then a else b in
  if atoi b <? atoi a then (b, a) else (a, b).

Definition trigger_turn (i : Z) (st : string * bool * page) : outcome (string * bool * page) :=
  let '(cur, error, p) := st in
  let name := field "name" i "" in
  let enable := field "enable" i "off" in
  match websGetVar (numbered "i_from" i), websGetVar (numbered "i_to" i),
        websGetVar (numbered "o_from" i), websGetVar (numbered "o_to" i) with
  | Some i_from, Some i_to, Some o_from, Some o_to =>
      if zero i_from && zero i_to && zero o_from && zero o_to then Ret st else
      let '(i_from, i_to) := port_range i_from i_to in
      let '(o_from, o_to) := port_range o_from o_to in
      '(new_name, p) ← check_name "12" name p;
      match new_name with
      | None => Ret (cur, true, p)
      | Some new_name =>
          '(ok, p) ← valid_ports i_from i_to p;
          '(ok, p) ← (if (ok : bool) then valid_ports o_from o_to p else Ret (false, p));
          if negb ok then Ret (cur, true, p) else
          cur ← add_word 1000 cur (new_name +:+ ":" +:+ enable +:+ ":both:" +:+ i_from +:+ "-" +:+ i_to +:+ ">" +:+
                                   o_from +:+ "-" +:+ o_to);
          Ret (cur, error, p)
      end
  | _, _, _, _ => Ret st
  end.

Definition validate_port_trigger (v : variable) (p : page) : outcome page :=
  st ← turns trigger_turn (seqZ 0 PORT_TRIGGER_NUM) ("", false, p); Ret (store_words v st).

(** ** Single ports *)

(** The names of the variables, in a buffer of 32 bytes. *)
Definition content_name (connection_index i : Z) : outcome string :=
  fit 32 ("upnp_content_" +:+ dec connection_index +:+ "_" +:+ dec i).
Definition count_name (connection_index : Z) : outcome string :=
  fit 32 ("upnp_content_num_" +:+ dec connection_index).

(** enable:proto:ext_port:int_port:int_ip:LeaseDuration:name *)
Definition content_text (enable i_proto ext_port int_port ip : Z) (new_name : string) : outcome string :=
  fit 256 (dec enable +:+ ":" +:+ dec i_proto +:+ ":" +:+ dec ext_port +:+ ":" +:+ dec int_port +:+ ":" +:+
           dec ip +:+ ":" +:+ dec 0 +:+ ":" +:+ new_name).

Definition upnp_proto (proto : string) : Z :=
  if strcasecmp_eq proto "tcp" then 1 else if strcasecmp_eq proto "udp" then 2 else 1.

(** One row: [tmp_count] and the page. *)
Definition upnp_turn (connection_index i : Z) (st : Z * page) : outcome (Z * page) :=
  let '(tmp_count, p) := st in
  let name := field "name" i "" in
  let ext_port := field "ext_port" i "0" in
  let i_proto := upnp_proto (field "protocol" i "") in
  let int_port := field "int_port" i "0" in
  let ip := field "ip" i "0" in
  let enable := field "enabled" i "0" in
  if zero ext_port && zero int_port && zero ip then Ret st else
  if bool_decide (name = "") then Ret st else
  '(new_name, p) ← check_name "128" name p;
  match new_name with
  | None => Ret (tmp_count, p)
  | Some new_name =>
      '(ok, p) ← valid_ports ext_port int_port p;
      if negb ok then Ret (tmp_count, p) else
      '(ok, p) ← valid_range ip_var ip p;
      if negb ok then Ret (tmp_count, p) else
      buf ← content_text (atoi enable) i_proto (atoi ext_port) (atoi int_port) (atoi ip) new_name;
      n ← content_name connection_index tmp_count;
      Ret (tmp_count + 1, save n buf p)
  end.

(** A variable behind the page moves down. *)
Definition move_turn (connection_index i : Z) (st : Z * page) : outcome (Z * page) :=
  let '(tmp_count, p) := st in
  n ← content_name connection_index i;
  let '(v, s) := nvram_get n (nv p) in
  buf ← fit 256 v;
  n ← content_name connection_index tmp_count;
  Ret (tmp_count + 1, save n buf (mk_page s (error_value p))).

Definition unset_turn (connection_index i : Z) (p : page) : outcome page :=
  n ← content_name connection_index i; Ret (mk_page (nvram_unset n (nv p)) (error_value p)).

(** [nvram_safe_get] of a variable of the page. *)
Definition get_var (n : string) (p : page) : string * page :=
  let '(v, s) := nvram_get n (nv p) in (v, mk_page s (error_value p)).

Definition validate_forward_upnp (p : page) : outcome page :=
  let '(c, p) := get_var "singleportforward_connection" p in
  let connection_index := atoi c in
  '(tmp_count, p) ← turns (upnp_turn connection_index) (seqZ 0 UPNP_FORWARDING_NUM) (0, p);
  num ← count_name connection_index;
  let '(n, p) := get_var num p in
  let i_count := atoi n in
  '(tmp_count, p) ←
    (if (UPNP_FORWARDING_NUM <? i_count) && (tmp_count <? UPNP_FORWARDING_NUM)
     then turns (move_turn connection_index) (seqZ UPNP_FORWARDING_NUM (i_count - UPNP_FORWARDING_NUM)) (tmp_count, p)
     else Ret (tmp_count, p));
  p ← turns (unset_turn connection_index) (seqZ tmp_count (i_count - tmp_count)) p;
  Ret (save num (dec tmp_count) p).
End Form.

(** ** Showing the rows *)

(** The loop over the words of a list: the word with number [which] is used; a
    word that gives nothing is passed over. *)
Section Lookup.
Context {A : Type} (use : string -> option A).
Fixpoint lookup_word (fuel : nat) (next : string) (which : Z) : outcome (option A) :=
  match fuel with
  | O => Running
  | S fuel =>
      let start := skip (is_char " ") next in
      let word := upto (is_char " ") start in
      if 256 <=? strlen word then Fault
      else if bool_decide (word = "") then Ret None
      else match (if which =? 0 then use word else None) with
           | Some a => Ret (Some a)
           | None => lookup_word fuel (from (is_char " ") start) (which - 1)
           end
  end.
End Lookup.

(** [b = a; a = strsep(&b, sep); if (!a || !b) continue;] *)
Definition cut (t : string) (sep : ascii) : option (string * string) :=
  let '(a, b) := strsep t sep in b ← b; Some (a, b).

Record forward_word := ForwardWord {
  w_name : string; w_enable : string; w_proto : string; w_from : string; w_to : string; w_ip : string
}.
Definition split_forward_word (word : string) : option forward_word :=
  '(name, enable) ← cut word ":";
  '(enable, proto) ← cut enable ":";
  '(proto, from) ← cut proto ":";
  '(from, to) ← cut from ":";
  '(to, ip) ← cut to ">";
  Some (ForwardWord name enable proto from to ip).

Definition when (b : bool) (t : string) : string := if b then t else "".

(** What is written for a word; [None] when [type] is none of these. *)
Definition show_forward (type : string) (w : forward_word) : option (outcome string) :=
  let ty := fun t => bool_decide (type = t) in
  let proto := fun t => bool_decide (w_proto w = t) in
  if ty "name" then Some (filter_name (w_name w) 200 GET)
  else if ty "from" then Some (Ret (w_from w))
  else if ty "to" then Some (Ret (w_to w))
  else if ty "tcp" then Some (Ret (when (negb (proto "udp")) "checked"))
  else if ty "udp" then Some (Ret (when (negb (proto "tcp")) "checked"))
  else if ty "sel_tcp" then Some (Ret (when (negb (proto "udp")) "selected"))
  else if ty "sel_udp" then Some (Ret (when (negb (proto "tcp")) "selected"))
  else if ty "sel_both" then Some (Ret (when (proto "both") "selected"))
  else if ty "ip" then Some (Ret (w_ip w))
  else if ty "enable" then Some (Ret (when (bool_decide (w_enable w = "on")) "checked"))
  else None.

Definition no_forward (type : string) : string :=
  let ty := fun t => bool_decide (type = t) in
  if ty "from" || ty "to" || ty "ip" then "0" else if ty "sel_both" then "selected" else "".

Definition ej_port_forward_table (e : Pages.env) (argv : list Ej.text) : outcome Ej.text :=
  match Ej.ejArgs argv (Ej.chars "%s %d") with
  | [Ej.EStr type; Ej.EInt which] =>
      let type := Pages.str type in
      let wordlist := Pages.nvram_get e "forward_port" in
      r ← lookup_word (fun word => split_forward_word word ≫= show_forward type)
            (S (String.length wordlist)) wordlist which;
      match r with
      | Some t => t ← t; Pages.write t
      | None => Pages.write (no_forward type)
      end
  | _ => Pages.too_few
  end.

Record trigger_word := TriggerWord {
  t_name : string; t_enable : string; t_proto : string;
  t_i_from : string; t_i_to : string; t_o_from : string; t_o_to : string
}.
Definition split_trigger_word (word : string) : option trigger_word :=
  '(name, enable) ← cut word ":";
  '(enable, proto) ← cut enable ":";
  '(proto, i_from) ← cut proto ":";
  '(i_from, i_to) ← cut i_from "-";
  '(i_to, o_from) ← cut i_to ">";
  '(o_from, o_to) ← cut o_from "-";
  Some (TriggerWord name enable proto i_from i_to o_from o_to).

Definition show_trigger (type : string) (w : trigger_word) : option (outcome string) :=
  let ty := fun t => bool_decide (type = t) in
  let proto := fun t => bool_decide (t_proto w = t) in
  if ty "name" then if bool_decide (t_name w = "") then None else Some (filter_name (t_name w) 200 GET)
  else if ty "enable" then Some (Ret (when (bool_decide (t_enable w = "on")) "checked"))
  else if ty "sel_tcp" then Some (Ret (when (negb (proto "udp")) "selected"))
  else if ty "sel_udp" then Some (Ret (when (negb (proto "tcp")) "selected"))
  else if ty "sel_both" then Some (Ret (when (proto "both") "selected"))
  else if ty "i_from" then Some (Ret (t_i_from w))
  else if ty "i_to" then Some (Ret (t_i_to w))
  else if ty "o_from" then Some (Ret (t_o_from w))
  else if ty "o_to" then Some (Ret (t_o_to w))
  else None.

Definition ej_port_trigger_table (e : Pages.env) (argv : list Ej.text) : outcome Ej.text :=
  match Ej.ejArgs argv (Ej.chars "%s %d") with
  | [Ej.EStr type; Ej.EInt which] =>
      let type := Pages.str type in
      let wordlist := Pages.nvram_get e "port_trigger" in
      r ← lookup_word (fun word => split_trigger_word word ≫= show_trigger type)
            (S (String.length wordlist)) wordlist which;
      match r with
      | Some t => t ← t; Pages.write t
      | None => Pages.write (if bool_decide (type = "name") then "" else "0")
      end
  | _ => Pages.too_few
  end.

(** Reading "%d:...:%d:%s" with [n] numbers: those found, and the last text. *)
Fixpoint scan_content (n : nat) (s : string) : list Z * option string :=
  match n with
  | O => ([], match skip isspace s with EmptyString => None | t => Some (upto isspace t) end)
  | S n =>
      let '(v, e) := strtol s 10 in
      if bool_decide (e = s) then ([], None)
      else match e with
           | String ":" e => let '(l, t) := scan_content n e in (v :: l, t)
           | _ => ([v], None)
           end
  end.

Definition show_content (type upnp_content : string) : outcome string :=
  let '(n, t) := scan_content 6 upnp_content in
  let ty := fun t => strcasecmp_eq type t in
  new_name ← filter_name (default " " t) 128 GET;
  Ret (if ty "ext_port" then dec (nth 2 n 0)
       else if ty "name" then new_name
       else if ty "sel_tcp" then when (negb (nth 1 n 0 =? 2)) "selected"
       else if ty "sel_udp" then when (negb (nth 1 n 0 =? 1)) "selected"
       else if ty "int_port" then dec (nth 3 n 0)
       else if ty "ip" then dec (nth 4 n 0)
       else if ty "enabled" then when (negb (nth 0 n 0 =? 0)) "checked"
       else " ").

Definition ej_forward_upnp (e : Pages.env) (argv : list Ej.text) : outcome Ej.text :=
  match Ej.ejArgs argv (Ej.chars "%s %d") with
  | [Ej.EStr type; Ej.EInt which] =>
      let type := Pages.str type in
      let pvc_connection := atoi (Pages.nvram_get e "singleportforward_connection") in
      num ← count_name pvc_connection;
      if atoi (Pages.nvram_get e num) <=? which then Ret [] else
      tmp_name ← content_name pvc_connection which;
      let v := Pages.nvram_get e tmp_name in
      if bool_decide (v = "") then
        if bool_decide (type = "ext_port") || bool_decide (type = "int_port") || bool_decide (type = "ip")
        then Pages.write "0" else Ret []
      else
      upnp_content ← fit 256 v;
      if bool_decide (upnp_content = tmp_name) then Ret [] else
      if 10 <? strlen upnp_content then t ← show_content type upnp_content; Pages.write t
      else Pages.write " "
  | _ => Pages.too_few
  end.

End Forward.
