(* ===== verification/ForwardProofs.v ===== *)
(** * Proofs about the port forwarding pages

    A name written with entities is read back; the rows of a form that are
    stored are the rows the page shows; the numbered variables of the single
    ports are kept as a list without gaps. *)

From Stdlib Require Import ZArith Lia Ascii.
From stdpp Require Import base numbers sets gmap strings list.
From S2P Require Import Prelude CString NvramDrv Nvram Vars TextProofs NvparseProofs Validate ValidateProofs.
From S2P Require Import Ej Pages Forward.
Import Vars Validate Names Forward.
Import NvparseProofs(storable, unmirrored, mirror_none, nvram_set_effect).
Import ValidateProofs(text_of, text_of_snoc).
Open Scope string_scope.
Open Scope Z_scope.
Open Scope list_scope.

Module ForwardProofs.

(** ** Names *)

(** The text with every blank and colon as an entity. *)
Fixpoint escape (t : string) : string :=
  match t with
  | EmptyString => EmptyString
  | String c t => default (String c "") (entity_of c) +:+ escape t
  end.

(** No entity starts anywhere in the text. *)
Fixpoint no_entity (t : string) : bool :=
  match t with
  | EmptyString => true
  | String _ r => bool_decide (entity_at t = None) && no_entity r
  end.

Lemma entity_cases c : entity_of c = None \/ c = " "%char /\ entity_of c = Some "&nbsp;" \/
  c = ":"%char /\ entity_of c = Some "&semi;".
Proof. destruct c as [[] [] [] [] [] [] [] []]; (by left) || (right; by left) || (right; by right). Qed.

Lemma piece_length c : 1 <= strlen (default (String c "") (entity_of c)) <= 6.
Proof. destruct (entity_cases c) as [E|[[_ E]|[_ E]]]; rewrite E; by vm_compute. Qed.

Lemma escape_length t : strlen (escape t) <= 6 * strlen t.
Proof.
  induction t as [|c t IH]; [done|]. cbn [escape]. rewrite strlen_app, strlen_cons.
  pose proof (piece_length c). lia.
Qed.

Lemma filter_set_escape size old : forall new, strlen new + strlen (escape old) < size ->
  filter_set size old new = Ret (new +:+ escape old).
Proof.
  induction old as [|c old IH]; intros new Hs; cbn [filter_set escape].
  - by rewrite string_app_nil_r.
  - cbn [escape] in Hs. rewrite strlen_app in Hs. pose proof (strlen_nonneg (escape old)).
    rewrite (proj2 (Z.ltb_ge _ _)) by lia. unfold fit. rewrite strlen_app, (proj2 (Z.leb_gt _ _)) by lia.
    cbn [mbind outcome_bind]. rewrite IH by (rewrite strlen_app; lia). by rewrite string_app_assoc.
Qed.

(** An entity at the start of an escaped text was there before, unless its first
    character was escaped. *)
Lemma starts_escape e : avoids (is_char "&") e = true -> forall t r,
  starts_with e (escape t) = Some r -> starts_with e t <> None.
Proof.
  induction e as [|a e IH]; [done|]. intros [Ha He]%avoids_cons [|c t] r; [done|]. cbn [escape].
  destruct (entity_cases c) as [E|[[-> E]|[-> E]]]; rewrite E; cbn [default from_option id].
  - change (String c "" +:+ escape t) with (String c (escape t)). cbn [starts_with].
    case_bool_decide; [|done]. by apply IH.
  - change ("&nbsp;" +:+ escape t) with (String "&" ("nbsp;" +:+ escape t)). cbn [starts_with].
    rewrite bool_decide_eq_false_2; [done|]. by intros ->.
  - change ("&semi;" +:+ escape t) with (String "&" ("semi;" +:+ escape t)). cbn [starts_with].
    rewrite bool_decide_eq_false_2; [done|]. by intros ->.
Qed.

Lemma entity_at_None t : entity_at t = None <->
  starts_with "&nbsp;" t = None /\ starts_with "&semi;" t = None.
Proof.
  unfold entity_at, patterns. cbn [list_find fst snd]. destruct (starts_with "&nbsp;" t), (starts_with "&semi;" t);
    repeat case_decide; cbn; split; try done; (by intros []) || congruence.
Qed.

Lemma entity_at_plain c t : entity_of c = None -> entity_at (String c t) = None ->
  entity_at (String c (escape t)) = None.
Proof.
  rewrite !entity_at_None. intros _ [H1 H2].
  split; [clear H2; rename H1 into Hn|clear H1; rename H2 into Hn]; revert Hn; cbn [starts_with];
    case_bool_decide; try done; intros Hn.
  - destruct (starts_with "nbsp;" (escape t)) as [r|] eqn:E; [|exact E].
    by apply (starts_escape "nbsp;" eq_refl) in E.
  - destruct (starts_with "semi;" (escape t)) as [r|] eqn:E; [|exact E].
    by apply (starts_escape "semi;" eq_refl) in E.
Qed.

Lemma filter_get_escape t : no_entity t = true -> filter_get 0 (escape t) = t.
Proof.
  induction t as [|c t IH]; [done|]. cbn [no_entity]. intros [Hn%bool_decide_eq_true_1 Ht]%andb_prop.
  cbn [escape]. destruct (entity_cases c) as [E|[[-> E]|[-> E]]]; rewrite E; cbn [default from_option id].
  - change (String c "" +:+ escape t) with (String c (escape t)). cbn [filter_get].
    rewrite entity_at_plain by done. f_equal. by apply IH.
  - change (filter_get 0 ("&nbsp;" +:+ escape t)) with (String " " (filter_get 0 (escape t))). f_equal. by apply IH.
  - change (filter_get 0 ("&semi;" +:+ escape t)) with (String ":" (filter_get 0 (escape t))). f_equal. by apply IH.
Qed.

Lemma escape_avoids p t : (forall c, p c = true -> c = " "%char \/ c = ":"%char) -> avoids p (escape t) = true.
Proof.
  intros Hp. induction t as [|c t IH]; [done|]. cbn [escape]. rewrite avoids_app, IH, andb_true_r.
  assert (forall d, d <> " "%char -> d <> ":"%char -> p d = false) as Hd.
  { intros d H1 H2. destruct (p d) eqn:E; [|done]. by destruct (Hp d E). }
  destruct (entity_cases c) as [E|[[-> E]|[-> E]]]; rewrite E; cbn [default from_option id];
    rewrite !avoids_cons; repeat (split; [by apply Hd|]); try done.
  split; [|done]. apply Hd; by intros ->.
Qed.

(** ** Lists of words *)

Definition is_word (w : string) : Prop := w <> "" /\ avoids (is_char " ") w = true /\ strlen w < 256.

(** What follows the first word. *)
Fixpoint more_words (ws : list string) : string :=
  match ws with [] => "" | w :: ws => " " +:+ w +:+ more_words ws end.

Lemma text_of_from ws : forall cur, cur <> "" ->
  foldl (fun cur w => cur +:+ (if bool_decide (cur = "") then "" else " ") +:+ w) cur ws = cur +:+ more_words ws.
Proof.
  induction ws as [|w ws IH]; intros cur Hc; cbn [foldl more_words]; [by rewrite string_app_nil_r|].
  rewrite bool_decide_eq_false_2 by done. rewrite IH; [by rewrite !string_app_assoc|].
  destruct cur; [done|]. done.
Qed.

Lemma text_of_cons w ws : w <> "" -> text_of (w :: ws) = w +:+ more_words ws.
Proof. intros Hw. unfold text_of. cbn [foldl]. rewrite bool_decide_eq_true_2 by done. by apply text_of_from. Qed.

Lemma text_of_length B ws : Forall (fun w => strlen w <= B) ws -> 0 <= B ->
  strlen (text_of ws) <= (B + 1) * Z.of_nat (length ws).
Proof.
  intros Hws HB. induction ws as [|w ws IH] using rev_ind; [change (0 <= (B + 1) * 0); lia|].
  apply Forall_app in Hws as [Hws Hw]. rewrite Forall_singleton in Hw. rewrite text_of_snoc, length_app, !strlen_app.
  specialize (IH Hws). cbn [length]. assert (strlen (if bool_decide (text_of ws = "") then "" else " ") <= 1) as H1
    by (case_bool_decide; by vm_compute). nia.
Qed.

(** The first word, and what follows it. *)
Lemma word_cut w ws : avoids (is_char " ") w = true ->
  upto (is_char " ") (w +:+ more_words ws) = w /\ from (is_char " ") (w +:+ more_words ws) = more_words ws.
Proof.
  intros Hb. destruct ws as [|x ws]; cbn [more_words].
  - rewrite string_app_nil_r. by apply cut_none.
  - change (" " +:+ x +:+ more_words ws) with (String " " (x +:+ more_words ws)). by apply cut_at.
Qed.

Section Words.
Context {A : Type} (use : string -> option A).

Lemma lookup_word_step fuel w ws which : is_word w ->
  lookup_word use (S fuel) (w +:+ more_words ws) which =
  match (if which =? 0 then use w else None) with
  | Some a => Ret (Some a)
  | None => lookup_word use fuel (more_words ws) (which - 1)
  end.
Proof.
  intros (Hw & Hb & Hl). cbn [lookup_word].
  assert (skip (is_char " ") (w +:+ more_words ws) = w +:+ more_words ws) as ->.
  { destruct w as [|c w]; [done|]. apply avoids_cons in Hb as [Hc _]. by apply skip_none. }
  destruct (word_cut w ws Hb) as [-> ->].
  rewrite (proj2 (Z.leb_gt _ _)) by lia. by rewrite bool_decide_eq_false_2.
Qed.

Lemma lookup_word_blank fuel ws which :
  lookup_word use fuel (more_words ws) which = lookup_word use fuel (match ws with [] => "" | w :: ws => w +:+ more_words ws end) which.
Proof.
  destruct fuel; [done|]. destruct ws as [|w ws]; [done|]. cbn [more_words].
  change (" " +:+ w +:+ more_words ws) with (String " " (w +:+ more_words ws)). cbn [lookup_word]. done.
Qed.

(** The word with number [which] is used, if there is one. *)
Lemma lookup_words ws : Forall is_word ws -> forall fuel which, (length ws < fuel)%nat ->
  lookup_word use fuel (match ws with [] => "" | w :: ws => w +:+ more_words ws end) which =
  Ret (if which <? 0 then None else ws !! Z.to_nat which ≫= use).
Proof.
  induction 1 as [|w ws Hw Hws IH]; intros [|fuel] which Hf; cbn [length] in Hf; try lia.
  - cbn. destruct (which <? 0); [done|]. by rewrite lookup_nil.
  - rewrite lookup_word_step, lookup_word_blank, IH by (done || lia). destruct (Z.eqb_spec which 0) as [->|Hn].
    + change ((w :: ws) !! Z.to_nat 0) with (Some w). cbn [mbind option_bind]. change (0 <? 0) with false. cbn iota. destruct (use w); done.
    + destruct (Z.ltb_spec which 0); [by rewrite (proj2 (Z.ltb_lt _ _)) by lia|].
      rewrite (proj2 (Z.ltb_ge _ _)) by lia. replace (Z.to_nat which) with (S (Z.to_nat (which - 1))) by lia. done.
Qed.

Lemma more_words_length ws : Forall is_word ws -> (length ws <= String.length (more_words ws))%nat.
Proof.
  induction 1 as [|w ws Hw _ IH]; [done|]. cbn [more_words length]. rewrite !slength_app. cbn. lia.
Qed.

Lemma lookup_text ws which : Forall is_word ws ->
  lookup_word use (S (String.length (text_of ws))) (text_of ws) which =
  Ret (if which <? 0 then None else ws !! Z.to_nat which ≫= use).
Proof.
  intros Hws. destruct ws as [|w ws].
  - change (text_of []) with "". apply (lookup_words [] Hws). cbn. lia.
  - inversion Hws as [|? ? Hw Hs]; subst. rewrite text_of_cons by apply Hw. apply (lookup_words (w :: ws) Hws).
    pose proof (more_words_length ws Hs) as Hl. rewrite slength_app. destruct w; [by destruct Hw|]. cbn [length String.length]. lia.
Qed.
End Words.

(** ** Tests of fields *)

Lemma dec_loop_length k : forall f z acc, 0 <= z < 10 ^ Z.of_nat (S k) ->
  strlen (dec_loop f z acc) <= Z.of_nat (S k) + strlen acc.
Proof.
  induction k as [|k IH]; intros [|f] z acc Hz; cbn [dec_loop]; try lia.
  - rewrite (proj2 (Z.ltb_lt _ _)) by (change (10 ^ Z.of_nat 1) with 10 in Hz; lia). rewrite strlen_cons. lia.
  - destruct (z <? 10) eqn:E; [rewrite strlen_cons; lia|]. etransitivity; [apply IH|rewrite strlen_cons; lia].
    rewrite Nat2Z.inj_succ, Z.pow_succ_r in Hz by lia. Z.to_euclidean_division_equations; lia.
Qed.

Lemma dec_digits_length k z : 0 <= z < 10 ^ Z.of_nat (S k) -> strlen (dec z) <= Z.of_nat (S k).
Proof.
  intros Hz. unfold dec. rewrite (proj2 (Z.ltb_ge _ _)) by lia. pose proof (dec_loop_length k 12 z "" Hz) as Hl.
  change (strlen "") with 0 in Hl. lia.
Qed.

Definition is_number (lo hi : Z) (t : string) : bool := ISDIGIT t true && (lo <=? atoi t) && (atoi t <=? hi).

Lemma valid_range_number lo hi a b v t p : argv v = Some [a; b] -> atoi a = lo -> atoi b = hi ->
  valid_range v t p = Ret (tested (is_number lo hi t) p).
Proof.
  intros Hv <- <-. unfold valid_range, arg. rewrite Hv. cbn [default from_option id].
  change ([a; b] !! 0%nat) with (Some a). change ([a; b] !! 1%nat) with (Some b). cbn [deref mbind outcome_bind].
  unfold is_number. by rewrite !negb_orb, negb_involutive, !Z.leb_antisym.
Qed.

Lemma number_range lo hi t : is_number lo hi t = true -> lo <= atoi t <= hi.
Proof. unfold is_number. rewrite !andb_true_iff, !Z.leb_le. tauto. Qed.

Definition good_name (max : Z) (t : string) : bool :=
  bool_decide (t = "") || chars_all isascii t && (strlen t <=? max).

Lemma good_name_length max t : 0 <= max -> good_name max t = true -> strlen t <= max.
Proof.
  unfold good_name. intros Hm [->%bool_decide_eq_true_1|[_ Hl%Z.leb_le]%andb_prop]%orb_prop; done.
Qed.

Lemma check_name_spec a max name p : atoi a = max -> 0 <= max < 2 ^ 32 -> (good_name max name = true -> strlen (escape name) < 200) ->
  check_name a name p =
  Ret (if good_name max name then Some (escape name) else None, if good_name max name then p else report p).
Proof.
  intros Ha Hm Hs. unfold check_name, good_name. case_bool_decide as Hn; [by subst|]. cbn [orb].
  unfold valid_name, arg, name_var. cbn [argv default from_option id].
  change ([a] !! 0%nat) with (Some a). cbn [deref mbind outcome_bind]. rewrite Ha.
  unfold u32. rewrite Z.mod_small by lia. unfold ISASCII. rewrite bool_decide_eq_false_2 by done.
  rewrite <- Z.leb_antisym. destruct (chars_all isascii name && (strlen name <=? max)) eqn:E; [|done].
  cbn [tested filter_name]. rewrite filter_set_escape; [done|]. change (strlen "") with 0.
  unfold good_name in Hs. rewrite bool_decide_eq_false_2, E in Hs by done. by apply Hs.
Qed.

Lemma valid_ports_spec a b p :
  valid_ports a b p = Ret (tested (is_number 0 65535 a && is_number 0 65535 b) p).
Proof.
  unfold valid_ports. rewrite !(valid_range_number 0 65535 "0" "65535") by done.
  cbn [mbind outcome_bind]. destruct (is_number 0 65535 a); [|done]. cbn [tested].
  by rewrite (valid_range_number 0 65535 "0" "65535").
Qed.

(** ** Ranges of ports *)

(** A row as it is kept. *)
Record entry := Entry {
  e_name : string; e_on : bool; e_proto : string; e_from : Z; e_to : Z; e_ip : Z
}.

Definition is_entry (e : entry) : Prop :=
  no_entity (e_name e) = true /\ strlen (e_name e) <= 12 /\ e_proto e ∈ ["tcp"; "udp"; "both"] /\
  0 <= e_from e <= e_to e /\ e_to e <= 65535 /\ 0 <= e_ip e <= 254.

Definition on_off (b : bool) : string := if b then "on" else "off".
Definition entry_word (e : entry) : string :=
  escape (e_name e) +:+ ":" +:+ on_off (e_on e) +:+ ":" +:+ e_proto e +:+ ":" +:+
  dec (e_from e) +:+ ":" +:+ dec (e_to e) +:+ ">" +:+ dec (e_ip e).

Lemma cut_field a c r : avoids (is_char c) a = true -> cut (a +:+ String c "" +:+ r) c = Some (a, r).
Proof.
  intros Ha. unfold cut, strsep. change (String c "" +:+ r) with (String c r).
  assert (is_char c c = true) as Hc by (unfold is_char; by apply bool_decide_eq_true_2).
  by destruct (cut_at (is_char c) a c r Ha Hc) as [-> ->].
Qed.

Lemma digit_not c d : isdigit c = false -> isdigit d = true -> is_char c d = false.
Proof. intros Hc Hd. unfold is_char. apply bool_decide_eq_false_2. intros ->. by rewrite Hd in Hc. Qed.

Lemma dec_avoids_char c z : isdigit c = false -> 0 <= z -> avoids (is_char c) (dec z) = true.
Proof. intros Hc. apply dec_avoids. intros d. by apply digit_not. Qed.

Lemma escape_avoids_char c t : c = " "%char \/ c = ":"%char -> avoids (is_char c) (escape t) = true.
Proof.
  intros Hc. apply escape_avoids. unfold is_char. intros d Hd%bool_decide_eq_true_1. by subst d.
Qed.

Lemma on_off_avoids c b : one_of "onf" c = false -> avoids (is_char c) (on_off b) = true.
Proof. destruct b, c as [[] [] [] [] [] [] [] []]; done. Qed.
Lemma proto_avoids c t : t ∈ ["tcp"; "udp"; "both"] -> one_of "tcpudboh" c = false -> avoids (is_char c) t = true.
Proof. intros Ht. repeat (apply elem_of_cons in Ht as [->|Ht]); [..|by apply not_elem_of_nil in Ht];
  destruct c as [[] [] [] [] [] [] [] []]; done. Qed.

#[local] Hint Resolve dec_avoids_char escape_avoids_char on_off_avoids proto_avoids : words.

Lemma avoids_app_intro p a b : avoids p a = true -> avoids p b = true -> avoids p (a +:+ b) = true.
Proof. intros Ha Hb. by rewrite avoids_app, Ha, Hb. Qed.

Lemma entry_split e : is_entry e -> split_forward_word (entry_word e) =
  Some (ForwardWord (escape (e_name e)) (on_off (e_on e)) (e_proto e) (dec (e_from e)) (dec (e_to e)) (dec (e_ip e))).
Proof.
  intros (_ & _ & Hp & Hf & _ & _). unfold split_forward_word, entry_word.
  repeat (rewrite cut_field by (auto with words || (apply dec_avoids_char; [done|lia])); cbn [mbind option_bind]). done.
Qed.

Lemma entry_is_word e : is_entry e -> is_word (entry_word e) /\ strlen (entry_word e) <= 97.
Proof.
  intros (_ & Hn & Hp & Hf & Ht & Hi).
  assert (strlen (entry_word e) <= 97) as Hl.
  { unfold entry_word. rewrite !strlen_app. change (strlen ":") with 1. change (strlen ">") with 1.
    pose proof (escape_length (e_name e)). pose proof (dec_digits_length 4 (e_from e) ltac:(lia)).
    pose proof (dec_digits_length 4 (e_to e) ltac:(lia)). pose proof (dec_digits_length 2 (e_ip e) ltac:(lia)).
    assert (strlen (on_off (e_on e)) <= 3) by (destruct (e_on e); by vm_compute).
    assert (strlen (e_proto e) <= 4).
    { repeat (apply elem_of_cons in Hp as [->|Hp]); [by vm_compute..|by apply not_elem_of_nil in Hp]. }
    lia. }
  split; [split; [|split]|done].
  - unfold entry_word. intros E%(f_equal strlen). rewrite !strlen_app in E. change (strlen ":") with 1 in E.
    change (strlen "") with 0 in E. unfold strlen in E. lia.
  - unfold entry_word. repeat apply avoids_app_intro; auto with words; apply dec_avoids_char; done || lia.
  - lia.
Qed.

(** What becomes of a row of the form: it is empty, or left out with a report, or
    the whole page is refused, or it is kept. *)
Inductive row := Nothing | Dropped | Refused | Kept (e : entry).

Section Ranges.
Context `{Driver} (form : gmap string string).

Definition row_proto (i : Z) : string :=
  match websGetVar form (numbered "pro" i), websGetVar form (numbered "tcp" i), websGetVar form (numbered "udp" i) with
  | Some pro, _, _ => pro
  | None, Some _, Some _ => "both"
  | None, Some _, None => "tcp"
  | None, None, _ => "udp"
  end.

(** The ends of the range, the smaller first; a missing end is the other one. *)
Definition row_range (i : Z) : string * string :=
  let from := field form "from" i "0" in
  let to := field form "to" i "0" in
  let from' := if bool_decide (from = "") then to else from in
  let to' := if bool_decide (to = "") then from' else to in
  if atoi to' <? atoi from' then (to', from') else (from', to').

Definition forward_row (i : Z) : row :=
  let name := field form "name" i "" in
  let ip := field form "ip" i "0" in
  if zero ip then Nothing
  else if negb (good_name 12 name) then Dropped
  else if negb (is_number 0 65535 (row_range i).1 && is_number 0 65535 (row_range i).2) then Dropped
  else if negb (is_number 0 254 ip) then Refused
  else Kept (Entry name (bool_decide (field form "enable" i "off" = "on")) (row_proto i)
               (atoi (row_range i).1) (atoi (row_range i).2) (atoi ip)).

(** What the page of the router sends: a protocol is chosen, a row is on or off,
    and the name holds no entity. *)
Definition sane_row (i : Z) : Prop :=
  zero (field form "ip" i "0") = false ->
  no_entity (field form "name" i "") = true /\ field form "enable" i "off" ∈ ["on"; "off"] /\
  row_proto i ∈ ["tcp"; "udp"; "both"] /\
  (websGetVar form (numbered "pro" i) <> None \/ websGetVar form (numbered "tcp" i) <> None \/
   websGetVar form (numbered "udp" i) <> None).

Lemma forward_proto_spec i : row_proto i ∈ ["tcp"; "udp"; "both"] ->
  (websGetVar form (numbered "pro" i) <> None \/ websGetVar form (numbered "tcp" i) <> None \/
   websGetVar form (numbered "udp" i) <> None) ->
  forward_proto (websGetVar form (numbered "pro" i)) (websGetVar form (numbered "tcp" i))
    (websGetVar form (numbered "udp" i)) = Ret (row_proto i).
Proof.
  unfold row_proto, forward_proto. destruct (websGetVar form (numbered "pro" i)) as [t|].
  - intros Ht _. repeat (apply elem_of_cons in Ht as [->|Ht]); [done..|by apply not_elem_of_nil in Ht].
  - destruct (websGetVar form (numbered "tcp" i)), (websGetVar form (numbered "udp" i)); naive_solver.
Qed.

Lemma kept_is_entry i e : sane_row i -> forward_row i = Kept e -> is_entry e.
Proof.
  unfold sane_row, forward_row. destruct (zero _); [done|]. intros Hs. destruct (Hs eq_refl) as (Hn & _ & Hp & _).
  destruct (good_name _ _) eqn:Hg; [|done]. apply good_name_length in Hg; [|lia].
  assert (atoi (row_range i).1 <= atoi (row_range i).2) as Ho.
  { unfold row_range. destruct (_ <? _) eqn:E; cbn [fst snd]; [apply Z.ltb_lt in E|apply Z.ltb_ge in E]; lia. }
  destruct (is_number _ _ (row_range i).1) eqn:H1; [|done]. destruct (is_number _ _ (row_range i).2) eqn:H2; [|done].
  destruct (is_number _ _ (field form "ip" i "0")) eqn:H3; [|done]. apply number_range in H1, H2, H3.
  intros [= <-]. unfold is_entry. cbn [e_name e_on e_proto e_from e_to e_ip negb andb]. lia || split_and!; done || lia.
Qed.

Definition reports (r : row) : bool := match r with Dropped | Refused => true | _ => false end.
Definition refuses (r : row) : bool := match r with Refused => true | _ => false end.
Definition kept (r : row) : list entry := match r with Kept e => [e] | _ => [] end.

Lemma forward_turn_spec i ws error p : sane_row i -> strlen (text_of ws) <= 1000 ->
  forward_turn form i (text_of ws, error, p) =
  Ret (text_of (ws ++ (entry_word <$> kept (forward_row i))), error || refuses (forward_row i),
       if reports (forward_row i) then report p else p).
Proof.
  intros Hs Hl. unfold forward_turn. cbv zeta. unfold sane_row, forward_row in *.
  destruct (zero (field form "ip" i "0")); cbn [kept refuses reports fmap list_fmap]; [by rewrite app_nil_r, orb_false_r|].
  destruct (Hs eq_refl) as (Hn & He & Hp & Hpr). clear Hs.
  rewrite (check_name_spec "12" 12); [|done|lia|]; last first.
  { intros Hg%good_name_length; [|lia]. pose proof (escape_length (field form "name" i "")). lia. }
  cbn [mbind outcome_bind]. destruct (good_name 12 (field form "name" i ""));
    cbn [negb kept refuses reports fmap list_fmap]; [|by rewrite app_nil_r, orb_false_r].
  fold (row_range i). destruct (row_range i) as [from to]. rewrite valid_ports_spec. cbn [mbind outcome_bind fst snd].
  destruct (is_number 0 65535 from && is_number 0 65535 to);
    cbn [tested negb kept refuses reports fmap list_fmap]; [|by rewrite app_nil_r, orb_false_r].
  rewrite forward_proto_spec by done. cbn [mbind outcome_bind].
  rewrite (valid_range_number 0 254 "0" "254") by done. cbn [mbind outcome_bind].
  destruct (is_number 0 254 (field form "ip" i "0"));
    cbn [tested negb kept refuses reports fmap list_fmap]; [|by rewrite app_nil_r, orb_true_r].
  unfold add_word. rewrite (proj2 (Z.ltb_ge _ _)) by lia. cbn [mbind outcome_bind].
  rewrite text_of_snoc, orb_false_r. do 4 f_equal. unfold entry_word. cbn [e_name e_on e_proto e_from e_to e_ip].
  do 2 f_equal. unfold on_off. apply elem_of_cons in He as [->|He]; [done|]. by apply list_elem_of_singleton in He as ->.
Qed.
Definition entries_of (l : list Z) : list entry := mjoin ((fun i => kept (forward_row i)) <$> l).
Definition entries : list entry := entries_of (seqZ 0 FORWARDING_NUM).

Lemma forward_turns l : Forall sane_row l -> forall ws error p,
  Forall (fun w => strlen w <= 97) ws -> (length ws + length l <= 10)%nat ->
  turns (forward_turn form) l (text_of ws, error, p) =
  Ret (text_of (ws ++ (entry_word <$> entries_of l)), error || existsb (fun i => refuses (forward_row i)) l,
       if existsb (fun i => reports (forward_row i)) l then report p else p).
Proof.
  induction 1 as [|i l Hi _ IH]; intros ws error p Hws Hlen; cbn [turns existsb].
  - change (entry_word <$> entries_of []) with (@nil string). by rewrite app_nil_r, orb_false_r.
  - cbn [length] in Hlen. pose proof (text_of_length 97 ws Hws ltac:(lia)).
    rewrite forward_turn_spec by (done || lia). cbn [mbind outcome_bind]. rewrite IH.
    + rewrite <- app_assoc, <- fmap_app. change (kept (forward_row i) ++ entries_of l) with (entries_of (i :: l)).
      rewrite <- orb_assoc. do 2 f_equal. destruct (reports (forward_row i)); [|done]. cbn [orb]. case_match; reflexivity.
    + apply Forall_app. split; [done|]. destruct (forward_row i) as [| | |e] eqn:E; cbn [kept fmap list_fmap]; try constructor; [|done].
      by apply entry_is_word, (kept_is_entry i).
    + rewrite length_app, length_fmap. assert (length (kept (forward_row i)) <= 1)%nat by (destruct (forward_row i); cbn; lia). lia.
Qed.

Lemma entries_ok l : Forall sane_row l -> Forall is_entry (entries_of l).
Proof.
  induction 1 as [|i l Hi _ IH]; [constructor|]. change (entries_of (i :: l)) with (kept (forward_row i) ++ entries_of l).
  apply Forall_app. split; [|done]. destruct (forward_row i) eqn:E; try constructor; [|done]. by apply (kept_is_entry i).
Qed.

Lemma entries_short l : (length (entries_of l) <= length l)%nat.
Proof.
  induction l as [|i l IH]; [done|]. change (entries_of (i :: l)) with (kept (forward_row i) ++ entries_of l).
  rewrite length_app. cbn [length]. assert (length (kept (forward_row i)) <= 1)%nat by (destruct (forward_row i); cbn; lia). lia.
Qed.
End Ranges.

(** What the page shows for a row that is kept, or for none. *)
Definition shown (type : string) (o : option entry) : string :=
  match o with
  | None => no_forward type
  | Some e =>
      let ty := fun t => bool_decide (type = t) in
      let proto := fun t => bool_decide (e_proto e = t) in
      if ty "name" then e_name e
      else if ty "from" then dec (e_from e)
      else if ty "to" then dec (e_to e)
      else if ty "tcp" then when (negb (proto "udp")) "checked"
      else if ty "udp" then when (negb (proto "tcp")) "checked"
      else if ty "sel_tcp" then when (negb (proto "udp")) "selected"
      else if ty "sel_udp" then when (negb (proto "tcp")) "selected"
      else if ty "sel_both" then when (proto "both") "selected"
      else if ty "ip" then dec (e_ip e)
      else if ty "enable" then when (e_on e) "checked"
      else ""
  end.

Lemma show_entry type e : is_entry e -> exists r,
  (split_forward_word (entry_word e) ≫= show_forward type) = r /\
  from_option id (Ret (no_forward type)) r = Ret (shown type (Some e)).
Proof.
  intros He. eexists. split; [done|]. rewrite (entry_split e He). cbn [mbind option_bind].
  destruct He as (Hn & Hl & _). unfold show_forward, shown. cbv zeta.
  cbn [w_name w_enable w_proto w_from w_to w_ip filter_name].
  repeat (case_bool_decide; [subst; cbn [from_option id]; try reflexivity|]).
  - rewrite filter_get_escape by done. unfold fit. by rewrite (proj2 (Z.leb_gt _ _)) by lia.
  - by destruct (e_on e).
  - by destruct (e_on e).
  - cbn [from_option]. unfold no_forward. cbv beta zeta. by rewrite !bool_decide_eq_false_2.
Qed.

Lemma str_chars t : Pages.str (Ej.chars t) = t.
Proof. apply String.string_of_list_ascii_of_string. Qed.

Lemma table_args type k : 0 <= k < 2 ^ 31 ->
  Ej.ejArgs [Ej.chars type; Ej.chars (dec k)] (Ej.chars "%s %d") = [Ej.EStr (Ej.chars type); Ej.EInt k].
Proof.
  intros Hk. change (Ej.ejArgs [Ej.chars type; Ej.chars (dec k)] (Ej.chars "%s %d")) with
    [Ej.EStr (Ej.chars type); Ej.EInt (atoi (Pages.str (Ej.chars (dec k))))]. by rewrite str_chars, atoi_dec.
Qed.

Lemma table_shows e type k es : Forall is_entry es -> 0 <= k < 2 ^ 31 ->
  Pages.nvram_get e "forward_port" = text_of (entry_word <$> es) ->
  ej_port_forward_table e [Ej.chars type; Ej.chars (dec k)] = Ret (Ej.chars (shown type (es !! Z.to_nat k))).
Proof.
  intros Hes Hk Hv. unfold ej_port_forward_table. rewrite table_args by done. cbv zeta. rewrite Hv, str_chars.
  rewrite lookup_text, (proj2 (Z.ltb_ge _ _)) by
    (lia || (apply Forall_fmap, (Forall_impl _ _ _ Hes); intros x Hx; by apply entry_is_word)).
  cbn [mbind outcome_bind]. rewrite list_lookup_fmap. destruct (es !! Z.to_nat k) as [x|] eqn:E; [|done].
  cbn [fmap option_fmap option_map mbind option_bind].
  destruct (show_entry type x) as (r & Er & Hr); [by apply (Forall_lookup_1 _ _ _ _ Hes E)|].
  cbn [mbind option_bind] in Er. rewrite Er. destruct r as [t|]; cbn [from_option id] in Hr; [by rewrite Hr|].
  injection Hr as ->. done.
Qed.

(** ** Storing a value *)

Section Storing.
Context `{Driver}.

(** A write that the driver has room for. *)
Lemma save_inserts n v p : unmirrored n -> storable n (nv p) -> strlen v < 1000 ->
  save n v p = mk_page (mk_vars (<[n := v]> (table (nv p))) (value_buf (nv p))) (error_value p).
Proof.
  intros Hu [Hl Hr] Hv. unfold save, nvram_set, put. rewrite Hl, (Hr v Hv), mirror_none by done. done.
Qed.

Lemma buffer_all n t : strlen t < Z.of_nat n -> buffer n t = t.
Proof. intros Ht. unfold buffer. apply substring_all. unfold strlen in Ht. lia. Qed.
End Storing.

Section ForwardPage.
Context `{Driver}.

(** C25. The page of port ranges keeps what it is given, when the variable can be
    stored and the rows with an address are as the page sends them: switched on or
    off ([enable_injects]), with a protocol ([no_protocol]) and a name without an
    entity in it ([entity_not_kept]). The validator returns; a row with a bad name or
    port is left out, a bad address refuses the whole form, and either is reported;
    otherwise the page shows afterwards, in every column, the rows that were kept,
    one after the other, and empty rows behind them. *)
Theorem forward_page_roundtrip form v p :
  name v = "forward_port" -> storable "forward_port" (nv p) -> Forall (sane_row form) (seqZ 0 FORWARDING_NUM) ->
  exists p', validate_forward_proto form v p = Ret p' /\
    error_value p' = error_value p || existsb (fun i => reports (forward_row form i)) (seqZ 0 FORWARDING_NUM) /\
    if existsb (fun i => refuses (forward_row form i)) (seqZ 0 FORWARDING_NUM) then nv p' = nv p
    else forall e type k, Pages.nvram_get e = (fun n => peek n (nv p')) -> 0 <= k < 2 ^ 31 ->
      ej_port_forward_table e [Ej.chars type; Ej.chars (dec k)] =
      Ret (Ej.chars (shown type (entries form !! Z.to_nat k))).
Proof.
  intros Hv Hst Hs. unfold validate_forward_proto. change "" with (text_of []) at 1.
  rewrite forward_turns by (done || constructor). cbn [mbind outcome_bind app orb].
  set (p1 := if existsb _ _ then report p else p).
  assert (nv p1 = nv p) as Hp1 by (unfold p1; by case_match).
  assert (error_value p1 = error_value p || existsb (fun i => reports (forward_row form i)) (seqZ 0 FORWARDING_NUM)) as He1
    by (unfold p1; case_match; by rewrite ?orb_true_r, ?orb_false_r).
  eexists. split; [done|]. unfold store_words. destruct (existsb (fun i => refuses _) _); [done|].
  pose proof (entries_ok form _ Hs) as Hes.
  assert (strlen (text_of (entry_word <$> entries form)) < 1000) as Hl.
  { pose proof (entries_short form (seqZ 0 FORWARDING_NUM)) as Hn. change (length (seqZ 0 FORWARDING_NUM)) with 10%nat in Hn.
    pose proof (text_of_length 97 (entry_word <$> entries form)) as Ht. rewrite length_fmap in Ht. unfold entries in *.
    assert (Forall (fun w => strlen w <= 97) (entry_word <$> entries_of form (seqZ 0 FORWARDING_NUM))) as Hw
      by (apply Forall_fmap, (Forall_impl _ _ _ Hes); intros x Hx; by apply entry_is_word).
    specialize (Ht Hw ltac:(lia)). lia. }
  rewrite Hv, buffer_all, save_inserts by (done || (by rewrite Hp1) || (unfold unmirrored, Lib.nvram_converts; by repeat constructor)).
  split; [done|]. intros e type k He Hk. apply table_shows; [done|done|]. rewrite He. unfold peek. cbn [nv table].
  by rewrite lookup_insert_eq.
Qed.
End ForwardPage.

(** ** Single ports: the numbered variables as a list *)

Section Single.
Context `{Driver} (form : gmap string string) (c : Z).

Definition cn (i : Z) : string := "upnp_content_" +:+ dec c +:+ "_" +:+ dec i.
Definition num : string := "upnp_content_num_" +:+ dec c.

(** The variables hold the list, and none behind it. *)
Definition LIMIT : Z := 10000.
Definition holds (l : list string) (t : gmap string string) : Prop :=
  t !! num = Some (dec (Z.of_nat (length l))) /\ Z.of_nat (length l) < LIMIT /\
  Forall (fun x => strlen x < 256) l /\
  forall i, 0 <= i < LIMIT -> t !! cn i = l !! Z.to_nat i.

(** The driver takes every value of this length. *)
Definition roomy : Prop := forall t n v, unlocked t n = true /\ (strlen v < 1000 -> room t n v = true).

Hypothesis Hc : 0 <= c < LIMIT.
Hypothesis Hroom : roomy.

Lemma cn_inj i j : 0 <= i < 2 ^ 31 -> 0 <= j < 2 ^ 31 -> cn i = cn j -> i = j.
Proof. intros Hi Hj. unfold cn. rewrite <- !string_app_assoc. by apply prefix_inj. Qed.

Lemma cn_num i : cn i <> num.
Proof.
  unfold cn, num. change ("upnp_content_num_" +:+ dec c) with ("upnp_content_" +:+ "num_" +:+ dec c).
  destruct (dec_head c) as (d & r & -> & Hd); [lia|]. intros E. cbn in E. injection E as E _. by subst d.
Qed.

Lemma cn_unmirrored i : unmirrored (cn i).
Proof. unfold unmirrored, cn, Lib.nvram_converts. by repeat constructor. Qed.
Lemma num_unmirrored : unmirrored num.
Proof. unfold unmirrored, num, Lib.nvram_converts. by repeat constructor. Qed.

Lemma content_name_ok i : 0 <= i <= LIMIT -> content_name c i = Ret (cn i).
Proof.
  unfold LIMIT in *. intros Hi. unfold content_name, fit. rewrite (proj2 (Z.leb_gt _ _)); [done|]. rewrite !strlen_app.
  pose proof (dec_digits_length 4 c ltac:(lia)). pose proof (dec_digits_length 4 i ltac:(lia)).
  change (strlen "upnp_content_") with 13. change (strlen "_") with 1. lia.
Qed.
Lemma count_name_ok : count_name c = Ret num.
Proof.
  unfold LIMIT in *. unfold count_name, fit. rewrite (proj2 (Z.leb_gt _ _)); [done|]. rewrite !strlen_app.
  pose proof (dec_digits_length 4 c ltac:(lia)). change (strlen "upnp_content_num_") with 17. lia.
Qed.

Lemma save_roomy n v p : unmirrored n -> strlen v < 1000 ->
  save n v p = mk_page (mk_vars (<[n := v]> (table (nv p))) (value_buf (nv p))) (error_value p).
Proof. intros Hu Hv. apply save_inserts; [done| |done]. split; [apply (Hroom _ _ v)|]. intros x Hx. by apply Hroom. Qed.

(** Values written from a number on. *)
Fixpoint insert_from (k : Z) (ts : list string) (t : gmap string string) : gmap string string :=
  match ts with [] => t | x :: ts => insert_from (k + 1) ts (<[cn k := x]> t) end.

Lemma insert_from_other n ts : (forall i, 0 <= i -> cn i <> n) -> forall k t, 0 <= k ->
  insert_from k ts t !! n = t !! n.
Proof.
  intros Hn. induction ts as [|x ts IH]; intros k t Hk; [done|]. cbn [insert_from]. rewrite IH by lia.
  apply lookup_insert_ne. by apply Hn.
Qed.

Lemma insert_from_lookup ts : forall k t i, 0 <= k -> k + Z.of_nat (length ts) < 2 ^ 31 -> 0 <= i < 2 ^ 31 ->
  insert_from k ts t !! cn i =
  if (k <=? i) && (i <? k + Z.of_nat (length ts)) then ts !! Z.to_nat (i - k) else t !! cn i.
Proof.
  induction ts as [|x ts IH]; intros k t i Hk Hb Hi; cbn [insert_from length] in *.
  - destruct (Z.leb_spec k i); [|done]. by rewrite (proj2 (Z.ltb_ge _ _)) by lia.
  - rewrite IH by lia. rewrite lookup_insert. case_decide as E.
    + apply cn_inj in E as <-; [|lia..]. rewrite (proj2 (Z.leb_gt (k + 1) k)) by lia. cbn [andb].
      rewrite Z.leb_refl, (proj2 (Z.ltb_lt _ _)) by lia. by rewrite Z.sub_diag.
    + assert (i <> k) by congruence. destruct (Z.leb_spec k i); [|by rewrite (proj2 (Z.leb_gt _ _)) by lia].
      rewrite (proj2 (Z.leb_le _ _)) by lia. cbn [andb].
      replace (i <? k + 1 + Z.of_nat (length ts)) with (i <? k + Z.of_nat (S (length ts))) by (f_equal; lia).
      destruct (i <? _); [|done]. by replace (Z.to_nat (i - k)) with (S (Z.to_nat (i - (k + 1)))) by lia.
Qed.

Lemma insert_from_snoc ts x : forall k t,
  insert_from k (ts ++ [x]) t = <[cn (k + Z.of_nat (length ts)) := x]> (insert_from k ts t).
Proof.
  induction ts as [|y ts IH]; intros k t; cbn [app insert_from length].
  - by rewrite Z.add_0_r.
  - rewrite IH. do 2 f_equal. lia.
Qed.

(** A row of the form that is kept. *)
Record single := Single {
  s_name : string; s_enable : Z; s_proto : Z; s_ext : Z; s_int : Z; s_ip : Z
}.
Definition single_text (e : single) : string :=
  dec (s_enable e) +:+ ":" +:+ dec (s_proto e) +:+ ":" +:+ dec (s_ext e) +:+ ":" +:+ dec (s_int e) +:+ ":" +:+
  dec (s_ip e) +:+ ":" +:+ dec 0 +:+ ":" +:+ escape (s_name e).

Definition single_row (i : Z) : option single :=
  let name := field form "name" i "" in
  let ext_port := field form "ext_port" i "0" in
  let int_port := field form "int_port" i "0" in
  let ip := field form "ip" i "0" in
  if zero ext_port && zero int_port && zero ip then None
  else if bool_decide (name = "") then None
  else if good_name 128 name && is_number 0 65535 ext_port && is_number 0 65535 int_port && is_number 0 254 ip
  then Some (Single name (atoi (field form "enabled" i "0")) (upnp_proto (field form "protocol" i ""))
               (atoi ext_port) (atoi int_port) (atoi ip))
  else None.

(** With its entities a name fits its buffer. *)
Definition short_row (i : Z) : Prop := strlen (escape (field form "name" i "")) < 200.

Lemma single_text_ok i e : short_row i -> single_row i = Some e ->
  strlen (single_text e) < 256 /\
  content_text (s_enable e) (s_proto e) (s_ext e) (s_int e) (s_ip e) (escape (s_name e)) = Ret (single_text e).
Proof.
  unfold short_row, single_row. intros Hs. do 2 (case_match; [done|]).
  destruct (good_name 128 _ && _ && _ && _) eqn:E; [|done]. rewrite !andb_true_iff in E.
  destruct E as (((_ & E1) & E2) & E3). apply number_range in E1, E2, E3. intros [= <-].
  unfold content_text, fit. rewrite (and_comm _ (_ = _)). unfold single_text. cbn [s_name s_enable s_proto s_ext s_int s_ip].
  match goal with |- (if ?b then _ else _) = _ /\ strlen ?t < _ => assert (strlen t < 256) as Hl end.
  { rewrite !strlen_app. change (strlen ":") with 1. change (strlen (dec 0)) with 1.
    pose proof (dec_length (atoi (field form "enabled" i "0"))).
    pose proof (dec_digits_length 4 (atoi (field form "ext_port" i "0")) ltac:(lia)).
    pose proof (dec_digits_length 4 (atoi (field form "int_port" i "0")) ltac:(lia)).
    pose proof (dec_digits_length 2 (atoi (field form "ip" i "0")) ltac:(lia)).
    assert (strlen (dec (upnp_proto (field form "protocol" i ""))) = 1) as Hu
      by (unfold upnp_proto; repeat case_match; done). lia. }
  split; [|done]. by rewrite (proj2 (Z.leb_gt _ _)) by lia.
Qed.

Lemma upnp_turn_spec i k p : short_row i -> 0 <= k <= LIMIT -> exists p',
  upnp_turn form c i (k, p) = Ret (k + Z.of_nat (length (option_list (single_row i))), p') /\
  table (nv p') = insert_from k (single_text <$> option_list (single_row i)) (table (nv p)).
Proof.
  intros Hs Hk. unfold upnp_turn. cbv zeta. pose proof (single_text_ok i) as Ht. unfold single_row in *.
  destruct (zero _ && zero _ && zero _); [exists p; cbn; by rewrite Z.add_0_r|].
  case_bool_decide as Hn; [exists p; cbn; by rewrite Z.add_0_r|].
  rewrite (check_name_spec "128" 128) by (done || lia). cbn [mbind outcome_bind].
  destruct (good_name 128 _); cbn [andb]; [|exists (report p); cbn; by rewrite Z.add_0_r].
  rewrite valid_ports_spec. cbn [mbind outcome_bind].
  destruct (is_number 0 65535 (field form "ext_port" i "0")); cbn [tested negb andb];
    [|exists (report p); cbn; by rewrite Z.add_0_r].
  destruct (is_number 0 65535 (field form "int_port" i "0")); cbn [tested negb andb];
    [|exists (report p); cbn; by rewrite Z.add_0_r].
  rewrite (valid_range_number 0 254 "0" "254") by done. cbn [mbind outcome_bind].
  destruct (is_number 0 254 (field form "ip" i "0")); cbn [tested negb]; [|exists (report p); cbn; by rewrite Z.add_0_r].
  destruct (Ht _ Hs eq_refl) as [Hl E]. cbn [s_name s_enable s_proto s_ext s_int s_ip] in E.
  cbn [andb]. rewrite E, content_name_ok by done. cbn [mbind outcome_bind].
  rewrite save_roomy by (apply cn_unmirrored || lia). eexists. split; [done|]. done.
Qed.

Lemma insert_from_app a b : forall k t,
  insert_from k (a ++ b) t = insert_from (k + Z.of_nat (length a)) b (insert_from k a t).
Proof.
  induction a as [|x a IH]; intros k t; cbn [app insert_from length]; [by rewrite Z.add_0_r|].
  rewrite IH. f_equal. lia.
Qed.

Definition singles (l : list Z) : list single := mjoin ((fun i => option_list (single_row i)) <$> l).

Lemma singles_short l : (length (singles l) <= length l)%nat.
Proof.
  induction l as [|i l IH]; [done|]. change (singles (i :: l)) with (option_list (single_row i) ++ singles l).
  rewrite length_app. cbn [length]. assert (length (option_list (single_row i)) <= 1)%nat by (by destruct (single_row i); cbn; lia). lia.
Qed.

Lemma upnp_turns l : Forall short_row l -> forall k p, 0 <= k -> k + Z.of_nat (length l) <= LIMIT -> exists p',
  turns (upnp_turn form c) l (k, p) = Ret (k + Z.of_nat (length (singles l)), p') /\
  table (nv p') = insert_from k (single_text <$> singles l) (table (nv p)).
Proof.
  induction 1 as [|i l Hi _ IH]; intros k p Hk Hl; cbn [turns].
  - exists p. cbn. by rewrite Z.add_0_r.
  - cbn [length] in Hl. destruct (upnp_turn_spec i k p Hi ltac:(lia)) as (p1 & -> & E1). cbn [mbind outcome_bind].
    assert (length (option_list (single_row i)) <= 1)%nat as H1 by (by destruct (single_row i); cbn; lia).
    destruct (IH (k + Z.of_nat (length (option_list (single_row i)))) p1) as (p2 & -> & E2); [lia..|].
    exists p2. change (singles (i :: l)) with (option_list (single_row i) ++ singles l).
    rewrite length_app, Nat2Z.inj_add, Z.add_assoc. split; [done|].
    by rewrite fmap_app, insert_from_app, length_fmap, E2, E1.
Qed.

Lemma move_turn_ok j k x p : 0 <= j <= LIMIT -> 0 <= k <= LIMIT -> strlen x < 256 -> table (nv p) !! cn j = Some x ->
  move_turn c j (k, p) = Ret (k + 1, mk_page (mk_vars (<[cn k := x]> (table (nv p))) x) (error_value p)).
Proof.
  intros Hj Hk Hx Hv. unfold move_turn. rewrite (content_name_ok j) by lia. cbn [mbind outcome_bind nvram_get].
  assert (peek (cn j) (nv p) = x) as -> by (unfold peek; by rewrite Hv).
  unfold fit. rewrite (proj2 (Z.leb_gt _ _)) by lia. cbn [mbind outcome_bind].
  rewrite content_name_ok by lia. cbn [mbind outcome_bind]. by rewrite save_roomy by (apply cn_unmirrored || lia).
Qed.

Lemma move_turns ts : forall j k p, 0 <= k < j -> j + Z.of_nat (length ts) <= LIMIT ->
  Forall (fun x => strlen x < 256) ts ->
  (forall i, 0 <= i < Z.of_nat (length ts) -> table (nv p) !! cn (j + i) = ts !! Z.to_nat i) -> exists p',
  turns (move_turn c) (seqZ j (Z.of_nat (length ts))) (k, p) = Ret (k + Z.of_nat (length ts), p') /\
  table (nv p') = insert_from k ts (table (nv p)).
Proof.
  induction ts as [|x ts IH]; intros j k p Hk Hl Hts Hv; cbn [length insert_from] in *.
  - exists p. cbn. by rewrite Z.add_0_r.
  - inversion Hts as [|? ? Hx Hts']; subst. rewrite seqZ_cons by lia. cbn [turns].
    rewrite (move_turn_ok j k x p) by (done || lia || (specialize (Hv 0 ltac:(lia)); by rewrite Z.add_0_r in Hv)).
    cbn [mbind outcome_bind]. rewrite <- Z.add_1_r.
    replace (Z.pred (Z.of_nat (S (length ts)))) with (Z.of_nat (length ts)) by lia.
    destruct (IH (j + 1) (k + 1) (mk_page (mk_vars (<[cn k := x]> (table (nv p))) x) (error_value p))) as (p' & -> & E);
      [lia|lia|done| |].
    + intros i Hi. cbn [nv table]. rewrite lookup_insert_ne.
      * specialize (Hv (i + 1) ltac:(lia)). replace (j + 1 + i) with (j + (i + 1)) by lia. rewrite Hv.
        by replace (Z.to_nat (i + 1)) with (S (Z.to_nat i)) by lia.
      * unfold LIMIT in *. intros E%cn_inj; lia.
    + exists p'. split; [do 2 f_equal; lia|done].
Qed.

Lemma unset_turns n : forall a p, 0 <= a -> a + Z.of_nat n <= LIMIT -> exists p',
  turns (unset_turn c) (seqZ a (Z.of_nat n)) p = Ret p' /\
  (forall i, 0 <= i < 2 ^ 31 -> table (nv p') !! cn i =
     if (a <=? i) && (i <? a + Z.of_nat n) then None else table (nv p) !! cn i) /\
  (forall x, (forall i, 0 <= i -> cn i <> x) -> table (nv p') !! x = table (nv p) !! x).
Proof.
  induction n as [|n IH]; intros a p Ha Hb.
  - exists p. split; [done|]. split; [|done]. intros i Hi. destruct (Z.leb_spec a i); [|done].
    by rewrite (proj2 (Z.ltb_ge _ _)) by lia.
  - rewrite seqZ_cons by lia. cbn [turns].
    assert (unset_turn c a p = Ret (mk_page (nvram_unset (cn a) (nv p)) (error_value p))) as ->
      by (unfold unset_turn; by rewrite content_name_ok by lia).
    cbn [mbind outcome_bind].
    replace (Z.pred (Z.of_nat (S n))) with (Z.of_nat n) by lia. rewrite <- Z.add_1_r.
    destruct (IH (a + 1) (mk_page (nvram_unset (cn a) (nv p)) (error_value p))) as (p' & -> & E1 & E2); [lia..|].
    exists p'. split; [done|]. cbn [nv nvram_unset table] in *. split.
    + intros i Hi. rewrite E1 by done. rewrite lookup_delete. unfold LIMIT in *. case_decide as E.
      * apply cn_inj in E as <-; [|lia..]. rewrite (proj2 (Z.leb_gt (a + 1) a)) by lia. cbn [andb].
        by rewrite Z.leb_refl, (proj2 (Z.ltb_lt _ _)) by lia.
      * assert (i <> a) by congruence. destruct (Z.leb_spec a i); [|by rewrite (proj2 (Z.leb_gt _ _)) by lia].
        rewrite (proj2 (Z.leb_le (a + 1) i)) by lia. cbn [andb]. by replace (a + 1 + Z.of_nat n) with (a + Z.of_nat (S n)) by lia.
    + intros x Hx. rewrite E2 by done. apply lookup_delete_ne. by apply Hx.
Qed.

(** Up to a bound that may lie below. *)
Lemma unset_rest a b p : 0 <= a -> b <= LIMIT -> exists p',
  turns (unset_turn c) (seqZ a (b - a)) p = Ret p' /\
  (forall i, 0 <= i < 2 ^ 31 -> table (nv p') !! cn i =
     if (a <=? i) && (i <? b) then None else table (nv p) !! cn i) /\
  (forall x, (forall i, 0 <= i -> cn i <> x) -> table (nv p') !! x = table (nv p) !! x).
Proof.
  intros Ha Hb. destruct (Z.leb_spec b a).
  - exists p. rewrite seqZ_nil by lia. split; [done|]. split; [|done]. intros i Hi.
    destruct (Z.leb_spec a i); [|done]. by rewrite (proj2 (Z.ltb_ge _ _)) by lia.
  - destruct (unset_turns (Z.to_nat (b - a)) a p) as (p' & Er & U1 & U2); [lia..|].
    exists p'. rewrite Z2Nat.id in Er, U1 by lia. split; [done|]. split; [|done]. intros i Hi. rewrite U1 by done.
    by replace (a + (b - a)) with b by lia.
Qed.

(** The rows of the page, then what lies behind the page if the page is not full. *)
Definition page_rows : list string := single_text <$> singles (seqZ 0 UPNP_FORWARDING_NUM).
Definition behind (l : list string) : list string :=
  if (UPNP_FORWARDING_NUM <? Z.of_nat (length l)) && (Z.of_nat (length page_rows) <? UPNP_FORWARDING_NUM)
  then drop 15 l else [].
Definition new_list (l : list string) : list string := page_rows ++ behind l.

Lemma page_rows_short : (length page_rows <= 15)%nat.
Proof.
  unfold page_rows. rewrite length_fmap. pose proof (singles_short (seqZ 0 UPNP_FORWARDING_NUM)) as Hl.
  by change (length (seqZ 0 UPNP_FORWARDING_NUM)) with 15%nat in Hl.
Qed.

Lemma new_list_short l : (length (new_list l) <= 15 `max` length l)%nat.
Proof.
  unfold new_list, behind. rewrite length_app. pose proof page_rows_short.
  destruct (_ && _) eqn:E; cbn [length]; [|lia]. apply andb_prop in E as [E1%Z.ltb_lt E2%Z.ltb_lt].
  unfold UPNP_FORWARDING_NUM in *. rewrite length_drop. lia.
Qed.

Lemma singles_texts l : Forall short_row l -> Forall (fun x => strlen x < 256) (single_text <$> singles l).
Proof.
  induction 1 as [|i l Hi _ IH]; [constructor|]. change (singles (i :: l)) with (option_list (single_row i) ++ singles l).
  rewrite fmap_app. apply Forall_app. split; [|done]. destruct (single_row i) as [e|] eqn:E; repeat constructor.
  by apply (single_text_ok i e).
Qed.

Lemma new_list_texts l : Forall short_row (seqZ 0 UPNP_FORWARDING_NUM) -> Forall (fun x => strlen x < 256) l ->
  Forall (fun x => strlen x < 256) (new_list l).
Proof.
  intros Hs Hl. unfold new_list, behind. apply Forall_app. split; [by apply singles_texts|].
  case_match; [by apply Forall_drop|constructor].
Qed.

(** The rows, the moves: the new list is in place. *)
Lemma upnp_written p l : Forall short_row (seqZ 0 UPNP_FORWARDING_NUM) -> holds l (table (nv p)) -> exists p',
  ('(tmp_count, p) ← turns (upnp_turn form c) (seqZ 0 UPNP_FORWARDING_NUM) (0, p);
   let '(n, p) := get_var num p in
   '(tmp_count, p) ←
     (if (UPNP_FORWARDING_NUM <? atoi n) && (tmp_count <? UPNP_FORWARDING_NUM)
      then turns (move_turn c) (seqZ UPNP_FORWARDING_NUM (atoi n - UPNP_FORWARDING_NUM)) (tmp_count, p)
      else Ret (tmp_count, p));
   Ret (tmp_count, atoi n, p)) = Ret (Z.of_nat (length (new_list l)), Z.of_nat (length l), p') /\
  table (nv p') = insert_from 0 (new_list l) (table (nv p)).
Proof.
  intros Hs (Hn & Hl & Hts & Hi). unfold LIMIT in *.
  destruct (upnp_turns _ Hs 0 p) as (p1 & -> & E1); [lia|by vm_compute|]. cbn [mbind outcome_bind]. rewrite Z.add_0_l.
  fold page_rows in E1. replace (length (singles _)) with (length page_rows) by (unfold page_rows; by rewrite length_fmap).
  assert (table (nv p1) !! num = Some (dec (Z.of_nat (length l)))) as Hn1.
  { rewrite E1, insert_from_other; [done| |lia]. intros i _. apply cn_num. }
  unfold get_var, nvram_get, peek. rewrite Hn1. cbn [default from_option id]. rewrite atoi_dec by lia.
  unfold new_list, behind. pose proof page_rows_short as Hp. destruct (_ && _) eqn:E.
  - apply andb_prop in E as [Ea%Z.ltb_lt Eb%Z.ltb_lt]. unfold UPNP_FORWARDING_NUM in *.
    replace (Z.of_nat (length l) - 15) with (Z.of_nat (length (drop 15 l))) by (rewrite length_drop; lia).
    destruct (move_turns (drop 15 l) 15 (Z.of_nat (length page_rows))
      (mk_page (mk_vars (table (nv p1)) (dec (Z.of_nat (length l)))) (error_value p1))) as (p2 & -> & E2).
    + lia.
    + unfold LIMIT. rewrite length_drop. lia.
    + by apply Forall_drop.
    + intros i Hi'. rewrite length_drop in Hi'. cbn [nv table]. rewrite E1, insert_from_lookup by lia.
      rewrite (proj2 (Z.ltb_ge (15 + i) _)), andb_false_r, Hi by lia. rewrite lookup_drop. f_equal. lia.
    + cbn [mbind outcome_bind]. exists p2. rewrite length_app, Nat2Z.inj_add. split; [done|].
      rewrite E2, insert_from_app, Z.add_0_l. cbn [nv table]. by rewrite E1.
  - cbn [mbind outcome_bind]. eexists. rewrite app_nil_r. split; [done|]. done.
Qed.

Lemma upnp_list p l : atoi (peek "singleportforward_connection" (nv p)) = c ->
  Forall short_row (seqZ 0 UPNP_FORWARDING_NUM) -> holds l (table (nv p)) -> exists p',
  validate_forward_upnp form p = Ret p' /\ holds (new_list l) (table (nv p')) /\
  forall n, n <> num -> (forall i, 0 <= i -> cn i <> n) -> table (nv p') !! n = table (nv p) !! n.
Proof.
  intros Ec Hs Hh. set (p0 := mk_page (mk_vars (table (nv p)) (peek "singleportforward_connection" (nv p))) (error_value p)).
  destruct (upnp_written p0 l Hs Hh) as (p1 & Ew & E1). destruct Hh as (Hn & Hl & Hts & Hi). unfold LIMIT in *.
  unfold validate_forward_upnp, get_var at 1, nvram_get at 1. cbv zeta. rewrite Ec. fold p0.
  destruct (turns (upnp_turn form c) _ (0, p0)) as [[k q]| | |]; try done. cbn [mbind outcome_bind] in *.
  rewrite count_name_ok. cbn [mbind outcome_bind]. destruct (get_var num q) as [n q1].
  destruct (if (_ : bool) then _ else _) as [[k2 q2]| | |]; try done. cbn [mbind outcome_bind] in *.
  injection Ew as -> Ea ->. rewrite Ea. pose proof (new_list_short l) as Hs2.
  destruct (unset_rest (Z.of_nat (length (new_list l))) (Z.of_nat (length l)) p1) as (p2 & -> & U1 & U2);
    [lia|unfold LIMIT; lia|].
  cbn [mbind outcome_bind]. pose proof (dec_length (Z.of_nat (length (new_list l)))).
  rewrite save_roomy by (apply num_unmirrored || lia). eexists. split; [done|]. cbn [nv table]. split; [split; [|split; [|split]]|].
  - by rewrite lookup_insert_eq.
  - unfold LIMIT. lia.
  - by apply new_list_texts.
  - unfold LIMIT. intros i Hi'. rewrite lookup_insert_ne by (intros E; by apply (cn_num i)). rewrite U1, E1 by lia.
    rewrite insert_from_lookup by lia. rewrite Z.add_0_l, Z.sub_0_r, (proj2 (Z.leb_le 0 i)) by lia. cbn [andb].
    destruct (Z.ltb_spec i (Z.of_nat (length (new_list l)))) as [Hin|Hout].
    + by rewrite (proj2 (Z.leb_gt _ _)) by lia.
    + rewrite (proj2 (Z.leb_le _ _)), (lookup_ge_None_2 (new_list l)) by lia. cbn [andb].
      destruct (Z.ltb_spec i (Z.of_nat (length l))); [done|]. unfold p0. cbn [nv table]. rewrite Hi by lia.
      apply lookup_ge_None_2. lia.
  - intros x Hx Hx'. rewrite lookup_insert_ne by congruence. rewrite U2, E1, insert_from_other by (done || lia). done.
Qed.
End Single.

(** ** A single port is shown *)

Definition is_single (e : single) : Prop :=
  no_entity (s_name e) = true /\ avoids isspace (escape (s_name e)) = true /\ 0 < strlen (s_name e) < 128 /\
  strlen (escape (s_name e)) < 200 /\
  0 <= s_enable e < 2 ^ 31 /\ (s_proto e = 1 \/ s_proto e = 2) /\
  0 <= s_ext e <= 65535 /\ 0 <= s_int e <= 65535 /\ 0 <= s_ip e <= 254.

Definition shown_single (type : string) (e : single) : string :=
  let ty := fun t => strcasecmp_eq type t in
  if ty "ext_port" then dec (s_ext e)
  else if ty "name" then s_name e
  else if ty "sel_tcp" then when (s_proto e =? 1) "selected"
  else if ty "sel_udp" then when (s_proto e =? 2) "selected"
  else if ty "int_port" then dec (s_int e)
  else if ty "ip" then dec (s_ip e)
  else if ty "enabled" then when (negb (s_enable e =? 0)) "checked"
  else " ".

Lemma scan_number n z r : 0 <= z < 2 ^ 31 ->
  scan_content (S n) (dec z +:+ ":" +:+ r) = (z :: (scan_content n r).1, (scan_content n r).2).
Proof.
  intros Hz. cbn [scan_content]. rewrite strtol_dec by done. rewrite bool_decide_eq_false_2.
  - change (":" +:+ r) with (String ":" r). cbn iota. destruct (scan_content n r). done.
  - intros E%(f_equal strlen). rewrite !strlen_app in E. destruct (dec_head z) as (d & t & Ed & _); [lia|].
    rewrite Ed, (strlen_cons d t) in E. pose proof (strlen_nonneg t). lia.
Qed.

Lemma scan_single e : is_single e -> scan_content 6 (single_text e) =
  ([s_enable e; s_proto e; s_ext e; s_int e; s_ip e; 0], Some (escape (s_name e))).
Proof.
  intros (_ & Hb & Hn & _ & He & Hp & Hx & Hi & Hip). unfold single_text. rewrite !scan_number by lia. cbn [fst snd scan_content].
  destruct (cut_none _ _ Hb) as [Hu _]. destruct (escape (s_name e)) as [|c t] eqn:E.
  - destruct (s_name e) as [|c t]; [by destruct Hn|]. cbn [escape] in E. pose proof (piece_length c) as Hc.
    apply (f_equal strlen) in E. rewrite strlen_app in E. pose proof (strlen_nonneg (escape t)).
    change (strlen "") with 0 in E. lia.
  - apply avoids_cons in Hb as [Hc _]. rewrite (skip_none isspace c t Hc). by rewrite Hu.
Qed.

Lemma single_shown type e : is_single e -> show_content type (single_text e) = Ret (shown_single type e).
Proof.
  intros He. unfold show_content. rewrite scan_single by done. destruct He as (Hn & _ & Hl & _ & _ & Hp & _).
  cbn [default from_option id filter_name]. rewrite filter_get_escape by done. unfold fit.
  rewrite (proj2 (Z.leb_gt _ _)) by lia. cbn [mbind outcome_bind nth]. unfold shown_single. cbv zeta.
  by destruct Hp as [-> | ->].
Qed.

Lemma single_text_length e : is_single e -> 10 < strlen (single_text e) < 256.
Proof.
  intros (_ & _ & Hn & Hs & He & Hp & Hx & Hi & Hip). unfold single_text. rewrite !strlen_app.
  assert (forall z, 0 <= z -> 0 < strlen (dec z)) as Hd.
  { intros z Hz. destruct (dec_head z Hz) as (d & t & -> & _). rewrite strlen_cons. pose proof (strlen_nonneg t). lia. }
  pose proof (Hd (s_enable e)). pose proof (Hd (s_ext e)). pose proof (Hd (s_int e)). pose proof (Hd (s_ip e)).
  pose proof (dec_length (s_enable e)). pose proof (dec_digits_length 4 (s_ext e) ltac:(lia)).
  pose proof (dec_digits_length 4 (s_int e) ltac:(lia)). pose proof (dec_digits_length 2 (s_ip e) ltac:(lia)).
  assert (strlen (dec (s_proto e)) = 1) by (by destruct Hp as [-> | ->]). change (strlen ":") with 1.
  change (strlen (dec 0)) with 1. pose proof (strlen_nonneg (escape (s_name e))). lia.
Qed.

Lemma single_text_name c i e : is_single e -> single_text e <> cn c i.
Proof.
  intros (_ & _ & _ & _ & He & _). unfold single_text, cn. destruct (dec_head (s_enable e)) as (d & t & -> & Hd); [lia|].
  intros E. cbn in E. injection E as E _. by subst d.
Qed.

(** The variable with number [k] is shown. *)
Lemma upnp_shows e c type k x : 0 <= k < LIMIT -> 0 <= c < LIMIT -> is_single x ->
  atoi (Pages.nvram_get e "singleportforward_connection") = c ->
  k < atoi (Pages.nvram_get e (num c)) -> Pages.nvram_get e (cn c k) = single_text x ->
  ej_forward_upnp e [Ej.chars type; Ej.chars (dec k)] = Ret (Ej.chars (shown_single type x)).
Proof.
  unfold LIMIT. intros Hk Hc Hx Ec Hn Hv. unfold ej_forward_upnp. rewrite table_args by lia. cbv zeta.
  rewrite Ec, count_name_ok by done. cbn [mbind outcome_bind]. rewrite (proj2 (Z.leb_gt _ _)) by lia.
  rewrite content_name_ok by (unfold LIMIT; done || lia). cbn [mbind outcome_bind]. rewrite Hv.
  pose proof (single_text_length x Hx) as Hl. rewrite bool_decide_eq_false_2.
  - unfold fit. rewrite (proj2 (Z.leb_gt _ _)) by lia. cbn [mbind outcome_bind].
    rewrite bool_decide_eq_false_2 by (by apply single_text_name). rewrite (proj2 (Z.ltb_lt _ _)) by lia.
    rewrite str_chars, single_shown by done. done.
  - intros E. rewrite E in Hl. change (strlen "") with 0 in Hl. lia.
Qed.

Section SinglePage.
Context `{Driver}.

(** C26. The page of single ports keeps the numbered variables of a connection as a
    list, when the driver takes every value (no lock, always room) and the names of
    the rows are shorter than 200 characters with their entities. The validator
    returns; afterwards the variables hold the rows of the form that are valid,
    without gaps, and behind them, if the page has a row left, the entries that lay
    behind the page (if it is full these are removed, [full_page_drops_rest]); the
    count is right, no variable is left over, and no other variable has changed. Each
    of these rows is shown in every column whose name is not empty, has no entity,
    tab or line break in it and less than 128 characters ([long_name_not_shown]), whose
    switch is not negative and whose protocol is one of the two. *)
Theorem single_ports_refine_list form p l :
  let c := atoi (peek "singleportforward_connection" (nv p)) in
  0 <= c < LIMIT -> roomy -> Forall (short_row form) (seqZ 0 UPNP_FORWARDING_NUM) -> holds c l (table (nv p)) ->
  exists p', validate_forward_upnp form p = Ret p' /\ holds c (new_list form l) (table (nv p')) /\
    (forall n, n <> num c -> (forall i, 0 <= i -> cn c i <> n) -> table (nv p') !! n = table (nv p) !! n) /\
    forall e type (k : nat) x, Pages.nvram_get e = (fun n => peek n (nv p')) ->
      singles form (seqZ 0 UPNP_FORWARDING_NUM) !! k = Some x -> is_single x ->
      ej_forward_upnp e [Ej.chars type; Ej.chars (dec (Z.of_nat k))] = Ret (Ej.chars (shown_single type x)).
Proof.
  intros c Hc Hr Hs Hh. destruct (upnp_list form c Hc Hr p l eq_refl Hs Hh) as (p' & Ev & Hh' & Hf).
  exists p'. split; [done|]. split; [done|]. split; [done|]. intros e type k x He Hk Hx.
  destruct Hh' as (Hn & Hl & _ & Hi). unfold LIMIT in *.
  assert (page_rows form !! k = Some (single_text x)) as Hp by (unfold page_rows; by rewrite list_lookup_fmap, Hk).
  assert (new_list form l !! k = Some (single_text x)) as Hk' by (unfold new_list; by apply lookup_app_l_Some).
  pose proof (lookup_lt_Some _ _ _ Hk') as Hlt. apply (upnp_shows e c).
  - unfold LIMIT. lia.
  - done.
  - done.
  - rewrite He. unfold c, peek. by rewrite Hf.
  - rewrite He. unfold peek. rewrite Hn. cbn [default from_option id]. rewrite atoi_dec by lia. lia.
  - rewrite He. unfold peek. rewrite Hi by lia. by rewrite Nat2Z.id, Hk'.
Qed.
End SinglePage.

(** ** Runs *)

Module DemoForward.
#[export] Instance driver : Driver := {| unlocked _ _ := true; room _ _ _ := true |}.

Definition page0 : page := mk_page (mk_vars ∅ "") false.
Definition forward_port : variable := Variable_ "forward_port" None None false.
Definition form : gmap string string := list_to_map [
  ("name0", "my web: a"); ("from0", "90"); ("to0", "80"); ("ip0", "5"); ("pro0", "tcp"); ("enable0", "on");
  ("name2", "ftp"); ("from2", ""); ("to2", "21"); ("ip2", "7"); ("udp2", "1")].

Definition singles_form : gmap string string := list_to_map [
  ("name1", "my web"); ("ext_port1", "8080"); ("int_port1", "80"); ("ip1", "5"); ("protocol1", "udp"); ("enabled1", "1")].
Definition listed (c : Z) (l : list string) : gmap string string :=
  <[num c := dec (Z.of_nat (length l))]> (insert_from c 0 l ∅).
Definition page1 (l : list string) : page :=
  mk_page (mk_vars (<["singleportforward_connection" := "0"]> (listed 0 l)) "") false.

Lemma sane_form : Forall (sane_row form) (seqZ 0 FORWARDING_NUM).
Proof.
  change (seqZ 0 FORWARDING_NUM) with [0; 1; 2; 3; 4; 5; 6; 7; 8; 9].
  repeat (apply Forall_cons_2; [|]); [..|apply Forall_nil_2];
    (intros E; exfalso; revert E; vm_compute; discriminate) || intros _.
  - split; [reflexivity|]. split; [apply (bool_decide_unpack _); vm_compute; exact I|]. split; [apply (bool_decide_unpack _); vm_compute; exact I|]. left. by vm_compute.
  - split; [reflexivity|]. split; [apply (bool_decide_unpack _); vm_compute; exact I|]. split; [apply (bool_decide_unpack _); vm_compute; exact I|].
    right; right. by vm_compute.
Qed.

Lemma page1_holds l : Z.of_nat (length l) < LIMIT -> Forall (fun x => strlen x < 256) l ->
  holds 0 l (table (nv (page1 l))).
Proof.
  intros Hl Hts. unfold holds, page1, listed. cbn [nv table]. unfold LIMIT in *.
  split; [rewrite lookup_insert_ne by done; by rewrite lookup_insert_eq|]. split; [done|]. split; [done|].
  intros i Hi. rewrite !lookup_insert_ne by (done || (intros E; by apply (cn_num 0 ltac:(unfold LIMIT; lia) i))).
  rewrite insert_from_lookup by lia. rewrite (proj2 (Z.leb_le _ _)), Z.add_0_l, Z.sub_0_r by lia. cbn [andb].
  destruct (Z.ltb_spec i (Z.of_nat (length l))); [done|]. rewrite lookup_empty. symmetry. apply lookup_ge_None_2. lia.
Qed.

Definition old_list : list string := ["1:1:21:21:9:0:ftp"; "1:1:22:22:9:0:ssh"].
Lemma short_names : Forall (short_row singles_form) (seqZ 0 UPNP_FORWARDING_NUM).
Proof.
  change (seqZ 0 UPNP_FORWARDING_NUM) with [0; 1; 2; 3; 4; 5; 6; 7; 8; 9; 10; 11; 12; 13; 14].
  repeat (apply Forall_cons_2; [by vm_compute|]). apply Forall_nil_2.
Qed.
End DemoForward.
Import DemoForward.

(** Applied to a form with a row for TCP and one for UDP. *)
Lemma forward_page_roundtrip_witness : exists p', validate_forward_proto form forward_port page0 = Ret p' /\
  ej_port_forward_table (Pages.Env (fun n => peek n (nv p')) (fun _ => None) false) [Ej.chars "name"; Ej.chars (dec 0)] =
    Ret (Ej.chars "my web: a") /\
  ej_port_forward_table (Pages.Env (fun n => peek n (nv p')) (fun _ => None) false) [Ej.chars "to"; Ej.chars (dec 0)] =
    Ret (Ej.chars "90").
Proof.
  destruct (forward_page_roundtrip form forward_port page0 eq_refl ltac:(split; done) sane_form) as (p' & Ev & _ & Hs).
  exists p'. split; [exact Ev|]. vm_compute (existsb _ _) in Hs.
  split; rewrite Hs by (reflexivity || (split; [discriminate|reflexivity])); reflexivity.
Defined.

(** Applied to a connection with two entries, of which one row is left. *)
Lemma single_ports_refine_list_witness : exists p', validate_forward_upnp singles_form (page1 old_list) = Ret p' /\
  holds 0 ["1:2:8080:80:5:0:my&nbsp;web"] (table (nv p')) /\
  ej_forward_upnp (Pages.Env (fun n => peek n (nv p')) (fun _ => None) false) [Ej.chars "name"; Ej.chars (dec (Z.of_nat 0))] =
    Ret (Ej.chars "my web").
Proof.
  destruct (single_ports_refine_list singles_form (page1 old_list) old_list) as (p' & Ev & Hh & _ & Hs).
  - by vm_compute.
  - intros t n v. done.
  - exact short_names.
  - apply page1_holds; [by vm_compute|]. repeat (apply Forall_cons_2; [by vm_compute|]). apply Forall_nil_2.
  - exists p'. split; [exact Ev|]. split; [exact Hh|].
    rewrite (Hs _ "name" 0%nat (Single "my web" 1 2 8080 80 5)); [reflexivity..|].
    unfold is_single. cbn [s_name s_enable s_proto s_ext s_int s_ip].
    split; [reflexivity|]. split; [reflexivity|]. split; [split; reflexivity|]. split; [reflexivity|].
    split; [lia|]. split; [by right|]. lia.
Defined.

(** ** Flaws *)

(** With all fifteen rows in use the entries behind the page are removed. *)
Definition full_form : gmap string string := list_to_map (mjoin ((fun i =>
  [(numbered "name" i, "a"); (numbered "ext_port" i, "80"); (numbered "int_port" i, "80"); (numbered "ip" i, "5")])
  <$> seqZ 0 UPNP_FORWARDING_NUM)).
Lemma full_page_drops_rest : exists p',
  validate_forward_upnp full_form (page1 (replicate 16 "1:1:21:21:9:0:ftp")) = Ret p' /\
  table (nv p') !! num 0 = Some "15" /\ table (nv p') !! cn 0 15 = None.
Proof. eexists. split; [vm_compute; reflexivity|]. split; vm_compute; reflexivity. Qed.

(** A name that takes exactly the size of its buffer is written one byte past it. *)
Definition long_name : string := String.string_of_list_ascii (replicate 33 " "%char) +:+ "ab".
Lemma entity_overflow : filter_name long_name 200 SET = Fault /\
  validate_forward_upnp (<["name1" := long_name]> singles_form) (page1 []) = Fault.
Proof. split; vm_compute; reflexivity. Qed.

(** A name of the longest length that is accepted does not fit the buffer of the
    handler that shows it. *)
Definition name128 : string := String.string_of_list_ascii (replicate 128 "a"%char).
Lemma long_name_not_shown : exists p', validate_forward_upnp (<["name1" := name128]> singles_form) (page1 []) = Ret p' /\
  ej_forward_upnp (Pages.Env (fun n => peek n (nv p')) (fun _ => None) false) [Ej.chars "name"; Ej.chars "0"] = Fault.
Proof. eexists. split; [vm_compute; reflexivity|]. vm_compute. reflexivity. Qed.

(** A row without a protocol uses a buffer that was never written. *)
Lemma no_protocol : validate_forward_proto (list_to_map [("from0", "80"); ("to0", "80"); ("ip0", "5")]) forward_port page0 = Fault.
Proof. vm_compute. reflexivity. Qed.

(** The field that enables a row is not tested: it can hold a whole row with an
    address outside the network. *)
Lemma enable_injects : exists p', validate_forward_proto (list_to_map [
    ("from0", "80"); ("to0", "80"); ("ip0", "5"); ("pro0", "tcp"); ("enable0", "on:tcp:1:65535>300 b:on")]) forward_port page0 = Ret p' /\
  error_value p' = false /\
  ej_port_forward_table (Pages.Env (fun n => peek n (nv p')) (fun _ => None) false) [Ej.chars "ip"; Ej.chars "0"] = Ret (Ej.chars "300").
Proof. eexists. split; [vm_compute; reflexivity|]. split; vm_compute; reflexivity. Qed.

(** A name that holds an entity changes when it is shown. *)
Lemma entity_not_kept : filter_name "a&nbsp;b" 200 SET = Ret "a&nbsp;b" /\ filter_name "a&nbsp;b" 200 GET = Ret "a b".
Proof. split; vm_compute; reflexivity. Qed.

End ForwardProofs.
