(* ===== verification/Routes.v ===== *)
(** * Static routes (src/router/shared/static_route.c)

    [Module Routes]: the page of static routes. The variable static_route holds
    twenty words, "$" for an empty place or ip:mask:gateway:metric; a route is
    stored when the kernel has taken it. The routing table of the kernel and the
    command route are parameters (class [Router]). *)

From Stdlib Require Import ZArith Lia Ascii.
From stdpp Require Import base numbers sets gmap strings list.
From S2P Require Import Prelude CString Vars Validate Ej Pages Forward.
Import Vars Validate Forward.
Open Scope string_scope.
Open Scope Z_scope.
Open Scope list_scope.

Module Routes.

Definition STATIC_ROUTE_PAGE : Z := 20.

(** The command route with its arguments (address, mask, gateway, metric), and the
    lines of /proc/net/route as fgets returns them, [None] when the file cannot be
    opened. *)
Class Router (K : Type) := {
  route_add : string -> string -> string -> string -> K -> K;
  route_del : string -> string -> string -> string -> K -> K;
  proc_net_route : K -> option (list string)
}.

(** [static_route_added] *)
Record state (K : Type) := mk_state { pg : page; static_route_added : bool; kern : K }.
Arguments mk_state {K} _ _ _.
Arguments pg {K} _.
Arguments static_route_added {K} _.
Arguments kern {K} _.

(** ** The routing table *)

(** Reading "%lx%lx%X%d%d%d%lx": the values found. *)
Fixpoint scan_route (bases : list Z) (s : string) : list Z :=
  match bases with
  | [] => []
  | b :: bases =>
      let '(v, e) := if b =? 16 then strtoul s 16 else strtol s b in
      if bool_decide (e = s) then [] else v :: scan_route bases e
  end.

(** One line: [None] when the fields cannot be read. The text behind the
    interface name is not there in a line without a blank. *)
Definition route_line (word : string) : outcome (option (string * string * string)) :=
  match from (fun c => is_char " " c || is_char "009" c) word with
  | EmptyString => Fault
  | String _ rest =>
      Ret match scan_route [16; 16; 16; 10; 10; 10; 16] rest with
          | [dest; gw; _; _; _; _; netmask] => Some (inet_ntoa dest, inet_ntoa netmask, inet_ntoa gw)
          | _ => None
          end
  end.

Fixpoint route_lines (l : list string) (d_ipaddr d_netmask d_gateway : string) : outcome Z :=
  match l with
  | [] => Ret 0
  | word :: l =>
      r ← route_line word;
      match r with
      | None => Ret (-1)
      | Some (sdest, snetmask, sgw) =>
          if bool_decide (sdest = d_ipaddr) && bool_decide (snetmask = d_netmask) && bool_decide (sgw = d_gateway)
          then Ret 1 else route_lines l d_ipaddr d_netmask d_gateway
      end
  end.

Section Kernel.
Context `{Driver} {K : Type} `{Router K}.

(** The first line is the heading. *)
Definition entry_in_route_table (d_ipaddr d_netmask d_gateway : string) (k : K) : outcome Z :=
  match proc_net_route k with
  | None => Ret (-1)
  | Some lines => route_lines (tail lines) d_ipaddr d_netmask d_gateway
  end.

(** ** Words *)

(** The fields of ip:mask:gateway:metric; the last one is what remains. *)
Definition split_route (word : string) : option (string * string * string * string) :=
  '(ipaddr, netmask) ← cut word ":";
  '(netmask, gateway) ← cut netmask ":";
  '(gateway, metric) ← cut gateway ":";
  Some (ipaddr, netmask, gateway, metric).

Definition del_route (route : string) (k : K) : outcome K :=
  foreach 80 route (fun word k =>
    if bool_decide (word = "$") then Ret k else
    match split_route word with
    | None => Ret k
    | Some (ipaddr, netmask, gateway, metric) => Ret (route_del ipaddr netmask gateway metric k)
    end) k.

Definition route_text (ipaddr netmask gateway metric : string) : string :=
  ipaddr +:+ ":" +:+ netmask +:+ ":" +:+ gateway +:+ ":" +:+ metric.
Definition route_key (ipaddr netmask gateway : string) : string := ipaddr +:+ ":" +:+ netmask +:+ ":" +:+ gateway.

(** [old]: twenty places of sixty bytes, empty at first; the words are copied to
    them one after the other. *)
Definition read_old (value : string) : outcome (list string) :=
  '(_, old) ← foreach 256 value (fun word '(i, old) =>
    if (20 <=? i)%nat || (60 <=? strlen word) then Fault else Ret (S i, <[i := word]> old)) (0%nat, replicate 20 "");
  Ret old.

(** The loop over the places: the new route is there already, or in another
    place, or it is new ([modify_flag]). *)
Inductive found := Same | Elsewhere | New (modify_flag : bool).
Fixpoint search_old (key full : string) (page i : Z) (old : list string) (modify_flag : bool) : outcome found :=
  match old with
  | [] => Ret (New modify_flag)
  | o :: old =>
      if bool_decide (o = "$") then search_old key full page (i + 1) old modify_flag
      else if i =? page then
        t ← fit 60 full;
        if bool_decide (o = t) then Ret Same else search_old key full page (i + 1) old true
      else if bool_decide (starts_with key o <> None) then Ret Elsewhere
      else search_old key full page (i + 1) old modify_flag
  end.

(** [sprintf(buf, "%s %s", buf, ...)] for each place, to 1000 bytes. *)
Definition place_text (o : string) : string := if bool_decide (o = "") then "$" else o.
Fixpoint join_old (old : list string) (buf : string) : outcome string :=
  match old with
  | [] => Ret buf
  | o :: old => buf ← fit 1000 (buf +:+ " " +:+ place_text o); join_old old buf
  end.
Definition old_text (old : list string) : outcome string :=
  match old with
  | [] => Ret ""
  | o :: old => buf ← fit 1000 (place_text o); join_old old buf
  end.

(** ** The validator *)

Section Form.
Context (form : gmap string string).

Definition no_limits : variable := Variable_ "" None None false.
Definition address_field (prefix : string) : outcome (option string) :=
  merge 20 (fun i => websGetVar form (buffer 30 (prefix +:+ "_" +:+ dec i))) "." [0; 1; 2; 3] "".

Definition unset_address (t : string) : bool := bool_decide (t = "0.0.0.0") || bool_decide (t = "").

(** [valid_ipaddr && valid_netmask && valid_ipaddr], each after the other has
    passed. *)
Definition valid_route (ipaddr netmask gateway : string) (p : page) : outcome (bool * page) :=
  '(b, p) ← valid_ipaddr no_limits ipaddr p;
  if negb b then Ret (false, p) else
  let '(b, p) := valid_netmask netmask p in
  if negb b then Ret (false, p) else valid_ipaddr no_limits gateway p.

(** From the words of the variable on: the state, with [static_route_added] set
    when the end is reached. *)
Definition add_route (ipaddr netmask gateway metric page : string) (st : state K) : outcome (state K) :=
  let '(value, p) := get_var "static_route" (pg st) in
  let st := mk_state p (static_route_added st) (kern st) in
  old ← read_old value;
  key ← fit 60 (route_key ipaddr netmask gateway);
  let full := route_text ipaddr netmask gateway metric in
  f ← search_old key full (atoi page) 0 old false;
  match f with
  | Same => Ret (mk_state p true (kern st))
  | Elsewhere => Ret st
  | New modify_flag =>
      if unset_address gateway then Ret st else
      let k := route_add ipaddr netmask gateway metric (kern st) in
      n ← entry_in_route_table ipaddr netmask gateway k;
      if n <? 1 then Ret (mk_state p (static_route_added st) k) else
      place ← deref (if 0 <=? atoi page then old !! Z.to_nat (atoi page) else None);
      k ← (if (modify_flag : bool) then del_route place k else Ret k);
      full ← fit 60 full;
      buf ← old_text (<[Z.to_nat (atoi page) := full]> old);
      Ret (mk_state (save "static_route" buf p) true k)
  end.

Definition validate_static_route (st : state K) : outcome (state K) :=
  let st := mk_state (pg st) false (kern st) in
  i ← address_field "route_ipaddr";
  match i with
  | None => Ret st
  | Some ipaddr =>
      m ← address_field "route_netmask";
      match m with
      | None => Ret st
      | Some netmask =>
          g ← address_field "route_gateway";
          match g, websGetVar form "route_page", websGetVar form "route_metric" with
          | Some gateway, Some page, Some metric =>
              if (atoi metric <? 1) || (16 <? atoi metric) || bool_decide (ipaddr = "") then Ret st
              else if unset_address ipaddr && unset_address netmask && unset_address gateway
              then Ret (mk_state (pg st) true (kern st))
              else if bool_decide (ipaddr = "") || bool_decide (netmask = "")
              then Ret (mk_state (report (pg st)) false (kern st))
              else
                '(b, p) ← valid_route ipaddr netmask gateway (pg st);
                let st := mk_state p false (kern st) in
                if negb b then Ret st else add_route ipaddr netmask gateway metric page st
          | _, _, _ => Ret st
          end
      end
  end.

(** ** Deleting *)

(** One word: its number, the text so far and the kernel. The number of the page is
    read for every word, and the counter moves twice over the word that goes. *)
Definition delete_word (page : option string) (word : string) (x : Z * string * K) : outcome (Z * string * K) :=
  let '(i, cur, k) := x in
  page ← deref page;
  if i =? atoi page then
    k ← del_route word k;
    cur ← add_word 1000 cur "$";
    Ret (i + 2, cur, k)
  else cur ← add_word 1000 cur word; Ret (i + 1, cur, k).

Definition delete_static_route (st : state K) : outcome (state K) :=
  let page := websGetVar form "route_page" in
  let '(value, p) := get_var "static_route" (pg st) in
  '(_, buf, k) ← foreach 256 value (delete_word page) (0, "", kern st);
  Ret (mk_state (save "static_route" (buffer 1000 buf) p) (static_route_added st) k).
End Form.
End Kernel.

(** ** The page *)

(** What a word gives for a column; the metric is written as a format. *)
Definition show_route (arg : string) (count : Z) (word : string) : option (outcome Ej.text) :=
  if bool_decide (word = "$") then None else
  '(ipaddr, netmask, gateway, metric) ← split_route word;
  let byte := fun t => n ← Pages.get_single_ip t count; Pages.write (dec n) in
  if bool_decide (arg = "ipaddr") then Some (byte ipaddr)
  else if bool_decide (arg = "netmask") then Some (byte netmask)
  else if bool_decide (arg = "gateway") then Some (byte gateway)
  else if bool_decide (arg = "metric") then Some (Pages.write_format (Ej.chars metric))
  else None.

Definition no_route (arg : string) : string :=
  if bool_decide (arg = "ipaddr") || bool_decide (arg = "netmask") || bool_decide (arg = "gateway") then "0"
  else if bool_decide (arg = "metric") then "1" else "".

Definition ej_static_route_setting (e : Pages.env) (argv : list Ej.text) : outcome Ej.text :=
  match Ej.ejArgs argv (Ej.chars "%s %d") with
  | [Ej.EStr arg; Ej.EInt count] =>
      let which := atoi (default "0" (Pages.websGetVar e "route_page")) in
      let value := Pages.nvram_get e "static_route" in
      r ← lookup_word (show_route (Pages.str arg) count) (S (String.length value)) value which;
      match r with
      | Some t => t
      | None => Pages.write (no_route (Pages.str arg))
      end
  | _ => Pages.too_few
  end.

Definition route_option (page i : Z) : string :=
  let q := String Ej.QUOTE EmptyString in
  let tab := String "009" EmptyString in
  tab +:+ tab +:+ "<option value=" +:+ q +:+ dec i +:+ q +:+ " " +:+
  (if i =? page then "selected" else "") +:+ "> " +:+ dec (i + 1) +:+ "</option>" +:+ Pages.lf.

Definition ej_static_route_table (e : Pages.env) (argv : list Ej.text) : outcome Ej.text :=
  match Ej.ejArgs argv (Ej.chars "%s") with
  | [Ej.EStr type] =>
      let page := atoi (default "0" (Pages.websGetVar e "route_page")) in
      if bool_decide (Pages.str type = "select")
      then Ret (mjoin ((fun i => Ej.chars (route_option page i)) <$> seqZ 0 STATIC_ROUTE_PAGE))
      else Ret []
  | _ => Pages.too_few
  end.

End Routes.
