(* ===== verification/RoutesProofs.v ===== *)
(** * Proofs about static routes

    The variable static_route is a table of twenty places: adding a route fills
    its place when the kernel has taken the route, deleting empties it, every
    other place stays, and the page shows the places. *)

From Stdlib Require Import ZArith Lia Ascii.
From stdpp Require Import base numbers sets gmap strings list.
From S2P Require Import Prelude CString NvramDrv Nvram Vars TextProofs NvparseProofs Validate ValidateProofs.
From S2P Require Import Ej Pages Forward ForwardProofs Routes.
Import Vars Validate Forward Routes ForwardProofs.
Import NvparseProofs(storable, unmirrored, byte_text_length, ntoa_length).
Import ValidateProofs(text_of, text_of_snoc).
Open Scope string_scope.
Open Scope Z_scope.
Open Scope list_scope.

Module RoutesProofs.

(** ** The words of a list, one after the other *)

Section Each.
Context {St : Type} (size : Z) (body : string -> St -> outcome St).

Fixpoint each (ws : list string) (st : St) : outcome St :=
  match ws with [] => Ret st | w :: ws => st ← body w st; each ws st end.

Definition fits_word (w : string) : Prop := w <> "" /\ avoids (is_char " ") w = true /\ strlen w < size.

Lemma foreach_step fuel w ws st : fits_word w ->
  foreach_loop (S fuel) size (w +:+ more_words ws) body st =
  (st ← body w st; foreach_loop fuel size (more_words ws) body st).
Proof.
  intros (Hw & Hb & Hl). cbn [foreach_loop].
  assert (skip (is_char " ") (w +:+ more_words ws) = w +:+ more_words ws) as ->.
  { destruct w as [|c w]; [done|]. apply avoids_cons in Hb as [Hc _]. by apply skip_none. }
  destruct (word_cut w ws Hb) as [-> ->].
  rewrite (proj2 (Z.leb_gt _ _)) by lia. by rewrite bool_decide_eq_false_2.
Qed.

Lemma foreach_blank fuel ws st :
  foreach_loop fuel size (more_words ws) body st =
  foreach_loop fuel size (match ws with [] => "" | w :: ws => w +:+ more_words ws end) body st.
Proof.
  destruct fuel; [done|]. destruct ws as [|w ws]; [done|]. cbn [more_words].
  change (" " +:+ w +:+ more_words ws) with (String " " (w +:+ more_words ws)). cbn [foreach_loop]. done.
Qed.

Lemma foreach_words ws : 0 < size -> Forall fits_word ws -> forall fuel st, (length ws < fuel)%nat ->
  foreach_loop fuel size (match ws with [] => "" | w :: ws => w +:+ more_words ws end) body st = each ws st.
Proof.
  intros Hs. induction 1 as [|w ws Hw Hws IH]; intros [|fuel] st Hf; cbn [length] in Hf; try lia.
  - cbn [foreach_loop skip upto each]. change (strlen "") with 0. by rewrite (proj2 (Z.leb_gt _ _)) by lia.
  - rewrite foreach_step by done. cbn [each]. destruct (body w st) as [st'| | |]; [|done..]. cbn [mbind outcome_bind].
    rewrite foreach_blank. apply IH. lia.
Qed.

Lemma foreach_text ws st : 0 < size -> Forall fits_word ws -> foreach size (text_of ws) body st = each ws st.
Proof.
  intros Hs Hws. unfold foreach. destruct ws as [|w ws].
  - change (text_of []) with "". apply (foreach_words [] Hs Hws). cbn. lia.
  - inversion Hws as [|? ? Hw Hrest]; subst. rewrite text_of_cons by apply Hw. apply (foreach_words (w :: ws) Hs Hws).
    rewrite slength_app. assert (length ws <= String.length (more_words ws))%nat.
    { clear. induction ws as [|x ws IH]; [done|]. cbn [more_words length]. rewrite !slength_app. cbn. lia. }
    destruct w; [by destruct Hw|]. cbn [length String.length]. lia.
Qed.
End Each.

(** ** Places *)

Record route := Route { r_dest : Z; r_mask : Z; r_gw : Z; r_metric : Z }.
#[export] Instance route_eq_dec : EqDecision route.
Proof. solve_decision. Defined.

Definition is_route (r : route) : Prop :=
  is_u32 (r_dest r) /\ is_u32 (r_mask r) /\ is_u32 (r_gw r) /\ 1 <= r_metric r <= 16.

Definition key_text (r : route) : string :=
  route_key (inet_ntoa (r_dest r)) (inet_ntoa (r_mask r)) (inet_ntoa (r_gw r)).
Definition full_text (r : route) : string :=
  route_text (inet_ntoa (r_dest r)) (inet_ntoa (r_mask r)) (inet_ntoa (r_gw r)) (dec (r_metric r)).
Definition place (o : option route) : string := match o with None => "$" | Some r => full_text r end.
Definition is_place (o : option route) : Prop := match o with None => True | Some r => is_route r end.

(** The variable holds the twenty places. *)
Definition holds (l : list (option route)) (s : vars) : Prop :=
  table s !! "static_route" = Some (text_of (place <$> l)) /\ length l = 20%nat /\ Forall is_place l.

Lemma ntoa_avoids_char c a : isdigit c = false -> c <> "."%char -> avoids (is_char c) (inet_ntoa a) = true.
Proof.
  intros Hc Hd. apply ntoa_avoids; [intros d; by apply digit_not|]. unfold is_char. by apply bool_decide_eq_false_2.
Qed.

#[local] Hint Resolve ntoa_avoids_char dec_avoids_char avoids_app_intro : words.

Lemma full_text_split r : is_route r -> split_route (full_text r) =
  Some (inet_ntoa (r_dest r), inet_ntoa (r_mask r), inet_ntoa (r_gw r), dec (r_metric r)).
Proof.
  intros _. unfold split_route, full_text, route_text.
  repeat (rewrite cut_field by auto with words; cbn [mbind option_bind]). done.
Qed.

Lemma dec_positive z : 0 <= z -> 0 < strlen (dec z).
Proof. intros Hz. destruct (dec_head z Hz) as (d & t & -> & _). rewrite strlen_cons. pose proof (strlen_nonneg t). lia. Qed.

Lemma full_text_length r : is_route r -> 10 < strlen (full_text r) < 60.
Proof.
  intros (_ & _ & _ & Hm). unfold full_text, route_text. rewrite !strlen_app. change (strlen ":") with 1.
  pose proof (ntoa_length (r_dest r)). pose proof (ntoa_length (r_mask r)). pose proof (ntoa_length (r_gw r)).
  pose proof (dec_digits_length 1 (r_metric r) ltac:(lia)).
  assert (forall a, 3 < strlen (inet_ntoa a)) as Hl.
  { intros a. unfold inet_ntoa. rewrite !strlen_app. change (strlen ".") with 1.
    pose proof (dec_positive (byte_at a 0) ltac:(pose proof (byte_at_range a 0); unfold is_u8 in *; lia)).
    pose proof (strlen_nonneg (dec (byte_at a 1))). pose proof (strlen_nonneg (dec (byte_at a 2))).
    pose proof (strlen_nonneg (dec (byte_at a 3))). lia. }
  pose proof (Hl (r_dest r)). pose proof (Hl (r_mask r)). pose proof (Hl (r_gw r)).
  pose proof (strlen_nonneg (dec (r_metric r))). lia.
Qed.

Lemma key_text_length r : is_route r -> strlen (key_text r) < 60.
Proof.
  intros _. unfold key_text, route_key. rewrite !strlen_app. change (strlen ":") with 1.
  pose proof (ntoa_length (r_dest r)). pose proof (ntoa_length (r_mask r)). pose proof (ntoa_length (r_gw r)). lia.
Qed.

Lemma fit_short n t : strlen t < n -> fit n t = Ret t.
Proof. intros Ht. unfold fit. by rewrite (proj2 (Z.leb_gt _ _)) by lia. Qed.

Lemma place_fits o : is_place o -> fits_word 60 (place o) /\ place o <> "".
Proof.
  intros Ho. assert (fits_word 60 (place o)) as Hf; [|split; [done|apply Hf]].
  destruct o as [r|]; [|by vm_compute]. pose proof (full_text_length r Ho) as Hl. split; [|split]; cbn [place].
  - intros E. rewrite E in Hl. change (strlen "") with 0 in Hl. lia.
  - destruct Ho as (_ & _ & _ & Hm). unfold full_text, route_text.
    rewrite !avoids_app, !ntoa_avoids_char, dec_avoids_char by (done || lia). done.
  - lia.
Qed.

Lemma places_fit size l : 60 <= size -> Forall is_place l -> Forall (fits_word size) (place <$> l).
Proof.
  intros Hs Hl. apply Forall_fmap, (Forall_impl _ _ _ Hl). intros o Ho. destruct (place_fits o Ho) as [(H1 & H2 & H3) _].
  split; [done|]. split; [done|]. lia.
Qed.

Lemma full_text_not_dollar r : is_route r -> full_text r <> "$".
Proof. intros Hr E. pose proof (full_text_length r Hr) as Hl. rewrite E in Hl. change (strlen "$") with 1 in Hl. lia. Qed.

Lemma word4_eq a b : is_u32 a -> is_u32 b -> inet_ntoa a = inet_ntoa b -> a = b.
Proof. intros Ha Hb E. apply (f_equal inet_aton) in E. rewrite !inet_roundtrip in E by done. by injection E. Qed.

Lemma full_text_inj a b : is_route a -> is_route b -> full_text a = full_text b -> a = b.
Proof.
  intros Ha Hb E. pose proof (full_text_split a Ha) as E1. rewrite E, full_text_split in E1 by done.
  destruct a, b, Ha as (? & ? & ? & ?), Hb as (? & ? & ? & ?). cbn in *. injection E1 as ? ? ? ?. f_equal; try (by apply word4_eq).
  apply dec_inj; lia || done.
Qed.

Lemma read_old_each ws : forall i old, (i + length ws <= 20)%nat -> length old = 20%nat -> Forall (fits_word 60) ws ->
  each (fun word '(i, old) => if (20 <=? i)%nat || (60 <=? strlen word) then Fault else Ret (S i, <[i := word]> old)) ws (i, old) =
  Ret ((i + length ws)%nat, take i old ++ ws ++ drop (i + length ws) old).
Proof.
  induction ws as [|w ws IH]; intros i old Hi Ho Hw; cbn [each length] in *.
  - cbn [app]. by rewrite Nat.add_0_r, take_drop.
  - inversion Hw as [|? ? (_ & _ & Hl) Hws]; subst. rewrite (proj2 (Nat.leb_gt 20 i)), (proj2 (Z.leb_gt _ _)) by lia.
    cbn [orb mbind outcome_bind]. rewrite IH by (rewrite ?length_insert; done || lia). f_equal. f_equal; [lia|].
    rewrite (take_S_r _ i w) by (rewrite list_lookup_insert_eq; [done|lia]).
    rewrite take_insert_ge, drop_insert_lt by lia. rewrite <- app_assoc. cbn [app].
    by replace (S i + length ws)%nat with (i + S (length ws))%nat by lia.
Qed.

Lemma read_old_places l : length l = 20%nat -> Forall is_place l ->
  read_old (text_of (place <$> l)) = Ret (place <$> l).
Proof.
  intros Hn Hl. unfold read_old. rewrite foreach_text by (lia || by apply places_fit).
  rewrite read_old_each by (rewrite ?length_fmap, ?length_replicate; lia || by apply places_fit).
  cbn [mbind outcome_bind take app]. rewrite drop_ge by (rewrite length_replicate, length_fmap; lia). by rewrite app_nil_r.
Qed.

(** ** Joining *)

Lemma join_old_text ws : Forall (fun w => w <> "") ws -> forall buf, strlen (buf +:+ more_words ws) < 1000 ->
  join_old ws buf = Ret (buf +:+ more_words ws).
Proof.
  induction 1 as [|w ws Hw _ IH]; intros buf Hb; cbn [join_old more_words] in *; [by rewrite string_app_nil_r|].
  unfold place_text. rewrite bool_decide_eq_false_2 by done. unfold fit. rewrite !strlen_app in *.
  pose proof (strlen_nonneg (more_words ws)). rewrite (proj2 (Z.leb_gt _ _)) by lia. cbn [mbind outcome_bind].
  rewrite IH by (rewrite !strlen_app; lia). by rewrite !string_app_assoc.
Qed.

Lemma old_text_places l : Forall is_place l -> strlen (text_of (place <$> l)) < 1000 ->
  old_text (place <$> l) = Ret (text_of (place <$> l)).
Proof.
  intros Hl Hs. assert (Forall (fun w => w <> "") (place <$> l)) as Hne
    by (apply Forall_fmap, (Forall_impl _ _ _ Hl); intros o Ho; by apply place_fits).
  destruct l as [|o l]; [done|]. inversion Hne as [|? ? H1 H2]; subst. rewrite fmap_cons in *.
  rewrite text_of_cons in * by done. cbn [old_text]. unfold place_text. rewrite bool_decide_eq_false_2 by done.
  unfold fit. rewrite strlen_app in Hs. pose proof (strlen_nonneg (more_words (place <$> l))).
  rewrite (proj2 (Z.leb_gt _ _)) by lia. cbn [mbind outcome_bind]. apply join_old_text; [done|]. rewrite strlen_app. lia.
Qed.

(** ** Searching *)

(** A route that counts as the same: its text starts with the addresses of the
    new one. *)
Definition clash (r r' : route) : Prop := starts_with (key_text r) (full_text r') <> None.

Definition occupied (l : list (option route)) (n : nat) : bool :=
  match l !! n with Some (Some _) => true | _ => false end.

(** What the loop from place [i] on says about the places [l]. *)
Definition found_ok (r : route) (k i : Z) (flag : bool) (l : list (option route)) (f : found) : Prop :=
  match f with
  | Same => i <= k /\ l !! Z.to_nat (k - i) = Some (Some r)
  | Elsewhere => exists j r', i + Z.of_nat j <> k /\ l !! j = Some (Some r') /\ clash r r'
  | New flag' => (forall j r', i + Z.of_nat j <> k -> l !! j = Some (Some r') -> ~ clash r r') /\
      (i <= k -> l !! Z.to_nat (k - i) <> Some (Some r)) /\
      flag' = flag || (i <=? k) && occupied l (Z.to_nat (k - i))
  end.

Lemma found_cons r k i flag flag1 o l f :
  (i <> k -> flag1 = flag) -> (forall r', o = Some r' -> i <> k -> ~ clash r r') -> (i = k -> o <> Some r) ->
  (i = k -> flag1 = flag || match o with Some _ => true | None => false end) ->
  found_ok r k (i + 1) flag1 l f -> found_ok r k i flag (o :: l) f.
Proof.
  intros Hf Hc Hn Hf1 Hm. destruct f as [| |flag']; cbn [found_ok] in *.
  - destruct Hm as [Hk Hm]. split; [lia|]. by replace (Z.to_nat (k - i)) with (S (Z.to_nat (k - (i + 1)))) by lia.
  - destruct Hm as (j & r' & Hj & Hjl & Hcl). exists (S j), r'. split; [lia|done].
  - destruct Hm as (Hm1 & Hm2 & ->). split; [|split].
    + intros [|j] r' Hj Hjl; [injection Hjl as ->; apply (Hc r' eq_refl); lia|]. apply (Hm1 j); [lia|done].
    + intros Hk. destruct (Z.eq_dec i k) as [->|Hik]; [rewrite Z.sub_diag; intros [= E]; by apply Hn|].
      replace (Z.to_nat (k - i)) with (S (Z.to_nat (k - (i + 1)))) by lia. apply Hm2. lia.
    + destruct (Z.eq_dec i k) as [->|Hik].
      * rewrite (Hf1 eq_refl), (proj2 (Z.leb_gt _ _)), Z.leb_refl, Z.sub_diag by lia.
        rewrite andb_false_l, orb_false_r. unfold occupied. by destruct o.
      * rewrite (Hf Hik). f_equal. destruct (Z.leb_spec i k); [|by rewrite (proj2 (Z.leb_gt _ _)) by lia].
        rewrite (proj2 (Z.leb_le _ _)) by lia. unfold occupied.
        by replace (Z.to_nat (k - i)) with (S (Z.to_nat (k - (i + 1)))) by lia.
Qed.

Lemma search_places r k l : is_route r -> Forall is_place l -> forall i flag,
  exists f, search_old (key_text r) (full_text r) k i (place <$> l) flag = Ret f /\ found_ok r k i flag l f.
Proof.
  intros Hr. induction 1 as [|o l Ho Hl IH]; intros i flag; cbn [fmap list_fmap search_old].
  - exists (New flag). split; [done|]. split; [intros j r'; by rewrite lookup_nil|]. split; [intros _; by rewrite lookup_nil|].
    unfold occupied. by rewrite lookup_nil, andb_false_r, orb_false_r.
  - destruct o as [r'|]; cbn [place].
    + rewrite bool_decide_eq_false_2 by (by apply full_text_not_dollar). destruct (Z.eqb_spec i k) as [->|Hik].
      * unfold fit. pose proof (full_text_length r Hr). rewrite (proj2 (Z.leb_gt _ _)) by lia. cbn [mbind outcome_bind].
        case_bool_decide as E.
        -- exists Same. split; [done|]. split; [lia|]. rewrite Z.sub_diag. apply full_text_inj in E as ->; done.
        -- destruct (IH (k + 1) true) as (f & -> & Hm). exists f. split; [done|]. revert Hm.
           apply found_cons; [by intros []|by intros ? ? []|by intros _ [= ->]|by rewrite orb_true_r].
      * case_bool_decide as E.
        -- exists Elsewhere. split; [done|]. exists 0%nat, r'. split; [lia|done].
        -- destruct (IH (i + 1) flag) as (f & -> & Hm). exists f. split; [done|]. revert Hm.
           apply found_cons; [done|intros ? [= <-] _ Hc; by apply Hc|by intros ->..].
    + rewrite bool_decide_eq_true_2 by done. destruct (IH (i + 1) flag) as (f & -> & Hm). exists f. split; [done|].
      revert Hm. apply found_cons; try done. intros _. by rewrite orb_false_r.
Qed.

(** ** Removing a route from the kernel *)

Section Kernel.
Context `{Driver} {K : Type} `{Router K}.

Definition kernel_add (r : route) (k : K) : K :=
  route_add (inet_ntoa (r_dest r)) (inet_ntoa (r_mask r)) (inet_ntoa (r_gw r)) (dec (r_metric r)) k.
Definition kernel_del (o : option (option route)) (k : K) : K :=
  match o with
  | Some (Some r) => route_del (inet_ntoa (r_dest r)) (inet_ntoa (r_mask r)) (inet_ntoa (r_gw r)) (dec (r_metric r)) k
  | _ => k
  end.

Lemma del_route_place o k : is_place o -> del_route (place o) k = Ret (kernel_del (Some o) k).
Proof.
  intros Ho. unfold del_route. assert (place o = text_of [place o]) as -> .
  { rewrite text_of_cons by (by apply place_fits). cbn [more_words]. by rewrite string_app_nil_r. }
  rewrite foreach_text; [|lia|].
  - cbn [each]. destruct o as [r|]; cbn [place kernel_del].
    + rewrite bool_decide_eq_false_2 by (by apply full_text_not_dollar). by rewrite full_text_split.
    + done.
  - destruct (place_fits o Ho) as [(H1 & H2 & H3) _]. repeat constructor; try done. lia.
Qed.
(** ** The form *)

Definition sent_address (form : gmap string string) (prefix : string) (a : Z) : Prop :=
  forall i, 0 <= i < 4 -> websGetVar form (prefix +:+ "_" +:+ dec i) = Some (dec (byte_at a i)).

(** The fields hold the route and the number of its place. *)
Definition sent (form : gmap string string) (r : route) (k : nat) : Prop :=
  sent_address form "route_ipaddr" (r_dest r) /\ sent_address form "route_netmask" (r_mask r) /\
  sent_address form "route_gateway" (r_gw r) /\ websGetVar form "route_page" = Some (dec (Z.of_nat k)) /\
  websGetVar form "route_metric" = Some (dec (r_metric r)).

Lemma byte_length a i : 0 < strlen (dec (byte_at a i)) <= 3.
Proof. pose proof (byte_at_range a i). split; [apply dec_positive; lia|apply byte_text_length; lia]. Qed.

Lemma address_sent form prefix a : strlen prefix <= 20 -> sent_address form prefix a ->
  address_field form prefix = Ret (Some (inet_ntoa a)).
Proof.
  intros Hp Ha. unfold address_field. cbn [merge].
  assert (forall i, 0 <= i < 4 -> buffer 30 (prefix +:+ "_" +:+ dec i) = prefix +:+ "_" +:+ dec i) as Hb.
  { intros i Hi. apply buffer_all. rewrite !strlen_app. change (strlen "_") with 1.
    pose proof (dec_digits_length 0 i ltac:(lia)). lia. }
  rewrite !Hb, !Ha by lia. pose proof (byte_length a 0). pose proof (byte_length a 1). pose proof (byte_length a 2).
  pose proof (byte_length a 3). unfold fit.
  repeat (rewrite (proj2 (Z.leb_gt _ _)) by (rewrite !strlen_app; change (strlen "") with 0; change (strlen ".") with 1; lia);
          cbn [mbind outcome_bind]).
  do 2 f_equal. unfold inet_ntoa. change ("" +:+ dec (byte_at a 0) +:+ ".") with (dec (byte_at a 0) +:+ ".").
  by rewrite !string_app_assoc, string_app_nil_r.
Qed.

Lemma valid_address a p : is_u32 a -> valid_ipaddr no_limits (inet_ntoa a) p = Ret (true, p).
Proof.
  intros Ha. unfold valid_ipaddr, legal_ipaddr. rewrite scan_ntoa, inet_roundtrip by done. done.
Qed.

Lemma unset_address_ntoa a : is_u32 a -> unset_address (inet_ntoa a) = bool_decide (a = 0).
Proof.
  intros Ha. unfold unset_address. rewrite (bool_decide_eq_false_2 (inet_ntoa a = "")), orb_false_r.
  - apply bool_decide_ext. change "0.0.0.0" with (inet_ntoa 0). split; [by apply word4_eq|by intros ->].
  - intros E%(f_equal strlen). unfold inet_ntoa in E. rewrite !strlen_app in E. pose proof (byte_length a 0).
    change (strlen "") with 0 in E. change (strlen ".") with 1 in E. pose proof (strlen_nonneg (dec (byte_at a 1))).
    pose proof (strlen_nonneg (dec (byte_at a 2))). pose proof (strlen_nonneg (dec (byte_at a 3))). lia.
Qed.

(** A form with a route that can be set comes to the words of the variable. *)
Lemma validate_reaches form r k (st : state K) : is_route r -> r_gw r <> 0 -> legal_netmask (inet_ntoa (r_mask r)) = true ->
  sent form r k ->
  validate_static_route form st =
  add_route (inet_ntoa (r_dest r)) (inet_ntoa (r_mask r)) (inet_ntoa (r_gw r)) (dec (r_metric r)) (dec (Z.of_nat k))
    (mk_state (pg st) false (kern st)).
Proof.
  intros (Hd & Hm & Hg & Hn) Hg0 Hmask (S1 & S2 & S3 & S4 & S5). unfold validate_static_route.
  rewrite (address_sent form "route_ipaddr" (r_dest r)) by (done || by vm_compute). cbn [mbind outcome_bind].
  rewrite (address_sent form "route_netmask" (r_mask r)) by (done || by vm_compute). cbn [mbind outcome_bind].
  rewrite (address_sent form "route_gateway" (r_gw r)) by (done || by vm_compute). cbn [mbind outcome_bind].
  rewrite S4, S5, atoi_dec by lia. rewrite (proj2 (Z.ltb_ge _ _)), (proj2 (Z.ltb_ge 16 _)) by lia.
  assert (forall a, inet_ntoa a <> "") as Hne.
  { intros a E%(f_equal strlen). unfold inet_ntoa in E. rewrite !strlen_app in E. pose proof (byte_length a 0).
    change (strlen "") with 0 in E. unfold strlen in *. lia. }
  rewrite !(bool_decide_eq_false_2 (inet_ntoa _ = "")) by apply Hne. cbn [orb].
  rewrite (unset_address_ntoa (r_gw r)), bool_decide_eq_false_2, andb_false_r by done.
  unfold valid_route. rewrite valid_address by done. cbn [mbind outcome_bind negb]. unfold valid_netmask. rewrite Hmask.
  cbn [tested negb]. rewrite valid_address by done. done.
Qed.
(** ** Adding *)

Lemma place_insert (l : list (option route)) (k : nat) r : <[k := full_text r]> (place <$> l) = place <$> <[k := Some r]> l.
Proof. by rewrite list_fmap_insert. Qed.

Lemma static_route_unmirrored : unmirrored "static_route".
Proof. unfold unmirrored, Lib.nvram_converts. by repeat constructor. Qed.

(** What becomes of a route [r] for place [k] of the places [l]. *)
Definition outcome_of (r : route) (k : nat) (l : list (option route)) (st st' : state K) : Prop :=
  (* it is there already *)
  l !! k = Some (Some r) /\ static_route_added st' = true /\ table (nv (pg st')) = table (nv (pg st)) /\ kern st' = kern st \/
  (* another place counts as the same *)
  (exists j r', j <> k /\ l !! j = Some (Some r') /\ clash r r') /\
    static_route_added st' = false /\ table (nv (pg st')) = table (nv (pg st)) /\ kern st' = kern st \/
  (* it is new: the kernel decides *)
  (forall j r', j <> k -> l !! j = Some (Some r') -> ~ clash r r') /\ l !! k <> Some (Some r) /\
    exists n, entry_in_route_table (inet_ntoa (r_dest r)) (inet_ntoa (r_mask r)) (inet_ntoa (r_gw r)) (kernel_add r (kern st)) = Ret n /\
    if n <? 1 then static_route_added st' = false /\ table (nv (pg st')) = table (nv (pg st)) /\ kern st' = kernel_add r (kern st)
    else static_route_added st' = true /\ holds (<[k := Some r]> l) (nv (pg st')) /\
         kern st' = kernel_del (l !! k) (kernel_add r (kern st)).

Lemma add_route_outcome r k l n (st : state K) : is_route r -> r_gw r <> 0 -> (k < 20)%nat ->
  static_route_added st = false -> holds l (nv (pg st)) -> storable "static_route" (nv (pg st)) ->
  entry_in_route_table (inet_ntoa (r_dest r)) (inet_ntoa (r_mask r)) (inet_ntoa (r_gw r)) (kernel_add r (kern st)) = Ret n ->
  strlen (text_of (place <$> <[k := Some r]> l)) < 1000 ->
  exists st', add_route (inet_ntoa (r_dest r)) (inet_ntoa (r_mask r)) (inet_ntoa (r_gw r)) (dec (r_metric r)) (dec (Z.of_nat k)) st = Ret st' /\
    error_value (pg st') = error_value (pg st) /\ outcome_of r k l st st'.
Proof.
  intros Hr Hg Hk Hf (Ht & Hn & Hl) Hst He Hlen. unfold add_route, get_var, nvram_get, peek. rewrite Ht.
  cbn [default from_option id]. rewrite read_old_places by done. cbn [mbind outcome_bind].
  fold (key_text r). rewrite (fit_short 60 (key_text r)) by (by apply key_text_length).
  cbn [mbind outcome_bind]. rewrite atoi_dec by lia. fold (full_text r).
  destruct (search_places r (Z.of_nat k) l Hr Hl 0 false) as (f & -> & Hm). cbn [mbind outcome_bind].
  destruct f as [| |flag]; cbn [found_ok] in Hm.
  - rewrite Z.sub_0_r, Nat2Z.id in Hm. eexists. split; [done|]. split; [done|]. left. split; [apply Hm|]. done.
  - eexists. split; [done|]. split; [done|]. right; left. destruct Hm as (j & r' & Hj & Hjl & Hc). split; [|done].
    exists j, r'. split; [lia|done].
  - destruct Hm as (Hm1 & Hm2 & Hfl'). rewrite Z.sub_0_r, Nat2Z.id in Hm2, Hfl'.
    rewrite unset_address_ntoa, bool_decide_eq_false_2 by (done || apply Hr). cbn [kern]. fold (kernel_add r (kern st)). rewrite He.
    cbn [mbind outcome_bind].
    assert (forall st', (if n <? 1 then static_route_added st' = false /\ table (nv (pg st')) = table (nv (pg st)) /\ kern st' = kernel_add r (kern st)
      else static_route_added st' = true /\ holds (<[k := Some r]> l) (nv (pg st')) /\ kern st' = kernel_del (l !! k) (kernel_add r (kern st))) ->
      outcome_of r k l st st') as Hout.
    { intros st' Hn'. right; right. split; [intros j r' Hj; apply Hm1; lia|]. split; [apply Hm2; lia|]. by exists n. }
    destruct (n <? 1); [eexists; split; [done|]; split; [done|]; by apply Hout|].
    rewrite (proj2 (Z.leb_le 0 _)), Nat2Z.id by lia. rewrite list_lookup_fmap.
    destruct (l !! k) as [o|] eqn:Eo; [|apply lookup_ge_None in Eo; lia]. cbn [fmap option_fmap option_map deref mbind outcome_bind].
    assert ((if (flag : bool) then del_route (place o) (kernel_add r (kern st)) else Ret (kernel_add r (kern st))) =
      Ret (kernel_del (Some o) (kernel_add r (kern st)))) as ->.
    { rewrite Hfl'. unfold occupied. rewrite Eo, (proj2 (Z.leb_le _ _)) by lia. destruct o; [|done].
      apply del_route_place. by apply (Forall_lookup_1 _ _ _ _ Hl Eo). }
    cbn [mbind outcome_bind]. rewrite (fit_short 60 (full_text r)) by (by apply full_text_length).
    cbn [mbind outcome_bind]. rewrite place_insert.
    assert (Forall is_place (<[k := Some r]> l)) as Hl' by (by apply Forall_insert).
    rewrite old_text_places by done. cbn [mbind outcome_bind]. eexists. split; [done|].
    rewrite save_inserts by (done || apply static_route_unmirrored). split; [done|]. apply Hout. cbn [static_route_added pg kern nv].
    split; [done|]. split; [|done]. split; [cbn [table]; by rewrite lookup_insert_eq|]. by rewrite length_insert.
Qed.
(** ** Deleting *)

(** The length of a list of words with a blank behind each. *)
Fixpoint spaced (ws : list string) : Z := match ws with [] => 0 | w :: ws => strlen w + 1 + spaced ws end.

Lemma spaced_app a b : spaced (a ++ b) = spaced a + spaced b.
Proof. induction a as [|w a IH]; [done|]. cbn [app spaced]. lia. Qed.

Lemma more_words_total ws : strlen (more_words ws) = spaced ws.
Proof. induction ws as [|w ws IH]; [done|]. cbn [more_words spaced]. rewrite !strlen_app, IH. change (strlen " ") with 1. lia. Qed.

Lemma text_of_total w ws : w <> "" -> strlen (text_of (w :: ws)) = spaced (w :: ws) - 1.
Proof. intros Hw. rewrite text_of_cons, strlen_app, more_words_total by done. cbn [spaced]. lia. Qed.

Lemma text_of_le ws : Forall (fun w => w <> "") ws -> strlen (text_of ws) <= spaced ws.
Proof. destruct 1; [done|]. rewrite text_of_total by done. lia. Qed.

Lemma add_word_text ws w : Forall (fun w => w <> "") ws -> spaced ws <= 1000 ->
  add_word 1000 (text_of ws) w = Ret (text_of (ws ++ [w])).
Proof.
  intros Hws Ht. pose proof (text_of_le ws Hws). unfold add_word. rewrite (proj2 (Z.ltb_ge _ _)) by lia. by rewrite text_of_snoc.
Qed.

Lemma places_nonempty l : Forall is_place l -> Forall (fun w => w <> "") (place <$> l).
Proof. intros Hl. apply Forall_fmap, (Forall_impl _ _ _ Hl). intros o Ho. by apply place_fits. Qed.

Lemma spaced_nonneg ws : 0 <= spaced ws.
Proof. induction ws as [|w ws IH]; [done|]. cbn [spaced]. pose proof (strlen_nonneg w). lia. Qed.

Lemma deleted_shorter (k : nat) l : Forall is_place l -> strlen (text_of (place <$> l)) < 1000 ->
  strlen (text_of (place <$> <[k := None]> l)) < 1000.
Proof.
  intros Hl Hs. assert (spaced (place <$> <[k := None]> l) <= spaced (place <$> l)) as Ht.
  { clear Hs. revert k. induction Hl as [|o l Ho _ IH]; intros k; [done|]. destruct k as [|k].
    - change (<[0%nat := None]> (o :: l)) with (None :: l). rewrite !fmap_cons. cbn [spaced]. change (strlen (place None)) with 1. pose proof (proj2 (place_fits o Ho)) as Hne.
      destruct (place o) as [|c t]; [done|]. rewrite strlen_cons. pose proof (strlen_nonneg t). lia.
    - change (<[S k := None]> (o :: l)) with (o :: <[k := None]> l). rewrite !fmap_cons. cbn [spaced]. specialize (IH k). lia. }
  pose proof (places_nonempty l Hl) as H1. assert (Forall is_place (<[k := None]> l)) as Hl' by (by apply Forall_insert).
  pose proof (places_nonempty _ Hl') as H2. destruct l as [|o l]; [done|].
  destruct (<[k := None]> (o :: l)) as [|o' l'] eqn:E; [by destruct k|]. rewrite !fmap_cons in *.
  inversion H1; inversion H2; subst. rewrite text_of_total in * by done. lia.
Qed.

(** Behind the place nothing is left out. *)
Lemma delete_after k l : Forall is_place l -> 0 <= k < 2 ^ 31 -> forall i ws kk, k < i -> Forall (fun w => w <> "") ws ->
  spaced ws + spaced (place <$> l) <= 1000 ->
  each (delete_word (Some (dec k))) (place <$> l) (i, text_of ws, kk) =
  Ret (i + Z.of_nat (length l), text_of (ws ++ (place <$> l)), kk).
Proof.
  intros Hl Hk. induction Hl as [|o l Ho Hl IH]; intros i ws kk Hi Hws Ht; cbn [fmap list_fmap each length].
  - by rewrite app_nil_r, Z.add_0_r.
  - cbn [fmap list_fmap spaced] in Ht. pose proof (spaced_nonneg (place <$> l)). pose proof (strlen_nonneg (place o)).
    cbn [delete_word deref mbind outcome_bind]. rewrite atoi_dec, (proj2 (Z.eqb_neq _ _)), add_word_text by (done || lia).
    cbn [mbind outcome_bind]. rewrite IH.
    + rewrite <- app_assoc. do 3 f_equal. lia.
    + lia.
    + apply Forall_app. split; [done|]. repeat constructor. by apply place_fits.
    + rewrite spaced_app. cbn [spaced]. lia.
Qed.

Lemma delete_words (k : nat) l : Forall is_place l -> (k < length l)%nat -> forall i ws kk, 0 <= i -> i + Z.of_nat k < 2 ^ 31 ->
  Forall (fun w => w <> "") ws -> spaced ws + spaced (place <$> l) <= 1000 ->
  each (delete_word (Some (dec (i + Z.of_nat k)))) (place <$> l) (i, text_of ws, kk) =
  Ret (i + Z.of_nat (length l) + 1, text_of (ws ++ (place <$> <[k := None]> l)), kernel_del (l !! k) kk).
Proof.
  intros Hl. revert k. induction Hl as [|o l Ho Hl IH]; intros k Hk i ws kk Hi Hb Hws Ht; cbn [length] in Hk; [lia|].
  cbn [fmap list_fmap each length spaced] in *. pose proof (spaced_nonneg (place <$> l)). pose proof (strlen_nonneg (place o)).
  assert (1 <= strlen (place o)) as Hp1.
  { destruct (place_fits o Ho) as [_ Hne]. destruct (place o) as [|c t]; [done|]. rewrite strlen_cons.
    pose proof (strlen_nonneg t). lia. }
  cbn [delete_word deref mbind outcome_bind]. rewrite atoi_dec by lia. destruct k as [|k].
  - rewrite Z.add_0_r, Z.eqb_refl, del_route_place by done. cbn [mbind outcome_bind].
    rewrite add_word_text by (done || lia). cbn [mbind outcome_bind]. rewrite delete_after by
      (done || lia || (apply Forall_app; split; [done|by repeat constructor]) || (rewrite spaced_app; cbn [spaced]; change (strlen "$") with 1; lia)).
    rewrite <- app_assoc. do 3 f_equal. lia.
  - rewrite (proj2 (Z.eqb_neq _ _)) by lia. rewrite add_word_text by (done || lia). cbn [mbind outcome_bind].
    replace (i + Z.of_nat (S k)) with (i + 1 + Z.of_nat k) by lia. rewrite IH.
    + rewrite <- app_assoc. do 3 f_equal. lia.
    + lia.
    + lia.
    + lia.
    + apply Forall_app. split; [done|]. repeat constructor. by apply place_fits.
    + rewrite spaced_app. cbn [spaced]. lia.
Qed.
End Kernel.

(** ** Showing *)

Definition shown_route (arg : string) (count : Z) (o : option (option route)) : string :=
  match o with
  | Some (Some r) =>
      if bool_decide (arg = "ipaddr") then dec (byte_at (r_dest r) count)
      else if bool_decide (arg = "netmask") then dec (byte_at (r_mask r) count)
      else if bool_decide (arg = "gateway") then dec (byte_at (r_gw r) count)
      else if bool_decide (arg = "metric") then dec (r_metric r)
      else ""
  | _ => no_route arg
  end.

Lemma format_plain t : avoids (is_char "%") t = true -> Pages.write_format (Ej.chars t) = Ret (Ej.chars t).
Proof.
  induction t as [|c t IH]; [done|]. intros [Hc Ht]%avoids_cons. change (Ej.chars (String c t)) with (c :: Ej.chars t).
  cbn [Pages.write_format]. by rewrite Hc, IH.
Qed.

Lemma single_byte a count : 0 <= count < 4 -> Pages.get_single_ip (inet_ntoa a) count = Ret (byte_at a count).
Proof.
  intros Hc. unfold Pages.get_single_ip. rewrite (proj2 (Z.leb_le _ _)), (proj2 (Z.ltb_lt _ _)), scan_ntoa by lia. cbn [andb].
  assert (count = 0 \/ count = 1 \/ count = 2 \/ count = 3) as [-> |[-> |[-> | ->]]] by lia; done.
Qed.

Lemma show_place arg count o : is_place o -> 0 <= count < 4 ->
  from_option id (Ret (Ej.chars (no_route arg))) (show_route arg count (place o)) = Ret (Ej.chars (shown_route arg count (Some o))).
Proof.
  intros Ho Hc. unfold show_route. destruct o as [r|]; cbn [place]; [|by rewrite bool_decide_eq_true_2].
  rewrite bool_decide_eq_false_2 by (by apply full_text_not_dollar). rewrite full_text_split by done. cbn [mbind option_bind].
  cbn [shown_route]. rewrite !single_byte by done. cbn [mbind outcome_bind].
  destruct Ho as (_ & _ & _ & Hm).
  repeat (case_bool_decide; [subst; cbn [from_option id]; try done|]).
  - apply format_plain, dec_avoids_char; [done|lia].
  - cbn [from_option]. unfold no_route. by rewrite !bool_decide_eq_false_2.
Qed.

(** The page shows the place whose number the form has. *)
Definition shows (l : list (option route)) (s : vars) : Prop :=
  forall e k arg count, Pages.nvram_get e = (fun n => peek n s) -> Pages.websGetVar e "route_page" = Some (dec (Z.of_nat k)) ->
  (k < 20)%nat -> 0 <= count < 4 ->
  ej_static_route_setting e [Ej.chars arg; Ej.chars (dec count)] = Ret (Ej.chars (shown_route arg count (l !! k))).

Lemma holds_shows l s : holds l s -> shows l s.
Proof.
  intros (Ht & Hn & Hl) e k arg count He Hw Hk Hc. unfold ej_static_route_setting. rewrite table_args by lia. cbv zeta.
  rewrite Hw, He, str_chars. unfold peek. rewrite Ht. cbn [default from_option id]. rewrite atoi_dec by lia.
  rewrite lookup_text by (apply (Forall_impl _ _ _ (places_fit 60 l ltac:(lia) Hl)); intros w (H1 & H2 & H3); split_and!; [done|done|lia]).
  rewrite (proj2 (Z.ltb_ge _ _)), Nat2Z.id, list_lookup_fmap by lia. cbn [mbind outcome_bind].
  destruct (l !! k) as [o|] eqn:Eo; [|apply lookup_ge_None in Eo; lia]. cbn [fmap option_fmap option_map mbind option_bind].
  pose proof (show_place arg count o (Forall_lookup_1 _ _ _ _ Hl Eo) Hc) as Hs.
  destruct (show_route arg count (place o)); cbn [from_option id] in Hs; [done|]. unfold Pages.write. done.
Qed.

(** ** The page *)

Section Page.
Context `{Driver} {K : Type} `{Router K}.

(** The places after a route was set. *)
Lemma set_route form r k l n (st : state K) :
  is_route r -> r_gw r <> 0 -> legal_netmask (inet_ntoa (r_mask r)) = true -> (k < 20)%nat -> sent form r k ->
  holds l (nv (pg st)) -> storable "static_route" (nv (pg st)) ->
  entry_in_route_table (inet_ntoa (r_dest r)) (inet_ntoa (r_mask r)) (inet_ntoa (r_gw r)) (kernel_add r (kern st)) = Ret n ->
  strlen (text_of (place <$> <[k := Some r]> l)) < 1000 ->
  exists st', validate_static_route form st = Ret st' /\ error_value (pg st') = error_value (pg st) /\
    outcome_of r k l st st' /\
    holds (if static_route_added st' then <[k := Some r]> l else l) (nv (pg st')).
Proof.
  intros Hr Hg Hm Hk Hs Hh Hst He Hlen. rewrite (validate_reaches form r k) by done.
  destruct (add_route_outcome r k l n (mk_state (pg st) false (kern st)) Hr Hg Hk eq_refl Hh Hst He Hlen) as (st' & E & Ev & Ho).
  exists st'. split; [done|]. split; [done|]. split; [exact Ho|].
  assert (forall s, table s = table (nv (pg st)) -> holds l s) as Hsame by (intros s Es; unfold holds; by rewrite Es).
  destruct Ho as [(Hl & -> & Et & _)|[(_ & -> & Et & _)|(_ & _ & n' & _ & Ho)]].
  - rewrite list_insert_id by done. by apply Hsame.
  - by apply Hsame.
  - destruct (n' <? 1); [destruct Ho as (-> & Et & _); by apply Hsame|]. by destruct Ho as (-> & Hh' & _).
Qed.

(** C27. Setting a static route: the validator returns, and the route is there
    already; or it is refused because another place holds a route that counts as
    the same; or the kernel has not taken it and no place has changed; or it is in
    its place, the route that was there is removed from the kernel, every other
    place is as before, and the page shows the places. static_route_added tells
    success. *)
Theorem static_route_set form r k l n (st : state K) :
  is_route r -> r_gw r <> 0 -> legal_netmask (inet_ntoa (r_mask r)) = true -> (k < 20)%nat -> sent form r k ->
  holds l (nv (pg st)) -> storable "static_route" (nv (pg st)) ->
  entry_in_route_table (inet_ntoa (r_dest r)) (inet_ntoa (r_mask r)) (inet_ntoa (r_gw r)) (kernel_add r (kern st)) = Ret n ->
  strlen (text_of (place <$> <[k := Some r]> l)) < 1000 ->
  exists st', validate_static_route form st = Ret st' /\ error_value (pg st') = error_value (pg st) /\
    outcome_of r k l st st' /\
    shows (if static_route_added st' then <[k := Some r]> l else l) (nv (pg st')).
Proof.
  intros Hr Hg Hm Hk Hs Hh Hst He Hlen.
  destruct (set_route form r k l n st Hr Hg Hm Hk Hs Hh Hst He Hlen) as (st' & E & Ev & Ho & Hh').
  exists st'. split; [done|]. split; [done|]. split; [exact Ho|]. by apply holds_shows.
Qed.

(** Deleting a static route empties its place and removes the route from the
    kernel; every other place is as before, and the page shows them. *)
Theorem static_route_deleted form k l (st : state K) :
  websGetVar form "route_page" = Some (dec (Z.of_nat k)) -> (k < 20)%nat ->
  holds l (nv (pg st)) -> storable "static_route" (nv (pg st)) -> strlen (text_of (place <$> l)) < 1000 ->
  exists st', delete_static_route form st = Ret st' /\ holds (<[k := None]> l) (nv (pg st')) /\
    kern st' = kernel_del (l !! k) (kern st) /\ static_route_added st' = static_route_added st /\
    shows (<[k := None]> l) (nv (pg st')).
Proof.
  intros Hw Hk (Ht & Hn & Hl) Hst Hlen. unfold delete_static_route, get_var, nvram_get, peek. rewrite Ht, Hw.
  cbn [default from_option id]. rewrite foreach_text by (lia || by apply (places_fit 256)).
  assert (forall ws, ws = place <$> l -> spaced ws <= 1000) as Htot.
  { intros ws ->. pose proof (places_nonempty l Hl) as Hne. destruct l as [|o l]; [done|]. rewrite fmap_cons in *.
    inversion Hne; subst. rewrite text_of_total in Hlen by done. lia. }
  pose proof (delete_words k l Hl ltac:(lia) 0 [] (kern st) ltac:(lia) ltac:(lia) ltac:(constructor) (Htot _ eq_refl)) as Ed.
  change (text_of []) with "" in Ed. change (0 + Z.of_nat k) with (Z.of_nat k) in Ed. rewrite Ed. clear Ed.
  cbn [mbind outcome_bind app].
  assert (Forall is_place (<[k := None]> l)) as Hl' by (by apply Forall_insert).
  assert (strlen (text_of (place <$> <[k := None]> l)) < 1000) as Hlen' by (by apply deleted_shorter).
  rewrite buffer_all, save_inserts by (done || apply static_route_unmirrored).
  eexists. split; [done|]. cbn [pg nv kern static_route_added].
  match goal with |- holds _ ?s /\ _ => assert (holds (<[k := None]> l) s) as Hh end.
  { split; [cbn [table]; by rewrite lookup_insert_eq|]. by rewrite length_insert. }
  split; [done|]. split; [done|]. split; [done|]. by apply holds_shows.
Qed.
End Page.

(** ** Runs *)

Module DemoRoutes.
#[export] Instance driver : Driver := {| unlocked _ _ := true; room _ _ _ := true |}.

(** A kernel that keeps the lines it prints. *)
Definition tab : string := String "009" "".
Definition line (ip mask gw m : string) : string :=
  "br0" +:+ tab +:+ hex8 (inet_addr ip) +:+ tab +:+ hex8 (inet_addr gw) +:+ tab +:+ "0003" +:+ tab +:+ "0" +:+ tab +:+ "0" +:+
  tab +:+ dec (atoi m) +:+ tab +:+ hex8 (inet_addr mask).
#[export] Instance router : Router (list string) := {|
  route_add ip mask gw m k := k ++ [line ip mask gw m];
  route_del ip mask gw m k := filter (fun x => x <> line ip mask gw m) k;
  proc_net_route k := Some ("Iface" :: k)
|}.

Definition address (a b c d : Z) : Z := word4 a b c d.
Definition mask24 : Z := address 255 255 255 0.
Definition old_route : route := Route (address 10 0 1 0) mask24 (address 192 168 1 10) 2.
Definition new_route : route := Route (address 10 0 2 0) mask24 (address 192 168 1 1) 1.

Definition address_fields (prefix : string) (a : Z) : list (string * string) :=
  (fun i => (prefix +:+ "_" +:+ dec i, dec (byte_at a i))) <$> [0; 1; 2; 3].
Definition form_of (r : route) (page metric : string) : gmap string string := list_to_map (
  address_fields "route_ipaddr" (r_dest r) ++ address_fields "route_netmask" (r_mask r) ++
  address_fields "route_gateway" (r_gw r) ++ [("route_page", page); ("route_metric", metric)]).

Definition places (o : option route) : list (option route) := <[3%nat := o]> (replicate 20 None).
Definition start (l : list (option route)) (k : list string) : state (list string) :=
  mk_state (mk_page (mk_vars {["static_route" := text_of (place <$> l)]} "") false) true k.

Lemma route_ok a b c d e f g h m : is_u8 a -> is_u8 b -> is_u8 c -> is_u8 d -> is_u8 e -> is_u8 f -> is_u8 g -> is_u8 h ->
  1 <= m <= 16 -> is_route (Route (address a b c d) mask24 (address e f g h) m).
Proof. intros. unfold is_route, address. cbn [r_dest r_mask r_gw r_metric]. unfold is_u8, is_u32, mask24, address, word4 in *. lia. Qed.

Lemma old_route_ok : is_route old_route.
Proof. apply route_ok; unfold is_u8; lia. Qed.
Lemma new_route_ok : is_route new_route.
Proof. apply route_ok; unfold is_u8; lia. Qed.
Lemma start_holds k : holds (places (Some old_route)) (nv (pg (start (places (Some old_route)) k))).
Proof.
  unfold start. cbn [pg nv table]. split; [cbn [table]; apply lookup_singleton_eq|]. split; [done|]. unfold places. apply Forall_insert; [|exact old_route_ok].
  by apply Forall_replicate.
Qed.
Lemma new_route_sent : sent (form_of new_route "3" "1") new_route 3.
Proof.
  split_and!; try reflexivity; intros i Hi;
    (assert (i = 0 \/ i = 1 \/ i = 2 \/ i = 3) as [-> |[-> |[-> | ->]]] by lia); reflexivity.
Qed.
End DemoRoutes.
Import DemoRoutes.

(** Applied to a place that holds another route: the kernel takes the new one and
    drops the old one. *)
Lemma static_route_set_witness : exists st',
  validate_static_route (form_of new_route "3" "1") (start (places (Some old_route)) []) = Ret st' /\
  static_route_added st' = true /\
  shows (<[3%nat := Some new_route]> (places (Some old_route))) (nv (pg st')).
Proof.
  destruct (static_route_set (form_of new_route "3" "1") new_route 3 (places (Some old_route)) 1
    (start (places (Some old_route)) [])) as (st' & Ev & _ & Ho & Hs).
  - exact new_route_ok.
  - by vm_compute.
  - vm_compute. reflexivity.
  - lia.
  - exact new_route_sent.
  - apply start_holds.
  - split; done.
  - vm_compute. reflexivity.
  - vm_compute. reflexivity.
  - exists st'. split; [exact Ev|]. assert (static_route_added st' = true) as E; [|rewrite E in Hs; split; [exact E|exact Hs]].
    destruct Ho as [(_ & E & _)|[((j & r' & Hj & Hjl & Hc) & _)|(_ & _ & n & En & Ho)]]; [exact E| |].
    + exfalso. unfold places in Hjl. rewrite list_lookup_insert_ne in Hjl by done.
      apply lookup_replicate_1 in Hjl as [Hjl _]. discriminate Hjl.
    + vm_compute in En. injection En as <-. apply Ho.
Defined.

Lemma static_route_deleted_witness : exists st',
  delete_static_route (form_of new_route "3" "1") (start (places (Some old_route)) []) = Ret st' /\
  holds (<[3%nat := None]> (places (Some old_route))) (nv (pg st')).
Proof.
  destruct (static_route_deleted (form_of new_route "3" "1") 3 (places (Some old_route)) (start (places (Some old_route)) []))
    as (st' & Ev & Hh & _).
  - reflexivity.
  - lia.
  - apply start_holds.
  - split; done.
  - vm_compute. reflexivity.
  - exists st'. split; [exact Ev|exact Hh].
Defined.

(** ** Flaws *)

(** A route through 192.168.1.1 is refused beside one through 192.168.1.10: the
    texts are compared as prefixes. *)
Definition other_gateway : route := Route (address 10 0 1 0) mask24 (address 192 168 1 1) 1.
Lemma prefix_refused : other_gateway <> old_route /\ exists st',
  validate_static_route (form_of other_gateway "5" "1") (start (places (Some old_route)) []) = Ret st' /\
  static_route_added st' = false /\ kern st' = [].
Proof. split; [by vm_compute|]. eexists. split; [vm_compute; reflexivity|]. split; reflexivity. Qed.

(** The number of the place is not tested before it is used as an index, nor
    whether the form has one. *)
Lemma page_unchecked :
  validate_static_route (form_of new_route "20" "1") (start (places None) []) = Fault /\
  validate_static_route (form_of new_route "-1" "1") (start (places None) []) = Fault /\
  delete_static_route ∅ (start (places None) []) = Fault.
Proof. split; [|split]; vm_compute; reflexivity. Qed.

(** The metric is a text: a long one overflows its place, one with blanks becomes
    several words, and one with a conversion is written as a format. *)
Definition long_metric : string := String.string_of_list_ascii (replicate 40 "0"%char) +:+ "1".
Lemma metric_unchecked :
  validate_static_route (form_of new_route "3" long_metric) (start (places None) []) = Fault /\
  (exists st', validate_static_route (form_of new_route "3" "1 a") (start (places None) []) = Ret st' /\
     static_route_added st' = true /\ validate_static_route (form_of old_route "4" "1") st' = Fault) /\
  show_route "metric" 0 (route_text "1" "2" "3" "1%n") = Some Fault.
Proof.
  split; [vm_compute; reflexivity|]. split; [|vm_compute; reflexivity].
  eexists. split; [vm_compute; reflexivity|]. split; vm_compute; reflexivity.
Qed.

(** Twenty routes with the longest addresses do not fit the text that is stored. *)
Definition wide (i : Z) : route := Route (address 210 210 (100 + i) 100) (address 255 255 255 252) (address 192 168 100 100) 16.
Lemma full_table_overflows :
  validate_static_route (form_of (wide 19) "19" "16") (start (((fun i => Some (wide i)) <$> seqZ 0 19) ++ [None]) []) = Fault.
Proof. vm_compute. reflexivity. Qed.

End RoutesProofs.
