(* ===== verification/Apply.v ===== *)
(** * The actions of apply.cgi (src/router/shared/broadcom.c)

    [Module Apply]: what the web server does with a form after the request was
    accepted: apply_cgi, which stores the values and starts what makes them
    effective, and gozila_cgi for the buttons that act at once, with their tables
    of actions. What leaves the process (pages, signals to init, the commit, files)
    is a list of effects. The functions of single pages behind the tables and the
    loop over the table of variables are parameters (class [Pages_of]). *)

From Stdlib Require Import ZArith Lia Ascii.
From stdpp Require Import base numbers sets gmap strings list.
From S2P Require Import Prelude CString Vars Validate Forward.
Import Vars Validate.
Open Scope string_scope.
Open Scope Z_scope.
Open Scope list_scope.

Module Apply.

(** ** Effects *)

Inductive effect :=
  | Do_ej (path : string)             (* the page is sent *)
  | Flush                             (* websDone *)
  | Sleep (seconds : Z)
  | Commit                            (* sys_commit *)
  | Sys_restart | Sys_reboot | Service_restart | Sys_stop   (* signals to init *)
  | Go (name : string)                (* a function of a page runs *)
  | Run (args : list string)          (* eval *)
  | Write_file (path text : string) | Remove_file (path : string)
  | Await_idle                        (* waits until being_busy is gone or 0 *)
  | Vcc_config_init.

#[export] Instance effect_eq_dec : EqDecision effect.
Proof. solve_decision. Defined.

Inductive action := NOTHING | REBOOT | RESTART | SERVICE_RESTART | REFRESH.
#[export] Instance action_eq_dec : EqDecision action.
Proof. solve_decision. Defined.

(** ** Tables *)

Record gozila_action := Gozila {
  g_name : string; g_type : string; g_service : string; g_sleep_time : Z; g_action : action; g_go : option string
}.

(** The entries of this build, with WIRELESS_SUPPORT, MPPPOE_SUPPORT,
    IPPPOE_SUPPORT and DIAG_SUPPORT. *)
Definition gozila_actions : list gozila_action := [
  Gozila "index" "clone_mac" "" 1 REFRESH (Some "clone_mac");
  Gozila "index" "apply" "" 20 RESTART None;
  Gozila "index" "savebuf" "" 0 REFRESH (Some "save_vcc_tmpbuf");
  Gozila "WanMAC" "clone_mac" "" 1 REFRESH (Some "clone_mac");
  Gozila "WanMAC" "clone_mac" "" 1 REFRESH (Some "clone_mac");
  Gozila "DHCPTable" "delete" "" 2 REFRESH (Some "delete_leases");
  Gozila "Status" "release" "" 2 REFRESH (Some "dhcp_release");
  Gozila "Status" "renew" "" 3 REFRESH (Some "dhcp_renew");
  Gozila "Status" "Connect" "start_pppoe" 1 RESTART None;
  Gozila "Status_Router" "connect" "connect_ppp" 30 SERVICE_RESTART None;
  Gozila "Status_Router" "disconnect" "disconnect_ppp" 6 SERVICE_RESTART None;
  Gozila "Status_Router" "release" "dhcp_release" 6 SERVICE_RESTART None;
  Gozila "Status_Router" "renew" "dhcp_renew" 20 SERVICE_RESTART None;
  Gozila "Status_Router" "connect_multippp" "connect_multi_ppp" 30 SERVICE_RESTART None;
  Gozila "Status_Router" "disconnect_multippp" "disconnect_multi_ppp" 4 SERVICE_RESTART None;
  Gozila "Diagnostics" "startping" "start_ping" 5 NOTHING (Some "diag_ping_start");
  Gozila "ipsec" "connect" "" 5 REFRESH (Some "connect_ipsec");
  Gozila "ipsec" "disconnect" "" 5 REFRESH (Some "disconnect_ipsec");
  Gozila "ipsec" "delete" "ipsec" 1 REFRESH (Some "ipsec_delete_tunnel");
  Gozila "Log_incoming" "pagerefresh" "" 1 REFRESH (Some "syslog_refresh");
  Gozila "Log_incoming" "pagepre" "" 1 REFRESH (Some "syslog_pagepre");
  Gozila "Log_incoming" "pagenext" "" 1 REFRESH (Some "syslog_pagenext");
  Gozila "Log_incoming" "pageclear" "" 1 REFRESH (Some "syslog_clear");
  Gozila "Management" "upnp_select_connect" "forward_upnp" 2 SERVICE_RESTART None;
  Gozila "Status" "Disconnect" "stop_pppoe" 2 SERVICE_RESTART (Some "stop_ppp");
  Gozila "Status" "Connect_pppoe" "start_pppoe" 1 RESTART None;
  Gozila "Status" "Disconnect_pppoe" "stop_pppoe" 2 SERVICE_RESTART (Some "stop_ppp");
  Gozila "Status" "Connect_pptp" "start_pptp" 1 RESTART None;
  Gozila "Status" "Disconnect_pptp" "stop_pptp" 2 SERVICE_RESTART (Some "stop_ppp");
  Gozila "Status" "Connect_heartbeat" "start_heartbeat" 1 RESTART None;
  Gozila "Status" "Disconnect_heartbeat" "stop_heartbeat" 2 SERVICE_RESTART (Some "stop_ppp");
  Gozila "Status_Router" "Disconnect" "stop_pppoe" 2 SERVICE_RESTART (Some "stop_ppp");
  Gozila "Status_Router" "Connect_pppoe" "start_pppoe" 1 RESTART None;
  Gozila "Status_Router" "Disconnect_pppoe" "stop_pppoe" 2 SERVICE_RESTART (Some "stop_ppp");
  Gozila "Status_Router" "Connect_pptp" "start_pptp" 1 RESTART None;
  Gozila "Status_Router" "Disconnect_pptp" "stop_pptp" 2 SERVICE_RESTART (Some "stop_ppp");
  Gozila "Status_Router" "Connect_heartbeat" "start_heartbeat" 1 RESTART None;
  Gozila "Status_Router" "Disconnect_heartbeat" "stop_heartbeat" 2 SERVICE_RESTART (Some "stop_ppp");
  Gozila "Filters" "save" "filters" 1 SERVICE_RESTART (Some "save_policy");
  Gozila "Filters" "delete" "filters" 1 SERVICE_RESTART (Some "single_delete_policy");
  Gozila "FilterSummary" "delete" "filters" 1 SERVICE_RESTART (Some "summary_delete_policy");
  Gozila "Routing" "del" "static_route_del" 1 REFRESH (Some "delete_static_route");
  Gozila "RouteStatic" "del" "static_route_del" 1 REFRESH (Some "delete_static_route");
  Gozila "WL_WEPTable" "key_64" "" 1 REFRESH (Some "generate_key_64");
  Gozila "WL_WEPTable" "key_128" "" 1 REFRESH (Some "generate_key_128");
  Gozila "WL_WPATable" "key_64" "" 1 REFRESH (Some "generate_key_64");
  Gozila "WL_WPATable" "key_128" "" 1 REFRESH (Some "generate_key_128");
  Gozila "WL_ActiveTable" "add_mac" "" 1 REFRESH (Some "add_active_mac");
  Gozila "Wireless_Connected" "add_mac" "" 1 REFRESH (Some "add_active_mac");
  Gozila "Port_Services" "save_services" "filters" 2 SERVICE_RESTART (Some "save_services_port");
  Gozila "Ping" "start" "start_ping" 1 SERVICE_RESTART (Some "diag_ping_start");
  Gozila "Ping" "stop" "" 0 REFRESH (Some "diag_ping_stop");
  Gozila "Ping" "clear" "" 0 REFRESH (Some "diag_ping_clear");
  Gozila "Traceroute" "start" "start_traceroute" 1 SERVICE_RESTART (Some "diag_traceroute_start");
  Gozila "Traceroute" "stop" "" 0 REFRESH (Some "diag_traceroute_stop");
  Gozila "Traceroute" "clear" "" 0 REFRESH (Some "diag_traceroute_clear");
  Gozila "Diagnostics" "startdiag" "start_diagtest" 0 NOTHING (Some "diagtool_start")].

Record apply_action := Action {
  a_name : string; a_service : string; a_sleep_time : Z; a_action : action; a_go : option string
}.
Definition apply_actions : list apply_action := [
  Action "index" "" 15 RESTART None;
  Action "PVC_Selection" "pvc_select" 0 SERVICE_RESTART None;
  Action "WanMAC" "clone_mac" 2 SERVICE_RESTART None;
  Action "OnePage" "" 0 RESTART None;
  Action "Security" "" 1 RESTART None;
  Action "Log" "email_alert" 0 SERVICE_RESTART None;
  Action "ipsec" "ipsec" 10 SERVICE_RESTART None;
  Action "ipsecadv" "ipsecadv" 0 REFRESH None;
  Action "qos" "qos" 5 SERVICE_RESTART None;
  Action "basic_qos" "basic_qos" 5 SERVICE_RESTART None;
  Action "System" "" 0 RESTART None;
  Action "DHCP" "dhcp" 0 SERVICE_RESTART None;
  Action "WL_WEPTable" "" 0 RESTART None;
  Action "WL_WPATable" "wireless" 12 SERVICE_RESTART None;
  Action "DMZ" "filters" 0 SERVICE_RESTART None;
  Action "Filters" "filters" 0 SERVICE_RESTART None;
  Action "FilterIPMAC" "filters" 0 SERVICE_RESTART None;
  Action "FilterIP" "filters" 0 SERVICE_RESTART None;
  Action "FilterMAC" "filters" 0 SERVICE_RESTART None;
  Action "FilterPort" "filters" 0 SERVICE_RESTART None;
  Action "VPN" "filters" 0 SERVICE_RESTART None;
  Action "Firewall" "filters" 0 SERVICE_RESTART None;
  Action "Expose" "filters" 0 SERVICE_RESTART None;
  Action "Forward" "forward" 0 SERVICE_RESTART None;
  Action "VServer" "forward" 0 SERVICE_RESTART None;
  Action "Triggering" "filters" 0 SERVICE_RESTART None;
  Action "Forward_UPnP" "forward_upnp" 0 SERVICE_RESTART None;
  Action "Routing" "static_route_add" 0 SERVICE_RESTART None;
  Action "Diagnostics" "diagnostic" 0 REFRESH None;
  Action "DDNS" "ddns" 4 SERVICE_RESTART (Some "ddns_save_value");
  Action "Wireless" "wireless" 0 SERVICE_RESTART None;
  Action "Wireless_Basic" "wireless" 12 SERVICE_RESTART None;
  Action "Wireless_Advanced" "wireless" 12 SERVICE_RESTART None;
  Action "Wireless_MAC" "wireless" 12 SERVICE_RESTART None;
  Action "WL_FilterTable" "wireless" 12 SERVICE_RESTART None;
  Action "dhcp_reserved" "dhcp_reserved_ip" 0 NOTHING None;
  Action "Management" "snmpd" 0 RESTART None].

Definition handle_gozila_action (name type : option string) : option gozila_action :=
  match name, type with
  | Some name, Some type =>
      snd <$> list_find (fun v => g_name v = name /\ g_type v = type) gozila_actions
  | _, _ => None
  end.
Definition handle_apply_action (name : string) : option apply_action :=
  snd <$> list_find (fun v => a_name v = name) apply_actions.

(** ** The process *)

Record web (W : Type) := mk_web {
  pg : page;                    (* the variables and error_value *)
  static_route_added : bool;
  gozila_flag : bool;           (* gozila_action *)
  world : W;                    (* what the functions of the pages keep *)
  trace : list effect
}.
Arguments mk_web {W} _ _ _ _ _.
Arguments pg {W} _.
Arguments static_route_added {W} _.
Arguments gozila_flag {W} _.
Arguments world {W} _.
Arguments trace {W} _.

(** The functions behind the tables, with the value they return; the loop over the
    table of variables; the files that are read, the state of the line and the
    globals autodetect and connection; and the end of gozila_cgi, which resets
    generate_key and clone_wan_mac. *)
Class Pages_of (W : Type) := {
  run_go : string -> gmap string string -> page -> W -> outcome (Z * page * W);
  validate_all : gmap string string -> page -> bool -> W -> outcome (page * bool * W);
  file_contents : W -> string -> option string;
  check_adsl_status : W -> bool;
  autodetect : W -> string;
  connection : W -> string;
  reset_keys : W -> W
}.

Section Web.
Context `{Driver} {W : Type} `{Pages_of W} (form : gmap string string).
Local Notation websGetVar := (websGetVar form).

Definition emit (l : list effect) (w : web W) : web W :=
  mk_web (pg w) (static_route_added w) (gozila_flag w) (world w) (trace w ++ l).
Definition set_page (p : page) (w : web W) : web W :=
  mk_web p (static_route_added w) (gozila_flag w) (world w) (trace w).
Definition set (n v : string) (w : web W) : web W := set_page (save n v (pg w)) w.
Definition set_error (b : bool) (w : web W) : web W := set_page (mk_page (nv (pg w)) b) w.
Definition set_gozila (b : bool) (w : web W) : web W :=
  mk_web (pg w) (static_route_added w) b (world w) (trace w).

(** [nvram_set(n, NULL)] removes the variable. *)
Definition set_or_unset (n : string) (v : option string) (w : web W) : web W :=
  match v with
  | Some v => set n v w
  | None => if unlocked (table (nv (pg w))) n
            then set_page (mk_page (nvram_unset n (nv (pg w))) (error_value (pg w))) w else w
  end.

Definition get (n : string) (w : web W) : string * web W :=
  let '(v, p) := Forward.get_var n (pg w) in (v, set_page p w).

Definition go (f : option string) (w : web W) : outcome (web W) :=
  match f with
  | None => Ret w
  | Some f =>
      '(_, p, x) ← run_go f form (pg w) (world w);
      Ret (mk_web p (static_route_added w) (gozila_flag w) x (trace w ++ [Go f]))
  end.

Definition file_to_buf (path : string) (len : Z) (w : web W) : outcome (option string) :=
  match file_contents (world w) path with
  | None => Ret None
  | Some "" => Ret None
  | Some t => if len <=? strlen t then Fault else Ret (Some t)
  end.

Definition page_and (path : string) (seconds : Z) : list effect := [Do_ej path; Flush; Sleep seconds].

(** ** Buttons that act at once *)

Definition equals (s : string) (o : option string) : bool := bool_decide (o = Some s).
Definition one_of_types (l : list string) (o : option string) : bool :=
  match o with Some t => bool_decide (t ∈ l) | None => false end.

(** From [readonly_action] on: [sprintf(path, "%s.asp", submit_button)] where
    [path_size] bytes are; a NULL pointer prints as "(null)". *)
Definition refresh (path_size : Z) (submit_button : option string) (w : web W) : outcome (web W) :=
  path ← fit path_size (default "(null)" submit_button +:+ ".asp");
  Ret (emit [Do_ej path; Flush] w).

(** What follows the action: the effects, and whether the page is shown again. A
    NULL button is compared when the action is REFRESH, a NULL type for ipsec. *)
Definition gozila_effects (submit_button submit_type : option string) (sleep_time : Z) (a : action)
    : outcome (list effect * bool) :=
  let b := fun s => equals s submit_button in
  match a with
  | REFRESH =>
      match submit_button, submit_type with
      | None, _ => Fault
      | Some "ipsec", None => Fault
      | _, _ =>
          if b "ipsec" && equals "connect" submit_type then Ret (page_and "ConnectSuccess.asp" 10, false)
          else if b "ipsec" && equals "disconnect" submit_type then Ret (page_and "DisconnectSuccess.asp" 8, false)
          else Ret ([Sleep sleep_time], true)
      end
  | SERVICE_RESTART =>
      let done := fun l => Ret (Commit :: Service_restart :: l, false) in
      if b "Status_Router" && one_of_types ["connect"; "connect_multippp"] submit_type
      then done (page_and "ConnectSuccess.asp" sleep_time)
      else if b "Status_Router" && one_of_types ["disconnect"; "disconnect_multippp"] submit_type
      then done (page_and "DisconnectSuccess.asp" sleep_time)
      else if b "Status_Router" && equals "release" submit_type then done (page_and "ReleaseSuccess.asp" sleep_time)
      else if b "Status_Router" && equals "renew" submit_type then done (page_and "RenewSuccess.asp" sleep_time)
      else if b "FilterSummary" then done (page_and "Success_adv.asp" 2)
      else Ret ([Commit; Service_restart; Sleep sleep_time], true)
  | RESTART =>
      if b "index" && equals "apply" submit_type
      then Ret (Commit :: Sys_restart :: page_and "ApplySuccess.asp" sleep_time, false)
      else Ret ([Commit; Sys_restart], true)
  | NOTHING | REBOOT => Ret ([], true)
  end.

(** The variables that are set before an action. *)
Definition gozila_prepare (act : gozila_action) (submit_button submit_type : option string) (w : web W) : web W :=
  let w := set "action_service" (g_service act) w in
  let w := if one_of_types ["connect"; "disconnect"; "release"; "renew"; "clone_mac"; "connect_multippp";
                            "disconnect_multippp"] submit_type
           then set "wan_post_connection" (connection (world w)) w else w in
  if equals "Management" submit_button && equals "upnp_select_connect" submit_type
  then set_or_unset "upnp_active_connection" (websGetVar "upnp_pvc_connection") w else w.

(** The label [last]. *)
Definition gozila_end (w : web W) : web W :=
  mk_web (pg w) (static_route_added w) false (reset_keys (world w)) (trace w).

Definition gozila_cgi (path_size remote_flag : Z) (w : web W) : outcome (web W) :=
  let w := set_gozila true w in
  let submit_button := websGetVar "submit_button" in
  let submit_type := websGetVar "submit_type" in
  let w := set "action_service_arg1" "" (set "action_service" "" w) in
  let act := handle_gozila_action submit_button submit_type in
  if remote_flag =? 1 then w ← refresh path_size submit_button w; Ret (gozila_end w) else
  match act with
  | None =>
      '(l, again) ← gozila_effects submit_button submit_type 0 REFRESH;
      let w := emit l w in
      w ← (if (again : bool) then refresh path_size submit_button w else Ret w);
      Ret (gozila_end w)
  | Some act =>
      let w := gozila_prepare act submit_button submit_type w in
      if equals "ipsec" submit_button && equals "delete" submit_type then
        w ← go (g_go act) (emit [Do_ej "DeleteSuccess.asp"; Flush] w); Ret (gozila_end w)
      else
        w ← go (g_go act) w;
        '(l, again) ← gozila_effects submit_button submit_type (g_sleep_time act) (g_action act);
        let w := emit l w in
        w ← (if (again : bool) then refresh path_size submit_button w else Ret w);
        Ret (gozila_end w)
  end.

(** ** Applying the values of a form *)

Definition strncmp_eq (s t : string) : bool := bool_decide (starts_with t s <> None).

(** [pre_lanip] and [pre_lanmask], of 18 bytes each. *)
Definition lan_address (w : web W) : outcome (string * string * web W) :=
  let '(a, w) := get "lan_ipaddr" w in
  a ← fit 18 a;
  let '(m, w) := get "lan_netmask" w in
  m ← fit 18 m;
  Ret (a, m, w).

(** The entry of the page: its function runs; the time to sleep and the action. *)
Definition run_action (submit_button : string) (w : web W) : outcome (Z * action * web W) :=
  match handle_apply_action submit_button with
  | Some act =>
      let w := set "action_service" (if bool_decide (a_action act = SERVICE_RESTART) then a_service act else "") w in
      w ← go (a_go act) w;
      Ret (a_sleep_time act, a_action act, w)
  | None => Ret (1, RESTART, set "action_service" "" w)
  end.

(** The values are stored: the time to sleep and the action that follows. *)
Definition apply_values (submit_button : string) (need_commit : Z) (w : web W) : outcome (Z * action * web W) :=
  '(p, added, x) ← validate_all form (pg w) (static_route_added w) (world w);
  let w := mk_web p added (gozila_flag w) x (trace w) in
  '(sleep_time, a, w) ← run_action submit_button w;
  let w := if static_route_added w then w else set_error true w in
  Ret (sleep_time, a, if negb (need_commit =? 0) && static_route_added w then emit [Commit] w else w).

(** [Rebootvalidate]: the user is asked again; the router stops and starts, or
    reboots. *)
Definition reboot_validate (w : web W) : outcome (web W) :=
  let type := default "" (websGetVar "submit_type") in
  match websGetVar "reboot_username", websGetVar "reboot_password" with
  | Some user, Some password =>
      let '(u, w) := get "http_username" w in
      let '(pw, w') := get "http_passwd" w in
      if bool_decide (user = u) then
        if bool_decide (password = pw) then
          if bool_decide (type = "HRebootvalidate")
          then Ret (emit [Do_ej "Hard_reboot_validate_ok.asp"; Flush; Sys_reboot] w')
          else if bool_decide (type = "SRebootvalidate")
          then Ret (emit ([Do_ej "Soft_reboot_validate_ok.asp"; Flush; Await_idle; Write_file "/tmp/adsl_action" "down";
                           Sys_stop; Sleep 10; Sys_restart] ++
                          (if check_adsl_status (world w')
                           then [Vcc_config_init; Sleep (if bool_decide (autodetect (world w') = "1") then 60 else 40)]
                           else [Sleep 10])) w')
          else Ret w'
        else Ret (emit (page_and "Reboot_validate_fail.asp" 2) w')
      else Ret (emit (page_and "Reboot_validate_fail.asp" 2) w)
  | _, _ => Ret w
  end.

Definition action_effect (a : action) : list effect :=
  match a with
  | RESTART => [Sys_restart]
  | REBOOT => [Sys_reboot]
  | SERVICE_RESTART => [Service_restart]
  | NOTHING | REFRESH => []
  end.

(** From the label [setaction] to the end. *)
Definition set_action (submit_button : string) (sleep_time : Z) (a : action) (w : web W) : web W :=
  emit (action_effect a ++
        (if bool_decide (submit_button = "index") then
           if check_adsl_status (world w)
           then [Vcc_config_init; Sleep (if bool_decide (autodetect (world w) = "1") then 60 else 40)]
           else [Sleep 10]
         else [Sleep sleep_time])) w.

(** The page that tells the result, from the label [footer] on. [pre] is the
    address of the LAN before, which has no value unless the values were applied. *)
Definition footer (submit_button value : string) (pre : option (string * string)) (sleep_time : Z) (a : action)
    (w : web W) : outcome (web W) :=
  busy ← file_to_buf "/var/run/being_busy" 5 w;
  if equals "1" busy then
    Ret (emit ([Write_file "/var/run/httpd_nosignal" ""] ++ action_effect a ++ page_and "Busy.asp" 40 ++
               [Remove_file "/var/run/httpd_nosignal"]) w)
  else
  let w := match busy with Some _ => emit [Remove_file "/var/run/httpd_nosignal"] w | None => w end in
  if bool_decide (submit_button = "Factory_Defaults") && bool_decide (value = "Restore")
  then Ret (set_action submit_button sleep_time a (emit (page_and "Success_r_s.asp" 2) w)) else
  let a := if bool_decide (submit_button = "Factory_Defaults") then REFRESH else a in
  '(changed, w) ←
    (if bool_decide (submit_button = "index") then
       '(ip, mask, w) ← lan_address w;
       '(ip0, mask0) ← deref pre;
       Ret (negb (bool_decide (ip = ip0) && bool_decide (mask = mask0)), w)
     else Ret (false, w));
  if (changed : bool) then Ret (set_action submit_button sleep_time a (emit [Do_ej "Success_adv.asp"; Flush] w)) else
  if bool_decide (submit_button = "ipsecadv") || bool_decide (submit_button = "Cloud")
  then Ret (emit [Do_ej "Success_adv.asp"] w) else
  let small := bool_decide (websGetVar "small_screen" <> None) in
  let path := if error_value (pg w) then if small then "Fail_s.asp" else "Fail.asp"
              else if small then "Success_s.asp" else "Success.asp" in
  Ret (set_action submit_button sleep_time a (emit [Do_ej path; Flush] w)).

(** [query]: whether the request has one. *)
Definition apply_cgi (path_size : Z) (query : bool) (remote_flag : Z) (w : web W) : outcome (web W) :=
  let w := mk_web (mk_page (nv (pg w)) false) true (gozila_flag w) (world w) (trace w) in
  if equals "gozila_cgi" (websGetVar "change_action") then gozila_cgi path_size remote_flag w else
  let submit_button := default "" (websGetVar "submit_button") in
  if remote_flag =? 1 then refresh path_size (Some submit_button) w else
  if negb query then footer submit_button (default "" (websGetVar "change_action")) None 0 NOTHING w else
  let need_commit := atoi (default "1" (websGetVar "commit")) in
  let value := default "" (websGetVar "action") in
  if bool_decide (value = "Apply") then
    '(ip, mask, w) ← lan_address w;
    '(sleep_time, a, w) ← apply_values submit_button need_commit w;
    footer submit_button value (Some (ip, mask)) sleep_time a w
  else if strncmp_eq value "Restore" then
    let w := emit [Write_file "/tmp/action" "ACT_SW_RESTORE"] w in
    let w := set "restore_defaults" "1" w in
    footer submit_button value None 0 REBOOT (emit [Run ["killall"; "-9"; "udhcpc"]; Commit] w)
  else if strncmp_eq value "Rebootvalidate" then reboot_validate w
  else if bool_decide (value = "Reboot") then footer submit_button value None 0 REBOOT w
  else footer submit_button value None 0 NOTHING (set_error true w).
End Web.

End Apply.
