(* ===== verification/ApplyProofs.v ===== *)
(** * Proofs about the actions of apply.cgi

    A user with read-only access gets a page and changes nothing; a form that is
    applied is committed before anything is restarted, and not at all when a route
    was refused; functions of pages run only from the tables. *)

From Stdlib Require Import ZArith Lia Ascii.
From stdpp Require Import base numbers sets gmap strings list.
From S2P Require Import Prelude CString NvramDrv Nvram Vars TextProofs NvparseProofs Validate ValidateProofs.
From S2P Require Import Forward ForwardProofs Apply.
Import Vars Validate Apply.
Import NvparseProofs(unmirrored, mirror_none).
Open Scope string_scope.
Open Scope Z_scope.
Open Scope list_scope.

Module ApplyProofs.

Section Proofs.
Context `{Driver} {W : Type} `{Pages_of W}.

(** ** Variables that a write leaves alone *)

Lemma save_other n v m p : unmirrored n -> m <> n -> table (nv (save n v p)) !! m = table (nv p) !! m.
Proof.
  intros Hu Hm. unfold save, nvram_set. destruct (unlocked _ _); [|done]. cbn [snd nv table]. rewrite mirror_none by done.
  unfold put. destruct (room _ _ _); [|done]. by apply lookup_insert_ne.
Qed.

Lemma service_unmirrored : unmirrored "action_service" /\ unmirrored "action_service_arg1".
Proof. split; unfold unmirrored, Lib.nvram_converts; by repeat constructor. Qed.

(** ** Read-only access *)

(** The variables a request may change before it is known to be read-only. *)
Definition service_vars : list string := ["action_service"; "action_service_arg1"].

Lemma refresh_ok path_size b w : strlen (default "(null)" b +:+ ".asp") < path_size ->
  refresh (W := W) path_size b w = Ret (emit [Do_ej (default "(null)" b +:+ ".asp"); Flush] w).
Proof. intros Hs. unfold refresh, fit. by rewrite (proj2 (Z.leb_gt _ _)) by lia. Qed.

Lemma gozila_read_only form path_size w :
  strlen (default "(null)" (websGetVar form "submit_button") +:+ ".asp") < path_size -> exists w',
  gozila_cgi form path_size 1 w = Ret w' /\
  trace w' = trace w ++ [Do_ej (default "(null)" (websGetVar form "submit_button") +:+ ".asp"); Flush] /\
  world w' = reset_keys (world w) /\
  forall n, n ∉ service_vars -> table (nv (pg w')) !! n = table (nv (pg w)) !! n.
Proof.
  intros Hs. unfold gozila_cgi. change (1 =? 1) with true. cbn iota. rewrite refresh_ok by done. cbn [mbind outcome_bind].
  eexists. split; [done|]. split; [done|]. split; [done|]. intros n Hn. unfold service_vars in Hn.
  cbn [gozila_end emit pg set set_page set_gozila]. destruct service_unmirrored as [U1 U2].
  rewrite !save_other by (done || set_solver). done.
Qed.

(** C16. A user with read-only access changes nothing: whatever the form asks for,
    a page is sent, nothing is committed, restarted or run, and every variable
    keeps its value but the two that name the service to restart. *)
Theorem read_only_changes_nothing form path_size query w :
  let button := websGetVar form "submit_button" in
  let path := (if equals "gozila_cgi" (websGetVar form "change_action") then default "(null)" button
               else default "" button) +:+ ".asp" in
  strlen path < path_size -> exists w', apply_cgi form path_size query 1 w = Ret w' /\
    trace w' = trace w ++ [Do_ej path; Flush] /\
    forall n, n ∉ service_vars -> table (nv (pg w')) !! n = table (nv (pg w)) !! n.
Proof.
  intros button path Hs. unfold apply_cgi. destruct (equals "gozila_cgi" _) eqn:E.
  - unfold path in *. destruct (gozila_read_only form path_size
      (mk_web (mk_page (nv (pg w)) false) true (gozila_flag w) (world w) (trace w)) Hs) as (w' & -> & Ht & _ & Hv).
    exists w'. by split.
  - change (1 =? 1) with true. cbn iota. rewrite refresh_ok by done. eexists. split; [done|]. split; [done|]. done.
Qed.

(** ** Applying a form *)

(** The pages that are not treated apart. *)
Definition plain_button (b : string) : bool :=
  negb (bool_decide (b ∈ ["Factory_Defaults"; "index"; "ipsecadv"; "Cloud"])).

(** What the table says of a page: the function that runs, the time to sleep, the
    action. *)
Definition planned (b : string) : option string * Z * action :=
  match handle_apply_action b with
  | Some act => (a_go act, a_sleep_time act, a_action act)
  | None => (None, 1, RESTART)
  end.

Definition result_page (form : gmap string string) (error : bool) : string :=
  let small := bool_decide (websGetVar form "small_screen" <> None) in
  if error then if small then "Fail_s.asp" else "Fail.asp" else if small then "Success_s.asp" else "Success.asp".

Definition BUSY : string := "/var/run/being_busy".
Definition NOSIGNAL : string := "/var/run/httpd_nosignal".

(** The end of a request for such a page. *)
Definition ending (form : gmap string string) (busy : option string) (error : bool) (sleep_time : Z) (a : action) : list effect :=
  if equals "1" busy
  then [Write_file NOSIGNAL ""] ++ action_effect a ++ page_and "Busy.asp" 40 ++ [Remove_file NOSIGNAL]
  else (match busy with Some _ => [Remove_file NOSIGNAL] | None => [] end) ++
       [Do_ej (result_page form error); Flush] ++ action_effect a ++ [Sleep sleep_time].

Lemma plain_button_neq b : plain_button b = true ->
  b <> "Factory_Defaults" /\ b <> "index" /\ b <> "ipsecadv" /\ b <> "Cloud".
Proof.
  unfold plain_button. intros Hb%negb_true_iff%bool_decide_eq_false_1. split_and!; intros ->; apply Hb; set_solver.
Qed.

Lemma footer_plain form b value pre sleep_time a (w : web W) busy : plain_button b = true ->
  file_to_buf BUSY 5 w = Ret busy -> exists w',
  footer form b value pre sleep_time a w = Ret w' /\ pg w' = pg w /\ world w' = world w /\
  trace w' = trace w ++ ending form busy (error_value (pg w)) sleep_time a.
Proof.
  intros (H1 & H2 & H3 & H4)%plain_button_neq Hb. unfold footer. fold BUSY. rewrite Hb. cbn [mbind outcome_bind].
  rewrite !(bool_decide_eq_false_2 (b = _)) by done. cbn [andb orb]. unfold ending. destruct (equals "1" busy).
  - eexists. split; [done|]. done.
  - destruct busy; cbn [mbind outcome_bind]; eexists; (split; [done|]); (split; [done|]); (split; [done|]);
      unfold set_action; rewrite bool_decide_eq_false_2 by done; cbn [emit trace pg]; by rewrite <- !app_assoc.
Qed.

(** The page after the address of the LAN was read. *)
Definition read_lan (p : page) : page := mk_page (mk_vars (table (nv p)) (peek "lan_netmask" (nv p))) (error_value p).

Lemma lan_address_ok (w : web W) : strlen (peek "lan_ipaddr" (nv (pg w))) < 18 -> strlen (peek "lan_netmask" (nv (pg w))) < 18 ->
  lan_address w = Ret (peek "lan_ipaddr" (nv (pg w)), peek "lan_netmask" (nv (pg w)), set_page (read_lan (pg w)) w).
Proof.
  intros H1 H2. unfold lan_address, get, Forward.get_var, nvram_get, fit. cbn [set_page pg nv]. unfold peek in *. cbn [table].
  rewrite (proj2 (Z.leb_gt 18 (strlen (default "lan_ipaddr" _)))) by lia. cbn [mbind outcome_bind].
  by rewrite (proj2 (Z.leb_gt _ _)) by lia.
Qed.

(** The service is named before the function of the page runs. *)
Definition named_service (b : string) (w : web W) : web W :=
  set "action_service" (match handle_apply_action b with
                        | Some act => if bool_decide (a_action act = SERVICE_RESTART) then a_service act else ""
                        | None => "" end) w.

(** A run that applies a form. *)
Lemma apply_run form path_size remote_flag w p added x w3 busy :
  let b := default "" (websGetVar form "submit_button") in
  equals "gozila_cgi" (websGetVar form "change_action") = false -> remote_flag <> 1 ->
  websGetVar form "action" = Some "Apply" -> plain_button b = true ->
  strlen (peek "lan_ipaddr" (nv (pg w))) < 18 -> strlen (peek "lan_netmask" (nv (pg w))) < 18 ->
  validate_all form (read_lan (mk_page (nv (pg w)) false)) true (world w) = Ret (p, added, x) ->
  go form (planned b).1.1 (named_service b (mk_web p added (gozila_flag w) x (trace w))) = Ret w3 ->
  file_to_buf BUSY 5 w3 = Ret busy ->
  exists w', apply_cgi form path_size true remote_flag w = Ret w' /\
    table (nv (pg w')) = table (nv (pg w3)) /\ world w' = world w3 /\
    trace w' = trace w ++ option_list (Go <$> (planned b).1.1) ++
      (if negb (atoi (default "1" (websGetVar form "commit")) =? 0) && added then [Commit] else []) ++
      ending form busy (error_value (pg w3) || negb added) (planned b).1.2 (planned b).2.
Proof.
  intros b Hg Hr Ha Hb H1 H2 Hv Hgo Hf. unfold apply_cgi. rewrite Hg, (proj2 (Z.eqb_neq _ _)) by done. cbn [negb].
  rewrite Ha. cbn [default from_option id]. rewrite bool_decide_eq_true_2 by done.
  rewrite lan_address_ok by done. cbn [mbind outcome_bind pg nv]. unfold apply_values. cbn [set_page pg world static_route_added].
  rewrite Hv. cbn [mbind outcome_bind gozila_flag trace set_page]. fold b. set (w1 := mk_web p added (gozila_flag w) x (trace w)) in *.
  assert (run_action form b w1 = Ret ((planned b).1.2, (planned b).2, w3)) as ->.
  { unfold run_action, planned, named_service in *. destruct (handle_apply_action b) as [act|]; cbn [fst snd] in *.
    - by rewrite Hgo.
    - cbn [go] in Hgo. by injection Hgo as <-. }
  cbn [mbind outcome_bind].
  assert (trace w3 = trace w ++ option_list (Go <$> (planned b).1.1) /\ static_route_added w3 = added) as [Ht Hs].
  { destruct (planned b).1.1 as [f|]; cbn [go] in Hgo; [|injection Hgo as <-; cbn; by rewrite app_nil_r].
    apply bind_Ret_inv in Hgo as ([[r q] y] & _ & Hgo). by injection Hgo as <-. }
  destruct added; rewrite Hs; cbn [mbind outcome_bind].
  - rewrite Hs, andb_true_r, orb_false_r. destruct (atoi _ =? 0); cbn [negb mbind outcome_bind].
    + destruct (footer_plain form b "Apply" (Some (peek "lan_ipaddr" (nv (pg w)), peek "lan_netmask" (nv (pg w)))) (planned b).1.2 (planned b).2
        w3 busy Hb Hf) as (w' & E & Ep & Ew & Et). exists w'. rewrite Ep, Et, Ht, <- app_assoc. done.
    + destruct (footer_plain form b "Apply" (Some (peek "lan_ipaddr" (nv (pg w)), peek "lan_netmask" (nv (pg w)))) (planned b).1.2 (planned b).2
        (emit [Commit] w3) busy Hb Hf) as (w' & E & Ep & Ew & Et). exists w'. rewrite Ep, Et. cbn [emit trace pg]. rewrite Ht, <- !app_assoc. done.
  - cbn [set_error set_page static_route_added]. rewrite Hs, andb_false_r, orb_true_r. cbn [mbind outcome_bind].
    destruct (footer_plain form b "Apply" (Some (peek "lan_ipaddr" (nv (pg w)), peek "lan_netmask" (nv (pg w)))) (planned b).1.2 (planned b).2
      (set_error true w3) busy Hb Hf) as (w' & E & Ep & Ew & Et). exists w'. rewrite Ep, Et. cbn [set_error set_page trace pg nv error_value].
    rewrite Ht, <- app_assoc. done.
Qed.

(** C17. Applying a form of any page but index, ipsecadv, Cloud and
    Factory_Defaults (which are treated apart), by a user who may write: the values
    are validated, the function of the page runs, and the variables are committed
    before init is told to restart anything, which it is as the table says. There is
    no commit when the form asks for none (commit=0) or when its route was refused;
    the answer is Busy.asp when the file being_busy says 1, and otherwise the page of
    the result, of a failure when the route was refused or a value was reported. *)
Theorem apply_commits_first form path_size remote_flag w p added x w3 busy :
  let b := default "" (websGetVar form "submit_button") in
  equals "gozila_cgi" (websGetVar form "change_action") = false -> remote_flag <> 1 ->
  websGetVar form "action" = Some "Apply" -> plain_button b = true ->
  strlen (peek "lan_ipaddr" (nv (pg w))) < 18 -> strlen (peek "lan_netmask" (nv (pg w))) < 18 ->
  validate_all form (read_lan (mk_page (nv (pg w)) false)) true (world w) = Ret (p, added, x) ->
  go form (planned b).1.1 (named_service b (mk_web p added (gozila_flag w) x (trace w))) = Ret w3 ->
  file_to_buf BUSY 5 w3 = Ret busy ->
  exists w', apply_cgi form path_size true remote_flag w = Ret w' /\
    table (nv (pg w')) = table (nv (pg w3)) /\
    trace w' = trace w ++ option_list (Go <$> (planned b).1.1) ++
      (if negb (atoi (default "1" (websGetVar form "commit")) =? 0) && added then [Commit] else []) ++
      ending form busy (error_value (pg w3) || negb added) (planned b).1.2 (planned b).2.
Proof.
  intros b Hg Hr Ha Hb H1 H2 Hv Hgo Hf.
  destruct (apply_run form path_size remote_flag w p added x w3 busy Hg Hr Ha Hb H1 H2 Hv Hgo Hf) as (w' & E & Et & _ & Htr).
  by exists w'.
Qed.

(** ** What may happen at all *)

(** The effects a run adds. *)
Definition adds (P : effect -> Prop) (w w' : web W) : Prop := exists l, trace w' = trace w ++ l /\ Forall P l.

Lemma adds_refl P w : adds P w w.
Proof. exists []. by rewrite app_nil_r. Qed.
Lemma adds_trans P a b c : adds P a b -> adds P b c -> adds P a c.
Proof. intros (l & E & H1) (m & E' & H2). exists (l ++ m). rewrite E', E, app_assoc. split; [done|]. by apply Forall_app. Qed.
Lemma adds_emit P l w : Forall P l -> adds P w (emit l w).
Proof. intros Hl. by exists l. Qed.
Lemma adds_same P a b c : trace b = trace a -> adds P b c -> adds P a c.
Proof. intros E (l & El & Hl). exists l. by rewrite El, E. Qed.

Section Allowed.
Context (form : gmap string string) (before : vars).

(** A function of a page runs from the entry that the form names. *)
Definition named_by_form (f : string) : Prop :=
  (exists act, act ∈ gozila_actions /\ websGetVar form "submit_button" = Some (g_name act) /\
     websGetVar form "submit_type" = Some (g_type act) /\ g_go act = Some f) \/
  (exists act, act ∈ apply_actions /\ default "" (websGetVar form "submit_button") = a_name act /\
     websGetVar form "action" = Some "Apply" /\ a_go act = Some f).

(** The router reboots when the defaults are restored, when the form says Reboot,
    or when user and password are given once more. *)
Definition asks_reboot : Prop :=
  exists v, websGetVar form "action" = Some v /\
    (strncmp_eq v "Restore" = true \/ v = "Reboot" \/
     strncmp_eq v "Rebootvalidate" = true /\
       websGetVar form "reboot_username" = Some (peek "http_username" before) /\
       websGetVar form "reboot_password" = Some (peek "http_passwd" before)).
Definition allowed (e : effect) : Prop :=
  match e with Go f => named_by_form f | Sys_reboot => asks_reboot | _ => True end.

Lemma go_adds (f : option string) (w w' : web W) : (forall g, f = Some g -> named_by_form g) ->
  go form f w = Ret w' -> adds allowed w w'.
Proof.
  destruct f as [g|]; cbn [go]; intros Hf; [|intros [= <-]; apply adds_refl].
  intros ([[r q] y] & _ & Hr)%bind_Ret_inv. injection Hr as <-. exists [Go g]. split; [done|].
  apply Forall_cons_2; [by apply Hf|apply Forall_nil_2].
Qed.

Lemma refresh_adds path_size b (w w' : web W) : refresh path_size b w = Ret w' -> adds allowed w w'.
Proof. unfold refresh. intros (t & _ & Hr)%bind_Ret_inv. injection Hr as <-. apply adds_emit. by repeat constructor. Qed.

Lemma gozila_effects_allowed b t n a l again : gozila_effects b t n a = Ret (l, again) -> Forall allowed l.
Proof.
  unfold gozila_effects, page_and. intros Hr. repeat (case_match; try discriminate Hr); injection Hr as <- _;
    by repeat constructor.
Qed.

Lemma gozila_tail_adds path_size b t n a (w w' : web W) :
  ('(l, again) ← gozila_effects b t n a;
   w ← (if (again : bool) then refresh path_size b (emit l w) else Ret (emit l w)); Ret (gozila_end w)) = Ret w' ->
  adds allowed w w'.
Proof.
  intros ([l again] & Hl & Hr)%bind_Ret_inv. apply bind_Ret_inv in Hr as (w1 & H1 & Hr). injection Hr as <-.
  apply (adds_trans _ _ (emit l w)); [apply adds_emit; by apply (gozila_effects_allowed _ _ _ _ _ _ Hl)|].
  destruct again; [|injection H1 as <-; by exists []; rewrite app_nil_r]. apply refresh_adds in H1 as (m & Em & Hm). by exists m.
Qed.

Lemma prepare_trace act b t (w : web W) : trace (gozila_prepare form act b t w) = trace w.
Proof.
  unfold gozila_prepare, set_or_unset. destruct (one_of_types _ _), (equals "Management" b && _); [|done| |done];
    destruct (websGetVar form _); try done; by destruct (unlocked _ _).
Qed.

Lemma gozila_adds path_size remote_flag (w w' : web W) : gozila_cgi form path_size remote_flag w = Ret w' -> adds allowed w w'.
Proof.
  unfold gozila_cgi. cbv zeta. destruct (remote_flag =? 1).
  - intros (w1 & H1 & Hr)%bind_Ret_inv. injection Hr as <-. apply refresh_adds in H1 as (m & Em & Hm). by exists m.
  - destruct (handle_gozila_action _ _) as [act|] eqn:E; [|intros Hr%gozila_tail_adds; by apply (adds_same _ _ _ _ eq_refl Hr)].
    assert (forall g, g_go act = Some g -> named_by_form g) as Hn.
    { intros g Hg. left. exists act. unfold handle_gozila_action in E.
      destruct (websGetVar form "submit_button") as [b|], (websGetVar form "submit_type") as [t|]; try done.
      apply fmap_Some in E as ([i act'] & (Hi & [Hb Ht] & _)%list_find_Some & ->). cbn [snd] in *. subst b t.
      split_and!; [by apply (list_elem_of_lookup_2 _ i)|done..]. }
    destruct (equals "ipsec" _ && equals "delete" _).
    + intros (w1 & H1 & Hr)%bind_Ret_inv. injection Hr as <-. apply (go_adds _ _ _ Hn) in H1 as (m & Em & Hm).
      exists ([Do_ej "DeleteSuccess.asp"; Flush] ++ m). cbn [gozila_end trace]. rewrite Em. cbn [emit trace].
      rewrite prepare_trace, <- app_assoc. split; [done|]. by repeat (apply Forall_cons_2; [done|]).
    + intros (w1 & H1 & Hr)%bind_Ret_inv. apply gozila_tail_adds in Hr. apply (go_adds _ _ _ Hn) in H1.
      pose proof (adds_trans _ _ _ _ H1 Hr) as Ha. revert Ha. apply adds_same. by rewrite prepare_trace.
Qed.

Lemma action_effect_allowed a : (a = REBOOT -> asks_reboot) -> Forall allowed (action_effect a).
Proof. intros Ha. destruct a; repeat constructor. by apply Ha. Qed.

Lemma set_action_adds b n a (w : web W) : (a = REBOOT -> asks_reboot) -> adds allowed w (set_action b n a w).
Proof.
  intros Ha. apply adds_emit, Forall_app. split; [by apply action_effect_allowed|].
  repeat case_match; by repeat constructor.
Qed.

(** A page is sent and the action follows. *)
Lemma send_adds b n a l (w : web W) : Forall allowed l -> (a = REBOOT -> asks_reboot) ->
  adds allowed w (set_action b n a (emit l w)).
Proof. intros Hl Ha. eapply adds_trans; [by apply adds_emit|by apply set_action_adds]. Qed.

Lemma lan_address_trace (w w' : web W) i m : lan_address w = Ret (i, m, w') -> trace w' = trace w.
Proof.
  unfold lan_address, get. destruct (Forward.get_var "lan_ipaddr" (pg w)) as [v p].
  intros (t & _ & Hr)%bind_Ret_inv. destruct (Forward.get_var "lan_netmask" _) as [v' p'].
  apply bind_Ret_inv in Hr as (t' & _ & Hr). by injection Hr as _ _ <-.
Qed.

Lemma footer_adds b value pre n a (w w' : web W) : (a = REBOOT -> asks_reboot) ->
  footer form b value pre n a w = Ret w' -> adds allowed w w'.
Proof.
  intros Ha. unfold footer. intros (busy & _ & Hr)%bind_Ret_inv. destruct (equals "1" busy).
  { injection Hr as <-. apply adds_emit, Forall_cons_2; [done|].
    apply Forall_app. split; [by apply action_effect_allowed|by repeat constructor]. }
  set (w1 := match busy with Some _ => _ | None => w end) in Hr.
  assert (adds allowed w w1) as H1.
  { unfold w1. destruct busy; [apply adds_emit; by repeat constructor|apply adds_refl]. }
  apply (adds_trans _ _ _ _ H1). clearbody w1. clear H1 w.
  destruct (_ && _). { injection Hr as <-. apply send_adds; [by repeat constructor|done]. }
  set (a' := if bool_decide (b = "Factory_Defaults") then REFRESH else a) in Hr.
  assert (a' = REBOOT -> asks_reboot) as Ha' by (unfold a'; destruct (bool_decide _); done).
  clearbody a'. apply bind_Ret_inv in Hr as ([changed w2] & H2 & Hr).
  assert (trace w2 = trace w1) as Et.
  { destruct (bool_decide _); [|by injection H2 as _ <-]. apply bind_Ret_inv in H2 as ([[i m] w3] & H3%lan_address_trace & H2).
    destruct pre as [[i0 m0]|]; cbn [deref] in H2; [|discriminate H2]. by injection H2 as _ <-. }
  apply (adds_same _ _ _ _ Et). destruct changed; [injection Hr as <-; apply send_adds; [by repeat constructor|done]|].
  destruct (_ || _); injection Hr as <-; [apply adds_emit|apply send_adds; [|done]]; by repeat constructor.
Qed.

(** An action that is not known. *)
Lemma invalid_adds b value pre n (w w' : web W) :
  footer form b value pre n NOTHING (set_error true w) = Ret w' -> adds allowed w w'.
Proof. intros Hr%footer_adds; [|done]. by apply (adds_same _ _ (set_error true w)). Qed.

Lemma table_never_reboots act : act ∈ apply_actions -> a_action act <> REBOOT.
Proof. revert act. apply Forall_forall. by repeat (apply Forall_cons_2; [done|]). Qed.

Lemma apply_values_adds b need n a (w w' : web W) : b = default "" (websGetVar form "submit_button") ->
  websGetVar form "action" = Some "Apply" -> apply_values form b need w = Ret (n, a, w') -> adds allowed w w' /\ a <> REBOOT.
Proof.
  intros -> Ha. unfold apply_values. intros ([[p added] x] & _ & Hr)%bind_Ret_inv.
  apply bind_Ret_inv in Hr as ([[n' a'] w1] & H1 & Hr). injection Hr as <- <- <-.
  assert (adds allowed w w1 /\ a' <> REBOOT) as [Hw Hn].
  { unfold run_action in H1. destruct (handle_apply_action _) as [act|] eqn:E; [|by injection H1 as _ <- <-; split; [apply (adds_refl allowed w)|]].
    apply bind_Ret_inv in H1 as (w2 & H2 & H1). injection H1 as _ <- <-.
    apply fmap_Some in E as ([i act'] & (Hi & Hb & _)%list_find_Some & ->). cbn [snd] in *.
    assert (act' ∈ apply_actions) as Hin by (by apply (list_elem_of_lookup_2 _ i)).
    split; [|by apply table_never_reboots]. apply go_adds in H2; [by apply (adds_same _ _ _ _ eq_refl H2)|].
    intros g Hg. right. by exists act'. }
  split; [|done]. apply (adds_trans _ _ _ _ Hw).
  set (w2 := if static_route_added w1 then w1 else set_error true w1).
  assert (trace w2 = trace w1) as Et by (unfold w2; by destruct (static_route_added w1)).
  apply (adds_same _ _ _ _ Et). destruct (negb _ && _); [apply adds_emit; by repeat constructor|apply adds_refl].
Qed.

Lemma reboot_validate_adds v (w w' : web W) : websGetVar form "action" = Some v -> strncmp_eq v "Rebootvalidate" = true ->
  table (nv (pg w)) = table before -> reboot_validate form w = Ret w' -> adds allowed w w'.
Proof.
  intros Hv Hs Ht. unfold reboot_validate, get, Forward.get_var, nvram_get. cbn [set_page pg nv]. unfold peek. cbn [table]. rewrite Ht.
  destruct (websGetVar form "reboot_username") as [u|] eqn:Eu, (websGetVar form "reboot_password") as [q|] eqn:Eq;
    try (intros [= <-]; apply adds_refl).
  assert (forall l w1, trace w1 = trace w -> Forall allowed l -> adds allowed w (emit l w1)) as He.
  { intros l w1 E Hl. apply (adds_same _ _ w1); [done|by apply adds_emit]. }
  destruct (bool_decide_reflect (u = default "http_username" (table before !! "http_username"))) as [->|];
    [|intros [= <-]; apply He; [done|by repeat constructor]].
  destruct (bool_decide_reflect (q = default "http_passwd" (table before !! "http_passwd"))) as [->|];
    [|intros [= <-]; apply He; [done|by repeat constructor]].
  destruct (bool_decide (default "" _ = "HRebootvalidate")).
  { intros [= <-]. apply He; [done|]. repeat (apply Forall_cons_2; [done|]). apply Forall_cons_2; [|by apply Forall_nil_2].
    exists v. split; [done|]. right. right. by rewrite Eu, Eq. }
  destruct (bool_decide (default "" _ = "SRebootvalidate")); intros [= <-]; [|by apply (adds_refl allowed w)].
  apply He; [done|]. repeat case_match; by repeat constructor.
Qed.
End Allowed.

(** C28. What a request can set off: a function of a page runs only when the form
    names its entry in one of the two tables, an applied form runs none but that of
    its own page, and the router reboots only when the form restores the defaults,
    says Reboot, or repeats the user and password that are configured. *)
Theorem effects_from_tables form path_size query remote_flag (w w' : web W) :
  apply_cgi form path_size query remote_flag w = Ret w' ->
  exists l, trace w' = trace w ++ l /\ Forall (allowed form (nv (pg w))) l.
Proof.
  intros Hr. change (adds (allowed form (nv (pg w))) w w'). revert Hr. unfold apply_cgi.
  set (w0 := mk_web _ true _ _ _). change (trace w) with (trace w0).
  intros Hr. cut (adds (allowed form (nv (pg w))) w0 w'); [by apply adds_same|]. revert Hr.
  destruct (equals "gozila_cgi" _); [apply gozila_adds|]. destruct (remote_flag =? 1); [apply refresh_adds|].
  destruct query; cbn [negb]; [|by apply footer_adds].
  destruct (websGetVar form "action") as [v|] eqn:Ev; [|apply invalid_adds]. cbn [default from_option id].
  destruct (bool_decide_reflect (v = "Apply")) as [->|].
  { intros ([[i m] w1] & H1%lan_address_trace & Hr)%bind_Ret_inv. apply bind_Ret_inv in Hr as ([[n a] w2] & H2 & Hr).
    destruct (apply_values_adds _ (nv (pg w)) _ _ _ _ _ _ eq_refl Ev H2) as [H3 Ha]. apply (adds_same _ _ _ _ H1), (adds_trans _ _ _ _ H3).
    by apply (footer_adds _ _ _ _ _ _ _ _ _ (fun E => match Ha E with end) Hr). }
  destruct (strncmp_eq v "Restore") eqn:Er.
  { intros Hr. assert (asks_reboot form (nv (pg w))) as Hb by (exists v; auto).
    refine (adds_trans _ _ _ _ _ (footer_adds _ _ _ _ _ _ _ _ _ (fun _ => Hb) Hr)).
    exists [Write_file "/tmp/action" "ACT_SW_RESTORE"; Run ["killall"; "-9"; "udhcpc"]; Commit].
    cbn [emit set set_page trace]. rewrite <- app_assoc. split; [done|by repeat constructor]. }
  destruct (strncmp_eq v "Rebootvalidate") eqn:Eb; [by apply (reboot_validate_adds _ _ v)|].
  destruct (bool_decide_reflect (v = "Reboot")); [apply footer_adds; intros _; exists v; auto|apply invalid_adds].
Qed.

(** ** Behaviour that is not intended *)

(** A form for gozila_cgi that names no page ends the server: a NULL pointer is
    compared. *)
Lemma gozila_needs_button form path_size query (w : web W) : websGetVar form "change_action" = Some "gozila_cgi" ->
  websGetVar form "submit_button" = None -> apply_cgi form path_size query 0 w = Fault.
Proof.
  intros Hc Hb. unfold apply_cgi, equals. rewrite Hc, bool_decide_eq_true_2 by done. unfold gozila_cgi.
  by rewrite Hb.
Qed.

(** A page named by the form is opened without the tests that the name in a request
    goes through. *)
Lemma any_page_opened form path_size query (w : web W) path : websGetVar form "change_action" = Some "gozila_cgi" ->
  websGetVar form "submit_button" = Some path -> handle_gozila_action (Some path) (websGetVar form "submit_type") = None ->
  path <> "ipsec" -> strlen (path +:+ ".asp") < path_size ->
  exists w', apply_cgi form path_size query 0 w = Ret w' /\ trace w' = trace w ++ [Sleep 0; Do_ej (path +:+ ".asp"); Flush].
Proof.
  intros Hc Hb Hh Hi Hs. unfold apply_cgi, equals. rewrite Hc, bool_decide_eq_true_2 by done. unfold gozila_cgi.
  rewrite Hb, Hh. cbn iota. change (0 =? 1) with false. cbn iota.
  assert (gozila_effects (Some path) (websGetVar form "submit_type") 0 REFRESH = Ret ([Sleep 0], true)) as ->.
  { unfold gozila_effects, equals. rewrite (bool_decide_eq_false_2 (Some path = Some "ipsec")) by congruence. cbn [andb].
    repeat case_match; done. }
  cbn [mbind outcome_bind]. rewrite refresh_ok by done. cbn [mbind outcome_bind]. eexists. split; [done|].
  cbn [gozila_end emit trace set set_page set_gozila]. by rewrite <- app_assoc.
Qed.
End Proofs.

(** ** Forms *)

Module DemoApply.
#[export] Instance driver : Driver := {| unlocked _ _ := true; room _ _ _ := true |}.
#[export] Instance pages : Pages_of unit := {|
  run_go _ _ p x := Ret (0, p, x);
  validate_all form p added x := q ← validate_cgi form general_variables p; Ret (q, added, x);
  file_contents _ _ := None; check_adsl_status _ := false; autodetect _ := "0"; connection _ := "0"; reset_keys x := x
|}.
Definition web0 : web unit :=
  mk_web (mk_page (mk_vars {["lan_ipaddr" := "192.168.1.1"; "lan_netmask" := "255.255.255.0";
                             "http_username" := "admin"; "http_passwd" := "secret"]} "") false) true false tt [].
Definition ddns_form : gmap string string :=
  {["submit_button" := "DDNS"; "action" := "Apply"; "ddns_enable" := "1"]}.
Definition reboot_form : gmap string string := {["submit_button" := "Management"; "action" := "Reboot"]}.
Definition index_form : gmap string string := {["submit_button" := "index"; "action" := "Reboot"]}.
Definition validated : page :=
  match validate_cgi ddns_form general_variables (read_lan (pg web0)) with Ret p => p | _ => pg web0 end.
Definition saved : web unit :=
  let w := named_service "DDNS" (mk_web validated true false tt []) in
  mk_web (pg w) true false tt [Go "ddns_save_value"].
End DemoApply.
Import DemoApply.

Lemma read_only_changes_nothing_witness : exists w', apply_cgi reboot_form 100 true 1 web0 = Ret w' /\
  trace w' = [Do_ej "Management.asp"; Flush].
Proof.
  destruct (read_only_changes_nothing reboot_form 100 true web0) as (w' & E & Ht & _); [vm_compute; reflexivity|].
  exists w'. split; [exact E|exact Ht].
Defined.

Lemma apply_commits_first_witness : exists w', apply_cgi ddns_form 100 true 0 web0 = Ret w' /\
  trace w' = [Go "ddns_save_value"; Commit; Do_ej "Success.asp"; Flush; Service_restart; Sleep 4].
Proof.
  destruct (apply_commits_first ddns_form 100 0 web0 validated true tt saved None) as (w' & E & _ & Ht).
  - vm_compute. reflexivity.
  - lia.
  - vm_compute. reflexivity.
  - vm_compute. reflexivity.
  - vm_compute. reflexivity.
  - vm_compute. reflexivity.
  - vm_compute. reflexivity.
  - vm_compute. reflexivity.
  - vm_compute. reflexivity.
  - exists w'. split; [exact E|]. rewrite Ht. vm_compute. reflexivity.
Defined.

(** Any user who may change settings reboots the router without giving the password
    again. *)
Lemma reboot_without_password : exists w', apply_cgi reboot_form 100 true 0 web0 = Ret w' /\
  trace w' = [Do_ej "Success.asp"; Flush; Sys_reboot; Sleep 0].
Proof. eexists. split; vm_compute; reflexivity. Qed.

Lemma effects_from_tables_witness : exists w', apply_cgi reboot_form 100 true 0 web0 = Ret w' /\
  Forall (allowed reboot_form (nv (pg web0))) (trace w').
Proof.
  eexists. split; [vm_compute; reflexivity|].
  refine (match effects_from_tables reboot_form 100 true 0 web0 _ _ with ex_intro _ l (conj E Hl) => _ end).
  { vm_compute. reflexivity. }
  rewrite E. exact Hl.
Defined.

(** Reboot on the page "index" compares addresses that were never stored. *)
Lemma index_reboot_faults : apply_cgi index_form 100 true 0 web0 = Fault.
Proof. vm_compute. reflexivity. Qed.
End ApplyProofs.
