(* ===== verification/LeasePages.v ===== *)
(** * DHCP pages of the web server (src/router/shared/dhcp.c)

    [Module LeasePages]: the page that shows the leases of the DHCP server from the
    file the server writes, and the action that lets the server delete leases. The
    processes meet in two files: /tmp/udhcpd.leases and /tmp/.delete_leases.
    Also the page of reserved addresses with its validator. *)

From Stdlib Require Import ZArith Lia Ascii.
From stdpp Require Import base numbers sets gmap strings list.
From S2P Require Import Prelude CString DhcpOptions DhcpLeases DhcpFiles Vars Validate Ej Pages Forward Apply.
Import Vars Validate.
Open Scope string_scope.
Open Scope Z_scope.
Open Scope list_scope.

Module LeasePages.
Import Leases.

Definition DHCP_MAX_COUNT : Z := 254.
Definition DELETE_FILE : string := "/tmp/.delete_leases".

(** [eval("killall", "-SIG", name)]; SIGUSR1 is 16 and SIGUSR2 17 on MIPS. *)
Definition killall (sig : Z) (name : string) : Apply.effect := Apply.Run ["killall"; "-" +:+ dec sig; name].
Definition SIGUSR1 : Z := 16.
Definition SIGUSR2 : Z := 17.

(** ** The leases *)

(** "%02ld" of a number that is not negative *)
Definition dec2 (n : Z) : string := if n <? 10 then "0" +:+ dec n else dec n.

(** The first six bytes as "%02X", with colons between. *)
Definition mac_text (chaddr : list Z) : string := String.concat ":" (hex2 <$> take 6 chaddr).

(** The time that remains, cut into days, hours, minutes and seconds. *)
Definition expires_text (expires : Z) : string :=
  let '(days, expires) :=
    if 86400 <? expires then (dec (expires / 86400) +:+ " days, ", expires mod 86400) else ("", expires) in
  let '(hours, expires) :=
    if 3600 <? expires then (dec2 (expires / 3600), expires mod 3600) else ("00", expires) in
  let '(minutes, expires) :=
    if 60 <? expires then (dec2 (expires / 60), expires mod 60) else ("00", expires) in
  days +:+ hours +:+ ":" +:+ minutes +:+ ":" +:+ dec2 expires.

Definition quoted (t : string) : string := "'" +:+ t +:+ "'".
Definition lease_row (count : Z) (hostname ipaddr mac expires_time : string) (last : Z) : string :=
  (if count =? 0 then " " else ",") +:+ quoted (if bool_decide (hostname = "") then "&nbsp;" else hostname) +:+ "," +:+
  quoted ipaddr +:+ "," +:+ quoted mac +:+ "," +:+ quoted expires_time +:+ "," +:+ quoted (dec last) +:+ Pages.lf.

(** The loop over the records of the file: a record is 88 bytes, and a host name
    without a NUL is read past the record. *)
Fixpoint dump_loop (fuel : nat) (file : list Z) (count : Z) : outcome Ej.text :=
  match fuel with
  | O => Running
  | S fuel =>
      if (length file <? 88)%nat then Ret [] else
      let lease := Files.lease_of_bytes (take 88 file) in
      let file := drop 88 file in
      let mac := mac_text (l_chaddr lease) in
      if bool_decide (mac = "00:00:00:00:00:00") then dump_loop fuel file count else
      let expires := ntohl (l_expires lease) in
      if expires =? 0 then dump_loop fuel file count else
      if negb (bool_decide (0 ∈ l_hostname lease)) then Fault else
      let ipaddr := inet_ntoa (l_yiaddr lease) in
      last ← Pages.get_single_ip ipaddr 3;
      rest ← dump_loop fuel file (count + 1);
      Ret (Ej.chars (lease_row count (string_of (l_hostname lease)) ipaddr mac (expires_text expires) last) ++ rest)
  end.

(** The server is told to write the file first. *)
Definition ej_dumpleases (leases_file : option (list Z)) : outcome (list Apply.effect * Ej.text) :=
  t ← match leases_file with
      | Some file => dump_loop (S (length file)) file 0
      | None => Ret []
      end;
  Ret ([killall SIGUSR1 "udhcpd"], t).

(** ** Deleting leases *)

Section Form.
Context (form : gmap string string).

(** A row that is marked: its address goes to the file. *)
Definition delete_row (i : Z) (st : string * page) : outcome (string * page) :=
  let '(text, p) := st in
  match websGetVar form (Forward.numbered "d_" i) with
  | None => Ret st
  | Some value =>
      let '(lan, p) := Forward.get_var "lan_ipaddr" p in
      a ← Pages.get_single_ip lan 0; b ← Pages.get_single_ip lan 1; c ← Pages.get_single_ip lan 2;
      Ret (text +:+ dec a +:+ "." +:+ dec b +:+ "." +:+ dec c +:+ "." +:+ value +:+ Pages.lf, p)
  end.

(** [writable]: whether the file can be opened. The value that is returned, the
    page and the effects. *)
Definition delete_leases (writable : bool) (p : page) : outcome (Z * page * list Apply.effect) :=
  let '(m, s) := nvram_match "lan_proto" "static" (nv p) in
  let p := mk_page s (error_value p) in
  if m then Ret (0, p, []) else
  if negb writable then Ret (-1, p, [Apply.Remove_file DELETE_FILE]) else
  '(text, p) ← Forward.turns delete_row (seqZ 0 DHCP_MAX_COUNT) ("", p);
  Ret (0, p, [Apply.Remove_file DELETE_FILE; Apply.Write_file DELETE_FILE text; killall SIGUSR2 "udhcpd"]).
End Form.

Definition dhcp_renew : list Apply.effect := [killall SIGUSR1 "udhcpc"].
Definition dhcp_release : list Apply.effect := [killall SIGUSR2 "udhcpc"].

(** ** Reserved addresses *)

Definition MAX_DHCP_RESERVED_IP : Z := 10.

(** Colons between the six pairs of twelve characters. *)
Definition with_colons (src : string) : string :=
  String.concat ":" ((fun i => String.substring (2 * i) 2 src) <$> seq 0 6).

(** What [dst], empty at first, holds afterwards. *)
Definition change_mac_value (src : string) (p : page) : string * page :=
  if bool_decide (src = "") || bool_decide (src = "00:00:00:00:00:00") || bool_decide (src = "000000000000") then ("", p)
  else
    let dst := if strlen src =? 12 then with_colons src else if strlen src =? 17 then src else "" in
    let '(b, p) := valid_hwaddr dst p in (if (b : bool) then dst else "", p).

(** The blanks at the end are cut off in the form itself; behind an empty value
    stands the NUL of the name, and a field that is missing is a constant text. *)
Fixpoint trim (t : string) : string :=
  match t with
  | EmptyString => EmptyString
  | String c t => match trim t with
                  | EmptyString => if is_char " " c then EmptyString else String c EmptyString
                  | t => String c t
                  end
  end.
Definition host_char (c : ascii) : bool :=
  in_range 48 57 c || in_range 97 122 c || in_range 65 90 c || is_char "-" c || is_char "_" c.
Definition host_name (value : option string) : outcome string :=
  t ← deref value;
  let t := trim t in
  let l := String.list_ascii_of_string t in
  let flag := if forallb host_char l then Z.of_nat (length (filter (fun c => in_range 48 57 c = true) l)) else -1 in
  Ret (if (flag =? -1) || (strlen t <=? flag) then "" else t).

Section Reserved.
Context `{Driver} (form : gmap string string).

(** One row of the two tables: enable:ip:name. *)
Definition reserved_row (i : Z) (st : string * page) : outcome (string * page) :=
  let '(buf, p) := st in
  let mac := i <? MAX_DHCP_RESERVED_IP in
  let type := if mac then "mac" else "host" in
  let index := dec (if mac then i else i - MAX_DHCP_RESERVED_IP) in
  let t_name_val := websGetVar form ("dhcp_" +:+ type +:+ index) in
  let t_ip_val := default "0" (websGetVar form ("dhcp_" +:+ type +:+ "_ip" +:+ index)) in
  let t_enable_val := default "off" (websGetVar form ("dhcp_" +:+ type +:+ "_enable" +:+ index)) in
  let i_enable := if bool_decide (t_enable_val = "off") then 0 else 1 in
  let t_ip_val := if (0 <=? atoi t_ip_val) && (atoi t_ip_val <=? 254) then t_ip_val else "" in
  '(tmp_mac_host, p) ←
    (if mac then Ret (change_mac_value (default "" t_name_val) p)
     else t ← host_name t_name_val; t ← fit 80 t; Ret (t, p));
  buf ← fit 1024 (buf +:+ (if i =? 0 then "" else " ") +:+ dec i_enable +:+ ":" +:+ t_ip_val +:+ ":" +:+ tmp_mac_host);
  Ret (buf, p).

Definition validate_dhcp_reservedIp (p : page) : outcome page :=
  '(buf, p) ← Forward.turns reserved_row (seqZ 0 (MAX_DHCP_RESERVED_IP * 2)) ("", p);
  let p := save "dhcp_reserved_ip" buf p in
  let '(mac, p) := change_mac_value (default "" (websGetVar form "dhcp_mac10")) p in
  let index := atoi (default "" (websGetVar form "share_wanip_if")) in
  content ← fit 1024 (mac +:+ "$" +:+ dec index +:+ "$" +:+ default "10" (websGetVar form "share_wanip_lease"));
  let p := save "share_wanip_content" content p in
  Ret (if atoi (default "" (websGetVar form "share_wanip")) =? 1 then save "dmz_enable" "0" p else p).
End Reserved.

(** DNS_ENTRY_SUPPORT is not set: the page has a comment instead. *)
Definition ej_dns_entry_support (argv : list Ej.text) : outcome Ej.text :=
  match Ej.ejArgs argv (Ej.chars "%d") with
  | [Ej.EInt count] => Pages.write (if count =? 1 then "<!--" else if count =? 2 then "-->" else "")
  | _ => Pages.too_few
  end.

End LeasePages.
