(* ===== verification/Site.v ===== *)
(** * Form actions with the pages that are modelled

    [Module Site]: the whole table of validate_cgi in this build, in its order: the
    entries with general validators, those of the forwarding, routing and DHCP
    pages, and those whose validators belong to pages that are not modelled; the
    loop over it; the validators of the operating mode and of RIP
    (dynamic_route.c); and the functions apply.cgi calls put together from the
    components: an instance of the interface [Apply.Pages_of]. What the other
    pages do, their validators included, stays a parameter (class [Rest]). *)

From Stdlib Require Import ZArith Lia.
From stdpp Require Import base numbers sets gmap strings list.
From S2P Require Import Prelude CString Vars Validate Forward Routes Apply LeasePages.
Import Vars Validate.
Open Scope string_scope.
Open Scope Z_scope.
Open Scope list_scope.

Module Site.

(** An entry of the table: with a general validator or none, with one of a page
    that is modelled, or with another one, which is known by its name. *)
Inductive page_validator :=
  | Validate_forward_proto | Validate_port_trigger | Validate_forward_upnp | Validate_static_route
  | Validate_nat_func | Validate_dynamic_route | Validate_dhcp_reservedIp.
Inductive entry := General (v : variable) | Page (v : variable) (f : page_validator) | Other (v : variable) (f : string).
Definition entry_name (e : entry) : string := match e with General v | Page v _ | Other v _ => name v end.

(** ** The entries with validators of pages

    Those before the first general entry, and those that stand behind a general
    entry, by its name. *)
Definition first_entries : list entry :=
  [
     Other (Variable_ "lan_ipaddr" None (Some ["lan"]) false) "validate_lan_ipaddr";
     Other (Variable_ "trap_ipaddr" None (Some ["lan"]) false) "validate_trap_ipaddr";
     Other (Variable_ "dhcpserver_ipaddr" None (Some ["lan"]) false) "validate_dhcpserver_ipaddr"].
Definition page_entries : list (string * list entry) :=
  [
   ("wan_domain", [
     Other (Variable_ "wan_ipaddr" None None false) "validate_wan_ipaddr"]);
   ("lan_proto", [
     Other (Variable_ "dhcp_check" None None false) "dhcp_check"]);
   ("dmz_ipaddr", [
     Page (Variable_ "nat_enable" None (Some ["0"; "1"]) false) Validate_nat_func;
     Page (Variable_ "port_trigger" None None false) Validate_port_trigger;
     Other (Variable_ "filter_policy" None None false) "validate_filter_policy";
     Other (Variable_ "filter_ip_value" None None false) "validate_filter_ip_grp";
     Other (Variable_ "filter_port" None None false) "validate_filter_port";
     Other (Variable_ "filter_dport_value" None None false) "validate_filter_dport_grp";
     Other (Variable_ "blocked_service" None None false) "validate_blocked_service";
     Other (Variable_ "filter_mac_value" None None false) "validate_filter_mac_grp";
     Other (Variable_ "filter_web" None None false) "validate_filter_web"]);
   ("wan_mtu", [
     Page (Variable_ "forward_port" None None false) Validate_forward_proto;
     Page (Variable_ "forward_upnp" None None false) Validate_forward_upnp;
     Other (Variable_ "ping_config" None None false) "validate_ping_config";
     Other (Variable_ "email_config" None None false) "validate_email_config";
     Page (Variable_ "static_route" None None false) Validate_static_route]);
   ("wl_wds", [
     Other (Variable_ "wl_WEP_key" None None false) "validate_wl_wep_key";
     Other (Variable_ "wl_wep" None (Some ["off"; "on"; "restricted"; "tkip"; "aes"; "tkip+aes"]) false) "validate_wl_wep";
     Other (Variable_ "wl_auth" None (Some ["0"; "1"]) false) "validate_wl_auth";
     Other (Variable_ "wl_macmode1" None None false) "validate_macmode"]);
   ("wl_radio", [
     Other (Variable_ "wl_mac_list" None None false) "validate_wl_hwaddrs"]);
   ("wl_phytype", [
     Other (Variable_ "wl_wpa_psk" None (Some ["64"]) true) "validate_wpa_psk"]);
   ("wl_radius_key", [
     Other (Variable_ "wl_auth_mode" None (Some ["disabled"; "radius"; "wpa"; "psk"]) false) "validate_auth_mode";
     Other (Variable_ "security_mode" None (Some ["disabled"; "radius"; "wpa"; "psk"; "wep"]) false) "validate_security_mode";
     Other (Variable_ "wl_unit" None None true) "wl_unit"]);
   ("tunnel_entry", [
     Other (Variable_ "entry_config" None None false) "validate_entry_config";
     Other (Variable_ "ltype_config" None None false) "validate_ltype_config";
     Other (Variable_ "rtype_config" None None false) "validate_rtype_config";
     Other (Variable_ "sg_config" None None false) "validate_sg_config";
     Other (Variable_ "keytype_config" None None false) "validate_keytype_config";
     Other (Variable_ "ipsecadv_config" None None false) "validate_ipsecadv_config"]);
   ("qosSW", [
     Other (Variable_ "qos_config" None None false) "validate_qos_config"]);
   ("wan_connection", [
     Other (Variable_ "mtu_config" None None false) "validate_mtu_config";
     Other (Variable_ "macclone_config" None None false) "validate_macclone_config";
     Other (Variable_ "vcc_config" None None false) "validate_vcc_config";
     Other (Variable_ "pppoe_config" None None false) "validate_pppoe_config";
     Other (Variable_ "pppoa_config" None None false) "validate_pppoa_config";
     Other (Variable_ "bridged_config" None None false) "validate_bridged_config";
     Other (Variable_ "routed_config" None None false) "validate_routed_config";
     Other (Variable_ "pvc_selection_config" None None false) "validate_pvc_selection_config"]);
   ("active_connection_selection", [
     Other (Variable_ "mpppoe_config" None None false) "validate_mpppoe_config";
     Other (Variable_ "ipppoe_config" None None false) "validate_ipppoe_config";
     Page (Variable_ "dhcp_reserved_ip_list" None None false) Validate_dhcp_reservedIp;
     Page (Variable_ "nat_enable" None (Some ["0"; "1"]) false) Validate_nat_func;
     Page (Variable_ "rip_enable" None (Some ["0"; "1"]) false) Validate_dynamic_route]);
   ("igmp_proxy_channel", [
     Other (Variable_ "igmp_proxy_config" None None false) "validate_igmp_proxy_config";
     Other (Variable_ "ip_range_config" None None false) "validate_ip_range_setting";
     Other (Variable_ "snmp_ip_limit" None None false) "validate_snmp_config";
     Other (Variable_ "snmpv3_support" None None false) "validate_snmpv3_support"]);
   ("v3rwuser", [
     Other (Variable_ "range_start_ip" None None false) "validate_ip_range_setting";
     Other (Variable_ "range_end_ip" None None false) "validate_ip_range_setting";
     Other (Variable_ "range_ip" None None false) "validate_ip_range_setting"])].

(** ** The table in the order of the source *)
Definition behind (n : string) : list entry :=
  default [] (snd <$> List.find (fun g => bool_decide (fst g = n)) page_entries).
Definition variables : list entry :=
  first_entries ++ (general_variables ≫= fun v => General v :: behind (name v)).

(** ** The operating mode and RIP (dynamic_route.c) *)

Definition RIP_INTERFACE_SUM : Z := 9.

Section Modes.
Context `{Driver} (form : gmap string string).

Definition validate_nat_func (v : variable) (value : string) (p : page) : outcome page :=
  r ← valid_choice v value p;
  let p := save_if r (name v) value in
  Ret (save "wk_mode" (if atoi value =? 0 then "router" else "gateway") p).

Definition rip_variables : list variable :=
  [Variable_ "" None (Some ["1"; "2"; "3"; "0"]) false;
   Variable_ "" None (Some ["1"; "2"; "0"]) false].

Definition validate_dynamic_route (v : variable) (value : string) (p : page) : outcome page :=
  r ← valid_choice v value p;
  let p := save_if r (name v) value in
  let pvc_connection_index := RIP_INTERFACE_SUM - 1 in
  rip_enable ← fit 2 (default "" (websGetVar form "rip_enable"));
  if bool_decide (rip_enable = "0") then Ret p else
  let sel_ripTX := default "" (websGetVar form "sel_ripTX") in
  let sel_ripRX := default "" (websGetVar form "sel_ripRX") in
  let sel_MulticastBroadcast := "0" in
  which0 ← deref (rip_variables !! 0%nat);
  which1 ← deref (rip_variables !! 1%nat);
  '(tx, p) ← valid_choice which0 sel_ripTX p;
  if negb tx then Ret p else
  '(rx, p) ← valid_choice which1 sel_ripRX p;
  if negb rx then Ret p else
  let rip_interface_var := "rip_interface_content_" +:+ dec pvc_connection_index in
  buf ← fit 16 (dec (atoi sel_ripTX) +:+ ":" +:+ dec (atoi sel_ripRX) +:+ ":" +:+ dec (atoi sel_MulticastBroadcast));
  Ret (save rip_interface_var buf p).
End Modes.

(** ** What the other pages do *)

Class Rest (K : Type) := {
  other_validate : string -> variable -> gmap string string -> Routes.state K -> outcome (Routes.state K);
  other_go : string -> gmap string string -> page -> K -> outcome (Z * page * K);
  files : K -> string -> option string;
  line_up : K -> bool;
  autodetect_flag : K -> string;
  wan_connection : K -> string;
  keys_reset : K -> K
}.

Section Table.
Context `{Driver} {K : Type} `{Routes.Router K} `{Rest K} (form : gmap string string).

Definition with_page (p : page) (st : Routes.state K) : Routes.state K :=
  Routes.mk_state p (Routes.static_route_added st) (Routes.kern st).

Definition on_page (f : page -> outcome page) (st : Routes.state K) : outcome (Routes.state K) :=
  p ← f (Routes.pg st); Ret (with_page p st).

Definition run_page (f : page_validator) (v : variable) (value : string) : Routes.state K -> outcome (Routes.state K) :=
  match f with
  | Validate_forward_proto => on_page (Forward.validate_forward_proto form v)
  | Validate_port_trigger => on_page (Forward.validate_port_trigger form v)
  | Validate_forward_upnp => on_page (Forward.validate_forward_upnp form)
  | Validate_static_route => Routes.validate_static_route form
  | Validate_nat_func => on_page (validate_nat_func v value)
  | Validate_dynamic_route => on_page (validate_dynamic_route form v value)
  | Validate_dhcp_reservedIp => on_page (LeasePages.validate_dhcp_reservedIp form)
  end.

(** The body of the loop for an entry with the validator [f]. *)
Definition with_validator (v : variable) (f : string -> Routes.state K -> outcome (Routes.state K)) (st : Routes.state K)
    : outcome (Routes.state K) :=
  match websGetVar form (name v) with
  | None => Ret st
  | Some value => if bool_decide (value = "") && nullok v then Ret (with_page (save (name v) value (Routes.pg st)) st)
                  else f value st
  end.

Definition validate_entry (e : entry) (st : Routes.state K) : outcome (Routes.state K) :=
  match e with
  | General v => on_page (validate_field form v) st
  | Page v f => with_validator v (run_page f v) st
  | Other v f => with_validator v (fun _ => other_validate f v form) st
  end.

Fixpoint validate_table (table : list entry) (st : Routes.state K) : outcome (Routes.state K) :=
  match table with
  | [] => Ret st
  | e :: table => st ← validate_entry e st; validate_table table st
  end.
End Table.

(** ** The interface *)

#[export] Instance site `{Driver} {K} `{Routes.Router K} `{Rest K} : Apply.Pages_of K := {|
  Apply.run_go f form p k :=
    if bool_decide (f = "delete_static_route")
    then st ← Routes.delete_static_route form (Routes.mk_state p true k); Ret (1, Routes.pg st, Routes.kern st)
    else other_go f form p k;
  Apply.validate_all form p added k :=
    st ← validate_table form variables (Routes.mk_state p added k);
    Ret (Routes.pg st, Routes.static_route_added st, Routes.kern st);
  Apply.file_contents := files;
  Apply.check_adsl_status := line_up;
  Apply.autodetect := autodetect_flag;
  Apply.connection := wan_connection;
  Apply.reset_keys := keys_reset
|}.

End Site.
