(* ===== verification/SiteProofs.v ===== *)
(** * Proofs about a whole request

    A form of the page of static routes, from apply_cgi through the table of
    variables and the kernel to the variables that are committed. *)

From Stdlib Require Import ZArith Lia.
From stdpp Require Import base numbers sets gmap strings list.
From S2P Require Import Prelude CString NvramDrv Nvram Vars TextProofs NvparseProofs Validate ValidateProofs.
From S2P Require Import Ej Pages Forward ForwardProofs Routes RoutesProofs Apply ApplyProofs Site.
Import Vars Validate Apply ApplyProofs Site.
Import NvparseProofs(storable, unmirrored).
Import ValidateProofs(text_of).
Import RoutesProofs(route, is_route, r_gw, r_dest, r_mask, sent, holds, holds_shows, shows, kernel_add, outcome_of, set_route, place).
Open Scope string_scope.
Open Scope Z_scope.
Open Scope list_scope.

Module SiteProofs.

(** ** The table *)

(** The entries the page of routes has fields for. *)
Definition routing_name (n : string) : bool :=
  bool_decide (n = "static_route") || bool_decide (n = "nat_enable") || bool_decide (n = "rip_enable").

Definition switch_entry (n : string) (f : page_validator) : entry := Page (Variable_ n None (Some ["0"; "1"]) false) f.
Lemma routing_entries : List.filter (fun e => routing_name (entry_name e)) variables =
  [switch_entry "nat_enable" Validate_nat_func; Page (Variable_ "static_route" None None false) Validate_static_route;
   switch_entry "nat_enable" Validate_nat_func; switch_entry "rip_enable" Validate_dynamic_route].
Proof. vm_compute. reflexivity. Qed.

Section Proofs.
Context `{Driver} {K : Type} `{Routes.Router K} `{Rest K}.

Lemma absent_entry form e (st : Routes.state K) : websGetVar form (entry_name e) = None -> validate_entry form e st = Ret st.
Proof.
  destruct e as [v|v f|v f], st as [p a k]; cbn [entry_name validate_entry]; unfold with_validator, on_page;
    intros Hn; rewrite ?Hn; try done. unfold validate_field. by rewrite Hn.
Qed.

(** Entries without a field in the form count for nothing. *)
Lemma present_entries form (P : entry -> bool) l : (forall e, e ∈ l -> P e = false -> websGetVar form (entry_name e) = None) ->
  forall st : Routes.state K, validate_table form l st = validate_table form (List.filter P l) st.
Proof.
  induction l as [|e l IH]; intros Hn st; [done|]. cbn [List.filter validate_table].
  destruct (P e) eqn:E.
  - cbn [validate_table]. destruct (validate_entry form e st) as [st'| | |]; [|done..]. cbn [mbind outcome_bind].
    apply IH. intros x Hx. apply Hn. by apply list_elem_of_further.
  - rewrite absent_entry by (apply Hn; [apply list_elem_of_here|done]). cbn [mbind outcome_bind].
    apply IH. intros x Hx. apply Hn. by apply list_elem_of_further.
Qed.

(** A form as the page of routes sends it: of the entries of the table it has
    fields for the routes, the mode and RIP alone; the two switches, where they are
    sent, are 0 or 1, and with RIP switched on the two versions are among the choices
    of the page. *)
Definition is_switch (o : option string) : Prop := o = None \/ o = Some "0" \/ o = Some "1".
Definition routing_form (form : gmap string string) : Prop :=
  websGetVar form "static_route" <> None /\
  (forall e, e ∈ variables -> routing_name (entry_name e) = false -> websGetVar form (entry_name e) = None) /\
  is_switch (websGetVar form "nat_enable") /\ is_switch (websGetVar form "rip_enable") /\
  (websGetVar form "rip_enable" = Some "1" ->
     default "" (websGetVar form "sel_ripTX") ∈ ["1"; "2"; "3"; "0"] /\
     default "" (websGetVar form "sel_ripRX") ∈ ["1"; "2"; "0"]).

(** What the two switches save. *)
Definition mode_saved (form : gmap string string) (p : page) : page :=
  match websGetVar form "nat_enable" with
  | None => p
  | Some v => save "wk_mode" (if bool_decide (v = "0") then "router" else "gateway") (save "nat_enable" v p)
  end.
Definition rip_saved (form : gmap string string) (p : page) : page :=
  match websGetVar form "rip_enable" with
  | None => p
  | Some v =>
      let p := save "rip_enable" v p in
      if bool_decide (v = "0") then p
      else save "rip_interface_content_8"
             (default "" (websGetVar form "sel_ripTX") +:+ ":" +:+ default "" (websGetVar form "sel_ripRX") +:+ ":0") p
  end.

Lemma mode_entry form (st : Routes.state K) : is_switch (websGetVar form "nat_enable") ->
  validate_entry form (switch_entry "nat_enable" Validate_nat_func) st = Ret (with_page (mode_saved form (Routes.pg st)) st).
Proof.
  intros Hs. unfold switch_entry, mode_saved. cbn [validate_entry]. unfold with_validator. cbn [name nullok].
  destruct st as [p a k]. destruct Hs as [->|[-> | ->]]; done.
Qed.

Lemma rip_entry form (st : Routes.state K) : is_switch (websGetVar form "rip_enable") ->
  (websGetVar form "rip_enable" = Some "1" ->
     default "" (websGetVar form "sel_ripTX") ∈ ["1"; "2"; "3"; "0"] /\
     default "" (websGetVar form "sel_ripRX") ∈ ["1"; "2"; "0"]) ->
  validate_entry form (switch_entry "rip_enable" Validate_dynamic_route) st = Ret (with_page (rip_saved form (Routes.pg st)) st).
Proof.
  intros Hs Hsel. unfold switch_entry, rip_saved. cbn [validate_entry]. unfold with_validator. cbn [name nullok].
  destruct st as [p a k]. destruct Hs as [E|[E|E]]; rewrite E; cbn [run_page]; unfold on_page, validate_dynamic_route; rewrite ?E; [done..|].
  destruct (Hsel E) as [Ht Hr]. repeat (rewrite list_elem_of_In in Ht, Hr). cbn [In] in Ht, Hr.
  destruct Ht as [<-|[<-|[<-|[<-|[]]]]], Hr as [<-|[<-|[<-|[]]]]; done.
Qed.

Lemma table_of_routes form (st : Routes.state K) : routing_form form ->
  validate_table form variables st =
  (st' ← Routes.validate_static_route form (with_page (mode_saved form (Routes.pg st)) st);
   Ret (with_page (rip_saved form (mode_saved form (Routes.pg st'))) st')).
Proof.
  intros (Hs & Hn & Hm & Hr & Hsel). rewrite (present_entries form (fun e => routing_name (entry_name e))), routing_entries by done.
  cbn [validate_table]. rewrite mode_entry by done. cbn [mbind outcome_bind].
  cbn [validate_entry]. unfold with_validator at 1. cbn [name nullok].
  destruct (websGetVar form "static_route") as [v|]; [|done]. rewrite andb_false_r. cbn [run_page].
  destruct (Routes.validate_static_route form _) as [st'|c| |]; [|done..]. cbn [mbind outcome_bind].
  change (with_validator form (Variable_ "nat_enable" None (Some ["0"; "1"]) false) _ st')
    with (validate_entry form (switch_entry "nat_enable" Validate_nat_func) st').
  rewrite mode_entry by done. cbn [mbind outcome_bind].
  set (st2 := with_page _ st').
  change (with_validator form (Variable_ "rip_enable" None (Some ["0"; "1"]) false) _ st2)
    with (validate_entry form (switch_entry "rip_enable" Validate_dynamic_route) st2).
  by rewrite rip_entry.
Qed.

(** The switches leave the routes and the errors alone. *)
Lemma save_error n v p : error_value (save n v p) = error_value p.
Proof. unfold save. by destruct (nvram_set n v (nv p)). Qed.

Lemma mode_unmirrored : unmirrored "wk_mode" /\ unmirrored "nat_enable" /\ unmirrored "rip_enable" /\ unmirrored "rip_interface_content_8".
Proof. unfold unmirrored, Lib.nvram_converts. split_and!; by repeat constructor. Qed.

Lemma mode_saved_keeps form p n : n <> "wk_mode" -> n <> "nat_enable" ->
  table (nv (mode_saved form p)) !! n = table (nv p) !! n /\ error_value (mode_saved form p) = error_value p.
Proof.
  intros Hn1 Hn2. destruct mode_unmirrored as (U1 & U2 & _). unfold mode_saved.
  destruct (websGetVar form "nat_enable"); [|done]. by rewrite !save_other, !save_error.
Qed.

Lemma rip_saved_keeps form p n : n <> "rip_enable" -> n <> "rip_interface_content_8" ->
  table (nv (rip_saved form p)) !! n = table (nv p) !! n /\ error_value (rip_saved form p) = error_value p.
Proof.
  intros Hn1 Hn2. destruct mode_unmirrored as (_ & _ & U1 & U2). unfold rip_saved.
  destruct (websGetVar form "rip_enable"); [|done]. cbv zeta. case_bool_decide; by rewrite ?save_other, ?save_error.
Qed.

(** C18. A request of the page of routes, from the form to the flash, through the
    whole table of variables: when the kernel takes the route, it is in its place,
    the page shows it, and the variables are committed before the service is
    restarted; when it does not, no place changes, nothing is committed and the user
    is told of a failure. The form has no fields of other entries of the table than
    those of the page (routes, mode and RIP, with values of the page), asks for no
    action of gozila.cgi and does not switch the commit off; the user may write, no
    upgrade is busy, the addresses of the LAN are texts of addresses, the route has a
    gateway and a legal mask, its variable can be stored once the mode is saved, the
    table of the kernel can be read, and the text of the twenty places stays below
    1000 bytes. *)
Theorem route_request form path_size remote_flag (w : web K) r k l n :
  let st := with_page (mode_saved form (read_lan (mk_page (nv (pg w)) false)))
              (Routes.mk_state (read_lan (mk_page (nv (pg w)) false)) true (world w)) in
  equals "gozila_cgi" (websGetVar form "change_action") = false -> websGetVar form "action" = Some "Apply" ->
  websGetVar form "submit_button" = Some "Routing" -> websGetVar form "commit" = None -> routing_form form ->
  remote_flag <> 1 -> (forall x, files x BUSY = None) ->
  strlen (peek "lan_ipaddr" (nv (pg w))) < 18 -> strlen (peek "lan_netmask" (nv (pg w))) < 18 ->
  is_route r -> r_gw r <> 0 -> legal_netmask (inet_ntoa (r_mask r)) = true -> (k < 20)%nat -> sent form r k ->
  holds l (nv (pg w)) -> storable "static_route" (nv (Routes.pg st)) ->
  Routes.entry_in_route_table (inet_ntoa (r_dest r)) (inet_ntoa (r_mask r)) (inet_ntoa (r_gw r)) (kernel_add r (world w)) = Ret n ->
  strlen (text_of (place <$> <[k := Some r]> l)) < 1000 ->
  exists w' st', apply_cgi form path_size true remote_flag w = Ret w' /\
    outcome_of r k l st st' /\ world w' = Routes.kern st' /\
    let ok := Routes.static_route_added st' in
    shows (if ok then <[k := Some r]> l else l) (nv (pg w')) /\
    trace w' = trace w ++ (if ok then [Commit] else []) ++
      [Do_ej (result_page form (negb ok)); Flush; Service_restart; Sleep 0].
Proof.
  intros st Hc Ha Hb Hcm Hro Hrf Hf H1' H2' Hr Hg Hm Hk Hs Hh Hst He Hlen.
  assert (holds l (nv (Routes.pg st))) as Hh1.
  { destruct Hh as (Hv & Hn & Hp). split; [|done]. unfold st. cbn [with_page Routes.pg].
    by rewrite (proj1 (mode_saved_keeps form _ "static_route" ltac:(done) ltac:(done))). }
  destruct (set_route form r k l n st Hr Hg Hm Hk Hs Hh1 Hst He Hlen) as (st' & Ev & Eerr & Ho & Hh').
  set (p2 := rip_saved form (mode_saved form (Routes.pg st'))).
  destruct (mode_saved_keeps form (Routes.pg st') "static_route") as [Km Em]; [done|done|].
  destruct (rip_saved_keeps form (mode_saved form (Routes.pg st')) "static_route") as [Kr Er]; [done|done|].
  set (w1 := mk_web p2 (Routes.static_route_added st') (gozila_flag w) (Routes.kern st') (trace w)).
  destruct (apply_run form path_size remote_flag w p2 (Routes.static_route_added st') (Routes.kern st')
    (named_service "Routing" w1) None) as (w' & E & Et & Ew & Htr); try done.
  - by rewrite Hb.
  - cbn [validate_all site]. rewrite table_of_routes by done. cbn [Routes.pg]. fold st. by rewrite Ev.
  - by rewrite Hb.
  - unfold file_to_buf. cbn [file_contents site]. by rewrite Hf.
  - exists w', st'. split; [done|]. split; [done|]. split; [done|]. cbv zeta. split.
    + apply holds_shows. destruct Hh' as (Hv & Hn & Hp). split; [|done]. rewrite Et. unfold named_service. cbn [set set_page pg].
      rewrite save_other by (done || apply service_unmirrored). unfold w1. cbn [pg]. unfold p2. by rewrite Kr, Km.
    + rewrite Htr, Hcm, Hb. cbn [default from_option id]. change (atoi "1" =? 0) with false. cbn [negb andb].
      change (planned "Routing") with (@None string, 0, SERVICE_RESTART). cbn [fst snd fmap option_fmap option_map option_list app].
      unfold ending. change (equals "1" None) with false. cbn [app action_effect].
      assert (error_value (pg (named_service "Routing" w1)) = false) as ->; [|done].
      unfold named_service. cbn [set set_page pg]. rewrite save_error. unfold w1. cbn [pg]. unfold p2. rewrite Er, Em, Eerr.
      unfold st. cbn [with_page Routes.pg]. by rewrite (proj2 (mode_saved_keeps form _ "static_route" ltac:(done) ltac:(done))).
Qed.
End Proofs.

(** ** A run *)

Module DemoSite.
Import RoutesProofs.DemoRoutes.
#[export] Instance rest : Rest (list string) := {|
  other_validate _ _ _ st := Ret st; other_go _ _ p k := Ret (0, p, k); files _ _ := None; line_up _ := false; autodetect_flag _ := "0";
  wan_connection _ := "0"; keys_reset k := k
|}.
Definition route_form : gmap string string :=
  <["change_action" := ""]> (<["nat_enable" := "1"]> (<["rip_enable" := "1"]> (<["sel_ripTX" := "3"]> (<["sel_ripRX" := "2"]>
  (<["action" := "Apply"]> (<["submit_button" := "Routing"]> (<["static_route" := "1"]> (form_of new_route "3" "1")))))))).
Definition web1 : web (list string) :=
  mk_web (mk_page (mk_vars {["static_route" := text_of (place <$> places (Some old_route)); "lan_ipaddr" := "192.168.1.1";
                             "lan_netmask" := "255.255.255.0"]} "") false) true false [] [].

Lemma route_form_only : routing_form route_form.
Proof.
  split; [by vm_compute|]. split; [|split; [right; by right|split; [right; by right|]]].
  - intros e He Hn. apply list_elem_of_In in He.
    assert (forallb (fun e => routing_name (entry_name e) || bool_decide (websGetVar route_form (entry_name e) = None))
      variables = true) as Hb by (vm_compute; reflexivity).
    pose proof (proj1 (forallb_forall _ _) Hb e He) as Hx. cbv beta in Hx. clear Hb He.
    rewrite Hn in Hx. exact (bool_decide_eq_true_1 _ Hx).
  - intros _. split; apply list_elem_of_In; vm_compute; tauto.
Qed.

Lemma web1_holds : holds (places (Some old_route)) (nv (pg web1)).
Proof.
  destruct (start_holds []) as (_ & Hl & Hp). split; [vm_compute; reflexivity|]. split; [exact Hl|exact Hp].
Qed.

Lemma route_form_sent : sent route_form new_route 3.
Proof.
  split_and!; try reflexivity; intros i Hi;
    (assert (i = 0 \/ i = 1 \/ i = 2 \/ i = 3) as [-> |[-> |[-> | ->]]] by lia); reflexivity.
Qed.
End DemoSite.
Import RoutesProofs.DemoRoutes DemoSite.

Lemma route_request_witness : exists w', apply_cgi route_form 100 true 0 web1 = Ret w' /\
  trace w' = [Commit; Do_ej "Success.asp"; Flush; Service_restart; Sleep 0] /\
  shows (<[3%nat := Some new_route]> (places (Some old_route))) (nv (pg w')).
Proof.
  destruct (route_request route_form 100 0 web1 new_route 3 (places (Some old_route)) 1) as (w' & st' & E & Ho & _ & Hs & Ht).
  - reflexivity.
  - reflexivity.
  - reflexivity.
  - reflexivity.
  - exact route_form_only.
  - lia.
  - intros x. reflexivity.
  - vm_compute. reflexivity.
  - vm_compute. reflexivity.
  - exact new_route_ok.
  - by vm_compute.
  - vm_compute. reflexivity.
  - lia.
  - exact route_form_sent.
  - exact web1_holds.
  - split; done.
  - vm_compute. reflexivity.
  - vm_compute. reflexivity.
  - exists w'. assert (Routes.static_route_added st' = true) as Eok; [|rewrite Eok in Hs, Ht; split; [exact E|split; [exact Ht|exact Hs]]].
    destruct Ho as [(_ & Ea & _)|[((j & r' & Hj & Hjl & Hc) & _)|(_ & _ & n & En & Ho)]]; [exact Ea| |].
    + exfalso. unfold places in Hjl. rewrite list_lookup_insert_ne in Hjl by done.
      apply lookup_replicate_1 in Hjl as [Hjl _]. discriminate Hjl.
    + vm_compute in En. injection En as <-. apply Ho.
Defined.

(** ** Behaviour that is not intended *)

(** The field of the RIP switch is copied to two bytes without a test. *)
Lemma rip_enable_overflows : validate_entry (K := list string) {["rip_enable" := "10"]}
  (switch_entry "rip_enable" Validate_dynamic_route) (Routes.mk_state (pg web1) true []) = Fault.
Proof. vm_compute. reflexivity. Qed.

(** A mode that is not one of the choices is refused, but the working mode is set
    by it all the same. *)
Lemma refused_mode_sets_working_mode : exists p, validate_nat_func (Variable_ "nat_enable" None (Some ["0"; "1"]) false) "x" (pg web1) = Ret p /\
  error_value p = true /\ table (nv p) !! "nat_enable" = None /\ table (nv p) !! "wk_mode" = Some "router".
Proof. eexists. split_and!; vm_compute; reflexivity. Qed.

End SiteProofs.
