(* ===== verification/CrcProofs.v ===== *)
(** * Proofs about the checksums of frames

    The header check sum and the appended checksums do what they are for: the
    receiver, who runs the plain checksum over all bytes, finds the constants of
    crc.h, whatever the bytes are. *)

From Stdlib Require Import ZArith Lia.
From stdpp Require Import base numbers list.
From S2P Require Import Prelude Bcmutils BcmutilsProofs Crc.
Import (notations) Bcm.
Import Crc.
Open Scope Z_scope.
Open Scope list_scope.

Module CrcProofs.

(** ** The loops as divisions *)

Lemma tables_tabulate : tabulates crc8_table POLY8 /\ tabulates crc16_table POLY16 /\ tabulates crc32_table POLY32.
Proof. split; [|split]; apply tabulates_compute; vm_compute; reflexivity. Qed.

Lemma crc_loop_bits table P buf i n c : tabulates table P -> Forall is_u8 buf -> (i + n <= length buf)%nat ->
  crc_loop table buf i n c = Ret (crc_bits P (take n (drop i buf)) c).
Proof.
  intros Ht Hb. revert i c. induction n as [|n IH]; intros i c Hn; [by rewrite take_0|].
  destruct (lookup_lt_is_Some_2 buf i) as [x Hx]; [lia|]. cbn [crc_loop]. rewrite Hx, (drop_S buf x i Hx).
  cbn [deref mbind outcome_bind take]. rewrite IH by lia. unfold crc_bits at 2. cbn [fold_left].
  do 2 f_equal. apply (crc_inner_bits table); [done|]. by apply (Forall_lookup_1 _ _ _ _ Hb Hx).
Qed.

(** The division is linear: a difference in the register stays apart. *)
Lemma crc_bits_lxor P bs c d : crc_bits P bs (c .^. d) = crc_bits P bs c .^. bit_steps P (8 * length bs) d.
Proof.
  revert c d. induction bs as [|x bs IH]; intros c d; [done|]. unfold crc_bits in *. cbn [fold_left length].
  replace ((c .^. d) .^. x) with ((c .^. x) .^. d) by (rewrite !Z.lxor_assoc; f_equal; apply Z.lxor_comm).
  rewrite bit_steps_lxor, IH. f_equal. rewrite <- bit_steps_add. f_equal. lia.
Qed.

(** Changing one byte from zero to [h]. *)
Lemma crc_bits_change P a b c h :
  crc_bits P (a ++ h :: b) c = crc_bits P (a ++ 0 :: b) c .^. bit_steps P (8 * S (length b)) h.
Proof.
  rewrite !crc_bits_app. unfold crc_bits at 1 3. cbn [fold_left]. fold (crc_bits P a c).
  rewrite Z.lxor_0_r, bit_steps_lxor. change (fold_left _ b ?x) with (crc_bits P b x). rewrite crc_bits_lxor. f_equal.
  rewrite <- bit_steps_add. f_equal. lia.
Qed.

(** ** Writing bytes *)

Lemma put_inside buf i v : (i < length buf)%nat -> put buf (Z.of_nat i) v = Ret (<[i := v]> buf).
Proof. intros Hi. unfold put. rewrite (proj2 (Z.leb_le _ _)), (proj2 (Z.ltb_lt _ _)) by lia. cbn [andb]. by rewrite Nat2Z.id. Qed.

Lemma insert_bytes buf i v : Forall is_u8 buf -> is_u8 v -> Forall is_u8 (<[i := v]> buf).
Proof. intros. by apply Forall_insert. Qed.

(** ** The header check sum *)

(** The byte that is inserted, for every value of the checksum with a zero in its
    place. *)
Lemma hcs_value_good c : is_u8 c ->
  c .^. bit_steps POLY8 104 (hcs_value c .^. 0xff) = HCS_GOOD_VALUE /\ is_u8 (hcs_value c .^. 0xff).
Proof.
  assert (forallb (fun i => let c := Z.of_nat i in let h := hcs_value c .^. 0xff in
    (c .^. bit_steps POLY8 104 h =? HCS_GOOD_VALUE) && (0 <=? h) && (h <? 256)) (seq 0 256) = true) as H
    by (vm_compute; reflexivity).
  intros Hc. unfold is_u8 in *. word_consts. pose proof (proj1 (forallb_forall _ _) H (Z.to_nat c)) as Hx. cbv beta zeta in Hx.
  rewrite Z2Nat.id in Hx by lia. assert (In (Z.to_nat c) (seq 0 256)) as Hi.
  { apply in_seq. change 256%nat with (Z.to_nat 256). lia. }
  apply Hx, andb_prop in Hi as [[E%Z.eqb_eq ?%Z.leb_le]%andb_prop ?%Z.ltb_lt]. split; [done|lia].
Qed.

(** A buffer around one byte of it. *)
Lemma insert_middle {A} (l : list A) (i n : nat) (v : A) : (i < n)%nat -> (n <= length l)%nat ->
  take n (<[i := v]> l) = take i l ++ v :: take (n - S i) (drop (S i) l).
Proof.
  intros Hi Hn. rewrite insert_take_drop, take_app, length_take, Nat.min_l, take_ge by (rewrite ?length_take; lia).
  f_equal. replace (n - i)%nat with (S (n - S i)) by lia. done.
Qed.

(** C33. The header check sum: for a header of at least thirteen bytes hcs changes
    the thirteenth byte from the end alone, and the checksum over all bytes is then
    the constant a receiver expects; for a shorter header the index wraps around and
    the write is outside the buffer. *)
Theorem hcs_checks buf n : Forall is_u8 buf -> (n <= length buf)%nat -> Z.of_nat n < 2 ^ 32 - 13 ->
  Z.of_nat (length buf) < 2 ^ 32 - 13 ->
  if (13 <=? n)%nat then exists buf', hcs buf (Z.of_nat n) = Ret buf' /\ length buf' = length buf /\
    (forall i, i <> (n - 13)%nat -> buf' !! i = buf !! i) /\
    crc8 buf' (Z.of_nat n) CRC8_INIT_VALUE = Ret HCS_GOOD_VALUE
  else hcs buf (Z.of_nat n) = Fault.
Proof.
  intros Hb Hn H32 Hl32. unfold hcs. destruct (Nat.leb_spec 13 n) as [H13|H13].
  - replace (u32 (Z.of_nat n - 12 - 1)) with (Z.of_nat (n - 13)) by (rewrite u32_small; unfold is_u32; word_consts; lia).
    rewrite put_inside by lia. cbn [mbind outcome_bind]. set (z := <[(n - 13)%nat := 0]> buf).
    assert (length z = length buf) as Hz by apply length_insert. assert (Forall is_u8 z) as Hzb by (by apply insert_bytes).
    unfold crc8. rewrite Nat2Z.id. rewrite (crc_loop_bits _ POLY8) by (apply tables_tabulate || done || lia).
    cbn [mbind outcome_bind]. rewrite drop_0, put_inside by lia. set (c := crc_bits POLY8 (take n z) _).
    assert (is_u8 c) as Hc by (apply (crc_bits_lt 8); (done || lia || by apply Forall_take)).
    destruct (hcs_value_good c Hc) as [Hg Hh]. eexists. split; [done|].
    split; [by rewrite length_insert|]. split.
    { intros i Hi. unfold z. by rewrite !list_lookup_insert_ne by done. }
    rewrite (crc_loop_bits _ POLY8) by (apply tables_tabulate || (by apply insert_bytes) || (rewrite length_insert; lia)).
    f_equal. rewrite drop_0. unfold z at 1. rewrite list_insert_insert_eq, insert_middle, crc_bits_change by lia.
    rewrite length_take, length_drop, Nat.min_l by lia. rewrite <- insert_middle by lia. fold z. fold c.
    replace (8 * S (n - S (n - 13)))%nat with 104%nat by lia. exact Hg.
  - unfold put. replace (u32 (Z.of_nat n - 12 - 1)) with (2 ^ 32 + (Z.of_nat n - 13)).
    + rewrite (proj2 (Z.ltb_ge _ _)) by lia. by rewrite andb_false_r.
    + unfold u32. apply (Zmod_unique _ _ (-1)); word_consts; lia.
Qed.

Lemma hcs_checks_witness : exists buf', hcs (replicate 20 7) 20 = Ret buf' /\ crc8 buf' 20 CRC8_INIT_VALUE = Ret HCS_GOOD_VALUE.
Proof.
  destruct (hcs_checks (replicate 20 7) 20) as (buf' & E & _ & _ & Hc).
  - apply all_u8_ok. reflexivity.
  - apply le_n.
  - reflexivity.
  - reflexivity.
  - exists buf'. split; [exact E|exact Hc].
Defined.

(** ** Appended checksums *)

Lemma put_app a x b v : put (a ++ x :: b) (Z.of_nat (length a)) v = Ret (a ++ v :: b).
Proof. rewrite put_inside by (rewrite length_app; cbn; lia). by rewrite insert_app_r_alt, Nat.sub_diag by lia. Qed.

(** A frame with the complement of its checksum behind it, low byte first. *)
Lemma appended_good table P k d r c : tabulates table P -> (1 <= k)%nat -> 0 <= P < 2 ^ (8 * Z.of_nat k) ->
  0 <= c < 2 ^ (8 * Z.of_nat k) -> Forall is_u8 d -> Forall is_u8 r ->
  let t := le_bytes k (crc_bits P d c .^. Z.ones (8 * Z.of_nat k)) in
  crc_loop table (d ++ t ++ r) 0 (length d + length t) c = Ret (bit_steps P (8 * k) (Z.ones (8 * Z.of_nat k))).
Proof.
  intros Ht Hk HP Hc Hd Hr t. assert (Forall is_u8 t) as Hu by apply le_bytes_u8.
  rewrite (crc_loop_bits table P) by (done || (by repeat apply Forall_app_2) || (rewrite !length_app; lia)).
  rewrite drop_0, app_assoc, <- length_app, take_app_length. f_equal. by apply crc_bits_good.
Qed.

Lemma crc_of_frame table P d r c : tabulates table P -> Forall is_u8 d -> Forall is_u8 r ->
  crc_loop table (d ++ r) 0 (length d) c = Ret (crc_bits P d c).
Proof.
  intros Ht Hd Hr. rewrite (crc_loop_bits table P) by (done || (by apply Forall_app_2) || (rewrite length_app; lia)).
  by rewrite drop_0, take_app_length.
Qed.

Lemma put_nth d pre x r v i : i = Z.of_nat (length d) + Z.of_nat (length pre) ->
  put (d ++ pre ++ x :: r) i v = Ret (d ++ pre ++ v :: r).
Proof. intros ->. by rewrite app_assoc, <- Nat2Z.inj_add, <- length_app, put_app, <- app_assoc. Qed.
Lemma put_0 d x r v : put (d ++ x :: r) (Z.of_nat (length d) + 0) v = Ret (d ++ v :: r).
Proof. by apply (put_nth d []). Qed.
Lemma put_1 d a x r v : put (d ++ a :: x :: r) (Z.of_nat (length d) + 1) v = Ret (d ++ a :: v :: r).
Proof. by apply (put_nth d [a]). Qed.
Lemma put_2 d a b x r v : put (d ++ a :: b :: x :: r) (Z.of_nat (length d) + 2) v = Ret (d ++ a :: b :: v :: r).
Proof. by apply (put_nth d [a; b]). Qed.
Lemma put_3 d a b c x r v : put (d ++ a :: b :: c :: x :: r) (Z.of_nat (length d) + 3) v = Ret (d ++ a :: b :: c :: v :: r).
Proof. by apply (put_nth d [a; b; c]). Qed.

Lemma u8_land x : is_u8 x -> x .&. 0xff = x.
Proof. intros Hx. change 0xff with (Z.ones 8). rewrite Z.land_ones by lia. by apply Z.mod_small. Qed.

(** Frames with their checksum appended pass the test of the receiver: each of
    the macros writes the bytes behind the frame, keeps the rest of the buffer, and
    the checksum over frame and appended bytes is the constant of crc.h. *)
Theorem appended_checks d x0 x1 x2 x3 r : Forall is_u8 d -> Forall is_u8 (x0 :: x1 :: x2 :: x3 :: r) ->
  let buf := d ++ x0 :: x1 :: x2 :: x3 :: r in
  let n := Z.of_nat (length d) in
  (exists a, let buf' := d ++ a :: x1 :: x2 :: x3 :: r in
     APPEND_CRC8 buf n = Ret (buf', n + 1) /\ crc8 buf' (n + 1) CRC8_INIT_VALUE = Ret CRC8_GOOD_VALUE) /\
  (exists a b, let buf' := d ++ a :: b :: x2 :: x3 :: r in
     APPEND_CRC16 buf n = Ret (buf', n + 2) /\ crc16 buf' (n + 2) CRC16_INIT_VALUE = Ret CRC16_GOOD_VALUE) /\
  (exists a b c e, let buf' := d ++ a :: b :: c :: e :: r in
     APPEND_CRC32 buf n = Ret (buf', n + 4) /\ crc32 buf' (n + 4) CRC32_INIT_VALUE = Ret CRC32_GOOD_VALUE).
Proof.
  intros Hd Hx buf n. destruct tables_tabulate as (T8 & T16 & T32).
  split; [|split].
  - pose proof (appended_good _ POLY8 1 d (x1 :: x2 :: x3 :: r) CRC8_INIT_VALUE T8 (le_n 1)) as G. cbv zeta in G.
    assert (is_u8 (crc_bits POLY8 d CRC8_INIT_VALUE .^. 0xff)) as Hu.
    { apply lxor_u8; [|done]. apply (crc_bits_lt 8); (done || lia). }
    eexists. unfold APPEND_CRC8, crc8, buf, n. rewrite Nat2Z.id, (crc_of_frame _ POLY8) by done. cbn [mbind outcome_bind].
    rewrite put_app. split; [done|]. replace (Z.to_nat _) with (length d + 1)%nat by lia.
    change (Z.ones _) with 0xff in G. cbn [le_bytes app length] in G. rewrite (u8_land _ Hu) in G.
    apply Forall_cons_1 in Hx as [_ Hx]. rewrite G by done. by vm_compute.
  - pose proof (appended_good _ POLY16 2 d (x2 :: x3 :: r) CRC16_INIT_VALUE T16 ltac:(lia)) as G. cbv zeta in G.
    eexists _, _. unfold APPEND_CRC16, crc16, buf, n. rewrite Nat2Z.id, (crc_of_frame _ POLY16) by done. cbn [mbind outcome_bind].
    rewrite put_0. cbn [mbind outcome_bind]. rewrite put_1. split; [done|].
    replace (Z.to_nat _) with (length d + 2)%nat by lia. rewrite Z.shiftr_0_r.
    change (Z.ones _) with 0xffff in G. cbn [le_bytes app length] in G.
    do 2 apply Forall_cons_1 in Hx as [_ Hx]. rewrite G by done. by vm_compute.
  - pose proof (appended_good _ POLY32 4 d r CRC32_INIT_VALUE T32 ltac:(lia)) as G. cbv zeta in G.
    eexists _, _, _, _. unfold APPEND_CRC32, crc32, buf, n. rewrite Nat2Z.id, (crc_of_frame _ POLY32) by done. cbn [mbind outcome_bind].
    rewrite put_0. cbn [mbind outcome_bind]. rewrite put_1. cbn [mbind outcome_bind]. rewrite put_2. cbn [mbind outcome_bind].
    rewrite put_3. split; [done|].
    replace (Z.to_nat _) with (length d + 4)%nat by lia. rewrite Z.shiftr_0_r.
    change (Z.ones _) with 0xffffffff in G. cbn [le_bytes app length] in G. rewrite !Z.shiftr_shiftr in G by done.
    change (8 + 8 + 8) with 24 in G. change (8 + 8) with 16 in G.
    do 4 apply Forall_cons_1 in Hx as [_ Hx]. rewrite G by done. by vm_compute.
Qed.

Lemma appended_checks_witness : exists buf', APPEND_CRC16 [1; 2; 3; 0; 0; 0; 0] 3 = Ret (buf', 5) /\
  crc16 buf' 5 CRC16_INIT_VALUE = Ret CRC16_GOOD_VALUE.
Proof.
  destruct (appended_checks [1; 2; 3] 0 0 0 0 []) as (_ & (a & b & E & G) & _).
  - apply all_u8_ok. reflexivity.
  - apply all_u8_ok. reflexivity.
  - eexists. split; [exact E|exact G].
Defined.

End CrcProofs.
