(* ===== verification/LeasePagesProofs.v ===== *)
(** * Proofs about the DHCP pages

    What the page shows is what the server has, and what the page deletes is what
    the server forgets: the two processes agree on the files between them. *)

From Stdlib Require Import ZArith Lia Ascii.
From stdpp Require Import base numbers sets gmap strings list.
From S2P Require Import Prelude CString NvramDrv Nvram DhcpOptions DhcpLeases DhcpLeasesProofs DhcpFiles DhcpFilesProofs.
From S2P Require Import Vars TextProofs NvparseProofs Validate ValidateProofs Ej Pages Forward ForwardProofs RoutesProofs Apply ApplyProofs LeasePages.
Import Vars Validate LeasePages.
Import Leases.
Import RoutesProofs(single_byte).
Import NvparseProofs(storable, unmirrored).
Import ForwardProofs(save_inserts).
Import ValidateProofs(text_of, text_of_snoc).
Open Scope string_scope.
Open Scope Z_scope.
Open Scope list_scope.

Module LeasePagesProofs.

(** ** Lines of a file *)

Lemma fgets_line n t r : avoids (is_char "010") t = true -> strlen t + 1 < Z.of_nat n ->
  Files.fgets n (t +:+ Pages.lf +:+ r) = (t +:+ Pages.lf, r).
Proof.
  revert n. induction t as [|c t IH]; intros [|[|n]] Ha Hn; unfold strlen in *; cbn [String.length] in Hn; try lia; [done|].
  apply avoids_cons in Ha as [Hc Ha]. specialize (IH (S n) Ha ltac:(lia)).
  change (String c t +:+ Pages.lf +:+ r) with (String c (t +:+ Pages.lf +:+ r)). unfold is_char in Hc.
  change (Files.fgets (S (S n)) (String c ?u)) with
    (if bool_decide (c = "010"%char) then (String c EmptyString, u) else let '(l, r) := Files.fgets (S n) u in (String c l, r)).
  by rewrite Hc, IH.
Qed.

(** The lines of a text, each with its end. *)
Definition joined (ls : list string) : string := foldr (fun t acc => t +:+ Pages.lf +:+ acc) "" ls.

Lemma lines_joined n ls : Forall (fun t => avoids (is_char "010") t = true /\ strlen t + 1 < Z.of_nat n) ls ->
  Files.lines n (joined ls) = (fun t => t +:+ Pages.lf) <$> ls.
Proof.
  unfold Files.lines. intros Hl. assert (forall fuel, strlen (joined ls) <= Z.of_nat fuel ->
    Files.lines_loop fuel n (joined ls) = (fun t => t +:+ Pages.lf) <$> ls) as Hx; [|by apply Hx].
  induction Hl as [|t ls [Ha Hn] _ IH]; intros fuel Hf; [by destruct fuel|].
  cbn [joined foldr] in *. fold (joined ls) in *. rewrite !strlen_app in Hf. change (strlen Pages.lf) with 1 in Hf.
  pose proof (strlen_nonneg t). pose proof (strlen_nonneg (joined ls)). destruct fuel as [|fuel]; [lia|]. cbn [Files.lines_loop].
  destruct (t +:+ Pages.lf +:+ joined ls) as [|c u] eqn:E.
  { apply (f_equal strlen) in E. rewrite !strlen_app in E. change (strlen Pages.lf) with 1 in E. change (strlen "") with 0 in E. lia. }
  rewrite <- E, fgets_line by done. cbn [fmap list_fmap]. f_equal. apply IH. lia.
Qed.

(** ** Addresses of the LAN *)

(** The address of the LAN with another last byte. *)
Definition lan_host (lan n : Z) : Z := word4 (byte_at lan 0) (byte_at lan 1) (byte_at lan 2) n.
Definition host_line (lan : Z) (v : string) : string :=
  dec (byte_at lan 0) +:+ "." +:+ dec (byte_at lan 1) +:+ "." +:+ dec (byte_at lan 2) +:+ "." +:+ v.

Lemma byte_at_host lan n : is_u8 n -> inet_ntoa (lan_host lan n) = host_line lan (dec n) /\ is_u32 (lan_host lan n).
Proof.
  intros Hn. unfold inet_ntoa, lan_host.
  destruct (byte_at_word4 (byte_at lan 0) (byte_at lan 1) (byte_at lan 2) n) as (-> & -> & -> & ->); try apply byte_at_range; [done|].
  split; [done|]. by apply word4_range; try apply byte_at_range.
Qed.

Lemma host_line_aton lan n : is_u8 n -> inet_aton (host_line lan (dec n) +:+ Pages.lf) = Some (lan_host lan n).
Proof.
  intros Hn. destruct (byte_at_host lan n Hn) as [E Hu]. pose proof (inet_roundtrip _ Hu) as R. rewrite E in R.
  unfold is_u8 in Hn. word_consts.
  assert (forall i, 0 <= byte_at lan i <= 255) as Hb by (intros i; pose proof (byte_at_range lan i) as Hx; unfold is_u8 in Hx; lia).
  unfold inet_aton, host_line in *. rewrite !string_app_assoc in *.
  etrans; [|exact R]. f_equal. symmetry.
  do 3 (etrans; [exact (aton_part _ _ _ _ (Hb _))|symmetry; etrans; [exact (aton_part _ _ _ _ (Hb _))|symmetry]]).
  rewrite aton_last by lia. pose proof (octet_dec n Pages.lf ltac:(lia) eq_refl) as Ho.
  destruct (dec_head n) as (c & t & Ed & Hc); [lia|]. rewrite Ed in *.
  change (String c t +:+ Pages.lf) with (String c (t +:+ Pages.lf)) in *. cbn [aton_parts]. rewrite Hc, Ho. done.
Qed.

(** ** Deleting leases *)

(** The values of the rows that are marked. *)
Definition marks (form : gmap string string) (rows : list Z) : list string :=
  omap (fun i => websGetVar form (Forward.numbered "d_" i)) rows.

Lemma joined_app a b : joined (a ++ b) = joined a +:+ joined b.
Proof.
  induction a as [|t a IH]; [done|]. cbn [app joined foldr]. fold (joined (a ++ b)). fold (joined a). by rewrite IH, !string_app_assoc.
Qed.

Lemma rows_written form lan rows : forall text p, peek "lan_ipaddr" (nv p) = inet_ntoa lan ->
  exists p', Forward.turns (delete_row form) rows (text, p) = Ret (text +:+ joined (host_line lan <$> marks form rows), p') /\
    table (nv p') = table (nv p).
Proof.
  induction rows as [|i rows IH]; intros text p Hp.
  { exists p. cbn. by rewrite string_app_nil_r. }
  cbn [Forward.turns delete_row]. unfold marks. cbn [omap list_omap]. destruct (websGetVar form _) as [v|]; [|by apply IH].
  unfold Forward.get_var, Vars.nvram_get. rewrite Hp, !single_byte by lia. cbn [mbind outcome_bind].
  match goal with |- context [Forward.turns _ _ (?t, ?q)] => destruct (IH t q Hp) as (p' & E & Et) end.
  exists p'. split; [|done]. etrans; [exact E|]. fold (marks form rows). cbn [fmap list_fmap joined foldr].
  fold (joined (host_line lan <$> marks form rows)). unfold host_line at 2. by rewrite !string_app_assoc.
Qed.

(** The form marks addresses by their last byte. *)
Definition marked (form : gmap string string) (ns : list Z) : Prop :=
  marks form (seqZ 0 DHCP_MAX_COUNT) = dec <$> ns /\ Forall is_u8 ns.

Lemma delete_table_hosts lan ns junk : Forall is_u8 ns ->
  Files.delete_table ((fun t => t +:+ Pages.lf) <$> (host_line lan <$> (dec <$> ns))) junk = lan_host lan <$> ns.
Proof.
  intros Hn. revert junk. induction Hn as [|n ns Hn _ IH]; intros junk; [done|]. cbn [fmap list_fmap Files.delete_table].
  rewrite host_line_aton by done. cbn [default from_option id]. f_equal. apply IH.
Qed.

Lemma host_line_fits lan n : is_u8 n -> avoids (is_char "010") (host_line lan (dec n)) = true /\ strlen (host_line lan (dec n)) + 1 < 80.
Proof.
  intros Hn. destruct (byte_at_host lan n Hn) as [<- _]. split; [by apply RoutesProofs.ntoa_avoids_char|].
  pose proof (NvparseProofs.ntoa_length (lan_host lan n)). lia.
Qed.

Section Server.
Context `{Env}.

(** C20. Deleting leases on the page reaches the server: the file the page writes
    makes the server clear exactly the leases whose address is the network of the
    LAN with one of the last bytes that are marked, and keep all others; with more
    marks than the server has leases it writes past its table. *)
Theorem delete_reaches_server form p lan ns s junk :
  peek "lan_ipaddr" (nv p) = inet_ntoa lan -> peek "lan_proto" (nv p) <> "static" -> marked form ns ->
  exists p' text, delete_leases form true p =
      Ret (0, p', [Apply.Remove_file DELETE_FILE; Apply.Write_file DELETE_FILE text; killall SIGUSR2 "udhcpd"]) /\
    table (nv p') = table (nv p) /\
    (file_contents DELETE_FILE = Some text -> Files.delete_leases junk s =
       if c_max_leases (cfg s) <? Z.of_nat (length ns) then Fault
       else Ret (with_leases ((fun l => if negb (l_yiaddr l =? 0) && bool_decide (l_yiaddr l ∈ lan_host lan <$> ns)
                                        then zero_lease else l) <$> leases s) s)).
Proof.
  intros Hlan Hst [Hm Hn]. unfold delete_leases, nvram_match, Vars.nvram_get. rewrite bool_decide_eq_false_2 by done. cbn [negb].
  match goal with |- context [Forward.turns _ _ (_, ?q)] =>
    destruct (rows_written form lan (seqZ 0 DHCP_MAX_COUNT) "" q Hlan) as (p' & E & Et) end. rewrite E. cbn [mbind outcome_bind].
  eexists p', _. split; [reflexivity|]. split; [done|]. intros Hf. unfold Files.delete_leases. fold DELETE_FILE. rewrite Hf.
  change ("" +:+ ?t) with t. rewrite Hm, lines_joined.
  - rewrite !length_fmap, delete_table_hosts by done. done.
  - rewrite !Forall_fmap. apply (Forall_impl _ _ _ Hn). intros n. apply host_line_fits.
Qed.
End Server.

(** ** Showing leases *)

(** The time is cut without loss, though not always at full hours and minutes. *)
Lemma expires_adds e : 0 < e -> exists d h m t,
  expires_text e = (if d =? 0 then "" else dec d +:+ " days, ") +:+ dec2 h +:+ ":" +:+ dec2 m +:+ ":" +:+ dec2 t /\
  86400 * d + 3600 * h + 60 * m + t = e /\ 0 <= d /\ 0 <= h <= 24 /\ 0 <= m <= 60 /\ 0 <= t <= 60.
Proof.
  intros He. unfold expires_text.
  set (d := if 86400 <? e then e / 86400 else 0). set (e1 := if 86400 <? e then e mod 86400 else e).
  set (h := if 3600 <? e1 then e1 / 3600 else 0). set (e2 := if 3600 <? e1 then e1 mod 3600 else e1).
  set (m := if 60 <? e2 then e2 / 60 else 0). set (t := if 60 <? e2 then e2 mod 60 else e2).
  exists d, h, m, t. split.
  - unfold t, m, e2, h, e1, d. destruct (Z.ltb_spec 86400 e).
    + rewrite (proj2 (Z.eqb_neq (e / 86400) 0)) by (Z.to_euclidean_division_equations; lia).
      destruct (Z.ltb_spec 3600 (e mod 86400)); [destruct (Z.ltb_spec 60 ((e mod 86400) mod 3600))|destruct (Z.ltb_spec 60 (e mod 86400))];
        by rewrite ?string_app_assoc.
    + change (0 =? 0) with true. destruct (Z.ltb_spec 3600 e); [destruct (Z.ltb_spec 60 (e mod 3600))|destruct (Z.ltb_spec 60 e)]; done.
  - assert (86400 * d + e1 = e /\ 0 <= d /\ 0 <= e1 <= 86400) as (E1 & ? & ?).
    { unfold d, e1. destruct (Z.ltb_spec 86400 e); Z.to_euclidean_division_equations; lia. }
    assert (3600 * h + e2 = e1 /\ 0 <= h <= 24 /\ 0 <= e2 <= 3600) as (E2 & ? & ?).
    { unfold h, e2. destruct (Z.ltb_spec 3600 e1); Z.to_euclidean_division_equations; lia. }
    assert (60 * m + t = e2 /\ 0 <= m <= 60 /\ 0 <= t <= 60) as (E3 & ? & ?).
    { unfold m, t. destruct (Z.ltb_spec 60 e2); Z.to_euclidean_division_equations; lia. }
    lia.
Qed.

(** A record the page can read. *)
Definition readable (l : dhcpOfferedAddr) : Prop := lease_ok l /\ Forall is_u8 (l_chaddr l) /\ 0 ∈ l_hostname l.
Definition has_mac (l : dhcpOfferedAddr) : Prop := take 6 (l_chaddr l) <> replicate 6 0.
#[local] Instance has_mac_dec l : Decision (has_mac l).
Proof. unfold has_mac. apply _. Defined.

Lemma hex2_zero b : is_u8 b -> hex2 b = "00" -> b = 0.
Proof.
  intros Hb E. assert (forallb (fun i => negb (String.eqb (hex2 (Z.of_nat i)) "00") || (i =? 0)%nat) (seq 0 256) = true) as H
    by (vm_compute; reflexivity).
  unfold is_u8 in Hb. word_consts. pose proof (proj1 (forallb_forall _ _) H (Z.to_nat b)) as Hx. cbv beta in Hx.
  rewrite Z2Nat.id, E in Hx by lia. cbn [String.eqb negb orb] in Hx.
  assert (In (Z.to_nat b) (seq 0 256)) as Hi by (apply in_seq; change 256%nat with (Z.to_nat 256); lia).
  apply Hx, Nat.eqb_eq in Hi. lia.
Qed.

Lemma mac_text_zero l : lease_ok l -> Forall is_u8 (l_chaddr l) ->
  bool_decide (mac_text (l_chaddr l) = "00:00:00:00:00:00") = bool_decide (~ has_mac l).
Proof.
  intros (Hc & _) Hu. apply bool_decide_ext. unfold has_mac, mac_text.
  destruct (l_chaddr l) as [|a [|b [|c [|d [|e [|f r]]]]]]; cbn [length] in Hc; try lia.
  do 6 (apply Forall_cons_1 in Hu as [? Hu]). cbn [take fmap list_fmap].
  assert ([a; b; c; d; e; f] = replicate 6 0 <-> String.concat ":" [hex2 a; hex2 b; hex2 c; hex2 d; hex2 e; hex2 f] = "00:00:00:00:00:00") as Hx.
  { split; [by intros [= -> -> -> -> -> ->]|]. unfold hex2. cbn [String.concat String.append].
    intros [= ? ? ? ? ? ? ? ? ? ? ? ?]. cbn [replicate]. repeat f_equal; apply hex2_zero; try done; unfold hex2; congruence. }
  rewrite <- Hx. destruct (decide ([a; b; c; d; e; f] = replicate 6 0)); tauto.
Qed.

(** The row of a lease at the time of the server, and the leases that have one. *)
Definition row_of (s : server) (k : nat) (l : dhcpOfferedAddr) : Ej.text :=
  Ej.chars (lease_row (Z.of_nat k) (string_of (l_hostname l)) (inet_ntoa (l_yiaddr l)) (mac_text (l_chaddr l))
    (expires_text (remaining s l)) (byte_at (l_yiaddr l) 3)).
Definition visible (s : server) (l : dhcpOfferedAddr) : Prop := has_mac l /\ remaining s l <> 0.
#[local] Instance visible_dec s l : Decision (visible s l).
Proof. unfold visible. apply _. Defined.

(** The record of a lease in the file. *)
Definition stored (s : server) (l : dhcpOfferedAddr) : dhcpOfferedAddr := set_expires (htonl (remaining s l)) l.

Lemma remaining_u32 s l : 0 <= clock s -> is_u32 (l_expires l) -> is_u32 (remaining s l).
Proof. unfold remaining, lease_expired, is_u32. intros. destruct (Z.ltb_spec (l_expires l) (clock s)); lia. Qed.

Lemma stored_ok s l : lease_ok l -> lease_ok (stored s l).
Proof. intros (? & ? & ? & ?). split_and!; try done. apply bswap32_range. Qed.

Lemma record_step s R l : lease_ok l -> let file := Files.lease_bytes (stored s l) ++ R in
  (length file <? 88)%nat = false /\ Files.lease_of_bytes (take 88 file) = stored s l /\ drop 88 file = R.
Proof.
  intros Hl. pose proof (stored_ok s l Hl) as Hs. pose proof (lease_bytes_length _ Hs) as Hb. cbv zeta. split_and!.
  - apply Nat.ltb_ge. rewrite length_app. lia.
  - rewrite take_app_length' by done. by apply lease_bytes_roundtrip.
  - by rewrite drop_app_length' by done.
Qed.

Lemma dump_rows s R : 0 <= clock s -> Forall readable R -> forall count fuel, (length R < fuel)%nat ->
  dump_loop fuel (concat ((fun l => Files.lease_bytes (stored s l)) <$> R)) (Z.of_nat count) =
  Ret (mjoin (imap (fun k l => row_of s (count + k) l) (filter (visible s) R))).
Proof.
  intros Hc HR. induction HR as [|l R (Hl & Hu & Hh) _ IH]; intros count [|fuel] Hf; cbn [length] in Hf; try lia; [done|].
  cbn [fmap list_fmap concat dump_loop]. destruct (record_step s (concat ((fun l => Files.lease_bytes (stored s l)) <$> R)) l Hl) as (-> & -> & ->).
  change (l_chaddr (stored s l)) with (l_chaddr l). rewrite mac_text_zero by done. rewrite filter_cons.
  pose proof (remaining_u32 s l Hc ltac:(apply Hl)) as Hr.
  assert (ntohl (l_expires (stored s l)) = remaining s l) as -> by (apply bswap32_involutive; exact Hr).
  case_bool_decide as Hm.
  { rewrite decide_False by (intros [? _]; tauto). apply IH. lia. }
  destruct (Z.eqb_spec (remaining s l) 0) as [Hz|Hz].
  { rewrite decide_False by (intros [_ ?]; tauto). apply IH. lia. }
  change (l_hostname (stored s l)) with (l_hostname l). change (l_yiaddr (stored s l)) with (l_yiaddr l).
  rewrite (bool_decide_eq_true_2 (0 ∈ l_hostname l)) by done. cbn [negb]. rewrite single_byte by lia. cbn [mbind outcome_bind].
  replace (Z.of_nat count + 1) with (Z.of_nat (S count)) by lia. rewrite IH by lia. cbn [mbind outcome_bind].
  assert (has_mac l) by (destruct (decide (has_mac l)); tauto). rewrite decide_True by done. cbn [imap mjoin list_join].
  do 2 f_equal; [unfold row_of; by rewrite Nat.add_0_r|]. f_equal. apply imap_ext. intros k x _. cbn. f_equal. lia.
Qed.

(** C21. The page shows the leases of the server: of the file the server writes it
    shows, one row each and in the order of the table, the leases that are given
    out, belong to a hardware address and have not expired, with host name,
    address, hardware address and the time they still have, which is cut into days,
    hours, minutes and seconds without loss. *)
Theorem leases_shown s : c_remaining (cfg s) <> 0 -> 0 <= clock s -> Forall readable (leases s) ->
  ej_dumpleases (Some (concat (Files.lease_record s <$> leases s))) =
    Ret ([killall SIGUSR1 "udhcpd"], mjoin (imap (row_of s) (filter (visible s) (kept (leases s))))) /\
  forall l, visible s l -> lease_ok l -> exists d h m t,
    expires_text (remaining s l) = (if d =? 0 then "" else dec d +:+ " days, ") +:+ dec2 h +:+ ":" +:+ dec2 m +:+ ":" +:+ dec2 t /\
    86400 * d + 3600 * h + 60 * m + t = l_expires l - clock s /\ 0 <= d /\ 0 <= h <= 24 /\ 0 <= m <= 60 /\ 0 <= t <= 60.
Proof.
  intros Hrem Hc HR. split.
  - unfold ej_dumpleases. rewrite records_kept; [|done|done|].
    2: { intros l Hl. rewrite Forall_forall in HR. by apply HR. }
    assert (Forall readable (kept (leases s))) as HK.
    { rewrite Forall_forall in HR |- *. intros l [_ Hl]%list_elem_of_filter. by apply HR. }
    rewrite (dump_rows s (kept (leases s)) Hc HK 0); [done|].
    assert (Forall lease_ok (kept (leases s))) as Hok by (apply (Forall_impl _ _ _ HK); by intros l [? _]).
    pose proof (concat_records_length s _ Hok). unfold stored. lia.
  - intros l [_ Hz] (_ & _ & He & _). assert (remaining s l = l_expires l - clock s) as E.
    { unfold remaining in *. by destruct (lease_expired l (clock s)). }
    rewrite <- E. apply expires_adds. unfold remaining, lease_expired in *.
    destruct (Z.ltb_spec (l_expires l) (clock s)); lia.
Qed.

(** ** Reserved addresses *)

Definition good_mac (t : string) : Prop := t = "" \/ legal_hwaddr t = true /\ strlen t = 17.
Definition good_host (t : string) : Prop :=
  t = "" \/ forallb host_char (String.list_ascii_of_string t) = true /\
            exists c, c ∈ String.list_ascii_of_string t /\ in_range 48 57 c = false.
(** The last byte of an address in decimal digits, or nothing. *)
Definition last_byte (t : string) : Prop :=
  t = "" \/ chars_all isdigit t = true /\ 0 <= atoi t <= 254.
Definition good_row (i : nat) (w : string) : Prop := exists e ip name,
  w = dec e +:+ ":" +:+ ip +:+ ":" +:+ name /\ (e = 0 \/ e = 1) /\ last_byte ip /\
  if (i <? 10)%nat then good_mac name else good_host name.

Lemma chars_all_avoids p q t : (forall c, p c = true -> q c = false) -> chars_all p t = true -> avoids q t = true.
Proof.
  unfold chars_all, avoids. rewrite !forallb_forall. intros Hpq Ht c Hc. by rewrite (Hpq c (Ht c Hc)).
Qed.

Lemma mac_shape_avoids g : forall t, ValidateProofs.mac_shape g t = true -> avoids (is_char " ") t = true.
Proof.
  assert (forall c, isxdigit c = true -> is_char " " c = false) as Hx by (by intros [[] [] [] [] [] [] [] []]).
  induction g as [|g IH]; intros [|a [|b t]]; try done; cbn [ValidateProofs.mac_shape];
    rewrite !andb_true_iff; intros [[Ha%Hx Hb%Hx] Ht]; rewrite !avoids_cons; (split; [done|split; [done|]]).
  - by destruct t.
  - destruct t as [|c t]; [done|]. apply andb_prop in Ht as [Hc Ht]. apply avoids_cons. split; [|by apply IH].
    by apply bool_decide_eq_true_1 in Hc as ->.
Qed.

(** The rows are words: none is empty or has a blank in it. *)
Lemma good_row_word i w : good_row i w -> w <> "" /\ avoids (is_char " ") w = true.
Proof.
  intros (e & ip & name & -> & He & Hip & Hname).
  assert (avoids (is_char " ") ip = true) as H1.
  { destruct Hip as [->|[Hd _]]; [done|]. revert Hd. apply chars_all_avoids. by intros [[] [] [] [] [] [] [] []]. }
  assert (avoids (is_char " ") name = true) as H2.
  { destruct (i <? 10)%nat, Hname as [->|[Hn _]]; try done.
    - rewrite ValidateProofs.hwaddr_iff in Hn. by eapply mac_shape_avoids.
    - revert Hn. apply (chars_all_avoids host_char). by intros [[] [] [] [] [] [] [] []]. }
  split; [destruct He as [-> | ->]; by vm_compute|]. rewrite !avoids_app, H1, H2.
  by destruct He as [-> | ->].
Qed.

Lemma colons_length src : strlen src = 12 -> strlen (with_colons src) = 17.
Proof.
  unfold strlen. intros Hs. do 12 (destruct src as [|? src]; cbn [String.length] in Hs; [lia|]).
  destruct src; [done|cbn in Hs; lia].
Qed.

Lemma mac_value_ok src p : good_mac (change_mac_value src p).1 /\ nv (change_mac_value src p).2 = nv p.
Proof.
  unfold change_mac_value, good_mac. destruct (_ || _ || _); [by split; [left|]|].
  unfold valid_hwaddr, tested. set (dst := if strlen src =? 12 then _ else _).
  assert (dst = "" \/ strlen dst = 17) as Hd.
  { unfold dst. destruct (Z.eqb_spec (strlen src) 12); [right; by apply colons_length|].
    destruct (Z.eqb_spec (strlen src) 17); [by right|by left]. }
  destruct (bool_decide_reflect (dst = "NOT_IMPLEMENTED")) as [E|E]; cbn [orb].
  { exfalso. rewrite E in Hd. by destruct Hd. }
  destruct (legal_hwaddr dst) eqn:El; (split; [|done]); cbn [fst]; [|by left]. destruct Hd as [->|Hd]; [by left|by right].
Qed.

Lemma trim_length t : strlen (trim t) <= strlen t.
Proof.
  unfold strlen. induction t as [|c t IH]; [done|]. cbn [trim String.length]. destruct (trim t); [destruct (is_char " " c)|]; cbn [String.length] in *; lia.
Qed.

Lemma some_letter (l : list ascii) : (length (filter (fun c => in_range 48 57 c = true) l) < length l)%nat ->
  exists c, c ∈ l /\ in_range 48 57 c = false.
Proof.
  induction l as [|c l IH]; cbn [length]; [lia|]. rewrite filter_cons. destruct (in_range 48 57 c) eqn:E.
  - rewrite decide_True by done. cbn [length]. intros Hl. destruct IH as (c' & ? & ?); [lia|]. exists c'. split; [by right|done].
  - exists c. split; [by left|done].
Qed.

Lemma list_ascii_length t : length (String.list_ascii_of_string t) = String.length t.
Proof. induction t as [|c t IH]; [done|]. cbn. by rewrite IH. Qed.

Lemma host_name_ok v : exists t, host_name (Some v) = Ret t /\ good_host t /\ strlen t <= strlen v.
Proof.
  unfold host_name. cbn [deref mbind outcome_bind]. eexists. split; [done|]. unfold good_host.
  pose proof (strlen_nonneg v). pose proof (trim_length v).
  destruct (forallb host_char _) eqn:Ef; cbn [Z.eqb orb]; [|by split; [left|]].
  destruct (Z.eqb_spec (Z.of_nat (length (filter (fun c => in_range 48 57 c = true) (String.list_ascii_of_string (trim v))))) (-1)); [lia|].
  destruct (Z.leb_spec (strlen (trim v)) (Z.of_nat (length (filter (fun c => in_range 48 57 c = true) (String.list_ascii_of_string (trim v))))));
    cbn [orb]; [by split; [left|]|]. split; [|done].
  right. split; [done|]. apply some_letter. rewrite list_ascii_length. unfold strlen in *. lia.
Qed.

(** A form the page sends: every host field is there, the fields of addresses are
    empty or hold up to three digits, and no text is longer than the page allows. *)
Definition ip_field (t : string) : Prop := chars_all isdigit t = true /\ strlen t <= 3.
Definition page_form (form : gmap string string) : Prop :=
  (forall i, 0 <= i < 10 -> exists v, websGetVar form ("dhcp_host" +:+ dec i) = Some v /\ strlen v <= 63) /\
  (forall i, 0 <= i < 10 -> ip_field (default "0" (websGetVar form ("dhcp_mac_ip" +:+ dec i))) /\
                            ip_field (default "0" (websGetVar form ("dhcp_host_ip" +:+ dec i)))) /\
  strlen (default "10" (websGetVar form "share_wanip_lease")) <= 100.

Section Reserved.
Context `{Driver} (form : gmap string string) (Hform : page_form form).

(** The text so far. *)
Definition rows_of (n : nat) (buf : string) : Prop :=
  exists ws, buf = text_of ws /\ length ws = n /\ (forall i w, ws !! i = Some w -> good_row i w) /\
    strlen buf <= (if (n <=? 10)%nat then 24 * Z.of_nat n else 240 + 71 * (Z.of_nat n - 10)) /\ (buf = "" <-> n = 0%nat).

Lemma rows_extend n buf e ip name : (n < 20)%nat -> rows_of n buf -> e = 0 \/ e = 1 -> last_byte ip -> strlen ip <= 3 ->
  (if (n <? 10)%nat then good_mac name /\ strlen name <= 17 else good_host name /\ strlen name <= 63) ->
  let t := buf +:+ (if Z.of_nat n =? 0 then "" else " ") +:+ dec e +:+ ":" +:+ ip +:+ ":" +:+ name in
  strlen t < 1000 /\ rows_of (S n) t.
Proof.
  intros Hn (ws & -> & Hlen & Hws & Hb & Hne) He Hip Hl Hname t.
  set (w := dec e +:+ ":" +:+ ip +:+ ":" +:+ name).
  assert (t = text_of (ws ++ [w])) as Et.
  { rewrite text_of_snoc. unfold t. f_equal. f_equal. destruct (Z.eqb_spec (Z.of_nat n) 0), (bool_decide_reflect (text_of ws = "")); try done; exfalso; lia || (apply Hne in e0; lia) || (apply n0, Hne; lia). }
  assert (strlen (dec e) = 1) as Hde by (by destruct He as [-> | ->]).
  assert (good_row n w) as Hg.
  { exists e, ip, name. split; [done|]. split; [done|]. split; [done|]. by destruct (n <? 10)%nat; apply Hname. }
  assert (strlen t <= (if (S n <=? 10)%nat then 24 * Z.of_nat (S n) else 240 + 71 * (Z.of_nat (S n) - 10))) as Ht.
  { unfold t. rewrite !strlen_app, Hde. change (strlen ":") with 1.
    assert (strlen (if Z.of_nat n =? 0 then "" else " ") <= 1) by (by destruct (_ =? 0)).
    destruct (Nat.ltb_spec n 10), (Nat.leb_spec n 10), (Nat.leb_spec (S n) 10); lia. }
  split; [destruct (Nat.leb_spec (S n) 10); lia|]. exists (ws ++ [w]). split; [done|]. split; [rewrite length_app; cbn; lia|]. split.
  - intros i x [Hi|[Hi Hx]]%lookup_app_Some; [by apply Hws|]. destruct (i - length ws)%nat as [|k] eqn:E; [|done].
    injection Hx as <-. by replace i with n by lia.
  - split; [done|]. split; [|done]. intros E. apply (f_equal strlen) in E. unfold t in E. rewrite !strlen_app, Hde in E.
    change (strlen "") with 0 in E. change (strlen ":") with 1 in E. pose proof (strlen_nonneg (text_of ws)). pose proof (strlen_nonneg ip).
    pose proof (strlen_nonneg name). pose proof (strlen_nonneg (if Z.of_nat n =? 0 then "" else " ")). lia.
Qed.

Lemma short_ip x : ip_field x -> let ip := if (0 <=? atoi x) && (atoi x <=? 254) then x else "" in
  last_byte ip /\ strlen ip <= 3.
Proof.
  intros [Hd Hx]. cbv zeta. unfold last_byte. destruct (Z.leb_spec 0 (atoi x)); cbn [andb]; [|by split; [left|]].
  destruct (Z.leb_spec (atoi x) 254); [|by split; [left|]]. split; [right; split; [done|lia]|done].
Qed.

Lemma mac_short t : good_mac t -> strlen t <= 17.
Proof. intros [->|[_ ->]]; [by vm_compute|lia]. Qed.

Lemma row_ok n buf p : (n < 20)%nat -> rows_of n buf -> exists buf' p', reserved_row form (Z.of_nat n) (buf, p) = Ret (buf', p') /\
  strlen buf' < 1000 /\ rows_of (S n) buf' /\ nv p' = nv p.
Proof.
  intros Hn Hr. destruct Hform as (Hhost & Hip & _). unfold reserved_row, MAX_DHCP_RESERVED_IP. cbv zeta.
  set (e := if bool_decide _ then 0 else 1). assert (e = 0 \/ e = 1) as He by (unfold e; destruct (bool_decide _); tauto). clearbody e.
  destruct (Z.ltb_spec (Z.of_nat n) 10) as [H10|H10].
  - destruct (Hip (Z.of_nat n) ltac:(lia)) as [[Hg Hl]%short_ip _]. cbv zeta in Hg, Hl. change ("_ip" +:+ ?x) with ("_ip" +:+ x).
    destruct (mac_value_ok (default "" (websGetVar form ("dhcp_" +:+ "mac" +:+ dec (Z.of_nat n)))) p) as [Hm Hnv].
    destruct (change_mac_value _ p) as [t p'] eqn:Ec. cbn [fst snd] in *. cbn [mbind outcome_bind].
    edestruct (rows_extend n buf e _ t Hn Hr He Hg Hl) as [Hlt Hrows].
    { rewrite (proj2 (Nat.ltb_lt _ _)) by lia. split; [done|by apply mac_short]. }
    unfold fit at 1. rewrite (proj2 (Z.leb_gt _ _)) by (cbv zeta in Hlt; etrans; [exact Hlt|lia]). cbn [mbind outcome_bind].
    eexists _, p'. split; [done|]. split; [exact Hlt|]. by split.
  - destruct (Hip (Z.of_nat n - 10) ltac:(lia)) as [_ [Hg Hl]%short_ip]. cbv zeta in Hg, Hl.
    destruct (Hhost (Z.of_nat n - 10) ltac:(lia)) as (v & Hv & Hvl). change ("dhcp_" +:+ "host" +:+ ?x) with ("dhcp_host" +:+ x). rewrite Hv.
    destruct (host_name_ok v) as (t & -> & Hm & Ht). cbn [mbind outcome_bind]. unfold fit at 2.
    rewrite (proj2 (Z.leb_gt 80 _)) by lia. cbn [mbind outcome_bind].
    edestruct (rows_extend n buf e _ t Hn Hr He Hg Hl) as [Hlt Hrows].
    { rewrite (proj2 (Nat.ltb_ge _ _)) by lia. split; [done|lia]. }
    unfold fit at 1. rewrite (proj2 (Z.leb_gt _ _)) by (cbv zeta in Hlt; etrans; [exact Hlt|lia]). cbn [mbind outcome_bind].
    eexists _, p. split; [done|]. split; [exact Hlt|]. by split.
Qed.

Lemma all_rows m : forall n buf p, (n + m = 20)%nat -> rows_of n buf ->
  exists buf' p', Forward.turns (reserved_row form) (seqZ (Z.of_nat n) (Z.of_nat m)) (buf, p) = Ret (buf', p') /\
    rows_of 20 buf' /\ nv p' = nv p.
Proof.
  induction m as [|m IH]; intros n buf p Hn Hr.
  { exists buf, p. by replace 20%nat with n by lia. }
  rewrite seqZ_cons by lia. replace (Z.pred (Z.of_nat (S m))) with (Z.of_nat m) by lia.
  replace (Z.succ (Z.of_nat n)) with (Z.of_nat (S n)) by lia.
  destruct (row_ok n buf p ltac:(lia) Hr) as (b1 & p1 & E1 & _ & Hr1 & Ep1). cbn [Forward.turns]. rewrite E1. cbn [mbind outcome_bind].
  destruct (IH (S n) b1 p1 ltac:(lia) Hr1) as (b2 & p2 & E2 & Hr2 & Ep2). exists b2, p2. split; [done|]. split; [done|]. by rewrite Ep2.
Qed.

(** C34. Reserved addresses: for a form as the page sends it (the host fields there
    and of at most 63 characters, the fields of addresses empty or up to three
    digits, a lease text of at most 100), and when the variable can be stored, the
    validator returns, and the variable holds twenty words, not empty and without
    blanks: ten for hardware addresses and ten for host names, each with its
    switch, the last byte of an address (digits, 0 to 254) or nothing, and a
    well-formed hardware address, a host name with a character that is no digit,
    or nothing. (A field of an address that is no number injects words, see
    [reserved_ip_injects].) *)
Theorem reserved_addresses_kept p : storable "dhcp_reserved_ip" (nv p) -> exists p' ws,
  validate_dhcp_reservedIp form p = Ret p' /\
  table (nv p') !! "dhcp_reserved_ip" = Some (text_of ws) /\ length ws = 20%nat /\
  forall i w, ws !! i = Some w -> (w <> "" /\ avoids (is_char " ") w = true) /\ good_row i w.
Proof.
  intros Hst. destruct (all_rows 20 0 "" p eq_refl) as (buf & p1 & E & (ws & -> & Hlen & Hws & Hb & _) & Hp1).
  { by exists []. }
  unfold validate_dhcp_reservedIp. change (Z.of_nat 0) with 0 in E. change (Z.of_nat 20) with (MAX_DHCP_RESERVED_IP * 2) in E.
  rewrite E. cbn [mbind outcome_bind]. cbn [Nat.leb] in Hb.
  assert (Forall (fun n => n <> "dhcp_reserved_ip" /\ unmirrored n) ["share_wanip_content"; "dmz_enable"]) as Hn.
  { unfold unmirrored, Lib.nvram_converts. by repeat constructor. }
  rewrite save_inserts by ((by rewrite Hp1) || lia || (unfold unmirrored, Lib.nvram_converts; by repeat constructor)).
  set (p2 := mk_page _ _). destruct (mac_value_ok (default "" (websGetVar form "dhcp_mac10")) p2) as [Hm Hp3].
  destruct (change_mac_value _ p2) as [mac p3]. cbn [fst snd] in *. cbv zeta.
  set (content := mac +:+ _). assert (strlen content < 1024) as Hc.
  { unfold content. rewrite !strlen_app. apply mac_short in Hm. change (strlen "$") with 1. destruct Hform as (_ & _ & Hl).
    pose proof (dec_length (atoi (default "" (websGetVar form "share_wanip_if")))). lia. }
  unfold fit. rewrite (proj2 (Z.leb_gt _ _)) by done. cbn [mbind outcome_bind]. eexists _, ws. split; [done|].
  apply Forall_cons_1 in Hn as [[Hn1 Hu1] Hn]. apply Forall_cons_1 in Hn as [[Hn2 Hu2] _].
  assert (table (nv (save "share_wanip_content" content p3)) !! "dhcp_reserved_ip" = Some (text_of ws)) as Ht.
  { rewrite ApplyProofs.save_other, Hp3 by done. unfold p2. cbn [nv table]. apply lookup_insert_eq. }
  split; [|split; [done|eauto using good_row_word]]. destruct (_ =? 1); [|done]. by rewrite ApplyProofs.save_other.
Qed.
End Reserved.

(** ** Runs *)

Import DhcpLeasesProofs.DemoServer(mac, ip, state).

Module DemoLeasePages.
#[export] Instance driver : Driver := {| unlocked _ _ := true; room _ _ _ := true |}.
Definition marks_text : string := "192.168.1.100" +:+ Pages.lf +:+ "192.168.1.103" +:+ Pages.lf.
Definition after_marks : Env :=
  {| arpping _ t := (1, t + 2); send_result _ := 1; file_contents _ := Some marks_text;
     can_write _ := true; DhcpLeases.Leases.nvram_get _ := None; gethostbyname _ := None |}.
Definition marks_form : gmap string string := {["d_0" := "100"; "d_7" := "103"]}.
Definition lan_page : page := mk_page (mk_vars {["lan_ipaddr" := "192.168.1.1"; "lan_proto" := "dhcp"]} "") false.
Definition server0 : server := state (ip 192 168 1 100) DemoServer.table.

Definition hosts : list (string * string) :=
  (fun i => ("dhcp_host" +:+ dec i, if i =? 0 then "printer1  " else "")) <$> seqZ 0 10.
Definition reserved_form : gmap string string :=
  <["dhcp_mac0" := "001122334455"]> (<["dhcp_mac_ip0" := "5"]> (<["dhcp_mac_enable0" := "1"]> (list_to_map hosts))).

Lemma reserved_page_form : page_form reserved_form.
Proof.
  split; [|split]; [| |by vm_compute].
  - intros i Hi. assert (exists n, i = Z.of_nat n /\ (n < 10)%nat) as (n & -> & Hn) by (exists (Z.to_nat i); lia).
    do 10 (destruct n as [|n]; [eexists; split; [vm_compute; reflexivity|by vm_compute]|]). lia.
  - intros i Hi. assert (exists n, i = Z.of_nat n /\ (n < 10)%nat) as (n & -> & Hn) by (exists (Z.to_nat i); lia).
    do 10 (destruct n as [|n]; [by vm_compute|]). lia.
Qed.
End DemoLeasePages.
Import DemoLeasePages.

Lemma delete_reaches_server_witness : exists p', delete_leases marks_form true lan_page =
    Ret (0, p', [Apply.Remove_file DELETE_FILE; Apply.Write_file DELETE_FILE marks_text; killall SIGUSR2 "udhcpd"]) /\
  @Files.delete_leases after_marks 0 server0 =
    Ret (with_leases (zero_lease :: tail DemoServer.table) server0).
Proof.
  destruct (@delete_reaches_server after_marks marks_form lan_page (ip 192 168 1 1) [100; 103] server0 0) as (p' & text & E & _ & Hs).
  - vm_compute. reflexivity.
  - by vm_compute.
  - split; [vm_compute; reflexivity|]. apply all_u8_ok. reflexivity.
  - assert (text = marks_text) as ->.
    { vm_compute in E. injection E as _ E. symmetry. vm_compute. exact E. }
    exists p'. split; [exact E|]. etrans; [exact (Hs eq_refl)|]. vm_compute. reflexivity.
Defined.

Lemma leases_shown_witness : exists t, ej_dumpleases (Some (concat (Files.lease_record server0 <$> leases server0))) =
  Ret ([killall SIGUSR1 "udhcpd"], t) /\
  t = Ej.chars (" '&nbsp;','192.168.1.100','00:11:22:33:44:01','01:06:40','100'" +:+ Pages.lf).
Proof.
  destruct (leases_shown server0) as [E _].
  - by vm_compute.
  - by vm_compute.
  - repeat apply Forall_cons_2; try apply Forall_nil_2; (split; [by vm_compute|split; [apply all_u8_ok; reflexivity|]]);
      apply list_elem_of_here.
  - eexists. split; [exact E|]. vm_compute. reflexivity.
Defined.

Lemma reserved_addresses_kept_witness : exists p' ws, validate_dhcp_reservedIp reserved_form lan_page = Ret p' /\
  table (nv p') !! "dhcp_reserved_ip" = Some (text_of ws) /\ length ws = 20%nat /\
  forall i w, ws !! i = Some w -> good_row i w.
Proof.
  destruct (reserved_addresses_kept reserved_form reserved_page_form lan_page) as (p' & ws & E & Et & Hl & Hw).
  - split; done.
  - exists p', ws. split; [exact E|split; [exact Et|split; [exact Hl|]]]. intros i w Hi. apply (Hw i w Hi).
Defined.

(** ** Behaviour that is not intended *)

(** A full hour, minute or day counts as the next smaller unit. *)
Lemma full_hour : expires_text 3600 = "00:60:00" /\ expires_text 60 = "00:00:60" /\ expires_text 86400 = "24:00:00".
Proof. split_and!; vm_compute; reflexivity. Qed.

(** A host name is written into the script of the page as the client sent it. *)
Definition evil_lease : dhcpOfferedAddr :=
  Lease (mac 1) (ip 192 168 1 100) (htonl 100) (bytes_of "'+alert(1)+'" ++ replicate 52 0).
Lemma host_name_is_script : exists e t, ej_dumpleases (Some (Files.lease_bytes evil_lease)) = Ret (e, t) /\
  take 17 t = Ej.chars " ''+alert(1)+'','".
Proof. eexists _, _. split; vm_compute; reflexivity. Qed.

(** A form without the fields of the host names writes to a constant. *)
Lemma missing_host_faults : validate_dhcp_reservedIp ∅ lan_page = Fault.
Proof. vm_compute. reflexivity. Qed.

(** The field of an address is stored as it is when it starts with a number in the
    range: with blanks it makes a reservation of its own. *)
Lemma reserved_ip_injects : exists p' w,
  validate_dhcp_reservedIp (<["dhcp_mac_ip0" := "5: 1:9:AA:BB:CC:DD:EE:FF"]> reserved_form) lan_page = Ret p' /\
  table (nv p') !! "dhcp_reserved_ip" = Some ("1:5: 1:9:AA:BB:CC:DD:EE:FF:00:11:22:33:44:55 " +:+ w).
Proof. eexists _, _. split; vm_compute; reflexivity. Qed.
End LeasePagesProofs.
